(* ===== verification/_CoqProject ===== *)
-Q . S2P
Prelude.v
Fips180.v
CheckedArithmetic.v
MemoryCap.v
HostAdmission.v
GpuTelemetry.v
SupervisorAdmission.v
PreAdmission.v
PostAdmission.v
AdmissionToken.v
Watchdog.v
GpuLease.v
NativeWorker.v
AdmissionSession.v
CommandLine.v
NativeProtocol.v
NativeRun.v
NativeLaunch.v
SupervisedRun.v
Sha256.v
FlatJson.v
ModelSidecar.v
Doubles.v
KernelManifest.v
TransferMetrics.v
Policies.v
KvCache.v
QuantizedKernels.v
AtomicFile.v
C2Receipt.v
Config.v
WindowsEvidence.v
C2Supervisor.v
NumberText.v
Telemetry.v
Lifecycle.v
Backends.v
LlamaBackend.v
Probe.v
ManifestWriter.v
KernelText.v
Tools.v
WorkerFiles.v
