(* ===== verification/Prelude.v ===== *)
(** * PrismInfer: a verification development

    PrismInfer supervises GPU work on memory-constrained Windows systems: it
    admits a run against live telemetry before and after the GPU context
    exists, runs the worker in a contained process that it watches and cancels,
    gives the adapter back only after a complete cleanup, and writes evidence
    that nobody can promote by accident.  This library models its C++ code
    (under [src/src], [src/include/prisminfer] and [src/tools]) as executable
    Rocq functions and proves what makes it correct.

    ** The parts and how they interact

    - Arithmetic and caps.  [CheckedArithmetic] is
      [governor/checked_arithmetic.cpp]; [MemoryCap] the GPU cap policy, the cap
      certification and the capped allocator ([governor/gpu_cap_policy.cpp],
      [memory_cap.cpp], [allocator_tracker.cpp]), refined to a ledger over
      unbounded integers.
    - Telemetry.  [HostAdmission] samples the host and decides host admission
      ([host_memory_tracker.cpp], [host_admission.cpp]); [GpuTelemetry] the
      thermal sampler and the process-memory evidence ([gpu_thermal.cpp], part of
      [telemetry/windows_evidence.cpp]); [WindowsEvidence] the DXGI,
      performance-counter, NVML and file samplers and the classification of an
      evidence bundle (the rest of that file).
    - Admission.  [SupervisorAdmission] holds both stages of
      [supervisor_admission.cpp]; [PreAdmission] and [PostAdmission] their
      abstract rules and proofs; [AdmissionToken] the single-use tokens
      ([admission_token.cpp]); [Watchdog] is [supervisor_watchdog.cpp].
    - The session.  [GpuLease] is the exclusive lease of an adapter
      ([exclusive_gpu_lease.cpp]); [AdmissionSession] the state machine of
      [gpu_admission_session.cpp], which owns a lease, takes both admissions,
      delivers one token, watches, cancels and cleans up.
    - The runner ([runtime/native_worker.cpp]).  [NativeWorker] has its types and
      the interface [ProtocolSupervisor] it calls; [CommandLine] the quoting of
      arguments; [NativeProtocol] the line protocol and its timeouts;
      [NativeRun] the supervision loop, accounting and result; [NativeLaunch]
      the checks and the creation of the process; [SupervisedRun] makes the
      session an instance of the interface and composes both state machines;
      [WorkerFiles] the hash of an open file, the environment block and the
      output file of a worker.
    - Evidence.  [Sha256], [FlatJson] and [AtomicFile] are the digest, the JSON
      reader and the atomic publication ([benchmark/sha256.cpp],
      [flat_json.cpp], [atomic_file.cpp]); [Fips180] transcribes the hash
      function from the standard, apart from the code, for [Sha256] to be
      compared with; [KernelManifest] the benchmark
      manifests, their evidence gate and comparison, and [KernelText] their
      text; [TransferMetrics] the transfer events; [C2Receipt] the clearance
      receipt ([validation/c2_clearance_receipt.cpp]); [ModelSidecar] the sidecar
      of a model ([validation/model_sidecar.cpp]).
    - Files of a run.  [NumberText] prints numbers as the streams do;
      [Telemetry] is the event writer ([telemetry/telemetry_jsonl.cpp]);
      [Lifecycle] the check of the order of events and [ManifestWriter] the
      manifest of a probe, field by field ([benchmark/manifest_writer.cpp]).
    - Backends.  [Backends] has the null and fake backends and the CUDA context
      probe over the answers of the driver; [LlamaBackend] is
      [backend/llama_backend.cpp], which approves an executable and a model,
      calls the native runner and reads its output.
    - Policies and data.  [Policies] the claim, usability, profitability,
      quality and compression policies, the planners and the evidence bundle;
      [KvCache] the KV cache and memory ledgers; [QuantizedKernels] the CPU
      references of the quantised kernels; [Doubles] binary64 comparison and
      arithmetic for them; [Config] the command line of a probe
      ([config.cpp]).
    - The programs.  [Probe] is [tools/prism-probe/main.cpp]: stages over the
      state of a run, each of which goes on or ends it, from the configuration to
      the telemetry, the manifest and the exit code.  [Tools] has the smaller
      tools.  [C2Supervisor] is [tools/prism-c2-supervisor/main.cpp] with
      [validation/c2_case_policy.cpp], where samplers, session, runner, receipt
      and files meet.

    This file has the machine integers, the generic lemmas, the class of
    overflow-checked additions and the automation for guard cascades.

    ** How code becomes definitions

    An unsigned integer is a [Z] with its wrap-around written out ([+64], [-64],
    [wrap32]); range predicates ([u64], [u32]) are hypotheses where a theorem
    needs them.  Structs are records, enums inductive types with a constructor
    for values outside the enumeration, error returns sums or options.  State is
    passed explicitly; process-wide state (the lease registry, the receipt
    store, the issuer sequence) is part of the state.  A class operation that
    runs under a mutex is one atomic step; interleavings are lists of steps.
    Atomics that may be raced are separate steps ([AdmissionToken]).  Calls of
    the operating system, CUDA, NVML and the clock are records of their answers,
    arbitrary unless a theorem says otherwise; the file system of [AtomicFile]
    is explicit, with a function for what other processes do to it.

    Loops are structural: the reads, callbacks, lines or iterations that occurred
    are lists, so no fuel bounds a result.  A pipe is the list of the answers its
    read loop gets, and a list that runs out before the loop returns gives [None]:
    the supervisor, and everything after it, has then not returned.  Where the
    source loops on a condition the measure is proved, or its absence:
    [NativeRun.supervision_loop_termination] says when the supervision loop
    returns (the output limit bounds one drain, the deadline the loop) and that a
    control pipe which always has bytes holds it for ever.  The normalisation of a half-precision
    mantissa takes at most ten steps, enough for every 10-bit mantissa
    ([QuantizedKernels], checked on all patterns), and the JSON parser's fuel is
    the length of its text, which every step shortens ([FlatJson]).

    ** What the theorems show

    - Admission is exact: host admission, both supervisor stages, the watchdog,
      cap certification and the Windows classification decide by their abstract
      rules over unbounded integers, so no overflow, wrap-around or stale sample
      changes a decision; the second stage only tightens the first.
    - Authority is spent once: at most one token per receipt, one grant per
      session, one consumption however calls interleave; a heartbeat is allowed
      only on watchdog-approved evidence; cancellation and timeouts are bounded.
    - The adapter is safe: every operation of the session is a step of the
      documented state machine, leases are exclusive and quarantine permanent,
      and the lease stays registered unless a complete cleanup ended the run --
      for the session alone, for the session with the native runner, and for the
      whole supervisor program.
    - The runner is faithful: only executables run that were opened at the
      request's path, in the root of their approval, with its digest; the
      protocol's calls come in order whatever the worker sends and however its
      output is cut into reads; a result that reports an exit rests on the
      iteration of its own loop, or on the termination after it, that saw the job
      empty; and command lines read back exactly.
    - Evidence is honest: the streaming digest is the SHA-256 of [Fips180], a
      trusted digest is that of a real file below a real root, text that is
      printed parses back, publication neither replaces nor rewrites a file (as
      long as others leave its new files alone), accepted receipts are typed and
      carry the digests of their own fields, measured manifests come from
      completed runs, and the supervisor reports success only for a case that kept
      its contract.
    - Data is computed right: the decoders of quantised blocks equal their
      references, half precision is widened exactly, configurations stay within
      their types and the usage text matches the parser.
    - The programs keep their contracts: the probe succeeds only after every gate
      of its stages, judged on its configuration (the quality and compression
      gates only when it accounts its cache), and with the cap certified, names
      the stage that ended it otherwise, and leaves a telemetry file that the
      lifecycle check accepts (but for the one run it rejects) and a manifest
      whose lines tell what happened; a llama run used only what was approved; a model passes
      exactly with a sidecar that declares its digest; an emitted benchmark
      manifest was verified and its digest published first; a worker gets its
      listed environment and leaves no file that was not released.

    ** Not modelled

    The CUDA sources ([kernels/cuda/q4_decode_gemv.cu] and
    [tools/prism-c2-synthetic-worker/main.cu]) run on a device and call a library
    that is not part of the repository; to the runner the worker is arbitrary
    input.  The readings of the clock and their text
    ([telemetry/telemetry_clock.cpp]), the version and compiler texts of the
    build, pipes, job objects, threads, the driver and the file system calls are
    answers of the system, and so is the hash provider of Windows, whose
    documented law is the class [Sha256Law] of [WorkerFiles].  A number that is
    not one prints as [nan] whatever its sign. *)

From Stdlib Require Export ZArith Lia.
From Stdlib Require Import Ascii String.
From stdpp Require Export base tactics option list strings gmap.

#[export] Set Warnings "-notation-overridden,-clear-no-such-hyp,-level-tolerance".
#[export] Set Default Goal Selector "!".

Open Scope Z_scope.

(** ** Machine integers

    A [std::uint64_t], [std::uint32_t], [std::int32_t] or [std::size_t] is a
    [Z]; the predicates below say which integers the C++ type can hold and
    [wrap64]/[wrap32] are the results of unsigned arithmetic.  [std::size_t]
    is 64 bits wide on every platform the program supports. *)

Abbreviation u64_max := 18446744073709551615 (only parsing).
Abbreviation u32_max := 4294967295 (only parsing).

Definition u64 (x : Z) : Prop := 0 <= x <= u64_max.
Definition u32 (x : Z) : Prop := 0 <= x <= u32_max.
Definition i32 (x : Z) : Prop := -2147483648 <= x <= 2147483647.

Definition wrap64 (x : Z) : Z := x mod 18446744073709551616.
Definition wrap32 (x : Z) : Z := x mod 4294967296.

Declare Scope prism_scope.
Delimit Scope prism_scope with prism.

(** Unsigned 64-bit operators, as C++ evaluates them. *)
Notation "x +64 y" := (wrap64 (x + y)) (at level 50, left associativity) : prism_scope.
Notation "x -64 y" := (wrap64 (x - y)) (at level 50, left associativity) : prism_scope.
Notation "x *64 y" := (wrap64 (x * y)) (at level 40, left associativity) : prism_scope.
Notation "x +32 y" := (wrap32 (x + y)) (at level 50, left associativity) : prism_scope.

(** Comparison operators that C++ has and the Standard Library spells
    differently. *)
Notation "x =s y" := (String.eqb x y) (at level 70, no associativity) : prism_scope.
Notation "x <>s y" := (negb (String.eqb x y)) (at level 70, no associativity) : prism_scope.
Notation "x <>z y" := (negb (Z.eqb x y)) (at level 70, no associativity) : prism_scope.
Open Scope prism_scope.

Create HintDb prism.

Lemma wrap64_small x : u64 x -> wrap64 x = x.
Proof. unfold u64, wrap64. intros. apply Z.mod_small. lia. Qed.

Lemma wrap64_sub a b : u64 a -> u64 b -> b <= a -> wrap64 (a - b) = a - b.
Proof. unfold u64. intros. apply wrap64_small. unfold u64. lia. Qed.

Lemma wrap64_range x : u64 (wrap64 x).
Proof. unfold u64, wrap64. pose proof (Z.mod_pos_bound x 18446744073709551616). lia. Qed.

Lemma wrap32_small x : u32 x -> wrap32 x = x.
Proof. unfold u32, wrap32. intros. apply Z.mod_small. lia. Qed.

Lemma wrap32_range x : u32 (wrap32 x).
Proof. unfold u32, wrap32. pose proof (Z.mod_pos_bound x 4294967296). lia. Qed.

Lemma u32_u64 x : u32 x -> u64 x.
Proof. unfold u32, u64. lia. Qed.

#[export] Hint Resolve wrap64_range wrap32_range u32_u64 : prism.

(** ** Strings *)

(** [std::string::empty]. *)
Definition str_empty (s : string) : bool := s =s "".

Lemma str_empty_true s : str_empty s = true <-> s = ""%string.
Proof. apply String.eqb_eq. Qed.

Lemma str_empty_false s : str_empty s = false <-> s <> ""%string.
Proof. apply String.eqb_neq. Qed.

(** The value of a [char] read as [unsigned char]. *)
Definition char_code (c : ascii) : Z := Z.of_N (N_of_ascii c).

Lemma char_code_range c : 0 <= char_code c < 256.
Proof.
  unfold char_code. pose proof (N_ascii_bounded c). lia.
Qed.

(** [std::all_of] over the characters of a string. *)
Definition all_chars (p : ascii -> bool) (s : string) : bool :=
  forallb p (list_ascii_of_string s).

Definition in_range (lo hi : Z) (c : ascii) : bool :=
  (lo <=? char_code c) && (char_code c <=? hi).

(** ['0'..'9'] and ['a'..'f'], the alphabet of the lower-case hex digests. *)
Definition is_lower_hex (c : ascii) : bool := in_range 48 57 c || in_range 97 102 c.

(** [std::isspace] and [std::isdigit] in the C locale. *)
Definition is_space (c : ascii) : bool := in_range 9 13 c || (char_code c =? 32).

Definition is_digit (c : ascii) : bool := in_range 48 57 c.

(** The longest prefix that satisfies [p], and the rest. *)
Fixpoint span (p : ascii -> bool) (l : list ascii) : list ascii * list ascii :=
  match l with
  | [] => ([], [])
  | c :: l' => if p c then let (a, b) := span p l' in (c :: a, b) else ([], l)
  end.

Definition skip_space (l : list ascii) : list ascii := (span is_space l).2.

(** The value of a string of decimal digits. *)
Definition decimal (digits : list ascii) : Z :=
  fold_left (fun acc c => acc * 10 + (char_code c - 48)) digits 0.

Lemma span_forall p l : Forall (fun c => p c = true) (span p l).1.
Proof.
  induction l as [|c l IH]; cbn; [done|]. destruct (p c) eqn:Hc; [|done].
  destruct (span p l) as [a b]. by constructor.
Qed.

Lemma span_app p l : (span p l).1 ++ (span p l).2 = l.
Proof.
  induction l as [|c l IH]; cbn; [done|]. destruct (p c); [|done].
  destruct (span p l) as [a b]. cbn in *. by rewrite IH.
Qed.

Lemma forallb_Forall {A} (p : A -> bool) l : forallb p l = true <-> Forall (fun x => p x = true) l.
Proof.
  induction l as [|x l IH]; cbn; [split; constructor|]. rewrite andb_true_iff, IH.
  split; [intros []; by constructor|by inversion 1].
Qed.

(** [std::to_string] of an unsigned value. *)
Fixpoint to_digits (fuel : nat) (n : Z) (acc : list ascii) : list ascii :=
  match fuel with
  | O => acc
  | S fuel => let acc := ascii_of_N (Z.to_N (48 + n mod 10)) :: acc in
              if n / 10 =? 0 then acc else to_digits fuel (n / 10) acc
  end.

(** 20 digits hold every 64-bit value. *)
Definition to_string (n : Z) : list ascii := to_digits 20 n [].

Lemma digit_char d : 0 <= d < 10 ->
  is_digit (ascii_of_N (Z.to_N (48 + d))) = true /\ char_code (ascii_of_N (Z.to_N (48 + d))) = 48 + d.
Proof.
  intros H. assert (Hc : char_code (ascii_of_N (Z.to_N (48 + d))) = 48 + d).
  { unfold char_code. rewrite N_ascii_embedding by lia. lia. }
  split; [|done]. unfold is_digit, in_range. rewrite Hc. apply andb_true_iff. lia.
Qed.

Lemma decimal_cons_gen l acc :
  fold_left (fun acc c => acc * 10 + (char_code c - 48)) l acc = acc * 10 ^ Z.of_nat (List.length l) + decimal l.
Proof.
  unfold decimal. revert acc. induction l as [|c l IH]; intros acc; [cbn; lia|].
  cbn [fold_left List.length]. rewrite IH, (IH (0 * 10 + _)). rewrite Nat2Z.inj_succ, Z.pow_succ_r by lia. ring.
Qed.

Lemma decimal_cons c l : decimal (c :: l) = (char_code c - 48) * 10 ^ Z.of_nat (List.length l) + decimal l.
Proof. unfold decimal at 1. cbn [fold_left]. rewrite decimal_cons_gen. f_equal. Qed.

Lemma to_digits_spec fuel n acc :
  0 <= n < 10 ^ Z.of_nat (S fuel) -> Forall (fun c => is_digit c = true) acc ->
  Forall (fun c => is_digit c = true) (to_digits (S fuel) n acc) /\ to_digits (S fuel) n acc <> [] /\
  decimal (to_digits (S fuel) n acc) = n * 10 ^ Z.of_nat (List.length acc) + decimal acc.
Proof.
  revert n acc; induction fuel as [|fuel IH]; intros n acc Hn Hacc;
    set (c := ascii_of_N (Z.to_N (48 + n mod 10)));
    destruct (digit_char (n mod 10) ltac:(apply Z.mod_pos_bound; lia)) as [Hd Hc]; fold c in Hd, Hc;
    pose proof (Z.div_mod n 10 ltac:(lia)) as Hdm.
  - change (to_digits 1 n acc) with (if n / 10 =? 0 then c :: acc else c :: acc).
    cbn in Hn. assert (Hz : n / 10 = 0) by (apply Z.div_small; lia). rewrite Hz. cbn [Z.eqb].
    split; [by constructor|]. split; [done|]. rewrite decimal_cons, Hc. rewrite Hz in Hdm. nia.
  - change (to_digits (S (S fuel)) n acc)
      with (if n / 10 =? 0 then c :: acc else to_digits (S fuel) (n / 10) (c :: acc)).
    destruct (Z.eqb_spec (n / 10) 0) as [Hz|Hz].
    + split; [by constructor|]. split; [done|]. rewrite decimal_cons, Hc. rewrite Hz in Hdm. nia.
    + destruct (IH (n / 10) (c :: acc)) as (H1 & H2 & H3); [|by constructor|].
      { rewrite Nat2Z.inj_succ, Z.pow_succ_r in Hn by lia. split; [apply Z.div_pos; lia|].
        apply Z.div_lt_upper_bound; lia. }
      split; [done|]. split; [done|]. rewrite H3, decimal_cons, Hc. cbn [List.length].
      rewrite Nat2Z.inj_succ, Z.pow_succ_r by lia. nia.
Qed.

(** Printing a 64-bit number and reading its digits. *)
Lemma to_string_decimal n : u64 n ->
  Forall (fun c => is_digit c = true) (to_string n) /\ to_string n <> [] /\ decimal (to_string n) = n.
Proof.
  intros Hn. unfold u64 in Hn. unfold to_string.
  destruct (to_digits_spec 19 n []) as (H1 & H2 & H3); [cbn; lia|constructor|].
  split; [done|]. split; [done|]. rewrite H3. cbn. lia.
Qed.

(** *** Reading integers *)

(** The range of an integer type. *)
Definition Range : Type := Z * Z.
Definition u64_range : Range := (0, u64_max).
Definition u32_range : Range := (0, u32_max).
Definition i32_range : Range := (-2147483648, 2147483647).

Definition in_bounds (range : Range) (x : Z) : bool := (range.1 <=? x) && (x <=? range.2).

(** [std::from_chars] in base ten for a type with the given range: a minus sign
    only for a signed type, at least one digit, and an error on overflow. *)
Definition from_chars (range : Range) (text : list ascii) : option (Z * list ascii) :=
  let (negative, digits) :=
    match text with
    | ch :: rest => if Ascii.eqb ch "-"%char && (range.1 <? 0) then (true, rest) else (false, text)
    | [] => (false, text)
    end in
  let (digits, rest) := span is_digit digits in
  match digits with
  | [] => None
  | _ => let value := if negative : bool then - decimal digits else decimal digits in
         if in_bounds range value then Some (value, rest) else None
  end.

Lemma span_digits digits : Forall (fun c => is_digit c = true) digits -> span is_digit digits = (digits, []).
Proof. induction 1 as [|c l Hc _ IH]; [done|]. cbn. by rewrite Hc, IH. Qed.

Lemma from_chars_range range text x rest : from_chars range text = Some (x, rest) -> in_bounds range x = true.
Proof.
  unfold from_chars. destruct (match text with [] => _ | _ => _ end) as [negative digits].
  destruct (span is_digit digits) as [[|c l] rest']; [done|]. cbv zeta.
  match goal with |- context [if in_bounds range ?v then _ else _] => destruct (in_bounds range v) eqn:E end; [|done].
  by intros [= <- _].
Qed.

(** Lists compared componentwise, as the defaulted [operator==] of a C++
    struct or [std::array] does. *)
Fixpoint list_eqb (a b : list Z) : bool :=
  match a, b with
  | [], [] => true
  | x :: a', y :: b' => (x =? y) && list_eqb a' b'
  | _, _ => false
  end.

Lemma list_eqb_eq a b : list_eqb a b = true <-> a = b.
Proof.
  revert b; induction a as [|x a IH]; intros [|y b]; simpl; try done.
  rewrite andb_true_iff, IH, Z.eqb_eq. split; [intros [-> ->]|intros [= -> ->]]; done.
Qed.

(** ** Options *)

Lemma is_some_bool {A} (o : option A) :
  match o with Some _ => true | None => false end = true <-> exists x, o = Some x.
Proof. destruct o; split; try done; [eauto|intros [? [=]]]. Qed.

(** ** Errors

    A computation that fails with an error text, as the code that returns
    false and fills [*error] does. *)

#[export] Instance error_bind : MBind (sum string) := fun _ _ f m =>
  match m with inl e => inl e | inr x => f x end.

(** The next step runs only after the first one succeeded. *)
Lemma error_bind_inr {A B} (m : string + A) (f : A -> string + B) y :
  (m ≫= f) = inr y <-> exists x, m = inr x /\ f x = inr y.
Proof. destruct m; cbn; naive_solver. Qed.

(** A check and the checks after it. *)
Lemma seq_inr {A} (m : string + unit) (k : string + A) y : (_ ← m; k) = inr y <-> m = inr tt /\ k = inr y.
Proof. rewrite error_bind_inr. split; [by intros ([] & ? & ?)|intros []; by exists tt]. Qed.

(** [if (condition) return fail(error)]. *)
Definition refuse_if (condition : bool) (error : string) : string + unit :=
  if condition then inl error else inr tt.

Lemma refuse_if_inr condition error u : refuse_if condition error = inr u <-> condition = false.
Proof. destruct condition, u; cbn; naive_solver. Qed.

(** The checks of a list in order, up to the first failure. *)
Fixpoint check_all (check : string -> string + unit) (keys : list string) : string + unit :=
  match keys with
  | [] => inr tt
  | key :: keys => _ ← check key; check_all check keys
  end.

Lemma check_all_inr check keys u :
  check_all check keys = inr u <-> Forall (fun key => check key = inr tt) keys.
Proof.
  induction keys as [|key keys IH]; cbn.
  - destruct u. split; [constructor|done].
  - rewrite Forall_cons, <- IH. destruct (check key) as [e|[]]; cbn; naive_solver.
Qed.

(** ** Lists *)

(** Elements of a list without duplicate keys are determined by their key. *)
Lemma NoDup_key_inj {A B} (f : A -> B) (l : list A) x y :
  NoDup (f <$> l) -> x ∈ l -> y ∈ l -> f x = f y -> x = y.
Proof.
  intros Hnd (i & Hi)%list_elem_of_lookup_1 (j & Hj)%list_elem_of_lookup_1 Heq.
  assert (i = j) as ->; [|congruence].
  eapply (NoDup_lookup (f <$> l)); [done|rewrite list_lookup_fmap, Hi; done|].
  by rewrite list_lookup_fmap, Hj, Heq.
Qed.

(** ** Sums of unsigned quantities *)

Fixpoint sumZ (l : list Z) : Z :=
  match l with [] => 0 | x :: l' => x + sumZ l' end.

Lemma sumZ_nonneg l : Forall u64 l -> 0 <= sumZ l.
Proof. induction 1 as [|x l Hx _ IH]; simpl; unfold u64 in *; lia. Qed.

Lemma sumZ_app l1 l2 : sumZ (l1 ++ l2) = sumZ l1 + sumZ l2.
Proof. induction l1; simpl; lia. Qed.

Lemma sumZ_in_le l x : Forall u64 l -> x ∈ l -> x <= sumZ l.
Proof.
  induction 1 as [|y l Hy Hl IH]; [by intros ?%elem_of_nil|].
  pose proof (sumZ_nonneg _ Hl). unfold u64 in *. simpl.
  intros [->|Hx]%elem_of_cons; [lia|]. specialize (IH Hx). lia.
Qed.

(** The interface every overflow-checked addition of the program promises:
    the exact sum when it is representable, nothing otherwise.  Five
    translation units carry their own copy of it; each is an instance. *)
Class CheckedAdd (add : Z -> Z -> option Z) : Prop := {
  checked_add_spec a b : u64 a -> u64 b ->
    add a b = if a + b <=? u64_max then Some (a + b) else None
}.

Section CheckedSum.
Context (add : Z -> Z -> option Z) `{!CheckedAdd add}.

(** Left-to-right accumulation that stops at the first overflow. *)
Fixpoint checked_sum_from (acc : Z) (l : list Z) : option Z :=
  match l with
  | [] => Some acc
  | x :: l' => match add acc x with
               | Some acc' => checked_sum_from acc' l'
               | None => None
               end
  end.

Lemma checked_sum_from_spec l acc :
  u64 acc -> Forall u64 l ->
  checked_sum_from acc l =
    if acc + sumZ l <=? u64_max then Some (acc + sumZ l) else None.
Proof.
  intros Hacc Hl; revert acc Hacc; induction Hl as [|x l Hx Hl IH]; intros acc Hacc; simpl.
  - rewrite Z.add_0_r. unfold u64 in Hacc. case_match eqn:E; [done|lia].
  - pose proof (sumZ_nonneg _ Hl). rewrite checked_add_spec by done.
    destruct (Z.leb_spec (acc + x) u64_max) as [Hle|Hgt].
    + rewrite IH by (unfold u64 in *; lia). by rewrite Z.add_assoc.
    + case_match eqn:E; [unfold u64 in *; lia|done].
Qed.

Lemma checked_sum_from_Some l acc t :
  u64 acc -> Forall u64 l -> checked_sum_from acc l = Some t ->
  t = acc + sumZ l /\ u64 t.
Proof.
  intros Hacc Hl. rewrite checked_sum_from_spec by done.
  pose proof (sumZ_nonneg _ Hl). unfold u64 in *. case_match eqn:E; [|done].
  intros [= <-]. lia.
Qed.
End CheckedSum.

(** ** Proof automation for guard cascades

    The policies are cascades of guards, each returning a rejection.  After
    the definition is unfolded, [walk H] follows one evaluation: it splits
    on the outermost condition of [H], reduces, and drops the branches that
    contradict [H]. *)

Ltac split_cond H :=
  match type of H with
  | context [if ?b then _ else _] =>
      lazymatch b with
      | context [if _ then _ else _] => fail
      | context [match _ with Some _ => _ | None => _ end] => fail
      | _ => let G := fresh "G" in destruct b eqn:G
      end
  | context [match ?o with Some _ => _ | None => _ end] =>
      let G := fresh "G" in destruct o eqn:G
  end.

Ltac walk H := repeat (split_cond H; cbn in H; try discriminate H).

(** The same on the goal. *)
Ltac split_goal :=
  match goal with
  | |- context [if ?b then _ else _] =>
      lazymatch b with
      | context [if _ then _ else _] => fail
      | context [match _ with Some _ => _ | None => _ end] => fail
      | _ => let G := fresh "G" in destruct b eqn:G
      end
  | |- context [match ?o with Some _ => _ | None => _ end] =>
      let G := fresh "G" in destruct o eqn:G
  end.

Ltac walk_goal := repeat (split_goal; cbn).

(** Turn the boolean facts collected by [walk] into propositions. *)
Ltac bool_facts :=
  repeat match goal with
  | H : (_ || _) = false |- _ => apply orb_false_iff in H; destruct H
  | H : (_ && _) = true |- _ => apply andb_true_iff in H; destruct H
  | H : negb _ = true |- _ => apply negb_true_iff in H
  | H : negb _ = false |- _ => apply negb_false_iff in H
  | H : Z.eqb _ _ = true |- _ => apply Z.eqb_eq in H
  | H : Z.eqb _ _ = false |- _ => apply Z.eqb_neq in H
  | H : Z.ltb _ _ = true |- _ => apply Z.ltb_lt in H
  | H : Z.ltb _ _ = false |- _ => apply Z.ltb_ge in H
  | H : Z.leb _ _ = true |- _ => apply Z.leb_le in H
  | H : Z.leb _ _ = false |- _ => apply Z.leb_gt in H
  | H : String.eqb _ _ = true |- _ => apply String.eqb_eq in H
  | H : String.eqb _ _ = false |- _ => apply String.eqb_neq in H
  | H : str_empty _ = true |- _ => apply str_empty_true in H
  | H : str_empty _ = false |- _ => apply str_empty_false in H
  end.

(** The characterisation of a cascade: a result satisfies [p] exactly when
    every guard that returns a rejection is false. *)
Lemma guard_iff {A} (p : A -> bool) (b : bool) (x k : A) : p x = false ->
  p (if b then x else k) = true <-> b = false /\ p k = true.
Proof. intros Hx. destruct b; rewrite ?Hx; naive_solver. Qed.

Lemma guard_some_iff {A B} (p : A -> bool) (o : option B) (x : A) (k : B -> A) : p x = false ->
  p (match o with Some v => k v | None => x end) = true <-> exists v, o = Some v /\ p (k v) = true.
Proof. intros Hx. destruct o; rewrite ?Hx; naive_solver. Qed.

Lemma guard_when_iff {A B} (p : A -> bool) (b : bool) (v : B) (x : A) (k : B -> A) : p x = false ->
  p (match (if b then Some v else None) with Some v => k v | None => x end) = true <->
  b = true /\ p (k v) = true.
Proof. intros Hx. destruct b; rewrite ?Hx; naive_solver. Qed.

Ltac cascade :=
  repeat first [ rewrite guard_iff by reflexivity
               | rewrite guard_when_iff by reflexivity
               | rewrite guard_some_iff by reflexivity ].

Lemma eqb_true_r (b : bool) : Bool.eqb b true = b.
Proof. by destruct b. Qed.

Create Rewrite HintDb prism_bool.
#[export] Hint Rewrite orb_false_iff negb_false_iff negb_true_iff andb_true_iff
  Z.eqb_eq Z.eqb_neq Z.ltb_lt Z.ltb_ge Z.leb_le Z.leb_gt
  String.eqb_eq String.eqb_neq str_empty_true str_empty_false : prism_bool.

(** Rewrite boolean equations to propositions, everywhere. *)
Ltac bool_iff := autorewrite with prism_bool.

(** Discharge range hypotheses of a closed instance by evaluation. *)
Ltac closed_bounds := repeat split; vm_compute; intro; discriminate.

(** [observe p f] prepares a goal about [p (f ...)] for [cascade]: [p] is
    protected while the caller normalises the cascade. *)
Tactic Notation "observe" constr(p) "as" ident(q) := set (q := p) at 1.

(** Elimination of a cascade: to prove [P] of the result, prove it of every
    rejection and, knowing all guards, of the final value. *)
Lemma guard_elim {A} (P : A -> Prop) (b : bool) (x k : A) :
  (b = true -> P x) -> (b = false -> P k) -> P (if b then x else k).
Proof. destruct b; auto. Qed.

Lemma guard_some_elim {A B} (P : A -> Prop) (o : option B) (x : A) (k : B -> A) :
  (o = None -> P x) -> (forall v, o = Some v -> P (k v)) ->
  P (match o with Some v => k v | None => x end).
Proof. destruct o; auto. Qed.

(** [cascade_elim tac] runs [tac] on the rejections. *)
Ltac cascade_elim tac :=
  repeat first
    [ apply guard_elim; [let G := fresh "G" in intros G; solve [tac]|let G := fresh "G" in intros G]
    | apply guard_some_elim;
        [let G := fresh "G" in intros G; solve [tac]
        |let v := fresh "v" in let G := fresh "G" in intros v G] ].
