(* ===== verification/Fips180.v ===== *)
(** * SHA-256 as FIPS 180-4 states it

    The standard, written from its text and not from the program: the functions
    of section 4.1.2 bit by bit, the constants as the roots of primes that
    sections 4.2.2 and 5.3.3 name, the padding of 5.1.1 and the computation of
    6.2.2.  [Sha256] proves the program against it.

    A word is an integer in [0, 2^32), a byte one in [0, 256). *)

From Stdlib Require Import Ascii String.
From S2P Require Import Prelude.

Open Scope list_scope.
Open Scope Z_scope.

Module Fips180.

(** ** Words *)

(** The number of [n] bits whose bit [i] is [bit i]. *)
Fixpoint of_bits (n : nat) (bit : Z -> bool) : Z :=
  match n with
  | O => 0
  | S n => of_bits n bit + (if bit (Z.of_nat n) then 2 ^ Z.of_nat n else 0)
  end.

Definition word (bit : Z -> bool) : Z := of_bits 32 bit.

Definition add (l : list Z) : Z := fold_right Z.add 0 l mod 2 ^ 32.

(** Bit [i] of the rotation by [n] is bit [i + n], counted around the word. *)
Definition ROTR (n x : Z) : Z := word (fun i => Z.testbit x ((i + n) mod 32)).

Definition SHR (n x : Z) : Z := x / 2 ^ n.

Definition xor3 (x y z : Z) : Z :=
  word (fun i => xorb (Z.testbit x i) (xorb (Z.testbit y i) (Z.testbit z i))).

(** [x] chooses between [y] and [z]. *)
Definition Ch (x y z : Z) : Z := word (fun i => if Z.testbit x i then Z.testbit y i else Z.testbit z i).

(** At least two of the three. *)
Definition Maj (x y z : Z) : Z :=
  word (fun i => let count := Z.b2z (Z.testbit x i) + Z.b2z (Z.testbit y i) + Z.b2z (Z.testbit z i) in 2 <=? count).

Definition Sigma0 (x : Z) : Z := xor3 (ROTR 2 x) (ROTR 13 x) (ROTR 22 x).
Definition Sigma1 (x : Z) : Z := xor3 (ROTR 6 x) (ROTR 11 x) (ROTR 25 x).
Definition sigma0 (x : Z) : Z := xor3 (ROTR 7 x) (ROTR 18 x) (SHR 3 x).
Definition sigma1 (x : Z) : Z := xor3 (ROTR 17 x) (ROTR 19 x) (SHR 10 x).

(** ** Constants *)

(** The primes from [n] on among the next [fuel] numbers, by trial division. *)
Fixpoint primes_from (fuel : nat) (n : Z) (found : list Z) : list Z :=
  match fuel with
  | O => found
  | S fuel => primes_from fuel (n + 1) (if forallb (fun p => negb (n mod p =? 0)) found then found ++ [n] else found)
  end.

(** 311 is the 64th prime. *)
Definition primes : list Z := primes_from 310 2 [].

(** The integer cube root of [n] by bisection between [lo] and [hi]. *)
Fixpoint cube_root (fuel : nat) (n lo hi : Z) : Z :=
  match fuel with
  | O => lo
  | S fuel => let mid := (lo + hi) / 2 in
              if mid * mid * mid <=? n then cube_root fuel n mid hi else cube_root fuel n lo mid
  end.

(** The first 32 bits of the fractional part of a root. *)
Definition cube_root_bits (p : Z) : Z := cube_root 64 (p * 2 ^ 96) 0 (2 ^ 36) mod 2 ^ 32.
Definition square_root_bits (p : Z) : Z := Z.sqrt (p * 2 ^ 64) mod 2 ^ 32.

Definition K : list Z := map cube_root_bits primes.
Definition H0 : list Z := map square_root_bits (take 8 primes).

(** ** The message *)

Definition big_endian (bytes : list Z) : Z := fold_left (fun n b => 256 * n + b) bytes 0.

(** [digits] places of [n] in base [base], most significant first. *)
Definition places (base : Z) (digits : nat) (n : Z) : list Z :=
  map (fun i => n / base ^ Z.of_nat (digits - 1 - i) mod base) (seq 0 digits).

(** A one bit, the fewest zeros that leave room for the length, the length of
    the message in bits. *)
Definition padded (message : list Z) : list Z :=
  let n := Z.of_nat (List.length message) in
  message ++ [128] ++ replicate (Z.to_nat ((55 - n) mod 64)) 0 ++ places 256 8 (8 * n).

(** The words of a block of 64 bytes. *)
Definition block_words (block : list Z) : list Z := map (fun i => big_endian (take 4 (drop (4 * i) block))) (seq 0 16).

(** ** The computation *)

(** The words that follow the last sixteen, oldest first. *)
Fixpoint schedule_after (count : nat) (last16 : list Z) : list Z :=
  match count with
  | O => []
  | S count =>
      let back t := nth (16 - t) last16 0 in
      let w := add [sigma1 (back 2%nat); back 7%nat; sigma0 (back 15%nat); back 16%nat] in
      w :: schedule_after count (tl last16 ++ [w])
  end.

Definition schedule (block : list Z) : list Z :=
  let words := block_words block in words ++ schedule_after 48 words.

Definition step (h : list Z) (kw : Z * Z) : list Z :=
  match h with
  | [a; b; c; d; e; f; g; h] =>
      let T1 := add [h; Sigma1 e; Ch e f g; kw.1; kw.2] in
      let T2 := add [Sigma0 a; Maj a b c] in
      [add [T1; T2]; a; b; c; add [d; T1]; e; f; g]
  | _ => h
  end.

Definition compress (block h : list Z) : list Z :=
  zip_with (fun x y => add [x; y]) h (fold_left step (combine K (schedule block)) h).

Fixpoint hash_blocks (count : nat) (message h : list Z) : list Z :=
  match count with
  | O => h
  | S count => hash_blocks count (drop 64 message) (compress (take 64 message) h)
  end.

Definition hash (message : list Z) : list Z :=
  let message := padded message in hash_blocks (List.length message / 64) message H0.

(** The digest in hexadecimal digits. *)
Definition hex_digit (n : Z) : ascii := nth (Z.to_nat n) (list_ascii_of_string "0123456789abcdef") "0"%char.

Definition sha256 (message : list Z) : string :=
  string_of_list_ascii (List.concat (map (fun w => map hex_digit (places 16 8 w)) (hash message))).

(** ** The bits of a word *)

Lemma of_bits_range n bit : 0 <= of_bits n bit < 2 ^ Z.of_nat n.
Proof.
  induction n as [|n IH]; [done|]. cbn [of_bits]. rewrite Nat2Z.inj_succ, Z.pow_succ_r by lia. destruct (bit _); lia.
Qed.

Lemma testbit_above x n i : 0 <= x < 2 ^ n -> 0 <= n <= i -> Z.testbit x i = false.
Proof.
  intros Hx Hi. rewrite <- (Z.mod_small x (2 ^ n)) by done. by apply Z.mod_pow2_bits_high.
Qed.

Lemma of_bits_testbit n bit i : 0 <= i -> Z.testbit (of_bits n bit) i = (i <? Z.of_nat n) && bit i.
Proof.
  intros Hi. induction n as [|n IH]; [rewrite Z.testbit_0_l; by destruct (Z.ltb_spec i (Z.of_nat 0)); [lia|]|].
  cbn [of_bits]. pose proof (of_bits_range n bit) as Hr.
  assert (Hsum : of_bits n bit + (if bit (Z.of_nat n) then 2 ^ Z.of_nat n else 0) =
                 Z.lor (of_bits n bit) (if bit (Z.of_nat n) then 2 ^ Z.of_nat n else 0)).
  { destruct (bit (Z.of_nat n)); [|by rewrite Z.lor_0_r, Z.add_0_r]. rewrite <- Z.add_lor_land.
    replace (Z.land (of_bits n bit) (2 ^ Z.of_nat n)) with 0; [lia|]. symmetry. apply Z.bits_inj'. intros j Hj.
    rewrite Z.land_spec, Z.testbit_0_l, Z.pow2_bits_eqb by lia. destruct (Z.eqb_spec (Z.of_nat n) j) as [<-|]; [|by rewrite andb_false_r].
    by rewrite (testbit_above _ (Z.of_nat n)) by lia. }
  rewrite Hsum, Z.lor_spec, IH. rewrite Nat2Z.inj_succ.
  assert (Hb : Z.testbit (if bit (Z.of_nat n) then 2 ^ Z.of_nat n else 0) i = (Z.of_nat n =? i) && bit i).
  { destruct (bit (Z.of_nat n)) eqn:E; [rewrite Z.pow2_bits_eqb by lia|rewrite Z.testbit_0_l];
      destruct (Z.eqb_spec (Z.of_nat n) i) as [<-|]; cbn; congruence. }
  rewrite Hb. destruct (Z.ltb_spec i (Z.of_nat n)), (Z.eqb_spec (Z.of_nat n) i), (Z.ltb_spec i (Z.succ (Z.of_nat n)));
    try lia; cbn; by rewrite ?orb_false_r.
Qed.

Lemma word_testbit bit i : 0 <= i -> Z.testbit (word bit) i = (i <? 32) && bit i.
Proof. apply (of_bits_testbit 32). Qed.

Lemma word_range bit : u32 (word bit).
Proof. pose proof (of_bits_range 32 bit). unfold u32, word. change (2 ^ Z.of_nat 32) with 4294967296 in *. lia. Qed.

(** Two words with the same 32 bits are equal. *)
Lemma word_unique x bit : u32 x -> (forall i, 0 <= i < 32 -> Z.testbit x i = bit i) -> x = word bit.
Proof.
  intros Hx H. apply Z.bits_inj'. intros i Hi. rewrite word_testbit by done. destruct (Z.ltb_spec i 32) as [Hlt|Hge].
  - by apply H.
  - apply (testbit_above _ 32); [|lia]. unfold u32 in Hx. change (2 ^ 32) with 4294967296. lia.
Qed.

(** ** The examples of the standard *)

Definition bytes_of (text : string) : list Z := map char_code (list_ascii_of_string text).

Example sha256_one_block :
  sha256 (bytes_of "abc") = "ba7816bf8f01cfea414140de5dae2223b00361a396177a9cb410ff61f20015ad"%string.
Proof. vm_compute. reflexivity. Qed.

Example sha256_of_two_blocks :
  sha256 (bytes_of "abcdbcdecdefdefgefghfghighijhijkijkljklmklmnlmnomnopnopq") =
  "248d6a61d20638b8e5c026930c3e6039a33ce45964ff2167f6ecedd419db06c1"%string.
Proof. vm_compute. reflexivity. Qed.

End Fips180.
