(* ===== verification/CheckedArithmetic.v ===== *)
(** * Overflow-checked arithmetic

    [src/governor/checked_arithmetic.cpp]: the additions, products,
    divisions and basis-point fractions every admission decision is computed
    with.  Each function is shown to compute the exact mathematical result,
    or nothing when that result does not fit. *)

From S2P Require Import Prelude.

Module CheckedArithmetic.

(** [enum class RatioRounding]; [RatioOther] stands for any other value of
    the underlying integer, which the code tests for. *)
Inductive RatioRounding := Down | Up | RatioOther (n : Z).

Definition kBasisPointDenominator : Z := 10000.

Definition checked_add_u64 (left right : Z) : option Z :=
  if u64_max - right <? left then None else Some (left +64 right).

Definition checked_multiply_u64 (left right : Z) : option Z :=
  if (left <>z 0) && (u64_max / left <? right) then None
  else Some (left *64 right).

Definition checked_ceil_divide_u64 (numerator denominator : Z) : option Z :=
  if denominator =? 0 then None
  else
    let quotient := numerator / denominator in
    if numerator mod denominator =? 0 then Some quotient
    else checked_add_u64 quotient 1.

Definition is_rounding (r : RatioRounding) : bool :=
  match r with Down | Up => true | RatioOther _ => false end.

Definition is_up (r : RatioRounding) : bool :=
  match r with Up => true | _ => false end.

Definition checked_basis_points_u64
    (value basis_points : Z) (rounding : RatioRounding) : option Z :=
  if negb (is_rounding rounding) || (kBasisPointDenominator <? basis_points) then None
  else
    let quotient := value / kBasisPointDenominator in
    let remainder := value mod kBasisPointDenominator in
    match checked_multiply_u64 quotient basis_points,
          checked_multiply_u64 remainder basis_points with
    | Some base, Some remainder_product =>
        let remainder_quotient := remainder_product / kBasisPointDenominator in
        let round_up :=
          is_up rounding && (remainder_product mod kBasisPointDenominator <>z 0) in
        match checked_add_u64 remainder_quotient (if round_up then 1 else 0) with
        | None => None
        | Some extra => checked_add_u64 base extra
        end
    | _, _ => None
    end.

Definition checked_narrow_u32 (value : Z) : option Z :=
  if u32_max <? value then None else Some value.

(** [sizeof(std::size_t) < sizeof(std::uint64_t)] is false on the supported
    64-bit platforms, so the [if constexpr] test is compiled out. *)
Definition checked_narrow_size (value : Z) : option Z := Some value.

(** ** Specifications *)

#[export] Instance checked_add_u64_checked : CheckedAdd checked_add_u64.
Proof.
  constructor. intros a b Ha Hb. unfold checked_add_u64, u64 in *.
  destruct (Z.ltb_spec (u64_max - b) a), (Z.leb_spec (a + b) u64_max); try lia; try done.
  by rewrite wrap64_small by (unfold u64; lia).
Qed.

Lemma checked_add_u64_Some a b t :
  u64 a -> u64 b -> checked_add_u64 a b = Some t <-> t = a + b /\ u64 t.
Proof.
  intros Ha Hb. rewrite checked_add_spec by done. unfold u64 in *.
  case_match; split; try done; [intros [= <-]; lia|intros [-> ?]; done|lia].
Qed.

Lemma checked_multiply_spec a b : u64 a -> u64 b ->
  checked_multiply_u64 a b = if a * b <=? u64_max then Some (a * b) else None.
Proof.
  intros Ha Hb. unfold checked_multiply_u64.
  destruct (Z.eqb_spec a 0) as [->|Hne]; simpl; [done|].
  unfold u64 in *. pose proof (Z.div_mod u64_max a Hne).
  pose proof (Z.mod_pos_bound u64_max a ltac:(lia)).
  destruct (Z.ltb_spec (u64_max / a) b), (Z.leb_spec (a * b) u64_max); try nia; try done.
  by rewrite wrap64_small by (unfold u64; nia).
Qed.

Lemma checked_multiply_u64_Some a b t :
  u64 a -> u64 b -> checked_multiply_u64 a b = Some t <-> t = a * b /\ u64 t.
Proof.
  intros Ha Hb. rewrite checked_multiply_spec by done. unfold u64 in *.
  case_match; split; try done; [intros [= <-]; nia|intros [-> ?]; done|lia].
Qed.

Lemma ceil_div_mod n d : 0 < d ->
  (n + d - 1) / d = if n mod d =? 0 then n / d else n / d + 1.
Proof.
  intros Hd. pose proof (Z.div_mod n d ltac:(lia)). pose proof (Z.mod_pos_bound n d Hd).
  case_match; bool_facts; symmetry; eapply Z.div_unique_pos with (r := _).
  - instantiate (1 := d - 1). lia.
  - lia.
  - instantiate (1 := n mod d - 1). lia.
  - lia.
Qed.

(** Splitting a value into ten-thousands and a remainder commutes with
    taking a fraction of it. *)
Lemma basis_points_split v bp c : 0 <= c ->
  (v * bp + c) / 10000 = v / 10000 * bp + (v mod 10000 * bp + c) / 10000.
Proof.
  intros Hc. rewrite <- Z.div_add_l by lia. f_equal.
  pose proof (Z.div_mod v 10000 ltac:(lia)). nia.
Qed.

Lemma checked_multiply_fits a b : u64 a -> u64 b -> a * b <= u64_max ->
  checked_multiply_u64 a b = Some (a * b).
Proof. intros. rewrite checked_multiply_spec by done. case_match; [done|lia]. Qed.

Lemma checked_add_fits a b : u64 a -> u64 b -> a + b <= u64_max ->
  checked_add_u64 a b = Some (a + b).
Proof. intros. rewrite checked_add_spec by done. case_match; [done|lia]. Qed.

(** A fraction of at most 10000 basis points never exceeds the value. *)
Lemma basis_points_le v bp : 0 <= v -> 0 <= bp <= 10000 ->
  0 <= v * bp / 10000 /\ v * bp / 10000 <= (v * bp + 9999) / 10000 <= v.
Proof.
  intros Hv Hbp. split; [apply Z.div_pos; nia|]. split.
  - apply Z.div_le_mono; lia.
  - assert ((v * bp + 9999) / 10000 < v + 1); [|lia]. apply Z.div_lt_upper_bound; nia.
Qed.

Definition rounding_carry (r : RatioRounding) : Z := if is_up r then 9999 else 0.

Lemma rounding_carry_nonneg r : 0 <= rounding_carry r.
Proof. unfold rounding_carry. destruct (is_up r); lia. Qed.

Lemma basis_points_core v bp r :
  u64 v -> 0 <= bp <= 10000 -> is_rounding r = true ->
  checked_basis_points_u64 v bp r = Some ((v * bp + rounding_carry r) / 10000).
Proof.
  intros Hv Hbp Hr. unfold checked_basis_points_u64, kBasisPointDenominator. rewrite Hr.
  pose proof (Z.div_mod v 10000 ltac:(lia)). pose proof (Z.mod_pos_bound v 10000 ltac:(lia)).
  assert (u64 (v / 10000) /\ u64 (v mod 10000) /\ u64 bp) as (Hq & Hm & Hb) by (unfold u64 in *; lia).
  destruct (Z.ltb_spec 10000 bp) as [|_]; [lia|]. cbn [negb orb].
  rewrite !checked_multiply_fits by (done || unfold u64 in *; nia).
  set (p := v mod 10000 * bp). assert (0 <= p <= 99990000) as Hp by (subst p; nia).
  pose proof (Z.div_mod p 10000 ltac:(lia)). pose proof (Z.mod_pos_bound p 10000 ltac:(lia)).
  assert ((p + rounding_carry r) / 10000 =
          p / 10000 + (if is_up r && (p mod 10000 <>z 0) then 1 else 0)) as Hround.
  { unfold rounding_carry. destruct (is_up r); simpl; [|rewrite Z.add_0_r; lia].
    replace (p + 9999) with (p + 10000 - 1) by lia. rewrite ceil_div_mod by lia.
    destruct (p mod 10000 =? 0); simpl; lia. }
  assert (v / 10000 * bp + (p + rounding_carry r) / 10000 <= v) as Hle.
  { pose proof (basis_points_le v bp ltac:(unfold u64 in *; lia) Hbp) as [_ [? ?]].
    pose proof (basis_points_split v bp (rounding_carry r)) as Hs. fold p in Hs.
    unfold rounding_carry in *. destruct (is_up r); rewrite <- Hs by lia; [lia|]. rewrite Z.add_0_r. lia. }
  rewrite checked_add_fits; [|unfold u64; destruct (is_up r && _); lia..].
  rewrite <- Hround, checked_add_fits.
  - by rewrite basis_points_split by apply rounding_carry_nonneg.
  - unfold u64 in *. nia.
  - unfold u64. rewrite Hround. destruct (is_up r && _); lia.
  - unfold u64 in *. lia.
Qed.

(** [checked_ceil_divide_u64] is division rounded up: it is undefined
    only for a zero denominator and its increment never overflows. *)
Theorem ceil_divide_exact numerator denominator :
  u64 numerator -> u64 denominator ->
  checked_ceil_divide_u64 numerator denominator =
    if denominator =? 0 then None
    else Some ((numerator + denominator - 1) / denominator).
Proof.
  intros Hn Hd. unfold checked_ceil_divide_u64.
  destruct (Z.eqb_spec denominator 0) as [|Hne]; [done|].
  rewrite ceil_div_mod by (unfold u64 in *; lia).
  destruct (Z.eqb_spec (numerator mod denominator) 0) as [|Hmod]; [done|].
  assert (1 < denominator) by (destruct (Z.eq_dec denominator 1) as [->|];
    [by rewrite Z.mod_1_r in Hmod|unfold u64 in *; lia]).
  pose proof (Z.div_mod numerator denominator Hne).
  pose proof (Z.mod_pos_bound numerator denominator ltac:(lia)).
  pose proof (Z.div_pos numerator denominator ltac:(unfold u64 in *; lia) ltac:(lia)).
  apply checked_add_fits; unfold u64 in *; nia.
Qed.

Lemma basis_points_spec value bp (r : RatioRounding) :
  u64 value -> u32 bp ->
  checked_basis_points_u64 value bp r =
    match r with
    | RatioOther _ => None
    | Down => if bp <=? 10000 then Some (value * bp / 10000) else None
    | Up => if bp <=? 10000 then Some ((value * bp + 9999) / 10000) else None
    end.
Proof.
  intros Hv Hbp. destruct (Z.leb_spec bp 10000) as [Hle|Hgt].
  - unfold u32 in Hbp. destruct r; [by rewrite basis_points_core by (done || lia);
      unfold rounding_carry; simpl; rewrite Z.add_0_r|by rewrite basis_points_core by (done || lia)|done].
  - unfold checked_basis_points_u64, kBasisPointDenominator.
    destruct (Z.ltb_spec 10000 bp); [|lia]. by destruct r.
Qed.

(** For any value and at most 10000 basis points,
    [checked_basis_points_u64] returns the exact fraction, rounded as asked:
    its internal products and sums never overflow, so the only rejections
    are an invalid rounding mode or more than 10000 basis points. *)
Theorem basis_points_exact value bp (r : RatioRounding) :
  u64 value -> u32 bp ->
  checked_basis_points_u64 value bp r =
    match r with
    | RatioOther _ => None
    | Down => if bp <=? 10000 then Some (value * bp / 10000) else None
    | Up => if bp <=? 10000 then Some ((value * bp + 9999) / 10000) else None
    end.
Proof. apply basis_points_spec. Qed.

Lemma ceil_divide_exact_witness : checked_ceil_divide_u64 u64_max 2 = Some 9223372036854775808.
Proof. apply (ceil_divide_exact u64_max 2); unfold u64; lia. Defined.

Lemma basis_points_exact_witness :
  checked_basis_points_u64 u64_max 1500 Up = Some 2767011611056432743.
Proof. apply (basis_points_exact u64_max 1500 Up); unfold u64, u32; lia. Defined.

End CheckedArithmetic.
