(* ===== verification/MemoryCap.v ===== *)
(** * GPU cap policy, cap certification and the capped allocator

    [src/governor/gpu_cap_policy.cpp], [src/governor/memory_cap.cpp] and
    [src/governor/allocator_tracker.cpp]. *)

From S2P Require Import Prelude.

Module MemoryCap.

(** ** The hard cap a policy may ask for ([gpu_cap_policy]) *)

Definition kMaxGpuHardCapBytes : Z := 17179869184.

Record GpuCapPolicyResult := mkGpuCapPolicyResult {
  gcp_accepted : bool;
  gcp_failure_reason : string;
}.

Definition validate_gpu_hard_cap (hard_cap_bytes : Z) : GpuCapPolicyResult :=
  if hard_cap_bytes =? 0 then
    mkGpuCapPolicyResult false "hard_cap_must_be_positive"
  else if kMaxGpuHardCapBytes <? hard_cap_bytes then
    mkGpuCapPolicyResult false "hard_cap_exceeds_max_gpu_cap"
  else mkGpuCapPolicyResult true "".

Lemma validate_gpu_hard_cap_accepted cap : u64 cap ->
  gcp_accepted (validate_gpu_hard_cap cap) = true <-> 0 < cap <= kMaxGpuHardCapBytes.
Proof.
  unfold u64, validate_gpu_hard_cap. intros. repeat case_match; cbn; bool_facts; split; try lia; done.
Qed.

(** ** Cap certification ([memory_cap]) *)

Record MemorySample := mkMemorySample {
  ms_allocator_bytes : Z;
  ms_allocator_peak_bytes : Z;
  ms_process_gpu_bytes : Z;
  ms_process_gpu_peak_bytes : Z;
  ms_warmup_peak_bytes : Z;
  ms_retained_pool_bytes : Z;
  ms_kv_gpu_peak_bytes : Z;
  ms_kv_host_peak_bytes : Z;
  ms_kv_compressed_peak_bytes : Z;
  ms_kv_metadata_peak_bytes : Z;
  ms_kv_unknown_peak_bytes : Z;
  ms_device_used_bytes : Z;
  ms_device_delta_bytes : Z;
  ms_unknown_post_warmup_bytes : Z;
  ms_required_telemetry_present : bool;
  ms_telemetry_agreement : bool;
  ms_unified_memory_enabled : bool;
}.

Definition default_MemorySample : MemorySample :=
  mkMemorySample 0 0 0 0 0 0 0 0 0 0 0 0 0 0 true true false.

Record CapTolerances := mkCapTolerances {
  ct_allocator_process_tolerance_bytes : Z;
  ct_device_delta_tolerance_bytes : Z;
}.

Definition default_CapTolerances : CapTolerances :=
  mkCapTolerances (16 * 1024 * 1024) (64 * 1024 * 1024).

Record CapCertificationResult := mkCapCertificationResult {
  cc_certified : bool;
  cc_failure_reason : string;
}.

Definition abs_diff (lhs rhs : Z) : Z := if rhs <? lhs then lhs -64 rhs else rhs -64 lhs.

Definition certify_cap_with (sample : MemorySample) (hard_cap_bytes : Z)
    (tolerances : CapTolerances) : CapCertificationResult :=
  let fail r := mkCapCertificationResult false r in
  if negb (ms_required_telemetry_present sample) then fail "required_telemetry_missing"
  else if negb (ms_telemetry_agreement sample) then fail "telemetry_disagreement"
  else if ms_unified_memory_enabled sample then fail "unified_memory_enabled"
  else if hard_cap_bytes <? ms_allocator_peak_bytes sample then
    fail "allocator_peak_exceeded_cap"
  else if hard_cap_bytes <? ms_process_gpu_peak_bytes sample then
    fail "process_gpu_peak_exceeded_cap"
  else if hard_cap_bytes <? ms_device_delta_bytes sample then
    fail "device_delta_exceeded_cap"
  else if hard_cap_bytes <? ms_warmup_peak_bytes sample then
    fail "warmup_peak_exceeded_cap"
  else if hard_cap_bytes <? ms_kv_gpu_peak_bytes sample then
    fail "kv_gpu_peak_exceeded_cap"
  else if 0 <? ms_unknown_post_warmup_bytes sample then
    fail "unknown_post_warmup_allocation"
  else if ct_allocator_process_tolerance_bytes tolerances <?
          abs_diff (ms_allocator_peak_bytes sample) (ms_process_gpu_peak_bytes sample) then
    fail "allocator_process_peak_disagreement"
  else if (ms_process_gpu_peak_bytes sample <? ms_device_delta_bytes sample) &&
          (ct_device_delta_tolerance_bytes tolerances <?
             ms_device_delta_bytes sample -64 ms_process_gpu_peak_bytes sample) then
    fail "device_delta_process_disagreement"
  else mkCapCertificationResult true "".

Definition certify_cap (sample : MemorySample) (hard_cap_bytes : Z) : CapCertificationResult :=
  certify_cap_with sample hard_cap_bytes default_CapTolerances.

(** The quantities of a sample are machine words. *)
Definition sample_wf (s : MemorySample) : Prop :=
  u64 (ms_allocator_peak_bytes s) /\ u64 (ms_process_gpu_peak_bytes s) /\
  u64 (ms_warmup_peak_bytes s) /\ u64 (ms_kv_gpu_peak_bytes s) /\
  u64 (ms_device_delta_bytes s) /\ u64 (ms_unknown_post_warmup_bytes s).

(** What certification promises, over unbounded integers. *)
Definition cap_certifiable (s : MemorySample) (cap : Z) (t : CapTolerances) : Prop :=
  (ms_required_telemetry_present s = true /\ ms_telemetry_agreement s = true /\
   ms_unified_memory_enabled s = false) /\
  Forall (fun peak => peak <= cap)
    [ms_allocator_peak_bytes s; ms_process_gpu_peak_bytes s; ms_device_delta_bytes s;
     ms_warmup_peak_bytes s; ms_kv_gpu_peak_bytes s] /\
  ms_unknown_post_warmup_bytes s = 0 /\
  Z.abs (ms_allocator_peak_bytes s - ms_process_gpu_peak_bytes s)
    <= ct_allocator_process_tolerance_bytes t /\
  ms_device_delta_bytes s - ms_process_gpu_peak_bytes s
    <= Z.max 0 (ct_device_delta_tolerance_bytes t).

Lemma abs_diff_spec a b : u64 a -> u64 b -> abs_diff a b = Z.abs (a - b).
Proof.
  unfold abs_diff, u64. intros. case_match; bool_facts; rewrite wrap64_small by (unfold u64; lia); lia.
Qed.

(** A sample is certified exactly when its telemetry is complete and
    consistent, every peak is within the hard cap, no allocation of unknown
    origin remains, and the independent measurements agree within the
    tolerances; the unsigned subtractions the code performs never wrap. *)
Theorem certify_cap_iff s cap t :
  sample_wf s -> u64 (ct_device_delta_tolerance_bytes t) ->
  cc_certified (certify_cap_with s cap t) = true <-> cap_certifiable s cap t.
Proof.
  intros (?&?&?&?&?&?) Ht. unfold certify_cap_with, cap_certifiable. cbv zeta. cascade.
  rewrite !Forall_cons, Forall_nil, abs_diff_spec by done. bool_iff. cbn [cc_certified].
  assert (andb (ms_process_gpu_peak_bytes s <? ms_device_delta_bytes s)
            (ct_device_delta_tolerance_bytes t <?
               (ms_device_delta_bytes s -64 ms_process_gpu_peak_bytes s)) = false <->
          ms_device_delta_bytes s - ms_process_gpu_peak_bytes s
            <= Z.max 0 (ct_device_delta_tolerance_bytes t)) as ->.
  { unfold u64 in *. destruct (Z.ltb_spec (ms_process_gpu_peak_bytes s) (ms_device_delta_bytes s)).
    - rewrite wrap64_small by (unfold u64; lia). cbn [andb]. rewrite Z.ltb_ge. lia.
    - cbn [andb]. split; [lia|done]. }
  unfold u64 in *. intuition lia.
Qed.

(** ** The capped allocator tracker ([allocator_tracker]) *)

Record AllocationResult := mkAllocationResult {
  ar_accepted : bool;
  ar_failure_reason : string;
}.

Record CappedAllocatorTracker := mkTracker {
  hard_cap_bytes_ : Z;
  current_bytes_ : Z;
  peak_bytes_ : Z;
  rejected_peak_bytes_ : Z;
}.

Definition new_tracker (hard_cap_bytes : Z) : CappedAllocatorTracker :=
  mkTracker hard_cap_bytes 0 0 0.

Definition observe_rejected_peak (attempted_peak_bytes : Z) (t : CappedAllocatorTracker)
    : CappedAllocatorTracker :=
  {| t with rejected_peak_bytes_ := Z.max (rejected_peak_bytes_ t) attempted_peak_bytes |}.

Definition reserve (bytes : Z) (t : CappedAllocatorTracker)
    : AllocationResult * CappedAllocatorTracker :=
  if u64_max - current_bytes_ t <? bytes then
    (mkAllocationResult false "allocator_size_overflow",
     {| t with rejected_peak_bytes_ := u64_max |})
  else
    let attempted := current_bytes_ t +64 bytes in
    if hard_cap_bytes_ t <? attempted then
      (mkAllocationResult false "allocator_cap_would_be_exceeded",
       observe_rejected_peak attempted t)
    else
      (mkAllocationResult true "",
       {| t with current_bytes_ := attempted;
                 peak_bytes_ := Z.max (peak_bytes_ t) attempted |}).

Definition release (bytes : Z) (t : CappedAllocatorTracker)
    : AllocationResult * CappedAllocatorTracker :=
  if current_bytes_ t <? bytes then
    (mkAllocationResult false "allocator_release_exceeds_current", t)
  else
    (mkAllocationResult true "", {| t with current_bytes_ := current_bytes_ t -64 bytes |}).

Definition peak_bytes (t : CappedAllocatorTracker) : Z :=
  Z.max (peak_bytes_ t) (rejected_peak_bytes_ t).

Definition tracker_sample (t : CappedAllocatorTracker) : MemorySample :=
  {| default_MemorySample with
     ms_allocator_bytes := current_bytes_ t;
     ms_allocator_peak_bytes := peak_bytes t |}.

(** A client of the tracker is a sequence of calls. *)
Inductive AllocOp := OpReserve (bytes : Z) | OpRelease (bytes : Z).

Definition op_wf (o : AllocOp) : Prop :=
  match o with OpReserve n | OpRelease n => u64 n end.

Definition alloc_step (t : CappedAllocatorTracker) (o : AllocOp) : CappedAllocatorTracker :=
  match o with
  | OpReserve n => snd (reserve n t)
  | OpRelease n => snd (release n t)
  end.

Definition alloc_run (t : CappedAllocatorTracker) (ops : list AllocOp) : CappedAllocatorTracker :=
  fold_left alloc_step ops t.

(** The invariant of a tracker: live bytes are below the high-water mark of
    accepted reservations, which is below the cap. *)
Definition tracker_wf (t : CappedAllocatorTracker) : Prop :=
  u64 (hard_cap_bytes_ t) /\ u64 (rejected_peak_bytes_ t) /\
  0 <= current_bytes_ t <= peak_bytes_ t /\ peak_bytes_ t <= hard_cap_bytes_ t.

(** *** Abstract specification: a ledger of unbounded integers

    [al_live] is the exact sum of accepted reservations less accepted
    releases, [al_high] the largest total any caller ever asked for. *)
Record AbstractLedger := mkLedger { al_cap : Z; al_live : Z; al_high : Z; al_refused : bool }.

Definition ledger_step (l : AbstractLedger) (o : AllocOp) : AbstractLedger :=
  match o with
  | OpReserve n =>
      let total := al_live l + n in
      let high := Z.max (al_high l) total in
      if total <=? al_cap l then mkLedger (al_cap l) total high (al_refused l)
      else mkLedger (al_cap l) (al_live l) high true
  | OpRelease n =>
      if n <=? al_live l then mkLedger (al_cap l) (al_live l - n) (al_high l) (al_refused l) else l
  end.

Definition ledger_run (cap : Z) (ops : list AllocOp) : AbstractLedger :=
  fold_left ledger_step ops (mkLedger cap 0 0 false).

(** The tracker represents a ledger: same live total, and the reported peak
    is the high-water mark of everything asked for, saturated at 2^64-1; it
    exceeds the cap exactly when a reservation was refused. *)
Definition represents (t : CappedAllocatorTracker) (l : AbstractLedger) : Prop :=
  hard_cap_bytes_ t = al_cap l /\ current_bytes_ t = al_live l /\
  peak_bytes t = Z.min u64_max (al_high l) /\
  (al_refused l = true <-> al_cap l < al_high l).

Lemma reserve_cases n t : tracker_wf t -> u64 n ->
  reserve n t =
    if u64_max <? current_bytes_ t + n then
      (mkAllocationResult false "allocator_size_overflow", {| t with rejected_peak_bytes_ := u64_max |})
    else if hard_cap_bytes_ t <? current_bytes_ t + n then
      (mkAllocationResult false "allocator_cap_would_be_exceeded",
       observe_rejected_peak (current_bytes_ t + n) t)
    else (mkAllocationResult true "",
          {| t with current_bytes_ := current_bytes_ t + n;
                    peak_bytes_ := Z.max (peak_bytes_ t) (current_bytes_ t + n) |}).
Proof.
  intros (?&?&?&?) Hn. unfold reserve, u64 in *.
  destruct (Z.ltb_spec (u64_max - current_bytes_ t) n), (Z.ltb_spec u64_max (current_bytes_ t + n));
    try lia; [done|]. by rewrite wrap64_small by (unfold u64; lia).
Qed.

Lemma release_cases n t : tracker_wf t -> u64 n ->
  release n t =
    if current_bytes_ t <? n then (mkAllocationResult false "allocator_release_exceeds_current", t)
    else (mkAllocationResult true "", {| t with current_bytes_ := current_bytes_ t - n |}).
Proof.
  intros (?&?&?&?) Hn. unfold release, u64 in *. case_match; bool_facts; [done|].
  by rewrite wrap64_small by (unfold u64; lia).
Qed.

Lemma alloc_step_wf t o : tracker_wf t -> op_wf o -> tracker_wf (alloc_step t o).
Proof.
  intros Hwf Ho. destruct o as [n|n]; cbn [alloc_step op_wf] in *.
  - rewrite reserve_cases by done. unfold tracker_wf, observe_rejected_peak, u64 in *.
    repeat case_match; bool_facts; cbn; lia.
  - rewrite release_cases by done. unfold tracker_wf, u64 in *.
    repeat case_match; bool_facts; cbn; lia.
Qed.

Lemma alloc_step_represents t l o :
  tracker_wf t -> op_wf o -> 0 <= al_live l -> represents t l ->
  represents (alloc_step t o) (ledger_step l o) /\ 0 <= al_live (ledger_step l o).
Proof.
  intros Hwf Ho Hl (Hc & Hv & Hp & Hr). destruct o as [n|n]; cbn [alloc_step ledger_step op_wf] in *.
  - rewrite reserve_cases by done. unfold tracker_wf, represents, peak_bytes, observe_rejected_peak, u64 in *.
    repeat case_match; bool_facts; cbn; rewrite ?Hr; lia.
  - rewrite release_cases by done. unfold represents, peak_bytes, u64 in *.
    repeat case_match; bool_facts; cbn; rewrite ?Hr; lia.
Qed.

Lemma alloc_run_invariant ops t l :
  tracker_wf t -> represents t l -> 0 <= al_live l -> Forall op_wf ops ->
  tracker_wf (alloc_run t ops) /\ represents (alloc_run t ops) (fold_left ledger_step ops l).
Proof.
  intros Hwf Hrep Hl Hops; revert t l Hwf Hrep Hl.
  induction Hops as [|o ops Ho _ IH]; intros t l Hwf Hrep Hl; [done|].
  destruct (alloc_step_represents t l o) as [??]; [done..|].
  apply IH; [by apply alloc_step_wf|done..].
Qed.

Lemma alloc_run_cap ops t : hard_cap_bytes_ (alloc_run t ops) = hard_cap_bytes_ t.
Proof.
  revert t; induction ops as [|o ops IH]; intros t; [done|].
  change (alloc_run t (o :: ops)) with (alloc_run (alloc_step t o) ops). rewrite IH.
  destruct o; cbn; unfold reserve, release, observe_rejected_peak; repeat case_match; done.
Qed.

Lemma new_tracker_represents cap : u64 cap ->
  tracker_wf (new_tracker cap) /\ represents (new_tracker cap) (mkLedger cap 0 0 false).
Proof.
  intros Hcap. unfold tracker_wf, represents, peak_bytes, u64 in *. cbn. intuition lia.
Qed.

(** C40. The allocator tracker implements the abstract ledger: after any
    sequence of reserve and release calls its live bytes are the exact sum
    of what was accepted, never above the cap, and the peak it reports is
    the largest total ever requested (saturated at 2^64-1), refused
    requests included. *)
Theorem allocator_refines_ledger cap ops :
  u64 cap -> Forall op_wf ops ->
  tracker_wf (alloc_run (new_tracker cap) ops) /\
  represents (alloc_run (new_tracker cap) ops) (ledger_run cap ops).
Proof.
  intros Hcap Hops. destruct (new_tracker_represents cap Hcap).
  by apply alloc_run_invariant.
Qed.

(** Under any cap the policy accepts, a certified tracker sample proves
    that no reservation was ever refused: the peak it certifies includes
    rejected attempts, so an over-cap request cannot be hidden by releasing
    memory afterwards. *)
Theorem certified_sample_never_refused cap ops :
  u64 cap -> gcp_accepted (validate_gpu_hard_cap cap) = true -> Forall op_wf ops ->
  cc_certified (certify_cap (tracker_sample (alloc_run (new_tracker cap) ops)) cap) = true ->
  al_refused (ledger_run cap ops) = false.
Proof.
  intros Hcap Hpol%validate_gpu_hard_cap_accepted Hops Hcert; [|done].
  destruct (new_tracker_represents cap Hcap) as [Hwf Hrep].
  destruct (alloc_run_invariant ops _ _ Hwf Hrep ltac:(done) Hops) as [_ (Hc & _ & Hp & Hr)].
  fold (ledger_run cap ops) in *. unfold certify_cap, certify_cap_with in Hcert.
  revert Hcert. cbv zeta. cascade. intros (_ & _ & _ & Hpeak & _). revert Hpeak. cbn. bool_iff.
  rewrite Hp. intros Hpeak. apply not_true_is_false. rewrite Hr.
  rewrite <- Hc, alloc_run_cap. cbn [new_tracker hard_cap_bytes_]. unfold kMaxGpuHardCapBytes in *.
  unfold u64 in *. lia.
Qed.

(** Witnesses: a tracker capped at 1 GiB that reserves 700 MiB, is refused a
    further 400 MiB, releases everything and reserves again. *)
Definition demo_ops : list AllocOp :=
  [OpReserve 734003200; OpReserve 419430400; OpRelease 734003200; OpReserve 1000].

Lemma demo_ops_wf : Forall op_wf demo_ops.
Proof. repeat constructor; unfold op_wf, u64; lia. Defined.

Lemma certify_cap_iff_witness :
  cap_certifiable (tracker_sample (alloc_run (new_tracker 4096) [OpReserve 4096])) 4096
    default_CapTolerances.
Proof.
  apply (certify_cap_iff _ 4096 default_CapTolerances);
    [closed_bounds|closed_bounds|vm_compute; reflexivity].
Defined.

Lemma allocator_refines_ledger_witness :
  peak_bytes (alloc_run (new_tracker 1073741824) demo_ops) = 1153433600 /\
  represents (alloc_run (new_tracker 1073741824) demo_ops) (ledger_run 1073741824 demo_ops).
Proof.
  split; [vm_compute; reflexivity|].
  apply (allocator_refines_ledger 1073741824 demo_ops); [unfold u64; lia|apply demo_ops_wf].
Defined.

Lemma certified_sample_never_refused_witness :
  al_refused (ledger_run 1073741824 [OpReserve 1000; OpRelease 500]) = false.
Proof.
  apply (certified_sample_never_refused 1073741824 [OpReserve 1000; OpRelease 500]);
    [unfold u64; lia|vm_compute; reflexivity|repeat constructor; unfold op_wf, u64; lia|
     vm_compute; reflexivity].
Defined.

End MemoryCap.
