(* ===== verification/HostAdmission.v ===== *)
(** * Host memory telemetry and host admission

    [src/governor/host_memory_tracker.cpp] samples the Windows counters;
    [src/governor/host_admission.cpp] decides from such a sample whether a
    run may be admitted.  The Windows calls are the argument [WindowsHost]
    of the sampler: one field per documented result. *)

From S2P Require Import Prelude.
From S2P Require Import CheckedArithmetic.
Import CheckedArithmetic.

Module HostAdmission.

(** ** Telemetry sample ([host_memory_tracker.h]) *)

Record HostTelemetrySample := mkHostSample {
  hts_available : bool;
  hts_unavailable_reason : string;
  hts_system_commit_source : string;
  hts_captured_monotonic_milliseconds : Z;
  hts_process_id : Z;
  hts_process_image_path : string;
  hts_process_working_set_current_bytes : Z;
  hts_process_working_set_peak_bytes : Z;
  hts_process_private_commit_current_bytes : Z;
  hts_process_private_commit_peak_bytes : Z;
  hts_system_memory_total_bytes : Z;
  hts_system_memory_available_bytes : Z;
  hts_system_commit_total_bytes : Z;
  hts_system_commit_limit_bytes : Z;
  hts_system_commit_available_bytes : Z;
  hts_pagefile_configuration_available : bool;
  hts_pagefile_configuration_unavailable_reason : string;
  hts_pagefile_count : Z;
  hts_pagefile_total_bytes : Z;
  hts_pagefile_current_usage_bytes : Z;
  hts_pagefile_peak_usage_bytes : Z;
  hts_process_io_read_bytes : Z;
  hts_process_io_write_bytes : Z;
}.

Definition default_HostTelemetrySample : HostTelemetrySample :=
  mkHostSample false "" "" 0 0 "" 0 0 0 0 0 0 0 0 0 false "" 0 0 0 0 0 0.

(** ** The Windows calls the sampler makes *)

Record ProcessMemoryCounters := mkCounters {
  WorkingSetSize : Z; PeakWorkingSetSize : Z; PrivateUsage : Z; PeakPagefileUsage : Z }.

Record PerformanceInformation := mkPerformance {
  PhysicalTotal : Z; PhysicalAvailable : Z; CommitTotal : Z; CommitLimit : Z; PageSize : Z }.

Record PageFileInformation := mkPageFile { TotalSize : Z; TotalInUse : Z; PeakUsage : Z }.

Record IoCounters := mkIo { ReadTransferCount : Z; WriteTransferCount : Z }.

(** [None] is the documented failure return of the call; the page-file
    enumeration reports one record per page file and a final status. *)
Record WindowsHost := mkWindowsHost {
  GetProcessMemoryInfo : option ProcessMemoryCounters;
  GetPerformanceInfo : option PerformanceInformation;
  dwPageSize : Z;
  EnumPageFiles_records : list PageFileInformation;
  EnumPageFiles_status : bool;
  monotonic_time_milliseconds : Z;
  GetProcessIoCounters : option IoCounters;
  GetModuleFileName_length : Z;
  GetModuleFileName_utf8 : string;
  GetCurrentProcessId : Z;
}.

Definition checked_pages_to_bytes (pages page_size : Z) : option Z :=
  if page_size =? 0 then None
  else if u64_max / page_size <? pages then None
  else Some (pages *64 page_size).

(** ** Page files *)

Record PagefileAccumulator := mkAccumulator {
  pfa_page_size : Z;
  pfa_overflow : bool;
  pfa_count : Z;
  pfa_total_bytes : Z;
  pfa_current_usage_bytes : Z;
  pfa_peak_usage_bytes : Z;
}.

(** The enumeration callback: the accumulator after the call and whether
    the enumeration goes on. *)
Definition accumulate_pagefile (a : PagefileAccumulator) (i : PageFileInformation)
    : PagefileAccumulator * bool :=
  let overflowed := {| a with pfa_overflow := true |} in
  if (pfa_page_size a =? 0) || (pfa_count a =? u32_max) then (overflowed, false)
  else
    match checked_pages_to_bytes (TotalSize i) (pfa_page_size a),
          checked_pages_to_bytes (TotalInUse i) (pfa_page_size a),
          checked_pages_to_bytes (PeakUsage i) (pfa_page_size a) with
    | Some total, Some current, Some peak =>
        if (u64_max - pfa_total_bytes a <? total) ||
           (u64_max - pfa_current_usage_bytes a <? current) ||
           (u64_max - pfa_peak_usage_bytes a <? peak) then (overflowed, false)
        else
          (mkAccumulator (pfa_page_size a) (pfa_overflow a) (pfa_count a +32 1)
             (pfa_total_bytes a +64 total) (pfa_current_usage_bytes a +64 current)
             (pfa_peak_usage_bytes a +64 peak), true)
    | _, _, _ => (overflowed, false)
    end.

(** [EnumPageFilesW] calls the callback once per page file until it returns
    [FALSE]. *)
Fixpoint enum_pagefiles (a : PagefileAccumulator) (l : list PageFileInformation)
    : PagefileAccumulator :=
  match l with
  | [] => a
  | i :: l' => let '(a', continue) := accumulate_pagefile a i in
               if continue then enum_pagefiles a' l' else a'
  end.

Definition sample_pagefiles (w : WindowsHost) (sample : HostTelemetrySample)
    : HostTelemetrySample :=
  let initial := mkAccumulator (dwPageSize w) false 0 0 0 0 in
  let pagefiles :=
    if pfa_page_size initial =? 0 then initial
    else enum_pagefiles initial (EnumPageFiles_records w) in
  if (pfa_page_size pagefiles =? 0) || negb (EnumPageFiles_status w) || pfa_overflow pagefiles then
    {| sample with hts_pagefile_configuration_unavailable_reason :=
         if pfa_overflow pagefiles then "pagefile_counter_overflow"
         else "pagefile_configuration_unavailable" |}
  else if (pfa_total_bytes pagefiles <? pfa_current_usage_bytes pagefiles) ||
          (pfa_total_bytes pagefiles <? pfa_peak_usage_bytes pagefiles) ||
          (pfa_peak_usage_bytes pagefiles <? pfa_current_usage_bytes pagefiles) then
    {| sample with hts_pagefile_configuration_unavailable_reason :=
         "pagefile_counters_contradictory" |}
  else
    {| sample with
       hts_pagefile_configuration_available := true;
       hts_pagefile_count := pfa_count pagefiles;
       hts_pagefile_total_bytes := pfa_total_bytes pagefiles;
       hts_pagefile_current_usage_bytes := pfa_current_usage_bytes pagefiles;
       hts_pagefile_peak_usage_bytes := pfa_peak_usage_bytes pagefiles |}.

(** ** The sampler *)

Definition unavailable (sample : HostTelemetrySample) (reason : string) : HostTelemetrySample :=
  {| sample with hts_unavailable_reason := reason |}.

(** The tail of the sampler: clock, I/O counters and process identity. *)
Definition sample_process (w : WindowsHost) (memory : ProcessMemoryCounters)
    (sample : HostTelemetrySample) : HostTelemetrySample :=
  let captured := monotonic_time_milliseconds w in
  if captured =? 0 then unavailable sample "monotonic_clock_invalid"
  else
    let sample := {| sample with hts_captured_monotonic_milliseconds := captured |} in
    match GetProcessIoCounters w with
    | None => unavailable sample "process_io_counters_unavailable"
    | Some io =>
        if (GetModuleFileName_length w =? 0) || (32768 <=? GetModuleFileName_length w) then
          unavailable sample "process_image_identity_unavailable"
        else
          let sample := {| sample with hts_process_image_path := GetModuleFileName_utf8 w |} in
          if str_empty (hts_process_image_path sample) then
            unavailable sample "process_image_identity_encoding_failed"
          else
            {| sample with
               hts_available := true;
               hts_process_id := GetCurrentProcessId w;
               hts_process_working_set_current_bytes := WorkingSetSize memory;
               hts_process_working_set_peak_bytes := PeakWorkingSetSize memory;
               hts_process_private_commit_current_bytes := PrivateUsage memory;
               hts_process_private_commit_peak_bytes := PeakPagefileUsage memory;
               hts_process_io_read_bytes := ReadTransferCount io;
               hts_process_io_write_bytes := WriteTransferCount io |}
    end.

(** The sample with the four system counters filled in. *)
Definition system_counters (total available commit_total commit_limit : Z) : HostTelemetrySample :=
  {| default_HostTelemetrySample with
     hts_system_memory_total_bytes := total;
     hts_system_memory_available_bytes := available;
     hts_system_commit_total_bytes := commit_total;
     hts_system_commit_limit_bytes := commit_limit |}.

(** The four page counters are converted in order with short-circuit [||]:
    a failed conversion leaves its field and the later ones at zero. *)
Definition sample_system (p : PerformanceInformation) : HostTelemetrySample + HostTelemetrySample :=
  match checked_pages_to_bytes (PhysicalTotal p) (PageSize p) with
  | None => inr (system_counters 0 0 0 0)
  | Some total =>
  match checked_pages_to_bytes (PhysicalAvailable p) (PageSize p) with
  | None => inr (system_counters total 0 0 0)
  | Some available =>
  match checked_pages_to_bytes (CommitTotal p) (PageSize p) with
  | None => inr (system_counters total available 0 0)
  | Some commit_total =>
  match checked_pages_to_bytes (CommitLimit p) (PageSize p) with
  | None => inr (system_counters total available commit_total 0)
  | Some commit_limit => inl (system_counters total available commit_total commit_limit)
  end end end end.

Definition sample_host_telemetry (w : WindowsHost) : HostTelemetrySample :=
  match GetProcessMemoryInfo w with
  | None => unavailable default_HostTelemetrySample "process_memory_counters_unavailable"
  | Some memory =>
      match GetPerformanceInfo w with
      | None => unavailable default_HostTelemetrySample "system_performance_info_unavailable"
      | Some performance =>
          match sample_system performance with
          | inr partial => unavailable partial "system_memory_counter_overflow"
          | inl sample =>
              if (hts_system_memory_total_bytes sample =? 0) ||
                 (hts_system_memory_total_bytes sample <? hts_system_memory_available_bytes sample) ||
                 (hts_system_commit_limit_bytes sample <? hts_system_commit_total_bytes sample) then
                unavailable sample "system_memory_counters_contradictory"
              else
                let sample := {| sample with
                  hts_system_commit_available_bytes :=
                    hts_system_commit_limit_bytes sample -64 hts_system_commit_total_bytes sample;
                  hts_system_commit_source := "get_performance_info" |} in
                sample_process w memory (sample_pagefiles w sample)
          end
      end
  end.

(** ** Admission policy and request ([host_admission.h]) *)

(** [LaneOther] stands for any other value of the underlying integer. *)
Inductive HostAdmissionLane := DevelopmentNonPromotable | EvidencePromotable | LaneOther (n : Z).

#[export] Instance lane_eq_dec : EqDecision HostAdmissionLane.
Proof. solve_decision. Defined.

Record HostReservePolicy := mkReservePolicy {
  hrp_lane : HostAdmissionLane;
  hrp_physical_reserve_floor_bytes : Z;
  hrp_physical_reserve_basis_points : Z;
  hrp_commit_reserve_floor_bytes : Z;
  hrp_commit_limit_reserve_basis_points : Z;
  hrp_commit_physical_reserve_basis_points : Z;
}.

Record HostAdmissionRequest := mkHostRequest {
  har_planned_incremental_resident_bytes : Z;
  har_planned_incremental_commit_bytes : Z;
  har_resident_uncertainty_bytes : Z;
  har_commit_uncertainty_bytes : Z;
  har_pinned_host_bytes : Z;
  har_explicit_physical_reserve_bytes : Z;
  har_explicit_commit_reserve_bytes : Z;
  har_evaluation_monotonic_milliseconds : Z;
  har_max_telemetry_age_milliseconds : Z;
  har_promotion_requested : bool;
}.

Record HostAdmissionDecision := mkHostDecision {
  had_admitted : bool;
  had_promotable : bool;
  had_reason : string;
  had_lane : HostAdmissionLane;
  had_physical_reserve_bytes : Z;
  had_commit_reserve_bytes : Z;
  had_commit_headroom_bytes : Z;
  had_physical_payload_bytes : Z;
  had_commit_payload_bytes : Z;
  had_effective_payload_bytes : Z;
  had_required_resident_bytes : Z;
  had_required_commit_bytes : Z;
  had_pinned_host_cap_bytes : Z;
}.

Definition default_HostAdmissionDecision : HostAdmissionDecision :=
  mkHostDecision false false "" DevelopmentNonPromotable 0 0 0 0 0 0 0 0 0.

Definition kGiB : Z := Z.shiftl 1 30.
Definition kMiB : Z := Z.shiftl 1 20.
Definition kMaximumTelemetryAgeMilliseconds : Z := 500.

Definition default_host_reserve_policy (lane : HostAdmissionLane) : HostReservePolicy :=
  match lane with
  | EvidencePromotable => mkReservePolicy lane (4 * kGiB) 1500 (4 * kGiB) 1000 1500
  | _ => mkReservePolicy lane (2 * kGiB) 800 (2 * kGiB) 500 0
  end.

Definition lane_to_string (lane : HostAdmissionLane) : string :=
  match lane with
  | EvidencePromotable => "evidence_promotable"
  | DevelopmentNonPromotable => "development_nonpromotable"
  | LaneOther _ => "invalid"
  end.

Definition is_development (lane : HostAdmissionLane) : bool :=
  bool_decide (lane = DevelopmentNonPromotable).
Definition is_evidence (lane : HostAdmissionLane) : bool :=
  bool_decide (lane = EvidencePromotable).

Definition reject (decision : HostAdmissionDecision) (reason : string) : HostAdmissionDecision :=
  {| decision with had_reason := reason |}.

(** [checked_add] of three terms, as the code chains it through the
    optional. *)
Definition checked_add3 (a b c : Z) : option Z :=
  match checked_add_u64 a b with
  | Some ab => checked_add_u64 ab c
  | None => None
  end.

Definition evaluate_host_admission (sample : HostTelemetrySample) (policy : HostReservePolicy)
    (request : HostAdmissionRequest) : HostAdmissionDecision :=
  let decision := {| default_HostAdmissionDecision with had_lane := hrp_lane policy |} in
  if negb (is_development (hrp_lane policy)) && negb (is_evidence (hrp_lane policy)) then
    reject decision "host_admission_lane_invalid"
  else if negb (hts_available sample) then
    reject decision "host_telemetry_unavailable"
  else if (hts_captured_monotonic_milliseconds sample =? 0) ||
          (har_evaluation_monotonic_milliseconds request =? 0) then
    reject decision "host_telemetry_timestamp_unavailable"
  else if (har_max_telemetry_age_milliseconds request =? 0) ||
          (kMaximumTelemetryAgeMilliseconds <? har_max_telemetry_age_milliseconds request) then
    reject decision "host_telemetry_freshness_policy_invalid"
  else if har_evaluation_monotonic_milliseconds request <?
          hts_captured_monotonic_milliseconds sample then
    reject decision "host_telemetry_clock_anomaly"
  else if har_max_telemetry_age_milliseconds request <?
          har_evaluation_monotonic_milliseconds request -64
            hts_captured_monotonic_milliseconds sample then
    reject decision "host_telemetry_stale"
  else if hts_system_commit_source sample <>s "get_performance_info" then
    reject decision "system_commit_source_not_authoritative"
  else if (hts_system_memory_total_bytes sample =? 0) ||
          (hts_system_memory_total_bytes sample <? hts_system_memory_available_bytes sample) ||
          (hts_system_commit_limit_bytes sample <? hts_system_commit_total_bytes sample) then
    reject decision "host_telemetry_contradictory"
  else
  let commit_headroom :=
    hts_system_commit_limit_bytes sample -64 hts_system_commit_total_bytes sample in
  if hts_system_commit_available_bytes sample <>z commit_headroom then
    reject decision "host_commit_headroom_mismatch"
  else
  let decision := {| decision with had_commit_headroom_bytes := commit_headroom |} in
  let canonical_policy := default_host_reserve_policy (hrp_lane policy) in
  let physical_basis_points :=
    Z.max (hrp_physical_reserve_basis_points canonical_policy)
          (hrp_physical_reserve_basis_points policy) in
  let commit_limit_basis_points :=
    Z.max (hrp_commit_limit_reserve_basis_points canonical_policy)
          (hrp_commit_limit_reserve_basis_points policy) in
  let commit_physical_basis_points :=
    Z.max (hrp_commit_physical_reserve_basis_points canonical_policy)
          (hrp_commit_physical_reserve_basis_points policy) in
  match checked_basis_points_u64 (hts_system_memory_total_bytes sample) physical_basis_points Up with
  | None => reject decision "host_reserve_policy_invalid_or_overflowed"
  | Some physical_fraction =>
  match checked_basis_points_u64 (hts_system_commit_limit_bytes sample) commit_limit_basis_points Up with
  | None => reject decision "host_reserve_policy_invalid_or_overflowed"
  | Some commit_limit_fraction =>
  match checked_basis_points_u64 (hts_system_memory_total_bytes sample) commit_physical_basis_points Up with
  | None => reject decision "host_reserve_policy_invalid_or_overflowed"
  | Some commit_physical_fraction =>
  let physical_reserve :=
    Z.max (Z.max (hrp_physical_reserve_floor_bytes canonical_policy)
                 (hrp_physical_reserve_floor_bytes policy))
          (Z.max physical_fraction (har_explicit_physical_reserve_bytes request)) in
  let commit_reserve :=
    Z.max (Z.max (Z.max (hrp_commit_reserve_floor_bytes canonical_policy)
                        (hrp_commit_reserve_floor_bytes policy))
                 (Z.max commit_limit_fraction commit_physical_fraction))
          (har_explicit_commit_reserve_bytes request) in
  let decision := {| decision with had_physical_reserve_bytes := physical_reserve;
                                   had_commit_reserve_bytes := commit_reserve |} in
  if hts_system_memory_available_bytes sample <? physical_reserve then
    reject decision "host_physical_reserve_unavailable"
  else if commit_headroom <? commit_reserve then
    reject decision "host_commit_reserve_unavailable"
  else
  let physical_payload := hts_system_memory_available_bytes sample -64 physical_reserve in
  let commit_payload := commit_headroom -64 commit_reserve in
  let decision := {| decision with
    had_physical_payload_bytes := physical_payload;
    had_commit_payload_bytes := commit_payload;
    had_effective_payload_bytes := Z.min physical_payload commit_payload |} in
  match checked_basis_points_u64 (hts_system_memory_total_bytes sample) 200 Down with
  | None => reject decision "pinned_host_cap_overflowed"
  | Some pinned_cap =>
  let pinned_host_cap := Z.min (512 * kMiB) pinned_cap in
  let decision := {| decision with had_pinned_host_cap_bytes := pinned_host_cap |} in
  if pinned_host_cap <? har_pinned_host_bytes request then
    reject decision "pinned_host_cap_exceeded"
  else
  match checked_add3 (har_planned_incremental_resident_bytes request)
          (har_resident_uncertainty_bytes request) (har_pinned_host_bytes request) with
  | None => reject decision "required_resident_bytes_overflowed"
  | Some required_resident =>
  let decision := {| decision with had_required_resident_bytes := required_resident |} in
  match checked_add3 (har_planned_incremental_commit_bytes request)
          (har_commit_uncertainty_bytes request) (har_pinned_host_bytes request) with
  | None => reject decision "required_commit_bytes_overflowed"
  | Some required_commit =>
  let decision := {| decision with had_required_commit_bytes := required_commit |} in
  if physical_payload <? required_resident then
    reject decision "planned_resident_peak_exceeds_payload"
  else if commit_payload <? required_commit then
    reject decision "planned_commit_peak_exceeds_payload"
  else if har_promotion_requested request && is_development (hrp_lane policy) then
    reject decision "development_lane_is_nonpromotable"
  else
    {| decision with
       had_admitted := true;
       had_promotable := is_evidence (hrp_lane policy) && har_promotion_requested request;
       had_reason := "admitted" |}
  end end end end end end.

(** ** Well-formed inputs: every counter is a machine word *)

Definition host_sample_wf (s : HostTelemetrySample) : Prop :=
  u64 (hts_captured_monotonic_milliseconds s) /\
  u64 (hts_system_memory_total_bytes s) /\ u64 (hts_system_memory_available_bytes s) /\
  u64 (hts_system_commit_total_bytes s) /\ u64 (hts_system_commit_limit_bytes s).

Definition host_policy_wf (p : HostReservePolicy) : Prop :=
  u64 (hrp_physical_reserve_floor_bytes p) /\ u32 (hrp_physical_reserve_basis_points p) /\
  u64 (hrp_commit_reserve_floor_bytes p) /\ u32 (hrp_commit_limit_reserve_basis_points p) /\
  u32 (hrp_commit_physical_reserve_basis_points p).

Definition host_request_wf (r : HostAdmissionRequest) : Prop :=
  Forall u64 [har_planned_incremental_resident_bytes r; har_planned_incremental_commit_bytes r;
    har_resident_uncertainty_bytes r; har_commit_uncertainty_bytes r; har_pinned_host_bytes r;
    har_explicit_physical_reserve_bytes r; har_explicit_commit_reserve_bytes r;
    har_evaluation_monotonic_milliseconds r; har_max_telemetry_age_milliseconds r].

(** ** The abstract admission rule, over unbounded integers *)

(** [bp] basis points of [x], rounded up. *)
Definition fraction_up (x bp : Z) : Z := (x * bp + 9999) / 10000.

Definition physical_reserve_spec (s : HostTelemetrySample) (p : HostReservePolicy)
    (r : HostAdmissionRequest) : Z :=
  let c := default_host_reserve_policy (hrp_lane p) in
  Z.max (Z.max (hrp_physical_reserve_floor_bytes c) (hrp_physical_reserve_floor_bytes p))
    (Z.max (fraction_up (hts_system_memory_total_bytes s)
              (Z.max (hrp_physical_reserve_basis_points c) (hrp_physical_reserve_basis_points p)))
           (har_explicit_physical_reserve_bytes r)).

Definition commit_reserve_spec (s : HostTelemetrySample) (p : HostReservePolicy)
    (r : HostAdmissionRequest) : Z :=
  let c := default_host_reserve_policy (hrp_lane p) in
  Z.max (Z.max (Z.max (hrp_commit_reserve_floor_bytes c) (hrp_commit_reserve_floor_bytes p))
    (Z.max (fraction_up (hts_system_commit_limit_bytes s)
              (Z.max (hrp_commit_limit_reserve_basis_points c)
                     (hrp_commit_limit_reserve_basis_points p)))
           (fraction_up (hts_system_memory_total_bytes s)
              (Z.max (hrp_commit_physical_reserve_basis_points c)
                     (hrp_commit_physical_reserve_basis_points p)))))
    (har_explicit_commit_reserve_bytes r).

Definition resident_demand (r : HostAdmissionRequest) : Z :=
  har_planned_incremental_resident_bytes r + har_resident_uncertainty_bytes r +
  har_pinned_host_bytes r.

Definition commit_demand (r : HostAdmissionRequest) : Z :=
  har_planned_incremental_commit_bytes r + har_commit_uncertainty_bytes r +
  har_pinned_host_bytes r.

(** The telemetry is present, recent and self-consistent. *)
Definition telemetry_trusted (s : HostTelemetrySample) (r : HostAdmissionRequest) : Prop :=
  hts_available s = true /\ hts_captured_monotonic_milliseconds s <> 0 /\
  har_evaluation_monotonic_milliseconds r <> 0 /\
  (har_max_telemetry_age_milliseconds r <> 0 /\ har_max_telemetry_age_milliseconds r <= 500) /\
  hts_captured_monotonic_milliseconds s <= har_evaluation_monotonic_milliseconds r /\
  har_evaluation_monotonic_milliseconds r - hts_captured_monotonic_milliseconds s
    <= har_max_telemetry_age_milliseconds r /\
  hts_system_commit_source s = "get_performance_info"%string /\
  hts_system_memory_total_bytes s <> 0 /\
  hts_system_memory_available_bytes s <= hts_system_memory_total_bytes s /\
  hts_system_commit_total_bytes s <= hts_system_commit_limit_bytes s /\
  hts_system_commit_available_bytes s =
    hts_system_commit_limit_bytes s - hts_system_commit_total_bytes s.

Definition basis_points_valid (p : HostReservePolicy) : Prop :=
  hrp_physical_reserve_basis_points p <= 10000 /\
  hrp_commit_limit_reserve_basis_points p <= 10000 /\
  hrp_commit_physical_reserve_basis_points p <= 10000.

Definition host_admissible (s : HostTelemetrySample) (p : HostReservePolicy)
    (r : HostAdmissionRequest) : Prop :=
  (hrp_lane p = DevelopmentNonPromotable \/ hrp_lane p = EvidencePromotable) /\
  telemetry_trusted s r /\ basis_points_valid p /\
  physical_reserve_spec s p r + resident_demand r <= hts_system_memory_available_bytes s /\
  commit_reserve_spec s p r + commit_demand r
    <= hts_system_commit_limit_bytes s - hts_system_commit_total_bytes s /\
  har_pinned_host_bytes r <= Z.min 536870912 (hts_system_memory_total_bytes s * 200 / 10000) /\
  (har_promotion_requested r = true -> hrp_lane p = EvidencePromotable).

Lemma checked_add3_spec a b c : u64 a -> u64 b -> u64 c ->
  checked_add3 a b c = if a + b + c <=? u64_max then Some (a + b + c) else None.
Proof.
  intros Ha Hb Hc. unfold checked_add3. rewrite checked_add_spec by done.
  destruct (Z.leb_spec (a + b) u64_max).
  - rewrite checked_add_spec by (unfold u64 in *; lia). done.
  - unfold u64 in *. destruct (Z.leb_spec (a + b + c) u64_max); [lia|done].
Qed.

Lemma if_Some_iff {A} (b : bool) (x v : A) :
  (if b then Some x else None) = Some v <-> b = true /\ v = x.
Proof. destruct b; naive_solver. Qed.

Lemma canonical_basis_points lane :
  let c := default_host_reserve_policy lane in
  u32 (hrp_physical_reserve_basis_points c) /\ hrp_physical_reserve_basis_points c <= 10000 /\
  u32 (hrp_commit_limit_reserve_basis_points c) /\ hrp_commit_limit_reserve_basis_points c <= 10000 /\
  u32 (hrp_commit_physical_reserve_basis_points c) /\
  hrp_commit_physical_reserve_basis_points c <= 10000 /\
  0 < hrp_physical_reserve_floor_bytes c /\ 0 < hrp_commit_reserve_floor_bytes c.
Proof. destruct lane; vm_compute; repeat split; intro; discriminate. Qed.

Lemma lane_valid_iff lane :
  negb (is_development lane) && negb (is_evidence lane) = false <->
  lane = DevelopmentNonPromotable \/ lane = EvidencePromotable.
Proof. unfold is_development, is_evidence. repeat case_bool_decide; naive_solver. Qed.

Lemma promotion_allowed_iff b lane :
  lane = DevelopmentNonPromotable \/ lane = EvidencePromotable ->
  b && is_development lane = false <-> (b = true -> lane = EvidencePromotable).
Proof.
  intros [-> | ->]; unfold is_development; destruct b; case_bool_decide; naive_solver.
Qed.

(** Reduce the record plumbing of the evaluation and nothing else. *)
Ltac host_norm :=
  lazy beta iota zeta delta [evaluate_host_admission reject default_HostAdmissionDecision
    had_admitted had_promotable had_reason had_lane had_physical_reserve_bytes
    had_commit_reserve_bytes had_commit_headroom_bytes had_physical_payload_bytes
    had_commit_payload_bytes had_effective_payload_bytes had_required_resident_bytes
    had_required_commit_bytes had_pinned_host_cap_bytes].

Lemma physical_reserve_positive s p r : 0 < physical_reserve_spec s p r.
Proof.
  destruct (canonical_basis_points (hrp_lane p)) as (_&_&_&_&_&_&?&_).
  unfold physical_reserve_spec. cbv zeta. lia.
Qed.

Lemma commit_reserve_positive s p r : 0 < commit_reserve_spec s p r.
Proof.
  destruct (canonical_basis_points (hrp_lane p)) as (_&_&_&_&_&_&_&?).
  unfold commit_reserve_spec. cbv zeta. lia.
Qed.

Lemma host_admitted_iff s p r :
  host_sample_wf s -> host_policy_wf p -> host_request_wf r ->
  had_admitted (evaluate_host_admission s p r) = true <-> host_admissible s p r.
Proof.
  intros (Hcap & Htot & Hav & Hct & Hcl) (Hpf & Hpb & Hcf & Hlb & Hqb) Hr.
  unfold host_request_wf in Hr. rewrite !Forall_cons in Hr. destruct Hr as (?&?&?&?&?&?&?&?&?&_).
  destruct (canonical_basis_points (hrp_lane p)) as (?&?&?&?&?&?&_&_).
  pose proof (physical_reserve_positive s p r). pose proof (commit_reserve_positive s p r).
  observe had_admitted as q. host_norm.
  rewrite !basis_points_spec, !checked_add3_spec by (done || unfold u32 in *; lia).
  cascade. bool_iff. rewrite lane_valid_iff. subst q. cbn [had_admitted].
  lazymatch goal with |- context [?e <= hts_system_memory_available_bytes s] =>
    change e with (physical_reserve_spec s p r) end.
  lazymatch goal with |- context [?e <= hts_system_commit_limit_bytes s -64 _] =>
    change e with (commit_reserve_spec s p r) end.
  change (512 * kMiB) with 536870912. change (200 <=? 10000) with true.
  unfold host_admissible, telemetry_trusted, basis_points_valid, resident_demand, commit_demand,
    kMaximumTelemetryAgeMilliseconds.
  split.
  - intros (Hl & ? & [??] & [??] & ? & Hage & ? & [[??]?] & Hhead & ? & ? & ? & Hp & Hc & _ & ? & ? & ? &
            Hpp & Hcc & Hprom & _).
    rewrite promotion_allowed_iff in Hprom by done.
    rewrite (wrap64_sub (hts_system_commit_limit_bytes s)) in Hhead, Hc, Hcc by done.
    rewrite wrap64_sub in Hage by done.
    rewrite wrap64_sub in Hpp by (done || unfold u64 in *; lia).
    rewrite wrap64_sub in Hcc by (done || unfold u64 in *; lia).
    split_and!; done || lia.
  - intros (Hl & (?&?&?&[??]&?&?&?&?&?&?&?) & (?&?&?) & ? & ? & ? & Hprom).
    rewrite promotion_allowed_iff by done.
    rewrite !(wrap64_sub (hts_system_commit_limit_bytes s)) by done.
    rewrite (wrap64_sub (har_evaluation_monotonic_milliseconds r)) by done.
    rewrite (wrap64_sub (hts_system_memory_available_bytes s)) by (done || unfold u64 in *; lia).
    rewrite wrap64_sub by (unfold u64 in *; lia).
    split_and!; done || (unfold u64 in *; lia).
Qed.

(** What an admitted decision records. *)
Definition host_decision_exact (s : HostTelemetrySample) (p : HostReservePolicy)
    (r : HostAdmissionRequest) (d : HostAdmissionDecision) : Prop :=
  had_lane d = hrp_lane p /\
  had_physical_reserve_bytes d = physical_reserve_spec s p r /\
  had_commit_reserve_bytes d = commit_reserve_spec s p r /\
  had_commit_headroom_bytes d = hts_system_commit_available_bytes s /\
  had_physical_payload_bytes d =
    hts_system_memory_available_bytes s - physical_reserve_spec s p r /\
  had_required_resident_bytes d = resident_demand r /\
  had_required_commit_bytes d = commit_demand r /\
  had_promotable d = is_evidence (hrp_lane p) && har_promotion_requested r.

Lemma if_when_Some {A} (b : bool) (x v : A) :
  (if b then Some x else None) = Some v -> v = x.
Proof. destruct b; naive_solver. Qed.

Lemma host_admitted_exact s p r :
  host_sample_wf s -> host_policy_wf p -> host_request_wf r ->
  had_admitted (evaluate_host_admission s p r) = true ->
  host_decision_exact s p r (evaluate_host_admission s p r).
Proof.
  intros (Hcap & Htot & Hav & Hct & Hcl) (Hpf & Hpb & Hcf & Hlb & Hqb) Hr.
  unfold host_request_wf in Hr. rewrite !Forall_cons in Hr. destruct Hr as (?&?&?&?&?&?&?&?&?&_).
  destruct (canonical_basis_points (hrp_lane p)) as (?&?&?&?&?&?&_&_).
  pose proof (physical_reserve_positive s p r).
  set (P := fun d => had_admitted d = true -> host_decision_exact s p r d).
  change (P (evaluate_host_admission s p r)). host_norm.
  rewrite !basis_points_spec, !checked_add3_spec by (done || unfold u32 in *; lia).
  cascade_elim ltac:(intros [=]).
  repeat match goal with G : (if _ then Some _ else None) = Some _ |- _ =>
    apply if_when_Some in G; subst end.
  intros _. unfold host_decision_exact. cbn.
  lazymatch goal with G : (hts_system_memory_available_bytes s <? ?e) = false |- _ =>
    change e with (physical_reserve_spec s p r) in * end.
  bool_facts. split_and!; try reflexivity; [done|].
  rewrite wrap64_sub by (done || unfold u64 in *; lia). reflexivity.
Qed.

(** C37. Host admission implements the abstract rule exactly: a run is
    admitted if and only if the telemetry is fresh and self-consistent and,
    over unbounded integers, the reserve of the lane plus the whole planned
    demand fits in physical memory and in commit headroom, pinned memory is
    within its cap, and a development run asks for no promotion.  None of
    the 64-bit operations involved can wrap into an admission. *)
Theorem host_admission_correct s p r :
  host_sample_wf s -> host_policy_wf p -> host_request_wf r ->
  had_admitted (evaluate_host_admission s p r) = true <-> host_admissible s p r.
Proof. apply host_admitted_iff. Qed.

Definition canonical_floor (lane : HostAdmissionLane) : Z :=
  match lane with EvidencePromotable => 4294967296 | _ => 2147483648 end.

(** Policy values only tighten: when a run is admitted, the memory left
    after its whole demand still covers the canonical floor of the lane and
    the canonical fraction of physical memory, whatever overrides the policy
    and the request carry; the decision reports the demand it charged. *)
Theorem host_overrides_only_tighten s p r :
  host_sample_wf s -> host_policy_wf p -> host_request_wf r ->
  had_admitted (evaluate_host_admission s p r) = true ->
  let d := evaluate_host_admission s p r in
  let left := hts_system_memory_available_bytes s - had_required_resident_bytes d in
  let commit_left := hts_system_commit_available_bytes s - had_required_commit_bytes d in
  canonical_floor (hrp_lane p) <= had_physical_reserve_bytes d <= left /\
  canonical_floor (hrp_lane p) <= had_commit_reserve_bytes d <= commit_left /\
  fraction_up (hts_system_memory_total_bytes s)
    (hrp_physical_reserve_basis_points (default_host_reserve_policy (hrp_lane p))) <= left /\
  had_required_resident_bytes d = resident_demand r /\
  had_required_commit_bytes d = commit_demand r.
Proof.
  intros Hs Hp Hr Hadm. cbv zeta.
  destruct (host_admitted_exact s p r) as (_ & -> & -> & _ & _ & -> & -> & _); [done..|].
  apply host_admitted_iff in Hadm as (Hl & (?&?&?&_&?&?&?&?&?&?&->) & _ & ? & ? & _); [|done..].
  assert (canonical_floor (hrp_lane p) <= physical_reserve_spec s p r /\
          canonical_floor (hrp_lane p) <= commit_reserve_spec s p r /\
          fraction_up (hts_system_memory_total_bytes s)
            (hrp_physical_reserve_basis_points (default_host_reserve_policy (hrp_lane p)))
            <= physical_reserve_spec s p r) as (?&?&?).
  { destruct Hs as (_ & Htot & _). unfold physical_reserve_spec, commit_reserve_spec, fraction_up. cbv zeta.
    assert (forall a b, a <= b -> (hts_system_memory_total_bytes s * a + 9999) / 10000 <=
                                  (hts_system_memory_total_bytes s * b + 9999) / 10000) as Hmono.
    { intros a b Hab. apply Z.div_le_mono; [lia|]. unfold u64 in Htot. nia. }
    pose proof (Hmono _ _ (Z.le_max_l
      (hrp_physical_reserve_basis_points (default_host_reserve_policy (hrp_lane p)))
      (hrp_physical_reserve_basis_points p))).
    assert (hrp_physical_reserve_floor_bytes (default_host_reserve_policy (hrp_lane p))
              = canonical_floor (hrp_lane p) /\
            hrp_commit_reserve_floor_bytes (default_host_reserve_policy (hrp_lane p))
              = canonical_floor (hrp_lane p)) as [-> ->] by (destruct (hrp_lane p); done).
    lia. }
  lia.
Qed.

(** ** The sampler *)

Definition windows_host_wf (w : WindowsHost) : Prop :=
  u64 (monotonic_time_milliseconds w) /\
  match GetPerformanceInfo w with
  | Some p => Forall u64 [PhysicalTotal p; PhysicalAvailable p; CommitTotal p; CommitLimit p; PageSize p]
  | None => True
  end /\
  Forall (fun f => Forall u64 [TotalSize f; TotalInUse f; PeakUsage f]) (EnumPageFiles_records w) /\
  u32 (dwPageSize w).

Lemma checked_pages_spec pages size : u64 pages -> u64 size ->
  checked_pages_to_bytes pages size =
    if size =? 0 then None else if pages * size <=? u64_max then Some (pages * size) else None.
Proof.
  intros Hp Hs. unfold checked_pages_to_bytes. destruct (Z.eqb_spec size 0) as [|Hne]; [done|].
  unfold u64 in *. pose proof (Z.div_mod u64_max size Hne).
  pose proof (Z.mod_pos_bound u64_max size ltac:(lia)).
  destruct (Z.ltb_spec (u64_max / size) pages), (Z.leb_spec (pages * size) u64_max); try nia; try done.
  by rewrite wrap64_small by (unfold u64; nia).
Qed.

Lemma checked_pages_Some pages size b : u64 pages -> u64 size ->
  checked_pages_to_bytes pages size = Some b -> b = pages * size /\ u64 b.
Proof.
  intros Hp Hs. rewrite checked_pages_spec by done. repeat case_match; try done.
  intros [= <-]. bool_facts. unfold u64 in *. nia.
Qed.

(** An available sample reports exactly the counters, consistently. *)
Definition host_sample_laws (s : HostTelemetrySample) : Prop :=
  host_sample_wf s /\ hts_captured_monotonic_milliseconds s <> 0 /\
  hts_system_commit_source s = "get_performance_info"%string /\
  hts_system_memory_total_bytes s <> 0 /\
  hts_system_memory_available_bytes s <= hts_system_memory_total_bytes s /\
  hts_system_commit_total_bytes s <= hts_system_commit_limit_bytes s /\
  hts_system_commit_available_bytes s =
    hts_system_commit_limit_bytes s - hts_system_commit_total_bytes s.

Lemma sample_system_laws p :
  Forall u64 [PhysicalTotal p; PhysicalAvailable p; CommitTotal p; CommitLimit p; PageSize p] ->
  match sample_system p with
  | inl s => exists t a c l, s = system_counters t a c l /\ u64 t /\ u64 a /\ u64 c /\ u64 l
  | inr partial => hts_available partial = false
  end.
Proof.
  rewrite !Forall_cons. intros (?&?&?&?&?&_). unfold sample_system.
  destruct (checked_pages_to_bytes (PhysicalTotal p) _) eqn:E1; [|done].
  destruct (checked_pages_to_bytes (PhysicalAvailable p) _) eqn:E2; [|done].
  destruct (checked_pages_to_bytes (CommitTotal p) _) eqn:E3; [|done].
  destruct (checked_pages_to_bytes (CommitLimit p) _) eqn:E4; [|done].
  apply checked_pages_Some in E1, E2, E3, E4; [|done..].
  eexists _, _, _, _. split; [reflexivity|]. tauto.
Qed.

(** The page-file stage only touches the page-file fields. *)
Lemma sample_pagefiles_frame w s :
  let s' := sample_pagefiles w s in
  hts_available s' = hts_available s /\
  hts_system_commit_source s' = hts_system_commit_source s /\
  hts_system_memory_total_bytes s' = hts_system_memory_total_bytes s /\
  hts_system_memory_available_bytes s' = hts_system_memory_available_bytes s /\
  hts_system_commit_total_bytes s' = hts_system_commit_total_bytes s /\
  hts_system_commit_limit_bytes s' = hts_system_commit_limit_bytes s /\
  hts_system_commit_available_bytes s' = hts_system_commit_available_bytes s.
Proof. unfold sample_pagefiles. cbv zeta. repeat (apply guard_elim; intros _); done. Qed.

Lemma sample_process_laws w m s : u64 (monotonic_time_milliseconds w) -> hts_available s = false ->
  let s' := sample_process w m s in
  hts_available s' = true ->
  u64 (hts_captured_monotonic_milliseconds s') /\ hts_captured_monotonic_milliseconds s' <> 0 /\
  hts_system_commit_source s' = hts_system_commit_source s /\
  hts_system_memory_total_bytes s' = hts_system_memory_total_bytes s /\
  hts_system_memory_available_bytes s' = hts_system_memory_available_bytes s /\
  hts_system_commit_total_bytes s' = hts_system_commit_total_bytes s /\
  hts_system_commit_limit_bytes s' = hts_system_commit_limit_bytes s /\
  hts_system_commit_available_bytes s' = hts_system_commit_available_bytes s.
Proof.
  intros Hclk Hs. cbv zeta. unfold sample_process. intros Hav. revert Hav.
  destruct (Z.eqb_spec (monotonic_time_milliseconds w) 0); [cbn; congruence|].
  destruct (GetProcessIoCounters w); [|cbn; congruence].
  destruct (_ || _); [cbn; congruence|]. destruct (str_empty _); [cbn; congruence|]. done.
Qed.

(** A sample the host tracker reports as available satisfies every
    consistency condition host admission checks: the byte conversions did
    not overflow, the clock is set and the commit headroom is the exact
    difference. *)
Theorem available_sample_is_consistent w :
  windows_host_wf w -> hts_available (sample_host_telemetry w) = true ->
  host_sample_laws (sample_host_telemetry w).
Proof.
  intros (Hclk & Hperf & _) Hav. unfold sample_host_telemetry in *.
  destruct (GetProcessMemoryInfo w) as [m|]; [|done].
  destruct (GetPerformanceInfo w) as [p|]; [|done].
  pose proof (sample_system_laws p Hperf) as Hsys.
  destruct (sample_system p) as [s|partial]; [|cbn in Hav; congruence].
  destruct Hsys as (t & a & c & l & -> & ? & ? & ? & ?).
  destruct (_ || _) eqn:Hguard in *; [done|]. cbn in Hguard. bool_facts.
  match goal with |- context [sample_pagefiles w ?x] => set (s1 := x) in * end.
  destruct (sample_pagefiles_frame w s1) as (Ha & Hsrc & Ht & Hm & Hc & Hl & Hh).
  apply sample_process_laws in Hav as (?&?&Hsrc'&Ht'&Hm'&Hc'&Hl'&Hh'); [|done|by rewrite Ha].
  unfold host_sample_laws, host_sample_wf.
  rewrite Hsrc', Ht', Hm', Hc', Hl', Hh', Hsrc, Ht, Hm, Hc, Hl, Hh.
  change (hts_system_commit_available_bytes s1) with (l -64 c).
  change (hts_system_commit_limit_bytes s1) with l. change (hts_system_commit_total_bytes s1) with c.
  change (hts_system_memory_available_bytes s1) with a.
  change (hts_system_memory_total_bytes s1) with t.
  rewrite wrap64_sub by done. split_and!; done.
Qed.

(** ** Witnesses: a 32 GiB evidence-lane host admitting an 8 GiB run *)

Definition demo_windows : WindowsHost :=
  mkWindowsHost (Some (mkCounters 1000 2000 3000 4000))
    (Some (mkPerformance 8388608 6291456 2097152 10485760 4096))
    4096 [mkPageFile 2097152 1024 2048] true 5000 (Some (mkIo 1 2)) 24 "C:/prism/supervisor.exe" 77.

Definition demo_host : HostTelemetrySample := sample_host_telemetry demo_windows.

Definition demo_policy : HostReservePolicy := mkReservePolicy EvidencePromotable 0 0 0 0 0.

Definition demo_request : HostAdmissionRequest :=
  mkHostRequest 8589934592 8589934592 268435456 268435456 67108864 0 0 5100 500 true.

Lemma demo_wf : host_sample_wf demo_host /\ host_policy_wf demo_policy /\ host_request_wf demo_request.
Proof. unfold host_request_wf. rewrite !Forall_cons, Forall_nil. closed_bounds. Defined.

Lemma demo_admitted : had_admitted (evaluate_host_admission demo_host demo_policy demo_request) = true.
Proof. vm_compute. reflexivity. Defined.

Lemma host_admission_correct_witness : host_admissible demo_host demo_policy demo_request.
Proof.
  destruct demo_wf as (?&?&?).
  apply (host_admission_correct demo_host demo_policy demo_request); [done..|apply demo_admitted].
Defined.

Lemma host_overrides_only_tighten_witness :
  4294967296 <= had_physical_reserve_bytes (evaluate_host_admission demo_host demo_policy demo_request).
Proof.
  destruct demo_wf as (?&?&?).
  destruct (host_overrides_only_tighten demo_host demo_policy demo_request) as [[Hf _] _];
    [done..|apply demo_admitted|exact Hf].
Defined.

Lemma available_sample_is_consistent_witness : host_sample_laws demo_host.
Proof.
  apply (available_sample_is_consistent demo_windows); [|vm_compute; reflexivity].
  unfold windows_host_wf. cbn [GetPerformanceInfo demo_windows EnumPageFiles_records].
  rewrite !Forall_cons, !Forall_nil. repeat split; vm_compute; intro; discriminate.
Defined.

End HostAdmission.
