(* ===== verification/GpuTelemetry.v ===== *)
(** * GPU telemetry records, thermal sampling and process-memory evidence

    The GPU samples of [include/prisminfer/supervisor_admission.h] and
    [include/prisminfer/windows_evidence.h], the NVML thermal sampler of
    [src/telemetry/gpu_thermal.cpp] and the independent process-memory
    evidence of [src/telemetry/windows_evidence.cpp].  NVML is the argument
    [NvmlDevice]. *)

From S2P Require Import Prelude.

Module GpuTelemetry.

Record PreContextGpuSample := mkGpuSample {
  pcg_available : bool;
  pcg_adapter_identity_available : bool;
  pcg_adapter_luid_high : Z;
  pcg_adapter_luid_low : Z;
  pcg_captured_monotonic_milliseconds : Z;
  pcg_physical_or_reportable_local_bytes : Z;
  pcg_dxgi_local_budget_bytes : Z;
  pcg_dxgi_local_current_usage_bytes : Z;
}.

Definition gpu_sample_wf (g : PreContextGpuSample) : Prop :=
  u64 (pcg_captured_monotonic_milliseconds g) /\
  u64 (pcg_physical_or_reportable_local_bytes g) /\
  u64 (pcg_dxgi_local_budget_bytes g) /\ u64 (pcg_dxgi_local_current_usage_bytes g).

(** ** Thermal sample *)

Inductive GpuThermalUnavailableReason :=
| ReasonNone | NvmlInitializationFailed | GpuUuidInvalid | DeviceHandleFailed
| TemperatureQueryFailed | TlimitFieldQueryFailed | TargetTlimitFieldFailed
| SlowdownTlimitFieldFailed | TargetTlimitTypeInvalid | SlowdownTlimitTypeInvalid
| FieldQueryClockInvalid | FieldTimestampInvalidOrStale | ClockEventQueryFailed
| TemperatureValueInvalid | MonotonicClockInvalid | TlimitConversionInvalid
| NvmlShutdownFailed | CudaProbeDisabled | ReasonOther (n : Z).

#[export] Instance thermal_reason_eq_dec : EqDecision GpuThermalUnavailableReason.
Proof. solve_decision. Defined.

Record GpuThermalSample := mkThermal {
  gts_available : bool;
  gts_unavailable_reason : GpuThermalUnavailableReason;
  gts_captured_monotonic_milliseconds : Z;
  gts_current_celsius : Z;
  gts_reported_target_celsius : option Z;
  gts_reported_slowdown_celsius : option Z;
  gts_thermal_throttling : bool;
  gts_power_brake_slowdown : bool;
}.

Definition default_GpuThermalSample : GpuThermalSample :=
  mkThermal false ReasonNone 0 0 None None false false.

Definition gpu_thermal_unavailable_reason_name (reason : GpuThermalUnavailableReason) : string :=
  match reason with
  | ReasonNone => "none"
  | NvmlInitializationFailed => "nvml_initialization_failed"
  | GpuUuidInvalid => "gpu_uuid_invalid"
  | DeviceHandleFailed => "nvml_device_handle_failed"
  | TemperatureQueryFailed => "nvml_temperature_query_failed"
  | TlimitFieldQueryFailed => "nvml_tlimit_field_query_failed"
  | TargetTlimitFieldFailed => "nvml_target_tlimit_field_failed"
  | SlowdownTlimitFieldFailed => "nvml_slowdown_tlimit_field_failed"
  | TargetTlimitTypeInvalid => "nvml_target_tlimit_type_invalid"
  | SlowdownTlimitTypeInvalid => "nvml_slowdown_tlimit_type_invalid"
  | FieldQueryClockInvalid => "nvml_field_query_clock_invalid"
  | FieldTimestampInvalidOrStale => "nvml_field_timestamp_invalid_or_stale"
  | ClockEventQueryFailed => "nvml_clock_event_query_failed"
  | TemperatureValueInvalid => "nvml_temperature_value_invalid"
  | MonotonicClockInvalid => "monotonic_clock_invalid"
  | TlimitConversionInvalid => "nvml_tlimit_conversion_invalid"
  | NvmlShutdownFailed => "nvml_shutdown_failed"
  | CudaProbeDisabled => "cuda_probe_disabled"
  | ReasonOther _ => "unknown"
  end.

Definition nvml_field_timestamps_are_fresh
    (first second query_start query_end maximum_age : Z) : bool :=
  if (first =? 0) || (second =? 0) || (query_start =? 0) || (query_end <? query_start) ||
     (maximum_age =? 0) then false
  else
    let earliest := if maximum_age <? query_start then query_start -64 maximum_age else 0 in
    (earliest <=? first) && (first <=? query_end) &&
    (earliest <=? second) && (second <=? query_end) &&
    ((if second <=? first then first -64 second else second -64 first) <=? maximum_age).

(** The two 64-bit differences are exact: both operands are 32-bit. *)
Definition make_ada_tlimit_thermal_sample
    (current_celsius target_specification_celsius gpu_max_tlimit_offset slowdown_tlimit_offset
     captured_monotonic_milliseconds : Z) (thermal_throttling power_brake_slowdown : bool)
    : option GpuThermalSample :=
  let target_absolute := target_specification_celsius - gpu_max_tlimit_offset in
  let slowdown_absolute := target_specification_celsius - slowdown_tlimit_offset in
  if (captured_monotonic_milliseconds =? 0) || (200 <? current_celsius) ||
     (200 <? target_specification_celsius) || (target_absolute <? 0) ||
     (200 <? target_absolute) || (slowdown_absolute <? 0) || (200 <? slowdown_absolute) then None
  else
    Some (mkThermal true ReasonNone captured_monotonic_milliseconds current_celsius
            (Some target_absolute) (Some slowdown_absolute) thermal_throttling power_brake_slowdown).

(** ** The NVML calls of the sampler *)

Record NvmlField := mkField {
  nvf_return_ok : bool; nvf_signed_int : bool; nvf_timestamp : Z; nvf_si_value : Z }.

Record NvmlDevice := mkNvml {
  nvmlInit_ok : bool;
  nvmlDeviceGetHandleByUUID_ok : bool;
  nvmlDeviceGetTemperature : option Z;
  nvmlDeviceGetTemperatureThreshold : option Z;
  nvml_field_query_start : Z;
  nvmlDeviceGetFieldValues : option (NvmlField * NvmlField);
  nvml_field_query_end : Z;
  nvmlDeviceGetCurrentClocksEventReasons : option (bool * bool);
  nvmlShutdown_ok : bool;
  nvml_monotonic_milliseconds : Z;
}.

(** Built with [PRISMINFER_ENABLE_CUDA_PROBE]. *)
Definition sample_nvml_gpu_thermal (n : NvmlDevice) (gpu_uuid : string) : GpuThermalSample :=
  let fail r := {| default_GpuThermalSample with gts_unavailable_reason := r |} in
  if negb (nvmlInit_ok n) then fail NvmlInitializationFailed
  else if str_empty gpu_uuid then fail GpuUuidInvalid
  else if negb (nvmlDeviceGetHandleByUUID_ok n) then fail DeviceHandleFailed
  else
  match nvmlDeviceGetTemperature n with
  | None => fail TemperatureQueryFailed
  | Some temperature =>
  match nvmlDeviceGetTemperatureThreshold n with
  | None => fail TargetTlimitFieldFailed
  | Some target_temperature =>
  match nvmlDeviceGetFieldValues n with
  | None => fail TlimitFieldQueryFailed
  | Some (t0, t1) =>
      if negb (nvf_return_ok t0) then fail TargetTlimitFieldFailed
      else if negb (nvf_return_ok t1) then fail SlowdownTlimitFieldFailed
      else if negb (nvf_signed_int t0) then fail TargetTlimitTypeInvalid
      else if negb (nvf_signed_int t1) then fail SlowdownTlimitTypeInvalid
      else if (nvml_field_query_start n <=? 0) || (nvml_field_query_end n <=? 0) then
        fail FieldQueryClockInvalid
      else if negb (nvml_field_timestamps_are_fresh (nvf_timestamp t0) (nvf_timestamp t1)
                      (nvml_field_query_start n) (nvml_field_query_end n) 500000) then
        fail FieldTimestampInvalidOrStale
      else
      match nvmlDeviceGetCurrentClocksEventReasons n with
      | None => fail ClockEventQueryFailed
      | Some (hw_thermal_slowdown, hw_power_brake) =>
          if (temperature <? 0) || (200 <? temperature) then fail TemperatureValueInvalid
          else if nvml_monotonic_milliseconds n =? 0 then fail MonotonicClockInvalid
          else if negb (nvmlShutdown_ok n) then fail NvmlShutdownFailed
          else
            match make_ada_tlimit_thermal_sample temperature target_temperature
                    (nvf_si_value t0) (nvf_si_value t1) (nvml_monotonic_milliseconds n)
                    hw_thermal_slowdown hw_power_brake with
            | Some sample => sample
            | None => fail TlimitConversionInvalid
            end
      end
  end end end.

(** A thermal reading is in the physical range of the sampler. *)
Definition thermal_physical (t : GpuThermalSample) : Prop :=
  0 <= gts_current_celsius t <= 200 /\
  (forall c, gts_reported_target_celsius t = Some c -> 0 <= c <= 200) /\
  (forall c, gts_reported_slowdown_celsius t = Some c -> 0 <= c <= 200) /\
  gts_captured_monotonic_milliseconds t <> 0.

(** The thermal sampler is available only with a physical reading: both
    T.Limit thresholds were reported, fresh, and convert to temperatures
    between 0 and 200 degrees. *)
Theorem nvml_thermal_available n uuid :
  gts_available (sample_nvml_gpu_thermal n uuid) = true ->
  let t := sample_nvml_gpu_thermal n uuid in
  thermal_physical t /\ gts_unavailable_reason t = ReasonNone /\
  is_Some (gts_reported_target_celsius t) /\ is_Some (gts_reported_slowdown_celsius t).
Proof.
  set (P := fun t => gts_available t = true ->
    thermal_physical t /\ gts_unavailable_reason t = ReasonNone /\
    is_Some (gts_reported_target_celsius t) /\ is_Some (gts_reported_slowdown_celsius t)).
  change (P (sample_nvml_gpu_thermal n uuid)). unfold sample_nvml_gpu_thermal. cbv zeta.
  cascade_elim ltac:(intros [=]). destruct v1 as [t0 t1].
  cascade_elim ltac:(intros [=]). destruct v1 as [slow brake].
  do 3 (apply guard_elim; [intros _ [=]|intros ?]).
  destruct (make_ada_tlimit_thermal_sample _ _ _ _ _ _ _) as [t|] eqn:E; [|intros [=]].
  intros _. unfold make_ada_tlimit_thermal_sample in E. destruct (_ || _) eqn:Hr in E; [done|].
  bool_facts. injection E as <-. unfold thermal_physical. cbn.
  split_and!; try done; try lia; intros ? [= <-]; lia.
Qed.

(** NVML field timestamps are accepted exactly when both lie in the
    window from one maximum age before the query to its end and their skew
    is at most the maximum age. *)
Theorem nvml_timestamps_window f s qs qe age :
  u64 f -> u64 s -> u64 qs -> u64 qe -> u64 age ->
  nvml_field_timestamps_are_fresh f s qs qe age = true <->
  0 < age /\ 0 < f /\ 0 < s /\ 0 < qs <= qe /\
  qs - age <= f <= qe /\ qs - age <= s <= qe /\ Z.abs (f - s) <= age.
Proof.
  intros Hf Hs Hqs Hqe Hage. unfold nvml_field_timestamps_are_fresh. unfold u64 in *.
  destruct (_ || _) eqn:G.
  - split; [done|]. intros (?&?&?&?&?&?&?). exfalso. lia.
  - bool_facts. destruct (Z.ltb_spec age qs), (Z.leb_spec s f);
      rewrite !wrap64_small by (unfold u64; lia); lia.
Qed.

(** ** Owned GPU memory and its independent corroboration *)

Record OwnedGpuMemoryEvidence := mkOwned {
  og_available : bool;
  og_captured_monotonic_milliseconds : Z;
  og_reconciled : bool;
  og_process_device_corroboration_available : bool;
  og_process_device_source : string;
  og_process_id : Z;
  og_process_device_captured_monotonic_milliseconds : Z;
  og_process_device_current_bytes : Z;
  og_adapter_identity_available : bool;
  og_adapter_luid_high : Z;
  og_adapter_luid_low : Z;
  og_hard_cap_bytes : Z;
  og_owned_current_bytes : Z;
  og_owned_peak_bytes : Z;
  og_rejected_attempted_peak_bytes : Z;
  og_backend_buffer_current_bytes : Z;
  og_backend_buffer_at_owned_peak_bytes : Z;
  og_backend_pool_current_bytes : Z;
  og_backend_pool_at_owned_peak_bytes : Z;
  og_kernel_workspace_current_bytes : Z;
  og_kernel_workspace_at_owned_peak_bytes : Z;
  og_activation_current_bytes : Z;
  og_activation_at_owned_peak_bytes : Z;
  og_kv_current_bytes : Z;
  og_kv_at_owned_peak_bytes : Z;
  og_graph_current_bytes : Z;
  og_graph_at_owned_peak_bytes : Z;
  og_profiler_workspace_current_bytes : Z;
  og_profiler_workspace_at_owned_peak_bytes : Z;
  og_cuda_context_runtime_current_bytes : Z;
  og_cuda_context_runtime_at_owned_peak_bytes : Z;
  og_cuda_mem_info_free_bytes : Z;
  og_cuda_mem_info_total_bytes : Z;
  og_unknown_unreconciled_bytes : Z;
}.

Definition default_OwnedGpuMemoryEvidence : OwnedGpuMemoryEvidence :=
  mkOwned false 0 false false "" 0 0 0 false 0 0 0 0 0 0 0 0 0 0 0 0 0 0 0 0 0 0 0 0 0 0 0 0 0.

(** The eight categories, in the order the code lists them. *)
Definition current_categories (g : OwnedGpuMemoryEvidence) : list Z :=
  [og_backend_buffer_current_bytes g; og_backend_pool_current_bytes g;
   og_kernel_workspace_current_bytes g; og_activation_current_bytes g; og_kv_current_bytes g;
   og_graph_current_bytes g; og_profiler_workspace_current_bytes g;
   og_cuda_context_runtime_current_bytes g].

Definition peak_categories (g : OwnedGpuMemoryEvidence) : list Z :=
  [og_backend_buffer_at_owned_peak_bytes g; og_backend_pool_at_owned_peak_bytes g;
   og_kernel_workspace_at_owned_peak_bytes g; og_activation_at_owned_peak_bytes g;
   og_kv_at_owned_peak_bytes g; og_graph_at_owned_peak_bytes g;
   og_profiler_workspace_at_owned_peak_bytes g; og_cuda_context_runtime_at_owned_peak_bytes g].

Definition owned_wf (g : OwnedGpuMemoryEvidence) : Prop :=
  Forall u64 (current_categories g) /\ Forall u64 (peak_categories g) /\
  Forall u64 [og_captured_monotonic_milliseconds g; og_hard_cap_bytes g; og_owned_current_bytes g;
    og_owned_peak_bytes g; og_cuda_mem_info_free_bytes g; og_cuda_mem_info_total_bytes g;
    og_unknown_unreconciled_bytes g].

Record ProcessDeviceMemoryCandidate := mkCandidate { pdc_source : string; pdc_bytes : Z }.

Record ProcessDeviceMemorySample := mkProcessDevice {
  pds_available : bool;
  pds_unavailable_reason : string;
  pds_source : string;
  pds_process_id : Z;
  pds_captured_monotonic_milliseconds : Z;
  pds_adapter_luid_high : Z;
  pds_adapter_luid_low : Z;
  pds_current_bytes : Z;
}.

Definition default_ProcessDeviceMemorySample : ProcessDeviceMemorySample :=
  mkProcessDevice false "" "" 0 0 0 0 0.

(** The loop over the candidates: the sources seen so far and the agreed
    byte count. *)
Fixpoint reconcile_loop (seen : list string) (exact_bytes : option Z)
    (candidates : list ProcessDeviceMemoryCandidate) : string + option Z :=
  match candidates with
  | [] => inr exact_bytes
  | c :: rest =>
      if ((pdc_source c <>s "nvml-compute") && (pdc_source c <>s "nvml-graphics")) ||
         bool_decide (pdc_source c ∈ seen) then inl "process_device_source_invalid"%string
      else
        match exact_bytes with
        | Some b => if b <>z pdc_bytes c then inl "process_device_reports_contradictory"%string
                    else reconcile_loop (pdc_source c :: seen) (Some (pdc_bytes c)) rest
        | None => reconcile_loop (pdc_source c :: seen) (Some (pdc_bytes c)) rest
        end
  end.

Definition reconcile_process_device_memory_candidates
    (process_id adapter_luid_high adapter_luid_low captured : Z)
    (candidates : list ProcessDeviceMemoryCandidate) : ProcessDeviceMemorySample :=
  let sample := mkProcessDevice false "" "" process_id captured adapter_luid_high adapter_luid_low 0 in
  if (process_id =? 0) || (captured =? 0) then
    {| sample with pds_unavailable_reason := "process_device_identity_invalid" |}
  else
    match candidates with
    | [] => {| sample with pds_unavailable_reason := "process_device_pid_not_reported" |}
    | _ =>
        match reconcile_loop [] None candidates with
        | inl reason => {| sample with pds_unavailable_reason := reason |}
        | inr (Some bytes) =>
            {| sample with pds_available := true; pds_source := "nvml-process";
                           pds_current_bytes := bytes |}
        | inr None => sample
        end
    end.

Definition bind_process_device_memory_evidence (owned : OwnedGpuMemoryEvidence)
    (independent : ProcessDeviceMemorySample)
    (expected_process_id expected_luid_high expected_luid_low evaluation maximum_age : Z)
    : option OwnedGpuMemoryEvidence :=
  if negb (pds_available independent) ||
     (pds_captured_monotonic_milliseconds independent =? 0) ||
     (pds_process_id independent <>z expected_process_id) ||
     (pds_adapter_luid_high independent <>z expected_luid_high) ||
     (pds_adapter_luid_low independent <>z expected_luid_low) ||
     (maximum_age =? 0) ||
     (evaluation <? pds_captured_monotonic_milliseconds independent) ||
     (maximum_age <? evaluation -64 pds_captured_monotonic_milliseconds independent) ||
     ((pds_source independent <>s "wddm-process") && (pds_source independent <>s "nvml-process"))
  then None
  else Some {| owned with
    og_process_device_corroboration_available := true;
    og_process_device_source := pds_source independent;
    og_process_id := pds_process_id independent;
    og_process_device_captured_monotonic_milliseconds :=
      pds_captured_monotonic_milliseconds independent;
    og_process_device_current_bytes := pds_current_bytes independent;
    og_adapter_identity_available := true;
    og_adapter_luid_high := pds_adapter_luid_high independent;
    og_adapter_luid_low := pds_adapter_luid_low independent;
    og_captured_monotonic_milliseconds := pds_captured_monotonic_milliseconds independent |}.

(** The reports agree: known, distinct engines and one byte count. *)
Definition reports_agree (cs : list ProcessDeviceMemoryCandidate) (bytes : Z) : Prop :=
  Forall (fun c => (pdc_source c = "nvml-compute" \/ pdc_source c = "nvml-graphics")%string /\
                   pdc_bytes c = bytes) cs /\
  NoDup (pdc_source <$> cs).

Lemma reconcile_loop_spec cs seen b out :
  NoDup seen ->
  reconcile_loop seen b cs = inr out <->
  Forall (fun c => (pdc_source c = "nvml-compute" \/ pdc_source c = "nvml-graphics")%string) cs /\
  NoDup ((pdc_source <$> cs) ++ seen) /\
  (forall c, c ∈ cs -> out = Some (pdc_bytes c)) /\ (b <> None -> out = b) /\ (cs = [] -> out = b).
Proof.
  revert seen b; induction cs as [|c cs IH]; intros seen b Hnd; simpl.
  { split; [intros [= ->]; split_and!; [constructor|done|by intros ? ?%elem_of_nil|done|done]|].
    intros (_&_&_&_&->); done. }
  destruct (((pdc_source c <>s "nvml-compute") && (pdc_source c <>s "nvml-graphics")) ||
            bool_decide (pdc_source c ∈ seen)) eqn:G.
  { split; [done|]. rewrite Forall_cons, NoDup_cons. intros ([Hsrc _] & [Hin _] & _).
    apply orb_true_iff in G as [G|G].
    - bool_facts. tauto.
    - apply bool_decide_eq_true in G. rewrite elem_of_app in Hin. tauto. }
  apply orb_false_iff in G as [Gs Gd]. apply bool_decide_eq_false in Gd.
  assert (pdc_source c = "nvml-compute" \/ pdc_source c = "nvml-graphics")%string as Hsrc.
  { apply andb_false_iff in Gs as [?|?]; bool_facts; auto. }
  assert (NoDup (pdc_source c :: seen)) as Hnd' by (by constructor).
  specialize (IH (pdc_source c :: seen) (Some (pdc_bytes c)) Hnd').
  assert (NoDup ((pdc_source <$> cs) ++ pdc_source c :: seen) <->
          NoDup (pdc_source c :: (pdc_source <$> cs) ++ seen)) as Hperm
    by (by rewrite (Permutation_middle (pdc_source <$> cs) seen (pdc_source c))).
  assert (reconcile_loop (pdc_source c :: seen) (Some (pdc_bytes c)) cs = inr out <->
    Forall (fun c => (pdc_source c = "nvml-compute" \/ pdc_source c = "nvml-graphics")%string) (c :: cs) /\
    NoDup (pdc_source c :: (pdc_source <$> cs) ++ seen) /\
    (forall c', c' ∈ c :: cs -> out = Some (pdc_bytes c'))) as Hstep.
  { rewrite IH, Hperm, Forall_cons. setoid_rewrite elem_of_cons. split.
    - intros (?&?&?&Hb&?). split_and!; [done..|]. intros c' [->|?]; [by apply Hb|auto].
    - intros ((_&?)&?&Hall). split_and!; [done..| |intros _|intros _]; [|by apply Hall; left..].
      intros c' ?. apply Hall. by right. }
  destruct b as [b|].
  - destruct (Z.eqb_spec b (pdc_bytes c)) as [->|Hne]; simpl.
    + rewrite Hstep. split; [|tauto]. intros (?&?&Hall). split_and!; [done..|by rewrite (Hall c) by left|done].
    + split; [done|]. intros (_&_&Hall&Hb&_). rewrite (Hall c) in Hb by left.
      specialize (Hb ltac:(done)). congruence.
  - rewrite Hstep. split; [|tauto]. intros (?&?&?). split_and!; done.
Qed.

(** Independent per-process reports are reconciled only when they
    agree: the sample is available with [bytes] exactly when the process and
    clock are identified, at least one report exists, every report comes
    from a distinct known engine, and all of them give [bytes]; they are
    never added up. *)
Theorem process_reports_reconcile pid hi lo captured cs bytes :
  let s := reconcile_process_device_memory_candidates pid hi lo captured cs in
  pds_available s = true /\ pds_current_bytes s = bytes <->
  pid <> 0 /\ captured <> 0 /\ cs <> [] /\ reports_agree cs bytes.
Proof.
  cbv zeta. unfold reconcile_process_device_memory_candidates, reports_agree.
  destruct ((pid =? 0) || (captured =? 0)) eqn:G.
  { split; [intros [[=] _]|]. intros (?&?&_). apply orb_true_iff in G. lia. }
  bool_facts. destruct cs as [|c cs]; [split; [intros [[=] _]|naive_solver]|].
  pose proof (reconcile_loop_spec (c :: cs) [] None) as Hspec.
  rewrite Forall_and. destruct (reconcile_loop [] None (c :: cs)) as [e|out].
  - split; [intros [[=] _]|]. intros (_&_&_&[Hs Hb]&Hn).
    enough (@inl string (option Z) e = inr (Some bytes)) by discriminate.
    apply Hspec; [constructor|]. rewrite app_nil_r. split_and!; [done..| |done|done].
    intros c' Hc'. rewrite Forall_forall in Hb. by rewrite (Hb c').
  - destruct (proj1 (Hspec out (NoDup_nil_2)) eq_refl) as (Hs & Hn & Hall & _ & _).
    rewrite app_nil_r in Hn. pose proof (Hall c ltac:(left)) as ->. cbn. split.
    + intros [_ <-]. split_and!; [done..| |done]. rewrite Forall_forall. intros c' Hc'.
      specialize (Hall c' Hc'). congruence.
    + intros (_&_&_&[_ Hb]&_). split; [done|]. rewrite Forall_forall in Hb. apply Hb. left.
Qed.

(** Binding succeeds only for a fresh sample of the expected process and
    adapter from a recognised source, and then the owned evidence carries
    exactly that sample's identity, time and byte count while its own
    categories are untouched. *)
Theorem bind_evidence_exact owned ind pid hi lo now age owned' :
  u64 now -> u64 (pds_captured_monotonic_milliseconds ind) ->
  bind_process_device_memory_evidence owned ind pid hi lo now age = Some owned' ->
  (pds_available ind = true /\ pds_process_id ind = pid /\ pds_adapter_luid_high ind = hi /\
   pds_adapter_luid_low ind = lo /\
   (pds_source ind = "wddm-process" \/ pds_source ind = "nvml-process")%string /\
   0 <> pds_captured_monotonic_milliseconds ind /\
   pds_captured_monotonic_milliseconds ind <= now <= pds_captured_monotonic_milliseconds ind + age) /\
  og_process_id owned' = pid /\ og_adapter_luid_high owned' = hi /\ og_adapter_luid_low owned' = lo /\
  og_process_device_current_bytes owned' = pds_current_bytes ind /\
  og_captured_monotonic_milliseconds owned' = pds_captured_monotonic_milliseconds ind /\
  og_process_device_captured_monotonic_milliseconds owned' =
    og_captured_monotonic_milliseconds owned' /\
  current_categories owned' = current_categories owned /\
  peak_categories owned' = peak_categories owned /\
  og_owned_current_bytes owned' = og_owned_current_bytes owned.
Proof.
  intros Hnow Hcap. unfold bind_process_device_memory_evidence. destruct (_ || _) eqn:G; [done|].
  apply orb_false_iff in G as [G Gsrc].
  assert (pds_source ind = "wddm-process" \/ pds_source ind = "nvml-process")%string
    by (apply andb_false_iff in Gsrc as [?|?]; bool_facts; auto).
  bool_facts. rewrite wrap64_sub in * by done. intros [= <-]. cbn. split_and!; done || lia.
Qed.

(** ** Witnesses *)

Definition demo_nvml : NvmlDevice :=
  mkNvml true true (Some 55) (Some 87) 1000000 (Some (mkField true true 999000 0, mkField true true 999500 (-5)))
    1000100 (Some (false, false)) true 5000.

Lemma nvml_thermal_available_witness :
  thermal_physical (sample_nvml_gpu_thermal demo_nvml "GPU-1").
Proof. destruct (nvml_thermal_available demo_nvml "GPU-1"); [vm_compute; reflexivity|assumption]. Defined.

Lemma nvml_timestamps_window_witness :
  nvml_field_timestamps_are_fresh 999000 999500 1000000 1000100 500000 = true.
Proof. apply (nvml_timestamps_window 999000 999500 1000000 1000100 500000); unfold u64; lia. Defined.

Definition demo_process : ProcessDeviceMemorySample :=
  mkProcessDevice true "" "wddm-process" 4242 5050 1 7 268435456.

Lemma bind_evidence_exact_witness :
  exists o, bind_process_device_memory_evidence default_OwnedGpuMemoryEvidence demo_process 4242 1 7 5100 500
              = Some o /\ og_process_id o = 4242.
Proof.
  eexists. split; [vm_compute; reflexivity|].
  eapply (bind_evidence_exact default_OwnedGpuMemoryEvidence demo_process 4242 1 7 5100 500);
    [closed_bounds|closed_bounds|vm_compute; reflexivity].
Defined.

End GpuTelemetry.
