(* ===== verification/SupervisorAdmission.v ===== *)
(** * Two-stage supervisor admission

    [src/governor/supervisor_admission.cpp] with
    [include/prisminfer/supervisor_admission.h] and
    [include/prisminfer/admission_cell_identity.h]: the decision taken before
    a GPU context exists and the reconciliation taken once it does. *)

From S2P Require Import Prelude.
From S2P Require Import CheckedArithmetic.
From S2P Require Import MemoryCap.
From S2P Require Import HostAdmission.
From S2P Require Import GpuTelemetry.
Import CheckedArithmetic MemoryCap HostAdmission GpuTelemetry.

Module SupervisorAdmission.

(** ** Cell identity *)

(** A digest is a [std::array<std::uint8_t, 32>]. *)
Record AdmissionCellIdentity := mkCell {
  cell_run_sequence : Z;
  cell_run_contract_hash : list Z;
  cell_threshold_registry_hash : list Z;
  cell_hardware_identity_hash : list Z;
  cell_runtime_identity_hash : list Z;
  cell_artifact_identity_hash : list Z;
  cell_service_profile_hash : list Z;
}.

Definition zero_digest : list Z := replicate 32 0.

Definition default_AdmissionCellIdentity : AdmissionCellIdentity :=
  mkCell 0 zero_digest zero_digest zero_digest zero_digest zero_digest zero_digest.

#[export] Instance cell_eq_dec : EqDecision AdmissionCellIdentity.
Proof. solve_decision. Defined.

(** The defaulted [operator==]. *)
Definition cell_eqb (a b : AdmissionCellIdentity) : bool := bool_decide (a = b).

Definition digest_nonzero (digest : list Z) : bool := existsb (fun byte => byte <>z 0) digest.

Definition admission_cell_identity_valid (cell : AdmissionCellIdentity) : bool :=
  (cell_run_sequence cell <>z 0) && digest_nonzero (cell_run_contract_hash cell) &&
  digest_nonzero (cell_threshold_registry_hash cell) &&
  digest_nonzero (cell_hardware_identity_hash cell) &&
  digest_nonzero (cell_runtime_identity_hash cell) &&
  digest_nonzero (cell_artifact_identity_hash cell) &&
  digest_nonzero (cell_service_profile_hash cell).

(** ** Policies, predictions and requests *)

Record SupervisorTimingPolicy := mkTiming {
  stp_supervisor_sample_period_milliseconds : Z;
  stp_worker_heartbeat_period_milliseconds : Z;
  stp_maximum_guard_age_milliseconds : Z;
  stp_cooperative_cancel_ack_milliseconds : Z;
  stp_worker_exit_milliseconds : Z;
  stp_cleanup_milliseconds : Z;
  stp_declared_dispatch_bound_milliseconds : Z;
  stp_automatic_same_context_retry_count : Z;
}.

Definition default_SupervisorTimingPolicy : SupervisorTimingPolicy :=
  mkTiming 100 250 500 500 2000 5000 500 0.

Inductive PredictionProvenance :=
| ProvenanceUnavailable | ApprovedArtifactCensus | PinnedRuntimeEstimate | ExactZeroNotApplicable
| ProvenanceOther (n : Z).

Record PredictedBytes := mkPredicted {
  pb_bytes : option Z;
  pb_provenance : PredictionProvenance;
}.

Record PredictedGpuFootprint := mkFootprint {
  pgf_context_runtime : PredictedBytes;
  pgf_backend : PredictedBytes;
  pgf_model : PredictedBytes;
  pgf_state : PredictedBytes;
  pgf_workspace : PredictedBytes;
  pgf_fragmentation : PredictedBytes;
}.

Record StorageHeadroomSample := mkStorage {
  shs_available : bool;
  shs_free_bytes : Z;
  shs_reserve_bytes : Z;
  shs_required_incremental_bytes : Z;
}.

Record PreContextAdmissionReceipt := mkPreReceipt {
  prr_policy_ceiling_bytes : Z;
  prr_requested_tier_bytes : Z;
  prr_timing : SupervisorTimingPolicy;
  prr_adapter_luid_high : Z;
  prr_adapter_luid_low : Z;
  prr_predicted_gpu_peak_bytes : Z;
  prr_pre_context_gpu_reserve_bytes : Z;
  prr_pre_context_effective_cap_bytes : Z;
  prr_run_started_monotonic_milliseconds : Z;
  prr_run_deadline_monotonic_milliseconds : Z;
  prr_host_policy : HostReservePolicy;
  prr_host_request : HostAdmissionRequest;
  prr_gpu_warning_celsius : Z;
  prr_gpu_stop_celsius : Z;
  prr_cell : AdmissionCellIdentity;
}.

Record PreContextAdmissionRequest := mkPreRequest {
  prq_policy_ceiling_bytes : Z;
  prq_requested_tier_bytes : Z;
  prq_context_tokens : Z;
  prq_run_deadline_milliseconds : Z;
  prq_evaluation_monotonic_milliseconds : Z;
  prq_exclusive_gpu_lease_held : bool;
  prq_competing_gpu_work_detected : bool;
  prq_timing : SupervisorTimingPolicy;
  prq_predicted_gpu : PredictedGpuFootprint;
  prq_gpu : PreContextGpuSample;
  prq_thermal : GpuThermalSample;
  prq_storage : StorageHeadroomSample;
  prq_host : HostTelemetrySample;
  prq_host_policy : HostReservePolicy;
  prq_host_request : HostAdmissionRequest;
  prq_cell : AdmissionCellIdentity;
}.

Record PreContextAdmissionDecision := mkPreDecision {
  pad_admitted : bool;
  pad_reason : string;
  pad_policy_ceiling_bytes : Z;
  pad_requested_tier_bytes : Z;
  pad_timing : SupervisorTimingPolicy;
  pad_adapter_luid_high : Z;
  pad_adapter_luid_low : Z;
  pad_predicted_gpu_peak_bytes : Z;
  pad_pre_context_live_capacity_bytes : Z;
  pad_dxgi_local_headroom_bytes : Z;
  pad_pre_context_gpu_reserve_bytes : Z;
  pad_pre_context_effective_cap_bytes : Z;
  pad_gpu_warning_celsius : Z;
  pad_gpu_stop_celsius : Z;
  pad_storage_payload_bytes : Z;
  pad_host_decision : HostAdmissionDecision;
  pad_receipt : option PreContextAdmissionReceipt;
}.

Definition default_PreContextAdmissionDecision : PreContextAdmissionDecision :=
  mkPreDecision false "" 0 0 default_SupervisorTimingPolicy 0 0 0 0 0 0 0 0 0 0
    default_HostAdmissionDecision None.

(** ** Constants *)

Definition kOneGiB : Z := Z.shiftl 1 30.
Definition kMaximumSupervisorSampleMilliseconds : Z := 100.
Definition kMaximumHeartbeatMilliseconds : Z := 250.
Definition kMaximumGuardAgeMilliseconds : Z := 500.
Definition kMaximumCancelAckMilliseconds : Z := 500.
Definition kMaximumWorkerExitMilliseconds : Z := 2000.
Definition kMaximumCleanupMilliseconds : Z := 5000.
Definition kMaximumDispatchBoundMilliseconds : Z := 500.

(** ** Helpers *)

Definition reject_pre (decision : PreContextAdmissionDecision) (reason : string)
    : PreContextAdmissionDecision :=
  {| decision with pad_reason := reason |}.

Definition valid_bounded_period (value maximum : Z) : bool := (0 <? value) && (value <=? maximum).

Definition same_timing_policy (left right : SupervisorTimingPolicy) : bool :=
  (stp_supervisor_sample_period_milliseconds left =? stp_supervisor_sample_period_milliseconds right) &&
  (stp_worker_heartbeat_period_milliseconds left =? stp_worker_heartbeat_period_milliseconds right) &&
  (stp_maximum_guard_age_milliseconds left =? stp_maximum_guard_age_milliseconds right) &&
  (stp_cooperative_cancel_ack_milliseconds left =? stp_cooperative_cancel_ack_milliseconds right) &&
  (stp_worker_exit_milliseconds left =? stp_worker_exit_milliseconds right) &&
  (stp_cleanup_milliseconds left =? stp_cleanup_milliseconds right) &&
  (stp_declared_dispatch_bound_milliseconds left =? stp_declared_dispatch_bound_milliseconds right) &&
  (stp_automatic_same_context_retry_count left =? stp_automatic_same_context_retry_count right).

Definition same_host_policy (left right : HostReservePolicy) : bool :=
  bool_decide (hrp_lane left = hrp_lane right) &&
  (hrp_physical_reserve_floor_bytes left =? hrp_physical_reserve_floor_bytes right) &&
  (hrp_physical_reserve_basis_points left =? hrp_physical_reserve_basis_points right) &&
  (hrp_commit_reserve_floor_bytes left =? hrp_commit_reserve_floor_bytes right) &&
  (hrp_commit_limit_reserve_basis_points left =? hrp_commit_limit_reserve_basis_points right) &&
  (hrp_commit_physical_reserve_basis_points left =? hrp_commit_physical_reserve_basis_points right).

Definition same_host_workload (left right : HostAdmissionRequest) : bool :=
  (har_planned_incremental_resident_bytes left =? har_planned_incremental_resident_bytes right) &&
  (har_planned_incremental_commit_bytes left =? har_planned_incremental_commit_bytes right) &&
  (har_resident_uncertainty_bytes left =? har_resident_uncertainty_bytes right) &&
  (har_commit_uncertainty_bytes left =? har_commit_uncertainty_bytes right) &&
  (har_pinned_host_bytes left =? har_pinned_host_bytes right) &&
  (har_explicit_physical_reserve_bytes left =? har_explicit_physical_reserve_bytes right) &&
  (har_explicit_commit_reserve_bytes left =? har_explicit_commit_reserve_bytes right) &&
  Bool.eqb (har_promotion_requested left) (har_promotion_requested right).

Definition sample_is_fresh (captured evaluated maximum_age : Z) : bool :=
  (0 <? captured) && (0 <? evaluated) && (captured <=? evaluated) &&
  (evaluated -64 captured <=? maximum_age).

Definition valid_temperature (value : Z) : bool := (-100 <=? value) && (value <=? 200).

(** [*category.bytes]: only evaluated once every category is known to hold a
    value; the model gives 0 to the unreachable dereference. *)
Definition predicted_value (p : PredictedBytes) : Z := default 0 (pb_bytes p).

Definition predicted_gpu_peak (prediction : PredictedGpuFootprint) : option Z :=
  match checked_add_u64 (predicted_value (pgf_context_runtime prediction))
          (predicted_value (pgf_backend prediction)) with
  | None => None
  | Some total =>
      checked_sum_from checked_add_u64 total
        [predicted_value (pgf_model prediction); predicted_value (pgf_state prediction);
         predicted_value (pgf_workspace prediction); predicted_value (pgf_fragmentation prediction)]
  end.

Definition prediction_category_is_valid (category : PredictedBytes) : bool :=
  match pb_bytes category, pb_provenance category with
  | None, _ | _, ProvenanceUnavailable => false
  | Some bytes, ExactZeroNotApplicable => bytes =? 0
  | Some _, (ApprovedArtifactCensus | PinnedRuntimeEstimate) => true
  | Some _, ProvenanceOther _ => false
  end.

Definition prediction_is_complete (prediction : PredictedGpuFootprint) : bool :=
  prediction_category_is_valid (pgf_context_runtime prediction) &&
  prediction_category_is_valid (pgf_backend prediction) &&
  prediction_category_is_valid (pgf_model prediction) &&
  prediction_category_is_valid (pgf_state prediction) &&
  prediction_category_is_valid (pgf_workspace prediction) &&
  prediction_category_is_valid (pgf_fragmentation prediction) &&
  (0 <? predicted_value (pgf_context_runtime prediction)).

Record ThermalDecision := mkThermalDecision {
  td_warning_celsius : Z;
  td_stop_celsius : Z;
  td_safe_for_admission : bool;
}.

Definition optional_temperature_invalid (valid : Z -> bool) (t : option Z) : bool :=
  match t with Some c => negb (valid c) | None => false end.

(** The bounds derived from the reported target and slowdown temperatures. *)
Definition derived_warning (t : GpuThermalSample) : Z :=
  match gts_reported_target_celsius t with Some c => Z.min 78 (c - 8) | None => 78 end.

Definition derived_stop (t : GpuThermalSample) : Z :=
  let stop := match gts_reported_target_celsius t with Some c => Z.min 82 (c - 5) | None => 82 end in
  match gts_reported_slowdown_celsius t with Some c => Z.min stop (c - 5) | None => stop end.

Definition evaluate_thermal (thermal : GpuThermalSample) (evaluated maximum_age : Z)
    : option ThermalDecision :=
  if negb (gts_available thermal) ||
     negb (sample_is_fresh (gts_captured_monotonic_milliseconds thermal) evaluated maximum_age) ||
     negb (valid_temperature (gts_current_celsius thermal)) ||
     optional_temperature_invalid valid_temperature (gts_reported_target_celsius thermal) ||
     optional_temperature_invalid valid_temperature (gts_reported_slowdown_celsius thermal) then None
  else
    let warning := derived_warning thermal in
    let stop := derived_stop thermal in
    if (warning <=? 0) || (stop <=? 0) || (stop <=? warning) then
      Some (mkThermalDecision warning stop false)
    else
      Some (mkThermalDecision warning stop
              (negb (gts_thermal_throttling thermal) && negb (gts_power_brake_slowdown thermal) &&
               (gts_current_celsius thermal <? warning))).

Definition reconcile_owned_current (gpu : OwnedGpuMemoryEvidence) : option Z :=
  checked_sum_from checked_add_u64 0 (current_categories gpu).

Definition timing_policy_invalid (timing : SupervisorTimingPolicy) : bool :=
  negb (valid_bounded_period (stp_supervisor_sample_period_milliseconds timing)
          kMaximumSupervisorSampleMilliseconds) ||
  negb (valid_bounded_period (stp_worker_heartbeat_period_milliseconds timing)
          kMaximumHeartbeatMilliseconds) ||
  negb (valid_bounded_period (stp_maximum_guard_age_milliseconds timing)
          kMaximumGuardAgeMilliseconds) ||
  negb (valid_bounded_period (stp_cooperative_cancel_ack_milliseconds timing)
          kMaximumCancelAckMilliseconds) ||
  negb (valid_bounded_period (stp_worker_exit_milliseconds timing)
          kMaximumWorkerExitMilliseconds) ||
  negb (valid_bounded_period (stp_cleanup_milliseconds timing) kMaximumCleanupMilliseconds) ||
  negb (valid_bounded_period (stp_declared_dispatch_bound_milliseconds timing)
          kMaximumDispatchBoundMilliseconds) ||
  (stp_maximum_guard_age_milliseconds timing <? stp_supervisor_sample_period_milliseconds timing) ||
  (stp_maximum_guard_age_milliseconds timing <? stp_worker_heartbeat_period_milliseconds timing) ||
  (stp_worker_exit_milliseconds timing <? stp_cooperative_cancel_ack_milliseconds timing) ||
  (stp_cleanup_milliseconds timing <? stp_worker_exit_milliseconds timing) ||
  (stp_automatic_same_context_retry_count timing <>z 0).

(** The GPU telemetry test shared by both stages. *)
Definition gpu_counters_invalid (gpu : PreContextGpuSample) (evaluated maximum_age : Z) : bool :=
  negb (sample_is_fresh (pcg_captured_monotonic_milliseconds gpu) evaluated maximum_age) ||
  (pcg_physical_or_reportable_local_bytes gpu =? 0) ||
  (pcg_dxgi_local_budget_bytes gpu =? 0) ||
  (pcg_dxgi_local_budget_bytes gpu <? pcg_dxgi_local_current_usage_bytes gpu).

(** [x > reserve ? x - reserve : 0] *)
Definition reserve_adjust (x reserve : Z) : Z := if reserve <? x then x -64 reserve else 0.

(** The request the supervisor hands to host admission: the workload with
    its own clock and guard age. *)
Definition stamp_host_request (r : HostAdmissionRequest) (evaluated maximum_age : Z)
    : HostAdmissionRequest :=
  {| r with har_evaluation_monotonic_milliseconds := evaluated;
            har_max_telemetry_age_milliseconds := maximum_age |}.

Definition thermal_reject_reason (thermal : GpuThermalSample) : string :=
  let reason := "pre_context_gpu_thermal_telemetry_invalid_or_stale"%string in
  if negb (gts_available thermal) && negb (bool_decide (gts_unavailable_reason thermal = ReasonNone)) then
    (reason ++ ":" ++ gpu_thermal_unavailable_reason_name (gts_unavailable_reason thermal))%string
  else reason.

(** ** Stage A *)

Definition evaluate_pre_context_admission (request : PreContextAdmissionRequest)
    : PreContextAdmissionDecision :=
  let decision := {| default_PreContextAdmissionDecision with
    pad_policy_ceiling_bytes := prq_policy_ceiling_bytes request;
    pad_requested_tier_bytes := prq_requested_tier_bytes request;
    pad_timing := prq_timing request |} in
  let evaluated := prq_evaluation_monotonic_milliseconds request in
  let timing := prq_timing request in
  if negb (admission_cell_identity_valid (prq_cell request)) then
    reject_pre decision "pre_context_cell_identity_invalid"
  else if negb (gcp_accepted (validate_gpu_hard_cap (prq_policy_ceiling_bytes request))) then
    reject_pre decision "pre_context_policy_ceiling_invalid"
  else if (prq_requested_tier_bytes request =? 0) ||
          (prq_policy_ceiling_bytes request <? prq_requested_tier_bytes request) then
    reject_pre decision "pre_context_requested_tier_invalid"
  else
  match checked_narrow_u32 (prq_context_tokens request) with
  | None => reject_pre decision "pre_context_context_tokens_invalid"
  | Some _ =>
  if prq_context_tokens request =? 0 then
    reject_pre decision "pre_context_context_tokens_invalid"
  else
  match checked_narrow_u32 (prq_run_deadline_milliseconds request) with
  | None => reject_pre decision "pre_context_run_deadline_invalid"
  | Some _ =>
  if prq_run_deadline_milliseconds request =? 0 then
    reject_pre decision "pre_context_run_deadline_invalid"
  else
  match checked_add_u64 evaluated (prq_run_deadline_milliseconds request) with
  | None => reject_pre decision "pre_context_run_deadline_overflowed"
  | Some absolute_run_deadline =>
  if (evaluated =? 0) || (absolute_run_deadline <=? evaluated) then
    reject_pre decision "pre_context_run_deadline_overflowed"
  else if timing_policy_invalid timing then
    reject_pre decision "pre_context_timing_policy_invalid"
  else if negb (prq_exclusive_gpu_lease_held request) then
    reject_pre decision "pre_context_gpu_lease_not_held"
  else if prq_competing_gpu_work_detected request then
    reject_pre decision "pre_context_competing_gpu_work_detected"
  else if negb (prediction_is_complete (prq_predicted_gpu request)) then
    reject_pre decision "pre_context_gpu_prediction_incomplete"
  else
  match predicted_gpu_peak (prq_predicted_gpu request) with
  | None => reject_pre decision "pre_context_gpu_prediction_overflowed"
  | Some predicted_peak =>
  let decision := {| decision with pad_predicted_gpu_peak_bytes := predicted_peak |} in
  if negb (pcg_available (prq_gpu request)) || negb (pcg_adapter_identity_available (prq_gpu request)) ||
     gpu_counters_invalid (prq_gpu request) evaluated (stp_maximum_guard_age_milliseconds timing) then
    reject_pre decision "pre_context_gpu_telemetry_invalid_or_stale"
  else
  let live := Z.min (pcg_physical_or_reportable_local_bytes (prq_gpu request))
                    (pcg_dxgi_local_budget_bytes (prq_gpu request)) in
  let headroom := pcg_dxgi_local_budget_bytes (prq_gpu request) -64
                    pcg_dxgi_local_current_usage_bytes (prq_gpu request) in
  let decision := {| decision with
    pad_pre_context_live_capacity_bytes := live;
    pad_adapter_luid_high := pcg_adapter_luid_high (prq_gpu request);
    pad_adapter_luid_low := pcg_adapter_luid_low (prq_gpu request);
    pad_dxgi_local_headroom_bytes := headroom |} in
  match checked_basis_points_u64 live 1000 Up with
  | None => reject_pre decision "pre_context_gpu_reserve_overflowed"
  | Some fractional_reserve =>
  let reserve := Z.max kOneGiB fractional_reserve in
  let bounded_live := Z.min (prq_policy_ceiling_bytes request) live in
  let effective_cap :=
    Z.min (prq_requested_tier_bytes request)
      (Z.min (reserve_adjust bounded_live reserve) (reserve_adjust headroom reserve)) in
  let decision := {| decision with
    pad_pre_context_gpu_reserve_bytes := reserve;
    pad_pre_context_effective_cap_bytes := effective_cap |} in
  if effective_cap <? predicted_peak then
    reject_pre decision "pre_context_gpu_peak_exceeds_effective_cap"
  else
  match evaluate_thermal (prq_thermal request) evaluated (stp_maximum_guard_age_milliseconds timing) with
  | None => reject_pre decision (thermal_reject_reason (prq_thermal request))
  | Some thermal =>
  let decision := {| decision with
    pad_gpu_warning_celsius := td_warning_celsius thermal;
    pad_gpu_stop_celsius := td_stop_celsius thermal |} in
  if (td_warning_celsius thermal <=? 0) || (td_stop_celsius thermal <=? 0) ||
     (td_stop_celsius thermal <=? td_warning_celsius thermal) then
    reject_pre decision "pre_context_gpu_thermal_bounds_invalid"
  else if negb (td_safe_for_admission thermal) then
    reject_pre decision "pre_context_gpu_thermal_state_unsafe"
  else if negb (shs_available (prq_storage request)) then
    reject_pre decision "pre_context_storage_telemetry_unavailable"
  else if shs_free_bytes (prq_storage request) <? shs_reserve_bytes (prq_storage request) then
    reject_pre decision "pre_context_storage_reserve_unavailable"
  else
  let storage_payload :=
    shs_free_bytes (prq_storage request) -64 shs_reserve_bytes (prq_storage request) in
  let decision := {| decision with pad_storage_payload_bytes := storage_payload |} in
  if storage_payload <? shs_required_incremental_bytes (prq_storage request) then
    reject_pre decision "pre_context_storage_payload_exceeded"
  else
  let host_request := stamp_host_request (prq_host_request request) evaluated
                        (stp_maximum_guard_age_milliseconds timing) in
  let host_decision :=
    evaluate_host_admission (prq_host request) (prq_host_policy request) host_request in
  let decision := {| decision with pad_host_decision := host_decision |} in
  if negb (had_admitted host_decision) then
    reject_pre decision "pre_context_host_admission_rejected"
  else
    {| decision with
       pad_admitted := true;
       pad_reason := "admitted";
       pad_receipt := Some (mkPreReceipt
         (prq_policy_ceiling_bytes request) (prq_requested_tier_bytes request) timing
         (pcg_adapter_luid_high (prq_gpu request)) (pcg_adapter_luid_low (prq_gpu request))
         predicted_peak reserve effective_cap evaluated absolute_run_deadline
         (prq_host_policy request) host_request
         (td_warning_celsius thermal) (td_stop_celsius thermal) (prq_cell request)) |}
  end end end end end end.

(** ** Stage B *)

Record PostContextAdmissionRequest := mkPostRequest {
  poq_pre_context_receipt : option PreContextAdmissionReceipt;
  poq_policy_ceiling_bytes : Z;
  poq_requested_tier_bytes : Z;
  poq_evaluation_monotonic_milliseconds : Z;
  poq_timing : SupervisorTimingPolicy;
  poq_gpu : PreContextGpuSample;
  poq_thermal : GpuThermalSample;
  poq_owned_gpu : OwnedGpuMemoryEvidence;
  poq_host : HostTelemetrySample;
  poq_host_policy : HostReservePolicy;
  poq_host_request : HostAdmissionRequest;
  poq_cell : AdmissionCellIdentity;
}.

(** [por_token_consumed] is the location of the flag all copies of a receipt
    share ([std::shared_ptr<std::atomic<bool>>]); [None] is the null pointer
    of a moved-from receipt. *)
Record PostContextAdmissionReceipt := mkPostReceipt {
  por_receipt_id : Z;
  por_policy_ceiling_bytes : Z;
  por_requested_tier_bytes : Z;
  por_timing : SupervisorTimingPolicy;
  por_adapter_luid_high : Z;
  por_adapter_luid_low : Z;
  por_predicted_gpu_peak_bytes : Z;
  por_gpu_reserve_bytes : Z;
  por_effective_cap_bytes : Z;
  por_evaluation_monotonic_milliseconds : Z;
  por_run_started_monotonic_milliseconds : Z;
  por_run_deadline_monotonic_milliseconds : Z;
  por_host_policy : HostReservePolicy;
  por_host_request : HostAdmissionRequest;
  por_gpu_warning_celsius : Z;
  por_gpu_stop_celsius : Z;
  por_cell : AdmissionCellIdentity;
  por_token_consumed : option nat;
}.

Record PostContextAdmissionDecision := mkPostDecision {
  pod_admitted : bool;
  pod_reason : string;
  pod_reconciled_owned_current_bytes : Z;
  pod_cuda_owned_capacity_bytes : Z;
  pod_dxgi_owned_capacity_bytes : Z;
  pod_post_context_live_capacity_bytes : Z;
  pod_gpu_reserve_bytes : Z;
  pod_post_context_effective_cap_bytes : Z;
  pod_host_decision : HostAdmissionDecision;
  pod_receipt : option PostContextAdmissionReceipt;
}.

Definition default_PostContextAdmissionDecision : PostContextAdmissionDecision :=
  mkPostDecision false "" 0 0 0 0 0 0 default_HostAdmissionDecision None.

(** The process-wide receipt state: the sequence counter and the shared
    flags, allocated in order. *)
Record ReceiptStore := mkReceiptStore {
  rs_sequence : Z;
  rs_flags : list bool;
}.

Definition initial_ReceiptStore : ReceiptStore := mkReceiptStore 1 [].

(** The uncontended path of the compare-exchange loop. *)
Definition next_post_context_receipt_id (s : ReceiptStore) : option (Z * ReceiptStore) :=
  if (rs_sequence s =? 0) || (rs_sequence s =? u64_max) then None
  else Some (rs_sequence s, {| s with rs_sequence := rs_sequence s +64 1 |}).

(** [std::make_shared<std::atomic<bool>>(false)] *)
Definition allocate_flag (s : ReceiptStore) : nat * ReceiptStore :=
  (length (rs_flags s), {| s with rs_flags := rs_flags s ++ [false] |}).

(** [PostContextAdmissionReceipt::consume_for_token]: compare-exchange
    [false -> true] on the shared flag. *)
Definition consume_for_token (r : PostContextAdmissionReceipt) (s : ReceiptStore) : bool * ReceiptStore :=
  match por_token_consumed r with
  | None => (false, s)
  | Some l =>
      match rs_flags s !! l with
      | Some false => (true, {| s with rs_flags := <[l := true]> (rs_flags s) |})
      | _ => (false, s)
      end
  end.

(** The pre-admission receipt must be internally sound and match. *)
Definition pre_receipt_mismatch (request : PostContextAdmissionRequest)
    (pre : PreContextAdmissionReceipt) : bool :=
  (poq_policy_ceiling_bytes request <>z prr_policy_ceiling_bytes pre) ||
  (poq_requested_tier_bytes request <>z prr_requested_tier_bytes pre) ||
  negb (same_timing_policy (poq_timing request) (prr_timing pre)) ||
  negb (same_host_policy (poq_host_policy request) (prr_host_policy pre)) ||
  negb (same_host_workload (poq_host_request request) (prr_host_request pre)) ||
  (poq_evaluation_monotonic_milliseconds request <? prr_run_started_monotonic_milliseconds pre) ||
  (prr_run_deadline_monotonic_milliseconds pre <=? poq_evaluation_monotonic_milliseconds request) ||
  (prr_pre_context_gpu_reserve_bytes pre <? kOneGiB) ||
  (prr_pre_context_effective_cap_bytes pre =? 0) ||
  (prr_requested_tier_bytes pre <? prr_pre_context_effective_cap_bytes pre) ||
  (prr_policy_ceiling_bytes pre <? prr_requested_tier_bytes pre) ||
  (prr_pre_context_effective_cap_bytes pre <? prr_predicted_gpu_peak_bytes pre).

(** The owned-memory evidence of a freshly created context: corroborated,
    reconciled and attributed to the context alone. *)
Definition owned_evidence_invalid (request : PostContextAdmissionRequest)
    (pre : PreContextAdmissionReceipt) (reconciled : option Z) : bool :=
  let owned := poq_owned_gpu request in
  let gpu := poq_gpu request in
  negb (og_available owned) || negb (og_reconciled owned) ||
  negb (og_process_device_corroboration_available owned) ||
  ((og_process_device_source owned <>s "nvml-process") &&
   (og_process_device_source owned <>s "wddm-process")) ||
  (og_process_id owned =? 0) ||
  (og_process_device_captured_monotonic_milliseconds owned <>z og_captured_monotonic_milliseconds owned) ||
  (og_process_device_current_bytes owned <>z og_owned_current_bytes owned) ||
  negb (og_adapter_identity_available owned) ||
  negb (sample_is_fresh (og_captured_monotonic_milliseconds owned)
          (poq_evaluation_monotonic_milliseconds request)
          (stp_maximum_guard_age_milliseconds (poq_timing request))) ||
  (og_adapter_luid_high owned <>z pcg_adapter_luid_high gpu) ||
  (og_adapter_luid_low owned <>z pcg_adapter_luid_low gpu) ||
  (og_unknown_unreconciled_bytes owned <>z 0) ||
  match reconciled with None => true | Some t => t <>z og_owned_current_bytes owned end ||
  (og_cuda_context_runtime_current_bytes owned =? 0) ||
  (og_backend_buffer_current_bytes owned <>z 0) ||
  (og_backend_pool_current_bytes owned <>z 0) ||
  (og_kernel_workspace_current_bytes owned <>z 0) ||
  (og_activation_current_bytes owned <>z 0) ||
  (og_kv_current_bytes owned <>z 0) || (og_graph_current_bytes owned <>z 0) ||
  (og_profiler_workspace_current_bytes owned <>z 0) ||
  (og_owned_peak_bytes owned <? og_owned_current_bytes owned) ||
  (og_hard_cap_bytes owned <>z prr_pre_context_effective_cap_bytes pre) ||
  (og_hard_cap_bytes owned <? og_owned_peak_bytes owned) ||
  (og_cuda_mem_info_total_bytes owned =? 0) ||
  (og_cuda_mem_info_total_bytes owned <? og_cuda_mem_info_free_bytes owned) ||
  (pcg_dxgi_local_current_usage_bytes gpu <? og_owned_current_bytes owned).

Definition reject_post (decision : PostContextAdmissionDecision) (reason : string)
    : PostContextAdmissionDecision :=
  {| decision with pod_reason := reason |}.

Definition evaluate_post_context_admission (request : PostContextAdmissionRequest)
    (store : ReceiptStore) : PostContextAdmissionDecision * ReceiptStore :=
  let decision := default_PostContextAdmissionDecision in
  let evaluated := poq_evaluation_monotonic_milliseconds request in
  let maximum_age := stp_maximum_guard_age_milliseconds (poq_timing request) in
  let gpu := poq_gpu request in
  let owned := poq_owned_gpu request in
  if negb (admission_cell_identity_valid (poq_cell request)) then
    (reject_post decision "post_context_cell_identity_invalid", store)
  else if negb (gcp_accepted (validate_gpu_hard_cap (poq_policy_ceiling_bytes request))) then
    (reject_post decision "post_context_policy_ceiling_invalid", store)
  else
  match poq_pre_context_receipt request with
  | None => (reject_post decision "post_context_pre_admission_receipt_missing", store)
  | Some pre =>
  if negb (cell_eqb (prr_cell pre) (poq_cell request)) then
    (reject_post decision "post_context_pre_admission_cell_mismatched", store)
  else if pre_receipt_mismatch request pre then
    (reject_post decision "post_context_pre_admission_invalid_or_mismatched", store)
  else if negb (pcg_available gpu) || negb (pcg_adapter_identity_available gpu) ||
          (pcg_adapter_luid_high gpu <>z prr_adapter_luid_high pre) ||
          (pcg_adapter_luid_low gpu <>z prr_adapter_luid_low pre) ||
          gpu_counters_invalid gpu evaluated maximum_age then
    (reject_post decision "post_context_gpu_telemetry_invalid_or_stale", store)
  else
  let reconciled := reconcile_owned_current owned in
  if owned_evidence_invalid request pre reconciled then
    (reject_post decision "post_context_owned_gpu_evidence_invalid", store)
  else
  let decision := {| decision with pod_reconciled_owned_current_bytes := default 0 reconciled |} in
  let dxgi_headroom :=
    pcg_dxgi_local_budget_bytes gpu -64 pcg_dxgi_local_current_usage_bytes gpu in
  match checked_add_u64 (og_owned_current_bytes owned) (og_cuda_mem_info_free_bytes owned) with
  | None => (reject_post decision "post_context_live_capacity_overflowed_or_contradictory", store)
  | Some cuda_owned_capacity =>
  match checked_add_u64 (og_owned_current_bytes owned) dxgi_headroom with
  | None => (reject_post decision "post_context_live_capacity_overflowed_or_contradictory", store)
  | Some dxgi_owned_capacity =>
  if og_cuda_mem_info_total_bytes owned <? cuda_owned_capacity then
    (reject_post decision "post_context_live_capacity_overflowed_or_contradictory", store)
  else
  let live := Z.min (Z.min (pcg_physical_or_reportable_local_bytes gpu)
                           (pcg_dxgi_local_budget_bytes gpu))
                    (Z.min cuda_owned_capacity dxgi_owned_capacity) in
  let decision := {| decision with
    pod_cuda_owned_capacity_bytes := cuda_owned_capacity;
    pod_dxgi_owned_capacity_bytes := dxgi_owned_capacity;
    pod_post_context_live_capacity_bytes := live |} in
  match checked_basis_points_u64 live 1000 Up with
  | None => (reject_post decision "post_context_gpu_reserve_overflowed", store)
  | Some fractional_reserve =>
  let reserve :=
    Z.max (prr_pre_context_gpu_reserve_bytes pre) (Z.max kOneGiB fractional_reserve) in
  let bounded_live := Z.min (poq_policy_ceiling_bytes request) live in
  let effective_cap :=
    Z.min (prr_pre_context_effective_cap_bytes pre)
      (Z.min (poq_requested_tier_bytes request) (reserve_adjust bounded_live reserve)) in
  let decision := {| decision with
    pod_gpu_reserve_bytes := reserve;
    pod_post_context_effective_cap_bytes := effective_cap |} in
  if (effective_cap <? og_owned_current_bytes owned) ||
     (effective_cap <? prr_predicted_gpu_peak_bytes pre) then
    (reject_post decision "post_context_gpu_peak_exceeds_effective_cap", store)
  else
  match evaluate_thermal (poq_thermal request) evaluated maximum_age with
  | None => (reject_post decision "post_context_gpu_thermal_telemetry_invalid_or_stale", store)
  | Some thermal =>
  if (td_warning_celsius thermal <=? 0) || (td_stop_celsius thermal <=? 0) ||
     (td_stop_celsius thermal <=? td_warning_celsius thermal) ||
     (prr_gpu_warning_celsius pre <? td_warning_celsius thermal) ||
     (prr_gpu_stop_celsius pre <? td_stop_celsius thermal) ||
     negb (td_safe_for_admission thermal) then
    (reject_post decision "post_context_gpu_thermal_state_unsafe", store)
  else
  let host_request := stamp_host_request (poq_host_request request) evaluated maximum_age in
  let host_decision :=
    evaluate_host_admission (poq_host request) (poq_host_policy request) host_request in
  let decision := {| decision with pod_host_decision := host_decision |} in
  if negb (had_admitted host_decision) then
    (reject_post decision "post_context_host_admission_rejected", store)
  else
  match next_post_context_receipt_id store with
  | None => (reject_post decision "post_context_receipt_sequence_exhausted", store)
  | Some issued =>
    ({| decision with
        pod_admitted := true;
        pod_reason := "admitted";
        pod_receipt := Some (mkPostReceipt issued.1
          (poq_policy_ceiling_bytes request) (poq_requested_tier_bytes request) (poq_timing request)
          (pcg_adapter_luid_high gpu) (pcg_adapter_luid_low gpu)
          (prr_predicted_gpu_peak_bytes pre) reserve effective_cap evaluated
          (prr_run_started_monotonic_milliseconds pre)
          (prr_run_deadline_monotonic_milliseconds pre)
          (prr_host_policy pre) (prr_host_request pre)
          (prr_gpu_warning_celsius pre) (prr_gpu_stop_celsius pre) (poq_cell request)
          (Some (allocate_flag issued.2).1)) |},
     (allocate_flag issued.2).2)
  end end end end end end.

End SupervisorAdmission.
