(* ===== verification/PreAdmission.v ===== *)
(** * Stage A of supervisor admission: specification and proofs

    The abstract rule [evaluate_pre_context_admission] implements, the lemmas
    on the helpers both stages share, and the receipt stage A issues. *)

From S2P Require Import Prelude.
From S2P Require Import CheckedArithmetic.
From S2P Require Import MemoryCap.
From S2P Require Import HostAdmission.
From S2P Require Import GpuTelemetry.
From S2P Require Import SupervisorAdmission.
Import CheckedArithmetic MemoryCap HostAdmission GpuTelemetry SupervisorAdmission.

Module PreAdmission.

(** ** Well-formed requests: every counter is a machine word *)

Definition prediction_wf (p : PredictedGpuFootprint) : Prop :=
  Forall (fun c => u64 (predicted_value c))
    [pgf_context_runtime p; pgf_backend p; pgf_model p; pgf_state p; pgf_workspace p;
     pgf_fragmentation p].

Definition storage_wf (s : StorageHeadroomSample) : Prop :=
  Forall u64 [shs_free_bytes s; shs_reserve_bytes s; shs_required_incremental_bytes s].

Definition pre_request_wf (r : PreContextAdmissionRequest) : Prop :=
  Forall u64 [prq_policy_ceiling_bytes r; prq_requested_tier_bytes r; prq_context_tokens r;
    prq_run_deadline_milliseconds r; prq_evaluation_monotonic_milliseconds r;
    stp_maximum_guard_age_milliseconds (prq_timing r);
    gts_captured_monotonic_milliseconds (prq_thermal r)] /\
  prediction_wf (prq_predicted_gpu r) /\ gpu_sample_wf (prq_gpu r) /\ storage_wf (prq_storage r) /\
  host_sample_wf (prq_host r) /\ host_policy_wf (prq_host_policy r) /\
  host_request_wf (prq_host_request r).

(** ** The abstract stage A rule, over unbounded integers *)

Definition fresh (captured evaluated maximum_age : Z) : Prop :=
  0 < captured <= evaluated /\ evaluated - captured <= maximum_age.

Definition footprint_total (p : PredictedGpuFootprint) : Z :=
  sumZ (map predicted_value [pgf_context_runtime p; pgf_backend p; pgf_model p; pgf_state p;
    pgf_workspace p; pgf_fragmentation p]).

(** Both counters of the adapter bound the memory that can be live. *)
Definition live_capacity (g : PreContextGpuSample) : Z :=
  Z.min (pcg_physical_or_reportable_local_bytes g) (pcg_dxgi_local_budget_bytes g).

Definition dxgi_headroom (g : PreContextGpuSample) : Z :=
  pcg_dxgi_local_budget_bytes g - pcg_dxgi_local_current_usage_bytes g.

(** One GiB or a tenth of the live capacity, whichever is larger. *)
Definition gpu_reserve (live : Z) : Z := Z.max kOneGiB (fraction_up live 1000).

Definition gpu_counters_ok (g : PreContextGpuSample) (evaluated maximum_age : Z) : Prop :=
  pcg_available g = true /\ pcg_adapter_identity_available g = true /\
  fresh (pcg_captured_monotonic_milliseconds g) evaluated maximum_age /\
  pcg_physical_or_reportable_local_bytes g <> 0 /\ pcg_dxgi_local_budget_bytes g <> 0 /\
  pcg_dxgi_local_current_usage_bytes g <= pcg_dxgi_local_budget_bytes g.

Definition thermal_sane (t : GpuThermalSample) (evaluated maximum_age : Z) : Prop :=
  gts_available t = true /\ fresh (gts_captured_monotonic_milliseconds t) evaluated maximum_age /\
  -100 <= gts_current_celsius t <= 200 /\
  (forall c, gts_reported_target_celsius t = Some c -> -100 <= c <= 200) /\
  (forall c, gts_reported_slowdown_celsius t = Some c -> -100 <= c <= 200).

(** The device is cooler than a warning level that lies below the stop level. *)
Definition thermal_admissible (t : GpuThermalSample) (evaluated maximum_age : Z) : Prop :=
  thermal_sane t evaluated maximum_age /\
  0 < derived_warning t < derived_stop t /\
  gts_thermal_throttling t = false /\ gts_power_brake_slowdown t = false /\
  gts_current_celsius t < derived_warning t.

Definition pre_admissible (r : PreContextAdmissionRequest) : Prop :=
  let evaluated := prq_evaluation_monotonic_milliseconds r in
  let age := stp_maximum_guard_age_milliseconds (prq_timing r) in
  let peak := footprint_total (prq_predicted_gpu r) in
  let live := live_capacity (prq_gpu r) in
  admission_cell_identity_valid (prq_cell r) = true /\
  0 < prq_requested_tier_bytes r <= prq_policy_ceiling_bytes r /\
  prq_policy_ceiling_bytes r <= kMaxGpuHardCapBytes /\
  0 < prq_context_tokens r <= u32_max /\ 0 < prq_run_deadline_milliseconds r <= u32_max /\
  0 < evaluated /\ evaluated + prq_run_deadline_milliseconds r <= u64_max /\
  timing_policy_invalid (prq_timing r) = false /\
  prq_exclusive_gpu_lease_held r = true /\ prq_competing_gpu_work_detected r = false /\
  prediction_is_complete (prq_predicted_gpu r) = true /\
  gpu_counters_ok (prq_gpu r) evaluated age /\
  peak <= prq_requested_tier_bytes r /\
  peak + gpu_reserve live <= Z.min (prq_policy_ceiling_bytes r) live /\
  peak + gpu_reserve live <= dxgi_headroom (prq_gpu r) /\
  thermal_admissible (prq_thermal r) evaluated age /\
  shs_available (prq_storage r) = true /\
  shs_reserve_bytes (prq_storage r) + shs_required_incremental_bytes (prq_storage r)
    <= shs_free_bytes (prq_storage r) /\
  host_admissible (prq_host r) (prq_host_policy r)
    (stamp_host_request (prq_host_request r) evaluated age).

(** ** Lemmas on the helpers *)

Lemma sample_is_fresh_iff c e m : u64 c -> u64 e ->
  sample_is_fresh c e m = true <-> fresh c e m.
Proof.
  intros Hc He. unfold sample_is_fresh, fresh. bool_iff. unfold u64 in *.
  split; intros H; [rewrite wrap64_sub in H by (unfold u64; lia); lia|].
  rewrite wrap64_sub by (unfold u64; lia). lia.
Qed.

Lemma gpu_counters_iff g e m : gpu_sample_wf g -> u64 e ->
  (pcg_available g = true /\ pcg_adapter_identity_available g = true) /\
  gpu_counters_invalid g e m = false <-> gpu_counters_ok g e m.
Proof.
  intros Hg He. unfold gpu_counters_invalid, gpu_counters_ok. bool_iff.
  rewrite sample_is_fresh_iff by (done || apply Hg). tauto.
Qed.

Lemma reserve_adjust_fits x reserve p : u64 x -> 0 <= reserve -> 0 < p ->
  p <= reserve_adjust x reserve <-> p + reserve <= x.
Proof.
  unfold u64, reserve_adjust. intros. destruct (Z.ltb_spec reserve x); [|lia].
  rewrite wrap64_small by (unfold u64; lia). lia.
Qed.

Lemma reserve_adjust_spec x reserve : u64 x -> 0 <= reserve ->
  reserve_adjust x reserve = Z.max 0 (x - reserve).
Proof.
  unfold u64, reserve_adjust. intros. destruct (Z.ltb_spec reserve x); [|lia].
  rewrite wrap64_small by (unfold u64; lia). lia.
Qed.

Lemma predicted_gpu_peak_spec p : prediction_wf p ->
  predicted_gpu_peak p =
    if footprint_total p <=? u64_max then Some (footprint_total p) else None.
Proof.
  unfold prediction_wf, footprint_total, predicted_gpu_peak. rewrite !Forall_cons.
  intros (?&?&?&?&?&?&_). cbn [map].
  pose proof (checked_sum_from_spec checked_add_u64
    (map predicted_value [pgf_context_runtime p; pgf_backend p; pgf_model p; pgf_state p;
       pgf_workspace p; pgf_fragmentation p]) 0 ltac:(unfold u64; lia)) as Hsum.
  cbn [map] in Hsum. rewrite Z.add_0_l in Hsum. rewrite <- Hsum by (rewrite !Forall_cons; done).
  cbn [checked_sum_from]. rewrite (checked_add_fits 0) by (unfold u64 in *; lia).
  rewrite Z.add_0_l. by destruct (checked_add_u64 (predicted_value (pgf_context_runtime p)) _).
Qed.

Lemma optional_temperature_iff t :
  optional_temperature_invalid valid_temperature t = false <->
  forall c, t = Some c -> -100 <= c <= 200.
Proof.
  unfold optional_temperature_invalid, valid_temperature. destruct t as [c|]; [|by split].
  bool_iff. split; [intros ?? [= <-]; lia|]. intros H. specialize (H c eq_refl). lia.
Qed.

Definition thermal_sane_b (t : GpuThermalSample) (e m : Z) : bool :=
  negb (negb (gts_available t) ||
        negb (sample_is_fresh (gts_captured_monotonic_milliseconds t) e m) ||
        negb (valid_temperature (gts_current_celsius t)) ||
        optional_temperature_invalid valid_temperature (gts_reported_target_celsius t) ||
        optional_temperature_invalid valid_temperature (gts_reported_slowdown_celsius t)).

Definition thermal_safe_b (t : GpuThermalSample) : bool :=
  negb ((derived_warning t <=? 0) || (derived_stop t <=? 0) || (derived_stop t <=? derived_warning t)) &&
  (negb (gts_thermal_throttling t) && negb (gts_power_brake_slowdown t) &&
   (gts_current_celsius t <? derived_warning t)).

Lemma thermal_sane_iff t e m : u64 (gts_captured_monotonic_milliseconds t) -> u64 e ->
  thermal_sane_b t e m = true <-> thermal_sane t e m.
Proof.
  intros Hc He. unfold thermal_sane, thermal_sane_b, valid_temperature at 1. bool_iff.
  rewrite !optional_temperature_iff, sample_is_fresh_iff by done. tauto.
Qed.

(** An evaluated temperature carries the derived bounds and is safe exactly
    when the device is cool and unthrottled. *)
Lemma evaluate_thermal_spec t e m :
  evaluate_thermal t e m =
    if thermal_sane_b t e m
    then Some (mkThermalDecision (derived_warning t) (derived_stop t) (thermal_safe_b t)) else None.
Proof.
  unfold evaluate_thermal, thermal_sane_b, thermal_safe_b. destruct (_ || _); [done|].
  cbn [negb]. cbv zeta. by destruct (_ || _).
Qed.

Lemma thermal_admissible_iff t e m : u64 (gts_captured_monotonic_milliseconds t) -> u64 e ->
  thermal_sane_b t e m = true /\ thermal_safe_b t = true <-> thermal_admissible t e m.
Proof.
  intros Hc He. rewrite thermal_sane_iff by done. unfold thermal_admissible, thermal_safe_b.
  bool_iff. split; intros; split_and!; tauto || lia.
Qed.

Lemma gpu_reserve_nonneg live : 1073741824 <= gpu_reserve live.
Proof. unfold gpu_reserve. change kOneGiB with 1073741824. lia. Qed.

Lemma stamp_host_request_wf r e m : host_request_wf r -> u64 e -> u64 m ->
  host_request_wf (stamp_host_request r e m).
Proof. unfold host_request_wf. rewrite !Forall_cons. cbn. tauto. Qed.

(** A complete prediction is positive: the context itself costs memory. *)
Lemma complete_prediction_positive p : prediction_wf p -> prediction_is_complete p = true ->
  0 < footprint_total p.
Proof.
  unfold prediction_wf, prediction_is_complete, footprint_total. rewrite !Forall_cons. bool_iff.
  cbn [map sumZ]. unfold u64. lia.
Qed.

(** Reduce the record plumbing of stage A and nothing else. *)
Ltac pre_norm :=
  lazy beta iota zeta delta [evaluate_pre_context_admission reject_pre
    default_PreContextAdmissionDecision pad_admitted pad_reason pad_policy_ceiling_bytes
    pad_requested_tier_bytes pad_timing pad_adapter_luid_high pad_adapter_luid_low
    pad_predicted_gpu_peak_bytes pad_pre_context_live_capacity_bytes pad_dxgi_local_headroom_bytes
    pad_pre_context_gpu_reserve_bytes pad_pre_context_effective_cap_bytes pad_gpu_warning_celsius
    pad_gpu_stop_celsius pad_storage_payload_bytes pad_host_decision pad_receipt].

Lemma narrow_u32_spec n : checked_narrow_u32 n = if n <=? u32_max then Some n else None.
Proof. unfold checked_narrow_u32. rewrite Z.ltb_antisym. by destruct (n <=? u32_max). Qed.

(** The GPU budget of stage A: the predicted peak fits the effective cap
    exactly when peak plus reserve fits everything that bounds it. *)
Lemma pre_cap_fits (peak tier ceiling live headroom reserve : Z) :
  u64 (Z.min ceiling live) -> u64 headroom -> 0 <= reserve -> 0 < peak ->
  peak <= Z.min tier (Z.min (reserve_adjust (Z.min ceiling live) reserve)
                            (reserve_adjust headroom reserve)) <->
  peak <= tier /\ peak + reserve <= Z.min ceiling live /\ peak + reserve <= headroom.
Proof.
  intros Hl Hh Hr Hp. rewrite !Z.min_glb_iff, !reserve_adjust_fits by done.
  rewrite Z.min_glb_iff. tauto.
Qed.

Lemma storage_fits (s : StorageHeadroomSample) : storage_wf s ->
  shs_reserve_bytes s <= shs_free_bytes s /\
  shs_required_incremental_bytes s <= shs_free_bytes s -64 shs_reserve_bytes s <->
  shs_reserve_bytes s + shs_required_incremental_bytes s <= shs_free_bytes s.
Proof.
  unfold storage_wf. rewrite !Forall_cons. intros (?&?&?&_). unfold u64 in *. split.
  - intros [? Hp]. rewrite wrap64_small in Hp by (unfold u64; lia). lia.
  - intros. rewrite wrap64_small by (unfold u64; lia). lia.
Qed.

Lemma pre_admitted_iff r : pre_request_wf r ->
  pad_admitted (evaluate_pre_context_admission r) = true <-> pre_admissible r.
Proof.
  intros (Hz & Hpred & Hgpu & Hst & Hhost & Hpol & Hreq). rewrite !Forall_cons in Hz.
  destruct Hz as (Hceil & Htier & Htok & Hdl & Hev & Hage & Hth & _).
  pose proof Hgpu as (Hgc & Hgp & Hgb & Hgu).
  observe pad_admitted as q. pre_norm.
  rewrite basis_points_spec, predicted_gpu_peak_spec, !narrow_u32_spec, checked_add_spec,
    evaluate_thermal_spec by (done || unfold u64, u32 in *; lia).
  change (1000 <=? 10000) with true. cascade. subst q. cbn [pad_admitted].
  bool_iff. cbn [td_warning_celsius td_stop_celsius td_safe_for_admission].
  set (live := Z.min (pcg_physical_or_reportable_local_bytes _) _).
  change (Z.max kOneGiB ((live * 1000 + 9999) / 10000)) with (gpu_reserve live).
  rewrite host_admitted_iff, gpu_counters_iff, validate_gpu_hard_cap_accepted
    by (done || by apply stamp_host_request_wf).
  unfold pre_admissible, dxgi_headroom. cbv zeta. change (live_capacity (prq_gpu r)) with live.
  pose proof (gpu_reserve_nonneg live). pose proof (storage_fits _ Hst) as Hfit.
  rewrite <- thermal_admissible_iff, <- Hfit by done.
  assert (u64 live) by (unfold u64 in *; subst live; lia).
  split.
  - intros (?&?&?&?&?&?&?&?&?&?&?&?&Hc&?&Hg&Hpk&?&?&?&?&?&?&?&_).
    pose proof (complete_prediction_positive _ Hpred Hc).
    pose proof Hg as (_&_&_&_&_&Husage).
    rewrite wrap64_sub in Hpk by done.
    rewrite pre_cap_fits in Hpk by (done || unfold u64 in *; lia).
    unfold u64 in *. split_and!; done || lia.
  - intros (?&?&?&?&?&?&?&?&?&?&Hc&Hg&?&?&?&[Hsn Hsf]&?&?&?).
    pose proof (complete_prediction_positive _ Hpred Hc).
    pose proof Hg as (_&_&_&_&_&Husage).
    pose proof (thermal_admissible_iff (prq_thermal r) _ (stp_maximum_guard_age_milliseconds (prq_timing r))
      Hth Hev) as [Hta _].
    destruct (Hta (conj Hsn Hsf)) as (_ & Hb & _).
    rewrite wrap64_sub by done.
    rewrite pre_cap_fits by (done || unfold u64 in *; lia).
    unfold u64 in *. split_and!; done || lia.
Qed.

(** The receipt stage A issues, over unbounded integers. *)
Definition pre_receipt_of (r : PreContextAdmissionRequest) : PreContextAdmissionReceipt :=
  let live := live_capacity (prq_gpu r) in
  let reserve := gpu_reserve live in
  let evaluated := prq_evaluation_monotonic_milliseconds r in
  mkPreReceipt (prq_policy_ceiling_bytes r) (prq_requested_tier_bytes r) (prq_timing r)
    (pcg_adapter_luid_high (prq_gpu r)) (pcg_adapter_luid_low (prq_gpu r))
    (footprint_total (prq_predicted_gpu r)) reserve
    (Z.min (prq_requested_tier_bytes r)
       (Z.min (Z.min (prq_policy_ceiling_bytes r) live - reserve)
              (dxgi_headroom (prq_gpu r) - reserve)))
    evaluated (evaluated + prq_run_deadline_milliseconds r)
    (prq_host_policy r)
    (stamp_host_request (prq_host_request r) evaluated
       (stp_maximum_guard_age_milliseconds (prq_timing r)))
    (derived_warning (prq_thermal r)) (derived_stop (prq_thermal r)) (prq_cell r).

(** The cap computed with the saturating subtraction is the plain difference
    once something positive fits in it. *)
Lemma reserve_adjust_sub x reserve p : u64 x -> 0 <= reserve -> 0 < p -> p + reserve <= x ->
  reserve_adjust x reserve = x - reserve.
Proof. intros. rewrite reserve_adjust_spec by done. lia. Qed.

Lemma pre_receipt_spec r : pre_request_wf r ->
  let d := evaluate_pre_context_admission r in
  pad_receipt d = if pad_admitted d then Some (pre_receipt_of r) else None.
Proof.
  intros Hwf. cbv zeta. pose proof Hwf as (Hz & Hpred & Hgpu & Hst & Hhost & Hpol & Hreq).
  rewrite !Forall_cons in Hz. destruct Hz as (Hceil & Htier & Htok & Hdl & Hev & Hage & Hth & _).
  pose proof Hgpu as (Hgc & Hgp & Hgb & Hgu).
  pose proof (pre_admitted_iff r Hwf) as [Hadm _].
  destruct (pad_admitted (evaluate_pre_context_admission r)) eqn:E; revert E.
  - intros _. pose proof (Hadm eq_refl) as Hfull. pose proof Hfull as (_&_&_&_&_&_&_&_&_&_&Hc&Hg&?&Hl&Hh&_).
    clear Hadm.
    pose proof (complete_prediction_positive _ Hpred Hc). pose proof Hg as (_&_&_&_&_&Husage).
    pose proof (gpu_reserve_nonneg (live_capacity (prq_gpu r))).
    assert (u64 (live_capacity (prq_gpu r))) by (unfold u64, live_capacity in *; lia).
    assert (u64 (dxgi_headroom (prq_gpu r))) by (unfold u64, dxgi_headroom in *; lia).
    set (P := fun d => pad_admitted d = true -> pad_receipt d = Some (pre_receipt_of r)).
    enough (P (evaluate_pre_context_admission r)) as HP by (apply HP; apply pre_admitted_iff; done).
    pre_norm.
    rewrite basis_points_spec, predicted_gpu_peak_spec, !narrow_u32_spec, checked_add_spec,
      evaluate_thermal_spec by (done || unfold u64, u32 in *; lia).
    cascade_elim ltac:(intros [=]). intros _. cbn [pad_receipt]. unfold pre_receipt_of. cbv zeta.
    repeat match goal with G : (if _ then Some _ else None) = Some _ |- _ =>
      apply if_when_Some in G; subst end.
    cbn [td_warning_celsius td_stop_celsius]. rewrite wrap64_sub by done.
    fold (live_capacity (prq_gpu r)). fold (dxgi_headroom (prq_gpu r)).
    fold (fraction_up (live_capacity (prq_gpu r)) 1000). fold (gpu_reserve (live_capacity (prq_gpu r))).
    rewrite !(reserve_adjust_sub _ _ (footprint_total (prq_predicted_gpu r)))
      by (done || unfold u64 in *; lia).
    reflexivity.
  - set (P := fun d => pad_admitted d = false -> pad_receipt d = None).
    change (P (evaluate_pre_context_admission r)). pre_norm. cascade_elim ltac:(done). by intros [=].
Qed.

Lemma reserve_is_a_tenth live : live <= 10 * gpu_reserve live.
Proof.
  unfold gpu_reserve, fraction_up.
  pose proof (Z.div_mod (live * 1000 + 9999) 10000 ltac:(lia)).
  pose proof (Z.mod_pos_bound (live * 1000 + 9999) 10000 ltac:(lia)). lia.
Qed.

Lemma derived_stop_bound t : derived_stop t <= 82.
Proof. unfold derived_stop. repeat case_match; lia. Qed.

(** C3. Stage A implements its abstract rule exactly: a context may be
    created if and only if the cell, ceiling, tier, timing and lease checks
    pass and, over unbounded integers, the predicted peak plus the GPU reserve
    fits below the ceiling, the live capacity and the DXGI headroom, the
    device is cool, storage covers its reserve plus the run, and host
    admission holds.  No wrap-around or saturation admits a request. *)
Theorem pre_context_admission_correct r : pre_request_wf r ->
  pad_admitted (evaluate_pre_context_admission r) = true <-> pre_admissible r.
Proof. apply pre_admitted_iff. Qed.

(** A stage A decision carries a receipt exactly when it admits, and the
    receipt bounds the run: the predicted peak is the sum of the six
    categories, peak <= cap <= tier <= ceiling <= 16 GiB, cap plus reserve
    stays within the live capacity and the DXGI headroom, at least 1 GiB and
    a tenth of the live capacity stay reserved, and the deadline lies
    strictly after the start. *)
Theorem pre_receipt_bounds_the_run r : pre_request_wf r ->
  let d := evaluate_pre_context_admission r in
  match pad_receipt d with
  | None => pad_admitted d = false
  | Some c =>
      pad_admitted d = true /\
      prr_predicted_gpu_peak_bytes c = footprint_total (prq_predicted_gpu r) /\
      0 < prr_predicted_gpu_peak_bytes c <= prr_pre_context_effective_cap_bytes c /\
      prr_pre_context_effective_cap_bytes c <= prr_requested_tier_bytes c
        <= prr_policy_ceiling_bytes c /\
      prr_policy_ceiling_bytes c <= kMaxGpuHardCapBytes /\
      prr_pre_context_effective_cap_bytes c + prr_pre_context_gpu_reserve_bytes c
        <= Z.min (live_capacity (prq_gpu r)) (dxgi_headroom (prq_gpu r)) /\
      kOneGiB <= prr_pre_context_gpu_reserve_bytes c /\
      live_capacity (prq_gpu r) <= 10 * prr_pre_context_gpu_reserve_bytes c /\
      prr_run_started_monotonic_milliseconds c < prr_run_deadline_monotonic_milliseconds c <= u64_max /\
      0 < prr_gpu_warning_celsius c < prr_gpu_stop_celsius c /\ prr_gpu_stop_celsius c <= 82 /\
      gts_current_celsius (prq_thermal r) < prr_gpu_warning_celsius c
  end.
Proof.
  intros Hwf. cbv zeta. rewrite pre_receipt_spec by done.
  destruct (pad_admitted (evaluate_pre_context_admission r)) eqn:E; [|done].
  apply pre_admitted_iff in E; [|done]. split; [done|].
  destruct E as (_&?&?&_&?&_&?&_&_&_&Hc&_&?&?&?&(_&?&_&_&?)&_).
  destruct Hwf as (_ & Hpred & _).
  pose proof (complete_prediction_positive _ Hpred Hc).
  pose proof (reserve_is_a_tenth (live_capacity (prq_gpu r))).
  pose proof (derived_stop_bound (prq_thermal r)).
  unfold pre_receipt_of. cbn. cbn in *. unfold gpu_reserve in *. lia.
Qed.

(** ** Witness: an 8 GiB tier on a 12 GiB adapter *)

Definition demo_digest : list Z := replicate 32 7.
Definition demo_cell : AdmissionCellIdentity :=
  mkCell 1 demo_digest demo_digest demo_digest demo_digest demo_digest demo_digest.
Definition demo_estimate (b : Z) : PredictedBytes := mkPredicted (Some b) PinnedRuntimeEstimate.
Definition demo_footprint : PredictedGpuFootprint :=
  mkFootprint (demo_estimate 536870912) (demo_estimate 268435456)
    (mkPredicted (Some 4294967296) ApprovedArtifactCensus) (demo_estimate 1073741824)
    (demo_estimate 268435456) (mkPredicted (Some 0) ExactZeroNotApplicable).
Definition demo_gpu : PreContextGpuSample :=
  mkGpuSample true true 0 4660 5000 12884901888 11811160064 536870912.
Definition demo_thermal : GpuThermalSample :=
  {| default_GpuThermalSample with
     gts_available := true; gts_captured_monotonic_milliseconds := 5000;
     gts_current_celsius := 45; gts_reported_target_celsius := Some 83;
     gts_reported_slowdown_celsius := Some 97 |}.
Definition demo_pre_request : PreContextAdmissionRequest :=
  mkPreRequest 17179869184 8589934592 4096 60000 5100 true false default_SupervisorTimingPolicy
    demo_footprint demo_gpu demo_thermal (mkStorage true 107374182400 10737418240 1073741824)
    demo_host demo_policy demo_request demo_cell.

Lemma demo_pre_request_wf : pre_request_wf demo_pre_request.
Proof.
  unfold pre_request_wf, prediction_wf, storage_wf. rewrite !Forall_cons, !Forall_nil.
  destruct demo_wf as (?&?&?). split_and!; done || closed_bounds.
Defined.

Lemma demo_pre_admitted : pad_admitted (evaluate_pre_context_admission demo_pre_request) = true.
Proof. vm_compute. reflexivity. Defined.

Lemma pre_context_admission_correct_witness : pre_admissible demo_pre_request.
Proof.
  apply (pre_context_admission_correct demo_pre_request); [apply demo_pre_request_wf|apply demo_pre_admitted].
Defined.

Lemma pre_receipt_bounds_the_run_witness :
  exists c, pad_receipt (evaluate_pre_context_admission demo_pre_request) = Some c /\
    0 < prr_predicted_gpu_peak_bytes c <= prr_pre_context_effective_cap_bytes c.
Proof.
  pose proof (pre_receipt_bounds_the_run demo_pre_request demo_pre_request_wf) as H. cbv zeta in H.
  destruct (pad_receipt (evaluate_pre_context_admission demo_pre_request)) as [c|] eqn:E.
  - exists c. split; [done|]. apply H.
  - rewrite demo_pre_admitted in H. discriminate H.
Defined.

End PreAdmission.
