(* ===== verification/PostAdmission.v ===== *)
(** * Stage B of supervisor admission: specification and proofs

    The abstract rule [evaluate_post_context_admission] implements once the
    context exists, the receipt it issues, and the process-wide receipt
    store. *)

From S2P Require Import Prelude.
From S2P Require Import CheckedArithmetic.
From S2P Require Import MemoryCap.
From S2P Require Import HostAdmission.
From S2P Require Import GpuTelemetry.
From S2P Require Import SupervisorAdmission.
From S2P Require Import PreAdmission.
Import CheckedArithmetic MemoryCap HostAdmission GpuTelemetry SupervisorAdmission PreAdmission.

Module PostAdmission.

(** ** The abstract stage B rule *)

(** Equality of records from the equality of their fields, both ways. *)
Ltac fields_eq := split; [intros ?; destruct_and!; by subst|intros [=]; subst; split_and!; done].

Lemma same_timing_policy_eq a b : same_timing_policy a b = true <-> a = b.
Proof. destruct a, b. unfold same_timing_policy. cbn. bool_iff. fields_eq. Qed.

Lemma same_host_policy_eq a b : same_host_policy a b = true <-> a = b.
Proof.
  destruct a, b. unfold same_host_policy. cbn. bool_iff. rewrite bool_decide_eq_true. fields_eq.
Qed.

(** Two workloads are the same when they agree up to the clock fields the
    supervisor overwrites. *)
Lemma same_host_workload_eq a b e m :
  same_host_workload a b = true <-> stamp_host_request a e m = stamp_host_request b e m.
Proof.
  destruct a, b. unfold same_host_workload, stamp_host_request. cbn. bool_iff.
  rewrite Bool.eqb_true_iff. fields_eq.
Qed.

Definition receipt_matches (r : PostContextAdmissionRequest) (pre : PreContextAdmissionReceipt) : Prop :=
  poq_policy_ceiling_bytes r = prr_policy_ceiling_bytes pre /\
  poq_requested_tier_bytes r = prr_requested_tier_bytes pre /\
  poq_timing r = prr_timing pre /\ poq_host_policy r = prr_host_policy pre /\
  same_host_workload (poq_host_request r) (prr_host_request pre) = true /\
  prr_run_started_monotonic_milliseconds pre <= poq_evaluation_monotonic_milliseconds r
    < prr_run_deadline_monotonic_milliseconds pre /\
  kOneGiB <= prr_pre_context_gpu_reserve_bytes pre /\
  prr_pre_context_effective_cap_bytes pre <> 0 /\
  prr_pre_context_effective_cap_bytes pre <= prr_requested_tier_bytes pre /\
  prr_requested_tier_bytes pre <= prr_policy_ceiling_bytes pre /\
  prr_predicted_gpu_peak_bytes pre <= prr_pre_context_effective_cap_bytes pre.

Lemma pre_receipt_mismatch_iff r pre : pre_receipt_mismatch r pre = false <-> receipt_matches r pre.
Proof.
  unfold pre_receipt_mismatch, receipt_matches. bool_iff.
  rewrite same_timing_policy_eq, same_host_policy_eq. tauto.
Qed.

(** The worker owns the context and nothing else, as two observers agree. *)
Definition owned_context_only (r : PostContextAdmissionRequest) (pre : PreContextAdmissionReceipt) : Prop :=
  let owned := poq_owned_gpu r in
  og_available owned = true /\ og_reconciled owned = true /\
  og_process_device_corroboration_available owned = true /\
  (og_process_device_source owned = "nvml-process"%string \/
   og_process_device_source owned = "wddm-process"%string) /\
  og_process_id owned <> 0 /\
  og_process_device_captured_monotonic_milliseconds owned = og_captured_monotonic_milliseconds owned /\
  og_process_device_current_bytes owned = og_owned_current_bytes owned /\
  og_adapter_identity_available owned = true /\
  fresh (og_captured_monotonic_milliseconds owned) (poq_evaluation_monotonic_milliseconds r)
    (stp_maximum_guard_age_milliseconds (poq_timing r)) /\
  og_adapter_luid_high owned = pcg_adapter_luid_high (poq_gpu r) /\
  og_adapter_luid_low owned = pcg_adapter_luid_low (poq_gpu r) /\
  og_unknown_unreconciled_bytes owned = 0 /\
  og_owned_current_bytes owned = og_cuda_context_runtime_current_bytes owned /\
  0 < og_owned_current_bytes owned /\
  sumZ (current_categories owned) = og_owned_current_bytes owned /\
  og_owned_current_bytes owned <= og_owned_peak_bytes owned <= og_hard_cap_bytes owned /\
  og_hard_cap_bytes owned = prr_pre_context_effective_cap_bytes pre /\
  0 < og_cuda_mem_info_total_bytes owned /\
  og_cuda_mem_info_free_bytes owned <= og_cuda_mem_info_total_bytes owned /\
  og_owned_current_bytes owned <= pcg_dxgi_local_current_usage_bytes (poq_gpu r).

Definition post_request_wf (r : PostContextAdmissionRequest) : Prop :=
  Forall u64 [poq_policy_ceiling_bytes r; poq_requested_tier_bytes r;
    poq_evaluation_monotonic_milliseconds r; stp_maximum_guard_age_milliseconds (poq_timing r);
    gts_captured_monotonic_milliseconds (poq_thermal r)] /\
  gpu_sample_wf (poq_gpu r) /\ owned_wf (poq_owned_gpu r) /\
  host_sample_wf (poq_host r) /\ host_policy_wf (poq_host_policy r) /\
  host_request_wf (poq_host_request r).

Lemma reconcile_owned_spec o : Forall u64 (current_categories o) ->
  reconcile_owned_current o =
    if sumZ (current_categories o) <=? u64_max then Some (sumZ (current_categories o)) else None.
Proof.
  intros H. unfold reconcile_owned_current.
  rewrite (checked_sum_from_spec checked_add_u64) by (done || unfold u64; lia). by rewrite Z.add_0_l.
Qed.

(** The seven categories other than the context are all zero exactly when
    the sum is the context's share. *)
Lemma context_only_categories o : Forall u64 (current_categories o) ->
  sumZ (current_categories o) = og_cuda_context_runtime_current_bytes o <->
  og_backend_buffer_current_bytes o = 0 /\ og_backend_pool_current_bytes o = 0 /\
  og_kernel_workspace_current_bytes o = 0 /\ og_activation_current_bytes o = 0 /\
  og_kv_current_bytes o = 0 /\ og_graph_current_bytes o = 0 /\
  og_profiler_workspace_current_bytes o = 0.
Proof.
  unfold current_categories. rewrite !Forall_cons. cbn [sumZ]. unfold u64. lia.
Qed.

Lemma source_known_iff s a b :
  ((s <>s a) && (s <>s b)) = false <-> s = a \/ s = b.
Proof. rewrite andb_false_iff. bool_iff. tauto. Qed.

Lemma owned_evidence_iff r pre : post_request_wf r ->
  owned_evidence_invalid r pre (reconcile_owned_current (poq_owned_gpu r)) = false <->
  owned_context_only r pre.
Proof.
  intros (Hz & Hg & (Hcat & Hpk & Ho) & _). rewrite !Forall_cons in Hz. rewrite !Forall_cons in Ho.
  destruct Hz as (_&_&Hev&_&_&_). destruct Ho as (Hcap&?&?&?&?&?&?&_).
  unfold owned_evidence_invalid. cbv zeta. rewrite reconcile_owned_spec by done.
  pose proof (context_only_categories _ Hcat) as Hctx. pose proof (sumZ_nonneg _ Hcat).
  unfold owned_context_only. cbv zeta.
  destruct (Z.leb_spec (sumZ (current_categories (poq_owned_gpu r))) u64_max) as [Hle|Hgt]; bool_iff;
    rewrite source_known_iff, sample_is_fresh_iff by done.
  - split; intros; destruct_and!.
    + assert (sumZ (current_categories (poq_owned_gpu r)) =
        og_cuda_context_runtime_current_bytes (poq_owned_gpu r)) by (apply Hctx; tauto).
      unfold u64 in *. split_and!; try tauto; lia.
    + destruct Hctx as [Hctx _]. destruct Hctx as (?&?&?&?&?&?&?); [lia|].
      unfold u64 in *. split_and!; try tauto; lia.
  - split; intros; destruct_and!; [done|]. unfold u64 in *. lia.
Qed.

(** What the context leaves for the run: neither the adapter, nor the memory
    CUDA reports, nor the DXGI budget may be exceeded. *)
Definition post_live_capacity (r : PostContextAdmissionRequest) : Z :=
  let owned := og_owned_current_bytes (poq_owned_gpu r) in
  Z.min (live_capacity (poq_gpu r))
    (Z.min (owned + og_cuda_mem_info_free_bytes (poq_owned_gpu r)) (owned + dxgi_headroom (poq_gpu r))).

Definition post_reserve (r : PostContextAdmissionRequest) (pre : PreContextAdmissionReceipt) : Z :=
  Z.max (prr_pre_context_gpu_reserve_bytes pre) (gpu_reserve (post_live_capacity r)).

(** The larger of what is already owned and what was predicted. *)
Definition post_demand (r : PostContextAdmissionRequest) (pre : PreContextAdmissionReceipt) : Z :=
  Z.max (og_owned_current_bytes (poq_owned_gpu r)) (prr_predicted_gpu_peak_bytes pre).

Definition sequence_available (s : ReceiptStore) : Prop :=
  rs_sequence s <> 0 /\ rs_sequence s <> u64_max.

Definition post_admissible (r : PostContextAdmissionRequest) (pre : PreContextAdmissionReceipt) : Prop :=
  let evaluated := poq_evaluation_monotonic_milliseconds r in
  let age := stp_maximum_guard_age_milliseconds (poq_timing r) in
  let owned := poq_owned_gpu r in
  admission_cell_identity_valid (poq_cell r) = true /\
  0 < poq_policy_ceiling_bytes r <= kMaxGpuHardCapBytes /\
  prr_cell pre = poq_cell r /\ receipt_matches r pre /\
  gpu_counters_ok (poq_gpu r) evaluated age /\
  pcg_adapter_luid_high (poq_gpu r) = prr_adapter_luid_high pre /\
  pcg_adapter_luid_low (poq_gpu r) = prr_adapter_luid_low pre /\
  owned_context_only r pre /\
  og_owned_current_bytes owned + og_cuda_mem_info_free_bytes owned <= og_cuda_mem_info_total_bytes owned /\
  post_demand r pre + post_reserve r pre <= Z.min (poq_policy_ceiling_bytes r) (post_live_capacity r) /\
  thermal_admissible (poq_thermal r) evaluated age /\
  derived_warning (poq_thermal r) <= prr_gpu_warning_celsius pre /\
  derived_stop (poq_thermal r) <= prr_gpu_stop_celsius pre /\
  host_admissible (poq_host r) (poq_host_policy r)
    (stamp_host_request (poq_host_request r) evaluated age).

Ltac post_norm :=
  lazy beta iota zeta delta [evaluate_post_context_admission reject_post
    default_PostContextAdmissionDecision pod_admitted pod_reason pod_reconciled_owned_current_bytes
    pod_cuda_owned_capacity_bytes pod_dxgi_owned_capacity_bytes pod_post_context_live_capacity_bytes
    pod_gpu_reserve_bytes pod_post_context_effective_cap_bytes pod_host_decision pod_receipt].

Lemma next_receipt_spec s :
  next_post_context_receipt_id s =
    if negb ((rs_sequence s =? 0) || (rs_sequence s =? u64_max))
    then Some (rs_sequence s, {| s with rs_sequence := rs_sequence s +64 1 |}) else None.
Proof. unfold next_post_context_receipt_id. by destruct (_ || _). Qed.

Lemma cell_eqb_eq a b : cell_eqb a b = true <-> a = b.
Proof. apply bool_decide_eq_true. Qed.

Lemma gpu_post_counters_iff g e m hi lo : gpu_sample_wf g -> u64 e ->
  (((pcg_available g = true /\ pcg_adapter_identity_available g = true) /\
     pcg_adapter_luid_high g = hi) /\ pcg_adapter_luid_low g = lo) /\
  gpu_counters_invalid g e m = false <->
  gpu_counters_ok g e m /\ pcg_adapter_luid_high g = hi /\ pcg_adapter_luid_low g = lo.
Proof. intros. rewrite <- gpu_counters_iff by done. tauto. Qed.

(** The peak checks of stage B as one inequality. *)
Lemma post_cap_fits (owned peak pre_cap tier x reserve : Z) :
  u64 x -> 0 <= reserve -> 0 < owned -> owned <= pre_cap -> peak <= pre_cap -> pre_cap <= tier ->
  (owned <= Z.min pre_cap (Z.min tier (reserve_adjust x reserve)) /\
   peak <= Z.min pre_cap (Z.min tier (reserve_adjust x reserve))) <->
  Z.max owned peak + reserve <= x.
Proof.
  intros. rewrite reserve_adjust_spec by done. lia.
Qed.

Lemma post_admitted_iff r s pre : post_request_wf r -> poq_pre_context_receipt r = Some pre ->
  pod_admitted (evaluate_post_context_admission r s).1 = true <->
  post_admissible r pre /\ sequence_available s.
Proof.
  intros Hwf Hpre. pose proof Hwf as (Hz & Hgpu & (Hcat & _ & Ho) & Hhost & Hpol & Hreq).
  rewrite !Forall_cons in Hz. rewrite !Forall_cons in Ho.
  destruct Hz as (Hceil & Htier & Hev & Hage & Hth & _). destruct Ho as (?&?&Hoc&?&Hfree&?&?&_).
  pose proof Hgpu as (Hgc & Hgp & Hgb & Hgu).
  set (q := fun x : PostContextAdmissionDecision * ReceiptStore => pod_admitted x.1).
  change (q (evaluate_post_context_admission r s) = true <-> post_admissible r pre /\ sequence_available s).
  post_norm. rewrite Hpre. cbn match.
  rewrite next_receipt_spec, evaluate_thermal_spec, !checked_add_spec by (done || apply wrap64_range).
  pose proof (wrap64_range (pcg_dxgi_local_budget_bytes (poq_gpu r) -
    pcg_dxgi_local_current_usage_bytes (poq_gpu r))) as Hw.
  do 9 first [rewrite guard_iff by reflexivity|rewrite guard_when_iff by reflexivity].
  rewrite basis_points_spec by (unfold u64, u32 in *; lia). change (1000 <=? 10000) with true.
  cascade. bool_iff. subst q. cbn [pod_admitted fst td_warning_celsius td_stop_celsius
    td_safe_for_admission].
  rewrite host_admitted_iff, validate_gpu_hard_cap_accepted, pre_receipt_mismatch_iff, cell_eqb_eq,
    gpu_post_counters_iff, owned_evidence_iff by (done || by apply stamp_host_request_wf).
  set (live := Z.min (Z.min _ _) (Z.min _ _)).
  assert (gpu_counters_ok (poq_gpu r) (poq_evaluation_monotonic_milliseconds r)
            (stp_maximum_guard_age_milliseconds (poq_timing r)) -> live = post_live_capacity r) as Hlive.
  { intros (_&_&_&_&_&?). subst live. unfold post_live_capacity, live_capacity, dxgi_headroom.
    cbv zeta. by rewrite wrap64_sub by done. }
  assert (u64 live) as Hlu by (subst live; unfold u64 in *; lia).
  clearbody live.
  split.
  - intros (?&?&?&Hm&[Hg [??]]&Hoe&?&?&?&Hfit&?&?&?&?&_). specialize (Hlive Hg). subst live.
    fold (fraction_up (post_live_capacity r) 1000) in Hfit.
    fold (gpu_reserve (post_live_capacity r)) in Hfit. fold (post_reserve r pre) in Hfit.
    pose proof Hm as (_&?&_&_&_&_&?&_&?&?&?). pose proof Hoe as (_&_&_&_&_&_&_&_&_&_&_&_&_&?&_&?&?&_).
    pose proof (gpu_reserve_nonneg (post_live_capacity r)).
    rewrite post_cap_fits in Hfit by (unfold post_reserve, u64 in *; lia || lia).
    unfold post_admissible, sequence_available. cbv zeta.
    rewrite <- thermal_admissible_iff by done. split_and!; done || lia || tauto.
  - unfold post_admissible, sequence_available. cbv zeta.
    rewrite <- thermal_admissible_iff by done.
    intros [(?&?&?&Hm&Hg&?&?&Hoe&?&Hfit&[Hsn Hsf]&?&?&?) ?]. specialize (Hlive Hg). subst live.
    destruct (proj1 (thermal_admissible_iff _ _ _ Hth Hev) (conj Hsn Hsf)) as (_ & ? & _).
    fold (fraction_up (post_live_capacity r) 1000).
    fold (gpu_reserve (post_live_capacity r)). fold (post_reserve r pre).
    pose proof Hm as (_&?&_&_&_&_&?&_&?&?&?). pose proof Hoe as (_&_&_&_&_&_&_&_&_&_&_&_&_&?&_&?&?&_&_&?).
    pose proof Hg as (_&_&_&_&_&?).
    pose proof (gpu_reserve_nonneg (post_live_capacity r)).
    rewrite post_cap_fits by (unfold post_reserve, u64 in *; lia || lia).
    rewrite wrap64_sub by done.
    split_and!; done || (unfold u64 in *; lia).
Qed.

(** The receipt stage B issues for a store, over unbounded integers. *)
Definition post_receipt_of (r : PostContextAdmissionRequest) (pre : PreContextAdmissionReceipt)
    (s : ReceiptStore) : PostContextAdmissionReceipt :=
  mkPostReceipt (rs_sequence s) (poq_policy_ceiling_bytes r) (poq_requested_tier_bytes r) (poq_timing r)
    (pcg_adapter_luid_high (poq_gpu r)) (pcg_adapter_luid_low (poq_gpu r))
    (prr_predicted_gpu_peak_bytes pre) (post_reserve r pre)
    (Z.min (prr_pre_context_effective_cap_bytes pre)
       (Z.min (poq_requested_tier_bytes r)
          (Z.min (poq_policy_ceiling_bytes r) (post_live_capacity r) - post_reserve r pre)))
    (poq_evaluation_monotonic_milliseconds r)
    (prr_run_started_monotonic_milliseconds pre) (prr_run_deadline_monotonic_milliseconds pre)
    (prr_host_policy pre) (prr_host_request pre)
    (prr_gpu_warning_celsius pre) (prr_gpu_stop_celsius pre) (poq_cell r)
    (Some (length (rs_flags s))).

(** The store after a receipt was issued: the next number, one fresh flag. *)
Definition store_after_issue (s : ReceiptStore) : ReceiptStore :=
  mkReceiptStore (rs_sequence s + 1) (rs_flags s ++ [false]).

Definition store_wf (s : ReceiptStore) : Prop := u64 (rs_sequence s).

Lemma wrap64_next x : u64 x -> x <> u64_max -> x +64 1 = x + 1.
Proof. unfold u64. intros. apply wrap64_small. unfold u64. lia. Qed.

(** A rejection leaves the store alone and carries no receipt. *)
Lemma post_rejected r s : pod_admitted (evaluate_post_context_admission r s).1 = false ->
  pod_receipt (evaluate_post_context_admission r s).1 = None /\
  (evaluate_post_context_admission r s).2 = s.
Proof.
  set (P := fun x : PostContextAdmissionDecision * ReceiptStore =>
              pod_admitted x.1 = false -> pod_receipt x.1 = None /\ x.2 = s).
  change (P (evaluate_post_context_admission r s)). post_norm. cascade_elim ltac:(by split).
  by intros [=].
Qed.

Lemma post_admitted_has_receipt r s : pod_admitted (evaluate_post_context_admission r s).1 = true ->
  exists pre, poq_pre_context_receipt r = Some pre.
Proof.
  set (P := fun x : PostContextAdmissionDecision * ReceiptStore =>
              pod_admitted x.1 = true -> exists pre, poq_pre_context_receipt r = Some pre).
  change (P (evaluate_post_context_admission r s)). post_norm. cascade_elim ltac:(intros [=]).
  intros _. eexists. eassumption.
Qed.

Lemma post_receipt_spec r s pre : post_request_wf r -> store_wf s ->
  poq_pre_context_receipt r = Some pre ->
  pod_admitted (evaluate_post_context_admission r s).1 = true ->
  pod_receipt (evaluate_post_context_admission r s).1 = Some (post_receipt_of r pre s) /\
  (evaluate_post_context_admission r s).2 = store_after_issue s.
Proof.
  intros Hwf Hs Hpre Hadm. pose proof Hadm as [Hp [_ Hseq]]%(post_admitted_iff r s pre); [|done..].
  destruct Hp as (_&_&_&Hm&Hg&_&_&Hoe&_&Hfit&_).
  pose proof Hwf as (Hz & Hgpu & (_ & _ & Ho) & _).
  rewrite !Forall_cons in Hz. rewrite !Forall_cons in Ho.
  destruct Hz as (Hceil & Htier & Hev & Hage & Hth & _). destruct Ho as (?&?&Hoc&?&Hfree&?&?&_).
  pose proof Hgpu as (Hgc & Hgp & Hgb & Hgu). pose proof Hg as (_&_&_&_&_&Husage).
  pose proof Hoe as (_&_&_&_&_&_&_&_&_&_&_&_&_&?&_).
  pose proof (gpu_reserve_nonneg (post_live_capacity r)).
  assert (u64 (post_live_capacity r)) as Hlu.
  { unfold post_live_capacity, live_capacity, dxgi_headroom, u64 in *. lia. }
  revert Hadm.
  set (P := fun x : PostContextAdmissionDecision * ReceiptStore => pod_admitted x.1 = true ->
    pod_receipt x.1 = Some (post_receipt_of r pre s) /\ x.2 = store_after_issue s).
  change (P (evaluate_post_context_admission r s)). post_norm. rewrite Hpre. cbn match.
  rewrite next_receipt_spec, evaluate_thermal_spec, !checked_add_spec by (done || apply wrap64_range).
  cascade_elim ltac:(intros [=]). intros _. cbn [pod_receipt fst snd allocate_flag].
  repeat match goal with G : (if _ then Some _ else None) = Some _ |- _ =>
    apply if_when_Some in G; subst end.
  cbn [fst snd rs_flags rs_sequence].
  match goal with G : checked_basis_points_u64 ?x 1000 Up = Some _ |- _ =>
    replace x with (post_live_capacity r) in *
      by (unfold post_live_capacity, live_capacity, dxgi_headroom; cbv zeta; by rewrite wrap64_sub by done);
    rewrite basis_points_spec in G by (done || unfold u32; lia); apply if_when_Some in G; subst end.
  fold (fraction_up (post_live_capacity r) 1000). fold (gpu_reserve (post_live_capacity r)).
  fold (post_reserve r pre).
  rewrite (reserve_adjust_sub _ _ (post_demand r pre)), wrap64_next
    by (done || unfold post_reserve, post_demand, u64 in *; lia).
  split; reflexivity.
Qed.

(** C4. Stage B implements its abstract rule exactly: with the receipt of
    stage A at hand, execution is admitted if and only if the request matches
    that receipt, the owned-memory evidence shows the context and nothing
    else, the larger of owned and predicted memory plus the reserve fits the
    ceiling and the live capacity, the thermal bounds did not rise, the host
    still admits, and the receipt sequence is not exhausted. *)
Theorem post_context_admission_correct r s pre :
  post_request_wf r -> poq_pre_context_receipt r = Some pre ->
  pod_admitted (evaluate_post_context_admission r s).1 = true <->
  post_admissible r pre /\ sequence_available s.
Proof. apply post_admitted_iff. Qed.

(** What stage B may change of a stage A receipt: only downwards. *)
Definition tightens (pre : PreContextAdmissionReceipt) (c : PostContextAdmissionReceipt) : Prop :=
  por_policy_ceiling_bytes c = prr_policy_ceiling_bytes pre /\
  por_requested_tier_bytes c = prr_requested_tier_bytes pre /\
  por_timing c = prr_timing pre /\ por_host_policy c = prr_host_policy pre /\
  por_host_request c = prr_host_request pre /\ por_cell c = prr_cell pre /\
  por_adapter_luid_high c = prr_adapter_luid_high pre /\
  por_adapter_luid_low c = prr_adapter_luid_low pre /\
  por_predicted_gpu_peak_bytes c = prr_predicted_gpu_peak_bytes pre /\
  por_predicted_gpu_peak_bytes c <= por_effective_cap_bytes c
    <= prr_pre_context_effective_cap_bytes pre /\
  prr_pre_context_gpu_reserve_bytes pre <= por_gpu_reserve_bytes c /\
  por_run_started_monotonic_milliseconds c = prr_run_started_monotonic_milliseconds pre /\
  por_run_deadline_monotonic_milliseconds c = prr_run_deadline_monotonic_milliseconds pre /\
  prr_run_started_monotonic_milliseconds pre <= por_evaluation_monotonic_milliseconds c
    < prr_run_deadline_monotonic_milliseconds pre.

(** C5. Stage B only tightens: an execution receipt keeps the cell, adapter,
    policies and run window of the stage A receipt, its cap is at most the
    stage A cap and still covers the predicted peak and the memory already
    owned, its reserve is at least the stage A reserve, and cap plus reserve
    stays within the ceiling, the adapter, what CUDA reports free and the
    DXGI headroom.  The receipt takes the next sequence number and a fresh,
    unconsumed flag; a rejection issues nothing and leaves the store alone. *)
Theorem post_admission_only_tightens r s : post_request_wf r -> store_wf s ->
  let (d, s') := evaluate_post_context_admission r s in
  match pod_receipt d with
  | None => pod_admitted d = false /\ s' = s
  | Some c =>
      exists pre, poq_pre_context_receipt r = Some pre /\ pod_admitted d = true /\ tightens pre c /\
      let owned := og_owned_current_bytes (poq_owned_gpu r) in
      let total := por_effective_cap_bytes c + por_gpu_reserve_bytes c in
      0 < owned <= por_effective_cap_bytes c /\
      total <= por_policy_ceiling_bytes c <= kMaxGpuHardCapBytes /\
      total <= live_capacity (poq_gpu r) /\
      total <= owned + og_cuda_mem_info_free_bytes (poq_owned_gpu r) /\
      total <= owned + dxgi_headroom (poq_gpu r) /\
      por_receipt_id c = rs_sequence s /\ rs_sequence s' = rs_sequence s + 1 /\
      por_token_consumed c = Some (length (rs_flags s)) /\ rs_flags s' = rs_flags s ++ [false]
  end.
Proof.
  intros Hwf Hs. destruct (evaluate_post_context_admission r s) as [d s'] eqn:E.
  destruct (pod_admitted d) eqn:Ha.
  - destruct (post_admitted_has_receipt r s) as [pre Hpre]; [by rewrite E|].
    destruct (post_receipt_spec r s pre) as [Hr Hs']; [done..|by rewrite E|].
    assert (pod_admitted (evaluate_post_context_admission r s).1 = true) as Hadm by (by rewrite E).
    apply (post_admitted_iff r s pre) in Hadm as [Hadm _]; [|done..].
    rewrite E in Hr, Hs'. cbn in Hr, Hs'. rewrite Hr, Hs'. exists pre. do 2 (split; [done|]).
    destruct Hadm as (_&?&?&Hm&_&?&?&Hoe&_&Hfit&_).
    destruct Hm as (?&?&?&?&_&?&?&?&?&?&?). destruct Hoe as (_&_&_&_&_&_&_&_&_&_&_&_&_&?&_&?&?&_).
    unfold tightens, post_receipt_of, post_demand, post_live_capacity in *.
    cbn -[post_reserve Z.min Z.max kMaxGpuHardCapBytes] in *.
    assert (prr_pre_context_gpu_reserve_bytes pre <= post_reserve r pre) by (unfold post_reserve; lia).
    split_and!; try done; lia.
  - destruct (post_rejected r s) as [Hr Hs']; [by rewrite E|]. rewrite E in Hr, Hs'. cbn in Hr, Hs'.
    by rewrite Hr.
Qed.

(** ** Witness: the context of the stage A example, created *)

Definition demo_pre_receipt : PreContextAdmissionReceipt := pre_receipt_of demo_pre_request.

Definition demo_owned : OwnedGpuMemoryEvidence :=
  {| default_OwnedGpuMemoryEvidence with
     og_available := true; og_reconciled := true; og_process_device_corroboration_available := true;
     og_process_device_source := "nvml-process"; og_process_id := 4242;
     og_captured_monotonic_milliseconds := 5300;
     og_process_device_captured_monotonic_milliseconds := 5300;
     og_adapter_identity_available := true; og_adapter_luid_high := 0; og_adapter_luid_low := 4660;
     og_cuda_context_runtime_current_bytes := 419430400; og_owned_current_bytes := 419430400;
     og_owned_peak_bytes := 419430400; og_process_device_current_bytes := 419430400;
     og_cuda_context_runtime_at_owned_peak_bytes := 419430400;
     og_hard_cap_bytes := prr_pre_context_effective_cap_bytes demo_pre_receipt;
     og_cuda_mem_info_free_bytes := 11274289152; og_cuda_mem_info_total_bytes := 12884901888 |}.

Definition demo_post_request : PostContextAdmissionRequest :=
  mkPostRequest (Some demo_pre_receipt) 17179869184 8589934592 5400 default_SupervisorTimingPolicy
    (mkGpuSample true true 0 4660 5300 12884901888 11811160064 956301312)
    {| demo_thermal with gts_captured_monotonic_milliseconds := 5300 |}
    demo_owned demo_host demo_policy demo_request demo_cell.

Lemma demo_post_wf : post_request_wf demo_post_request.
Proof.
  unfold post_request_wf, owned_wf, current_categories, peak_categories.
  rewrite !Forall_cons, !Forall_nil. destruct demo_wf as (?&?&?).
  split_and!; try done; closed_bounds.
Defined.

Lemma demo_post_admitted :
  pod_admitted (evaluate_post_context_admission demo_post_request initial_ReceiptStore).1 = true.
Proof. vm_compute. reflexivity. Defined.

Lemma post_context_admission_correct_witness : post_admissible demo_post_request demo_pre_receipt.
Proof.
  apply (post_context_admission_correct demo_post_request initial_ReceiptStore demo_pre_receipt);
    [apply demo_post_wf|reflexivity|apply demo_post_admitted].
Defined.

Lemma post_admission_only_tightens_witness :
  exists c, pod_receipt (evaluate_post_context_admission demo_post_request initial_ReceiptStore).1 = Some c
    /\ tightens demo_pre_receipt c.
Proof.
  pose proof (post_admission_only_tightens demo_post_request initial_ReceiptStore demo_post_wf
    ltac:(closed_bounds)) as H.
  pose proof demo_post_admitted as Ha.
  destruct (evaluate_post_context_admission demo_post_request initial_ReceiptStore) as [d s'].
  cbn in Ha |- *. destruct (pod_receipt d) as [c|].
  - destruct H as (pre & [= <-] & _ & H & _). by exists c.
  - destruct H as [H _]. rewrite Ha in H. discriminate H.
Defined.

End PostAdmission.
