(* ===== verification/AdmissionToken.v ===== *)
(** * Single-use admission tokens

    [src/governor/admission_token.cpp], [include/prisminfer/admission_token.h]
    and the receipt side of [src/governor/supervisor_admission.cpp]
    ([consume_for_token], the two compare-exchange sequence counters): tokens,
    issuers, the interleavings the atomics allow, and the world in which
    receipts, issuers and tokens are created, copied, moved and consumed. *)

From S2P Require Import Prelude.
From S2P Require Import CheckedArithmetic.
From S2P Require Import MemoryCap.
From S2P Require Import HostAdmission.
From S2P Require Import GpuTelemetry.
From S2P Require Import SupervisorAdmission.
From S2P Require Import PreAdmission.
From S2P Require Import PostAdmission.
Import CheckedArithmetic MemoryCap HostAdmission GpuTelemetry SupervisorAdmission PreAdmission PostAdmission.

Module AdmissionTokens.

(** ** Data *)

Inductive AdmissionTokenStatus :=
| Issued | Consumed | InvalidReceipt | InvalidCellIdentity | InvalidTime | ReceiptAlreadyUsed
| IssuerCapacityExhausted | TokenSequenceExhausted | ForeignIssuer | TokenAlreadyConsumed
| TokenCellMismatch | InvalidWorkerIdentity | TokenWorkerMismatch | TokenExpired
| SupervisorStateInvalid.

#[export] Instance token_status_eq_dec : EqDecision AdmissionTokenStatus.
Proof. solve_decision. Defined.

Record AdmissionWorkerIdentity := mkWorker {
  aw_root_process_id : Z;
  aw_job_identity : string;
  aw_executable_identity : string;
}.

#[export] Instance worker_eq_dec : EqDecision AdmissionWorkerIdentity.
Proof. solve_decision. Defined.

Definition worker_identity_missing (worker : AdmissionWorkerIdentity) : bool :=
  (aw_root_process_id worker =? 0) || str_empty (aw_job_identity worker) ||
  str_empty (aw_executable_identity worker).

Record AdmissionToken := mkToken {
  at_issuer_id : Z;
  at_token_id : Z;
  at_receipt_id : Z;
  at_cell : AdmissionCellIdentity;
  at_worker : AdmissionWorkerIdentity;
  at_issued_monotonic_milliseconds : Z;
  at_expires_monotonic_milliseconds : Z;
  at_effective_cap_bytes : Z;
  at_active : bool;
}.

#[export] Instance token_eq_dec : EqDecision AdmissionToken.
Proof. solve_decision. Defined.

(** [AdmissionToken::invalidate] writes the default value of every field. *)
Definition invalidated : AdmissionToken :=
  mkToken 0 0 0 default_AdmissionCellIdentity (mkWorker 0 "" "") 0 0 0 false.

(** [operator=(AdmissionToken&&)] between two objects: the target receives
    the fields and the activity flag, the source is invalidated. *)
Definition move_token (other : AdmissionToken) : AdmissionToken * AdmissionToken :=
  (other, invalidated).

Record AdmissionTokenIssuer := mkIssuer {
  ai_issuer_id : Z;
  ai_next_token_id : Z;
  ai_used_receipt_ids : list Z;  (** the first [used_receipt_count_] slots *)
}.

Definition kMaximumReceipts : nat := 64.

(** The uncontended path of the compare-exchange loop; 0 on exhaustion. *)
Definition next_issuer_id (sequence : Z) : Z * Z :=
  if (sequence =? 0) || (sequence =? u64_max) then (0, sequence)
  else (sequence, sequence +64 1).

Definition new_issuer (issuer_id : Z) : AdmissionTokenIssuer := mkIssuer issuer_id 1 [].

(** ** Operations *)

Definition receipt_invalid_for_token (issuer_id : Z) (receipt : PostContextAdmissionReceipt) : bool :=
  (issuer_id =? 0) || (por_receipt_id receipt =? 0) ||
  negb (gcp_accepted (validate_gpu_hard_cap (por_policy_ceiling_bytes receipt))) ||
  (por_requested_tier_bytes receipt =? 0) ||
  (por_policy_ceiling_bytes receipt <? por_requested_tier_bytes receipt) ||
  (por_effective_cap_bytes receipt =? 0) ||
  (por_requested_tier_bytes receipt <? por_effective_cap_bytes receipt) ||
  (por_effective_cap_bytes receipt <? por_predicted_gpu_peak_bytes receipt).

Record IssueResult := mkIssueResult {
  ir_status : AdmissionTokenStatus;
  ir_token : option AdmissionToken;
  ir_issuer : AdmissionTokenIssuer;
  ir_store : ReceiptStore;
}.

(** [AdmissionTokenIssuer::issue]; the mutex makes the whole call one step of
    the issuer, and the receipt flag is updated by one atomic exchange. *)
Definition issue (issuer : AdmissionTokenIssuer) (store : ReceiptStore)
    (receipt : PostContextAdmissionReceipt) (cell : AdmissionCellIdentity)
    (worker : AdmissionWorkerIdentity) (now validity : Z) : IssueResult :=
  let refuse status := mkIssueResult status None issuer store in
  let guard_age := stp_maximum_guard_age_milliseconds (por_timing receipt) in
  if receipt_invalid_for_token (ai_issuer_id issuer) receipt then refuse InvalidReceipt
  else if negb (admission_cell_identity_valid cell) || negb (cell_eqb (por_cell receipt) cell) then
    refuse InvalidCellIdentity
  else if worker_identity_missing worker then refuse InvalidWorkerIdentity
  else if (now =? 0) || (now <? por_evaluation_monotonic_milliseconds receipt) ||
          (validity =? 0) || (guard_age <? validity) then refuse InvalidTime
  else
  match checked_add_u64 now validity with
  | None => refuse InvalidTime
  | Some requested_expires =>
  match checked_add_u64 (por_evaluation_monotonic_milliseconds receipt) guard_age with
  | None => refuse InvalidTime
  | Some receipt_expires =>
  if receipt_expires <=? now then refuse InvalidTime
  else
  let expires := Z.min requested_expires receipt_expires in
  if existsb (Z.eqb (por_receipt_id receipt)) (ai_used_receipt_ids issuer) then
    refuse ReceiptAlreadyUsed
  else if Nat.eqb (length (ai_used_receipt_ids issuer)) kMaximumReceipts then
    refuse IssuerCapacityExhausted
  else if (ai_next_token_id issuer =? 0) || (ai_next_token_id issuer =? u64_max) then
    refuse TokenSequenceExhausted
  else
  let (consumed, store') := consume_for_token receipt store in
  if negb consumed then mkIssueResult ReceiptAlreadyUsed None issuer store'
  else
    mkIssueResult Issued
      (Some (mkToken (ai_issuer_id issuer) (ai_next_token_id issuer) (por_receipt_id receipt)
               cell worker now expires (por_effective_cap_bytes receipt) true))
      {| issuer with
         ai_next_token_id := ai_next_token_id issuer +64 1;
         ai_used_receipt_ids := ai_used_receipt_ids issuer ++ [por_receipt_id receipt] |}
      store'
  end end.

(** The status the second half of [consume] reports if it wins the exchange. *)
Definition terminal_status (token : AdmissionToken) (cell : AdmissionCellIdentity)
    (worker : AdmissionWorkerIdentity) (now : Z) : AdmissionTokenStatus :=
  if negb (admission_cell_identity_valid cell) || negb (cell_eqb (at_cell token) cell) then
    TokenCellMismatch
  else if worker_identity_missing worker || negb (bool_decide (at_worker token = worker)) then
    TokenWorkerMismatch
  else if (now <? at_issued_monotonic_milliseconds token) ||
          (at_expires_monotonic_milliseconds token <? now) then TokenExpired
  else Consumed.

(** [AdmissionTokenIssuer::consume] up to the exchange: either an early
    answer or the status to report on winning it. *)
Definition consume_check (issuer : AdmissionTokenIssuer) (token : AdmissionToken)
    (cell : AdmissionCellIdentity) (worker : AdmissionWorkerIdentity) (now : Z)
    : AdmissionTokenStatus + AdmissionTokenStatus :=
  if negb (at_active token) then inl TokenAlreadyConsumed
  else if at_issuer_id token <>z ai_issuer_id issuer then inl ForeignIssuer
  else inr (terminal_status token cell worker now).

(** The compare-exchange and everything after it. *)
Definition consume_commit (token : AdmissionToken) (terminal : AdmissionTokenStatus)
    : (AdmissionTokenStatus * Z) * AdmissionToken :=
  if negb (at_active token) then ((TokenAlreadyConsumed, 0), token)
  else
    let token' := {| token with at_active := false |} in
    match terminal with
    | TokenCellMismatch => ((TokenCellMismatch, 0), token')
    | TokenWorkerMismatch => ((TokenWorkerMismatch, 0), token')
    | TokenExpired => ((TokenExpired, 0), token')
    | _ => ((Consumed, at_effective_cap_bytes token), token')
    end.

(** The call when no other thread runs in between. *)
Definition consume (issuer : AdmissionTokenIssuer) (token : AdmissionToken)
    (cell : AdmissionCellIdentity) (worker : AdmissionWorkerIdentity) (now : Z)
    : (AdmissionTokenStatus * Z) * AdmissionToken :=
  match consume_check issuer token cell worker now with
  | inl status => ((status, 0), token)
  | inr terminal => consume_commit token terminal
  end.

(** ** Token issue, functionally *)

(** The conditions under which a receipt can be turned into a token. *)
Definition issuable (issuer : AdmissionTokenIssuer) (store : ReceiptStore)
    (receipt : PostContextAdmissionReceipt) (cell : AdmissionCellIdentity)
    (worker : AdmissionWorkerIdentity) (now validity : Z) : Prop :=
  let age := stp_maximum_guard_age_milliseconds (por_timing receipt) in
  let evaluated := por_evaluation_monotonic_milliseconds receipt in
  receipt_invalid_for_token (ai_issuer_id issuer) receipt = false /\
  admission_cell_identity_valid cell = true /\ por_cell receipt = cell /\
  worker_identity_missing worker = false /\
  0 < now /\ evaluated <= now < evaluated + age /\ 0 < validity <= age /\
  now + validity <= u64_max /\ evaluated + age <= u64_max /\
  por_receipt_id receipt ∉ ai_used_receipt_ids issuer /\
  length (ai_used_receipt_ids issuer) <> kMaximumReceipts /\
  ai_next_token_id issuer <> 0 /\ ai_next_token_id issuer <> u64_max /\
  (consume_for_token receipt store).1 = true.

(** The token such an issue yields. *)
Definition issued_token (issuer : AdmissionTokenIssuer) (receipt : PostContextAdmissionReceipt)
    (worker : AdmissionWorkerIdentity) (now validity : Z) : AdmissionToken :=
  mkToken (ai_issuer_id issuer) (ai_next_token_id issuer) (por_receipt_id receipt) (por_cell receipt)
    worker now
    (Z.min (now + validity) (por_evaluation_monotonic_milliseconds receipt +
                              stp_maximum_guard_age_milliseconds (por_timing receipt)))
    (por_effective_cap_bytes receipt) true.

Lemma existsb_eqb_false x l : existsb (Z.eqb x) l = false <-> x ∉ l.
Proof.
  rewrite <- not_true_iff_false, existsb_exists. split.
  - intros H Hin. apply H. exists x. split; [by apply list_elem_of_In|by apply Z.eqb_refl].
  - intros H (y & Hy & Hxy). apply Z.eqb_eq in Hxy as <-. apply H. by apply list_elem_of_In.
Qed.

Definition times_wf (receipt : PostContextAdmissionReceipt) (now validity : Z) : Prop :=
  u64 (por_evaluation_monotonic_milliseconds receipt) /\
  u64 (stp_maximum_guard_age_milliseconds (por_timing receipt)) /\ u64 now /\ u64 validity.

Lemma issue_token_iff issuer store receipt cell worker now validity t :
  times_wf receipt now validity ->
  ir_token (issue issuer store receipt cell worker now validity) = Some t <->
  issuable issuer store receipt cell worker now validity /\
  t = issued_token issuer receipt worker now validity.
Proof.
  intros (He & Ha & Hn & Hv). unfold issue. cbv zeta. rewrite !checked_add_spec by done.
  destruct (consume_for_token receipt store) as [b s'] eqn:Ec.
  set (p := fun r : IssueResult => bool_decide (ir_token r = Some t)).
  match goal with |- ir_token ?r = _ <-> _ => transitivity (p r = true); [symmetry; apply bool_decide_eq_true|] end.
  cascade. bool_iff. rewrite existsb_eqb_false, Nat.eqb_neq, cell_eqb_eq. subst p. cbn [ir_token].
  rewrite bool_decide_eq_true. unfold issuable, issued_token. rewrite Ec. cbn [fst]. unfold u64 in *.
  split.
  - intros (?&[? <-]&?&?&?&?&?&?&?&?&?&[= <-]). split_and!; tauto || lia.
  - intros [(?&?&<-&?&?&?&?&?&?&?&?&?&?&?) ->]. split_and!; tauto || lia.
Qed.

(** ** Interleavings of the sequence counters

    [next_post_context_receipt_id] and [next_issuer_id] are the same
    compare-exchange loop over a shared counter.  A thread has not started,
    holds the value it last read, or has returned. *)

Inductive CasThread := CasStart | CasLoaded (current : Z) | CasDone (r : option Z).

(** One access of one thread to the counter; [spurious] is the freedom
    [compare_exchange_weak] has to fail. *)
Definition cas_step (spurious : bool) (sequence : Z) (t : CasThread) : Z * CasThread :=
  match t with
  | CasStart => (sequence, CasLoaded sequence)
  | CasLoaded current =>
      if (current =? 0) || (current =? u64_max) then (sequence, CasDone None)
      else if (sequence =? current) && negb spurious then (sequence +64 1, CasDone (Some current))
      else (sequence, CasLoaded sequence)
  | CasDone r => (sequence, CasDone r)
  end.

Inductive cas_schedule : Z * list CasThread -> Z * list CasThread -> Prop :=
| cas_turn sequence threads i t spurious :
    threads !! i = Some t ->
    cas_schedule (sequence, threads)
      ((cas_step spurious sequence t).1, <[i := (cas_step spurious sequence t).2]> threads).

(** Every thread's knowledge is behind the counter and returned numbers are
    pairwise distinct. *)
Definition cas_inv (st : Z * list CasThread) : Prop :=
  1 <= st.1 <= u64_max /\
  (forall i c, st.2 !! i = Some (CasLoaded c) -> 1 <= c <= st.1) /\
  (forall i c, st.2 !! i = Some (CasDone (Some c)) -> 1 <= c < st.1) /\
  (forall i j c, st.2 !! i = Some (CasDone (Some c)) -> st.2 !! j = Some (CasDone (Some c)) -> i = j).

(** Looking a thread up after one of them moved. *)
Lemma lookup_insert_cases {A} (l : list A) i j (x y z : A) :
  l !! i = Some x -> <[i := y]> l !! j = Some z -> (i = j /\ z = y) \/ (i <> j /\ l !! j = Some z).
Proof.
  intros Hi Hj. destruct (decide (i = j)) as [->|Hne].
  - rewrite list_lookup_insert_eq in Hj by (by eapply lookup_lt_Some). left. by simplify_eq.
  - rewrite list_lookup_insert_ne in Hj by done. by right.
Qed.

(** Case analysis on every lookup after the step of the thread [Hi] is about. *)
Ltac thread_cases Hi :=
  repeat match goal with
  | H : <[_ := _]> _ !! _ = Some _ |- _ =>
      destruct (lookup_insert_cases _ _ _ _ _ _ Hi H) as [[? ?]|[? ?]]; clear H
  end.

(** Apply a fact about lookups to the lookup it fits. *)
Ltac learn H := match goal with G : _ !! _ = Some _ |- _ => pose proof (H _ _ G) end.

Lemma cas_step_inv st st' : cas_inv st -> cas_schedule st st' -> cas_inv st'.
Proof.
  intros (Hs & Hl & Hd & Hu) Hstep. destruct Hstep as [sequence threads i t spurious Hi].
  cbn in Hs, Hl, Hd, Hu.
  assert (forall x y, 1 <= x <= u64_max -> sequence <= x ->
    match y with
    | CasLoaded c => 1 <= c <= x
    | CasDone (Some c) => sequence <= c < x \/ t = CasDone (Some c)
    | _ => True
    end -> cas_inv (x, <[i := y]> threads)) as Hcase.
  { intros x y Hx Hmono Hy. split_and!; cbn [fst snd]; try lia.
    - intros j c Hj. thread_cases Hi; simplify_eq; [done|]. learn Hl. lia.
    - intros j c Hj. thread_cases Hi; simplify_eq; [destruct Hy as [|Hy]; [lia|subst t]|];
        learn Hd; lia.
    - intros j k c Hj Hk. thread_cases Hi; simplify_eq; try done; [| |by eapply Hu].
      all: destruct Hy as [Hy|Hy]; [|subst t; by eapply Hu].
      all: learn Hd; lia. }
  destruct t as [|current|r]; cbn [cas_step].
  - apply Hcase; cbn; lia.
  - pose proof (Hl i current Hi). destruct (_ || _) eqn:G1; [|destruct (_ && _) eqn:G2]; bool_facts;
      rewrite ?wrap64_next by (unfold u64; lia); apply Hcase; cbn; done || lia.
  - apply Hcase; cbn; try lia. destruct r; auto.
Qed.

(** Concurrent allocation of receipt and issuer numbers is free of
    duplicates: whatever the interleaving of the compare-exchange loops and
    their spurious failures, two threads never return the same number, and
    every number returned was the counter's before it moved on. *)
Theorem sequence_numbers_unique n st :
  rtc cas_schedule (1, replicate n CasStart) st ->
  (forall i j c, st.2 !! i = Some (CasDone (Some c)) -> st.2 !! j = Some (CasDone (Some c)) -> i = j) /\
  (forall i c, st.2 !! i = Some (CasDone (Some c)) -> 1 <= c < st.1).
Proof.
  intros Hrun. enough (cas_inv st) as (_&_&?&?) by done.
  assert (cas_inv (1, replicate n CasStart)) as H0.
  { split; [cbn; lia|]. cbn. split_and!; intros *; rewrite ?lookup_replicate; naive_solver. }
  revert H0. induction Hrun; eauto using cas_step_inv.
Qed.

(** Two uncontended accesses take the number the sequential definition takes. *)
Lemma cas_uncontended s :
  let (s1, t1) := cas_step false (rs_sequence s) CasStart in
  (cas_step false s1 t1).2 = CasDone (fst <$> next_post_context_receipt_id s).
Proof.
  cbn. unfold next_post_context_receipt_id. destruct (_ || _); [done|]. by rewrite Z.eqb_refl.
Qed.

(** ** Interleavings of [consume] on one token *)

Inductive ConsumeThread :=
| ConsumeStart (issuer : AdmissionTokenIssuer) (cell : AdmissionCellIdentity)
    (worker : AdmissionWorkerIdentity) (now : Z)
| ConsumeChecked (terminal : AdmissionTokenStatus)
| ConsumeDone (status : AdmissionTokenStatus) (cap : Z).

Definition consume_step (token : AdmissionToken) (t : ConsumeThread) : AdmissionToken * ConsumeThread :=
  match t with
  | ConsumeStart issuer cell worker now =>
      match consume_check issuer token cell worker now with
      | inl status => (token, ConsumeDone status 0)
      | inr terminal => (token, ConsumeChecked terminal)
      end
  | ConsumeChecked terminal =>
      let '((status, cap), token') := consume_commit token terminal in
      (token', ConsumeDone status cap)
  | ConsumeDone status cap => (token, ConsumeDone status cap)
  end.

Inductive consume_schedule : AdmissionToken * list ConsumeThread -> AdmissionToken * list ConsumeThread -> Prop :=
| consume_turn token threads i t :
    threads !! i = Some t ->
    consume_schedule (token, threads)
      ((consume_step token t).1, <[i := (consume_step token t).2]> threads).

(** The thread won the exchange. *)
Definition won (t : ConsumeThread) : Prop :=
  match t with
  | ConsumeDone status _ => status <> TokenAlreadyConsumed /\ status <> ForeignIssuer
  | _ => False
  end.

Definition not_finished (t : ConsumeThread) : Prop :=
  match t with ConsumeStart _ _ _ _ => True | _ => False end.

Definition checked_ok (t : ConsumeThread) : Prop :=
  match t with
  | ConsumeChecked s => s <> TokenAlreadyConsumed /\ s <> ForeignIssuer
  | ConsumeDone s cap => cap <> 0 -> s = Consumed
  | _ => True
  end.

Definition consume_inv (st : AdmissionToken * list ConsumeThread) : Prop :=
  Forall checked_ok st.2 /\
  (at_active st.1 = true -> Forall (fun t => ~ won t) st.2) /\
  (forall i j t u, st.2 !! i = Some t -> st.2 !! j = Some u -> won t -> won u -> i = j).

Lemma terminal_status_cases token cell worker now :
  terminal_status token cell worker now ∈ [TokenCellMismatch; TokenWorkerMismatch; TokenExpired; Consumed].
Proof. unfold terminal_status. repeat case_match; set_solver. Qed.

(** What one access does: only the winner of the exchange is new, and it
    leaves the token inactive. *)
Lemma consume_step_effect token t : checked_ok t ->
  checked_ok (consume_step token t).2 /\
  (won (consume_step token t).2 -> won t \/ (at_active token = true /\ at_active (consume_step token t).1 = false)) /\
  (at_active (consume_step token t).1 = true -> at_active token = true).
Proof.
  intros Hok. destruct t as [issuer cell worker now|terminal|status cap]; cbn [consume_step].
  - pose proof (terminal_status_cases token cell worker now) as Ht.
    rewrite !elem_of_cons, elem_of_nil in Ht.
    unfold consume_check. repeat case_match; simplify_eq; cbn; split_and!; try done; try tauto.
    all: destruct Ht as [-> | [-> | [-> | [-> | []]]]]; done.
  - unfold consume_commit. destruct (at_active token) eqn:Ha; cbn [negb].
    + destruct terminal; cbn; naive_solver.
    + cbn. naive_solver.
  - cbn. naive_solver.
Qed.

Lemma consume_step_inv st st' : consume_inv st -> consume_schedule st st' -> consume_inv st'.
Proof.
  intros (Hok & Hact & Huniq) Hstep. destruct Hstep as [token threads i t Hi]. cbn in Hok, Hact, Huniq.
  pose proof (Forall_lookup_1 _ _ _ _ Hok Hi) as Hti.
  destruct (consume_step_effect token t Hti) as (Hok' & Hwon & Hact').
  split_and!; cbn [fst snd].
  - by apply Forall_insert.
  - intros Ha. pose proof (Hact (Hact' Ha)) as Hall. apply Forall_insert; [done|].
    intros Hw. destruct (Hwon Hw) as [Hw'|[_ Hf]]; [|congruence].
    by apply (Forall_lookup_1 _ _ _ _ Hall Hi).
  - intros j k u v Hj Hk Hu Hv.
    destruct (lookup_insert_cases _ _ _ _ _ _ Hi Hj) as [[<- ->]|[Hnj Hj']],
             (lookup_insert_cases _ _ _ _ _ _ Hi Hk) as [[<- ->]|[Hnk Hk']]; [done| | |by eauto].
    + destruct (Hwon Hu) as [Hw|[Ha _]]; [by eapply Huniq|].
      by destruct (Forall_lookup_1 _ _ _ _ (Hact Ha) Hk').
    + destruct (Hwon Hv) as [Hw|[Ha _]]; [by eapply Huniq|].
      by destruct (Forall_lookup_1 _ _ _ _ (Hact Ha) Hj').
Qed.

(** C36. Concurrent consumption grants a token at most once: however the
    calls of any number of threads interleave between the activity check and
    the exchange, at most one of them gets an answer other than "already
    consumed" or "foreign issuer", and a non-zero cap only comes with
    [Consumed]. *)
Theorem concurrent_consume_once token threads token' threads' :
  Forall not_finished threads ->
  rtc consume_schedule (token, threads) (token', threads') ->
  (forall i j t u, threads' !! i = Some t -> threads' !! j = Some u -> won t -> won u -> i = j) /\
  (forall i status cap, threads' !! i = Some (ConsumeDone status cap) -> cap <> 0 -> status = Consumed).
Proof.
  intros Hstart Hrun. change threads' with (token', threads').2.
  enough (consume_inv (token', threads')) as (Hok & _ & Hu).
  { split; [done|]. intros i status cap Hi. exact (Forall_lookup_1 _ _ _ _ Hok Hi). }
  assert (consume_inv (token, threads)) as H0.
  { assert (forall t, not_finished t -> checked_ok t /\ ~ won t) as Hns by (intros []; cbn; tauto).
    split_and!; cbn.
    - eapply Forall_impl; [exact Hstart|]. intros. by apply Hns.
    - intros _. eapply Forall_impl; [exact Hstart|]. intros. by apply Hns.
    - intros i j t u Hi _ Hw _. destruct (Hns t); [|done]. by apply (Forall_lookup_1 _ _ _ _ Hstart Hi). }
  revert H0. induction Hrun; eauto using consume_step_inv.
Qed.

(** ** The world of receipts, issuers and tokens

    Receipts are copyable (the copies share their flag), tokens are move-only,
    and any number of issuers may be handed any receipt in any order. *)

Record Grant := mkGrant { gr_receipt_id : Z; gr_cap : Z; gr_now : Z }.

Record World := mkWorld {
  w_store : ReceiptStore;
  w_issuer_sequence : Z;
  w_issuers : list AdmissionTokenIssuer;
  w_receipts : list PostContextAdmissionReceipt;
  w_tokens : list AdmissionToken;
  w_issued : list Z;      (** receipt ids a token was issued for *)
  w_grants : list Grant;  (** the consumptions that reported [Consumed] *)
}.

Definition initial_World : World := mkWorld initial_ReceiptStore 1 [] [] [] [] [].

Inductive WorldOp :=
| OpPost (request : PostContextAdmissionRequest)
| OpNewIssuer
| OpIssue (issuer receipt : nat) (cell : AdmissionCellIdentity) (worker : AdmissionWorkerIdentity)
    (now validity : Z)
| OpMove (token : nat)
| OpConsume (issuer token : nat) (cell : AdmissionCellIdentity) (worker : AdmissionWorkerIdentity)
    (now : Z).

Definition world_step (w : World) (op : WorldOp) : World :=
  match op with
  | OpPost request =>
      let (decision, store) := evaluate_post_context_admission request (w_store w) in
      {| w with w_store := store;
                w_receipts := w_receipts w ++ option_list (pod_receipt decision) |}
  | OpNewIssuer =>
      let (issuer_id, sequence) := next_issuer_id (w_issuer_sequence w) in
      {| w with w_issuer_sequence := sequence; w_issuers := w_issuers w ++ [new_issuer issuer_id] |}
  | OpIssue i k cell worker now validity =>
      match w_issuers w !! i, w_receipts w !! k with
      | Some issuer, Some receipt =>
          let result := issue issuer (w_store w) receipt cell worker now validity in
          {| w with w_store := ir_store result;
                    w_issuers := <[i := ir_issuer result]> (w_issuers w);
                    w_tokens := w_tokens w ++ option_list (ir_token result);
                    w_issued := w_issued w ++ option_list (at_receipt_id <$> ir_token result) |}
      | _, _ => w
      end
  | OpMove k =>
      match w_tokens w !! k with
      | Some token =>
          let (target, source) := move_token token in
          {| w with w_tokens := <[k := source]> (w_tokens w) ++ [target] |}
      | None => w
      end
  | OpConsume i k cell worker now =>
      match w_issuers w !! i, w_tokens w !! k with
      | Some issuer, Some token =>
          let '((status, cap), token') := consume issuer token cell worker now in
          {| w with w_tokens := <[k := token']> (w_tokens w);
                    w_grants := w_grants w ++
                      (if bool_decide (status = Consumed)
                       then [mkGrant (at_receipt_id token) cap now] else []) |}
      | _, _ => w
      end
  end.

Definition world_run (w : World) (ops : list WorldOp) : World := fold_left world_step ops w.

Definition op_wf (op : WorldOp) : Prop :=
  match op with
  | OpPost request => u64 (poq_evaluation_monotonic_milliseconds request) /\
                      u64 (stp_maximum_guard_age_milliseconds (poq_timing request))
  | OpIssue _ _ _ _ now validity => u64 now /\ u64 validity
  | _ => True
  end.

(** The receipt ids of the tokens that can still be consumed. *)
Definition live_ids (ts : list AdmissionToken) : list Z := at_receipt_id <$> filter at_active ts.

Definition backed (rs : list PostContextAdmissionReceipt) (id cap lo hi : Z) : Prop :=
  exists c, c ∈ rs /\ por_receipt_id c = id /\ por_effective_cap_bytes c = cap /\
    por_evaluation_monotonic_milliseconds c <= lo /\
    hi <= por_evaluation_monotonic_milliseconds c + stp_maximum_guard_age_milliseconds (por_timing c).

Definition flag_set (s : ReceiptStore) (c : PostContextAdmissionReceipt) : Prop :=
  exists l, por_token_consumed c = Some l /\ rs_flags s !! l = Some true.

Record world_inv (w : World) : Prop := {
  wi_sequence : 1 <= rs_sequence (w_store w) <= u64_max;
  wi_receipts : Forall (fun c =>
    1 <= por_receipt_id c < rs_sequence (w_store w) /\
    (exists l, por_token_consumed c = Some l /\ (l < length (rs_flags (w_store w)))%nat) /\
    u64 (por_evaluation_monotonic_milliseconds c) /\
    u64 (stp_maximum_guard_age_milliseconds (por_timing c))) (w_receipts w);
  wi_ids : NoDup (por_receipt_id <$> w_receipts w);
  wi_locations : NoDup (por_token_consumed <$> w_receipts w);
  wi_issued : NoDup (w_issued w);
  wi_issued_below : Forall (fun x => x < rs_sequence (w_store w)) (w_issued w);
  wi_flags : forall c, c ∈ w_receipts w -> por_receipt_id c ∈ w_issued w <-> flag_set (w_store w) c;
  wi_once : NoDup (live_ids (w_tokens w) ++ (gr_receipt_id <$> w_grants w));
  wi_live_issued : forall x, x ∈ live_ids (w_tokens w) ++ (gr_receipt_id <$> w_grants w) -> x ∈ w_issued w;
  wi_tokens : Forall (fun t => at_active t -> backed (w_receipts w) (at_receipt_id t)
    (at_effective_cap_bytes t) (at_issued_monotonic_milliseconds t)
    (at_expires_monotonic_milliseconds t)) (w_tokens w);
  wi_grants : Forall (fun g => backed (w_receipts w) (gr_receipt_id g) (gr_cap g) (gr_now g) (gr_now g))
    (w_grants w);
}.

(** Stage B either issues nothing and leaves the store, or hands out the next
    number and a fresh flag. *)
Definition post_outcome (r : PostContextAdmissionRequest) (s : ReceiptStore)
    (x : PostContextAdmissionDecision * ReceiptStore) : Prop :=
  (pod_receipt x.1 = None /\ x.2 = s) \/
  exists c, pod_receipt x.1 = Some c /\ por_receipt_id c = rs_sequence s /\
    rs_sequence s <> 0 /\ rs_sequence s <> u64_max /\
    por_token_consumed c = Some (length (rs_flags s)) /\
    x.2 = mkReceiptStore (rs_sequence s +64 1) (rs_flags s ++ [false]) /\
    por_evaluation_monotonic_milliseconds c = poq_evaluation_monotonic_milliseconds r /\
    por_timing c = poq_timing r.

Lemma post_issue_shape r s : post_outcome r s (evaluate_post_context_admission r s).
Proof.
  set (P := post_outcome r s). post_norm. rewrite next_receipt_spec.
  cascade_elim ltac:(by left). right. cbn [fst snd].
  match goal with G : (if negb ?b then _ else _) = Some _ |- _ =>
    destruct b eqn:E in G; [discriminate G|]; cbn [negb] in G; injection G as <- end.
  bool_facts. eexists. by split_and!.
Qed.

Lemma consume_for_token_true c s s' : consume_for_token c s = (true, s') ->
  exists l, por_token_consumed c = Some l /\ rs_flags s !! l = Some false /\
    s' = {| s with rs_flags := <[l := true]> (rs_flags s) |}.
Proof.
  unfold consume_for_token. destruct (por_token_consumed c) as [l|]; [|done].
  destruct (rs_flags s !! l) as [[]|] eqn:E; [done| |done].
  intros H. apply (f_equal snd) in H. cbn in H. subst s'. by exists l.
Qed.

(** A refused issue changes nothing; a granted one consumes the flag. *)
Definition issue_outcome (issuer : AdmissionTokenIssuer) (s : ReceiptStore)
    (c : PostContextAdmissionReceipt) (r : IssueResult) : Prop :=
  (ir_token r = None /\ ir_issuer r = issuer /\ ir_store r = s) \/
  (is_Some (ir_token r) /\ ir_store r = (consume_for_token c s).2).

Lemma issue_effect issuer s c cell worker now validity :
  issue_outcome issuer s c (issue issuer s c cell worker now validity).
Proof.
  unfold issue. cbv zeta. cascade_elim ltac:(by left).
  destruct (consume_for_token c s) as [b s'] eqn:E. destruct b.
  - right. rewrite E. cbn. eauto.
  - left. split; [done|]. split; [done|]. cbn. unfold consume_for_token in E.
    repeat case_match; congruence.
Qed.

Lemma live_ids_app l1 l2 : live_ids (l1 ++ l2) = live_ids l1 ++ live_ids l2.
Proof. unfold live_ids. by rewrite filter_app, fmap_app. Qed.

(** Updating one token changes the live ids at that place only. *)
Lemma live_ids_insert ts k t t' : ts !! k = Some t ->
  exists before after, live_ids ts = before ++ live_ids [t] ++ after /\
    live_ids (<[k := t']> ts) = before ++ live_ids [t'] ++ after.
Proof.
  intros Hk. exists (live_ids (take k ts)), (live_ids (drop (S k) ts)).
  rewrite <- !live_ids_app. cbn [app]. split.
  - by rewrite (take_drop_middle ts k t Hk).
  - f_equal. rewrite insert_take_drop by (by eapply lookup_lt_Some). done.
Qed.

(** Preservation, one operation at a time. *)

Lemma backed_app rs rs' id cap lo hi : backed rs id cap lo hi -> backed (rs ++ rs') id cap lo hi.
Proof. intros (c & Hc & H). exists c. split; [apply elem_of_app; by left|done]. Qed.

Lemma world_post_inv w request : world_inv w -> op_wf (OpPost request) ->
  world_inv (world_step w (OpPost request)).
Proof.
  intros [Hseq Hrec Hids Hloc Hiss Hbelow Hfl Honce Hlive Htok Hgr] [He Ha]. cbn [world_step].
  pose proof (post_issue_shape request (w_store w)) as Hshape.
  destruct (evaluate_post_context_admission request (w_store w)) as [d s'].
  unfold post_outcome in Hshape. cbn [fst snd] in Hshape. destruct Hshape as [[Hn ->]|(c & Hc & Hid & H0 & Hmax & Hflag & -> & Hev & Htim)]; cbn in *.
  - rewrite Hn. cbn. rewrite app_nil_r. by destruct w.
  - rewrite Hc. cbn. rewrite wrap64_next by (unfold u64; lia).
    assert (forall c', c' ∈ w_receipts w -> por_receipt_id c' <> por_receipt_id c /\
              por_token_consumed c' <> por_token_consumed c) as Hnew.
    { intros c' Hc'. rewrite Forall_forall in Hrec. destruct (Hrec c' Hc') as (?&(l&Hl&?)&_).
      rewrite Hl, Hflag, Hid. split; [lia|]. intros [= ->]. lia. }
    split; cbn; rewrite ?length_app; cbn; try done; try lia.
    + apply Forall_app. split.
      * eapply Forall_impl; [exact Hrec|]. cbn. intros c' (?&(l&?&?)&?&?).
        split_and!; try done; [lia|lia|]. exists l. split; [done|lia].
      * apply Forall_singleton. rewrite Hid, Hev, Htim. split_and!; try done; [lia|lia|].
        eexists. split; [done|]. lia.
    + rewrite fmap_app. apply NoDup_app. split_and!; [done| |apply NoDup_singleton].
      intros x (c' & -> & Hc')%list_elem_of_fmap Heq%list_elem_of_singleton. by apply Hnew in Hc' as [? _].
    + rewrite fmap_app. apply NoDup_app. split_and!; [done| |apply NoDup_singleton].
      intros x (c' & -> & Hc')%list_elem_of_fmap Heq%list_elem_of_singleton. by apply Hnew in Hc' as [_ ?].
    + eapply Forall_impl; [exact Hbelow|]. cbn. lia.
    + intros c' [Hc'|Hc'%list_elem_of_singleton]%elem_of_app.
      * rewrite Hfl by done. unfold flag_set. rewrite Forall_forall in Hrec.
        destruct (Hrec c' Hc') as (_&(l&Hl&Hlt)&_). rewrite Hl. cbn. split.
        -- intros (? & [= <-] & Hf). exists l. split; [done|]. by rewrite lookup_app_l.
        -- intros (? & [= <-] & Hf). exists l. split; [done|]. by rewrite lookup_app_l in Hf.
      * subst c'. split.
        -- intros Hin. rewrite Forall_forall in Hbelow. apply Hbelow in Hin. lia.
        -- intros (l & Hl & Hf). rewrite Hflag in Hl. injection Hl as <-. cbn in Hf.
           rewrite list_lookup_middle in Hf by done. done.
    + eapply Forall_impl; [exact Htok|]. cbn. eauto using backed_app.
    + eapply Forall_impl; [exact Hgr|]. cbn. eauto using backed_app.
Qed.

Lemma world_new_issuer_inv w : world_inv w -> world_inv (world_step w OpNewIssuer).
Proof. intros []. cbn. by destruct (next_issuer_id (w_issuer_sequence w)). Qed.

Lemma world_move_inv w k : world_inv w -> world_inv (world_step w (OpMove k)).
Proof.
  intros Hinv. cbn. destruct (w_tokens w !! k) as [t|] eqn:Hk; [|done].
  destruct Hinv as [Hseq Hrec Hids Hloc Hiss Hbelow Hfl Honce Hlive Htok Hgr].
  destruct (live_ids_insert _ _ _ invalidated Hk) as (l1 & l2 & Hold & Hnew).
  assert (live_ids (<[k := invalidated]> (w_tokens w) ++ [t]) ≡ₚ live_ids (w_tokens w)) as Hperm.
  { rewrite live_ids_app, Hold, Hnew. change (live_ids [invalidated]) with (@nil Z). cbn [app].
    rewrite <- app_assoc. f_equiv. apply Permutation_app_comm. }
  split; cbn; try done.
  - by rewrite Hperm.
  - intros x. rewrite Hperm. apply Hlive.
  - apply Forall_app. split.
    + apply Forall_insert; [done|]. by intros [].
    + apply Forall_singleton. by apply (Forall_lookup_1 _ _ _ _ Htok Hk).
Qed.

Lemma world_issue_inv w i k cell worker now validity : world_inv w ->
  op_wf (OpIssue i k cell worker now validity) ->
  world_inv (world_step w (OpIssue i k cell worker now validity)).
Proof.
  intros Hinv [Hn Hv]. cbn [world_step].
  destruct (w_issuers w !! i) as [issuer|]; [|done].
  destruct (w_receipts w !! k) as [c|] eqn:Hk; [|done]. cbv zeta.
  assert (c ∈ w_receipts w) as Hc by (by eapply list_elem_of_lookup_2).
  destruct Hinv as [Hseq Hrec Hids Hloc Hiss Hbelow Hfl Honce Hlive Htok Hgr].
  pose proof Hrec as Hrec'. rewrite Forall_forall in Hrec'.
  destruct (Hrec' c Hc) as (Hidc & (l & Hl & Hlt) & Hev & Hage).
  destruct (issue_effect issuer (w_store w) c cell worker now validity) as [(Ht & Hi & Hs)|[[t Ht] Hs]];
    rewrite Ht, Hs; cbn; [rewrite !app_nil_r; by split|].
  apply issue_token_iff in Ht as [Hissuable ->]; [|by split_and!].
  destruct Hissuable as (_&_&_&_&?&[??]&?&?&?&_&_&_&_&Hcons).
  destruct (consume_for_token c (w_store w)) as [b s'] eqn:E. cbn in Hcons. subst b.
  apply consume_for_token_true in E as (l' & Hl' & Hfalse & ->). assert (l' = l) as -> by congruence.
  assert (por_receipt_id c ∉ w_issued w) as Hfresh.
  { intros Hin. apply Hfl in Hin as (l0 & Hl0 & Htrue); [|done]. congruence. }
  assert (live_ids (w_tokens w ++ [issued_token issuer c worker now validity]) ++
            (gr_receipt_id <$> w_grants w) ≡ₚ
          por_receipt_id c :: live_ids (w_tokens w) ++ (gr_receipt_id <$> w_grants w)) as Hperm.
  { rewrite live_ids_app, <- app_assoc. apply Permutation_sym, Permutation_middle. }
  split; cbn; rewrite ?length_insert; try done.
  - apply NoDup_app. split_and!; [done| |apply NoDup_singleton].
    intros x Hx ->%list_elem_of_singleton. done.
  - apply Forall_app. split; [done|]. apply Forall_singleton. cbn. lia.
  - intros c' Hc'. rewrite elem_of_app, list_elem_of_singleton. unfold flag_set. cbn.
    destruct (Hrec' c' Hc') as (_ & (m & Hm & Hmlt) & _). rewrite Hm.
    destruct (decide (por_receipt_id c' = por_receipt_id c)) as [Heq|Hidne].
    + assert (c' = c) as -> by (eapply (NoDup_key_inj por_receipt_id); eauto). assert (m = l) as -> by congruence.
      split; [|by right]. intros _. exists l. split; [done|]. by rewrite list_lookup_insert_eq.
    + assert (m <> l) as Hml.
      { intros ->. apply Hidne. f_equal. eapply (NoDup_key_inj por_token_consumed); eauto. congruence. }
      rewrite Hfl by done. unfold flag_set. rewrite Hm. split.
      * intros [(m' & [= <-] & ?)|?]; [|done]. exists m. split; [done|].
        by rewrite list_lookup_insert_ne.
      * intros (m' & [= <-] & Hx). left. exists m. split; [done|].
        by rewrite list_lookup_insert_ne in Hx.
  - rewrite Hperm. constructor; [|done]. intros Hin. by apply Hfresh, Hlive.
  - intros x Hx. rewrite Hperm in Hx. apply elem_of_app.
    apply elem_of_cons in Hx as [->|Hx%Hlive]; [right; by apply list_elem_of_singleton|by left].
  - apply Forall_app. split; [done|]. apply Forall_singleton. cbn. intros _. exists c.
    split_and!; try done; lia.
Qed.

Lemma terminal_consumed t cell worker now : terminal_status t cell worker now = Consumed ->
  at_issued_monotonic_milliseconds t <= now <= at_expires_monotonic_milliseconds t /\
  at_cell t = cell /\ at_worker t = worker.
Proof.
  unfold terminal_status. intros H. walk H. bool_facts.
  match goal with H : cell_eqb _ _ = true |- _ => apply cell_eqb_eq in H end.
  match goal with H : bool_decide _ = true |- _ => apply bool_decide_eq_true in H end. done.
Qed.

(** What one consumption does to its token: nothing, or it goes inactive and
    is granted at most within its lifetime. *)
Lemma consume_effect issuer t cell worker now :
  let '((status, cap), t') := consume issuer t cell worker now in
  (t' = t /\ status <> Consumed) \/
  (at_active t = true /\ t' = {| t with at_active := false |} /\
   (status = Consumed -> cap = at_effective_cap_bytes t /\
      at_issued_monotonic_milliseconds t <= now <= at_expires_monotonic_milliseconds t /\
      at_issuer_id t = ai_issuer_id issuer /\ at_cell t = cell /\ at_worker t = worker)).
Proof.
  pose proof (terminal_status_cases t cell worker now) as Ht.
  rewrite !elem_of_cons, elem_of_nil in Ht. pose proof (terminal_consumed t cell worker now) as Hc.
  unfold consume, consume_check, consume_commit.
  destruct (at_active t) eqn:Ha; cbn [negb]; [|by left].
  destruct (Z.eqb_spec (at_issuer_id t) (ai_issuer_id issuer)) as [Hi|]; cbn [negb]; [|by left].
  destruct Ht as [E|[E|[E|[E|[]]]]]; rewrite E; cbn; right; [split_and!; [done..|by intros [=]]..|].
  destruct (Hc E) as (?&?&?). by split_and!.
Qed.

Lemma world_consume_inv w i k cell worker now : world_inv w ->
  world_inv (world_step w (OpConsume i k cell worker now)).
Proof.
  intros Hinv. cbn [world_step].
  destruct (w_issuers w !! i) as [issuer|]; [|done].
  destruct (w_tokens w !! k) as [t|] eqn:Hk; [|done].
  pose proof (consume_effect issuer t cell worker now) as Heff.
  destruct (consume issuer t cell worker now) as [[status cap] t'].
  destruct Heff as [[-> Hst]|(Hact & -> & Hgrant)].
  { rewrite list_insert_id by done. case_bool_decide; [done|]. rewrite app_nil_r. by destruct w, Hinv. }
  destruct Hinv as [Hseq Hrec Hids Hloc Hiss Hbelow Hfl Honce Hlive Htok Hgr].
  pose proof (Forall_lookup_1 _ _ _ _ Htok Hk) as Hbk. cbn in Hbk. rewrite Hact in Hbk.
  destruct (live_ids_insert _ _ _ {| t with at_active := false |} Hk) as (l1 & l2 & Hold & Hnew).
  assert (live_ids [t] = [at_receipt_id t]) as Ht.
  { unfold live_ids. rewrite filter_cons_True by (by rewrite Hact). done. }
  assert (live_ids (w_tokens w) ++ (gr_receipt_id <$> w_grants w) ≡ₚ
          at_receipt_id t :: live_ids (<[k := {| t with at_active := false |}]> (w_tokens w)) ++
            (gr_receipt_id <$> w_grants w)) as Hperm.
  { rewrite Hold, Hnew, Ht. change (live_ids [_]) with (@nil Z). cbn [app].
    rewrite <- (Permutation_middle l1). done. }
  assert (Forall (fun u => at_active u -> backed (w_receipts w) (at_receipt_id u)
    (at_effective_cap_bytes u) (at_issued_monotonic_milliseconds u)
    (at_expires_monotonic_milliseconds u)) (<[k := {| t with at_active := false |}]> (w_tokens w))) as Htok'.
  { apply Forall_insert; [done|]. by intros []. }
  case_bool_decide as Hc.
  - destruct (Hgrant Hc) as (-> & Hlo & _).
    assert (live_ids (<[k := {| t with at_active := false |}]> (w_tokens w)) ++
            (gr_receipt_id <$> (w_grants w ++ [mkGrant (at_receipt_id t) (at_effective_cap_bytes t) now]))
            ≡ₚ live_ids (w_tokens w) ++ (gr_receipt_id <$> w_grants w)) as Hp.
    { rewrite Hperm, fmap_app, app_assoc. cbn. apply Permutation_sym, Permutation_cons_append. }
    split; cbn -[live_ids fmap]; try done.
    + by rewrite Hp.
    + intros x. rewrite Hp. apply Hlive.
    + apply Forall_app. split; [done|]. apply Forall_singleton. cbn.
      destruct (Hbk I) as (c & ? & ? & ? & ? & ?). exists c. split_and!; done || lia.
  - rewrite app_nil_r. split; cbn -[live_ids]; try done.
    + rewrite Hperm in Honce. by apply NoDup_cons in Honce as [_ ?].
    + intros x Hx. apply Hlive. rewrite Hperm. by right.
Qed.

Lemma world_run_inv ops w : world_inv w -> Forall op_wf ops -> world_inv (world_run w ops).
Proof.
  intros Hw Hops. revert w Hw. induction Hops as [|op ops Hop _ IH]; intros w Hw; [done|].
  apply IH. destruct op; eauto using world_post_inv, world_new_issuer_inv, world_issue_inv,
    world_move_inv, world_consume_inv.
Qed.

Lemma initial_world_inv : world_inv initial_World.
Proof.
  split; cbn; try lia; try apply Forall_nil_2; try apply NoDup_nil_2; intros ? ?%elem_of_nil; done.
Qed.

(** C2. An admission is spent at most once.  Take any number of issuers and
    any sequence of admissions, token issues, token moves and consumptions,
    over receipts that may be copied freely: no receipt is granted twice, and
    every grant is for a receipt that was issued, at exactly its effective
    cap and within the guard age of its evaluation. *)
Theorem admission_spent_once ops :
  Forall op_wf ops ->
  let w := world_run initial_World ops in
  NoDup (gr_receipt_id <$> w_grants w) /\ NoDup (w_issued w) /\
  Forall (fun g => backed (w_receipts w) (gr_receipt_id g) (gr_cap g) (gr_now g) (gr_now g)) (w_grants w).
Proof.
  intros Hops. cbv zeta. destruct (world_run_inv ops _ initial_world_inv Hops) as [].
  split_and!; try done. by apply NoDup_app in wi_once0 as (_&_&?).
Qed.

(** A token is a bounded, faithful delegation: one is issued exactly when
    the receipt is sound, names the same valid cell and is still unspent, the
    worker is fully identified, and the time lies in the guard window; the
    token carries the receipt's cap and cell and expires no later than the
    requested validity and the guard age of the receipt. *)
Theorem token_issue_correct issuer store receipt cell worker now validity t :
  times_wf receipt now validity ->
  ir_token (issue issuer store receipt cell worker now validity) = Some t <->
  issuable issuer store receipt cell worker now validity /\
  t = issued_token issuer receipt worker now validity.
Proof. apply issue_token_iff. Qed.

(** ** Witnesses *)

Definition demo_worker : AdmissionWorkerIdentity := mkWorker 4242 "job-1" "worker.exe".

Definition demo_post_receipt : PostContextAdmissionReceipt :=
  post_receipt_of demo_post_request demo_pre_receipt initial_ReceiptStore.

(** Two issuers are handed the same receipt and the first token is moved,
    then consumed twice. *)
Definition demo_world_ops : list WorldOp :=
  [OpPost demo_post_request; OpNewIssuer; OpNewIssuer;
   OpIssue 0 0 demo_cell demo_worker 5450 200; OpIssue 1 0 demo_cell demo_worker 5450 200;
   OpMove 0; OpConsume 0 0 demo_cell demo_worker 5500; OpConsume 0 1 demo_cell demo_worker 5500;
   OpConsume 0 1 demo_cell demo_worker 5500].

Lemma admission_spent_once_witness :
  NoDup (gr_receipt_id <$> w_grants (world_run initial_World demo_world_ops)) /\
  length (w_grants (world_run initial_World demo_world_ops)) = 1%nat.
Proof.
  split; [|vm_compute; reflexivity].
  apply (admission_spent_once demo_world_ops). repeat constructor; closed_bounds.
Defined.

Definition demo_issuer_store : ReceiptStore := mkReceiptStore 2 [false].

Lemma token_issue_correct_witness :
  issuable (new_issuer 1) demo_issuer_store demo_post_receipt demo_cell demo_worker 5450 200.
Proof.
  apply (token_issue_correct (new_issuer 1) demo_issuer_store demo_post_receipt demo_cell demo_worker
    5450 200 (issued_token (new_issuer 1) demo_post_receipt demo_worker 5450 200));
    [closed_bounds|vm_compute; reflexivity].
Defined.

(** Schedules as lists of thread numbers, so that a run can be evaluated. *)
Fixpoint cas_trace (st : Z * list CasThread) (schedule : list (nat * bool)) : Z * list CasThread :=
  match schedule with
  | [] => st
  | (i, spurious) :: rest =>
      match st.2 !! i with
      | Some t => cas_trace ((cas_step spurious st.1 t).1, <[i := (cas_step spurious st.1 t).2]> st.2) rest
      | None => cas_trace st rest
      end
  end.

Lemma cas_trace_rtc schedule st : rtc cas_schedule st (cas_trace st schedule).
Proof.
  revert st. induction schedule as [|[i b] rest IH]; intros [s ts]; [constructor|].
  cbn -[cas_step]. destruct (ts !! i) as [t|] eqn:E; [|apply IH].
  eapply rtc_l; [by apply (cas_turn s ts i t b)|apply IH].
Qed.

Fixpoint consume_trace (st : AdmissionToken * list ConsumeThread) (schedule : list nat)
    : AdmissionToken * list ConsumeThread :=
  match schedule with
  | [] => st
  | i :: rest =>
      match st.2 !! i with
      | Some t => consume_trace ((consume_step st.1 t).1, <[i := (consume_step st.1 t).2]> st.2) rest
      | None => consume_trace st rest
      end
  end.

Lemma consume_trace_rtc schedule st : rtc consume_schedule st (consume_trace st schedule).
Proof.
  revert st. induction schedule as [|i rest IH]; intros [s ts]; [constructor|].
  cbn -[consume_step]. destruct (ts !! i) as [t|] eqn:E; [|apply IH].
  eapply rtc_l; [by apply (consume_turn s ts i t)|apply IH].
Qed.

(** Both threads load 1; the second loses the exchange and takes 2. *)
Lemma sequence_numbers_unique_witness :
  let st := cas_trace (1, replicate 2 CasStart)
    [(0%nat, false); (1%nat, false); (0%nat, false); (1%nat, false); (1%nat, true); (1%nat, false)] in
  st = (3, [CasDone (Some 1); CasDone (Some 2)]) /\
  forall i c, st.2 !! i = Some (CasDone (Some c)) -> 1 <= c < st.1.
Proof.
  split; [vm_compute; reflexivity|]. apply (sequence_numbers_unique 2). apply cas_trace_rtc.
Defined.

Definition demo_token : AdmissionToken := issued_token (new_issuer 1) demo_post_receipt demo_worker 5450 200.

Definition demo_consumers : list ConsumeThread :=
  replicate 2 (ConsumeStart (new_issuer 1) demo_cell demo_worker 5500).

(** Both threads pass the activity check before either exchanges. *)
Lemma concurrent_consume_once_witness :
  let threads := (consume_trace (demo_token, demo_consumers) [0%nat; 1%nat; 1%nat; 0%nat]).2 in
  threads = [ConsumeDone TokenAlreadyConsumed 0; ConsumeDone Consumed 8589934592] /\
  forall i j t u, threads !! i = Some t -> threads !! j = Some u -> won t -> won u -> i = j.
Proof.
  split; [vm_compute; reflexivity|].
  refine (proj1 (concurrent_consume_once demo_token demo_consumers
    (consume_trace (demo_token, demo_consumers) [0%nat; 1%nat; 1%nat; 0%nat]).1 _ _ _)).
  - repeat constructor.
  - rewrite <- surjective_pairing. apply consume_trace_rtc.
Defined.

End AdmissionTokens.
