(* ===== verification/Watchdog.v ===== *)
(** * The supervisor watchdog

    [src/governor/supervisor_watchdog.cpp]: the decision, taken every sample
    period while a worker runs, whether work may continue under the execution
    receipt of stage B. *)

From S2P Require Import Prelude.
From S2P Require Import CheckedArithmetic.
From S2P Require Import MemoryCap.
From S2P Require Import HostAdmission.
From S2P Require Import GpuTelemetry.
From S2P Require Import SupervisorAdmission.
From S2P Require Import PreAdmission.
From S2P Require Import PostAdmission.
Import CheckedArithmetic MemoryCap HostAdmission GpuTelemetry SupervisorAdmission PreAdmission PostAdmission.

Module Watchdog.

Inductive WatchdogReason :=
| WatchdogNone | WorkerUnavailable | ContextFatal | DeadlineReached | HeartbeatInvalidOrStale
| GpuTelemetryInvalidOrStale | AdapterIdentityMismatch | OwnedGpuEvidenceInvalid
| LiveCapacityOverflow | EffectiveCapBreached | ThermalTelemetryInvalidOrStale | ThermalStop
| HostReserveBreached.

Record SupervisorWatchdogSample := mkWatchdogSample {
  sws_evaluated_monotonic_milliseconds : Z;
  sws_run_deadline_monotonic_milliseconds : Z;
  sws_worker_heartbeat_monotonic_milliseconds : Z;
  sws_worker_alive : bool;
  sws_context_fatal_error : bool;
  sws_gpu : PreContextGpuSample;
  sws_owned_gpu : OwnedGpuMemoryEvidence;
  sws_thermal : GpuThermalSample;
  sws_host : HostTelemetrySample;
  sws_host_policy : HostReservePolicy;
  sws_host_request : HostAdmissionRequest;
}.

Record SupervisorWatchdogDecision := mkWatchdogDecision {
  swd_continue_work : bool;
  swd_submissions_blocked : bool;
  swd_reason : WatchdogReason;
  swd_current_live_capacity_bytes : Z;
  swd_effective_cap_bytes : Z;
  swd_host_decision : HostAdmissionDecision;
}.

Definition default_SupervisorWatchdogDecision : SupervisorWatchdogDecision :=
  mkWatchdogDecision false true GpuTelemetryInvalidOrStale 0 0 default_HostAdmissionDecision.

(** [fresh] of this translation unit. *)
Definition watchdog_fresh (captured evaluated maximum_age : Z) : bool :=
  (captured <>z 0) && (captured <=? evaluated) && (evaluated -64 captured <=? maximum_age).

(** [valid_temperature] of this translation unit: the bounds are excluded. *)
Definition watchdog_valid_temperature (value : Z) : bool := (-100 <? value) && (value <? 200).

Record ThermalBounds := mkBounds { tb_warning : Z; tb_stop : Z }.

Definition thermal_bounds (sample : GpuThermalSample) : option ThermalBounds :=
  if negb (watchdog_valid_temperature (gts_current_celsius sample)) ||
     optional_temperature_invalid watchdog_valid_temperature (gts_reported_target_celsius sample) ||
     optional_temperature_invalid watchdog_valid_temperature (gts_reported_slowdown_celsius sample)
  then None
  else
    let warning := derived_warning sample in
    let stop := derived_stop sample in
    if (0 <? warning) && (0 <? stop) && (warning <? stop) then Some (mkBounds warning stop) else None.

Definition reconciled_owned_current (owned : OwnedGpuMemoryEvidence) : option Z :=
  checked_sum_from checked_add_u64 0 (current_categories owned).

Definition cancel (reason : WatchdogReason) : SupervisorWatchdogDecision :=
  {| default_SupervisorWatchdogDecision with swd_reason := reason |}.

Definition watchdog_owned_invalid (admission : PostContextAdmissionReceipt)
    (sample : SupervisorWatchdogSample) (owned_total : option Z) : bool :=
  let owned := sws_owned_gpu sample in
  negb (og_available owned) || negb (og_reconciled owned) ||
  negb (og_process_device_corroboration_available owned) ||
  ((og_process_device_source owned <>s "nvml-process") &&
   (og_process_device_source owned <>s "wddm-process")) ||
  (og_process_id owned =? 0) ||
  (og_process_device_captured_monotonic_milliseconds owned <>z og_captured_monotonic_milliseconds owned) ||
  (og_process_device_current_bytes owned <>z og_owned_current_bytes owned) ||
  negb (og_adapter_identity_available owned) ||
  negb (watchdog_fresh (og_captured_monotonic_milliseconds owned)
          (sws_evaluated_monotonic_milliseconds sample)
          (stp_maximum_guard_age_milliseconds (por_timing admission))) ||
  match owned_total with None => true | Some t => t <>z og_owned_current_bytes owned end ||
  (og_unknown_unreconciled_bytes owned <>z 0) ||
  (og_cuda_context_runtime_current_bytes owned =? 0) ||
  (og_adapter_luid_high owned <>z por_adapter_luid_high admission) ||
  (og_adapter_luid_low owned <>z por_adapter_luid_low admission) ||
  (og_hard_cap_bytes owned <>z por_effective_cap_bytes admission) ||
  (og_owned_peak_bytes owned <? og_owned_current_bytes owned) ||
  (por_effective_cap_bytes admission <? og_owned_peak_bytes owned) ||
  (og_cuda_mem_info_total_bytes owned =? 0) ||
  (og_cuda_mem_info_total_bytes owned <? og_cuda_mem_info_free_bytes owned) ||
  (pcg_dxgi_local_current_usage_bytes (sws_gpu sample) <? og_owned_current_bytes owned).

Definition evaluate_supervisor_watchdog (admission : PostContextAdmissionReceipt)
    (sample : SupervisorWatchdogSample) : SupervisorWatchdogDecision :=
  let maximum_age := stp_maximum_guard_age_milliseconds (por_timing admission) in
  let evaluated := sws_evaluated_monotonic_milliseconds sample in
  let gpu := sws_gpu sample in
  let owned := sws_owned_gpu sample in
  let thermal := sws_thermal sample in
  if negb (sws_worker_alive sample) then cancel WorkerUnavailable
  else if sws_context_fatal_error sample then cancel ContextFatal
  else if (evaluated =? 0) || (sws_run_deadline_monotonic_milliseconds sample =? 0) ||
          (sws_run_deadline_monotonic_milliseconds sample <>z
             por_run_deadline_monotonic_milliseconds admission) ||
          (sws_run_deadline_monotonic_milliseconds sample <=? evaluated) then
    cancel DeadlineReached
  else if negb (watchdog_fresh (sws_worker_heartbeat_monotonic_milliseconds sample) evaluated maximum_age)
  then cancel HeartbeatInvalidOrStale
  else if negb (pcg_available gpu) || negb (pcg_adapter_identity_available gpu) ||
          negb (watchdog_fresh (pcg_captured_monotonic_milliseconds gpu) evaluated maximum_age) ||
          (pcg_physical_or_reportable_local_bytes gpu =? 0) ||
          (pcg_dxgi_local_budget_bytes gpu =? 0) ||
          (pcg_dxgi_local_budget_bytes gpu <? pcg_dxgi_local_current_usage_bytes gpu) then
    cancel GpuTelemetryInvalidOrStale
  else if (pcg_adapter_luid_high gpu <>z por_adapter_luid_high admission) ||
          (pcg_adapter_luid_low gpu <>z por_adapter_luid_low admission) then
    cancel AdapterIdentityMismatch
  else if watchdog_owned_invalid admission sample (reconciled_owned_current owned) then
    cancel OwnedGpuEvidenceInvalid
  else
  match checked_add_u64 (og_owned_current_bytes owned) (og_cuda_mem_info_free_bytes owned) with
  | None => cancel LiveCapacityOverflow
  | Some owned_plus_free =>
  let headroom := pcg_dxgi_local_budget_bytes gpu -64 pcg_dxgi_local_current_usage_bytes gpu in
  match checked_add_u64 (og_owned_current_bytes owned) headroom with
  | None => cancel LiveCapacityOverflow
  | Some dxgi_owned_capacity =>
  if og_cuda_mem_info_total_bytes owned <? owned_plus_free then cancel OwnedGpuEvidenceInvalid
  else
  let live := Z.min (Z.min (pcg_physical_or_reportable_local_bytes gpu)
                           (pcg_dxgi_local_budget_bytes gpu))
                    (Z.min owned_plus_free dxgi_owned_capacity) in
  let bounded_live := Z.min (por_policy_ceiling_bytes admission) live in
  let effective_cap :=
    Z.min (por_effective_cap_bytes admission)
          (reserve_adjust bounded_live (por_gpu_reserve_bytes admission)) in
  let decision := {| default_SupervisorWatchdogDecision with
    swd_current_live_capacity_bytes := live; swd_effective_cap_bytes := effective_cap |} in
  if (effective_cap <? og_owned_current_bytes owned) ||
     (effective_cap <? por_predicted_gpu_peak_bytes admission) then
    {| decision with swd_reason := EffectiveCapBreached |}
  else if negb (gts_available thermal) ||
          negb (watchdog_fresh (gts_captured_monotonic_milliseconds thermal) evaluated maximum_age) then
    {| decision with swd_reason := ThermalTelemetryInvalidOrStale |}
  else
  match thermal_bounds thermal with
  | None => {| decision with swd_reason := ThermalTelemetryInvalidOrStale |}
  | Some bounds =>
  if (por_gpu_warning_celsius admission <? tb_warning bounds) ||
     (por_gpu_stop_celsius admission <? tb_stop bounds) then
    {| decision with swd_reason := ThermalTelemetryInvalidOrStale |}
  else if (por_gpu_stop_celsius admission <=? gts_current_celsius thermal) ||
          gts_thermal_throttling thermal || gts_power_brake_slowdown thermal then
    {| decision with swd_reason := ThermalStop |}
  else
  let host_request := stamp_host_request (por_host_request admission) evaluated maximum_age in
  let host_decision :=
    evaluate_host_admission (sws_host sample) (por_host_policy admission) host_request in
  let decision := {| decision with swd_host_decision := host_decision |} in
  if negb (had_admitted host_decision) then {| decision with swd_reason := HostReserveBreached |}
  else {| decision with swd_continue_work := true;
                        swd_submissions_blocked := false;
                        swd_reason := WatchdogNone |}
  end end end.

(** ** Specification *)

Definition watchdog_sample_wf (admission : PostContextAdmissionReceipt)
    (s : SupervisorWatchdogSample) : Prop :=
  Forall u64 [sws_evaluated_monotonic_milliseconds s; sws_run_deadline_monotonic_milliseconds s;
    sws_worker_heartbeat_monotonic_milliseconds s; gts_captured_monotonic_milliseconds (sws_thermal s);
    stp_maximum_guard_age_milliseconds (por_timing admission); por_policy_ceiling_bytes admission;
    por_gpu_reserve_bytes admission] /\
  gpu_sample_wf (sws_gpu s) /\ owned_wf (sws_owned_gpu s) /\ host_sample_wf (sws_host s) /\
  host_policy_wf (por_host_policy admission) /\ host_request_wf (por_host_request admission).

(** The memory the worker holds is attributed, corroborated and within the
    cap it was admitted with. *)
Definition owned_under_cap (admission : PostContextAdmissionReceipt) (s : SupervisorWatchdogSample) : Prop :=
  let owned := sws_owned_gpu s in
  og_available owned = true /\ og_reconciled owned = true /\
  og_process_device_corroboration_available owned = true /\
  (og_process_device_source owned = "nvml-process"%string \/
   og_process_device_source owned = "wddm-process"%string) /\
  og_process_id owned <> 0 /\
  og_process_device_captured_monotonic_milliseconds owned = og_captured_monotonic_milliseconds owned /\
  og_process_device_current_bytes owned = og_owned_current_bytes owned /\
  og_adapter_identity_available owned = true /\
  fresh (og_captured_monotonic_milliseconds owned) (sws_evaluated_monotonic_milliseconds s)
    (stp_maximum_guard_age_milliseconds (por_timing admission)) /\
  sumZ (current_categories owned) = og_owned_current_bytes owned /\
  og_unknown_unreconciled_bytes owned = 0 /\
  0 < og_cuda_context_runtime_current_bytes owned /\
  og_adapter_luid_high owned = por_adapter_luid_high admission /\
  og_adapter_luid_low owned = por_adapter_luid_low admission /\
  og_hard_cap_bytes owned = por_effective_cap_bytes admission /\
  og_owned_current_bytes owned <= og_owned_peak_bytes owned <= por_effective_cap_bytes admission /\
  0 < og_cuda_mem_info_total_bytes owned /\
  og_cuda_mem_info_free_bytes owned <= og_cuda_mem_info_total_bytes owned /\
  og_owned_current_bytes owned <= pcg_dxgi_local_current_usage_bytes (sws_gpu s).

Definition watchdog_live_capacity (s : SupervisorWatchdogSample) : Z :=
  let owned := og_owned_current_bytes (sws_owned_gpu s) in
  Z.min (live_capacity (sws_gpu s))
    (Z.min (owned + og_cuda_mem_info_free_bytes (sws_owned_gpu s)) (owned + dxgi_headroom (sws_gpu s))).

Definition temperature_plausible (t : option Z) : Prop := forall c, t = Some c -> -100 < c < 200.

Definition watchdog_thermal_ok (admission : PostContextAdmissionReceipt) (t : GpuThermalSample) : Prop :=
  -100 < gts_current_celsius t < 200 /\
  temperature_plausible (gts_reported_target_celsius t) /\
  temperature_plausible (gts_reported_slowdown_celsius t) /\
  0 < derived_warning t < derived_stop t /\
  derived_warning t <= por_gpu_warning_celsius admission /\
  derived_stop t <= por_gpu_stop_celsius admission /\
  gts_current_celsius t < por_gpu_stop_celsius admission /\
  gts_thermal_throttling t = false /\ gts_power_brake_slowdown t = false.

(** Work may continue. *)
Definition watchdog_safe (admission : PostContextAdmissionReceipt) (s : SupervisorWatchdogSample) : Prop :=
  let now := sws_evaluated_monotonic_milliseconds s in
  let age := stp_maximum_guard_age_milliseconds (por_timing admission) in
  let owned := sws_owned_gpu s in
  sws_worker_alive s = true /\ sws_context_fatal_error s = false /\
  sws_run_deadline_monotonic_milliseconds s = por_run_deadline_monotonic_milliseconds admission /\
  0 < now < sws_run_deadline_monotonic_milliseconds s /\
  fresh (sws_worker_heartbeat_monotonic_milliseconds s) now age /\
  gpu_counters_ok (sws_gpu s) now age /\
  pcg_adapter_luid_high (sws_gpu s) = por_adapter_luid_high admission /\
  pcg_adapter_luid_low (sws_gpu s) = por_adapter_luid_low admission /\
  owned_under_cap admission s /\
  og_owned_current_bytes owned + og_cuda_mem_info_free_bytes owned <= og_cuda_mem_info_total_bytes owned /\
  por_predicted_gpu_peak_bytes admission <= por_effective_cap_bytes admission /\
  Z.max (og_owned_current_bytes owned) (por_predicted_gpu_peak_bytes admission) +
    por_gpu_reserve_bytes admission
      <= Z.min (por_policy_ceiling_bytes admission) (watchdog_live_capacity s) /\
  gts_available (sws_thermal s) = true /\
  fresh (gts_captured_monotonic_milliseconds (sws_thermal s)) now age /\
  watchdog_thermal_ok admission (sws_thermal s) /\
  host_admissible (sws_host s) (por_host_policy admission)
    (stamp_host_request (por_host_request admission) now age).

(** ** Proofs *)

Lemma watchdog_fresh_iff c e m : u64 c -> u64 e -> watchdog_fresh c e m = true <-> fresh c e m.
Proof.
  intros Hc He. unfold watchdog_fresh, fresh. bool_iff. unfold u64 in *.
  split; intros H; [rewrite wrap64_sub in H by (unfold u64; lia); lia|].
  rewrite wrap64_sub by (unfold u64; lia). lia.
Qed.

Lemma watchdog_temperature_iff t :
  optional_temperature_invalid watchdog_valid_temperature t = false <-> temperature_plausible t.
Proof.
  unfold optional_temperature_invalid, watchdog_valid_temperature, temperature_plausible.
  destruct t as [c|]; [|by split]. bool_iff. split; [intros ?? [= <-]; lia|].
  intros H. specialize (H c eq_refl). lia.
Qed.

Definition bounds_ok_b (t : GpuThermalSample) : bool :=
  negb (negb (watchdog_valid_temperature (gts_current_celsius t)) ||
     optional_temperature_invalid watchdog_valid_temperature (gts_reported_target_celsius t) ||
     optional_temperature_invalid watchdog_valid_temperature (gts_reported_slowdown_celsius t)) &&
  ((0 <? derived_warning t) && (0 <? derived_stop t) && (derived_warning t <? derived_stop t)).

Lemma thermal_bounds_spec t :
  thermal_bounds t = if bounds_ok_b t then Some (mkBounds (derived_warning t) (derived_stop t)) else None.
Proof. unfold thermal_bounds, bounds_ok_b. destruct (_ || _); [done|]. cbv zeta. by destruct (_ && _). Qed.

Lemma bounds_ok_iff t : bounds_ok_b t = true <->
  -100 < gts_current_celsius t < 200 /\
  temperature_plausible (gts_reported_target_celsius t) /\
  temperature_plausible (gts_reported_slowdown_celsius t) /\ 0 < derived_warning t < derived_stop t.
Proof.
  unfold bounds_ok_b, watchdog_valid_temperature at 1. bool_iff. rewrite !watchdog_temperature_iff.
  split; intros; split_and!; tauto || lia.
Qed.

Lemma watchdog_owned_iff admission s : watchdog_sample_wf admission s ->
  watchdog_owned_invalid admission s (reconciled_owned_current (sws_owned_gpu s)) = false <->
  owned_under_cap admission s.
Proof.
  intros (Hz & _ & (Hcat & _ & Ho) & _). rewrite !Forall_cons in Hz. rewrite !Forall_cons in Ho.
  destruct Hz as (Hev&_). destruct Ho as (Hcap&?&?&?&?&?&?&_).
  assert (u64 (og_cuda_context_runtime_current_bytes (sws_owned_gpu s))).
  { unfold current_categories in Hcat. rewrite !Forall_cons in Hcat. tauto. }
  unfold watchdog_owned_invalid. cbv zeta.
  change (reconciled_owned_current (sws_owned_gpu s)) with (reconcile_owned_current (sws_owned_gpu s)).
  rewrite reconcile_owned_spec by done. pose proof (sumZ_nonneg _ Hcat).
  unfold owned_under_cap. cbv zeta.
  destruct (Z.leb_spec (sumZ (current_categories (sws_owned_gpu s))) u64_max) as [Hle|Hgt]; bool_iff;
    rewrite source_known_iff, watchdog_fresh_iff by done; split; intros; destruct_and!;
    unfold u64 in *; try done; try (split_and!; tauto || lia).
Qed.

Ltac watchdog_norm :=
  lazy beta iota zeta delta [evaluate_supervisor_watchdog cancel default_SupervisorWatchdogDecision
    swd_continue_work swd_submissions_blocked swd_reason swd_current_live_capacity_bytes
    swd_effective_cap_bytes swd_host_decision].

(** The two peak checks as one inequality. *)
Lemma watchdog_cap_fits (owned peak cap x reserve : Z) :
  u64 x -> 0 <= reserve -> 0 < owned <= cap ->
  (owned <= Z.min cap (reserve_adjust x reserve) /\ peak <= Z.min cap (reserve_adjust x reserve)) <->
  peak <= cap /\ Z.max owned peak + reserve <= x.
Proof. intros. rewrite reserve_adjust_spec by done. lia. Qed.

Lemma owned_is_positive admission s : watchdog_sample_wf admission s -> owned_under_cap admission s ->
  0 < og_owned_current_bytes (sws_owned_gpu s) <= por_effective_cap_bytes admission.
Proof.
  intros (_ & _ & (Hcat & _) & _) (_&_&_&_&_&_&_&_&_&Hsum&_&Hpos&_&_&_&?&_).
  assert (og_cuda_context_runtime_current_bytes (sws_owned_gpu s) <=
          sumZ (current_categories (sws_owned_gpu s))); [|lia].
  apply sumZ_in_le; [done|]. unfold current_categories. set_solver.
Qed.

Lemma watchdog_continue_iff admission s : watchdog_sample_wf admission s ->
  swd_continue_work (evaluate_supervisor_watchdog admission s) = true <-> watchdog_safe admission s.
Proof.
  intros Hwf. pose proof Hwf as (Hz & Hgpu & (Hcat & _ & Ho) & Hhost & Hpol & Hreq).
  rewrite !Forall_cons in Hz. rewrite !Forall_cons in Ho.
  destruct Hz as (Hev & Hdl & Hhb & Hth & Hage & Hceil & Hres & _).
  destruct Ho as (Hoc0&?&Hoc&?&Hfree&?&?&_).
  pose proof Hgpu as (Hgc & Hgp & Hgb & Hgu).
  observe swd_continue_work as q. watchdog_norm.
  pose proof (wrap64_range (pcg_dxgi_local_budget_bytes (sws_gpu s) -
    pcg_dxgi_local_current_usage_bytes (sws_gpu s))) as Hw.
  rewrite thermal_bounds_spec, !checked_add_spec by done.
  cascade. bool_iff. subst q. cbn [swd_continue_work tb_warning tb_stop].
  rewrite host_admitted_iff, !watchdog_fresh_iff, bounds_ok_iff, watchdog_owned_iff
    by (done || by apply stamp_host_request_wf).
  unfold watchdog_safe, watchdog_thermal_ok, gpu_counters_ok. cbv zeta.
  set (live := Z.min (Z.min _ _) (Z.min _ _)).
  assert (pcg_dxgi_local_current_usage_bytes (sws_gpu s) <= pcg_dxgi_local_budget_bytes (sws_gpu s) ->
          live = watchdog_live_capacity s) as Hlive.
  { intros. subst live. unfold watchdog_live_capacity, live_capacity, dxgi_headroom.
    cbv zeta. by rewrite wrap64_sub by done. }
  assert (u64 live) as Hlu by (subst live; unfold u64 in *; lia). clearbody live.
  split; intros Hall; destruct_and!; specialize (Hlive ltac:(assumption)); subst live.
  - match goal with H : owned_under_cap _ _ |- _ => pose proof (owned_is_positive _ _ Hwf H) end.
    match goal with H : og_owned_current_bytes _ <= Z.min _ (reserve_adjust _ _),
                    H' : por_predicted_gpu_peak_bytes _ <= Z.min _ (reserve_adjust _ _) |- _ =>
      pose proof (conj H H') as Hfit end.
    rewrite watchdog_cap_fits in Hfit by (unfold u64 in *; lia).
    unfold u64 in *. split_and!; tauto || lia.
  - match goal with H : owned_under_cap _ _ |- _ =>
      pose proof (owned_is_positive _ _ Hwf H); pose proof H as (_&_&_&_&_&_&_&_&_&_&_&_&_&_&_&_&_&_&?) end.
    rewrite (watchdog_cap_fits _ _ _ _ _) by (unfold u64 in *; lia).
    rewrite wrap64_sub by done.
    unfold u64 in *. split_and!; tauto || lia.
Qed.

(** C6. The watchdog lets work continue if and only if the worker is alive
    and before its deadline, every sample is fresh and of the admitted
    adapter, the owned memory is attributed and below the admitted cap, the
    owned and predicted memory plus the admitted reserve still fit the live
    capacity over unbounded integers, the device is below the admitted stop
    temperature and the host still admits the admitted workload. *)
Theorem watchdog_continue_correct admission s : watchdog_sample_wf admission s ->
  swd_continue_work (evaluate_supervisor_watchdog admission s) = true <-> watchdog_safe admission s.
Proof. apply watchdog_continue_iff. Qed.

Definition fails_closed (d : SupervisorWatchdogDecision) : Prop :=
  swd_submissions_blocked d = negb (swd_continue_work d) /\
  (swd_reason d = WatchdogNone <-> swd_continue_work d = true).

(** The watchdog fails closed: whatever the sample, submissions are
    blocked exactly when work may not continue, a refusal always names a
    reason, and the cap it reports never exceeds the admitted one. *)
Theorem watchdog_fails_closed admission s : 0 <= por_effective_cap_bytes admission ->
  let d := evaluate_supervisor_watchdog admission s in
  fails_closed d /\ swd_effective_cap_bytes d <= por_effective_cap_bytes admission.
Proof.
  intros Hcap. cbv zeta.
  set (P := fun d => fails_closed d /\ swd_effective_cap_bytes d <= por_effective_cap_bytes admission).
  change (P (evaluate_supervisor_watchdog admission s)). watchdog_norm.
  cascade_elim ltac:(split; [split; [done|by split]|cbn; lia]).
  split; [by split|]. cbn. lia.
Qed.

(** ** Witnesses and observations *)

Definition demo_admission : PostContextAdmissionReceipt :=
  post_receipt_of demo_post_request demo_pre_receipt initial_ReceiptStore.

Definition demo_watchdog_sample : SupervisorWatchdogSample :=
  mkWatchdogSample 5450 65100 5400 true false
    (mkGpuSample true true 0 4660 5300 12884901888 11811160064 956301312)
    demo_owned {| demo_thermal with gts_captured_monotonic_milliseconds := 5300 |}
    demo_host demo_policy demo_request.

Lemma demo_watchdog_wf : watchdog_sample_wf demo_admission demo_watchdog_sample.
Proof.
  destruct demo_post_wf as (_ & _ & Ho & _). destruct demo_wf as (?&?&Hr).
  unfold watchdog_sample_wf. rewrite !Forall_cons, Forall_nil.
  split_and!; try done; try closed_bounds.
Defined.

Lemma watchdog_continue_correct_witness : watchdog_safe demo_admission demo_watchdog_sample.
Proof.
  apply (watchdog_continue_correct demo_admission demo_watchdog_sample demo_watchdog_wf).
  vm_compute. reflexivity.
Defined.

Lemma watchdog_fails_closed_witness :
  fails_closed (evaluate_supervisor_watchdog demo_admission demo_watchdog_sample).
Proof.
  apply (watchdog_fails_closed demo_admission demo_watchdog_sample). vm_compute. intro. discriminate.
Defined.

(** The stop temperature the watchdog enforces is the admitted one: a device
    that reports a lower target after admission, so that the lowest available
    bound among 82 C, target - 5 and slowdown - 5 is already exceeded, keeps
    running. *)
Definition lowered_target_sample : SupervisorWatchdogSample :=
  {| demo_watchdog_sample with
     sws_thermal := {| demo_thermal with
       gts_captured_monotonic_milliseconds := 5300; gts_current_celsius := 68;
       gts_reported_target_celsius := Some 70 |} |}.

Lemma watchdog_keeps_admitted_stop :
  swd_continue_work (evaluate_supervisor_watchdog demo_admission lowered_target_sample) = true /\
  derived_stop (sws_thermal lowered_target_sample) = 65 /\
  gts_current_celsius (sws_thermal lowered_target_sample) = 68.
Proof. vm_compute. repeat split. Qed.

(** The temperature range of the watchdog is narrower than that of admission:
    a slowdown temperature of exactly 200 C is plausible to both admission
    stages and cancels the run. *)
Definition edge_thermal : GpuThermalSample :=
  {| demo_thermal with gts_captured_monotonic_milliseconds := 5300;
                       gts_reported_slowdown_celsius := Some 200 |}.

Lemma watchdog_temperature_range_narrower :
  pod_admitted (evaluate_post_context_admission
    {| demo_post_request with poq_thermal := edge_thermal |} initial_ReceiptStore).1 = true /\
  swd_reason (evaluate_supervisor_watchdog demo_admission
    {| demo_watchdog_sample with sws_thermal := edge_thermal |}) = ThermalTelemetryInvalidOrStale.
Proof. vm_compute. repeat split. Qed.

End Watchdog.
