(* ===== verification/GpuLease.v ===== *)
(** * The exclusive GPU lease

    [src/governor/exclusive_gpu_lease.cpp]: the in-process registry of leased
    adapters, acquisition over an operating-system authority, release, move
    and quarantine. *)

From S2P Require Import Prelude.
From Stdlib Require Import Ascii String.

Module GpuLease.

Inductive ExclusiveGpuLeaseStatus :=
| Acquired | InvalidAdapterIdentity | AlreadyHeldInProcess | HeldByAnotherProcess | SystemError.

#[export] Instance lease_status_eq_dec : EqDecision ExclusiveGpuLeaseStatus.
Proof. solve_decision. Defined.

(** [lease_active] is [native_handle_ != nullptr]. *)
Record ExclusiveGpuLease := mkLease {
  lease_adapter_luid_high : Z;
  lease_adapter_luid_low : Z;
  lease_id : string;
  lease_active : bool;
}.

(** ["%08x"] of a 32-bit value: eight lower-case hexadecimal digits. *)
Definition hex_digit (d : Z) : ascii :=
  ascii_of_N (Z.to_N (if d <? 10 then 48 + d else 87 + d)).

Fixpoint hex_digits (n : nat) (v : Z) : string :=
  match n with
  | O => EmptyString
  | S n' => String (hex_digit ((v / 16 ^ Z.of_nat n') mod 16)) (hex_digits n' v)
  end.

Definition make_lease_id (high low : Z) : string :=
  ("prisminfer-gpu-" ++ hex_digits 8 (wrap32 high) ++ "-" ++ hex_digits 8 low)%string.

(** What the platform code (a named mutex owned by a helper thread, or an
    abstract socket) reports for one attempt. *)
Inductive NativeLeaseOutcome :=
| NativeAcquired
| NativeHeldByAnotherProcess (code : Z)  (** 0 on Windows, [EADDRINUSE] on Linux *)
| NativeSystemError (code : Z)
| RegistryAllocationFailed (code : Z).  (** [std::bad_alloc] before the OS is asked *)

(** [g_active_lease_ids] *)
Definition Registry := gset string.

Record ExclusiveGpuLeaseAcquireResult := mkLeaseResult {
  lar_status : ExclusiveGpuLeaseStatus;
  lar_lease : option ExclusiveGpuLease;
  lar_system_error : Z;
}.

Definition acquire_exclusive_gpu_lease (outcome : NativeLeaseOutcome) (high low : Z)
    (registry : Registry) : ExclusiveGpuLeaseAcquireResult * Registry :=
  if (high =? 0) && (low =? 0) then (mkLeaseResult InvalidAdapterIdentity None 0, registry)
  else
  let id := make_lease_id high low in
  if bool_decide (id ∈ registry) then (mkLeaseResult AlreadyHeldInProcess None 0, registry)
  else
  match outcome with
  | RegistryAllocationFailed code => (mkLeaseResult SystemError None code, registry)
  | NativeHeldByAnotherProcess code =>
      (mkLeaseResult HeldByAnotherProcess None code, ({[id]} ∪ registry) ∖ {[id]})
  | NativeSystemError code => (mkLeaseResult SystemError None code, ({[id]} ∪ registry) ∖ {[id]})
  | NativeAcquired =>
      (mkLeaseResult Acquired (Some (mkLease high low id true)) 0, {[id]} ∪ registry)
  end.

(** [ExclusiveGpuLease::release], also run by the destructor. *)
Definition release (lease : ExclusiveGpuLease) (registry : Registry) : ExclusiveGpuLease * Registry :=
  if negb (lease_active lease) then (lease, registry)
  else ({| lease with lease_active := false |}, registry ∖ {[lease_id lease]}).

Definition quarantine_for_process_lifetime (lease : ExclusiveGpuLease) : ExclusiveGpuLease :=
  {| lease with lease_active := false |}.

(** The move constructor: the target takes the handle and the (moved) name,
    the source is left inactive. *)
Definition move_lease (other : ExclusiveGpuLease) : ExclusiveGpuLease * ExclusiveGpuLease :=
  (other, mkLease 0 0 "" false).

(** ** Lease names identify adapters *)

Lemma hex_digit_inj a b : 0 <= a < 16 -> 0 <= b < 16 -> hex_digit a = hex_digit b -> a = b.
Proof.
  intros Ha Hb H. apply (f_equal N_of_ascii) in H. unfold hex_digit in H.
  revert H. destruct (Z.ltb_spec a 10), (Z.ltb_spec b 10);
    do 2 rewrite N_ascii_embedding by lia; lia.
Qed.

Lemma hex_digits_inj n a b : 0 <= a < 16 ^ Z.of_nat n -> 0 <= b < 16 ^ Z.of_nat n ->
  hex_digits n a = hex_digits n b -> a = b.
Proof.
  enough (forall m, hex_digits m a = hex_digits m b ->
            a mod 16 ^ Z.of_nat m = b mod 16 ^ Z.of_nat m) as Hm.
  { intros Ha Hb H. apply Hm in H. by rewrite !Z.mod_small in H. }
  induction m as [|m IH]; [by rewrite !Z.mod_1_r|].
  cbn [hex_digits]. intros [= Hd Hrest]. apply IH in Hrest. clear IH.
  apply hex_digit_inj in Hd; [|apply Z.mod_pos_bound; lia..].
  rewrite Nat2Z.inj_succ, Z.pow_succ_r, (Z.mul_comm 16) by lia.
  rewrite !Z.rem_mul_r by lia. lia.
Qed.

Lemma string_app_inj (s t u v : string) : String.length s = String.length t ->
  (s ++ u)%string = (t ++ v)%string -> s = t /\ u = v.
Proof.
  revert t. induction s as [|c s IH]; intros [|d t]; cbn; try done.
  intros [= Hl] [= -> H]. destruct (IH t Hl H) as [-> ->]. done.
Qed.

Lemma hex_digits_length n v : String.length (hex_digits n v) = n.
Proof. induction n; cbn; auto. Qed.

Lemma make_lease_id_inj h1 l1 h2 l2 : i32 h1 -> i32 h2 -> u32 l1 -> u32 l2 ->
  make_lease_id h1 l1 = make_lease_id h2 l2 -> h1 = h2 /\ l1 = l2.
Proof.
  unfold i32, u32. intros Hh1 Hh2 Hl1 Hl2 H. unfold make_lease_id in H.
  apply string_app_inj in H as [_ H]; [|done].
  apply string_app_inj in H as [Hh H]; [|by rewrite !hex_digits_length].
  apply string_app_inj in H as [_ Hl]; [|done].
  pose proof (wrap32_range h1). pose proof (wrap32_range h2). unfold u32 in *.
  change (16 ^ Z.of_nat 8) with 4294967296 in *.
  apply hex_digits_inj in Hh; [|change (16 ^ Z.of_nat 8) with 4294967296; lia..].
  apply hex_digits_inj in Hl; [|change (16 ^ Z.of_nat 8) with 4294967296; lia..].
  split; [|done]. unfold wrap32 in Hh.
  pose proof (Z.div_mod h1 4294967296). pose proof (Z.div_mod h2 4294967296).
  pose proof (Z.mod_pos_bound h1 4294967296). pose proof (Z.mod_pos_bound h2 4294967296). lia.
Qed.

(** ** The process: a registry and the lease objects alive in it *)

Record LeaseProcess := mkLeaseProcess {
  lp_registry : Registry;
  lp_leases : list ExclusiveGpuLease;
  lp_quarantined : gset string;  (** names given up by [quarantine_for_process_lifetime] *)
}.

Definition initial_LeaseProcess : LeaseProcess := mkLeaseProcess ∅ [] ∅.

Inductive LeaseOp :=
| LeaseAcquire (outcome : NativeLeaseOutcome) (high low : Z)
| LeaseRelease (k : nat)
| LeaseQuarantine (k : nat)
| LeaseMove (k : nat).

Definition lease_step (p : LeaseProcess) (op : LeaseOp) : LeaseProcess :=
  match op with
  | LeaseAcquire outcome high low =>
      let (result, registry) := acquire_exclusive_gpu_lease outcome high low (lp_registry p) in
      {| p with lp_registry := registry; lp_leases := lp_leases p ++ option_list (lar_lease result) |}
  | LeaseRelease k =>
      match lp_leases p !! k with
      | Some lease =>
          let (lease', registry) := release lease (lp_registry p) in
          {| p with lp_registry := registry; lp_leases := <[k := lease']> (lp_leases p) |}
      | None => p
      end
  | LeaseQuarantine k =>
      match lp_leases p !! k with
      | Some lease =>
          {| p with lp_leases := <[k := quarantine_for_process_lifetime lease]> (lp_leases p);
                    lp_quarantined := if lease_active lease then {[lease_id lease]} ∪ lp_quarantined p
                                      else lp_quarantined p |}
      | None => p
      end
  | LeaseMove k =>
      match lp_leases p !! k with
      | Some lease =>
          let (target, source) := move_lease lease in
          {| p with lp_leases := <[k := source]> (lp_leases p) ++ [target] |}
      | None => p
      end
  end.

Definition lease_run (p : LeaseProcess) (ops : list LeaseOp) : LeaseProcess := fold_left lease_step ops p.

Definition active_ids (ls : list ExclusiveGpuLease) : list string := lease_id <$> filter lease_active ls.
Arguments active_ids : simpl never.

(** The registry is exactly the active names and the quarantined ones, and
    these are all distinct. *)
Record lease_inv (p : LeaseProcess) : Prop := {
  li_once : NoDup (active_ids (lp_leases p));
  li_registered : forall id, id ∈ lp_registry p <-> id ∈ active_ids (lp_leases p) \/ id ∈ lp_quarantined p;
  li_disjoint : forall id, id ∈ active_ids (lp_leases p) -> id ∉ lp_quarantined p;
}.

Lemma active_ids_app l1 l2 : active_ids (l1 ++ l2) = active_ids l1 ++ active_ids l2.
Proof. unfold active_ids. by rewrite filter_app, fmap_app. Qed.

Lemma active_ids_insert ls k l l' : ls !! k = Some l ->
  exists before after, active_ids ls = before ++ active_ids [l] ++ after /\
    active_ids (<[k := l']> ls) = before ++ active_ids [l'] ++ after.
Proof.
  intros Hk. exists (active_ids (take k ls)), (active_ids (drop (S k) ls)).
  rewrite <- !active_ids_app. cbn [app]. split.
  - by rewrite (take_drop_middle ls k l Hk).
  - f_equal. rewrite insert_take_drop by (by eapply lookup_lt_Some). done.
Qed.

Lemma active_ids_one l : active_ids [l] = if lease_active l then [lease_id l] else [].
Proof.
  unfold active_ids. destruct (lease_active l) eqn:Ha.
  - rewrite filter_cons_True by (by rewrite Ha). done.
  - rewrite filter_cons_False by (rewrite Ha; by intros []). done.
Qed.

(** Deactivating the lease at [k] removes its name from the active ones. *)
Lemma active_ids_deactivate ls k l l' : ls !! k = Some l -> lease_active l = true ->
  lease_active l' = false -> active_ids ls ≡ₚ lease_id l :: active_ids (<[k := l']> ls).
Proof.
  intros Hk Ha Hi. destruct (active_ids_insert ls k l l' Hk) as (l1 & l2 & -> & ->).
  rewrite !active_ids_one, Ha, Hi.
  cbn [app]. by rewrite Permutation_middle.
Qed.

Lemma active_ids_inactive ls k l l' : ls !! k = Some l -> lease_active l = false ->
  lease_active l' = false -> active_ids (<[k := l']> ls) = active_ids ls.
Proof.
  intros Hk Ha Hi. destruct (active_ids_insert ls k l l' Hk) as (l1 & l2 & -> & ->).
  by rewrite !active_ids_one, Ha, Hi.
Qed.

Lemma lease_acquire_inv p outcome high low : lease_inv p -> lease_inv (lease_step p (LeaseAcquire outcome high low)).
Proof.
  intros [Honce Hreg Hdis]. cbn. unfold acquire_exclusive_gpu_lease.
  destruct (_ && _); [cbn; rewrite app_nil_r; by destruct p|].
  set (id := make_lease_id high low). case_bool_decide as Hin; [cbn; rewrite app_nil_r; by destruct p|].
  assert ((({[id]} ∪ lp_registry p) ∖ {[id]}) = lp_registry p) as Hback by set_solver.
  destruct outcome; cbn; rewrite ?app_nil_r, ?Hback; [|by destruct p..].
  split; cbn; rewrite ?active_ids_app, ?active_ids_one; cbn [lease_active lease_id].
  - apply NoDup_app. split_and!; [done| |apply NoDup_singleton].
    intros x Hx ->%list_elem_of_singleton. apply Hin, Hreg. by left.
  - intros x. rewrite elem_of_union, elem_of_singleton, Hreg, elem_of_app, list_elem_of_singleton. tauto.
  - intros x [Hx|Hx%list_elem_of_singleton]%elem_of_app; [by apply Hdis|]. subst x.
    intros Hq. apply Hin, Hreg. by right.
Qed.

Lemma lease_release_inv p k : lease_inv p -> lease_inv (lease_step p (LeaseRelease k)).
Proof.
  intros Hinv. cbn. destruct (lp_leases p !! k) as [l|] eqn:Hk; [|done].
  unfold release. destruct (lease_active l) eqn:Ha; cbn.
  2: { rewrite list_insert_id by done. by destruct p. }
  destruct Hinv as [Honce Hreg Hdis].
  pose proof (active_ids_deactivate _ _ _ {| l with lease_active := false |} Hk Ha eq_refl) as Hperm.
  rewrite Hperm in Honce. apply NoDup_cons in Honce as [Hfresh Honce].
  split; cbn; [done| |].
  - intros x. rewrite elem_of_difference, elem_of_singleton, Hreg, Hperm, elem_of_cons.
    split; [naive_solver|]. intros [Hx|Hx].
    + split; [tauto|]. by intros ->.
    + split; [tauto|]. intros ->. apply (Hdis (lease_id l)); [|done]. rewrite Hperm. by left.
  - intros x Hx. apply Hdis. rewrite Hperm. by right.
Qed.

Lemma lease_quarantine_inv p k : lease_inv p -> lease_inv (lease_step p (LeaseQuarantine k)).
Proof.
  intros Hinv. cbn. destruct (lp_leases p !! k) as [l|] eqn:Hk; [|done].
  unfold quarantine_for_process_lifetime. destruct (lease_active l) eqn:Ha.
  - destruct Hinv as [Honce Hreg Hdis].
    pose proof (active_ids_deactivate _ _ _ {| l with lease_active := false |} Hk Ha eq_refl) as Hperm.
    rewrite Hperm in Honce. apply NoDup_cons in Honce as [Hfresh Honce].
    split; cbn; [done| |].
    + intros x. rewrite Hreg, Hperm, elem_of_cons, elem_of_union, elem_of_singleton. tauto.
    + intros x Hx. rewrite elem_of_union, elem_of_singleton.
      intros [->|Hq]; [done|]. apply (Hdis x); [|done]. rewrite Hperm. by right.
  - destruct Hinv as [Honce Hreg Hdis].
    split; cbn; rewrite (active_ids_inactive _ _ l) by done; done.
Qed.

Lemma lease_move_inv p k : lease_inv p -> lease_inv (lease_step p (LeaseMove k)).
Proof.
  intros Hinv. cbn. destruct (lp_leases p !! k) as [l|] eqn:Hk; [|done].
  destruct Hinv as [Honce Hreg Hdis].
  assert (active_ids (<[k := mkLease 0 0 "" false]> (lp_leases p) ++ [l]) ≡ₚ active_ids (lp_leases p)) as Hperm.
  { rewrite active_ids_app, active_ids_one. destruct (lease_active l) eqn:Ha.
    - rewrite (active_ids_deactivate _ _ _ (mkLease 0 0 "" false) Hk Ha eq_refl).
      apply Permutation_sym, Permutation_cons_append.
    - by rewrite app_nil_r, (active_ids_inactive _ _ l). }
  split; cbn; [by rewrite Hperm| |].
  - intros x. by rewrite Hreg, Hperm.
  - intros x. rewrite Hperm. apply Hdis.
Qed.

Lemma lease_run_inv ops p : lease_inv p -> lease_inv (lease_run p ops).
Proof.
  revert p. induction ops as [|op ops IH]; intros p Hp; [done|]. apply IH.
  destruct op; eauto using lease_acquire_inv, lease_release_inv, lease_quarantine_inv, lease_move_inv.
Qed.

Lemma initial_lease_inv : lease_inv initial_LeaseProcess.
Proof.
  split; cbn; [apply NoDup_nil_2| |]; intros; rewrite ?elem_of_nil; set_solver.
Qed.

(** Quarantined names only accumulate. *)
Lemma quarantine_grows ops p id : id ∈ lp_quarantined p -> id ∈ lp_quarantined (lease_run p ops).
Proof.
  revert p. induction ops as [|op ops IH]; intros p Hp; [done|]. apply IH.
  destruct op; cbn; [destruct (acquire_exclusive_gpu_lease _ _ _ _)|..];
    repeat case_match; cbn; set_solver.
Qed.

(** An active lease has the name of its adapter. *)
Definition named (l : ExclusiveGpuLease) : Prop :=
  lease_active l = true -> lease_id l = make_lease_id (lease_adapter_luid_high l) (lease_adapter_luid_low l).

Lemma lease_run_named ops p : Forall named (lp_leases p) -> Forall named (lp_leases (lease_run p ops)).
Proof.
  revert p. induction ops as [|op ops IH]; intros p Hp; [done|]. apply IH. destruct op as [outcome high low|k|k|k]; cbn.
  - unfold acquire_exclusive_gpu_lease. destruct (_ && _); [cbn; by rewrite app_nil_r|].
    case_bool_decide; [cbn; by rewrite app_nil_r|]. destruct outcome; cbn; rewrite ?app_nil_r; try done.
    apply Forall_app. split; [done|]. by apply Forall_singleton.
  - destruct (lp_leases p !! k) as [l|] eqn:Hk; [|done]. unfold release. destruct (lease_active l) eqn:Ha; cbn.
    + by apply Forall_insert.
    + by rewrite list_insert_id.
  - destruct (lp_leases p !! k) as [l|] eqn:Hk; [|done]. cbn. by apply Forall_insert.
  - destruct (lp_leases p !! k) as [l|] eqn:Hk; [|done]. cbn. apply Forall_app. split; [by apply Forall_insert|].
    apply Forall_singleton. by apply (Forall_lookup_1 _ _ _ _ Hp Hk).
Qed.

(** Distinct positions in a list of distinct active names. *)
Lemma active_once ls i j li lj :
  NoDup (active_ids ls) -> ls !! i = Some li -> ls !! j = Some lj ->
  lease_active li = true -> lease_active lj = true -> lease_id li = lease_id lj -> i = j.
Proof.
  intros Hnd Hi Hj Hai Haj Hid. destruct (decide (i = j)) as [|Hne]; [done|]. exfalso.
  pose (off := mkLease 0 0 "" false).
  pose proof (active_ids_deactivate ls i li off Hi Hai eq_refl) as Hp.
  assert (Hj' : <[i := off]> ls !! j = Some lj) by (by rewrite list_lookup_insert_ne).
  pose proof (active_ids_deactivate _ j lj off Hj' Haj eq_refl) as Hp'. rewrite Hp' in Hp. rewrite Hp in Hnd.
  apply NoDup_cons in Hnd as [Hin _]. apply Hin. rewrite Hid. by left.
Qed.

(** C38. The lease is exclusive and quarantine is permanent.  Whatever the
    sequence of acquisitions (with any answers of the operating system), releases,
    moves and quarantines in a supervisor process, no two of the active leases are
    for the same adapter; and once an active lease of an adapter is quarantined,
    every acquisition of that adapter, after whatever else happens, is refused
    without asking the system. *)
Theorem lease_exclusive_and_quarantine_permanent ops :
  let p := lease_run initial_LeaseProcess ops in
  (forall i j li lj, lp_leases p !! i = Some li -> lp_leases p !! j = Some lj ->
     lease_active li = true -> lease_active lj = true ->
     lease_adapter_luid_high li = lease_adapter_luid_high lj ->
     lease_adapter_luid_low li = lease_adapter_luid_low lj -> i = j) /\
  (forall k l, lp_leases p !! k = Some l -> lease_active l = true ->
     forall after outcome, let p' := lease_run (lease_step p (LeaseQuarantine k)) after in
     let high := lease_adapter_luid_high l in let low := lease_adapter_luid_low l in
     high <> 0 \/ low <> 0 ->
     acquire_exclusive_gpu_lease outcome high low (lp_registry p') =
       (mkLeaseResult AlreadyHeldInProcess None 0, lp_registry p')).
Proof.
  intros p. assert (Hinv : lease_inv p) by apply lease_run_inv, initial_lease_inv.
  assert (Hnamed : Forall named (lp_leases p)) by (by apply lease_run_named). split.
  - intros i j li lj Hi Hj Hai Haj Hh Hl. apply (active_once (lp_leases p) i j li lj); [apply Hinv|done..|].
    rewrite (Forall_lookup_1 _ _ _ _ Hnamed Hi Hai), (Forall_lookup_1 _ _ _ _ Hnamed Hj Haj). congruence.
  - intros k l Hk Ha after outcome p' high low Hne. pose proof (Forall_lookup_1 _ _ _ _ Hnamed Hk Ha) as Hid.
    assert (lease_inv p') as [_ Hreg _] by (by apply lease_run_inv, lease_quarantine_inv).
    unfold acquire_exclusive_gpu_lease.
    assert ((high =? 0) && (low =? 0) = false) as -> by (rewrite andb_false_iff, !Z.eqb_neq; lia).
    rewrite bool_decide_true; [done|]. apply Hreg. right. apply quarantine_grows. cbn. rewrite Hk, Ha, Hid.
    cbn. set_solver.
Qed.

(** Distinct adapters have distinct lease names: the formatted name
    determines the signed high and the unsigned low half of the LUID. *)
Theorem lease_name_identifies_adapter h1 l1 h2 l2 : i32 h1 -> i32 h2 -> u32 l1 -> u32 l2 ->
  make_lease_id h1 l1 = make_lease_id h2 l2 -> h1 = h2 /\ l1 = l2.
Proof. apply make_lease_id_inj. Qed.

Lemma lease_exclusive_and_quarantine_permanent_witness :
  let p' := lease_run (lease_step (lease_run initial_LeaseProcess [LeaseAcquire NativeAcquired (-1) 4660])
              (LeaseQuarantine 0)) [LeaseAcquire NativeAcquired 0 7; LeaseRelease 0] in
  acquire_exclusive_gpu_lease NativeAcquired (-1) 4660 (lp_registry p')
    = (mkLeaseResult AlreadyHeldInProcess None 0, lp_registry p').
Proof.
  apply (proj2 (lease_exclusive_and_quarantine_permanent [LeaseAcquire NativeAcquired (-1) 4660]) 0%nat
    (mkLease (-1) 4660 "prisminfer-gpu-ffffffff-00001234" true)
    ltac:(vm_compute; reflexivity) eq_refl [LeaseAcquire NativeAcquired 0 7; LeaseRelease 0] NativeAcquired).
  left. cbn. lia.
Defined.

Lemma lease_name_identifies_adapter_witness :
  make_lease_id (-1) 4660 = "prisminfer-gpu-ffffffff-00001234"%string /\ (-1 = -1 /\ 4660 = 4660).
Proof.
  split; [vm_compute; reflexivity|].
  apply (lease_name_identifies_adapter (-1) 4660 (-1) 4660); unfold i32, u32; lia || reflexivity.
Defined.

End GpuLease.
