(* ===== verification/NativeWorker.v ===== *)
(** * The contained worker: shared types and the supervisor interface

    [include/prisminfer/native_worker.h]: what the runner is asked to launch,
    what it reports, and [NativeWorkerProtocolSupervisor], the interface
    through which the runner asks an authority for every decision. *)

From S2P Require Import Prelude.
From Stdlib Require Import Ascii String.

Module NativeWorker.

(** A wide string, and a path in its native form: UTF-16 code units. *)
Definition WideString : Type := list Z.

Record NativeWorkerExecutableApproval := mkExecutableApproval {
  nea_executable_path : WideString;
  nea_trusted_executable_root : WideString;
  nea_expected_executable_sha256 : string;
  nea_approval_identity : string;
}.

(** [NativeWorkerTrustCatalog]: the approvals, fixed at construction. *)
Definition NativeWorkerTrustCatalog : Type := list NativeWorkerExecutableApproval.

Record ApprovedReadOnlyInput := mkApprovedInput {
  ari_path : WideString;
  ari_trusted_root : WideString;
  ari_expected_sha256 : string;
  ari_approval_identity : string;
}.

Record NativeWorkerRequest := mkWorkerRequest {
  nwq_executable_path : WideString;
  nwq_arguments : list WideString;
  nwq_timeout_ms : Z;
  nwq_max_output_bytes : Z;
  nwq_max_active_processes : Z;
  nwq_max_job_memory_bytes : Z;
  nwq_simulate_termination_api_failure : bool;
  nwq_require_gpu_protocol_evidence : bool;
  nwq_expected_post_admission_payload_bytes : Z;
  nwq_maximum_post_admission_payload_bytes : Z;
  nwq_approved_read_only_inputs : list ApprovedReadOnlyInput;
}.

Definition default_NativeWorkerRequest : NativeWorkerRequest :=
  mkWorkerRequest [] [] 0 1048576 1 8589934592 false false 0 67108864 [].

Record NativeWorkerContextEvidence := mkContextEvidence {
  nce_available : bool;
  nce_adapter_luid_high : Z;
  nce_adapter_luid_low : Z;
  nce_cuda_mem_info_free_bytes : Z;
  nce_cuda_mem_info_total_bytes : Z;
}.

Definition default_NativeWorkerContextEvidence : NativeWorkerContextEvidence :=
  mkContextEvidence false 0 0 0 0.

Record NativeWorkerHeartbeatEvidence := mkHeartbeatEvidence {
  nhe_available : bool;
  nhe_post_admission_payload_bytes : Z;
  nhe_cuda_mem_info_free_bytes : Z;
  nhe_cuda_mem_info_total_bytes : Z;
}.

Definition default_NativeWorkerHeartbeatEvidence : NativeWorkerHeartbeatEvidence :=
  mkHeartbeatEvidence false 0 0 0.

Record NativeWorkerResult := mkWorkerResult {
  nwr_ok : bool;
  nwr_evidence_available : bool;
  nwr_failure_reason : string;
  nwr_output_path : string;
  nwr_captured_output : list ascii;
  nwr_exit_code : Z;
  nwr_timed_out : bool;
  nwr_worker_exit_observed : bool;
  nwr_job_tree_empty : bool;
  nwr_job_accounting_reconciled : bool;
  nwr_per_process_memory_reconciled : bool;
  nwr_artifact_handles_closed : bool;
  nwr_temporary_files_reconciled : bool;
  nwr_root_process_id : Z;
  nwr_job_identity : string;
  nwr_job_total_processes : Z;
  nwr_job_peak_active_processes : Z;
  nwr_job_total_terminated_processes : Z;
  nwr_root_peak_working_set_bytes : Z;
  nwr_root_peak_private_commit_bytes : Z;
  nwr_tree_peak_working_set_bytes : Z;
  nwr_tree_peak_private_commit_bytes : Z;
  nwr_tree_sample_interval_milliseconds : Z;
  nwr_read_bytes : Z;
  nwr_write_bytes : Z;
  nwr_output_bytes : Z;
  nwr_output_limit_bytes : Z;
  nwr_job_memory_limit_bytes : Z;
  nwr_job_cpu_time_limit_milliseconds : Z;
  nwr_executable_sha256 : string;
  nwr_approval_identity : string;
  nwr_context_evidence : NativeWorkerContextEvidence;
  nwr_last_heartbeat_evidence : NativeWorkerHeartbeatEvidence;
  nwr_token_consumed_observed : bool;
  nwr_heartbeat_sequence : Z;
}.

Definition default_NativeWorkerResult : NativeWorkerResult :=
  mkWorkerResult false false "" "" [] 0 false false false false false false false
    0 "" 0 0 0 0 0 0 0 0 0 0 0 0 0 0 "" ""
    default_NativeWorkerContextEvidence default_NativeWorkerHeartbeatEvidence false 0.

Record NativeWorkerContainmentIdentity := mkContainment {
  nwc_root_process_id : Z;
  nwc_job_identity : string;
  nwc_executable_identity : string;
  nwc_maximum_active_processes : Z;
  nwc_job_memory_limit_bytes : Z;
  nwc_job_cpu_time_limit_milliseconds : Z;
}.

Record NativeWorkerAdmissionGrant := mkAdmissionGrant {
  nag_admitted : bool;
  nag_token_id : Z;
  nag_effective_cap_bytes : Z;
  nag_expires_monotonic_milliseconds : Z;
  nag_failure_reason : string;
}.

Record NativeWorkerProtocolPolicy := mkProtocolPolicy {
  npp_context_ready_timeout_ms : Z;
  npp_heartbeat_timeout_ms : Z;
  npp_cooperative_cancel_ack_timeout_ms : Z;
  npp_worker_exit_timeout_ms : Z;
}.

Definition default_NativeWorkerProtocolPolicy : NativeWorkerProtocolPolicy :=
  mkProtocolPolicy 2000 500 500 2000.

(** [NativeWorkerProtocolSupervisor], the authority the runner calls.  [S] is
    the authority's state; [E] is what the outside world contributes to one
    call that gathers live evidence. *)
Class ProtocolSupervisor (E S : Type) := {
  sup_bind_owned_worker : NativeWorkerContainmentIdentity -> S -> bool * S;
  sup_context_ready_with_evidence :
    E -> Z -> NativeWorkerContextEvidence -> S -> NativeWorkerAdmissionGrant * S;
  sup_token_consumed : Z -> Z -> S -> bool * S;
  sup_heartbeat_with_evidence : E -> Z -> Z -> NativeWorkerHeartbeatEvidence -> S -> bool * S;
  sup_cooperative_cancel_requested : string -> Z -> S -> S;
  sup_cooperative_cancel_acknowledged : Z -> S -> S;
}.

End NativeWorker.
