(* ===== verification/AdmissionSession.v ===== *)
(** * The GPU admission session

    [src/governor/gpu_admission_session.cpp]: the state machine that owns one
    adapter lease, takes both admission stages, delivers one token to one
    contained worker, watches it, cancels it and cleans up.

    A session operation runs under the session mutex, so each definition here
    is one atomic step of the state; the protocol callbacks that take the
    mutex several times are compositions of such steps.  Process-wide state
    (the lease registry and the receipt store) is part of the record. *)

From S2P Require Import Prelude.
From S2P Require Import CheckedArithmetic.
From S2P Require Import MemoryCap.
From S2P Require Import HostAdmission.
From S2P Require Import GpuTelemetry.
From S2P Require Import SupervisorAdmission.
From S2P Require Import PreAdmission.
From S2P Require Import PostAdmission.
From S2P Require Import AdmissionToken.
From S2P Require Import Watchdog.
From S2P Require Import GpuLease.
From S2P Require Import NativeWorker.
Import HostAdmission GpuTelemetry SupervisorAdmission PreAdmission PostAdmission AdmissionTokens Watchdog NativeWorker.
From Stdlib Require Import Ascii String.

Module AdmissionSession.

(** ** Data *)

Inductive GpuAdmissionSessionState :=
| LeaseHeld | PreContextAdmitted | WorkerContained | PostContextAdmitted | TokenIssued
| TokenConsumed | WatchdogActive | CancelRequested | CooperativeCancelAcknowledged
| JobAbortRequired | WorkerExited | CleanupStarted | FailedClosed | Cleaned | Quarantined.

#[export] Instance session_state_eq_dec : EqDecision GpuAdmissionSessionState.
Proof. solve_decision. Defined.

Inductive CancellationAction := AwaitCooperativeExit | AbortJob | BeginCleanup | Quarantine.

Record CancellationDecision := mkCancellation {
  cd_action : CancellationAction;
  cd_state : GpuAdmissionSessionState;
}.

Record SupervisorCleanupEvidence := mkCleanupEvidence {
  sce_worker_exit_observed : bool;
  sce_job_tree_empty : bool;
  sce_job_accounting_reconciled : bool;
  sce_device_resources_reconciled : bool;
  sce_artifact_handles_closed : bool;
  sce_temporary_files_reconciled : bool;
  sce_terminal_reason : string;
  sce_last_good_sample_sha256 : string;
  sce_evidence_bundle_sha256 : string;
}.

Record DeviceCleanupEvidence := mkDeviceCleanup {
  dce_device_resources_reconciled : bool;
  dce_terminal_reason : string;
  dce_last_good_sample_sha256 : string;
  dce_evidence_bundle_sha256 : string;
}.

Definition no_grant (reason : string) : NativeWorkerAdmissionGrant := mkAdmissionGrant false 0 0 0 reason.

Definition rejected_result (reason : string) : NativeWorkerResult :=
  {| default_NativeWorkerResult with nwr_failure_reason := reason |}.

(** [GpuAdmissionSession::Impl] with the process-wide state. *)
Record Session := mkSession {
  ss_cell : AdmissionCellIdentity;
  ss_adapter_luid_high : Z;
  ss_adapter_luid_low : Z;
  ss_lease : option GpuLease.ExclusiveGpuLease;
  ss_state : GpuAdmissionSessionState;
  ss_pre_receipt : option PreContextAdmissionReceipt;
  ss_post_receipt : option PostContextAdmissionReceipt;
  ss_worker : option NativeWorkerContainmentIdentity;
  ss_pending_token : option AdmissionToken;
  ss_owned_worker_exit_observed : bool;
  ss_owned_job_tree_empty : bool;
  ss_owned_job_accounting_reconciled : bool;
  ss_owned_artifact_handles_closed : bool;
  ss_owned_temporary_files_reconciled : bool;
  ss_cancel_requested_monotonic_milliseconds : Z;
  ss_cleanup_started_monotonic_milliseconds : Z;
  ss_terminal_evidence : option SupervisorCleanupEvidence;
  ss_token_issuer : AdmissionTokenIssuer;
  ss_registry : GpuLease.Registry;
  ss_store : ReceiptStore;
}.

Definition in_state (s : Session) (st : GpuAdmissionSessionState) : bool := bool_decide (ss_state s = st).

Definition enter (st : GpuAdmissionSessionState) (s : Session) : Session := {| s with ss_state := st |}.

Definition has {A} (o : option A) : bool := match o with Some _ => true | None => false end.

Definition is_sha256 (value : string) : bool :=
  Nat.eqb (String.length value) 64 && all_chars is_lower_hex value.

(** ** Lease effects on the session *)

(** [impl_->lease->quarantine_for_process_lifetime()] when a lease is held. *)
Definition quarantine_lease (s : Session) : Session :=
  {| s with ss_lease := GpuLease.quarantine_for_process_lifetime <$> ss_lease s |}.

(** [impl_->lease.reset()], which runs the lease's destructor. *)
Definition reset_lease (s : Session) : Session :=
  match ss_lease s with
  | None => s
  | Some lease => {| s with ss_lease := None;
                            ss_registry := (GpuLease.release lease (ss_registry s)).2 |}
  end.

(** [~GpuAdmissionSession], then the destructors of the members. *)
Definition destroy (s : Session) : Session :=
  if has (ss_lease s) && negb (in_state s Cleaned) then reset_lease (quarantine_lease s)
  else reset_lease s.

(** ** Operations *)

Inductive SessionAcquireStatus := SessionAcquired | SessionInvalidCellIdentity | SessionLeaseUnavailable.

(** [acquire_gpu_admission_session]; the token issuer takes its number from
    the process-wide issuer sequence.  [allocated] is false when the session object
    cannot be allocated ([std::bad_alloc]), which releases the lease again. *)
Definition acquire_gpu_admission_session (outcome : GpuLease.NativeLeaseOutcome) (allocated : bool)
    (cell : AdmissionCellIdentity) (high low issuer_id : Z) (registry : GpuLease.Registry)
    (store : ReceiptStore) : SessionAcquireStatus * option Session * GpuLease.Registry :=
  if negb (admission_cell_identity_valid cell) then (SessionInvalidCellIdentity, None, registry)
  else
  let (acquired, registry') := GpuLease.acquire_exclusive_gpu_lease outcome high low registry in
  match GpuLease.lar_status acquired, GpuLease.lar_lease acquired with
  | GpuLease.Acquired, Some lease =>
      if negb allocated then (SessionLeaseUnavailable, None, (GpuLease.release lease registry').2)
      else
      (SessionAcquired,
       Some (mkSession cell high low (Some lease) LeaseHeld None None None None
               false false false false false 0 0 None (new_issuer issuer_id) registry' store),
       registry')
  | _, _ => (SessionLeaseUnavailable, None, registry')
  end.

Definition bind_owned_worker (evidence : NativeWorkerContainmentIdentity) (s : Session) : bool * Session :=
  let valid :=
    in_state s PreContextAdmitted && (nwc_root_process_id evidence <>z 0) &&
    (nwc_maximum_active_processes evidence <>z 0) && (nwc_job_memory_limit_bytes evidence <>z 0) &&
    (nwc_job_cpu_time_limit_milliseconds evidence <>z 0) &&
    negb (str_empty (nwc_job_identity evidence)) && negb (str_empty (nwc_executable_identity evidence)) in
  if negb valid then (false, enter FailedClosed s)
  else (true, {| s with ss_worker := Some evidence; ss_state := WorkerContained |}).

Definition admit_pre_context (request : PreContextAdmissionRequest) (s : Session)
    : PreContextAdmissionDecision * Session :=
  let rejected := {| default_PreContextAdmissionDecision with
    pad_reason := "supervisor_pre_context_state_or_identity_mismatch" |} in
  if negb (in_state s LeaseHeld) || negb (cell_eqb (prq_cell request) (ss_cell s)) ||
     (pcg_adapter_luid_high (prq_gpu request) <>z ss_adapter_luid_high s) ||
     (pcg_adapter_luid_low (prq_gpu request) <>z ss_adapter_luid_low s) then
    (rejected, enter FailedClosed s)
  else
  let held := match ss_lease s with Some lease => GpuLease.lease_active lease | None => false end in
  let decision := evaluate_pre_context_admission {| request with prq_exclusive_gpu_lease_held := held |} in
  if negb (pad_admitted decision) || negb (has (pad_receipt decision)) then
    (decision, enter FailedClosed s)
  else
    (decision, {| s with ss_pre_receipt := pad_receipt decision; ss_state := PreContextAdmitted |}).

Definition admit_post_context (request : PostContextAdmissionRequest) (s : Session)
    : PostContextAdmissionDecision * Session :=
  let rejected := {| default_PostContextAdmissionDecision with
    pod_reason := "supervisor_post_context_state_or_identity_mismatch" |} in
  match in_state s WorkerContained, ss_worker s, ss_pre_receipt s with
  | true, Some worker, Some pre =>
      if negb (cell_eqb (poq_cell request) (ss_cell s)) ||
         (og_process_id (poq_owned_gpu request) <>z nwc_root_process_id worker) ||
         (pcg_adapter_luid_high (poq_gpu request) <>z ss_adapter_luid_high s) ||
         (pcg_adapter_luid_low (poq_gpu request) <>z ss_adapter_luid_low s) then
        (rejected, enter FailedClosed s)
      else
      let (decision, store) :=
        evaluate_post_context_admission {| request with poq_pre_context_receipt := Some pre |} (ss_store s) in
      let s := {| s with ss_store := store |} in
      if negb (pod_admitted decision) || negb (has (pod_receipt decision)) then
        (decision, enter FailedClosed s)
      else
        (decision, {| s with ss_post_receipt := pod_receipt decision; ss_state := PostContextAdmitted |})
  | _, _, _ => (rejected, enter FailedClosed s)
  end.

Definition worker_identity (worker : NativeWorkerContainmentIdentity) : AdmissionWorkerIdentity :=
  mkWorker (nwc_root_process_id worker) (nwc_job_identity worker) (nwc_executable_identity worker).

(** [issue_token] dereferences [impl_->worker] without a test; the model gives
    the empty optional its own outcome, [None]. *)
Definition issue_token (now validity : Z) (s : Session)
    : option ((AdmissionTokenStatus * option AdmissionToken) * Session) :=
  match in_state s PostContextAdmitted, ss_post_receipt s with
  | true, Some receipt =>
      match ss_worker s with
      | None => None
      | Some worker =>
          let issued := issue (ss_token_issuer s) (ss_store s) receipt (ss_cell s)
                          (worker_identity worker) now validity in
          let s := {| s with ss_token_issuer := ir_issuer issued; ss_store := ir_store issued |} in
          if negb (bool_decide (ir_status issued = Issued)) || negb (has (ir_token issued)) then
            Some ((ir_status issued, ir_token issued), enter FailedClosed s)
          else Some ((ir_status issued, ir_token issued), enter TokenIssued s)
      end
  | _, _ => Some ((SupervisorStateInvalid, None), enter FailedClosed s)
  end.

Definition consume_token (token : AdmissionToken) (now : Z) (s : Session)
    : (AdmissionTokenStatus * Z) * Session :=
  match in_state s TokenIssued, ss_worker s with
  | true, Some worker =>
      let '(result, _) := consume (ss_token_issuer s) token (ss_cell s) (worker_identity worker) now in
      if negb (bool_decide (result.1 = Consumed)) then (result, enter FailedClosed s)
      else (result, enter TokenConsumed s)
  | _, _ => ((SupervisorStateInvalid, 0), enter FailedClosed s)
  end.

Definition evaluate_watchdog (sample : SupervisorWatchdogSample) (s : Session)
    : SupervisorWatchdogDecision * Session :=
  match in_state s TokenConsumed || in_state s WatchdogActive, ss_post_receipt s, ss_worker s with
  | true, Some receipt, Some worker =>
      if og_process_id (sws_owned_gpu sample) <>z nwc_root_process_id worker then
        (default_SupervisorWatchdogDecision, enter FailedClosed s)
      else
      let decision := evaluate_supervisor_watchdog receipt sample in
      if swd_continue_work decision then (decision, enter WatchdogActive s)
      else (decision, {| s with
              ss_state := CancelRequested;
              ss_cancel_requested_monotonic_milliseconds :=
                sws_evaluated_monotonic_milliseconds sample |})
  | _, _, _ => (default_SupervisorWatchdogDecision, enter FailedClosed s)
  end.

(** ** Cancellation and cleanup *)

Definition advance_cancellation (now : Z) (acknowledged worker_exited job_tree_empty : bool) (s : Session)
    : CancellationDecision * Session :=
  let cancel_at := ss_cancel_requested_monotonic_milliseconds s in
  let finish action st := (mkCancellation action st, enter st s) in
  match in_state s CancelRequested || in_state s CooperativeCancelAcknowledged, ss_post_receipt s with
  | true, Some receipt =>
      if now <? cancel_at then finish Quarantine Quarantined
      else
      let elapsed := now -64 cancel_at in
      let timing := por_timing receipt in
      if stp_worker_exit_milliseconds timing <? elapsed then finish AbortJob JobAbortRequired
      else if worker_exited then
        if negb job_tree_empty then finish AbortJob JobAbortRequired else finish BeginCleanup WorkerExited
      else if elapsed =? stp_worker_exit_milliseconds timing then finish AbortJob JobAbortRequired
      else if acknowledged && (elapsed <=? stp_cooperative_cancel_ack_milliseconds timing) then
        finish AwaitCooperativeExit CooperativeCancelAcknowledged
      else if negb (in_state s CooperativeCancelAcknowledged) &&
              (stp_cooperative_cancel_ack_milliseconds timing <=? elapsed) then
        finish AbortJob JobAbortRequired
      else finish AwaitCooperativeExit (ss_state s)
  | _, _ => finish Quarantine Quarantined
  end.

Definition record_job_abort (now : Z) (job_tree_empty : bool) (s : Session)
    : CancellationDecision * Session :=
  let cancel_at := ss_cancel_requested_monotonic_milliseconds s in
  let finish action st := (mkCancellation action st, enter st s) in
  match in_state s JobAbortRequired, ss_post_receipt s with
  | true, Some receipt =>
      if now <? cancel_at then finish Quarantine Quarantined
      else if negb job_tree_empty ||
              (stp_cleanup_milliseconds (por_timing receipt) <? now -64 cancel_at) then
        finish Quarantine Quarantined
      else finish BeginCleanup WorkerExited
  | _, _ => finish Quarantine Quarantined
  end.

Definition record_normal_worker_exit (now : Z) (job_tree_empty : bool) (s : Session) : bool * Session :=
  if now =? 0 then (false, s)
  else if negb (in_state s WatchdogActive) || negb (has (ss_post_receipt s)) || negb job_tree_empty then
    (false, quarantine_lease (enter Quarantined s))
  else (true, enter WorkerExited s).

Definition begin_cleanup (now : Z) (s : Session) : bool * Session :=
  if now =? 0 then (false, s)
  else if negb (in_state s WorkerExited) && (negb (in_state s FailedClosed) || has (ss_worker s)) then
    (false, quarantine_lease (enter Quarantined s))
  else (true, {| s with ss_cleanup_started_monotonic_milliseconds := now; ss_state := CleanupStarted |}).

Definition cleanup_deadline_met (now : Z) (s : Session) : bool :=
  match ss_post_receipt s with
  | None => false
  | Some receipt =>
      let bound := stp_cleanup_milliseconds (por_timing receipt) in
      let started := ss_cleanup_started_monotonic_milliseconds s in
      let cancelled := ss_cancel_requested_monotonic_milliseconds s in
      in_state s CleanupStarted && (started <>z 0) && (started <=? now) && (now -64 started <=? bound) &&
      ((cancelled =? 0) || ((cancelled <=? now) && (now -64 cancelled <=? bound)))
  end.

Definition evidence_complete (evidence : SupervisorCleanupEvidence) : bool :=
  sce_worker_exit_observed evidence && sce_job_tree_empty evidence &&
  sce_job_accounting_reconciled evidence && sce_device_resources_reconciled evidence &&
  sce_artifact_handles_closed evidence && sce_temporary_files_reconciled evidence &&
  negb (str_empty (sce_terminal_reason evidence)) &&
  is_sha256 (sce_last_good_sample_sha256 evidence) && is_sha256 (sce_evidence_bundle_sha256 evidence).

Definition cleanup_owned (evidence : SupervisorCleanupEvidence) (now : Z) (s : Session)
    : GpuAdmissionSessionState * Session :=
  if in_state s Cleaned || in_state s Quarantined then (Quarantined, enter Quarantined s)
  else
  let cleaned := evidence_complete evidence && cleanup_deadline_met now s in
  let s := {| s with ss_pre_receipt := None; ss_post_receipt := None; ss_worker := None;
                     ss_terminal_evidence := Some evidence |} in
  let s := if negb cleaned then quarantine_lease s else s in
  let s := reset_lease s in
  let st := if cleaned then Cleaned else Quarantined in
  (st, enter st s).

Definition finalize_cleanup (evidence : DeviceCleanupEvidence) (now : Z) (s : Session)
    : GpuAdmissionSessionState * Session :=
  if now =? 0 then (FailedClosed, s)
  else
  let owned := mkCleanupEvidence (ss_owned_worker_exit_observed s) (ss_owned_job_tree_empty s)
    (ss_owned_job_accounting_reconciled s) (dce_device_resources_reconciled evidence)
    (ss_owned_artifact_handles_closed s) (ss_owned_temporary_files_reconciled s)
    (dce_terminal_reason evidence) (dce_last_good_sample_sha256 evidence)
    (dce_evidence_bundle_sha256 evidence) in
  let (begun, s) := begin_cleanup now s in
  if negb begun then (ss_state s, s) else cleanup_owned owned now s.

(** ** The protocol callbacks of [run_contained_worker]

    What the outside world supplies to one callback: the answer of the
    bounded evidence call ([None] on timeout or exception) and the two clock
    readings taken after it. *)

Record LivePostContextEvidence := mkLivePost {
  lpe_request : PostContextAdmissionRequest;
  lpe_independent : ProcessDeviceMemorySample;
}.

Record LiveWatchdogEvidence := mkLiveWatchdog {
  lwe_sample : SupervisorWatchdogSample;
  lwe_independent : ProcessDeviceMemorySample;
}.

(** The part of the run that is fixed before the worker starts. *)
Record RunContext := mkRunContext {
  rc_request : NativeWorkerRequest;
  rc_heartbeat_timeout_ms : Z;
  rc_token_validity_milliseconds : Z;
}.

Definition context_evidence_rejected (ctx : NativeWorkerContextEvidence)
    (independent : ProcessDeviceMemorySample) (high low : Z) : bool :=
  negb (nce_available ctx) || (nce_adapter_luid_high ctx <>z high) ||
  (nce_adapter_luid_low ctx <>z low) || (pds_current_bytes independent =? 0) ||
  (nce_cuda_mem_info_total_bytes ctx =? 0) ||
  (nce_cuda_mem_info_total_bytes ctx <? nce_cuda_mem_info_free_bytes ctx).

(** The owned evidence rebuilt from the independent measurement and the
    worker's CUDA counters when the protocol requires it. *)
Definition context_owned (owned : OwnedGpuMemoryEvidence) (ctx : NativeWorkerContextEvidence)
    (current hard_cap : Z) : OwnedGpuMemoryEvidence :=
  {| owned with
     og_available := true; og_reconciled := true;
     og_owned_current_bytes := current; og_owned_peak_bytes := current;
     og_cuda_context_runtime_current_bytes := current;
     og_cuda_context_runtime_at_owned_peak_bytes := current;
     og_cuda_mem_info_free_bytes := nce_cuda_mem_info_free_bytes ctx;
     og_cuda_mem_info_total_bytes := nce_cuda_mem_info_total_bytes ctx;
     og_hard_cap_bytes := hard_cap |}.

(** The end of [context_ready_with_evidence]: both admissions and the token. *)
Definition admit_and_issue (rc : RunContext) (request : PostContextAdmissionRequest)
    (evaluated_at admission_at : Z) (s : Session) : NativeWorkerAdmissionGrant * Session :=
  if (admission_at =? 0) || (admission_at <? evaluated_at) then
    (no_grant "monotonic_clock_invalid", enter FailedClosed s)
  else
  let (admitted, s) := admit_post_context
    {| request with poq_evaluation_monotonic_milliseconds := admission_at |} s in
  if negb (pod_admitted admitted) then (no_grant (pod_reason admitted), s)
  else
  match issue_token admission_at (rc_token_validity_milliseconds rc) s with
  | None => (no_grant "token_issue_failed", s)
  | Some ((status, token), s) =>
      match status, token with
      | Issued, Some t =>
          (mkAdmissionGrant true (at_token_id t) (at_effective_cap_bytes t)
             (at_expires_monotonic_milliseconds t) "",
           {| s with ss_pending_token := Some t |})
      | _, _ => (no_grant "token_issue_failed", s)
      end
  end.

Definition context_ready_with_evidence (rc : RunContext) (ctx : NativeWorkerContextEvidence)
    (live : option LivePostContextEvidence) (evaluated_at admission_at : Z) (s : Session)
    : NativeWorkerAdmissionGrant * Session :=
  match ss_worker s with
  | None => (no_grant "", s)
  | Some worker =>
  let process_id := nwc_root_process_id worker in
  match live with
  | None => (no_grant "post_context_evidence_timeout", enter FailedClosed s)
  | Some live =>
  if evaluated_at =? 0 then (no_grant "monotonic_clock_invalid", enter FailedClosed s)
  else
  let independent := lpe_independent live in
  match bind_process_device_memory_evidence (poq_owned_gpu (lpe_request live)) independent process_id
          (ss_adapter_luid_high s) (ss_adapter_luid_low s) evaluated_at (rc_heartbeat_timeout_ms rc) with
  | None =>
      (no_grant (if str_empty (pds_unavailable_reason independent)
                 then "process_device_evidence_rejected"
                 else pds_unavailable_reason independent), enter FailedClosed s)
  | Some owned =>
  if nwq_require_gpu_protocol_evidence (rc_request rc) then
    if context_evidence_rejected ctx independent (ss_adapter_luid_high s) (ss_adapter_luid_low s) then
      (no_grant "gpu_context_protocol_evidence_rejected", enter FailedClosed s)
    else
    match ss_pre_receipt s with
    | None => (no_grant "gpu_context_pre_receipt_missing", enter FailedClosed s)
    | Some pre =>
        let owned := context_owned owned ctx (pds_current_bytes independent)
                       (prr_pre_context_effective_cap_bytes pre) in
        let request := lpe_request live in
        admit_and_issue rc {| request with poq_owned_gpu := owned |} evaluated_at admission_at s
    end
  else
    let request := lpe_request live in
    admit_and_issue rc {| request with poq_owned_gpu := owned |} evaluated_at admission_at s
  end end end.

Definition token_consumed (token_id now : Z) (s : Session) : bool * Session :=
  match ss_pending_token s with
  | Some token =>
      if at_token_id token <>z token_id then (false, enter FailedClosed s)
      else
      let s := {| s with ss_pending_token := None |} in
      let (result, s) := consume_token token now s in
      (bool_decide (result.1 = Consumed), s)
  | None => (false, enter FailedClosed s)
  end.

Definition heartbeat_evidence_rejected (request : NativeWorkerRequest)
    (evidence : NativeWorkerHeartbeatEvidence) (independent : ProcessDeviceMemorySample) : bool :=
  let payload := nwq_expected_post_admission_payload_bytes request in
  negb (nhe_available evidence) || (payload =? 0) ||
  (nwq_maximum_post_admission_payload_bytes request <? payload) ||
  (nhe_post_admission_payload_bytes evidence <>z payload) ||
  (pds_current_bytes independent <=? payload) ||
  (nhe_cuda_mem_info_total_bytes evidence =? 0) ||
  (nhe_cuda_mem_info_total_bytes evidence <? nhe_cuda_mem_info_free_bytes evidence).

Definition heartbeat_owned (owned : OwnedGpuMemoryEvidence) (evidence : NativeWorkerHeartbeatEvidence)
    (current payload : Z) : OwnedGpuMemoryEvidence :=
  {| owned with
     og_available := true; og_reconciled := true;
     og_owned_current_bytes := current; og_owned_peak_bytes := current;
     og_backend_buffer_current_bytes := payload;
     og_backend_buffer_at_owned_peak_bytes := payload;
     og_cuda_context_runtime_current_bytes := current -64 payload;
     og_cuda_context_runtime_at_owned_peak_bytes := current -64 payload;
     og_cuda_mem_info_free_bytes := nhe_cuda_mem_info_free_bytes evidence;
     og_cuda_mem_info_total_bytes := nhe_cuda_mem_info_total_bytes evidence |}.

Definition heartbeat_with_evidence (rc : RunContext) (now : Z) (evidence : NativeWorkerHeartbeatEvidence)
    (live : option LiveWatchdogEvidence) (evaluated_at admission_at : Z) (s : Session)
    : bool * Session :=
  match ss_worker s, ss_post_receipt s, live with
  | Some worker, Some receipt, Some live =>
  if evaluated_at =? 0 then (false, s)
  else
  let sample := lwe_sample live in
  let independent := lwe_independent live in
  let claimed := sws_owned_gpu sample in
  match bind_process_device_memory_evidence
          {| claimed with og_hard_cap_bytes := por_effective_cap_bytes receipt |} independent
          (nwc_root_process_id worker) (ss_adapter_luid_high s) (ss_adapter_luid_low s)
          evaluated_at (rc_heartbeat_timeout_ms rc) with
  | None => (false, s)
  | Some owned =>
  let required := nwq_require_gpu_protocol_evidence (rc_request rc) in
  if required && heartbeat_evidence_rejected (rc_request rc) evidence independent then (false, s)
  else
  let owned := if required
               then heartbeat_owned owned evidence (pds_current_bytes independent)
                      (nwq_expected_post_admission_payload_bytes (rc_request rc))
               else owned in
  if (admission_at =? 0) || (admission_at <? evaluated_at) then (false, s)
  else
  let sample := {| sample with
    sws_worker_heartbeat_monotonic_milliseconds := now;
    sws_worker_alive := true;
    sws_run_deadline_monotonic_milliseconds := por_run_deadline_monotonic_milliseconds receipt;
    sws_owned_gpu := owned;
    sws_evaluated_monotonic_milliseconds := admission_at |} in
  let (decision, s) := evaluate_watchdog sample s in
  (swd_continue_work decision, s)
  end
  | _, _, _ => (false, s)
  end.

Definition cooperative_cancel_requested (now : Z) (s : Session) : Session :=
  if in_state s TokenConsumed || in_state s WatchdogActive then
    {| s with ss_state := CancelRequested; ss_cancel_requested_monotonic_milliseconds := now |}
  else s.

Definition cooperative_cancel_acknowledged (now : Z) (s : Session) : Session :=
  (advance_cancellation now true false false s).2.

(** The critical section after the worker process is gone. *)
Definition record_worker_result (result : NativeWorkerResult) (s : Session) : Session :=
  let s := {| s with
    ss_pending_token := None;
    ss_owned_worker_exit_observed := nwr_worker_exit_observed result;
    ss_owned_job_tree_empty := nwr_job_tree_empty result;
    ss_owned_job_accounting_reconciled := nwr_job_accounting_reconciled result;
    ss_owned_artifact_handles_closed := nwr_artifact_handles_closed result;
    ss_owned_temporary_files_reconciled := nwr_temporary_files_reconciled result |} in
  let exit_state := in_state s WatchdogActive || in_state s CancelRequested ||
                    in_state s CooperativeCancelAcknowledged || in_state s JobAbortRequired in
  let s :=
    if nwr_worker_exit_observed result && nwr_job_tree_empty result && exit_state then enter WorkerExited s
    else if negb (nwr_worker_exit_observed result) || negb (nwr_job_tree_empty result) then
      enter Quarantined s
    else s in
  if in_state s Quarantined then quarantine_lease s else s.

(** What the native runner may do between launch and return: call any
    callback, in any order, with any arguments. *)
Inductive ProtocolEvent :=
| EvBind (identity : NativeWorkerContainmentIdentity)
| EvContextReady (ctx : NativeWorkerContextEvidence) (live : option LivePostContextEvidence)
    (evaluated_at admission_at : Z)
| EvTokenConsumed (token_id now : Z)
| EvHeartbeat (now : Z) (evidence : NativeWorkerHeartbeatEvidence) (live : option LiveWatchdogEvidence)
    (evaluated_at admission_at : Z)
| EvCancelRequested (now : Z)
| EvCancelAck (now : Z).

(** The answer a callback gives the runner: permission or not. *)
Definition protocol_step (rc : RunContext) (e : ProtocolEvent) (s : Session) : bool * Session :=
  match e with
  | EvBind identity => bind_owned_worker identity s
  | EvContextReady ctx live evaluated_at admission_at =>
      let (grant, s) := context_ready_with_evidence rc ctx live evaluated_at admission_at s in
      (nag_admitted grant, s)
  | EvTokenConsumed token_id now => token_consumed token_id now s
  | EvHeartbeat now evidence live evaluated_at admission_at =>
      heartbeat_with_evidence rc now evidence live evaluated_at admission_at s
  | EvCancelRequested now => (true, cooperative_cancel_requested now s)
  | EvCancelAck now => (true, cooperative_cancel_acknowledged now s)
  end.

Fixpoint protocol_run (rc : RunContext) (events : list ProtocolEvent) (s : Session)
    : list bool * Session :=
  match events with
  | [] => ([], s)
  | e :: rest =>
      let (answer, s) := protocol_step rc e s in
      let (answers, s) := protocol_run rc rest s in
      (answer :: answers, s)
  end.

(** [run_contained_worker], the runner reduced to the callbacks it makes and
    the result it returns. *)
Definition run_contained_worker (request : NativeWorkerRequest) (token_validity : Z)
    (producers_present : bool) (events : list ProtocolEvent) (result : NativeWorkerResult) (s : Session)
    : NativeWorkerResult * Session :=
  if (token_validity =? 0) || negb producers_present then
    (rejected_result "supervisor_worker_request_invalid", s)
  else
  match ss_pre_receipt s, in_state s PreContextAdmitted with
  | Some pre, true =>
      let rc := mkRunContext request
                  (wrap32 (stp_maximum_guard_age_milliseconds (prr_timing pre))) token_validity in
      let (_, s) := protocol_run rc events s in
      (result, record_worker_result result s)
  | _, _ => (rejected_result "supervisor_pre_context_receipt_required", s)
  end.

(** [record_evidence_provider_fail_stop] *)
Record EvidenceProviderFailStopReceipt := mkFailStop {
  fs_accepted : bool;
  fs_non_promotable : bool;
  fs_quarantined : bool;
  fs_retry_prohibited : bool;
  fs_reason : string;
}.

Definition kEvidenceProviderFailStopExitCode : Z := 86.

Definition record_evidence_provider_fail_stop (outcome : GpuLease.NativeLeaseOutcome)
    (result : NativeWorkerResult) (high low observed_elapsed maximum_elapsed : Z)
    (registry : GpuLease.Registry) : EvidenceProviderFailStopReceipt * GpuLease.Registry :=
  let (acquired, registry') := GpuLease.acquire_exclusive_gpu_lease outcome high low registry in
  match GpuLease.lar_status acquired, GpuLease.lar_lease acquired with
  | GpuLease.Acquired, Some lease =>
      let registry' := (GpuLease.release (GpuLease.quarantine_for_process_lifetime lease) registry').2 in
      let exact_outer_evidence :=
        (maximum_elapsed <>z 0) && (observed_elapsed <=? maximum_elapsed) &&
        negb (nwr_ok result) && negb (nwr_timed_out result) &&
        (nwr_exit_code result =? kEvidenceProviderFailStopExitCode) &&
        nwr_worker_exit_observed result && nwr_job_tree_empty result &&
        nwr_job_accounting_reconciled result && nwr_artifact_handles_closed result &&
        nwr_temporary_files_reconciled result && str_empty (nwr_output_path result) in
      if negb exact_outer_evidence then
        (mkFailStop false true true true "evidence_provider_fail_stop_unverified", registry')
      else (mkFailStop true true true true "evidence_provider_timeout_fail_stop", registry')
  | _, _ => (mkFailStop false true false false "evidence_provider_fail_stop_quarantine_failed", registry')
  end.

(** ** Atomic steps

    One constructor per critical section.  Any interleaving of callers of a
    session is a sequence of these. *)

Inductive AtomicOp :=
| ABind (identity : NativeWorkerContainmentIdentity)
| AAdmitPre (request : PreContextAdmissionRequest)
| AAdmitPost (request : PostContextAdmissionRequest)
| AIssue (now validity : Z)
| ASetPending (token : option AdmissionToken)
| AConsume (token : AdmissionToken) (now : Z)
| AWatchdog (sample : SupervisorWatchdogSample)
| AFailClosed
| ACancelRequested (now : Z)
| AAdvance (now : Z) (acknowledged worker_exited job_tree_empty : bool)
| ARecordAbort (now : Z) (job_tree_empty : bool)
| ANormalExit (now : Z) (job_tree_empty : bool)
| ABeginCleanup (now : Z)
| ACleanup (evidence : SupervisorCleanupEvidence) (now : Z)
| ARecordResult (result : NativeWorkerResult).

Definition atomic_step (s : Session) (op : AtomicOp) : Session :=
  match op with
  | ABind identity => (bind_owned_worker identity s).2
  | AAdmitPre request => (admit_pre_context request s).2
  | AAdmitPost request => (admit_post_context request s).2
  | AIssue now validity => match issue_token now validity s with Some (_, s) => s | None => s end
  | ASetPending token => {| s with ss_pending_token := token |}
  | AConsume token now => (consume_token token now s).2
  | AWatchdog sample => (evaluate_watchdog sample s).2
  | AFailClosed => enter FailedClosed s
  | ACancelRequested now => cooperative_cancel_requested now s
  | AAdvance now a b c => (advance_cancellation now a b c s).2
  | ARecordAbort now b => (record_job_abort now b s).2
  | ANormalExit now b => (record_normal_worker_exit now b s).2
  | ABeginCleanup now => (begin_cleanup now s).2
  | ACleanup evidence now => (cleanup_owned evidence now s).2
  | ARecordResult result => record_worker_result result s
  end.

Definition atomic_run (s : Session) (ops : list AtomicOp) : Session := fold_left atomic_step ops s.

(** The states visited, oldest first. *)
Fixpoint atomic_trace (s : Session) (ops : list AtomicOp) : list GpuAdmissionSessionState :=
  ss_state s :: match ops with [] => [] | op :: rest => atomic_trace (atomic_step s op) rest end.

Definition reaches (s s' : Session) : Prop := exists ops, s' = atomic_run s ops.

Lemma reaches_refl s : reaches s s.
Proof. by exists []. Qed.

Lemma reaches_step s s' op : reaches s s' -> reaches s (atomic_step s' op).
Proof. intros [ops ->]. exists (ops ++ [op]). unfold atomic_run. by rewrite fold_left_app. Qed.

Lemma reaches_trans s1 s2 s3 : reaches s1 s2 -> reaches s2 s3 -> reaches s1 s3.
Proof. intros [o1 ->] [o2 ->]. exists (o1 ++ o2). unfold atomic_run. by rewrite fold_left_app. Qed.

(** ** The callbacks are sequences of atomic steps *)

Lemma admit_and_issue_reaches rc request e a s : reaches s (admit_and_issue rc request e a s).2.
Proof.
  unfold admit_and_issue. destruct (_ || _); [apply (reaches_step _ _ AFailClosed), reaches_refl|].
  set (r := {| request with poq_evaluation_monotonic_milliseconds := a |}).
  pose proof (reaches_step s s (AAdmitPost r) (reaches_refl s)) as H1. cbn in H1.
  destruct (admit_post_context r s) as [d s1]. cbn in H1.
  destruct (negb _); [done|].
  pose proof (reaches_step s s1 (AIssue a (rc_token_validity_milliseconds rc)) H1) as H2. cbn in H2.
  destruct (issue_token _ _ s1) as [[[status token] s2]|]; [|done].
  destruct status, token; try done. exact (reaches_step s s2 (ASetPending (Some _)) H2).
Qed.

Lemma fail_closed_reaches s : reaches s (enter FailedClosed s).
Proof. apply (reaches_step _ _ AFailClosed), reaches_refl. Qed.

Lemma context_ready_reaches rc ctx live e a s :
  reaches s (context_ready_with_evidence rc ctx live e a s).2.
Proof.
  unfold context_ready_with_evidence.
  repeat (case_match; try apply reaches_refl; try apply fail_closed_reaches);
    apply admit_and_issue_reaches.
Qed.

Lemma token_consumed_reaches id now s : reaches s (token_consumed id now s).2.
Proof.
  unfold token_consumed. destruct (ss_pending_token s) as [t|]; [|apply fail_closed_reaches].
  destruct (negb _); [apply fail_closed_reaches|].
  pose proof (reaches_step s s (ASetPending None) (reaches_refl s)) as H1.
  pose proof (reaches_step s _ (AConsume t now) H1) as H2. cbn in H2.
  by destruct (consume_token t now _).
Qed.

Lemma heartbeat_reaches rc now ev live e a s : reaches s (heartbeat_with_evidence rc now ev live e a s).2.
Proof.
  unfold heartbeat_with_evidence. repeat (case_match; try apply reaches_refl).
  all: match goal with H : evaluate_watchdog ?x ?s0 = (_, _) |- _ =>
    pose proof (reaches_step s0 s0 (AWatchdog x) (reaches_refl s0)) as Hr; cbn [atomic_step] in Hr;
    rewrite H in Hr; exact Hr end.
Qed.

Lemma protocol_step_reaches rc e s : reaches s (protocol_step rc e s).2.
Proof.
  destruct e; cbn [protocol_step].
  - apply (reaches_step _ _ (ABind identity)), reaches_refl.
  - pose proof (context_ready_reaches rc ctx live evaluated_at admission_at s) as H.
    by destruct (context_ready_with_evidence rc ctx live evaluated_at admission_at s).
  - apply token_consumed_reaches.
  - apply heartbeat_reaches.
  - apply (reaches_step _ _ (ACancelRequested now)), reaches_refl.
  - apply (reaches_step _ _ (AAdvance now true false false)), reaches_refl.
Qed.

Lemma protocol_run_reaches rc events s : reaches s (protocol_run rc events s).2.
Proof.
  revert s. induction events as [|e rest IH]; intros s; [apply reaches_refl|]. cbn.
  pose proof (protocol_step_reaches rc e s) as H1. destruct (protocol_step rc e s) as [answer s1].
  pose proof (IH s1) as H2. destruct (protocol_run rc rest s1) as [answers s2].
  by eapply reaches_trans.
Qed.

Lemma run_contained_worker_reaches request validity b events result s :
  reaches s (run_contained_worker request validity b events result s).2.
Proof.
  unfold run_contained_worker. destruct (_ || _); [apply reaches_refl|].
  destruct (ss_pre_receipt s) as [pre|]; [|apply reaches_refl].
  destruct (in_state s PreContextAdmitted); [|apply reaches_refl].
  match goal with |- context [protocol_run ?rc events s] => pose proof (protocol_run_reaches rc events s) as H;
    destruct (protocol_run rc events s) as [answers s1] end.
  exact (reaches_step s s1 (ARecordResult result) H).
Qed.

Lemma finalize_cleanup_reaches evidence now s : reaches s (finalize_cleanup evidence now s).2.
Proof.
  unfold finalize_cleanup. destruct (now =? 0); [apply reaches_refl|]. cbv zeta.
  pose proof (reaches_step s s (ABeginCleanup now) (reaches_refl s)) as H1. cbn in H1.
  destruct (begin_cleanup now s) as [begun s1]. cbn in H1. destruct begun; cbn [negb]; [|done].
  match goal with |- reaches s (cleanup_owned ?ev now s1).2 =>
    exact (reaches_step s s1 (ACleanup ev now) H1) end.
Qed.

(** ** The abstract state machine

    What a session promises: its state and which of the pre-context receipt,
    execution receipt and worker it holds. *)

Record Abs := mkAbs { a_state : GpuAdmissionSessionState; a_pre : bool; a_post : bool; a_worker : bool }.

Definition abs (s : Session) : Abs :=
  mkAbs (ss_state s) (has (ss_pre_receipt s)) (has (ss_post_receipt s)) (has (ss_worker s)).

Definition goto (st : GpuAdmissionSessionState) (a : Abs) : Abs := {| a with a_state := st |}.

Inductive transition : Abs -> Abs -> Prop :=
| tr_stay a : transition a a
| tr_fail a : transition a (goto FailedClosed a)
| tr_quarantine a : transition a (goto Quarantined a)
| tr_pre post worker pre : transition (mkAbs LeaseHeld pre post worker) (mkAbs PreContextAdmitted true post worker)
| tr_bind pre post worker :
    transition (mkAbs PreContextAdmitted pre post worker) (mkAbs WorkerContained pre post true)
| tr_post post : transition (mkAbs WorkerContained true post true) (mkAbs PostContextAdmitted true true true)
| tr_issue pre : transition (mkAbs PostContextAdmitted pre true true) (mkAbs TokenIssued pre true true)
| tr_consume pre post : transition (mkAbs TokenIssued pre post true) (mkAbs TokenConsumed pre post true)
| tr_watch pre st : st ∈ [TokenConsumed; WatchdogActive] ->
    transition (mkAbs st pre true true) (mkAbs WatchdogActive pre true true)
| tr_cancel a : a_state a ∈ [TokenConsumed; WatchdogActive] -> transition a (goto CancelRequested a)
| tr_acknowledge a : a_state a ∈ [CancelRequested; CooperativeCancelAcknowledged] -> a_post a = true ->
    transition a (goto CooperativeCancelAcknowledged a)
| tr_abort a : a_state a ∈ [CancelRequested; CooperativeCancelAcknowledged] -> a_post a = true ->
    transition a (goto JobAbortRequired a)
| tr_exit a :
    a_state a ∈ [WatchdogActive; CancelRequested; CooperativeCancelAcknowledged; JobAbortRequired] ->
    transition a (goto WorkerExited a)
| tr_cleanup_exited pre post worker :
    transition (mkAbs WorkerExited pre post worker) (mkAbs CleanupStarted pre post worker)
| tr_cleanup_failed pre post :
    transition (mkAbs FailedClosed pre post false) (mkAbs CleanupStarted pre post false)
| tr_cleaned pre worker : transition (mkAbs CleanupStarted pre true worker) (mkAbs Cleaned false false false)
| tr_unclean a : transition a (mkAbs Quarantined false false false).

#[export] Hint Constructors transition : prism.

Lemma abs_enter st s : abs (enter st s) = goto st (abs s).
Proof. done. Qed.

Lemma in_state_true s st : in_state s st = true -> ss_state s = st.
Proof. apply bool_decide_eq_true. Qed.

Lemma abs_quarantine_lease s : abs (quarantine_lease s) = abs s.
Proof. done. Qed.

Lemma abs_reset_lease s : abs (reset_lease s) = abs s.
Proof. unfold reset_lease. by destruct (ss_lease s). Qed.

(** Close a branch whose abstract step is a constructor. *)
Ltac tr := unfold abs, goto in *; cbn in *;
  repeat match goal with
  | H : in_state _ _ = true |- _ => apply in_state_true in H
  | H : (_ || _) = true |- _ => apply orb_true_iff in H
  | H : _ \/ _ |- _ => destruct H
  end; simplify_eq;
  repeat match goal with H : ss_state _ = _ |- _ => rewrite H in * end;
  repeat match goal with H : ss_worker _ = _ |- _ => rewrite H in * end;
  repeat match goal with H : ss_post_receipt _ = _ |- _ => rewrite H in * end;
  repeat match goal with H : ss_pre_receipt _ = _ |- _ => rewrite H in * end; cbn in *;
  first [ apply tr_stay | apply tr_fail | apply tr_quarantine | econstructor; set_solver ].

Lemma bind_refines identity s : transition (abs s) (abs (bind_owned_worker identity s).2).
Proof.
  unfold bind_owned_worker. destruct (negb _) eqn:E; [apply tr_fail|]. bool_facts. tr.
Qed.

Lemma admit_pre_refines request s : transition (abs s) (abs (admit_pre_context request s).2).
Proof.
  unfold admit_pre_context. destruct (negb (in_state s LeaseHeld) || _ || _ || _) eqn:E; [apply tr_fail|].
  cbv zeta. destruct (negb (pad_admitted _) || _) eqn:E2; [apply tr_fail|]. bool_facts.
  cbn [snd]. unfold abs. cbn. match goal with H : has _ = true |- _ => rewrite H end. tr.
Qed.

Lemma admit_post_refines request s : transition (abs s) (abs (admit_post_context request s).2).
Proof.
  unfold admit_post_context. destruct (in_state s WorkerContained) eqn:Est; [|apply tr_fail].
  destruct (ss_worker s) eqn:Ew; [|apply tr_fail]. destruct (ss_pre_receipt s) eqn:Ep; [|apply tr_fail].
  destruct (_ || _); [apply tr_fail|]. destruct (evaluate_post_context_admission _ _) as [d store].
  cbv zeta. destruct (_ || _) eqn:E.
  { unfold abs. cbn. rewrite Ew, Ep. apply (tr_fail (mkAbs _ _ _ _)). }
  bool_facts. apply in_state_true in Est. unfold abs. cbn. rewrite Est, Ew, Ep.
  match goal with H : has _ = true |- _ => rewrite H end. apply tr_post.
Qed.

Lemma issue_refines now validity s : transition (abs s) (abs (atomic_step s (AIssue now validity))).
Proof.
  cbn. unfold issue_token. destruct (in_state s PostContextAdmitted) eqn:Est; [|apply tr_fail].
  destruct (ss_post_receipt s) eqn:Ep; [|apply tr_fail]. destruct (ss_worker s) eqn:Ew; [|apply tr_stay].
  cbv zeta. destruct (_ || _); unfold abs; cbn; rewrite Ew, Ep; [apply (tr_fail (mkAbs _ _ _ _))|].
  apply in_state_true in Est. rewrite Est. apply tr_issue.
Qed.

Lemma consume_refines token now s : transition (abs s) (abs (consume_token token now s).2).
Proof.
  unfold consume_token. destruct (in_state s TokenIssued) eqn:Est; [|apply tr_fail].
  destruct (ss_worker s) eqn:Ew; [|apply tr_fail]. destruct (consume _ _ _ _ _) as [r t'].
  destruct (negb _); [apply tr_fail|]. apply in_state_true in Est. unfold abs. cbn. rewrite Est, Ew.
  apply tr_consume.
Qed.

Lemma watchdog_refines sample s : transition (abs s) (abs (evaluate_watchdog sample s).2).
Proof.
  unfold evaluate_watchdog. destruct (_ || _) eqn:Est; [|apply tr_fail].
  destruct (ss_post_receipt s) eqn:Ep; [|apply tr_fail]. destruct (ss_worker s) eqn:Ew; [|apply tr_fail].
  destruct (negb _); [apply tr_fail|]. cbv zeta.
  assert (ss_state s ∈ [TokenConsumed; WatchdogActive]) as Hst.
  { apply orb_true_iff in Est as [H%in_state_true|H%in_state_true]; rewrite H; set_solver. }
  destruct (swd_continue_work _); unfold abs; cbn; rewrite Ew, Ep.
  - by apply tr_watch.
  - exact (tr_cancel (mkAbs _ _ _ _) Hst).
Qed.

Lemma cancel_requested_refines now s : transition (abs s) (abs (cooperative_cancel_requested now s)).
Proof.
  unfold cooperative_cancel_requested. destruct (_ || _) eqn:Est; [|apply tr_stay].
  apply (tr_cancel (abs s)). cbn.
  apply orb_true_iff in Est as [H%in_state_true|H%in_state_true]; rewrite H; set_solver.
Qed.

Lemma advance_refines now a b c s : transition (abs s) (abs (advance_cancellation now a b c s).2).
Proof.
  unfold advance_cancellation. cbv zeta. destruct (_ || _) eqn:Est; [|apply tr_quarantine].
  destruct (ss_post_receipt s) eqn:Ep; [|apply tr_quarantine].
  assert (a_state (abs s) ∈ [CancelRequested; CooperativeCancelAcknowledged]) as Hst.
  { apply orb_true_iff in Est as [H%in_state_true|H%in_state_true]; cbn; rewrite H; set_solver. }
  assert (a_post (abs s) = true) as Hp by (cbn; by rewrite Ep).
  repeat (case_match; [try (apply tr_quarantine || by apply (tr_abort (abs s)) ||
    by apply (tr_acknowledge (abs s)))|]); try (by apply (tr_abort (abs s))).
  all: try (apply (tr_exit (abs s)); set_solver).
  destruct s. apply tr_stay.
Qed.

Lemma record_abort_refines now b s : transition (abs s) (abs (record_job_abort now b s).2).
Proof.
  unfold record_job_abort. cbv zeta. destruct (in_state s JobAbortRequired) eqn:Est; [|apply tr_quarantine].
  destruct (ss_post_receipt s); [|apply tr_quarantine]. repeat (case_match; [apply tr_quarantine|]).
  apply (tr_exit (abs s)). apply in_state_true in Est. cbn. rewrite Est. set_solver.
Qed.

Lemma normal_exit_refines now b s : transition (abs s) (abs (record_normal_worker_exit now b s).2).
Proof.
  unfold record_normal_worker_exit. destruct (now =? 0); [apply tr_stay|].
  destruct (_ || _) eqn:E; [apply tr_quarantine|]. bool_facts.
  apply (tr_exit (abs s)). cbn. match goal with H : in_state _ _ = true |- _ => apply in_state_true in H; rewrite H end.
  set_solver.
Qed.

Lemma begin_cleanup_refines now s : transition (abs s) (abs (begin_cleanup now s).2).
Proof.
  unfold begin_cleanup. destruct (now =? 0); [apply tr_stay|].
  destruct (_ && _) eqn:E; [apply tr_quarantine|].
  apply andb_false_iff in E as [E|E]; bool_facts.
  - apply in_state_true in E. unfold abs. cbn. rewrite E. apply tr_cleanup_exited.
  - match goal with H : in_state _ _ = true |- _ => apply in_state_true in H as E1 end.
    unfold abs. cbn. rewrite E1. match goal with H : has _ = false |- _ => rewrite H end. apply tr_cleanup_failed.
Qed.

Lemma cleanup_refines evidence now s : transition (abs s) (abs (cleanup_owned evidence now s).2).
Proof.
  unfold cleanup_owned. destruct (_ || _); [apply tr_quarantine|]. cbv zeta.
  destruct (evidence_complete evidence && cleanup_deadline_met now s) eqn:E; cbn [negb snd].
  - rewrite abs_enter, abs_reset_lease. apply andb_true_iff in E as [_ E]. unfold cleanup_deadline_met in E.
    destruct (ss_post_receipt s) eqn:Ep; [|done]. cbv zeta in E. bool_facts.
    match goal with H : in_state _ _ = true |- _ => apply in_state_true in H end.
    unfold abs, goto. cbn. rewrite Ep. match goal with H : ss_state _ = _ |- _ => rewrite H end. apply tr_cleaned.
  - rewrite abs_enter, abs_reset_lease, abs_quarantine_lease. apply tr_unclean.
Qed.

Lemma record_result_refines result s : transition (abs s) (abs (record_worker_result result s)).
Proof.
  unfold record_worker_result. cbv zeta.
  match goal with |- context [in_state ?x Quarantined] => set (s1 := x) end.
  assert (transition (abs s) (abs s1)) as H1.
  { subst s1.
    match goal with |- context [if ?b then enter WorkerExited _ else _] => destruct b eqn:E end.
    2: { match goal with |- context [if ?b then enter Quarantined _ else _] => destruct b end;
         [apply tr_quarantine|apply tr_stay]. }
    apply andb_true_iff in E as [_ E]. apply (tr_exit (abs s)). cbn.
    repeat (apply orb_true_iff in E as [E|E]); apply in_state_true in E; cbn in E; rewrite E; set_solver. }
  destruct (in_state s1 Quarantined); [by rewrite abs_quarantine_lease|done].
Qed.

Lemma atomic_step_refines s op : transition (abs s) (abs (atomic_step s op)).
Proof.
  destruct op; cbn [atomic_step]; auto using bind_refines, admit_pre_refines, admit_post_refines,
    consume_refines, watchdog_refines, cancel_requested_refines, advance_refines, record_abort_refines,
    normal_exit_refines, begin_cleanup_refines, cleanup_refines, record_result_refines.
  - apply issue_refines.
  - apply tr_stay.
  - apply tr_fail.
Qed.

(** ** Invariants of the state machine *)

(** The stages every successfully cleaned session goes through, in order. *)
Definition lifecycle : list GpuAdmissionSessionState :=
  [LeaseHeld; PreContextAdmitted; WorkerContained; PostContextAdmitted; TokenIssued; TokenConsumed;
   WorkerExited; CleanupStarted; Cleaned].

(** How many of them lie behind an abstract state. *)
Definition progress (a : Abs) : nat :=
  match a_state a with
  | LeaseHeld => 1 | PreContextAdmitted => 2 | WorkerContained => 3 | PostContextAdmitted => 4
  | TokenIssued => 5
  | TokenConsumed | WatchdogActive | CancelRequested | CooperativeCancelAcknowledged | JobAbortRequired => 6
  | WorkerExited => 7
  | CleanupStarted => if a_post a then 8 else 0
  | Cleaned => 9
  | FailedClosed | Quarantined => 0
  end%nat.

(** Which receipts a state holds; in particular a post-context state always
    has a worker, so the unchecked dereference in [issue_token] is safe. *)
Definition holdings (a : Abs) : Prop :=
  (a_worker a = false -> a_post a = false) /\
  match a_state a with
  | LeaseHeld => a_pre a = false /\ a_post a = false /\ a_worker a = false
  | PreContextAdmitted => a_pre a = true /\ a_post a = false /\ a_worker a = false
  | WorkerContained => a_pre a = true /\ a_post a = false /\ a_worker a = true
  | PostContextAdmitted | TokenIssued | TokenConsumed | WatchdogActive | CancelRequested
  | CooperativeCancelAcknowledged | JobAbortRequired | WorkerExited =>
      a_pre a = true /\ a_post a = true /\ a_worker a = true
  | _ => True
  end.

Definition abs_inv (a : Abs) (trace : list GpuAdmissionSessionState) : Prop :=
  holdings a /\ take (progress a) lifecycle `sublist_of` trace.

Lemma sublist_extend (n : nat) x trace :
  lifecycle !! n = Some x -> take n lifecycle `sublist_of` trace ->
  take (S n) lifecycle `sublist_of` trace ++ [x].
Proof. intros Hn Hs. rewrite (take_S_r _ _ x) by done. by apply sublist_app. Qed.

Lemma sublist_weaken (n : nat) x trace :
  take n lifecycle `sublist_of` trace -> take n lifecycle `sublist_of` trace ++ [x].
Proof. intros Hs. by apply sublist_inserts_r. Qed.

Lemma transition_holdings a a' : holdings a -> transition a a' -> holdings a'.
Proof.
  intros [Hw Hd] Htr. destruct Htr; unfold holdings, goto in *; cbn in *;
    repeat match goal with H : _ ∈ _ |- _ => rewrite !elem_of_cons, elem_of_nil in H end;
    try (destruct a; cbn in *); naive_solver.
Qed.

Lemma transition_inv a a' trace : abs_inv a trace -> transition a a' -> abs_inv a' (trace ++ [a_state a']).
Proof.
  intros [Hh Hs] Htr. split; [by eapply transition_holdings|]. destruct Hh as [Hw Hd].
  destruct Htr; unfold progress, goto in *; cbn in *;
    repeat match goal with H : _ ∈ _ |- _ => rewrite !elem_of_cons, elem_of_nil in H end;
    try (destruct a as [st ? ? ?]; cbn in * );
    try match goal with H : _ \/ _ |- _ => destruct_or! H; subst; cbn in * end.
  all: try (destruct Hd as (-> & -> & ->)); try (rewrite (Hw eq_refl) in * ); cbn in *.
  all: first
    [ by apply sublist_inserts_r | apply sublist_nil_l
    | exact (sublist_extend 1 _ _ eq_refl Hs) | exact (sublist_extend 2 _ _ eq_refl Hs)
    | exact (sublist_extend 3 _ _ eq_refl Hs) | exact (sublist_extend 4 _ _ eq_refl Hs)
    | exact (sublist_extend 5 _ _ eq_refl Hs) | exact (sublist_extend 6 _ _ eq_refl Hs)
    | exact (sublist_extend 7 _ _ eq_refl Hs) | exact (sublist_extend 8 _ _ eq_refl Hs) ].
Qed.

(** The trace up to and including the last state. *)
Lemma trace_snoc s ops op :
  atomic_trace s (ops ++ [op]) = atomic_trace s ops ++ [ss_state (atomic_run s (ops ++ [op]))].
Proof.
  revert s. induction ops as [|o ops IH]; intros s; [done|].
  cbn [app atomic_trace]. rewrite IH. done.
Qed.

Lemma atomic_run_snoc s ops op : atomic_run s (ops ++ [op]) = atomic_step (atomic_run s ops) op.
Proof. unfold atomic_run. by rewrite fold_left_app. Qed.

Lemma atomic_run_inv s ops : abs_inv (abs s) [ss_state s] ->
  abs_inv (abs (atomic_run s ops)) (atomic_trace s ops).
Proof.
  intros H0. induction ops as [|op ops IH] using rev_ind; [done|].
  rewrite trace_snoc, atomic_run_snoc. eapply transition_inv; [exact IH|apply atomic_step_refines].
Qed.

(** ** The lease *)

(** A fresh session: what [acquire_gpu_admission_session] returns. *)
Definition fresh_session (s : Session) : Prop :=
  ss_state s = LeaseHeld /\ ss_pre_receipt s = None /\ ss_post_receipt s = None /\ ss_worker s = None /\
  exists lease, ss_lease s = Some lease /\ GpuLease.lease_active lease = true /\
    GpuLease.lease_id lease = GpuLease.make_lease_id (ss_adapter_luid_high s) (ss_adapter_luid_low s) /\
    GpuLease.lease_id lease ∈ ss_registry s.

Lemma acquired_session_fresh outcome allocated cell high low issuer registry store s registry' :
  acquire_gpu_admission_session outcome allocated cell high low issuer registry store
    = (SessionAcquired, Some s, registry') ->
  fresh_session s /\ ss_adapter_luid_high s = high /\ ss_adapter_luid_low s = low /\
  ss_registry s = registry'.
Proof.
  unfold acquire_gpu_admission_session, GpuLease.acquire_exclusive_gpu_lease.
  destruct (negb _); [done|]. destruct (_ && _); [done|]. case_bool_decide; [done|].
  destruct outcome, allocated; cbn; try done. intros [= <- <-]. split; [|by split_and!].
  do 4 (split; [done|]). eexists. do 3 (split; [done|]). cbn. set_solver.
Qed.

Lemma fresh_session_inv s : fresh_session s -> abs_inv (abs s) [ss_state s].
Proof.
  intros (Hs & Hp & Hq & Hw & _). unfold abs. rewrite Hs, Hp, Hq, Hw. cbn.
  split; [by split|]. by cbn.
Qed.

(** Only a cleanup touches the registry, and only when it cleans. *)
Lemma registry_frame s op :
  ss_registry (atomic_step s op) = ss_registry s \/
  exists evidence now, op = ACleanup evidence now /\ evidence_complete evidence = true /\
    cleanup_deadline_met now s = true /\ ss_state (atomic_step s op) = Cleaned.
Proof.
  destruct op; cbn [atomic_step];
    try (left; unfold bind_owned_worker, admit_pre_context, admit_post_context, issue_token, consume_token,
      evaluate_watchdog, cooperative_cancel_requested, advance_cancellation, record_job_abort,
      record_normal_worker_exit, begin_cleanup, record_worker_result; repeat case_match; simplify_eq; done).
  unfold cleanup_owned. destruct (_ || _); [by left|]. cbv zeta.
  destruct (evidence_complete evidence && cleanup_deadline_met now s) eqn:E.
  - right. apply andb_true_iff in E as [??]. eauto 10.
  - left. cbn. unfold reset_lease, quarantine_lease. cbn.
    destruct (ss_lease s) as [lease|]; done.
Qed.

(** A step into [Cleaned] is a complete cleanup within the deadline. *)
Lemma cleaned_step s op : ss_state s <> Cleaned -> ss_state (atomic_step s op) = Cleaned ->
  exists evidence now, op = ACleanup evidence now /\ evidence_complete evidence = true /\
    cleanup_deadline_met now s = true.
Proof.
  intros Hne Hc. destruct op.
  14: { cbn [atomic_step] in Hc. unfold cleanup_owned in Hc. destruct (_ || _); [done|]. cbv zeta in Hc.
        destruct (evidence_complete evidence && cleanup_deadline_met now s) eqn:E; [|done].
        apply andb_true_iff in E as [??]. eauto. }
  all: exfalso; revert Hc; cbn [atomic_step]; unfold bind_owned_worker, admit_pre_context,
      admit_post_context, issue_token, consume_token, evaluate_watchdog, cooperative_cancel_requested,
      advance_cancellation, record_job_abort, record_normal_worker_exit, begin_cleanup,
      record_worker_result; repeat case_match; simplify_eq; cbn; done.
Qed.

(** The registry entry survives, or the whole lifecycle was traversed and a
    complete cleanup ended it. *)
Definition lease_accounted (id : string) (s0 : Session) (ops : list AtomicOp) : Prop :=
  id ∈ ss_registry (atomic_run s0 ops) \/
  (lifecycle `sublist_of` atomic_trace s0 ops /\
   exists evidence now, ACleanup evidence now ∈ ops /\ evidence_complete evidence = true).

Lemma lease_accounted_run s0 ops id : fresh_session s0 -> id ∈ ss_registry s0 ->
  lease_accounted id s0 ops.
Proof.
  intros Hfresh Hid. induction ops as [|op ops IH] using rev_ind; [by left|].
  destruct IH as [Hin|(Hlife & ev & now & Hop & Hc)].
  - unfold lease_accounted. rewrite atomic_run_snoc.
    destruct (registry_frame (atomic_run s0 ops) op) as [->|(ev & now & -> & Hc & Hd & Hst)]; [by left|].
    right. split; [|exists ev, now; split; [set_solver|done]].
    pose proof (atomic_run_inv s0 (ops ++ [ACleanup ev now]) (fresh_session_inv _ Hfresh)) as [_ Hs].
    rewrite atomic_run_snoc in Hs. unfold abs, progress in Hs. cbn [a_state] in Hs. rewrite Hst in Hs. exact Hs.
  - right. rewrite trace_snoc. split; [by apply sublist_inserts_r|]. exists ev, now. set_solver.
Qed.

Lemma destroy_registry s : ss_registry (destroy s) = ss_registry s \/
  (in_state s Cleaned = true /\ exists lease, ss_lease s = Some lease).
Proof.
  unfold destroy, reset_lease, quarantine_lease. destruct (ss_lease s) as [lease|] eqn:E; cbn.
  - destruct (in_state s Cleaned); cbn; [right; eauto|by left].
  - by left.
Qed.

(** A cleaned session holds no lease any more. *)
Lemma cleaned_has_no_lease s0 ops : fresh_session s0 ->
  ss_state (atomic_run s0 ops) = Cleaned -> ss_lease (atomic_run s0 ops) = None.
Proof.
  intros (Hst & _). induction ops as [|op ops IH] using rev_ind; [cbn; congruence|].
  rewrite atomic_run_snoc. set (s := atomic_run s0 ops) in *. intros Hc.
  destruct (decide (ss_state s = Cleaned)) as [Hs|Hs].
  - specialize (IH Hs). revert Hc. destruct op; cbn [atomic_step];
      unfold bind_owned_worker, admit_pre_context, admit_post_context, issue_token, consume_token,
      evaluate_watchdog, cooperative_cancel_requested, advance_cancellation, record_job_abort,
      record_normal_worker_exit, begin_cleanup, record_worker_result, cleanup_owned, in_state;
      rewrite ?Hs; repeat case_match; simplify_eq; cbn; try done; rewrite ?IH; done.
  - destruct (cleaned_step s op Hs Hc) as (ev & now & -> & Hev & Hd). cbn [atomic_step]. unfold cleanup_owned.
    destruct (_ || _) eqn:E.
    { exfalso. revert Hc. cbn [atomic_step]. unfold cleanup_owned. rewrite E. done. }
    cbv zeta. rewrite Hev, Hd. cbn. unfold reset_lease. cbn. by destruct (ss_lease s).
Qed.

(** C7. Every operation of a session, whoever calls it and in whatever state,
    performs one step of the documented state machine: each stage is entered
    only from its predecessor with the receipts it needs, and every mismatch
    leads to [FailedClosed] or [Quarantined]. *)
Theorem session_refines_state_machine s op : transition (abs s) (abs (atomic_step s op)).
Proof. apply atomic_step_refines. Qed.

(** C1. The adapter is given back only by a complete cleanup: from the
    acquisition of a session on, over any interleaving of its operations and
    including its destruction, the lease stays registered, so that the adapter
    cannot be leased again in this process, unless the session went through
    admission, containment, post-context admission, token issue, token
    consumption, worker exit and cleanup in this order and a cleanup call
    brought complete evidence. *)
Theorem lease_kept_unless_cleaned outcome allocated cell high low issuer registry store s0 registry' ops :
  acquire_gpu_admission_session outcome allocated cell high low issuer registry store
    = (SessionAcquired, Some s0, registry') ->
  GpuLease.make_lease_id high low ∈ ss_registry (destroy (atomic_run s0 ops)) \/
  (lifecycle `sublist_of` atomic_trace s0 ops /\
   exists evidence now, ACleanup evidence now ∈ ops /\ evidence_complete evidence = true).
Proof.
  intros (Hfresh & <- & <- & _)%acquired_session_fresh.
  destruct (lease_accounted_run s0 ops (GpuLease.make_lease_id (ss_adapter_luid_high s0) (ss_adapter_luid_low s0)) Hfresh) as [Hin|?].
  - destruct Hfresh as (_&_&_&_&lease&_&_&<-&?). done.
  - left. destruct (destroy_registry (atomic_run s0 ops)) as [->|[Hc [lease Hl]]]; [done|].
    apply in_state_true in Hc. rewrite (cleaned_has_no_lease s0 ops Hfresh Hc) in Hl. done.
  - by right.
Qed.

(** A cleanup that ends in [Cleaned] is complete and on time: a worker
    exit, an empty job tree, reconciled accounting, device resources, handles
    and temporary files, a terminal reason and two well-formed digests, no
    later than the cleanup bound after cleanup began and, if the run was
    cancelled, after the cancellation. *)
Theorem cleaned_means_complete s op :
  ss_state s <> Cleaned -> ss_state (atomic_step s op) = Cleaned ->
  exists evidence now receipt, op = ACleanup evidence now /\ evidence_complete evidence = true /\
    ss_post_receipt s = Some receipt /\ ss_state s = CleanupStarted /\
    let bound := stp_cleanup_milliseconds (por_timing receipt) in
    let started := ss_cleanup_started_monotonic_milliseconds s in
    let cancelled := ss_cancel_requested_monotonic_milliseconds s in
    started <> 0 /\ started <= now /\ now -64 started <= bound /\
    (cancelled <> 0 -> cancelled <= now /\ now -64 cancelled <= bound).
Proof.
  intros Hne Hc. destruct (cleaned_step s op Hne Hc) as (ev & now & -> & Hev & Hd).
  unfold cleanup_deadline_met in Hd. destruct (ss_post_receipt s) as [receipt|] eqn:Ep; [|done].
  cbv zeta in Hd. exists ev, now, receipt. cbv zeta. do 3 (split; [done|]).
  apply andb_true_iff in Hd as [Hd Hcancel]. bool_facts.
  match goal with H : in_state _ _ = true |- _ => apply in_state_true in H end.
  split_and!; try done. intros Hn. apply orb_true_iff in Hcancel as [Hz|Hz]; bool_facts; done.
Qed.

(** ** One grant per session *)

Definition rank (st : GpuAdmissionSessionState) : nat :=
  match st with
  | LeaseHeld => 0 | PreContextAdmitted => 1 | WorkerContained => 2 | PostContextAdmitted => 3
  | TokenIssued => 4 | TokenConsumed => 5 | WatchdogActive => 6 | CancelRequested => 7
  | CooperativeCancelAcknowledged => 7 | JobAbortRequired => 8 | WorkerExited => 9
  | CleanupStarted | FailedClosed | Cleaned | Quarantined => 10
  end%nat.

Lemma transition_rank a a' : transition a a' -> (rank (a_state a) <= rank (a_state a'))%nat.
Proof.
  intros Htr. destruct Htr; cbn; try lia; try (destruct (a_state a); cbn; lia).
  all: repeat match goal with H : _ ∈ _ |- _ => rewrite !elem_of_cons, elem_of_nil in H end.
  all: destruct_or!; try done; try (subst; cbn; lia).
  all: match goal with H : a_state _ = _ |- _ => rewrite H; cbn; lia end.
Qed.

Lemma reaches_rank s s' : reaches s s' -> (rank (ss_state s) <= rank (ss_state s'))%nat.
Proof.
  intros [ops ->]. induction ops as [|op ops IH] using rev_ind; [done|].
  rewrite atomic_run_snoc. etrans; [exact IH|]. apply (transition_rank _ _ (atomic_step_refines _ op)).
Qed.

Lemma token_consumed_true id now s s' : token_consumed id now s = (true, s') ->
  ss_state s = TokenIssued /\ ss_state s' = TokenConsumed /\
  exists token worker, ss_pending_token s = Some token /\ ss_worker s = Some worker /\
    at_token_id token = id /\ at_active token = true /\ at_cell token = ss_cell s /\
    at_worker token = worker_identity worker /\
    at_issued_monotonic_milliseconds token <= now <= at_expires_monotonic_milliseconds token /\
    ss_pending_token s' = None.
Proof.
  unfold token_consumed, consume_token. destruct (ss_pending_token s) as [token|] eqn:Ep; [|done].
  destruct (negb _) eqn:Eid; [done|]. unfold in_state. cbn.
  destruct (decide (ss_state s = TokenIssued)) as [Hst|Hst];
    [rewrite bool_decide_true by done|rewrite bool_decide_false by done; cbn; rewrite ?bool_decide_false by done; done].
  destruct (ss_worker s) as [worker|] eqn:Ew; [|done].
  pose proof (consume_effect (ss_token_issuer s) token (ss_cell s) (worker_identity worker) now) as Heff.
  destruct (consume _ _ _ _ _) as [[status cap] t']. cbn.
  destruct (decide (status = Consumed)) as [->|Hn];
    [rewrite bool_decide_true by done|rewrite bool_decide_false by done; cbn; rewrite ?bool_decide_false by done; done].
  intros [= <-]. cbn. bool_facts. destruct Heff as [[_ ?]|(? & _ & H)]; [done|].
  destruct (H eq_refl) as (_ & ? & _ & ? & ?). do 2 (split; [done|]). exists token, worker. split_and!; done || lia.
Qed.

(** The [TOKEN_CONSUMED] messages answered with permission. *)
Fixpoint consumptions (rc : RunContext) (events : list ProtocolEvent) (s : Session) : nat :=
  match events with
  | [] => 0
  | e :: rest =>
      let (answer, s') := protocol_step rc e s in
      ((match e with EvTokenConsumed _ _ => if answer then 1 else 0 | _ => 0 end) + consumptions rc rest s')%nat
  end.

Lemma consumptions_bound rc events s :
  (consumptions rc events s <= if Nat.leb (rank (ss_state s)) 4 then 1 else 0)%nat.
Proof.
  revert s. induction events as [|e rest IH]; intros s; [cbn; case_match; lia|].
  cbn [consumptions]. pose proof (reaches_rank _ _ (protocol_step_reaches rc e s)) as Hmono.
  destruct (protocol_step rc e s) as [answer s'] eqn:E. cbn [snd] in Hmono. specialize (IH s').
  assert (match e with EvTokenConsumed _ _ => if answer then 1 else 0 | _ => 0 end = 0 \/
          (ss_state s = TokenIssued /\ ss_state s' = TokenConsumed))%nat as [H0|[Hs Hs']].
  { destruct e; try (by left). destruct answer; [|by left]. right.
    cbn [protocol_step] in E. by apply token_consumed_true in E as (?&?&_). }
  - rewrite H0. destruct (Nat.leb_spec (rank (ss_state s')) 4), (Nat.leb_spec (rank (ss_state s)) 4); lia.
  - rewrite Hs, Hs' in *. cbn in *. destruct e; try lia. destruct answer; lia.
Qed.

(** C8. A session delivers one grant at most: whatever messages the runner
    passes on and in whatever order, at most one [TOKEN_CONSUMED] is answered
    with permission, and that one named the pending token of this session's
    worker and cell, inside its lifetime, and used it up. *)
Theorem one_grant_per_session rc events s :
  (consumptions rc events s <= 1)%nat /\
  forall id now s', token_consumed id now s = (true, s') ->
    ss_state s = TokenIssued /\ ss_state s' = TokenConsumed /\
    exists token worker, ss_pending_token s = Some token /\ ss_worker s = Some worker /\
      at_token_id token = id /\ at_active token = true /\ at_cell token = ss_cell s /\
      at_worker token = worker_identity worker /\
      at_issued_monotonic_milliseconds token <= now <= at_expires_monotonic_milliseconds token /\
      ss_pending_token s' = None.
Proof.
  split; [|intros; by apply token_consumed_true].
  pose proof (consumptions_bound rc events s). case_match; lia.
Qed.

(** What binding an independent measurement pins down. *)
Lemma bind_evidence_fields owned ind pid hi lo now age owned' :
  bind_process_device_memory_evidence owned ind pid hi lo now age = Some owned' ->
  og_hard_cap_bytes owned' = og_hard_cap_bytes owned /\
  og_process_device_current_bytes owned' = pds_current_bytes ind /\
  og_process_id owned' = pid /\ og_adapter_luid_high owned' = hi /\ og_adapter_luid_low owned' = lo.
Proof.
  unfold bind_process_device_memory_evidence. destruct (_ || _) eqn:E; [done|]. intros [= <-].
  cbn. bool_facts. by split_and!.
Qed.

(** Work continues only on an independent measurement: a heartbeat that
    is answered with permission found a consumed token, and the watchdog
    accepted a sample stamped with the heartbeat and the decision time, whose
    hard cap and deadline are those of the receipt and whose process memory is
    the separately measured one of this worker on this adapter. *)
Theorem heartbeat_permission_is_grounded rc now evidence live evaluated_at admission_at s s' :
  heartbeat_with_evidence rc now evidence live evaluated_at admission_at s = (true, s') ->
  (ss_state s = TokenConsumed \/ ss_state s = WatchdogActive) /\ ss_state s' = WatchdogActive /\
  exists receipt worker l sample,
    ss_post_receipt s = Some receipt /\ ss_worker s = Some worker /\ live = Some l /\
    swd_continue_work (evaluate_supervisor_watchdog receipt sample) = true /\
    sws_evaluated_monotonic_milliseconds sample = admission_at /\ evaluated_at <= admission_at /\
    sws_worker_heartbeat_monotonic_milliseconds sample = now /\
    sws_run_deadline_monotonic_milliseconds sample = por_run_deadline_monotonic_milliseconds receipt /\
    og_hard_cap_bytes (sws_owned_gpu sample) = por_effective_cap_bytes receipt /\
    og_process_device_current_bytes (sws_owned_gpu sample) = pds_current_bytes (lwe_independent l) /\
    og_process_id (sws_owned_gpu sample) = nwc_root_process_id worker /\
    og_adapter_luid_high (sws_owned_gpu sample) = ss_adapter_luid_high s /\
    og_adapter_luid_low (sws_owned_gpu sample) = ss_adapter_luid_low s.
Proof.
  unfold heartbeat_with_evidence. destruct (ss_worker s) as [worker|] eqn:Ew; [|done].
  destruct (ss_post_receipt s) as [receipt|] eqn:Ep; [|done]. destruct live as [l|]; [|done].
  destruct (evaluated_at =? 0); [done|]. cbv zeta.
  destruct (bind_process_device_memory_evidence _ _ _ _ _ _ _) as [owned|] eqn:Eb; [|done].
  apply bind_evidence_fields in Eb as (Hcap & Hcur & Hpid & Hhi & Hlo). cbn in Hcap.
  destruct (nwq_require_gpu_protocol_evidence (rc_request rc) && _); [done|].
  destruct (_ || _) eqn:Et; [done|].
  match goal with |- context [evaluate_watchdog ?x s] => set (sample := x) end.
  unfold evaluate_watchdog. rewrite Ep, Ew.
  destruct (in_state s TokenConsumed || in_state s WatchdogActive) eqn:Est; [|done].
  destruct (negb _); [done|]. destruct (swd_continue_work _) eqn:Ec; [|cbv beta iota; by rewrite Ec].
  intros [= _ <-]. split.
  { apply orb_true_iff in Est as [H%in_state_true|H%in_state_true]; auto. }
  split; [done|]. exists receipt, worker, l, sample. bool_facts.
  split_and!; try done; subst sample; cbn; destruct (nwq_require_gpu_protocol_evidence _); done.
Qed.

(** ** Cancellation deadlines *)

Definition cancelling (s : Session) : Prop :=
  ss_state s = CancelRequested \/ ss_state s = CooperativeCancelAcknowledged.

(** C35. Cancellation is bounded: while a cancelled worker is waited for, less
    than the worker-exit bound has passed since the request and either the
    cooperative acknowledgement was recorded or its own bound is not yet
    reached; from the worker-exit bound on, every evaluation that does not see
    an on-time exit with an empty job tree orders the job abort. *)
Theorem cancellation_is_bounded now acknowledged exited empty s receipt :
  let elapsed := now - ss_cancel_requested_monotonic_milliseconds s in
  let timing := por_timing receipt in
  u64 now -> u64 (ss_cancel_requested_monotonic_milliseconds s) ->
  cancelling s -> ss_post_receipt s = Some receipt ->
  ss_cancel_requested_monotonic_milliseconds s <= now ->
  let (d, s') := advance_cancellation now acknowledged exited empty s in
  cd_state d = ss_state s' /\
  match cd_action d with
  | AwaitCooperativeExit =>
      exited = false /\ elapsed < stp_worker_exit_milliseconds timing /\ cancelling s' /\
      (ss_state s' = CooperativeCancelAcknowledged \/
       elapsed < stp_cooperative_cancel_ack_milliseconds timing)
  | AbortJob =>
      ss_state s' = JobAbortRequired /\
      (stp_worker_exit_milliseconds timing <= elapsed \/ (exited = true /\ empty = false) \/
       stp_cooperative_cancel_ack_milliseconds timing <= elapsed)
  | BeginCleanup =>
      ss_state s' = WorkerExited /\ exited = true /\ empty = true /\
      elapsed <= stp_worker_exit_milliseconds timing
  | Quarantine => False
  end.
Proof.
  intros elapsed timing Hn Hc Hst Hp Hle. unfold advance_cancellation. cbv zeta. rewrite Hp.
  assert (in_state s CancelRequested || in_state s CooperativeCancelAcknowledged = true) as ->.
  { unfold in_state. apply orb_true_iff. rewrite !bool_decide_eq_true. exact Hst. }
  destruct (Z.ltb_spec now (ss_cancel_requested_monotonic_milliseconds s)); [lia|].
  rewrite wrap64_sub by done. fold elapsed. fold timing.
  destruct (Z.ltb_spec (stp_worker_exit_milliseconds timing) elapsed); [cbn; split_and!; auto; lia|].
  destruct exited; [destruct empty; cbn; split_and!; auto|].
  destruct (Z.eqb_spec elapsed (stp_worker_exit_milliseconds timing)); [cbn; split_and!; auto; lia|].
  destruct (acknowledged && _) eqn:Ea; [cbn; split_and!; auto; try lia; right; done|].
  destruct (in_state s CooperativeCancelAcknowledged) eqn:Ei; cbn [negb andb].
  - apply in_state_true in Ei. cbn. split_and!; auto; lia.
  - destruct (Z.leb_spec (stp_cooperative_cancel_ack_milliseconds timing) elapsed);
      cbn; split_and!; auto; lia.
Qed.

(** [issue_token] never dereferences a missing worker: in every state a
    session can reach, the model of the unchecked dereference is not taken. *)
Theorem issue_token_never_faults s0 ops now validity :
  fresh_session s0 -> issue_token now validity (atomic_run s0 ops) <> None.
Proof.
  intros Hf. destruct (atomic_run_inv s0 ops (fresh_session_inv _ Hf)) as [[_ Hh] _].
  unfold issue_token. set (s := atomic_run s0 ops) in *.
  destruct (in_state s PostContextAdmitted) eqn:Est; [|done]. apply in_state_true in Est.
  cbn in Hh. rewrite Est in Hh. destruct Hh as (_ & _ & Hw). unfold has in Hw.
  destruct (ss_post_receipt s); [|done]. destruct (ss_worker s); [|done]. cbv zeta. by destruct (_ || _).
Qed.

(** Everything an outer supervisor must have seen of one that stopped itself:
    within a bound that is not zero, neither a success nor a timeout, the exit code
    of a fail-stop, the process gone, its job empty and accounted for, its handles
    and temporary files gone, and no output. *)
Definition fail_stop_evidence (result : NativeWorkerResult) (observed maximum : Z) : Prop :=
  maximum <> 0 /\ observed <= maximum /\ nwr_ok result = false /\ nwr_timed_out result = false /\
  nwr_exit_code result = 86 /\ nwr_worker_exit_observed result = true /\ nwr_job_tree_empty result = true /\
  nwr_job_accounting_reconciled result = true /\ nwr_artifact_handles_closed result = true /\
  nwr_temporary_files_reconciled result = true /\ nwr_output_path result = ""%string.

(** The adapter can be leased: it has an identity, this process does not have it,
    and the system gives it. *)
Definition adapter_available (outcome : GpuLease.NativeLeaseOutcome) (high low : Z) (registry : GpuLease.Registry) : Prop :=
  (high <> 0 \/ low <> 0) /\ GpuLease.make_lease_id high low ∉ registry /\ outcome = GpuLease.NativeAcquired.

Lemma fail_stop_cases outcome result high low observed maximum registry :
  let (receipt, registry') :=
    record_evidence_provider_fail_stop outcome result high low observed maximum registry in
  fs_non_promotable receipt = true /\ fs_retry_prohibited receipt = fs_quarantined receipt /\
  (fs_quarantined receipt = true <-> adapter_available outcome high low registry) /\
  (fs_accepted receipt = true <-> fs_quarantined receipt = true /\ fail_stop_evidence result observed maximum) /\
  registry' = (if fs_quarantined receipt then {[GpuLease.make_lease_id high low]} ∪ registry else registry).
Proof.
  unfold record_evidence_provider_fail_stop, GpuLease.acquire_exclusive_gpu_lease, adapter_available.
  destruct ((high =? 0) && (low =? 0)) eqn:Ez.
  { apply andb_prop in Ez as [->%Z.eqb_eq ->%Z.eqb_eq]. cbn. split_and!; try done; naive_solver. }
  assert (Hne : high <> 0 \/ low <> 0) by (rewrite andb_false_iff, !Z.eqb_neq in Ez; done).
  case_bool_decide as Hin; [cbn; split_and!; try done; naive_solver|].
  set (id := GpuLease.make_lease_id high low) in *.
  assert (Hback : ({[id]} ∪ registry) ∖ {[id]} = registry) by set_solver.
  destruct outcome; cbn [GpuLease.lar_status GpuLease.lar_lease]; rewrite ?Hback;
    try (cbn; split_and!; try done; naive_solver).
  assert (Hiff : forall b, b = true <-> (true = true /\ b = true)) by (intros []; tauto).
  cbn [GpuLease.quarantine_for_process_lifetime GpuLease.release GpuLease.lease_active negb snd].
  match goal with |- context [if negb ?e then _ else _] =>
    assert (He : e = true <-> fail_stop_evidence result observed maximum);
      [unfold fail_stop_evidence|destruct e] end.
  - rewrite !andb_true_iff, !negb_true_iff, !Z.eqb_eq, Z.leb_le, str_empty_true, Z.eqb_neq. tauto.
  - cbn. split_and!; try done. naive_solver.
  - cbn. split_and!; try done; naive_solver.
Qed.


(** ** Witnesses: one complete run *)

Definition demo_identity : NativeWorkerContainmentIdentity :=
  mkContainment 4242 "job-1" "worker.exe" 4 8589934592 60000.

Definition demo_independent : ProcessDeviceMemorySample :=
  mkProcessDevice true "" "nvml-process" 4242 5300 0 4660 419430400.

Definition demo_request_flags : NativeWorkerRequest := default_NativeWorkerRequest.

Definition no_context_evidence : NativeWorkerContextEvidence := mkContextEvidence false 0 0 0 0.
Definition no_heartbeat_evidence : NativeWorkerHeartbeatEvidence := mkHeartbeatEvidence false 0 0 0.

Definition demo_events : list ProtocolEvent :=
  [EvBind demo_identity;
   EvContextReady no_context_evidence (Some (mkLivePost demo_post_request demo_independent)) 5390 5400;
   EvTokenConsumed 1 5450;
   EvTokenConsumed 1 5450;
   EvHeartbeat 5440 no_heartbeat_evidence
     (Some (mkLiveWatchdog demo_watchdog_sample demo_independent)) 5445 5450].

(** Without the repeated message. *)
Definition demo_good_events : list ProtocolEvent :=
  match demo_events with a :: b :: c :: _ :: rest => a :: b :: c :: rest | l => l end.

Definition demo_worker_result : NativeWorkerResult :=
  {| default_NativeWorkerResult with
     nwr_ok := true; nwr_worker_exit_observed := true; nwr_job_tree_empty := true;
     nwr_job_accounting_reconciled := true; nwr_artifact_handles_closed := true;
     nwr_temporary_files_reconciled := true |}.

Definition demo_acquire :=
  acquire_gpu_admission_session GpuLease.NativeAcquired true demo_cell 0 4660 1 ∅ initial_ReceiptStore.

Definition demo_session : Session :=
  match demo_acquire.1.2 with
  | Some s => s
  | None => mkSession demo_cell 0 4660 None LeaseHeld None None None None
              false false false false false 0 0 None (new_issuer 1) ∅ initial_ReceiptStore
  end.

Definition demo_admitted_session : Session := (admit_pre_context demo_pre_request demo_session).2.

Definition demo_rc : RunContext := mkRunContext demo_request_flags 500 200.

Definition demo_exited : Session :=
  (run_contained_worker demo_request_flags 200 true demo_good_events demo_worker_result
     demo_admitted_session).2.

Definition demo_digest_text : string :=
  "00112233445566778899aabbccddeeff00112233445566778899aabbccddeeff".

Definition demo_cleaned : GpuAdmissionSessionState * Session :=
  finalize_cleanup (mkDeviceCleanup true "completed" demo_digest_text demo_digest_text) 6000 demo_exited.

(** The run is granted, exits and is cleaned, and the adapter is free again. *)
Lemma demo_run_cleans :
  ss_state demo_exited = WorkerExited /\ demo_cleaned.1 = Cleaned /\
  bool_decide (GpuLease.make_lease_id 0 4660 ∈ ss_registry demo_cleaned.2) = false.
Proof. vm_compute. repeat split. Qed.

Lemma lease_kept_unless_cleaned_witness :
  GpuLease.make_lease_id 0 4660 ∈ ss_registry (destroy (atomic_run demo_session [AFailClosed])) \/
  (lifecycle `sublist_of` atomic_trace demo_session [AFailClosed] /\
   exists evidence now, ACleanup evidence now ∈ [AFailClosed] /\ evidence_complete evidence = true).
Proof.
  apply (lease_kept_unless_cleaned GpuLease.NativeAcquired true demo_cell 0 4660 1 ∅ initial_ReceiptStore
    demo_session {[GpuLease.make_lease_id 0 4660]}).
  vm_compute. reflexivity.
Defined.

Definition demo_begun : Session := (begin_cleanup 6000 demo_exited).2.

Definition demo_evidence : SupervisorCleanupEvidence :=
  mkCleanupEvidence true true true true true true "completed" demo_digest_text demo_digest_text.

Lemma cleaned_means_complete_witness :
  exists evidence now receipt, ACleanup demo_evidence 6100 = ACleanup evidence now /\
    evidence_complete evidence = true /\ ss_post_receipt demo_begun = Some receipt.
Proof.
  destruct (cleaned_means_complete demo_begun (ACleanup demo_evidence 6100)
    ltac:(vm_compute; discriminate) ltac:(vm_compute; reflexivity)) as (ev & now & r & Hop & Hev & Hr & _).
  exists ev, now, r. exact (conj Hop (conj Hev Hr)).
Defined.

Definition demo_issued : Session :=
  (protocol_run demo_rc (take 2 demo_events) demo_admitted_session).2.

Lemma one_grant_per_session_witness :
  consumptions demo_rc demo_events demo_admitted_session = 1%nat /\
  (consumptions demo_rc demo_events demo_admitted_session <= 1)%nat /\
  ss_state demo_issued = TokenIssued.
Proof.
  split; [vm_compute; reflexivity|].
  split; [exact (proj1 (one_grant_per_session demo_rc demo_events demo_admitted_session))|].
  exact (proj1 (proj2 (one_grant_per_session demo_rc demo_events demo_issued) 1 5450
    (token_consumed 1 5450 demo_issued).2 ltac:(vm_compute; reflexivity))).
Defined.

Definition demo_consumed : Session :=
  (protocol_run demo_rc (take 3 demo_events) demo_admitted_session).2.

Definition demo_beat : bool * Session :=
  heartbeat_with_evidence demo_rc 5440 no_heartbeat_evidence
    (Some (mkLiveWatchdog demo_watchdog_sample demo_independent)) 5445 5450 demo_consumed.

Lemma heartbeat_permission_is_grounded_witness : ss_state demo_beat.2 = WatchdogActive.
Proof.
  apply (heartbeat_permission_is_grounded demo_rc 5440 no_heartbeat_evidence
    (Some (mkLiveWatchdog demo_watchdog_sample demo_independent)) 5445 5450 demo_consumed demo_beat.2).
  vm_compute. reflexivity.
Defined.

Definition demo_cancelling : Session := cooperative_cancel_requested 5500 demo_consumed.

Lemma cancellation_is_bounded_witness :
  cd_state (advance_cancellation 8000 false false false demo_cancelling).1 = JobAbortRequired.
Proof.
  destruct (ss_post_receipt demo_cancelling) as [receipt|] eqn:E; [|vm_compute in E; discriminate E].
  pose proof (cancellation_is_bounded 8000 false false false demo_cancelling receipt
    ltac:(closed_bounds) ltac:(closed_bounds) ltac:(left; vm_compute; reflexivity) E
    ltac:(vm_compute; discriminate)) as H.
  rewrite (surjective_pairing (advance_cancellation 8000 false false false demo_cancelling)) in H.
  destruct H as [H _]. rewrite H. vm_compute. reflexivity.
Defined.

Lemma issue_token_never_faults_witness : issue_token 5400 200 (atomic_run demo_session [ABind demo_identity]) <> None.
Proof.
  apply (issue_token_never_faults demo_session [ABind demo_identity] 5400 200).
  apply (acquired_session_fresh GpuLease.NativeAcquired true demo_cell 0 4660 1 ∅ initial_ReceiptStore
    demo_session {[GpuLease.make_lease_id 0 4660]}).
  vm_compute. reflexivity.
Defined.

Definition demo_stuck_result : NativeWorkerResult :=
  {| default_NativeWorkerResult with
     nwr_exit_code := 86; nwr_worker_exit_observed := true; nwr_job_tree_empty := true;
     nwr_job_accounting_reconciled := true; nwr_artifact_handles_closed := true;
     nwr_temporary_files_reconciled := true |}.

(** The receipt of such a run is accepted. *)
Example demo_fail_stop :
  fs_accepted (record_evidence_provider_fail_stop GpuLease.NativeAcquired demo_stuck_result 0 4660 600 1000 ∅).1 = true.
Proof. vm_compute. reflexivity. Qed.

End AdmissionSession.
