(* ===== verification/CommandLine.v ===== *)
(** * Quoting the worker's command line

    [quote_windows_argument] and [build_command_line] of
    [src/runtime/native_worker.cpp].  The header promises the rules of
    [CommandLineToArgvW] and the Microsoft C runtime; those rules are written
    out below as a reader, and quoting is proved to be a right inverse of it.
    A wide string is the list of its UTF-16 units. *)

From S2P Require Import Prelude.

Module CommandLine.

Abbreviation backslash := 92 (only parsing).
Abbreviation quote := 34 (only parsing).
Abbreviation space := 32 (only parsing).

(** Space, tab, line feed, vertical tab and the double quote. *)
Definition needs_quoting (c : Z) : bool :=
  (c =? 32) || (c =? 9) || (c =? 10) || (c =? 11) || (c =? 34).

(** The loop over the argument; [slash_count] and the text so far are its
    variables. *)
Fixpoint quote_loop (slash_count : nat) (quoted argument : list Z) : list Z :=
  match argument with
  | [] => quoted ++ replicate (slash_count * 2) backslash ++ [quote]
  | c :: rest =>
      if c =? backslash then quote_loop (S slash_count) quoted rest
      else if c =? quote then
        quote_loop 0 (quoted ++ replicate (slash_count * 2 + 1) backslash ++ [quote]) rest
      else quote_loop 0 (quoted ++ replicate slash_count backslash ++ [c]) rest
  end.

Definition quote_windows_argument (argument : list Z) : list Z :=
  match argument with
  | [] => [quote; quote]
  | _ => if existsb needs_quoting argument then quote_loop 0 [quote] argument else argument
  end.

Definition build_command_line (executable : list Z) (arguments : list (list Z)) : list Z :=
  fold_left (fun command argument => (command ++ [space]) ++ quote_windows_argument argument)
    arguments (quote_windows_argument executable).

(** ** The rules of the reader

    Arguments are separated by spaces and tabs outside quotes; a quote starts
    or ends a quoted part; [2n] backslashes before a quote are [n] backslashes
    and the quote keeps its role, [2n + 1] are [n] backslashes and a literal
    quote; other backslashes are literal. *)

Definition blank (c : Z) : bool := (c =? 32) || (c =? 9).

(** [current] is the argument being read, [None] between arguments. *)
Fixpoint read_arguments (in_quotes : bool) (slashes : nat) (current : option (list Z)) (l : list Z)
    : list (list Z) :=
  let text := default [] current in
  match l with
  | [] => match current, slashes with
          | None, O => []
          | _, _ => [text ++ replicate slashes backslash]
          end
  | c :: l' =>
      if c =? backslash then read_arguments in_quotes (S slashes) (Some text) l'
      else if c =? quote then
        let text := text ++ replicate (Nat.div2 slashes) backslash in
        if Nat.odd slashes then read_arguments in_quotes 0 (Some (text ++ [quote])) l'
        else read_arguments (negb in_quotes) 0 (Some text) l'
      else
        let text := text ++ replicate slashes backslash in
        if blank c && negb in_quotes then
          match current with
          | None => read_arguments false 0 None l'
          | Some _ => text :: read_arguments false 0 None l'
          end
        else read_arguments in_quotes 0 (Some (text ++ [c])) l'
  end.

(** The program name has its own rule: backslashes are always literal. *)
Fixpoint read_program (in_quotes : bool) (text l : list Z) : list Z * list Z :=
  match l with
  | [] => (text, [])
  | c :: l' =>
      if c =? quote then read_program (negb in_quotes) text l'
      else if blank c && negb in_quotes then (text, l')
      else read_program in_quotes (text ++ [c]) l'
  end.

Definition read_command_line (l : list Z) : list (list Z) :=
  let (program, rest) := read_program false [] l in program :: read_arguments false 0 None rest.

(** ** Reading back one argument *)

Lemma read_slashes q n k text l :
  read_arguments q k (Some text) (replicate n backslash ++ l) = read_arguments q (n + k) (Some text) l.
Proof.
  revert k; induction n as [|n IH]; intros k; [done|]. cbn. rewrite IH. f_equal. lia.
Qed.

Lemma div2_double n : Nat.div2 (n * 2) = n.
Proof. rewrite Nat.mul_comm. apply Nat.div2_double. Qed.

Lemma div2_double_S n : Nat.div2 (n * 2 + 1) = n.
Proof. rewrite Nat.mul_comm, Nat.add_1_r. apply Nat.div2_succ_double. Qed.

Lemma odd_double n : Nat.odd (n * 2) = false.
Proof. rewrite Nat.odd_mul. apply andb_false_r. Qed.

Lemma odd_double_S n : Nat.odd (n * 2 + 1) = true.
Proof. by rewrite Nat.odd_add, odd_double. Qed.

Lemma quote_loop_app k a b arg : quote_loop k (a ++ b) arg = a ++ quote_loop k b arg.
Proof.
  revert k b; induction arg as [|c arg IH]; intros k b; cbn; [by rewrite <- app_assoc|].
  destruct (c =? 92); [apply IH|]. destruct (c =? 34); rewrite <- app_assoc; apply IH.
Qed.

Lemma quote_loop_nil k b arg : quote_loop k b arg = b ++ quote_loop k [] arg.
Proof. by rewrite <- quote_loop_app, app_nil_r. Qed.

(** Inside quotes, with [k] backslashes still to be written, the reader
    recovers the rest of the argument and leaves the quotes. *)
Lemma read_quoted arg k text l :
  read_arguments true 0 (Some text) (quote_loop k [] arg ++ l) =
  read_arguments false 0 (Some (text ++ replicate k backslash ++ arg)) l.
Proof.
  revert k text; induction arg as [|c arg IH]; intros k text; cbn [quote_loop].
  - rewrite app_nil_l, <- app_assoc, read_slashes. cbn [app read_arguments].
    rewrite Nat.add_0_r, div2_double, odd_double. cbn. by rewrite app_nil_r.
  - destruct (Z.eqb_spec c 92) as [->|Hb].
    { rewrite IH. do 3 f_equal. by rewrite replicate_S_end, <- app_assoc. }
    destruct (Z.eqb_spec c 34) as [->|Hq].
    + rewrite quote_loop_nil, app_nil_l, <- !app_assoc, read_slashes. cbn [app read_arguments].
      rewrite Nat.add_0_r, div2_double_S, odd_double_S. cbn [Z.eqb Pos.eqb default].
      rewrite IH. by rewrite <- !app_assoc.
    + rewrite quote_loop_nil, app_nil_l, <- !app_assoc, read_slashes. cbn [app read_arguments].
      rewrite (proj2 (Z.eqb_neq c 92) Hb), (proj2 (Z.eqb_neq c 34) Hq), andb_false_r, Nat.add_0_r.
      cbn [default]. rewrite IH. by rewrite <- !app_assoc.
Qed.

(** An argument without special characters is read as it stands. *)
Lemma read_plain arg k text l :
  existsb needs_quoting arg = false -> (l = [] \/ exists l', l = space :: l') ->
  read_arguments false k (Some text) (arg ++ l) =
  (text ++ replicate k backslash ++ arg) ::
    match l with [] => [] | _ :: l' => read_arguments false 0 None l' end.
Proof.
  intros Hp Hl. revert k text Hp; induction arg as [|c arg IH]; intros k text Hp.
  - rewrite app_nil_r, app_nil_l. destruct Hl as [->|[l' ->]]; done.
  - cbn [existsb] in Hp. apply orb_false_iff in Hp as [Hc Hp]. unfold needs_quoting in Hc. bool_facts.
    cbn [app read_arguments default]. destruct (Z.eqb_spec c 92) as [->|Hb].
    + rewrite IH by done. do 2 f_equal. by rewrite replicate_S_end, <- app_assoc.
    + rewrite (proj2 (Z.eqb_neq c 34)) by done. unfold blank.
      rewrite (proj2 (Z.eqb_neq c 32)), (proj2 (Z.eqb_neq c 9)) by done. cbn [orb andb].
      rewrite IH by done. by rewrite <- !app_assoc.
Qed.

(** An argument at the start of the text, followed by a separator or the end. *)
Lemma read_one arg l :
  (l = [] \/ exists l', l = space :: l') ->
  read_arguments false 0 None (quote_windows_argument arg ++ l) =
  arg :: match l with [] => [] | _ :: l' => read_arguments false 0 None l' end.
Proof.
  intros Hl. unfold quote_windows_argument. destruct arg as [|c arg].
  - cbn. destruct Hl as [->|[l' ->]]; done.
  - destruct (existsb needs_quoting (c :: arg)) eqn:Hn.
    + rewrite quote_loop_nil, <- app_assoc. change ([quote] ++ ?x) with (quote :: x).
      change (read_arguments false 0 None (quote :: ?x)) with (read_arguments true 0 (Some []) x).
      rewrite read_quoted. cbn [replicate app]. destruct Hl as [->|[l' ->]]; cbn; by rewrite ?app_nil_r.
    + assert (read_arguments false 0 None ((c :: arg) ++ l) = read_arguments false 0 (Some []) ((c :: arg) ++ l)) as ->.
      { cbn [existsb] in Hn. apply orb_false_iff in Hn as [Hc _]. unfold needs_quoting in Hc. bool_facts.
        cbn [app read_arguments default]. unfold blank.
        by rewrite (proj2 (Z.eqb_neq c 32)), (proj2 (Z.eqb_neq c 9)), (proj2 (Z.eqb_neq c 34)) by done. }
      by rewrite read_plain.
Qed.

(** The arguments as they follow the program. *)
Definition argument_text (arguments : list (list Z)) : list Z :=
  List.concat (map (fun a => space :: quote_windows_argument a) arguments).

Lemma build_command_line_text executable arguments :
  build_command_line executable arguments = quote_windows_argument executable ++ argument_text arguments.
Proof.
  unfold build_command_line, argument_text. generalize (quote_windows_argument executable) as acc.
  induction arguments as [|a rest IH]; intros acc; cbn; [by rewrite app_nil_r|].
  rewrite IH. by rewrite <- !app_assoc.
Qed.

Lemma argument_text_shape arguments :
  argument_text arguments = [] \/ exists l, argument_text arguments = space :: l.
Proof. destruct arguments as [|a rest]; [by left|right]. cbn. eauto. Qed.

Lemma read_argument_text arguments :
  match argument_text arguments with [] => [] | _ :: l => read_arguments false 0 None l end = arguments.
Proof.
  induction arguments as [|a rest IH]; [done|].
  change (argument_text (a :: rest)) with ((space :: quote_windows_argument a) ++ argument_text rest).
  cbn [app]. rewrite read_one by apply argument_text_shape. by rewrite IH.
Qed.

(** A program name the operating system allows: no quotes, and no backslash
    at the end. *)
Definition program_name (executable : list Z) : Prop :=
  quote ∉ executable /\ last executable <> Some backslash.

Lemma read_program_plain q text l rest :
  quote ∉ l -> (q = true \/ forallb (fun c => negb (blank c)) l = true) ->
  read_program q text (l ++ rest) = read_program q (text ++ l) rest.
Proof.
  revert text; induction l as [|c l IH]; intros text Hq Hb; [by rewrite app_nil_r|].
  apply not_elem_of_cons in Hq as [Hc Hq]. cbn [app read_program].
  rewrite (proj2 (Z.eqb_neq c 34)) by done.
  assert (blank c && negb q = false) as ->.
  { destruct Hb as [->|Hb]; [apply andb_false_r|]. cbn in Hb. by destruct (blank c). }
  rewrite IH; [by rewrite <- app_assoc|done|]. destruct Hb as [->|Hb]; [by left|right].
  cbn in Hb. by apply andb_true_iff in Hb as [_ ?].
Qed.

Lemma quote_loop_program arg k :
  quote ∉ arg -> last (replicate k backslash ++ arg) <> Some backslash ->
  quote_loop k [] arg = replicate k backslash ++ arg ++ [quote].
Proof.
  revert k; induction arg as [|c arg IH]; intros k Hq Hl.
  - cbn [quote_loop]. destruct k; [done|]. exfalso. apply Hl. by rewrite app_nil_r, replicate_S_end, last_snoc.
  - apply not_elem_of_cons in Hq as [Hc Hq]. cbn [quote_loop].
    destruct (Z.eqb_spec c 92) as [->|Hb].
    + rewrite IH; [by rewrite replicate_S_end, <- app_assoc|done|]. by rewrite replicate_S_end, <- app_assoc.
    + rewrite (proj2 (Z.eqb_neq c 34)) by done. rewrite app_nil_l, quote_loop_nil, IH; [by rewrite <- !app_assoc|done|].
      intros H. apply Hl. cbn in H. rewrite last_app, last_cons. by rewrite H.
Qed.

(** C24. Quoting is undone by the documented command-line rules: for every
    program name the system allows and every list of arguments, whatever
    spaces, tabs, quotes and runs of backslashes they contain and also when
    they are empty, the process that reads the built command line sees exactly
    the program and those arguments, in order. *)
Theorem command_line_round_trip executable arguments :
  program_name executable ->
  read_command_line (build_command_line executable arguments) = executable :: arguments.
Proof.
  intros [Hq Hl]. rewrite build_command_line_text. unfold read_command_line.
  assert (read_program false [] (quote_windows_argument executable ++ argument_text arguments) =
          read_program false executable (argument_text arguments)) as ->.
  { unfold quote_windows_argument. destruct executable as [|c exe]; [done|].
    destruct (existsb needs_quoting (c :: exe)) eqn:Hn.
    - rewrite quote_loop_nil, quote_loop_program by done. cbn [replicate]. rewrite app_nil_l.
      change (read_program false [] (([quote] ++ ?x) ++ ?y)) with (read_program true [] (x ++ y)).
      rewrite <- app_assoc, read_program_plain by auto. done.
    - rewrite read_program_plain; [done|done|right]. apply forallb_forall. intros x Hx.
      apply negb_true_iff. destruct (blank x) eqn:Hb; [|done].
      assert (existsb needs_quoting (c :: exe) = true); [|congruence].
      apply existsb_exists. exists x. split; [done|]. unfold blank in Hb. unfold needs_quoting.
      apply orb_true_iff in Hb as [->| ->]; [done|]. by rewrite orb_true_r. }
  pose proof (read_argument_text arguments) as Hr.
  destruct (argument_text_shape arguments) as [E|[l E]]; rewrite E in *; cbn; by rewrite Hr.
Qed.

(** Spaces, a quote in the middle, a trailing backslash, an empty argument. *)
Lemma command_line_round_trip_witness :
  read_command_line (build_command_line [67; 58; 92; 97; 32; 98]
    [[97; 32; 92]; [97; 92; 34; 98]; []; [120; 92]]) =
  [[67; 58; 92; 97; 32; 98]; [97; 32; 92]; [97; 92; 34; 98]; []; [120; 92]].
Proof.
  apply (command_line_round_trip [67; 58; 92; 97; 32; 98]). split; [|by intros [=]].
  rewrite !not_elem_of_cons. split_and!; try lia. apply not_elem_of_nil.
Defined.

End CommandLine.
