(* ===== verification/NativeProtocol.v ===== *)
(** * The worker protocol of the native runner

    [src/runtime/native_worker.cpp], [run_native_worker_impl]: the lines the
    contained worker sends over its control pipe, the state machine that
    answers them through a [NativeWorkerProtocolSupervisor], the timeouts of
    the supervision loop and the framing of the byte stream.

    The clock readings, pipe writes and the flag of the callback watchdog
    that one line consumes are the fields of a [LineEnv]; every statement
    holds for all of them. *)

From S2P Require Import Prelude.
From S2P Require Import NativeWorker.
Import NativeWorker.
From Stdlib Require Import Ascii String.

Module NativeProtocol.

(** ** [std::istringstream] extraction

    What the parser uses of formatted input in the "C" locale: the remaining
    characters and the fail bit.  An exhausted stream fails the next
    extraction, so the end-of-file bit needs no field of its own. *)

Record InputStream := mkInputStream { is_rest : list ascii; is_fail : bool }.

Definition open_stream (line : list ascii) : InputStream := mkInputStream line false.

(** [stream >> std::string]; a failed extraction leaves the variable as it was. *)
Definition extract_word (s : InputStream) : list ascii * InputStream :=
  if is_fail s then ([], s)
  else match skip_space (is_rest s) with
       | [] => ([], mkInputStream [] true)
       | l => let (word, rest) := span (fun c => negb (is_space c)) l in
              (word, mkInputStream rest false)
       end.

(** The optional sign [num_get] accepts, also for unsigned types. *)
Definition read_sign (l : list ascii) : bool * list ascii :=
  match l with
  | c :: l' => if char_code c =? 45 then (true, l')
               else if char_code c =? 43 then (false, l') else (false, l)
  | [] => (false, [])
  end.

(** [stream >> integer]: [store] maps sign and magnitude to the stored value
    and whether it was representable. *)
Definition extract_integer (store : bool -> Z -> Z * bool) (s : InputStream) : Z * InputStream :=
  if is_fail s then (0, s)
  else match skip_space (is_rest s) with
       | [] => (0, mkInputStream [] true)
       | l =>
           let (negative, l) := read_sign l in
           let (digits, rest) := span is_digit l in
           match digits with
           | [] => (0, mkInputStream rest true)
           | _ => let (value, representable) := store negative (decimal digits) in
                  (value, mkInputStream rest (negb representable))
           end
       end.

(** Unsigned: a minus sign negates modulo the width, a magnitude that does not
    fit stores the maximum and fails. *)
Definition store_unsigned (maximum : Z) (negative : bool) (magnitude : Z) : Z * bool :=
  if maximum <? magnitude then (maximum, false)
  else (if negative then (- magnitude) mod (maximum + 1) else magnitude, true).

(** Signed 32-bit: out of range clamps and fails. *)
Definition store_i32 (negative : bool) (magnitude : Z) : Z * bool :=
  let value := if negative then - magnitude else magnitude in
  if value <? -2147483648 then (-2147483648, false)
  else if 2147483647 <? value then (2147483647, false) else (value, true).

Definition extract_u64 : InputStream -> Z * InputStream := extract_integer (store_unsigned u64_max).
Definition extract_u32 : InputStream -> Z * InputStream := extract_integer (store_unsigned u32_max).
Definition extract_i32 : InputStream -> Z * InputStream := extract_integer store_i32.

(** [parsed >> extra] as a condition: is there another word? *)
Definition has_more (s : InputStream) : bool := negb (is_fail (extract_word s).2).

Definition bytes (s : string) : list ascii := list_ascii_of_string s.

Definition chars_eqb (a b : list ascii) : bool := bool_decide (a = b).

(** ** The state of the protocol *)

Inductive ProtocolState := AwaitContext | TokenDelivered | Active | CancelSent | CancelAcknowledged.

#[export] Instance protocol_state_eq_dec : EqDecision ProtocolState.
Proof. solve_decision. Defined.

(** What is fixed before the worker runs. *)
Record ProtocolConfig := mkProtocolConfig {
  pc_protocol_enabled : bool;
  pc_request : NativeWorkerRequest;
  pc_policy : NativeWorkerProtocolPolicy;
  pc_nonce : list ascii;
  pc_protocol_started : Z;
}.

(** The protocol variables of [run_native_worker_impl] and the result fields
    the protocol fills in; [rn_sent] lists the messages handed to
    [write_protocol]. *)
Record Runner := mkRunner {
  rn_state : ProtocolState;
  rn_token_id : Z;
  rn_heartbeat_sequence : Z;
  rn_last_heartbeat : Z;
  rn_token_consumption_deadline : Z;
  rn_cancel_sent_at : Z;
  rn_pending : list ascii;
  rn_failure : string;
  rn_sent : list (list ascii);
  rn_context_evidence : NativeWorkerContextEvidence;
  rn_last_heartbeat_evidence : NativeWorkerHeartbeatEvidence;
  rn_token_consumed_observed : bool;
  rn_result_heartbeat_sequence : Z;
}.

Definition initial_runner (started : Z) : Runner :=
  mkRunner AwaitContext 0 0 started 0 0 [] "" [] default_NativeWorkerContextEvidence
    default_NativeWorkerHeartbeatEvidence false 0.

(** The two clock readings of [request_protocol_cancel] and whether its
    message was written. *)
Record CancelEnv := mkCancelEnv { ce_requested_at : Z; ce_written : bool; ce_sent_at : Z }.

(** What one protocol line consumes from outside: the authority's live
    evidence, the clock readings in program order, the outcome of the write
    of [ADMIT] and the two reads of [emergency_job_abort]. *)
Record LineEnv (E : Type) := mkLineEnv {
  le_now : Z;
  le_authority : E;
  le_admit_written : bool;
  le_emergency : bool;
  le_emergency_again : bool;
  le_consumed_at : Z;
  le_heartbeat_at : Z;
  le_cancel : CancelEnv;
}.
Arguments mkLineEnv {E}.
Arguments le_now {E}. Arguments le_authority {E}. Arguments le_admit_written {E}.
Arguments le_emergency {E}. Arguments le_emergency_again {E}. Arguments le_consumed_at {E}.
Arguments le_heartbeat_at {E}. Arguments le_cancel {E}.

Definition in_phase (rn : Runner) (st : ProtocolState) : bool := bool_decide (rn_state rn = st).

(** ** Messages of the runner *)

Definition cancel_message (nonce : list ascii) : list ascii :=
  bytes "PRISMINFER/1 CANCEL " ++ nonce ++ ["010"%char].

Definition admit_message (nonce : list ascii) (grant : NativeWorkerAdmissionGrant) : list ascii :=
  bytes "PRISMINFER/1 ADMIT " ++ nonce ++ bytes " " ++ to_string (nag_token_id grant) ++
  bytes " " ++ to_string (nag_effective_cap_bytes grant) ++ ["010"%char].

Section Protocol.
Context {E S : Type} {sup : ProtocolSupervisor E S}.

(** [request_protocol_cancel] *)
Definition request_protocol_cancel (pc : ProtocolConfig) (env : CancelEnv) (reason : string)
    (st : Runner * S) : Runner * S :=
  let (rn, s) := st in
  if negb (pc_protocol_enabled pc) || in_phase rn CancelSent || in_phase rn CancelAcknowledged then st
  else
    let s := sup_cooperative_cancel_requested reason (ce_requested_at env) s in
    let failure := if negb (ce_written env) && str_empty reason
                   then "native_worker_protocol_cancel_write_failed"%string else reason in
    ({| rn with rn_failure := failure; rn_sent := rn_sent rn ++ [cancel_message (pc_nonce pc)];
                rn_state := CancelSent; rn_cancel_sent_at := ce_sent_at env |}, s).

Definition context_evidence_malformed (evidence : NativeWorkerContextEvidence) (parsed : InputStream) : bool :=
  is_fail parsed || has_more parsed || (nce_cuda_mem_info_total_bytes evidence =? 0) ||
  (nce_cuda_mem_info_total_bytes evidence <? nce_cuda_mem_info_free_bytes evidence).

(** The optional evidence of a [CONTEXT_READY] line; [None] when it is started
    and malformed. *)
Definition parse_context_evidence (parsed : InputStream) : option NativeWorkerContextEvidence :=
  let (high, parsed) := extract_i32 parsed in
  if is_fail parsed then Some (mkContextEvidence false high 0 0 0)
  else
  let (low, parsed) := extract_u32 parsed in
  let (free, parsed) := extract_u64 parsed in
  let (total, parsed) := extract_u64 parsed in
  let evidence := mkContextEvidence true high low free total in
  if context_evidence_malformed evidence parsed then None else Some evidence.

Definition grant_unusable (grant : NativeWorkerAdmissionGrant) (now : Z) : bool :=
  negb (nag_admitted grant) || (nag_token_id grant =? 0) || (nag_effective_cap_bytes grant =? 0) ||
  (nag_expires_monotonic_milliseconds grant <=? now).

Definition admission_rejected_reason (grant : NativeWorkerAdmissionGrant) : string :=
  if str_empty (nag_failure_reason grant) then "native_worker_protocol_admission_rejected"%string
  else ("native_worker_protocol_admission_rejected:" ++ nag_failure_reason grant)%string.

(** The [CONTEXT_READY] branch of [process_protocol_line]. *)
Definition on_context_ready (pc : ProtocolConfig) (env : LineEnv E) (parsed : InputStream)
    (st : Runner * S) : Runner * S :=
  let cancel reason := request_protocol_cancel pc (le_cancel env) reason in
  let (rn, s) := st in
  if negb (in_phase rn AwaitContext) then cancel "native_worker_protocol_context_duplicate"%string st
  else
  match parse_context_evidence parsed with
  | None => cancel "native_worker_protocol_context_evidence_invalid"%string st
  | Some evidence =>
  if nwq_require_gpu_protocol_evidence (pc_request pc) && negb (nce_available evidence) then
    cancel "native_worker_protocol_context_evidence_required"%string st
  else
  let (grant, s) := sup_context_ready_with_evidence (le_authority env) (le_now env) evidence s in
  if grant_unusable grant (le_now env) then cancel (admission_rejected_reason grant) (rn, s)
  else if le_emergency env then
    cancel "native_worker_protocol_authority_callback_timeout"%string (rn, s)
  else
  let rn := {| rn with rn_token_id := nag_token_id grant;
                       rn_sent := rn_sent rn ++ [admit_message (pc_nonce pc) grant] |} in
  if negb (le_admit_written env) then
    cancel "native_worker_protocol_token_write_failed"%string (rn, s)
  else
    ({| rn with rn_state := TokenDelivered;
                rn_token_consumption_deadline := nag_expires_monotonic_milliseconds grant;
                rn_context_evidence := evidence |}, s)
  end.

(** The [TOKEN_CONSUMED] branch. *)
Definition on_token_consumed (pc : ProtocolConfig) (env : LineEnv E) (parsed : InputStream)
    (st : Runner * S) : Runner * S :=
  let cancel reason := request_protocol_cancel pc (le_cancel env) reason in
  let (rn, s) := st in
  let (token_id, parsed) := extract_u64 parsed in
  if negb (in_phase rn TokenDelivered) || is_fail parsed || has_more parsed ||
     (token_id <>z rn_token_id rn) then
    cancel "native_worker_protocol_token_rejected"%string st
  else
  let (consumed, s) := sup_token_consumed token_id (le_now env) s in
  if negb consumed || le_emergency env then
    cancel (if le_emergency_again env then "native_worker_protocol_authority_callback_timeout"%string
            else "native_worker_protocol_token_rejected"%string) (rn, s)
  else
    ({| rn with rn_state := Active; rn_last_heartbeat := le_consumed_at env;
                rn_token_consumed_observed := true |}, s).

Definition heartbeat_evidence_malformed (request : NativeWorkerRequest)
    (evidence : NativeWorkerHeartbeatEvidence) (parsed : InputStream) : bool :=
  is_fail parsed || has_more parsed || (nhe_cuda_mem_info_total_bytes evidence =? 0) ||
  (nhe_cuda_mem_info_total_bytes evidence <? nhe_cuda_mem_info_free_bytes evidence) ||
  (nhe_post_admission_payload_bytes evidence =? 0) ||
  (nhe_post_admission_payload_bytes evidence <>z nwq_expected_post_admission_payload_bytes request) ||
  (nwq_maximum_post_admission_payload_bytes request <? nhe_post_admission_payload_bytes evidence).

Definition parse_heartbeat_evidence (request : NativeWorkerRequest) (parsed : InputStream)
    : option NativeWorkerHeartbeatEvidence :=
  let (payload, parsed) := extract_u64 parsed in
  if is_fail parsed then Some (mkHeartbeatEvidence false payload 0 0)
  else
  let (free, parsed) := extract_u64 parsed in
  let (total, parsed) := extract_u64 parsed in
  let evidence := mkHeartbeatEvidence true payload free total in
  if heartbeat_evidence_malformed request evidence parsed then None else Some evidence.

(** The [HEARTBEAT] branch. *)
Definition on_heartbeat (pc : ProtocolConfig) (env : LineEnv E) (parsed : InputStream)
    (st : Runner * S) : Runner * S :=
  let cancel reason := request_protocol_cancel pc (le_cancel env) reason in
  let (rn, s) := st in
  let (sequence, parsed) := extract_u64 parsed in
  if negb (in_phase rn Active) || is_fail parsed || (sequence <>z rn_heartbeat_sequence rn +64 1) then
    cancel "native_worker_protocol_heartbeat_invalid"%string st
  else
  match parse_heartbeat_evidence (pc_request pc) parsed with
  | None => cancel "native_worker_protocol_heartbeat_evidence_invalid"%string st
  | Some evidence =>
  if nwq_require_gpu_protocol_evidence (pc_request pc) && negb (nhe_available evidence) then
    cancel "native_worker_protocol_heartbeat_evidence_required"%string st
  else
  let rn := {| rn with rn_heartbeat_sequence := sequence; rn_last_heartbeat := le_heartbeat_at env |} in
  let (accepted, s) := sup_heartbeat_with_evidence (le_authority env) sequence (le_now env) evidence s in
  let (rn, s) := if negb accepted || le_emergency env
                 then cancel "native_worker_protocol_watchdog_rejected"%string (rn, s) else (rn, s) in
  ({| rn with rn_last_heartbeat_evidence := evidence; rn_result_heartbeat_sequence := sequence |}, s)
  end.

(** The [CANCEL_ACK] branch. *)
Definition on_cancel_ack (pc : ProtocolConfig) (env : LineEnv E) (parsed : InputStream)
    (st : Runner * S) : Runner * S :=
  let (rn, s) := st in
  if negb (in_phase rn CancelSent) || has_more parsed then
    request_protocol_cancel pc (le_cancel env) "native_worker_protocol_cancel_ack_invalid"%string st
  else
    ({| rn with rn_state := CancelAcknowledged |},
     sup_cooperative_cancel_acknowledged (le_now env) s).

(** [line.back() == '\r'] is dropped. *)
Definition strip_cr (line : list ascii) : list ascii :=
  match last line with
  | Some c => if char_code c =? 13 then removelast line else line
  | None => line
  end.

(** [process_protocol_line] *)
Definition process_protocol_line (pc : ProtocolConfig) (env : LineEnv E) (line : list ascii)
    (st : Runner * S) : Runner * S :=
  let cancel reason := request_protocol_cancel pc (le_cancel env) reason st in
  let line := strip_cr line in
  if negb (pc_protocol_enabled pc) || (512 <? Z.of_nat (List.length line)) ||
     existsb (fun c => char_code c =? 13) line then
    cancel "native_worker_protocol_message_invalid"%string
  else
  let (version, parsed) := extract_word (open_stream line) in
  let (type, parsed) := extract_word parsed in
  let (nonce, parsed) := extract_word parsed in
  if negb (chars_eqb version (bytes "PRISMINFER/1")) || negb (chars_eqb nonce (pc_nonce pc)) then
    cancel "native_worker_protocol_identity_mismatch"%string
  else if chars_eqb type (bytes "CONTEXT_READY") then on_context_ready pc env parsed st
  else if chars_eqb type (bytes "TOKEN_CONSUMED") then on_token_consumed pc env parsed st
  else if chars_eqb type (bytes "HEARTBEAT") then on_heartbeat pc env parsed st
  else if chars_eqb type (bytes "CANCEL_ACK") then on_cancel_ack pc env parsed st
  else cancel "native_worker_protocol_message_unknown"%string.

(** *** Framing

    [drain_protocol] appends what one [ReadFile] returned, gives up an
    over-long buffer and processes every complete line.  The environments of
    the successive calls come from [envs]; the counter says how many were
    used. *)

Definition is_newline (c : ascii) : bool := char_code c =? 10.

(** [find('\n')], [substr] and [erase]: the first line and what follows it. *)
Fixpoint next_line (l : list ascii) : option (list ascii * list ascii) :=
  match l with
  | [] => None
  | c :: l' =>
      if is_newline c then Some ([], l')
      else match next_line l' with
           | Some (line, rest) => Some (c :: line, rest)
           | None => None
           end
  end.

Definition Drain : Type := nat * (Runner * S).

Definition set_pending (pending : list ascii) (st : Runner * S) : Runner * S :=
  let (rn, s) := st in ({| rn with rn_pending := pending |}, s).

(** The [while] over the lines of the buffer; [fuel] bounds the number of
    lines by the length of the buffer. *)
Fixpoint process_lines (pc : ProtocolConfig) (envs : nat -> LineEnv E) (fuel : nat) (d : Drain) : Drain :=
  match fuel with
  | O => d
  | Datatypes.S fuel =>
      let (n, st) := d in
      match next_line (rn_pending st.1) with
      | None => d
      | Some (line, rest) =>
          process_lines pc envs fuel
            (Datatypes.S n, process_protocol_line pc (envs n) line (set_pending rest st))
      end
  end.

Definition drain_chunk (pc : ProtocolConfig) (envs : nat -> LineEnv E) (d : Drain) (chunk : list ascii) : Drain :=
  let (n, st) := d in
  let pending := rn_pending st.1 ++ chunk in
  let st := set_pending pending st in
  let (n, st) :=
    if 1024 <? Z.of_nat (List.length pending) then
      (Datatypes.S n,
       set_pending [] (request_protocol_cancel pc (le_cancel (envs n))
                         "native_worker_protocol_buffer_exceeded"%string st))
    else (n, st) in
  process_lines pc envs (List.length (rn_pending st.1)) (n, st).

(** [drain_protocol], the reads that return data. *)
Definition drain_protocol (pc : ProtocolConfig) (envs : nat -> LineEnv E) (chunks : list (list ascii))
    (d : Drain) : Drain :=
  if negb (pc_protocol_enabled pc) then d else fold_left (drain_chunk pc envs) chunks d.

(** *** Timeouts of the supervision loop

    The protocol part of one loop iteration: cancel a worker whose state has
    lasted too long, then decide whether the loop goes on. *)
Definition apply_timeouts (pc : ProtocolConfig) (now : Z) (env : CancelEnv) (st : Runner * S) : Runner * S :=
  let policy := pc_policy pc in
  let rn := st.1 in
  if in_phase rn AwaitContext &&
     (npp_context_ready_timeout_ms policy <=? now -64 pc_protocol_started pc) then
    request_protocol_cancel pc env "native_worker_protocol_context_timeout"%string st
  else if in_phase rn TokenDelivered && (rn_token_consumption_deadline rn <=? now) then
    request_protocol_cancel pc env "native_worker_protocol_token_consumption_timeout"%string st
  else if in_phase rn Active && (npp_heartbeat_timeout_ms policy <=? now -64 rn_last_heartbeat rn) then
    request_protocol_cancel pc env "native_worker_protocol_heartbeat_timeout"%string st
  else st.

Definition poll_timeouts (pc : ProtocolConfig) (now : Z) (env : CancelEnv) (st : Runner * S)
    : bool * (Runner * S) :=
  if negb (pc_protocol_enabled pc) then (true, st)
  else
  let policy := pc_policy pc in
  let st := apply_timeouts pc now env st in
  let rn := st.1 in
  if in_phase rn CancelSent &&
     (npp_cooperative_cancel_ack_timeout_ms policy <=? now -64 rn_cancel_sent_at rn) then (false, st)
  else if in_phase rn CancelAcknowledged &&
          (npp_worker_exit_timeout_ms policy <=? now -64 rn_cancel_sent_at rn) then (false, st)
  else (true, st).

End Protocol.

(** ** The order of the calls

    Any supervisor can be made to keep a log of the calls it receives and the
    answers it gives. *)

Inductive Call (E : Type) :=
| CallBind (identity : NativeWorkerContainmentIdentity) (answer : bool)
| CallContextReady (e : E) (now : Z) (evidence : NativeWorkerContextEvidence)
    (grant : NativeWorkerAdmissionGrant)
| CallTokenConsumed (token_id now : Z) (answer : bool)
| CallHeartbeat (e : E) (sequence now : Z) (evidence : NativeWorkerHeartbeatEvidence) (answer : bool)
| CallCancelRequested (reason : string) (now : Z)
| CallCancelAcknowledged (now : Z).
Arguments CallBind {E}. Arguments CallContextReady {E}. Arguments CallTokenConsumed {E}.
Arguments CallHeartbeat {E}. Arguments CallCancelRequested {E}. Arguments CallCancelAcknowledged {E}.

#[export] Instance recorded {E S} (sup : ProtocolSupervisor E S) : ProtocolSupervisor E (S * list (Call E)) := {|
  sup_bind_owned_worker identity st :=
    let (answer, s) := sup_bind_owned_worker identity st.1 in
    (answer, (s, st.2 ++ [CallBind identity answer]));
  sup_context_ready_with_evidence e now evidence st :=
    let (grant, s) := sup_context_ready_with_evidence e now evidence st.1 in
    (grant, (s, st.2 ++ [CallContextReady e now evidence grant]));
  sup_token_consumed token_id now st :=
    let (answer, s) := sup_token_consumed token_id now st.1 in
    (answer, (s, st.2 ++ [CallTokenConsumed token_id now answer]));
  sup_heartbeat_with_evidence e sequence now evidence st :=
    let (answer, s) := sup_heartbeat_with_evidence e sequence now evidence st.1 in
    (answer, (s, st.2 ++ [CallHeartbeat e sequence now evidence answer]));
  sup_cooperative_cancel_requested reason now st :=
    (sup_cooperative_cancel_requested reason now st.1, st.2 ++ [CallCancelRequested reason now]);
  sup_cooperative_cancel_acknowledged now st :=
    (sup_cooperative_cancel_acknowledged now st.1, st.2 ++ [CallCancelAcknowledged now]);
|}.

(** The protocol as the header of [run_supervised_native_worker] promises it:
    one context announcement, one consumption of the token that was granted,
    then heartbeats in sequence; a refusal can only be followed by a
    cancellation; cancellation is requested once and acknowledged at most
    once, and nothing is asked after it. *)

Inductive Phase := Waiting | Delivered (token_id : Z) | Working (sequence : Z) | Refused
                 | Cancelling | Acknowledged.

Definition context_evidence_sound (request : NativeWorkerRequest) (ev : NativeWorkerContextEvidence) : bool :=
  if nce_available ev then
    (0 <? nce_cuda_mem_info_total_bytes ev) &&
    (nce_cuda_mem_info_free_bytes ev <=? nce_cuda_mem_info_total_bytes ev)
  else negb (nwq_require_gpu_protocol_evidence request).

Definition heartbeat_evidence_sound (request : NativeWorkerRequest) (ev : NativeWorkerHeartbeatEvidence) : bool :=
  if nhe_available ev then
    (0 <? nhe_cuda_mem_info_total_bytes ev) &&
    (nhe_cuda_mem_info_free_bytes ev <=? nhe_cuda_mem_info_total_bytes ev) &&
    (nhe_post_admission_payload_bytes ev =? nwq_expected_post_admission_payload_bytes request) &&
    (nhe_post_admission_payload_bytes ev <=? nwq_maximum_post_admission_payload_bytes request)
  else negb (nwq_require_gpu_protocol_evidence request).

Definition spec_step {E} (request : NativeWorkerRequest) (ph : Phase) (c : Call E) : option Phase :=
  match ph, c with
  | Waiting, CallContextReady _ now evidence grant =>
      if context_evidence_sound request evidence then
        Some (if grant_unusable grant now then Refused else Delivered (nag_token_id grant))
      else None
  | Delivered id, CallTokenConsumed token_id _ answer =>
      if token_id =? id then Some (if answer then Working 0 else Refused) else None
  | Working n, CallHeartbeat _ sequence _ evidence answer =>
      if (sequence =? n +64 1) && heartbeat_evidence_sound request evidence then
        Some (if answer then Working sequence else Refused)
      else None
  | (Waiting | Delivered _ | Working _ | Refused), CallCancelRequested _ _ => Some Cancelling
  | Cancelling, CallCancelAcknowledged _ => Some Acknowledged
  | _, _ => None
  end.

Fixpoint spec_run {E} (request : NativeWorkerRequest) (ph : Phase) (calls : list (Call E)) : option Phase :=
  match calls with
  | [] => Some ph
  | c :: calls => ph ← spec_step request ph c; spec_run request ph calls
  end.

Lemma spec_run_app {E} request ph (a b : list (Call E)) :
  spec_run request ph (a ++ b) = ph ← spec_run request ph a; spec_run request ph b.
Proof. revert ph; induction a as [|c a IH]; intros ph; cbn; [done|]. by destruct (spec_step _ _ _); cbn. Qed.

(** What reaches the runner: bytes of the control pipe, or one evaluation of
    the timeouts. *)
Inductive RunnerInput :=
| InBytes (chunk : list ascii)
| InTick (now : Z) (env : CancelEnv).

Definition runner_input {E S} {sup : ProtocolSupervisor E S} (pc : ProtocolConfig)
    (envs : nat -> LineEnv E) (d : nat * (Runner * S)) (i : RunnerInput) : nat * (Runner * S) :=
  match i with
  | InBytes chunk => drain_protocol pc envs [chunk] d
  | InTick now env => (d.1, (poll_timeouts pc now env d.2).2)
  end.

Definition runner_run {E S} {sup : ProtocolSupervisor E S} (pc : ProtocolConfig)
    (envs : nat -> LineEnv E) (inputs : list RunnerInput) (d : nat * (Runner * S)) : nat * (Runner * S) :=
  fold_left (runner_input pc envs) inputs d.

Definition cancelled (rn : Runner) : bool := in_phase rn CancelSent || in_phase rn CancelAcknowledged.

Definition phase_of (rn : Runner) : Phase :=
  match rn_state rn with
  | AwaitContext => Waiting
  | TokenDelivered => Delivered (rn_token_id rn)
  | Active => Working (rn_heartbeat_sequence rn)
  | CancelSent => Cancelling
  | CancelAcknowledged => Acknowledged
  end.

(** The [ADMIT] messages sent so far belong to a usable grant of the log, and
    there is at most one. *)
Definition admits_granted {E} (nonce : list ascii) (log : list (Call E)) (admits : list (list ascii)) : Prop :=
  admits = [] \/
  exists e now evidence grant, CallContextReady e now evidence grant ∈ log /\
    grant_unusable grant now = false /\ admits = [admit_message nonce grant].

(** ** Ranges of extracted integers *)

Lemma decimal_nonneg l acc :
  0 <= acc -> Forall (fun c => is_digit c = true) l ->
  0 <= fold_left (fun acc c => acc * 10 + (char_code c - 48)) l acc.
Proof.
  revert acc; induction l as [|c l IH]; intros acc Hacc Hl; [done|]. inversion Hl as [|?? Hc Hl']; subst.
  cbn. apply IH; [|done]. unfold is_digit, in_range in Hc. bool_facts. nia.
Qed.

Lemma extract_unsigned_range maximum s :
  0 <= maximum -> 0 <= (extract_integer (store_unsigned maximum) s).1 <= maximum.
Proof.
  intros Hm. unfold extract_integer. destruct (is_fail s); [cbn; lia|].
  destruct (skip_space (is_rest s)) as [|c l]; [cbn; lia|]. destruct (read_sign (c :: l)) as [neg l'].
  pose proof (span_forall is_digit l') as Hd. destruct (span is_digit l') as [digits rest]; cbn in Hd.
  destruct digits as [|d ds]; [cbn; lia|].
  pose proof (decimal_nonneg (d :: ds) 0 ltac:(lia) Hd) as Hn. fold (decimal (d :: ds)) in Hn.
  unfold store_unsigned. destruct (Z.ltb_spec maximum (decimal (d :: ds))); [cbn; lia|].
  destruct neg; cbn [fst]; [|lia].
  pose proof (Z.mod_pos_bound (- decimal (d :: ds)) (maximum + 1)). lia.
Qed.

Lemma extract_u64_range s : u64 (extract_u64 s).1.
Proof. apply (extract_unsigned_range u64_max). lia. Qed.

(** Evidence that parses is sound. *)
Lemma parse_context_sound parsed evidence :
  parse_context_evidence parsed = Some evidence -> nce_available evidence = true ->
  0 < nce_cuda_mem_info_total_bytes evidence /\
  nce_cuda_mem_info_free_bytes evidence <= nce_cuda_mem_info_total_bytes evidence.
Proof.
  unfold parse_context_evidence. destruct (extract_i32 parsed) as [high p1].
  destruct (is_fail p1); [by intros [= <-]|]. destruct (extract_u32 p1) as [low p2].
  destruct (extract_u64 p2) as [free p3]. pose proof (extract_u64_range p3).
  destruct (extract_u64 p3) as [total p4]. unfold context_evidence_malformed.
  destruct (_ || _) eqn:E; [done|]. intros [= <-] _. cbn in *. unfold u64 in *. bool_facts. lia.
Qed.

Lemma parse_heartbeat_sound request parsed evidence :
  parse_heartbeat_evidence request parsed = Some evidence -> nhe_available evidence = true ->
  0 < nhe_cuda_mem_info_total_bytes evidence /\
  nhe_cuda_mem_info_free_bytes evidence <= nhe_cuda_mem_info_total_bytes evidence /\
  nhe_post_admission_payload_bytes evidence = nwq_expected_post_admission_payload_bytes request /\
  nhe_post_admission_payload_bytes evidence <= nwq_maximum_post_admission_payload_bytes request.
Proof.
  unfold parse_heartbeat_evidence. destruct (extract_u64 parsed) as [payload p1].
  destruct (is_fail p1); [by intros [= <-]|].
  destruct (extract_u64 p1) as [free p2]. pose proof (extract_u64_range p2).
  destruct (extract_u64 p2) as [total p3]. unfold heartbeat_evidence_malformed.
  destruct (_ || _) eqn:E; [done|]. intros [= <-] _. cbn in *. unfold u64 in *. bool_facts. lia.
Qed.

Lemma context_evidence_accepted request parsed evidence :
  parse_context_evidence parsed = Some evidence ->
  nwq_require_gpu_protocol_evidence request && negb (nce_available evidence) = false ->
  context_evidence_sound request evidence = true.
Proof.
  intros Hp Hr. unfold context_evidence_sound. destruct (nce_available evidence) eqn:Ha.
  - pose proof (parse_context_sound _ _ Hp Ha). bool_iff. lia.
  - by destruct (nwq_require_gpu_protocol_evidence request).
Qed.

Lemma heartbeat_evidence_accepted request parsed evidence :
  parse_heartbeat_evidence request parsed = Some evidence ->
  nwq_require_gpu_protocol_evidence request && negb (nhe_available evidence) = false ->
  heartbeat_evidence_sound request evidence = true.
Proof.
  intros Hp Hr. unfold heartbeat_evidence_sound. destruct (nhe_available evidence) eqn:Ha.
  - pose proof (parse_heartbeat_sound _ _ _ Hp Ha). bool_iff. lia.
  - by destruct (nwq_require_gpu_protocol_evidence request).
Qed.

(** ** Induction over a run

    A predicate that the cancellation and the four message handlers preserve,
    and that does not look at the buffer, holds after every input. *)
Section RunInduction.
Context {E S : Type} {sup : ProtocolSupervisor E S} (pc : ProtocolConfig) (P : Runner * S -> Prop).
Hypothesis P_pending : forall p st, P st -> P (set_pending p st).
Hypothesis P_cancel : forall env reason st, P st -> P (request_protocol_cancel pc env reason st).
Hypothesis P_context : forall env parsed st, P st -> P (on_context_ready pc env parsed st).
Hypothesis P_token : forall env parsed st, P st -> P (on_token_consumed pc env parsed st).
Hypothesis P_heartbeat : forall env parsed st, P st -> P (on_heartbeat pc env parsed st).
Hypothesis P_ack : forall env parsed st, P st -> P (on_cancel_ack pc env parsed st).

Lemma line_preserves env line st : P st -> P (process_protocol_line pc env line st).
Proof using P_cancel P_context P_token P_heartbeat P_ack.
  intros H. unfold process_protocol_line. case_match; [by apply P_cancel|].
  destruct (extract_word _) as [version p1]. destruct (extract_word p1) as [type p2].
  destruct (extract_word p2) as [nonce p3]. repeat (case_match; [by auto|]). by apply P_cancel.
Qed.

Lemma process_lines_preserves envs fuel d : P d.2 -> P (process_lines pc envs fuel d).2.
Proof using P_cancel P_context P_token P_heartbeat P_ack P_pending.
  revert d; induction fuel as [|fuel IH]; intros [n st] H; cbn; [done|].
  destruct (next_line _) as [[line rest]|]; [|done]. by apply IH, line_preserves, P_pending.
Qed.

Lemma input_preserves envs d i : P d.2 -> P (runner_input pc envs d i).2.
Proof using P_cancel P_context P_token P_heartbeat P_ack P_pending.
  destruct d as [n st]. destruct i as [chunk|now env]; cbn [runner_input snd]; intros H.
  - unfold drain_protocol. case_match; [done|]. cbn [fold_left]. unfold drain_chunk.
    destruct (1024 <? _); apply process_lines_preserves; cbn [snd]; auto.
  - unfold poll_timeouts. case_match; [done|].
    assert (P (apply_timeouts pc now env st)) as Hst; [|by repeat case_match].
    unfold apply_timeouts. repeat (case_match; [by apply P_cancel|]). done.
Qed.

Lemma run_preserves envs inputs d : P d.2 -> P (runner_run pc envs inputs d).2.
Proof using P_cancel P_context P_token P_heartbeat P_ack P_pending.
  unfold runner_run. revert d; induction inputs as [|i inputs IH]; intros d H; cbn; [done|].
  by apply IH, input_preserves.
Qed.
End RunInduction.

Section Order.
Context {E S : Type} {sup : ProtocolSupervisor E S}.
Context (pc : ProtocolConfig) (Henabled : pc_protocol_enabled pc = true).

Definition cancellable (ph : Phase) : Prop :=
  match ph with Cancelling | Acknowledged => False | _ => True end.

(** A state between two calls of one line: a cancellation may follow. *)
Definition midway (st : Runner * (S * list (Call E))) : Prop :=
  let '(rn, (_, log)) := st in
  cancelled rn = false /\ admits_granted (pc_nonce pc) log (rn_sent rn) /\
  exists ph, spec_run (pc_request pc) Waiting log = Some ph /\ cancellable ph.

(** The invariant between lines. *)
Definition in_order (st : Runner * (S * list (Call E))) : Prop :=
  let '(rn, (_, log)) := st in
  spec_run (pc_request pc) Waiting log = Some (phase_of rn) /\
  (rn_state rn = AwaitContext \/ rn_state rn = TokenDelivered -> rn_heartbeat_sequence rn = 0) /\
  (rn_state rn = AwaitContext -> rn_sent rn = []) /\
  exists admits, admits_granted (pc_nonce pc) log admits /\
    rn_sent rn = admits ++ (if cancelled rn then [cancel_message (pc_nonce pc)] else []).

Lemma in_order_midway st : in_order st -> cancelled st.1 = false -> midway st.
Proof.
  destruct st as [rn [s log]]. intros (Hrun & _ & _ & admits & Ha & Hs) Hc. cbn in Hc |- *.
  rewrite Hc, app_nil_r in Hs. rewrite Hs. split_and!; [done..|].
  exists (phase_of rn). split; [done|]. revert Hc. unfold cancelled, in_phase, phase_of, cancellable.
  by destruct (rn_state rn).
Qed.

Lemma admits_granted_mono nonce (log more : list (Call E)) admits :
  admits_granted nonce log admits -> admits_granted nonce (log ++ more) admits.
Proof.
  intros [->|(e & now & ev & g & Hin & ?)]; [by left|right]. exists e, now, ev, g.
  rewrite elem_of_app. auto.
Qed.

Lemma cancel_in_order env reason st :
  in_order st \/ midway st -> in_order (request_protocol_cancel pc env reason st).
Proof.
  intros H. destruct st as [rn [s log]]. unfold request_protocol_cancel. rewrite Henabled.
  cbn [negb orb]. fold (cancelled rn). destruct (cancelled rn) eqn:Hc.
  { destruct H as [H|H]; [done|]. destruct H as (Hc' & _). congruence. }
  assert (midway (rn, (s, log))) as (_ & Ha & ph & Hrun & Hph).
  { destruct H; [by apply in_order_midway|done]. }
  cbn [in_order]. cbn [sup_cooperative_cancel_requested recorded fst snd]. split_and!.
  - rewrite spec_run_app, Hrun. cbn. by destruct ph.
  - by intros [[=]|[=]].
  - by intros [=].
  - exists (rn_sent rn). split; [by apply admits_granted_mono|done].
Qed.

Lemma spec_run_snoc request (log : list (Call E)) ph c ph' :
  spec_run request Waiting log = Some ph -> spec_step request ph c = Some ph' ->
  spec_run request Waiting (log ++ [c]) = Some ph'.
Proof. intros H1 H2. rewrite spec_run_app, H1. cbn. by rewrite H2. Qed.

Lemma in_phase_true rn st : in_phase rn st = true <-> rn_state rn = st.
Proof. unfold in_phase. by rewrite bool_decide_eq_true. Qed.

Lemma context_ready_in_order env parsed st :
  in_order st -> in_order (on_context_ready pc env parsed st).
Proof.
  intros H. destruct st as [rn [s log]]. unfold on_context_ready.
  destruct (in_phase rn AwaitContext) eqn:Hst; cbn [negb]; [|by apply cancel_in_order; left].
  apply in_phase_true in Hst.
  destruct (parse_context_evidence parsed) as [ev|] eqn:Hev; [|by apply cancel_in_order; left].
  destruct (_ && _) eqn:Hreq; [by apply cancel_in_order; left|].
  pose proof (context_evidence_accepted _ _ _ Hev Hreq) as Hsound.
  destruct H as (Hrun & Hhb & Hsent & _). cbn [recorded sup_context_ready_with_evidence fst snd].
  destruct (sup_context_ready_with_evidence (le_authority env) (le_now env) ev s) as [g s'].
  specialize (Hsent Hst). unfold phase_of in Hrun. rewrite Hst in Hrun.
  set (log' := log ++ [CallContextReady (le_authority env) (le_now env) ev g]).
  assert (spec_run (pc_request pc) Waiting log' =
          Some (if grant_unusable g (le_now env) then Refused else Delivered (nag_token_id g))) as Hrun'.
  { eapply spec_run_snoc; [done|]. cbn. by rewrite Hsound. }
  assert (cancelled rn = false) as Hc by (unfold cancelled, in_phase; by rewrite Hst).
  assert (CallContextReady (le_authority env) (le_now env) ev g ∈ log') as Hin
    by (apply elem_of_app; right; by apply list_elem_of_singleton).
  destruct (grant_unusable g (le_now env)) eqn:Hg.
  { apply cancel_in_order. right. split_and!; [done|left; done|eexists; by split]. }
  destruct (le_emergency env).
  { apply cancel_in_order. right. split_and!; [done|left; done|eexists; by split]. }
  destruct (le_admit_written env); cbn [negb].
  - cbn [in_order]. cbn [rn_sent rn_state rn_heartbeat_sequence]. split_and!.
    + done.
    + intros _. apply Hhb. by left.
    + by intros [=].
    + exists [admit_message (pc_nonce pc) g]. rewrite Hsent. split; [|done].
      right. by exists (le_authority env), (le_now env), ev, g.
  - apply cancel_in_order. right. split_and!; [done| |by eexists].
    cbn [rn_sent]. rewrite Hsent. right. by exists (le_authority env), (le_now env), ev, g.
Qed.

Lemma sent_extend rn rn' (log : list (Call E)) more :
  cancelled rn = false -> cancelled rn' = false -> rn_sent rn' = rn_sent rn ->
  (exists admits, admits_granted (pc_nonce pc) log admits /\
    rn_sent rn = admits ++ (if cancelled rn then [cancel_message (pc_nonce pc)] else [])) ->
  exists admits, admits_granted (pc_nonce pc) (log ++ more) admits /\
    rn_sent rn' = admits ++ (if cancelled rn' then [cancel_message (pc_nonce pc)] else []).
Proof.
  intros Hc Hc' Hs (admits & Ha & Hsent). rewrite Hc in Hsent. exists admits. rewrite Hc', Hs.
  split; [by apply admits_granted_mono|done].
Qed.

Lemma token_consumed_in_order env parsed st :
  in_order st -> in_order (on_token_consumed pc env parsed st).
Proof.
  intros H. destruct st as [rn [s log]]. unfold on_token_consumed.
  destruct (extract_u64 parsed) as [id parsed'].
  destruct (_ || _) eqn:Hg; [by apply cancel_in_order; left|]. bool_facts.
  pose proof H as (Hrun & Hhb & _ & Hsent). cbn [recorded sup_token_consumed fst snd].
  destruct (sup_token_consumed id (le_now env) s) as [answer s'].
  assert (rn_state rn = TokenDelivered) as Hst by (by apply in_phase_true).
  assert (cancelled rn = false) as Hc by (unfold cancelled, in_phase; by rewrite Hst).
  unfold phase_of in Hrun. rewrite Hst in Hrun.
  set (c := CallTokenConsumed id (le_now env) answer).
  assert (spec_run (pc_request pc) Waiting (log ++ [c]) = Some (if answer then Working 0 else Refused)) as Hrun'.
  { eapply spec_run_snoc; [done|]. cbn. subst id. by rewrite Z.eqb_refl. }
  destruct (negb answer || le_emergency env) eqn:Hans.
  - apply cancel_in_order. right. split_and!; [done| |eexists; split; [done|by destruct answer]].
    destruct (in_order_midway _ H Hc) as (_ & Ha & _). by apply admits_granted_mono.
  - apply orb_false_iff in Hans as [Hans _]. destruct answer; [|done].
    cbn [in_order]. split_and!.
    + unfold phase_of. cbn. rewrite Hrun'. by rewrite Hhb by auto.
    + by intros [[=]|[=]].
    + by intros [=].
    + by eapply sent_extend.
Qed.

Lemma heartbeat_in_order env parsed st :
  in_order st -> in_order (on_heartbeat pc env parsed st).
Proof.
  intros H. destruct st as [rn [s log]]. unfold on_heartbeat.
  destruct (extract_u64 parsed) as [seq parsed'].
  destruct (_ || _) eqn:Hg; [by apply cancel_in_order; left|]. bool_facts.
  destruct (parse_heartbeat_evidence _ _) as [ev|] eqn:Hev; [|by apply cancel_in_order; left].
  destruct (_ && _) eqn:Hreq; [by apply cancel_in_order; left|].
  pose proof (heartbeat_evidence_accepted _ _ _ Hev Hreq) as Hsound.
  pose proof H as (Hrun & _ & _ & Hsent). cbn [recorded sup_heartbeat_with_evidence fst snd].
  destruct (sup_heartbeat_with_evidence (le_authority env) seq (le_now env) ev s) as [answer s'].
  assert (rn_state rn = Active) as Hst by (by apply in_phase_true).
  assert (cancelled rn = false) as Hc by (unfold cancelled, in_phase; by rewrite Hst).
  unfold phase_of in Hrun. rewrite Hst in Hrun.
  set (c := CallHeartbeat (le_authority env) seq (le_now env) ev answer).
  assert (spec_run (pc_request pc) Waiting (log ++ [c]) = Some (if answer then Working seq else Refused)) as Hrun'.
  { eapply spec_run_snoc; [done|]. cbn. rewrite Hsound. subst seq. by rewrite Z.eqb_refl. }
  set (rn' := {| rn with rn_heartbeat_sequence := seq; rn_last_heartbeat := le_heartbeat_at env |}).
  assert (in_order (if negb answer || le_emergency env
            then request_protocol_cancel pc (le_cancel env) "native_worker_protocol_watchdog_rejected"
                   (rn', (s', log ++ [c])) else (rn', (s', log ++ [c])))) as Hfin.
  { destruct (negb answer || le_emergency env) eqn:Hans.
    - apply cancel_in_order. right. split_and!; [done| |eexists; split; [done|by destruct answer]].
      destruct (in_order_midway _ H Hc) as (_ & Ha & _). by apply admits_granted_mono.
    - apply orb_false_iff in Hans as [Hans _]. destruct answer; [|done].
      cbn [in_order]. subst rn'. split_and!.
      + unfold phase_of. cbn. by rewrite Hst.
      + cbn. rewrite Hst. by intros [[=]|[=]].
      + cbn. rewrite Hst. by intros [=].
      + by eapply sent_extend. }
  revert Hfin. by destruct (_ || _); [destruct (request_protocol_cancel _ _ _ _) as [rn2 [s2 log2]]|].
Qed.

Lemma cancel_ack_in_order env parsed st :
  in_order st -> in_order (on_cancel_ack pc env parsed st).
Proof.
  intros H. destruct st as [rn [s log]]. unfold on_cancel_ack.
  destruct (_ || _) eqn:Hg; [by apply cancel_in_order; left|]. bool_facts.
  assert (rn_state rn = CancelSent) as Hst by (by apply in_phase_true).
  destruct H as (Hrun & _ & _ & admits & Ha & Hs). unfold phase_of in Hrun. rewrite Hst in Hrun.
  assert (cancelled rn = true) as Hc by (unfold cancelled, in_phase; by rewrite Hst). rewrite Hc in Hs.
  cbn [in_order]. cbn. split_and!; [by eapply spec_run_snoc|by intros [[=]|[=]]|by intros [=]|].
  exists admits. split; [by apply admits_granted_mono|done].
Qed.

Lemma run_in_order envs inputs d : in_order d.2 -> in_order (runner_run pc envs inputs d).2.
Proof.
  apply (run_preserves pc in_order); auto using context_ready_in_order, token_consumed_in_order,
    heartbeat_in_order, cancel_ack_in_order, cancel_in_order.
  by intros p [rn [s log]].
Qed.

End Order.

(** ** Framing of the byte stream *)

(** The complete lines of a stream and the unfinished last one. *)
Fixpoint split_lines (l : list ascii) : list (list ascii) * list ascii :=
  match l with
  | [] => ([], [])
  | c :: l' =>
      let (lines, rest) := split_lines l' in
      if is_newline c then ([] :: lines, rest)
      else match lines with
           | [] => ([], c :: rest)
           | line :: lines => ((c :: line) :: lines, rest)
           end
  end.

(** No read finds more than 1024 bytes in the buffer. *)
Fixpoint chunks_fit (pending : list ascii) (chunks : list (list ascii)) : Prop :=
  match chunks with
  | [] => True
  | chunk :: chunks =>
      (List.length (pending ++ chunk) <= 1024)%nat /\ chunks_fit (split_lines (pending ++ chunk)).2 chunks
  end.

Lemma next_line_split l :
  match next_line l with
  | Some (line, rest) =>
      split_lines l = (line :: (split_lines rest).1, (split_lines rest).2) /\
      (List.length rest < List.length l)%nat
  | None => split_lines l = ([], l)
  end.
Proof.
  induction l as [|c l IH]; cbn; [done|]. destruct (is_newline c).
  - destruct (split_lines l); cbn. split; [done|lia].
  - destruct (next_line l) as [[line rest]|]; cbn.
    + destruct IH as [-> Hl]. cbn. split; [done|lia].
    + by rewrite IH.
Qed.

Lemma split_lines_app a b :
  split_lines (a ++ b) =
  ((split_lines a).1 ++ (split_lines ((split_lines a).2 ++ b)).1,
   (split_lines ((split_lines a).2 ++ b)).2).
Proof.
  induction a as [|c a IH]; cbn; [by destruct (split_lines b)|]. rewrite IH. clear IH.
  destruct (split_lines a) as [ls r]; cbn. destruct (is_newline c) eqn:Hc; cbn; [done|].
  destruct ls as [|x ls]; cbn; [|done]. by destruct (split_lines (r ++ b)) as [lb rb]; rewrite Hc; destruct lb.
Qed.

Lemma split_lines_rest l : next_line (split_lines l).2 = None.
Proof.
  induction l as [|c l IH]; [done|]. cbn [split_lines]. pose proof (next_line_split l) as Hn.
  destruct (split_lines l) as [ls r]. cbn [fst snd] in *. destruct (is_newline c) eqn:Hc; [done|].
  destruct ls; cbn; [|done]. by rewrite Hc, IH.
Qed.

Section Framing.
Context {E S : Type} {sup : ProtocolSupervisor E S}.
Context (pc : ProtocolConfig) (envs : nat -> LineEnv E).

(** Lines handled one after the other. *)
Definition deliver (lines : list (list ascii)) (d : nat * (Runner * S)) : nat * (Runner * S) :=
  fold_left (fun d line =>
    (Datatypes.S d.1, process_protocol_line pc (envs d.1) line d.2)) lines d.

Lemma cancel_set_pending env reason p st :
  request_protocol_cancel pc env reason (set_pending p st) =
  set_pending p (request_protocol_cancel pc env reason st).
Proof. destruct st as [rn s]. unfold request_protocol_cancel, set_pending, in_phase. cbn. by case_match. Qed.

(** The handlers neither read nor change the buffer. *)
Ltac pending_commutes :=
  intros; match goal with st : (Runner * _)%type |- _ => destruct st as [[] ?] end;
  cbv beta iota zeta delta [on_context_ready on_token_consumed on_heartbeat on_cancel_ack
    request_protocol_cancel set_pending in_phase rn_state rn_token_id rn_heartbeat_sequence
    rn_last_heartbeat rn_token_consumption_deadline rn_cancel_sent_at rn_pending rn_failure rn_sent
    rn_context_evidence rn_last_heartbeat_evidence rn_token_consumed_observed rn_result_heartbeat_sequence];
  repeat first [match goal with |- context [if ?b then _ else _] => destruct b end | case_match];
  simplify_eq; done.

Lemma context_ready_set_pending env parsed p (st : Runner * S) :
  on_context_ready pc env parsed (set_pending p st) = set_pending p (on_context_ready pc env parsed st).
Proof. pending_commutes. Qed.

Lemma token_consumed_set_pending env parsed p (st : Runner * S) :
  on_token_consumed pc env parsed (set_pending p st) = set_pending p (on_token_consumed pc env parsed st).
Proof. pending_commutes. Qed.

Lemma heartbeat_set_pending env parsed p (st : Runner * S) :
  on_heartbeat pc env parsed (set_pending p st) = set_pending p (on_heartbeat pc env parsed st).
Proof. pending_commutes. Qed.

Lemma cancel_ack_set_pending env parsed p (st : Runner * S) :
  on_cancel_ack pc env parsed (set_pending p st) = set_pending p (on_cancel_ack pc env parsed st).
Proof. pending_commutes. Qed.

Lemma line_set_pending env line p (st : Runner * S) :
  process_protocol_line pc env line (set_pending p st) =
  set_pending p (process_protocol_line pc env line st).
Proof.
  unfold process_protocol_line. case_match; [apply cancel_set_pending|].
  destruct (extract_word _) as [version p1]. destruct (extract_word p1) as [type p2].
  destruct (extract_word p2) as [nonce p3].
  repeat (match goal with |- context [if ?b then _ else _] => destruct b end;
    [first [apply cancel_set_pending | apply context_ready_set_pending | apply token_consumed_set_pending
           | apply heartbeat_set_pending | apply cancel_ack_set_pending]|]).
  apply cancel_set_pending.
Qed.

Lemma deliver_set_pending lines p n st :
  deliver lines (n, set_pending p st) =
  let (n', st') := deliver lines (n, st) in (n', set_pending p st').
Proof.
  revert n st; induction lines as [|line lines IH]; intros n st; [done|].
  unfold deliver in *. cbn [fold_left fst snd]. rewrite line_set_pending. apply IH.
Qed.

Lemma set_pending_idem p q (st : Runner * S) : set_pending p (set_pending q st) = set_pending p st.
Proof. by destruct st as [[] ?]. Qed.

Lemma set_pending_get (st : Runner * S) : set_pending (rn_pending st.1) st = st.
Proof. by destruct st as [[] ?]. Qed.

Lemma rn_pending_set p (st : Runner * S) : rn_pending (set_pending p st).1 = p.
Proof. by destruct st. Qed.

(** Enough fuel: the loop handles every complete line of the buffer. *)
Lemma process_lines_deliver fuel n st :
  (List.length (rn_pending st.1) <= fuel)%nat ->
  process_lines pc envs fuel (n, st) =
  let (lines, rest) := split_lines (rn_pending st.1) in
  let (n', st') := deliver lines (n, st) in (n', set_pending rest st').
Proof.
  revert n st; induction fuel as [|fuel IH]; intros n st Hf.
  - destruct (rn_pending st.1) eqn:Hp; [|cbn in Hf; lia]. cbn. by rewrite <- Hp, set_pending_get.
  - cbn [process_lines]. pose proof (next_line_split (rn_pending st.1)) as Hn.
    destruct (next_line (rn_pending st.1)) as [[line rest]|].
    + destruct Hn as [-> Hlt]. rewrite IH.
      * rewrite line_set_pending, rn_pending_set.
        destruct (split_lines rest) as [lines r]. cbn [fst snd].
        rewrite deliver_set_pending. unfold deliver. cbn [fold_left fst snd].
        destruct (fold_left _ _ _) as [n' st']. by rewrite set_pending_idem.
      * rewrite line_set_pending, rn_pending_set. lia.
    + rewrite Hn. cbn. by rewrite set_pending_get.
Qed.

Lemma drain_chunk_fits n st chunk :
  (List.length (rn_pending st.1 ++ chunk) <= 1024)%nat ->
  drain_chunk pc envs (n, st) chunk =
  let (lines, rest) := split_lines (rn_pending st.1 ++ chunk) in
  let (n', st') := deliver lines (n, st) in (n', set_pending rest st').
Proof.
  intros Hfit. unfold drain_chunk.
  destruct (Z.ltb_spec 1024 (Z.of_nat (List.length (rn_pending st.1 ++ chunk)))); [lia|].
  rewrite process_lines_deliver by done. rewrite rn_pending_set.
  destruct (split_lines _) as [lines rest]. rewrite deliver_set_pending.
  destruct (deliver lines (n, st)) as [n' st']. by rewrite set_pending_idem.
Qed.

Lemma deliver_app a b d : deliver (a ++ b) d = deliver b (deliver a d).
Proof. apply fold_left_app. Qed.

Lemma drain_framing chunks n st :
  next_line (rn_pending st.1) = None -> chunks_fit (rn_pending st.1) chunks ->
  fold_left (drain_chunk pc envs) chunks (n, st) =
  let (lines, rest) := split_lines (rn_pending st.1 ++ List.concat chunks) in
  let (n', st') := deliver lines (n, st) in (n', set_pending rest st').
Proof.
  revert n st; induction chunks as [|chunk chunks IH]; intros n st Hnone.
  - intros _. cbn. rewrite app_nil_r. pose proof (next_line_split (rn_pending st.1)) as Hn.
    rewrite Hnone in Hn. rewrite Hn. cbn. by rewrite set_pending_get.
  - intros [Hfit Hrest]. cbn [fold_left List.concat]. rewrite drain_chunk_fits by done.
    rewrite app_assoc, (split_lines_app (_ ++ _) (List.concat chunks)). revert Hrest. pose proof (split_lines_rest (rn_pending st.1 ++ chunk)).
    destruct (split_lines (rn_pending st.1 ++ chunk)) as [lines rest]. cbn [fst snd] in *. intros Hrest.
    rewrite deliver_app. destruct (deliver lines (n, st)) as [n' st'].
    cbn beta iota. rewrite IH by (by rewrite rn_pending_set). rewrite rn_pending_set.
    destruct (split_lines (rest ++ List.concat chunks)) as [lines' rest'].
    cbn [fst snd]. rewrite deliver_set_pending.
    destruct (deliver lines' (n', st')) as [n'' st'']. by rewrite set_pending_idem.
Qed.

End Framing.

(** ** Properties *)

(** C18. Whatever bytes a worker sends, however they are split into reads,
    whatever the clock shows and whatever the authority answers, the calls
    the runner makes follow the protocol: one context announcement with sound
    evidence, one consumption of exactly the granted token, heartbeats
    numbered without gaps, one cancellation after any refusal, one
    acknowledgement, and nothing after it; the state of the runner is the
    state of that protocol; at most one [ADMIT] message is sent and it belongs
    to a usable, unexpired grant. *)
Theorem protocol_calls_in_order {E S} (sup : ProtocolSupervisor E S) pc envs inputs started s :
  pc_protocol_enabled pc = true ->
  let '(rn, (_, log)) := (runner_run pc envs inputs (O, (initial_runner started, (s, @nil (Call E))))).2 in
  spec_run (pc_request pc) Waiting log = Some (phase_of rn) /\
  exists admits, admits_granted (pc_nonce pc) log admits /\
    rn_sent rn = admits ++ (if cancelled rn then [cancel_message (pc_nonce pc)] else []).
Proof.
  intros Hen.
  assert (in_order pc (initial_runner started, (s, @nil (Call E)))) as H0.
  { cbn. split_and!; [done..|]. exists []. split; [by left|done]. }
  pose proof (run_in_order pc Hen envs inputs (O, _) H0) as H. destruct (runner_run _ _ _ _) as [n [rn [s' log]]].
  cbn [snd in_order] in H. naive_solver.
Qed.

(** C23. The framing does not depend on how the bytes arrive: as long as no
    read overfills the buffer, draining any sequence of reads is handling, in
    order and once each, the complete lines of the concatenated stream, and
    the unfinished line stays in the buffer. *)
Theorem framing_ignores_read_boundaries {E S} (sup : ProtocolSupervisor E S) pc envs chunks n st :
  pc_protocol_enabled pc = true ->
  next_line (rn_pending st.1) = None -> chunks_fit (rn_pending st.1) chunks ->
  drain_protocol pc envs chunks (n, st) =
  let (lines, rest) := split_lines (rn_pending st.1 ++ List.concat chunks) in
  let (n', st') := deliver pc envs lines (n, st) in (n', set_pending rest st').
Proof.
  intros Hen Hnone Hfit. unfold drain_protocol. rewrite Hen. cbn [negb]. by apply drain_framing.
Qed.

(** How long a state of the protocol may last. *)
Definition within_bound (pc : ProtocolConfig) (now : Z) (rn : Runner) : Prop :=
  match rn_state rn with
  | AwaitContext => now - pc_protocol_started pc < npp_context_ready_timeout_ms (pc_policy pc)
  | TokenDelivered => now < rn_token_consumption_deadline rn
  | Active => now - rn_last_heartbeat rn < npp_heartbeat_timeout_ms (pc_policy pc)
  | CancelSent => now - rn_cancel_sent_at rn < npp_cooperative_cancel_ack_timeout_ms (pc_policy pc)
  | CancelAcknowledged => now - rn_cancel_sent_at rn < npp_worker_exit_timeout_ms (pc_policy pc)
  end.

Definition policy_wf (p : NativeWorkerProtocolPolicy) : Prop :=
  u32 (npp_context_ready_timeout_ms p) /\ u32 (npp_heartbeat_timeout_ms p) /\
  u32 (npp_cooperative_cancel_ack_timeout_ms p) /\ u32 (npp_worker_exit_timeout_ms p).

Lemma elapsed_lt now t bound : u64 now -> u64 t -> u32 bound -> (now -64 t) < bound -> now - t < bound.
Proof.
  unfold u32, u64. intros. destruct (Z.le_gt_cases t now); [|lia].
  rewrite wrap64_sub in * by (unfold u64; lia). lia.
Qed.

Definition clocks_wf (pc : ProtocolConfig) (env : CancelEnv) (rn : Runner) : Prop :=
  u64 (pc_protocol_started pc) /\ u64 (rn_last_heartbeat rn) /\ u64 (rn_cancel_sent_at rn) /\
  u64 (ce_sent_at env).

Lemma cancel_state {E S} {sup : ProtocolSupervisor E S} pc env reason (st : Runner * S) :
  pc_protocol_enabled pc = true -> cancelled st.1 = false ->
  rn_state (request_protocol_cancel pc env reason st).1 = CancelSent /\
  rn_cancel_sent_at (request_protocol_cancel pc env reason st).1 = ce_sent_at env.
Proof.
  destruct st as [rn s]. unfold cancelled, request_protocol_cancel. intros -> Hc. cbn [fst negb orb] in *.
  by rewrite Hc.
Qed.

(** Either nothing timed out or the worker was cancelled. *)
Lemma timeouts_cases {E S} {sup : ProtocolSupervisor E S} pc now env (st : Runner * S) :
  pc_protocol_enabled pc = true ->
  let st' := apply_timeouts pc now env st in
  (cancelled st.1 = false /\ rn_state st'.1 = CancelSent /\ rn_cancel_sent_at st'.1 = ce_sent_at env) \/
  (st' = st /\
   (rn_state st.1 = AwaitContext -> (now -64 pc_protocol_started pc) < npp_context_ready_timeout_ms (pc_policy pc)) /\
   (rn_state st.1 = TokenDelivered -> now < rn_token_consumption_deadline st.1) /\
   (rn_state st.1 = Active -> (now -64 rn_last_heartbeat st.1) < npp_heartbeat_timeout_ms (pc_policy pc))).
Proof.
  intros Hen. cbv zeta. unfold apply_timeouts.
  assert (forall x, rn_state st.1 = x -> x <> CancelSent -> x <> CancelAcknowledged -> cancelled st.1 = false) as Hnc.
  { intros x Hx ??. unfold cancelled, in_phase. by rewrite Hx, !bool_decide_false. }
  destruct (in_phase st.1 AwaitContext && _) eqn:E1; [|destruct (in_phase st.1 TokenDelivered && _) eqn:E2;
    [|destruct (in_phase st.1 Active && _) eqn:E3]].
  1-3: left; bool_facts; match goal with H : in_phase _ _ = true |- _ => apply in_phase_true in H end;
       (split; [by eapply Hnc|by apply cancel_state; [|eapply Hnc]]).
  right. split_and!; [done|..]; intros Hs; apply Z.leb_gt; rewrite <- Hs in *;
    rewrite (proj2 (in_phase_true _ _) eq_refl) in *; done.
Qed.

Lemma poll_continues {E S} {sup : ProtocolSupervisor E S} pc now env (st : Runner * S) :
  pc_protocol_enabled pc = true ->
  let st' := apply_timeouts pc now env st in
  poll_timeouts pc now env st =
  (negb (in_phase st'.1 CancelSent &&
         (npp_cooperative_cancel_ack_timeout_ms (pc_policy pc) <=? now -64 rn_cancel_sent_at st'.1) ||
         in_phase st'.1 CancelAcknowledged &&
         (npp_worker_exit_timeout_ms (pc_policy pc) <=? now -64 rn_cancel_sent_at st'.1)), st').
Proof. intros Hen. unfold poll_timeouts. rewrite Hen. cbn [negb]. by do 2 destruct (_ && _). Qed.

(** C22. The supervision of a worker is bounded: after a loop iteration that
    goes on, whatever the worker sent or withheld, every protocol state is
    still within its time bound; and once cancellation was sent, the first
    iteration at or after both cancellation bounds ends the loop. *)
Theorem supervision_is_bounded {E S} (sup : ProtocolSupervisor E S) pc now env st b st' :
  pc_protocol_enabled pc = true -> policy_wf (pc_policy pc) -> u64 now -> clocks_wf pc env st.1 ->
  poll_timeouts pc now env st = (b, st') ->
  (b = true -> within_bound pc now st'.1) /\
  (b = false -> cancelled st'.1 = true) /\
  (cancelled st.1 = true -> rn_cancel_sent_at st.1 <= now ->
   npp_cooperative_cancel_ack_timeout_ms (pc_policy pc) <= now - rn_cancel_sent_at st.1 ->
   npp_worker_exit_timeout_ms (pc_policy pc) <= now - rn_cancel_sent_at st.1 -> b = false).
Proof.
  intros Hen (?&?&?&?) Hnow (?&?&?&?). rewrite poll_continues by done.
  intros Heq. apply pair_equal_spec in Heq as [<- Heq].
  pose proof (timeouts_cases pc now env st Hen) as Hcases. cbv zeta in Hcases. rewrite Heq in *.
  assert (u64 (rn_cancel_sent_at st'.1)) as Hsent by (destruct Hcases as [(_&_&->)|(->&_)]; done).
  split_and!.
  - unfold within_bound, in_phase. intros Hb. apply negb_true_iff, orb_false_iff in Hb as [Ha Hw].
    destruct (rn_state st'.1) eqn:Hs.
    + destruct Hcases as [(_&[=]&_)|(-> & Hctx & _)]. by apply elapsed_lt; [..|apply Hctx].
    + destruct Hcases as [(_&[=]&_)|(-> & _ & Htok & _)]. by apply Htok.
    + destruct Hcases as [(_&[=]&_)|(-> & _ & _ & Hact)]. by apply elapsed_lt; [..|apply Hact].
    + rewrite bool_decide_true in Ha by done. cbn in Ha. apply Z.leb_gt in Ha. by apply elapsed_lt.
    + rewrite bool_decide_true in Hw by done. cbn in Hw. apply Z.leb_gt in Hw. by apply elapsed_lt.
  - intros Hb. apply negb_false_iff, orb_true_iff in Hb. unfold cancelled.
    destruct Hb as [Hb|Hb]; apply andb_true_iff in Hb as [-> _]; [done|by rewrite orb_true_r].
  - intros Hc Hle Hack Hexit. destruct Hcases as [(Hc' & _)|(-> & _)]; [congruence|].
    rewrite wrap64_sub by done. unfold cancelled in Hc.
    apply negb_false_iff. apply orb_true_iff in Hc as [->| ->]; cbn; bool_iff; lia.
Qed.

(** ** A run *)

(** An authority that grants token 7 and accepts everything. *)
#[export] Instance demo_supervisor : ProtocolSupervisor unit unit := {|
  sup_bind_owned_worker _ s := (true, s);
  sup_context_ready_with_evidence _ now _ s := (mkAdmissionGrant true 7 4294967296 (now + 500) "", s);
  sup_token_consumed id _ s := (id =? 7, s);
  sup_heartbeat_with_evidence _ _ _ _ s := (true, s);
  sup_cooperative_cancel_requested _ _ s := s;
  sup_cooperative_cancel_acknowledged _ s := s;
|}.

Definition demo_nonce : list ascii := bytes "0123456789abcdef0123456789abcdef".

Definition demo_config : ProtocolConfig :=
  mkProtocolConfig true
    {| default_NativeWorkerRequest with nwq_require_gpu_protocol_evidence := true;
       nwq_expected_post_admission_payload_bytes := 1048576 |}
    default_NativeWorkerProtocolPolicy demo_nonce 1000.

Definition demo_cancel : CancelEnv := mkCancelEnv 1200 true 1200.
Definition demo_env (_ : nat) : LineEnv unit :=
  mkLineEnv 1100 tt true false false 1110 1120 demo_cancel.

Definition demo_line (type rest : string) : list ascii :=
  bytes ("PRISMINFER/1 " ++ type ++ " ")%string ++ demo_nonce ++ bytes rest ++ ["010"%char].

Definition demo_stream : list ascii :=
  demo_line "CONTEXT_READY" " -1 42 4294967296 8589934592" ++ demo_line "TOKEN_CONSUMED" " 7" ++
  demo_line "HEARTBEAT" " 1 1048576 4294967296 8589934592".

(** The stream arrives in two reads, cut inside the second line. *)
Definition demo_inputs : list RunnerInput :=
  [InBytes (take 120 demo_stream); InTick 1150 demo_cancel; InBytes (drop 120 demo_stream);
   InTick 1200 demo_cancel].

Lemma protocol_calls_in_order_witness :
  let '(rn, (_, log)) :=
    (runner_run demo_config demo_env demo_inputs (O, (initial_runner 1000, (tt, @nil (Call unit))))).2 in
  (rn_state rn = Active /\ rn_heartbeat_sequence rn = 1 /\ List.length log = 3%nat) /\
  spec_run (pc_request demo_config) Waiting log = Some (phase_of rn) /\
  exists admits, admits_granted demo_nonce log admits /\
    rn_sent rn = admits ++ (if cancelled rn then [cancel_message demo_nonce] else []).
Proof.
  pose proof (protocol_calls_in_order demo_supervisor demo_config demo_env demo_inputs 1000 tt eq_refl) as H.
  assert (let '(rn, (_, log)) :=
    (runner_run demo_config demo_env demo_inputs (O, (initial_runner 1000, (tt, @nil (Call unit))))).2 in
    (rn_state rn = Active /\ rn_heartbeat_sequence rn = 1 /\ List.length log = 3%nat)) as Hc
    by (vm_compute; repeat split).
  destruct (runner_run _ _ _ _) as [n [rn [s log]]]. split; [exact Hc|exact H].
Defined.

Lemma framing_ignores_read_boundaries_witness :
  drain_protocol demo_config demo_env [take 120 demo_stream; drop 120 demo_stream]
    (O, (initial_runner 1000, tt)) =
  drain_protocol demo_config demo_env [demo_stream] (O, (initial_runner 1000, tt)).
Proof.
  rewrite !(framing_ignores_read_boundaries demo_supervisor).
  - reflexivity.
  - reflexivity.
  - reflexivity.
  - vm_compute. repeat split; repeat constructor.
  - reflexivity.
  - reflexivity.
  - vm_compute. repeat split; repeat constructor.
Defined.

Lemma supervision_is_bounded_witness :
  let '(b, st') := poll_timeouts demo_config 3000 (mkCancelEnv 3000 true 3000) (initial_runner 1000, tt) in
  b = true /\ rn_state st'.1 = CancelSent /\ within_bound demo_config 3000 st'.1.
Proof.
  destruct (poll_timeouts demo_config 3000 (mkCancelEnv 3000 true 3000) (initial_runner 1000, tt))
    as [b st'] eqn:E.
  pose proof (supervision_is_bounded demo_supervisor demo_config 3000 (mkCancelEnv 3000 true 3000)
    (initial_runner 1000, tt) b st' eq_refl
    ltac:(closed_bounds) ltac:(closed_bounds) ltac:(closed_bounds) E) as (H & _ & _).
  assert (b = true /\ rn_state st'.1 = CancelSent) as [Hb Hs] by (vm_compute in E; by injection E as <- <-).
  split_and!; [exact Hb|exact Hs|exact (H Hb)].
Defined.

(** The loop reads [now] before [request_protocol_cancel] reads the clock for
    [cancel_sent_at]; one tick between the two makes the unsigned difference
    wrap, and the loop ends in the same iteration instead of waiting for the
    acknowledgement. *)
Lemma timeout_cancellation_skips_acknowledgement :
  (poll_timeouts demo_config 3000 (mkCancelEnv 3000 true 3000) (initial_runner 1000, tt)).1 = true /\
  (poll_timeouts demo_config 3000 (mkCancelEnv 3000 true 3001) (initial_runner 1000, tt)).1 = false.
Proof. vm_compute. by split. Qed.

(** Without required evidence, text after the nonce is ignored when it does
    not start with a number: a malformed line is answered with [ADMIT]. *)
Lemma malformed_context_line_admitted :
  rn_state (process_protocol_line {| demo_config with pc_request := default_NativeWorkerRequest |}
    (demo_env 0) (demo_line "CONTEXT_READY" " garbage") (initial_runner 1000, tt)).1 = TokenDelivered.
Proof. reflexivity. Qed.

End NativeProtocol.
