(* ===== verification/NativeRun.v ===== *)
(** * The supervised run of a contained worker

    The part of [run_native_worker_impl] ([src/runtime/native_worker.cpp])
    after the worker was resumed: sampling of the job's process tree, the
    supervision loop, termination of the tree, accounting, and the
    classification of the result.  What the operating system answers is data:
    one record per call site, in program order; a pipe is the list of answers of
    its read loop.  [None] means that the code has not returned. *)

From S2P Require Import Prelude.
From S2P Require Import NativeWorker.
From S2P Require Import NativeProtocol.
Import NativeWorker NativeProtocol.
From Stdlib Require Import Ascii String.

Module NativeRun.

(** ** Sampling the process tree *)

(** [TreeMemoryAccumulator]; a retained handle is represented by its process. *)
Record TreeMemoryAccumulator := mkTree {
  tm_root_peak_working_set_bytes : Z;
  tm_root_peak_private_commit_bytes : Z;
  tm_tree_peak_working_set_bytes : Z;
  tm_peak_active_processes : Z;
  tm_per_process_memory_reconciled : bool;
  tm_observed_process_ids : gset Z;
  tm_assigned_process_ids : gset Z;
  tm_observed_processes : list Z;
}.

Definition initial_tree : TreeMemoryAccumulator := mkTree 0 0 0 0 true ∅ ∅ [].

(** [PROCESS_MEMORY_COUNTERS_EX], the fields that are read. *)
Record ProcessMemory := mkProcessMemory {
  pm_working_set_size : Z;
  pm_peak_working_set_size : Z;
  pm_peak_pagefile_usage : Z;
}.

(** The answers for one process of the list: its counters, whether its
    retained handle is signalled, and a second query of the job's process list
    (the assigned count and the identifiers), [None] when it failed. *)
Record ProcessAnswer := mkProcessAnswer {
  pa_memory : option ProcessMemory;
  pa_retained_signalled : bool;
  pa_requery : option (Z * list Z);
}.

(** [JOBOBJECT_BASIC_PROCESS_ID_LIST] with the answers for its members. *)
Record JobSnapshot := mkSnapshot {
  js_assigned_processes : Z;
  js_processes : list (Z * ProcessAnswer);
}.

Definition checked_add_size (left right : Z) : option Z :=
  if u64_max - left <? right then None else Some (left + right).

(** [job_process_is_absent]: [None] when it cannot tell. *)
Definition job_process_is_absent (expected_process_id : Z) (query : option (Z * list Z)) : option bool :=
  if expected_process_id =? 0 then None
  else
  match query with
  | None => None
  | Some (assigned, ids) =>
      if Z.of_nat (List.length ids) <>z assigned then None
      else Some (negb (existsb (Z.eqb expected_process_id) ids))
  end.

(** One process of the list; [false] ends the sample with failure.  The state
    is the sum of working sets and the accumulator. *)
Definition sample_process_entry (root_process_id : Z) (entry : Z * ProcessAnswer)
    (st : Z * TreeMemoryAccumulator) : bool * (Z * TreeMemoryAccumulator) :=
  let '(process_id, answer) := entry in
  let '(working_set, tm) := st in
  if (process_id =? 0) || (u32_max <? process_id) then (false, st)
  else
  let tm := {| tm with tm_assigned_process_ids := tm_assigned_process_ids tm ∪ {[process_id]} |} in
  match pa_memory answer with
  | None =>
      let retained_exit := bool_decide (process_id ∈ tm_observed_processes tm) &&
                           pa_retained_signalled answer in
      let absent := match job_process_is_absent process_id (pa_requery answer) with
                    | Some b => b | None => false end in
      if retained_exit || absent
      then (true, (working_set, {| tm with tm_per_process_memory_reconciled := false |}))
      else (false, (working_set, tm))
  | Some memory =>
      match checked_add_size working_set (pm_working_set_size memory) with
      | None => (false, (working_set, tm))
      | Some working_set =>
          let first_observation := negb (bool_decide (process_id ∈ tm_observed_process_ids tm)) in
          let tm := {| tm with tm_observed_process_ids := tm_observed_process_ids tm ∪ {[process_id]} |} in
          let tm :=
            if process_id =? root_process_id then
              {| tm with
                 tm_root_peak_working_set_bytes :=
                   Z.max (tm_root_peak_working_set_bytes tm) (pm_peak_working_set_size memory);
                 tm_root_peak_private_commit_bytes :=
                   Z.max (tm_root_peak_private_commit_bytes tm) (pm_peak_pagefile_usage memory) |}
            else tm in
          let tm := if first_observation
                    then {| tm with tm_observed_processes := tm_observed_processes tm ++ [process_id] |}
                    else tm in
          (true, (working_set, tm))
      end
  end.

Fixpoint sample_processes (root_process_id : Z) (entries : list (Z * ProcessAnswer))
    (st : Z * TreeMemoryAccumulator) : bool * (Z * TreeMemoryAccumulator) :=
  match entries with
  | [] => (true, st)
  | entry :: rest =>
      let (ok, st) := sample_process_entry root_process_id entry st in
      if ok then sample_processes root_process_id rest st else (false, st)
  end.

(** [sample_job_tree]; [None] is a failed query of the job. *)
Definition sample_job_tree (root_process_id maximum_processes : Z) (snapshot : option JobSnapshot)
    (tm : TreeMemoryAccumulator) : bool * TreeMemoryAccumulator :=
  if maximum_processes =? 0 then (false, tm)
  else
  match snapshot with
  | None => (false, tm)
  | Some s =>
  if Z.of_nat (List.length (js_processes s)) <>z js_assigned_processes s then (false, tm)
  else
  let tm := {| tm with tm_peak_active_processes :=
                 Z.max (tm_peak_active_processes tm) (js_assigned_processes s) |} in
  let '(ok, (working_set, tm)) := sample_processes root_process_id (js_processes s) (0, tm) in
  if ok then
    (true, {| tm with tm_tree_peak_working_set_bytes :=
                Z.max (tm_tree_peak_working_set_bytes tm) working_set |})
  else (false, tm)
  end.

(** [sample_retained_root] *)
Definition sample_retained_root (root_process_id : Z) (memory : option ProcessMemory)
    (tm : TreeMemoryAccumulator) : bool * TreeMemoryAccumulator :=
  if root_process_id =? 0 then (false, tm)
  else
  match memory with
  | None => (false, tm)
  | Some memory =>
      let root_working := Z.max (tm_root_peak_working_set_bytes tm) (pm_peak_working_set_size memory) in
      (true, {| tm with
         tm_observed_process_ids := tm_observed_process_ids tm ∪ {[root_process_id]};
         tm_root_peak_working_set_bytes := root_working;
         tm_root_peak_private_commit_bytes :=
           Z.max (tm_root_peak_private_commit_bytes tm) (pm_peak_pagefile_usage memory);
         tm_tree_peak_working_set_bytes := Z.max (tm_tree_peak_working_set_bytes tm) root_working |})
  end.

(** ** Termination of the tree *)

(** [wait_for_job_empty]: one query per entry, the active processes ([None]
    on failure) and the clock read after it; the loop ends at the first entry
    past the timeout at the latest. *)
Fixpoint wait_for_job_empty (started timeout_ms : Z) (polls : list (option Z * Z)) : bool :=
  match polls with
  | [] => false
  | (None, _) :: _ => false
  | (Some active, now) :: rest =>
      if active =? 0 then true
      else if timeout_ms <=? now -64 started then false
      else wait_for_job_empty started timeout_ms rest
  end.

(** The waits on the retained handles: the clock and whether the handle was
    signalled in the remaining time. *)
Fixpoint wait_for_processes (started timeout_ms : Z) (processes : list Z) (waits : list (Z * bool)) : bool :=
  match processes, waits with
  | [], _ => true
  | _ :: _, [] => false
  | _ :: processes, (now, signalled) :: waits =>
      if (timeout_ms <=? now -64 started) || negb signalled then false
      else wait_for_processes started timeout_ms processes waits
  end.

Record TerminateEnv := mkTerminateEnv {
  te_terminated : bool;
  te_started : Z;
  te_root_exited : bool;
  te_empty_started : Z;
  te_polls : list (option Z * Z);
  te_waits : list (Z * bool);
}.

(** [terminate_job_tree] *)
Definition terminate_job_tree (env : TerminateEnv) (tm : TreeMemoryAccumulator) (timeout_ms : Z) : bool :=
  if (timeout_ms =? 0) || negb (te_terminated env) then false
  else if negb (te_root_exited env) ||
          negb (wait_for_job_empty (te_empty_started env) timeout_ms (te_polls env)) then false
  else wait_for_processes (te_started env) timeout_ms (tm_observed_processes tm) (te_waits env).

(** ** The supervision loop *)

Inductive WaitResult := WAIT_OBJECT_0 | WAIT_TIMEOUT | WAIT_FAILED.

#[export] Instance wait_result_eq_dec : EqDecision WaitResult.
Proof. solve_decision. Defined.

(** What one turn of a read loop gets from its pipe: a failed [PeekNamedPipe]
    or [ReadFile] and whether the error was [ERROR_BROKEN_PIPE], an empty pipe,
    or the bytes of one [ReadFile]. *)
Inductive PipeAnswer :=
  | AnswerError (broken_pipe : bool)
  | AnswerEmpty
  | AnswerBytes (read : list ascii).

(** The answers the turns of one drain get, in order.  A list that runs out
    before the drain returns describes a drain that has not returned. *)
Definition PipeDrain : Type := list PipeAnswer.

(** Some reads, and then an empty pipe or an error. *)
Definition mkPipeDrain (chunks : list (list ascii)) (ok : bool) : PipeDrain :=
  map AnswerBytes chunks ++ [if ok then AnswerEmpty else AnswerError false].

(** The [for (;;)] of [drain_output]: success, the captured bytes and
    [output_limit_exceeded]; [None] when it has not returned. *)
Fixpoint drain_output (limit : Z) (captured : list ascii) (pipe : PipeDrain)
    : option (bool * (list ascii * bool)) :=
  match pipe with
  | [] => None
  | AnswerError broken_pipe :: _ => Some (broken_pipe, (captured, false))
  | AnswerEmpty :: _ => Some (true, (captured, false))
  | AnswerBytes read :: rest =>
      if limit <? Z.of_nat (List.length captured) + Z.of_nat (List.length read) then Some (true, (captured, true))
      else drain_output limit (captured ++ read) rest
  end.

(** The [for (;;)] of [drain_protocol], which has no bound of its own: the
    reads of a drain, and its answer once it returns. *)
Fixpoint read_all (pipe : PipeDrain) : list (list ascii) * option bool :=
  match pipe with
  | [] => ([], None)
  | AnswerError broken_pipe :: _ => ([], Some broken_pipe)
  | AnswerEmpty :: _ => ([], Some true)
  | AnswerBytes read :: rest => let (reads, answer) := read_all rest in (read :: reads, answer)
  end.

(** What one iteration of the loop gets from outside. *)
Record Iteration := mkIteration {
  it_wait : WaitResult;
  it_output : PipeDrain;
  it_control : PipeDrain;
  it_now : Z;
  it_cancel : CancelEnv;
  it_snapshot : option JobSnapshot;
  it_active_processes : option Z;
}.

Section Run.
Context {E S : Type} {sup : ProtocolSupervisor E S}.
Context (pc : ProtocolConfig) (envs : nat -> LineEnv E) (root_process_id : Z).

(** [drain_protocol]: each read is handed to the framing as it comes, and the
    drain returns only at an empty pipe or an error. *)
Definition drain_control (pipe : PipeDrain) (d : nat * (Runner * S)) : option (bool * (nat * (Runner * S))) :=
  if negb (pc_protocol_enabled pc) then Some (true, d)
  else
  let (reads, answer) := read_all pipe in
  match answer with
  | None => None
  | Some ok => Some (ok, drain_protocol pc envs reads d)
  end.

(** The local variables of the loop. *)
Record LoopState := mkLoop {
  ls_wait : WaitResult;
  ls_tree_complete : bool;
  ls_job_query_failed : bool;
  ls_output_limit_exceeded : bool;
  ls_captured : list ascii;
  ls_drain : nat * (Runner * S);
  ls_tree : TreeMemoryAccumulator;
}.

(** How an iteration ends; [LoopStuck] when one of its drains does not
    return. *)
Inductive LoopOutcome :=
  | LoopContinue (ls : LoopState)
  | LoopBreak (ls : LoopState)
  | LoopReturn (reason : string) (s : S)
  | LoopStuck.

(** The body of the loop. *)
Definition loop_body (it : Iteration) (ls : LoopState) : LoopOutcome :=
  let request := pc_request pc in
  match drain_output (nwq_max_output_bytes request) (ls_captured ls) (it_output it) with
  | None => LoopStuck
  | Some (read, (captured, exceeded)) =>
  if negb read then LoopReturn "native_worker_output_read_failed" (ls_drain ls).2.2
  else
  match drain_control (it_control it) (ls_drain ls) with
  | None => LoopStuck
  | Some (protocol_read, drained) =>
  if negb protocol_read then LoopReturn "native_worker_protocol_read_failed" drained.2.2
  else
  let ls := {| ls with ls_wait := it_wait it; ls_captured := captured;
                       ls_output_limit_exceeded := exceeded; ls_drain := drained |} in
  if exceeded then LoopBreak ls
  else
  let (go_on, st) := poll_timeouts pc (it_now it) (it_cancel it) drained.2 in
  let ls := {| ls with ls_drain := (drained.1, st) |} in
  if negb go_on then LoopBreak ls
  else
  let (sampled, tree) :=
    sample_job_tree root_process_id (nwq_max_active_processes request) (it_snapshot it) (ls_tree ls) in
  let ls := {| ls with ls_tree := tree |} in
  if negb sampled then LoopBreak {| ls with ls_job_query_failed := true |}
  else
  match it_wait it with
  | WAIT_OBJECT_0 =>
      match it_active_processes it with
      | None => LoopBreak {| ls with ls_job_query_failed := true |}
      | Some active => if active =? 0 then LoopBreak {| ls with ls_tree_complete := true |}
                       else LoopContinue ls
      end
  | WAIT_FAILED => LoopBreak ls
  | WAIT_TIMEOUT => LoopContinue ls
  end
  end
  end.

(** [while (monotonic_time_milliseconds() < deadline)] over the readings of
    the clock and the iterations.  [None] when the readings end before the
    loop does, or when an iteration does not return. *)
Fixpoint supervision_loop (deadline : Z) (its : list (Z * Iteration)) (ls : LoopState)
    : option ((string * S) + LoopState) :=
  match its with
  | [] => None
  | (now, it) :: rest =>
      if deadline <=? now then Some (inr ls)
      else match loop_body it ls with
           | LoopContinue ls => supervision_loop deadline rest ls
           | LoopBreak ls => Some (inr ls)
           | LoopReturn reason s => Some (inl (reason, s))
           | LoopStuck => None
           end
  end.

Definition initial_loop (started : Z) (tree : TreeMemoryAccumulator) (s : S) : LoopState :=
  mkLoop WAIT_TIMEOUT false false false [] (O, (initial_runner started, s)) tree.

(** ** Accounting *)

(** The two job queries of [reconcile_job_accounting]. *)
Record JobAccounting := mkJobAccounting {
  ja_peak_job_memory_used : Z;
  ja_total_processes : Z;
  ja_total_terminated_processes : Z;
  ja_read_transfer_count : Z;
  ja_write_transfer_count : Z;
}.

Definition accounting_inconsistent (tm : TreeMemoryAccumulator) (ja : JobAccounting) : bool :=
  (ja_total_processes ja =? 0) ||
  (Z.of_nat (size (tm_assigned_process_ids tm)) <>z ja_total_processes ja) ||
  negb (bool_decide (root_process_id ∈ tm_assigned_process_ids tm)) ||
  (tm_peak_active_processes tm =? 0) ||
  (nwq_max_active_processes (pc_request pc) <? tm_peak_active_processes tm) ||
  (tm_root_peak_working_set_bytes tm =? 0) || (tm_root_peak_private_commit_bytes tm =? 0) ||
  (tm_tree_peak_working_set_bytes tm <? tm_root_peak_working_set_bytes tm) ||
  (ja_peak_job_memory_used ja =? 0).

Definition kTreeSampleIntervalMilliseconds : Z := 10.

(** [reconcile_job_accounting]: success and the result it fills in. *)
Definition reconcile_job_accounting (root_memory : option ProcessMemory) (job : option JobAccounting)
    (tm : TreeMemoryAccumulator) (result : NativeWorkerResult) : bool * NativeWorkerResult :=
  let (sampled, tm) := sample_retained_root root_process_id root_memory tm in
  if negb sampled then (false, result)
  else
  match job with
  | None => (false, result)
  | Some ja =>
  if accounting_inconsistent tm ja then (false, result)
  else
  (true, {| result with
     nwr_job_total_processes := ja_total_processes ja;
     nwr_job_peak_active_processes := tm_peak_active_processes tm;
     nwr_job_total_terminated_processes := ja_total_terminated_processes ja;
     nwr_root_peak_working_set_bytes := tm_root_peak_working_set_bytes tm;
     nwr_root_peak_private_commit_bytes := tm_root_peak_private_commit_bytes tm;
     nwr_tree_peak_working_set_bytes := tm_tree_peak_working_set_bytes tm;
     nwr_tree_peak_private_commit_bytes := ja_peak_job_memory_used ja;
     nwr_tree_sample_interval_milliseconds := kTreeSampleIntervalMilliseconds;
     nwr_read_bytes := ja_read_transfer_count ja;
     nwr_write_bytes := ja_write_transfer_count ja;
     nwr_evidence_available := true;
     nwr_job_accounting_reconciled := true;
     nwr_per_process_memory_reconciled := tm_per_process_memory_reconciled tm |})
  end.

(** ** The result *)

(** [fail] *)
Definition fail (reason : string) : NativeWorkerResult :=
  {| default_NativeWorkerResult with nwr_failure_reason := reason |}.

(** What the statements after the loop get from outside, in program order. *)
Record FinishEnv := mkFinishEnv {
  fe_control : PipeDrain;
  fe_terminate : TerminateEnv;
  fe_root_memory : option ProcessMemory;
  fe_job : option JobAccounting;
  fe_now : Z;
  fe_output : PipeDrain;
  fe_output_written : bool;
  fe_output_flushed : bool;
  fe_exit_code : option Z;
  fe_published : bool;
}.

(** The result fields the protocol filled in. *)
Definition with_protocol (rn : Runner) (result : NativeWorkerResult) : NativeWorkerResult :=
  {| result with
     nwr_context_evidence := rn_context_evidence rn;
     nwr_last_heartbeat_evidence := rn_last_heartbeat_evidence rn;
     nwr_token_consumed_observed := rn_token_consumed_observed rn;
     nwr_heartbeat_sequence := rn_result_heartbeat_sequence rn |}.

(** Assignments to fields of the result. *)
Definition set_timed_out (b : bool) (r : NativeWorkerResult) := {| r with nwr_timed_out := b |}.
Definition set_output_bytes (n : Z) (r : NativeWorkerResult) := {| r with nwr_output_bytes := n |}.
Definition set_captured_output (l : list ascii) (r : NativeWorkerResult) := {| r with nwr_captured_output := l |}.
Definition set_exit_code (n : Z) (r : NativeWorkerResult) := {| r with nwr_exit_code := n |}.
Definition set_failure_reason (s : string) (r : NativeWorkerResult) := {| r with nwr_failure_reason := s |}.
Definition set_ok (b : bool) (r : NativeWorkerResult) := {| r with nwr_ok := b |}.
Definition set_exited (r : NativeWorkerResult) :=
  {| r with nwr_worker_exit_observed := true; nwr_job_tree_empty := true |}.
Definition set_files_closed (r : NativeWorkerResult) :=
  {| r with nwr_artifact_handles_closed := true; nwr_temporary_files_reconciled := true |}.
Definition clear_output_path (r : NativeWorkerResult) := {| r with nwr_output_path := "" |}.

(** The result of a run whose protocol failed or ended early; the accounting
    is attempted and its outcome ignored. *)
Definition protocol_failure_result (env : FinishEnv) (tm : TreeMemoryAccumulator) (reason : string)
    (result : NativeWorkerResult) : NativeWorkerResult :=
  let result := set_exited (set_failure_reason reason result) in
  let (_, result) := reconcile_job_accounting (fe_root_memory env) (fe_job env) tm result in
  set_files_closed result.

Definition output_limit_result (result : NativeWorkerResult) : NativeWorkerResult :=
  set_output_bytes (nwq_max_output_bytes (pc_request pc))
    (set_failure_reason "native_worker_output_limit_exceeded" result).

(** The end of the function, once the tree is gone: output, exit code,
    accounting, publication.  [None] when the drain does not return. *)
Definition publish_result (env : FinishEnv) (captured : list ascii) (tm : TreeMemoryAccumulator)
    (timed_out : bool) (result : NativeWorkerResult) : option NativeWorkerResult :=
  let result := set_timed_out timed_out result in
  match drain_output (nwq_max_output_bytes (pc_request pc)) captured (fe_output env) with
  | None => None
  | Some (read, (captured, exceeded)) => Some (
  if negb read then fail "native_worker_output_read_failed"
  else if exceeded then output_limit_result result
  else
  let result := set_output_bytes (Z.of_nat (List.length captured)) result in
  if negb (fe_output_written env) then fail "native_worker_output_write_failed"
  else if negb (fe_output_flushed env) then fail "native_worker_output_flush_failed"
  else
  let result := set_captured_output captured result in
  match fe_exit_code env with
  | None => fail "native_worker_exit_query_failed"
  | Some exit_code =>
  let result := set_exit_code exit_code result in
  let (reconciled, result) := reconcile_job_accounting (fe_root_memory env) (fe_job env) tm result in
  if negb reconciled || ((exit_code =? 0) && negb (nwr_per_process_memory_reconciled result)) then
    fail "native_worker_process_tree_evidence_incomplete"
  else
  let ok := negb timed_out && (exit_code =? 0) in
  let reason := if ok then ""%string else if timed_out then "native_worker_timeout"%string
                else "native_worker_child_failed"%string in
  let result := set_failure_reason reason (set_ok ok (set_files_closed (set_exited result))) in
  if ok then
    if negb (fe_published env) then fail "native_worker_output_publish_failed" else result
  else clear_output_path result
  end)
  end.

(** Everything after the loop.  [None] when a drain does not return. *)
Definition finish_run (env : FinishEnv) (deadline : Z) (result : NativeWorkerResult) (ls : LoopState)
    : option NativeWorkerResult :=
  let request := pc_request pc in
  let enabled := pc_protocol_enabled pc in
  match drain_control (fe_control env) (ls_drain ls) with
  | None => None
  | Some (read, drained) =>
  if negb read then Some (fail "native_worker_protocol_read_failed")
  else
  let rn := drained.2.1 in
  let tm := ls_tree ls in
  let result := with_protocol rn result in
  let terminate timeout := terminate_job_tree (fe_terminate env) tm timeout in
  if enabled && negb (str_empty (rn_failure rn)) then
    if negb (ls_tree_complete ls) && negb (terminate (npp_worker_exit_timeout_ms (pc_policy pc))) then
      Some (fail "native_worker_protocol_abort_cleanup_failed")
    else Some (protocol_failure_result env tm (rn_failure rn) result)
  else if enabled && ls_tree_complete ls && negb (in_phase rn Active) then
    Some (protocol_failure_result env tm "native_worker_protocol_incomplete" result)
  else if ls_job_query_failed ls then
    Some (fail (if terminate (nwq_timeout_ms request) then "native_worker_job_query_failed"
                else "native_worker_job_query_cleanup_failed"))
  else if ls_output_limit_exceeded ls then
    if negb (terminate (nwq_timeout_ms request)) then Some (fail "native_worker_output_limit_cleanup_failed")
    else Some (output_limit_result result)
  else if negb (ls_tree_complete ls) && negb (bool_decide (ls_wait ls = WAIT_FAILED)) &&
          (deadline <=? fe_now env) then
    if nwq_simulate_termination_api_failure request then Some (fail "native_worker_timeout_cleanup_failed")
    else if negb (terminate (nwq_timeout_ms request)) then Some (fail "native_worker_timeout_cleanup_failed")
    else publish_result env (ls_captured ls) tm true result
  else if negb (ls_tree_complete ls) then
    Some (fail (if terminate (nwq_timeout_ms request) then "native_worker_wait_failed"
                else "native_worker_wait_cleanup_failed"))
  else publish_result env (ls_captured ls) tm false result
  end.

End Run.

(** ** Invariant of the samples *)

(** As long as no process was lost between the list and its query, every
    process the job ever listed was measured. *)
Definition tree_sound (tm : TreeMemoryAccumulator) : Prop :=
  tm_per_process_memory_reconciled tm = true -> tm_assigned_process_ids tm ⊆ tm_observed_process_ids tm.

Lemma entry_sound root entry st :
  let '(ok, (_, tm')) := sample_process_entry root entry st in
  tree_sound st.2 -> ok = true -> tree_sound tm'.
Proof.
  destruct entry as [pid answer], st as [ws tm]. unfold sample_process_entry, tree_sound. cbn [snd].
  destruct (_ || _); [done|]. destruct (pa_memory answer) as [memory|].
  - destruct (checked_add_size ws (pm_working_set_size memory)) as [ws'|]; [|done].
    intros H _ Hr. destruct (pid =? root), (negb _); cbn in *; set_solver.
  - destruct (_ || _); [|done]. cbn. done.
Qed.

Lemma processes_sound root entries st :
  let '(ok, (_, tm')) := sample_processes root entries st in
  tree_sound st.2 -> ok = true -> tree_sound tm'.
Proof.
  revert st; induction entries as [|entry rest IH]; intros st; cbn; [by destruct st|].
  pose proof (entry_sound root entry st) as He. destruct (sample_process_entry root entry st) as [ok [ws tm]].
  destruct ok; [|done]. specialize (IH (ws, tm)).
  destruct (sample_processes root rest (ws, tm)) as [ok' [ws' tm']]. cbn in *. auto.
Qed.

Lemma sample_sound root maximum snapshot tm :
  let (ok, tm') := sample_job_tree root maximum snapshot tm in
  tree_sound tm -> ok = true -> tree_sound tm'.
Proof.
  unfold sample_job_tree. destruct (maximum =? 0); [done|]. destruct snapshot as [s|]; [|done].
  destruct (negb _); [done|].
  match goal with |- context [sample_processes root ?l ?st] => pose proof (processes_sound root l st) as H;
    destruct (sample_processes root l st) as [ok [ws tm']] end.
  cbn in H. destruct ok; [|done]. intros Ht _. by apply H.
Qed.

(** ** The drains *)

Lemma drain_output_bounded limit captured pipe read captured' exceeded :
  Z.of_nat (List.length captured) <= limit ->
  drain_output limit captured pipe = Some (read, (captured', exceeded)) ->
  Z.of_nat (List.length captured') <= limit.
Proof.
  revert captured; induction pipe as [|[broken| |c] rest IH]; intros captured H; cbn; [done|naive_solver..|].
  destruct (Z.ltb_spec limit (Z.of_nat (List.length captured) + Z.of_nat (List.length c))); [naive_solver|].
  apply IH. rewrite length_app. lia.
Qed.

(** The pipe runs dry or fails within the answers. *)
Definition pipe_ends (pipe : PipeDrain) : Prop := AnswerEmpty ∈ pipe \/ exists broken, AnswerError broken ∈ pipe.

(** The bytes the answers hold. *)
Fixpoint pipe_bytes (pipe : PipeDrain) : Z :=
  match pipe with
  | [] => 0
  | AnswerBytes read :: rest => Z.of_nat (List.length read) + pipe_bytes rest
  | _ :: rest => pipe_bytes rest
  end.

(** [drain_output] always returns: the pipe runs dry, fails, or delivers more
    than the limit. *)
Lemma drain_output_returns limit captured pipe :
  pipe_ends pipe \/ limit < Z.of_nat (List.length captured) + pipe_bytes pipe ->
  Z.of_nat (List.length captured) <= limit ->
  is_Some (drain_output limit captured pipe).
Proof.
  revert captured; induction pipe as [|[broken| |c] rest IH]; intros captured H Hl; cbn in *;
    [|by eexists..|].
  - destruct H as [[H|[b H]]|H]; [by apply elem_of_nil in H..|lia].
  - destruct (Z.ltb_spec limit (Z.of_nat (List.length captured) + Z.of_nat (List.length c))); [by eexists|].
    apply IH; rewrite length_app; [|lia].
    destruct H as [[H|[b H]]|H]; [left; left; by apply elem_of_cons in H as [[=]|?]
      |left; right; exists b; by apply elem_of_cons in H as [[=]|?]|right; lia].
Qed.

(** [drain_protocol] returns exactly when its pipe runs dry or fails. *)
Lemma read_all_returns pipe : is_Some (read_all pipe).2 <-> pipe_ends pipe.
Proof.
  unfold pipe_ends. induction pipe as [|[broken| |c] rest IH]; cbn.
  - split; [by intros [? [=]]|]. by intros [H|[b H]]; apply elem_of_nil in H.
  - split; [|by eexists]. intros _. right. exists broken. by left.
  - split; [|by eexists]. intros _. left. by left.
  - destruct (read_all rest) as [reads answer]. cbn in *. rewrite IH. split.
    + intros [H|[b H]]; [left|right; exists b]; by right.
    + intros [H|[b H]]; apply elem_of_cons in H as [[=]|H]; eauto.
Qed.

Section RunProofs.
Context {E S : Type} {sup : ProtocolSupervisor E S}.
Context (pc : ProtocolConfig) (envs : nat -> LineEnv E) (root : Z).

(** What the loop maintains; a failed sample ends it. *)
Definition loop_inv (ls : LoopState (S := S)) : Prop :=
  Z.of_nat (List.length (ls_captured ls)) <= nwq_max_output_bytes (pc_request pc) /\
  (ls_job_query_failed ls = false -> tree_sound (ls_tree ls)).

(** The iteration saw the root exit and the job without active process. *)
Definition sees_empty_job (it : Iteration) : Prop :=
  it_wait it = WAIT_OBJECT_0 /\ it_active_processes it = Some 0.

(** An iteration before the deadline saw it. *)
Definition job_seen_empty (deadline : Z) (its : list (Z * Iteration)) : Prop :=
  exists now it, (now, it) ∈ its /\ now < deadline /\ sees_empty_job it.

Definition outcome_state (o : LoopOutcome (S := S)) : option LoopState :=
  match o with LoopContinue ls | LoopBreak ls => Some ls | LoopReturn _ _ | LoopStuck => None end.

Lemma loop_body_inv it ls ls' :
  loop_inv ls -> ls_job_query_failed ls = false ->
  outcome_state (loop_body pc envs root it ls) = Some ls' ->
  loop_inv ls' /\ (forall ls'', loop_body pc envs root it ls = LoopContinue ls'' -> ls_job_query_failed ls'' = false).
Proof.
  intros [Hlen Htree] Hq. unfold loop_body, loop_inv. specialize (Htree Hq).
  destruct (drain_output _ _ _) as [[read [captured exceeded]]|] eqn:Hd; [|done].
  pose proof (drain_output_bounded _ _ _ _ _ _ Hlen Hd) as Hout.
  destruct (negb read); [done|]. destruct (drain_control _ _ _ _) as [[ok drained]|]; [|done].
  destruct (negb ok); [done|].
  destruct exceeded; [intros [= <-]; cbn; by rewrite Hq|].
  destruct (poll_timeouts _ _ _ _) as [go st]. destruct go; cbn [negb]; [|intros [= <-]; cbn; by rewrite Hq].
  match goal with |- context [sample_job_tree root ?m ?s ?t] =>
    pose proof (sample_sound root m s t) as Hs; destruct (sample_job_tree root m s t) as [sampled tm] end.
  cbn in Hs. destruct sampled; cbn [negb]; [|intros [= <-]; cbn; naive_solver].
  specialize (Hs Htree eq_refl).
  destruct (it_wait it); [destruct (it_active_processes it) as [a|]; [destruct (a =? 0)|]| |];
    intros [= <-]; cbn; rewrite ?Hq; naive_solver.
Qed.

(** Only an iteration that sees the empty job completes the tree, and it ends
    the loop. *)
Lemma loop_body_complete it ls :
  ls_tree_complete ls = false ->
  match loop_body pc envs root it ls with
  | LoopContinue ls' => ls_tree_complete ls' = false
  | LoopBreak ls' => ls_tree_complete ls' = true -> sees_empty_job it
  | _ => True
  end.
Proof.
  intros H. unfold loop_body, sees_empty_job.
  destruct (drain_output _ _ _) as [[read [captured exceeded]]|]; [|done]. destruct (negb read); [done|].
  destruct (drain_control _ _ _ _) as [[ok drained]|]; [|done]. destruct (negb ok); [done|].
  destruct exceeded; [cbn; congruence|].
  destruct (poll_timeouts _ _ _ _) as [go st]. destruct (negb go); [cbn; congruence|].
  destruct (sample_job_tree _ _ _ _) as [sampled tm]. destruct (negb sampled); [cbn; congruence|].
  destruct (it_wait it); [|cbn; congruence..].
  destruct (it_active_processes it) as [a|]; [|cbn; congruence].
  destruct (Z.eqb_spec a 0) as [->|]; [by split|cbn; congruence].
Qed.

Lemma supervision_loop_inv deadline its ls ls' :
  loop_inv ls -> ls_job_query_failed ls = false ->
  supervision_loop pc envs root deadline its ls = Some (inr ls') -> loop_inv ls'.
Proof.
  revert ls; induction its as [|[now it] rest IH]; intros ls Hi Hq; cbn; [done|].
  destruct (deadline <=? now); [by intros [= <-]|].
  pose proof (loop_body_inv it ls) as Hb. destruct (loop_body pc envs root it ls) as [l|l|r s'|]; [| |done..].
  - destruct (Hb l Hi Hq eq_refl) as [Hl Hc]. apply IH; [done|by apply Hc].
  - intros [= <-]. by destruct (Hb l Hi Hq eq_refl) as [Hl _].
Qed.

Lemma supervision_loop_complete deadline its ls ls' :
  ls_tree_complete ls = false ->
  supervision_loop pc envs root deadline its ls = Some (inr ls') ->
  ls_tree_complete ls' = true -> job_seen_empty deadline its.
Proof.
  revert ls; induction its as [|[now it] rest IH]; intros ls Hc; cbn; [done|].
  destruct (Z.leb_spec deadline now); [intros [= <-]; congruence|].
  pose proof (loop_body_complete it ls Hc) as Hb. destruct (loop_body pc envs root it ls) as [l|l|r s'|]; [| |done..].
  - intros Hl Ht. destruct (IH l Hb Hl Ht) as (n & i & Hin & ?). exists n, i. split; [by right|done].
  - intros [= <-] Ht. exists now, it. split; [by left|]. split; [done|by apply Hb].
Qed.

(** An iteration returns when its control pipe runs dry, its output pipe runs
    dry or overflows the limit. *)
Definition iteration_fed (it : Iteration) : Prop :=
  (pc_protocol_enabled pc = true -> pipe_ends (it_control it)) /\
  (pipe_ends (it_output it) \/ nwq_max_output_bytes (pc_request pc) < pipe_bytes (it_output it)).

Lemma loop_body_returns it ls :
  Z.of_nat (List.length (ls_captured ls)) <= nwq_max_output_bytes (pc_request pc) ->
  iteration_fed it ->
  match loop_body pc envs root it ls with
  | LoopContinue ls' => Z.of_nat (List.length (ls_captured ls')) <= nwq_max_output_bytes (pc_request pc)
  | LoopStuck => False
  | _ => True
  end.
Proof.
  intros Hlen [Hcontrol Houtput]. unfold loop_body, drain_control.
  destruct (drain_output _ _ _) as [[read [captured exceeded]]|] eqn:Hd.
  2:{ destruct (drain_output_returns (nwq_max_output_bytes (pc_request pc)) (ls_captured ls) (it_output it))
        as [r Hr]; [|done|congruence]. destruct Houtput; [by left|right; lia]. }
  pose proof (drain_output_bounded _ _ _ _ _ _ Hlen Hd) as Hout. destruct (negb read); [done|].
  assert (exists ok drained,
    (if negb (pc_protocol_enabled pc) then Some (true, ls_drain ls)
     else let (reads, answer) := read_all (it_control it) in
          match answer with None => None | Some ok => Some (ok, drain_protocol pc envs reads (ls_drain ls)) end) =
    Some (ok, drained)) as (ok & drained & ->).
  { destruct (pc_protocol_enabled pc); cbn [negb]; [|by eexists _, _].
    destruct (proj2 (read_all_returns (it_control it)) (Hcontrol eq_refl)) as [ok Hok].
    destruct (read_all (it_control it)) as [reads answer]. cbn in Hok. subst answer. by eexists _, _. }
  destruct (negb ok); [done|]. destruct exceeded; [done|].
  destruct (poll_timeouts _ _ _ _) as [go st]. destruct (negb go); [done|].
  destruct (sample_job_tree _ _ _ _) as [sampled tm]. destruct (negb sampled); [done|].
  destruct (it_wait it); [|done..]. destruct (it_active_processes it) as [a|]; [|done]. by destruct (a =? 0).
Qed.

(** Exact bounds of the waits between two readings of the clock are the
    operating system's; what the code adds is that every iteration ends. *)
Lemma supervision_loop_returns deadline before now it after ls :
  Z.of_nat (List.length (ls_captured ls)) <= nwq_max_output_bytes (pc_request pc) ->
  deadline <= now -> Forall (fun i => i.1 < deadline -> iteration_fed i.2) before ->
  exists outcome, supervision_loop pc envs root deadline (before ++ (now, it) :: after) ls = Some outcome.
Proof.
  intros Hl Hd Hf. revert ls Hl. induction Hf as [|[t i] before Hi _ IH]; intros ls Hl; cbn.
  - rewrite (proj2 (Z.leb_le deadline now) Hd). by eexists.
  - destruct (Z.leb_spec deadline t); [by eexists|].
    pose proof (loop_body_returns i ls Hl (Hi ltac:(done))) as Hb.
    destruct (loop_body pc envs root i ls); [by apply IH|by eexists..|done].
Qed.

(** A control pipe that has bytes at every turn holds the loop. *)
Lemma loop_body_flooded it ls reads :
  pc_protocol_enabled pc = true -> it_control it = map AnswerBytes reads -> it_output it = [AnswerEmpty] ->
  loop_body pc envs root it ls = LoopStuck.
Proof.
  intros Hen Hc Ho. unfold loop_body, drain_control. rewrite Hen, Hc, Ho. cbn [negb drain_output].
  assert ((read_all (map AnswerBytes reads)).2 = None) as Hnone.
  { clear. induction reads as [|r reads IH]; [done|]. cbn.
    by destruct (read_all (map AnswerBytes reads)). }
  destruct (read_all _) as [l answer]. cbn in Hnone. by subst answer.
Qed.

End RunProofs.

(** ** What the results say *)

(** [terminate_job_tree] succeeds only when the job was terminated, the root
    was seen to exit, the job reported no active process and every retained
    process was seen to exit in time. *)
Lemma wait_for_job_empty_true started timeout polls :
  wait_for_job_empty started timeout polls = true -> exists now, (Some 0, now) ∈ polls.
Proof.
  induction polls as [|[[active|] now] rest IH]; cbn; [done| |done].
  destruct (Z.eqb_spec active 0) as [->|]; [intros _; exists now; by left|].
  destruct (_ <=? _); [done|]. intros H. destruct (IH H) as [now' ?]. exists now'. by right.
Qed.

Lemma wait_for_processes_true started timeout processes waits :
  wait_for_processes started timeout processes waits = true ->
  (List.length processes <= List.length waits)%nat /\
  Forall (fun w => w.2 = true) (take (List.length processes) waits).
Proof.
  revert waits; induction processes as [|p processes IH]; intros waits; cbn; [split; [lia|done]|].
  destruct waits as [|[now signalled] waits]; [done|]. destruct (_ || _) eqn:G; [done|]. bool_facts.
  intros Hw. destruct (IH _ Hw). cbn. split; [lia|]. by constructor.
Qed.

Definition tree_terminated (env : TerminateEnv) (tm : TreeMemoryAccumulator) : Prop :=
  te_terminated env = true /\ te_root_exited env = true /\ (exists now, (Some 0, now) ∈ te_polls env) /\
  Forall (fun w => w.2 = true) (take (List.length (tm_observed_processes tm)) (te_waits env)).

Lemma terminate_job_tree_true env tm timeout :
  terminate_job_tree env tm timeout = true -> tree_terminated env tm.
Proof.
  unfold terminate_job_tree. destruct (_ || _) eqn:G; [done|]. bool_facts.
  destruct (negb (te_root_exited env) || _) eqn:G'; [done|]. bool_facts. intros Hw.
  split_and!; [done..|by eapply wait_for_job_empty_true|by eapply wait_for_processes_true].
Qed.

Section Results.
Context {E S : Type} {sup : ProtocolSupervisor E S}.
Context (pc : ProtocolConfig) (envs : nat -> LineEnv E) (root : Z).

Lemma reconcile_fields memory job tm r :
  let (ok, r') := reconcile_job_accounting pc root memory job tm r in
  nwr_ok r' = nwr_ok r /\ nwr_failure_reason r' = nwr_failure_reason r /\
  nwr_worker_exit_observed r' = nwr_worker_exit_observed r /\ nwr_job_tree_empty r' = nwr_job_tree_empty r /\
  nwr_timed_out r' = nwr_timed_out r /\ nwr_captured_output r' = nwr_captured_output r /\
  nwr_exit_code r' = nwr_exit_code r /\
  (ok = true -> nwr_per_process_memory_reconciled r' = tm_per_process_memory_reconciled tm /\
    exists ja, job = Some ja /\ ja_total_processes ja = Z.of_nat (size (tm_assigned_process_ids tm)) /\
      root ∈ tm_assigned_process_ids tm /\
      tm_peak_active_processes tm <= nwq_max_active_processes (pc_request pc)).
Proof.
  unfold reconcile_job_accounting, sample_retained_root.
  destruct (root =? 0); [cbn; naive_solver|]. destruct memory as [memory|]; [|cbn; naive_solver]. cbn [negb].
  destruct job as [ja|]; [|cbn; naive_solver].
  destruct (accounting_inconsistent _ _ _ _) eqn:G; [cbn; naive_solver|]. cbn. split_and!; [done..|].
  intros _. split; [done|]. exists ja. unfold accounting_inconsistent in G. cbn in G. bool_facts.
  split_and!; [done|done|by eapply bool_decide_eq_true|done].
Qed.

(** What a successful result entails about the data it was computed from. *)
Definition success_entails (env : FinishEnv) (captured : list ascii) (tm : TreeMemoryAccumulator)
    (timed_out : bool) (r' : NativeWorkerResult) : Prop :=
  nwr_ok r' = true ->
  timed_out = false /\ nwr_timed_out r' = false /\ nwr_exit_code r' = 0 /\ fe_exit_code env = Some 0 /\
  fe_published env = true /\ nwr_failure_reason r' = ""%string /\
  (Z.of_nat (List.length captured) <= nwq_max_output_bytes (pc_request pc) ->
   Z.of_nat (List.length (nwr_captured_output r')) <= nwq_max_output_bytes (pc_request pc)) /\
  tm_per_process_memory_reconciled tm = true /\
  exists ja, fe_job env = Some ja /\ ja_total_processes ja = Z.of_nat (size (tm_assigned_process_ids tm)) /\
    root ∈ tm_assigned_process_ids tm /\
    tm_peak_active_processes tm <= nwq_max_active_processes (pc_request pc).

Lemma not_ok_entails env captured tm timed_out r : nwr_ok r = false -> success_entails env captured tm timed_out r.
Proof. intros H H'. congruence. Qed.

Lemma publish_success env captured tm timed_out r r' :
  nwr_ok r = false -> publish_result pc root env captured tm timed_out r = Some r' ->
  success_entails env captured tm timed_out r'.
Proof.
  intros Hr. unfold publish_result.
  pose proof (drain_output_bounded (nwq_max_output_bytes (pc_request pc)) captured (fe_output env)) as Hout.
  destruct (drain_output _ _ _) as [[read [cap exceeded]]|]; [|done].
  intros [= <-].
  destruct (negb _); [by apply not_ok_entails|]. destruct exceeded; [by apply not_ok_entails|].
  do 2 (destruct (negb _); [by apply not_ok_entails|]).
  destruct (fe_exit_code env) as [code|] eqn:Hcode; [|by apply not_ok_entails].
  match goal with |- context [reconcile_job_accounting pc root ?m ?j tm ?r0] =>
    pose proof (reconcile_fields m j tm r0) as Hrec;
    destruct (reconcile_job_accounting pc root m j tm r0) as [ok r1] end.
  destruct Hrec as (_ & _ & _ & _ & Ht & Hc & Hx & Hrec). cbn in Ht, Hc, Hx.
  destruct (_ || _) eqn:G; [by apply not_ok_entails|].
  apply orb_false_iff in G as [Gok Gpp]. apply negb_false_iff in Gok as ->.
  destruct (Hrec eq_refl) as [Hpp Hja]. destruct timed_out; cbn [negb andb]; [by apply not_ok_entails|].
  destruct (Z.eqb_spec code 0) as [->|]; cbn [andb] in *; [|by apply not_ok_entails].
  destruct (fe_published env) eqn:Hpub; cbn [negb]; [|by apply not_ok_entails]. intros _.
  apply negb_false_iff in Gpp. split; [reflexivity|]. split; [exact Ht|]. split; [exact Hx|].
  split; [exact Hcode|]. split; [exact Hpub|]. split; [reflexivity|].
  split; [intros Hl; cbn; rewrite Hc; exact (Hout _ _ _ Hl eq_refl)|].
  split; [rewrite <- Hpp; exact Gpp|exact Hja].
Qed.

End Results.

Lemma fail_not_ok reason : nwr_ok (fail reason) = false.
Proof. done. Qed.

Section Finish.
Context {E S : Type} {sup : ProtocolSupervisor E S}.
Context (pc : ProtocolConfig) (envs : nat -> LineEnv E) (root : Z).

Definition final_runner (env : FinishEnv) (ls : LoopState (S := S)) : Runner :=
  (drain_protocol pc envs (read_all (fe_control env)).1 (ls_drain ls)).2.1.

Lemma drain_control_drained pipe d ok drained :
  drain_control pc envs pipe d = Some (ok, drained) -> drained = drain_protocol pc envs (read_all pipe).1 d.
Proof.
  unfold drain_control. destruct (pc_protocol_enabled pc) eqn:Hen; cbn [negb].
  - destruct (read_all pipe) as [reads [b|]]; naive_solver.
  - intros [= <- <-]. unfold drain_protocol. by rewrite Hen.
Qed.

(** A result that is not a success, or a success with everything it needs. *)
Definition finish_entails (env : FinishEnv) (ls : LoopState (S := S)) (r : NativeWorkerResult) : Prop :=
  nwr_ok r = true ->
  ls_tree_complete ls = true /\ ls_job_query_failed ls = false /\ ls_output_limit_exceeded ls = false /\
  (pc_protocol_enabled pc = true ->
     rn_state (final_runner env ls) = Active /\ rn_failure (final_runner env ls) = ""%string) /\
  success_entails pc root env (ls_captured ls) (ls_tree ls) false r.

Lemma protocol_failure_not_ok env tm reason r :
  nwr_ok r = false -> nwr_ok (protocol_failure_result pc root env tm reason r) = false.
Proof.
  intros Hr. unfold protocol_failure_result.
  match goal with |- context [reconcile_job_accounting pc root ?m ?j tm ?r0] =>
    pose proof (reconcile_fields pc root m j tm r0) as H;
    destruct (reconcile_job_accounting pc root m j tm r0) as [ok r1] end.
  destruct H as (H & _). cbn. by rewrite H.
Qed.

Lemma finish_success env deadline r ls r' :
  nwr_ok r = false -> finish_run pc envs root env deadline r ls = Some r' -> finish_entails env ls r'.
Proof.
  intros Hr. assert (forall r1 r2, nwr_ok r1 = false -> Some r1 = Some r2 -> finish_entails env ls r2) as Hno
    by (intros r1 r2 H [= <-] H'; congruence).
  unfold finish_run. destruct (drain_control pc envs (fe_control env) (ls_drain ls)) as [[read drained]|] eqn:Hd; [|done].
  apply drain_control_drained in Hd as ->. destruct (negb read); [by apply Hno|].
  fold (final_runner env ls). set (rn := final_runner env ls).
  destruct (pc_protocol_enabled pc && negb (str_empty (rn_failure rn))) eqn:G1.
  { match goal with |- context [if ?b then _ else _] => destruct b end; [by apply Hno|].
    by apply Hno, protocol_failure_not_ok. }
  destruct (pc_protocol_enabled pc && ls_tree_complete ls && _) eqn:G2.
  { by apply Hno, protocol_failure_not_ok. }
  destruct (ls_job_query_failed ls) eqn:Gq; [by apply Hno|].
  destruct (ls_output_limit_exceeded ls) eqn:Gl;
    [by match goal with |- context [if ?b then _ else _] => destruct b end; apply Hno|].
  destruct (_ && (deadline <=? fe_now env)) eqn:G3.
  { destruct (nwq_simulate_termination_api_failure _); [by apply Hno|].
    match goal with |- context [if ?b then _ else _] => destruct b end; [by apply Hno|].
    intros Hpub Hok. exfalso.
    by destruct (publish_success pc root env (ls_captured ls) (ls_tree ls) true (with_protocol rn r) r' Hr Hpub Hok)
      as [[=] _]. }
  destruct (ls_tree_complete ls) eqn:Gc; cbn [negb andb]; [|by apply Hno].
  intros Hpub Hok. split_and!; [done..| |exact (publish_success pc root env _ _ false (with_protocol rn r) r' Hr Hpub)].
  intros Hen. fold rn. rewrite Hen in G1, G2. cbn [andb] in G1, G2.
  apply negb_false_iff, in_phase_true in G2. by apply negb_false_iff, str_empty_true in G1.
Qed.

(** A result that claims an exit rests on an observed end of the tree. *)
Definition exit_entails (env : FinishEnv) (ls : LoopState (S := S)) (r : NativeWorkerResult) : Prop :=
  nwr_worker_exit_observed r = true \/ nwr_job_tree_empty r = true ->
  ls_tree_complete ls = true \/ tree_terminated (fe_terminate env) (ls_tree ls).

Lemma finish_exit env deadline r ls r' :
  nwr_worker_exit_observed r = false -> nwr_job_tree_empty r = false ->
  finish_run pc envs root env deadline r ls = Some r' -> exit_entails env ls r'.
Proof.
  intros Hx He.
  assert (forall r1, nwr_worker_exit_observed r1 = false -> nwr_job_tree_empty r1 = false ->
    Some r1 = Some r' -> exit_entails env ls r') as Hno by (intros r1 H1 H2 [= <-] [H|H]; congruence).
  assert (ls_tree_complete ls = true -> exit_entails env ls r') as Hc by (intros H _; by left).
  assert (forall t, terminate_job_tree (fe_terminate env) (ls_tree ls) t = true -> exit_entails env ls r') as Ht
    by (intros t H _; right; by eapply terminate_job_tree_true).
  unfold finish_run. destruct (drain_control _ _ _ _) as [[read drained]|]; [|done].
  destruct (negb read); [by apply Hno|].
  destruct (ls_tree_complete ls) eqn:Gc; [intros _; by apply Hc|]. cbn [negb andb]. rewrite andb_false_r. cbn [andb].
  repeat (match goal with |- context [if ?b then _ else _] =>
    lazymatch b with context [terminate_job_tree] => fail | _ => destruct b end end;
    try (by apply Hno)); destruct (terminate_job_tree _ _ _) eqn:T; cbn [negb];
    first [by apply Hno|intros _; by eapply Ht].
Qed.

End Finish.

(** ** Properties *)

(** C20. A successful result is a complete one.  For a run that starts from a
    sound sample of the suspended root: if the result says [ok], some
    iteration of the loop, before the deadline, saw the root process signalled
    and the job without active process; the protocol, when there is one, ended
    active and without failure; the worker exited with code 0 and the output
    was published; the captured output is within its limit, the job never ran
    more processes than allowed, and every process the job counted was listed
    and measured. *)
Theorem successful_run_is_complete {E S} (sup : ProtocolSupervisor E S) pc envs root deadline its started tree s ls
    env result r :
  0 <= nwq_max_output_bytes (pc_request pc) -> tree_sound tree -> nwr_ok result = false ->
  supervision_loop pc envs root deadline its (initial_loop started tree s) = Some (inr ls) ->
  finish_run pc envs root env deadline result ls = Some r ->
  nwr_ok r = true ->
  (exists now it, (now, it) ∈ its /\ now < deadline /\ it_wait it = WAIT_OBJECT_0 /\
     it_active_processes it = Some 0) /\
  nwr_timed_out r = false /\ nwr_exit_code r = 0 /\ fe_exit_code env = Some 0 /\ fe_published env = true /\
  nwr_failure_reason r = ""%string /\
  (pc_protocol_enabled pc = true ->
     rn_state (final_runner pc envs env ls) = Active /\ rn_failure (final_runner pc envs env ls) = ""%string) /\
  Z.of_nat (List.length (nwr_captured_output r)) <= nwq_max_output_bytes (pc_request pc) /\
  exists ja, fe_job env = Some ja /\
    ja_total_processes ja = Z.of_nat (size (tm_assigned_process_ids (ls_tree ls))) /\
    tm_assigned_process_ids (ls_tree ls) ⊆ tm_observed_process_ids (ls_tree ls) /\
    root ∈ tm_observed_process_ids (ls_tree ls) /\
    tm_peak_active_processes (ls_tree ls) <= nwq_max_active_processes (pc_request pc).
Proof.
  intros Hmax Htree Hr Hloop Hfinish Hok.
  destruct (supervision_loop_inv pc envs root deadline its (initial_loop started tree s) ls
    ltac:(by split) eq_refl Hloop) as [Hlen Hsound].
  destruct (finish_success pc envs root env deadline result ls r Hr Hfinish Hok) as (Hc & Hq & _ & Hp & Hs).
  destruct (Hs Hok) as (_ & Ht & Hx & Hfx & Hpub & Hf & Hcap & Hpp & ja & Hja & Htot & Hroot & Hpeak).
  specialize (Hsound Hq Hpp).
  split; [exact (supervision_loop_complete pc envs root deadline its (initial_loop started tree s) ls eq_refl Hloop Hc)|].
  split_and!; try done; [by apply Hcap|]. exists ja. split_and!; try done. set_solver.
Qed.

(** A result that reports the worker's exit or an empty job tree rests on
    one of two observations: an iteration of the loop saw the root exit and
    then read zero active processes, or the job was terminated, the root and
    every retained process were seen to exit, and the job then reported zero
    active processes.  No error path sets these flags on its own. *)
Theorem exit_flags_of_run {E S} (sup : ProtocolSupervisor E S) pc envs root env deadline result its started tree
    s ls r :
  nwr_worker_exit_observed result = false -> nwr_job_tree_empty result = false ->
  supervision_loop pc envs root deadline its (initial_loop started tree s) = Some (inr ls) ->
  finish_run pc envs root env deadline result ls = Some r ->
  nwr_worker_exit_observed r = true \/ nwr_job_tree_empty r = true ->
  (exists now it, (now, it) ∈ its /\ now < deadline /\ it_wait it = WAIT_OBJECT_0 /\
     it_active_processes it = Some 0) \/
  (te_terminated (fe_terminate env) = true /\ te_root_exited (fe_terminate env) = true /\
   (exists now, (Some 0, now) ∈ te_polls (fe_terminate env)) /\
   Forall (fun w => w.2 = true)
     (take (List.length (tm_observed_processes (ls_tree ls))) (te_waits (fe_terminate env)))).
Proof.
  intros Hx He Hloop Hfinish H.
  destruct (finish_exit pc envs root env deadline result ls r Hx He Hfinish H) as [Hc|Ht]; [left|by right].
  exact (supervision_loop_complete pc envs root deadline its (initial_loop started tree s) ls eq_refl Hloop Hc).
Qed.

(** C21. When the supervision loop ends.  It returns once a reading of the
    clock reaches the deadline, provided every iteration before it finds the
    control pipe dry (or closed) at some point; the output pipe needs no such
    promise, since a drain of it returns at the latest when the worker has
    written more than the output limit.  The promise about the control pipe
    cannot be dropped: with the protocol enabled, an iteration whose control
    pipe has bytes at every turn, however many turns, never returns, whatever
    the deadline, the timeouts and everything after it. *)
Theorem supervision_loop_termination {E S} (sup : ProtocolSupervisor E S) pc envs root deadline
    (ls : LoopState (S := S)) :
  Z.of_nat (List.length (ls_captured ls)) <= nwq_max_output_bytes (pc_request pc) ->
  (forall before now it after,
     deadline <= now ->
     Forall (fun i => i.1 < deadline ->
       (pc_protocol_enabled pc = true -> pipe_ends (it_control i.2)) /\
       (pipe_ends (it_output i.2) \/ nwq_max_output_bytes (pc_request pc) < pipe_bytes (it_output i.2))) before ->
     exists outcome,
       supervision_loop pc envs root deadline (before ++ (now, it) :: after) ls = Some outcome) /\
  (pc_protocol_enabled pc = true ->
   forall now it reads after,
     now < deadline -> it_control it = map AnswerBytes reads -> it_output it = [AnswerEmpty] ->
     supervision_loop pc envs root deadline ((now, it) :: after) ls = None).
Proof.
  intros Hl. split.
  - intros before now it after Hd Hf. by apply supervision_loop_returns.
  - intros Hen now it reads after Hnow Hc Ho. cbn. rewrite (proj2 (Z.leb_gt deadline now) Hnow).
    pose proof (loop_body_flooded pc envs root it ls reads Hen Hc Ho) as ->. done.
Qed.

(** ** A run *)

Definition demo_memory : ProcessMemory := mkProcessMemory 1000 2000 3000.
Definition demo_answer : ProcessAnswer := mkProcessAnswer (Some demo_memory) false None.
Definition demo_snapshot : option JobSnapshot := Some (mkSnapshot 1 [(4242, demo_answer)]).
Definition demo_tree : TreeMemoryAccumulator := (sample_job_tree 4242 1 demo_snapshot initial_tree).2.

Definition no_reads : PipeDrain := mkPipeDrain [] true.

(** One iteration that reads the whole stream and one that sees the exit. *)
Definition demo_iterations : list (Z * Iteration) :=
  [(1050, mkIteration WAIT_TIMEOUT no_reads (mkPipeDrain [demo_stream] true) 1150 demo_cancel demo_snapshot None);
   (1160, mkIteration WAIT_OBJECT_0 (mkPipeDrain [bytes "done"] true) no_reads 1170 demo_cancel
      (Some (mkSnapshot 0 [])) (Some 0))].

Definition demo_loop : LoopState (S := unit) :=
  match supervision_loop demo_config demo_env 4242 9000 demo_iterations (initial_loop 1000 demo_tree tt) with
  | Some (inr ls) => ls
  | _ => initial_loop 1000 demo_tree tt
  end.

Definition demo_finish : FinishEnv :=
  mkFinishEnv no_reads (mkTerminateEnv false 0 false 0 [] []) (Some demo_memory)
    (Some (mkJobAccounting 5000 1 0 10 20)) 1200 no_reads true true (Some 0) true.

Definition demo_result : NativeWorkerResult :=
  default default_NativeWorkerResult
    (finish_run demo_config demo_env 4242 demo_finish 9000 default_NativeWorkerResult demo_loop).

Lemma demo_run_succeeds :
  supervision_loop demo_config demo_env 4242 9000 demo_iterations (initial_loop 1000 demo_tree tt) =
    Some (inr demo_loop) /\
  finish_run demo_config demo_env 4242 demo_finish 9000 default_NativeWorkerResult demo_loop = Some demo_result /\
  nwr_ok demo_result = true.
Proof. vm_compute. by split_and!. Qed.

Lemma successful_run_is_complete_witness :
  nwr_ok demo_result = true /\ nwr_exit_code demo_result = 0 /\ nwr_failure_reason demo_result = ""%string.
Proof.
  destruct (successful_run_is_complete demo_supervisor demo_config demo_env 4242 9000 demo_iterations 1000
    demo_tree tt demo_loop demo_finish default_NativeWorkerResult demo_result)
    as (_ & _ & Hx & _ & _ & Hf & _).
  - vm_compute. intro. discriminate.
  - intros _. vm_compute. intros x Hx. exact Hx.
  - reflexivity.
  - exact (proj1 demo_run_succeeds).
  - exact (proj1 (proj2 demo_run_succeeds)).
  - exact (proj2 (proj2 demo_run_succeeds)).
  - split_and!; [exact (proj2 (proj2 demo_run_succeeds))|exact Hx|exact Hf].
Defined.

Lemma exit_flags_of_run_witness :
  nwr_job_tree_empty demo_result = true /\
  ((exists now it, (now, it) ∈ demo_iterations /\ now < 9000 /\ it_wait it = WAIT_OBJECT_0 /\
      it_active_processes it = Some 0) \/
   (te_terminated (fe_terminate demo_finish) = true /\ te_root_exited (fe_terminate demo_finish) = true /\
    (exists now, (Some 0, now) ∈ te_polls (fe_terminate demo_finish)) /\
    Forall (fun w => w.2 = true)
      (take (List.length (tm_observed_processes (ls_tree demo_loop))) (te_waits (fe_terminate demo_finish))))).
Proof.
  split; [vm_compute; reflexivity|].
  apply (exit_flags_of_run demo_supervisor demo_config demo_env 4242 demo_finish 9000
    default_NativeWorkerResult demo_iterations 1000 demo_tree tt demo_loop demo_result eq_refl eq_refl
    (proj1 demo_run_succeeds) (proj1 (proj2 demo_run_succeeds))).
  right. vm_compute. reflexivity.
Defined.

(** The demo with the deadline at the second reading; and a worker that keeps
    writing newlines to its control pipe. *)
Lemma supervision_loop_termination_witness :
  (exists outcome, supervision_loop demo_config demo_env 4242 1155 demo_iterations (initial_loop 1000 demo_tree tt) =
     Some outcome) /\
  supervision_loop demo_config demo_env 4242 1155
    [(1050, mkIteration WAIT_TIMEOUT no_reads (map AnswerBytes (replicate 40 [ascii_of_N 10])) 1150 demo_cancel
       demo_snapshot None)] (initial_loop 1000 demo_tree tt) = None.
Proof.
  destruct (supervision_loop_termination demo_supervisor demo_config demo_env 4242 1155
    (initial_loop 1000 demo_tree tt) ltac:(vm_compute; intro; discriminate)) as [Hend Hstuck].
  split.
  - apply (Hend (take 1 demo_iterations) 1160 _ [] ltac:(lia)). apply Forall_singleton. intros _. split.
    + intros _. left. apply elem_of_app. right. by left.
    + left. left. by left.
  - by apply (Hstuck ltac:(reflexivity) 1050 _ (replicate 40 [ascii_of_N 10]) []); [lia|..].
Defined.

End NativeRun.
