(* ===== verification/NativeLaunch.v ===== *)
(** * Launching a contained worker

    The part of [run_native_worker_impl] ([src/runtime/native_worker.cpp])
    before the worker runs: the limits of the request, the lookup of the
    executable in the trust catalog, the identity checks on open handles of
    the executable and of every read-only input, and the creation of the
    suspended process inside its job.

    The file system, the path grammar of the platform and the process calls
    are parameters: a [Platform] answers them.  A handle stays open for the
    whole launch, so what it answers is one value, [OpenFile]. *)

From S2P Require Import Prelude.
From S2P Require Import CheckedArithmetic.
From S2P Require Import NativeWorker.
From S2P Require Import NativeProtocol.
From S2P Require Import NativeRun.
Import CheckedArithmetic NativeWorker NativeProtocol NativeRun.
From Stdlib Require Import Ascii String.

Module NativeLaunch.

(** ** Text checks *)

Definition is_hex (c : ascii) : bool := in_range 48 57 c || in_range 97 102 c || in_range 65 70 c.

Definition is_sha256 (value : string) : bool :=
  Nat.eqb (String.length value) 64 && all_chars is_hex value.

(** [std::isalnum] of the "C" locale and the punctuation [-_.:/@]. *)
Definition is_identity_char (c : ascii) : bool :=
  in_range 48 57 c || in_range 65 90 c || in_range 97 122 c ||
  existsb (fun k => char_code c =? k) [45; 95; 46; 58; 47; 64].

Definition is_approval_identity (value : string) : bool :=
  negb (str_empty value) && Nat.leb (String.length value) 256 && all_chars is_identity_char value.

(** [std::tolower] of the "C" locale. *)
Definition to_lower (c : ascii) : ascii :=
  if in_range 65 90 c then ascii_of_N (Z.to_N (char_code c + 32)) else c.

Definition lowercase (value : string) : string :=
  string_of_list_ascii (map to_lower (list_ascii_of_string value)).

(** [text.rfind(prefix, 0) == 0] *)
Fixpoint starts_with (prefix text : WideString) : bool :=
  match prefix, text with
  | [], _ => true
  | p :: prefix, c :: text => (p =? c) && starts_with prefix text
  | _ :: _, [] => false
  end.

Definition wide (s : string) : WideString := map char_code (list_ascii_of_string s).

(** ** The platform *)

Record FileAttributes := mkAttributes { fa_directory : bool; fa_reparse_point : bool }.

(** What an open handle answers: its attributes and link count ([None] when
    the query fails), its final path (empty on failure) and the SHA-256 of its
    contents. *)
Record OpenFile := mkOpenFile {
  of_information : option (FileAttributes * Z);
  of_final_path : WideString;
  of_hash : option string;
}.

Record Platform := mkPlatform {
  pl_attributes : WideString -> option FileAttributes;
  pl_weakly_canonical : WideString -> option WideString;
  pl_lexically_normal : WideString -> WideString;
  pl_parent_path : WideString -> WideString;
  pl_path_eq : WideString -> WideString -> bool;
  pl_ordinal_equal_ignore_case : WideString -> WideString -> bool;
  pl_open_directory : WideString -> option OpenFile;
  pl_open_file : WideString -> option OpenFile;
}.

Section Launch.
Context (os : Platform).

Definition has_disallowed_windows_path_syntax (text : WideString) : bool :=
  if starts_with [92; 92; 46; 92] text then true
  else if Nat.leb 14 (List.length text) &&
          pl_ordinal_equal_ignore_case os (take 14 text) (wide "\\?\GLOBALROOT") then true
  else
  let colon_search_start :=
    if Nat.leb 2 (List.length text) && bool_decide (text !! 1%nat = Some 58) then 2%nat
    else if starts_with [92; 92; 63; 92] text && Nat.leb 6 (List.length text) &&
            bool_decide (text !! 5%nat = Some 58) then 6%nat
    else 0%nat in
  existsb (Z.eqb 58) (drop colon_search_start text).

(** [canonical_policy_path]; [None] is an error. *)
Definition canonical_policy_path (path : WideString) : option WideString :=
  if starts_with [92; 92; 63; 92] path then Some (pl_lexically_normal os path)
  else pl_weakly_canonical os path.

Definition is_under_root (path root : WideString) : bool :=
  let root := match last root with
              | Some c => if c =? 92 then root else root ++ [92]
              | None => root
              end in
  Nat.ltb (List.length root) (List.length path) &&
  pl_ordinal_equal_ignore_case os (take (List.length root) path) root.

(** [NativeWorkerTrustCatalog::find] *)
Definition catalog_find (catalog : NativeWorkerTrustCatalog) (executable_path : WideString)
    : option NativeWorkerExecutableApproval :=
  match pl_weakly_canonical os executable_path with
  | None | Some [] => None
  | Some canonical =>
      List.find (fun approval =>
        match pl_weakly_canonical os (nea_executable_path approval) with
        | Some approved => pl_path_eq os approved canonical
        | None => false
        end) catalog
  end.

(** ** Limits of the request *)

Definition kMaximumC2SyntheticPayloadBytes : Z := 67108864.
Definition kMaximumWorkerOutputBytes : Z := 16777216.

Definition policy_zero (p : NativeWorkerProtocolPolicy) : bool :=
  (npp_context_ready_timeout_ms p =? 0) || (npp_heartbeat_timeout_ms p =? 0) ||
  (npp_cooperative_cancel_ack_timeout_ms p =? 0) || (npp_worker_exit_timeout_ms p =? 0).

Definition gpu_evidence_policy_invalid (request : NativeWorkerRequest) (enabled : bool) : bool :=
  negb enabled || (nwq_expected_post_admission_payload_bytes request =? 0) ||
  (nwq_maximum_post_admission_payload_bytes request =? 0) ||
  (nwq_maximum_post_admission_payload_bytes request <? nwq_expected_post_admission_payload_bytes request) ||
  (kMaximumC2SyntheticPayloadBytes <? nwq_maximum_post_admission_payload_bytes request).

(** The checks before the file system is touched; the policy is present
    exactly when a supervisor is. *)
Definition request_rejected (request : NativeWorkerRequest) (policy : option NativeWorkerProtocolPolicy)
    : option string :=
  if match policy with Some p => policy_zero p | None => false end then
    Some "native_worker_protocol_deadline_invalid"%string
  else if nwq_timeout_ms request =? 0 then Some "native_worker_timeout_required"%string
  else if nwq_require_gpu_protocol_evidence request &&
          gpu_evidence_policy_invalid request (match policy with Some _ => true | None => false end) then
    Some "native_worker_gpu_protocol_evidence_policy_invalid"%string
  else if (nwq_max_output_bytes request =? 0) ||
          (kMaximumWorkerOutputBytes <? nwq_max_output_bytes request) then
    Some "native_worker_output_limit_required"%string
  else if (nwq_max_active_processes request =? 0) || (8 <? nwq_max_active_processes request) then
    Some "native_worker_process_limit_rejected"%string
  else
  let job_time_100ns := checked_multiply_u64 (nwq_timeout_ms request) 10000 in
  if (nwq_max_job_memory_bytes request =? 0) || (u64_max <? nwq_max_job_memory_bytes request) ||
     match job_time_100ns with None => true | Some t => 9223372036854775807 <? t end then
    Some "native_worker_job_resource_limit_rejected"%string
  else if has_disallowed_windows_path_syntax (nwq_executable_path request) then
    Some "native_worker_executable_path_syntax_rejected"%string
  else None.

(** ** Identity of the executable and of the inputs *)

Definition root_rejected (root : option OpenFile) : bool :=
  match root with
  | None => true
  | Some f =>
      match of_information f with
      | None => true
      | Some (attributes, _) => negb (fa_directory attributes) || fa_reparse_point attributes
      end || match of_final_path f with [] => true | _ => false end
  end.

(** The file's own conditions: a plain file with one link, directly in the
    root, with the approved contents. *)
Definition file_rejected (file root : OpenFile) (expected_sha256 : string) (check_under_root : bool) : bool :=
  match of_information file with
  | None => true
  | Some (attributes, links) =>
      (fa_directory attributes || fa_reparse_point attributes) || (links <>z 1)
  end ||
  match of_final_path file with [] => true | _ => false end ||
  (check_under_root && negb (is_under_root (of_final_path file) (of_final_path root))) ||
  negb (pl_path_eq os (pl_parent_path os (of_final_path file)) (of_final_path root)) ||
  match of_hash file with
  | None => true
  | Some hash => lowercase hash <>s lowercase expected_sha256
  end.

(** One entry of [approved_read_only_inputs]: the retained file or a reason. *)
Definition check_input (input : ApprovedReadOnlyInput) : string + OpenFile :=
  match ari_path input, ari_trusted_root input with
  | [], _ | _, [] => inl "native_worker_input_approval_invalid"%string
  | _, _ =>
  if negb (is_sha256 (ari_expected_sha256 input)) || negb (is_approval_identity (ari_approval_identity input)) ||
     has_disallowed_windows_path_syntax (ari_path input) then
    inl "native_worker_input_approval_invalid"%string
  else
  match canonical_policy_path (ari_trusted_root input), canonical_policy_path (ari_path input) with
  | Some ((_ :: _) as input_root), Some ((_ :: _) as input_path) =>
      if negb (pl_path_eq os (pl_parent_path os input_path) input_root) then
        inl "native_worker_input_path_rejected"%string
      else
      match pl_open_directory os input_root, pl_open_file os input_path with
      | Some root, Some file =>
          if root_rejected (Some root) || file_rejected file root (ari_expected_sha256 input) false then
            inl "native_worker_input_identity_rejected"%string
          else inr file
      | _, _ => inl "native_worker_input_identity_rejected"%string
      end
  | _, _ => inl "native_worker_input_path_rejected"%string
  end
  end.

Fixpoint check_inputs (inputs : list ApprovedReadOnlyInput) : string + list OpenFile :=
  match inputs with
  | [] => inr []
  | input :: rest =>
      match check_input input with
      | inl reason => inl reason
      | inr file => match check_inputs rest with
                    | inl reason => inl reason
                    | inr files => inr (file :: files)
                    end
      end
  end.

(** What the checks establish for the launch. *)
Record LaunchPlan := mkLaunchPlan {
  lp_approval : NativeWorkerExecutableApproval;
  lp_executable : OpenFile;
  lp_inputs : list OpenFile;
}.

(** From the first statement to the last identity check. *)
Definition preflight (catalog : NativeWorkerTrustCatalog) (request : NativeWorkerRequest)
    (policy : option NativeWorkerProtocolPolicy) : string + LaunchPlan :=
  match request_rejected request policy with
  | Some reason => inl reason
  | None =>
  if match pl_attributes os (nwq_executable_path request) with
     | Some attributes => fa_reparse_point attributes
     | None => false
     end then inl "native_worker_executable_reparse_rejected"%string
  else
  match catalog_find catalog (nwq_executable_path request) with
  | None => inl "native_worker_executable_not_approved"%string
  | Some approval =>
  if match nea_trusted_executable_root approval with [] => true | _ => false end ||
     negb (is_sha256 (nea_expected_executable_sha256 approval)) ||
     negb (is_approval_identity (nea_approval_identity approval)) then
    inl "native_worker_approval_invalid"%string
  else
  match canonical_policy_path (nea_trusted_executable_root approval) with
  | None | Some [] => inl "native_worker_trusted_root_rejected"%string
  | Some trusted_root =>
  if match pl_attributes os trusted_root with
     | None => true
     | Some attributes => negb (fa_directory attributes) || fa_reparse_point attributes
     end then inl "native_worker_trusted_root_rejected"%string
  else
  match pl_open_directory os trusted_root with
  | None => inl "native_worker_trusted_root_identity_rejected"%string
  | Some root =>
  if root_rejected (Some root) then inl "native_worker_trusted_root_identity_rejected"%string
  else
  match canonical_policy_path (nwq_executable_path request) with
  | None | Some [] => inl "native_worker_executable_rejected"%string
  | Some executable =>
  match pl_open_file os executable with
  | None => inl "native_worker_executable_identity_rejected"%string
  | Some file =>
  if file_rejected file root (nea_expected_executable_sha256 approval) true then
    inl "native_worker_executable_identity_rejected"%string
  else if Nat.ltb 8 (List.length (nwq_approved_read_only_inputs request)) then
    inl "native_worker_input_approval_count_rejected"%string
  else
  match check_inputs (nwq_approved_read_only_inputs request) with
  | inl reason => inl reason
  | inr files => inr (mkLaunchPlan approval file files)
  end end end end end end end.

End Launch.

(** ** The launch *)

(** The answers of the calls that build pipes, job and process, in program
    order. *)
Record LaunchEnv := mkLaunchEnv {
  la_nonce : list ascii;
  la_control_pipe : bool;
  la_control_inherit : bool;
  la_environment : bool;
  la_temp_directory : bool;
  la_output_artifact : option string;
  la_output_pipe : bool;
  la_output_inherit : bool;
  la_input_pipe : bool;
  la_input_inherit : bool;
  la_null_input : bool;
  la_job : bool;
  la_job_limits : bool;
  la_attribute_list : bool;
  la_handle_restriction : bool;
  la_dll_policy : bool;
  la_launch_ticks : Z;
  la_working_directory : bool;
  la_process_id : option Z;
  la_supervisor_process_id : Z;
  la_assigned : bool;
  la_assign_cleanup : bool;
  la_snapshot : option JobSnapshot;
  la_terminate : TerminateEnv;
  la_resumed : bool;
  la_deadline_now : Z;
  la_protocol_started : Z;
}.

Fixpoint first_failure (checks : list (bool * string)) : option string :=
  match checks with
  | [] => None
  | (ok, reason) :: rest => if ok then first_failure rest else Some reason
  end.

(** Every call up to [CreateProcessW] with the reason its failure reports. *)
Definition setup_checks (enabled : bool) (env : LaunchEnv) : list (bool * string) :=
  let when_enabled b := negb enabled || b in
  [(when_enabled (match la_nonce env with [] => false | _ => true end), "native_worker_protocol_nonce_failed");
   (when_enabled (la_control_pipe env), "native_worker_protocol_output_pipe_failed");
   (when_enabled (la_control_inherit env), "native_worker_protocol_output_inherit_failed");
   (la_environment env, "native_worker_environment_or_dll_policy_failed");
   (la_temp_directory env, "native_worker_temp_directory_unavailable");
   (match la_output_artifact env with Some _ => true | None => false end, "native_worker_output_create_failed");
   (la_output_pipe env, "native_worker_output_pipe_failed");
   (la_output_inherit env, "native_worker_output_inherit_failed");
   (when_enabled (la_input_pipe env), "native_worker_protocol_pipe_failed");
   (when_enabled (la_input_inherit env), "native_worker_protocol_inherit_failed");
   (enabled || la_null_input env, "native_worker_stdio_setup_failed");
   (la_job env, "native_worker_job_create_failed");
   (la_job_limits env, "native_worker_job_limit_failed");
   (la_attribute_list env, "native_worker_attribute_list_failed");
   (la_handle_restriction env, "native_worker_handle_restriction_failed");
   (la_dll_policy env, "native_worker_child_dll_policy_failed");
   (la_working_directory env, "native_worker_working_directory_unavailable")]%string.

Definition job_identity (env : LaunchEnv) (process_id : Z) : string :=
  string_of_list_ascii (bytes "job:" ++ to_string (la_supervisor_process_id env) ++ bytes ":" ++
    to_string process_id ++ bytes ":" ++ to_string (la_launch_ticks env)).

Definition executable_hash (plan : LaunchPlan) : string := default ""%string (of_hash (lp_executable plan)).

(** The result as it is filled in before the worker runs. *)
Definition launched_result (request : NativeWorkerRequest) (plan : LaunchPlan) (env : LaunchEnv)
    (process_id : Z) : NativeWorkerResult :=
  {| default_NativeWorkerResult with
     nwr_output_path := default ""%string (la_output_artifact env);
     nwr_executable_sha256 := executable_hash plan;
     nwr_approval_identity := nea_approval_identity (lp_approval plan);
     nwr_output_limit_bytes := nwq_max_output_bytes request;
     nwr_job_memory_limit_bytes := nwq_max_job_memory_bytes request;
     nwr_job_cpu_time_limit_milliseconds := nwq_timeout_ms request;
     nwr_root_process_id := process_id;
     nwr_job_identity := job_identity env process_id |}.

Definition containment_identity (request : NativeWorkerRequest) (plan : LaunchPlan) (env : LaunchEnv)
    (process_id : Z) : NativeWorkerContainmentIdentity :=
  mkContainment process_id (job_identity env process_id) (executable_hash plan)
    (nwq_max_active_processes request) (nwq_max_job_memory_bytes request) (nwq_timeout_ms request).

Section Worker.
Context {E S : Type} {sup : ProtocolSupervisor E S} (os : Platform).

(** [run_native_worker_impl]; [None] when the iterations end before the loop
    does, or a drain does not return. *)
Definition run_native_worker_impl (catalog : NativeWorkerTrustCatalog) (request : NativeWorkerRequest)
    (policy : option NativeWorkerProtocolPolicy) (env : LaunchEnv) (envs : nat -> LineEnv E)
    (its : list (Z * Iteration)) (finish : FinishEnv) (s : S) : option (NativeWorkerResult * S) :=
  match preflight os catalog request policy with
  | inl reason => Some (fail reason, s)
  | inr plan =>
  let enabled := match policy with Some _ => true | None => false end in
  match first_failure (setup_checks enabled env) with
  | Some reason => Some (fail reason, s)
  | None =>
  match la_process_id env with
  | None => Some (fail "native_worker_create_failed", s)
  | Some process_id =>
  if negb (la_assigned env) then
    Some (fail (if la_assign_cleanup env then "native_worker_job_assign_failed"
                else "native_worker_job_assign_cleanup_failed"), s)
  else
  let (sampled, tree) :=
    sample_job_tree process_id (nwq_max_active_processes request) (la_snapshot env) initial_tree in
  let terminated := terminate_job_tree (la_terminate env) tree (nwq_timeout_ms request) in
  if negb sampled then
    Some (fail (if terminated then "native_worker_tree_sample_failed"
                else "native_worker_tree_sample_cleanup_failed"), s)
  else
  let (bound, s) :=
    if enabled then sup_bind_owned_worker (containment_identity request plan env process_id) s
    else (true, s) in
  if negb bound then
    Some (fail (if terminated then "native_worker_protocol_bind_rejected"
                else "native_worker_protocol_bind_cleanup_failed"), s)
  else if negb (la_resumed env) then
    Some (fail (if terminated then "native_worker_resume_failed"
                else "native_worker_resume_cleanup_failed"), s)
  else
  let deadline := la_deadline_now env +64 nwq_timeout_ms request in
  let pc := mkProtocolConfig enabled request (default default_NativeWorkerProtocolPolicy policy)
              (la_nonce env) (la_protocol_started env) in
  match supervision_loop pc envs process_id deadline its
          (initial_loop (la_protocol_started env) tree s) with
  | None => None
  | Some (inl (reason, s)) => Some (fail reason, s)
  | Some (inr ls) =>
      match finish_run pc envs process_id finish deadline (launched_result request plan env process_id) ls with
      | None => None
      | Some result => Some (result, (drain_protocol pc envs (read_all (fe_control finish)).1 (ls_drain ls)).2.2)
      end
  end end end end.

(** [run_native_worker] and [run_supervised_native_worker] *)
Definition run_native_worker catalog request env envs its finish s :=
  run_native_worker_impl catalog request None env envs its finish s.

Definition run_supervised_native_worker catalog request policy env envs its finish s :=
  run_native_worker_impl catalog request (Some policy) env envs its finish s.

End Worker.

(** ** What an approved launch is *)

(** An open plain file with one link, directly inside the open root
    directory, whose contents have the expected digest. *)
Definition identified_file (os : Platform) (file root : OpenFile) (expected_sha256 : string) : Prop :=
  (exists attributes, of_information file = Some (attributes, 1) /\
     fa_directory attributes = false /\ fa_reparse_point attributes = false) /\
  of_final_path file <> [] /\
  pl_path_eq os (pl_parent_path os (of_final_path file)) (of_final_path root) = true /\
  exists hash, of_hash file = Some hash /\ lowercase hash = lowercase expected_sha256.

Definition identified_root (root : OpenFile) : Prop :=
  of_final_path root <> [] /\
  exists attributes links, of_information root = Some (attributes, links) /\
    fa_directory attributes = true /\ fa_reparse_point attributes = false.

(** The directory and the file that the code opens for a path. *)
Definition opened_root (os : Platform) (path : WideString) (canonical : WideString) (root : OpenFile) : Prop :=
  path <> [] /\ canonical_policy_path os path = Some canonical /\ canonical <> [] /\
  pl_open_directory os canonical = Some root /\ identified_root root.

Definition opened_file (os : Platform) (path : WideString) (canonical : WideString) (file : OpenFile) : Prop :=
  canonical_policy_path os path = Some canonical /\ canonical <> [] /\ pl_open_file os canonical = Some file.

(** [file] is what the input's own path opens, its root what the approval's
    own root opens. *)
Definition approved_input (os : Platform) (input : ApprovedReadOnlyInput) (file : OpenFile) : Prop :=
  is_sha256 (ari_expected_sha256 input) = true /\ is_approval_identity (ari_approval_identity input) = true /\
  has_disallowed_windows_path_syntax os (ari_path input) = false /\ ari_path input <> [] /\
  exists root_path root path,
    opened_root os (ari_trusted_root input) root_path root /\ opened_file os (ari_path input) path file /\
    pl_path_eq os (pl_parent_path os path) root_path = true /\
    identified_file os file root (ari_expected_sha256 input).

Definition limits_ok (request : NativeWorkerRequest) : Prop :=
  0 < nwq_timeout_ms request /\ 0 < nwq_max_output_bytes request <= 16777216 /\
  0 < nwq_max_active_processes request <= 8 /\ 0 < nwq_max_job_memory_bytes request.

Definition request_wf (request : NativeWorkerRequest) : Prop :=
  u32 (nwq_timeout_ms request) /\ u64 (nwq_max_output_bytes request) /\ u32 (nwq_max_active_processes request) /\
  u64 (nwq_max_job_memory_bytes request).

(** The timeouts of the protocol are set, and evidence of the GPU protocol is
    asked for only with the protocol and with a bounded payload. *)
Definition policy_approved (request : NativeWorkerRequest) (policy : option NativeWorkerProtocolPolicy) : Prop :=
  (forall p, policy = Some p ->
     npp_context_ready_timeout_ms p <> 0 /\ npp_heartbeat_timeout_ms p <> 0 /\
     npp_cooperative_cancel_ack_timeout_ms p <> 0 /\ npp_worker_exit_timeout_ms p <> 0) /\
  (nwq_require_gpu_protocol_evidence request = true ->
     is_Some policy /\ nwq_expected_post_admission_payload_bytes request <> 0 /\
     nwq_expected_post_admission_payload_bytes request <= nwq_maximum_post_admission_payload_bytes request <=
       67108864).

(** The executable was opened at the request's path, in the directory opened
    at the approval's trusted root. *)
Definition approved_executable (os : Platform) (request : NativeWorkerRequest)
    (approval : NativeWorkerExecutableApproval) (file : OpenFile) : Prop :=
  is_sha256 (nea_expected_executable_sha256 approval) = true /\
  is_approval_identity (nea_approval_identity approval) = true /\
  (forall attributes, pl_attributes os (nwq_executable_path request) = Some attributes ->
     fa_reparse_point attributes = false) /\
  exists root_path root path,
    opened_root os (nea_trusted_executable_root approval) root_path root /\
    (exists attributes, pl_attributes os root_path = Some attributes /\ fa_directory attributes = true /\
       fa_reparse_point attributes = false) /\
    opened_file os (nwq_executable_path request) path file /\
    is_under_root os (of_final_path file) (of_final_path root) = true /\
    identified_file os file root (nea_expected_executable_sha256 approval).

(** The plan of a launch that the catalog approves. *)
Definition approved_launch (os : Platform) (catalog : NativeWorkerTrustCatalog) (request : NativeWorkerRequest)
    (plan : LaunchPlan) : Prop :=
  limits_ok request /\ has_disallowed_windows_path_syntax os (nwq_executable_path request) = false /\
  lp_approval plan ∈ catalog /\
  (exists canonical approved, pl_weakly_canonical os (nwq_executable_path request) = Some canonical /\
     pl_weakly_canonical os (nea_executable_path (lp_approval plan)) = Some approved /\
     pl_path_eq os approved canonical = true) /\
  approved_executable os request (lp_approval plan) (lp_executable plan) /\
  Forall2 (approved_input os) (nwq_approved_read_only_inputs request) (lp_inputs plan) /\
  (List.length (lp_inputs plan) <= 8)%nat.

(** The worker ran in a job with limits, assigned while it was suspended, with
    a restricted handle list and DLL policy. *)
Definition contained_launch (env : LaunchEnv) : Prop :=
  la_job env = true /\ la_job_limits env = true /\ la_attribute_list env = true /\
  la_handle_restriction env = true /\ la_dll_policy env = true /\ la_assigned env = true /\
  la_resumed env = true.

Lemma request_accepted os request policy :
  request_wf request -> request_rejected os request policy = None ->
  limits_ok request /\ has_disallowed_windows_path_syntax os (nwq_executable_path request) = false /\
  policy_approved request policy.
Proof.
  intros (?&?&?&?). unfold request_rejected.
  destruct (match policy with Some _ => _ | None => _ end) eqn:Hp; [done|].
  destruct (nwq_timeout_ms request =? 0) eqn:?; [done|]. destruct (_ && _) eqn:Hg; [done|].
  repeat match goal with |- (if ?b then Some _ else _) = None -> _ => destruct b eqn:?; [done|] end.
  intros _. split; [|split; [done|]].
  - bool_facts. unfold limits_ok, kMaximumWorkerOutputBytes, u32, u64 in *. lia.
  - split.
    + intros p ->. unfold policy_zero in Hp. by bool_facts.
    + intros He. rewrite He in Hg. cbn in Hg.
      unfold gpu_evidence_policy_invalid, kMaximumC2SyntheticPayloadBytes in Hg.
      destruct policy; [|done]. bool_facts. split; [by eexists|lia].
Qed.

Lemma root_accepted root : root_rejected (Some root) = false -> identified_root root.
Proof.
  unfold root_rejected, identified_root. intros H. apply orb_false_iff in H as [H1 H2].
  split; [by destruct (of_final_path root)|].
  destruct (of_information root) as [[attributes links]|]; [|done]. bool_facts. eauto 6.
Qed.

Lemma file_accepted os file root expected under :
  file_rejected os file root expected under = false ->
  identified_file os file root expected /\
  (under = true -> is_under_root os (of_final_path file) (of_final_path root) = true).
Proof.
  unfold file_rejected, identified_file. intros H. apply orb_false_iff in H as [H H5].
  apply orb_false_iff in H as [H H4]. apply orb_false_iff in H as [H H3]. apply orb_false_iff in H as [H1 H2].
  apply negb_false_iff in H4. split.
  - destruct (of_information file) as [[attributes links]|]; [|done]. bool_facts. subst.
    split; [by exists attributes|]. split; [by destruct (of_final_path file)|]. split; [done|].
    destruct (of_hash file) as [hash|]; [|done]. apply negb_false_iff, String.eqb_eq in H5. by exists hash.
  - intros ->. cbn in H3. by apply negb_false_iff in H3.
Qed.

Lemma input_accepted os input file : check_input os input = inr file -> approved_input os input file.
Proof.
  unfold check_input, approved_input.
  destruct (ari_path input) as [|c p] eqn:Hp; [done|]. destruct (ari_trusted_root input) as [|c' t] eqn:Ht; [done|].
  destruct (_ || _) eqn:G; [done|]. bool_facts.
  destruct (canonical_policy_path os (c' :: t)) as [[|r0 root_path]|] eqn:Hroot; [done| |done].
  destruct (canonical_policy_path os (c :: p)) as [[|p0 path]|] eqn:Hpath; [done| |done].
  destruct (pl_path_eq os _ _) eqn:Hparent; [|done]. cbn [negb].
  destruct (pl_open_directory os _) as [root|] eqn:Hdir; [|done].
  destruct (pl_open_file os _) as [f|] eqn:Hfile; [|done].
  destruct (root_rejected _ || _) eqn:G'; [done|]. intros [= <-].
  apply orb_false_iff in G' as [Hr Hf]. split_and!; [done..|]. exists (r0 :: root_path), root, (p0 :: path).
  apply root_accepted in Hr. apply file_accepted in Hf as [Hf _].
  split; [by split_and!|]. split; [by split_and!|]. by split.
Qed.

Lemma inputs_accepted os inputs files :
  check_inputs os inputs = inr files -> Forall2 (approved_input os) inputs files.
Proof.
  revert files; induction inputs as [|input rest IH]; intros files; cbn; [by intros [= <-]|].
  destruct (check_input os input) as [|file] eqn:Hi; [done|].
  destruct (check_inputs os rest) as [|fs]; [done|]. intros [= <-].
  constructor; [by apply input_accepted|by apply IH].
Qed.

Lemma catalog_found os catalog path approval :
  catalog_find os catalog path = Some approval ->
  approval ∈ catalog /\ exists canonical approved, pl_weakly_canonical os path = Some canonical /\
    pl_weakly_canonical os (nea_executable_path approval) = Some approved /\ pl_path_eq os approved canonical = true.
Proof.
  unfold catalog_find. destruct (pl_weakly_canonical os path) as [[|c l]|]; [done| |done].
  intros [Hin Hm]%List.find_some. split; [by apply list_elem_of_In|].
  destruct (pl_weakly_canonical os (nea_executable_path approval)) as [approved|]; [|done]. eauto.
Qed.

Lemma preflight_approved os catalog request policy plan :
  request_wf request -> preflight os catalog request policy = inr plan ->
  approved_launch os catalog request plan /\ policy_approved request policy.
Proof.
  intros Hwf. unfold preflight. destruct (request_rejected os request policy) eqn:Hreq; [done|].
  match goal with |- (if ?b then _ else _) = _ -> _ => destruct b eqn:Hreparse end; [done|].
  destruct (catalog_find os catalog _) as [approval|] eqn:Hfind; [|done]. destruct (_ || _) eqn:Happroval; [done|].
  destruct (canonical_policy_path os (nea_trusted_executable_root _)) as [[|r0 root_path]|] eqn:Hrp; [done| |done].
  match goal with |- (if ?b then _ else _) = _ -> _ => destruct b eqn:Hattributes end; [done|].
  destruct (pl_open_directory os _) as [root|] eqn:Hdir; [|done]. destruct (root_rejected _) eqn:Hroot; [done|].
  destruct (canonical_policy_path os (nwq_executable_path request)) as [[|p0 path]|] eqn:Hpath; [done| |done].
  destruct (pl_open_file os _) as [file|] eqn:Hopen; [|done]. destruct (file_rejected _ _ _ _ _) eqn:Hfile; [done|].
  destruct (Nat.ltb 8 _) eqn:Hcount; [done|]. destruct (check_inputs os _) as [|files] eqn:Hin; [done|].
  intros [= <-]. apply inputs_accepted in Hin. apply root_accepted in Hroot.
  apply file_accepted in Hfile as [Hfile Hunder]. apply catalog_found in Hfind as [Hcat Hcanon].
  destruct (request_accepted _ _ _ Hwf Hreq) as (Hlim & Hsyn & Hpol). split; [|done]. unfold approved_launch. cbn.
  apply orb_false_iff in Happroval as [Happroval Hident]. apply orb_false_iff in Happroval as [Hempty Hsha].
  apply negb_false_iff in Hident, Hsha.
  split_and!; [done..| |done|rewrite <- (Forall2_length _ _ _ Hin); by apply Nat.ltb_ge in Hcount].
  split_and!; [done..|by intros attributes Ha; rewrite Ha in Hreparse|].
  exists (r0 :: root_path), root, (p0 :: path).
  split; [split_and!; [intros He; by rewrite He in Hempty|done..]|].
  split; [|split; [by split_and!|split; [by apply Hunder|done]]].
  destruct (pl_attributes os (r0 :: root_path)) as [attributes|]; [|done]. exists attributes.
  by apply orb_false_iff in Hattributes as [Hd%negb_false_iff ?].
Qed.

Lemma setup_checks_pass enabled env :
  first_failure (setup_checks enabled env) = None ->
  la_job env = true /\ la_job_limits env = true /\ la_attribute_list env = true /\
  la_handle_restriction env = true /\ la_dll_policy env = true.
Proof.
  unfold setup_checks. cbn [first_failure].
  repeat match goal with |- (if ?b then _ else Some _) = None -> _ => destruct b eqn:?; [|done] end. done.
Qed.

Section WorkerProofs.
Context {E S : Type} {sup : ProtocolSupervisor E S} (os : Platform).

(** The configuration of the protocol of one launch. *)
Definition launch_config (request : NativeWorkerRequest) (policy : option NativeWorkerProtocolPolicy)
    (env : LaunchEnv) : ProtocolConfig :=
  mkProtocolConfig (match policy with Some _ => true | None => false end) request
    (default default_NativeWorkerProtocolPolicy policy) (la_nonce env) (la_protocol_started env).

(** The worker was approved, started, and the loop reached its end. *)
Definition completed (catalog : NativeWorkerTrustCatalog) (request : NativeWorkerRequest)
    (policy : option NativeWorkerProtocolPolicy) (env : LaunchEnv) (envs : nat -> LineEnv E)
    (its : list (Z * Iteration)) (finish : FinishEnv) (r : NativeWorkerResult) : Prop :=
  exists plan process_id tree (s1 : S) ls,
    preflight os catalog request policy = inr plan /\ la_process_id env = Some process_id /\
    contained_launch env /\
    sample_job_tree process_id (nwq_max_active_processes request) (la_snapshot env) initial_tree = (true, tree) /\
    supervision_loop (launch_config request policy env) envs process_id
      (la_deadline_now env +64 nwq_timeout_ms request) its (initial_loop (la_protocol_started env) tree s1) =
      Some (inr ls) /\
    finish_run (launch_config request policy env) envs process_id finish
      (la_deadline_now env +64 nwq_timeout_ms request) (launched_result request plan env process_id) ls = Some r.

Lemma run_cases catalog request policy env envs its finish s r s' :
  run_native_worker_impl os catalog request policy env envs its finish s = Some (r, s') ->
  (exists reason, r = fail reason) \/ completed catalog request policy env envs its finish r.
Proof.
  unfold run_native_worker_impl. destruct (preflight os catalog request policy) as [|plan] eqn:Hpre;
    [intros [= <- _]; eauto|].
  destruct (first_failure _) as [reason|] eqn:Hsetup; [intros [= <- _]; eauto|]. apply setup_checks_pass in Hsetup.
  destruct (la_process_id env) as [pid|] eqn:Hpid; [|intros [= <- _]; eauto].
  destruct (la_assigned env) eqn:Hassigned; cbn [negb]; [|intros [= <- _]; eauto].
  destruct (sample_job_tree pid _ _ _) as [sampled tree] eqn:Hs.
  destruct sampled; cbn [negb]; [|intros [= <- _]; eauto].
  match goal with |- context [let (_, _) := ?x in _] => destruct x as [bound s1] end.
  destruct (negb bound); [intros [= <- _]; eauto|].
  destruct (la_resumed env) eqn:Hresumed; cbn [negb]; [|intros [= <- _]; eauto].
  fold (launch_config request policy env).
  destruct (supervision_loop _ _ _ _ _ _) as [[[reason s2]|ls]|] eqn:Hl; [intros [= <- _]; eauto| |done].
  destruct (finish_run _ _ _ _ _ _ ls) as [result|] eqn:Hf; [|done].
  intros Heq. injection Heq as <- _. right. exists plan, pid, tree, s1, ls. unfold contained_launch.
  rewrite Hassigned, Hresumed. by destruct Hsetup as (-> & -> & -> & -> & ->).
Qed.

End WorkerProofs.

(** The identity fields of a successful result are those of the launch. *)
Definition keeps_identity (a r : NativeWorkerResult) : Prop :=
  nwr_ok r = true ->
  nwr_executable_sha256 r = nwr_executable_sha256 a /\ nwr_approval_identity r = nwr_approval_identity a /\
  nwr_root_process_id r = nwr_root_process_id a.

Lemma reconcile_identity pc root memory job tm r :
  let r' := (reconcile_job_accounting pc root memory job tm r).2 in
  nwr_executable_sha256 r' = nwr_executable_sha256 r /\ nwr_approval_identity r' = nwr_approval_identity r /\
  nwr_root_process_id r' = nwr_root_process_id r.
Proof.
  unfold reconcile_job_accounting. destruct (sample_retained_root _ _ _) as [ok tm'].
  destruct (negb ok); [done|]. destruct job as [ja|]; [|done]. by destruct (accounting_inconsistent _ _ _ _).
Qed.

Lemma publish_identity pc root env captured tm timed_out r r' :
  nwr_ok r = false -> publish_result pc root env captured tm timed_out r = Some r' -> keeps_identity r r'.
Proof.
  intros Hr. unfold publish_result. destruct (drain_output _ _ _) as [[read [cap exceeded]]|]; [|done].
  intros [= <-]. assert (forall r', nwr_ok r' = false -> keeps_identity r r') as Hno by (intros r' H H'; congruence).
  destruct (negb read); [by apply Hno|]. destruct exceeded; [by apply Hno|].
  do 2 (match goal with |- keeps_identity _ (if ?b then _ else _) => destruct b end; [by apply Hno|]).
  destruct (fe_exit_code env) as [code|]; [|by apply Hno].
  match goal with |- context [reconcile_job_accounting pc root ?m ?j tm ?r0] =>
    pose proof (reconcile_identity pc root m j tm r0) as Hrec;
    destruct (reconcile_job_accounting pc root m j tm r0) as [ok r1] end.
  match goal with |- keeps_identity _ (if ?b then _ else _) => destruct b end; [by apply Hno|].
  destruct (negb timed_out && (code =? 0)); [|by apply Hno].
  match goal with |- keeps_identity _ (if ?b then _ else _) => destruct b end; [by apply Hno|].
  intros _. exact Hrec.
Qed.

Lemma finish_identity {E S} {sup : ProtocolSupervisor E S} pc envs root env deadline r (ls : LoopState (S := S)) r' :
  nwr_ok r = false -> finish_run pc envs root env deadline r ls = Some r' -> keeps_identity r r'.
Proof.
  intros Hr. assert (forall r1, nwr_ok r1 = false -> Some r1 = Some r' -> keeps_identity r r') as Hno
    by (intros r1 H [= <-] H'; congruence).
  unfold finish_run. destruct (drain_control _ _ _ _) as [[read drained]|]; [|done].
  repeat match goal with
  | |- (if ?b then _ else _) = _ -> _ => destruct b
  | |- Some (fail _) = _ -> _ => by apply Hno
  | |- Some (protocol_failure_result _ _ _ _ _ _) = _ -> _ => by apply Hno, protocol_failure_not_ok
  | |- Some (output_limit_result _ _) = _ -> _ => by apply Hno
  | |- publish_result _ _ _ _ _ _ (with_protocol ?rn _) = _ -> _ =>
      exact (publish_identity _ _ _ _ _ _ (with_protocol rn r) r' Hr)
  end.
Qed.

(** What a run says of the launch it started from. *)
Definition launch_outcome {S} (os : Platform) (catalog : NativeWorkerTrustCatalog) (request : NativeWorkerRequest)
    (policy : option NativeWorkerProtocolPolicy) (env : LaunchEnv) (s : S) (r : NativeWorkerResult) (s' : S) : Prop :=
  match preflight os catalog request policy with
  | inl reason => r = fail reason /\ s' = s
  | inr plan =>
      approved_launch os catalog request plan /\ policy_approved request policy /\
      (nwr_ok r = true ->
        contained_launch env /\
        lowercase (nwr_executable_sha256 r) = lowercase (nea_expected_executable_sha256 (lp_approval plan)) /\
        nwr_approval_identity r = nea_approval_identity (lp_approval plan) /\
        la_process_id env = Some (nwr_root_process_id r))
  end.

Lemma run_outcome_approved {E S} (sup : ProtocolSupervisor E S) os catalog request policy env envs its
    finish s r s' :
  request_wf request ->
  run_native_worker_impl os catalog request policy env envs its finish s = Some (r, s') ->
  launch_outcome os catalog request policy env s r s'.
Proof.
  intros Hwf Hrun. pose proof (run_cases _ _ _ _ _ _ _ _ _ _ _ Hrun) as Hcases. unfold launch_outcome.
  destruct (preflight os catalog request policy) as [reason|plan] eqn:Hpre.
  - unfold run_native_worker_impl in Hrun. rewrite Hpre in Hrun. by injection Hrun as <- <-.
  - destruct (preflight_approved _ _ _ _ _ Hwf Hpre) as [Happ Hpol]. split_and!; [exact Happ|exact Hpol|]. intros Hok.
    destruct Hcases as [[reason ->]|(plan' & pid & tree & s1 & ls & Hpre' & Hpid & Hcontained & _ & _ & Hr)]; [done|].
    rewrite Hpre in Hpre'. injection Hpre' as <-.
    destruct (finish_identity _ _ _ _ _ (launched_result request plan env pid) ls r eq_refl Hr Hok)
      as (H1 & H2 & H3).
    rewrite H1, H2, H3. cbn. rewrite Hpid. split_and!; [done| |done..].
    destruct Happ as (_ & _ & _ & _ & (_ & _ & _ & (? & ? & ? & _ & _ & _ & _ & _ & _ & _ & hash & Hh & He)) & _).
    unfold executable_hash. by rewrite Hh.
Qed.

(** ** Properties *)

(** C19. Only approved code runs.  A request that fails a check changes
    nothing and is reported with its reason.  Otherwise the request is within
    its limits; its executable is named by an approval of the catalog; the
    file opened at the request's own path is a plain file with one link,
    directly in the directory opened at that approval's own trusted root, and
    has the approved digest; every read-only input was opened at its own path
    and identified in the same way in its own root; and a successful result
    comes from a worker that ran in its limited job, with the restricted
    handle list and DLL policy, and names that digest, that approval and that
    process. *)
Theorem only_approved_workers_run {E S} (sup : ProtocolSupervisor E S) os catalog request policy env envs its
    finish s r s' :
  request_wf request ->
  run_native_worker_impl os catalog request policy env envs its finish s = Some (r, s') ->
  match preflight os catalog request policy with
  | inl reason => r = fail reason /\ s' = s
  | inr plan =>
      approved_launch os catalog request plan /\ policy_approved request policy /\
      (nwr_ok r = true ->
        contained_launch env /\
        lowercase (nwr_executable_sha256 r) = lowercase (nea_expected_executable_sha256 (lp_approval plan)) /\
        nwr_approval_identity r = nea_approval_identity (lp_approval plan) /\
        la_process_id env = Some (nwr_root_process_id r))
  end.
Proof. apply run_outcome_approved. Qed.

(** ** A launch *)

Definition demo_sha : string := "00112233445566778899aabbccddeeff00112233445566778899aabbccddeeff".

(** A file system with one directory and one executable in it. *)
Definition demo_platform : Platform :=
  let root := wide "C:\w" in
  mkPlatform (fun p => if list_eqb p root then Some (mkAttributes true false) else Some (mkAttributes false false))
    (fun p => Some p) (fun p => p) (fun _ => root) list_eqb list_eqb
    (fun p => Some (mkOpenFile (Some (mkAttributes true false, 1)) p None))
    (fun p => Some (mkOpenFile (Some (mkAttributes false false, 1)) p (Some demo_sha))).

Definition demo_catalog : NativeWorkerTrustCatalog :=
  [mkExecutableApproval (wide "C:\w\a.exe") (wide "C:\w") demo_sha "review:1"].

Definition demo_launch_request : NativeWorkerRequest :=
  let q := pc_request demo_config in
  {| q with nwq_executable_path := wide "C:\w\a.exe"; nwq_timeout_ms := 8000 |}.

Definition demo_launch_env : LaunchEnv :=
  mkLaunchEnv demo_nonce true true true true (Some "out.log"%string) true true true true true true true true true
    true 900 true (Some 4242) 77 true true demo_snapshot (mkTerminateEnv false 0 false 0 [] []) true 1000 1000.

Abbreviation demo_outcome :=
  (run_native_worker_impl (sup := demo_supervisor) demo_platform demo_catalog demo_launch_request
    (Some default_NativeWorkerProtocolPolicy) demo_launch_env demo_env demo_iterations demo_finish tt)
  (only parsing).

Lemma demo_outcome_ok : exists r, demo_outcome = Some (r, tt) /\ nwr_ok r = true /\ nwr_root_process_id r = 4242.
Proof. eexists. split; [vm_compute; reflexivity|]. by split. Qed.

Lemma demo_preflight_ok :
  exists plan, preflight demo_platform demo_catalog demo_launch_request (Some default_NativeWorkerProtocolPolicy) =
    inr plan /\ lowercase (nea_expected_executable_sha256 (lp_approval plan)) = demo_sha.
Proof. eexists. split; [vm_compute; reflexivity|vm_compute; reflexivity]. Qed.

Lemma only_approved_workers_run_witness :
  exists r plan, demo_outcome = Some (r, tt) /\ nwr_ok r = true /\
    approved_launch demo_platform demo_catalog demo_launch_request plan /\
    lowercase (nwr_executable_sha256 r) = demo_sha.
Proof.
  destruct demo_outcome_ok as (r & Hr & Hok & _).
  pose proof (only_approved_workers_run demo_supervisor demo_platform demo_catalog demo_launch_request
    (Some default_NativeWorkerProtocolPolicy) demo_launch_env demo_env demo_iterations demo_finish tt r tt
    ltac:(closed_bounds) Hr) as H.
  destruct demo_preflight_ok as (plan & Hp & Hs). rewrite Hp in H. destruct H as (Ha & _ & Hi).
  exists r, plan. split; [exact Hr|]. split; [exact Hok|]. split; [exact Ha|].
  rewrite <- Hs. exact (proj1 (proj2 (Hi Hok))).
Defined.

End NativeLaunch.
