(* ===== verification/SupervisedRun.v ===== *)
(** * The runner and the session together

    [GpuAdmissionSession::run_contained_worker] hands the native runner a
    [CallbackProtocolSupervisor] whose callbacks are operations of the
    session.  This file makes the session an instance of the supervisor
    interface and relates the state machine of the runner
    ([src/runtime/native_worker.cpp]) to the state machine of the session
    ([src/governor/gpu_admission_session.cpp]). *)

From S2P Require Import Prelude.
From S2P Require Import CheckedArithmetic.
From S2P Require Import MemoryCap.
From S2P Require Import HostAdmission.
From S2P Require Import GpuTelemetry.
From S2P Require Import SupervisorAdmission.
From S2P Require Import PreAdmission.
From S2P Require Import PostAdmission.
From S2P Require Import AdmissionToken.
From S2P Require Import Watchdog.
From S2P Require Import GpuLease.
From S2P Require Import NativeWorker.
From S2P Require Import AdmissionSession.
From S2P Require Import NativeProtocol.
From S2P Require Import NativeRun.
From S2P Require Import NativeLaunch.
Import HostAdmission GpuTelemetry SupervisorAdmission PreAdmission PostAdmission AdmissionTokens Watchdog.
Import NativeWorker AdmissionSession NativeProtocol NativeRun NativeLaunch.
From Stdlib Require Import Ascii String.

Module SupervisedRun.

(** What the outside contributes to a callback that gathers live evidence. *)
Record SessionEnv := mkSessionEnv {
  se_post : option LivePostContextEvidence;
  se_watchdog : option LiveWatchdogEvidence;
  se_evaluated_at : Z;
  se_admission_at : Z;
}.

(** [CallbackProtocolSupervisor] over the lambdas of [run_contained_worker]. *)
#[export] Instance session_supervisor (rc : RunContext) : ProtocolSupervisor SessionEnv Session := {|
  sup_bind_owned_worker := bind_owned_worker;
  sup_context_ready_with_evidence e _ evidence s :=
    context_ready_with_evidence rc evidence (se_post e) (se_evaluated_at e) (se_admission_at e) s;
  sup_token_consumed := token_consumed;
  sup_heartbeat_with_evidence e _ now evidence s :=
    heartbeat_with_evidence rc now evidence (se_watchdog e) (se_evaluated_at e) (se_admission_at e) s;
  sup_cooperative_cancel_requested _ now s := cooperative_cancel_requested now s;
  sup_cooperative_cancel_acknowledged now s := cooperative_cancel_acknowledged now s;
|}.

(** The states of a session in which a worker may do work. *)
Definition permits (s : Session) : Prop := ss_state s = TokenConsumed \/ ss_state s = WatchdogActive.

(** ** What the callbacks do to the state of the session *)

Lemma issue_state now validity s status token s' :
  issue_token now validity s = Some ((status, token), s') ->
  (status = Issued /\ has token = true -> ss_state s' = TokenIssued) /\ ~ permits s'.
Proof.
  unfold issue_token, permits. destruct (in_state s PostContextAdmitted), (ss_post_receipt s);
    try (intros [= <- <- <-]; cbn; naive_solver).
  destruct (ss_worker s); [|done]. destruct (_ || _) eqn:E; intros [= <- <- <-]; cbn; [|naive_solver].
  split; [|naive_solver]. intros [Hi Ht]. apply orb_true_iff in E as [E|E]; apply negb_true_iff in E.
  - by apply bool_decide_eq_false in E.
  - congruence.
Qed.

Lemma admit_post_state request s : ~ permits (admit_post_context request s).2.
Proof.
  unfold admit_post_context, permits. destruct (in_state s WorkerContained), (ss_worker s), (ss_pre_receipt s);
    try (cbn; naive_solver).
  destruct (_ || _); [cbn; naive_solver|]. destruct (evaluate_post_context_admission _ _) as [d store].
  destruct (_ || _); cbn; naive_solver.
Qed.

(** A grant comes with the issued token pending in the session. *)
Definition grant_pending (g : NativeWorkerAdmissionGrant) (s : Session) : Prop :=
  ss_state s = TokenIssued /\
  exists t, ss_pending_token s = Some t /\ at_token_id t = nag_token_id g /\
    at_effective_cap_bytes t = nag_effective_cap_bytes g /\
    at_expires_monotonic_milliseconds t = nag_expires_monotonic_milliseconds g.

Lemma admit_and_issue_state rc request e a s :
  let (g, s') := admit_and_issue rc request e a s in
  (nag_admitted g = true -> grant_pending g s') /\ (~ permits s -> ~ permits s').
Proof.
  unfold admit_and_issue. destruct (_ || _); [unfold permits; cbn; naive_solver|].
  match goal with |- context [admit_post_context ?r s] =>
    pose proof (admit_post_state r s) as Hp; destruct (admit_post_context r s) as [d s1] end.
  cbn [snd] in Hp. destruct (negb _); [done|].
  destruct (issue_token a (rc_token_validity_milliseconds rc) s1) as [[[status token] s2]|] eqn:Hi; [|done].
  destruct (issue_state _ _ _ _ _ _ Hi) as [Hs Hn].
  destruct status, token; try (split; [done|]; by intros _). split.
  - intros _. split; [by apply Hs|]. cbn. by eexists.
  - by intros _.
Qed.

Lemma context_ready_state rc ctx live e a s :
  let (g, s') := context_ready_with_evidence rc ctx live e a s in
  (nag_admitted g = true -> grant_pending g s') /\ (~ permits s -> ~ permits s').
Proof.
  assert (forall reason s', (permits s' -> permits s) ->
    (nag_admitted (no_grant reason) = true -> grant_pending (no_grant reason) s') /\
    (~ permits s -> ~ permits s')) as Hno by (intros; split; [done|naive_solver]).
  assert (permits (enter FailedClosed s) -> permits s) as Hf by (unfold permits; cbn; naive_solver).
  unfold context_ready_with_evidence.
  destruct (ss_worker s) as [worker|]; [|by apply Hno]. destruct live as [live|]; [|by apply Hno].
  destruct (e =? 0); [by apply Hno|].
  destruct (bind_process_device_memory_evidence _ _ _ _ _ _ _) as [owned|]; [|by apply Hno].
  destruct (nwq_require_gpu_protocol_evidence _); [|apply admit_and_issue_state].
  destruct (context_evidence_rejected _ _ _ _); [by apply Hno|].
  destruct (ss_pre_receipt s) as [pre|]; [apply admit_and_issue_state|by apply Hno].
Qed.

Lemma heartbeat_state rc now ev live e a s s' :
  heartbeat_with_evidence rc now ev live e a s = (true, s') -> ss_state s' = WatchdogActive.
Proof.
  unfold heartbeat_with_evidence.
  destruct (ss_worker s) as [worker|]; [|done]. destruct (ss_post_receipt s) as [receipt|]; [|done].
  destruct live as [live|]; [|done]. destruct (e =? 0); [done|].
  destruct (bind_process_device_memory_evidence _ _ _ _ _ _ _) as [owned|]; [|done].
  destruct (_ && _); [done|]. destruct (_ || _); [done|].
  match goal with |- context [evaluate_watchdog ?x s] => unfold evaluate_watchdog; set (sample := x) end.
  destruct (in_state s TokenConsumed || in_state s WatchdogActive), (ss_post_receipt s), (ss_worker s); try done.
  destruct (negb _); [done|]. destruct (swd_continue_work _) eqn:E;
    intros Heq; apply pair_equal_spec in Heq as [Hc <-]; [done|]. congruence.
Qed.

Lemma cancel_requested_state now s : ~ permits (cooperative_cancel_requested now s).
Proof.
  unfold cooperative_cancel_requested, permits, in_state.
  destruct (decide (ss_state s = TokenConsumed)) as [E|E], (decide (ss_state s = WatchdogActive)) as [E'|E'].
  all: rewrite ?(bool_decide_true _ E), ?(bool_decide_true _ E'), ?(bool_decide_false _ E), ?(bool_decide_false _ E').
  all: cbn; naive_solver.
Qed.

Lemma cancel_acknowledged_state now s : ~ permits (cooperative_cancel_acknowledged now s).
Proof.
  unfold cooperative_cancel_acknowledged, advance_cancellation, permits.
  destruct (_ || _) eqn:E; [|cbn; naive_solver].
  assert (ss_state s = CancelRequested \/ ss_state s = CooperativeCancelAcknowledged) as Hs.
  { apply orb_true_iff in E as [E|E]; apply in_state_true in E; auto. }
  destruct (ss_post_receipt s); [|cbn; naive_solver].
  repeat match goal with |- context [if ?b then _ else _] => destruct b end; cbn;
    intros [?|?]; destruct Hs; congruence.
Qed.

(** ** Agreement *)

(** How the state of the runner and the state of the session fit: the pending
    token is the delivered one, work is permitted exactly while the protocol
    is active, and no longer once a cancellation was sent. *)
Definition agree (st : Runner * Session) : Prop :=
  let (rn, s) := st in
  match rn_state rn with
  | AwaitContext => ss_state s = WorkerContained
  | TokenDelivered =>
      ss_state s = TokenIssued /\
      exists t, ss_pending_token s = Some t /\ at_token_id t = rn_token_id rn /\
        at_expires_monotonic_milliseconds t = rn_token_consumption_deadline rn
  | Active => permits s
  | CancelSent | CancelAcknowledged => ~ permits s
  end.

Section Agreement.
Context (rc : RunContext) (pc : ProtocolConfig) (Henabled : pc_protocol_enabled pc = true).

Lemma cancel_agree env reason (st : Runner * Session) :
  agree st \/ cancelled st.1 = false ->
  agree (request_protocol_cancel (sup := session_supervisor rc) pc env reason st).
Proof.
  intros H. destruct st as [rn s]. unfold request_protocol_cancel. rewrite Henabled.
  cbn [negb orb]. fold (cancelled rn). destruct (cancelled rn) eqn:Hc.
  - destruct H as [H|H]; [done|]. cbn in H. congruence.
  - apply cancel_requested_state.
Qed.

Lemma not_cancelled rn x : rn_state rn = x -> x <> CancelSent -> x <> CancelAcknowledged -> cancelled rn = false.
Proof. intros Hx ??. unfold cancelled, in_phase. by rewrite Hx, !bool_decide_false. Qed.

Lemma context_ready_agree env parsed (st : Runner * Session) :
  agree st -> agree (on_context_ready (sup := session_supervisor rc) pc env parsed st).
Proof.
  intros H. destruct st as [rn s]. unfold on_context_ready.
  destruct (in_phase rn AwaitContext) eqn:Hst; cbn [negb]; [|by apply cancel_agree; left].
  apply in_phase_true in Hst. pose proof (not_cancelled rn _ Hst ltac:(done) ltac:(done)) as Hc.
  destruct (parse_context_evidence parsed) as [ev|]; [|by apply cancel_agree; left].
  destruct (_ && _); [by apply cancel_agree; left|]. cbn [session_supervisor sup_context_ready_with_evidence].
  pose proof (context_ready_state rc ev (se_post (le_authority env)) (se_evaluated_at (le_authority env))
    (se_admission_at (le_authority env)) s) as Hg.
  destruct (context_ready_with_evidence _ _ _ _ _ s) as [g s']. destruct Hg as [Hg _].
  destruct (grant_unusable g (le_now env)) eqn:Hu; [by apply cancel_agree; right|].
  destruct (le_emergency env); [by apply cancel_agree; right|].
  destruct (le_admit_written env); cbn [negb]; [|by apply cancel_agree; right].
  unfold grant_unusable in Hu. bool_facts. destruct (Hg ltac:(done)) as [? (t & ? & ? & _ & ?)].
  cbn. split; [done|]. by exists t.
Qed.

Lemma token_consumed_agree env parsed (st : Runner * Session) :
  agree st -> agree (on_token_consumed (sup := session_supervisor rc) pc env parsed st).
Proof.
  intros H. destruct st as [rn s]. unfold on_token_consumed. destruct (extract_u64 parsed) as [id p'].
  destruct (_ || _) eqn:Hg; [by apply cancel_agree; left|]. bool_facts.
  match goal with Hp : in_phase rn _ = true |- _ => apply in_phase_true in Hp as Hst end.
  pose proof (not_cancelled rn _ Hst ltac:(done) ltac:(done)) as Hc.
  cbn [session_supervisor sup_token_consumed].
  destruct (token_consumed id (le_now env) s) as [answer s'] eqn:Ht.
  destruct (negb answer || le_emergency env) eqn:Ha; [by apply cancel_agree; right|].
  apply orb_false_iff in Ha as [Ha _]. destruct answer; [|done].
  apply token_consumed_true in Ht as (_ & Hs' & _). cbn. by left.
Qed.

Lemma heartbeat_agree env parsed (st : Runner * Session) :
  agree st -> agree (on_heartbeat (sup := session_supervisor rc) pc env parsed st).
Proof.
  intros H. destruct st as [rn s]. unfold on_heartbeat. destruct (extract_u64 parsed) as [seq p'].
  destruct (_ || _) eqn:Hg; [by apply cancel_agree; left|]. bool_facts.
  match goal with Hp : in_phase rn _ = true |- _ => apply in_phase_true in Hp as Hst end.
  pose proof (not_cancelled rn _ Hst ltac:(done) ltac:(done)) as Hc.
  destruct (parse_heartbeat_evidence _ _) as [ev|]; [|by apply cancel_agree; left].
  destruct (_ && _); [by apply cancel_agree; left|]. cbn [session_supervisor sup_heartbeat_with_evidence].
  destruct (heartbeat_with_evidence _ _ _ _ _ _ s) as [answer s'] eqn:Hh.
  set (rn' := {| rn with rn_heartbeat_sequence := seq; rn_last_heartbeat := le_heartbeat_at env |}).
  assert (agree (if negb answer || le_emergency env
            then request_protocol_cancel (sup := session_supervisor rc) pc (le_cancel env)
                   "native_worker_protocol_watchdog_rejected" (rn', s') else (rn', s'))) as Hfin.
  { destruct (negb answer || le_emergency env) eqn:Ha; [by apply cancel_agree; right|].
    apply orb_false_iff in Ha as [Ha _]. destruct answer; [|done].
    apply heartbeat_state in Hh. cbn. rewrite Hst. by right. }
  revert Hfin. by destruct (_ || _); [destruct (request_protocol_cancel _ _ _ _) as [rn2 s2]|].
Qed.

Lemma cancel_ack_agree env parsed (st : Runner * Session) :
  agree st -> agree (on_cancel_ack (sup := session_supervisor rc) pc env parsed st).
Proof.
  intros H. destruct st as [rn s]. unfold on_cancel_ack.
  destruct (_ || _); [by apply cancel_agree; left|]. apply cancel_acknowledged_state.
Qed.

Lemma run_agree envs inputs (d : nat * (Runner * Session)) :
  agree d.2 -> agree (runner_run (sup := session_supervisor rc) pc envs inputs d).2.
Proof.
  apply (run_preserves (sup := session_supervisor rc) pc agree); auto using context_ready_agree,
    token_consumed_agree, heartbeat_agree, cancel_ack_agree, cancel_agree.
  by intros p [rn s].
Qed.

(** The session only sees callbacks: whatever happens to it is a sequence of
    protocol events, the runner that the session theorems quantify over. *)
Definition driven (s0 : Session) (st : Runner * Session) : Prop :=
  exists events, st.2 = (protocol_run rc events s0).2.

Lemma protocol_run_snoc events e s :
  (protocol_run rc (events ++ [e]) s).2 = (protocol_step rc e (protocol_run rc events s).2).2.
Proof.
  revert s; induction events as [|x events IH]; intros s; cbn.
  - by destruct (protocol_step rc e s).
  - destruct (protocol_step rc x s) as [a s1]. specialize (IH s1).
    by destruct (protocol_run rc (events ++ [e]) s1), (protocol_run rc events s1).
Qed.

Lemma driven_event s0 e rn rn' s : driven s0 (rn, s) -> driven s0 (rn', (protocol_step rc e s).2).
Proof. intros [events Hs]. cbn in Hs. subst s. exists (events ++ [e]). by rewrite protocol_run_snoc. Qed.

Lemma driven_runner s0 rn rn' s : driven s0 (rn, s) -> driven s0 (rn', s).
Proof. done. Qed.

Lemma cancel_driven s0 env reason st : driven s0 st ->
  driven s0 (request_protocol_cancel (sup := session_supervisor rc) pc env reason st).
Proof.
  destruct st as [rn s]. intros H. unfold request_protocol_cancel. case_match; [done|].
  exact (driven_event s0 (EvCancelRequested (ce_requested_at env)) rn _ s H).
Qed.

Lemma context_ready_driven s0 env parsed st : driven s0 st ->
  driven s0 (on_context_ready (sup := session_supervisor rc) pc env parsed st).
Proof.
  destruct st as [rn s]. intros H. unfold on_context_ready. case_match; [by apply cancel_driven|].
  destruct (parse_context_evidence parsed) as [ev|]; [|by apply cancel_driven].
  case_match; [by apply cancel_driven|]. cbn [session_supervisor sup_context_ready_with_evidence].
  pose proof (driven_event s0 (EvContextReady ev (se_post (le_authority env))
    (se_evaluated_at (le_authority env)) (se_admission_at (le_authority env))) rn rn s H) as H'.
  cbn [protocol_step] in H'. destruct (context_ready_with_evidence _ _ _ _ _ s) as [g s']. cbn [snd] in H'.
  repeat (case_match; [by apply cancel_driven|]). done.
Qed.

Lemma token_consumed_driven s0 env parsed st : driven s0 st ->
  driven s0 (on_token_consumed (sup := session_supervisor rc) pc env parsed st).
Proof.
  destruct st as [rn s]. intros H. unfold on_token_consumed. destruct (extract_u64 parsed) as [id p'].
  case_match; [by apply cancel_driven|]. cbn [session_supervisor sup_token_consumed].
  pose proof (driven_event s0 (EvTokenConsumed id (le_now env)) rn rn s H) as H'.
  cbn [protocol_step] in H'. destruct (token_consumed _ _ s) as [g s']. cbn [snd] in H'.
  case_match; [by apply cancel_driven|]. done.
Qed.

Lemma heartbeat_driven s0 env parsed st : driven s0 st ->
  driven s0 (on_heartbeat (sup := session_supervisor rc) pc env parsed st).
Proof.
  destruct st as [rn s]. intros H. unfold on_heartbeat. destruct (extract_u64 parsed) as [seq p'].
  case_match; [by apply cancel_driven|].
  destruct (parse_heartbeat_evidence _ _) as [ev|]; [|by apply cancel_driven].
  case_match; [by apply cancel_driven|]. cbn [session_supervisor sup_heartbeat_with_evidence].
  pose proof (driven_event s0 (EvHeartbeat (le_now env) ev (se_watchdog (le_authority env))
    (se_evaluated_at (le_authority env)) (se_admission_at (le_authority env))) rn rn s H) as H'.
  cbn [protocol_step] in H'. destruct (heartbeat_with_evidence _ _ _ _ _ _ s) as [answer s']. cbn [snd] in H'.
  destruct (negb answer || le_emergency env); [|exact H'].
  match goal with |- context [request_protocol_cancel pc ?e ?r ?st'] =>
    pose proof (cancel_driven s0 e r st' H') as H''; destruct (request_protocol_cancel pc e r st') as [rn2 s2] end.
  exact H''.
Qed.

Lemma cancel_ack_driven s0 env parsed st : driven s0 st ->
  driven s0 (on_cancel_ack (sup := session_supervisor rc) pc env parsed st).
Proof.
  destruct st as [rn s]. intros H. unfold on_cancel_ack. case_match; [by apply cancel_driven|].
  exact (driven_event s0 (EvCancelAck (le_now env)) rn _ s H).
Qed.

Lemma run_driven s0 envs inputs (d : nat * (Runner * Session)) :
  driven s0 d.2 -> driven s0 (runner_run (sup := session_supervisor rc) pc envs inputs d).2.
Proof.
  apply (run_preserves (sup := session_supervisor rc) pc (driven s0)); auto using cancel_driven,
    context_ready_driven, token_consumed_driven, heartbeat_driven, cancel_ack_driven.
  by intros p [rn s].
Qed.

End Agreement.

(** ** The whole run

    [run_contained_worker] with the native runner in place: the policy of the
    protocol comes from the timing of the pre-context receipt. *)

Definition protocol_policy_of (timing : SupervisorTimingPolicy) : NativeWorkerProtocolPolicy :=
  mkProtocolPolicy (wrap32 (stp_maximum_guard_age_milliseconds timing))
    (wrap32 (stp_maximum_guard_age_milliseconds timing))
    (wrap32 (stp_cooperative_cancel_ack_milliseconds timing))
    (wrap32 (stp_worker_exit_milliseconds timing)).

Definition run_contained_native_worker (os : Platform) (catalog : NativeWorkerTrustCatalog)
    (request : NativeWorkerRequest) (token_validity : Z) (producers_present : bool)
    (env : LaunchEnv) (envs : nat -> LineEnv SessionEnv) (its : list (Z * Iteration)) (finish : FinishEnv)
    (s : Session) : option (NativeWorkerResult * Session) :=
  if (token_validity =? 0) || negb producers_present then
    Some (rejected_result "supervisor_worker_request_invalid", s)
  else
  match ss_pre_receipt s, in_state s PreContextAdmitted with
  | Some pre, true =>
      let policy := protocol_policy_of (prr_timing pre) in
      let rc := mkRunContext request (npp_heartbeat_timeout_ms policy) token_validity in
      match run_supervised_native_worker (sup := session_supervisor rc) os catalog request policy env envs its
              finish s with
      | None => None
      | Some (result, s) => Some (result, record_worker_result result s)
      end
  | _, _ => Some (rejected_result "supervisor_pre_context_receipt_required", s)
  end.

(** *** The loop drives the session through protocol events *)

Section Whole.
Context (rc : RunContext) (pc : ProtocolConfig) (envs : nat -> LineEnv SessionEnv) (s0 : Session).

Abbreviation drained st := (driven rc s0 st) (only parsing).

Lemma chunks_driven chunks (d : nat * (Runner * Session)) :
  drained d.2 -> drained (drain_protocol (sup := session_supervisor rc) pc envs chunks d).2.
Proof.
  intros H. unfold drain_protocol. destruct (pc_protocol_enabled pc) eqn:Hen; cbn [negb]; [|done].
  revert d H; induction chunks as [|c chunks IH]; intros d H; [done|]. cbn [fold_left]. apply IH.
  pose proof (run_driven rc pc s0 envs [InBytes c] d H) as H'.
  unfold runner_run in H'. cbn [fold_left runner_input] in H'. unfold drain_protocol in H'. by rewrite Hen in H'.
Qed.

Lemma loop_body_driven root it (ls : LoopState (S := Session)) :
  drained (ls_drain ls).2 ->
  match loop_body (sup := session_supervisor rc) pc envs root it ls with
  | LoopContinue ls' | LoopBreak ls' => drained (ls_drain ls').2
  | LoopReturn _ s' => drained (initial_runner 0, s')
  | LoopStuck => True
  end.
Proof.
  intros H. unfold loop_body. destruct (drain_output _ _ _) as [[read [captured exceeded]]|]; [|done].
  destruct (negb read); [by destruct (ls_drain ls) as [n [rn s]]|].
  pose proof (chunks_driven (read_all (it_control it)).1 _ H) as Hd.
  destruct (drain_control _ _ _ _) as [[protocol_read d]|] eqn:Ed; [|done].
  apply drain_control_drained in Ed. rewrite <- Ed in Hd. clear Ed. destruct d as [n [rn s]]. cbn [fst snd] in *.
  destruct (negb protocol_read); [done|]. destruct exceeded; [exact Hd|].
  pose proof (run_driven rc pc s0 envs [InTick (it_now it) (it_cancel it)] (n, (rn, s)) Hd) as Hp.
  unfold runner_run in Hp. cbn [fold_left runner_input snd] in Hp.
  destruct (poll_timeouts _ _ _ _) as [go st]. cbn [snd] in Hp.
  destruct (negb go); [exact Hp|]. destruct (sample_job_tree _ _ _ _) as [ok tree].
  destruct (negb ok); [exact Hp|].
  destruct (it_wait it); [destruct (it_active_processes it) as [a|]; [destruct (a =? 0)|]| |]; exact Hp.
Qed.

Lemma loop_driven root deadline its (ls : LoopState (S := Session)) :
  drained (ls_drain ls).2 ->
  match supervision_loop (sup := session_supervisor rc) pc envs root deadline its ls with
  | None => True
  | Some (inl (_, s')) => drained (initial_runner 0, s')
  | Some (inr ls') => drained (ls_drain ls').2
  end.
Proof.
  revert ls; induction its as [|[now it] its IH]; intros ls H; cbn; [done|].
  destruct (deadline <=? now); [done|].
  pose proof (loop_body_driven root it ls H) as Hb. destruct (loop_body _ _ _ _ _); [by apply IH|done..].
Qed.

End Whole.

Lemma native_run_driven rc os catalog request policy env envs its finish s r s' :
  run_native_worker_impl (sup := session_supervisor rc) os catalog request policy env envs its finish s =
    Some (r, s') ->
  exists events, s' = (protocol_run rc events s).2.
Proof.
  assert (exists events, s = (protocol_run rc events s).2) as H0 by (by exists []).
  unfold run_native_worker_impl. destruct (preflight os catalog request policy); [intros [= _ <-]; done|].
  destruct (first_failure _); [intros [= _ <-]; done|]. destruct (la_process_id env) as [pid|]; [|intros [= _ <-]; done].
  destruct (negb (la_assigned env)); [intros [= _ <-]; done|].
  destruct (sample_job_tree pid _ _ _) as [sampled tree]. destruct (negb sampled); [intros [= _ <-]; done|].
  match goal with |- context [let (_, _) := ?x in _] =>
    assert (exists events, x.2 = (protocol_run rc events s).2) as H1;
      [|destruct x as [bound s1]; cbn [snd] in H1] end.
  { destruct policy; [|done]. exists [EvBind (containment_identity request l env pid)]. cbn.
    by destruct (bind_owned_worker _ s). }
  destruct (negb bound); [intros [= _ <-]; done|]. destruct (negb (la_resumed env)); [intros [= _ <-]; done|].
  match goal with |- context [supervision_loop ?pc envs pid ?dl its ?ls] =>
    pose proof (loop_driven rc pc envs s pid dl its ls H1) as Hl;
    destruct (supervision_loop pc envs pid dl its ls) as [[[reason s2]|ls']|] end; [|..|done].
  - intros [= _ <-]. exact Hl.
  - destruct (finish_run _ _ _ _ _ _ ls'); [|done]. intros Heq. injection Heq as _ <-. exact (chunks_driven rc _ envs s _ _ Hl).
Qed.

Lemma contained_run_is_a_session_run os catalog request validity present env envs its finish s r s' :
  run_contained_native_worker os catalog request validity present env envs its finish s = Some (r, s') ->
  exists events, run_contained_worker request validity present events r s = (r, s').
Proof.
  unfold run_contained_native_worker, run_contained_worker.
  destruct (_ || _); [intros [= <- <-]; by exists []|].
  destruct (ss_pre_receipt s) as [pre|]; [|intros [= <- <-]; by exists []].
  destruct (in_state s PreContextAdmitted); [|intros [= <- <-]; by exists []].
  match goal with |- context [run_supervised_native_worker ?a ?b ?c ?d ?e ?f ?g ?h s] =>
    destruct (run_supervised_native_worker a b c d e f g h s) as [[r1 s1]|] eqn:Hr end; [|done].
  intros Heq. injection Heq as -> <-. apply native_run_driven in Hr as [events ->]. exists events.
  cbn [npp_heartbeat_timeout_ms protocol_policy_of] in *. by destruct (protocol_run _ events s).
Qed.

Lemma exited_needs_flags result s :
  ss_state (record_worker_result result s) = WorkerExited ->
  nwr_worker_exit_observed result = true /\ nwr_job_tree_empty result = true.
Proof.
  unfold record_worker_result. destruct (nwr_worker_exit_observed result), (nwr_job_tree_empty result);
    cbn [negb andb orb]; [done|..]; unfold in_state; cbn; done.
Qed.

(** C9. The session trusts only what the runner observed.  A contained run
    with the native runner is one of the runs the session was verified
    against, a sequence of protocol events and a result; and when it leaves
    the session in [WorkerExited], from where cleanup can release the adapter,
    the executable was approved and identified, the worker was contained, and
    the process tree was seen to end in this very run: an iteration of its
    supervision loop saw the root exit and then read zero active processes
    before the deadline, or the job was terminated after the loop ended, the
    root and every process the loop had retained exited, and the job then
    reported zero active processes. *)
Theorem worker_exited_means_tree_ended os catalog request validity present env envs its finish s r s' :
  request_wf request -> in_state s PreContextAdmitted = true ->
  run_contained_native_worker os catalog request validity present env envs its finish s = Some (r, s') ->
  (exists events, run_contained_worker request validity present events r s = (r, s')) /\
  (ss_state s' = WorkerExited ->
   exists plan pre process_id tree (s1 : Session) ls,
     ss_pre_receipt s = Some pre /\
     preflight os catalog request (Some (protocol_policy_of (prr_timing pre))) = inr plan /\
     approved_launch os catalog request plan /\ contained_launch env /\
     la_process_id env = Some process_id /\
     supervision_loop (sup := session_supervisor
         (mkRunContext request (npp_heartbeat_timeout_ms (protocol_policy_of (prr_timing pre))) validity))
       (launch_config request (Some (protocol_policy_of (prr_timing pre))) env) envs process_id
       (la_deadline_now env +64 nwq_timeout_ms request) its (initial_loop (la_protocol_started env) tree s1) =
       Some (inr ls) /\
     ((exists now it, (now, it) ∈ its /\ now < la_deadline_now env +64 nwq_timeout_ms request /\
         it_wait it = WAIT_OBJECT_0 /\ it_active_processes it = Some 0) \/
      (te_terminated (fe_terminate finish) = true /\ te_root_exited (fe_terminate finish) = true /\
       (exists now, (Some 0, now) ∈ te_polls (fe_terminate finish)) /\
       Forall (fun w => w.2 = true)
         (take (List.length (tm_observed_processes (ls_tree ls))) (te_waits (fe_terminate finish)))))).
Proof.
  intros Hwf Hst Hrun. split; [by eapply contained_run_is_a_session_run|]. intros Hexit.
  unfold run_contained_native_worker in Hrun. assert (ss_state s <> WorkerExited) as Hne.
  { apply in_state_true in Hst. congruence. }
  destruct (_ || _); [by injection Hrun as <- <-|].
  destruct (ss_pre_receipt s) as [pre|]; [|by injection Hrun as <- <-]. rewrite Hst in Hrun.
  match type of Hrun with context [run_supervised_native_worker ?a ?b ?c ?d ?e ?f ?g ?h s] =>
    destruct (run_supervised_native_worker a b c d e f g h s) as [[r1 s1]|] eqn:Hr end; [|done].
  injection Hrun as -> <-. apply exited_needs_flags in Hexit as [Hx _].
  apply run_cases in Hr as [[reason ->]|(plan & pid & tree & s2 & ls & Hpre & Hpid & Hc & _ & Hloop & Hfin)]; [done|].
  destruct (preflight_approved _ _ _ _ _ Hwf Hpre) as [Happ _].
  exists plan, pre, pid, tree, s2, ls. do 6 (split; [done|]).
  eapply exit_flags_of_run; [| |exact Hloop|exact Hfin|by left]; reflexivity.
Qed.

(** C10. Runner and session agree.  From a contained worker on, whatever bytes
    the worker sends, in whatever pieces, and whatever evidence and clock
    readings the callbacks get: the runner waits for the context exactly while
    the session has the worker contained; a delivered token is the session's
    pending one, with its identifier and expiry; the session permits work
    exactly while the runner's protocol is active; and once the runner has
    sent a cancellation the session never permits work again.  The session
    goes through a sequence of protocol events, nothing else. *)
Theorem runner_and_session_agree rc pc envs inputs started s :
  pc_protocol_enabled pc = true -> ss_state s = WorkerContained ->
  let st := (runner_run (sup := session_supervisor rc) pc envs inputs (O, (initial_runner started, s))).2 in
  agree st /\ exists events, st.2 = (protocol_run rc events s).2.
Proof.
  intros Hen Hs. split.
  - by apply (run_agree rc pc Hen envs inputs (O, (initial_runner started, s))).
  - apply (run_driven rc pc s envs inputs (O, (initial_runner started, s))). by exists [].
Qed.

(** ** A run *)

Definition contained_session : Session := (bind_owned_worker demo_identity demo_admitted_session).2.

Definition run_config : ProtocolConfig :=
  mkProtocolConfig true demo_request_flags default_NativeWorkerProtocolPolicy demo_nonce 5380.

Definition run_env (n : nat) : LineEnv SessionEnv :=
  let now := match n with O => 5390 | 1%nat => 5450 | _ => 5440 end in
  let env := match n with
             | O => mkSessionEnv (Some (mkLivePost demo_post_request demo_independent)) None 5390 5400
             | _ => mkSessionEnv None (Some (mkLiveWatchdog demo_watchdog_sample demo_independent)) 5445 5450
             end in
  mkLineEnv now env true false false 5450 5450 (mkCancelEnv 5460 true 5460).

Definition run_inputs : list RunnerInput :=
  [InBytes (demo_line "CONTEXT_READY" "" ++ demo_line "TOKEN_CONSUMED" " 1");
   InTick 5451 (mkCancelEnv 5460 true 5460); InBytes (demo_line "HEARTBEAT" " 1")].

Definition run_result : Runner * Session :=
  (runner_run (sup := session_supervisor demo_rc) run_config run_env run_inputs
     (O, (initial_runner 5380, contained_session))).2.

Lemma runner_and_session_agree_witness :
  (rn_state run_result.1 = Active /\ ss_state run_result.2 = WatchdogActive) /\
  agree run_result /\ exists events, run_result.2 = (protocol_run demo_rc events contained_session).2.
Proof.
  split; [vm_compute; by split|].
  exact (runner_and_session_agree demo_rc run_config run_env run_inputs 5380 contained_session
    eq_refl ltac:(vm_compute; reflexivity)).
Defined.

(** *** A whole run: launched, granted, watched, exited *)

Definition whole_request : NativeWorkerRequest :=
  {| default_NativeWorkerRequest with nwq_executable_path := wide "C:\w\a.exe"; nwq_timeout_ms := 8000 |}.

Definition whole_env : LaunchEnv :=
  {| demo_launch_env with la_deadline_now := 5380; la_protocol_started := 5380 |}.

Definition whole_stream : list ascii :=
  demo_line "CONTEXT_READY" "" ++ demo_line "TOKEN_CONSUMED" " 1" ++ demo_line "HEARTBEAT" " 1".

Definition whole_iterations : list (Z * Iteration) :=
  [(5385, mkIteration WAIT_TIMEOUT no_reads (mkPipeDrain [whole_stream] true) 5451 demo_cancel demo_snapshot None);
   (5460, mkIteration WAIT_OBJECT_0 (mkPipeDrain [bytes "done"] true) no_reads 5470 demo_cancel
      (Some (mkSnapshot 0 [])) (Some 0))].

Abbreviation whole_run :=
  (run_contained_native_worker demo_platform demo_catalog whole_request 200 true whole_env run_env whole_iterations
    demo_finish demo_admitted_session) (only parsing).

Lemma whole_run_exits :
  exists r s', whole_run = Some (r, s') /\ nwr_ok r = true /\ ss_state s' = WorkerExited.
Proof. eexists _, _. split; [vm_compute; reflexivity|]. by split. Qed.

Lemma worker_exited_means_tree_ended_witness :
  exists r s' plan, whole_run = Some (r, s') /\ ss_state s' = WorkerExited /\
    approved_launch demo_platform demo_catalog whole_request plan.
Proof.
  destruct whole_run_exits as (r & s' & Hr & _ & Hs).
  destruct (worker_exited_means_tree_ended demo_platform demo_catalog whole_request 200 true whole_env run_env
    whole_iterations demo_finish demo_admitted_session r s' ltac:(closed_bounds) ltac:(vm_compute; reflexivity) Hr)
    as [_ H].
  destruct (H Hs) as (plan & _ & _ & _ & _ & _ & _ & _ & Ha & _). exists r, s', plan. split; [exact Hr|]. split; [exact Hs|exact Ha].
Defined.

End SupervisedRun.
