(* ===== verification/Sha256.v ===== *)
(** * SHA-256

    [src/benchmark/sha256.cpp]: the block function, the streaming interface
    ([sha256_update], [sha256_finish]) and the functions that hash text and
    files, with their size limits and trust checks.  The block
    function, the padding and the text of the digest are proved to be those of
    [Fips180], and the streaming code to compute the digest of the standard for
    every way the message is cut into reads.  A byte is a [Z] in [0, 255]. *)

From S2P Require Import Prelude Fips180.
From Stdlib Require Import Ascii String.

Module Sha256.

Abbreviation length := List.length (only parsing).

(** ** The block function *)

(** The table of the source, in decimal; [round_constants_derived] checks it. *)
Definition kRoundConstants : list Z :=
  [1116352408; 1899447441; 3049323471; 3921009573; 961987163; 1508970993; 2453635748; 2870763221;
   3624381080; 310598401; 607225278; 1426881987; 1925078388; 2162078206; 2614888103; 3248222580;
   3835390401; 4022224774; 264347078; 604807628; 770255983; 1249150122; 1555081692; 1996064986;
   2554220882; 2821834349; 2952996808; 3210313671; 3336571891; 3584528711; 113926993; 338241895;
   666307205; 773529912; 1294757372; 1396182291; 1695183700; 1986661051; 2177026350; 2456956037;
   2730485921; 2820302411; 3259730800; 3345764771; 3516065817; 3600352804; 4094571909; 275423344;
   430227734; 506948616; 659060556; 883997877; 958139571; 1322822218; 1537002063; 1747873779;
   1955562222; 2024104815; 2227730452; 2361852424; 2428436474; 2756734187; 3204031479; 3329325298].

Definition rotate_right (value bits : Z) : Z :=
  Z.lor (Z.shiftr value bits) (wrap32 (Z.shiftl value (32 - bits))).

(** [~value] of a 32-bit value. *)
Definition not32 (value : Z) : Z := Z.lxor value u32_max.

Definition nth32 (l : list Z) (i : nat) : Z := nth i l 0.

(** The first 16 words, big-endian. *)
Definition load_word (block : list Z) (i : nat) : Z :=
  Z.lor (Z.lor (Z.lor (Z.shiftl (nth32 block (4 * i)) 24) (Z.shiftl (nth32 block (4 * i + 1)) 16))
               (Z.shiftl (nth32 block (4 * i + 2)) 8))
        (nth32 block (4 * i + 3)).

(** [words[i]] for [i >= 16], from the words before it. *)
Definition schedule_word (words : list Z) (i : nat) : Z :=
  let w15 := nth32 words (i - 15) in
  let w2 := nth32 words (i - 2) in
  let s0 := Z.lxor (Z.lxor (rotate_right w15 7) (rotate_right w15 18)) (Z.shiftr w15 3) in
  let s1 := Z.lxor (Z.lxor (rotate_right w2 17) (rotate_right w2 19)) (Z.shiftr w2 10) in
  wrap32 (nth32 words (i - 16) + s0 + nth32 words (i - 7) + s1).

Definition message_schedule (block : list Z) : list Z :=
  fold_left (fun words i => words ++ [schedule_word words i]) (seq 16 48) (map (load_word block) (seq 0 16)).

(** The eight working variables. *)
Record Working := mkWorking { wa : Z; wb : Z; wc : Z; wd : Z; we : Z; wf : Z; wg : Z; wh : Z }.

Definition round (w : Working) (kw : Z * Z) : Working :=
  let '(mkWorking a b c d e f g h) := w in
  let (k, word) := kw in
  let s1 := Z.lxor (Z.lxor (rotate_right e 6) (rotate_right e 11)) (rotate_right e 25) in
  let choose := Z.lxor (Z.land e f) (Z.land (not32 e) g) in
  let t1 := wrap32 (h + s1 + choose + k + word) in
  let s0 := Z.lxor (Z.lxor (rotate_right a 2) (rotate_right a 13)) (rotate_right a 22) in
  let majority := Z.lxor (Z.lxor (Z.land a b) (Z.land a c)) (Z.land b c) in
  let t2 := wrap32 (s0 + majority) in
  mkWorking (wrap32 (t1 + t2)) a b c (wrap32 (d + t1)) e f g.

Definition process_block (block : list Z) (state : list Z) : list Z :=
  let w := mkWorking (nth32 state 0) (nth32 state 1) (nth32 state 2) (nth32 state 3)
                     (nth32 state 4) (nth32 state 5) (nth32 state 6) (nth32 state 7) in
  let '(mkWorking a b c d e f g h) := fold_left round (combine kRoundConstants (message_schedule block)) w in
  [wrap32 (nth32 state 0 + a); wrap32 (nth32 state 1 + b); wrap32 (nth32 state 2 + c);
   wrap32 (nth32 state 3 + d); wrap32 (nth32 state 4 + e); wrap32 (nth32 state 5 + f);
   wrap32 (nth32 state 6 + g); wrap32 (nth32 state 7 + h)].

(** ** Running over blocks, for any block function *)

Section Blocks.
  Context (compress : list Z -> list Z -> list Z).

(** [while (size - position >= 64)] over the data that is left; one step per
    64 bytes, so its length is enough fuel. *)
Fixpoint process_whole_blocks (fuel : nat) (data state : list Z) : list Z * list Z :=
  match fuel with
  | O => (data, state)
  | S fuel => if Nat.leb 64 (length data)
              then process_whole_blocks fuel (drop 64 data) (compress (take 64 data) state)
              else (data, state)
  end.

(** The blocks of a message whose length is a multiple of 64. *)
Fixpoint iterate_blocks (state message : list Z) (count : nat) : list Z :=
  match count with
  | O => state
  | S count => iterate_blocks (compress (take 64 message) state) (drop 64 message) count
  end.

(** The whole blocks of [data]: what is left over and the state. *)
Definition absorb (data state : list Z) : list Z * list Z := process_whole_blocks (length data) data state.

Lemma process_whole_blocks_fuel fuel fuel' data state :
  (length data <= fuel)%nat -> (length data <= fuel')%nat ->
  process_whole_blocks fuel data state = process_whole_blocks fuel' data state.
Proof.
  revert fuel' data state; induction fuel as [|fuel IH]; intros fuel' data state Hf Hf'.
  - destruct data; [|cbn in Hf; lia]. by destruct fuel'.
  - destruct fuel' as [|fuel']; [destruct data; [done|cbn in Hf'; lia]|]. cbn [process_whole_blocks].
    destruct (Nat.leb_spec 64 (length data)); [|done]. apply IH; rewrite length_drop; lia.
Qed.

Lemma absorb_step data state :
  absorb data state =
  if Nat.leb 64 (length data) then absorb (drop 64 data) (compress (take 64 data) state) else (data, state).
Proof.
  unfold absorb. destruct (length data) as [|n] eqn:E; [done|]. cbn [process_whole_blocks]. rewrite E.
  destruct (Nat.leb_spec 64 (S n)); [|done]. apply process_whole_blocks_fuel; rewrite length_drop; lia.
Qed.

Lemma absorb_small data state : (length data < 64)%nat -> absorb data state = (data, state).
Proof. intros H. rewrite absorb_step. by rewrite (proj2 (Nat.leb_gt 64 _) H). Qed.

Lemma absorb_large data state : (64 <= length data)%nat ->
  absorb data state = absorb (drop 64 data) (compress (take 64 data) state).
Proof. intros H. rewrite absorb_step. by rewrite (proj2 (Nat.leb_le 64 _) H). Qed.

Lemma absorb_rest data state : (length (absorb data state).1 < 64)%nat /\
  length (absorb data state).1 = (length data mod 64)%nat.
Proof.
  remember (length data) as n eqn:E. revert data state E.
  induction n as [n IH] using lt_wf_ind; intros data state E.
  destruct (Nat.leb_spec 64 (length data)) as [H|H].
  - rewrite absorb_large by done. destruct (IH (n - 64)%nat ltac:(lia) (drop 64 data)
      (compress (take 64 data) state) ltac:(rewrite length_drop; lia)) as [Hl Hm]. split; [exact Hl|].
    rewrite Hm, E. replace (length data) with ((length data - 64) + 1 * 64)%nat at 2 by lia.
    by rewrite Nat.Div0.mod_add.
  - rewrite absorb_small by done. cbn [fst]. split; [done|]. rewrite E, Nat.mod_small; done.
Qed.

Lemma absorb_app a b state :
  absorb (a ++ b) state = absorb ((absorb a state).1 ++ b) (absorb a state).2.
Proof.
  remember (length a) as n eqn:E. revert a state E.
  induction n as [n IH] using lt_wf_ind; intros a state E.
  destruct (Nat.leb_spec 64 (length a)) as [H|H].
  - rewrite (absorb_large a), (absorb_large (a ++ b)) by (rewrite ?length_app; lia).
    rewrite drop_app_le, take_app_le by done. apply (IH (n - 64)%nat); [lia|rewrite length_drop; lia].
  - by rewrite (absorb_small a).
Qed.

Lemma iterate_blocks_succ count data state :
  iterate_blocks state data (S count) = iterate_blocks (compress (take 64 data) state) (drop 64 data) count.
Proof. reflexivity. Qed.

Lemma absorb_blocks count data state :
  length data = (64 * count)%nat -> absorb data state = ([], iterate_blocks state data count).
Proof.
  revert data state; induction count as [|count IH]; intros data state H.
  - rewrite Nat.mul_0_r in H. apply nil_length_inv in H. subst data. by rewrite absorb_small by (cbn; lia).
  - rewrite absorb_large by lia. rewrite iterate_blocks_succ. apply IH. rewrite length_drop. lia.
Qed.

End Blocks.

(** ** The stream *)

Record Sha256Stream := mkStream {
  st_state : list Z;
  st_block : list Z;
  st_buffered : nat;
  st_total_bytes : Z;
}.

Definition initial_state : list Z :=
  [1779033703; 3144134277; 1013904242; 2773480762; 1359893119; 2600822924; 528734635; 1541459225].

Definition new_stream : Sha256Stream := mkStream initial_state (replicate 64 0) 0 0.

(** [std::copy_n] into the block. *)
Definition copy_into (block : list Z) (at_ : nat) (data : list Z) : list Z :=
  take at_ block ++ data ++ drop (at_ + length data) block.

(** [sha256_update]; [None] is its failure. *)
Definition sha256_update (s : Sha256Stream) (data : list Z) : option Sha256Stream :=
  let size := Z.of_nat (length data) in
  if u64_max - st_total_bytes s <? size then None
  else
  let total := st_total_bytes s + size in
  let '(state, block, buffered, rest) :=
    if Nat.eqb (st_buffered s) 0 then (st_state s, st_block s, 0%nat, data)
    else
      let copied := Nat.min (length data) (64 - st_buffered s) in
      let block := copy_into (st_block s) (st_buffered s) (take copied data) in
      let buffered := (st_buffered s + copied)%nat in
      if Nat.eqb buffered 64
      then (process_block block (st_state s), block, 0%nat, drop copied data)
      else (st_state s, block, buffered, drop copied data) in
  let (rest, state) := process_whole_blocks process_block (length rest) rest state in
  match rest with
  | [] => Some (mkStream state block buffered total)
  | _ => Some (mkStream state (copy_into block 0 rest) (length rest) total)
  end.

(** Byte [i] of the bit count, most significant first. *)
Definition length_bytes (bit_count : Z) : list Z :=
  map (fun i => Z.shiftr bit_count (8 * Z.of_nat (7 - i)) mod 256) (seq 0 8).

(** A 32-bit word as [std::hex << std::setw(8)] prints it. *)
Definition hex_char (n : Z) : ascii :=
  ascii_of_N (Z.to_N (if n <? 10 then 48 + n else 87 + n)).

Definition hex_word (value : Z) : list ascii :=
  map (fun i => hex_char (Z.shiftr value (4 * Z.of_nat (7 - i)) mod 16)) (seq 0 8).

Definition print_digest (state : list Z) : string :=
  string_of_list_ascii (List.concat (map hex_word state)).

(** The last block or two: the marker, zeros and the bit count. *)
Definition sha256_finish (s : Sha256Stream) : option string :=
  if u64_max / 8 <? st_total_bytes s then None
  else
  let block := copy_into (st_block s) (st_buffered s) [128] in
  let buffered := S (st_buffered s) in
  let '(block, buffered, state) :=
    if Nat.ltb 56 buffered then
      let block := copy_into block buffered (replicate (64 - buffered) 0) in
      (block, 0%nat, process_block block (st_state s))
    else (block, buffered, st_state s) in
  let block := copy_into block buffered (replicate (64 - buffered) 0) in
  let bit_count := st_total_bytes s *64 8 in
  let block := copy_into block 56 (length_bytes bit_count) in
  Some (print_digest (process_block block state)).

Definition sha256_bytes (data : list Z) : option string :=
  s ← sha256_update new_stream data; sha256_finish s.

Definition sha256_text (text : string) : option string :=
  sha256_bytes (map char_code (list_ascii_of_string text)).

(** ** Hashing files *)

(** A failure carries the error text, or [None] where the source returns
    false without setting one. *)
Inductive HashResult :=
| Digest (digest : string)
| HashFailed (error : option string).

Definition finish_result (s : Sha256Stream) : HashResult :=
  match sha256_finish s with Some d => Digest d | None => HashFailed None end.

(** What one [read] delivers: bytes, or a failure. *)
Inductive ReadOutcome :=
| ReadBytes (bytes : list Z)
| ReadFailed.

(** An [std::ifstream] opened in binary mode: whether it opened, the bytes each
    [read] of 8192 delivers ([gcount]) and whether [badbit] is set in the end.
    A read that delivers fewer than 8192 bytes sets [eofbit] and [failbit], so
    it is the last one. *)
Record InputStream := mkInput {
  in_opened : bool;
  in_reads : list (list Z);
  in_bad : bool;
}.

Definition too_large : HashResult := HashFailed (Some "sha256_input_size_exceeds_limit"%string).
Definition read_failed : HashResult := HashFailed (Some "sha256_input_read_failed"%string).

(** [read_count > maximum_bytes || total_bytes > maximum_bytes - read_count]. *)
Definition exceeds_limit (maximum_bytes : Z) (s : Sha256Stream) (count : Z) : bool :=
  (maximum_bytes <? count) || (maximum_bytes - count <? st_total_bytes s).

(** The loop over the reads; [limit] is the test before each update. *)
Fixpoint read_stream (limit : Sha256Stream -> Z -> bool) (reads : list (list Z)) (s : Sha256Stream) :
    HashResult + Sha256Stream :=
  match reads with
  | [] => inr s
  | bytes :: reads =>
      if Nat.eqb (length bytes) 0 then inr s
      else if limit s (Z.of_nat (length bytes)) then inl too_large
      else match sha256_update s bytes with
           | None => inl too_large
           | Some s => if Nat.ltb (length bytes) 8192 then inr s else read_stream limit reads s
           end
  end.

Definition finish_input (input : InputStream) (r : HashResult + Sha256Stream) : HashResult :=
  match r with
  | inl e => e
  | inr s => if in_bad input then read_failed else finish_result s
  end.

Definition sha256_file (input : InputStream) : HashResult :=
  if negb (in_opened input) then HashFailed (Some "sha256_input_open_failed"%string)
  else finish_input input (read_stream (fun _ _ => false) (in_reads input) new_stream).

(** [is_regular] is [std::filesystem::is_regular_file] without an error. *)
Definition sha256_regular_file_bounded (is_regular : bool) (maximum_bytes : Z) (input : InputStream) : HashResult :=
  if negb is_regular then HashFailed (Some "sha256_input_not_regular_file"%string)
  else if negb (in_opened input) then HashFailed (Some "sha256_input_open_failed"%string)
  else finish_input input (read_stream (exceeds_limit maximum_bytes) (in_reads input) new_stream).

(** The loop of the two trusted variants: reads up to the first empty one. *)
Fixpoint read_handle (maximum_bytes : Z) (reads : list ReadOutcome) (s : Sha256Stream) :
    HashResult + Sha256Stream :=
  match reads with
  | [] => inr s
  | ReadFailed :: _ => inl read_failed
  | ReadBytes bytes :: reads =>
      if Nat.eqb (length bytes) 0 then inr s
      else if exceeds_limit maximum_bytes s (Z.of_nat (length bytes)) then inl too_large
      else match sha256_update s bytes with
           | None => inl too_large
           | Some s => read_handle maximum_bytes reads s
           end
  end.

Definition finish_handle (r : HashResult + Sha256Stream) : HashResult :=
  match r with inl e => e | inr s => finish_result s end.

(** *** Windows paths

    A wide string is a list of UTF-16 code units.  The path calls are made
    twice: for the length required, then with a buffer one longer. *)

Record PathCall := mkPathCall {
  pc_required : Z;
  pc_written : Z;
  pc_buffer : list Z;
}.

Definition path_of_call (call : PathCall) : option (list Z) :=
  if pc_required call =? 0 then None
  else if (pc_written call =? 0) || (pc_required call + 1 <=? pc_written call) then None
  else Some (take (Z.to_nat (pc_written call)) (pc_buffer call)).

Definition backslash : Z := 92.
Definition slash : Z := 47.

Definition starts_with (prefix path : list Z) : bool :=
  bool_decide (take (length prefix) path = prefix).

Definition extended_prefix : list Z := [backslash; backslash; 63; backslash].
Definition unc_prefix : list Z := extended_prefix ++ [85; 78; 67; backslash].

Definition with_extended_prefix (path : list Z) : list Z :=
  if starts_with extended_prefix path then path
  else if starts_with [backslash; backslash] path then unc_prefix ++ drop 2 path
  else extended_prefix ++ path.

(** The attributes of an open handle. *)
Record FileInformation := mkFileInformation {
  fi_reparse_point : bool;
  fi_directory : bool;
}.

(** What an opened handle answers. *)
Record WindowsHandle := mkWindowsHandle {
  wh_information : option FileInformation;
  wh_final : PathCall;
}.

(** The calls of [sha256_windows_trusted_handle]: the root handle, its full and
    long path, the evidence handle and the reads from it. *)
Record WindowsFiles := mkWindowsFiles {
  wf_root : option WindowsHandle;
  wf_root_full : PathCall;
  wf_root_long : list Z -> PathCall;
  wf_evidence : option WindowsHandle;
  wf_reads : list ReadOutcome;
}.

Definition final_path_from_handle (handle : WindowsHandle) : option (list Z) := path_of_call (wh_final handle).
Definition full_input_path (files : WindowsFiles) : option (list Z) := path_of_call (wf_root_full files).
Definition long_input_path (files : WindowsFiles) (path : list Z) : option (list Z) :=
  path_of_call (wf_root_long files path).

Section Windows.
  (** [CompareStringOrdinal(..., TRUE) == CSTR_EQUAL]. *)
  Context (ordinal_equal_ci : list Z -> list Z -> bool).

Definition equal_path_ci (left right : list Z) : bool :=
  Nat.eqb (length left) (length right) && ordinal_equal_ci left right.

Definition final_path_is_descendant (root candidate : list Z) : bool :=
  if Nat.leb (length candidate) (length root) || negb (ordinal_equal_ci root (take (length root) candidate))
  then false
  else
    let separator := nth (length root) candidate 0 in
    (separator =? backslash) || (separator =? slash).

(** The root is a directory, not a reparse point, and opened under the very
    path that was asked for; its final path. *)
Definition trusted_root_final (files : WindowsFiles) (root : WindowsHandle) : option (list Z) :=
  match wh_information root with
  | None => None
  | Some info =>
      if fi_reparse_point info || negb (fi_directory info) then None
      else
        root_final ← final_path_from_handle root;
        root_input ← full_input_path files;
        root_long_input ← long_input_path files root_input;
        if equal_path_ci root_final (with_extended_prefix root_long_input) then Some root_final else None
  end.

Definition trusted_evidence (root_final : list Z) (evidence : WindowsHandle) : bool :=
  match wh_information evidence with
  | None => false
  | Some info =>
      negb (fi_reparse_point info || fi_directory info) &&
      match final_path_from_handle evidence with
      | None => false
      | Some evidence_final => final_path_is_descendant root_final evidence_final
      end
  end.

Definition sha256_windows_trusted_handle (files : WindowsFiles) (maximum_bytes : Z) : HashResult :=
  match wf_root files with
  | None => HashFailed (Some "sha256_trusted_root_rejected"%string)
  | Some root =>
      match trusted_root_final files root with
      | None => HashFailed (Some "sha256_trusted_root_rejected"%string)
      | Some root_final =>
          match wf_evidence files with
          | None => HashFailed (Some "sha256_input_open_failed"%string)
          | Some evidence =>
              if negb (trusted_evidence root_final evidence)
              then HashFailed (Some "sha256_input_reparse_point"%string)
              else finish_handle (read_handle maximum_bytes (wf_reads files) new_stream)
          end
      end
  end.

End Windows.

(** *** POSIX paths

    A normal absolute path is the list of its elements, the root name and
    directory left out; a trailing separator is an empty last element. *)

Inductive FileKind := RegularFile | Directory | OtherFile.

(** [std::filesystem::path::lexically_relative] of two such paths, which have
    the same root. *)
Fixpoint mismatch (a b : list string) : list string * list string :=
  match a, b with
  | x :: a', y :: b' => if String.eqb x y then mismatch a' b' else (a, b)
  | _, _ => (a, b)
  end.

Definition base_depth (rest : list string) : Z :=
  fold_right (fun e n => if String.eqb e "" || String.eqb e "." then n
                         else if String.eqb e ".." then n - 1 else n + 1) 0 rest.

Definition lexically_relative (path base : list string) : list string :=
  let '(a, b) := mismatch path base in
  match a, b with
  | [], [] => ["."%string]
  | _, _ =>
      let n := base_depth b in
      if n <? 0 then []
      else if (n =? 0) && match a with [] => true | e :: _ => String.eqb e "" end then ["."%string]
      else replicate (Z.to_nat n) ".."%string ++ a
  end.

(** Names that would leave or repeat the current directory. *)
Definition plain_component (c : string) : bool :=
  negb (String.eqb c "" || String.eqb c "." || String.eqb c "..").

Section Posix.
  (** The file system: [open] of the root, [fstat], [openat] with
      [O_NOFOLLOW] (and [O_DIRECTORY] except for the last element) and [read]. *)
  Context {Fd : Type}
          (open_root : list string -> option Fd)
          (fstat_kind : Fd -> option FileKind)
          (openat : Fd -> string -> bool -> option Fd)
          (reads_of : Fd -> list ReadOutcome).

Definition has_kind (fd : Fd) (directory : bool) : bool :=
  match fstat_kind fd, directory with
  | Some Directory, true | Some RegularFile, false => true
  | _, _ => false
  end.

(** The walk from the root, one element at a time. *)
Fixpoint walk (current : Fd) (components : list string) : option Fd :=
  match components with
  | [] => Some current
  | c :: rest =>
      let final := match rest with [] => true | _ => false end in
      match openat current c (negb final) with
      | None => None
      | Some opened => if has_kind opened (negb final) then walk opened rest else None
      end
  end.

(** [root] and [candidate] are [None] where [std::filesystem::absolute] fails.
    An interrupted [read] is repeated, so it is not among the reads. *)
Definition sha256_posix_trusted_handle (root candidate : option (list string)) (maximum_bytes : Z) : HashResult :=
  match root, candidate with
  | Some root, Some candidate =>
      let relative := lexically_relative candidate root in
      if bool_decide (relative = []) || bool_decide (relative = ["."%string]) || negb (forallb plain_component relative)
      then HashFailed (Some "sha256_input_outside_trusted_root"%string)
      else
      match open_root root with
      | None => HashFailed (Some "sha256_trusted_root_rejected"%string)
      | Some fd =>
          if negb (has_kind fd true) then HashFailed (Some "sha256_trusted_root_rejected"%string)
          else
          match walk fd relative with
          | None => HashFailed (Some "sha256_input_reparse_point"%string)
          | Some file => finish_handle (read_handle maximum_bytes (reads_of file) new_stream)
          end
      end
  | _, _ => HashFailed (Some "sha256_input_outside_trusted_root"%string)
  end.

End Posix.

(** ** A whole message *)

(** What [sha256_finish] appends, for a message of [n] bytes: the marker, zeros
    up to 56 bytes modulo 64, the length in bits. *)
Definition padding (n : nat) : list Z :=
  [128] ++ replicate ((119 - n mod 64) mod 64) 0 ++ length_bytes (Z.of_nat n * 8).

(** The block function over the padded message; [blocks_digest_fips] shows that
    this is the digest of the standard. *)
Definition blocks_digest (message : list Z) : string :=
  let padded := message ++ padding (length message) in
  print_digest (iterate_blocks process_block initial_state padded (length padded / 64)).

(** The tables are the roots that the standard names. *)
Lemma round_constants_derived :
  kRoundConstants = Fips180.K /\ initial_state = Fips180.H0.
Proof. vm_compute. split; reflexivity. Qed.

(** FIPS 180-4 examples. *)
Example sha256_abc :
  sha256_text "abc" = Some "ba7816bf8f01cfea414140de5dae2223b00361a396177a9cb410ff61f20015ad"%string.
Proof. vm_compute. reflexivity. Qed.

Example sha256_two_blocks :
  sha256_text "abcdbcdecdefdefgefghfghighijhijkijkljklmklmnlmnomnopnopq" =
  Some "248d6a61d20638b8e5c026930c3e6039a33ce45964ff2167f6ecedd419db06c1"%string.
Proof. vm_compute. reflexivity. Qed.

(** ** The block as a buffer *)

Lemma copy_into_length block at_ data :
  (at_ + length data <= length block)%nat -> length (copy_into block at_ data) = length block.
Proof. intros H. unfold copy_into. rewrite !length_app, length_take, length_drop. lia. Qed.

Lemma copy_into_take block at_ data :
  (at_ + length data <= length block)%nat ->
  take (at_ + length data) (copy_into block at_ data) = take at_ block ++ data.
Proof.
  intros H. unfold copy_into. rewrite app_assoc, take_app_length'; [done|].
  rewrite length_app, length_take. lia.
Qed.

(** The stream holds the state after the whole blocks of [m] and the rest of
    [m] in its buffer. *)
Definition represents (s : Sha256Stream) (m : list Z) : Prop :=
  absorb process_block m initial_state = (take (st_buffered s) (st_block s), st_state s) /\
  length (st_block s) = 64%nat /\ (st_buffered s < 64)%nat /\ st_total_bytes s = Z.of_nat (length m) /\
  Z.of_nat (length m) <= u64_max.

Lemma new_stream_represents : represents new_stream [].
Proof. repeat split; cbn; lia. Qed.

(** What [sha256_update] does once the buffer has been dealt with. *)
Definition store_rest (state block : list Z) (buffered : nat) (total : Z) (rest : list Z) : Sha256Stream :=
  match rest with
  | [] => mkStream state block buffered total
  | _ => mkStream state (copy_into block 0 rest) (length rest) total
  end.

Lemma store_rest_represents m d state block rest :
  absorb process_block (m ++ d) initial_state = (rest, state) -> length block = 64%nat ->
  Z.of_nat (length (m ++ d)) <= u64_max ->
  represents (store_rest state block 0 (Z.of_nat (length (m ++ d))) rest) (m ++ d).
Proof.
  intros H Hb Hfit. pose proof (absorb_rest process_block (m ++ d) initial_state) as [Hr _]. rewrite H in Hr. cbn [fst] in Hr.
  unfold represents, store_rest. destruct rest as [|x rest]; cbn [st_state st_block st_buffered st_total_bytes].
  - by rewrite take_0.
  - set (r := x :: rest) in *. rewrite (copy_into_length block 0 r) by lia.
    replace (take (length r) (copy_into block 0 r)) with r; [done|].
    symmetry. exact (copy_into_take block 0 r ltac:(lia)).
Qed.

Lemma update_unfold s data :
  sha256_update s data =
  if u64_max - st_total_bytes s <? Z.of_nat (length data) then None
  else
    let total := st_total_bytes s + Z.of_nat (length data) in
    if Nat.eqb (st_buffered s) 0 then
      let '(rest, state) := absorb process_block data (st_state s) in Some (store_rest state (st_block s) 0 total rest)
    else
      let copied := Nat.min (length data) (64 - st_buffered s) in
      let block := copy_into (st_block s) (st_buffered s) (take copied data) in
      if Nat.eqb (st_buffered s + copied) 64 then
        let '(rest, state) := absorb process_block (drop copied data) (process_block block (st_state s)) in
        Some (store_rest state block 0 total rest)
      else
        let '(rest, state) := absorb process_block (drop copied data) (st_state s) in
        Some (store_rest state block (st_buffered s + copied) total rest).
Proof.
  unfold sha256_update, absorb, store_rest. destruct (_ <? _); [done|]. cbv zeta.
  destruct (Nat.eqb (st_buffered s) 0).
  - destruct (process_whole_blocks _ _ _ _) as [[|? ?] ?]; done.
  - destruct (Nat.eqb _ 64); destruct (process_whole_blocks _ _ _ _) as [[|? ?] ?]; done.
Qed.

(** [sha256_update] extends the message a stream represents. *)
Lemma update_represents s m d :
  represents s m -> Z.of_nat (length (m ++ d)) <= u64_max ->
  exists s', sha256_update s d = Some s' /\ represents s' (m ++ d).
Proof.
  intros (Ha & Hb & Hlt & Ht & Hu) Hfit. rewrite update_unfold, Ht.
  rewrite length_app in Hfit. destruct (Z.ltb_spec (u64_max - Z.of_nat (length m)) (Z.of_nat (length d))); [lia|].
  cbv zeta. replace (Z.of_nat (length m) + Z.of_nat (length d)) with (Z.of_nat (length (m ++ d)))
    by (rewrite length_app; lia).
  pose proof (absorb_app process_block m d initial_state) as Happ. rewrite Ha in Happ. cbn [fst snd] in Happ.
  destruct (Nat.eqb_spec (st_buffered s) 0) as [E0|E0].
  - rewrite E0, take_0 in Happ. cbn [app] in Happ. destruct (absorb process_block d (st_state s)) as [rest state] eqn:E.
    eexists. split; [done|]. apply store_rest_represents; [done| |rewrite length_app; lia]; done.
  - set (b := st_buffered s) in *. destruct (Nat.le_gt_cases (64 - b) (length d)) as [Hfull|Hpart].
    + rewrite Nat.min_r by lia. replace (b + (64 - b))%nat with 64%nat by lia. cbn [Nat.eqb].
      assert (Hl : length (take (64 - b) d) = (64 - b)%nat) by (rewrite length_take; lia).
      set (block := copy_into (st_block s) b (take (64 - b) d)).
      assert (Hblock : block = take b (st_block s) ++ take (64 - b) d).
      { rewrite <- copy_into_take by lia. rewrite Hl. replace (b + (64 - b))%nat with 64%nat by lia.
        fold block. rewrite take_ge; [done|]. unfold block. rewrite copy_into_length; lia. }
      assert (Hbl : length block = 64%nat) by (unfold block; rewrite copy_into_length; lia).
      rewrite (absorb_large process_block (take b _ ++ d)) in Happ by (rewrite length_app, length_take; lia).
      rewrite drop_app_ge, take_app_ge in Happ by (rewrite length_take; lia).
      rewrite length_take, Nat.min_l in Happ by lia. rewrite <- Hblock in Happ.
      destruct (absorb process_block (drop (64 - b) d) _) as [rest state] eqn:E.
      eexists. split; [done|]. apply store_rest_represents; [done| |rewrite length_app; lia]; done.
    + rewrite Nat.min_l by lia. destruct (Nat.eqb_spec (b + length d) 64); [lia|].
      rewrite drop_all, take_ge by lia. cbn. eexists. split; [done|].
      unfold represents; cbn [store_rest st_state st_block st_buffered st_total_bytes].
      rewrite copy_into_take, copy_into_length by lia. rewrite Happ.
      rewrite absorb_small by (rewrite length_app, length_take; lia). repeat split; rewrite ?length_app; lia.
Qed.

(** ** Finishing *)

Lemma copy_into_full block at_ data :
  (at_ + length data = length block)%nat -> copy_into block at_ data = take at_ block ++ data.
Proof. intros H. unfold copy_into. by rewrite drop_ge, app_nil_r by lia. Qed.

Lemma length_bytes_length n : length (length_bytes n) = 8%nat.
Proof. reflexivity. Qed.

(** Zeroing the block from [at_] on and storing the bit count. *)
Lemma close_block block at_ bits :
  length block = 64%nat -> (at_ <= 56)%nat -> length bits = 8%nat ->
  copy_into (copy_into block at_ (replicate (64 - at_) 0)) 56 bits = take at_ block ++ replicate (56 - at_) 0 ++ bits.
Proof.
  intros Hb Ha H8. rewrite (copy_into_full block) by (rewrite length_replicate; lia).
  rewrite copy_into_full by (rewrite length_app, length_take, length_replicate; lia).
  rewrite take_app_ge by (rewrite length_take; lia).
  rewrite length_take, Nat.min_l, take_replicate, <- app_assoc by lia. do 3 f_equal. lia.
Qed.

Lemma padding_length n : exists count, (n + length (padding n) = 64 * count)%nat.
Proof.
  unfold padding. rewrite !length_app, length_replicate, length_bytes_length. cbn [Datatypes.length].
  pose proof (Nat.div_mod_eq n 64). pose proof (Nat.mod_upper_bound n 64 ltac:(lia)).
  pose proof (Nat.div_mod_eq (119 - n mod 64) 64).
  pose proof (Nat.mod_upper_bound (119 - n mod 64) 64 ltac:(lia)).
  exists (n / 64 + 2 - (119 - n mod 64) / 64)%nat. lia.
Qed.

Lemma padding_split n :
  (n mod 64 < 56 -> (119 - n mod 64) mod 64 = 55 - n mod 64)%nat /\
  (56 <= n mod 64 -> (119 - n mod 64) mod 64 = 119 - n mod 64)%nat.
Proof.
  pose proof (Nat.mod_upper_bound n 64 ltac:(lia)). split; intros.
  - replace (119 - n mod 64)%nat with ((55 - n mod 64) + 1 * 64)%nat by lia.
    rewrite Nat.Div0.mod_add. apply Nat.mod_small. lia.
  - apply Nat.mod_small. lia.
Qed.

(** The state the blocks of the padded message leave. *)
Lemma reference_absorb m :
  blocks_digest m =
  print_digest (absorb process_block (m ++ padding (length m)) initial_state).2.
Proof.
  destruct (padding_length (length m)) as [count Hc]. unfold blocks_digest. cbv zeta.
  assert (Hl : length (m ++ padding (length m)) = (64 * count)%nat) by (rewrite length_app; lia).
  rewrite (absorb_blocks _ count) by done. cbn [snd].
  rewrite Hl, (Nat.mul_comm 64), Nat.div_mul by lia. done.
Qed.

(** [sha256_finish] prints the digest of the message. *)
Lemma finish_reference s m :
  represents s m -> Z.of_nat (length m) <= u64_max / 8 -> sha256_finish s = Some (blocks_digest m).
Proof.
  intros (Ha & Hb & Hlt & Ht & Hu) Hfit. rewrite reference_absorb, absorb_app, Ha. cbn [fst snd].
  pose proof (absorb_rest process_block m initial_state) as [_ Hmod]. rewrite Ha in Hmod. cbn [fst] in Hmod.
  rewrite length_take, Hb, Nat.min_l in Hmod by lia. destruct (padding_split (length m)) as [Hshort Hlong].
  unfold padding, sha256_finish. rewrite Ht. destruct (Z.ltb_spec (u64_max / 8) (Z.of_nat (length m))); [lia|].
  assert (Hbits : Z.of_nat (length m) *64 8 = Z.of_nat (length m) * 8).
  { apply wrap64_small. unfold u64. change (u64_max / 8) with 2305843009213693951 in Hfit. lia. }
  cbv zeta. rewrite Hbits, <- Hmod. rewrite <- Hmod in Hshort, Hlong. clear Ha. generalize process_block as compress.
  intros compress. set (b := st_buffered s) in *.
  set (block := copy_into (st_block s) b [128]).
  assert (Hbl : length block = 64%nat) by (unfold block; rewrite copy_into_length; cbn [Datatypes.length]; lia).
  assert (Hbt : take (S b) block = take b (st_block s) ++ [128]).
  { unfold block. rewrite <- (copy_into_take (st_block s) b [128]) by (cbn [Datatypes.length]; lia).
    cbn [Datatypes.length]. do 2 f_equal. lia. }
  set (bits := length_bytes _).
  assert (Hbits8 : length bits = 8%nat) by reflexivity.
  destruct (Nat.ltb_spec 56 (S b)) as [Hbig|Hbig].
  - rewrite Hlong by lia. rewrite (copy_into_full block) by (rewrite length_replicate; lia). rewrite Hbt.
    rewrite (close_block _ 0) by (rewrite ?length_app, ?length_take, ?length_replicate, ?Hbits8; cbn [Datatypes.length]; lia).
    rewrite take_0, Nat.sub_0_r. cbn [app].
    replace (119 - b)%nat with ((64 - S b) + 56)%nat by lia. rewrite replicate_add.
    set (first := (take b (st_block s) ++ [128]) ++ replicate (64 - S b) 0).
    assert (Hfirst : length first = 64%nat)
      by (unfold first; rewrite !length_app, length_take, length_replicate; cbn [Datatypes.length]; lia).
    replace (take b (st_block s) ++ 128 :: (replicate (64 - S b) 0 ++ replicate 56 0) ++ bits)
      with (first ++ (replicate 56 0 ++ bits)) by (unfold first; by rewrite <- !app_assoc).
    rewrite absorb_large by (rewrite length_app; lia).
    rewrite take_app_length', drop_app_length' by done.
    assert (Hlast : length (replicate 56 0 ++ bits) = 64%nat) by (rewrite length_app, length_replicate; lia).
    rewrite (absorb_large _ (replicate 56 0 ++ bits)) by lia.
    rewrite (take_ge (replicate 56 0 ++ bits)), drop_ge by lia.
    rewrite absorb_small by (cbn [Datatypes.length]; lia). done.
  - rewrite Hshort by lia. rewrite close_block, Hbt by lia.
    replace ((take b (st_block s) ++ [128]) ++ replicate (56 - S b) 0 ++ bits)
      with (take b (st_block s) ++ [128] ++ replicate (55 - b) 0 ++ bits)
      by (replace (56 - S b)%nat with (55 - b)%nat by lia; by rewrite <- !app_assoc).
    set (last := take b (st_block s) ++ _).
    assert (Hlast : length last = 64%nat)
      by (unfold last; rewrite !length_app, length_take, length_replicate; cbn [Datatypes.length]; lia).
    rewrite absorb_large, (take_ge last), drop_ge by lia. by rewrite absorb_small by (cbn [Datatypes.length]; lia).
Qed.

(** ** The block function is that of the standard *)

Definition byte (b : Z) : Prop := 0 <= b < 256.

Lemma u32_high x i : u32 x -> 32 <= i -> Z.testbit x i = false.
Proof. intros Hx Hi. apply (Fips180.testbit_above x 32); [|lia]. unfold u32 in Hx. change (2 ^ 32) with 4294967296. lia. Qed.

Lemma wrap32_u32 x : u32 (wrap32 x).
Proof. unfold u32, wrap32. pose proof (Z.mod_pos_bound x 4294967296). lia. Qed.

Lemma wrap32_bits x i : 0 <= i < 32 -> Z.testbit (wrap32 x) i = Z.testbit x i.
Proof. intros Hi. unfold wrap32. change 4294967296 with (2 ^ 32). apply Z.mod_pow2_bits_low. lia. Qed.

(** A word from its bits. *)
Lemma word_intro x bit :
  0 <= x -> (forall i, 32 <= i -> Z.testbit x i = false) -> (forall i, 0 <= i < 32 -> Z.testbit x i = bit i) ->
  x = Fips180.word bit.
Proof.
  intros H0 Hhigh Hlow. apply Z.bits_inj'. intros i Hi. rewrite Fips180.word_testbit by done.
  destruct (Z.ltb_spec i 32); [by apply Hlow|by apply Hhigh].
Qed.

Lemma rotate_right_ROTR x n : u32 x -> 0 < n < 32 -> rotate_right x n = Fips180.ROTR n x.
Proof.
  intros Hx Hn. unfold rotate_right, Fips180.ROTR. apply word_intro.
  - apply Z.lor_nonneg. split; [apply Z.shiftr_nonneg; apply Hx|apply wrap32_u32].
  - intros i Hi. rewrite Z.lor_spec, Z.shiftr_spec, (u32_high x) by (done || lia).
    apply u32_high; [apply wrap32_u32|lia].
  - intros i Hi. rewrite Z.lor_spec, Z.shiftr_spec, wrap32_bits, Z.shiftl_spec by lia.
    destruct (Z.le_gt_cases 32 (i + n)) as [Hge|Hlt].
    + rewrite u32_high by (done || lia). cbn [orb]. f_equal.
      replace (i + n) with ((i - (32 - n)) + 1 * 32) by lia. rewrite Z.mod_add, Z.mod_small; lia.
    + rewrite (Z.testbit_neg_r x (i - (32 - n))) by lia. rewrite orb_false_r. f_equal. rewrite Z.mod_small; lia.
Qed.

Lemma lxor_u32 x y : u32 x -> u32 y -> u32 (Z.lxor x y).
Proof.
  intros Hx Hy. assert (E : Z.lxor x y = Fips180.word (fun i => xorb (Z.testbit x i) (Z.testbit y i))).
  { apply word_intro.
    - apply Z.lxor_nonneg. unfold u32 in *. lia.
    - intros i Hi. by rewrite Z.lxor_spec, !u32_high.
    - intros i Hi. apply Z.lxor_spec. }
  rewrite E. apply Fips180.word_range.
Qed.

Lemma lxor_xor3 x y z : u32 x -> u32 y -> u32 z -> Z.lxor (Z.lxor x y) z = Fips180.xor3 x y z.
Proof.
  intros Hx Hy Hz. apply Fips180.word_unique; [by repeat apply lxor_u32|]. intros i _.
  by rewrite !Z.lxor_spec, xorb_assoc.
Qed.

Lemma SHR_shiftr x n : 0 <= n -> Z.shiftr x n = Fips180.SHR n x.
Proof. intros Hn. by apply Z.shiftr_div_pow2. Qed.

Lemma SHR_u32 x n : u32 x -> 0 <= n -> u32 (Fips180.SHR n x).
Proof.
  intros Hx Hn. unfold u32, Fips180.SHR in *. pose proof (Z.pow_pos_nonneg 2 n ltac:(lia) Hn).
  split; [apply Z.div_pos; lia|]. apply Z.div_le_upper_bound; nia.
Qed.

Lemma choose_Ch e f g : u32 e -> u32 f -> u32 g ->
  Z.lxor (Z.land e f) (Z.land (not32 e) g) = Fips180.Ch e f g.
Proof.
  intros He Hf Hg. assert (Hmax : u32 u32_max) by (unfold u32; lia). apply word_intro.
  - apply Z.lxor_nonneg. rewrite !Z.land_nonneg. unfold u32 in *. lia.
  - intros i Hi. by rewrite Z.lxor_spec, !Z.land_spec, (u32_high f), (u32_high g), !andb_false_r.
  - intros i Hi. rewrite Z.lxor_spec, !Z.land_spec. unfold not32. rewrite Z.lxor_spec.
    change u32_max with (Z.ones 32). rewrite Z.ones_spec_low by lia.
    by destruct (Z.testbit e i), (Z.testbit f i), (Z.testbit g i).
Qed.

Lemma majority_Maj a b c : u32 a -> u32 b -> u32 c ->
  Z.lxor (Z.lxor (Z.land a b) (Z.land a c)) (Z.land b c) = Fips180.Maj a b c.
Proof.
  intros Ha Hb Hc. apply word_intro.
  - rewrite !Z.lxor_nonneg, !Z.land_nonneg. unfold u32 in *. lia.
  - intros i Hi. by rewrite !Z.lxor_spec, !Z.land_spec, (u32_high b), (u32_high c), !andb_false_r.
  - intros i Hi. rewrite !Z.lxor_spec, !Z.land_spec. by destruct (Z.testbit a i), (Z.testbit b i), (Z.testbit c i).
Qed.

Lemma big_sigma x p q r : u32 x -> 0 < p < 32 -> 0 < q < 32 -> 0 < r < 32 ->
  Z.lxor (Z.lxor (rotate_right x p) (rotate_right x q)) (rotate_right x r) =
  Fips180.xor3 (Fips180.ROTR p x) (Fips180.ROTR q x) (Fips180.ROTR r x).
Proof. intros. rewrite !rotate_right_ROTR by done. apply lxor_xor3; apply Fips180.word_range. Qed.

Lemma small_sigma x p q r : u32 x -> 0 < p < 32 -> 0 < q < 32 -> 0 <= r ->
  Z.lxor (Z.lxor (rotate_right x p) (rotate_right x q)) (Z.shiftr x r) =
  Fips180.xor3 (Fips180.ROTR p x) (Fips180.ROTR q x) (Fips180.SHR r x).
Proof.
  intros. rewrite !rotate_right_ROTR, SHR_shiftr by done.
  apply lxor_xor3; [apply Fips180.word_range..|by apply SHR_u32].
Qed.

Lemma add_wrap32 l : Fips180.add l = wrap32 (fold_right Z.add 0 l).
Proof. done. Qed.

(** *** Words of a block *)

Lemma lor_shift a b k : 0 <= k -> 0 <= b < 2 ^ k -> Z.lor (Z.shiftl a k) b = a * 2 ^ k + b.
Proof.
  intros Hk Hb. pose proof (Z.add_lor_land (Z.shiftl a k) b) as H.
  assert (H0 : Z.land (Z.shiftl a k) b = 0).
  { apply Z.bits_inj'. intros i Hi. rewrite Z.land_spec, Z.testbit_0_l, Z.shiftl_spec by done.
    destruct (Z.le_gt_cases k i); [rewrite (Fips180.testbit_above b k) by lia; apply andb_false_r|].
    by rewrite Z.testbit_neg_r by lia. }
  rewrite H0, Z.shiftl_mul_pow2 in * by done. lia.
Qed.

Lemma be_word a b c d : byte a -> byte b -> byte c -> byte d ->
  Z.lor (Z.lor (Z.lor (Z.shiftl a 24) (Z.shiftl b 16)) (Z.shiftl c 8)) d = Fips180.big_endian [a; b; c; d].
Proof.
  unfold byte. intros Ha Hb Hc Hd.
  replace (Z.shiftl a 24) with (Z.shiftl (Z.shiftl a 8) 16) by (by rewrite Z.shiftl_shiftl by lia).
  rewrite <- Z.shiftl_lor. rewrite (lor_shift a b 8) by (change (2 ^ 8) with 256; lia).
  set (ab := a * 2 ^ 8 + b). replace (Z.shiftl ab 16) with (Z.shiftl (Z.shiftl ab 8) 8) by (by rewrite Z.shiftl_shiftl by lia).
  rewrite <- Z.shiftl_lor. rewrite (lor_shift ab c 8), (lor_shift _ d 8) by (change (2 ^ 8) with 256; lia).
  subst ab. unfold Fips180.big_endian. cbn [fold_left]. change (2 ^ 8) with 256. lia.
Qed.

Lemma be_range a b c d : byte a -> byte b -> byte c -> byte d -> u32 (Fips180.big_endian [a; b; c; d]).
Proof. unfold byte, u32, Fips180.big_endian. cbn [fold_left]. lia. Qed.

Lemma load_words block :
  length block = 64%nat -> Forall byte block ->
  map (load_word block) (seq 0 16) = Fips180.block_words block /\ Forall u32 (Fips180.block_words block).
Proof.
  intros Hl Hb. do 64 (destruct block as [|? block]; [done|]). destruct block; [|done]. clear Hl.
  repeat (apply Forall_cons in Hb as [? Hb]). unfold Fips180.block_words, load_word, nth32.
  cbn [seq map take drop nth Nat.mul Nat.add].
  rewrite !be_word by done. split; [done|]. repeat (apply Forall_cons_2; [by apply be_range|]). done.
Qed.

(** *** The message schedule *)

Lemma schedule_word_after words :
  (16 <= length words)%nat -> Forall u32 words ->
  let last16 := drop (length words - 16) words in
  let back t := nth (16 - t) last16 0 in
  schedule_word words (length words) =
  Fips180.add [Fips180.sigma1 (back 2%nat); back 7%nat; Fips180.sigma0 (back 15%nat); back 16%nat].
Proof.
  intros Hl Hu last16 back. assert (Hback : forall t, (t <= 16)%nat -> nth32 words (length words - t) = back t).
  { intros t Ht. unfold back, last16, nth32. rewrite !nth_lookup, lookup_drop. do 2 f_equal. lia. }
  assert (Hw : forall i, u32 (nth32 words i)).
  { intros i. unfold nth32. rewrite nth_lookup. destruct (words !! i) eqn:E; cbn; [|unfold u32; lia].
    by apply (Forall_lookup_1 u32 words i). }
  unfold schedule_word. rewrite !Hback by lia. assert (Hb : forall t, (t <= 16)%nat -> u32 (back t)).
  { intros t Ht. rewrite <- Hback by done. apply Hw. }
  rewrite !small_sigma by (apply Hb || lia; lia). rewrite add_wrap32. unfold Fips180.sigma0, Fips180.sigma1.
  f_equal. cbn [fold_right]. lia.
Qed.

Lemma schedule_loop count words :
  (16 <= length words)%nat -> Forall u32 words ->
  fold_left (fun words i => words ++ [schedule_word words i]) (seq (length words) count) words =
  words ++ Fips180.schedule_after count (drop (length words - 16) words) /\
  Forall u32 (Fips180.schedule_after count (drop (length words - 16) words)).
Proof.
  revert words; induction count as [|count IH]; intros words Hl Hu; [by rewrite app_nil_r|].
  cbn [seq fold_left]. pose proof (schedule_word_after words Hl Hu) as Hw. cbv zeta in Hw.
  set (w := schedule_word words (length words)) in *.
  assert (Hw32 : u32 w) by (rewrite Hw, add_wrap32; apply wrap32_u32).
  assert (Hd : drop (length (words ++ [w]) - 16) (words ++ [w]) = tl (drop (length words - 16) words) ++ [w]).
  { rewrite length_app. cbn [Datatypes.length]. replace (length words + 1 - 16)%nat with (S (length words - 16)) by lia.
    rewrite drop_app_le by lia. f_equal. rewrite <- (Nat.add_1_r (length words - 16)), <- drop_drop.
    by destruct (drop _ words). }
  destruct (IH (words ++ [w])) as [IH1 IH2]; [rewrite length_app; lia|apply Forall_app; split; [done|by apply Forall_singleton]|].
  rewrite Hd in IH1, IH2. rewrite length_app, Nat.add_1_r in IH1. cbn [Fips180.schedule_after]. cbv zeta. rewrite <- Hw.
  rewrite IH1, <- app_assoc. split; [done|]. by constructor.
Qed.

Lemma message_schedule_fips block :
  length block = 64%nat -> Forall byte block ->
  message_schedule block = Fips180.schedule block /\ Forall u32 (Fips180.schedule block).
Proof.
  intros Hl Hb. destruct (load_words block Hl Hb) as [E Hu]. unfold message_schedule, Fips180.schedule. rewrite E.
  cbv zeta. clear E. revert Hu. assert (Hlen : length (Fips180.block_words block) = 16%nat)
    by (unfold Fips180.block_words; by rewrite length_map, length_seq).
  revert Hlen. generalize (Fips180.block_words block). intros words Hlen Hu.
  destruct (schedule_loop 48 words) as [H1 H2]; [lia|done|]. rewrite Hlen in H1, H2.
  change (16 - 16)%nat with 0%nat in *. rewrite drop_0 in H1, H2. split; [exact H1|by apply Forall_app].
Qed.

(** *** Rounds *)

Definition working_list (w : Working) : list Z := let '(mkWorking a b c d e f g h) := w in [a; b; c; d; e; f; g; h].

Lemma round_fips w kw : Forall u32 (working_list w) ->
  working_list (round w kw) = Fips180.step (working_list w) kw /\ Forall u32 (working_list (round w kw)).
Proof.
  destruct w as [a b c d e f g h], kw as [k word]. cbn [working_list]. intros H.
  repeat (apply Forall_cons in H as [? H]). unfold round. rewrite !big_sigma, choose_Ch, majority_Maj by (done || lia).
  split.
  - unfold Fips180.step. rewrite !add_wrap32. cbn [fold_right fst snd]. unfold Fips180.Sigma0, Fips180.Sigma1.
    repeat f_equal; rewrite ?Z.add_0_r, ?Z.add_assoc; done.
  - repeat (apply Forall_cons_2; [try apply wrap32_u32; done|]). done.
Qed.

Lemma rounds_fips kws w : Forall u32 (working_list w) ->
  working_list (fold_left round kws w) = fold_left Fips180.step kws (working_list w).
Proof.
  revert w; induction kws as [|kw kws IH]; intros w Hw; [done|]. cbn [fold_left].
  destruct (round_fips w kw Hw) as [E H]. by rewrite IH, E.
Qed.

Definition hash_state (state : list Z) : Prop := length state = 8%nat /\ Forall u32 state.

(** The block function of the program is the compression of the standard. *)
Lemma process_block_fips block state :
  length block = 64%nat -> Forall byte block -> hash_state state ->
  process_block block state = Fips180.compress block state.
Proof.
  intros Hl Hb [Hs Hu]. do 8 (destruct state as [|? state]; [done|]). destruct state; [|done]. clear Hs.
  unfold process_block, nth32. cbn [nth].
  set (w := mkWorking _ _ _ _ _ _ _ _). destruct (message_schedule_fips block Hl Hb) as [E _]. rewrite E.
  rewrite (proj1 round_constants_derived). pose proof (rounds_fips (combine Fips180.K (Fips180.schedule block)) w Hu) as H.
  unfold Fips180.compress. change (working_list w) with [z; z0; z1; z2; z3; z4; z5; z6] in H.
  rewrite <- H. generalize (fold_left round (combine Fips180.K (Fips180.schedule block)) w).
  intros []. cbn [working_list zip_with]. rewrite !add_wrap32. cbn [fold_right]. by rewrite !Z.add_0_r.
Qed.

Lemma process_block_state block state : hash_state (process_block block state).
Proof.
  unfold process_block. destruct (fold_left round _ _). split; [done|]. repeat (apply Forall_cons_2; [apply wrap32_u32|]). done.
Qed.

Lemma initial_hash_state : hash_state initial_state.
Proof. split; [done|]. unfold initial_state, u32. repeat (apply Forall_cons_2; [lia|]). done. Qed.

Lemma iterate_blocks_fips count message state :
  length message = (64 * count)%nat -> Forall byte message -> hash_state state ->
  iterate_blocks process_block state message count = Fips180.hash_blocks count message state.
Proof.
  revert message state; induction count as [|count IH]; intros message state Hl Hb Hs; [done|].
  cbn [iterate_blocks Fips180.hash_blocks]. rewrite <- process_block_fips; [|rewrite length_take; lia|by apply Forall_take|done].
  apply IH; [rewrite length_drop; lia|by apply Forall_drop|apply process_block_state].
Qed.

(** *** Padding and text *)

Lemma length_bytes_places n : length_bytes n = Fips180.places 256 8 n.
Proof.
  unfold length_bytes, Fips180.places. apply map_ext_in. intros i Hi%in_seq.
  rewrite Z.shiftr_div_pow2 by lia. f_equal. f_equal. replace (8 * Z.of_nat (7 - i)) with (8 * Z.of_nat (7 - i)) by lia.
  rewrite Z.pow_mul_r by lia. done.
Qed.

Lemma places_bytes n : Forall byte (Fips180.places 256 8 n).
Proof. unfold Fips180.places. apply Forall_map, Forall_forall. intros i _. apply Z.mod_pos_bound. lia. Qed.

Lemma padding_fips message : message ++ padding (length message) = Fips180.padded message.
Proof.
  unfold padding, Fips180.padded. cbv zeta. rewrite length_bytes_places. do 3 f_equal.
  - f_equal. set (n := length message). pose proof (Nat.mod_upper_bound n 64 ltac:(lia)).
    apply Nat2Z.inj. rewrite Nat2Z.inj_mod, Nat2Z.inj_sub, Nat2Z.inj_mod, Z2Nat.id by (try apply Z.mod_pos_bound; lia).
    replace (Z.of_nat 119 - Z.of_nat n mod Z.of_nat 64) with (55 - Z.of_nat n + (1 + Z.of_nat n / 64) * 64);
      [by rewrite Z.mod_add by lia|]. rewrite (Z.div_mod (Z.of_nat n) 64) at 1 by lia. lia.
  - f_equal. lia.
Qed.

Lemma hex_char_digit n : 0 <= n < 16 -> hex_char n = Fips180.hex_digit n.
Proof.
  intros H. assert (E : n ∈ map Z.of_nat (seq 0 16)).
  { apply list_elem_of_fmap. exists (Z.to_nat n). rewrite elem_of_seq. lia. }
  clear H. revert n E. apply Forall_forall. repeat (apply Forall_cons_2; [reflexivity|]). done.
Qed.

Lemma hex_word_places w : hex_word w = map Fips180.hex_digit (Fips180.places 16 8 w).
Proof.
  unfold hex_word, Fips180.places. rewrite map_map. apply map_ext_in. intros i Hi%in_seq.
  rewrite Z.shiftr_div_pow2, Z.pow_mul_r by lia. change (2 ^ 4) with 16. apply hex_char_digit. apply Z.mod_pos_bound. lia.
Qed.

(** The blocks of the program over a whole message give the digest of the
    standard. *)
Lemma blocks_digest_fips message : Forall byte message -> blocks_digest message = Fips180.sha256 message.
Proof.
  intros Hm. unfold blocks_digest, Fips180.sha256, Fips180.hash, print_digest. cbv zeta.
  assert (Hp : Forall byte (message ++ padding (length message))).
  { apply Forall_app. split; [done|]. unfold padding. rewrite length_bytes_places. constructor; [unfold byte; lia|].
    apply Forall_app. split; [|apply places_bytes]. apply Forall_replicate. unfold byte. lia. }
  destruct (padding_length (length message)) as [count Hc].
  assert (Hl : length (message ++ padding (length message)) = (64 * count)%nat) by (rewrite length_app; lia).
  rewrite Hl, (Nat.mul_comm 64), Nat.div_mul by lia. rewrite iterate_blocks_fips, (proj2 round_constants_derived); [|done|done|apply initial_hash_state].
  rewrite padding_fips. do 2 f_equal. rewrite <- padding_fips, Hl, (Nat.mul_comm 64), Nat.div_mul by lia.
  apply map_ext. apply hex_word_places.
Qed.

(** ** The digest of a stream of reads *)

Fixpoint update_all (s : Sha256Stream) (reads : list (list Z)) : option Sha256Stream :=
  match reads with
  | [] => Some s
  | d :: reads => s ← sha256_update s d; update_all s reads
  end.

Lemma update_too_long s m d :
  represents s m -> u64_max < Z.of_nat (length (m ++ d)) -> sha256_update s d = None.
Proof.
  intros (_ & _ & _ & Ht & _) H. rewrite update_unfold, Ht. rewrite length_app in H.
  destruct (Z.ltb_spec (u64_max - Z.of_nat (length m)) (Z.of_nat (length d))); [done|lia].
Qed.

Lemma update_all_represents reads s m :
  represents s m ->
  (Z.of_nat (length (m ++ List.concat reads)) <= u64_max /\
   exists s', update_all s reads = Some s' /\ represents s' (m ++ List.concat reads)) \/
  (u64_max < Z.of_nat (length (m ++ List.concat reads)) /\ update_all s reads = None).
Proof.
  revert s m; induction reads as [|d reads IH]; intros s m H; cbn [update_all List.concat].
  - rewrite app_nil_r. left. split; [apply H|by exists s].
  - destruct (Z.le_gt_cases (Z.of_nat (length (m ++ d))) u64_max) as [Hfit|Hbig].
    + destruct (update_represents s m d H Hfit) as (s1 & -> & H1). cbn.
      destruct (IH s1 (m ++ d) H1) as [(? & s2 & ? & ?)|[? ?]]; rewrite app_assoc; eauto 6.
    + right. rewrite (update_too_long s m d H) by lia. split; [|done]. rewrite !length_app in *. lia.
Qed.

(** The digest of a message, of any cut of it into reads. *)
Lemma finish_too_long s m :
  represents s m -> u64_max / 8 < Z.of_nat (length m) -> sha256_finish s = None.
Proof.
  intros (_ & _ & _ & Ht & _) H. unfold sha256_finish. rewrite Ht.
  by destruct (Z.ltb_spec (u64_max / 8) (Z.of_nat (length m))); [|lia].
Qed.

Lemma concat_fits reads :
  (s ← update_all new_stream reads; sha256_finish s) =
  if Z.of_nat (length (List.concat reads)) <=? u64_max / 8 then Some (blocks_digest (List.concat reads)) else None.
Proof.
  pose proof (update_all_represents reads new_stream [] new_stream_represents) as H. cbn [app] in H.
  change (u64_max / 8) with 2305843009213693951 in *.
  destruct (Z.leb_spec (Z.of_nat (length (List.concat reads))) 2305843009213693951) as [Hle|Hgt];
    destruct H as [(_ & s & -> & Hs)|[? ->]]; try done; try lia.
  - by apply finish_reference.
  - by apply (finish_too_long s (List.concat reads)).
Qed.

(** C25. However a message of bytes is cut into reads, the streaming code computes
    the SHA-256 of FIPS 180-4 of the whole message, as the standard defines it
    (its functions bit by bit, its constants, schedule, rounds and padding); it
    fails exactly when the length in bits does not fit 64 bits. *)
Theorem streamed_digest_is_sha256 reads :
  Forall byte (List.concat reads) ->
  (s ← update_all new_stream reads; sha256_finish s) =
  if Z.of_nat (length (List.concat reads)) <=? u64_max / 8
  then Some (Fips180.sha256 (List.concat reads)) else None.
Proof. intros Hb. by rewrite concat_fits, blocks_digest_fips. Qed.

Lemma streamed_digest_is_sha256_witness :
  (s ← update_all new_stream [[97]; [98; 99]]; sha256_finish s) = Some (Fips180.sha256 [97; 98; 99]).
Proof.
  apply (streamed_digest_is_sha256 [[97]; [98; 99]]). unfold byte. cbn.
  repeat (apply Forall_cons_2; [lia|]). apply Forall_nil. exact I.
Defined.

(** ** The text of a digest *)

Lemma hex_char_lower n : 0 <= n < 16 -> is_lower_hex (hex_char n) = true.
Proof.
  intros H. unfold is_lower_hex, in_range, char_code, hex_char.
  destruct (Z.ltb_spec n 10); rewrite N_ascii_embedding by lia; apply orb_true_iff; rewrite !andb_true_iff, !Z.leb_le, Z2N.id by lia; lia.
Qed.

Lemma hex_word_lower value : forallb is_lower_hex (hex_word value) = true.
Proof.
  apply forallb_Forall. unfold hex_word. apply Forall_map, Forall_forall. intros i _.
  apply hex_char_lower, Z.mod_pos_bound. lia.
Qed.

Lemma string_of_list_length l : String.length (string_of_list_ascii l) = length l.
Proof. induction l as [|c l IH]; cbn; congruence. Qed.

Lemma print_digest_lower state :
  all_chars is_lower_hex (print_digest state) = true /\ String.length (print_digest state) = (8 * length state)%nat.
Proof.
  unfold print_digest, all_chars. rewrite string_of_list_length, list_ascii_of_string_of_list_ascii.
  induction state as [|w state [IH1 IH2]]; [done|]. cbn [map List.concat]. rewrite forallb_app, IH1, hex_word_lower.
  split; [done|]. rewrite length_app, IH2. unfold hex_word. rewrite length_map, length_seq. cbn [Datatypes.length]. lia.
Qed.

Lemma process_block_length block state : length (process_block block state) = 8%nat.
Proof. unfold process_block. by destruct (fold_left round _ _). Qed.

(** Every digest is 64 lower-case hex digits. *)
Lemma sha256_text_lower text digest : sha256_text text = Some digest ->
  all_chars is_lower_hex digest = true /\ String.length digest = 64%nat.
Proof.
  unfold sha256_text, sha256_bytes. destruct (sha256_update _ _) as [s|]; [|done]. cbn [mbind option_bind].
  unfold sha256_finish. generalize process_block_length. generalize process_block as compress. intros compress Hlen.
  destruct (_ <? _); [done|]. cbv zeta. destruct (if Nat.ltb _ _ then _ else _) as [[block buffered] state].
  intros H. injection H as <-. destruct (print_digest_lower (compress (copy_into (copy_into block buffered
    (replicate (64 - buffered) 0)) 56 (length_bytes (st_total_bytes s *64 8))) state)) as [H1 H2].
  split; [exact H1|]. by rewrite H2, Hlen.
Qed.

(** ** Files *)

(** The bytes the reads deliver before the end of the file. *)
Fixpoint delivered (reads : list ReadOutcome) : list Z :=
  match reads with
  | ReadBytes bytes :: reads => if Nat.eqb (length bytes) 0 then [] else bytes ++ delivered reads
  | _ => []
  end.

Lemma read_handle_represents maximum_bytes reads s m s' :
  represents s m -> Z.of_nat (length m) <= maximum_bytes ->
  read_handle maximum_bytes reads s = inr s' ->
  represents s' (m ++ delivered reads) /\ Z.of_nat (length (m ++ delivered reads)) <= maximum_bytes.
Proof.
  revert s m; induction reads as [|[bytes|] reads IH]; intros s m Hs Hm; cbn [read_handle delivered].
  - intros [= <-]. by rewrite app_nil_r.
  - destruct (Nat.eqb_spec (length bytes) 0); [intros [= <-]; by rewrite app_nil_r|].
    unfold exceeds_limit. destruct Hs as (? & ? & ? & Ht & ?) eqn:E; clear E. rewrite Ht.
    destruct (Z.ltb_spec maximum_bytes (Z.of_nat (length bytes))); [done|].
    destruct (Z.ltb_spec (maximum_bytes - Z.of_nat (length bytes)) (Z.of_nat (length m))); [done|]. cbn [orb].
    destruct (sha256_update s bytes) as [s1|] eqn:Eu; [|done]. intros Hr.
    assert (Hl : Z.of_nat (length (m ++ bytes)) <= maximum_bytes) by (rewrite length_app; lia).
    rewrite app_assoc. apply (IH s1); [|done|done].
    destruct (Z.le_gt_cases (Z.of_nat (length (m ++ bytes))) u64_max) as [Hfit|Hbig].
    + destruct (update_represents s m bytes ltac:(done) Hfit) as (s2 & E2 & ?). congruence.
    + rewrite (update_too_long s m bytes) in Eu by (done || lia). done.
  - done.
Qed.

Lemma finish_handle_digest maximum_bytes reads d :
  0 <= maximum_bytes ->
  finish_handle (read_handle maximum_bytes reads new_stream) = Digest d ->
  Z.of_nat (length (delivered reads)) <= maximum_bytes /\ d = blocks_digest (delivered reads).
Proof.
  intros H0. destruct (read_handle _ _ _) as [e|s] eqn:E; cbn [finish_handle].
  { intros ->. clear H0. exfalso. revert E. generalize new_stream.
    induction reads as [|[bytes|] reads IH]; intros s; cbn [read_handle]; [done| |done].
    destruct (Nat.eqb _ 0); [done|]. destruct (exceeds_limit _ _ _); [done|].
    destruct (sha256_update _ _); [apply IH|done]. }
  destruct (read_handle_represents maximum_bytes reads new_stream [] s new_stream_represents H0 E) as [Hs Hl].
  cbn [app] in *. unfold finish_result. destruct (sha256_finish s) as [d'|] eqn:Ef; [|done]. intros [= <-].
  split; [done|]. destruct (Z.le_gt_cases (Z.of_nat (length (delivered reads))) (u64_max / 8)) as [Hle|Hgt].
  - rewrite (finish_reference s _ Hs Hle) in Ef. congruence.
  - by rewrite (finish_too_long s _ Hs) in Ef by lia.
Qed.

(** *** What the checks establish, on Windows *)

(** The extended form of a path, by its three cases. *)
Inductive extended_form : list Z -> list Z -> Prop :=
| extended_already rest : extended_form ([92; 92; 63; 92] ++ rest) ([92; 92; 63; 92] ++ rest)
| extended_server rest :
    take 2 rest <> [63; 92] -> extended_form ([92; 92] ++ rest) ([92; 92; 63; 92; 85; 78; 67; 92] ++ rest)
| extended_plain path : take 2 path <> [92; 92] -> extended_form path ([92; 92; 63; 92] ++ path).

Lemma starts_with_spec prefix path : starts_with prefix path = true <-> path = prefix ++ drop (length prefix) path.
Proof.
  unfold starts_with. rewrite bool_decide_eq_true. split.
  - intros H. rewrite <- H at 1. by rewrite take_drop.
  - intros ->. by rewrite take_app_length.
Qed.

Lemma with_extended_prefix_form path : extended_form path (with_extended_prefix path).
Proof.
  unfold with_extended_prefix. destruct (starts_with extended_prefix path) eqn:E1.
  - apply starts_with_spec in E1. rewrite E1. apply extended_already.
  - destruct (starts_with [backslash; backslash] path) eqn:E2.
    + apply starts_with_spec in E2. rewrite E2 in E1 |- *. cbn [length drop app] in *. apply extended_server.
      intros H. apply not_true_iff_false in E1. apply E1. apply starts_with_spec. cbn [length extended_prefix] in *.
      cbn [app drop]. set (rest := drop 2 path) in *. clearbody rest. destruct rest as [|x [|y rest]]; try done.
      cbn in H. injection H as -> ->. done.
    + apply extended_plain. intros H. unfold starts_with in E2. apply bool_decide_eq_false in E2. by apply E2.
Qed.

(** A directory that is no reparse point, opened under the very path that was
    asked for; [final] is its path. *)
Definition real_root (ordinal_equal_ci : list Z -> list Z -> bool) (files : WindowsFiles) (final : list Z) : Prop :=
  exists root info full long extended,
    wf_root files = Some root /\ wh_information root = Some info /\
    fi_reparse_point info = false /\ fi_directory info = true /\
    path_of_call (wh_final root) = Some final /\
    path_of_call (wf_root_full files) = Some full /\ path_of_call (wf_root_long files full) = Some long /\
    extended_form long extended /\ length final = length extended /\ ordinal_equal_ci final extended = true.

Lemma trusted_root_real ordinal_equal_ci files root final :
  wf_root files = Some root -> trusted_root_final ordinal_equal_ci files root = Some final ->
  real_root ordinal_equal_ci files final.
Proof.
  intros Hroot. unfold trusted_root_final, real_root. destruct (wh_information root) as [info|] eqn:Ei; [|done].
  destruct (fi_reparse_point info) eqn:Er, (fi_directory info) eqn:Ed; cbn [orb negb]; try done.
  destruct (final_path_from_handle root) as [f|] eqn:Ef; [|done]. cbn [mbind option_bind].
  destruct (full_input_path files) as [full|] eqn:Efull; [|done]. cbn [mbind option_bind].
  destruct (long_input_path files full) as [long|] eqn:Elong; [|done]. cbn [mbind option_bind].
  destruct (equal_path_ci _ f _) eqn:Eq; [|done]. intros [= <-]. apply andb_prop in Eq as [Hl Ho].
  apply Nat.eqb_eq in Hl. exists root, info, full, long, (with_extended_prefix long).
  do 7 (split; [done|]). split; [apply with_extended_prefix_form|done].
Qed.

(** A file, no directory and no reparse point, whose path continues that of the
    root after a separator. *)
Definition real_file_below (ordinal_equal_ci : list Z -> list Z -> bool) (files : WindowsFiles) (root_final : list Z) : Prop :=
  exists evidence info first separator rest,
    wf_evidence files = Some evidence /\ wh_information evidence = Some info /\
    fi_reparse_point info = false /\ fi_directory info = false /\
    path_of_call (wh_final evidence) = Some (first ++ separator :: rest) /\
    length first = length root_final /\ ordinal_equal_ci root_final first = true /\
    (separator = 92 \/ separator = 47).

Lemma descendant_split ordinal_equal_ci root final :
  final_path_is_descendant ordinal_equal_ci root final = true ->
  exists first separator rest, final = first ++ separator :: rest /\ length first = length root /\
    ordinal_equal_ci root first = true /\ (separator = 92 \/ separator = 47).
Proof.
  unfold final_path_is_descendant. destruct (Nat.leb_spec (length final) (length root)) as [|Hlen]; [done|]. cbn [orb].
  destruct (ordinal_equal_ci root _) eqn:Eo; [|done]. cbn [negb]. intros E.
  exists (take (length root) final), (nth (length root) final 0), (drop (S (length root)) final).
  rewrite length_take, Nat.min_l by lia. split_and!; [|done|done|].
  - symmetry. rewrite <- (take_drop (length root) final) at 4. f_equal.
    rewrite <- (drop_S final (nth (length root) final 0)); [done|].
    destruct (nth_lookup_or_length final (length root) 0); [done|lia].
  - apply orb_true_iff in E as [E|E]; apply Z.eqb_eq in E; auto.
Qed.

Lemma trusted_evidence_real ordinal_equal_ci files root_final evidence :
  wf_evidence files = Some evidence -> trusted_evidence ordinal_equal_ci root_final evidence = true ->
  real_file_below ordinal_equal_ci files root_final.
Proof.
  intros He. unfold trusted_evidence, real_file_below. destruct (wh_information evidence) as [info|] eqn:Ei; [|done].
  destruct (fi_reparse_point info) eqn:Er, (fi_directory info) eqn:Ed; cbn [orb negb andb]; try done.
  destruct (final_path_from_handle evidence) as [final|] eqn:Ef; [|done].
  intros (first & separator & rest & -> & H)%descendant_split. by exists evidence, info, first, separator, rest.
Qed.

(** *** On POSIX

    A file reached from the root by opening plain names one below the other. *)
Inductive reached {Fd : Type} (fstat_kind : Fd -> option FileKind) (openat : Fd -> string -> bool -> option Fd) :
    Fd -> list string -> Fd -> Prop :=
| reached_file dir name file :
    plain_component name = true -> openat dir name false = Some file ->
    fstat_kind file = Some RegularFile -> reached fstat_kind openat dir [name] file
| reached_directory dir name sub names file :
    plain_component name = true -> openat dir name true = Some sub ->
    fstat_kind sub = Some Directory -> names <> [] -> reached fstat_kind openat sub names file ->
    reached fstat_kind openat dir (name :: names) file.

Lemma walk_reached {Fd} fstat_kind openat (dir : Fd) names file :
  names <> [] -> forallb plain_component names = true ->
  walk fstat_kind openat dir names = Some file -> reached fstat_kind openat dir names file.
Proof.
  revert dir; induction names as [|name names IH]; intros dir Hne Hp; [done|].
  cbn [forallb] in Hp. apply andb_true_iff in Hp as [Hn Hp]. cbn [walk].
  destruct names as [|next names].
  - cbn [negb]. destruct (openat dir name false) as [fd|] eqn:Eo; [|done].
    unfold has_kind. destruct (fstat_kind fd) as [[| |]|] eqn:Ek; try done. cbn. intros [= <-].
    by apply reached_file.
  - cbn [negb]. destruct (openat dir name true) as [fd|] eqn:Eo; [|done].
    unfold has_kind. destruct (fstat_kind fd) as [[| |]|] eqn:Ek; try done. intros Hw.
    apply (reached_directory _ _ _ _ fd); [done..|]. by apply IH.
Qed.

(** A name relative to a root without dots is what follows the root. *)
Lemma mismatch_split a b x y : mismatch a b = (x, y) -> exists common, a = common ++ x /\ b = common ++ y.
Proof.
  revert b; induction a as [|c a IH]; intros b; cbn [mismatch].
  - intros [= <- <-]. by exists [].
  - destruct b as [|d b]; [intros [= <- <-]; by exists []|].
    destruct (String.eqb_spec c d) as [->|]; [|intros [= <- <-]; by exists []].
    intros (common & -> & ->)%IH. by exists (d :: common).
Qed.

Definition plain_or_empty (e : string) : Prop := e <> "."%string /\ e <> ".."%string.

Lemma base_depth_empty rest :
  Forall plain_or_empty rest ->
  0 <= base_depth rest /\ (base_depth rest = 0 -> Forall (fun e => e = ""%string) rest).
Proof.
  induction 1 as [|e rest [H1 H2] Hs [IH0 IH]]; [done|]. unfold base_depth in *. cbn [fold_right].
  destruct (String.eqb_spec e "") as [->|]; [split; [done|by constructor; auto]|].
  destruct (String.eqb_spec e "."); [done|]. destruct (String.eqb_spec e ".."); [done|]. cbn [orb]. lia.
Qed.

Lemma plain_relative root candidate names :
  Forall plain_or_empty root -> lexically_relative candidate root = names -> names <> [] ->
  forallb plain_component names = true ->
  exists above trailing, root = above ++ trailing /\ Forall (fun e => e = ""%string) trailing /\ candidate = above ++ names.
Proof.
  intros Hroot. unfold lexically_relative. destruct (mismatch candidate root) as [a b] eqn:E.
  destruct (mismatch_split _ _ _ _ E) as (common & -> & ->). apply Forall_app in Hroot as [_ Hb].
  destruct (base_depth_empty b Hb) as [H0 Hempty]. clear E.
  assert (Hdot : plain_component "." = false) by done.
  assert (Hup : forall n l, forallb plain_component (replicate (S n) ".."%string ++ l) = true -> False) by done.
  assert (Hgen : forall names', names' =
    (if base_depth b <? 0 then [] else
     if (base_depth b =? 0) && match a with [] => true | e :: _ => String.eqb e "" end then ["."%string]
     else replicate (Z.to_nat (base_depth b)) ".."%string ++ a) -> names' <> [] -> forallb plain_component names' = true ->
    base_depth b = 0 /\ names' = a).
  { intros names' -> Hne Hp. destruct (Z.ltb_spec (base_depth b) 0); [done|].
    destruct (Z.eqb_spec (base_depth b) 0) as [Ez|Ez].
    - cbn [andb] in Hp |- *. destruct a as [|x a]; [by cbn in Hp|]. destruct (String.eqb x ""); [by cbn in Hp|].
      split; [done|]. by rewrite Ez.
    - cbn [andb] in Hp. destruct (Z.to_nat (base_depth b)) eqn:En; [lia|]. by apply Hup in Hp. }
  intros <- Hne Hp. destruct a as [|x a], b as [|y b]; try (by cbn in Hp);
    destruct (Hgen _ eq_refl Hne Hp) as [Hz ->]; eauto 10.
Qed.

(** ** One call for both systems *)

(** [sha256_trusted_regular_file_bounded]: the answers of the one or the other
    system. *)
Inductive TrustedCall :=
| WindowsCall (ordinal_equal_ci : list Z -> list Z -> bool) (files : WindowsFiles)
| PosixCall {Fd : Type} (open_root : list string -> option Fd) (fstat_kind : Fd -> option FileKind)
    (openat : Fd -> string -> bool -> option Fd) (reads_of : Fd -> list ReadOutcome)
    (root candidate : option (list string)).

Definition sha256_trusted_regular_file_bounded (call : TrustedCall) (maximum_bytes : Z) : HashResult :=
  match call with
  | WindowsCall ordinal_equal_ci files => sha256_windows_trusted_handle ordinal_equal_ci files maximum_bytes
  | PosixCall open_root fstat_kind openat reads_of root candidate =>
      sha256_posix_trusted_handle open_root fstat_kind openat reads_of root candidate maximum_bytes
  end.

(** [content] was read from a real file below a real root.  The paths of a POSIX
    call are normal, so they have no dots. *)
Definition contained (call : TrustedCall) (content : list Z) : Prop :=
  match call with
  | WindowsCall ordinal_equal_ci files =>
      (exists root_final, real_root ordinal_equal_ci files root_final /\
         real_file_below ordinal_equal_ci files root_final) /\
      content = delivered (wf_reads files)
  | PosixCall open_root fstat_kind openat reads_of root candidate =>
      exists root_path path names dir file,
        root = Some root_path /\ candidate = Some path /\
        (Forall plain_or_empty root_path ->
         exists above trailing, root_path = above ++ trailing /\ Forall (fun e => e = ""%string) trailing /\
           path = above ++ names) /\
        open_root root_path = Some dir /\ fstat_kind dir = Some Directory /\
        reached fstat_kind openat dir names file /\ content = delivered (reads_of file)
  end.

(** C31. On Windows and on POSIX, a digest of a trusted file is given only when the
    root is a real directory (on Windows no reparse point, and opened under the
    path that was asked for), the file is a regular file strictly below it (on
    Windows by its final path, on POSIX reached by opening plain names one below
    the other, none a link) and its content is within the limit; the digest is the
    SHA-256 of the bytes that were read. *)
Theorem trusted_digest_is_contained call maximum_bytes d :
  0 <= maximum_bytes ->
  sha256_trusted_regular_file_bounded call maximum_bytes = Digest d ->
  exists content, contained call content /\ Z.of_nat (length content) <= maximum_bytes /\
    (Forall byte content -> d = Fips180.sha256 content).
Proof.
  intros H0. destruct call as [ordinal_equal_ci files|Fd open_root fstat_kind openat reads_of root candidate];
    cbn [sha256_trusted_regular_file_bounded contained].
  - unfold sha256_windows_trusted_handle. destruct (wf_root files) as [root|] eqn:Hroot; [|done].
    destruct (trusted_root_final _ files root) as [root_final|] eqn:Ert; [|done].
    destruct (wf_evidence files) as [evidence|] eqn:He; [|done].
    destruct (trusted_evidence _ root_final evidence) eqn:Ete; [|done]. cbn [negb]. intros Hd.
    destruct (finish_handle_digest _ _ _ H0 Hd) as [Hl ->]. eexists. split; [|split; [exact Hl|apply blocks_digest_fips]].
    split; [|done]. exists root_final.
    split; [by apply (trusted_root_real _ _ root)|by apply (trusted_evidence_real _ _ _ evidence)].
  - unfold sha256_posix_trusted_handle. destruct root as [root|], candidate as [candidate|]; try done.
    cbv zeta. set (names := lexically_relative candidate root).
    destruct (decide (names = [])) as [En|En]; [by rewrite bool_decide_true|]. rewrite bool_decide_false by done.
    destruct (bool_decide (names = _)); [done|]. destruct (forallb plain_component names) eqn:Ep; [|done]. cbn [orb negb].
    destruct (open_root root) as [dir|] eqn:Eo; [|done]. unfold has_kind at 1.
    destruct (fstat_kind dir) as [[| |]|] eqn:Ek; try done. cbn [negb].
    destruct (walk _ _ dir names) as [file|] eqn:Ew; [|done]. intros Hd.
    destruct (finish_handle_digest _ _ _ H0 Hd) as [Hl ->]. eexists. split; [|split; [exact Hl|apply blocks_digest_fips]].
    exists root, candidate, names, dir, file. do 2 (split; [done|]). split; [|split_and!; try done; by apply walk_reached].
    intros Hr. by apply plain_relative.
Qed.

(** Code units compared exactly, a case-sensitive comparison. *)
Definition exact_units (a b : list Z) : bool := bool_decide (a = b).

Definition units (text : string) : list Z := map char_code (list_ascii_of_string text).

Definition path_result (path : list Z) : PathCall :=
  mkPathCall (Z.of_nat (length path) + 1) (Z.of_nat (length path)) path.

(** The directory [\\?\C:\e] with the file [a] in it, read in two pieces. *)
Definition sample_files : WindowsFiles :=
  mkWindowsFiles
    (Some (mkWindowsHandle (Some (mkFileInformation false true)) (path_result (units "\\?\C:\e"))))
    (path_result (units "C:\e")) (fun _ => path_result (units "C:\e"))
    (Some (mkWindowsHandle (Some (mkFileInformation false false)) (path_result (units "\\?\C:\e\a"))))
    [ReadBytes (units "ab"); ReadBytes (units "c"); ReadBytes []].

Abbreviation sample_digest :=
  "ba7816bf8f01cfea414140de5dae2223b00361a396177a9cb410ff61f20015ad"%string (only parsing).

Lemma sample_hashes : sha256_windows_trusted_handle exact_units sample_files 3 = Digest sample_digest.
Proof. vm_compute. reflexivity. Qed.

(** A smaller limit, and a path that only shares a prefix with the root. *)
Example sample_too_large : sha256_windows_trusted_handle exact_units sample_files 2 = too_large.
Proof. vm_compute. reflexivity. Qed.

Example sibling_is_not_below :
  final_path_is_descendant exact_units (units "\\?\C:\e") (units "\\?\C:\evil\a") = false.
Proof. vm_compute. reflexivity. Qed.

Lemma trusted_digest_is_contained_witness :
  exists content, contained (WindowsCall exact_units sample_files) content /\
    (Forall byte content -> sample_digest = Fips180.sha256 content).
Proof.
  destruct (trusted_digest_is_contained (WindowsCall exact_units sample_files) 3 sample_digest ltac:(lia) sample_hashes)
    as (content & H & _ & Hd). exists content. split; [exact H|exact Hd].
Defined.

(** The digest of the standard is not unfolded in proofs from here on. *)
#[global] Opaque Fips180.sha256.

End Sha256.
