(* ===== verification/FlatJson.v ===== *)
(** * The flat JSON reader

    [src/benchmark/flat_json.cpp]: the parser of one JSON object whose values
    are strings, numbers or booleans, and the bounded read of a manifest file;
    with [json_escape] of [src/telemetry/telemetry_jsonl.cpp] and the printing
    of fields in [serialize] of [src/benchmark/kernel_benchmark_manifest.cpp].

    A position in the text is the list of characters that are left.
    [std::map] is a [gmap]; where the source iterates over one, in the order
    of its keys, the entries are sorted. *)

From S2P Require Import Prelude.
From stdpp Require Import sorting.
From Stdlib Require Import Ascii String.

Open Scope Z_scope.

Module FlatJson.

Abbreviation length := List.length (only parsing).

(** [FlatJsonValue]. *)
Inductive Kind := StringKind | NumberKind | BooleanKind.

Record FlatJsonValue := mkValue { fv_text : string; fv_kind : Kind }.

Record FlatJsonResult := mkResult {
  fr_ok : bool;
  fr_fields : gmap string FlatJsonValue;
  fr_error : string;
}.

Definition fail (error : string) : FlatJsonResult := mkResult false ∅ error.

Definition malformed : FlatJsonResult := fail "manifest_json_malformed".

(** ** Characters *)

Definition quote : ascii := "034".
Definition backslash : ascii := "092".
Definition newline : ascii := "010".
Definition carriage_return : ascii := "013".
Definition tab : ascii := "009".

(** ** Parsing *)

(** [skip_ws] is [skip_space] of the prelude. *)
Definition skip_ws (json : list ascii) : list ascii := skip_space json.

(** The character an escape stands for. *)
Definition unescape (escaped : ascii) : option ascii :=
  if Ascii.eqb escaped quote || Ascii.eqb escaped backslash || Ascii.eqb escaped "/" then Some escaped
  else if Ascii.eqb escaped "n" then Some newline
  else if Ascii.eqb escaped "r" then Some carriage_return
  else if Ascii.eqb escaped "t" then Some tab
  else None.

(** The loop of [parse_json_string] after the opening quote; [parsed] is in
    order. *)
Fixpoint parse_string_body (json parsed : list ascii) : option (list ascii * list ascii) :=
  match json with
  | [] => None
  | ch :: json =>
      if Ascii.eqb ch quote then Some (parsed, json)
      else if char_code ch <? 32 then None
      else if Ascii.eqb ch backslash then
        match json with
        | [] => None
        | escaped :: json =>
            match unescape escaped with
            | None => None
            | Some c => parse_string_body json (parsed ++ [c])
            end
        end
      else parse_string_body json (parsed ++ [ch])
  end.

Definition parse_json_string (json : list ascii) : option (string * list ascii) :=
  match skip_ws json with
  | [] => None
  | ch :: json =>
      if negb (Ascii.eqb ch quote) then None
      else match parse_string_body json [] with
           | None => None
           | Some (parsed, rest) => Some (string_of_list_ascii parsed, rest)
           end
  end.

(** [json.compare(position, n, word) == 0]. *)
Definition starts_with (word json : list ascii) : bool := bool_decide (take (length word) json = word).

Definition true_word : list ascii := list_ascii_of_string "true".
Definition false_word : list ascii := list_ascii_of_string "false".

(** A character of a number token. *)
Definition literal_char (ch : ascii) : bool :=
  negb (Ascii.eqb ch "," || Ascii.eqb ch "}" || is_space ch).

Definition parse_json_literal (json : list ascii) : option (FlatJsonValue * list ascii) :=
  match skip_ws json with
  | [] => None
  | (ch :: _) as json =>
      if Ascii.eqb ch quote then
        match parse_json_string json with
        | None => None
        | Some (text, rest) => Some (mkValue text StringKind, rest)
        end
      else if starts_with true_word json then Some (mkValue "true" BooleanKind, drop 4 json)
      else if starts_with false_word json then Some (mkValue "false" BooleanKind, drop 5 json)
      else if Ascii.eqb ch "{" || Ascii.eqb ch "[" then None
      else
        let (token, rest) := span literal_char json in
        match token with
        | [] => None
        | _ => Some (mkValue (string_of_list_ascii token) NumberKind, rest)
        end
  end.

(** The end of the object: only white space may follow. *)
Definition close_object (fields : gmap string FlatJsonValue) (rest : list ascii) : FlatJsonResult :=
  match skip_ws rest with
  | [] => mkResult true fields ""
  | _ => mkResult false fields "manifest_json_malformed"
  end.

(** The loop over the fields.  Every round consumes a key, so the length of
    the text is enough fuel. *)
Fixpoint parse_fields (fuel : nat) (json : list ascii) (fields : gmap string FlatJsonValue) : FlatJsonResult :=
  match fuel, json with
  | O, _ | _, [] => malformed
  | S fuel, _ =>
      match parse_json_string json with
      | None => malformed
      | Some (key, rest) =>
      match skip_ws rest with
      | [] => malformed
      | colon :: rest =>
      if negb (Ascii.eqb colon ":") then malformed
      else
      match parse_json_literal rest with
      | None => malformed
      | Some (value, rest) =>
      match fields !! key with
      | Some _ => fail ("duplicate_field:" +:+ key)
      | None =>
      let fields := <[key := value]> fields in
      match skip_ws rest with
      | [] => malformed
      | ch :: rest =>
          if Ascii.eqb ch "}" then close_object fields rest
          else if negb (Ascii.eqb ch ",") then malformed
          else parse_fields fuel rest fields
      end end end end end
  end.

Definition parse_flat_json_object (json : list ascii) : FlatJsonResult :=
  match skip_ws json with
  | [] => malformed
  | ch :: rest =>
      if negb (Ascii.eqb ch "{") then malformed
      else match skip_ws rest with
           | c :: rest' => if Ascii.eqb c "}" then close_object ∅ rest'
                           else parse_fields (length json) (c :: rest') ∅
           | [] => malformed
           end
  end.

(** ** Printing *)

Definition escape_char (c : ascii) : list ascii :=
  if Ascii.eqb c backslash then [backslash; backslash]
  else if Ascii.eqb c quote then [backslash; quote]
  else if Ascii.eqb c newline then [backslash; "n"%char]
  else if Ascii.eqb c carriage_return then [backslash; "r"%char]
  else if Ascii.eqb c tab then [backslash; "t"%char]
  else [c].

Definition json_escape (value : string) : list ascii :=
  List.concat (map escape_char (list_ascii_of_string value)).

Definition print_value (value : FlatJsonValue) : list ascii :=
  match fv_kind value with
  | StringKind => quote :: json_escape (fv_text value) ++ [quote]
  | _ => list_ascii_of_string (fv_text value)
  end.

Section Printing.
  (** How a value is printed after the colon. *)
  Context {V : Type} (show : V -> list ascii).

Definition print_field (field : string * V) : list ascii :=
  [" "%char; " "%char; quote] ++ json_escape field.1 ++ [quote; ":"%char] ++ show field.2.

(** A comma after every field but the last. *)
Fixpoint print_fields (fields : list (string * V)) : list ascii :=
  match fields with
  | [] => []
  | [f] => print_field f ++ [newline]
  | f :: fields => print_field f ++ [","%char; newline] ++ print_fields fields
  end.

Definition print_object (fields : list (string * V)) : list ascii :=
  ["{"%char; newline] ++ print_fields fields ++ ["}"%char; newline].

End Printing.

(** [serialize] leaves a space after the colon. *)
Definition print_spaced (value : FlatJsonValue) : list ascii := " "%char :: print_value value.

(** The order of [std::map<std::string, ...>]. *)
Definition key_le (a b : string * FlatJsonValue) : Prop := String.leb a.1 b.1 = true.

#[export] Instance key_le_dec a b : Decision (key_le a b).
Proof. unfold key_le. apply _. Defined.

Definition ordered_fields (fields : gmap string FlatJsonValue) : list (string * FlatJsonValue) :=
  merge_sort key_le (map_to_list fields).

(** The object that [serialize] prints from a map; its caller takes this form
    only for a map that is not empty ([KernelText.serialize]). *)
Definition serialize_fields (fields : gmap string FlatJsonValue) : list ascii :=
  print_object print_spaced (ordered_fields fields).

(** ** Reading a file *)

(** What one [ReadFile]/[read] of at most [request] bytes delivers. *)
Inductive ReadOutcome :=
| ReadBytes (bytes : list ascii)
| ReadFailed.

(** The loop that fills [size] bytes; the end of the list is a read at the end
    of the file, which delivers nothing.  [maximum_request] is [MAXDWORD] on
    Windows and unbounded otherwise. *)
Fixpoint read_content (maximum_request : nat -> nat) (size : nat) (reads : list ReadOutcome) (content : list ascii) :
    option (list ascii) :=
  if Nat.leb size (length content) then Some content
  else match reads with
       | ReadBytes bytes :: reads =>
           let request := maximum_request (size - length content)%nat in
           match take request bytes with
           | [] => None
           | received => read_content maximum_request size reads (content ++ received)
           end
       | _ => None
       end.

(** [BY_HANDLE_FILE_INFORMATION], the fields that are read. *)
Record WindowsInformation := mkWindowsInformation {
  wi_reparse_point : bool;
  wi_directory : bool;
  wi_index_high : Z;
  wi_index_low : Z;
  wi_size_high : Z;
  wi_size_low : Z;
  wi_last_write : Z;
}.

Record WindowsManifest := mkWindowsManifest {
  wm_opened : bool;
  wm_before : option WindowsInformation;
  wm_is_disk : bool;
  wm_reads : list ReadOutcome;
  wm_after : option WindowsInformation;
}.

Definition windows_size (i : WindowsInformation) : Z := Z.lor (Z.shiftl (wi_size_high i) 32) (wi_size_low i).

Definition windows_unchanged (before after : WindowsInformation) : bool :=
  (wi_index_high after =? wi_index_high before) && (wi_index_low after =? wi_index_low before) &&
  (wi_size_high after =? wi_size_high before) && (wi_size_low after =? wi_size_low before) &&
  (wi_last_write after =? wi_last_write before).

Definition max_dword_request (remaining : nat) : nat := Z.to_nat (Z.min (Z.of_nat remaining) u32_max).

Definition read_windows_flat_json_file (file : WindowsManifest) (max_bytes : Z) : FlatJsonResult :=
  if negb (wm_opened file) then fail "manifest_open_failed"
  else match wm_before file with
  | None => fail "manifest_metadata_unavailable"
  | Some before =>
      if negb (wm_is_disk file) || wi_reparse_point before || wi_directory before
      then fail "manifest_not_regular_file"
      else
      let size := windows_size before in
      if (max_bytes <? size) || (u64_max <? size) then fail "manifest_size_exceeds_limit"
      else match read_content max_dword_request (Z.to_nat size) (wm_reads file) [] with
      | None => fail "manifest_read_failed"
      | Some content =>
          match wm_after file with
          | Some after => if windows_unchanged before after then parse_flat_json_object content
                          else fail "manifest_changed_during_read"
          | None => fail "manifest_changed_during_read"
          end
      end
  end.

(** [struct stat], the fields that are read. *)
Record PosixStat := mkPosixStat {
  ps_regular : bool;
  ps_dev : Z;
  ps_ino : Z;
  ps_size : Z;
  ps_mtim_sec : Z;
  ps_mtim_nsec : Z;
}.

Record PosixManifest := mkPosixManifest {
  pm_opened : bool;
  pm_before : option PosixStat;
  pm_reads : list ReadOutcome;
  pm_after : option PosixStat;
}.

Definition posix_unchanged (before after : PosixStat) : bool :=
  (ps_dev after =? ps_dev before) && (ps_ino after =? ps_ino before) && (ps_size after =? ps_size before) &&
  (ps_mtim_sec after =? ps_mtim_sec before) && (ps_mtim_nsec after =? ps_mtim_nsec before).

Definition read_posix_flat_json_file (file : PosixManifest) (max_bytes : Z) : FlatJsonResult :=
  if negb (pm_opened file) then fail "manifest_open_failed"
  else match pm_before file with
  | None => fail "manifest_metadata_unavailable"
  | Some before =>
      if negb (ps_regular before) || (ps_size before <? 0) then fail "manifest_not_regular_file"
      else
      let size := ps_size before in
      if (max_bytes <? size) || (u64_max <? size) then fail "manifest_size_exceeds_limit"
      else match read_content id (Z.to_nat size) (pm_reads file) [] with
      | None => fail "manifest_read_failed"
      | Some content =>
          match pm_after file with
          | Some after => if posix_unchanged before after then parse_flat_json_object content
                          else fail "manifest_changed_during_read"
          | None => fail "manifest_changed_during_read"
          end
      end
  end.

(** [read_flat_json_file], compiled for either platform. *)
Inductive ManifestFile :=
| OnWindows (file : WindowsManifest)
| OnPosix (file : PosixManifest).

Definition read_flat_json_file (file : ManifestFile) (max_bytes : Z) : FlatJsonResult :=
  match file with
  | OnWindows file => read_windows_flat_json_file file max_bytes
  | OnPosix file => read_posix_flat_json_file file max_bytes
  end.

(** ** Well-formed fields

    The values the parser can produce: strings without control characters
    other than the three that have an escape, one-token numbers, booleans. *)

Definition string_char (c : ascii) : bool :=
  (32 <=? char_code c) || Ascii.eqb c newline || Ascii.eqb c carriage_return || Ascii.eqb c tab.

Definition string_text (text : string) : bool := forallb string_char (list_ascii_of_string text).

Definition number_token (token : list ascii) : bool :=
  match token with
  | [] => false
  | c :: _ => negb (Ascii.eqb c quote || Ascii.eqb c "{" || Ascii.eqb c "[") &&
              negb (starts_with true_word token) && negb (starts_with false_word token) &&
              forallb literal_char token
  end.

Definition well_formed_value (v : FlatJsonValue) : bool :=
  match fv_kind v with
  | StringKind => string_text (fv_text v)
  | NumberKind => number_token (list_ascii_of_string (fv_text v))
  | BooleanKind => (fv_text v =s "true") || (fv_text v =s "false")
  end.

Definition well_formed_field (key : string) (v : FlatJsonValue) : Prop :=
  string_text key = true /\ well_formed_value v = true.

Definition well_formed_fields (fields : gmap string FlatJsonValue) : Prop := map_Forall well_formed_field fields.

(** ** Printing and parsing a string *)

Lemma skip_ws_cons c l : is_space c = false -> skip_ws (c :: l) = c :: l.
Proof. intros H. unfold skip_ws, skip_space. cbn. by rewrite H. Qed.

Lemma skip_ws_space c l : is_space c = true -> skip_ws (c :: l) = skip_ws l.
Proof. intros H. unfold skip_ws, skip_space. cbn. rewrite H. by destruct (span is_space l). Qed.

Lemma unescape_escape c rest parsed :
  string_char c = true ->
  parse_string_body (escape_char c ++ rest) parsed = parse_string_body rest (parsed ++ [c]).
Proof.
  intros H. unfold escape_char.
  destruct (Ascii.eqb_spec c backslash) as [->|Hb]; [done|].
  destruct (Ascii.eqb_spec c quote) as [->|Hq]; [done|].
  destruct (Ascii.eqb_spec c newline) as [->|Hn]; [done|].
  destruct (Ascii.eqb_spec c carriage_return) as [->|Hc]; [done|].
  destruct (Ascii.eqb_spec c tab) as [->|Ht]; [done|].
  cbn [app parse_string_body]. rewrite (proj2 (Ascii.eqb_neq c quote) Hq), (proj2 (Ascii.eqb_neq c backslash) Hb).
  unfold string_char in H.
  rewrite (proj2 (Ascii.eqb_neq c newline) Hn), (proj2 (Ascii.eqb_neq c carriage_return) Hc),
    (proj2 (Ascii.eqb_neq c tab) Ht), !orb_false_r in H. apply Z.leb_le in H.
  by destruct (Z.ltb_spec (char_code c) 32); [lia|].
Qed.

Lemma parse_escaped l rest parsed :
  forallb string_char l = true ->
  parse_string_body (List.concat (map escape_char l) ++ quote :: rest) parsed = Some (parsed ++ l, rest).
Proof.
  revert parsed; induction l as [|c l IH]; intros parsed H; cbn [map List.concat].
  - by rewrite app_nil_r.
  - cbn [forallb] in H. apply andb_true_iff in H as [Hc Hl].
    rewrite <- app_assoc, unescape_escape, IH, <- app_assoc by done. done.
Qed.

Lemma parse_printed_string text rest :
  string_text text = true ->
  parse_json_string (quote :: json_escape text ++ quote :: rest) = Some (text, rest).
Proof.
  intros H. unfold parse_json_string. rewrite skip_ws_cons by done. cbn [Ascii.eqb].
  unfold json_escape. rewrite parse_escaped by done. cbn.
  by rewrite string_of_list_ascii_of_string.
Qed.

Lemma parse_string_body_chars json parsed text rest :
  forallb string_char parsed = true -> parse_string_body json parsed = Some (text, rest) ->
  forallb string_char text = true.
Proof.
  remember (length json) as n eqn:E. revert json parsed E.
  induction n as [n IH] using lt_wf_ind; intros [|c json] parsed E Hp; cbn [parse_string_body]; [done|].
  cbn [Datatypes.length] in E. assert (Hnext : forall d json', string_char d = true -> (length json' < n)%nat ->
    parse_string_body json' (parsed ++ [d]) = Some (text, rest) -> forallb string_char text = true).
  { intros d json' Hd Hl. apply (IH (length json') Hl json'); [done|]. rewrite forallb_app. cbn. by rewrite Hp, Hd. }
  destruct (Ascii.eqb c quote); [by intros [= <- <-]|].
  destruct (Z.ltb_spec (char_code c) 32); [done|]. destruct (Ascii.eqb c backslash).
  - destruct json as [|e json]; [done|]. destruct (unescape e) as [d|] eqn:Ed; [|done].
    apply Hnext; [|cbn [Datatypes.length] in E; lia]. revert Ed. unfold unescape.
    destruct (Ascii.eqb_spec e quote) as [->|]; [by intros [= <-]|].
    destruct (Ascii.eqb_spec e backslash) as [->|]; [by intros [= <-]|].
    destruct (Ascii.eqb_spec e "/") as [->|]; [by intros [= <-]|]. cbn [orb].
    repeat (destruct (Ascii.eqb _ _); [by intros [= <-]|]). done.
  - apply Hnext; [|lia]. unfold string_char. by rewrite (proj2 (Z.leb_le _ _)) by lia.
Qed.

Lemma parse_json_string_text json text rest :
  parse_json_string json = Some (text, rest) -> string_text text = true.
Proof.
  unfold parse_json_string. destruct (skip_ws json) as [|c l]; [done|]. destruct (negb _); [done|].
  destruct (parse_string_body l []) as [[parsed r]|] eqn:E; [|done]. intros [= <- <-].
  unfold string_text. rewrite list_ascii_of_string_of_list_ascii.
  exact (parse_string_body_chars l [] parsed r eq_refl E).
Qed.

(** ** Printing and parsing a value *)

(** The text after a value in a printed object. *)
Definition ends_value (rest : list ascii) : Prop :=
  match rest with [] => False | c :: _ => literal_char c = false end.

Lemma span_literal token rest :
  forallb literal_char token = true -> ends_value rest -> span literal_char (token ++ rest) = (token, rest).
Proof.
  intros H Hr. induction token as [|c token IH]; cbn [app].
  - destruct rest as [|c rest]; [done|]. cbn in *. by rewrite Hr.
  - cbn [forallb] in H. apply andb_true_iff in H as [Hc Ht]. cbn. rewrite Hc, IH; done.
Qed.

(** A word of literal characters is found in the token or not at all. *)
Lemma starts_with_token word token rest :
  forallb literal_char word = true -> ends_value rest ->
  starts_with word (token ++ rest) = starts_with word token.
Proof.
  intros Hw Hr. unfold starts_with. apply bool_decide_ext.
  destruct (Nat.le_gt_cases (length word) (length token)) as [Hle|Hgt].
  - by rewrite take_app_le.
  - rewrite take_app_ge, (take_ge token) by lia. split; intros H; exfalso.
    + rewrite <- H in Hw. destruct rest as [|c rest]; [done|].
      destruct (length word - length token)%nat as [|k] eqn:E; [lia|].
      rewrite forallb_app in Hw. cbn in Hw, Hr. rewrite Hr in Hw. by rewrite andb_false_r in Hw.
    + rewrite <- H in Hgt. lia.
Qed.

Lemma starts_with_prefix word token rest :
  starts_with word (token ++ rest) = false -> starts_with word token = false.
Proof.
  unfold starts_with. rewrite !bool_decide_eq_false. intros H E. apply H.
  assert ((length word <= length token)%nat) by (rewrite <- E, length_take; lia). by rewrite take_app_le.
Qed.

Lemma number_not_space c token : number_token (c :: token) = true -> is_space c = false.
Proof.
  unfold number_token. intros H. apply andb_true_iff in H as [_ H]. cbn in H. unfold literal_char in H.
  destruct (is_space c); [|done]. by rewrite !orb_true_r in H.
Qed.

Lemma parse_printed_value v rest :
  well_formed_value v = true -> ends_value rest ->
  parse_json_literal (print_value v ++ rest) = Some (v, rest).
Proof.
  destruct v as [text kind]. unfold well_formed_value, print_value. cbn [fv_kind fv_text]. intros H Hr.
  unfold parse_json_literal. destruct kind.
  - cbn [app]. rewrite skip_ws_cons by done. rewrite <- app_assoc. cbn [app].
    by rewrite parse_printed_string.
  - destruct (list_ascii_of_string text) as [|c token] eqn:E; [done|]. cbn [app].
    rewrite skip_ws_cons by (by apply (number_not_space c token)).
    unfold number_token in H. rewrite !andb_true_iff, !negb_true_iff, !orb_false_iff in H.
    destruct H as [[[[[Hq Hb] Hs] Ht] Hf] Hl]. rewrite Hq.
    rewrite (app_comm_cons token rest c).
    rewrite !starts_with_token, Ht, Hf, Hb, Hs by done. cbn [orb]. rewrite span_literal by done.
    rewrite <- E, string_of_list_ascii_of_string. done.
  - apply orb_true_iff in H as [H|H]; apply String.eqb_eq in H; subst text; cbn [list_ascii_of_string app].
    + rewrite skip_ws_cons by done. done.
    + rewrite skip_ws_cons by done. done.
Qed.

Lemma parse_json_literal_well_formed json v rest :
  parse_json_literal json = Some (v, rest) -> well_formed_value v = true.
Proof.
  unfold parse_json_literal. destruct (skip_ws json) as [|c l]; [done|].
  destruct (Ascii.eqb c quote) eqn:Eq.
  { destruct (parse_json_string _) as [[text r]|] eqn:E; [|done]. intros [= <- <-].
    by apply parse_json_string_text in E. }
  destruct (starts_with true_word _) eqn:Et; [by intros [= <- <-]|].
  destruct (starts_with false_word _) eqn:Ef; [by intros [= <- <-]|].
  destruct (Ascii.eqb c "{" || Ascii.eqb c "[") eqn:Eb; [done|].
  pose proof (span_forall literal_char (c :: l)) as Hall. pose proof (span_app literal_char (c :: l)) as Happ.
  destruct (span literal_char (c :: l)) as [[|d token] r]; [done|]. cbn [fst snd] in *. intros [= <- <-].
  unfold well_formed_value. cbn [fv_kind fv_text list_ascii_of_string].
  rewrite list_ascii_of_string_of_list_ascii. rewrite <- Happ in Et, Ef. apply starts_with_prefix in Et, Ef. injection Happ as -> _.
  unfold number_token. rewrite Et, Ef. apply orb_false_iff in Eb as [Eb1 Eb2]. rewrite Eq, Eb1, Eb2.
  cbn [orb negb andb]. by apply forallb_Forall.
Qed.

(** ** Printing and parsing an object *)

Lemma parse_fields_well_formed fuel json fields :
  well_formed_fields fields -> well_formed_fields (fr_fields (parse_fields fuel json fields)).
Proof.
  assert (Hempty : well_formed_fields (∅ : gmap string FlatJsonValue)) by apply map_Forall_empty.
  revert json fields; induction fuel as [|fuel IH]; intros json fields H; [by destruct json|].
  cbn [parse_fields]. destruct json as [|c json]; [done|].
  destruct (parse_json_string (c :: json)) as [[key rest]|] eqn:Ek; [|done].
  destruct (skip_ws rest) as [|colon rest']; [done|]. destruct (negb (Ascii.eqb colon ":")); [done|].
  destruct (parse_json_literal rest') as [[value rest'']|] eqn:Ev; [|done].
  destruct (fields !! key); [done|]. cbv zeta.
  assert (H' : well_formed_fields (<[key := value]> fields)).
  { apply map_Forall_insert_2; [|done]. split; [by apply parse_json_string_text in Ek|].
    by apply parse_json_literal_well_formed in Ev. }
  destruct (skip_ws rest'') as [|ch r]; [done|].
  destruct (Ascii.eqb ch "}"); [unfold close_object; by destruct (skip_ws r)|].
  destruct (negb _); [done|]. by apply IH.
Qed.

Lemma parse_object_well_formed json : well_formed_fields (fr_fields (parse_flat_json_object json)).
Proof.
  assert (Hempty : well_formed_fields (∅ : gmap string FlatJsonValue)) by apply map_Forall_empty.
  unfold parse_flat_json_object. destruct (skip_ws json) as [|c r]; [done|].
  destruct (negb _); [done|]. destruct (skip_ws r) as [|d r']; [done|].
  destruct (Ascii.eqb d "}"); [unfold close_object; by destruct (skip_ws r')|].
  by apply parse_fields_well_formed.
Qed.

(** The parser reads back a value as it was shown. *)
Definition shown (show : FlatJsonValue -> list ascii) (value : FlatJsonValue) : Prop :=
  forall rest, ends_value rest -> parse_json_literal (show value ++ rest) = Some (value, rest).

Lemma printed_shown value : well_formed_value value = true -> shown print_value value.
Proof. intros H rest Hr. by apply parse_printed_value. Qed.

Lemma spaced_shown value : well_formed_value value = true -> shown print_spaced value.
Proof.
  intros H rest Hr. rewrite <- (parse_printed_value value rest H Hr). unfold parse_json_literal, print_spaced.
  cbn [app]. by rewrite (skip_ws_space " ").
Qed.

(** One field of a printed object, with what follows it. *)
Lemma parse_printed_field show fuel key value rest fields :
  string_text key = true -> shown show value -> ends_value rest -> fields !! key = None ->
  parse_fields (S fuel) (print_field show (key, value) ++ rest) fields =
  let fields := <[key := value]> fields in
  match skip_ws rest with
  | [] => malformed
  | ch :: rest => if Ascii.eqb ch "}" then close_object fields rest
                  else if negb (Ascii.eqb ch ",") then malformed else parse_fields fuel rest fields
  end.
Proof.
  intros Hk Hv Hr Hf. unfold print_field. cbn [fst snd]. rewrite <- !app_assoc. cbn [app parse_fields].
  unfold parse_json_string at 1. rewrite !skip_ws_space by done.
  pose proof (parse_printed_string key (":"%char :: show value ++ rest) Hk) as Hs.
  unfold parse_json_string in Hs. rewrite Hs. rewrite skip_ws_cons by done. cbn [Ascii.eqb negb].
  rewrite Hv by done. by rewrite Hf.
Qed.

Lemma close_printed fields : close_object fields [newline] = mkResult true fields "".
Proof. done. Qed.

Lemma parse_fields_space fuel c json fields :
  is_space c = true -> json <> [] -> parse_fields fuel (c :: json) fields = parse_fields fuel json fields.
Proof.
  intros Hc Hj. destruct fuel; [by destruct json|]. cbn [parse_fields]. destruct json as [|d json]; [done|].
  replace (parse_json_string (c :: d :: json)) with (parse_json_string (d :: json)); [done|].
  unfold parse_json_string. by rewrite (skip_ws_space c) by done.
Qed.

Lemma parse_printed_fields show l fuel fields :
  l <> [] -> (length l <= fuel)%nat -> NoDup l.*1 ->
  Forall (fun f => string_text f.1 = true /\ shown show f.2 /\ fields !! f.1 = None) l ->
  parse_fields fuel (print_fields show l ++ ["}"%char; newline]) fields = mkResult true (list_to_map l ∪ fields) "".
Proof.
  revert fuel fields; induction l as [|[key value] l IH]; intros fuel fields Hne Hfuel Hnd Hall; [done|].
  destruct fuel as [|fuel]; [cbn in Hfuel; lia|]. rewrite fmap_cons in Hnd. apply NoDup_cons in Hnd as [Hin Hnd].
  apply Forall_cons in Hall as [(Hk & Hv & Hnone) Hall]. cbn [fst snd] in *.
  assert (Hmap : list_to_map ((key, value) :: l) ∪ fields = list_to_map l ∪ <[key := value]> fields).
  { cbn [list_to_map foldr]. rewrite <- insert_union_l. apply insert_union_r. by apply not_elem_of_list_to_map. }
  rewrite Hmap. destruct l as [|next l].
  - cbn [print_fields]. rewrite <- app_assoc. rewrite parse_printed_field by done. cbn [app].
    rewrite skip_ws_space, skip_ws_cons by done. cbn [Ascii.eqb]. rewrite close_printed.
    cbn. by rewrite map_empty_union.
  - change (print_fields show ((key, value) :: next :: l))
      with (print_field show (key, value) ++ [","%char; newline] ++ print_fields show (next :: l)).
    rewrite <- !app_assoc. rewrite parse_printed_field by done. cbn [app]. rewrite skip_ws_cons by done.
    cbn [Ascii.eqb negb]. rewrite parse_fields_space by (done || by destruct next, l).
    apply IH; [done|cbn in *; lia|done|]. apply Forall_forall. intros f Hf.
    rewrite Forall_forall in Hall. destruct (Hall f Hf) as (Hk' & Hv' & Hf'). split_and!; [done|done|].
    rewrite lookup_insert_ne; [done|]. intros ->. apply Hin. by apply list_elem_of_fmap_2.
Qed.

Lemma print_fields_length {V} (show : V -> list ascii) l : (length l <= length (print_fields show l))%nat.
Proof.
  induction l as [|f l IH]; [done|]. destruct l as [|g l].
  - cbn [print_fields]. rewrite length_app. cbn. lia.
  - change (print_fields show (f :: g :: l))
      with (print_field show f ++ [","%char; newline] ++ print_fields show (g :: l)).
    rewrite !length_app. cbn [Datatypes.length] in *. lia.
Qed.

(** Two ways to print the values give the same object when they agree on its values. *)
Lemma print_object_fmap {V W} (show : V -> list ascii) (show' : W -> list ascii) (g : V -> W) l :
  Forall (fun f => show f.2 = show' (g f.2)) l ->
  print_object show l = print_object show' (prod_map id g <$> l).
Proof.
  intros H. unfold print_object. do 2 f_equal. induction H as [|f l Hf Hl IH]; [done|]. rewrite fmap_cons.
  assert (Hp : print_field show f = print_field show' (prod_map id g f)) by (unfold print_field; cbn; by rewrite Hf).
  destruct Hl as [|f' l]; cbn [print_fields fmap list_fmap] in *; rewrite Hp; [done|]. by rewrite IH.
Qed.

(** A printed object reads back as the map of its fields. *)
Lemma parse_printed_object show l :
  NoDup l.*1 -> Forall (fun f => string_text f.1 = true /\ shown show f.2) l ->
  parse_flat_json_object (print_object show l) = mkResult true (list_to_map l) "".
Proof.
  intros Hnd Hall. unfold print_object, parse_flat_json_object. cbn [app].
  rewrite skip_ws_cons by done. cbn [Ascii.eqb negb]. rewrite skip_ws_space by done.
  destruct l as [|f l]; [done|].
  assert (Hne : exists r, skip_ws (print_fields show (f :: l) ++ ["}"%char; newline]) = quote :: r /\
                 forall fuel fields, parse_fields fuel (quote :: r) fields =
                   parse_fields fuel (print_fields show (f :: l) ++ ["}"%char; newline]) fields).
  { assert (exists r, print_fields show (f :: l) ++ ["}"%char; newline] = " "%char :: " "%char :: quote :: r) as [r Hr].
    { destruct l; cbn; eauto. }
    exists r. rewrite Hr. split; [done|]. intros. by rewrite !(parse_fields_space _ " "%char) by done. }
  destruct Hne as (r & -> & Hparse). rewrite (Hparse _ ∅).
  rewrite parse_printed_fields; [by rewrite map_union_empty|done| |done|].
  - pose proof (print_fields_length show (f :: l)). cbn [Datatypes.length] in *. rewrite length_app. lia.
  - eapply Forall_impl; [exact Hall|]. naive_solver.
Qed.

Lemma ordered_fields_perm fields : ordered_fields fields ≡ₚ map_to_list fields.
Proof. apply merge_sort_Permutation. Qed.

Lemma parse_serialized fields :
  well_formed_fields fields -> parse_flat_json_object (serialize_fields fields) = mkResult true fields "".
Proof.
  intros Hwf. pose proof (ordered_fields_perm fields) as Hp.
  assert (Hnd : NoDup (ordered_fields fields).*1) by (rewrite Hp; apply NoDup_fst_map_to_list).
  unfold serialize_fields. rewrite parse_printed_object; [|done|].
  - f_equal. rewrite (list_to_map_proper _ (map_to_list fields)); [apply list_to_map_to_list|done|done].
  - apply Forall_forall. intros [k v] Hin. rewrite Hp in Hin. apply elem_of_map_to_list in Hin.
    destruct (Hwf k v Hin). split; [done|]. by apply spaced_shown.
Qed.

(** C32. Printing fields as the manifest writer does and parsing the result
    gives the same fields back exactly for the field maps the parser can produce. *)
Theorem flat_json_round_trip fields :
  parse_flat_json_object (serialize_fields fields) = mkResult true fields "" <-> well_formed_fields fields.
Proof.
  split; [|apply parse_serialized]. intros H.
  pose proof (parse_object_well_formed (serialize_fields fields)) as Hw. by rewrite H in Hw.
Qed.

(** A control character without an escape is written as it is, and the reader
    then refuses the text. *)
Example control_character_unreadable :
  parse_flat_json_object
    (serialize_fields {["note"%string := mkValue (String "001" EmptyString) StringKind]}) = malformed.
Proof. vm_compute. reflexivity. Qed.

(** JSON text written with apostrophes for the quotes. *)
Definition quoted (text : string) : list ascii :=
  map (fun c => if Ascii.eqb c "'" then quote else c) (list_ascii_of_string text).

Example sample_object :
  parse_flat_json_object (quoted "{ 'a': 1.5, 'b' : 'x\n' , 'c':true}") =
  mkResult true {["a" := mkValue "1.5" NumberKind; "b" := mkValue (String "x" (String newline EmptyString)) StringKind;
                  "c" := mkValue "true" BooleanKind]} "".
Proof. vm_compute. reflexivity. Qed.

(** ** The content of a file *)

Lemma read_content_length maximum_request size reads content content' :
  (forall n, (maximum_request n <= n)%nat) -> (length content <= size)%nat ->
  read_content maximum_request size reads content = Some content' ->
  length content' = size.
Proof.
  intros Hm. revert content; induction reads as [|[bytes|] reads IH]; intros content Hl; cbn [read_content];
    destruct (Nat.leb_spec size (length content)); try (intros [= <-]; lia); try done.
  destruct (take _ bytes) as [|b received] eqn:E; [done|]. apply IH. rewrite length_app, <- E, length_take.
  pose proof (Hm (size - length content)%nat). lia.
Qed.

Lemma max_dword_request_le n : (max_dword_request n <= n)%nat.
Proof. unfold max_dword_request. lia. Qed.

(** A result with fields comes from parsing a content of at most [max_bytes]
    bytes that was read in full from a regular file. *)
Theorem read_file_is_bounded file max_bytes :
  0 <= max_bytes ->
  fr_ok (read_flat_json_file file max_bytes) = true ->
  exists content, Z.of_nat (length content) <= max_bytes /\
    read_flat_json_file file max_bytes = parse_flat_json_object content.
Proof.
  intros H0. destruct file as [file|file]; cbn [read_flat_json_file].
  - unfold read_windows_flat_json_file. destruct (negb _); [done|].
    destruct (wm_before file) as [before|]; [|done]. destruct (_ || _); [done|]. cbv zeta.
    destruct (Z.ltb_spec max_bytes (windows_size before)) as [|Hle]; [done|].
    destruct (Z.ltb_spec u64_max (windows_size before)); [done|]. cbn [orb].
    destruct (read_content _ _ _ _) as [content|] eqn:E; [|done]. destruct (wm_after file) as [after|]; [|done].
    destruct (windows_unchanged before after); [|done]. intros _. exists content. split; [|done].
    apply read_content_length in E; [|apply max_dword_request_le|cbn; lia]. lia.
  - unfold read_posix_flat_json_file. destruct (negb _); [done|].
    destruct (pm_before file) as [before|]; [|done]. destruct (_ || _) eqn:Er; [done|]. cbv zeta.
    destruct (Z.ltb_spec max_bytes (ps_size before)) as [|Hle]; [done|].
    destruct (Z.ltb_spec u64_max (ps_size before)); [done|]. cbn [orb].
    destruct (read_content _ _ _ _) as [content|] eqn:E; [|done]. destruct (pm_after file) as [after|]; [|done].
    destruct (posix_unchanged before after); [|done]. intros _. exists content. split; [|done].
    bool_facts. apply read_content_length in E; [|done|cbn; lia]. lia.
Qed.

End FlatJson.
