(* ===== verification/ModelSidecar.v ===== *)
(** * Model sidecars

    [validation/model_sidecar.cpp]: the reader of a JSON object whose values are
    all strings, and [validate_model_sidecar], which ties a model file to the
    digest its sidecar declares.  The reader is not the one of [FlatJson]: it
    accepts raw control characters and repeated keys, and only strings.

    Paths are strings; what the file system answers is a record. *)

From Stdlib Require Import Ascii String.
From stdpp Require Import gmap.
From S2P Require Import Prelude Sha256 FlatJson.
Import FlatJson.

Open Scope string_scope.
Open Scope list_scope.
Open Scope Z_scope.

Module ModelSidecar.

(** ** Reading the object *)

Definition is_hex_sha256 (value : string) : bool :=
  Nat.eqb (String.length value) 64 && all_chars is_lower_hex value.

(** [skip_ws] and the escapes are those of [FlatJson], character for character;
    the loop after the opening quote does not look for control characters. *)
Fixpoint parse_body (json parsed : list ascii) : option (list ascii * list ascii) :=
  match json with
  | [] => None
  | ch :: json =>
      if Ascii.eqb ch quote then Some (parsed, json)
      else if Ascii.eqb ch backslash then
        match json with
        | [] => None
        | escaped :: json =>
            match unescape escaped with
            | None => None
            | Some c => parse_body json (parsed ++ [c])
            end
        end
      else parse_body json (parsed ++ [ch])
  end.

Definition parse_json_string (json : list ascii) : option (string * list ascii) :=
  match skip_ws json with
  | [] => None
  | ch :: json =>
      if negb (Ascii.eqb ch quote) then None
      else match parse_body json [] with
           | None => None
           | Some (parsed, rest) => Some (string_of_list_ascii parsed, rest)
           end
  end.

Abbreviation Fields := (gmap string string).

(** The closing brace may be followed by white space only. *)
Definition close_object (fields : Fields) (rest : list ascii) : option Fields :=
  match skip_ws rest with
  | [] => Some fields
  | _ => None
  end.

(** The loop over the fields; the assignment to [fields] at [key] keeps the last value of
    a key.  Every round consumes a quote, so the length of the text is enough
    fuel ([parse_fields_fuel]). *)
Fixpoint parse_fields (fuel : nat) (json : list ascii) (fields : Fields) : option Fields :=
  match fuel, json with
  | O, _ | _, [] => None
  | S fuel, _ =>
      '(key, rest) ← parse_json_string json;
      match skip_ws rest with
      | [] => None
      | colon :: rest =>
      if negb (Ascii.eqb colon ":") then None
      else
      '(value, rest) ← parse_json_string rest;
      let fields := <[key := value]> fields in
      match skip_ws rest with
      | [] => None
      | ch :: rest =>
          if Ascii.eqb ch "}" then close_object fields rest
          else if negb (Ascii.eqb ch ",") then None
          else parse_fields fuel rest fields
      end end
  end.

Definition parse_flat_string_object (json : list ascii) : option Fields :=
  match skip_ws json with
  | [] => None
  | ch :: rest =>
      if negb (Ascii.eqb ch "{") then None
      else match skip_ws rest with
           | c :: rest' => if Ascii.eqb c "}" then close_object ∅ rest'
                           else parse_fields (List.length json) (c :: rest') ∅
           | [] => None
           end
  end.

(** ** Validation *)

Definition kDefaultMaxModelBytes : Z := Z.shiftl 1 40.
Definition kDefaultMaxSidecarBytes : Z := 64 * 1024.

Record Request := mkRequest {
  rq_model_path : string;
  rq_sidecar_path : string;
  rq_max_model_bytes : Z;
  rq_max_sidecar_bytes : Z;
}.

Record Result := mkResult {
  rs_skipped : bool;
  rs_valid : bool;
  rs_failure_reason : string;
  rs_normalized_model_path : string;
  rs_normalized_sidecar_path : string;
  rs_model_size_bytes : Z;
  rs_sidecar_size_bytes : Z;
  rs_model_sha256 : string;
}.

Definition default_result : Result := mkResult true true "" "" "" 0 0 "".

(** The answers of the file system to one call: what [absolute] gives for a
    path ([None] where it fails), [is_regular_file] and [file_size] of the two
    files, the second [file_size] that [read_file] asks for, the content
    ([None] where the file does not open) and the digest of the model through
    [sha256_trusted_regular_file_bounded] with its directory as root. *)
Record Answers := mkAnswers {
  an_absolute : string -> option string;
  an_lexically_normal : string -> string;
  an_model_regular : bool;
  an_model_size : option Z;
  an_sidecar_regular : bool;
  an_sidecar_size : option Z;
  an_sidecar_size_at_read : option Z;
  an_sidecar_content : option (list ascii);
  an_model_digest : Z -> Sha256.HashResult;
}.

Definition normalize_path (a : Answers) (path : string) : string :=
  match an_absolute a path with
  | None => an_lexically_normal a path
  | Some absolute => an_lexically_normal a absolute
  end.

Definition read_file (a : Answers) (max_bytes : Z) : string + list ascii :=
  match an_sidecar_size_at_read a with
  | None => inl "sidecar_size_unavailable"
  | Some size =>
      if max_bytes <? size then inl "sidecar_size_exceeds_limit"
      else match an_sidecar_content a with
           | None => inl "sidecar_open_failed"
           | Some content => inr content
           end
  end.

(** [file_size] returns [static_cast<uintmax_t>(-1)] where it fails, and the
    result keeps that value. *)
Definition recorded_size (size : option Z) : Z := default u64_max size.

(** The checks of the model file. *)
Definition check_model (r : Request) (a : Answers) : string + unit :=
  if str_empty (rq_model_path r) then inr tt
  else
    _ ← refuse_if (negb (an_model_regular a)) "model_file_missing";
    match an_model_size a with
    | None => inl "model_size_unavailable"
    | Some size => refuse_if (rq_max_model_bytes r <? size) "model_size_exceeds_limit"
    end.

(** The checks of the sidecar file up to its content. *)
Definition sidecar_present (r : Request) (a : Answers) : string + unit :=
  _ ← refuse_if (str_empty (rq_sidecar_path r)) "sidecar_path_missing";
  refuse_if (negb (an_sidecar_regular a)) "sidecar_file_missing".

Definition allowed_keys : list string := ["schema_version"; "model_sha256"; "notes"].

Definition unknown_field (fields : Fields) : bool :=
  negb (forallb (fun field => existsb (String.eqb field.1) allowed_keys) (map_to_list fields)).

(** From the content to the digest the sidecar declares. *)
Definition declared_digest (content : list ascii) : string + string :=
  match parse_flat_string_object content with
  | None => inl "sidecar_json_malformed"
  | Some fields =>
      _ ← refuse_if (unknown_field fields) "sidecar_unknown_field";
      _ ← refuse_if (negb (bool_decide (fields !! "schema_version" = Some "0.1"))) "sidecar_schema_version_invalid";
      match fields !! "model_sha256" with
      | None => inl "sidecar_model_sha256_invalid"
      | Some hash => if is_hex_sha256 hash then inr hash else inl "sidecar_model_sha256_invalid"
      end
  end.

Definition check_digest (r : Request) (a : Answers) (hash : string) : string + string :=
  match an_model_digest a (rq_max_model_bytes r) with
  | Sha256.HashFailed _ => inl "model_sha256_unavailable"
  | Sha256.Digest actual => if negb (actual =s hash) then inl "sidecar_model_sha256_mismatch" else inr actual
  end.

Definition set_failure (result : Result) (reason : string) : Result :=
  mkResult (rs_skipped result) false reason (rs_normalized_model_path result) (rs_normalized_sidecar_path result)
    (rs_model_size_bytes result) (rs_sidecar_size_bytes result) (rs_model_sha256 result).

Definition set_model_size (result : Result) (size : Z) : Result :=
  mkResult (rs_skipped result) (rs_valid result) (rs_failure_reason result) (rs_normalized_model_path result)
    (rs_normalized_sidecar_path result) size (rs_sidecar_size_bytes result) (rs_model_sha256 result).

Definition set_sidecar_size (result : Result) (size : Z) : Result :=
  mkResult (rs_skipped result) (rs_valid result) (rs_failure_reason result) (rs_normalized_model_path result)
    (rs_normalized_sidecar_path result) (rs_model_size_bytes result) size (rs_model_sha256 result).

Definition set_model_sha256 (result : Result) (digest : string) : Result :=
  mkResult (rs_skipped result) (rs_valid result) (rs_failure_reason result) (rs_normalized_model_path result)
    (rs_normalized_sidecar_path result) (rs_model_size_bytes result) (rs_sidecar_size_bytes result) digest.

Definition path_or_empty (a : Answers) (path : string) : string :=
  if str_empty path then "" else normalize_path a path.

Definition validate_model_sidecar (r : Request) (a : Answers) : Result :=
  if str_empty (rq_model_path r) && str_empty (rq_sidecar_path r) then default_result
  else
  let result := mkResult false true "" (path_or_empty a (rq_model_path r)) (path_or_empty a (rq_sidecar_path r)) 0 0 "" in
  let result := if str_empty (rq_model_path r) || negb (an_model_regular a) then result
                else set_model_size result (recorded_size (an_model_size a)) in
  match check_model r a with
  | inl reason => set_failure result reason
  | inr _ =>
  match sidecar_present r a with
  | inl reason => set_failure result reason
  | inr _ =>
  let result := set_sidecar_size result (recorded_size (an_sidecar_size a)) in
  match an_sidecar_size a with
  | None => set_failure result "sidecar_size_unavailable"
  | Some _ =>
  match read_file a (rq_max_sidecar_bytes r) with
  | inl reason => set_failure result reason
  | inr content =>
  match hash ← declared_digest content; check_digest r a hash with
  | inl reason => set_failure result reason
  | inr digest => set_model_sha256 result digest
  end end end end end.

(** ** The loop terminates with its fuel *)

Lemma skip_ws_length json : (List.length (skip_ws json) <= List.length json)%nat.
Proof.
  unfold skip_ws, skip_space. pose proof (f_equal (@List.length ascii) (span_app is_space json)) as H.
  rewrite length_app in H. lia.
Qed.

Lemma parse_body_length json parsed text rest :
  parse_body json parsed = Some (text, rest) -> (List.length rest < List.length json)%nat.
Proof.
  remember (List.length json) as n eqn:E. revert json parsed E.
  induction n as [n IH] using lt_wf_ind; intros [|c json] parsed E; cbn [parse_body]; [done|]. cbn [List.length] in E.
  destruct (Ascii.eqb c quote); [intros [= _ <-]; lia|]. destruct (Ascii.eqb c backslash).
  - destruct json as [|e json]; [done|]. destruct (unescape e); [|done]. cbn [List.length] in E.
    intros H%(IH (List.length json) ltac:(lia) _ _ eq_refl). lia.
  - intros H%(IH (List.length json) ltac:(lia) _ _ eq_refl). lia.
Qed.

Lemma parse_json_string_length json text rest :
  parse_json_string json = Some (text, rest) -> (List.length rest < List.length json)%nat.
Proof.
  unfold parse_json_string. pose proof (skip_ws_length json) as Hs.
  destruct (skip_ws json) as [|c l]; [done|]. destruct (negb _); [done|].
  destruct (parse_body l []) as [[parsed r]|] eqn:E; [|done]. intros [= _ <-].
  apply parse_body_length in E. cbn [List.length] in Hs. lia.
Qed.

(** More fuel than the text is long changes nothing: the loop of the source,
    which has none, computes this value. *)
Lemma parse_fields_fuel fuel json fields :
  (List.length json <= fuel)%nat -> parse_fields fuel json fields = parse_fields (List.length json) json fields.
Proof.
  enough (H : forall n fuel json fields, (List.length json <= n)%nat -> (n <= fuel)%nat ->
            parse_fields fuel json fields = parse_fields n json fields) by (intros; by apply H).
  clear. induction n as [|n IH]; intros fuel json fields Hj Hf.
  { destruct json; [|cbn in Hj; lia]. by destruct fuel. }
  destruct fuel as [|fuel]; [lia|]. cbn [parse_fields]. destruct json as [|c json]; [done|].
  destruct (parse_json_string (c :: json)) as [[key rest]|] eqn:Ek; [|done]. cbn.
  apply parse_json_string_length in Ek. pose proof (skip_ws_length rest) as H1.
  destruct (skip_ws rest) as [|colon rest1]; [done|]. destruct (negb _); [done|].
  destruct (parse_json_string rest1) as [[value rest2]|] eqn:Ev; [|done]. cbn.
  apply parse_json_string_length in Ev. pose proof (skip_ws_length rest2) as H2.
  destruct (skip_ws rest2) as [|ch rest3]; [done|]. destruct (Ascii.eqb ch "}"); [done|].
  destruct (negb _); [done|]. cbn [List.length] in *. apply IH; lia.
Qed.

(** ** Printing and reading *)

(** A field of a sidecar, printed as the writers of the repository print one. *)
Definition print_string (value : string) : list ascii := quote :: json_escape value ++ [quote].

(** Every character reads back, the control characters too. *)
Lemma parse_body_escape c rest parsed :
  parse_body (escape_char c ++ rest) parsed = parse_body rest (parsed ++ [c]).
Proof.
  unfold escape_char.
  destruct (Ascii.eqb_spec c backslash) as [->|Hb]; [done|].
  destruct (Ascii.eqb_spec c quote) as [->|Hq]; [done|].
  destruct (Ascii.eqb_spec c newline) as [->|Hn]; [done|].
  destruct (Ascii.eqb_spec c carriage_return) as [->|Hc]; [done|].
  destruct (Ascii.eqb_spec c tab) as [->|Ht]; [done|].
  cbn [app parse_body]. by rewrite (proj2 (Ascii.eqb_neq c quote) Hq), (proj2 (Ascii.eqb_neq c backslash) Hb).
Qed.

Lemma parse_body_escaped l rest parsed :
  parse_body (List.concat (map escape_char l) ++ quote :: rest) parsed = Some (parsed ++ l, rest).
Proof.
  revert parsed; induction l as [|c l IH]; intros parsed; cbn [map List.concat]; [by rewrite app_nil_r|].
  by rewrite <- app_assoc, parse_body_escape, IH, <- app_assoc.
Qed.

Lemma parse_json_string_space c json : is_space c = true -> parse_json_string (c :: json) = parse_json_string json.
Proof. intros H. unfold parse_json_string. by rewrite (skip_ws_space c) by done. Qed.

Lemma sidecar_parse_printed_string text rest :
  parse_json_string (quote :: json_escape text ++ quote :: rest) = Some (text, rest).
Proof.
  unfold parse_json_string. rewrite skip_ws_cons by done. cbn [Ascii.eqb].
  unfold json_escape. rewrite parse_body_escaped. cbn. by rewrite string_of_list_ascii_of_string.
Qed.

Lemma sidecar_parse_printed_field fuel key value rest fields :
  parse_fields (S fuel) (print_field print_string (key, value) ++ rest) fields =
  let fields := <[key := value]> fields in
  match skip_ws rest with
  | [] => None
  | ch :: rest => if Ascii.eqb ch "}" then close_object fields rest
                  else if negb (Ascii.eqb ch ",") then None else parse_fields fuel rest fields
  end.
Proof.
  unfold print_field, print_string. cbn [fst snd]. rewrite <- !app_assoc. cbn [app parse_fields].
  rewrite !parse_json_string_space, sidecar_parse_printed_string by done. cbn [mbind option_bind].
  rewrite skip_ws_cons by done. cbn [Ascii.eqb negb]. rewrite <- app_assoc. cbn [app].
  by rewrite sidecar_parse_printed_string.
Qed.

Lemma sidecar_parse_fields_space fuel c json fields :
  is_space c = true -> json <> [] -> parse_fields fuel (c :: json) fields = parse_fields fuel json fields.
Proof.
  intros Hc Hj. destruct fuel; [by destruct json|]. cbn [parse_fields]. destruct json as [|d json]; [done|].
  by rewrite parse_json_string_space.
Qed.

(** The fields in the order of the text; of two with the same key the later one
    counts. *)
Definition assign (fields : Fields) (l : list (string * string)) : Fields :=
  fold_left (fun fields f => <[f.1 := f.2]> fields) l fields.

Lemma sidecar_parse_printed_fields l fuel fields :
  l <> [] -> (List.length l <= fuel)%nat ->
  parse_fields fuel (print_fields print_string l ++ ["}"%char; newline]) fields = Some (assign fields l).
Proof.
  revert fuel fields; induction l as [|[key value] l IH]; intros fuel fields Hne Hfuel; [done|].
  destruct fuel as [|fuel]; [cbn in Hfuel; lia|]. destruct l as [|next l].
  - cbn [print_fields]. rewrite <- app_assoc, sidecar_parse_printed_field. cbn [app].
    by rewrite skip_ws_space, skip_ws_cons by done.
  - change (print_fields print_string ((key, value) :: next :: l))
      with (print_field print_string (key, value) ++ [","%char; newline] ++ print_fields print_string (next :: l)).
    rewrite <- !app_assoc, sidecar_parse_printed_field. cbn [app]. rewrite skip_ws_cons by done.
    cbn [Ascii.eqb negb]. rewrite sidecar_parse_fields_space by (done || by destruct next, l).
    apply IH; [done|cbn in *; lia].
Qed.

(** Any list of strings printed as an object reads back, whatever characters
    it has and however often a key occurs. *)
Theorem printed_sidecar_reads_back l :
  parse_flat_string_object (print_object print_string l) = Some (assign ∅ l).
Proof.
  unfold print_object, parse_flat_string_object. cbn [app].
  rewrite skip_ws_cons by done. cbn [Ascii.eqb negb]. rewrite skip_ws_space by done.
  destruct l as [|f l]; [done|].
  assert (exists r, print_fields print_string (f :: l) ++ ["}"%char; newline] = " "%char :: " "%char :: quote :: r) as [r Hr].
  { destruct l; cbn; eauto. }
  assert (Hp : forall fuel, parse_fields fuel (quote :: r) ∅ =
                            parse_fields fuel (print_fields print_string (f :: l) ++ ["}"%char; newline]) ∅).
  { intros. by rewrite Hr, !(sidecar_parse_fields_space _ " "%char) by done. }
  replace (skip_ws (print_fields print_string (f :: l) ++ ["}"%char; newline])) with (quote :: r)
    by (by rewrite Hr, !(skip_ws_space " "), skip_ws_cons by done).
  cbn [Ascii.eqb]. rewrite Hp.
  apply sidecar_parse_printed_fields; [done|].
  pose proof (print_fields_length print_string (f :: l)). cbn [List.length] in *. rewrite length_app. lia.
Qed.

(** ** Against the flat JSON reader *)

Lemma parse_body_agrees json parsed result :
  parse_string_body json parsed = Some result -> parse_body json parsed = Some result.
Proof.
  remember (List.length json) as n eqn:E. revert json parsed E.
  induction n as [n IH] using lt_wf_ind; intros [|c json] parsed E; cbn [parse_body parse_string_body]; [done|].
  cbn [List.length] in E. destruct (Ascii.eqb c quote); [done|]. destruct (char_code c <? 32); [done|].
  destruct (Ascii.eqb c backslash).
  - destruct json as [|e json]; [done|]. destruct (unescape e); [|done]. cbn [List.length] in E.
    by apply (IH (List.length json) ltac:(lia)).
  - by apply (IH (List.length json) ltac:(lia)).
Qed.

Lemma parse_json_string_agrees json result :
  FlatJson.parse_json_string json = Some result -> parse_json_string json = Some result.
Proof.
  unfold FlatJson.parse_json_string, parse_json_string. destruct (skip_ws json) as [|c l]; [done|].
  destruct (negb _); [done|]. destruct (parse_string_body l []) as [[]|] eqn:E; [|done].
  by rewrite (parse_body_agrees _ _ _ E).
Qed.

Lemma skip_ws_skip json : skip_ws (skip_ws json) = skip_ws json.
Proof.
  unfold skip_ws, skip_space. induction json as [|c json IH]; [done|]. cbn.
  destruct (is_space c) eqn:E; [by destruct (span is_space json)|]. cbn. by rewrite E.
Qed.

(** A value of the kind string was read by [parse_json_string]. *)
Lemma parse_literal_string json value rest :
  parse_json_literal json = Some (value, rest) -> fv_kind value = StringKind ->
  parse_json_string json = Some (fv_text value, rest).
Proof.
  unfold parse_json_literal. intros H Hk.
  assert (Hs : parse_json_string (skip_ws json) = parse_json_string json)
    by (unfold parse_json_string; by rewrite skip_ws_skip).
  rewrite <- Hs. destruct (skip_ws json) as [|c l]; [done|]. revert H.
  destruct (Ascii.eqb c quote).
  { destruct (FlatJson.parse_json_string _) as [[text r]|] eqn:E; [|done]. intros [= <- <-].
    by apply parse_json_string_agrees. }
  destruct (starts_with true_word _); [by intros [= <- <-]|].
  destruct (starts_with false_word _); [by intros [= <- <-]|].
  destruct (_ || _); [done|]. destruct (span literal_char _) as [[|? ?] ?]; [done|]. by intros [= <- <-].
Qed.

Definition only_strings (fields : gmap string FlatJsonValue) : Prop :=
  map_Forall (fun _ value => fv_kind value = StringKind) fields.

Definition texts (fields : gmap string FlatJsonValue) : Fields := fv_text <$> fields.

Lemma close_object_agrees fields rest m :
  FlatJson.close_object fields rest = FlatJson.mkResult true m "" ->
  close_object (texts fields) rest = Some (texts m).
Proof. unfold FlatJson.close_object, close_object. destruct (skip_ws rest); [|done]. by intros [= <-]. Qed.

(** Fields that were read stay. *)
Lemma parse_fields_subseteq fuel json fields m :
  FlatJson.parse_fields fuel json fields = FlatJson.mkResult true m "" -> fields ⊆ m.
Proof.
  revert json fields; induction fuel as [|fuel IH]; intros json fields; cbn [FlatJson.parse_fields];
    [by destruct json|]. destruct json as [|c json]; [done|].
  destruct (FlatJson.parse_json_string (c :: json)) as [[key rest]|]; [|done].
  destruct (skip_ws rest) as [|colon rest1]; [done|]. destruct (negb _); [done|].
  destruct (parse_json_literal rest1) as [[value rest2]|]; [|done].
  destruct (fields !! key) eqn:Ek; [done|]. cbv zeta. pose proof (insert_subseteq fields key value Ek) as Hs.
  destruct (skip_ws rest2) as [|ch rest3]; [done|].
  destruct (Ascii.eqb ch "}").
  { unfold FlatJson.close_object. destruct (skip_ws rest3); [|done]. by intros [= <-]. }
  destruct (negb _); [done|]. intros H%IH. by transitivity (<[key := value]> fields).
Qed.

Lemma parse_fields_agrees fuel json fields m :
  FlatJson.parse_fields fuel json fields = FlatJson.mkResult true m "" -> only_strings m ->
  parse_fields fuel json (texts fields) = Some (texts m).
Proof.
  intros H Hm. revert json fields H; induction fuel as [|fuel IH]; intros json fields;
    cbn [FlatJson.parse_fields parse_fields]; [by destruct json|]. destruct json as [|c json]; [done|].
  destruct (FlatJson.parse_json_string (c :: json)) as [[key rest]|] eqn:Ek; [|done].
  rewrite (parse_json_string_agrees _ _ Ek). cbn [mbind option_bind].
  destruct (skip_ws rest) as [|colon rest1]; [done|]. destruct (negb _); [done|].
  destruct (parse_json_literal rest1) as [[value rest2]|] eqn:Ev; [|done].
  destruct (fields !! key) eqn:El; [done|]. cbv zeta. intros H.
  assert (Hk : fv_kind value = StringKind).
  { assert (Hsub : <[key := value]> fields ⊆ m).
    { destruct (skip_ws rest2) as [|ch rest3]; [done|]. destruct (Ascii.eqb ch "}").
      - revert H. unfold FlatJson.close_object. destruct (skip_ws rest3); [|done]. by intros [= <-].
      - destruct (negb _); [done|]. by apply parse_fields_subseteq in H. }
    apply (Hm key). eapply lookup_weaken; [|exact Hsub]. apply lookup_insert_eq. }
  rewrite (parse_literal_string _ _ _ Ev Hk). cbn [mbind option_bind].
  rewrite <- (fmap_insert fv_text fields key value : texts _ = _).
  destruct (skip_ws rest2) as [|ch rest3]; [done|].
  destruct (Ascii.eqb ch "}"); [by apply close_object_agrees|]. destruct (negb _); [done|]. by apply IH.
Qed.

(** What the flat JSON reader reads as an object of strings, this reader reads
    as the same strings; it accepts more. *)
Theorem reader_extends_flat_json json fields :
  parse_flat_json_object json = FlatJson.mkResult true fields "" -> only_strings fields ->
  parse_flat_string_object json = Some (texts fields).
Proof.
  unfold parse_flat_json_object, parse_flat_string_object. intros H Hs.
  destruct (skip_ws json) as [|ch rest]; [done|]. destruct (negb _); [done|].
  destruct (skip_ws rest) as [|c rest']; [done|]. rewrite <- (fmap_empty fv_text : texts ∅ = ∅).
  destruct (Ascii.eqb c "}"); [by apply close_object_agrees|]. by apply parse_fields_agrees.
Qed.

(** ** Acceptance *)

Lemma known_fields fields :
  unknown_field fields = false <-> forall key, is_Some (fields !! key) -> key ∈ allowed_keys.
Proof.
  unfold unknown_field. rewrite negb_false_iff, forallb_Forall, Forall_forall.
  assert (Hin : forall key, existsb (String.eqb key) allowed_keys = true <-> key ∈ allowed_keys).
  { intros key. rewrite existsb_exists, list_elem_of_In. split.
    - by intros (x & Hx & ->%String.eqb_eq).
    - intros H. exists key. by rewrite String.eqb_refl. }
  setoid_rewrite Hin. split.
  - intros H key [v Hv]. by apply (H (key, v)), elem_of_map_to_list.
  - intros H [key v] Hv%elem_of_map_to_list. apply H. by exists v.
Qed.

(** The fields a sidecar must have to declare [digest]. *)
Definition declares (fields : Fields) (digest : string) : Prop :=
  (forall key, is_Some (fields !! key) -> key ∈ allowed_keys) /\
  fields !! "schema_version" = Some "0.1" /\ fields !! "model_sha256" = Some digest /\
  is_hex_sha256 digest = true.

Lemma declared_digest_iff content digest :
  declared_digest content = inr digest <->
  exists fields, parse_flat_string_object content = Some fields /\ declares fields digest.
Proof.
  unfold declared_digest, declares. destruct (parse_flat_string_object content) as [fields|];
    [|split; [done|by intros (? & ? & _)]].
  rewrite !seq_inr, !refuse_if_inr, known_fields, negb_false_iff, bool_decide_eq_true. split.
  - intros (Hk & Hs & Hd). exists fields. destruct (fields !! "model_sha256") as [hash|]; [|done].
    destruct (is_hex_sha256 hash) eqn:Eh; [|done]. by injection Hd as ->.
  - intros (? & [= <-] & Hk & Hs & Hd & Hh). by rewrite Hd, Hh.
Qed.

Lemma check_digest_iff r a hash digest :
  check_digest r a hash = inr digest <->
  digest = hash /\ an_model_digest a (rq_max_model_bytes r) = Sha256.Digest hash.
Proof.
  unfold check_digest. destruct (an_model_digest a _) as [actual|e]; [|split; [done|by intros []]].
  destruct (String.eqb_spec actual hash) as [->|Hne]; cbn; split; try done; [by intros [= ->]|by intros [-> _]|].
  intros [_ [=]]. done.
Qed.

Lemma check_model_iff r a u :
  check_model r a = inr u <->
  (rq_model_path r <> "" -> an_model_regular a = true /\
     exists size, an_model_size a = Some size /\ size <= rq_max_model_bytes r).
Proof.
  unfold check_model. destruct u. destruct (str_empty (rq_model_path r)) eqn:Em.
  { apply str_empty_true in Em. by split. }
  apply str_empty_false in Em. rewrite seq_inr, refuse_if_inr, negb_false_iff.
  destruct (an_model_size a) as [size|].
  - rewrite refuse_if_inr, Z.ltb_ge. split; [intros [] _; eauto|]. intros H.
    by destruct (H Em) as (? & ? & [= <-] & ?).
  - split; [by intros [_ ?]|]. intros H. by destruct (H Em) as (? & ? & ? & ?).
Qed.

Lemma read_file_iff a max_bytes content :
  read_file a max_bytes = inr content <->
  an_sidecar_content a = Some content /\ exists size, an_sidecar_size_at_read a = Some size /\ size <= max_bytes.
Proof.
  unfold read_file. destruct (an_sidecar_size_at_read a) as [size|]; [|split; [done|by intros (_ & ? & ? & _)]].
  destruct (Z.ltb_spec max_bytes size).
  - split; [done|]. intros (_ & ? & [= <-] & ?). lia.
  - destruct (an_sidecar_content a) as [c|]; [|by split; [|intros []]]. split; [intros [= ->]; eauto|by intros ([= ->] & _)].
Qed.

(** What a valid sidecar proves about the model it stands beside. *)
Definition vouches (r : Request) (a : Answers) (digest : string) : Prop :=
  (rq_model_path r <> "" -> an_model_regular a = true /\
     exists size, an_model_size a = Some size /\ size <= rq_max_model_bytes r) /\
  rq_sidecar_path r <> "" /\ an_sidecar_regular a = true /\ is_Some (an_sidecar_size a) /\
  (exists size, an_sidecar_size_at_read a = Some size /\ size <= rq_max_sidecar_bytes r) /\
  (exists content fields, an_sidecar_content a = Some content /\
     parse_flat_string_object content = Some fields /\ declares fields digest) /\
  an_model_digest a (rq_max_model_bytes r) = Sha256.Digest digest.

Lemma sidecar_present_iff r a u :
  sidecar_present r a = inr u <-> rq_sidecar_path r <> "" /\ an_sidecar_regular a = true.
Proof.
  unfold sidecar_present. rewrite seq_inr, !refuse_if_inr, str_empty_false, negb_false_iff. done.
Qed.


(** The checks as one computation that fails with the reason. *)
Definition verdict (r : Request) (a : Answers) : string + string :=
  _ ← check_model r a;
  _ ← sidecar_present r a;
  _ ← match an_sidecar_size a with None => inl "sidecar_size_unavailable" | Some _ => inr tt end;
  content ← read_file a (rq_max_sidecar_bytes r);
  hash ← declared_digest content;
  check_digest r a hash.

Lemma validate_verdict r a :
  rq_model_path r <> "" \/ rq_sidecar_path r <> "" ->
  exists base, rs_skipped base = false /\ rs_valid base = true /\ rs_failure_reason base = "" /\ rs_model_sha256 base = "" /\
    validate_model_sidecar r a =
    match verdict r a with inl reason => set_failure base reason | inr digest => set_model_sha256 base digest end.
Proof.
  intros Hnamed. unfold validate_model_sidecar, verdict.
  destruct (str_empty (rq_model_path r) && str_empty (rq_sidecar_path r)) eqn:E.
  { apply andb_true_iff in E as [Hm%str_empty_true Hs%str_empty_true]. by destruct Hnamed. }
  cbv zeta. set (base := if _ || _ then _ else _).
  assert (Hb : rs_skipped base = false /\ rs_valid base = true /\ rs_failure_reason base = "" /\ rs_model_sha256 base = "")
    by (subst base; by destruct (_ || _)).
  clearbody base. destruct Hb as (Hb1 & Hb2 & Hb3 & Hb4). destruct (check_model r a); [by exists base|]. destruct (sidecar_present r a); [by exists base|].
  exists (set_sidecar_size base (recorded_size (an_sidecar_size a))). split_and!; try done.
  destruct (an_sidecar_size a); [|done]. cbn [mbind error_bind]. by destruct (read_file _ _).
Qed.

Lemma verdict_iff r a digest : verdict r a = inr digest <-> vouches r a digest.
Proof.
  unfold verdict, vouches. rewrite !seq_inr, check_model_iff, sidecar_present_iff, error_bind_inr.
  setoid_rewrite read_file_iff. setoid_rewrite error_bind_inr. setoid_rewrite declared_digest_iff.
  setoid_rewrite check_digest_iff. destruct (an_sidecar_size a); unfold is_Some; naive_solver.
Qed.

Lemma bind_reason {A B} (m : string + A) (k : A -> string + B) :
  m <> inl "" -> (forall x, m = inr x -> k x <> inl "") -> (m ≫= k) <> inl "".
Proof. destruct m as [e|x]; cbn; [congruence|auto]. Qed.

Lemma refuse_reason c e : e <> "" -> refuse_if c e <> inl "".
Proof. destruct c; cbn; congruence. Qed.

(** Every refusal has a reason. *)
Lemma verdict_reason r a : verdict r a <> inl "".
Proof.
  unfold verdict. repeat (apply bind_reason; [|intros ? _]).
  - unfold check_model. destruct (str_empty _); [done|]. apply bind_reason; [by apply refuse_reason|]. intros _ _.
    destruct (an_model_size a); [by apply refuse_reason|done].
  - by apply refuse_reason.
  - by apply refuse_reason.
  - by destruct (an_sidecar_size a).
  - unfold read_file. destruct (an_sidecar_size_at_read a); [|done]. destruct (_ <? _); [done|].
    by destruct (an_sidecar_content a).
  - unfold declared_digest. destruct (parse_flat_string_object _); [|done].
    do 2 (apply bind_reason; [by apply refuse_reason|]; intros _ _).
    destruct (_ !! _) as [hash|]; [|done]. by destruct (is_hex_sha256 hash).
  - unfold check_digest. destruct (an_model_digest a _) as [d|]; [|done]. by destruct (negb _).
Qed.

(** C17. A request that names a file is accepted exactly when the sidecar vouches
    for the model by the validator's own reading: its text is an object of
    strings, in which the last of several values of a key counts
    ([repeated_key_accepted]); it has only the known fields, the schema version
    0.1 and a digest of 64 lower-case digits that is the one the trusted hash of
    the model gives; and both files are regular and within their limits.  The
    published schema also admits upper-case digits, which the validator refuses
    even when they spell the model's digest ([upper_case_digest_refused]).  The
    digest is reported when the request is accepted; a refusal reports a reason
    and no digest. *)
Theorem sidecar_accepts_exactly r a digest :
  rq_model_path r <> "" \/ rq_sidecar_path r <> "" ->
  let result := validate_model_sidecar r a in
  rs_skipped result = false /\
  (rs_valid result = true /\ rs_model_sha256 result = digest <-> vouches r a digest) /\
  (rs_valid result = false -> rs_model_sha256 result = "" /\ rs_failure_reason result <> "").
Proof.
  intros (base & Hs & Hv & Hf & Hd & ->)%(validate_verdict r a). cbv zeta. rewrite <- verdict_iff.
  pose proof (verdict_reason r a) as Hr. destruct (verdict r a) as [reason|actual]; cbn.
  - split_and!; [done|by split; [intros []|]|]. intros _. split; [done|congruence].
  - rewrite Hs, Hv. split_and!; [done| |done]. split; [by intros [_ ->]|by intros [= ->]].
Qed.

(** ** Examples *)

Definition sample_digest : string := "ba7816bf8f01cfea414140de5dae2223b00361a396177a9cb410ff61f20015ad".

Definition sample_request : Request :=
  mkRequest "tiny.gguf" "tiny.gguf.prism.json" kDefaultMaxModelBytes kDefaultMaxSidecarBytes.

Definition sample_answers (content : list ascii) : Answers :=
  mkAnswers (fun path => Some ("/models/" +:+ path)) (fun path => path) true (Some 3) true (Some 120) (Some 120)
    (Some content) (fun _ => Sha256.Digest sample_digest).

Definition sample_fields : list (string * string) :=
  [("schema_version", "0.1"); ("model_sha256", sample_digest); ("notes", "a" +:+ String "001" EmptyString)].

Lemma sidecar_accepts_exactly_witness :
  rs_valid (validate_model_sidecar sample_request (sample_answers (print_object print_string sample_fields))) = true.
Proof.
  destruct (sidecar_accepts_exactly sample_request (sample_answers (print_object print_string sample_fields)) sample_digest)
    as (_ & H & _); [by left|]. apply H.
  split_and!; [|done|done|by eexists| | |done].
  - intros _. split; [done|]. by exists 3.
  - by exists 120.
  - exists (print_object print_string sample_fields), (assign ∅ sample_fields). split; [done|].
    split; [apply printed_sidecar_reads_back|]. split_and!; [|done|done|by vm_compute].
    by apply known_fields.
Defined.

(** A key that occurs twice is accepted, with its last value; the flat
    JSON reader refuses such text. *)
Example repeated_key_accepted :
  let content := print_object print_string (("model_sha256", "0") :: sample_fields) in
  rs_valid (validate_model_sidecar sample_request (sample_answers content)) = true /\
  fr_ok (parse_flat_json_object content) = false.
Proof. vm_compute. done. Qed.

(** The bound is on the size that was asked for: a file that grows between the
    query and the read is read in full. *)
Example grown_sidecar_accepted :
  let content := print_object print_string sample_fields ++ replicate 10 " "%char in
  let request := mkRequest "tiny.gguf" "tiny.gguf.prism.json" kDefaultMaxModelBytes 120 in
  rs_valid (validate_model_sidecar request (sample_answers content)) = true /\
  120 < Z.of_nat (List.length content).
Proof. vm_compute. done. Qed.

(** The schema of sidecars admits upper-case digests; the validator does not. *)
Example upper_case_digest_refused :
  let digest := "BA7816BF8F01CFEA414140DE5DAE2223B00361A396177A9CB410FF61F20015AD" in
  rs_failure_reason (validate_model_sidecar sample_request
    (sample_answers (print_object print_string [("schema_version", "0.1"); ("model_sha256", digest)]))) =
  "sidecar_model_sha256_invalid".
Proof. vm_compute. reflexivity. Qed.

End ModelSidecar.
