(* ===== verification/Doubles.v ===== *)
(** * Binary64 numbers

    [double] as the Standard Library's [spec_float] with 53 bits of precision,
    its comparisons, and the decimal number [std::istream >> double] reads in
    the C locale, correctly rounded. *)

From S2P Require Import Prelude.
From Stdlib Require Import Ascii String SpecFloat.

Open Scope Z_scope.

Module Doubles.

Abbreviation double := spec_float (only parsing).

Abbreviation precision := 53 (only parsing).
Abbreviation max_exponent := 1024 (only parsing).

Definition zero : double := S754_zero false.
Definition one : double := S754_finite false 4503599627370496 (-52).

(** [a < b], [a <= b]; false when either is not a number. *)
Definition lt (a b : double) : bool := SFltb a b.
Definition le (a b : double) : bool := SFleb a b.

(** [std::isfinite]. *)
Definition is_finite (a : double) : bool :=
  match a with S754_zero _ | S754_finite _ _ _ => true | _ => false end.

Definition is_number (a : double) : Prop := a <> S754_nan.

Lemma compare_swap a b : is_number a -> is_number b ->
  exists c, SFcompare a b = Some c /\ SFcompare b a = Some (CompOpp c).
Proof.
  unfold is_number. destruct a as [sa|sa| |sa ma ea], b as [sb|sb| |sb mb eb]; try done; intros _ _;
    try destruct sa; try destruct sb; cbn; eauto;
    rewrite (Z.compare_antisym ea eb); destruct (ea ?= eb); cbn; eauto;
    replace (Pos.compare_cont Eq mb ma) with (CompOpp (Pos.compare_cont Eq ma mb))
      by apply Pos.compare_cont_antisym;
    destruct (Pos.compare_cont Eq ma mb); cbn; eauto.
Qed.

(** Between numbers the order is total. *)
Lemma lt_false_le a b : is_number a -> is_number b -> lt a b = false <-> le b a = true.
Proof.
  intros Ha Hb. unfold lt, le, SFltb, SFleb. destruct (compare_swap a b Ha Hb) as (c & -> & ->). by destruct c.
Qed.

Lemma le_false_lt a b : is_number a -> is_number b -> le a b = false <-> lt b a = true.
Proof.
  intros Ha Hb. unfold lt, le, SFltb, SFleb. destruct (compare_swap a b Ha Hb) as (c & -> & ->). by destruct c.
Qed.

(** [m * 10^e] rounded to nearest, ties to even.  Exponents far outside the
    range of the format are not expanded. *)
Definition of_decimal (negative : bool) (m : Z) (digits e : Z) : double :=
  match m with
  | Z.pos p =>
      if 400 <? digits + e then S754_infinity negative
      else if digits + e <? -400 then S754_zero negative
      else if 0 <=? e then binary_round precision max_exponent negative (p * Z.to_pos (10 ^ e)) 0
      else
        let '(q, e', l) := SFdiv_core_binary precision max_exponent (Z.pos p) 0 (10 ^ (- e)) 0 in
        binary_round_aux precision max_exponent negative q e' l
  | _ => S754_zero negative
  end.

(** An optional sign. *)
Definition sign (l : list ascii) : bool * list ascii :=
  match l with
  | c :: l' => if Ascii.eqb c "-" then (true, l') else if Ascii.eqb c "+" then (false, l') else (false, l)
  | [] => (false, [])
  end.

(** The exponent part; [None] when there is an [e] without digits. *)
Definition exponent (l : list ascii) : option (Z * list ascii) :=
  match l with
  | c :: l' =>
      if Ascii.eqb c "e" || Ascii.eqb c "E" then
        let (negative, l') := sign l' in
        let (digits, rest) := span is_digit l' in
        match digits with
        | [] => None
        | _ => Some (if negative then - decimal digits else decimal digits, rest)
        end
      else Some (0, l)
  | [] => Some (0, [])
  end.

(** [in >> value] over the whole text: a value when the extraction succeeds
    and the text is exhausted. *)
Definition parse_text (text : list ascii) : option double :=
  let (negative, l) := sign text in
  let (whole, l) := span is_digit l in
  let (fraction, l) := match l with
                       | c :: l' => if Ascii.eqb c "." then span is_digit l' else ([], l)
                       | [] => ([], [])
                       end in
  match whole ++ fraction, exponent l with
  | [], _ | _, None => None
  | digits, Some (e, []) =>
      let significant := (span (fun c => Ascii.eqb c "0") digits).2 in
      let value := of_decimal negative (decimal significant) (Z.of_nat (List.length significant))
                     (e - Z.of_nat (List.length fraction)) in
      if is_finite value then Some value else None
  | _, Some (_, _ :: _) => None
  end.

Example parse_tenth :
  parse_text (list_ascii_of_string "0.1") = Some (S754_finite false 7205759403792794 (-56)).
Proof. vm_compute. reflexivity. Qed.

Example parse_negative : parse_text (list_ascii_of_string "-12.5e1") = Some (S754_finite true 8796093022208000 (-46)).
Proof. vm_compute. reflexivity. Qed.

Example parse_largest :
  parse_text (list_ascii_of_string "1.7976931348623157e308") = Some (S754_finite false 9007199254740991 971).
Proof. vm_compute. reflexivity. Qed.

Example parse_overflow : parse_text (list_ascii_of_string "1.7976931348623159e308") = None.
Proof. vm_compute. reflexivity. Qed.

Example parse_smallest : parse_text (list_ascii_of_string "4.9e-324") = Some (S754_finite false 1 (-1074)).
Proof. vm_compute. reflexivity. Qed.

Example parse_trailing : parse_text (list_ascii_of_string "1.5x") = None.
Proof. vm_compute. reflexivity. Qed.

End Doubles.
