(* ===== verification/KernelManifest.v ===== *)
(** * Kernel benchmark manifests

    [src/benchmark/kernel_benchmark_manifest.cpp] and
    [kernel_benchmark_manifest_schema.cpp]: the schema of a manifest, its typed
    fields and the checks a manifest must pass; [benchmark_comparator.cpp]: the
    comparison of two cells; [kernel_evidence.cpp]: the evidence gate; and the
    decision of [tools/prism-compare-benchmark/main.cpp]. *)

From S2P Require Import Prelude.
From S2P Require Import Doubles.
From S2P Require Import FlatJson.
From Stdlib Require Import Ascii String SpecFloat.
Import FlatJson.

Open Scope Z_scope.

Module KernelManifest.

(** ** Cells *)

Record BenchmarkCell := mkCell {
  bc_model_hash : string;
  bc_quantization_format : string;
  bc_quant_artifact_sha256 : string;
  bc_context_tokens : Z;
  bc_batch_size : Z;
  bc_prompt_fixture_hash : string;
  bc_backend : string;
  bc_os : string;
  bc_gpu_name : string;
  bc_driver_mode : string;
  bc_cuda_driver_version : Z;
  bc_cuda_runtime_version : Z;
  bc_vram_tier_gib : Z;
  bc_hard_cap_bytes : Z;
  bc_op_type : string;
  bc_sequence_phase : string;
  bc_kernel_backend : string;
  bc_kernel_name : string;
  bc_kernel_version : string;
}.

Record BenchmarkComparison := mkComparison {
  bco_same_cell : bool;
  bco_mismatch_reasons : list string;
}.

(** [compare_field]: the reason to append. *)
Definition compare_text (name baseline candidate : string) : list string :=
  if baseline <>s candidate then [(name +:+ "_mismatch")%string] else [].
Definition compare_number (name : string) (baseline candidate : Z) : list string :=
  if baseline <>z candidate then [(name +:+ "_mismatch")%string] else [].

Definition compare_benchmark_cells (baseline candidate : BenchmarkCell) : BenchmarkComparison :=
  let reasons :=
    compare_text "model_hash" (bc_model_hash baseline) (bc_model_hash candidate) ++
    compare_text "quantization_format" (bc_quantization_format baseline) (bc_quantization_format candidate) ++
    compare_text "quant_artifact_sha256" (bc_quant_artifact_sha256 baseline) (bc_quant_artifact_sha256 candidate) ++
    compare_number "context_tokens" (bc_context_tokens baseline) (bc_context_tokens candidate) ++
    compare_number "batch_size" (bc_batch_size baseline) (bc_batch_size candidate) ++
    compare_text "prompt_fixture_hash" (bc_prompt_fixture_hash baseline) (bc_prompt_fixture_hash candidate) ++
    compare_text "backend" (bc_backend baseline) (bc_backend candidate) ++
    compare_text "os" (bc_os baseline) (bc_os candidate) ++
    compare_text "gpu_name" (bc_gpu_name baseline) (bc_gpu_name candidate) ++
    compare_text "driver_mode" (bc_driver_mode baseline) (bc_driver_mode candidate) ++
    compare_number "cuda_driver_version" (bc_cuda_driver_version baseline) (bc_cuda_driver_version candidate) ++
    compare_number "cuda_runtime_version" (bc_cuda_runtime_version baseline) (bc_cuda_runtime_version candidate) ++
    compare_number "vram_tier_gib" (bc_vram_tier_gib baseline) (bc_vram_tier_gib candidate) ++
    compare_number "hard_cap_bytes" (bc_hard_cap_bytes baseline) (bc_hard_cap_bytes candidate) ++
    compare_text "op_type" (bc_op_type baseline) (bc_op_type candidate) ++
    compare_text "sequence_phase" (bc_sequence_phase baseline) (bc_sequence_phase candidate) in
  mkComparison (match reasons with [] => true | _ => false end) reasons.

Definition format_mismatch_reasons (reasons : list string) : string := String.concat "," reasons.

(** ** The evidence gate *)

Record KernelEvidence := mkEvidence {
  ke_schema_valid : bool;
  ke_unknown_fields_present : bool;
  ke_correctness_passed : bool;
  ke_quality_fixture_present : bool;
  ke_quality_passed : bool;
  ke_same_cell_baseline : bool;
  ke_cap_accounted : bool;
  ke_measured_non_certified : bool;
  ke_full_dequant_materialized : bool;
  ke_tensor_core_claimed : bool;
  ke_tensor_core_profiler_artifact_present : bool;
  ke_cuda_involved : bool;
  ke_llama_ggml_cuda_baseline_present : bool;
  ke_vendor_baseline_required : bool;
  ke_vendor_baseline_present : bool;
  ke_workspace_peak_bytes : Z;
  ke_hard_cap_bytes : Z;
  ke_speedup_ratio : spec_float;
  ke_required_speedup_ratio : spec_float;
}.

Record KernelEvidenceDecision := mkEvidenceDecision {
  ked_accepted : bool;
  ked_status : string;
  ked_reason : string;
}.

Definition reject_evidence (reason : string) : KernelEvidenceDecision := mkEvidenceDecision false "rejected" reason.

Definition validate_kernel_evidence (e : KernelEvidence) : KernelEvidenceDecision :=
  if negb (ke_schema_valid e) || ke_unknown_fields_present e then reject_evidence "kernel_schema_required"
  else if ke_full_dequant_materialized e then reject_evidence "full_dequant_materialized"
  else if negb (ke_correctness_passed e) then reject_evidence "cpu_reference_correctness_required"
  else if negb (ke_quality_fixture_present e) || negb (ke_quality_passed e)
       then reject_evidence "quality_fixture_required"
  else if negb (ke_same_cell_baseline e) then reject_evidence "same_cell_baseline_required"
  else if ke_cuda_involved e && negb (ke_llama_ggml_cuda_baseline_present e)
       then reject_evidence "llama_ggml_cuda_baseline_required"
  else if ke_vendor_baseline_required e && negb (ke_vendor_baseline_present e)
       then reject_evidence "vendor_baseline_required"
  else if ke_tensor_core_claimed e && negb (ke_tensor_core_profiler_artifact_present e)
       then reject_evidence "tensor_core_profiler_required"
  else if negb (ke_cap_accounted e) && negb (ke_measured_non_certified e)
       then reject_evidence "allocation_reconciliation_required"
  else if (0 <? ke_hard_cap_bytes e) && (ke_hard_cap_bytes e <? ke_workspace_peak_bytes e)
       then reject_evidence "workspace_exceeds_hard_cap"
  else if Doubles.lt (ke_speedup_ratio e) (ke_required_speedup_ratio e)
       then reject_evidence "kernel_not_faster_than_baseline"
  else if ke_measured_non_certified e then mkEvidenceDecision true "measured-non-certified" "accepted_non_certified"
  else mkEvidenceDecision true "measured" "accepted".

(** ** The manifest *)

Record KernelBenchmarkManifest := mkManifest {
  km_fields : gmap string FlatJsonValue;
  km_cell : BenchmarkCell;
  km_manifest_version : string;
  km_validation_cell_id : string;
  km_tdr_status : string;
  km_application_control_status : string;
  km_baseline_backend : string;
  km_baseline_manifest_hash : string;
  km_correctness_fixture_hash : string;
  km_quality_fixture_hash : string;
  km_compression_status : string;
  km_compression_profile_id : string;
  km_algorithm_family : string;
  km_quality_gate_id : string;
  km_quality_result_path : string;
  km_cap_certification_status : string;
  km_supervisor_status : string;
  km_admission_status : string;
  km_run_outcome : string;
  km_requested_execution_path : string;
  km_actual_execution_path : string;
  km_failure_reason : string;
  km_raw_trial_count : Z;
  km_raw_trial_sha256 : string;
  km_failure_record_sha256 : string;
  km_full_dequant_materialized : bool;
  km_workspace_peak_bytes : Z;
  km_device_resident_bytes : Z;
  km_host_commit_peak_bytes : Z;
  km_unknown_owned_bytes : Z;
  km_kv_payload_bytes : Z;
  km_kv_metadata_bytes : Z;
  km_kv_residual_or_sketch_bytes : Z;
  km_speedup_ratio : spec_float;
  km_ttft_ms : spec_float;
  km_prefill_ms : spec_float;
  km_decode_tokens_per_second : spec_float;
  km_request_tail_ms : spec_float;
  km_effective_bits_per_value : spec_float;
  km_metadata_bits_per_value : spec_float;
  km_compression_decode_overhead_ms : spec_float;
  km_attention_logit_error_p95 : spec_float;
  km_attention_logit_error_p99 : spec_float;
  km_attention_topk_overlap : spec_float;
  km_claim_status : string;
}.

(** [KernelBenchmarkManifestResult]: [inl] is a failure with its error. *)
Definition KernelBenchmarkManifestResult : Type := string + KernelBenchmarkManifest.

(** ** Typed values; [None] where the source returns false *)

Definition is_kind (kind : Kind) (value : FlatJsonValue) : bool :=
  match kind, fv_kind value with
  | StringKind, StringKind | NumberKind, NumberKind | BooleanKind, BooleanKind => true
  | _, _ => false
  end.

(** [text.find_first_of(".-+eE") == npos] *)
Definition no_sign_or_fraction (text : string) : bool :=
  all_chars (fun c => negb (existsb (Ascii.eqb c) (list_ascii_of_string ".-+eE"))) text.

Definition parse_u64 (value : FlatJsonValue) : option Z :=
  if negb (is_kind NumberKind value) || str_empty (fv_text value) || negb (no_sign_or_fraction (fv_text value)) then None
  else
    let (digits, rest) := span is_digit (list_ascii_of_string (fv_text value)) in
    match digits, rest with
    | _ :: _, [] => if decimal digits <=? u64_max then Some (decimal digits) else None
    | _, _ => None
    end.

Definition parse_u32 (value : FlatJsonValue) : option Z :=
  match parse_u64 value with
  | Some parsed => if u32_max <? parsed then None else Some parsed
  | None => None
  end.

Definition parse_double (value : FlatJsonValue) : option spec_float :=
  if negb (is_kind NumberKind value) then None else Doubles.parse_text (list_ascii_of_string (fv_text value)).

Definition parse_bool (value : FlatJsonValue) : option bool :=
  if negb (is_kind BooleanKind value) then None else Some (fv_text value =s "true").

Definition parse_string (value : FlatJsonValue) : option string :=
  if negb (is_kind StringKind value) then None else Some (fv_text value).

Definition parse_non_empty_string (value : FlatJsonValue) : option string :=
  match parse_string value with
  | Some text => if str_empty text then None else Some text
  | None => None
  end.

Definition is_hex (c : ascii) : bool := in_range 48 57 c || in_range 97 102 c || in_range 65 70 c.

Definition valid_optional_sha256 (value : string) : bool :=
  if str_empty value || negb (Nat.eqb (String.length value) 64) then str_empty value else all_chars is_hex value.

(** ** Reading fields *)

Definition invalid_field {A} (key : string) : string + A := inl ("invalid_field:" +:+ key)%string.

Definition read_required {A} (fields : gmap string FlatJsonValue) (key : string)
    (parser : FlatJsonValue -> option A) : string + A :=
  match fields !! key with
  | None => inl ("missing_required_field:" +:+ key)%string
  | Some value => match parser value with Some v => inr v | None => invalid_field key end
  end.

(** An absent field keeps the default. *)
Definition read_optional {A} (fields : gmap string FlatJsonValue) (key : string)
    (parser : FlatJsonValue -> option A) (default : A) : string + A :=
  match fields !! key with
  | None => inr default
  | Some value => match parser value with Some v => inr v | None => invalid_field key end
  end.

Definition validate_optional_field {A} (fields : gmap string FlatJsonValue)
    (parser : FlatJsonValue -> option A) (constraint : A -> bool) (key : string) : string + unit :=
  match fields !! key with
  | None => inr tt
  | Some value =>
      match parser value with
      | Some v => if constraint v then inr tt else invalid_field key
      | None => invalid_field key
      end
  end.

(** ** The schema *)

Definition kernel_manifest_allowed_keys : list string :=
  ["manifest_version"; "validation_cell_id"; "model_hash"; "quantization_format"; "quant_artifact_sha256";
   "context_tokens"; "batch_size"; "prompt_fixture_hash"; "backend"; "os"; "gpu_name"; "driver_mode";
   "tdr_status"; "application_control_status"; "cuda_driver_version"; "cuda_runtime_version"; "vram_tier_gib";
   "hard_cap_bytes"; "op_type"; "sequence_phase"; "kernel_backend"; "kernel_name"; "kernel_version";
   "baseline_backend"; "baseline_manifest_hash"; "correctness_fixture_hash"; "quality_fixture_hash";
   "dequant_fused"; "full_dequant_materialized"; "workspace_bytes"; "workspace_peak_bytes"; "kernel_ms";
   "launch_ms"; "sync_ms"; "transfer_h2d_bytes"; "transfer_d2h_bytes"; "tensor_core_claimed";
   "tensor_core_used"; "profiler_artifact_path"; "profiler_artifact_sha256"; "speedup_ratio"; "claim_status";
   "compression_status"; "compression_profile_id"; "quantization_scope"; "algorithm_family";
   "payload_bits_per_value"; "effective_bits_per_value"; "metadata_bits_per_value"; "key_quant_axis";
   "value_quant_axis"; "pre_rope_or_post_rope"; "group_size"; "residual_fp_window_tokens"; "outlier_policy";
   "rotation_policy"; "rotation_seed"; "projection_policy"; "qjl_residual_bits";
   "dequant_workspace_peak_bytes"; "kv_payload_bytes"; "kv_metadata_bytes"; "kv_residual_or_sketch_bytes";
   "compression_decode_overhead_ms"; "attention_logit_error_p95"; "attention_logit_error_p99";
   "attention_topk_overlap"; "quality_gate_id"; "quality_result_path"; "cap_certification_status";
   "run_outcome"; "supervisor_status"; "admission_status"; "requested_execution_path"; "actual_execution_path";
   "raw_trial_count"; "raw_trial_sha256"; "failure_record_sha256"; "failure_reason"; "device_resident_bytes";
   "host_commit_peak_bytes"; "unknown_owned_bytes"; "ttft_ms"; "prefill_ms"; "decode_tokens_per_second";
   "request_tail_ms"]%string.

Definition kernel_manifest_required_keys : list string :=
  ["manifest_version"; "validation_cell_id"; "model_hash"; "quantization_format"; "quant_artifact_sha256";
   "context_tokens"; "batch_size"; "prompt_fixture_hash"; "backend"; "os"; "gpu_name"; "driver_mode";
   "cuda_driver_version"; "cuda_runtime_version"; "vram_tier_gib"; "hard_cap_bytes"; "op_type";
   "sequence_phase"; "kernel_backend"; "kernel_name"; "kernel_version"; "baseline_backend";
   "baseline_manifest_hash"; "correctness_fixture_hash"; "quality_fixture_hash"; "full_dequant_materialized";
   "workspace_peak_bytes"; "device_resident_bytes"; "host_commit_peak_bytes"; "unknown_owned_bytes"; "ttft_ms";
   "prefill_ms"; "decode_tokens_per_second"; "request_tail_ms"; "speedup_ratio"; "claim_status";
   "compression_status"; "quality_gate_id"; "cap_certification_status"; "run_outcome"; "supervisor_status";
   "admission_status"; "requested_execution_path"; "actual_execution_path"]%string.

Definition one_of (value : string) (allowed : list string) : bool := existsb (String.eqb value) allowed.

Definition valid_vram_tier (value : Z) : bool := existsb (Z.eqb value) [4; 6; 8; 12; 16].

Definition promoted_cap_status (m : KernelBenchmarkManifest) : bool :=
  one_of (km_cap_certification_status m) ["quality-gated"; "validated-benchmark"]%string.

Definition promotable_claim (m : KernelBenchmarkManifest) : bool :=
  one_of (km_claim_status m) ["measured"; "measured-non-certified"]%string.

Definition completed (m : KernelBenchmarkManifest) : bool := km_run_outcome m =s "completed".

Definition kernel_manifest_identity_constraints_ok (m : KernelBenchmarkManifest) : bool :=
  let cell := km_cell m in
  (bc_context_tokens cell <>z 0) && (bc_batch_size cell <>z 0) &&
  valid_vram_tier (bc_vram_tier_gib cell) &&
  (bc_hard_cap_bytes cell <>z 0) && (bc_hard_cap_bytes cell <=? 17179869184) &&
  one_of (bc_driver_mode cell) ["wddm"; "tcc"; "linux"; "unavailable"]%string &&
  (bc_op_type cell =s "matmul") &&
  one_of (bc_sequence_phase cell) ["decode"; "prefill"]%string &&
  one_of (km_claim_status m) ["measured"; "measured-non-certified"; "rejected"; "research-only"]%string &&
  one_of (km_compression_status m) ["none"; "accounting-only"; "reference"; "experimental"]%string &&
  one_of (km_cap_certification_status m)
    ["research-only"; "measured-non-certified"; "quality-gated"; "validated-benchmark"; "rejected"]%string &&
  one_of (km_supervisor_status m) ["not-attempted"; "unavailable"; "active"; "rejected"; "aborted"]%string &&
  one_of (km_admission_status m) ["not-attempted"; "unavailable"; "admitted"; "rejected"; "aborted"]%string &&
  one_of (km_run_outcome m) ["completed"; "skipped"; "unsupported"; "rejected"; "aborted"]%string &&
  (km_unknown_owned_bytes m =? 0) &&
  (completed m || (negb (promotable_claim m) && (km_cap_certification_status m =s "rejected"))) &&
  ((km_requested_execution_path m =s km_actual_execution_path m) ||
   (negb (promotable_claim m) && negb (promoted_cap_status m))) &&
  (negb (promoted_cap_status m) ||
   (completed m && (km_supervisor_status m =s "active") && (km_admission_status m =s "admitted"))) &&
  negb (str_empty (km_requested_execution_path m)) && negb (str_empty (km_actual_execution_path m)).

Definition kernel_manifest_optional_constraints_ok (m : KernelBenchmarkManifest) : bool :=
  let tdr_ok := str_empty (km_tdr_status m) ||
                one_of (km_tdr_status m) ["enabled"; "disabled"; "unavailable"]%string in
  let app_control_ok := str_empty (km_application_control_status m) ||
                one_of (km_application_control_status m) ["allowed"; "blocked"; "unavailable"]%string in
  tdr_ok && app_control_ok.

Definition nonnegative_double (value : spec_float) : bool := Doubles.le Doubles.zero value.
Definition unit_interval (value : spec_float) : bool :=
  Doubles.le Doubles.zero value && Doubles.le value Doubles.one.

Definition validate_optional_schema_fields (fields : gmap string FlatJsonValue) : string + unit :=
  _ ← check_all (validate_optional_field fields parse_bool (fun _ => true))
        ["dequant_fused"; "tensor_core_claimed"; "tensor_core_used"]%string;
  _ ← check_all (validate_optional_field fields parse_u64 (fun _ => true))
        ["workspace_bytes"; "transfer_h2d_bytes"; "transfer_d2h_bytes"; "group_size"; "residual_fp_window_tokens";
         "rotation_seed"; "qjl_residual_bits"; "dequant_workspace_peak_bytes"]%string;
  _ ← check_all (validate_optional_field fields parse_double nonnegative_double)
        ["kernel_ms"; "launch_ms"; "sync_ms"; "payload_bits_per_value"]%string;
  _ ← validate_optional_field fields parse_double unit_interval "attention_topk_overlap";
  check_all (validate_optional_field fields parse_string (fun _ => true))
    ["profiler_artifact_path"; "profiler_artifact_sha256"; "quantization_scope"; "key_quant_axis";
     "value_quant_axis"; "pre_rope_or_post_rope"; "outlier_policy"; "rotation_policy"; "projection_policy"]%string.

(** ** Reading a manifest *)

Definition allowed_key (key : string) : bool := one_of key kernel_manifest_allowed_keys.

Definition check_keys (fields : gmap string FlatJsonValue) : string + unit :=
  _ ← check_all (fun key => refuse_if (negb (allowed_key key)) ("unknown_field:" +:+ key)%string)
        (map fst (ordered_fields fields));
  check_all (fun key => refuse_if (bool_decide (fields !! key = None)) ("missing_required_field:" +:+ key)%string)
    kernel_manifest_required_keys.

(** The required fields, in the order they are read; the others have their
    defaults. *)
Definition read_required_fields (fields : gmap string FlatJsonValue) : string + KernelBenchmarkManifest :=
  manifest_version ← read_required fields "manifest_version" parse_non_empty_string;
  _ ← refuse_if (manifest_version <>s "0.1") "invalid_field:manifest_version";
  validation_cell_id ← read_required fields "validation_cell_id" parse_non_empty_string;
  model_hash ← read_required fields "model_hash" parse_non_empty_string;
  quantization_format ← read_required fields "quantization_format" parse_non_empty_string;
  quant_artifact_sha256 ← read_required fields "quant_artifact_sha256" parse_non_empty_string;
  context_tokens ← read_required fields "context_tokens" parse_u64;
  batch_size ← read_required fields "batch_size" parse_u32;
  prompt_fixture_hash ← read_required fields "prompt_fixture_hash" parse_non_empty_string;
  backend ← read_required fields "backend" parse_non_empty_string;
  os ← read_required fields "os" parse_non_empty_string;
  gpu_name ← read_required fields "gpu_name" parse_non_empty_string;
  driver_mode ← read_required fields "driver_mode" parse_non_empty_string;
  cuda_driver_version ← read_required fields "cuda_driver_version" parse_u32;
  cuda_runtime_version ← read_required fields "cuda_runtime_version" parse_u32;
  vram_tier_gib ← read_required fields "vram_tier_gib" parse_u32;
  hard_cap_bytes ← read_required fields "hard_cap_bytes" parse_u64;
  op_type ← read_required fields "op_type" parse_non_empty_string;
  sequence_phase ← read_required fields "sequence_phase" parse_non_empty_string;
  kernel_backend ← read_required fields "kernel_backend" parse_non_empty_string;
  kernel_name ← read_required fields "kernel_name" parse_non_empty_string;
  kernel_version ← read_required fields "kernel_version" parse_non_empty_string;
  baseline_backend ← read_required fields "baseline_backend" parse_non_empty_string;
  baseline_manifest_hash ← read_required fields "baseline_manifest_hash" parse_non_empty_string;
  correctness_fixture_hash ← read_required fields "correctness_fixture_hash" parse_non_empty_string;
  quality_fixture_hash ← read_required fields "quality_fixture_hash" parse_non_empty_string;
  full_dequant_materialized ← read_required fields "full_dequant_materialized" parse_bool;
  workspace_peak_bytes ← read_required fields "workspace_peak_bytes" parse_u64;
  device_resident_bytes ← read_required fields "device_resident_bytes" parse_u64;
  host_commit_peak_bytes ← read_required fields "host_commit_peak_bytes" parse_u64;
  unknown_owned_bytes ← read_required fields "unknown_owned_bytes" parse_u64;
  ttft_ms ← read_required fields "ttft_ms" parse_double;
  prefill_ms ← read_required fields "prefill_ms" parse_double;
  decode_tokens_per_second ← read_required fields "decode_tokens_per_second" parse_double;
  request_tail_ms ← read_required fields "request_tail_ms" parse_double;
  speedup_ratio ← read_required fields "speedup_ratio" parse_double;
  claim_status ← read_required fields "claim_status" parse_non_empty_string;
  compression_status ← read_required fields "compression_status" parse_non_empty_string;
  quality_gate_id ← read_required fields "quality_gate_id" parse_non_empty_string;
  cap_certification_status ← read_required fields "cap_certification_status" parse_non_empty_string;
  run_outcome ← read_required fields "run_outcome" parse_non_empty_string;
  supervisor_status ← read_required fields "supervisor_status" parse_non_empty_string;
  admission_status ← read_required fields "admission_status" parse_non_empty_string;
  requested_execution_path ← read_required fields "requested_execution_path" parse_non_empty_string;
  actual_execution_path ← read_required fields "actual_execution_path" parse_non_empty_string;
  let cell := mkCell model_hash quantization_format quant_artifact_sha256 context_tokens batch_size
     prompt_fixture_hash backend os gpu_name driver_mode cuda_driver_version cuda_runtime_version vram_tier_gib
     hard_cap_bytes op_type sequence_phase kernel_backend kernel_name kernel_version in
  inr (mkManifest ∅ cell manifest_version validation_cell_id "" "" baseline_backend baseline_manifest_hash
     correctness_fixture_hash quality_fixture_hash compression_status "" "" quality_gate_id ""
     cap_certification_status supervisor_status admission_status run_outcome requested_execution_path
     actual_execution_path "" 0 "" "" full_dequant_materialized workspace_peak_bytes device_resident_bytes
     host_commit_peak_bytes unknown_owned_bytes 0 0 0 speedup_ratio ttft_ms prefill_ms decode_tokens_per_second
     request_tail_ms Doubles.zero Doubles.zero Doubles.zero Doubles.zero Doubles.zero Doubles.zero claim_status).

(** [raw_trial_count], the digests of the raw evidence and the failure reason. *)
Definition read_raw_evidence (fields : gmap string FlatJsonValue) (m : KernelBenchmarkManifest) :
    string + KernelBenchmarkManifest :=
  raw_trial_count ← read_optional fields "raw_trial_count" parse_u64 (km_raw_trial_count m);
  raw_trial_sha256 ← read_optional fields "raw_trial_sha256" parse_string (km_raw_trial_sha256 m);
  failure_record_sha256 ← read_optional fields "failure_record_sha256" parse_string (km_failure_record_sha256 m);
  _ ← refuse_if (negb (valid_optional_sha256 raw_trial_sha256) || negb (valid_optional_sha256 failure_record_sha256))
        "invalid_field:raw_evidence_sha256";
  failure_reason ← read_optional fields "failure_reason" parse_string (km_failure_reason m);
  inr {| m with km_raw_trial_count := raw_trial_count; km_raw_trial_sha256 := raw_trial_sha256;
         km_failure_record_sha256 := failure_record_sha256; km_failure_reason := failure_reason |}.

(** A completed run carries raw trials and no failure; any other outcome the
    reverse. *)
Definition outcome_evidence (m : KernelBenchmarkManifest) : string + unit :=
  if completed m then
    refuse_if ((km_raw_trial_count m =? 0) || str_empty (km_raw_trial_sha256 m) ||
               negb (str_empty (km_failure_reason m)) || negb (str_empty (km_failure_record_sha256 m)))
      "completed_raw_evidence_required"
  else
    refuse_if (str_empty (km_failure_reason m) || str_empty (km_failure_record_sha256 m) ||
               (km_raw_trial_count m <>z 0) || negb (str_empty (km_raw_trial_sha256 m)))
      "failure_evidence_required".

Definition read_optional_fields (fields : gmap string FlatJsonValue) (m : KernelBenchmarkManifest) :
    string + KernelBenchmarkManifest :=
  tdr_status ← read_optional fields "tdr_status" parse_non_empty_string (km_tdr_status m);
  application_control_status ← read_optional fields "application_control_status" parse_non_empty_string
                                 (km_application_control_status m);
  compression_profile_id ← read_optional fields "compression_profile_id" parse_string (km_compression_profile_id m);
  algorithm_family ← read_optional fields "algorithm_family" parse_string (km_algorithm_family m);
  effective_bits_per_value ← read_optional fields "effective_bits_per_value" parse_double
                               (km_effective_bits_per_value m);
  metadata_bits_per_value ← read_optional fields "metadata_bits_per_value" parse_double
                              (km_metadata_bits_per_value m);
  kv_payload_bytes ← read_optional fields "kv_payload_bytes" parse_u64 (km_kv_payload_bytes m);
  kv_metadata_bytes ← read_optional fields "kv_metadata_bytes" parse_u64 (km_kv_metadata_bytes m);
  kv_residual_or_sketch_bytes ← read_optional fields "kv_residual_or_sketch_bytes" parse_u64
                                  (km_kv_residual_or_sketch_bytes m);
  compression_decode_overhead_ms ← read_optional fields "compression_decode_overhead_ms" parse_double
                                     (km_compression_decode_overhead_ms m);
  attention_logit_error_p95 ← read_optional fields "attention_logit_error_p95" parse_double
                                (km_attention_logit_error_p95 m);
  attention_logit_error_p99 ← read_optional fields "attention_logit_error_p99" parse_double
                                (km_attention_logit_error_p99 m);
  attention_topk_overlap ← read_optional fields "attention_topk_overlap" parse_double (km_attention_topk_overlap m);
  quality_result_path ← read_optional fields "quality_result_path" parse_string (km_quality_result_path m);
  inr {| m with km_tdr_status := tdr_status; km_application_control_status := application_control_status;
         km_compression_profile_id := compression_profile_id; km_algorithm_family := algorithm_family;
         km_effective_bits_per_value := effective_bits_per_value; km_metadata_bits_per_value := metadata_bits_per_value;
         km_kv_payload_bytes := kv_payload_bytes; km_kv_metadata_bytes := kv_metadata_bytes;
         km_kv_residual_or_sketch_bytes := kv_residual_or_sketch_bytes;
         km_compression_decode_overhead_ms := compression_decode_overhead_ms;
         km_attention_logit_error_p95 := attention_logit_error_p95;
         km_attention_logit_error_p99 := attention_logit_error_p99;
         km_attention_topk_overlap := attention_topk_overlap; km_quality_result_path := quality_result_path |}.

(** Compression claims need their measurements. *)
Definition compression_evidence_missing (m : KernelBenchmarkManifest) : bool :=
  one_of (km_compression_status m) ["reference"; "experimental"]%string &&
  (Doubles.le (km_effective_bits_per_value m) Doubles.zero || Doubles.le (km_metadata_bits_per_value m) Doubles.zero ||
   (km_kv_payload_bytes m =? 0) || (km_kv_metadata_bytes m =? 0) ||
   Doubles.le (km_compression_decode_overhead_ms m) Doubles.zero || str_empty (km_quality_result_path m)).

Definition identity_digests (m : KernelBenchmarkManifest) : list string :=
  [bc_model_hash (km_cell m); bc_quant_artifact_sha256 (km_cell m); bc_prompt_fixture_hash (km_cell m);
   km_baseline_manifest_hash m; km_correctness_fixture_hash m; km_quality_fixture_hash m].

Definition negative_timing (m : KernelBenchmarkManifest) : bool :=
  existsb (fun d => Doubles.lt d Doubles.zero)
    [km_ttft_ms m; km_prefill_ms m; km_decode_tokens_per_second m; km_request_tail_ms m].

(** The reader after the JSON was parsed. *)
Definition read_manifest_fields (fields : gmap string FlatJsonValue) : KernelBenchmarkManifestResult :=
  _ ← check_keys fields;
  _ ← validate_optional_schema_fields fields;
  m ← read_required_fields fields;
  _ ← refuse_if (negb (forallb valid_optional_sha256 (identity_digests m))) "invalid_field:identity_sha256";
  _ ← refuse_if (negative_timing m) "invalid_field:run_timing";
  m ← read_raw_evidence fields m;
  _ ← outcome_evidence m;
  _ ← refuse_if (negb (kernel_manifest_identity_constraints_ok m)) "manifest_schema_constraint_failed";
  _ ← refuse_if (km_full_dequant_materialized m) "full_dequant_materialized";
  m ← read_optional_fields fields m;
  _ ← refuse_if (negb (kernel_manifest_optional_constraints_ok m)) "manifest_schema_constraint_failed";
  _ ← refuse_if (compression_evidence_missing m) "compression_evidence_required";
  inr {| m with km_fields := fields |}.

Definition kMaxKernelManifestBytes : Z := 64 * 1024.

Definition read_kernel_benchmark_manifest (file : ManifestFile) : KernelBenchmarkManifestResult :=
  let json := read_flat_json_file file kMaxKernelManifestBytes in
  if negb (fr_ok json) then inl (fr_error json) else read_manifest_fields (fr_fields json).

(** ** [tools/prism-compare-benchmark/main.cpp]

    The decision over two manifests; [inl] is the reason of a refusal. *)
Definition compare_manifests (baseline candidate : KernelBenchmarkManifestResult) : string + BenchmarkComparison :=
  baseline ← baseline;
  candidate ← candidate;
  _ ← refuse_if (negb (completed baseline) || negb (completed candidate)) "completed_evidence_required";
  _ ← refuse_if (km_validation_cell_id baseline <>s km_validation_cell_id candidate) "validation_cell_mismatch";
  inr (compare_benchmark_cells (km_cell baseline) (km_cell candidate)).

(** ** Comparing cells *)

(** The same cell: everything but the identity of the kernel. *)
Definition same_cell (a b : BenchmarkCell) : Prop :=
  bc_model_hash a = bc_model_hash b /\ bc_quantization_format a = bc_quantization_format b /\
  bc_quant_artifact_sha256 a = bc_quant_artifact_sha256 b /\ bc_context_tokens a = bc_context_tokens b /\
  bc_batch_size a = bc_batch_size b /\ bc_prompt_fixture_hash a = bc_prompt_fixture_hash b /\
  bc_backend a = bc_backend b /\ bc_os a = bc_os b /\ bc_gpu_name a = bc_gpu_name b /\
  bc_driver_mode a = bc_driver_mode b /\ bc_cuda_driver_version a = bc_cuda_driver_version b /\
  bc_cuda_runtime_version a = bc_cuda_runtime_version b /\ bc_vram_tier_gib a = bc_vram_tier_gib b /\
  bc_hard_cap_bytes a = bc_hard_cap_bytes b /\ bc_op_type a = bc_op_type b /\
  bc_sequence_phase a = bc_sequence_phase b.

Lemma compare_text_nil name a b : compare_text name a b = [] <-> a = b.
Proof. unfold compare_text. destruct (String.eqb_spec a b); cbn; naive_solver. Qed.

Lemma compare_number_nil name a b : compare_number name a b = [] <-> a = b.
Proof. unfold compare_number. destruct (Z.eqb_spec a b); cbn; naive_solver. Qed.

Lemma no_reasons (reasons : list string) : match reasons with [] => true | _ => false end = true <-> reasons = [].
Proof. by destruct reasons. Qed.

Lemma compare_same_cell a b : bco_same_cell (compare_benchmark_cells a b) = true <-> same_cell a b.
Proof.
  unfold compare_benchmark_cells, same_cell. cbv zeta. cbn [bco_same_cell]. rewrite no_reasons.
  by rewrite !app_nil, !compare_text_nil, !compare_number_nil.
Qed.

(** ** Accepted manifests *)

Lemma check_keys_inr fields u :
  check_keys fields = inr u ->
  (forall key, is_Some (fields !! key) -> key ∈ kernel_manifest_allowed_keys) /\
  (forall key, key ∈ kernel_manifest_required_keys -> is_Some (fields !! key)).
Proof.
  unfold check_keys. rewrite error_bind_inr. intros ([] & Ha & Hr). rewrite check_all_inr in Ha, Hr.
  rewrite Forall_forall in Ha, Hr. split.
  - intros key [v Hv]. apply elem_of_map_to_list in Hv. rewrite <- (ordered_fields_perm fields) in Hv.
    specialize (Ha key ltac:(by apply (list_elem_of_fmap_2 fst _ (key, v)))).
    apply refuse_if_inr, negb_false_iff in Ha. unfold allowed_key, one_of in Ha.
    apply existsb_exists in Ha as (k & Hin & <-%String.eqb_eq). by apply list_elem_of_In.
  - intros key Hin. specialize (Hr key Hin). apply refuse_if_inr, bool_decide_eq_false in Hr.
    by apply not_eq_None_Some.
Qed.

(** What the reader has established of a manifest it returns. *)
Record accepted (m : KernelBenchmarkManifest) : Prop := {
  acc_allowed key : is_Some (km_fields m !! key) -> key ∈ kernel_manifest_allowed_keys;
  acc_required key : key ∈ kernel_manifest_required_keys -> is_Some (km_fields m !! key);
  acc_digests : forallb valid_optional_sha256 (identity_digests m) = true;
  acc_timing : negative_timing m = false;
  acc_outcome : outcome_evidence m = inr tt;
  acc_identity : kernel_manifest_identity_constraints_ok m = true;
  acc_fused : km_full_dequant_materialized m = false;
  acc_optional : kernel_manifest_optional_constraints_ok m = true;
  acc_compression : compression_evidence_missing m = false;
}.

Lemma read_raw_evidence_inr fields m m' :
  read_raw_evidence fields m = inr m' ->
  exists count trial record reason,
    m' = {| m with km_raw_trial_count := count; km_raw_trial_sha256 := trial;
                   km_failure_record_sha256 := record; km_failure_reason := reason |}.
Proof.
  unfold read_raw_evidence. repeat setoid_rewrite error_bind_inr.
  intros (? & _ & ? & _ & ? & _ & ? & _ & ? & _ & [= <-]). eauto.
Qed.

Lemma read_optional_fields_keeps fields m m' :
  read_optional_fields fields m = inr m' ->
  identity_digests m' = identity_digests m /\ negative_timing m' = negative_timing m /\
  outcome_evidence m' = outcome_evidence m /\
  kernel_manifest_identity_constraints_ok m' = kernel_manifest_identity_constraints_ok m /\
  km_full_dequant_materialized m' = km_full_dequant_materialized m.
Proof.
  unfold read_optional_fields. intros H.
  repeat (apply error_bind_inr in H; destruct H as (? & _ & H)). injection H as <-. by destruct m.
Qed.

Lemma read_manifest_fields_accepted fields m :
  read_manifest_fields fields = inr m -> accepted m /\ km_fields m = fields.
Proof.
  unfold read_manifest_fields. intros H.
  apply error_bind_inr in H as (? & Hkeys & H). apply check_keys_inr in Hkeys as [Hallow Hreq].
  apply error_bind_inr in H as (_ & _ & H). apply error_bind_inr in H as (m0 & _ & H).
  apply error_bind_inr in H as (? & Hdig & H). apply error_bind_inr in H as (? & Htime & H).
  apply error_bind_inr in H as (m1 & Hraw & H). apply error_bind_inr in H as ([] & Hout & H).
  apply error_bind_inr in H as (? & Hid & H). apply error_bind_inr in H as (? & Hdeq & H).
  apply error_bind_inr in H as (m2 & Hopt & H). apply error_bind_inr in H as (? & Hocon & H).
  apply error_bind_inr in H as (? & Hcomp & H). injection H as <-.
  apply refuse_if_inr in Hdig, Htime, Hid, Hdeq, Hocon, Hcomp. apply negb_false_iff in Hdig, Hid, Hocon.
  apply read_raw_evidence_inr in Hraw as (? & ? & ? & ? & Hm1).
  apply read_optional_fields_keeps in Hopt as (Kd & Kt & Ko & Ki & Kf).
  assert (Hd1 : identity_digests m1 = identity_digests m0) by (rewrite Hm1; by destruct m0).
  assert (Ht1 : negative_timing m1 = negative_timing m0) by (rewrite Hm1; by destruct m0).
  rewrite Hd1 in Kd. rewrite Ht1 in Kt. rewrite Hout in Ko. rewrite Hid in Ki. rewrite Hdeq in Kf.
  rewrite <- Kd in Hdig. rewrite <- Kt in Htime. clear - Hallow Hreq Hdig Htime Ko Ki Kf Hocon Hcomp.
  destruct m2. split; [|done]. by constructor.
Qed.

Lemma read_fields_well_formed file max_bytes : well_formed_fields (fr_fields (read_flat_json_file file max_bytes)).
Proof.
  assert (Hempty : well_formed_fields (∅ : gmap string FlatJsonValue)) by apply map_Forall_empty.
  destruct file as [file|file]; cbn [read_flat_json_file];
    unfold read_windows_flat_json_file, read_posix_flat_json_file; cbv zeta;
    repeat first [ done | apply parse_object_well_formed
                 | match goal with |- well_formed_fields (fr_fields (if ?b then _ else _)) => destruct b end
                 | match goal with |- well_formed_fields (fr_fields (match ?o with Some _ => _ | None => _ end)) => destruct o end ].
Qed.

(** [canonical_kernel_benchmark_manifest_json] of a manifest that was read;
    its fields are not empty. *)
Definition canonical_kernel_benchmark_manifest_json (m : KernelBenchmarkManifest) : list ascii :=
  serialize_fields (km_fields m).

Lemma read_manifest_inv file m :
  read_kernel_benchmark_manifest file = inr m ->
  accepted m /\ well_formed_fields (km_fields m) /\ read_manifest_fields (km_fields m) = inr m.
Proof.
  unfold read_kernel_benchmark_manifest. cbv zeta. destruct (fr_ok _); [|done]. cbn [negb]. intros H.
  pose proof (read_manifest_fields_accepted _ _ H) as [Hacc Hf]. rewrite Hf. split; [done|]. split; [|done].
  apply read_fields_well_formed.
Qed.

Lemma one_of_spec value allowed : one_of value allowed = true <-> value ∈ allowed.
Proof.
  unfold one_of. rewrite existsb_exists. setoid_rewrite String.eqb_eq. rewrite list_elem_of_In. naive_solver.
Qed.

(** A manifest that was read and is written again in canonical form reads
    back as exactly the same manifest, field by field. *)
Theorem canonical_manifest_round_trip file m :
  read_kernel_benchmark_manifest file = inr m ->
  km_fields m <> ∅ /\
  parse_flat_json_object (canonical_kernel_benchmark_manifest_json m) = mkResult true (km_fields m) "" /\
  read_manifest_fields (km_fields m) = inr m.
Proof.
  intros (Hacc & Hwf & Hread)%read_manifest_inv. split; [|split; [by apply parse_serialized|done]].
  intros He. destruct (acc_required m Hacc "model_hash") as [v Hv]; [by apply one_of_spec|].
  by rewrite He in Hv.
Qed.

(** ** Claims of an accepted manifest *)

Lemma accepted_outcome m :
  accepted m ->
  if completed m
  then km_raw_trial_count m <> 0 /\ km_raw_trial_sha256 m <> ""%string /\ km_failure_reason m = ""%string
  else km_raw_trial_count m = 0 /\ km_failure_reason m <> ""%string /\ km_failure_record_sha256 m <> ""%string.
Proof.
  intros Hacc. pose proof (acc_outcome m Hacc) as H. unfold outcome_evidence in H.
  destruct (completed m); apply refuse_if_inr in H; bool_facts; done.
Qed.

(** C30. A manifest the reader accepts has exactly the fields of the schema, a
    cap of at most 16 GiB, no unknown owned memory and no full dequantization.  A
    measured claim or a promoted cap (quality-gated, validated-benchmark) comes
    only from a completed run with raw trials on the path that was requested; a
    promoted cap also needs an active supervisor that admitted the run, which a
    measured claim alone does not ([unadmitted_claim_accepted]); and a run that
    did not complete has a rejected cap, no raw trials and a failure record. *)
Theorem accepted_manifest_is_honest file m :
  read_kernel_benchmark_manifest file = inr m ->
  (forall key, is_Some (km_fields m !! key) -> key ∈ kernel_manifest_allowed_keys) /\
  (forall key, key ∈ kernel_manifest_required_keys -> is_Some (km_fields m !! key)) /\
  bc_hard_cap_bytes (km_cell m) <> 0 /\ bc_hard_cap_bytes (km_cell m) <= 17179869184 /\ km_unknown_owned_bytes m = 0 /\
  km_full_dequant_materialized m = false /\
  (promotable_claim m = true \/ promoted_cap_status m = true ->
     km_run_outcome m = "completed"%string /\ km_raw_trial_count m <> 0 /\ km_raw_trial_sha256 m <> ""%string /\
     km_requested_execution_path m = km_actual_execution_path m) /\
  (promoted_cap_status m = true ->
     km_supervisor_status m = "active"%string /\ km_admission_status m = "admitted"%string) /\
  (km_run_outcome m <> "completed"%string ->
     km_cap_certification_status m = "rejected"%string /\ km_raw_trial_count m = 0 /\
     km_failure_reason m <> ""%string /\ km_failure_record_sha256 m <> ""%string).
Proof.
  intros (Hacc & _ & _)%read_manifest_inv. pose proof (accepted_outcome m Hacc) as Hout.
  pose proof (acc_identity m Hacc) as Hid. unfold kernel_manifest_identity_constraints_ok in Hid. cbv zeta in Hid.
  bool_facts. pose proof (String.eqb_spec (km_run_outcome m) "completed") as Hc. fold (completed m) in Hc.
  repeat match goal with H : (_ || _) = true |- _ =>
    rewrite ?orb_true_iff, ?andb_true_iff, ?negb_true_iff, ?String.eqb_eq in H end.
  destruct (completed m), (promotable_claim m) eqn:Hpc, (promoted_cap_status m) eqn:Hps; inversion Hc;
    split_and!; try done; try apply Hacc; naive_solver.
Qed.

(** The comparison tool accepts two manifests as the same cell only when
    both are completed runs with raw trials, for the same validation cell and the
    same value of every compared field; it accepts every such pair. *)
Theorem comparison_needs_evidence baseline_file candidate_file baseline candidate :
  read_kernel_benchmark_manifest baseline_file = inr baseline ->
  read_kernel_benchmark_manifest candidate_file = inr candidate ->
  (exists r, compare_manifests (read_kernel_benchmark_manifest baseline_file)
               (read_kernel_benchmark_manifest candidate_file) = inr r /\ bco_same_cell r = true) <->
  (km_run_outcome baseline = "completed"%string /\ km_raw_trial_count baseline <> 0 /\
   km_run_outcome candidate = "completed"%string /\ km_raw_trial_count candidate <> 0 /\
   km_validation_cell_id baseline = km_validation_cell_id candidate /\
   same_cell (km_cell baseline) (km_cell candidate)).
Proof.
  intros Hb Hc. rewrite Hb, Hc. apply read_manifest_inv in Hb as (Hb & _), Hc as (Hc & _).
  pose proof (accepted_outcome _ Hb) as Ob. pose proof (accepted_outcome _ Hc) as Oc.
  unfold compare_manifests. cbn [mbind error_bind]. unfold completed in *.
  destruct (String.eqb_spec (km_run_outcome baseline) "completed") as [Eb|Eb];
    destruct (String.eqb_spec (km_run_outcome candidate) "completed") as [Ec|Ec]; cbn; try naive_solver.
  destruct (String.eqb_spec (km_validation_cell_id baseline) (km_validation_cell_id candidate)); cbn; [|naive_solver].
  rewrite <- compare_same_cell. split.
  - intros (r & [= <-] & H). tauto.
  - intros H. eexists. split; [done|]. tauto.
Qed.

(** ** A sample manifest *)

Definition sample_text : list ascii :=
  quoted ("{" +:+
   "'manifest_version': '0.1', 'validation_cell_id': 'cell', " +:+
   "'model_hash': '0123456789abcdef0123456789abcdef0123456789abcdef0123456789abcdef', " +:+
   "'quantization_format': 'q4_k', " +:+
   "'quant_artifact_sha256': '0123456789abcdef0123456789abcdef0123456789abcdef0123456789abcdef', " +:+
   "'context_tokens': 4096, 'batch_size': 1, " +:+
   "'prompt_fixture_hash': '0123456789abcdef0123456789abcdef0123456789abcdef0123456789abcdef', " +:+
   "'backend': 'llama', 'os': 'windows', 'gpu_name': 'gpu', 'driver_mode': 'wddm', " +:+
   "'cuda_driver_version': 12040, 'cuda_runtime_version': 12040, 'vram_tier_gib': 8, " +:+
   "'hard_cap_bytes': 8589934592, 'op_type': 'matmul', 'sequence_phase': 'decode', " +:+
   "'kernel_backend': 'cuda', 'kernel_name': 'k', 'kernel_version': '1', 'baseline_backend': 'ggml', " +:+
   "'baseline_manifest_hash': '0123456789abcdef0123456789abcdef0123456789abcdef0123456789abcdef', " +:+
   "'correctness_fixture_hash': '0123456789abcdef0123456789abcdef0123456789abcdef0123456789abcdef', " +:+
   "'quality_fixture_hash': '0123456789abcdef0123456789abcdef0123456789abcdef0123456789abcdef', " +:+
   "'full_dequant_materialized': false, 'workspace_peak_bytes': 1024, 'device_resident_bytes': 2048, " +:+
   "'host_commit_peak_bytes': 4096, 'unknown_owned_bytes': 0, 'ttft_ms': 1.5, 'prefill_ms': 2.5, " +:+
   "'decode_tokens_per_second': 30.25, 'request_tail_ms': 0.5, 'speedup_ratio': 1.2, " +:+
   "'claim_status': 'measured', 'compression_status': 'none', 'quality_gate_id': 'gate', " +:+
   "'cap_certification_status': 'validated-benchmark', 'run_outcome': 'completed', " +:+
   "'supervisor_status': 'active', 'admission_status': 'admitted', 'requested_execution_path': 'gpu', " +:+
   "'actual_execution_path': 'gpu', 'raw_trial_count': 5, " +:+
   "'raw_trial_sha256': '0123456789abcdef0123456789abcdef0123456789abcdef0123456789abcdef'" +:+ "}")%string.

Definition sample_stat : PosixStat := mkPosixStat true 1 2 (Z.of_nat (List.length sample_text)) 3 4.

Definition sample_file : ManifestFile :=
  OnPosix (mkPosixManifest true (Some sample_stat) [ReadBytes sample_text] (Some sample_stat)).

(** The manifest of a result, [sample_file]'s for a failure. *)
Definition manifest_of (default : KernelBenchmarkManifest) (r : KernelBenchmarkManifestResult) :
    KernelBenchmarkManifest :=
  match r with inr m => m | inl _ => default end.

Definition is_accepted (r : KernelBenchmarkManifestResult) : bool :=
  match r with inr _ => true | inl _ => false end.

Lemma accepted_result r default : is_accepted r = true -> r = inr (manifest_of default r).
Proof. by destruct r. Qed.

Definition empty_cell : BenchmarkCell := mkCell "" "" "" 0 0 "" "" "" "" "" 0 0 0 0 "" "" "" "" "".

Definition empty_manifest : KernelBenchmarkManifest :=
  mkManifest ∅ empty_cell "" "" "" "" "" "" "" "" "" "" "" "" "" "" "" "" "" "" "" "" 0 "" "" false 0 0 0 0 0 0 0
    Doubles.zero Doubles.zero Doubles.zero Doubles.zero Doubles.zero Doubles.zero Doubles.zero Doubles.zero
    Doubles.zero Doubles.zero Doubles.zero "".

Definition sample_manifest : KernelBenchmarkManifest :=
  manifest_of empty_manifest (read_kernel_benchmark_manifest sample_file).

Lemma sample_read : read_kernel_benchmark_manifest sample_file = inr sample_manifest.
Proof. apply accepted_result. vm_compute. reflexivity. Qed.

(** The sample with a claim that is measured and a run that nothing admitted. *)
Definition unadmitted_manifest : KernelBenchmarkManifest :=
  {| sample_manifest with km_cap_certification_status := "measured-non-certified";
     km_supervisor_status := "not-attempted"; km_admission_status := "not-attempted" |}.

Example unadmitted_claim_accepted :
  promotable_claim unadmitted_manifest = true /\ kernel_manifest_identity_constraints_ok unadmitted_manifest = true.
Proof. vm_compute. split; reflexivity. Qed.

Lemma canonical_manifest_round_trip_witness :
  parse_flat_json_object (canonical_kernel_benchmark_manifest_json sample_manifest) =
  mkResult true (km_fields sample_manifest) "".
Proof. exact (proj1 (proj2 (canonical_manifest_round_trip sample_file sample_manifest sample_read))). Defined.

Lemma accepted_manifest_is_honest_witness :
  km_unknown_owned_bytes sample_manifest = 0 /\ promoted_cap_status sample_manifest = true.
Proof.
  destruct (accepted_manifest_is_honest sample_file sample_manifest sample_read) as (_ & _ & _ & _ & H & _).
  split; [exact H|vm_compute; reflexivity].
Defined.

Lemma comparison_needs_evidence_witness :
  exists r, compare_manifests (read_kernel_benchmark_manifest sample_file)
              (read_kernel_benchmark_manifest sample_file) = inr r /\ bco_same_cell r = true.
Proof.
  apply (comparison_needs_evidence sample_file sample_file sample_manifest sample_manifest sample_read sample_read).
  split_and!; first [reflexivity | vm_compute; reflexivity | vm_compute; discriminate | repeat split].
Defined.

End KernelManifest.
