(* ===== verification/TransferMetrics.v ===== *)
(** * Transfer metrics

    [src/benchmark/transfer_metrics.cpp]: the events of a transfer trace, their
    validation and aggregation into observed totals, and the check of a sample
    against the offload policy. *)

From S2P Require Import Prelude.
From Stdlib Require Import Ascii String SpecFloat.

Open Scope Z_scope.

Module TransferMetrics.

Record TransferEvent := mkEvent {
  te_transfer_event_id : string;
  te_plan_entry_id : string;
  te_direction : string;
  te_source_allocation_id : string;
  te_destination_allocation_id : string;
  te_host_memory_kind : string;
  te_stream_id : string;
  te_copy_engine : string;
  te_logical_object_id : string;
  te_submitted_bytes : Z;
  te_completed_bytes : Z;
  te_submit_monotonic_nanoseconds : Z;
  te_start_monotonic_nanoseconds : Z;
  te_finish_monotonic_nanoseconds : Z;
  te_exposed_wait_nanoseconds : Z;
  te_overlap_nanoseconds : Z;
  te_retry : bool;
  te_fallback : bool;
  te_partial : bool;
}.

Record TransferSample := mkSample {
  ts_declared_h2d_bytes : Z;
  ts_declared_d2h_bytes : Z;
  ts_declared_nvme_read_bytes : Z;
  ts_declared_nvme_write_bytes : Z;
  ts_pinned_host_budget_bytes : Z;
  ts_staging_budget_bytes : Z;
  ts_declared_h2d_ms : spec_float;
  ts_declared_d2h_ms : spec_float;
  ts_declared_io_ms : spec_float;
  ts_declared_wait_ms : spec_float;
  ts_observed_h2d_submitted_bytes : Z;
  ts_observed_h2d_completed_bytes : Z;
  ts_observed_d2h_submitted_bytes : Z;
  ts_observed_d2h_completed_bytes : Z;
  ts_observed_pinned_host_peak_bytes : Z;
  ts_observed_staging_peak_bytes : Z;
  ts_instrumentation_mode : string;
  ts_dropped_records : Z;
  ts_events : list TransferEvent;
  ts_prefill_ms : spec_float;
  ts_decode_ms : spec_float;
  ts_time_to_first_token_ms : spec_float;
  ts_decode_tokens_per_second : spec_float;
  ts_token_latency_p50_ms : spec_float;
  ts_token_latency_p95_ms : spec_float;
}.

Record TransferValidationResult := mkValidation {
  tv_ok : bool;
  tv_failure_reason : string;
}.

Definition id_char (c : ascii) : bool :=
  in_range 97 122 c || in_range 65 90 c || in_range 48 57 c ||
  existsb (Ascii.eqb c) (list_ascii_of_string "-_.:/").

Definition bounded_id (value : string) : bool :=
  negb (str_empty value) && Nat.leb (String.length value) 128 && all_chars id_char value.

Definition checked_add (left right : Z) : option Z :=
  if u64_max -64 right <? left then None else Some (left +64 right).

#[export] Instance transfer_checked_add : CheckedAdd checked_add.
Proof.
  constructor. intros a b Ha Hb. unfold checked_add. unfold u64 in *.
  rewrite wrap64_small by (unfold u64; lia).
  destruct (Z.ltb_spec (u64_max - b) a); destruct (Z.leb_spec (a + b) u64_max); try lia; [done|].
  by rewrite wrap64_small by (unfold u64; lia).
Qed.

(** [duration] is an unsigned difference; it wraps when the clocks run
    backwards, which the later comparisons refuse. *)
Definition valid_event (e : TransferEvent) : bool :=
  let direction := (te_direction e =s "h2d") || (te_direction e =s "d2h") in
  let host_kind := (te_host_memory_kind e =s "pageable") || (te_host_memory_kind e =s "pinned") in
  let duration := te_finish_monotonic_nanoseconds e -64 te_start_monotonic_nanoseconds e in
  bounded_id (te_transfer_event_id e) && bounded_id (te_plan_entry_id e) && direction &&
  bounded_id (te_source_allocation_id e) && bounded_id (te_destination_allocation_id e) && host_kind &&
  bounded_id (te_stream_id e) && bounded_id (te_copy_engine e) && bounded_id (te_logical_object_id e) &&
  (0 <? te_submitted_bytes e) && (te_completed_bytes e <=? te_submitted_bytes e) &&
  (0 <? te_submit_monotonic_nanoseconds e) &&
  (te_submit_monotonic_nanoseconds e <=? te_start_monotonic_nanoseconds e) &&
  (te_start_monotonic_nanoseconds e <=? te_finish_monotonic_nanoseconds e) &&
  (te_exposed_wait_nanoseconds e <=? duration) && (te_overlap_nanoseconds e <=? duration) &&
  Bool.eqb (te_partial e) (te_completed_bytes e <? te_submitted_bytes e).

(** ** Aggregation *)

Record Totals := mkTotals { h2d_submitted : Z; h2d_completed : Z; d2h_submitted : Z; d2h_completed : Z }.

Definition is_h2d (e : TransferEvent) : bool := te_direction e =s "h2d".

(** One event; [inl] is the reason of the failure. *)
Definition add_event (t : Totals) (e : TransferEvent) : string + Totals :=
  let submitted := if is_h2d e then h2d_submitted t else d2h_submitted t in
  let completed := if is_h2d e then h2d_completed t else d2h_completed t in
  match checked_add submitted (te_submitted_bytes e) with
  | None => inl "transfer_submitted_bytes_overflow"%string
  | Some submitted =>
      match checked_add completed (te_completed_bytes e) with
      | None => inl "transfer_completed_bytes_overflow"%string
      | Some completed =>
          inr (if is_h2d e then mkTotals submitted completed (d2h_submitted t) (d2h_completed t)
               else mkTotals (h2d_submitted t) (h2d_completed t) submitted completed)
      end
  end.

Fixpoint add_events (ids : gset string) (t : Totals) (events : list TransferEvent) : string + Totals :=
  match events with
  | [] => inr t
  | e :: events =>
      if negb (valid_event e) then inl "transfer_event_invalid"%string
      else if bool_decide (te_transfer_event_id e ∈ ids) then inl "transfer_event_id_duplicate"%string
      else t ← add_event t e; add_events ({[te_transfer_event_id e]} ∪ ids) t events
  end.

Definition set_observed (s : TransferSample) (t : Totals) : TransferSample :=
  {| s with ts_observed_h2d_submitted_bytes := h2d_submitted t; ts_observed_h2d_completed_bytes := h2d_completed t;
            ts_observed_d2h_submitted_bytes := d2h_submitted t; ts_observed_d2h_completed_bytes := d2h_completed t;
            ts_observed_pinned_host_peak_bytes := 0; ts_observed_staging_peak_bytes := 0 |}.

(** [sample] is not null. *)
Definition reconcile_transfer_sample (s : TransferSample) : TransferValidationResult * TransferSample :=
  let cleared := set_observed s (mkTotals 0 0 0 0) in
  if (ts_instrumentation_mode s <>s "ordinary") && (ts_instrumentation_mode s <>s "profiler")
  then (mkValidation false "transfer_instrumentation_mode_invalid", cleared)
  else match add_events ∅ (mkTotals 0 0 0 0) (ts_events s) with
       | inl reason => (mkValidation false reason, cleared)
       | inr t => (mkValidation true "", set_observed s t)
       end.

Definition nvme_policy (policy : string) : bool := (policy =s "nvme-simulated") || (policy =s "nvme-experimental").

Definition validate_transfer_sample (offload_policy : string) (s : TransferSample)
    (transfer_metrics_enabled cold_cache_run : bool) : TransferValidationResult :=
  if offload_policy =s "none" then mkValidation true ""
  else if negb transfer_metrics_enabled then mkValidation false "transfer_metrics_required"
  else if ts_dropped_records s <>z 0 then mkValidation false "transfer_instrumentation_dropped_records"
  else if bool_decide (List.length (ts_events s) = 0%nat) then mkValidation false "observed_transfer_events_required"
  else if (ts_observed_h2d_completed_bytes s =? 0) && (ts_observed_d2h_completed_bytes s =? 0)
       then mkValidation false "observed_transfer_bytes_required"
  else if nvme_policy offload_policy && negb cold_cache_run then mkValidation false "cold_cache_required_for_nvme"
  else if nvme_policy offload_policy &&
          ((ts_declared_nvme_read_bytes s =? 0) && (ts_declared_nvme_write_bytes s =? 0))
       then mkValidation false "declared_nvme_plan_required"
  else mkValidation true "".

(** ** The totals are the sums of the events *)

Definition event_u64 (e : TransferEvent) : Prop :=
  u64 (te_submitted_bytes e) /\ u64 (te_completed_bytes e) /\ u64 (te_start_monotonic_nanoseconds e) /\
  u64 (te_finish_monotonic_nanoseconds e).

(** Bytes of one direction. *)
Definition total (bytes : TransferEvent -> Z) (h2d : bool) (events : list TransferEvent) : Z :=
  sumZ (map bytes (filter (fun e => is_h2d e = h2d) events)).

Definition fits (events : list TransferEvent) : Prop :=
  forall h2d, total te_submitted_bytes h2d events <= u64_max /\ total te_completed_bytes h2d events <= u64_max.

(** Adding without a width. *)
Definition bump (t : Totals) (e : TransferEvent) : Totals :=
  if is_h2d e
  then mkTotals (h2d_submitted t + te_submitted_bytes e) (h2d_completed t + te_completed_bytes e)
                (d2h_submitted t) (d2h_completed t)
  else mkTotals (h2d_submitted t) (h2d_completed t)
                (d2h_submitted t + te_submitted_bytes e) (d2h_completed t + te_completed_bytes e).

Definition totals_u64 (t : Totals) : Prop :=
  u64 (h2d_submitted t) /\ u64 (h2d_completed t) /\ u64 (d2h_submitted t) /\ u64 (d2h_completed t).

Lemma add_event_inr t e t' :
  totals_u64 t -> event_u64 e -> add_event t e = inr t' <-> t' = bump t e /\ totals_u64 t'.
Proof.
  intros (H1 & H2 & H3 & H4) (Hs & Hc & _). unfold add_event, bump. cbv zeta.
  destruct (is_h2d e); rewrite checked_add_spec by done; unfold totals_u64, u64 in *;
    (match goal with |- context [?x <=? ?y] => destruct (Z.leb_spec x y) end; [|split; [done|intros [-> ?]; cbn in *; lia]]);
    rewrite checked_add_spec by done;
    (match goal with |- context [?x <=? ?y] => destruct (Z.leb_spec x y) end; [|split; [done|intros [-> ?]; cbn in *; lia]]);
    (split; [intros [= <-]; cbn; repeat split; lia|intros [-> _]; done]).
Qed.

Lemma totals_split bytes h2d e events :
  total bytes h2d (e :: events) = (if Bool.eqb (is_h2d e) h2d then bytes e else 0) + total bytes h2d events.
Proof.
  unfold total. rewrite filter_cons.
  destruct (decide (is_h2d e = h2d)) as [->|H]; [by rewrite Bool.eqb_reflx|].
  by destruct (is_h2d e), h2d.
Qed.

Lemma total_nonneg bytes h2d events : (forall e, e ∈ events -> 0 <= bytes e) -> 0 <= total bytes h2d events.
Proof.
  induction events as [|e events IH]; intros H; [done|]. rewrite totals_split.
  assert (0 <= bytes e) by (apply H; set_solver). destruct (Bool.eqb _ _); specialize (IH ltac:(set_solver)); lia.
Qed.

Lemma fold_bump events t :
  foldl bump t events =
  mkTotals (h2d_submitted t + total te_submitted_bytes true events) (h2d_completed t + total te_completed_bytes true events)
           (d2h_submitted t + total te_submitted_bytes false events) (d2h_completed t + total te_completed_bytes false events).
Proof.
  revert t; induction events as [|e events IH]; intros t.
  - destruct t. cbn. by rewrite !Z.add_0_r.
  - cbn [foldl]. rewrite IH, !totals_split. unfold bump. destruct (is_h2d e); cbn; f_equal; lia.
Qed.

Lemma fold_bump_mono events t :
  Forall event_u64 events -> totals_u64 (foldl bump t events) -> 
  0 <= h2d_submitted t -> 0 <= h2d_completed t -> 0 <= d2h_submitted t -> 0 <= d2h_completed t -> totals_u64 t.
Proof.
  rewrite Forall_forall. intros He. rewrite fold_bump. unfold totals_u64, u64. cbn. intros.
  assert (forall h, 0 <= total te_submitted_bytes h events)
    by (intros; apply total_nonneg; intros e' (?&?&?)%He; unfold u64 in *; lia).
  assert (forall h, 0 <= total te_completed_bytes h events)
    by (intros; apply total_nonneg; intros e' (?&?&?)%He; unfold u64 in *; lia).
  pose proof (H4 true). pose proof (H4 false). pose proof (H5 true). pose proof (H5 false). lia.
Qed.

Lemma add_events_inr events ids t t' :
  totals_u64 t -> Forall event_u64 events ->
  add_events ids t events = inr t' <->
  Forall (fun e => valid_event e = true /\ te_transfer_event_id e ∉ ids) events /\
  NoDup (te_transfer_event_id <$> events) /\ t' = foldl bump t events /\ totals_u64 t'.
Proof.
  revert ids t; induction events as [|e events IH]; intros ids t Ht He; cbn [add_events foldl].
  - rewrite fmap_nil. split; [intros [= <-]; repeat split; try apply Ht; constructor|naive_solver].
  - apply Forall_cons in He as [He Hes]. rewrite fmap_cons, NoDup_cons, Forall_cons.
    destruct (valid_event e) eqn:Ev; cbn [negb]; [|naive_solver].
    destruct (decide (te_transfer_event_id e ∈ ids)) as [Hin|Hin];
      [rewrite bool_decide_true by done; naive_solver|rewrite bool_decide_false by done].
    rewrite error_bind_inr. setoid_rewrite add_event_inr; [|done|done]. split.
    + intros (t1 & [-> Ht1] & H). apply IH in H as (Hv & Hnd & -> & Hu); [|done|done]. split_and!; try done.
      * eapply Forall_impl; [exact Hv|]. set_solver.
      * intros (f & Hf & Hfin)%list_elem_of_fmap. rewrite Forall_forall in Hv. specialize (Hv f Hfin). set_solver.
    + intros ((_ & Hv) & (Hnin & Hnd) & -> & Hu). exists (bump t e).
      assert (Ht1 : totals_u64 (bump t e)).
      { apply (fold_bump_mono events); try done; destruct Ht as (?&?&?&?), He as (?&?&?);
          unfold bump, u64 in *; destruct (is_h2d e); cbn; lia. }
      split; [done|]. apply IH; [done|done|]. split_and!; try done. apply Forall_forall. intros f Hf.
      rewrite Forall_forall in Hv. destruct (Hv f Hf). split; [done|].
      assert (te_transfer_event_id f ≠ te_transfer_event_id e)
        by (intros E; apply Hnin; rewrite <- E; by apply list_elem_of_fmap_2). set_solver.
Qed.

(** What the observed totals of a sample are meant to be. *)
Definition observed_totals (events : list TransferEvent) : Totals :=
  mkTotals (total te_submitted_bytes true events) (total te_completed_bytes true events)
           (total te_submitted_bytes false events) (total te_completed_bytes false events).

Definition reconcilable (s : TransferSample) : Prop :=
  (ts_instrumentation_mode s = "ordinary"%string \/ ts_instrumentation_mode s = "profiler"%string) /\
  Forall (fun e => valid_event e = true) (ts_events s) /\
  NoDup (te_transfer_event_id <$> ts_events s) /\ fits (ts_events s).

Lemma add_events_totals events t' :
  Forall event_u64 events ->
  add_events ∅ (mkTotals 0 0 0 0) events = inr t' <->
  Forall (fun e => valid_event e = true) events /\ NoDup (te_transfer_event_id <$> events) /\
  t' = observed_totals events /\ fits events.
Proof.
  intros He. rewrite add_events_inr by (done || (repeat split; cbn; lia)). rewrite fold_bump. cbn.
  assert (Hs : forall h, 0 <= total te_submitted_bytes h events).
  { rewrite Forall_forall in He. intros; apply total_nonneg; intros e' (?&?&?)%He; unfold u64 in *; lia. }
  assert (Hc : forall h, 0 <= total te_completed_bytes h events).
  { rewrite Forall_forall in He. intros; apply total_nonneg; intros e' (?&?&?)%He; unfold u64 in *; lia. }
  fold (observed_totals events). unfold fits.
  assert (Hf : totals_u64 (observed_totals events) <-> fits events).
  { unfold totals_u64, u64, fits. cbn. pose proof (Hs true). pose proof (Hs false). pose proof (Hc true).
    pose proof (Hc false). split; [intros ? []; lia|intros H3; pose proof (H3 true); pose proof (H3 false); lia]. }
  unfold fits in Hf. split.
  - intros (Hv & Hnd & -> & Hu). split_and!; try done; [|by apply Hf].
    eapply Forall_impl; [exact Hv|]. naive_solver.
  - intros (Hv & Hnd & -> & Hu). split_and!; try done; [|by apply Hf].
    eapply Forall_impl; [exact Hv|]. set_solver.
Qed.

(** Reconciliation succeeds exactly when the mode is known, every event is
    valid, their identifiers are distinct and no total overflows; the observed
    totals are then the exact sums of the events, and on every failure they are
    zero. *)
Theorem reconcile_transfer_exact s :
  Forall event_u64 (ts_events s) ->
  (tv_ok (reconcile_transfer_sample s).1 = true <-> reconcilable s) /\
  (reconcile_transfer_sample s).2 =
    set_observed s (if tv_ok (reconcile_transfer_sample s).1 then observed_totals (ts_events s)
                    else mkTotals 0 0 0 0).
Proof.
  intros He. unfold reconcile_transfer_sample, reconcilable. cbv zeta.
  destruct (String.eqb_spec (ts_instrumentation_mode s) "ordinary") as [E1|E1];
    destruct (String.eqb_spec (ts_instrumentation_mode s) "profiler") as [E2|E2]; cbn [negb andb];
    [| | |cbn; naive_solver].
  all: destruct (add_events ∅ (mkTotals 0 0 0 0) (ts_events s)) as [reason|t] eqn:E; cbn.
  all: try (apply add_events_totals in E as (Hv & Hnd & -> & Hf); [naive_solver|done]).
  all: split; [|done]; split; [done|]; intros (_ & Hv & Hnd & Hf); exfalso.
  all: rewrite (proj2 (add_events_totals (ts_events s) (observed_totals (ts_events s)) He)) in E; [done|done].
Qed.

(** ** A sample trace *)

Definition sample_event (id : string) (h2d : bool) (bytes : Z) : TransferEvent :=
  mkEvent id "plan-1" (if h2d then "h2d" else "d2h") "host-1" "device-1" "pinned" "stream-0" "ce0" "layer.0"
    bytes bytes 1 2 10 4 3 false false false.

Definition sample_trace : TransferSample :=
  let z := S754_zero false in
  mkSample 0 0 0 0 0 0 z z z z 7 7 7 7 7 7 "ordinary" 0
    [sample_event "e1" true 100; sample_event "e2" false 50; sample_event "e3" true 20] z z z z z z.

Lemma reconcile_transfer_exact_witness :
  (reconcile_transfer_sample sample_trace).2 = set_observed sample_trace (mkTotals 120 120 50 50).
Proof.
  refine (proj2 (reconcile_transfer_exact sample_trace _)).
  repeat constructor; cbn; lia.
Defined.

(** A repeated identifier clears every total. *)
Example duplicate_clears_totals :
  let s := {| sample_trace with ts_events := [sample_event "e1" true 1; sample_event "e1" false 1] |} in
  reconcile_transfer_sample s = (mkValidation false "transfer_event_id_duplicate", set_observed s (mkTotals 0 0 0 0)).
Proof. vm_compute. reflexivity. Qed.

End TransferMetrics.
