(* ===== verification/Policies.v ===== *)
(** * Evidence policies and planners

    The pure decision functions that grade a run: [src/quality/quality_gate.cpp],
    [src/governor/usability_policy.cpp], [profitability_policy.cpp],
    [claim_taxonomy.cpp], [src/kv/kv_compression_policy.cpp], the planners
    [src/offload/offload_planner.cpp] and [src/planner/hybrid_plan.cpp], and the
    order in which [validate_claim_evidence] relies on the others.

    Measurements are binary64 numbers; comparisons with a NaN are false, as in
    C++, and the theorems say where that matters. *)

From S2P Require Import Prelude.
From S2P Require Import Doubles.
From S2P Require Import TransferMetrics.
From Stdlib Require Import Ascii String SpecFloat.
Import TransferMetrics.

Open Scope Z_scope.

Module Policies.

(** ** Quality *)

Record QualityGateInput := mkQualityInput {
  qi_gate : string;
  qi_baseline_score : spec_float;
  qi_observed_score : spec_float;
  qi_max_delta : spec_float;
  qi_deterministic_match : bool;
  qi_retrieval_passed : bool;
}.

Record QualityGateResult := mkQualityResult {
  qr_passed : bool;
  qr_status : string;
  qr_failure_reason : string;
  qr_observed_delta : spec_float;
}.

Definition one_of (value : string) (allowed : list string) : bool := existsb (String.eqb value) allowed.

Definition valid_quality_gate (gate : string) : bool :=
  one_of gate ["none"; "smoke"; "retrieval"; "long-context"]%string.

Definition evaluate_quality_gate (i : QualityGateInput) : QualityGateResult :=
  if negb (valid_quality_gate (qi_gate i)) then mkQualityResult false "failed" "quality_gate_invalid" Doubles.zero
  else if qi_gate i =s "none" then mkQualityResult true "skipped" "" Doubles.zero
  else
    let delta := SFabs (SFsub 53 1024 (qi_observed_score i) (qi_baseline_score i)) in
    if negb (qi_deterministic_match i) then mkQualityResult false "failed" "deterministic_prompt_mismatch" delta
    else if one_of (qi_gate i) ["retrieval"; "long-context"]%string && negb (qi_retrieval_passed i)
         then mkQualityResult false "failed" "retrieval_gate_failed" delta
    else if Doubles.lt (qi_max_delta i) delta then mkQualityResult false "failed" "quality_delta_exceeded" delta
    else mkQualityResult true "passed" "" delta.

(** ** Usability *)

Record UsabilityInput := mkUsabilityInput {
  ui_time_to_first_token_ms : spec_float;
  ui_decode_tokens_per_second : spec_float;
  ui_token_latency_p95_ms : spec_float;
  ui_max_time_to_first_token_ms : spec_float;
  ui_min_decode_tokens_per_second : spec_float;
  ui_max_token_latency_p95_ms : spec_float;
  ui_repeatability_runs : Z;
  ui_required_repeatability_runs : Z;
  ui_repeatability_passed : bool;
}.

(** [UsabilityResult] and [ClaimDecision]. *)
Record PolicyDecision := mkDecision {
  de_accepted : bool;
  de_status : string;
  de_reason : string;
}.

Definition reject (reason : string) : PolicyDecision := mkDecision false "rejected" reason.
Definition accept : PolicyDecision := mkDecision true "accepted" "".

(** [x <= 0.0]. *)
Definition nonpositive (x : spec_float) : bool := Doubles.le x Doubles.zero.

Definition evaluate_usability (i : UsabilityInput) : PolicyDecision :=
  if nonpositive (ui_max_time_to_first_token_ms i) || nonpositive (ui_min_decode_tokens_per_second i) ||
     nonpositive (ui_max_token_latency_p95_ms i) then reject "usability_thresholds_required"
  else if nonpositive (ui_time_to_first_token_ms i) || nonpositive (ui_decode_tokens_per_second i) ||
          nonpositive (ui_token_latency_p95_ms i) then reject "usability_measurements_required"
  else if Doubles.lt (ui_max_time_to_first_token_ms i) (ui_time_to_first_token_ms i)
       then reject "time_to_first_token_exceeded"
  else if Doubles.lt (ui_decode_tokens_per_second i) (ui_min_decode_tokens_per_second i)
       then reject "decode_throughput_below_threshold"
  else if Doubles.lt (ui_max_token_latency_p95_ms i) (ui_token_latency_p95_ms i) then reject "p95_latency_exceeded"
  else if (ui_repeatability_runs i <? ui_required_repeatability_runs i) || negb (ui_repeatability_passed i)
       then reject "repeatability_required"
  else accept.

(** ** Profitability *)

Record ProfitabilityBaseline := mkBaseline {
  pb_cpu_time_to_first_token_ms : spec_float;
  pb_cpu_decode_tokens_per_second : spec_float;
  pb_cpu_peak_bytes : Z;
  pb_validation_cell_id : string;
}.

Record ProfitabilityInput := mkProfitabilityInput {
  pi_policy : string;
  pi_offload_policy : string;
  pi_min_speedup_ratio : spec_float;
  pi_baseline : ProfitabilityBaseline;
  pi_candidate : TransferSample;
  pi_candidate_validation_cell_id : string;
  pi_cap_certified : bool;
  pi_quality_passed : bool;
  pi_transfer_metrics_present : bool;
}.

Record ProfitabilityDecision := mkProfitability {
  pd_accepted : bool;
  pd_status : string;
  pd_reason : string;
  pd_speedup_ratio : spec_float;
  pd_required_speedup_ratio : spec_float;
}.

Definition throughput_speedup (baseline_tps candidate_tps : spec_float) : spec_float :=
  if nonpositive baseline_tps || nonpositive candidate_tps then Doubles.zero
  else SFdiv 53 1024 candidate_tps baseline_tps.

Definition ttft_speedup (baseline_ms candidate_ms : spec_float) : spec_float :=
  if nonpositive baseline_ms || nonpositive candidate_ms then Doubles.zero
  else SFdiv 53 1024 baseline_ms candidate_ms.

Definition valid_profitability_policy (policy : string) : bool := one_of policy ["off"; "warn"; "fail-closed"]%string.

(** The larger of the two speedups. *)
Definition speedup_of (i : ProfitabilityInput) : spec_float :=
  let speedup := throughput_speedup (pb_cpu_decode_tokens_per_second (pi_baseline i))
                   (ts_decode_tokens_per_second (pi_candidate i)) in
  let ttft := ttft_speedup (pb_cpu_time_to_first_token_ms (pi_baseline i))
                (ts_time_to_first_token_ms (pi_candidate i)) in
  if Doubles.lt speedup ttft then ttft else speedup.

Definition evaluate_profitability (i : ProfitabilityInput) : ProfitabilityDecision :=
  let refuse reason := mkProfitability false "rejected" reason Doubles.zero (pi_min_speedup_ratio i) in
  if negb (valid_profitability_policy (pi_policy i)) then refuse "profitability_policy_invalid"%string
  else if pi_policy i =s "off" then mkProfitability true "skipped" "" Doubles.zero (pi_min_speedup_ratio i)
  else if negb (pi_cap_certified i) then refuse "cap_certification_required"%string
  else if negb (pi_quality_passed i) then refuse "quality_gate_required_for_profitability"%string
  else if str_empty (pb_validation_cell_id (pi_baseline i)) || str_empty (pi_candidate_validation_cell_id i)
       then refuse "validation_cell_required"%string
  else if pb_validation_cell_id (pi_baseline i) <>s pi_candidate_validation_cell_id i
       then refuse "validation_cell_mismatch"%string
  else if (pi_offload_policy i <>s "none") && negb (pi_transfer_metrics_present i)
       then refuse "transfer_metrics_required"%string
  else
    let speedup := speedup_of i in
    if nonpositive speedup then refuse "baseline_and_candidate_metrics_required"%string
    else if Doubles.lt speedup (pi_min_speedup_ratio i)
         then mkProfitability false (if pi_policy i =s "warn" then "warn" else "rejected") "offload_not_profitable"
                speedup (pi_min_speedup_ratio i)
    else mkProfitability true "accepted" "" speedup (pi_min_speedup_ratio i).

(** ** Claims *)

Record ClaimEvidence := mkClaim {
  ce_claim_label : string;
  ce_validation_cell_id : string;
  ce_model_hash : string;
  ce_quantization_format : string;
  ce_quant_artifact_sha256 : string;
  ce_simulated_evidence : bool;
  ce_measured_evidence : bool;
  ce_cap_passed : bool;
  ce_quality_passed : bool;
  ce_profitability_passed : bool;
  ce_usability_passed : bool;
  ce_repeatability_passed : bool;
  ce_runbook_present : bool;
}.

Definition valid_claim_label (label : string) : bool :=
  one_of label ["metadata-only"; "simulated"; "measured-offload"; "validated-benchmark"; "deployable-profile";
                "rejected"]%string.

Definition validate_claim_evidence (e : ClaimEvidence) : PolicyDecision :=
  if negb (valid_claim_label (ce_claim_label e)) then reject "claim_label_invalid"
  else if ce_claim_label e =s "rejected" then mkDecision true "rejected" ""
  else if str_empty (ce_validation_cell_id e) then reject "validation_cell_required"
  else if ce_claim_label e =s "metadata-only" then accept
  else if ce_claim_label e =s "simulated" then
    (if ce_simulated_evidence e then accept else reject "simulated_evidence_required")
  else if str_empty (ce_model_hash e) then reject "model_hash_required"
  else if str_empty (ce_quantization_format e) || str_empty (ce_quant_artifact_sha256 e)
       then reject "quantization_evidence_required"
  else if ce_claim_label e =s "measured-offload" then
    (if ce_measured_evidence e then accept else reject "measured_evidence_required")
  else if ce_simulated_evidence e && negb (ce_measured_evidence e)
       then reject "simulated_evidence_cannot_validate_claim"
  else if negb (ce_cap_passed e) then reject "cap_evidence_required"
  else if negb (ce_quality_passed e) then reject "quality_evidence_required"
  else if negb (ce_profitability_passed e) then reject "profitability_evidence_required"
  else if negb (ce_usability_passed e) then reject "usability_evidence_required"
  else if negb (ce_repeatability_passed e) then reject "repeatability_evidence_required"
  else if (ce_claim_label e =s "deployable-profile") && negb (ce_runbook_present e)
       then reject "deployment_runbook_required"
  else accept.

(** ** Evidence bundles

    [validation/evidence_bundle.cpp]: what is known to be present, turned into
    the evidence of a claim. *)

Record EvidenceBundle := mkBundle {
  eb_claim_label : string;
  eb_validation_cell_id : string;
  eb_hard_vram_cap_bytes : Z;
  eb_manifest_present : bool;
  eb_telemetry_present : bool;
  eb_model_hash_present : bool;
  eb_quant_hash_present : bool;
  eb_quality_present : bool;
  eb_profitability_present : bool;
  eb_repeatability_present : bool;
  eb_runbook_present : bool;
  eb_simulated_evidence : bool;
  eb_measured_evidence : bool;
}.

(** A hash that is only known to be there. *)
Definition presence (present : bool) : string := if present then "present"%string else ""%string.

Definition bundle_claim (b : EvidenceBundle) : ClaimEvidence := {|
  ce_claim_label := eb_claim_label b;
  ce_validation_cell_id := eb_validation_cell_id b;
  ce_model_hash := presence (eb_model_hash_present b);
  ce_quantization_format := presence (eb_quant_hash_present b);
  ce_quant_artifact_sha256 := presence (eb_quant_hash_present b);
  ce_simulated_evidence := eb_simulated_evidence b;
  ce_measured_evidence := eb_measured_evidence b;
  ce_cap_passed := true;
  ce_quality_passed := eb_quality_present b;
  ce_profitability_passed := eb_profitability_present b;
  ce_usability_passed := eb_profitability_present b;
  ce_repeatability_passed := eb_repeatability_present b;
  ce_runbook_present := eb_runbook_present b;
|}.

Definition validate_evidence_bundle (b : EvidenceBundle) : PolicyDecision :=
  if str_empty (eb_validation_cell_id b) then reject "validation_cell_required"
  else if (eb_hard_vram_cap_bytes b =? 0) || (17179869184 <? eb_hard_vram_cap_bytes b)
       then reject "hard_vram_cap_out_of_scope"
  else if negb (eb_manifest_present b) || negb (eb_telemetry_present b) then reject "manifest_and_telemetry_required"
  else validate_claim_evidence (bundle_claim b).

(** ** Compression of the KV cache *)

Record KvCompressionInput := mkCompressionInput {
  ki_policy : string;
  ki_baseline_bytes : Z;
  ki_compressed_bytes : Z;
  ki_metadata_bytes : Z;
  ki_quality : QualityGateResult;
}.

Record KvCompressionResult := mkCompression {
  kr_accepted : bool;
  kr_status : string;
  kr_failure_reason : string;
  kr_saved_bytes : Z;
}.

Definition valid_kv_compression_policy (policy : string) : bool :=
  one_of policy ["none"; "accounting-only"; "reference"; "experimental"]%string.

Definition evaluate_kv_compression_claim (i : KvCompressionInput) : KvCompressionResult :=
  if negb (valid_kv_compression_policy (ki_policy i))
  then mkCompression false "rejected" "kv_compression_policy_invalid" 0
  else if one_of (ki_policy i) ["none"; "accounting-only"]%string then mkCompression true (ki_policy i) "" 0
  else if qr_status (ki_quality i) =s "skipped"
       then mkCompression false "rejected" "quality_gate_required_for_compression" 0
  else if negb (qr_passed (ki_quality i)) then mkCompression false "rejected" (qr_failure_reason (ki_quality i)) 0
  else
    let compressed_total := ki_compressed_bytes i +64 ki_metadata_bytes i in
    if ki_baseline_bytes i <=? compressed_total
    then mkCompression false "rejected" "kv_compression_no_memory_savings" 0
    else mkCompression true "accepted" "" (ki_baseline_bytes i -64 compressed_total).

(** ** Planners *)

Record OffloadPlan := mkOffloadPlan {
  op_policy : string;
  op_h2d_bytes : Z;
  op_d2h_bytes : Z;
  op_nvme_read_bytes : Z;
  op_nvme_write_bytes : Z;
  op_pinned_host_peak_bytes : Z;
  op_staging_peak_bytes : Z;
  op_cold_cache_required : bool;
  op_evidence_label : string;
}.

Definition default_OffloadPlan : OffloadPlan := mkOffloadPlan "none" 0 0 0 0 0 0 false "no-offload".

Record OffloadPlanResult := mkOffloadResult {
  or_ok : bool;
  or_failure_reason : string;
  or_plan : OffloadPlan;
}.

Definition valid_offload_policy (policy : string) : bool :=
  one_of policy ["none"; "gpu"; "host-kv"; "nvme-simulated"; "nvme-experimental"]%string.

Definition make_offload_plan (policy : string)
    (pinned_host_budget_bytes staging_buffer_bytes h2d_bytes d2h_bytes nvme_read_bytes nvme_write_bytes : Z)
    (cold_cache_run : bool) : OffloadPlanResult :=
  if negb (valid_offload_policy policy) then mkOffloadResult false "offload_policy_invalid" default_OffloadPlan
  else
    let cold_cache_required := nvme_policy policy in
    let plan := mkOffloadPlan policy h2d_bytes d2h_bytes nvme_read_bytes nvme_write_bytes pinned_host_budget_bytes
                  staging_buffer_bytes cold_cache_required
                  (if policy =s "none" then "no-offload" else "measured-offload") in
    if one_of policy ["host-kv"; "nvme-simulated"; "nvme-experimental"]%string && (pinned_host_budget_bytes =? 0)
    then mkOffloadResult false "pinned_host_budget_required" plan
    else if (policy <>s "none") && (staging_buffer_bytes =? 0)
         then mkOffloadResult false "staging_buffer_required" plan
    else if cold_cache_required && negb cold_cache_run
         then mkOffloadResult false "cold_cache_required_for_nvme" plan
    else mkOffloadResult true "" plan.

Record HybridPlan := mkHybridPlan {
  hp_model_id : string;
  hp_validation_cell_id : string;
  hp_model_parameter_bucket : string;
  hp_parameter_count : Z;
  hp_hard_vram_cap_bytes : Z;
  hp_resident_weight_bytes : Z;
  hp_weight_payload_bytes : Z;
  hp_weight_metadata_bytes : Z;
  hp_resident_kv_bytes : Z;
  hp_workspace_bytes : Z;
  hp_runtime_overhead_bytes : Z;
  hp_safety_margin_bytes : Z;
  hp_host_budget_bytes : Z;
  hp_nvme_budget_bytes : Z;
  hp_expected_time_to_first_token_ms : spec_float;
  hp_expected_decode_tokens_per_second : spec_float;
  hp_claim_label : string;
}.

Record HybridPlanResult := mkHybridResult {
  hr_ok : bool;
  hr_failure_reason : string;
  hr_resident_gpu_total_bytes : Z;
  hr_plan : HybridPlan;
}.

Definition kMaxGpuCapBytes : Z := 17179869184.

Definition add_u64 (lhs rhs : Z) : option Z := if u64_max -64 lhs <? rhs then None else Some (lhs +64 rhs).

Definition resident_parts (p : HybridPlan) : list Z :=
  [hp_resident_weight_bytes p; hp_weight_metadata_bytes p; hp_resident_kv_bytes p; hp_workspace_bytes p;
   hp_runtime_overhead_bytes p; hp_safety_margin_bytes p].

Definition validate_hybrid_plan (p : HybridPlan) : HybridPlanResult :=
  if (hp_hard_vram_cap_bytes p =? 0) || (kMaxGpuCapBytes <? hp_hard_vram_cap_bytes p)
  then mkHybridResult false "hard_vram_cap_out_of_scope" 0 p
  else match checked_sum_from add_u64 0 (resident_parts p) with
       | None => mkHybridResult false "resident_gpu_total_overflow" 0 p
       | Some total =>
           if hp_hard_vram_cap_bytes p <? total then mkHybridResult false "resident_gpu_budget_exceeded" total p
           else mkHybridResult true "" total p
       end.

Definition make_90b_simulated_plan (hard_vram_cap_bytes : Z) : HybridPlan :=
  let gib := 1024 * 1024 * 1024 in
  let mib := 1024 * 1024 in
  mkHybridPlan "90b-hybrid-simulated" "simulated-90b-under-16gib" ">85B-90B" 90000000000 hard_vram_cap_bytes
    (8 * gib) (48 * gib) (512 * mib) (2 * gib) gib gib (512 * mib) (128 * gib) (512 * gib)
    Doubles.zero Doubles.zero "simulated".

(** ** Claims *)

(** The model and the quantised artifact are named. *)
Definition artifact_identified (e : ClaimEvidence) : Prop :=
  ce_model_hash e <> ""%string /\ ce_quantization_format e <> ""%string /\ ce_quant_artifact_sha256 e <> ""%string.

Definition gates_passed (e : ClaimEvidence) : Prop :=
  ce_cap_passed e = true /\ ce_quality_passed e = true /\ ce_profitability_passed e = true /\
  ce_usability_passed e = true /\ ce_repeatability_passed e = true.

(** The evidence each label stands for. *)
Definition claim_supported (e : ClaimEvidence) : Prop :=
  ce_claim_label e = "rejected"%string \/
  ce_validation_cell_id e <> ""%string /\
  (ce_claim_label e = "metadata-only"%string \/
   ce_claim_label e = "simulated"%string /\ ce_simulated_evidence e = true \/
   artifact_identified e /\
   (ce_claim_label e = "measured-offload"%string /\ ce_measured_evidence e = true \/
    (ce_claim_label e = "validated-benchmark"%string \/
     ce_claim_label e = "deployable-profile"%string /\ ce_runbook_present e = true) /\
    gates_passed e /\ (ce_simulated_evidence e = true -> ce_measured_evidence e = true))).

Lemma eq_True (P : Prop) : P -> (P <-> True).
Proof. tauto. Qed.

Lemma eq_False (P : Prop) : ~ P -> (P <-> False).
Proof. tauto. Qed.

(** Equations between labels decide. *)
Ltac constant_labels :=
  repeat match goal with
  | |- context [String ?c ?s = String ?d ?t] =>
      first [ rewrite (eq_True (String c s = String d t)) by reflexivity
            | rewrite (eq_False (String c s = String d t)) by discriminate ]
  end.

Lemma one_of_cons value v allowed :
  one_of value (v :: allowed) = true <-> value = v \/ one_of value allowed = true.
Proof. unfold one_of. cbn. rewrite orb_true_iff, String.eqb_eq. done. Qed.

Lemma valid_claim_label_cases e :
  valid_claim_label (ce_claim_label e) = true <->
  ce_claim_label e = "metadata-only"%string \/ ce_claim_label e = "simulated"%string \/
  ce_claim_label e = "measured-offload"%string \/ ce_claim_label e = "validated-benchmark"%string \/
  ce_claim_label e = "deployable-profile"%string \/ ce_claim_label e = "rejected"%string.
Proof. unfold valid_claim_label. rewrite !one_of_cons. cbn. naive_solver. Qed.

Lemma claim_supported_accepted e : de_accepted (validate_claim_evidence e) = true <-> claim_supported e.
Proof.
  destruct (valid_claim_label (ce_claim_label e)) eqn:Hv.
  - assert (Hc := proj1 (valid_claim_label_cases e) Hv).
    unfold validate_claim_evidence, claim_supported, artifact_identified, gates_passed. rewrite Hv. cbn [negb].
    observe de_accepted as accepted.
    destruct Hc as [->|[->|[->|[->|[->| ->]]]]]; cbn -[accepted str_empty]; cascade; unfold accepted;
      bool_iff; cbn; rewrite ?andb_false_iff, ?orb_true_iff; bool_iff; constant_labels;
      destruct (ce_simulated_evidence e), (ce_measured_evidence e); cbn; intuition congruence.
  - unfold validate_claim_evidence. rewrite Hv. split; [done|]. intros H. exfalso.
    apply not_true_iff_false in Hv. apply Hv, valid_claim_label_cases. unfold claim_supported in H. naive_solver.
Qed.

(** A claim is accepted exactly when the evidence its label stands for is
    there: each label above metadata needs strictly more, and simulated evidence
    alone never supports a validated or deployable claim. *)
Theorem claim_accepted_iff e : de_accepted (validate_claim_evidence e) = true <-> claim_supported e.
Proof. apply claim_supported_accepted. Qed.

(** A validated claim needs no measured evidence when no simulated evidence
    is declared either. *)
Example validated_without_measurement :
  de_accepted (validate_claim_evidence
    (mkClaim "validated-benchmark" "cell" "m" "q" "s" false false true true true true true false)) = true.
Proof. reflexivity. Qed.

(** An accepted bundle names its cell, has a cap within the policy and both
    records, and carries the evidence of its label. *)
Theorem bundle_accepted_iff b : 0 <= eb_hard_vram_cap_bytes b ->
  de_accepted (validate_evidence_bundle b) = true <->
  eb_validation_cell_id b <> ""%string /\ 0 < eb_hard_vram_cap_bytes b <= 17179869184 /\
  eb_manifest_present b = true /\ eb_telemetry_present b = true /\ claim_supported (bundle_claim b).
Proof.
  intros H0. unfold validate_evidence_bundle. destruct (str_empty (eb_validation_cell_id b)) eqn:Hc.
  { apply str_empty_true in Hc. split; [done|]. tauto. }
  apply str_empty_false in Hc.
  destruct (_ || _) eqn:Hb; [split; [done|]; intros; bool_facts; lia|].
  destruct (eb_manifest_present b), (eb_telemetry_present b); cbn [negb orb]; try (split; [done|]; intuition congruence).
  rewrite claim_supported_accepted. bool_facts. intuition lia.
Qed.

(** ** Measurements *)

(** For measurements and thresholds that are numbers, usability is accepted
    exactly when all of them are positive, the measured times are within and the
    throughput reaches its threshold, and enough repeated runs passed. *)
Theorem usability_accepted_iff i :
  Forall Doubles.is_number
    [ui_time_to_first_token_ms i; ui_decode_tokens_per_second i; ui_token_latency_p95_ms i;
     ui_max_time_to_first_token_ms i; ui_min_decode_tokens_per_second i; ui_max_token_latency_p95_ms i] ->
  de_accepted (evaluate_usability i) = true <->
  Forall (fun x => Doubles.lt Doubles.zero x = true)
    [ui_time_to_first_token_ms i; ui_decode_tokens_per_second i; ui_token_latency_p95_ms i;
     ui_max_time_to_first_token_ms i; ui_min_decode_tokens_per_second i; ui_max_token_latency_p95_ms i] /\
  Doubles.le (ui_time_to_first_token_ms i) (ui_max_time_to_first_token_ms i) = true /\
  Doubles.le (ui_min_decode_tokens_per_second i) (ui_decode_tokens_per_second i) = true /\
  Doubles.le (ui_token_latency_p95_ms i) (ui_max_token_latency_p95_ms i) = true /\
  ui_required_repeatability_runs i <= ui_repeatability_runs i /\ ui_repeatability_passed i = true.
Proof.
  rewrite !Forall_cons. intros (H1 & H2 & H3 & H4 & H5 & H6 & _).
  assert (Hz : Doubles.is_number Doubles.zero) by done.
  unfold evaluate_usability, nonpositive. observe de_accepted as accepted. cascade. unfold accepted.
  bool_iff. rewrite !Doubles.lt_false_le, !Doubles.le_false_lt by done. cbn. rewrite Forall_nil. tauto.
Qed.

(** Not a number passes every threshold. *)
Example nan_is_usable :
  de_accepted (evaluate_usability
    (mkUsabilityInput S754_nan S754_nan S754_nan Doubles.one Doubles.one Doubles.one 3 3 true)) = true.
Proof. reflexivity. Qed.

Example nan_passes_quality :
  qr_passed (evaluate_quality_gate (mkQualityInput "smoke" Doubles.one S754_nan Doubles.zero true true)) = true.
Proof. reflexivity. Qed.

(** ** Compression *)

(** A compression claim is accepted with savings exactly when the gate
    passed and, as integers, the compressed bytes and metadata are fewer than the
    baseline; the savings are the exact difference. *)
Theorem compression_savings_exact i :
  u64 (ki_baseline_bytes i) -> 0 <= ki_compressed_bytes i -> 0 <= ki_metadata_bytes i ->
  ki_compressed_bytes i + ki_metadata_bytes i <= u64_max ->
  (kr_status (evaluate_kv_compression_claim i) = "accepted"%string <->
   one_of (ki_policy i) ["reference"; "experimental"]%string = true /\ qr_passed (ki_quality i) = true /\
   qr_status (ki_quality i) <> "skipped"%string /\
   ki_compressed_bytes i + ki_metadata_bytes i < ki_baseline_bytes i) /\
  (kr_status (evaluate_kv_compression_claim i) = "accepted"%string ->
   kr_saved_bytes (evaluate_kv_compression_claim i) =
     ki_baseline_bytes i - (ki_compressed_bytes i + ki_metadata_bytes i)).
Proof.
  intros Hb Hc Hm Hs. unfold u64 in Hb. unfold evaluate_kv_compression_claim, valid_kv_compression_policy, one_of.
  cbn [existsb]. rewrite (wrap64_small (ki_compressed_bytes i + _)) by (unfold u64; lia). cbv zeta.
  destruct (String.eqb_spec (ki_policy i) "none") as [->|H1]; [cbn; split; [split; [done|naive_solver]|done]|].
  destruct (String.eqb_spec (ki_policy i) "accounting-only") as [->|H2];
    [cbn; split; [split; [done|naive_solver]|done]|].
  destruct (String.eqb_spec (ki_policy i) "reference"), (String.eqb_spec (ki_policy i) "experimental"); cbn;
    try (split; [split; [done|naive_solver]|done]).
  all: destruct (String.eqb_spec (qr_status (ki_quality i)) "skipped"); cbn; [naive_solver|].
  all: destruct (qr_passed (ki_quality i)); cbn; [|naive_solver].
  all: destruct (Z.leb_spec (ki_baseline_bytes i) (ki_compressed_bytes i + ki_metadata_bytes i)); cbn;
    [split; [split; [done|intros (?&?&?&?); lia]|done]|].
  all: split; [naive_solver|]; intros _; rewrite wrap64_small by (unfold u64; lia); lia.
Qed.

(** The sum of compressed bytes and metadata wraps: an accepted claim of
    savings although both together exceed the baseline. *)
Example compression_sum_wraps :
  evaluate_kv_compression_claim
    (mkCompressionInput "reference" 100 u64_max 2 (mkQualityResult true "passed" "" Doubles.zero)) =
  mkCompression true "accepted" "" 99.
Proof. reflexivity. Qed.

(** ** Planners *)

#[export] Instance hybrid_add : CheckedAdd add_u64.
Proof.
  constructor. intros a b Ha Hb. unfold add_u64. unfold u64 in *.
  rewrite wrap64_small by (unfold u64; lia).
  destruct (Z.ltb_spec (u64_max - a) b); destruct (Z.leb_spec (a + b) u64_max); try lia; [done|].
  by rewrite wrap64_small by (unfold u64; lia).
Qed.

(** A hybrid plan is valid exactly when its cap is in scope and the exact
    sum of everything resident on the GPU fits it; the total it reports is that
    sum whenever it is representable. *)
Theorem hybrid_plan_exact p :
  Forall u64 (resident_parts p) -> u64 (hp_hard_vram_cap_bytes p) ->
  (hr_ok (validate_hybrid_plan p) = true <->
   0 < hp_hard_vram_cap_bytes p <= kMaxGpuCapBytes /\ sumZ (resident_parts p) <= hp_hard_vram_cap_bytes p) /\
  (hr_ok (validate_hybrid_plan p) = true ->
   hr_resident_gpu_total_bytes (validate_hybrid_plan p) = sumZ (resident_parts p)).
Proof.
  intros Hp Hc. unfold u64 in Hc. unfold validate_hybrid_plan, kMaxGpuCapBytes.
  destruct (Z.eqb_spec (hp_hard_vram_cap_bytes p) 0); cbn [orb hr_ok hr_resident_gpu_total_bytes]; [split; [split; [done|lia]|done]|].
  destruct (Z.ltb_spec 17179869184 (hp_hard_vram_cap_bytes p)); cbn [orb hr_ok hr_resident_gpu_total_bytes]; [split; [split; [done|lia]|done]|].
  rewrite (checked_sum_from_spec add_u64) by (done || (unfold u64; lia)). rewrite Z.add_0_l.
  destruct (Z.leb_spec (sumZ (resident_parts p)) u64_max); cbn [orb hr_ok hr_resident_gpu_total_bytes]; [|split; [split; [done|lia]|done]].
  destruct (Z.ltb_spec (hp_hard_vram_cap_bytes p) (sumZ (resident_parts p))); cbn [orb hr_ok hr_resident_gpu_total_bytes]; split; try done; split; done || lia.
Qed.

(** The simulated 90B plan needs 13 GiB. *)
Example simulated_plan_fits :
  hr_ok (validate_hybrid_plan (make_90b_simulated_plan (13 * 1073741824))) = true /\
  hr_ok (validate_hybrid_plan (make_90b_simulated_plan (13 * 1073741824 - 1))) = false.
Proof. by vm_compute. Qed.

(** A threshold met exactly, a saving of half and the simulated plan. *)
Definition met_exactly : UsabilityInput :=
  mkUsabilityInput Doubles.one Doubles.one Doubles.one Doubles.one Doubles.one Doubles.one 3 3 true.

Lemma usability_accepted_iff_witness : de_accepted (evaluate_usability met_exactly) = true.
Proof.
  apply (usability_accepted_iff met_exactly); [repeat constructor; discriminate|].
  split_and!; [repeat constructor|reflexivity|reflexivity|reflexivity|cbn; lia|reflexivity].
Defined.

Definition halved : KvCompressionInput :=
  mkCompressionInput "reference" 1000 400 100 (mkQualityResult true "passed" "" Doubles.zero).

Lemma compression_savings_exact_witness : kr_saved_bytes (evaluate_kv_compression_claim halved) = 500.
Proof.
  refine (proj2 (compression_savings_exact halved _ _ _ _) _); try (unfold u64; cbn; lia). reflexivity.
Defined.

Definition plan_13_gib : HybridPlan := make_90b_simulated_plan 13958643712.

Lemma hybrid_plan_exact_witness : hr_ok (validate_hybrid_plan plan_13_gib) = true.
Proof.
  apply (proj1 (hybrid_plan_exact plan_13_gib ltac:(repeat constructor; cbn; lia) ltac:(unfold u64; cbn; lia))).
  vm_compute. repeat split; discriminate.
Defined.

End Policies.
