(* ===== verification/KvCache.v ===== *)
(** * KV cache accounting

    [src/kv/kv_cache_ledger.cpp]: the size of a KV cache and the ledger of its
    samples; [src/governor/memory_ledger.cpp] and
    [src/governor/backend_memory_observer.cpp]: the ledger of backend memory.
    [tools/prism-probe/main.cpp] feeds them. *)

From S2P Require Import Prelude.
From S2P Require Import MemoryCap.
From Stdlib Require Import Ascii String.
Import MemoryCap.

Open Scope Z_scope.

Module KvCache.

Record KvCacheProfile := mkProfile {
  kp_layer_count : Z;
  kp_kv_head_count : Z;
  kp_head_dim : Z;
  kp_block_tokens : Z;
  kp_key_bits : Z;
  kp_value_bits : Z;
  kp_bytes_per_token : Z;
  kp_bytes_per_block : Z;
}.

Definition default_KvCacheProfile : KvCacheProfile := mkProfile 0 0 0 16 16 16 0 0.

Record KvCacheSample := mkKvSample {
  ks_logical_tokens : Z;
  ks_active_blocks : Z;
  ks_reusable_blocks : Z;
  ks_evicted_blocks : Z;
  ks_gpu_bytes : Z;
  ks_host_bytes : Z;
  ks_compressed_bytes : Z;
  ks_metadata_bytes : Z;
  ks_unknown_bytes : Z;
  ks_evidence_status : string;
}.

Definition default_KvCacheSample : KvCacheSample := mkKvSample 0 0 0 0 0 0 0 0 0 "estimated".

(** [KvCacheLedgerResult]: the failure reason. *)
Definition KvCacheLedgerResult : Type := option string.

Definition multiply_u64 (lhs rhs : Z) : option Z :=
  if (lhs <>z 0) && (u64_max / lhs <? rhs) then None else Some (lhs *64 rhs).

Definition tier_total (s : KvCacheSample) : Z :=
  ks_gpu_bytes s +64 ks_host_bytes s +64 ks_compressed_bytes s +64 ks_metadata_bytes s +64 ks_unknown_bytes s.

(** [make_kv_cache_profile]; [inl] is the failure reason.  The sum of the bits
    is taken in 32 bits. *)
Definition make_kv_cache_profile (layer_count kv_head_count head_dim block_tokens key_bits value_bits : Z) :
    string + KvCacheProfile :=
  if existsb (Z.eqb 0) [layer_count; kv_head_count; head_dim; block_tokens; key_bits; value_bits]
  then inl "kv_profile_metadata_incomplete"%string
  else if (key_bits mod 8 <>z 0) || (value_bits mod 8 <>z 0)
       then inl "kv_profile_bits_must_be_byte_aligned"%string
  else
    match (heads ← multiply_u64 layer_count kv_head_count;
           values ← multiply_u64 heads head_dim;
           multiply_u64 values (key_bits +32 value_bits)) with
    | None => inl "kv_profile_size_overflow"%string
    | Some bits =>
        let bytes_per_token := bits / 8 in
        match multiply_u64 bytes_per_token block_tokens with
        | None => inl "kv_profile_size_overflow"%string
        | Some bytes_per_block =>
            inr (mkProfile layer_count kv_head_count head_dim block_tokens key_bits value_bits
                   bytes_per_token bytes_per_block)
        end
    end.

(** ** The ledger *)

Record KvCacheLedger := mkLedger {
  kl_profile : KvCacheProfile;
  kl_peak_sample : KvCacheSample;
  kl_has_profile : bool;
}.

Definition new_ledger : KvCacheLedger := mkLedger default_KvCacheProfile default_KvCacheSample false.

Definition record_profile (l : KvCacheLedger) (p : KvCacheProfile) : KvCacheLedgerResult * KvCacheLedger :=
  if (kp_bytes_per_token p =? 0) || (kp_bytes_per_block p =? 0) then (Some "kv_profile_invalid"%string, l)
  else (None, mkLedger p (kl_peak_sample l) true).

Definition set_peak (l : KvCacheLedger) (s : KvCacheSample) : KvCacheLedger :=
  mkLedger (kl_profile l) s (kl_has_profile l).

Definition ledger_sample (l : KvCacheLedger) (s : KvCacheSample) (metadata_budget_bytes : Z) :
    KvCacheLedgerResult * KvCacheLedger :=
  if negb (kl_has_profile l) then (Some "kv_profile_required"%string, l)
  else if (0 <? metadata_budget_bytes) && (metadata_budget_bytes <? ks_metadata_bytes s)
       then (Some "kv_metadata_budget_exceeded"%string, set_peak l s)
  else (None, if tier_total (kl_peak_sample l) <? tier_total s then set_peak l s else l).

(** ** Backend memory *)

(** The fields of [BackendWarmupResult] that the observer reads. *)
Record BackendWarmupResult := mkWarmup {
  bw_backend_owned_peak_bytes : Z;
  bw_backend_external_peak_bytes : Z;
  bw_retained_pool_bytes : Z;
}.

Record BackendMemoryObservation := mkObservation {
  bo_prisminfer_owned_bytes : Z;
  bo_backend_owned_bytes : Z;
  bo_cuda_context_bytes : Z;
  bo_kv_estimated_bytes : Z;
  bo_workspace_estimated_bytes : Z;
  bo_retained_pool_bytes : Z;
  bo_unknown_bytes : Z;
  bo_evidence_status : string;
}.

Definition observe_backend_memory (allocator : CappedAllocatorTracker) (warmup : BackendWarmupResult) :
    BackendMemoryObservation :=
  mkObservation (current_bytes_ allocator) (bw_backend_owned_peak_bytes warmup) 0 0 0
    (bw_retained_pool_bytes warmup) (bw_backend_external_peak_bytes warmup)
    (if bw_backend_external_peak_bytes warmup =? 0 then "observed" else "unknown").

Record MemoryLedgerSnapshot := mkSnapshot {
  ms_prisminfer_owned_bytes : Z;
  ms_backend_owned_bytes : Z;
  ms_retained_pool_bytes : Z;
  ms_unknown_bytes : Z;
}.

Definition record_backend_observation (o : BackendMemoryObservation) : MemoryLedgerSnapshot :=
  mkSnapshot (bo_prisminfer_owned_bytes o) (bo_backend_owned_bytes o) (bo_retained_pool_bytes o) (bo_unknown_bytes o).

Definition certifiable (s : MemoryLedgerSnapshot) : bool := ms_unknown_bytes s =? 0.

(** ** Sizes *)

Lemma multiply_u64_exact a b :
  u64 a -> u64 b -> multiply_u64 a b = if a * b <=? u64_max then Some (a * b) else None.
Proof.
  unfold u64, multiply_u64. intros Ha Hb. destruct (Z.eqb_spec a 0) as [->|Hz]; [done|]. cbn [negb andb].
  destruct (Z.ltb_spec (u64_max / a) b) as [H|H].
  - destruct (Z.leb_spec (a * b) u64_max) as [Hl|]; [|done].
    assert (b <= u64_max / a) by (apply Z.div_le_lower_bound; lia). lia.
  - assert (a * b <= u64_max).
    { pose proof (Z.mul_div_le u64_max a ltac:(lia)). nia. }
    destruct (Z.leb_spec (a * b) u64_max); [|lia]. by rewrite wrap64_small by (unfold u64; nia).
Qed.

Definition exact_bits (layer_count kv_head_count head_dim key_bits value_bits : Z) : Z :=
  layer_count * kv_head_count * head_dim * (key_bits + value_bits).

(** For positive byte-aligned dimensions whose bits add up in 32 bits, a
    profile is made exactly when the sizes fit 64 bits; bytes per token and per
    block are then exact, with nothing lost in the division by eight. *)
Theorem kv_profile_exact layers heads dim block_tokens key_bits value_bits :
  Forall (fun x => 0 < x <= u32_max) [layers; heads; dim; block_tokens; key_bits; value_bits] ->
  key_bits mod 8 = 0 -> value_bits mod 8 = 0 -> key_bits + value_bits <= u32_max ->
  let bits := exact_bits layers heads dim key_bits value_bits in
  bits = 8 * (bits / 8) /\
  make_kv_cache_profile layers heads dim block_tokens key_bits value_bits =
    if (bits <=? u64_max) && (bits / 8 * block_tokens <=? u64_max)
    then inr (mkProfile layers heads dim block_tokens key_bits value_bits (bits / 8) (bits / 8 * block_tokens))
    else inl "kv_profile_size_overflow"%string.
Proof.
  rewrite !Forall_cons. intros (H1 & H2 & H3 & H4 & H5 & H6 & _) Hk Hv Hs. cbv zeta.
  unfold exact_bits. set (n := layers * heads * dim * (key_bits + value_bits)).
  assert (Hn : n = 8 * (n / 8)).
  { apply Z_div_exact_full_2; [lia|]. unfold n. rewrite Z.mul_mod, Z.add_mod, Hk, Hv by lia. cbn.
    by rewrite Z.mul_0_r. }
  split; [done|]. unfold make_kv_cache_profile.
  replace (existsb (Z.eqb 0) _) with false
    by (cbn [existsb]; by rewrite !(proj2 (Z.eqb_neq 0 _)) by lia).
  rewrite Hk, Hv, wrap32_small by (unfold u32; lia). cbn [Z.eqb negb orb].
  rewrite multiply_u64_exact by (unfold u64; lia). destruct (Z.leb_spec (layers * heads) u64_max); [|nia].
  cbn [mbind option_bind]. rewrite multiply_u64_exact by (unfold u64; nia).
  destruct (Z.leb_spec (layers * heads * dim) u64_max); cbn [mbind option_bind].
  - rewrite multiply_u64_exact by (unfold u64; nia). fold n.
    destruct (Z.leb_spec n u64_max) as [Hle|Hgt]; cbn [andb]; [|done].
    assert (0 <= n) by (unfold n; nia). rewrite multiply_u64_exact by (unfold u64; lia).
    by destruct (Z.leb_spec (n / 8 * block_tokens) u64_max).
  - destruct (Z.leb_spec n u64_max); [unfold n in *; nia|]. done.
Qed.

(** The 32-bit sum wraps: a profile of 8 bytes per token instead of 512 MiB. *)
Example kv_profile_bits_wrap :
  make_kv_cache_profile 1 1 1 16 4294967288 72 = inr (mkProfile 1 1 1 16 4294967288 72 8 128).
Proof. reflexivity. Qed.

(** ** The peak *)

(** A sample the ledger can order: its tiers add up in 64 bits and its
    metadata is within the budget. *)
Definition exact_total (s : KvCacheSample) : Z :=
  ks_gpu_bytes s + ks_host_bytes s + ks_compressed_bytes s + ks_metadata_bytes s + ks_unknown_bytes s.

Definition sample_u64 (s : KvCacheSample) : Prop :=
  u64 (ks_gpu_bytes s) /\ u64 (ks_host_bytes s) /\ u64 (ks_compressed_bytes s) /\ u64 (ks_metadata_bytes s) /\
  u64 (ks_unknown_bytes s) /\ exact_total s <= u64_max.

Definition within_budget (budget : Z) (s : KvCacheSample) : Prop := budget = 0 \/ ks_metadata_bytes s <= budget.

Lemma tier_total_exact s : sample_u64 s -> tier_total s = exact_total s.
Proof.
  unfold sample_u64, tier_total, exact_total. generalize (ks_gpu_bytes s) (ks_host_bytes s) (ks_compressed_bytes s)
    (ks_metadata_bytes s) (ks_unknown_bytes s). unfold u64. intros g h c m u (?&?&?&?&?&?).
  rewrite (wrap64_small (g + h)), (wrap64_small (g + h + c)), (wrap64_small (g + h + c + m)), wrap64_small
    by (unfold u64; lia). done.
Qed.

Definition run_samples (l : KvCacheLedger) (budget : Z) (samples : list KvCacheSample) : KvCacheLedger :=
  foldl (fun l s => (ledger_sample l s budget).2) l samples.

(** Over any sequence of samples within the metadata budget the ledger's
    peak is one of them (or the initial one) and no sample exceeds it. *)
Theorem kv_peak_is_maximum l budget samples :
  kl_has_profile l = true -> sample_u64 (kl_peak_sample l) -> u64 budget ->
  Forall (fun s => sample_u64 s /\ within_budget budget s) samples ->
  let peak := kl_peak_sample (run_samples l budget samples) in
  peak ∈ kl_peak_sample l :: samples /\
  Forall (fun s => exact_total s <= exact_total peak) (kl_peak_sample l :: samples).
Proof.
  cbv zeta. intros Hp Hl Hb. revert l Hp Hl. unfold u64 in Hb.
  induction samples as [|s samples IH]; intros l Hp Hl Hall; cbn [run_samples foldl].
  { split; [set_solver|]. by repeat constructor. }
  apply Forall_cons in Hall as [[Hs Hw] Hall]. set (l' := (ledger_sample l s budget).2).
  assert (Hstep : l' = if exact_total (kl_peak_sample l) <? exact_total s then set_peak l s else l).
  { unfold l', ledger_sample. rewrite Hp, !tier_total_exact by done. cbn [negb].
    destruct (Z.ltb_spec 0 budget), (Z.ltb_spec budget (ks_metadata_bytes s)); cbn [andb]; try done.
    destruct Hw; lia. }
  destruct (IH l') as [Hin Hmax]; [|rewrite Hstep; by destruct (_ <? _)|done|].
  { rewrite Hstep. by destruct (_ <? _). }
  fold (run_samples l' budget samples) in *. set (peak := kl_peak_sample (run_samples l' budget samples)) in *.
  apply Forall_cons in Hmax as [Hl' Hmax].
  destruct (Z.ltb_spec (exact_total (kl_peak_sample l)) (exact_total s)); rewrite Hstep in Hin, Hl'; cbn in Hin, Hl'.
  - split; [set_solver|]. repeat constructor; [lia|lia|done].
  - split; [set_solver|]. repeat constructor; [lia|lia|done].
Qed.

(** A sample over the metadata budget replaces the peak even when it is
    smaller. *)
Example budget_failure_lowers_peak :
  let l := mkLedger default_KvCacheProfile (mkKvSample 0 0 0 0 100 0 0 0 0 "estimated") true in
  tier_total (kl_peak_sample (ledger_sample l (mkKvSample 0 0 0 0 0 0 0 2 0 "estimated") 1).2) = 2.
Proof. reflexivity. Qed.

(** A ledger is certifiable exactly when the backend held nothing unaccounted. *)
Lemma certifiable_iff allocator warmup :
  certifiable (record_backend_observation (observe_backend_memory allocator warmup)) = true <->
  bo_evidence_status (observe_backend_memory allocator warmup) = "observed"%string.
Proof. unfold certifiable. cbn. by destruct (_ =? 0). Qed.

Lemma kv_profile_exact_witness :
  make_kv_cache_profile 32 8 128 16 16 16 = inr (mkProfile 32 8 128 16 16 16 131072 2097152).
Proof.
  exact (proj2 (kv_profile_exact 32 8 128 16 16 16 ltac:(repeat constructor; lia) eq_refl eq_refl ltac:(lia))).
Defined.

Definition gpu_sample (bytes : Z) : KvCacheSample := mkKvSample 1 1 0 0 bytes 0 0 64 0 "reconciled".

Lemma kv_peak_is_maximum_witness :
  let l := mkLedger default_KvCacheProfile default_KvCacheSample true in
  kl_peak_sample (run_samples l 128 [gpu_sample 10; gpu_sample 30; gpu_sample 20])
    ∈ [default_KvCacheSample; gpu_sample 10; gpu_sample 30; gpu_sample 20].
Proof.
  refine (proj1 (kv_peak_is_maximum (mkLedger default_KvCacheProfile default_KvCacheSample true) 128
    [gpu_sample 10; gpu_sample 30; gpu_sample 20] eq_refl _ _ _)).
  - closed_bounds.
  - closed_bounds.
  - repeat (apply Forall_cons; split; [split; [closed_bounds|right; cbn; lia]|]). constructor.
Defined.

End KvCache.
