(* ===== verification/QuantizedKernels.v ===== *)
(** * Quantised kernels, CPU references

    [src/kernels/ggml_q4_k_reference.cpp]: the limits of a decode, the widening
    of half-precision numbers, the packed scales and the decoders of Q4_K and
    Q6_K blocks; [src/kernels/q4_decode_gemv.cpp]: the reference matrix-vector
    product over packed nibbles and the comparison of a candidate with it.

    [float] is [spec_float] with 24 bits of precision, evaluated operation by
    operation.  Bytes are [Z]s in [0, 255]. *)

From S2P Require Import Prelude.
From S2P Require Import Doubles.
From Stdlib Require Import Ascii String SpecFloat.

Open Scope Z_scope.

Module QuantizedKernels.

Abbreviation length := List.length (only parsing).

(** ** Binary32 *)

Definition fmul (a b : spec_float) : spec_float := SFmul 24 128 a b.
Definition fadd (a b : spec_float) : spec_float := SFadd 24 128 a b.
Definition fsub (a b : spec_float) : spec_float := SFsub 24 128 a b.

(** [static_cast<float>] of a small integer. *)
Definition float_of_int (n : Z) : spec_float := binary_normalize 24 128 n 0 false.

(** [std::bit_cast<float>]. *)
Definition float_of_bits (bits : Z) : spec_float :=
  let sign := Z.testbit bits 31 in
  let exponent := Z.land (Z.shiftr bits 23) 255 in
  let mantissa := Z.land bits 8388607 in
  if exponent =? 255 then (if mantissa =? 0 then S754_infinity sign else S754_nan)
  else if exponent =? 0 then
    match mantissa with Z.pos m => S754_finite sign m (-149) | _ => S754_zero sign end
  else match mantissa + 8388608 with Z.pos m => S754_finite sign m (exponent - 150) | _ => S754_zero sign end.

(** ** Limits *)

Definition kValuesPerBlock : Z := 256.
Definition kSubblocksPerBlock : nat := 8.
Definition kValuesPerSubblock : nat := 32.

Record GgmlQ4KDecodeLimitsResult := mkLimits {
  dl_ok : bool;
  dl_reason : string;
  dl_decoded_value_count : Z;
}.

(** [max_size] is [std::vector<float>::max_size()]. *)
Definition validate_decode_limits (max_size block_count maximum_decoded_bytes : Z) : GgmlQ4KDecodeLimitsResult :=
  if u64_max / kValuesPerBlock <? block_count then mkLimits false "decoded_value_count_overflow" 0
  else
    let decoded_values := block_count *64 kValuesPerBlock in
    if max_size <? decoded_values then mkLimits false "decoded_value_limit_exceeded" 0
    else if u64_max / 4 <? decoded_values then mkLimits false "decoded_byte_count_overflow" 0
    else
      let decoded_bytes := decoded_values *64 4 in
      if maximum_decoded_bytes <? decoded_bytes then mkLimits false "decoded_byte_limit_exceeded" 0
      else mkLimits true "" decoded_values.

(** ** Half precision *)

(** The loop that moves the leading bit of a subnormal mantissa to bit 10; a
    nonzero 10-bit mantissa needs at most ten rounds. *)
Fixpoint normalize_mantissa (fuel : nat) (mantissa exponent : Z) : Z * Z :=
  match fuel with
  | O => (mantissa, exponent)
  | S fuel => if Z.land mantissa 1024 =? 0
              then normalize_mantissa fuel (Z.shiftl mantissa 1) (exponent - 1)
              else (mantissa, exponent)
  end.

Definition fp16_to_float_bits (bits : Z) : Z :=
  let sign := Z.shiftl (Z.land bits 32768) 16 in
  let exponent := Z.land (Z.shiftr bits 10) 31 in
  let mantissa := Z.land bits 1023 in
  if exponent =? 0 then
    if mantissa =? 0 then sign
    else
      let (mantissa, exponent) := normalize_mantissa 10 mantissa 113 in
      let mantissa := Z.land mantissa 1023 in
      Z.lor (Z.lor sign (Z.shiftl exponent 23)) (Z.shiftl mantissa 13)
  else if exponent =? 31 then Z.lor (Z.lor sign 2139095040) (Z.shiftl mantissa 13)
  else Z.lor (Z.lor sign (Z.shiftl (exponent + 112) 23)) (Z.shiftl mantissa 13).

Definition fp16_to_float (bits : Z) : spec_float := float_of_bits (fp16_to_float_bits bits).

(** ** Q4_K *)

Record GgmlQ4KBlock := mkQ4K {
  q4_delta_fp16 : Z;
  q4_minimum_fp16 : Z;
  q4_scales : list Z;
  q4_quants : list Z;
}.

Definition byte_at (l : list Z) (i : nat) : Z := nth i l 0.

Definition decode_scale_and_minimum (scales : list Z) (subblock : nat) : Z * Z :=
  if Nat.ltb subblock 4 then
    (Z.land (byte_at scales subblock) 63, Z.land (byte_at scales (subblock + 4)) 63)
  else
    (Z.lor (Z.land (byte_at scales (subblock + 4)) 15) (Z.shiftl (Z.shiftr (byte_at scales (subblock - 4)) 6) 4),
     Z.lor (Z.shiftr (byte_at scales (subblock + 4)) 4) (Z.shiftl (Z.shiftr (byte_at scales subblock) 6) 4)).

(** The values of one sub-block. *)
Definition decode_q4_subblock (block : GgmlQ4KBlock) (subblock : nat) : list spec_float :=
  let delta := fp16_to_float (q4_delta_fp16 block) in
  let minimum := fp16_to_float (q4_minimum_fp16 block) in
  let (scale, minimum_scale) := decode_scale_and_minimum (q4_scales block) subblock in
  let scaled_delta := fmul delta (float_of_int scale) in
  let scaled_minimum := fmul minimum (float_of_int minimum_scale) in
  let quant_offset := (subblock / 2 * kValuesPerSubblock)%nat in
  let high_nibble := negb (Nat.eqb (subblock mod 2) 0) in
  map (fun value =>
         let packed := byte_at (q4_quants block) (quant_offset + value) in
         let quant := if high_nibble then Z.shiftr packed 4 else Z.land packed 15 in
         fsub (fmul scaled_delta (float_of_int quant)) scaled_minimum)
      (seq 0 kValuesPerSubblock).

Definition decode_q4_block (block : GgmlQ4KBlock) : list spec_float :=
  List.concat (map (decode_q4_subblock block) (seq 0 kSubblocksPerBlock)).

(** [GgmlQ4KDecodeResult]: [inl] is the reason.  [allocated] is false when
    [std::bad_alloc] is thrown. *)
Definition decode_ggml_q4_k_reference (max_size : Z) (allocated : bool) (blocks : list GgmlQ4KBlock)
    (maximum_decoded_bytes : Z) : string + list spec_float :=
  let limits := validate_decode_limits max_size (Z.of_nat (length blocks)) maximum_decoded_bytes in
  if negb (dl_ok limits) then inl (dl_reason limits)
  else if negb allocated then inl "decoded_allocation_failed"%string
  else inr (List.concat (map decode_q4_block blocks)).

(** ** Q6_K *)

Record GgmlQ6KBlock := mkQ6K {
  q6_low_quants : list Z;
  q6_high_quants : list Z;
  q6_scales : list Z;
  q6_delta_fp16 : Z;
}.

(** [decode_quant]: six bits, offset by 32, stored in an [int8_t]. *)
Definition decode_quant (low_bits high_bits : Z) : Z := Z.lor low_bits (Z.shiftl high_bits 4) - 32.

(** One index of a half: four values, 32 apart in the output.  [low], [high]
    and [scale] are the arrays from their pointers on. *)
Definition write_index (delta : spec_float) (low high scale : list Z) (output_offset : nat)
    (values : list spec_float) (index : nat) : list spec_float :=
  let scale_index := (index / 16)%nat in
  let high_packed := byte_at high index in
  let q1 := decode_quant (Z.land (byte_at low index) 15) (Z.land (Z.shiftr high_packed 0) 3) in
  let q2 := decode_quant (Z.land (byte_at low (index + 32)) 15) (Z.land (Z.shiftr high_packed 2) 3) in
  let q3 := decode_quant (Z.shiftr (byte_at low index) 4) (Z.land (Z.shiftr high_packed 4) 3) in
  let q4 := decode_quant (Z.shiftr (byte_at low (index + 32)) 4) (Z.land (Z.shiftr high_packed 6) 3) in
  let value s q := fmul (fmul delta (float_of_int (byte_at scale (scale_index + s)))) (float_of_int q) in
  let values := <[(output_offset + index)%nat := value 0%nat q1]> values in
  let values := <[(output_offset + index + 32)%nat := value 2%nat q2]> values in
  let values := <[(output_offset + index + 64)%nat := value 4%nat q3]> values in
  <[(output_offset + index + 96)%nat := value 6%nat q4]> values.

(** The halves; the offset and the three pointers advance after each. *)
Fixpoint write_halves (halves : nat) (delta : spec_float) (low high scale : list Z) (output_offset : nat)
    (values : list spec_float) : list spec_float :=
  match halves with
  | O => values
  | S halves =>
      write_halves halves delta (drop 64 low) (drop 32 high) (drop 8 scale) (output_offset + 128)
        (foldl (write_index delta low high scale output_offset) values (seq 0 32))
  end.

Fixpoint write_blocks (blocks : list GgmlQ6KBlock) (output_offset : nat) (values : list spec_float) : list spec_float :=
  match blocks with
  | [] => values
  | block :: blocks =>
      write_blocks blocks (output_offset + 256)
        (write_halves 2 (fp16_to_float (q6_delta_fp16 block)) (q6_low_quants block) (q6_high_quants block)
           (q6_scales block) output_offset values)
  end.

Definition decode_ggml_q6_k_reference (max_size : Z) (allocated : bool) (blocks : list GgmlQ6KBlock)
    (maximum_decoded_bytes : Z) : string + list spec_float :=
  let limits := validate_decode_limits max_size (Z.of_nat (length blocks)) maximum_decoded_bytes in
  if negb (dl_ok limits) then inl (dl_reason limits)
  else if negb allocated then inl "decoded_allocation_failed"%string
  else inr (write_blocks blocks 0 (replicate (Z.to_nat (dl_decoded_value_count limits)) (S754_zero false))).

(** ** The matrix-vector reference *)

Record Q4Block := mkQ4Block { qb_scale : spec_float; qb_packed_values : Z }.

Definition decode_nibble (nibble : Z) (scale : spec_float) : spec_float :=
  fmul (float_of_int (Z.land nibble 15 - 8)) scale.

(** One term of a row; the entries outside the spans are skipped. *)
Definition gemv_term (weights : list Q4Block) (input : list spec_float) (blocks_per_row row : Z)
    (sum : spec_float) (col : nat) : spec_float :=
  let block_index := row *64 blocks_per_row +64 (Z.of_nat col / 2) in
  match weights !! Z.to_nat block_index, input !! col with
  | Some block, Some x =>
      let nibble := if Nat.eqb (col mod 2) 0 then Z.land (qb_packed_values block) 15
                    else Z.land (Z.shiftr (qb_packed_values block) 4) 15 in
      fadd sum (fmul (decode_nibble nibble (qb_scale block)) x)
  | _, _ => sum
  end.

Definition q4_decode_gemv_reference (weights : list Q4Block) (input : list spec_float) (rows cols : nat) :
    list spec_float :=
  let blocks_per_row := (Z.of_nat cols + 1) / 2 in
  map (fun row => foldl (gemv_term weights input blocks_per_row (Z.of_nat row)) (S754_zero false) (seq 0 cols))
      (seq 0 rows).

Record Q4DecodeGemvResult := mkGemvResult {
  gr_ok : bool;
  gr_status : string;
  gr_reason : string;
  gr_max_abs_error : spec_float;
}.

(** [std::max(a, b)] is [a < b ? b : a]. *)
Definition std_max (a b : spec_float) : spec_float := if Doubles.lt a b then b else a.

(** A [float] as a [double]: the value does not change. *)
Definition widen (a : spec_float) : spec_float :=
  match a with
  | S754_finite s m e => binary_normalize 53 1024 (if s then Z.neg m else Z.pos m) e s
  | _ => a
  end.

Definition max_abs_error (candidate reference : list spec_float) : spec_float :=
  foldl (fun e (cr : spec_float * spec_float) => std_max e (widen (SFabs (fsub cr.1 cr.2)))) Doubles.zero
    (combine candidate reference).

Definition compare_q4_decode_gemv_to_reference (candidate reference : list spec_float) (tolerance : spec_float) :
    Q4DecodeGemvResult :=
  if negb (Nat.eqb (length candidate) (length reference))
  then mkGemvResult false "rejected" "output_size_mismatch" Doubles.zero
  else
    let e := max_abs_error candidate reference in
    if Doubles.lt tolerance e then mkGemvResult false "rejected" "correctness_tolerance_exceeded" e
    else mkGemvResult true "accepted" "" e.

(** ** Half precision is widened exactly *)

(** The number a half-precision pattern stands for, in the format of
    [float]. *)
Definition half_value (bits : Z) : spec_float :=
  let sign := 32768 <=? bits in
  let exponent := bits / 1024 mod 32 in
  let mantissa := bits mod 1024 in
  let signed m := if sign then - m else m in
  if exponent =? 31 then (if mantissa =? 0 then S754_infinity sign else S754_nan)
  else if exponent =? 0 then binary_normalize 24 128 (signed mantissa) (-24) sign
  else binary_normalize 24 128 (signed (1024 + mantissa)) (exponent - 25) sign.

(** The [n] values from [z] on. *)
Fixpoint check_from (p : Z -> bool) (z : Z) (n : nat) : bool :=
  match n with
  | O => true
  | S n => p z && check_from p (z + 1) n
  end.

Definition check_below (p : Z -> bool) (n : nat) : bool := check_from p 0 n.

Lemma check_from_spec p z n y : check_from p z n = true -> z <= y < z + Z.of_nat n -> p y = true.
Proof.
  revert z; induction n as [|n IH]; intros z H Hy; [lia|]. cbn [check_from] in H.
  apply andb_true_iff in H as [H1 H2]. destruct (decide (y = z)) as [->|]; [done|]. apply (IH (z + 1)); [done|lia].
Qed.

Lemma check_below_spec p n z : check_below p n = true -> 0 <= z < Z.of_nat n -> p z = true.
Proof. intros H Hz. apply (check_from_spec p 0 n); [done|lia]. Qed.

Definition float_eqb (a b : spec_float) : bool :=
  match a, b with
  | S754_zero s, S754_zero t | S754_infinity s, S754_infinity t => Bool.eqb s t
  | S754_nan, S754_nan => true
  | S754_finite s m e, S754_finite t n f => Bool.eqb s t && Pos.eqb m n && Z.eqb e f
  | _, _ => false
  end.

Lemma float_eqb_eq a b : float_eqb a b = true -> a = b.
Proof.
  destruct a, b; cbn; try done; try (intros ->%Bool.eqb_prop; done).
  intros [[->%Bool.eqb_prop ->%Pos.eqb_eq]%andb_prop ->%Z.eqb_eq]%andb_prop. done.
Qed.

Lemma half_patterns : check_below (fun bits => float_eqb (fp16_to_float bits) (half_value bits)) (Z.to_nat 65536) = true.
Proof. vm_compute. reflexivity. Qed.

(** Every one of the 65536 half-precision patterns, zeros, subnormals,
    infinities and NaNs included, is widened to exactly the number it stands for. *)
Theorem fp16_conversion_exact bits : 0 <= bits < 65536 -> fp16_to_float bits = half_value bits.
Proof.
  intros H. apply float_eqb_eq. apply (check_below_spec _ _ bits half_patterns). lia.
Qed.

(** The loop of a subnormal ends with the leading bit in place. *)
Lemma normalize_mantissa_leads mantissa exponent :
  0 < mantissa < 1024 -> Z.land (normalize_mantissa 10 mantissa exponent).1 1024 = 1024.
Proof.
  intros H. assert (He : forall fuel m e, (normalize_mantissa fuel m e).1 = (normalize_mantissa fuel m 0).1).
  { induction fuel as [|fuel IH]; intros m e; [done|]. cbn [normalize_mantissa].
    destruct (Z.land m 1024 =? 0); [|done]. rewrite IH, (IH _ (0 - 1)). done. }
  rewrite He. assert (Hc : check_below (fun m => (m =? 0) ||
    (Z.land (normalize_mantissa 10 m 0).1 1024 =? 1024)) 1024 = true) by (vm_compute; reflexivity).
  pose proof (check_below_spec _ _ mantissa Hc ltac:(lia)) as H1. cbv beta in H1.
  apply orb_true_iff in H1 as [H1|H1]; apply Z.eqb_eq in H1; [lia|done].
Qed.

(** ** The packed scales *)

(** Eight 6-bit scales and minima in twelve bytes, as GGML packs them. *)
Definition pack_scales (scales minima : list Z) : list Z :=
  map (fun i => Z.lor (byte_at scales i) (Z.shiftl (Z.shiftr (byte_at scales (i + 4)) 4) 6)) (seq 0 4) ++
  map (fun i => Z.lor (byte_at minima i) (Z.shiftl (Z.shiftr (byte_at minima (i + 4)) 4) 6)) (seq 0 4) ++
  map (fun i => Z.lor (Z.land (byte_at scales (i + 4)) 15) (Z.shiftl (Z.land (byte_at minima (i + 4)) 15) 4)) (seq 0 4).

Lemma byte_at_zero x l : byte_at (x :: l) 0 = x.
Proof. done. Qed.

Lemma byte_at_succ x l i : byte_at (x :: l) (S i) = byte_at l i.
Proof. done. Qed.

Definition pair_check (p : Z -> Z -> bool) : bool := check_below (fun a => check_below (p a) 64) 64.

Lemma pair_check_spec p a b : pair_check p = true -> 0 <= a < 64 -> 0 <= b < 64 -> p a b = true.
Proof.
  intros H Ha Hb. unfold pair_check in H. pose proof (check_below_spec _ _ a H ltac:(lia)) as H1.
  exact (check_below_spec _ _ b H1 ltac:(lia)).
Qed.

Lemma low_bits_kept a b : 0 <= a < 64 -> 0 <= b < 64 ->
  Z.land (Z.lor a (Z.shiftl (Z.shiftr b 4) 6)) 63 = a.
Proof.
  intros Ha Hb. apply Z.eqb_eq.
  exact (pair_check_spec (fun a b => Z.land (Z.lor a (Z.shiftl (Z.shiftr b 4) 6)) 63 =? a) a b
    ltac:(vm_compute; reflexivity) Ha Hb).
Qed.

Lemma high_bits_kept a b : 0 <= a < 64 -> 0 <= b < 64 ->
  Z.shiftr (Z.lor a (Z.shiftl (Z.shiftr b 4) 6)) 6 = Z.shiftr b 4.
Proof.
  intros Ha Hb. apply Z.eqb_eq.
  exact (pair_check_spec (fun a b => Z.shiftr (Z.lor a (Z.shiftl (Z.shiftr b 4) 6)) 6 =? Z.shiftr b 4) a b
    ltac:(vm_compute; reflexivity) Ha Hb).
Qed.

Lemma nibbles_kept a b : 0 <= a < 64 -> 0 <= b < 64 ->
  Z.land (Z.lor (Z.land a 15) (Z.shiftl (Z.land b 15) 4)) 15 = Z.land a 15 /\
  Z.shiftr (Z.lor (Z.land a 15) (Z.shiftl (Z.land b 15) 4)) 4 = Z.land b 15.
Proof.
  intros Ha Hb. rewrite <- !Z.eqb_eq, <- andb_true_iff.
  exact (pair_check_spec (fun a b =>
    (Z.land (Z.lor (Z.land a 15) (Z.shiftl (Z.land b 15) 4)) 15 =? Z.land a 15) &&
    (Z.shiftr (Z.lor (Z.land a 15) (Z.shiftl (Z.land b 15) 4)) 4 =? Z.land b 15)) a b
    ltac:(vm_compute; reflexivity) Ha Hb).
Qed.

Lemma six_bits a : 0 <= a < 64 -> Z.lor (Z.land a 15) (Z.shiftl (Z.shiftr a 4) 4) = a.
Proof.
  intros Ha. apply Z.eqb_eq.
  exact (check_below_spec (fun a => Z.lor (Z.land a 15) (Z.shiftl (Z.shiftr a 4) 4) =? a) 64 a
    ltac:(vm_compute; reflexivity) ltac:(lia)).
Qed.

(** The scales and minima of the eight sub-blocks are recovered exactly
    from the twelve bytes GGML packs them into. *)
Theorem packed_scales_round_trip scales minima subblock :
  length scales = 8%nat -> length minima = 8%nat ->
  Forall (fun x => 0 <= x < 64) scales -> Forall (fun x => 0 <= x < 64) minima -> (subblock < 8)%nat ->
  decode_scale_and_minimum (pack_scales scales minima) subblock = (byte_at scales subblock, byte_at minima subblock).
Proof.
  intros Hs Hm Fs Fm Hsub.
  assert (Bs : forall i, 0 <= byte_at scales i < 64).
  { intros i. unfold byte_at. destruct (nth_in_or_default i scales 0) as [Hin| ->]; [|lia].
    rewrite Forall_forall in Fs. by apply Fs, list_elem_of_In. }
  assert (Bm : forall i, 0 <= byte_at minima i < 64).
  { intros i. unfold byte_at. destruct (nth_in_or_default i minima 0) as [Hin| ->]; [|lia].
    rewrite Forall_forall in Fm. by apply Fm, list_elem_of_In. }
  unfold decode_scale_and_minimum, pack_scales. cbn [map seq app Nat.add].
  destruct subblock as [|[|[|[|[|[|[|[|subblock]]]]]]]]; [..|lia]; cbn [Nat.ltb Nat.leb Nat.add Nat.sub];
    rewrite !byte_at_succ, !byte_at_zero.
  1-4: by rewrite !low_bits_kept.
  all: match goal with |- context [Z.lor (Z.land ?a 15) (Z.shiftl (Z.land ?b 15) 4)] =>
         destruct (nibbles_kept a b (Bs _) (Bm _)) as [-> ->] end;
    by rewrite !high_bits_kept, !six_bits.
Qed.

(** ** Sizes *)

Lemma decode_limits_cases max_size blocks maximum_bytes :
  0 <= blocks -> max_size <= u64_max / 4 ->
  let r := validate_decode_limits max_size blocks maximum_bytes in
  (dl_ok r = true <-> blocks * 256 <= max_size /\ blocks * 256 * 4 <= maximum_bytes) /\
  (dl_ok r = true -> dl_decoded_value_count r = blocks * 256).
Proof.
  intros Hb Hm. cbv zeta. unfold validate_decode_limits, kValuesPerBlock. cbv zeta.
  change (u64_max / 4) with 4611686018427387903 in *. change (u64_max / 256) with 72057594037927935.
  destruct (Z.ltb_spec 72057594037927935 blocks); [cbn; split; [split; [done|lia]|done]|].
  rewrite (wrap64_small (blocks * 256)) by (unfold u64; lia).
  destruct (Z.ltb_spec max_size (blocks * 256)); [cbn; split; [split; [done|lia]|done]|].
  destruct (Z.ltb_spec 4611686018427387903 (blocks * 256)); [lia|].
  rewrite wrap64_small by (unfold u64; lia).
  destruct (Z.ltb_spec maximum_bytes (blocks * 256 * 4)); cbn; split; try done; split; done || lia.
Qed.

(** A decode is admitted exactly when, as integers, its values and their
    bytes are within the limits; no intermediate product wraps. *)
Theorem decode_limits_exact max_size blocks maximum_bytes :
  0 <= blocks -> max_size <= u64_max / 4 ->
  (dl_ok (validate_decode_limits max_size blocks maximum_bytes) = true <->
   blocks * 256 <= max_size /\ blocks * 256 * 4 <= maximum_bytes) /\
  (dl_ok (validate_decode_limits max_size blocks maximum_bytes) = true ->
   dl_decoded_value_count (validate_decode_limits max_size blocks maximum_bytes) = blocks * 256).
Proof. apply decode_limits_cases. Qed.

Lemma decode_q4_block_length block : length (decode_q4_block block) = 256%nat.
Proof.
  unfold decode_q4_block. cbn [seq map kSubblocksPerBlock List.concat].
  rewrite !length_app. unfold decode_q4_subblock.
  repeat (destruct (decode_scale_and_minimum _ _)). rewrite !length_map, !length_seq. done.
Qed.

(** ** Q6_K values *)

(** The format: a block is 256 numbers of six bits, in two halves of 128.  The
    low four bits of number [r] of a half are in byte [r mod 64] of its 64 bytes of
    low quants, in the lower half of the byte for the first 64 numbers; the high two
    bits in byte [r mod 32] of its 32 bytes of high quants, two bits further up for
    every 32 numbers; sixteen numbers in a row share a scale; 32 is taken off. *)
Definition q6_number (block : GgmlQ6KBlock) (p : nat) : Z :=
  let half := (p / 128)%nat in
  let r := (p mod 128)%nat in
  let low := byte_at (q6_low_quants block) (64 * half + r mod 64) in
  let high := byte_at (q6_high_quants block) (32 * half + r mod 32) in
  low / 16 ^ Z.of_nat (r / 64) mod 16 + 16 * (high / 4 ^ Z.of_nat (r / 32) mod 4) - 32.

Definition q6_element (block : GgmlQ6KBlock) (p : nat) : spec_float :=
  fmul (fmul (half_value (q6_delta_fp16 block)) (float_of_int (byte_at (q6_scales block) (p / 16))))
       (float_of_int (q6_number block p)).

Definition q6_block_reference (block : GgmlQ6KBlock) : list spec_float := map (q6_element block) (seq 0 256).

(** The bytes of a block are bytes and its factor has 16 bits. *)
Definition q6_well_formed (block : GgmlQ6KBlock) : Prop :=
  Forall (fun b => 0 <= b < 256) (q6_low_quants block) /\ Forall (fun b => 0 <= b < 256) (q6_high_quants block) /\
  0 <= q6_delta_fp16 block < 65536.

(** *** What is written where *)

(** The value the code computes for number [k] (0 to 3, q1 to q4 in the source)
    of an index of a half. *)
Definition q6_quant (block : GgmlQ6KBlock) (half index k : nat) : Z :=
  let low i := byte_at (q6_low_quants block) (64 * half + i) in
  let high_bits := Z.land (Z.shiftr (byte_at (q6_high_quants block) (32 * half + index)) (2 * Z.of_nat k)) 3 in
  match k with
  | 0%nat => decode_quant (Z.land (low index) 15) high_bits
  | 1%nat => decode_quant (Z.land (low (index + 32)%nat) 15) high_bits
  | 2%nat => decode_quant (Z.shiftr (low index) 4) high_bits
  | _ => decode_quant (Z.shiftr (low (index + 32)%nat) 4) high_bits
  end.

Definition q6_value (block : GgmlQ6KBlock) (half index k : nat) : spec_float :=
  fmul (fmul (fp16_to_float (q6_delta_fp16 block))
             (float_of_int (byte_at (q6_scales block) (8 * half + (index / 16 + 2 * k)))))
       (float_of_int (q6_quant block half index k)).

Definition q6_position {A} (value : nat -> nat -> nat -> A) (p : nat) : A :=
  value (p / 128)%nat (p mod 32)%nat (p / 32 mod 4)%nat.

Section Writes.
  Context {A : Type}.

(** The writes of the loops, for any values. *)
Definition write_four (value : nat -> nat -> nat -> A) (offset half : nat) (values : list A) (index : nat) : list A :=
  foldl (fun values k => <[(offset + index + 32 * k)%nat := value half index k]> values) values (seq 0 4).

Definition write_half (value : nat -> nat -> nat -> A) (offset : nat) (values : list A) (half : nat) : list A :=
  foldl (write_four value (offset + 128 * half) half) values (seq 0 32).

Definition write_block (value : nat -> nat -> nat -> A) (offset : nat) (values : list A) : list A :=
  foldl (write_half value offset) values (seq 0 2).

End Writes.

Lemma byte_at_drop n l i : byte_at (drop n l) i = byte_at l (n + i).
Proof. unfold byte_at. by rewrite !nth_lookup, lookup_drop. Qed.

Lemma write_index_values block half offset values index :
  write_index (fp16_to_float (q6_delta_fp16 block)) (drop (64 * half) (q6_low_quants block))
    (drop (32 * half) (q6_high_quants block)) (drop (8 * half) (q6_scales block)) (offset + 128 * half) values index =
  write_four (q6_value block) (offset + 128 * half) half values index.
Proof.
  unfold write_index, write_four, q6_value, q6_quant. rewrite !byte_at_drop. cbn [seq foldl Nat.mul Nat.add Z.of_nat].
  rewrite !Nat.add_0_r. reflexivity.
Qed.

(** Pointers that advance are offsets. *)
Lemma write_halves_block block offset values :
  write_halves 2 (fp16_to_float (q6_delta_fp16 block)) (q6_low_quants block) (q6_high_quants block) (q6_scales block)
    offset values = write_block (q6_value block) offset values.
Proof.
  unfold write_block. cbn [write_halves seq foldl]. unfold write_half.
  assert (H : forall half vs,
    foldl (write_index (fp16_to_float (q6_delta_fp16 block)) (drop (64 * half) (q6_low_quants block))
      (drop (32 * half) (q6_high_quants block)) (drop (8 * half) (q6_scales block)) (offset + 128 * half)) vs (seq 0 32) =
    foldl (write_four (q6_value block) (offset + 128 * half) half) vs (seq 0 32)).
  { intros half vs. revert vs. induction (seq 0 32) as [|i l IH]; intros vs; [done|]. cbn [foldl].
    by rewrite write_index_values, IH. }
  rewrite <- (H 0%nat), <- (H 1%nat). cbn [Nat.mul]. by rewrite !drop_0, !Nat.add_0_r.
Qed.

Lemma byte_at_range l i : Forall (fun b => 0 <= b < 256) l -> 0 <= byte_at l i < 256.
Proof.
  intros H. unfold byte_at. rewrite nth_lookup. destruct (l !! i) eqn:E; cbn; [|lia].
  exact (Forall_lookup_1 _ l i _ H E).
Qed.

(** Six bits from their four low and two high ones. *)
Lemma decode_quant_sum low high : 0 <= low < 16 -> 0 <= high -> decode_quant low high = low + 16 * high - 32.
Proof.
  intros Hl Hh. unfold decode_quant. pose proof (Z.add_lor_land low (Z.shiftl high 4)) as H.
  assert (H0 : Z.land low (Z.shiftl high 4) = 0).
  { apply Z.bits_inj'. intros i Hi. rewrite Z.land_spec, Z.testbit_0_l, Z.shiftl_spec by done.
    destruct (Z.le_gt_cases 4 i); [|rewrite (Z.testbit_neg_r high) by lia; apply andb_false_r].
    rewrite <- (Z.mod_small low (2 ^ 4)) by (change (2 ^ 4) with 16; lia). by rewrite Z.mod_pow2_bits_high by lia. }
  rewrite H0, Z.shiftl_mul_pow2 in * by lia. change (2 ^ 4) with 16 in *. lia.
Qed.

Lemma low_nibble b : Z.land b 15 = b mod 16.
Proof. change 15 with (Z.ones 4). by rewrite Z.land_ones by lia. Qed.

Lemma high_nibble b : 0 <= b < 256 -> Z.shiftr b 4 = b / 16 mod 16.
Proof. intros Hb. rewrite Z.shiftr_div_pow2 by lia. change (2 ^ 4) with 16. rewrite Z.mod_small; [done|]. split; [apply Z.div_pos; lia|apply Z.div_lt_upper_bound; lia]. Qed.

Lemma two_bits b k : Z.land (Z.shiftr b (2 * Z.of_nat k)) 3 = b / 4 ^ Z.of_nat k mod 4.
Proof.
  change 3 with (Z.ones 2). rewrite Z.land_ones, Z.shiftr_div_pow2, Z.pow_mul_r by lia. done.
Qed.

(** The value written at a position is the number of the format. *)
Lemma written_is_element block half k index :
  q6_well_formed block -> (k < 4)%nat -> (index < 32)%nat ->
  q6_value block half index k = q6_element block (128 * half + 32 * k + index).
Proof.
  intros (Hlow & Hhigh & Hd) Hk Hi. set (p := (128 * half + 32 * k + index)%nat).
  assert (Hhalf : (p / 128 = half)%nat) by (symmetry; apply (Nat.div_unique _ _ _ (32 * k + index)); unfold p; lia).
  assert (Hr : (p mod 128 = 32 * k + index)%nat) by (symmetry; apply (Nat.mod_unique _ _ half); unfold p; lia).
  assert (H32 : ((32 * k + index) / 32 = k)%nat) by (symmetry; apply (Nat.div_unique _ _ _ index); lia).
  assert (Hm32 : ((32 * k + index) mod 32 = index)%nat) by (symmetry; apply (Nat.mod_unique _ _ k); lia).
  assert (H16 : (8 * half + (index / 16 + 2 * k) = p / 16)%nat).
  { apply (Nat.div_unique _ _ _ (index mod 16)); [apply Nat.mod_upper_bound; lia|].
    pose proof (Nat.div_mod_eq index 16). unfold p. lia. }
  unfold q6_value, q6_element. rewrite H16, fp16_conversion_exact by done. f_equal. f_equal.
  unfold q6_number, q6_quant. rewrite Hhalf, Hr, H32, Hm32, two_bits. cbv zeta.
  set (high := byte_at (q6_high_quants block) _ / _ mod 4).
  assert (Hh : 0 <= high) by (apply Z.mod_pos_bound; lia).
  assert (Hb : forall i, 0 <= byte_at (q6_low_quants block) i < 256) by (intros; by apply byte_at_range).
  destruct k as [|[|[|[|k]]]]; [..|lia].
  - rewrite (Nat.mod_small (32 * 0 + index)), (Nat.div_small (32 * 0 + index)) by lia.
    rewrite decode_quant_sum, low_nibble; [|rewrite low_nibble; apply Z.mod_pos_bound; lia|done]. by rewrite Z.div_1_r.
  - rewrite (Nat.mod_small (32 * 1 + index)), (Nat.div_small (32 * 1 + index)) by lia.
    rewrite decode_quant_sum, low_nibble; [|rewrite low_nibble; apply Z.mod_pos_bound; lia|done].
    rewrite Z.div_1_r. by replace (index + 32)%nat with (32 * 1 + index)%nat by lia.
  - rewrite <- (Nat.div_unique (32 * 2 + index) 64 1 index), <- (Nat.mod_unique (32 * 2 + index) 64 1 index) by lia.
    rewrite high_nibble by done. rewrite decode_quant_sum; [done|apply Z.mod_pos_bound; lia|done].
  - rewrite <- (Nat.div_unique (32 * 3 + index) 64 1 (32 + index)), <- (Nat.mod_unique (32 * 3 + index) 64 1 (32 + index)) by lia.
    rewrite high_nibble by done. rewrite decode_quant_sum; [|apply Z.mod_pos_bound; lia|done].
    by replace (index + 32)%nat with (32 + index)%nat by lia.
Qed.

Lemma positions_are_elements block :
  q6_well_formed block -> map (q6_position (q6_value block)) (seq 0 256) = q6_block_reference block.
Proof.
  intros H. apply map_ext_in. intros p Hp%in_seq. unfold q6_position.
  rewrite written_is_element by (done || (apply Nat.mod_upper_bound; lia)). f_equal.
  rewrite (Nat.div_mod_eq p 32) at 4. rewrite (Nat.div_mod_eq (p / 32) 4) at 2. rewrite Nat.Div0.div_div. change (32 * 4)%nat with 128%nat. lia.
Qed.

Section WriteLemmas.
  Context {A : Type} (value : nat -> nat -> nat -> A) (z : A).

Lemma foldl_shift {B} (f g : list A -> B -> list A) pre post (ok : B -> Prop) n :
  (forall l x, ok x -> length l = n -> f (pre ++ l ++ post) x = pre ++ g l x ++ post /\ length (g l x) = n) ->
  forall xs l, Forall ok xs -> length l = n ->
    foldl f (pre ++ l ++ post) xs = pre ++ foldl g l xs ++ post /\ length (foldl g l xs) = n.
Proof.
  intros Hstep. induction xs as [|x xs IH]; intros l Hok Hl; [done|]. cbn [foldl].
  apply Forall_cons in Hok as [Hx Hok]. destruct (Hstep l x Hx Hl) as [-> Hl']. by apply IH.
Qed.

Lemma below_seq n : Forall (fun i => (i < n)%nat) (seq 0 n).
Proof. apply Forall_forall. intros i Hi%list_elem_of_In%in_seq. lia. Qed.

Lemma insert_middle (pre l post : list A) i x :
  (i < length l)%nat -> <[(length pre + i)%nat := x]> (pre ++ l ++ post) = pre ++ <[i := x]> l ++ post.
Proof. intros H. rewrite insert_app_r. by rewrite insert_app_l. Qed.

Lemma write_block_shift pre mid post :
  length mid = 256%nat ->
  write_block value (length pre) (pre ++ mid ++ post) = pre ++ write_block value 0 mid ++ post.
Proof.
  intros Hm. unfold write_block.
  refine (proj1 (foldl_shift _ _ pre post (fun half => (half < 2)%nat) 256 _ (seq 0 2) mid (below_seq 2) Hm)).
  intros l half Hhalf Hl. unfold write_half.
  refine (foldl_shift _ _ pre post (fun index => (index < 32)%nat) 256 _ (seq 0 32) l (below_seq 32) Hl).
  clear l Hl. intros l index Hi Hl. unfold write_four.
  refine (foldl_shift _ _ pre post (fun k => (k < 4)%nat) 256 _ (seq 0 4) l (below_seq 4) Hl).
  clear l Hl. intros l k Hk Hl. rewrite length_insert. split; [|done].
  replace (length pre + 128 * half + index + 32 * k)%nat with (length pre + (0 + 128 * half + index + 32 * k))%nat by lia.
  apply insert_middle. lia.
Qed.

Lemma write_block_fresh : write_block value 0 (replicate 256 z) = map (q6_position value) (seq 0 256).
Proof. vm_compute. reflexivity. Qed.

End WriteLemmas.

Lemma write_blocks_reference blocks done_ :
  Forall q6_well_formed blocks ->
  write_blocks blocks (length done_) (done_ ++ replicate (256 * length blocks) (S754_zero false)) =
  done_ ++ List.concat (map q6_block_reference blocks).
Proof.
  intros H; revert done_; induction H as [|block blocks Hw Hs IH]; intros done_.
  - cbn. done.
  - cbn [write_blocks map List.concat Datatypes.length]. rewrite write_halves_block.
    replace (256 * S (length blocks))%nat with (256 + 256 * length blocks)%nat by lia.
    rewrite replicate_add. rewrite write_block_shift by apply length_replicate.
    rewrite write_block_fresh, positions_are_elements by done.
    assert (Hl : length (q6_block_reference block) = 256%nat)
      by (unfold q6_block_reference; by rewrite length_map, length_seq).
    rewrite app_assoc. replace (length done_ + 256)%nat with (length (done_ ++ q6_block_reference block))
      by (rewrite length_app; lia).
    rewrite IH. by rewrite <- app_assoc.
Qed.

(** C34. Within the limits the Q6_K decoder, which writes four values per step
    into a shared buffer through pointers that advance, returns the numbers of the
    format in order, 256 per block: number [p] is its six bits minus 32, times the
    scale of its sixteen, times the half-precision factor of the block. *)
Theorem q6_decode_is_reference max_size blocks maximum_bytes :
  Forall q6_well_formed blocks ->
  max_size <= u64_max / 4 ->
  Z.of_nat (length blocks) * 256 <= max_size -> Z.of_nat (length blocks) * 256 * 4 <= maximum_bytes ->
  decode_ggml_q6_k_reference max_size true blocks maximum_bytes =
  inr (List.concat (map q6_block_reference blocks)).
Proof.
  intros Hw Hm Hs Hb. unfold decode_ggml_q6_k_reference. cbv zeta.
  destruct (decode_limits_cases max_size (Z.of_nat (length blocks)) maximum_bytes ltac:(lia) Hm) as [Hok Hcount].
  cbv zeta in *. rewrite Hcount by (by apply Hok). rewrite (proj2 Hok) by done.
  cbn [negb]. f_equal.
  replace (Z.to_nat (Z.of_nat (length blocks) * 256)) with (256 * length blocks)%nat by lia.
  exact (write_blocks_reference blocks [] Hw).
Qed.

(** ** The matrix-vector reference *)

(** The block of an entry, computed in 64 bits, is its exact index and lies in
    the matrix. *)
Lemma gemv_index_exact rows cols row col :
  u32 rows -> u32 cols -> 0 <= row < rows -> 0 <= col < cols ->
  let blocks_per_row := (cols + 1) / 2 in
  row *64 blocks_per_row +64 (col / 2) = row * blocks_per_row + col / 2 /\
  0 <= row * blocks_per_row + col / 2 < rows * blocks_per_row.
Proof.
  unfold u32. intros Hr Hc Hrow Hcol. cbv zeta. set (b := (cols + 1) / 2).
  assert (Hb : 1 <= b <= 2147483648) by (unfold b; Z.to_euclidean_division_equations; lia).
  assert (Hh : 0 <= col / 2 < b) by (unfold b; Z.to_euclidean_division_equations; lia).
  rewrite (wrap64_small (row * b)) by (unfold u64; nia). split; [|nia].
  apply wrap64_small. unfold u64. nia.
Qed.

(** Both nibbles of a byte decode to the quants -8 to 7. *)
Lemma nibble_range packed :
  0 <= packed < 256 ->
  -8 <= Z.land (Z.land packed 15) 15 - 8 <= 7 /\ -8 <= Z.land (Z.land (Z.shiftr packed 4) 15) 15 - 8 <= 7.
Proof.
  intros H.
  pose proof (check_below_spec (fun p => (-8 <=? Z.land (Z.land p 15) 15 - 8) && (Z.land (Z.land p 15) 15 - 8 <=? 7) &&
    (-8 <=? Z.land (Z.land (Z.shiftr p 4) 15) 15 - 8) && (Z.land (Z.land (Z.shiftr p 4) 15) 15 - 8 <=? 7)) 256 packed
    ltac:(vm_compute; reflexivity) ltac:(lia)) as Hc. cbv beta in Hc. bool_facts. lia.
Qed.

(** A candidate that is not a number in every entry is accepted with an error
    of zero. *)
Example nan_candidate_accepted :
  compare_q4_decode_gemv_to_reference [S754_nan; S754_nan] [float_of_int 1; float_of_int 2] Doubles.zero =
  mkGemvResult true "accepted" "" Doubles.zero.
Proof. reflexivity. Qed.

(** A number outside the tolerance is not. *)
Example wrong_candidate_rejected :
  gr_ok (compare_q4_decode_gemv_to_reference [float_of_int 1] [float_of_int 2] (S754_finite false 4503599627370496 (-53))) = false.
Proof. vm_compute. reflexivity. Qed.

(** ** Witnesses *)

Lemma fp16_conversion_exact_witness : fp16_to_float 15360 = half_value 15360 /\ half_value 15360 = float_of_int 1.
Proof. split; [apply (fp16_conversion_exact 15360); lia|vm_compute; reflexivity]. Defined.

Lemma packed_scales_round_trip_witness :
  decode_scale_and_minimum (pack_scales [1; 2; 3; 4; 5; 6; 7; 63] [9; 10; 11; 12; 13; 14; 15; 62]) 7 = (63, 62).
Proof.
  exact (packed_scales_round_trip [1; 2; 3; 4; 5; 6; 7; 63] [9; 10; 11; 12; 13; 14; 15; 62] 7 eq_refl eq_refl
    ltac:(repeat constructor; lia) ltac:(repeat constructor; lia) ltac:(lia)).
Defined.

Lemma decode_limits_exact_witness : dl_ok (validate_decode_limits 1000 3 3072) = true.
Proof. apply (proj1 (decode_limits_exact 1000 3 3072 ltac:(lia) ltac:(vm_compute; discriminate))). lia. Defined.

Definition sample_q6 : GgmlQ6KBlock := mkQ6K (map Z.of_nat (seq 0 128)) (map Z.of_nat (seq 100 64)) (map Z.of_nat (seq 1 16)) 15360.

Lemma q6_decode_is_reference_witness :
  decode_ggml_q6_k_reference 1000 true [sample_q6] 1024 = inr (q6_block_reference sample_q6 ++ []).
Proof.
  apply (q6_decode_is_reference 1000 [sample_q6] 1024); [|vm_compute; discriminate|cbn; lia|cbn; lia].
  apply Forall_singleton. split; [|split]; [| |cbn; lia].
  - apply (bool_decide_unpack _). vm_compute. exact I.
  - apply (bool_decide_unpack _). vm_compute. exact I.
Defined.

End QuantizedKernels.
