(* ===== verification/AtomicFile.v ===== *)
(** * Atomic publication of files

    [src/benchmark/atomic_file.cpp]: a file is written to a private temporary
    directory, validated there and hard-linked to its target, which is never
    replaced; an existing target is accepted only when it already has the same
    bytes.  The file system is an explicit state of nodes and inodes; what it
    may refuse, and what other processes do before the link is made, are
    parameters. *)

From S2P Require Import Prelude.
From stdpp Require Import fin_sets fin_map_dom.
From Stdlib Require Import Ascii String.

Open Scope Z_scope.

Module AtomicFile.

(** ** The file system *)

(** The elements of a path. *)
Definition Path : Type := list string.

(** [resolves]: the target of the link exists. *)
Inductive Node :=
| FileNode (inode : nat)
| DirNode
| SymlinkNode (resolves : bool)
| OtherNode.

Record Fs := mkFs {
  fs_nodes : gmap Path Node;
  fs_data : gmap nat string;
}.

(** [path.filename().empty()]. *)
Definition filename_empty (path : Path) : bool :=
  match last path with None => true | Some name => str_empty name end.

(** [std::filesystem::exists] follows links. *)
Definition exists_path (fs : Fs) (path : Path) : bool :=
  match fs_nodes fs !! path with
  | None => false
  | Some (SymlinkNode resolves) => resolves
  | Some _ => true
  end.

Definition is_inode (i : nat) (n : Node) : bool :=
  match n with FileNode j => Nat.eqb i j | _ => false end.

Definition hard_link_count (fs : Fs) (i : nat) : nat :=
  size (filter (fun kv : Path * Node => is_inode i kv.2 = true) (fs_nodes fs)).

(** A path of one element has the parent [.], the empty list. *)
Definition parent_path (path : Path) : Path := removelast path.

(** ** The parameters of one call *)

(** One attempt at a temporary directory: the nonce, or the exception of the
    random device, and whether [create_directory] reports an error other than
    an existing file. *)
Inductive Attempt :=
| NonceThrows
| NonceIs (nonce : string) (other_error : bool).

Record Environment := mkEnvironment {
  en_status_error : bool;
  en_parent_status_error : bool;
  en_existing_status_error : bool;
  en_existing_count_error : bool;
  en_existing_size_error : bool;
  en_existing_opens : bool;
  en_existing_bad : bool;
  en_attempts : list Attempt;
  en_temporary_opens : bool;
  en_temporary_writes : bool;
  en_link_error : bool;
  en_cleanup_works : bool;
}.

(** A validator reads a file and refuses it with an error. *)
Definition AtomicFileValidator : Type := Fs -> Path -> string + unit.

Definition run_validator (v : option AtomicFileValidator) (fs : Fs) (path : Path) : string + unit :=
  match v with None => inr tt | Some v => v fs path end.

(** ** Operations *)

(** The size and content of a regular file with one name. *)
Definition read_exact_bounded (en : Environment) (fs : Fs) (path : Path) (maximum_bytes : Z) : string + string :=
  match fs_nodes fs !! path with
  | Some (FileNode i) =>
      if en_existing_status_error en then inl "atomic_file_existing_not_regular"%string
      else if negb (Nat.eqb (hard_link_count fs i) 1) || en_existing_count_error en then inl "atomic_file_existing_link_count_rejected"%string
      else
        let contents := default ""%string (fs_data fs !! i) in
        if en_existing_size_error en || (maximum_bytes <? Z.of_nat (String.length contents))
        then inl "atomic_file_existing_size_rejected"%string
        else if negb (en_existing_opens en) then inl "atomic_file_existing_open_failed"%string
        else if en_existing_bad en then inl "atomic_file_existing_read_failed"%string
        else inr contents
  | _ => inl "atomic_file_existing_not_regular"%string
  end.

Definition temporary_name (nonce : string) : string := (".prisminfer-" +:+ nonce +:+ ".tmp")%string.

Definition kMaximumCreateAttempts : nat := 32.

(** The loop that creates the private directory; the attempts that are left are
    at most [kMaximumCreateAttempts]. *)
Fixpoint create_temporary (attempts : list Attempt) (fs : Fs) (parent : Path) : string + Path * Fs :=
  match attempts with
  | [] => inl "atomic_file_temporary_collision_limit"%string
  | NonceThrows :: _ => inl "atomic_file_nonce_generation_failed"%string
  | NonceIs nonce other_error :: attempts =>
      let directory := parent ++ [temporary_name nonce] in
      if other_error then inl "atomic_file_temporary_directory_failed"%string
      else match fs_nodes fs !! directory with
           | Some _ => create_temporary attempts fs parent
           | None => inr (directory, mkFs (<[directory := DirNode]> (fs_nodes fs)) (fs_data fs))
           end
  end.

(** Is [path] the directory or below it? *)
Definition below (directory path : Path) : bool := bool_decide (take (List.length directory) path = directory).

(** [std::filesystem::remove_all], whose error is ignored. *)
Definition cleanup_temporary (en : Environment) (directory : Path) (fs : Fs) : Fs :=
  if en_cleanup_works en
  then mkFs (filter (fun kv : Path * Node => below directory kv.1 = false) (fs_nodes fs)) (fs_data fs)
  else fs.

(** [std::ofstream] in truncate mode: a new file. *)
Definition create_file (fs : Fs) (path : Path) (contents : string) : nat * Fs :=
  let inode := fresh (dom (fs_data fs)) in
  (inode, mkFs (<[path := FileNode inode]> (fs_nodes fs)) (<[inode := contents]> (fs_data fs))).

Definition is_directory_node (n : option Node) : bool := match n with Some DirNode => true | _ => false end.

(** [create_hard_link]: refused when the target is taken. *)
Definition create_hard_link (en : Environment) (fs : Fs) (inode : nat) (path : Path) : option Fs :=
  if en_link_error en then None
  else match fs_nodes fs !! path with
       | Some _ => None
       | None => Some (mkFs (<[path := FileNode inode]> (fs_nodes fs)) (fs_data fs))
       end.

(** After the private directory was created.  [interfere] is what other
    processes do to the file system before the link. *)
Definition publish (en : Environment) (interfere : Fs -> Fs) (validator : option AtomicFileValidator)
    (path directory : Path) (contents : string) (fs : Fs) : (string + unit) * Fs :=
  let temporary_file := directory ++ ["payload"%string] in
  if negb (en_temporary_opens en) then
    (inl "atomic_file_temporary_open_failed"%string, cleanup_temporary en directory fs)
  else
  let (inode, fs) := create_file fs temporary_file (if en_temporary_writes en then contents else ""%string) in
  if negb (en_temporary_writes en) then
    (inl "atomic_file_temporary_write_failed"%string, cleanup_temporary en directory fs)
  else
  match run_validator validator fs temporary_file with
  | inl error => (inl error, cleanup_temporary en directory fs)
  | inr _ =>
      let fs := interfere fs in
      match create_hard_link en fs inode path with
      | None => (inl "atomic_file_publish_failed"%string, cleanup_temporary en directory fs)
      | Some fs => (inr tt, cleanup_temporary en directory fs)
      end
  end.

Definition write_new_or_same_text_file_atomically (en : Environment) (interfere : Fs -> Fs)
    (validator : option AtomicFileValidator) (path : Path) (contents : string) (maximum_bytes : Z) (fs : Fs) :
    (string + unit) * Fs :=
  if (maximum_bytes <? Z.of_nat (String.length contents)) || filename_empty path then
    (inl "atomic_file_input_rejected"%string, fs)
  else if exists_path fs path && negb (en_status_error en) then
    match read_exact_bounded en fs path maximum_bytes with
    | inl error => (inl error, fs)
    | inr existing =>
        if existing <>s contents then (inl "atomic_file_existing_content_mismatch"%string, fs)
        else (run_validator validator fs path, fs)
    end
  else if en_status_error en then (inl "atomic_file_target_status_failed"%string, fs)
  else
  let parent := parent_path path in
  if en_parent_status_error en || negb (is_directory_node (fs_nodes fs !! parent)) then
    (inl "atomic_file_parent_rejected"%string, fs)
  else
  match create_temporary (take kMaximumCreateAttempts (en_attempts en)) fs parent with
  | inl error => (inl error, fs)
  | inr (directory, fs) => publish en interfere validator path directory contents fs
  end.

(** ** [is_direct_child_of_trusted_directory]

    The answers of [symlink_status] and [weakly_canonical]. *)
Record TrustedQuery := mkTrustedQuery {
  tq_filename_empty : bool;
  tq_root_is_real_directory : bool;
  tq_canonical_root : option Path;
  tq_canonical_parent : option Path;
}.

Definition is_direct_child_of_trusted_directory (q : TrustedQuery) : string + unit :=
  if tq_filename_empty q then inl "trusted_output_filename_missing"%string
  else if negb (tq_root_is_real_directory q) then inl "trusted_output_root_rejected"%string
  else match tq_canonical_root q with
       | None => inl "trusted_output_root_canonicalization_failed"%string
       | Some root =>
           if bool_decide (tq_canonical_parent q = Some root) then inr tt
           else inl "trusted_output_path_rejected"%string
       end.

(** ** The target is never replaced *)

Lemma parent_path_length path : filename_empty path = false -> (S (List.length (parent_path path)) = List.length path)%nat.
Proof.
  unfold parent_path. induction path as [|name p _] using rev_ind; [done|]. intros _.
  rewrite removelast_last, length_app. cbn. lia.
Qed.

Section Publication.
  Context (en : Environment) (interfere : Fs -> Fs) (validator : option AtomicFileValidator)
          (path : Path) (contents : string) (maximum_bytes : Z) (fs : Fs).

  (** Other processes do not write to files created during the call. *)
  Hypothesis private_data : forall g i c,
    i ∉ dom (fs_data fs) -> fs_data g !! i = Some c -> fs_data (interfere g) !! i = Some c.
  (** The target does not have the name of a temporary directory. *)
  Hypothesis no_collision : forall nonce other,
    NonceIs nonce other ∈ en_attempts en -> path <> parent_path path ++ [temporary_name nonce].

(** A state the file system was left in by others: the initial one or one they
    changed. *)
Definition left_by_others (g : Fs) : Prop := g = fs \/ exists g', g = interfere g'.

(** A path the call does not own. *)
Definition foreign (p : Path) : Prop :=
  forall nonce other, NonceIs nonce other ∈ en_attempts en ->
    below (parent_path path ++ [temporary_name nonce]) p = false.

Definition has_contents (g : Fs) (p : Path) : Prop :=
  exists i, fs_nodes g !! p = Some (FileNode i) /\ default ""%string (fs_data g !! i) = contents.

(** What a call guarantees of its result: compared with a state [g] that the
      others left, no path that is not its own has changed, an existing target
      is the same file, and no file has other contents. *)
Definition safe_publication (r : string + unit) (fs' : Fs) : Prop :=
  exists g, left_by_others g /\
    (forall p, p <> path -> foreign p -> fs_nodes fs' !! p = fs_nodes g !! p) /\
    (is_Some (fs_nodes g !! path) -> fs_nodes fs' !! path = fs_nodes g !! path) /\
    (forall i, is_Some (fs_data g !! i) -> fs_data fs' !! i = fs_data g !! i) /\
    match r with
    | inl _ => fs_nodes fs' !! path = fs_nodes g !! path
    | inr _ => has_contents fs' path /\
               exists h q, run_validator validator h q = inr tt /\ has_contents h q
    end.

Lemma safe_unchanged error : safe_publication (inl error) fs.
Proof. exists fs. split; [by left|]. done. Qed.

Lemma cleanup_lookup directory g p :
  below directory p = false -> fs_nodes (cleanup_temporary en directory g) !! p = fs_nodes g !! p.
Proof.
  intros H. unfold cleanup_temporary. destruct (en_cleanup_works en); [|done]. cbn.
  rewrite map_lookup_filter. destruct (fs_nodes g !! p); cbn; [|done]. by rewrite option_guard_True.
Qed.

Lemma cleanup_data directory g : fs_data (cleanup_temporary en directory g) = fs_data g.
Proof. unfold cleanup_temporary. by destruct (en_cleanup_works en). Qed.

Lemma below_child directory p : below directory p = false -> p <> directory /\ p <> directory ++ ["payload"%string].
Proof.
  unfold below. rewrite bool_decide_eq_false. intros H. split; intros ->; apply H.
  - by rewrite take_ge.
  - by rewrite take_app_length.
Qed.

Lemma path_not_below nonce other :
  NonceIs nonce other ∈ en_attempts en -> filename_empty path = false ->
  below (parent_path path ++ [temporary_name nonce]) path = false.
Proof.
  intros Hin Hf. unfold below. apply bool_decide_eq_false. intros H. apply (no_collision nonce other Hin).
  rewrite <- H at 1. symmetry. apply take_ge. rewrite length_app, <- (parent_path_length path Hf). cbn. lia.
Qed.

Lemma create_temporary_spec attempts directory g :
  create_temporary attempts fs (parent_path path) = inr (directory, g) ->
  (exists nonce other, NonceIs nonce other ∈ attempts /\ directory = parent_path path ++ [temporary_name nonce]) /\
  g = mkFs (<[directory := DirNode]> (fs_nodes fs)) (fs_data fs).
Proof.
  induction attempts as [|[|nonce other] attempts IH]; cbn [create_temporary]; [done|done|].
  destruct other; [done|]. destruct (fs_nodes fs !! _); intros H.
  - destruct (IH H) as [(n' & o & Hin & ->) ->]. split; [|done]. exists n', o. split; [by right|done].
  - injection H as <- <-. split; [|done]. eexists nonce, false. split; [by left|done].
Qed.

(** Nodes outside the private directory, while it is in use. *)
Lemma publish_safe nonce other directory :
  NonceIs nonce other ∈ en_attempts en -> directory = parent_path path ++ [temporary_name nonce] ->
  filename_empty path = false ->
  let r := publish en interfere validator path directory contents
             (mkFs (<[directory := DirNode]> (fs_nodes fs)) (fs_data fs)) in
  safe_publication r.1 r.2.
Proof.
  intros Hin Hdir Hf. pose proof (path_not_below nonce other Hin Hf) as Hpath. rewrite <- Hdir in Hpath.
  assert (Hforeign : forall p, foreign p -> below directory p = false) by (intros p H; rewrite Hdir; by eapply H).
  assert (Hkeep : forall (m : gmap Path Node) n1 n2 p, below directory p = false ->
    <[directory ++ ["payload"%string] := n1]> (<[directory := n2]> m) !! p = m !! p).
  { intros m n1 n2 p H. destruct (below_child _ _ H). by rewrite !lookup_insert_ne. }
  unfold publish. cbv zeta.
  destruct (en_temporary_opens en); cbn [negb].
  2: { exists fs. split; [by left|]. cbn [fst snd]. split_and!; intros; rewrite ?cleanup_data, ?cleanup_lookup by auto;
         cbn; try done.
       all: destruct (below_child directory path Hpath); rewrite ?lookup_insert_ne by done; try done.
       destruct (below_child directory p ltac:(auto)). by rewrite lookup_insert_ne. }
  unfold create_file. cbn [fs_nodes fs_data]. set (inode := fresh _).
  assert (Hdata : forall c i, is_Some (fs_data fs !! i) -> <[inode := c]> (fs_data fs) !! i = fs_data fs !! i).
  { intros c i Hi. apply lookup_insert_ne. intros <-. by apply (is_fresh (dom (fs_data fs))), elem_of_dom. }
  destruct (en_temporary_writes en); cbn [negb].
  2: { exists fs. split; [by left|]. cbn [fst snd]. split_and!; intros; rewrite ?cleanup_data, ?cleanup_lookup by auto;
         cbn; rewrite ?Hkeep, ?Hdata by auto; done. }
  set (g := mkFs _ _). destruct (run_validator validator g _) as [error|[]] eqn:Ev.
  { exists fs. split; [by left|]. cbn [fst snd]. split_and!; intros; rewrite ?cleanup_data, ?cleanup_lookup by auto;
      cbn; rewrite ?Hkeep, ?Hdata by auto; done. }
  unfold create_hard_link. destruct (en_link_error en).
  { exists (interfere g). split; [by right; exists g|]. cbn [fst snd].
    split_and!; intros; rewrite ?cleanup_data, ?cleanup_lookup by auto; done. }
  destruct (fs_nodes (interfere g) !! path) as [n|] eqn:Ep.
  { exists (interfere g). split; [by right; exists g|]. cbn [fst snd].
    split_and!; intros; rewrite ?cleanup_data, ?cleanup_lookup by auto; done. }
  exists (interfere g). split; [by right; exists g|]. cbn [fst snd]. split; [|split; [|split]].
  - intros p Hne Hfp. rewrite cleanup_lookup by auto. cbn. by rewrite lookup_insert_ne.
  - rewrite Ep. by intros [? [=]].
  - intros i _. by rewrite cleanup_data.
  - split.
    + exists inode. rewrite cleanup_lookup, cleanup_data by done. cbn. rewrite lookup_insert_eq. split; [done|].
      rewrite (private_data g inode contents); [done|apply is_fresh|]. unfold g; cbn. by rewrite lookup_insert_eq.
    + exists g, (directory ++ ["payload"%string]). split; [done|]. exists inode.
      unfold g; cbn. by rewrite !lookup_insert_eq.
Qed.

(** Every path through a write. *)
Lemma write_safe :
  let r := write_new_or_same_text_file_atomically en interfere validator path contents maximum_bytes fs in
  safe_publication r.1 r.2.
Proof.
  cbv zeta. unfold write_new_or_same_text_file_atomically.
  destruct (maximum_bytes <? _); [apply safe_unchanged|]. destruct (filename_empty path) eqn:Hf; [apply safe_unchanged|].
  cbn [orb]. destruct (exists_path fs path && negb (en_status_error en)).
  - destruct (read_exact_bounded en fs path maximum_bytes) as [error|existing] eqn:Er; [apply safe_unchanged|].
    destruct (String.eqb_spec existing contents) as [->|]; cbn [negb]; [|apply safe_unchanged].
    destruct (run_validator validator fs path) as [error|[]] eqn:Ev; cbn [fst snd]; [apply safe_unchanged|].
    exists fs. split; [by left|]. do 3 (split; [done|]).
    assert (has_contents fs path); [|split; [done|by exists fs, path]].
    unfold read_exact_bounded in Er. destruct (fs_nodes fs !! path) as [[i| | |]|] eqn:En; try done.
    repeat match type of Er with (if ?b then _ else _) = _ => destruct b; [done|] end.
    cbv zeta in Er. repeat match type of Er with (if ?b then _ else _) = _ => destruct b; [done|] end.
    injection Er as Er. by exists i.
  - destruct (en_status_error en); [apply safe_unchanged|].
    destruct (_ || _); [apply safe_unchanged|].
    destruct (create_temporary _ fs (parent_path path)) as [error|[directory g]] eqn:Ec; [apply safe_unchanged|].
    apply create_temporary_spec in Ec as [(nonce & other & Hin & Hd) ->].
    apply (publish_safe nonce other); [|done|done].
    by apply elem_of_take in Hin as (k & Hk%list_elem_of_lookup_2 & _).
Qed.


End Publication.

(** ** A publication with another process at work *)

Definition quiet_environment : Environment :=
  mkEnvironment false false false false false true false [NonceIs "00-1" false; NonceIs "00-2" false] true true false true.

Definition working_directory : Fs := mkFs {[([] : Path) := DirNode; [".prisminfer-00-1.tmp"%string] := DirNode]} ∅.

Definition other_process (fs : Fs) : Fs := mkFs (<[["other.json"%string] := OtherNode]> (fs_nodes fs)) (fs_data fs).

Definition sample_target : Path := ["manifest.json"%string].

Abbreviation sample_publication :=
  (write_new_or_same_text_file_atomically quiet_environment other_process None sample_target "{}" 64 working_directory)
  (only parsing).

(** The first directory name is taken; the second is used and removed again. *)
Example publication_succeeds :
  sample_publication.1 = inr tt /\
  fs_nodes sample_publication.2 !! sample_target = Some (FileNode 0) /\
  fs_nodes sample_publication.2 !! [".prisminfer-00-2.tmp"%string] = None /\
  size (fs_nodes sample_publication.2) = 4%nat.
Proof. vm_compute. repeat split; reflexivity. Qed.


End AtomicFile.
