(* ===== verification/C2Receipt.v ===== *)
(** * The C2 clearance receipt

    [validation/c2_clearance_receipt.cpp]: the receipt of one supervised run,
    its evidence digests, its JSON text, the validator that recomputes the
    digests from the text, and the write through [AtomicFile].  The validator
    composes [FlatJson] (the text) and [Sha256] (the digests). *)

From Stdlib Require Import Ascii String.
From stdpp Require Import gmap.
From S2P Require Import Prelude Sha256 FlatJson AtomicFile.
Import FlatJson AtomicFile.

Open Scope string_scope.
Open Scope list_scope.
Open Scope Z_scope.

Module C2Receipt.

(** ** The receipt *)

Definition kC2ReceiptMaximumBytes : Z := 32 * 1024.
Definition kC2MaximumPayloadBytes : Z := 64 * 1024 * 1024.

Record C2ClearanceReceipt := mkReceipt {
  cr_repository : string;
  cr_reviewed_sha : string;
  cr_source_tree_sha : string;
  cr_worker_sha256 : string;
  cr_worker_approval_identity : string;
  cr_workflow_run_id : string;
  cr_authorization_id : string;
  cr_gpu_uuid : string;
  cr_case_name : string;
  cr_status : string;
  cr_failure_reason : string;
  cr_cleanup_status : string;
  cr_lease_id : string;
  cr_job_identity : string;
  cr_process_wddm_source : string;
  cr_last_good_stage : string;
  cr_terminal_trigger_canonical : string;
  cr_terminal_trigger_sha256 : string;
  cr_last_good_sample_sha256 : string;
  cr_pre_cleanup_evidence_sha256 : string;
  cr_evidence_bundle_sha256 : string;
  cr_adapter_luid_high : Z;
  cr_adapter_luid_low : Z;
  cr_adapter_index : Z;
  cr_worker_timeout_milliseconds : Z;
  cr_post_admission_payload_bytes : Z;
  cr_maximum_payload_bytes : Z;
  cr_context_cuda_free_bytes : Z;
  cr_context_cuda_total_bytes : Z;
  cr_last_heartbeat_cuda_free_bytes : Z;
  cr_last_heartbeat_cuda_total_bytes : Z;
  cr_pre_wddm_local_usage_bytes : Z;
  cr_final_wddm_local_usage_bytes : Z;
  cr_cleanup_wddm_positive_delta_bytes : Z;
  cr_cleanup_wddm_tolerance_bytes : Z;
  cr_last_sample_monotonic_milliseconds : Z;
  cr_last_sample_wddm_local_budget_bytes : Z;
  cr_last_sample_wddm_local_usage_bytes : Z;
  cr_process_wddm_sample_monotonic_milliseconds : Z;
  cr_process_wddm_current_bytes : Z;
  cr_process_wddm_peak_bytes : Z;
  cr_last_host_sample_monotonic_milliseconds : Z;
  cr_last_host_memory_available_bytes : Z;
  cr_last_host_commit_available_bytes : Z;
  cr_last_thermal_sample_monotonic_milliseconds : Z;
  cr_last_gpu_temperature_celsius : Z;
  cr_last_gpu_slowdown_celsius : Z;
  cr_pre_host_memory_available_bytes : Z;
  cr_final_host_memory_available_bytes : Z;
  cr_pre_host_commit_available_bytes : Z;
  cr_final_host_commit_available_bytes : Z;
  cr_pre_gpu_temperature_celsius : Z;
  cr_final_gpu_temperature_celsius : Z;
  cr_root_process_id : Z;
  cr_heartbeat_count : Z;
  cr_context_ready_observed : bool;
  cr_token_consumed_observed : bool;
  cr_worker_exit_observed : bool;
  cr_job_tree_empty : bool;
  cr_job_accounting_reconciled : bool;
  cr_device_resources_reconciled : bool;
  cr_artifact_handles_closed : bool;
  cr_temporary_files_reconciled : bool;
  cr_last_gpu_thermal_throttling : bool;
  cr_last_gpu_power_brake_slowdown : bool;
  cr_last_wddm_available : bool;
  cr_last_process_wddm_available : bool;
  cr_last_host_available : bool;
  cr_last_thermal_available : bool;
}.

(** A value-initialised receipt. *)
Definition new_receipt : C2ClearanceReceipt := {|
  cr_repository := EmptyString;
  cr_reviewed_sha := EmptyString;
  cr_source_tree_sha := EmptyString;
  cr_worker_sha256 := EmptyString;
  cr_worker_approval_identity := EmptyString;
  cr_workflow_run_id := EmptyString;
  cr_authorization_id := EmptyString;
  cr_gpu_uuid := EmptyString;
  cr_case_name := EmptyString;
  cr_status := EmptyString;
  cr_failure_reason := EmptyString;
  cr_cleanup_status := EmptyString;
  cr_lease_id := EmptyString;
  cr_job_identity := EmptyString;
  cr_process_wddm_source := EmptyString;
  cr_last_good_stage := EmptyString;
  cr_terminal_trigger_canonical := EmptyString;
  cr_terminal_trigger_sha256 := EmptyString;
  cr_last_good_sample_sha256 := EmptyString;
  cr_pre_cleanup_evidence_sha256 := EmptyString;
  cr_evidence_bundle_sha256 := EmptyString;
  cr_adapter_luid_high := 0;
  cr_adapter_luid_low := 0;
  cr_adapter_index := 0;
  cr_worker_timeout_milliseconds := 0;
  cr_post_admission_payload_bytes := 0;
  cr_maximum_payload_bytes := kC2MaximumPayloadBytes;
  cr_context_cuda_free_bytes := 0;
  cr_context_cuda_total_bytes := 0;
  cr_last_heartbeat_cuda_free_bytes := 0;
  cr_last_heartbeat_cuda_total_bytes := 0;
  cr_pre_wddm_local_usage_bytes := 0;
  cr_final_wddm_local_usage_bytes := 0;
  cr_cleanup_wddm_positive_delta_bytes := 0;
  cr_cleanup_wddm_tolerance_bytes := 16 * 1024 * 1024;
  cr_last_sample_monotonic_milliseconds := 0;
  cr_last_sample_wddm_local_budget_bytes := 0;
  cr_last_sample_wddm_local_usage_bytes := 0;
  cr_process_wddm_sample_monotonic_milliseconds := 0;
  cr_process_wddm_current_bytes := 0;
  cr_process_wddm_peak_bytes := 0;
  cr_last_host_sample_monotonic_milliseconds := 0;
  cr_last_host_memory_available_bytes := 0;
  cr_last_host_commit_available_bytes := 0;
  cr_last_thermal_sample_monotonic_milliseconds := 0;
  cr_last_gpu_temperature_celsius := 0;
  cr_last_gpu_slowdown_celsius := 0;
  cr_pre_host_memory_available_bytes := 0;
  cr_final_host_memory_available_bytes := 0;
  cr_pre_host_commit_available_bytes := 0;
  cr_final_host_commit_available_bytes := 0;
  cr_pre_gpu_temperature_celsius := 0;
  cr_final_gpu_temperature_celsius := 0;
  cr_root_process_id := 0;
  cr_heartbeat_count := 0;
  cr_context_ready_observed := false;
  cr_token_consumed_observed := false;
  cr_worker_exit_observed := false;
  cr_job_tree_empty := false;
  cr_job_accounting_reconciled := false;
  cr_device_resources_reconciled := false;
  cr_artifact_handles_closed := false;
  cr_temporary_files_reconciled := false;
  cr_last_gpu_thermal_throttling := false;
  cr_last_gpu_power_brake_slowdown := false;
  cr_last_wddm_available := false;
  cr_last_process_wddm_available := false;
  cr_last_host_available := false;
  cr_last_thermal_available := false;
|}.

(** ** Text predicates *)

Definition lower_hex (value : string) (length : nat) : bool :=
  Nat.eqb (String.length value) length && all_chars is_lower_hex value.

Definition bounded_text (value : string) (maximum : nat) (allow_empty : bool) : bool :=
  negb ((negb allow_empty && str_empty value) || Nat.ltb maximum (String.length value)) &&
  all_chars (fun ch => 32 <=? char_code ch) value.

Definition identifier_char (ch : ascii) : bool :=
  in_range 65 90 ch || in_range 97 122 ch || is_digit ch || Ascii.eqb ch "_" || Ascii.eqb ch "." ||
  Ascii.eqb ch ":" || Ascii.eqb ch "-".

Definition authorization_identifier (value : string) : bool :=
  negb (str_empty value || Nat.ltb 128 (String.length value)) && all_chars identifier_char value.

(** The characters of a UUID from index [index] on. *)
Fixpoint uuid_chars (index : nat) (l : list ascii) : bool :=
  match l with
  | [] => true
  | ch :: l =>
      (if existsb (Nat.eqb index) [12; 17; 22; 27]%nat then Ascii.eqb ch "-" else is_lower_hex ch) &&
      uuid_chars (S index) l
  end.

Definition canonical_gpu_uuid (value : string) : bool :=
  Nat.eqb (String.length value) 40 && starts_with (list_ascii_of_string "GPU-") (list_ascii_of_string value) &&
  uuid_chars 4 (drop 4 (list_ascii_of_string value)).

(** ** Reading fields *)

Definition parse_integer (range : Range) (value : FlatJsonValue) : option Z :=
  match fv_kind value with
  | NumberKind =>
      if str_empty (fv_text value) then None
      else match from_chars range (list_ascii_of_string (fv_text value)) with
           | Some (x, []) => Some x
           | _ => None
           end
  | _ => None
  end.

Definition require_string (json : FlatJsonResult) (key : string) : option string :=
  match fr_fields json !! key with
  | Some (mkValue text StringKind) => Some text
  | _ => None
  end.

Definition require_boolean (json : FlatJsonResult) (key : string) : bool :=
  match fr_fields json !! key with
  | Some (mkValue _ BooleanKind) => true
  | _ => false
  end.

Definition require_bool (json : FlatJsonResult) (key : string) (expected : bool) : bool :=
  match fr_fields json !! key with
  | Some (mkValue text BooleanKind) => text =s (if expected then "true" else "false")
  | _ => false
  end.

Definition require_integer (json : FlatJsonResult) (range : Range) (key : string) : option Z :=
  value ← fr_fields json !! key; parse_integer range value.

Definition require_bool_value (json : FlatJsonResult) (key : string) : option bool :=
  match fr_fields json !! key with
  | Some (mkValue text BooleanKind) => Some (text =s "true")
  | _ => None
  end.

(** ** The evidence digests *)

(** [std::ostream] prints a signed integer in decimal and a [bool] as a digit. *)
Definition print_integer (x : Z) : string :=
  string_of_list_ascii (if x <? 0 then "-"%char :: to_string (- x) else to_string x).

Definition print_bool (b : bool) : string := if b then "1" else "0".

(** What the digest of the last good sample covers. *)
Definition last_good_text (r : C2ClearanceReceipt) : string :=
  String.concat EmptyString [
    "c2-last-good-v1";
    "|case="; cr_case_name r;
    "|stage="; cr_last_good_stage r;
    "|pid="; print_integer (cr_root_process_id r);
    "|luid_high="; print_integer (cr_adapter_luid_high r);
    "|luid_low="; print_integer (cr_adapter_luid_low r);
    "|sample_ms="; print_integer (cr_last_sample_monotonic_milliseconds r);
    "|wddm_budget="; print_integer (cr_last_sample_wddm_local_budget_bytes r);
    "|wddm_usage="; print_integer (cr_last_sample_wddm_local_usage_bytes r);
    "|process_source="; cr_process_wddm_source r;
    "|process_ms="; print_integer (cr_process_wddm_sample_monotonic_milliseconds r);
    "|process_current="; print_integer (cr_process_wddm_current_bytes r);
    "|process_peak="; print_integer (cr_process_wddm_peak_bytes r);
    "|host_ms="; print_integer (cr_last_host_sample_monotonic_milliseconds r);
    "|host_memory_available="; print_integer (cr_last_host_memory_available_bytes r);
    "|host_commit_available="; print_integer (cr_last_host_commit_available_bytes r);
    "|thermal_ms="; print_integer (cr_last_thermal_sample_monotonic_milliseconds r);
    "|temperature="; print_integer (cr_last_gpu_temperature_celsius r);
    "|slowdown="; print_integer (cr_last_gpu_slowdown_celsius r);
    "|thermal_throttling="; print_bool (cr_last_gpu_thermal_throttling r);
    "|power_brake="; print_bool (cr_last_gpu_power_brake_slowdown r);
    "|wddm_available="; print_bool (cr_last_wddm_available r);
    "|process_available="; print_bool (cr_last_process_wddm_available r);
    "|host_available="; print_bool (cr_last_host_available r);
    "|thermal_available="; print_bool (cr_last_thermal_available r);
    "|heartbeat="; print_integer (cr_heartbeat_count r)].

(** What the digest of the whole bundle covers. *)
Definition terminal_text (r : C2ClearanceReceipt) : string :=
  String.concat EmptyString [
    "c2-terminal-v1";
    "|last_good="; cr_last_good_sample_sha256 r;
    "|status="; cr_status r;
    "|failure="; cr_failure_reason r;
    "|cleanup="; cr_cleanup_status r;
    "|pre_cleanup="; cr_pre_cleanup_evidence_sha256 r;
    "|terminal_trigger="; cr_terminal_trigger_sha256 r;
    "|worker_exit="; print_bool (cr_worker_exit_observed r);
    "|job_tree_empty="; print_bool (cr_job_tree_empty r);
    "|job_accounting="; print_bool (cr_job_accounting_reconciled r);
    "|device_reconciled="; print_bool (cr_device_resources_reconciled r);
    "|handles_closed="; print_bool (cr_artifact_handles_closed r);
    "|temp_reconciled="; print_bool (cr_temporary_files_reconciled r);
    "|pre_wddm="; print_integer (cr_pre_wddm_local_usage_bytes r);
    "|final_wddm="; print_integer (cr_final_wddm_local_usage_bytes r);
    "|cleanup_delta="; print_integer (cr_cleanup_wddm_positive_delta_bytes r);
    "|cleanup_tolerance="; print_integer (cr_cleanup_wddm_tolerance_bytes r)].

Definition store_last_good (r : C2ClearanceReceipt) (digest : string) : C2ClearanceReceipt :=
  {| r with cr_last_good_sample_sha256 := digest |}.

Definition store_trigger (r : C2ClearanceReceipt) (digest : string) : C2ClearanceReceipt :=
  {| r with cr_terminal_trigger_sha256 := digest |}.

Definition store_bundle (r : C2ClearanceReceipt) (digest : string) : C2ClearanceReceipt :=
  {| r with cr_evidence_bundle_sha256 := digest |}.

(** The three digests are stored in the receipt; the bundle covers the other two. *)
Definition compute_c2_clearance_evidence_hashes (r : C2ClearanceReceipt) : string + C2ClearanceReceipt :=
  match Sha256.sha256_text (last_good_text r) with
  | None => inl "c2_last_good_hash_failed"
  | Some last =>
      let r := store_last_good r last in
      match Sha256.sha256_text (cr_terminal_trigger_canonical r) with
      | None => inl "c2_terminal_trigger_hash_failed"
      | Some trigger =>
          let r := store_trigger r trigger in
          match Sha256.sha256_text (terminal_text r) with
          | None => inl "c2_terminal_hash_failed"
          | Some bundle => inr (store_bundle r bundle)
          end
      end
  end.

(** ** The text *)

(** How the serialiser prints a value: a text as it is or escaped, an integer,
    a boolean word. *)
Inductive Printed :=
| PRaw (text : string)
| PEscaped (text : string)
| PInt (x : Z)
| PBool (b : bool).

Definition print_printed (p : Printed) : list ascii :=
  match p with
  | PRaw text => quote :: list_ascii_of_string text ++ [quote]
  | PEscaped text => quote :: json_escape text ++ [quote]
  | PInt x => list_ascii_of_string (print_integer x)
  | PBool b => list_ascii_of_string (if b then "true" else "false")
  end.

(** The fields in the order they are printed. *)
Definition entries (r : C2ClearanceReceipt) : list (string * Printed) := [
  ("schema_version", PRaw "prisminfer-c2-clearance-receipt-v1");
  ("receipt_class", PRaw "c2-clearance-candidate");
  ("repository", PEscaped (cr_repository r));
  ("reviewed_sha", PRaw (cr_reviewed_sha r));
  ("source_tree_sha", PRaw (cr_source_tree_sha r));
  ("worker_sha256", PRaw (cr_worker_sha256 r));
  ("worker_approval_identity", PEscaped (cr_worker_approval_identity r));
  ("workflow_run_id", PEscaped (cr_workflow_run_id r));
  ("authorization_id", PEscaped (cr_authorization_id r));
  ("gpu_uuid", PRaw (cr_gpu_uuid r));
  ("case_name", PEscaped (cr_case_name r));
  ("status", PEscaped (cr_status r));
  ("failure_reason", PEscaped (cr_failure_reason r));
  ("cleanup_status", PEscaped (cr_cleanup_status r));
  ("review_status", PRaw "pending-independent-review");
  ("claim_scope", PRaw "synthetic-c2-candidate-non-promotable");
  ("promotable", PBool false);
  ("c2_credit", PBool false);
  ("lease_id", PEscaped (cr_lease_id r));
  ("job_identity", PEscaped (cr_job_identity r));
  ("process_wddm_source", PEscaped (cr_process_wddm_source r));
  ("last_good_stage", PRaw (cr_last_good_stage r));
  ("terminal_trigger_canonical", PEscaped (cr_terminal_trigger_canonical r));
  ("terminal_trigger_sha256", PRaw (cr_terminal_trigger_sha256 r));
  ("last_good_sample_sha256", PRaw (cr_last_good_sample_sha256 r));
  ("pre_cleanup_evidence_sha256", PRaw (cr_pre_cleanup_evidence_sha256 r));
  ("evidence_bundle_sha256", PRaw (cr_evidence_bundle_sha256 r));
  ("adapter_luid_high", PInt (cr_adapter_luid_high r));
  ("adapter_luid_low", PInt (cr_adapter_luid_low r));
  ("adapter_index", PInt (cr_adapter_index r));
  ("worker_timeout_milliseconds", PInt (cr_worker_timeout_milliseconds r));
  ("post_admission_payload_bytes", PInt (cr_post_admission_payload_bytes r));
  ("maximum_payload_bytes", PInt (cr_maximum_payload_bytes r));
  ("context_cuda_free_bytes", PInt (cr_context_cuda_free_bytes r));
  ("context_cuda_total_bytes", PInt (cr_context_cuda_total_bytes r));
  ("last_heartbeat_cuda_free_bytes", PInt (cr_last_heartbeat_cuda_free_bytes r));
  ("last_heartbeat_cuda_total_bytes", PInt (cr_last_heartbeat_cuda_total_bytes r));
  ("pre_wddm_local_usage_bytes", PInt (cr_pre_wddm_local_usage_bytes r));
  ("final_wddm_local_usage_bytes", PInt (cr_final_wddm_local_usage_bytes r));
  ("cleanup_wddm_positive_delta_bytes", PInt (cr_cleanup_wddm_positive_delta_bytes r));
  ("cleanup_wddm_tolerance_bytes", PInt (cr_cleanup_wddm_tolerance_bytes r));
  ("last_sample_monotonic_milliseconds", PInt (cr_last_sample_monotonic_milliseconds r));
  ("last_sample_wddm_local_budget_bytes", PInt (cr_last_sample_wddm_local_budget_bytes r));
  ("last_sample_wddm_local_usage_bytes", PInt (cr_last_sample_wddm_local_usage_bytes r));
  ("process_wddm_sample_monotonic_milliseconds", PInt (cr_process_wddm_sample_monotonic_milliseconds r));
  ("process_wddm_current_bytes", PInt (cr_process_wddm_current_bytes r));
  ("process_wddm_peak_bytes", PInt (cr_process_wddm_peak_bytes r));
  ("last_host_sample_monotonic_milliseconds", PInt (cr_last_host_sample_monotonic_milliseconds r));
  ("last_host_memory_available_bytes", PInt (cr_last_host_memory_available_bytes r));
  ("last_host_commit_available_bytes", PInt (cr_last_host_commit_available_bytes r));
  ("last_thermal_sample_monotonic_milliseconds", PInt (cr_last_thermal_sample_monotonic_milliseconds r));
  ("last_gpu_temperature_celsius", PInt (cr_last_gpu_temperature_celsius r));
  ("last_gpu_slowdown_celsius", PInt (cr_last_gpu_slowdown_celsius r));
  ("pre_host_memory_available_bytes", PInt (cr_pre_host_memory_available_bytes r));
  ("final_host_memory_available_bytes", PInt (cr_final_host_memory_available_bytes r));
  ("pre_host_commit_available_bytes", PInt (cr_pre_host_commit_available_bytes r));
  ("final_host_commit_available_bytes", PInt (cr_final_host_commit_available_bytes r));
  ("pre_gpu_temperature_celsius", PInt (cr_pre_gpu_temperature_celsius r));
  ("final_gpu_temperature_celsius", PInt (cr_final_gpu_temperature_celsius r));
  ("root_process_id", PInt (cr_root_process_id r));
  ("heartbeat_count", PInt (cr_heartbeat_count r));
  ("context_ready_observed", PBool (cr_context_ready_observed r));
  ("token_consumed_observed", PBool (cr_token_consumed_observed r));
  ("worker_exit_observed", PBool (cr_worker_exit_observed r));
  ("job_tree_empty", PBool (cr_job_tree_empty r));
  ("job_accounting_reconciled", PBool (cr_job_accounting_reconciled r));
  ("device_resources_reconciled", PBool (cr_device_resources_reconciled r));
  ("artifact_handles_closed", PBool (cr_artifact_handles_closed r));
  ("temporary_files_reconciled", PBool (cr_temporary_files_reconciled r));
  ("last_gpu_thermal_throttling", PBool (cr_last_gpu_thermal_throttling r));
  ("last_gpu_power_brake_slowdown", PBool (cr_last_gpu_power_brake_slowdown r));
  ("last_wddm_available", PBool (cr_last_wddm_available r));
  ("last_process_wddm_available", PBool (cr_last_process_wddm_available r));
  ("last_host_available", PBool (cr_last_host_available r));
  ("last_thermal_available", PBool (cr_last_thermal_available r))].

Definition serialize_c2_clearance_receipt (r : C2ClearanceReceipt) : list ascii :=
  print_object print_printed (entries r).

(** ** The validator *)

Definition required : list string := [
  "schema_version"; "receipt_class"; "repository"; "reviewed_sha"; "source_tree_sha"; "worker_sha256";
  "worker_approval_identity"; "workflow_run_id"; "authorization_id"; "gpu_uuid"; "case_name"; "status";
  "failure_reason"; "cleanup_status"; "review_status"; "claim_scope"; "promotable"; "c2_credit"; "lease_id";
  "job_identity"; "process_wddm_source"; "last_good_stage"; "terminal_trigger_canonical";
  "terminal_trigger_sha256"; "last_good_sample_sha256"; "pre_cleanup_evidence_sha256";
  "evidence_bundle_sha256"; "adapter_luid_high"; "adapter_luid_low"; "adapter_index";
  "worker_timeout_milliseconds"; "post_admission_payload_bytes"; "maximum_payload_bytes";
  "context_cuda_free_bytes"; "context_cuda_total_bytes"; "last_heartbeat_cuda_free_bytes";
  "last_heartbeat_cuda_total_bytes"; "pre_wddm_local_usage_bytes"; "final_wddm_local_usage_bytes";
  "cleanup_wddm_positive_delta_bytes"; "cleanup_wddm_tolerance_bytes"; "pre_host_memory_available_bytes";
  "last_sample_monotonic_milliseconds"; "last_sample_wddm_local_budget_bytes";
  "last_sample_wddm_local_usage_bytes"; "process_wddm_sample_monotonic_milliseconds";
  "process_wddm_current_bytes"; "process_wddm_peak_bytes"; "last_host_sample_monotonic_milliseconds";
  "last_host_memory_available_bytes"; "last_host_commit_available_bytes";
  "last_thermal_sample_monotonic_milliseconds"; "last_gpu_temperature_celsius"; "last_gpu_slowdown_celsius";
  "final_host_memory_available_bytes"; "pre_host_commit_available_bytes"; "final_host_commit_available_bytes";
  "pre_gpu_temperature_celsius"; "final_gpu_temperature_celsius"; "root_process_id"; "heartbeat_count";
  "context_ready_observed"; "token_consumed_observed"; "worker_exit_observed"; "job_tree_empty";
  "job_accounting_reconciled"; "device_resources_reconciled"; "artifact_handles_closed";
  "temporary_files_reconciled"; "last_gpu_thermal_throttling"; "last_gpu_power_brake_slowdown";
  "last_wddm_available"; "last_process_wddm_available"; "last_host_available"; "last_thermal_available"].

(** The fields read as strings. *)
Definition string_fields : list string := [
  "schema_version"; "receipt_class"; "repository"; "reviewed_sha"; "source_tree_sha"; "worker_sha256";
  "worker_approval_identity"; "workflow_run_id"; "authorization_id"; "gpu_uuid"; "case_name"; "status";
  "failure_reason"; "cleanup_status"; "review_status"; "claim_scope"; "lease_id"; "job_identity";
  "process_wddm_source"; "last_good_stage"; "terminal_trigger_canonical"; "terminal_trigger_sha256";
  "last_good_sample_sha256"; "pre_cleanup_evidence_sha256"; "evidence_bundle_sha256"].

Definition strings_ok (json : FlatJsonResult) : bool :=
  forallb (fun key => bool_decide (is_Some (require_string json key))) string_fields.

(** A string that was read; the empty string before that. *)
Definition text_at (json : FlatJsonResult) (key : string) : string := default EmptyString (require_string json key).

Definition one_of (value : string) (allowed : list string) : bool := existsb (String.eqb value) allowed.

(** The identity, the classification and the shape of every text. *)
Definition identity_ok (json : FlatJsonResult) : bool :=
  let text := text_at json in
  strings_ok json && (text "schema_version" =s "prisminfer-c2-clearance-receipt-v1") &&
  (text "receipt_class" =s "c2-clearance-candidate") &&
  (text "review_status" =s "pending-independent-review") &&
  (text "claim_scope" =s "synthetic-c2-candidate-non-promotable") &&
  bounded_text (text "repository") 128 false && lower_hex (text "reviewed_sha") 40 &&
  lower_hex (text "source_tree_sha") 40 && lower_hex (text "worker_sha256") 64 &&
  bounded_text (text "worker_approval_identity") 128 false && bounded_text (text "workflow_run_id") 128 false &&
  authorization_identifier (text "authorization_id") &&
  canonical_gpu_uuid (text "gpu_uuid") &&
  bounded_text (text "case_name") 64 false &&
  one_of (text "status") ["candidate-complete"; "rejected"; "aborted"] &&
  bounded_text (text "failure_reason") 256 true &&
  one_of (text "cleanup_status") ["cleaned"; "quarantined"] &&
  bounded_text (text "lease_id") 128 false && bounded_text (text "job_identity") 256 false &&
  bounded_text (text "process_wddm_source") 64 false && lower_hex (text "last_good_sample_sha256") 64 &&
  one_of (text "last_good_stage") ["pre-context"; "post-context"; "watchdog"] &&
  bounded_text (text "terminal_trigger_canonical") 2048 false &&
  lower_hex (text "terminal_trigger_sha256") 64 &&
  lower_hex (text "pre_cleanup_evidence_sha256") 64 && lower_hex (text "evidence_bundle_sha256") 64 &&
  require_bool json "promotable" false && require_bool json "c2_credit" false &&
  require_boolean json "last_gpu_thermal_throttling" && require_boolean json "last_gpu_power_brake_slowdown".

(** The numbers that have a bound of their own. *)
Definition bounds_ok (json : FlatJsonResult) : bool :=
  match (payload ← require_integer json u64_range "post_admission_payload_bytes";
         maximum_payload ← require_integer json u64_range "maximum_payload_bytes";
         timeout ← require_integer json u32_range "worker_timeout_milliseconds";
         cleanup_delta ← require_integer json u64_range "cleanup_wddm_positive_delta_bytes";
         cleanup_tolerance ← require_integer json u64_range "cleanup_wddm_tolerance_bytes";
         Some (payload, maximum_payload, timeout, cleanup_delta, cleanup_tolerance)) with
  | None => false
  | Some (payload, maximum_payload, timeout, cleanup_delta, cleanup_tolerance) =>
      negb (negb (maximum_payload =? kC2MaximumPayloadBytes) || (maximum_payload <? payload) ||
            negb (cleanup_tolerance =? 16 * 1024 * 1024) || (cleanup_tolerance <? cleanup_delta) ||
            (timeout =? 0) || (60000 <? timeout))
  end.

(** The integers the digests cover, with their types. *)
Definition hashed_integers : list (Range * string) := [
  (u32_range, "root_process_id"); (i32_range, "adapter_luid_high"); (u32_range, "adapter_luid_low");
  (u64_range, "last_sample_monotonic_milliseconds"); (u64_range, "last_sample_wddm_local_budget_bytes");
  (u64_range, "last_sample_wddm_local_usage_bytes");
  (u64_range, "process_wddm_sample_monotonic_milliseconds"); (u64_range, "process_wddm_current_bytes");
  (u64_range, "process_wddm_peak_bytes"); (u64_range, "last_host_sample_monotonic_milliseconds");
  (u64_range, "last_host_memory_available_bytes"); (u64_range, "last_host_commit_available_bytes");
  (u64_range, "last_thermal_sample_monotonic_milliseconds"); (i32_range, "last_gpu_temperature_celsius");
  (i32_range, "last_gpu_slowdown_celsius"); (u32_range, "heartbeat_count");
  (u64_range, "pre_wddm_local_usage_bytes"); (u64_range, "final_wddm_local_usage_bytes");
  (u64_range, "cleanup_wddm_positive_delta_bytes"); (u64_range, "cleanup_wddm_tolerance_bytes")].

Definition hashed_booleans : list string := [
  "worker_exit_observed"; "job_tree_empty"; "job_accounting_reconciled"; "device_resources_reconciled";
  "artifact_handles_closed"; "temporary_files_reconciled"; "last_gpu_thermal_throttling";
  "last_gpu_power_brake_slowdown"; "last_wddm_available"; "last_process_wddm_available";
  "last_host_available"; "last_thermal_available"].

Definition hash_fields_ok (json : FlatJsonResult) : bool :=
  forallb (fun '(range, key) => bool_decide (is_Some (require_integer json range key))) hashed_integers &&
  forallb (fun key => bool_decide (is_Some (require_bool_value json key))) hashed_booleans.

(** The receipt the digests are recomputed from: the fields they cover, the
    others value-initialised.  It is used only after [hash_fields_ok], so that
    the defaults below are never taken ([reads_as_hashed]). *)
Definition hashed_receipt (json : FlatJsonResult) : C2ClearanceReceipt :=
  let text := text_at json in
  let integer range key := default 0 (require_integer json range key) in
  let boolean key := default false (require_bool_value json key) in
  let empty := new_receipt in
  {| empty with
     cr_case_name := text "case_name";
     cr_status := text "status";
     cr_failure_reason := text "failure_reason";
     cr_cleanup_status := text "cleanup_status";
     cr_process_wddm_source := text "process_wddm_source";
     cr_last_good_stage := text "last_good_stage";
     cr_terminal_trigger_canonical := text "terminal_trigger_canonical";
     cr_terminal_trigger_sha256 := text "terminal_trigger_sha256";
     cr_pre_cleanup_evidence_sha256 := text "pre_cleanup_evidence_sha256";
     cr_root_process_id := integer u32_range "root_process_id";
     cr_adapter_luid_high := integer i32_range "adapter_luid_high";
     cr_adapter_luid_low := integer u32_range "adapter_luid_low";
     cr_last_sample_monotonic_milliseconds := integer u64_range "last_sample_monotonic_milliseconds";
     cr_last_sample_wddm_local_budget_bytes := integer u64_range "last_sample_wddm_local_budget_bytes";
     cr_last_sample_wddm_local_usage_bytes := integer u64_range "last_sample_wddm_local_usage_bytes";
     cr_process_wddm_sample_monotonic_milliseconds := integer u64_range "process_wddm_sample_monotonic_milliseconds";
     cr_process_wddm_current_bytes := integer u64_range "process_wddm_current_bytes";
     cr_process_wddm_peak_bytes := integer u64_range "process_wddm_peak_bytes";
     cr_last_host_sample_monotonic_milliseconds := integer u64_range "last_host_sample_monotonic_milliseconds";
     cr_last_host_memory_available_bytes := integer u64_range "last_host_memory_available_bytes";
     cr_last_host_commit_available_bytes := integer u64_range "last_host_commit_available_bytes";
     cr_last_thermal_sample_monotonic_milliseconds := integer u64_range "last_thermal_sample_monotonic_milliseconds";
     cr_last_gpu_temperature_celsius := integer i32_range "last_gpu_temperature_celsius";
     cr_last_gpu_slowdown_celsius := integer i32_range "last_gpu_slowdown_celsius";
     cr_heartbeat_count := integer u32_range "heartbeat_count";
     cr_pre_wddm_local_usage_bytes := integer u64_range "pre_wddm_local_usage_bytes";
     cr_final_wddm_local_usage_bytes := integer u64_range "final_wddm_local_usage_bytes";
     cr_cleanup_wddm_positive_delta_bytes := integer u64_range "cleanup_wddm_positive_delta_bytes";
     cr_cleanup_wddm_tolerance_bytes := integer u64_range "cleanup_wddm_tolerance_bytes";
     cr_worker_exit_observed := boolean "worker_exit_observed";
     cr_job_tree_empty := boolean "job_tree_empty";
     cr_job_accounting_reconciled := boolean "job_accounting_reconciled";
     cr_device_resources_reconciled := boolean "device_resources_reconciled";
     cr_artifact_handles_closed := boolean "artifact_handles_closed";
     cr_temporary_files_reconciled := boolean "temporary_files_reconciled";
     cr_last_gpu_thermal_throttling := boolean "last_gpu_thermal_throttling";
     cr_last_gpu_power_brake_slowdown := boolean "last_gpu_power_brake_slowdown";
     cr_last_wddm_available := boolean "last_wddm_available";
     cr_last_process_wddm_available := boolean "last_process_wddm_available";
     cr_last_host_available := boolean "last_host_available";
     cr_last_thermal_available := boolean "last_thermal_available" |}.

(** The digests of the file are those of its own fields. *)
Definition digests_ok (json : FlatJsonResult) : bool :=
  match Sha256.sha256_text (text_at json "terminal_trigger_canonical") with
  | None => false
  | Some recomputed_trigger =>
      (recomputed_trigger =s text_at json "terminal_trigger_sha256") && hash_fields_ok json &&
      match compute_c2_clearance_evidence_hashes (hashed_receipt json) with
      | inl _ => false
      | inr hashed => (cr_last_good_sample_sha256 hashed =s text_at json "last_good_sample_sha256") &&
                      (cr_evidence_bundle_sha256 hashed =s text_at json "evidence_bundle_sha256")
      end
  end.

(** The keys in the order of [std::map]. *)
Definition field_keys (json : FlatJsonResult) : list string := (ordered_fields (fr_fields json)).*1.

Definition validate_receipt_fields (json : FlatJsonResult) : string + unit :=
  _ ← refuse_if (negb (Nat.eqb (size (fr_fields json)) (List.length required))) "c2_receipt_field_set_invalid";
  _ ← check_all (fun key => refuse_if (negb (one_of key required)) ("c2_receipt_unknown_field:" +:+ key))
        (field_keys json);
  _ ← refuse_if (negb (identity_ok json)) "c2_receipt_identity_or_classification_invalid";
  _ ← refuse_if (negb (bounds_ok json)) "c2_receipt_bounds_invalid";
  refuse_if (negb (digests_ok json)) "c2_receipt_evidence_hash_mismatch".

Definition validate_c2_clearance_receipt_file (file : ManifestFile) : string + unit :=
  let json := read_flat_json_file file kC2ReceiptMaximumBytes in
  if negb (fr_ok json) then inl (fr_error json) else validate_receipt_fields json.

(** ** Writing

    [present] is what the reader's system calls see of a path; see [FlatJson]. *)

Definition write_c2_clearance_receipt (q : TrustedQuery) (en : Environment) (interfere : Fs -> Fs)
    (present : Fs -> Path -> ManifestFile) (path : Path) (r : C2ClearanceReceipt) (fs : Fs) : (string + unit) * Fs :=
  match is_direct_child_of_trusted_directory q with
  | inl error => (inl error, fs)
  | inr _ =>
      write_new_or_same_text_file_atomically en interfere
        (Some (fun fs candidate => validate_c2_clearance_receipt_file (present fs candidate)))
        path (string_of_list_ascii (serialize_c2_clearance_receipt r)) kC2ReceiptMaximumBytes fs
  end.

(** ** What the validator accepts *)

(** The integers of a receipt with the types that hold them. *)
Definition integers (r : C2ClearanceReceipt) : list (Range * Z) := [
  (i32_range, cr_adapter_luid_high r);
  (u32_range, cr_adapter_luid_low r);
  (u32_range, cr_adapter_index r);
  (u32_range, cr_worker_timeout_milliseconds r);
  (u64_range, cr_post_admission_payload_bytes r);
  (u64_range, cr_maximum_payload_bytes r);
  (u64_range, cr_context_cuda_free_bytes r);
  (u64_range, cr_context_cuda_total_bytes r);
  (u64_range, cr_last_heartbeat_cuda_free_bytes r);
  (u64_range, cr_last_heartbeat_cuda_total_bytes r);
  (u64_range, cr_pre_wddm_local_usage_bytes r);
  (u64_range, cr_final_wddm_local_usage_bytes r);
  (u64_range, cr_cleanup_wddm_positive_delta_bytes r);
  (u64_range, cr_cleanup_wddm_tolerance_bytes r);
  (u64_range, cr_last_sample_monotonic_milliseconds r);
  (u64_range, cr_last_sample_wddm_local_budget_bytes r);
  (u64_range, cr_last_sample_wddm_local_usage_bytes r);
  (u64_range, cr_process_wddm_sample_monotonic_milliseconds r);
  (u64_range, cr_process_wddm_current_bytes r);
  (u64_range, cr_process_wddm_peak_bytes r);
  (u64_range, cr_last_host_sample_monotonic_milliseconds r);
  (u64_range, cr_last_host_memory_available_bytes r);
  (u64_range, cr_last_host_commit_available_bytes r);
  (u64_range, cr_last_thermal_sample_monotonic_milliseconds r);
  (i32_range, cr_last_gpu_temperature_celsius r);
  (i32_range, cr_last_gpu_slowdown_celsius r);
  (u64_range, cr_pre_host_memory_available_bytes r);
  (u64_range, cr_final_host_memory_available_bytes r);
  (u64_range, cr_pre_host_commit_available_bytes r);
  (u64_range, cr_final_host_commit_available_bytes r);
  (i32_range, cr_pre_gpu_temperature_celsius r);
  (i32_range, cr_final_gpu_temperature_celsius r);
  (u32_range, cr_root_process_id r);
  (u32_range, cr_heartbeat_count r)].

(** Every integer is a value of its C++ type. *)
Definition typed (r : C2ClearanceReceipt) : bool := forallb (fun '(range, x) => in_bounds range x) (integers r).

(** The texts of the receipt that are not digests of its own. *)
Definition texts_ok (r : C2ClearanceReceipt) : bool :=
  bounded_text (cr_repository r) 128 false && lower_hex (cr_reviewed_sha r) 40 &&
  lower_hex (cr_source_tree_sha r) 40 && lower_hex (cr_worker_sha256 r) 64 &&
  bounded_text (cr_worker_approval_identity r) 128 false && bounded_text (cr_workflow_run_id r) 128 false &&
  authorization_identifier (cr_authorization_id r) && canonical_gpu_uuid (cr_gpu_uuid r) &&
  bounded_text (cr_case_name r) 64 false && one_of (cr_status r) ["candidate-complete"; "rejected"; "aborted"] &&
  bounded_text (cr_failure_reason r) 256 true && one_of (cr_cleanup_status r) ["cleaned"; "quarantined"] &&
  bounded_text (cr_lease_id r) 128 false && bounded_text (cr_job_identity r) 256 false &&
  bounded_text (cr_process_wddm_source r) 64 false &&
  one_of (cr_last_good_stage r) ["pre-context"; "post-context"; "watchdog"] &&
  bounded_text (cr_terminal_trigger_canonical r) 2048 false && lower_hex (cr_pre_cleanup_evidence_sha256 r) 64.

Definition limits_ok (r : C2ClearanceReceipt) : bool :=
  (cr_maximum_payload_bytes r =? kC2MaximumPayloadBytes) &&
  (cr_post_admission_payload_bytes r <=? cr_maximum_payload_bytes r) &&
  (cr_cleanup_wddm_tolerance_bytes r =? 16 * 1024 * 1024) &&
  (cr_cleanup_wddm_positive_delta_bytes r <=? cr_cleanup_wddm_tolerance_bytes r) &&
  negb (cr_worker_timeout_milliseconds r =? 0) && (cr_worker_timeout_milliseconds r <=? 60000).

(** The receipt before its digests are computed. *)
Definition inputs_ok (r : C2ClearanceReceipt) : bool := texts_ok r && limits_ok r.

(** ** Printed values read back *)

Definition value_of (p : Printed) : FlatJsonValue :=
  match p with
  | PRaw text | PEscaped text => mkValue text StringKind
  | PInt x => mkValue (print_integer x) NumberKind
  | PBool b => mkValue (if b then "true" else "false") BooleanKind
  end.

(** A text that needs no escape. *)
Definition plain_char (c : ascii) : bool :=
  (32 <=? char_code c) && negb (Ascii.eqb c quote) && negb (Ascii.eqb c backslash).

Definition printable (p : Printed) : bool :=
  match p with
  | PRaw text => all_chars plain_char text
  | PEscaped text => string_text text
  | PInt x => in_bounds (- u64_max, u64_max) x
  | PBool _ => true
  end.

Lemma plain_escape c : plain_char c = true -> escape_char c = [c].
Proof.
  unfold plain_char, escape_char. rewrite !andb_true_iff, !negb_true_iff. intros [[Hc ->] ->].
  destruct (Ascii.eqb_spec c newline) as [->|_]; [done|]. destruct (Ascii.eqb_spec c carriage_return) as [->|_]; [done|].
  by destruct (Ascii.eqb_spec c tab) as [->|_].
Qed.

Lemma plain_string_char c : plain_char c = true -> string_char c = true.
Proof. unfold plain_char, string_char. rewrite !andb_true_iff. intros [[-> _] _]. done. Qed.

Lemma plain_json_escape text : all_chars plain_char text = true -> json_escape text = list_ascii_of_string text.
Proof.
  unfold all_chars, json_escape. rewrite forallb_Forall. induction 1 as [|c l Hc _ IH]; [done|].
  cbn. rewrite plain_escape by done. by rewrite IH.
Qed.

Lemma print_printed_value p : printable p = true -> print_printed p = print_value (value_of p).
Proof.
  destruct p; try done. intros H. unfold print_value. cbn [value_of fv_kind fv_text print_printed].
  by rewrite plain_json_escape.
Qed.

Lemma digit_literal c : is_digit c = true ->
  literal_char c = true /\ c <> quote /\ c <> "{"%char /\ c <> "["%char /\ c <> "t"%char /\ c <> "f"%char.
Proof.
  intros H. split; [|split_and!; intros ->; by vm_compute in H].
  revert H. by destruct c as [[] [] [] [] [] [] [] []].
Qed.

(** A token of digits, with or without a sign, is a number. *)
Lemma digits_number_token c l :
  (is_digit c = true \/ c = "-"%char) -> Forall (fun d => is_digit d = true) l -> number_token (c :: l) = true.
Proof.
  intros Hc Hl.
  assert (literal_char c = true /\ c <> quote /\ c <> "{"%char /\ c <> "["%char /\ c <> "t"%char /\ c <> "f"%char)
    as (Hlit & Hq & Hb & Hs & Ht & Hf) by (destruct Hc as [Hc | ->]; [by apply digit_literal|done]).
  unfold number_token. rewrite !andb_true_iff, !negb_true_iff. split_and!.
  - by rewrite !orb_false_iff, !Ascii.eqb_neq.
  - unfold starts_with. apply bool_decide_eq_false. cbn. congruence.
  - unfold starts_with. apply bool_decide_eq_false. cbn. congruence.
  - cbn [forallb]. rewrite Hlit. apply forallb_Forall. eapply Forall_impl; [exact Hl|]. intros d Hd. by apply digit_literal.
Qed.

(** The two shapes of a printed integer. *)
Lemma print_integer_shape x : in_bounds (- u64_max, u64_max) x = true ->
  exists digits, digits <> [] /\ Forall (fun c => is_digit c = true) digits /\ decimal digits = Z.abs x /\
    list_ascii_of_string (print_integer x) = if x <? 0 then "-"%char :: digits else digits.
Proof.
  unfold in_bounds. cbn [fst snd]. rewrite andb_true_iff. intros Hx. unfold print_integer.
  rewrite list_ascii_of_string_of_list_ascii.
  destruct (to_string_decimal (Z.abs x)) as (H1 & H2 & H3); [unfold u64; lia|].
  exists (to_string (Z.abs x)). split_and!; try done.
  destruct (Z.ltb_spec x 0); [by rewrite Z.abs_neq by lia|by rewrite Z.abs_eq by lia].
Qed.

Lemma value_of_well_formed p : printable p = true -> well_formed_value (value_of p) = true.
Proof.
  destruct p as [text|text|x|[]]; unfold well_formed_value; cbn [value_of fv_kind fv_text printable]; try done.
  - unfold all_chars, string_text. rewrite !forallb_Forall. intros H. eapply Forall_impl; [exact H|].
    intros c. apply plain_string_char.
  - intros H. destruct (print_integer_shape x H) as (digits & Hne & Hd & _ & ->).
    destruct (x <? 0); [by apply digits_number_token; [right|]|].
    destruct Hd as [|c l Hc Hl]; [done|]. by apply digits_number_token; [left|].
Qed.

(** ** Fields by key *)

Fixpoint assoc {V} (key : string) (l : list (string * V)) : option V :=
  match l with
  | [] => None
  | (k, v) :: l => if String.eqb key k then Some v else assoc key l
  end.

Lemma lookup_assoc {V W} (g : V -> W) (l : list (string * V)) key :
  (list_to_map (prod_map id g <$> l) : gmap string W) !! key = g <$> assoc key l.
Proof.
  induction l as [|[k v] l IH]; [done|]. cbn. destruct (String.eqb_spec key k) as [->|Hne].
  - by rewrite lookup_insert_eq.
  - rewrite lookup_insert_ne by done. apply IH.
Qed.

(** What the parser makes of a printable receipt. *)
Definition json_of (r : C2ClearanceReceipt) : FlatJsonResult :=
  mkResult true (list_to_map (prod_map id value_of <$> entries r)) EmptyString.

Definition printable_receipt (r : C2ClearanceReceipt) : bool := forallb (fun e => printable e.2) (entries r).

Lemma entries_keys r : (entries r).*1 = (entries new_receipt).*1.
Proof. reflexivity. Qed.

Lemma entries_nodup r : NoDup (entries r).*1.
Proof. rewrite entries_keys. apply (bool_decide_unpack _). vm_compute. exact I. Qed.

Lemma entries_key_text r key : key ∈ (entries r).*1 -> string_text key = true.
Proof.
  rewrite entries_keys. revert key. apply Forall_forall. apply forallb_Forall. vm_compute. reflexivity.
Qed.

Lemma keys_prod_map {V W} (g : V -> W) (l : list (string * V)) : (prod_map id g <$> l).*1 = l.*1.
Proof. induction l as [|[k v] l IH]; cbn; [done|]. by f_equal. Qed.

Lemma parse_serialized_receipt r :
  printable_receipt r = true -> parse_flat_json_object (serialize_c2_clearance_receipt r) = json_of r.
Proof.
  intros H. unfold printable_receipt in H. rewrite forallb_Forall, Forall_forall in H.
  unfold serialize_c2_clearance_receipt, json_of.
  rewrite (print_object_fmap print_printed print_value value_of) by (apply Forall_forall; intros; apply print_printed_value; auto).
  apply parse_printed_object.
  - rewrite keys_prod_map. apply entries_nodup.
  - apply Forall_fmap, Forall_forall. intros [k p] Hin. cbn. split.
    + apply (entries_key_text r). by apply (list_elem_of_fmap_2 fst) in Hin.
    + apply printed_shown, value_of_well_formed. apply (H (k, p) Hin).
Qed.

Definition text_of (p : Printed) : option string :=
  match p with PRaw text | PEscaped text => Some text | _ => None end.

Definition bool_of (p : Printed) : option bool := match p with PBool b => Some b | _ => None end.

Definition int_of (p : Printed) : option Z := match p with PInt x => Some x | _ => None end.

Lemma require_string_entry r key : require_string (json_of r) key = assoc key (entries r) ≫= text_of.
Proof.
  unfold require_string, json_of. cbn [fr_fields]. rewrite lookup_assoc. by destruct (assoc key (entries r)) as [[]|].
Qed.

Lemma text_at_entry r key text : assoc key (entries r) ≫= text_of = Some text -> text_at (json_of r) key = text.
Proof. unfold text_at. rewrite require_string_entry. by intros ->. Qed.

Lemma require_bool_entry r key expected b :
  assoc key (entries r) ≫= bool_of = Some b -> require_bool (json_of r) key expected = Bool.eqb b expected.
Proof.
  unfold require_bool, json_of. cbn [fr_fields]. rewrite lookup_assoc.
  destruct (assoc key (entries r)) as [[]|]; try done. intros [= ->]. by destruct b, expected.
Qed.

Lemma require_boolean_entry r key b :
  assoc key (entries r) ≫= bool_of = Some b -> require_boolean (json_of r) key = true.
Proof.
  unfold require_boolean, json_of. cbn [fr_fields]. rewrite lookup_assoc. by destruct (assoc key (entries r)) as [[]|].
Qed.

Lemma require_bool_value_entry r key b :
  assoc key (entries r) ≫= bool_of = Some b -> require_bool_value (json_of r) key = Some b.
Proof.
  unfold require_bool_value, json_of. cbn [fr_fields]. rewrite lookup_assoc.
  destruct (assoc key (entries r)) as [[]|]; try done. intros [= ->]. by destruct b.
Qed.

(** [from_chars] reads back what [std::ostream] printed. *)
Lemma parse_printed_integer range x :
  - u64_max <= range.1 -> range.2 <= u64_max -> in_bounds range x = true ->
  parse_integer range (mkValue (print_integer x) NumberKind) = Some x.
Proof.
  intros Hlo Hhi Hx. pose proof Hx as Hb. unfold in_bounds in Hb. rewrite andb_true_iff in Hb.
  destruct (print_integer_shape x) as (digits & Hne & Hd & Hv & Hs).
  { unfold in_bounds. cbn [fst snd]. rewrite andb_true_iff. lia. }
  unfold parse_integer. cbn [fv_kind fv_text].
  assert (He : str_empty (print_integer x) = false).
  { apply str_empty_false. intros E. rewrite E in Hs. cbn in Hs. by destruct (x <? 0). }
  rewrite He, Hs. unfold from_chars. destruct (Z.ltb_spec x 0) as [Hn|Hn].
  - destruct (Z.ltb_spec range.1 0); [|lia]. rewrite Ascii.eqb_refl. cbn [andb]. rewrite span_digits by done.
    destruct digits as [|c l]; [done|]. rewrite Hv. replace (- Z.abs x) with x by lia. by rewrite Hx.
  - destruct Hd as [|c l Hc Hl]; [done|]. assert (Hm : Ascii.eqb c "-" = false).
    { apply Ascii.eqb_neq. intros ->. by vm_compute in Hc. }
    rewrite Hm. cbn [andb]. rewrite (span_digits (c :: l)) by by constructor. rewrite Hv.
    replace (Z.abs x) with x by lia. by rewrite Hx.
Qed.

Lemma require_integer_entry r range key x :
  assoc key (entries r) ≫= int_of = Some x -> - u64_max <= range.1 -> range.2 <= u64_max -> in_bounds range x = true ->
  require_integer (json_of r) range key = Some x.
Proof.
  intros H Hlo Hhi Hx. unfold require_integer, json_of. cbn [fr_fields]. rewrite lookup_assoc.
  destruct (assoc key (entries r)) as [[]|]; try done. injection H as ->. by apply parse_printed_integer.
Qed.

(** Replaces each read of a field of [json_of r] by the field of the receipt. *)
Ltac read_entries :=
  repeat match goal with
    | |- context [text_at (json_of ?r) ?key] => erewrite (text_at_entry r key) by reflexivity
    | |- context [require_bool (json_of ?r) ?key ?e] => erewrite (require_bool_entry r key e) by reflexivity
    | |- context [require_boolean (json_of ?r) ?key] => erewrite (require_boolean_entry r key) by reflexivity
    | |- context [require_bool_value (json_of ?r) ?key] => erewrite (require_bool_value_entry r key) by reflexivity
    | |- context [require_integer (json_of ?r) ?range ?key] =>
        erewrite (require_integer_entry r range key); [|reflexivity|done|done|assumption]
    end.

Ltac typed_bounds H :=
  unfold typed, integers in H; cbn [forallb] in H; rewrite ?andb_true_iff in H; destruct_and?.

Lemma strings_ok_entries r : strings_ok (json_of r) = true.
Proof.
  unfold strings_ok. apply forallb_Forall. repeat constructor; apply bool_decide_eq_true; rewrite require_string_entry;
    eexists; reflexivity.
Qed.

Lemma hash_fields_ok_entries r : typed r = true -> hash_fields_ok (json_of r) = true.
Proof.
  intros H. typed_bounds H. unfold hash_fields_ok, hashed_integers, hashed_booleans. cbn [forallb]. read_entries.
  rewrite !bool_decide_eq_true_2 by (by eexists). done.
Qed.
Lemma bounds_ok_entries r : typed r = true -> bounds_ok (json_of r) = limits_ok r.
Proof.
  intros H. typed_bounds H. unfold bounds_ok. read_entries. cbn [mbind option_bind].
  rewrite !negb_orb, !negb_involutive, <- !Z.leb_antisym. done.
Qed.


(** The digests of the parsed text cover the fields of the receipt. *)
Lemma hashed_texts r : typed r = true ->
  last_good_text (hashed_receipt (json_of r)) = last_good_text r /\
  cr_terminal_trigger_canonical (hashed_receipt (json_of r)) = cr_terminal_trigger_canonical r /\
  forall last trigger, terminal_text (store_trigger (store_last_good (hashed_receipt (json_of r)) last) trigger) =
                       terminal_text (store_trigger (store_last_good r last) trigger).
Proof. intros H. typed_bounds H. unfold hashed_receipt. read_entries. done. Qed.

Lemma digests_ok_entries r : typed r = true ->
  digests_ok (json_of r) = true <-> compute_c2_clearance_evidence_hashes r = inr r.
Proof.
  intros H. destruct (hashed_texts r H) as (Hl & Ht & Hb). unfold digests_ok, compute_c2_clearance_evidence_hashes.
  generalize Sha256.sha256_text as sha. intros sha. cbv zeta. rewrite Hl. read_entries. rewrite (hash_fields_ok_entries r H).
  clear H. cbn [store_last_good cr_terminal_trigger_canonical]. rewrite Ht. clear Ht Hl.
  destruct (sha (cr_terminal_trigger_canonical r)) as [trigger|] eqn:Et.
  2: { split; [discriminate|]. destruct (sha (last_good_text r)); discriminate. }
  destruct (sha (last_good_text r)) as [last|] eqn:El; [|rewrite andb_false_r; split; discriminate].
  rewrite Hb.
  destruct (sha (terminal_text _)) as [bundle|] eqn:Eb; [|rewrite andb_false_r; split; discriminate].
  cbn [cr_last_good_sample_sha256 cr_evidence_bundle_sha256 store_bundle store_trigger store_last_good].
  rewrite !andb_true_iff, !String.eqb_eq. clear. split.
  - intros ([-> _] & -> & ->). f_equal. by destruct r.
  - intros [= E]. rewrite <- E. done.
Qed.

(** ** The round trip *)

Lemma identity_ok_entries r :
  identity_ok (json_of r) = true <->
  texts_ok r = true /\
  lower_hex (cr_last_good_sample_sha256 r) 64 = true /\ lower_hex (cr_terminal_trigger_sha256 r) 64 = true /\
  lower_hex (cr_evidence_bundle_sha256 r) 64 = true.
Proof.
  unfold identity_ok, texts_ok. cbv zeta. rewrite strings_ok_entries. read_entries. rewrite !String.eqb_refl. cbn [Bool.eqb].
  repeat match goal with
    | |- context [bounded_text ?a ?b ?c] => generalize (bounded_text a b c); intro
    | |- context [lower_hex ?a ?b] => generalize (lower_hex a b); intro
    | |- context [one_of ?a ?b] => generalize (one_of a b); intro
    end.
  rewrite !andb_true_iff. tauto.
Qed.

Lemma sha256_lower_hex text digest : Sha256.sha256_text text = Some digest -> lower_hex digest 64 = true.
Proof. intros H. destruct (Sha256.sha256_text_lower text digest H) as [H1 H2]. unfold lower_hex. by rewrite H1, H2. Qed.

(** The receipt with its three digests. *)
Definition store_digests (r : C2ClearanceReceipt) (last trigger bundle : string) : C2ClearanceReceipt :=
  store_bundle (store_trigger (store_last_good r last) trigger) bundle.

Lemma compute_hashes_inr r r' :
  compute_c2_clearance_evidence_hashes r = inr r' <->
  exists last trigger bundle,
    Sha256.sha256_text (last_good_text r) = Some last /\
    Sha256.sha256_text (cr_terminal_trigger_canonical r) = Some trigger /\
    Sha256.sha256_text (terminal_text (store_trigger (store_last_good r last) trigger)) = Some bundle /\
    r' = store_digests r last trigger bundle.
Proof.
  unfold compute_c2_clearance_evidence_hashes. cbv zeta. generalize Sha256.sha256_text as sha. intros sha. split.
  - destruct (sha (last_good_text r)) as [last|] eqn:E1; [|discriminate].
    destruct (sha (cr_terminal_trigger_canonical _)) as [trigger|] eqn:E2; [|discriminate].
    destruct (sha (terminal_text _)) as [bundle|] eqn:E3; [|discriminate]. intros H. injection H as <-.
    exists last, trigger, bundle. auto.
  - intros (last & trigger & bundle & -> & Ht & Hb & ->). cbn [store_last_good cr_terminal_trigger_canonical].
    rewrite Ht, Hb. reflexivity.
Qed.

Lemma hashed_digests_hex r r' : compute_c2_clearance_evidence_hashes r = inr r' ->
  lower_hex (cr_last_good_sample_sha256 r') 64 = true /\ lower_hex (cr_terminal_trigger_sha256 r') 64 = true /\
  lower_hex (cr_evidence_bundle_sha256 r') 64 = true.
Proof.
  rewrite compute_hashes_inr. intros (last & trigger & bundle & H1 & H2 & H3 & ->).
  split_and!; eapply sha256_lower_hex; eassumption.
Qed.

(** Hashing again changes nothing. *)
Lemma compute_hashes_idempotent r r' :
  compute_c2_clearance_evidence_hashes r = inr r' -> compute_c2_clearance_evidence_hashes r' = inr r'.
Proof.
  rewrite !compute_hashes_inr. intros (last & trigger & bundle & H1 & H2 & H3 & ->).
  exists last, trigger, bundle. auto.
Qed.

(** The digests do not enter the other checks. *)
Lemma hashed_inputs r r' :
  compute_c2_clearance_evidence_hashes r = inr r' -> inputs_ok r' = inputs_ok r /\ typed r' = typed r.
Proof. rewrite compute_hashes_inr. intros (last & trigger & bundle & _ & _ & _ & ->). split; reflexivity. Qed.

(** *** Texts that pass the checks are printable *)

Lemma all_chars_impl (p q : ascii -> bool) text :
  (forall c, p c = true -> q c = true) -> all_chars p text = true -> all_chars q text = true.
Proof. unfold all_chars. rewrite !forallb_Forall. intros H Ht. eapply Forall_impl; eauto. Qed.

(** A class of characters without controls, quotes and backslashes. *)
Lemma hex_plain c : is_lower_hex c = true -> plain_char c = true.
Proof. by destruct c as [[] [] [] [] [] [] [] []]. Qed.

Lemma identifier_plain c : identifier_char c = true -> plain_char c = true.
Proof. by destruct c as [[] [] [] [] [] [] [] []]. Qed.

Lemma lower_hex_plain text n : lower_hex text n = true -> all_chars plain_char text = true.
Proof. unfold lower_hex. rewrite andb_true_iff. intros [_ H]. by apply (all_chars_impl _ _ _ hex_plain). Qed.

Lemma plain_string_text text : all_chars plain_char text = true -> string_text text = true.
Proof. apply (all_chars_impl plain_char string_char), plain_string_char. Qed.

Lemma bounded_string_text text n e : bounded_text text n e = true -> string_text text = true.
Proof.
  unfold bounded_text. rewrite andb_true_iff. intros [_ H]. revert H. apply (all_chars_impl _ string_char).
  intros c H. unfold string_char. by rewrite H.
Qed.

Lemma identifier_string_text text : authorization_identifier text = true -> string_text text = true.
Proof.
  unfold authorization_identifier. rewrite andb_true_iff. intros [_ H]. apply plain_string_text.
  by apply (all_chars_impl _ _ _ identifier_plain).
Qed.

Lemma uuid_chars_plain index l : uuid_chars index l = true -> forallb plain_char l = true.
Proof.
  revert index; induction l as [|c l IH]; intros index; [done|]. cbn [uuid_chars forallb]. rewrite !andb_true_iff.
  intros [Hc Hl]. split; [|by apply (IH (S index))]. destruct (existsb _ _); [|by apply hex_plain].
  by apply Ascii.eqb_eq in Hc as ->.
Qed.

Lemma uuid_plain text : canonical_gpu_uuid text = true -> all_chars plain_char text = true.
Proof.
  unfold canonical_gpu_uuid. rewrite !andb_true_iff. intros [[_ Hp] Hl]. unfold all_chars.
  rewrite <- (take_drop 4 (list_ascii_of_string text)), forallb_app. rewrite (uuid_chars_plain 4 (drop 4 _)) by exact Hl.
  unfold starts_with in Hp. apply bool_decide_eq_true in Hp. cbn [List.length list_ascii_of_string] in Hp. by rewrite Hp.
Qed.

Lemma one_of_plain text allowed : forallb (all_chars plain_char) allowed = true -> one_of text allowed = true ->
  all_chars plain_char text = true.
Proof.
  unfold one_of. rewrite forallb_forall, existsb_exists. intros H (x & Hin & Hx%String.eqb_eq). subst. by apply H.
Qed.

Lemma in_bounds_printable range x : - u64_max <= range.1 -> range.2 <= u64_max ->
  in_bounds range x = true -> printable (PInt x) = true.
Proof. unfold printable, in_bounds. cbn [fst snd]. rewrite !andb_true_iff, !Z.leb_le. lia. Qed.

Create HintDb printable.
#[local] Hint Resolve lower_hex_plain bounded_string_text identifier_string_text uuid_plain : printable.

Lemma inputs_printable r : typed r = true -> inputs_ok r = true ->
  lower_hex (cr_last_good_sample_sha256 r) 64 = true -> lower_hex (cr_terminal_trigger_sha256 r) 64 = true ->
  lower_hex (cr_evidence_bundle_sha256 r) 64 = true -> printable_receipt r = true.
Proof.
  intros Ht Hi H1 H2 H3. typed_bounds Ht. unfold inputs_ok, texts_ok in Hi. rewrite !andb_true_iff in Hi. destruct_and!.
  unfold printable_receipt, entries. apply forallb_Forall.
  repeat (apply Forall_cons; split; [cbn [snd]|]); [..|apply Forall_nil; exact I];
    try reflexivity; try (eapply in_bounds_printable; [| |eassumption]; done); cbn [printable]; eauto 3 with printable.
  all: try apply plain_string_text; eapply one_of_plain; [|eassumption]; reflexivity.
Qed.

(** *** The field set *)

Lemma one_of_elem key allowed : one_of key allowed = true <-> key ∈ allowed.
Proof.
  unfold one_of. rewrite existsb_exists, list_elem_of_In. split; [intros (x & H & Hx%String.eqb_eq); by subst|].
  intros H. exists key. by rewrite String.eqb_refl.
Qed.

Lemma field_keys_elem json key : key ∈ field_keys json <-> is_Some (fr_fields json !! key).
Proof.
  unfold field_keys. rewrite ordered_fields_perm, list_elem_of_fmap. split.
  - intros ([k v] & -> & H%elem_of_map_to_list). by exists v.
  - intros [v H%elem_of_map_to_list]. by exists (key, v).
Qed.

Lemma unknown_fields_inr json u :
  check_all (fun key => refuse_if (negb (one_of key required)) ("c2_receipt_unknown_field:" +:+ key)) (field_keys json) = inr u <->
  forall key, is_Some (fr_fields json !! key) -> key ∈ required.
Proof.
  rewrite check_all_inr, Forall_forall. split.
  - intros H key Hk. apply field_keys_elem in Hk. apply (H key), refuse_if_inr, negb_false_iff, one_of_elem in Hk. done.
  - intros H key Hk%field_keys_elem. by apply refuse_if_inr, negb_false_iff, one_of_elem, H.
Qed.

Lemma validate_fields_inr json :
  validate_receipt_fields json = inr tt <->
  size (fr_fields json) = List.length required /\ (forall key, is_Some (fr_fields json !! key) -> key ∈ required) /\
  identity_ok json = true /\ bounds_ok json = true /\ digests_ok json = true.
Proof.
  unfold validate_receipt_fields. rewrite !seq_inr, !refuse_if_inr, unknown_fields_inr, !negb_false_iff, Nat.eqb_eq. done.
Qed.

Lemma entries_field_set r :
  size (fr_fields (json_of r)) = List.length required /\
  (forall key, is_Some (fr_fields (json_of r) !! key) -> key ∈ required).
Proof.
  unfold json_of. cbn [fr_fields]. split.
  - rewrite map_size_list_to_map by (rewrite keys_prod_map; apply entries_nodup). by rewrite length_fmap.
  - intros key Hk. rewrite lookup_assoc, fmap_is_Some in Hk.
    assert (Hin : key ∈ (entries r).*1).
    { destruct Hk as [p Hp]. revert Hp. generalize (entries r) as l. induction l as [|[k v] l IH]; [done|].
      cbn. destruct (String.eqb_spec key k) as [->|_]; [by left|right; by apply IH]. }
    rewrite entries_keys in Hin. revert key Hk Hin.
    assert (H : Forall (fun key => one_of key required = true) (entries new_receipt).*1)
      by (apply forallb_Forall; vm_compute; reflexivity).
    intros key _ Hin. apply one_of_elem. rewrite Forall_forall in H. by apply H.
Qed.

(** The validator's verdict on the text of a printable receipt. *)
Lemma serialized_verdict r : typed r = true -> printable_receipt r = true ->
  validate_receipt_fields (parse_flat_json_object (serialize_c2_clearance_receipt r)) = inr tt <->
  inputs_ok r = true /\ compute_c2_clearance_evidence_hashes r = inr r.
Proof.
  intros Ht Hp. rewrite (parse_serialized_receipt r Hp), validate_fields_inr.
  rewrite identity_ok_entries, bounds_ok_entries, digests_ok_entries by done. destruct (entries_field_set r) as [Hs Hk].
  unfold inputs_ok. rewrite andb_true_iff. split; [tauto|]. intros ((Htx & Hl) & Hc).
  destruct (hashed_digests_hex r r Hc) as (H1 & H2 & H3). tauto.
Qed.

(** C28. A receipt whose inputs are in their ranges and pass the identity, shape
    and bound checks, hashed, printed and parsed again, is accepted by the
    validator: the printed digests are those it recomputes from the printed text. *)
Theorem hashed_receipt_round_trip r r' :
  typed r = true -> inputs_ok r = true -> compute_c2_clearance_evidence_hashes r = inr r' ->
  validate_receipt_fields (parse_flat_json_object (serialize_c2_clearance_receipt r')) = inr tt.
Proof.
  intros Ht Hi Hc. destruct (hashed_inputs r r' Hc) as [Hi' Ht']. destruct (hashed_digests_hex r r' Hc) as (H1 & H2 & H3).
  apply serialized_verdict; [congruence|apply inputs_printable; congruence|].
  split; [congruence|]. by apply (compute_hashes_idempotent r).
Qed.

Lemma keys_complete json :
  size (fr_fields json) = List.length required -> (forall key, is_Some (fr_fields json !! key) -> key ∈ required) ->
  dom (fr_fields json) = list_to_set required.
Proof.
  intros Hs Hk. assert (Hnd : NoDup required) by (apply (bool_decide_unpack _); vm_compute; exact I).
  apply set_subseteq_size_eq.
  - intros key Hin%elem_of_dom. by apply elem_of_list_to_set, Hk.
  - rewrite size_dom, Hs, size_list_to_set by done. lia.
Qed.

Lemma require_bool_false json key :
  require_bool json key false = true -> fr_fields json !! key = Some (mkValue "false" BooleanKind).
Proof.
  unfold require_bool. destruct (fr_fields json !! key) as [[text []]|]; try done. by intros ->%String.eqb_eq.
Qed.

(** The fields the digests are taken over, with their keys and types. *)
Definition covered_texts : list (string * (C2ClearanceReceipt -> string)) := [
  ("case_name", cr_case_name); ("status", cr_status); ("failure_reason", cr_failure_reason);
  ("cleanup_status", cr_cleanup_status); ("process_wddm_source", cr_process_wddm_source);
  ("last_good_stage", cr_last_good_stage); ("terminal_trigger_canonical", cr_terminal_trigger_canonical);
  ("terminal_trigger_sha256", cr_terminal_trigger_sha256);
  ("pre_cleanup_evidence_sha256", cr_pre_cleanup_evidence_sha256)].

Definition covered_integers : list (Range * string * (C2ClearanceReceipt -> Z)) := [
  (u32_range, "root_process_id", cr_root_process_id); (i32_range, "adapter_luid_high", cr_adapter_luid_high);
  (u32_range, "adapter_luid_low", cr_adapter_luid_low);
  (u64_range, "last_sample_monotonic_milliseconds", cr_last_sample_monotonic_milliseconds);
  (u64_range, "last_sample_wddm_local_budget_bytes", cr_last_sample_wddm_local_budget_bytes);
  (u64_range, "last_sample_wddm_local_usage_bytes", cr_last_sample_wddm_local_usage_bytes);
  (u64_range, "process_wddm_sample_monotonic_milliseconds", cr_process_wddm_sample_monotonic_milliseconds);
  (u64_range, "process_wddm_current_bytes", cr_process_wddm_current_bytes);
  (u64_range, "process_wddm_peak_bytes", cr_process_wddm_peak_bytes);
  (u64_range, "last_host_sample_monotonic_milliseconds", cr_last_host_sample_monotonic_milliseconds);
  (u64_range, "last_host_memory_available_bytes", cr_last_host_memory_available_bytes);
  (u64_range, "last_host_commit_available_bytes", cr_last_host_commit_available_bytes);
  (u64_range, "last_thermal_sample_monotonic_milliseconds", cr_last_thermal_sample_monotonic_milliseconds);
  (i32_range, "last_gpu_temperature_celsius", cr_last_gpu_temperature_celsius);
  (i32_range, "last_gpu_slowdown_celsius", cr_last_gpu_slowdown_celsius);
  (u32_range, "heartbeat_count", cr_heartbeat_count);
  (u64_range, "pre_wddm_local_usage_bytes", cr_pre_wddm_local_usage_bytes);
  (u64_range, "final_wddm_local_usage_bytes", cr_final_wddm_local_usage_bytes);
  (u64_range, "cleanup_wddm_positive_delta_bytes", cr_cleanup_wddm_positive_delta_bytes);
  (u64_range, "cleanup_wddm_tolerance_bytes", cr_cleanup_wddm_tolerance_bytes)].

Definition covered_booleans : list (string * (C2ClearanceReceipt -> bool)) := [
  ("worker_exit_observed", cr_worker_exit_observed); ("job_tree_empty", cr_job_tree_empty);
  ("job_accounting_reconciled", cr_job_accounting_reconciled);
  ("device_resources_reconciled", cr_device_resources_reconciled);
  ("artifact_handles_closed", cr_artifact_handles_closed);
  ("temporary_files_reconciled", cr_temporary_files_reconciled);
  ("last_gpu_thermal_throttling", cr_last_gpu_thermal_throttling);
  ("last_gpu_power_brake_slowdown", cr_last_gpu_power_brake_slowdown);
  ("last_wddm_available", cr_last_wddm_available);
  ("last_process_wddm_available", cr_last_process_wddm_available);
  ("last_host_available", cr_last_host_available); ("last_thermal_available", cr_last_thermal_available)].

(** [r] holds what the file says in each of them, read at its own type. *)
Definition reads_as (json : FlatJsonResult) (r : C2ClearanceReceipt) : Prop :=
  Forall (fun '(key, field) => require_string json key = Some (field r)) covered_texts /\
  Forall (fun '(range, key, field) => require_integer json range key = Some (field r)) covered_integers /\
  Forall (fun '(key, field) => require_bool_value json key = Some (field r)) covered_booleans.

Lemma some_default {A} (o : option A) d : bool_decide (is_Some o) = true -> o = Some (default d o).
Proof. intros [x ->]%bool_decide_eq_true. done. Qed.

Lemma reads_as_hashed json : strings_ok json = true -> hash_fields_ok json = true -> reads_as json (hashed_receipt json).
Proof.
  intros Hs [Hi Hb]%andb_prop. unfold strings_ok in Hs. rewrite forallb_forall in Hs.
  rewrite forallb_forall in Hi, Hb. split_and!; repeat (apply Forall_cons; split); try (apply Forall_nil; exact I).
  all: first [apply some_default, Hs | apply some_default, (Hi (_, _)) | apply some_default, Hb]; cbn; tauto.
Qed.

Lemma identity_ok_inv json : identity_ok json = true ->
  strings_ok json = true /\
  text_at json "schema_version" = "prisminfer-c2-clearance-receipt-v1" /\
  text_at json "review_status" = "pending-independent-review" /\
  text_at json "claim_scope" = "synthetic-c2-candidate-non-promotable" /\
  fr_fields json !! "promotable" = Some (mkValue "false" BooleanKind) /\
  fr_fields json !! "c2_credit" = Some (mkValue "false" BooleanKind).
Proof.
  unfold identity_ok. cbv zeta. rewrite !andb_true_iff. intros H. repeat match goal with H : _ /\ _ |- _ => destruct H end.
  split_and!; try done; try (by apply String.eqb_eq); by apply require_bool_false.
Qed.

Lemma require_integer_range json range key x :
  require_integer json range key = Some x -> in_bounds range x = true.
Proof.
  unfold require_integer. destruct (fr_fields json !! key) as [v|]; [|done]. cbn [mbind option_bind].
  unfold parse_integer. destruct (fv_kind v); try done. destruct (str_empty _); [done|].
  destruct (from_chars range _) as [[y [|]]|] eqn:E; try done. intros [= ->]. by apply from_chars_range in E.
Qed.

Lemma bounds_ok_inv json : bounds_ok json = true ->
  exists payload delta timeout,
    require_integer json u64_range "post_admission_payload_bytes" = Some payload /\ payload <= 67108864 /\
    require_integer json u64_range "maximum_payload_bytes" = Some 67108864 /\
    require_integer json u64_range "cleanup_wddm_positive_delta_bytes" = Some delta /\ delta <= 16777216 /\
    require_integer json u64_range "cleanup_wddm_tolerance_bytes" = Some 16777216 /\
    require_integer json u32_range "worker_timeout_milliseconds" = Some timeout /\ 0 < timeout <= 60000.
Proof.
  unfold bounds_ok, kC2MaximumPayloadBytes.
  destruct (require_integer json u64_range "post_admission_payload_bytes") as [payload|]; [|done].
  destruct (require_integer json u64_range "maximum_payload_bytes") as [maximum|]; [|done].
  destruct (require_integer json u32_range "worker_timeout_milliseconds") as [timeout|] eqn:Et; [|done].
  destruct (require_integer json u64_range "cleanup_wddm_positive_delta_bytes") as [delta|]; [|done].
  destruct (require_integer json u64_range "cleanup_wddm_tolerance_bytes") as [tolerance|]; [|done].
  apply require_integer_range in Et. unfold in_bounds in Et. cbn [fst snd u32_range] in Et.
  cbn [mbind option_bind]. rewrite !negb_orb, !andb_true_iff, !negb_true_iff, !negb_false_iff.
  intros H. exists payload, delta, timeout. split_and!; try done; try lia; f_equal; lia.
Qed.

Lemma digests_ok_inv json : digests_ok json = true ->
  hash_fields_ok json = true /\
  let r := hashed_receipt json in
  let last := text_at json "last_good_sample_sha256" in
  let trigger := text_at json "terminal_trigger_sha256" in
  Sha256.sha256_text (last_good_text r) = Some last /\
  Sha256.sha256_text (text_at json "terminal_trigger_canonical") = Some trigger /\
  Sha256.sha256_text (terminal_text (store_trigger (store_last_good r last) trigger)) =
    Some (text_at json "evidence_bundle_sha256").
Proof.
  unfold digests_ok. cbv zeta.
  change (text_at json "terminal_trigger_canonical") with (cr_terminal_trigger_canonical (hashed_receipt json)).
  destruct (compute_c2_clearance_evidence_hashes (hashed_receipt json)) as [e|h] eqn:Ec.
  { destruct (Sha256.sha256_text (cr_terminal_trigger_canonical (hashed_receipt json))); [|discriminate].
    rewrite andb_false_r. discriminate. }
  apply compute_hashes_inr in Ec as (last & trigger & bundle & El & -> & Eb & ->).
  rewrite !andb_true_iff, !String.eqb_eq. intros [[<- Hf] [<- <-]]. auto.
Qed.

(** C27. Whatever text it was read from, an accepted receipt is a candidate that
    awaits its review, unpromotable and without credit; it has exactly the
    required fields; its payload is within the fixed maximum of 64 MiB, its
    cleanup difference within the fixed tolerance of 16 MiB, and its timeout at
    most a minute; and every field that its digests cover has its own type: the
    receipt read from the file, field by field, has the three digests the file
    states. *)
Theorem accepted_receipt_is_bound json :
  validate_receipt_fields json = inr tt ->
  dom (fr_fields json) = list_to_set required /\
  text_at json "schema_version" = "prisminfer-c2-clearance-receipt-v1" /\
  text_at json "review_status" = "pending-independent-review" /\
  text_at json "claim_scope" = "synthetic-c2-candidate-non-promotable" /\
  fr_fields json !! "promotable" = Some (mkValue "false" BooleanKind) /\
  fr_fields json !! "c2_credit" = Some (mkValue "false" BooleanKind) /\
  (exists payload delta timeout,
    require_integer json u64_range "post_admission_payload_bytes" = Some payload /\ payload <= 67108864 /\
    require_integer json u64_range "maximum_payload_bytes" = Some 67108864 /\
    require_integer json u64_range "cleanup_wddm_positive_delta_bytes" = Some delta /\ delta <= 16777216 /\
    require_integer json u64_range "cleanup_wddm_tolerance_bytes" = Some 16777216 /\
    require_integer json u32_range "worker_timeout_milliseconds" = Some timeout /\ 0 < timeout <= 60000) /\
  exists r last trigger bundle,
    reads_as json r /\
    require_string json "last_good_sample_sha256" = Some last /\
    require_string json "terminal_trigger_sha256" = Some trigger /\
    require_string json "evidence_bundle_sha256" = Some bundle /\
    Sha256.sha256_text (last_good_text r) = Some last /\
    Sha256.sha256_text (cr_terminal_trigger_canonical r) = Some trigger /\
    Sha256.sha256_text (terminal_text (store_trigger (store_last_good r last) trigger)) = Some bundle.
Proof.
  rewrite validate_fields_inr. intros (Hs & Hk & Hi & Hb & Hd).
  destruct (identity_ok_inv json Hi) as (Hstrings & Hidentity).
  destruct (digests_ok_inv json Hd) as (Hfields & Hlast & Htrigger & Hbundle).
  split; [by apply keys_complete|]. do 5 (split; [by apply Hidentity|]). split; [by apply bounds_ok_inv|].
  assert (forall key, List.In key string_fields -> require_string json key = Some (text_at json key)) as Htext.
  { intros key Hin. apply some_default. unfold strings_ok in Hstrings. rewrite forallb_forall in Hstrings. by apply Hstrings. }
  eexists (hashed_receipt json), _, _, _. split; [by apply reads_as_hashed|].
  do 3 (split; [apply Htext; cbn; tauto|]). by split_and!.
Qed.

(** ** Publication *)

Section Writing.
  Context (q : TrustedQuery) (en : Environment) (interfere : Fs -> Fs) (present : Fs -> Path -> ManifestFile)
          (path : Path) (r : C2ClearanceReceipt) (fs : Fs).

  (** The assumptions of [AtomicFile]: other processes leave new files alone and
      the target is not named like a temporary directory. *)
  Hypothesis private_data : forall g i c,
    i ∉ dom (fs_data fs) -> fs_data g !! i = Some c -> fs_data (interfere g) !! i = Some c.
  Hypothesis no_collision : forall nonce other,
    NonceIs nonce other ∈ en_attempts en -> path <> parent_path path ++ [temporary_name nonce].
  (** A file that could be read was read from its contents. *)
  Hypothesis reads_contents : forall g p contents,
    has_contents contents g p -> fr_ok (read_flat_json_file (present g p) kC2ReceiptMaximumBytes) = true ->
    read_flat_json_file (present g p) kC2ReceiptMaximumBytes = parse_flat_json_object (list_ascii_of_string contents).

(** A receipt that was written was accepted by the validator, and the target
    holds its text. *)
Lemma written_is_accepted :
  let result := write_c2_clearance_receipt q en interfere present path r fs in
  result.1 = inr tt ->
  has_contents (string_of_list_ascii (serialize_c2_clearance_receipt r)) result.2 path /\
  validate_receipt_fields (parse_flat_json_object (serialize_c2_clearance_receipt r)) = inr tt.
Proof.
  cbv zeta. unfold write_c2_clearance_receipt.
  destruct (is_direct_child_of_trusted_directory q) as [error|_]; [discriminate|].
  set (validator := Some _). set (contents := string_of_list_ascii _).
  pose proof (write_safe en interfere validator path contents kC2ReceiptMaximumBytes fs private_data no_collision) as Hsafe.
  cbv zeta in Hsafe. intros Hok. rewrite Hok in Hsafe.
  destruct Hsafe as (g & _ & _ & _ & _ & Hcontents & h & p & Hv & Hh). split; [exact Hcontents|].
  cbn [run_validator validator] in Hv. unfold validate_c2_clearance_receipt_file in Hv. cbv zeta in Hv.
  destruct (fr_ok _) eqn:Er; [|discriminate]. cbn [negb] in Hv.
  rewrite (reads_contents h p contents Hh Er) in Hv. unfold contents in Hv.
  by rewrite list_ascii_of_string_of_list_ascii in Hv.
Qed.

(** A receipt that was written is the text of a receipt that passes the
    validator: its inputs are acceptable and its digests are those of its fields,
    whoever filled them in, and the target holds exactly its text. *)
Theorem written_receipt_is_valid :
  typed r = true -> printable_receipt r = true ->
  let result := write_c2_clearance_receipt q en interfere present path r fs in
  result.1 = inr tt ->
  has_contents (string_of_list_ascii (serialize_c2_clearance_receipt r)) result.2 path /\
  inputs_ok r = true /\ compute_c2_clearance_evidence_hashes r = inr r.
Proof.
  intros Ht Hp. cbv zeta. intros Hok. destruct (written_is_accepted Hok) as [Hcontents Hv]. split; [exact Hcontents|].
  by apply serialized_verdict.
Qed.

End Writing.

(** ** A receipt from its inputs to the file *)

Definition hex40 : string := "0123456789abcdef0123456789abcdef01234567".
Definition hex64 : string := "0123456789abcdef0123456789abcdef0123456789abcdef0123456789abcdef".

Definition sample_inputs : C2ClearanceReceipt :=
  let empty := new_receipt in
  {| empty with
     cr_repository := "owner/repo"; cr_reviewed_sha := hex40; cr_source_tree_sha := hex40; cr_worker_sha256 := hex64;
     cr_worker_approval_identity := "approver"; cr_workflow_run_id := "run-1"; cr_authorization_id := "auth:1";
     cr_gpu_uuid := "GPU-01234567-89ab-cdef-0123-456789abcdef"; cr_case_name := "success";
     cr_status := "candidate-complete"; cr_cleanup_status := "cleaned"; cr_lease_id := "lease";
     cr_job_identity := "job"; cr_process_wddm_source := "wddm-process"; cr_last_good_stage := "watchdog";
     cr_terminal_trigger_canonical := "trigger"; cr_pre_cleanup_evidence_sha256 := hex64;
     cr_adapter_luid_high := -1; cr_worker_timeout_milliseconds := 60000; cr_post_admission_payload_bytes := 67108864;
     cr_last_gpu_temperature_celsius := -40; cr_last_sample_wddm_local_budget_bytes := u64_max |}.

Definition sample_receipt : C2ClearanceReceipt :=
  store_digests sample_inputs "742aefe5dd969fc2c81a9bb45cf893427db2a33abf5ba5318cdb36f7b21842cc"
    "683259feabbf5eb39895d7a5d3f4872d6989d5fa7a3eca713251d996d99a1630"
    "5ec1624a9bfc17e3683dd8177b44bd00cb7300563afe10dad7b73b6e779e1137".

Lemma receipt_sample_hashes : compute_c2_clearance_evidence_hashes sample_inputs = inr sample_receipt.
Proof. vm_compute. reflexivity. Qed.

Lemma hashed_receipt_round_trip_witness :
  typed sample_inputs = true /\ inputs_ok sample_inputs = true /\
  validate_receipt_fields (parse_flat_json_object (serialize_c2_clearance_receipt sample_receipt)) = inr tt.
Proof.
  split; [reflexivity|]. split; [reflexivity|].
  exact (hashed_receipt_round_trip sample_inputs sample_receipt eq_refl eq_refl receipt_sample_hashes).
Defined.

(** The validator checks the type of the numbers and booleans it hashes and
    bounds, not of the others: a text where [adapter_index] is a string passes. *)
Definition sample_json : FlatJsonResult := parse_flat_json_object (serialize_c2_clearance_receipt sample_receipt).

Example untyped_fields_accepted :
  validate_receipt_fields
    (mkResult true (<["adapter_index" := mkValue "unknown" StringKind]> (fr_fields sample_json)) EmptyString) = inr tt.
Proof. vm_compute. reflexivity. Qed.

Lemma sample_accepted : validate_receipt_fields sample_json = inr tt.
Proof.
  apply serialized_verdict; [vm_compute; reflexivity..|]. split; [vm_compute; reflexivity|].
  exact (compute_hashes_idempotent sample_inputs sample_receipt receipt_sample_hashes).
Qed.

Lemma accepted_receipt_is_bound_witness :
  fr_fields sample_json !! "promotable" = Some (mkValue "false" BooleanKind).
Proof.
  destruct (accepted_receipt_is_bound sample_json sample_accepted) as (_ & _ & _ & _ & Hp & _). exact Hp.
Defined.

(** A POSIX system that reads a file in one call. *)
Definition posix_present (fs : Fs) (path : Path) : ManifestFile :=
  match fs_nodes fs !! path with
  | Some (FileNode i) =>
      let contents := default EmptyString (fs_data fs !! i) in
      let stat := mkPosixStat true 1 (Z.of_nat i) (Z.of_nat (String.length contents)) 0 0 in
      OnPosix (mkPosixManifest true (Some stat) [ReadBytes (list_ascii_of_string contents)] (Some stat))
  | _ => OnPosix (mkPosixManifest false None [] None)
  end.

Lemma posix_present_reads g p contents max_bytes :
  has_contents contents g p -> fr_ok (read_flat_json_file (posix_present g p) max_bytes) = true ->
  read_flat_json_file (posix_present g p) max_bytes = parse_flat_json_object (list_ascii_of_string contents).
Proof.
  intros (i & Hn & <-). unfold posix_present. rewrite Hn. set (c := default _ _).
  cbn [read_flat_json_file]. unfold read_posix_flat_json_file. cbn [pm_opened pm_before pm_reads pm_after ps_regular ps_size].
  destruct (_ || _); [done|]. cbv zeta. destruct (_ || _); [done|].
  destruct (read_content _ _ _ _) as [content|] eqn:E; [|done]. intros _.
  unfold posix_unchanged. cbn. rewrite !Z.eqb_refl. cbn. f_equal.
  rewrite Nat2Z.id in E. revert E. generalize c as text. intros text.
  assert (Hl : String.length text = List.length (list_ascii_of_string text)) by (clear; induction text; cbn; congruence).
  rewrite Hl. generalize (list_ascii_of_string text) as l. intros l. cbn [read_content List.length].
  destruct l as [|a l]; [by intros [= <-]|]. cbn [List.length Nat.leb]. rewrite Nat.sub_0_r. unfold id.
  rewrite take_ge by (cbn; lia). cbn [app read_content List.length]. rewrite Nat.leb_refl. by intros [= <-].
Qed.

Definition sample_query : TrustedQuery := mkTrustedQuery false true (Some []) (Some []).

End C2Receipt.
