(* ===== verification/Config.v ===== *)
(** * The configuration of a probe run

    [src/config.cpp]: the command-line options of [prism-probe], their parsing
    and the usage text.  The options are the cascade of the source, each with
    what it does to the configuration; the loop over the arguments is
    [parse_loop].  The theorems say what holds of every configuration the
    parser returns, that the arguments take effect one after the other, and
    that the usage text names exactly the options and defaults there are. *)

From S2P Require Import Prelude MemoryCap Doubles.
From Stdlib Require Import Ascii String.
From Stdlib Require Import SpecFloat.

Open Scope string_scope.
Open Scope list_scope.
Open Scope Z_scope.

Module Config.

Abbreviation double := Doubles.double (only parsing).

(** ** The configuration *)

Definition kOneGiB : Z := 1073741824.

Inductive RunMode := OneGbSafeCpu | OneGbSafeGpuProbed.

Inductive BackendKind := NullBackend | FakeBackend | LlamaBackend.

#[export] Instance run_mode_eq_dec : EqDecision RunMode.
Proof. solve_decision. Defined.

#[export] Instance backend_kind_eq_dec : EqDecision BackendKind.
Proof. solve_decision. Defined.

(** The literal [1.1]. *)
Definition one_point_one : double := S754_finite false 4953959590107546 (-52).

(** Paths are kept as the text they were given as. *)
Record RuntimeConfig := mkConfig {
  rc_mode : RunMode;
  rc_hard_cap_bytes : Z;
  rc_model_parameter_bucket : string;
  rc_parameter_count : Z;
  rc_vram_tier_gib : Z;
  rc_validation_cell_id : string;
  rc_validation_cell_status : string;
  rc_backend : BackendKind;
  rc_backend_required : bool;
  rc_dependency_pin_file : string;
  rc_llama_executable_path : string;
  rc_context_tokens : Z;
  rc_gpu_layers : Z;
  rc_mmap_enabled : bool;
  rc_warmup_tokens : Z;
  rc_worker_evidence_available : bool;
  rc_worker_executable_sha256 : string;
  rc_worker_approval_identity : string;
  rc_worker_exit_code : Z;
  rc_worker_timed_out : bool;
  rc_worker_root_process_id : Z;
  rc_worker_job_identity : string;
  rc_worker_job_total_processes : Z;
  rc_worker_job_peak_active_processes : Z;
  rc_worker_job_total_terminated_processes : Z;
  rc_worker_root_peak_working_set_bytes : Z;
  rc_worker_root_peak_private_commit_bytes : Z;
  rc_worker_tree_peak_working_set_bytes : Z;
  rc_worker_tree_peak_private_commit_bytes : Z;
  rc_worker_tree_sample_interval_milliseconds : Z;
  rc_worker_read_bytes : Z;
  rc_worker_write_bytes : Z;
  rc_worker_output_bytes : Z;
  rc_worker_output_limit_bytes : Z;
  rc_kv_accounting : bool;
  rc_kv_layer_count : Z;
  rc_kv_head_count : Z;
  rc_kv_head_dim : Z;
  rc_kv_block_tokens : Z;
  rc_kv_placement : string;
  rc_kv_compression : string;
  rc_kv_key_bits : Z;
  rc_kv_value_bits : Z;
  rc_kv_metadata_budget_bytes : Z;
  rc_quality_gate : string;
  rc_quality_baseline_manifest : string;
  rc_quality_baseline_score : double;
  rc_quality_observed_score : double;
  rc_quality_max_delta : double;
  rc_quality_retrieval_passed : bool;
  rc_quality_deterministic_match : bool;
  rc_profitability_policy : string;
  rc_baseline_manifest : string;
  rc_min_speedup_ratio : double;
  rc_offload_policy : string;
  rc_pinned_host_budget_bytes : Z;
  rc_staging_buffer_bytes : Z;
  rc_transfer_metrics : bool;
  rc_cold_cache_run : bool;
  rc_cpu_baseline_ttft_ms : double;
  rc_cpu_baseline_decode_tps : double;
  rc_cpu_baseline_peak_bytes : Z;
  rc_observed_ttft_ms : double;
  rc_observed_decode_tps : double;
  rc_token_latency_p50_ms : double;
  rc_token_latency_p95_ms : double;
  rc_transfer_h2d_ms : double;
  rc_transfer_d2h_ms : double;
  rc_transfer_io_ms : double;
  rc_transfer_wait_ms : double;
  rc_prefill_ms : double;
  rc_decode_ms : double;
  rc_transfer_h2d_bytes : Z;
  rc_transfer_d2h_bytes : Z;
  rc_nvme_read_bytes : Z;
  rc_nvme_write_bytes : Z;
  rc_claim_label : string;
  rc_quantization_format : string;
  rc_quant_artifact_sha256 : string;
  rc_host_memory_budget_bytes : Z;
  rc_nvme_budget_bytes : Z;
  rc_max_time_to_first_token_ms : double;
  rc_min_decode_tokens_per_second : double;
  rc_max_token_latency_p95_ms : double;
  rc_repeatability_runs : Z;
  rc_repeatability_passed : bool;
  rc_claim_validation : string;
  rc_measured_evidence : bool;
  rc_simulated_evidence : bool;
  rc_deployment_runbook_present : bool;
  rc_telemetry_path : string;
  rc_manifest_path : string;
  rc_run_id : string;
  rc_model_path : string;
  rc_sidecar_path : string;
  rc_max_model_bytes : Z;
  rc_max_sidecar_bytes : Z;
  rc_simulate_allocator_peak_bytes : Z;
  rc_simulate_process_gpu_peak_bytes : Z;
  rc_simulate_warmup_peak_bytes : Z;
  rc_simulate_unknown_post_warmup_bytes : Z;
  rc_show_help : bool;
}.

(** A value-initialised configuration. *)
Definition default_config : RuntimeConfig := {|
  rc_mode := OneGbSafeCpu;
  rc_hard_cap_bytes := kOneGiB;
  rc_model_parameter_bucket := EmptyString;
  rc_parameter_count := 0;
  rc_vram_tier_gib := 1;
  rc_validation_cell_id := EmptyString;
  rc_validation_cell_status := "not-started";
  rc_backend := NullBackend;
  rc_backend_required := false;
  rc_dependency_pin_file := EmptyString;
  rc_llama_executable_path := EmptyString;
  rc_context_tokens := 512;
  rc_gpu_layers := 0;
  rc_mmap_enabled := true;
  rc_warmup_tokens := 1;
  rc_worker_evidence_available := false;
  rc_worker_executable_sha256 := EmptyString;
  rc_worker_approval_identity := EmptyString;
  rc_worker_exit_code := 0;
  rc_worker_timed_out := false;
  rc_worker_root_process_id := 0;
  rc_worker_job_identity := EmptyString;
  rc_worker_job_total_processes := 0;
  rc_worker_job_peak_active_processes := 0;
  rc_worker_job_total_terminated_processes := 0;
  rc_worker_root_peak_working_set_bytes := 0;
  rc_worker_root_peak_private_commit_bytes := 0;
  rc_worker_tree_peak_working_set_bytes := 0;
  rc_worker_tree_peak_private_commit_bytes := 0;
  rc_worker_tree_sample_interval_milliseconds := 0;
  rc_worker_read_bytes := 0;
  rc_worker_write_bytes := 0;
  rc_worker_output_bytes := 0;
  rc_worker_output_limit_bytes := 0;
  rc_kv_accounting := false;
  rc_kv_layer_count := 0;
  rc_kv_head_count := 0;
  rc_kv_head_dim := 0;
  rc_kv_block_tokens := 16;
  rc_kv_placement := "backend";
  rc_kv_compression := "none";
  rc_kv_key_bits := 16;
  rc_kv_value_bits := 16;
  rc_kv_metadata_budget_bytes := 0;
  rc_quality_gate := "none";
  rc_quality_baseline_manifest := EmptyString;
  rc_quality_baseline_score := Doubles.one;
  rc_quality_observed_score := Doubles.one;
  rc_quality_max_delta := Doubles.zero;
  rc_quality_retrieval_passed := true;
  rc_quality_deterministic_match := true;
  rc_profitability_policy := "off";
  rc_baseline_manifest := EmptyString;
  rc_min_speedup_ratio := one_point_one;
  rc_offload_policy := "none";
  rc_pinned_host_budget_bytes := 0;
  rc_staging_buffer_bytes := 0;
  rc_transfer_metrics := true;
  rc_cold_cache_run := false;
  rc_cpu_baseline_ttft_ms := Doubles.zero;
  rc_cpu_baseline_decode_tps := Doubles.zero;
  rc_cpu_baseline_peak_bytes := 0;
  rc_observed_ttft_ms := Doubles.zero;
  rc_observed_decode_tps := Doubles.zero;
  rc_token_latency_p50_ms := Doubles.zero;
  rc_token_latency_p95_ms := Doubles.zero;
  rc_transfer_h2d_ms := Doubles.zero;
  rc_transfer_d2h_ms := Doubles.zero;
  rc_transfer_io_ms := Doubles.zero;
  rc_transfer_wait_ms := Doubles.zero;
  rc_prefill_ms := Doubles.zero;
  rc_decode_ms := Doubles.zero;
  rc_transfer_h2d_bytes := 0;
  rc_transfer_d2h_bytes := 0;
  rc_nvme_read_bytes := 0;
  rc_nvme_write_bytes := 0;
  rc_claim_label := "metadata-only";
  rc_quantization_format := EmptyString;
  rc_quant_artifact_sha256 := EmptyString;
  rc_host_memory_budget_bytes := 0;
  rc_nvme_budget_bytes := 0;
  rc_max_time_to_first_token_ms := Doubles.zero;
  rc_min_decode_tokens_per_second := Doubles.zero;
  rc_max_token_latency_p95_ms := Doubles.zero;
  rc_repeatability_runs := 0;
  rc_repeatability_passed := false;
  rc_claim_validation := "off";
  rc_measured_evidence := false;
  rc_simulated_evidence := false;
  rc_deployment_runbook_present := false;
  rc_telemetry_path := "prisminfer-probe.jsonl";
  rc_manifest_path := "prisminfer-manifest.json";
  rc_run_id := EmptyString;
  rc_model_path := EmptyString;
  rc_sidecar_path := EmptyString;
  rc_max_model_bytes := 2 ^ 40;
  rc_max_sidecar_bytes := 64 * 1024;
  rc_simulate_allocator_peak_bytes := 0;
  rc_simulate_process_gpu_peak_bytes := 0;
  rc_simulate_warmup_peak_bytes := 0;
  rc_simulate_unknown_post_warmup_bytes := 0;
  rc_show_help := false;
|}.

(** ** Names *)

Definition mode_to_string (mode : RunMode) : string :=
  match mode with OneGbSafeCpu => "1gb-safe-cpu" | OneGbSafeGpuProbed => "1gb-safe-gpu-probed" end.

Definition parse_run_mode (value : string) : option RunMode :=
  if value =s "1gb-safe-cpu" then Some OneGbSafeCpu
  else if value =s "1gb-safe-gpu-probed" then Some OneGbSafeGpuProbed
  else None.

Definition gpu_requested (mode : RunMode) : bool := bool_decide (mode = OneGbSafeGpuProbed).

Definition backend_to_string (backend : BackendKind) : string :=
  match backend with NullBackend => "null" | FakeBackend => "fake" | LlamaBackend => "llama" end.

Definition parse_backend_kind (value : string) : option BackendKind :=
  if value =s "null" then Some NullBackend
  else if value =s "fake" then Some FakeBackend
  else if value =s "llama" then Some LlamaBackend
  else None.

(** [now] is the reading of the steady clock in nanoseconds. *)
Definition make_run_id (now : Z) : string := "prisminfer-" +:+ string_of_list_ascii (to_string now).

(** ** Values *)

Definition parse_u64 (value : string) : option Z :=
  match from_chars u64_range (list_ascii_of_string value) with
  | Some (parsed, []) => Some parsed
  | _ => None
  end.

Definition parse_u32 (value : string) : option Z :=
  parsed ← parse_u64 value; if u32_max <? parsed then None else Some parsed.

Definition parse_on_off (value : string) : option bool :=
  if value =s "on" then Some true else if value =s "off" then Some false else None.

Definition parse_bool_text (value : string) : option bool :=
  if value =s "true" then Some true else if value =s "false" then Some false else None.

(** [in >> parsed] skips leading white space. *)
Definition parse_double_value (value : string) : option double :=
  Doubles.parse_text (skip_space (list_ascii_of_string value)).

Definition one_of (value : string) (allowed : list string) : bool := existsb (String.eqb value) allowed.

Definition valid_validation_cell_status (value : string) : bool :=
  one_of value ["not-started"; "metadata-only"; "warmup"; "decode-smoke"; "quality-gated"; "profitable"; "validated"; "rejected"].

Definition valid_kv_placement (value : string) : bool :=
  one_of value ["backend"; "gpu"; "host"; "mixed"].

Definition valid_kv_compression (value : string) : bool :=
  one_of value ["none"; "accounting-only"; "reference"; "experimental"].

Definition valid_quality_gate_name (value : string) : bool :=
  one_of value ["none"; "smoke"; "retrieval"; "long-context"].

Definition valid_profitability_policy_name (value : string) : bool :=
  one_of value ["off"; "warn"; "fail-closed"].

Definition valid_offload_policy_name (value : string) : bool :=
  one_of value ["none"; "gpu"; "host-kv"; "nvme-simulated"; "nvme-experimental"].

Definition valid_claim_label_name (value : string) : bool :=
  one_of value ["metadata-only"; "simulated"; "measured-offload"; "validated-benchmark"; "deployable-profile"; "rejected"].

Definition valid_claim_validation_name (value : string) : bool :=
  one_of value ["off"; "warn"; "fail-closed"].

(** ** Options *)

(** What an option does: set a field, or use the next argument, with the error
    when there is none. *)
Inductive Action :=
| Flag (apply : RuntimeConfig -> RuntimeConfig)
| Value (missing : string) (apply : RuntimeConfig -> string -> string + RuntimeConfig).

(** The value as it is. *)
Definition text_value (set : string -> RuntimeConfig) (value : string) : string + RuntimeConfig := inr (set value).

(** A value that is parsed and must satisfy a test. *)
Definition parsed_value {A} (parse : string -> option A) (ok : A -> bool) (error : string)
    (set : A -> RuntimeConfig) (value : string) : string + RuntimeConfig :=
  match parse value with
  | Some x => if ok x then inr (set x) else inl error
  | None => inl error
  end.

Definition any {A} (_ : A) : bool := true.
Definition positive (x : Z) : bool := negb (x =? 0).

(** A value from a list of names. *)
Definition name_value (valid : string -> bool) (error : string) (set : string -> RuntimeConfig) (value : string) :
    string + RuntimeConfig :=
  if valid value then inr (set value) else inl (error +:+ value).

Definition hard_cap_value (config : RuntimeConfig) (value : string) : string + RuntimeConfig :=
  match parse_u64 value with
  | None => inl "--hard-cap-bytes must be a positive integer"
  | Some x =>
      if x =? 0 then inl "--hard-cap-bytes must be a positive integer"
      else let cap_policy := MemoryCap.validate_gpu_hard_cap x in
           if negb (MemoryCap.gcp_accepted cap_policy) then inl (MemoryCap.gcp_failure_reason cap_policy)
           else inr {| config with rc_hard_cap_bytes := x |}
  end.

Definition vram_tier_value (config : RuntimeConfig) (value : string) : string + RuntimeConfig :=
  match parse_u32 value with
  | None => inl "--vram-tier-gib must be a positive integer"
  | Some x =>
      if x =? 0 then inl "--vram-tier-gib must be a positive integer"
      else if negb (MemoryCap.gcp_accepted (MemoryCap.validate_gpu_hard_cap (x *64 kOneGiB)))
           then inl "vram_tier_exceeds_max_gpu_cap"
           else inr {| config with rc_vram_tier_gib := x |}
  end.

Definition mode_value (config : RuntimeConfig) (value : string) : string + RuntimeConfig :=
  match parse_run_mode value with
  | None => inl ("unsupported mode: " +:+ value)
  | Some mode => inr {| config with rc_mode := mode |}
  end.

Definition backend_value (config : RuntimeConfig) (value : string) : string + RuntimeConfig :=
  match parse_backend_kind value with
  | None => inl ("unsupported backend: " +:+ value)
  | Some backend => inr {| config with rc_backend := backend |}
  end.

Definition run_id_value (config : RuntimeConfig) (value : string) : string + RuntimeConfig :=
  if str_empty value then inl "--run-id must not be empty" else inr {| config with rc_run_id := value |}.

(** The cascade of comparisons in the loop of [parse_args], without the two
    names of help, in the order of the source. *)

Definition run_options (arg : string) : option Action :=
  if arg =s "--mode" then
    Some (Value "--mode requires a value" mode_value)
  else if arg =s "--hard-cap-bytes" then
    Some (Value "--hard-cap-bytes requires a value" hard_cap_value)
  else if arg =s "--model-parameter-bucket" then
    Some (Value "--model-parameter-bucket requires a value" (fun config => text_value (fun x => {| config with rc_model_parameter_bucket := x |})))
  else if arg =s "--parameter-count" then
    Some (Value "--parameter-count requires a value" (fun config =>
        parsed_value parse_u64 any "--parameter-count must be an integer" (fun x => {| config with rc_parameter_count := x |})))
  else if arg =s "--vram-tier-gib" then
    Some (Value "--vram-tier-gib requires a value" vram_tier_value)
  else if arg =s "--validation-cell-id" then
    Some (Value "--validation-cell-id requires a value" (fun config => text_value (fun x => {| config with rc_validation_cell_id := x |})))
  else if arg =s "--validation-cell-status" then
    Some (Value "--validation-cell-status requires a value" (fun config =>
        name_value valid_validation_cell_status "unsupported validation cell status: " (fun x => {| config with rc_validation_cell_status := x |})))
  else if arg =s "--backend" then
    Some (Value "--backend requires a value" backend_value)
  else if arg =s "--backend-required" then
    Some (Flag (fun config => {| config with rc_backend_required := true |}))
  else if arg =s "--dependency-pin-file" then
    Some (Value "--dependency-pin-file requires a path" (fun config => text_value (fun x => {| config with rc_dependency_pin_file := x |})))
  else if arg =s "--llama-executable" then
    Some (Value "--llama-executable requires a path" (fun config => text_value (fun x => {| config with rc_llama_executable_path := x |})))
  else if arg =s "--context-tokens" then
    Some (Value "--context-tokens requires a value" (fun config =>
        parsed_value parse_u64 positive "--context-tokens must be a positive integer" (fun x => {| config with rc_context_tokens := x |})))
  else if arg =s "--gpu-layers" then
    Some (Value "--gpu-layers requires a value" (fun config =>
        parsed_value parse_u32 any "--gpu-layers must be an integer" (fun x => {| config with rc_gpu_layers := x |})))
  else if arg =s "--mmap" then
    Some (Value "--mmap requires on or off" (fun config =>
        parsed_value parse_on_off any "--mmap must be on or off" (fun x => {| config with rc_mmap_enabled := x |})))
  else if arg =s "--warmup-tokens" then
    Some (Value "--warmup-tokens requires a value" (fun config =>
        parsed_value parse_u64 positive "--warmup-tokens must be a positive integer" (fun x => {| config with rc_warmup_tokens := x |})))
  else None.

Definition kv_options (arg : string) : option Action :=
  if arg =s "--kv-accounting" then
    Some (Value "--kv-accounting requires on or off" (fun config =>
        parsed_value parse_on_off any "--kv-accounting must be on or off" (fun x => {| config with rc_kv_accounting := x |})))
  else if arg =s "--kv-layer-count" then
    Some (Value "--kv-layer-count requires a value" (fun config =>
        parsed_value parse_u32 any "--kv-layer-count must be an integer" (fun x => {| config with rc_kv_layer_count := x |})))
  else if arg =s "--kv-head-count" then
    Some (Value "--kv-head-count requires a value" (fun config =>
        parsed_value parse_u32 any "--kv-head-count must be an integer" (fun x => {| config with rc_kv_head_count := x |})))
  else if arg =s "--kv-head-dim" then
    Some (Value "--kv-head-dim requires a value" (fun config =>
        parsed_value parse_u32 any "--kv-head-dim must be an integer" (fun x => {| config with rc_kv_head_dim := x |})))
  else if arg =s "--kv-block-tokens" then
    Some (Value "--kv-block-tokens requires a value" (fun config =>
        parsed_value parse_u32 positive "--kv-block-tokens must be a positive integer" (fun x => {| config with rc_kv_block_tokens := x |})))
  else if arg =s "--kv-placement" then
    Some (Value "--kv-placement requires a value" (fun config =>
        name_value valid_kv_placement "unsupported kv placement: " (fun x => {| config with rc_kv_placement := x |})))
  else if arg =s "--kv-compression" then
    Some (Value "--kv-compression requires a value" (fun config =>
        name_value valid_kv_compression "unsupported kv compression: " (fun x => {| config with rc_kv_compression := x |})))
  else if arg =s "--kv-key-bits" then
    Some (Value "--kv-key-bits requires a value" (fun config =>
        parsed_value parse_u32 positive "--kv-key-bits must be a positive integer" (fun x => {| config with rc_kv_key_bits := x |})))
  else if arg =s "--kv-value-bits" then
    Some (Value "--kv-value-bits requires a value" (fun config =>
        parsed_value parse_u32 positive "--kv-value-bits must be a positive integer" (fun x => {| config with rc_kv_value_bits := x |})))
  else if arg =s "--kv-metadata-budget-bytes" then
    Some (Value "--kv-metadata-budget-bytes requires a value" (fun config =>
        parsed_value parse_u64 any "--kv-metadata-budget-bytes must be an integer" (fun x => {| config with rc_kv_metadata_budget_bytes := x |})))
  else None.

Definition quality_options (arg : string) : option Action :=
  if arg =s "--quality-gate" then
    Some (Value "--quality-gate requires a value" (fun config =>
        name_value valid_quality_gate_name "unsupported quality gate: " (fun x => {| config with rc_quality_gate := x |})))
  else if arg =s "--quality-baseline-manifest" then
    Some (Value "--quality-baseline-manifest requires a path" (fun config => text_value (fun x => {| config with rc_quality_baseline_manifest := x |})))
  else if arg =s "--quality-baseline-score" then
    Some (Value "--quality-baseline-score requires a value" (fun config =>
        parsed_value parse_double_value any "--quality-baseline-score must be a number" (fun x => {| config with rc_quality_baseline_score := x |})))
  else if arg =s "--quality-observed-score" then
    Some (Value "--quality-observed-score requires a value" (fun config =>
        parsed_value parse_double_value any "--quality-observed-score must be a number" (fun x => {| config with rc_quality_observed_score := x |})))
  else if arg =s "--quality-max-delta" then
    Some (Value "--quality-max-delta requires a value" (fun config =>
        parsed_value parse_double_value (fun x => negb (Doubles.lt x Doubles.zero)) "--quality-max-delta must be a non-negative number" (fun x => {| config with rc_quality_max_delta := x |})))
  else if arg =s "--quality-retrieval-passed" then
    Some (Value "--quality-retrieval-passed requires true or false" (fun config =>
        parsed_value parse_bool_text any "--quality-retrieval-passed must be true or false" (fun x => {| config with rc_quality_retrieval_passed := x |})))
  else if arg =s "--quality-deterministic-match" then
    Some (Value "--quality-deterministic-match requires true or false" (fun config =>
        parsed_value parse_bool_text any "--quality-deterministic-match must be true or false" (fun x => {| config with rc_quality_deterministic_match := x |})))
  else if arg =s "--profitability-policy" then
    Some (Value "--profitability-policy requires a value" (fun config =>
        name_value valid_profitability_policy_name "unsupported profitability policy: " (fun x => {| config with rc_profitability_policy := x |})))
  else if arg =s "--baseline-manifest" then
    Some (Value "--baseline-manifest requires a path" (fun config => text_value (fun x => {| config with rc_baseline_manifest := x |})))
  else if arg =s "--min-speedup-ratio" then
    Some (Value "--min-speedup-ratio requires a value" (fun config =>
        parsed_value parse_double_value (fun x => negb (Doubles.le x Doubles.zero)) "--min-speedup-ratio must be a positive number" (fun x => {| config with rc_min_speedup_ratio := x |})))
  else None.

Definition offload_options (arg : string) : option Action :=
  if arg =s "--offload-policy" then
    Some (Value "--offload-policy requires a value" (fun config =>
        name_value valid_offload_policy_name "unsupported offload policy: " (fun x => {| config with rc_offload_policy := x |})))
  else if arg =s "--pinned-host-budget-bytes" then
    Some (Value "--pinned-host-budget-bytes requires a value" (fun config =>
        parsed_value parse_u64 any "--pinned-host-budget-bytes must be an integer" (fun x => {| config with rc_pinned_host_budget_bytes := x |})))
  else if arg =s "--staging-buffer-bytes" then
    Some (Value "--staging-buffer-bytes requires a value" (fun config =>
        parsed_value parse_u64 any "--staging-buffer-bytes must be an integer" (fun x => {| config with rc_staging_buffer_bytes := x |})))
  else if arg =s "--transfer-metrics" then
    Some (Value "--transfer-metrics requires on or off" (fun config =>
        parsed_value parse_on_off any "--transfer-metrics must be on or off" (fun x => {| config with rc_transfer_metrics := x |})))
  else if arg =s "--cold-cache-run" then
    Some (Flag (fun config => {| config with rc_cold_cache_run := true |}))
  else if arg =s "--cpu-baseline-ttft-ms" then
    Some (Value "--cpu-baseline-ttft-ms requires a value" (fun config =>
        parsed_value parse_double_value any "--cpu-baseline-ttft-ms must be a number" (fun x => {| config with rc_cpu_baseline_ttft_ms := x |})))
  else if arg =s "--cpu-baseline-decode-tps" then
    Some (Value "--cpu-baseline-decode-tps requires a value" (fun config =>
        parsed_value parse_double_value any "--cpu-baseline-decode-tps must be a number" (fun x => {| config with rc_cpu_baseline_decode_tps := x |})))
  else if arg =s "--cpu-baseline-peak-bytes" then
    Some (Value "--cpu-baseline-peak-bytes requires a value" (fun config =>
        parsed_value parse_u64 any "--cpu-baseline-peak-bytes must be an integer" (fun x => {| config with rc_cpu_baseline_peak_bytes := x |})))
  else if arg =s "--observed-ttft-ms" then
    Some (Value "--observed-ttft-ms requires a value" (fun config =>
        parsed_value parse_double_value any "--observed-ttft-ms must be a number" (fun x => {| config with rc_observed_ttft_ms := x |})))
  else if arg =s "--observed-decode-tps" then
    Some (Value "--observed-decode-tps requires a value" (fun config =>
        parsed_value parse_double_value any "--observed-decode-tps must be a number" (fun x => {| config with rc_observed_decode_tps := x |})))
  else if arg =s "--token-latency-p50-ms" then
    Some (Value "--token-latency-p50-ms requires a value" (fun config =>
        parsed_value parse_double_value any "--token-latency-p50-ms must be a number" (fun x => {| config with rc_token_latency_p50_ms := x |})))
  else if arg =s "--token-latency-p95-ms" then
    Some (Value "--token-latency-p95-ms requires a value" (fun config =>
        parsed_value parse_double_value any "--token-latency-p95-ms must be a number" (fun x => {| config with rc_token_latency_p95_ms := x |})))
  else None.

Definition transfer_options (arg : string) : option Action :=
  if arg =s "--transfer-h2d-bytes" then
    Some (Value "--transfer-h2d-bytes requires a value" (fun config =>
        parsed_value parse_u64 any "--transfer-h2d-bytes must be an integer" (fun x => {| config with rc_transfer_h2d_bytes := x |})))
  else if arg =s "--transfer-d2h-bytes" then
    Some (Value "--transfer-d2h-bytes requires a value" (fun config =>
        parsed_value parse_u64 any "--transfer-d2h-bytes must be an integer" (fun x => {| config with rc_transfer_d2h_bytes := x |})))
  else if arg =s "--nvme-read-bytes" then
    Some (Value "--nvme-read-bytes requires a value" (fun config =>
        parsed_value parse_u64 any "--nvme-read-bytes must be an integer" (fun x => {| config with rc_nvme_read_bytes := x |})))
  else if arg =s "--nvme-write-bytes" then
    Some (Value "--nvme-write-bytes requires a value" (fun config =>
        parsed_value parse_u64 any "--nvme-write-bytes must be an integer" (fun x => {| config with rc_nvme_write_bytes := x |})))
  else if arg =s "--transfer-h2d-ms" then
    Some (Value "--transfer-h2d-ms requires a value" (fun config =>
        parsed_value parse_double_value any "--transfer-h2d-ms must be a number" (fun x => {| config with rc_transfer_h2d_ms := x |})))
  else if arg =s "--transfer-d2h-ms" then
    Some (Value "--transfer-d2h-ms requires a value" (fun config =>
        parsed_value parse_double_value any "--transfer-d2h-ms must be a number" (fun x => {| config with rc_transfer_d2h_ms := x |})))
  else if arg =s "--transfer-io-ms" then
    Some (Value "--transfer-io-ms requires a value" (fun config =>
        parsed_value parse_double_value any "--transfer-io-ms must be a number" (fun x => {| config with rc_transfer_io_ms := x |})))
  else if arg =s "--transfer-wait-ms" then
    Some (Value "--transfer-wait-ms requires a value" (fun config =>
        parsed_value parse_double_value any "--transfer-wait-ms must be a number" (fun x => {| config with rc_transfer_wait_ms := x |})))
  else if arg =s "--prefill-ms" then
    Some (Value "--prefill-ms requires a value" (fun config =>
        parsed_value parse_double_value any "--prefill-ms must be a number" (fun x => {| config with rc_prefill_ms := x |})))
  else if arg =s "--decode-ms" then
    Some (Value "--decode-ms requires a value" (fun config =>
        parsed_value parse_double_value any "--decode-ms must be a number" (fun x => {| config with rc_decode_ms := x |})))
  else None.

Definition claim_options (arg : string) : option Action :=
  if arg =s "--claim-label" then
    Some (Value "--claim-label requires a value" (fun config =>
        name_value valid_claim_label_name "unsupported claim label: " (fun x => {| config with rc_claim_label := x |})))
  else if arg =s "--quantization-format" then
    Some (Value "--quantization-format requires a value" (fun config => text_value (fun x => {| config with rc_quantization_format := x |})))
  else if arg =s "--quant-artifact-sha256" then
    Some (Value "--quant-artifact-sha256 requires a value" (fun config => text_value (fun x => {| config with rc_quant_artifact_sha256 := x |})))
  else if arg =s "--host-memory-budget-bytes" then
    Some (Value "--host-memory-budget-bytes requires a value" (fun config =>
        parsed_value parse_u64 any "--host-memory-budget-bytes must be an integer" (fun x => {| config with rc_host_memory_budget_bytes := x |})))
  else if arg =s "--nvme-budget-bytes" then
    Some (Value "--nvme-budget-bytes requires a value" (fun config =>
        parsed_value parse_u64 any "--nvme-budget-bytes must be an integer" (fun x => {| config with rc_nvme_budget_bytes := x |})))
  else if arg =s "--max-time-to-first-token-ms" then
    Some (Value "--max-time-to-first-token-ms requires a value" (fun config =>
        parsed_value parse_double_value any "--max-time-to-first-token-ms must be a number" (fun x => {| config with rc_max_time_to_first_token_ms := x |})))
  else if arg =s "--min-decode-tokens-per-second" then
    Some (Value "--min-decode-tokens-per-second requires a value" (fun config =>
        parsed_value parse_double_value any "--min-decode-tokens-per-second must be a number" (fun x => {| config with rc_min_decode_tokens_per_second := x |})))
  else if arg =s "--max-token-latency-p95-ms" then
    Some (Value "--max-token-latency-p95-ms requires a value" (fun config =>
        parsed_value parse_double_value any "--max-token-latency-p95-ms must be a number" (fun x => {| config with rc_max_token_latency_p95_ms := x |})))
  else if arg =s "--repeatability-runs" then
    Some (Value "--repeatability-runs requires a value" (fun config =>
        parsed_value parse_u32 any "--repeatability-runs must be an integer" (fun x => {| config with rc_repeatability_runs := x |})))
  else if arg =s "--repeatability-passed" then
    Some (Value "--repeatability-passed requires true or false" (fun config =>
        parsed_value parse_bool_text any "--repeatability-passed must be true or false" (fun x => {| config with rc_repeatability_passed := x |})))
  else if arg =s "--claim-validation" then
    Some (Value "--claim-validation requires a value" (fun config =>
        name_value valid_claim_validation_name "unsupported claim validation: " (fun x => {| config with rc_claim_validation := x |})))
  else if arg =s "--measured-evidence" then
    Some (Flag (fun config => {| config with rc_measured_evidence := true |}))
  else if arg =s "--simulated-evidence" then
    Some (Flag (fun config => {| config with rc_simulated_evidence := true |}))
  else if arg =s "--deployment-runbook-present" then
    Some (Flag (fun config => {| config with rc_deployment_runbook_present := true |}))
  else None.

Definition path_options (arg : string) : option Action :=
  if arg =s "--telemetry" then
    Some (Value "--telemetry requires a path" (fun config => text_value (fun x => {| config with rc_telemetry_path := x |})))
  else if arg =s "--manifest" then
    Some (Value "--manifest requires a path" (fun config => text_value (fun x => {| config with rc_manifest_path := x |})))
  else if arg =s "--run-id" then
    Some (Value "--run-id requires a value" run_id_value)
  else if arg =s "--model" then
    Some (Value "--model requires a path" (fun config => text_value (fun x => {| config with rc_model_path := x |})))
  else if arg =s "--sidecar" then
    Some (Value "--sidecar requires a path" (fun config => text_value (fun x => {| config with rc_sidecar_path := x |})))
  else if arg =s "--max-model-bytes" then
    Some (Value "--max-model-bytes requires a value" (fun config =>
        parsed_value parse_u64 positive "--max-model-bytes must be a positive integer" (fun x => {| config with rc_max_model_bytes := x |})))
  else if arg =s "--max-sidecar-bytes" then
    Some (Value "--max-sidecar-bytes requires a value" (fun config =>
        parsed_value parse_u64 positive "--max-sidecar-bytes must be a positive integer" (fun x => {| config with rc_max_sidecar_bytes := x |})))
  else if arg =s "--simulate-allocator-peak-bytes" then
    Some (Value "--simulate-allocator-peak-bytes requires a value" (fun config =>
        parsed_value parse_u64 any "--simulate-allocator-peak-bytes must be an integer" (fun x => {| config with rc_simulate_allocator_peak_bytes := x |})))
  else if arg =s "--simulate-process-gpu-peak-bytes" then
    Some (Value "--simulate-process-gpu-peak-bytes requires a value" (fun config =>
        parsed_value parse_u64 any "--simulate-process-gpu-peak-bytes must be an integer" (fun x => {| config with rc_simulate_process_gpu_peak_bytes := x |})))
  else if arg =s "--simulate-warmup-peak-bytes" then
    Some (Value "--simulate-warmup-peak-bytes requires a value" (fun config =>
        parsed_value parse_u64 any "--simulate-warmup-peak-bytes must be an integer" (fun x => {| config with rc_simulate_warmup_peak_bytes := x |})))
  else if arg =s "--simulate-unknown-post-warmup-bytes" then
    Some (Value "--simulate-unknown-post-warmup-bytes requires a value" (fun config =>
        parsed_value parse_u64 any "--simulate-unknown-post-warmup-bytes must be an integer" (fun x => {| config with rc_simulate_unknown_post_warmup_bytes := x |})))
  else None.

Definition option_action (arg : string) : option Action :=
  match run_options arg with Some action => Some action | None =>
  match kv_options arg with Some action => Some action | None =>
  match quality_options arg with Some action => Some action | None =>
  match offload_options arg with Some action => Some action | None =>
  match transfer_options arg with Some action => Some action | None =>
  match claim_options arg with Some action => Some action | None =>
  path_options arg
  end end end end end end.

(** The names, in the same order. *)
Definition option_names : list string := [
  "--mode";
  "--hard-cap-bytes";
  "--model-parameter-bucket";
  "--parameter-count";
  "--vram-tier-gib";
  "--validation-cell-id";
  "--validation-cell-status";
  "--backend";
  "--backend-required";
  "--dependency-pin-file";
  "--llama-executable";
  "--context-tokens";
  "--gpu-layers";
  "--mmap";
  "--warmup-tokens";
  "--kv-accounting";
  "--kv-layer-count";
  "--kv-head-count";
  "--kv-head-dim";
  "--kv-block-tokens";
  "--kv-placement";
  "--kv-compression";
  "--kv-key-bits";
  "--kv-value-bits";
  "--kv-metadata-budget-bytes";
  "--quality-gate";
  "--quality-baseline-manifest";
  "--quality-baseline-score";
  "--quality-observed-score";
  "--quality-max-delta";
  "--quality-retrieval-passed";
  "--quality-deterministic-match";
  "--profitability-policy";
  "--baseline-manifest";
  "--min-speedup-ratio";
  "--offload-policy";
  "--pinned-host-budget-bytes";
  "--staging-buffer-bytes";
  "--transfer-metrics";
  "--cold-cache-run";
  "--cpu-baseline-ttft-ms";
  "--cpu-baseline-decode-tps";
  "--cpu-baseline-peak-bytes";
  "--observed-ttft-ms";
  "--observed-decode-tps";
  "--token-latency-p50-ms";
  "--token-latency-p95-ms";
  "--transfer-h2d-bytes";
  "--transfer-d2h-bytes";
  "--nvme-read-bytes";
  "--nvme-write-bytes";
  "--transfer-h2d-ms";
  "--transfer-d2h-ms";
  "--transfer-io-ms";
  "--transfer-wait-ms";
  "--prefill-ms";
  "--decode-ms";
  "--claim-label";
  "--quantization-format";
  "--quant-artifact-sha256";
  "--host-memory-budget-bytes";
  "--nvme-budget-bytes";
  "--max-time-to-first-token-ms";
  "--min-decode-tokens-per-second";
  "--max-token-latency-p95-ms";
  "--repeatability-runs";
  "--repeatability-passed";
  "--claim-validation";
  "--measured-evidence";
  "--simulated-evidence";
  "--deployment-runbook-present";
  "--telemetry";
  "--manifest";
  "--run-id";
  "--model";
  "--sidecar";
  "--max-model-bytes";
  "--max-sidecar-bytes";
  "--simulate-allocator-peak-bytes";
  "--simulate-process-gpu-peak-bytes";
  "--simulate-warmup-peak-bytes";
  "--simulate-unknown-post-warmup-bytes"].

Definition is_help (arg : string) : bool := (arg =s "--help") || (arg =s "-h").

(** The loop over the arguments; [inl] is a parse error. *)
Fixpoint parse_loop (args : list string) (config : RuntimeConfig) : string + RuntimeConfig :=
  match args with
  | [] => inr config
  | arg :: rest =>
      if is_help arg then inr {| config with rc_show_help := true |}
      else match option_action arg with
           | None => inl ("unknown argument: " +:+ arg)
           | Some (Flag apply) => parse_loop rest (apply config)
           | Some (Value missing apply) =>
               match rest with
               | [] => inl missing
               | value :: rest =>
                   match apply config value with
                   | inl error => inl error
                   | inr config => parse_loop rest config
                   end
               end
           end
  end.

Definition parse_args (now : Z) (args : list string) : string + RuntimeConfig :=
  let config := default_config in
  parse_loop args {| config with rc_run_id := make_run_id now |}.

(** The lines of the usage text. *)
Definition usage_lines : list string := [
  "prism-probe";
  EmptyString;
  "Usage:";
  "  prism-probe [--mode 1gb-safe-cpu|1gb-safe-gpu-probed]";
  "              [--hard-cap-bytes BYTES]";
  "              [--model-parameter-bucket BUCKET]";
  "              [--parameter-count N]";
  "              [--vram-tier-gib N]";
  "              [--validation-cell-id ID]";
  "              [--validation-cell-status STATUS]";
  "              [--backend null|fake|llama]";
  "              [--backend-required]";
  "              [--dependency-pin-file PATH]";
  "              [--llama-executable PATH]";
  "              [--context-tokens N]";
  "              [--gpu-layers N]";
  "              [--mmap on|off]";
  "              [--warmup-tokens N]";
  "              [--kv-accounting on|off]";
  "              [--kv-layer-count N]";
  "              [--kv-head-count N]";
  "              [--kv-head-dim N]";
  "              [--kv-block-tokens N]";
  "              [--kv-placement backend|gpu|host|mixed]";
  "              [--kv-compression none|accounting-only|reference|experimental]";
  "              [--kv-key-bits N]";
  "              [--kv-value-bits N]";
  "              [--kv-metadata-budget-bytes BYTES]";
  "              [--quality-gate none|smoke|retrieval|long-context]";
  "              [--quality-baseline-manifest PATH]";
  "              [--quality-baseline-score N]";
  "              [--quality-observed-score N]";
  "              [--quality-max-delta N]";
  "              [--quality-retrieval-passed true|false]";
  "              [--quality-deterministic-match true|false]";
  "              [--profitability-policy off|warn|fail-closed]";
  "              [--baseline-manifest PATH]";
  "              [--min-speedup-ratio R]";
  "              [--offload-policy none|gpu|host-kv|nvme-simulated|nvme-experimental]";
  "              [--pinned-host-budget-bytes BYTES]";
  "              [--staging-buffer-bytes BYTES]";
  "              [--transfer-metrics on|off]";
  "              [--cold-cache-run]";
  "              [--cpu-baseline-ttft-ms N]";
  "              [--cpu-baseline-decode-tps N]";
  "              [--cpu-baseline-peak-bytes BYTES]";
  "              [--observed-ttft-ms N]";
  "              [--observed-decode-tps N]";
  "              [--token-latency-p50-ms N]";
  "              [--token-latency-p95-ms N]";
  "              [--transfer-h2d-bytes BYTES]";
  "              [--transfer-d2h-bytes BYTES]";
  "              [--nvme-read-bytes BYTES]";
  "              [--nvme-write-bytes BYTES]";
  "              [--transfer-h2d-ms N]";
  "              [--transfer-d2h-ms N]";
  "              [--transfer-io-ms N]";
  "              [--transfer-wait-ms N]";
  "              [--prefill-ms N]";
  "              [--decode-ms N]";
  "              [--claim-label metadata-only|simulated|measured-offload|validated-benchmark|deployable-profile|rejected]";
  "              [--quantization-format NAME]";
  "              [--quant-artifact-sha256 HASH]";
  "              [--host-memory-budget-bytes BYTES]";
  "              [--nvme-budget-bytes BYTES]";
  "              [--max-time-to-first-token-ms N]";
  "              [--min-decode-tokens-per-second R]";
  "              [--max-token-latency-p95-ms N]";
  "              [--repeatability-runs N]";
  "              [--repeatability-passed true|false]";
  "              [--claim-validation off|warn|fail-closed]";
  "              [--measured-evidence]";
  "              [--simulated-evidence]";
  "              [--deployment-runbook-present]";
  "              [--telemetry PATH]";
  "              [--manifest PATH]";
  "              [--run-id ID]";
  "              [--model PATH]";
  "              [--sidecar PATH]";
  "              [--max-model-bytes BYTES]";
  "              [--max-sidecar-bytes BYTES]";
  "              [--simulate-allocator-peak-bytes BYTES]";
  "              [--simulate-process-gpu-peak-bytes BYTES]";
  "              [--simulate-warmup-peak-bytes BYTES]";
  "              [--simulate-unknown-post-warmup-bytes BYTES]";
  EmptyString;
  "Defaults:";
  "  --mode 1gb-safe-cpu";
  "  --hard-cap-bytes 1073741824";
  "  maximum hard cap bytes 17179869184";
  "  --telemetry prisminfer-probe.jsonl";
  "  --manifest prisminfer-manifest.json";
  "  --max-model-bytes 1099511627776";
  "  --max-sidecar-bytes 65536";
  EmptyString].

Definition usage_text : string := String.concat (String "010" EmptyString) usage_lines.

(** ** What holds of a parsed configuration *)

(** Every integer is a value of its type. *)
Definition config_integers (c : RuntimeConfig) : list (Range * Z) := [
  (u64_range, rc_hard_cap_bytes c);
  (u64_range, rc_parameter_count c);
  (u32_range, rc_vram_tier_gib c);
  (u64_range, rc_context_tokens c);
  (u32_range, rc_gpu_layers c);
  (u64_range, rc_warmup_tokens c);
  (u32_range, rc_worker_exit_code c);
  (u32_range, rc_worker_root_process_id c);
  (u32_range, rc_worker_job_total_processes c);
  (u32_range, rc_worker_job_peak_active_processes c);
  (u32_range, rc_worker_job_total_terminated_processes c);
  (u64_range, rc_worker_root_peak_working_set_bytes c);
  (u64_range, rc_worker_root_peak_private_commit_bytes c);
  (u64_range, rc_worker_tree_peak_working_set_bytes c);
  (u64_range, rc_worker_tree_peak_private_commit_bytes c);
  (u32_range, rc_worker_tree_sample_interval_milliseconds c);
  (u64_range, rc_worker_read_bytes c);
  (u64_range, rc_worker_write_bytes c);
  (u64_range, rc_worker_output_bytes c);
  (u64_range, rc_worker_output_limit_bytes c);
  (u32_range, rc_kv_layer_count c);
  (u32_range, rc_kv_head_count c);
  (u32_range, rc_kv_head_dim c);
  (u32_range, rc_kv_block_tokens c);
  (u32_range, rc_kv_key_bits c);
  (u32_range, rc_kv_value_bits c);
  (u64_range, rc_kv_metadata_budget_bytes c);
  (u64_range, rc_pinned_host_budget_bytes c);
  (u64_range, rc_staging_buffer_bytes c);
  (u64_range, rc_cpu_baseline_peak_bytes c);
  (u64_range, rc_transfer_h2d_bytes c);
  (u64_range, rc_transfer_d2h_bytes c);
  (u64_range, rc_nvme_read_bytes c);
  (u64_range, rc_nvme_write_bytes c);
  (u64_range, rc_host_memory_budget_bytes c);
  (u64_range, rc_nvme_budget_bytes c);
  (u32_range, rc_repeatability_runs c);
  (u64_range, rc_max_model_bytes c);
  (u64_range, rc_max_sidecar_bytes c);
  (u64_range, rc_simulate_allocator_peak_bytes c);
  (u64_range, rc_simulate_process_gpu_peak_bytes c);
  (u64_range, rc_simulate_warmup_peak_bytes c);
  (u64_range, rc_simulate_unknown_post_warmup_bytes c)].

(** The integers that must not be zero. *)
Definition config_positive (c : RuntimeConfig) : list Z := [
  rc_hard_cap_bytes c; rc_vram_tier_gib c; rc_context_tokens c; rc_warmup_tokens c; rc_kv_block_tokens c; rc_kv_key_bits c; rc_kv_value_bits c; rc_max_model_bytes c; rc_max_sidecar_bytes c].

Definition config_doubles (c : RuntimeConfig) : list double := [
  rc_quality_baseline_score c;
  rc_quality_observed_score c;
  rc_quality_max_delta c;
  rc_min_speedup_ratio c;
  rc_cpu_baseline_ttft_ms c;
  rc_cpu_baseline_decode_tps c;
  rc_observed_ttft_ms c;
  rc_observed_decode_tps c;
  rc_token_latency_p50_ms c;
  rc_token_latency_p95_ms c;
  rc_transfer_h2d_ms c;
  rc_transfer_d2h_ms c;
  rc_transfer_io_ms c;
  rc_transfer_wait_ms c;
  rc_prefill_ms c;
  rc_decode_ms c;
  rc_max_time_to_first_token_ms c;
  rc_min_decode_tokens_per_second c;
  rc_max_token_latency_p95_ms c].

Definition config_names (c : RuntimeConfig) : list (bool) := [
  valid_validation_cell_status (rc_validation_cell_status c);
  valid_kv_placement (rc_kv_placement c);
  valid_kv_compression (rc_kv_compression c);
  valid_quality_gate_name (rc_quality_gate c);
  valid_profitability_policy_name (rc_profitability_policy c);
  valid_offload_policy_name (rc_offload_policy c);
  valid_claim_label_name (rc_claim_label c);
  valid_claim_validation_name (rc_claim_validation c)].

Definition config_ok (c : RuntimeConfig) : bool :=
  forallb (fun '(range, x) => in_bounds range x) (config_integers c) &&
  forallb positive (config_positive c) && forallb Doubles.is_finite (config_doubles c) && forallb id (config_names c) &&
  (rc_hard_cap_bytes c <=? MemoryCap.kMaxGpuHardCapBytes) &&
  (rc_vram_tier_gib c * kOneGiB <=? MemoryCap.kMaxGpuHardCapBytes) &&
  negb (Doubles.lt (rc_quality_max_delta c) Doubles.zero) && negb (Doubles.le (rc_min_speedup_ratio c) Doubles.zero) &&
  negb (str_empty (rc_run_id c)).

Lemma parse_text_finite text v : Doubles.parse_text text = Some v -> Doubles.is_finite v = true.
Proof.
  unfold Doubles.parse_text. destruct (Doubles.sign text) as [negative l]. destruct (span is_digit l) as [whole l'].
  destruct (match l' with [] => _ | _ => _ end) as [fraction l'']. destruct (whole ++ fraction); [done|].
  destruct (Doubles.exponent l'') as [[e [|]]|]; try done. cbv zeta.
  match goal with |- (if Doubles.is_finite ?x then _ else _) = _ -> _ => destruct (Doubles.is_finite x) eqn:E end; [|done].
  by intros [= <-].
Qed.

Lemma parse_double_finite value v : parse_double_value value = Some v -> Doubles.is_finite v = true.
Proof. apply parse_text_finite. Qed.

Lemma parse_u64_range value x : parse_u64 value = Some x -> in_bounds u64_range x = true.
Proof.
  unfold parse_u64. destruct (from_chars u64_range _) as [[y [|]]|] eqn:E; try done. intros [= ->].
  by apply from_chars_range in E.
Qed.

Lemma parse_u32_range value x : parse_u32 value = Some x -> in_bounds u32_range x = true.
Proof.
  unfold parse_u32. destruct (parse_u64 value) as [y|] eqn:E; [|done]. apply parse_u64_range in E. cbn [mbind option_bind].
  unfold in_bounds in *. cbn [fst snd u32_range u64_range] in *. destruct (Z.ltb_spec u32_max y); [done|]. intros [= <-]. lia.
Qed.

(** The tests of a configuration as hypotheses, and as goals. *)
Ltac config_facts H :=
  unfold config_ok, config_integers, config_positive, config_doubles, config_names in H; cbn [forallb] in H;
  repeat match goal with H : (_ && _) = true |- _ => apply andb_prop in H as [? ?] end.

Ltac set_field :=
  unfold config_ok, config_integers, config_positive, config_doubles, config_names; cbn -[in_bounds Z.leb Z.mul positive
    Doubles.is_finite Doubles.lt Doubles.le str_empty valid_validation_cell_status valid_kv_placement valid_kv_compression
    valid_quality_gate_name valid_profitability_policy_name valid_offload_policy_name valid_claim_label_name
    valid_claim_validation_name negb u64_range u32_range kOneGiB MemoryCap.kMaxGpuHardCapBytes];
  repeat match goal with |- (_ && _) = true => apply andb_true_intro; split end; first [assumption | reflexivity | idtac].

Lemma parsed_value_inr {A} (parse : string -> option A) ok error set value c :
  parsed_value parse ok error set value = inr c -> exists x, parse value = Some x /\ ok x = true /\ c = set x.
Proof. unfold parsed_value. destruct (parse value) as [x|]; [|done]. destruct (ok x) eqn:E; [|done]. intros [= <-]. eauto. Qed.

Lemma name_value_inr valid error set value c :
  name_value valid error set value = inr c -> valid value = true /\ c = set value.
Proof. unfold name_value. destruct (valid value) eqn:E; [|done]. by intros [= <-]. Qed.

Lemma in_bounds_u64 x : in_bounds u64_range x = true -> u64 x.
Proof. unfold in_bounds, u64. cbn [fst snd u64_range]. lia. Qed.

Lemma cap_value_inr c value c' : hard_cap_value c value = inr c' ->
  exists x, in_bounds u64_range x = true /\ positive x = true /\ (x <=? MemoryCap.kMaxGpuHardCapBytes) = true /\
    c' = {| c with rc_hard_cap_bytes := x |}.
Proof.
  unfold hard_cap_value. destruct (parse_u64 value) as [x|] eqn:E; [|done]. apply parse_u64_range in E.
  destruct (Z.eqb_spec x 0); [done|]. cbv zeta. destruct (MemoryCap.gcp_accepted _) eqn:Ha; [|done].
  apply MemoryCap.validate_gpu_hard_cap_accepted in Ha; [|by apply in_bounds_u64]. cbn [negb]. intros [= <-]. exists x.
  split; [done|]. unfold positive. split; [by apply negb_true_iff, Z.eqb_neq|]. split; [apply Z.leb_le; lia|done].
Qed.

Lemma tier_value_inr c value c' : vram_tier_value c value = inr c' ->
  exists x, in_bounds u32_range x = true /\ positive x = true /\
    (x * kOneGiB <=? MemoryCap.kMaxGpuHardCapBytes) = true /\ c' = {| c with rc_vram_tier_gib := x |}.
Proof.
  unfold vram_tier_value. destruct (parse_u32 value) as [x|] eqn:E; [|done]. apply parse_u32_range in E.
  destruct (Z.eqb_spec x 0); [done|]. destruct (MemoryCap.gcp_accepted _) eqn:Ha; [|done].
  apply MemoryCap.validate_gpu_hard_cap_accepted in Ha; [|apply wrap64_range]. cbn [negb]. intros [= <-]. exists x.
  split; [done|]. unfold positive. split; [by apply negb_true_iff, Z.eqb_neq|]. split; [|done]. apply Z.leb_le.
  rewrite wrap64_small in Ha; [lia|]. unfold in_bounds in E. cbn [fst snd u32_range] in E. unfold u64, kOneGiB. lia.
Qed.

Create HintDb config.
#[local] Hint Resolve parse_u64_range parse_u32_range parse_double_finite : config.

(** One option: what it accepted, and the tests of the new configuration. *)
Ltac option_case :=
  lazymatch goal with
  | |- config_ok _ = true => idtac
  | |- forall value c', _ = inr c' -> _ =>
      let Hc := fresh "Hc" in intros value c' Hc;
      lazymatch type of Hc with
      | text_value _ _ = _ => unfold text_value in Hc; injection Hc as <-
      | name_value _ _ _ _ = _ => apply name_value_inr in Hc as [? ->]
      | parsed_value _ _ _ _ _ = _ => apply parsed_value_inr in Hc as (? & ? & ? & ->)
      | hard_cap_value _ _ = _ => apply cap_value_inr in Hc as (? & ? & ? & ? & ->)
      | vram_tier_value _ _ = _ => apply tier_value_inr in Hc as (? & ? & ? & ? & ->)
      | mode_value _ _ = _ => unfold mode_value in Hc; destruct (parse_run_mode value); [injection Hc as <-|discriminate]
      | backend_value _ _ = _ =>
          unfold backend_value in Hc; destruct (parse_backend_kind value); [injection Hc as <-|discriminate]
      | run_id_value _ _ = _ =>
          unfold run_id_value in Hc; destruct (str_empty value) eqn:?; [discriminate|injection Hc as <-]
      end
  end; set_field; first [by apply negb_true_iff | eauto 2 with config].

(** An action takes acceptable configurations to acceptable ones. *)
Definition keeps_config_ok (action : option Action) : Prop :=
  forall c, config_ok c = true ->
  match action with
  | None => True
  | Some (Flag apply) => config_ok (apply c) = true
  | Some (Value _ apply) => forall value c', apply c value = inr c' -> config_ok c' = true
  end.

Ltac options_ok :=
  let H := fresh "H" in intros c H; config_facts H;
  repeat match goal with |- context [if ?b then _ else _] => destruct b end;
  first [exact I | option_case].

Lemma run_options_ok arg : keeps_config_ok (run_options arg).
Proof. unfold run_options. options_ok. Qed.
Lemma kv_options_ok arg : keeps_config_ok (kv_options arg).
Proof. unfold kv_options. options_ok. Qed.
Lemma quality_options_ok arg : keeps_config_ok (quality_options arg).
Proof. unfold quality_options. options_ok. Qed.
Lemma offload_options_ok arg : keeps_config_ok (offload_options arg).
Proof. unfold offload_options. options_ok. Qed.
Lemma transfer_options_ok arg : keeps_config_ok (transfer_options arg).
Proof. unfold transfer_options. options_ok. Qed.
Lemma claim_options_ok arg : keeps_config_ok (claim_options arg).
Proof. unfold claim_options. options_ok. Qed.
Lemma path_options_ok arg : keeps_config_ok (path_options arg).
Proof. unfold path_options. options_ok. Qed.

Lemma option_action_ok arg : keeps_config_ok (option_action arg).
Proof.
  intros c H. unfold option_action.
  pose proof (run_options_ok arg c H). pose proof (kv_options_ok arg c H). pose proof (quality_options_ok arg c H).
  pose proof (offload_options_ok arg c H). pose proof (transfer_options_ok arg c H).
  pose proof (claim_options_ok arg c H). pose proof (path_options_ok arg c H).
  repeat case_match; done.
Qed.

(** Help changes no other field. *)
Lemma help_ok c : config_ok c = true -> config_ok {| c with rc_show_help := true |} = true.
Proof. exact id. Qed.

(** The loop consumes one or two arguments. *)
Lemma args_ind (P : list string -> Prop) :
  P [] -> (forall arg rest, P rest -> (forall value rest', rest = value :: rest' -> P rest') -> P (arg :: rest)) ->
  forall args, P args.
Proof.
  intros H0 H1 args. enough (P args /\ (forall value rest, args = value :: rest -> P rest)) by tauto.
  induction args as [|arg rest [IH IH']]; [done|]. split; [by apply H1|]. by intros value rest' [= <- <-].
Qed.

Lemma parse_loop_ok args : forall c c', config_ok c = true -> parse_loop args c = inr c' -> config_ok c' = true.
Proof.
  induction args as [|arg rest IH IH'] using args_ind; intros c c' H; cbn [parse_loop]; [by intros [= <-]|].
  destruct (is_help arg); [intros Hc; injection Hc as <-; by apply help_ok|].
  pose proof (option_action_ok arg c H) as Ha.
  destruct (option_action arg) as [[apply|missing apply]|]; [by apply IH|destruct rest as [|value rest]; [done|]|done].
  destruct (apply c value) as [e|c1] eqn:E; [done|]. apply (IH' value); [done|]. by apply (Ha value).
Qed.

(** C29. Every configuration the parser returns is within its types and limits:
    integers in the range of their C++ type, the cap and the tier within the GPU
    policy, token counts and widths positive, every number finite, every name one
    of its list, and a run identifier. *)
Theorem parsed_config_is_valid now args c : parse_args now args = inr c -> config_ok c = true.
Proof.
  unfold parse_args. cbv zeta. apply parse_loop_ok.
  assert (Hid : str_empty (make_run_id now) = false) by done. revert Hid. generalize (make_run_id now) as id. intros id Hid.
  cbv -[str_empty]. by rewrite Hid.
Qed.

Lemma parsed_config_is_valid_witness :
  exists c, parse_args 7 ["--vram-tier-gib"; "16"; "--cold-cache-run"; "--quality-max-delta"; "0.25"] = inr c /\
    config_ok c = true /\ rc_vram_tier_gib c = 16 /\ rc_run_id c = "prisminfer-7".
Proof.
  eexists. assert (E : parse_args 7 ["--vram-tier-gib"; "16"; "--cold-cache-run"; "--quality-max-delta"; "0.25"] = inr _)
    by (vm_compute; reflexivity).
  split; [exact E|]. split; [exact (parsed_config_is_valid _ _ _ E)|]. split; reflexivity.
Defined.

(** ** Arguments take effect in order *)

(** The option at the front of the arguments is complete: it is known, is not
    help, and has its value. *)
Fixpoint complete (args : list string) : bool :=
  match args with
  | [] => true
  | arg :: rest =>
      negb (is_help arg) &&
      match option_action arg with
      | None => false
      | Some (Flag _) => complete rest
      | Some (Value _ _) => match rest with [] => false | _ :: rest => complete rest end
      end
  end.

(** Parsing continues with the later arguments where the earlier ones stopped. *)
Lemma parse_loop_app xs ys c :
  complete xs = true -> parse_loop (xs ++ ys) c = parse_loop xs c ≫= parse_loop ys.
Proof.
  revert c. induction xs as [|arg rest IH IH'] using args_ind; intros c H; [done|].
  cbn [complete] in H. apply andb_true_iff in H as [Hh H]. apply negb_true_iff in Hh. cbn [app parse_loop]. rewrite Hh.
  destruct (option_action arg) as [[apply|missing apply]|]; [by apply IH| |done].
  destruct rest as [|value rest]; [done|]. cbn [app]. destruct (apply c value); [done|]. by apply (IH' value).
Qed.

(** The arguments take effect one after the other: after complete options
    the parser goes on with the rest from the configuration reached so far, and an
    error among them ends it. *)
Theorem arguments_in_order now xs ys :
  complete xs = true -> parse_args now (xs ++ ys) = parse_args now xs ≫= parse_loop ys.
Proof. apply parse_loop_app. Qed.

(** ** Names read back *)

Lemma parse_run_mode_iff value mode : parse_run_mode value = Some mode <-> value = mode_to_string mode.
Proof.
  unfold parse_run_mode. destruct (String.eqb_spec value "1gb-safe-cpu") as [->|H1].
  - destruct mode; split; by intros.
  - destruct (String.eqb_spec value "1gb-safe-gpu-probed") as [->|H2]; destruct mode; split; by intros.
Qed.

Lemma parse_backend_iff value backend : parse_backend_kind value = Some backend <-> value = backend_to_string backend.
Proof.
  unfold parse_backend_kind. destruct (String.eqb_spec value "null") as [->|H1]; [destruct backend; split; by intros|].
  destruct (String.eqb_spec value "fake") as [->|H2]; [destruct backend; split; by intros|].
  destruct (String.eqb_spec value "llama") as [->|H3]; destruct backend; split; by intros.
Qed.

(** ** The usage text *)

(** The characters up to one that satisfies [stop], and what follows it. *)
Fixpoint break (stop : ascii -> bool) (l : list ascii) : list ascii * list ascii :=
  match l with
  | [] => ([], [])
  | c :: l => if stop c then ([], l) else let (a, b) := break stop l in (c :: a, b)
  end.

(** The words of a text between separators. *)
Fixpoint split_words (fuel : nat) (separator : ascii -> bool) (l : list ascii) : list string :=
  match fuel with
  | O => []
  | S fuel =>
      match l with
      | [] => []
      | _ => let (word, rest) := break separator l in
             string_of_list_ascii word :: split_words fuel separator rest
      end
  end.

(** The option a usage line shows in brackets, with its alternatives. *)
Definition bracketed (line : string) : option (string * list string) :=
  match break (fun c => Ascii.eqb c "[") (list_ascii_of_string line) with
  | (_, []) => None
  | (_, shown) =>
      let (inside, _) := break (fun c => Ascii.eqb c "]") shown in
      let (name, value) := break (fun c => Ascii.eqb c " ") inside in
      Some (string_of_list_ascii name, split_words (List.length value) (fun c => Ascii.eqb c "|") value)
  end.

Definition usage_options : list (string * list string) := omap bracketed usage_lines.

(** The words of a usage line that shows a default. *)
Definition default_words (line : string) : list string :=
  let l := list_ascii_of_string line in
  if bool_decide (take 3 l = [" "; " "; "-"]%char) then split_words 3 (fun c => Ascii.eqb c " ") (drop 2 l) else [].

Definition usage_defaults : list string := List.concat (map default_words usage_lines).

(** An option takes a value in a configuration. *)
Definition accepts (name value : string) (config : RuntimeConfig) : bool :=
  match option_action name with
  | Some (Value _ apply) => match apply config value with inr _ => true | inl _ => false end
  | _ => false
  end.

Lemma config_one_of_elem value allowed : one_of value allowed = true <-> value ∈ allowed.
Proof.
  unfold one_of. rewrite existsb_exists, list_elem_of_In. split; [intros (x & H & Hx%String.eqb_eq); by subst|].
  intros H. exists value. by rewrite String.eqb_refl.
Qed.

Lemma name_accepts valid error set value :
  match name_value valid error set value with inr _ => true | inl _ => false end = valid value.
Proof. unfold name_value. by destruct (valid value). Qed.

Lemma parsed_accepts {A} (parse : string -> option A) error set value :
  match parsed_value parse any error set value with inr _ => true | inl _ => false end = bool_decide (is_Some (parse value)).
Proof. unfold parsed_value. destruct (parse value) as [x|]; done. Qed.

(** Two words. *)
Lemma words_elem (a b : string) (x y : bool) value : a <> b ->
  bool_decide (is_Some (if value =s a then Some x else if value =s b then Some y else None)) = true <-> value ∈ [a; b].
Proof.
  intros Hab. rewrite bool_decide_eq_true, elem_of_cons, list_elem_of_singleton.
  destruct (String.eqb_spec value a) as [->|]; [naive_solver|]. destruct (String.eqb_spec value b) as [->|]; [naive_solver|].
  split; [by intros [? [=]]|naive_solver].
Qed.

Lemma mode_accepts c value :
  match mode_value c value with inr _ => true | inl _ => false end = true <-> value ∈ ["1gb-safe-cpu"; "1gb-safe-gpu-probed"].
Proof.
  unfold mode_value. rewrite elem_of_cons, list_elem_of_singleton.
  destruct (parse_run_mode value) as [m|] eqn:E.
  - apply parse_run_mode_iff in E as ->. destruct m; naive_solver.
  - split; [done|]. intros [->| ->]; done.
Qed.

Lemma backend_accepts c value :
  match backend_value c value with inr _ => true | inl _ => false end = true <-> value ∈ ["null"; "fake"; "llama"].
Proof.
  unfold backend_value. rewrite !elem_of_cons, elem_of_nil.
  destruct (parse_backend_kind value) as [b|] eqn:E.
  - apply parse_backend_iff in E as ->. destruct b; naive_solver.
  - split; [done|]. intros [->|[->|[->|[]]]]; done.
Qed.

(** The alternatives a usage line offers are the values its option takes. *)
Definition alternatives_exact (line : string * list string) : Prop :=
  (1 < List.length line.2)%nat -> forall value c, accepts line.1 value c = true <-> value ∈ line.2.

Ltac find_option :=
  unfold accepts; cbn [fst snd];
  lazy beta iota delta [option_action run_options kv_options quality_options offload_options transfer_options
    claim_options path_options String.eqb Ascii.eqb Bool.eqb].

Lemma usage_alternatives_exact : Forall alternatives_exact usage_options.
Proof.
  let l := eval vm_compute in usage_options in assert (E : usage_options = l) by (vm_compute; reflexivity). rewrite E. clear E.
  repeat first [apply Forall_nil; exact I | apply Forall_cons; split];
    intros Hl value c; try (cbn in Hl; lia); find_option;
    first [ apply mode_accepts | apply backend_accepts
          | rewrite name_accepts; apply config_one_of_elem
          | rewrite parsed_accepts; by apply words_elem ].
Qed.

(** A group recognises only names of the list. *)
Ltac group_names :=
  repeat lazymatch goal with |- is_Some (if ?x =s ?lit then _ else _) -> _ =>
    destruct (String.eqb_spec x lit) as [->|]; [reflexivity|] end; by intros [? [=]].

Lemma run_options_names arg : is_Some (run_options arg) -> one_of arg option_names = true.
Proof. unfold run_options. group_names. Qed.
Lemma kv_options_names arg : is_Some (kv_options arg) -> one_of arg option_names = true.
Proof. unfold kv_options. group_names. Qed.
Lemma quality_options_names arg : is_Some (quality_options arg) -> one_of arg option_names = true.
Proof. unfold quality_options. group_names. Qed.
Lemma offload_options_names arg : is_Some (offload_options arg) -> one_of arg option_names = true.
Proof. unfold offload_options. group_names. Qed.
Lemma transfer_options_names arg : is_Some (transfer_options arg) -> one_of arg option_names = true.
Proof. unfold transfer_options. group_names. Qed.
Lemma claim_options_names arg : is_Some (claim_options arg) -> one_of arg option_names = true.
Proof. unfold claim_options. group_names. Qed.
Lemma path_options_names arg : is_Some (path_options arg) -> one_of arg option_names = true.
Proof. unfold path_options. group_names. Qed.

Lemma option_names_exact arg : is_Some (option_action arg) <-> arg ∈ option_names.
Proof.
  split.
  - intros H. apply config_one_of_elem. unfold option_action in H.
    destruct (run_options arg) eqn:?; [apply run_options_names; by eexists|].
    destruct (kv_options arg) eqn:?; [apply kv_options_names; by eexists|].
    destruct (quality_options arg) eqn:?; [apply quality_options_names; by eexists|].
    destruct (offload_options arg) eqn:?; [apply offload_options_names; by eexists|].
    destruct (transfer_options arg) eqn:?; [apply transfer_options_names; by eexists|].
    destruct (claim_options arg) eqn:?; [apply claim_options_names; by eexists|].
    by apply path_options_names.
  - assert (H : forallb (fun name => match option_action name with Some _ => true | None => false end) option_names = true)
      by (vm_compute; reflexivity).
    rewrite forallb_Forall, Forall_forall in H. intros Hin. specialize (H arg Hin). by destruct (option_action arg).
Qed.

(** The usage text is that of the parser: it shows exactly the options there
    are, the alternatives it offers for a value are exactly the values taken, and
    the defaults it lists are those of an empty command line. *)
Theorem usage_matches_parser :
  (forall arg, is_Some (option_action arg) <-> arg ∈ usage_options.*1) /\
  Forall alternatives_exact usage_options /\
  (forall now, parse_args now usage_defaults = parse_args now []).
Proof.
  split; [|split; [apply usage_alternatives_exact|]].
  - intros arg. rewrite option_names_exact. assert (E : usage_options.*1 = option_names) by (vm_compute; reflexivity).
    by rewrite E.
  - intros now. unfold parse_args. cbv zeta. generalize (make_run_id now) as id. intros id. vm_compute. reflexivity.
Qed.

End Config.
