(* ===== verification/WindowsEvidence.v ===== *)
(** * Windows evidence

    [src/telemetry/windows_evidence.cpp]: the samplers of adapter and process
    memory (DXGI, performance counters, NVML) over records of the answers of
    those interfaces, the identity of an opened file, and the classification
    that decides which claim a bundle of evidence supports.  The owned-memory
    evidence and the binding of an independent sample are in [GpuTelemetry].

    Wide strings are lists of code units. *)

From S2P Require Import Prelude CheckedArithmetic MemoryCap HostAdmission GpuTelemetry TransferMetrics.
From Stdlib Require Import Ascii String.
Import HostAdmission GpuTelemetry.

Open Scope string_scope.
Open Scope list_scope.
Open Scope Z_scope.

Module WindowsEvidence.

(** ** Performance-counter instances *)

(** The code units of a text. *)
Definition wide (text : string) : list Z := map char_code (list_ascii_of_string text).

(** [towlower] in the C locale. *)
Definition towlower (c : Z) : Z := if (65 <=? c) && (c <=? 90) then c + 32 else c.

Definition is_wspace (c : Z) : bool := ((9 <=? c) && (c <=? 13)) || (c =? 32).

(** The value of a digit in bases up to 16. *)
Definition digit_value (base c : Z) : option Z :=
  let v := if (48 <=? c) && (c <=? 57) then c - 48
           else if (97 <=? c) && (c <=? 102) then c - 87
           else if (65 <=? c) && (c <=? 70) then c - 55 else 16 in
  if v <? base then Some v else None.

(** The longest run of digits: its value and what follows it. *)
Fixpoint read_digits (base acc : Z) (l : list Z) : Z * list Z :=
  match l with
  | c :: rest => match digit_value base c with
                 | Some v => read_digits base (acc * base + v) rest
                 | None => (acc, l)
                 end
  | [] => (acc, [])
  end.

Fixpoint skip_wspace (l : list Z) : list Z :=
  match l with c :: rest => if is_wspace c then skip_wspace rest else l | [] => [] end.

Definition starts_with (prefix l : list Z) : bool := bool_decide (take (List.length prefix) l = prefix).

(** [std::wcstoull]: white space, a sign, [0x] in base 16, digits.  [None] when
    there is no digit or the value does not fit; a minus sign negates modulo
    2^64. *)
Definition wcstoull (base : Z) (l : list Z) : option (Z * list Z) :=
  let l := skip_wspace l in
  let (negative, l) := match l with
                       | c :: rest => if c =? 45 then (true, rest) else if c =? 43 then (false, rest) else (false, l)
                       | [] => (false, [])
                       end in
  let l := if (base =? 16) && starts_with [48; 120] l
           then match drop 2 l with
                | c :: _ => match digit_value 16 c with Some _ => drop 2 l | None => l end
                | [] => l
                end
           else l in
  match l with
  | [] => None
  | c :: _ =>
      match digit_value base c with
      | None => None
      | Some _ =>
          let (value, rest) := read_digits base 0 l in
          if u64_max <? value then None
          else Some (if negative : bool then wrap64 (- value) else value, rest)
      end
  end.

(** [parse_unsigned_component] at a position of the text, as the rest there. *)
Definition parse_unsigned_component (rest : list Z) (base : Z) : option (Z * list Z) :=
  match rest with [] => None | _ => wcstoull base rest end.

(** What follows the first occurrence of a marker ([std::wstring::find]). *)
Fixpoint find_after (marker text : list Z) : option (list Z) :=
  if starts_with marker text then Some (drop (List.length marker) text)
  else match text with [] => None | _ :: text => find_after marker text end.

(** [static_cast<std::int32_t>] of a 32-bit value. *)
Definition to_i32 (x : Z) : Z := if x <? 2147483648 then x else x - 4294967296.

Definition pdh_instance_matches (instance : option (list Z)) (process_id luid_high luid_low : Z) : bool :=
  match instance with
  | None => false
  | Some instance =>
      let text := map towlower instance in
      match find_after (wide "pid_") text, find_after (wide "_luid_0x") text with
      | Some after_pid, Some after_luid =>
          match parse_unsigned_component after_pid 10 with
          | Some (parsed_pid, 95 :: _) =>
              if parsed_pid <>z process_id then false
              else match parse_unsigned_component after_luid 16 with
              | Some (parsed_high, rest) =>
                  if negb (starts_with (wide "_0x") rest) || (Nat.leb (List.length rest) 3) then false
                  else match parse_unsigned_component (drop 3 rest) 16 with
                  | Some (parsed_low, _) =>
                      if (u32_max <? parsed_high) || (u32_max <? parsed_low) then false
                      else (to_i32 parsed_high =? luid_high) && (parsed_low =? luid_low)
                  | None => false
                  end
              | None => false
              end
          | _ => false
          end
      | _, _ => false
      end
  end.

(** ** The counters of one process *)

(** [PDH_RAW_COUNTER_ITEM_W]: the name, whether the status is valid or new
    data, and the signed first value. *)
Record CounterItem := mkItem {
  ci_name : option (list Z);
  ci_status_valid : bool;
  ci_first_value : Z;
}.

Record PdhAnswers := mkPdh {
  pdh_opens : bool;
  pdh_adds_counter : bool;
  pdh_collects : bool;
  pdh_sized_more_data : bool;
  pdh_bytes : Z;
  pdh_count : Z;
  pdh_reads : bool;
  pdh_items : list CounterItem;
  pdh_clock : Z;
}.

(** The loop over the items: [inl] for an ambiguous report. *)
Fixpoint find_counter (process_id luid_high luid_low : Z) (items : list CounterItem) (exact_bytes : option Z) :
    string + option Z :=
  match items with
  | [] => inr exact_bytes
  | item :: items =>
      if negb (pdh_instance_matches (ci_name item) process_id luid_high luid_low)
      then find_counter process_id luid_high luid_low items exact_bytes
      else if negb (ci_status_valid item) || (ci_first_value item <? 0) || bool_decide (is_Some exact_bytes)
      then inl "wddm_process_counter_ambiguous"
      else find_counter process_id luid_high luid_low items (Some (ci_first_value item))
  end.

Definition unavailable_process (process_id luid_high luid_low : Z) (reason : string) : ProcessDeviceMemorySample :=
  mkProcessDevice false reason "" process_id 0 luid_high luid_low 0.

Definition sample_wddm_process_memory (pdh : PdhAnswers) (process_id luid_high luid_low : Z) :
    ProcessDeviceMemorySample :=
  let unavailable := unavailable_process process_id luid_high luid_low in
  if negb (pdh_opens pdh) then unavailable "wddm_process_query_open_failed"
  else if negb (pdh_adds_counter pdh) || negb (pdh_collects pdh) then unavailable "wddm_process_counter_unavailable"
  else if negb (pdh_sized_more_data pdh) || (pdh_bytes pdh =? 0) || (pdh_count pdh =? 0) ||
          (16 * 1024 * 1024 <? pdh_bytes pdh) || (65536 <? pdh_count pdh)
       then unavailable "wddm_process_counter_empty"
  else if negb (pdh_reads pdh) then unavailable "wddm_process_counter_read_failed"
  else match find_counter process_id luid_high luid_low (pdh_items pdh) None with
       | inl reason => unavailable reason
       | inr None => unavailable "wddm_process_pid_luid_not_reported"
       | inr (Some bytes) =>
           if pdh_clock pdh =? 0 then unavailable "monotonic_clock_invalid"
           else mkProcessDevice true "" "wddm-process" process_id (pdh_clock pdh) luid_high luid_low bytes
       end.

(** ** NVML *)

(** One query of running processes: the answer to the sizing call and the
    answer to the second call, [None] for a status that is not success. *)
Record ProcessQuery := mkProcessQuery {
  pq_sizing_success : bool;
  pq_sizing_insufficient : bool;
  pq_sizing_entries : Z;
  pq_processes : option (list (Z * Z));
}.

(** [nv_devices]: per index the handle and LUID bytes, [None] when a call for
    the device fails. *)
Record NvmlAnswers := mkNvml {
  nv_module : bool;
  nv_contract : bool;
  nv_device_count : option Z;
  nv_devices : list (option (list Z));
  nv_compute : ProcessQuery;
  nv_graphics : ProcessQuery;
  nv_clock : Z;
}.

Definition kValueNotAvailable : Z := u64_max.

(** The bytes of a [LUID]: both parts little-endian, the low one first. *)
Definition le_bytes (x : Z) : list Z := map (fun i => Z.shiftr (wrap32 x) (8 * Z.of_nat i) mod 256) (seq 0 4).

Definition luid_bytes (luid_high luid_low : Z) : list Z := le_bytes luid_low ++ le_bytes luid_high.

(** The loop over the devices: has one matched before? *)
Fixpoint match_device (expected : list Z) (devices : list (option (list Z))) (matched : bool) : string + bool :=
  match devices with
  | [] => inr matched
  | Some luid :: devices =>
      if bool_decide (luid = expected)
      then if matched then inl "nvml_adapter_luid_ambiguous" else match_device expected devices true
      else match_device expected devices matched
  | None :: devices => match_device expected devices matched
  end.

(** The first entry of the process; [None] is a failed query. *)
Definition collect (query : ProcessQuery) (process_id : Z) (source : string) :
    option (list ProcessDeviceMemoryCandidate) :=
  if pq_sizing_success query && (pq_sizing_entries query =? 0) then Some []
  else if negb (pq_sizing_insufficient query) || (pq_sizing_entries query =? 0) || (65536 <? pq_sizing_entries query)
  then None
  else match pq_processes query with
       | None => None
       | Some processes =>
           if pq_sizing_entries query <? Z.of_nat (List.length processes) then None
           else match List.find (fun p => p.1 =? process_id) processes with
                | None => Some []
                | Some (_, bytes) =>
                    if bytes =? kValueNotAvailable then None else Some [mkCandidate source bytes]
                end
       end.

Definition sample_process_device_memory (pdh : PdhAnswers) (nvml : NvmlAnswers) (process_id luid_high luid_low : Z) :
    ProcessDeviceMemorySample :=
  let unavailable := unavailable_process process_id luid_high luid_low in
  if process_id =? 0 then unavailable "process_device_pid_required"
  else
  let wddm_process := sample_wddm_process_memory pdh process_id luid_high luid_low in
  if pds_available wddm_process then wddm_process
  else if negb (nv_module nvml) then unavailable "nvml_provider_unavailable"
  else if negb (nv_contract nvml) then unavailable "nvml_contract_unavailable"
  else match nv_device_count nvml with
  | None => unavailable "nvml_device_enumeration_failed"
  | Some count =>
      if (count =? 0) || (64 <? count) then unavailable "nvml_device_enumeration_failed"
      else match match_device (luid_bytes luid_high luid_low) (take (Z.to_nat count) (nv_devices nvml)) false with
      | inl reason => unavailable reason
      | inr false => unavailable "nvml_adapter_luid_not_found"
      | inr true =>
          match collect (nv_compute nvml) process_id "nvml-compute" with
          | None => unavailable "nvml_process_query_failed"
          | Some compute =>
              match collect (nv_graphics nvml) process_id "nvml-graphics" with
              | None => unavailable "nvml_process_query_failed"
              | Some graphics =>
                  if nv_clock nvml =? 0 then unavailable "monotonic_clock_invalid"
                  else reconcile_process_device_memory_candidates process_id luid_high luid_low (nv_clock nvml)
                         (compute ++ graphics)
              end
          end
      end
  end.

(** ** The memory of an adapter *)

Record WddmMemorySample := mkWddm {
  wm_available : bool;
  wm_unavailable_reason : string;
  wm_captured_monotonic_milliseconds : Z;
  wm_adapter_index : Z;
  wm_adapter_luid_high : Z;
  wm_adapter_luid_low : Z;
  wm_adapter_description : string;
  wm_local_budget_bytes : Z;
  wm_local_current_usage_bytes : Z;
  wm_local_available_for_reservation_bytes : Z;
  wm_nonlocal_budget_bytes : Z;
  wm_nonlocal_current_usage_bytes : Z;
  wm_nonlocal_available_for_reservation_bytes : Z;
}.

Definition default_WddmMemorySample : WddmMemorySample := mkWddm false "" 0 0 0 0 "" 0 0 0 0 0 0.

Record AdapterDescription := mkDescription {
  ad_software : bool;
  ad_luid_high : Z;
  ad_luid_low : Z;
  ad_description_utf8 : string;
}.

Record VideoMemoryInfo := mkVideoMemory { vm_budget : Z; vm_current_usage : Z; vm_available_for_reservation : Z }.

(** [None] and [false] are the failure returns of the calls. *)
Record DxgiAnswers := mkDxgi {
  dx_factory : bool;
  dx_adapter : bool;
  dx_description : option AdapterDescription;
  dx_adapter3 : bool;
  dx_local : option VideoMemoryInfo;
  dx_nonlocal : option VideoMemoryInfo;
  dx_clock : Z;
}.

Definition sample_wddm_memory (dxgi : DxgiAnswers) (adapter_index : Z) : WddmMemorySample :=
  let sample := default_WddmMemorySample in
  let sample := {| sample with wm_adapter_index := adapter_index |} in
  let unavailable reason := {| sample with wm_unavailable_reason := reason |} in
  if negb (dx_factory dxgi) then unavailable "dxgi_factory_unavailable"
  else if negb (dx_adapter dxgi) then unavailable "dxgi_adapter_unavailable"
  else match dx_description dxgi with
  | None => unavailable "dxgi_adapter_description_unavailable"
  | Some description =>
      if ad_software description then unavailable "dxgi_software_adapter_rejected"
      else if negb (dx_adapter3 dxgi) then unavailable "dxgi_adapter3_unavailable"
      else match dx_local dxgi, dx_nonlocal dxgi with
      | Some local, Some nonlocal =>
          if dx_clock dxgi =? 0 then unavailable "monotonic_clock_invalid"
          else
          let sample := {| sample with
            wm_captured_monotonic_milliseconds := dx_clock dxgi;
            wm_adapter_luid_high := ad_luid_high description;
            wm_adapter_luid_low := ad_luid_low description;
            wm_adapter_description := ad_description_utf8 description;
            wm_local_budget_bytes := vm_budget local;
            wm_local_current_usage_bytes := vm_current_usage local;
            wm_local_available_for_reservation_bytes := vm_available_for_reservation local;
            wm_nonlocal_budget_bytes := vm_budget nonlocal;
            wm_nonlocal_current_usage_bytes := vm_current_usage nonlocal;
            wm_nonlocal_available_for_reservation_bytes := vm_available_for_reservation nonlocal |} in
          if (wm_local_budget_bytes sample =? 0) ||
             (wm_local_budget_bytes sample <? wm_local_current_usage_bytes sample) ||
             (wm_nonlocal_budget_bytes sample <? wm_nonlocal_current_usage_bytes sample)
          then {| sample with wm_unavailable_reason := "dxgi_video_memory_counters_contradictory" |}
          else {| sample with wm_available := true |}
      | _, _ => unavailable "dxgi_video_memory_query_unavailable"
      end
  end.

(** ** The identity of a file *)

Record FileIoEvidence := mkFileEvidence {
  fe_identity_available : bool;
  fe_unavailable_reason : string;
  fe_role : string;
  fe_final_path : string;
  fe_volume_serial_hex : string;
  fe_file_id_hex : string;
  fe_hard_link_count : Z;
  fe_size_bytes : Z;
  fe_mapped_bytes : Z;
  fe_resident_proxy_available : bool;
  fe_resident_proxy_bytes : Z;
  fe_identity_aware_io_available : bool;
  fe_observed_read_bytes : Z;
  fe_observed_write_bytes : Z;
  fe_pagefile_io_available : bool;
  fe_observed_pagefile_read_bytes : Z;
  fe_observed_pagefile_write_bytes : Z;
  fe_hard_faults_available : bool;
  fe_hard_fault_count : Z;
  fe_hard_fault_source : string;
  fe_cache_state : string;
  fe_cache_state_verified : bool;
  fe_dropped_trace_records : Z;
}.

Definition default_FileIoEvidence : FileIoEvidence :=
  mkFileEvidence false "" "" "" "" "" 0 0 0 false 0 false 0 0 false 0 0 false 0 "unavailable" "unknown" false 0.

(** What the calls on an opened file answer. *)
Record FileHandle := mkHandle {
  fh_basic : option (bool * bool * Z);
  fh_identity : option (Z * list Z);
  fh_size : option Z;
  fh_final_length : Z;
  fh_final_path_utf8 : string;
}.

Definition kMaximumFinalPathCharacters : Z := 32 * 1024.

(** [count] lower-case hex digits of [value], most significant first
    ([std::hex] with [std::setw]). *)
Fixpoint hex_digits (count : nat) (value : Z) : list ascii :=
  match count with
  | O => []
  | S count => hex_digits count (value / 16) ++ [ascii_of_N (Z.to_N (let d := value mod 16 in if d <? 10 then 48 + d else 87 + d))]
  end.

Definition hex_bytes (bytes : list Z) : string := string_of_list_ascii (List.concat (map (hex_digits 2) bytes)).

(** [basic] is (directory, reparse point, number of links). *)
Definition sample_file_identity (path_empty : bool) (file : option FileHandle) (role : string) : FileIoEvidence :=
  let evidence := default_FileIoEvidence in
  let evidence := {| evidence with fe_role := role |} in
  let unavailable reason := {| evidence with fe_unavailable_reason := reason |} in
  if path_empty then unavailable "file_path_required"
  else match file with
  | None => unavailable "file_identity_open_failed"
  | Some file =>
      match fh_basic file, fh_identity file, fh_size file with
      | Some (directory, reparse, links), Some (volume, id), Some size =>
          if directory || reparse || (size <? 0) then unavailable "file_identity_query_failed"
          else if (fh_final_length file =? 0) || (kMaximumFinalPathCharacters <=? fh_final_length file)
          then unavailable "file_final_path_unavailable"
          else
          let evidence := {| evidence with
            fe_final_path := fh_final_path_utf8 file;
            fe_volume_serial_hex := string_of_list_ascii (hex_digits 16 volume);
            fe_file_id_hex := hex_bytes id;
            fe_hard_link_count := links;
            fe_size_bytes := size |} in
          if str_empty (fe_final_path evidence) || negb (Nat.eqb (String.length (fe_file_id_hex evidence)) 32)
          then {| evidence with fe_unavailable_reason := "file_identity_encoding_failed" |}
          else {| evidence with fe_identity_available := true |}
      | _, _, _ => unavailable "file_identity_query_failed"
      end
  end.

Record FileEvidenceValidationResult := mkFileValidation { fv_ok : bool; fv_failure_reason : string }.

Definition exact_lower_hex (value : string) (length : nat) : bool :=
  Nat.eqb (String.length value) length && all_chars is_lower_hex value.

Definition validate_file_io_evidence (e : FileIoEvidence) (cold_cache_required : bool) : FileEvidenceValidationResult :=
  let role_valid := (fe_role e =s "source-gguf") || (fe_role e =s "mmproj") ||
                    (fe_role e =s "derived-artifact") || (fe_role e =s "log") in
  if negb role_valid then mkFileValidation false "file_role_invalid"
  else if negb (fe_identity_available e) || str_empty (fe_final_path e) ||
          negb (exact_lower_hex (fe_volume_serial_hex e) 16) || negb (exact_lower_hex (fe_file_id_hex e) 32) ||
          (fe_hard_link_count e <>z 1)
       then mkFileValidation false "opened_handle_file_identity_required"
  else if fe_dropped_trace_records e <>z 0 then mkFileValidation false "file_trace_dropped_records"
  else if negb (fe_identity_aware_io_available e) || negb (fe_pagefile_io_available e)
       then mkFileValidation false "file_and_pagefile_trace_required"
  else if (((fe_role e =s "source-gguf") || (fe_role e =s "mmproj")) && (fe_observed_read_bytes e =? 0)) ||
          (((fe_role e =s "derived-artifact") || (fe_role e =s "log")) && (fe_observed_read_bytes e =? 0) &&
           (fe_observed_write_bytes e =? 0))
       then mkFileValidation false "actual_identity_linked_file_io_required"
  else if (fe_size_bytes e <? fe_mapped_bytes e) ||
          (fe_resident_proxy_available e && (fe_mapped_bytes e <? fe_resident_proxy_bytes e))
       then mkFileValidation false "file_mapping_or_resident_proxy_invalid"
  else if (fe_mapped_bytes e <>z 0) && negb (fe_resident_proxy_available e)
       then mkFileValidation false "mapped_residency_ambiguous"
  else
  let hard_fault_source_valid := (fe_hard_fault_source e =s "etw-file-identity") ||
    (fe_hard_fault_source e =s "etw-pagefile") || (fe_hard_fault_source e =s "etw-classified-none") in
  if negb (fe_hard_faults_available e) || negb hard_fault_source_valid ||
     ((fe_hard_fault_count e <>z 0) && (fe_hard_fault_source e =s "etw-classified-none"))
  then mkFileValidation false "hard_fault_source_ambiguous"
  else if cold_cache_required && (negb (fe_cache_state_verified e) || (fe_cache_state e <>s "cold"))
       then mkFileValidation false "cold_cache_state_unverified"
  else mkFileValidation true "".

(** ** Classification *)

Record ProcessTreeHostEvidence := mkProcessTree {
  pt_available : bool;
  pt_parent_identity : string;
  pt_job_identity : string;
  pt_parent_working_set_current_bytes : Z;
  pt_parent_working_set_peak_bytes : Z;
  pt_parent_private_commit_current_bytes : Z;
  pt_parent_private_commit_peak_bytes : Z;
  pt_tree_working_set_current_bytes : Z;
  pt_tree_working_set_peak_bytes : Z;
  pt_tree_private_commit_current_bytes : Z;
  pt_tree_private_commit_peak_bytes : Z;
  pt_tree_io_read_bytes : Z;
  pt_tree_io_write_bytes : Z;
}.

Record WindowsEvidenceBundle := mkWindowsBundle {
  wb_claim_scope : string;
  wb_instrumentation_mode : string;
  wb_real_execution : bool;
  wb_evaluation_monotonic_milliseconds : Z;
  wb_maximum_host_sample_age_milliseconds : Z;
  wb_maximum_owned_gpu_sample_age_milliseconds : Z;
  wb_maximum_wddm_sample_age_milliseconds : Z;
  wb_gpu : OwnedGpuMemoryEvidence;
  wb_wddm : WddmMemorySample;
  wb_eviction_residency_trace_available : bool;
  wb_eviction_or_nonlocal_residency_observed : bool;
  wb_residency_trace_dropped_records : Z;
  wb_process_tree : ProcessTreeHostEvidence;
  wb_system_host_pre : HostTelemetrySample;
  wb_system_host_post : HostTelemetrySample;
  wb_offload_file_claim_requested : bool;
  wb_cold_cache_claim_requested : bool;
  wb_files : list FileIoEvidence;
  wb_transfer_claim_requested : bool;
  wb_transfers : TransferMetrics.TransferSample;
}.

Record WindowsEvidenceDecision := mkWindowsDecision {
  wd_promotable : bool;
  wd_classification : string;
  wd_reason : string;
}.

Definition downgrade_to (classification reason : string) : WindowsEvidenceDecision :=
  mkWindowsDecision false classification reason.

Definition downgrade (reason : string) : WindowsEvidenceDecision := downgrade_to "measured-non-certified" reason.

(** One step of the loop of [checked_category_sum]. *)
Definition add_category (total category : Z) : option Z :=
  if u64_max -64 total <? category then None else Some (total +64 category).

Definition checked_category_sum (categories : list Z) : option Z := checked_sum_from add_category 0 categories.

Definition reconcile_owned_categories (gpu : OwnedGpuMemoryEvidence) : option (Z * Z) :=
  current ← checked_category_sum (current_categories gpu);
  peak ← checked_category_sum (peak_categories gpu);
  Some (current, peak).

(** A capture that is not later than the evaluation and at most [maximum] old;
    the bound itself is at most 500 ms. *)
Definition stale (maximum evaluation captured : Z) : bool :=
  (maximum =? 0) || (500 <? maximum) || (evaluation <? captured) || (maximum <? evaluation -64 captured).

Definition process_tree_missing (t : ProcessTreeHostEvidence) : bool :=
  negb (pt_available t) || str_empty (pt_parent_identity t) || str_empty (pt_job_identity t).

Definition process_tree_invalid (t : ProcessTreeHostEvidence) : bool :=
  (pt_parent_working_set_current_bytes t =? 0) ||
  (pt_parent_working_set_peak_bytes t <? pt_parent_working_set_current_bytes t) ||
  (pt_parent_private_commit_current_bytes t =? 0) ||
  (pt_parent_private_commit_peak_bytes t <? pt_parent_private_commit_current_bytes t) ||
  (pt_tree_working_set_peak_bytes t =? 0) || (pt_tree_private_commit_peak_bytes t =? 0).

Definition host_rejected (e : WindowsEvidenceBundle) : bool :=
  let pre := wb_system_host_pre e in
  let post := wb_system_host_post e in
  negb (hts_available pre) || negb (hts_available post) ||
  (hts_system_commit_source pre <>s "get_performance_info") ||
  (hts_system_commit_source post <>s "get_performance_info") ||
  negb (hts_pagefile_configuration_available pre) || negb (hts_pagefile_configuration_available post) ||
  (hts_process_id pre =? 0) || (hts_process_id pre <>z hts_process_id post) ||
  str_empty (hts_process_image_path pre) || (hts_process_image_path pre <>s hts_process_image_path post) ||
  (hts_captured_monotonic_milliseconds pre =? 0) ||
  (hts_captured_monotonic_milliseconds post <? hts_captured_monotonic_milliseconds pre) ||
  stale (wb_maximum_host_sample_age_milliseconds e) (wb_evaluation_monotonic_milliseconds e)
    (hts_captured_monotonic_milliseconds post).

Definition owned_rejected (e : WindowsEvidenceBundle) : bool :=
  let gpu := wb_gpu e in
  negb (og_available gpu) || negb (og_reconciled gpu) || negb (og_process_device_corroboration_available gpu) ||
  ((og_process_device_source gpu <>s "nvml-process") && (og_process_device_source gpu <>s "wddm-process")) ||
  (og_process_id gpu =? 0) ||
  (og_process_device_captured_monotonic_milliseconds gpu <>z og_captured_monotonic_milliseconds gpu) ||
  (og_process_device_current_bytes gpu <>z og_owned_current_bytes gpu) ||
  negb (og_adapter_identity_available gpu) || (og_captured_monotonic_milliseconds gpu =? 0) ||
  stale (wb_maximum_owned_gpu_sample_age_milliseconds e) (wb_evaluation_monotonic_milliseconds e)
    (og_captured_monotonic_milliseconds gpu).

Definition categories_rejected (gpu : OwnedGpuMemoryEvidence) : bool :=
  match reconcile_owned_categories gpu with
  | None => true
  | Some (current, peak) =>
      (current <>z og_owned_current_bytes gpu) || (peak <>z og_owned_peak_bytes gpu) ||
      (og_owned_peak_bytes gpu <? og_owned_current_bytes gpu)
  end.

Definition cap_exceeded (gpu : OwnedGpuMemoryEvidence) : bool :=
  negb (MemoryCap.gcp_accepted (MemoryCap.validate_gpu_hard_cap (og_hard_cap_bytes gpu))) ||
  (og_hard_cap_bytes gpu <? og_owned_current_bytes gpu) || (og_hard_cap_bytes gpu <? og_owned_peak_bytes gpu).

Definition transfers_rejected (transfers : TransferMetrics.TransferSample) : bool :=
  let (reconciliation, transfers) := TransferMetrics.reconcile_transfer_sample transfers in
  negb (TransferMetrics.tv_ok reconciliation) || (TransferMetrics.ts_dropped_records transfers <>z 0) ||
  bool_decide (TransferMetrics.ts_events transfers = []) ||
  ((TransferMetrics.ts_observed_h2d_completed_bytes transfers =? 0) &&
   (TransferMetrics.ts_observed_d2h_completed_bytes transfers =? 0)).

(** The loop over the files: the first invalid one, or whether a source was seen. *)
Fixpoint check_files (cold_cache : bool) (files : list FileIoEvidence) (source_seen : bool) : string + bool :=
  match files with
  | [] => inr source_seen
  | file :: files =>
      let source_seen := source_seen || (fe_role file =s "source-gguf") in
      let validation := validate_file_io_evidence file cold_cache in
      if negb (fv_ok validation) then inl (fv_failure_reason validation) else check_files cold_cache files source_seen
  end.

Definition files_decision (e : WindowsEvidenceBundle) : option string :=
  match wb_files e with
  | [] => Some "file_identity_evidence_required"
  | files => match check_files (wb_cold_cache_claim_requested e) files false with
             | inl reason => Some reason
             | inr false => Some "source_file_identity_required"
             | inr true => None
             end
  end.

Definition wddm_rejected (e : WindowsEvidenceBundle) : bool :=
  let wddm := wb_wddm e in
  negb (wm_available wddm) || (wm_captured_monotonic_milliseconds wddm =? 0) ||
  str_empty (wm_adapter_description wddm) || (wm_local_budget_bytes wddm =? 0) ||
  (wm_local_budget_bytes wddm <? wm_local_available_for_reservation_bytes wddm) ||
  (wm_nonlocal_budget_bytes wddm <? wm_nonlocal_available_for_reservation_bytes wddm) ||
  stale (wb_maximum_wddm_sample_age_milliseconds e) (wb_evaluation_monotonic_milliseconds e)
    (wm_captured_monotonic_milliseconds wddm).

(** The part of the classification after the owned allocation is certified. *)
Definition classify_residency (e : WindowsEvidenceBundle) : WindowsEvidenceDecision :=
  let gpu := wb_gpu e in
  let wddm := wb_wddm e in
  if wb_instrumentation_mode e <>s "ordinary" then downgrade "ordinary_run_required_for_residency_claim"
  else if wddm_rejected e then downgrade "fresh_wddm_evidence_required"
  else if negb (og_adapter_identity_available gpu) || (og_adapter_luid_high gpu <>z wm_adapter_luid_high wddm) ||
          (og_adapter_luid_low gpu <>z wm_adapter_luid_low wddm)
       then downgrade "wddm_adapter_identity_mismatch"
  else if (wm_local_budget_bytes wddm <? wm_local_current_usage_bytes wddm) || (wm_nonlocal_current_usage_bytes wddm <>z 0)
       then downgrade "wddm_oversubscription_observed"
  else if negb (wb_eviction_residency_trace_available e) || (wb_residency_trace_dropped_records e <>z 0)
       then downgrade "complete_residency_trace_required"
  else if wb_eviction_or_nonlocal_residency_observed e then downgrade "eviction_or_nonlocal_residency_observed"
  else mkWindowsDecision true "physical-residency-cap-certified" "".

Definition classify_windows_evidence (e : WindowsEvidenceBundle) : WindowsEvidenceDecision :=
  if (wb_claim_scope e <>s "owned-allocation") && (wb_claim_scope e <>s "physical-residency")
  then downgrade "claim_scope_invalid"
  else if (wb_instrumentation_mode e <>s "ordinary") && (wb_instrumentation_mode e <>s "profiler")
  then downgrade "instrumentation_mode_invalid"
  else if negb (wb_real_execution e) then downgrade_to "simulated/policy-only" "real_execution_required"
  else if process_tree_missing (wb_process_tree e) then downgrade "process_tree_host_evidence_required"
  else if process_tree_invalid (wb_process_tree e) then downgrade "process_tree_host_counters_invalid"
  else if host_rejected e then downgrade "authoritative_system_host_evidence_required"
  else if owned_rejected e then downgrade "owned_gpu_reconciliation_required"
  else if og_unknown_unreconciled_bytes (wb_gpu e) <>z 0 then downgrade "unknown_gpu_bytes_present"
  else if categories_rejected (wb_gpu e) then downgrade "owned_gpu_category_reconciliation_failed"
  else if cap_exceeded (wb_gpu e) then downgrade_to "rejected" "owned_gpu_cap_exceeded"
  else if wb_transfer_claim_requested e && transfers_rejected (wb_transfers e)
  then downgrade "actual_transfer_evidence_required"
  else match (if wb_offload_file_claim_requested e then files_decision e else None) with
  | Some reason => downgrade_to "storage-ambiguous" reason
  | None =>
      if wb_claim_scope e =s "owned-allocation" then mkWindowsDecision true "owned-allocation-cap-certified" ""
      else classify_residency e
  end.

(** ** What the classification promises *)

#[export] Instance add_category_checked : CheckedAdd add_category.
Proof.
  constructor. intros a b Ha Hb. unfold add_category. unfold u64 in *.
  rewrite wrap64_small by (unfold u64; lia).
  destruct (Z.ltb_spec (u64_max - a) b); destruct (Z.leb_spec (a + b) u64_max); try lia; [done|].
  by rewrite wrap64_small by (unfold u64; lia).
Qed.

(** Captured at most [maximum] milliseconds before the evaluation. *)
Definition recent (maximum evaluation captured : Z) : Prop :=
  0 < maximum <= 500 /\ captured <= evaluation <= captured + maximum.

Lemma stale_iff maximum evaluation captured :
  u64 maximum -> u64 evaluation -> u64 captured ->
  stale maximum evaluation captured = false <-> recent maximum evaluation captured.
Proof.
  intros Hm He Hc. unfold stale, recent. bool_iff.
  split; intros; destruct_and!; rewrite wrap64_sub in * by (done || lia); unfold u64 in *; lia.
Qed.

(** The bytes of each category add up, exactly, to the totals reported. *)
Definition categories_reconciled (gpu : OwnedGpuMemoryEvidence) : Prop :=
  sumZ (current_categories gpu) = og_owned_current_bytes gpu /\
  sumZ (peak_categories gpu) = og_owned_peak_bytes gpu /\
  og_owned_current_bytes gpu <= og_owned_peak_bytes gpu.

Lemma categories_rejected_iff gpu : owned_wf gpu ->
  categories_rejected gpu = false <-> categories_reconciled gpu.
Proof.
  intros (Hc & Hp & Ho). rewrite !Forall_cons in Ho. destruct Ho as (_ & _ & Hoc & Hop & _).
  unfold categories_rejected, reconcile_owned_categories, checked_category_sum, categories_reconciled.
  rewrite !(checked_sum_from_spec add_category) by (done || (unfold u64; lia)). rewrite !Z.add_0_l.
  unfold u64 in Hoc, Hop.
  destruct (Z.leb_spec (sumZ (current_categories gpu)) u64_max); cbn -[sumZ current_categories peak_categories]; [|split; [done|lia]].
  destruct (Z.leb_spec (sumZ (peak_categories gpu)) u64_max); cbn -[sumZ current_categories peak_categories]; [|split; [done|lia]].
  bool_iff. lia.
Qed.

Lemma cap_exceeded_iff gpu : owned_wf gpu ->
  cap_exceeded gpu = false <->
  0 < og_hard_cap_bytes gpu <= MemoryCap.kMaxGpuHardCapBytes /\
  og_owned_current_bytes gpu <= og_hard_cap_bytes gpu /\ og_owned_peak_bytes gpu <= og_hard_cap_bytes gpu.
Proof.
  intros (_ & _ & Ho). rewrite !Forall_cons in Ho. destruct Ho as (_ & Hcap & _).
  unfold cap_exceeded. bool_iff. rewrite MemoryCap.validate_gpu_hard_cap_accepted by done. tauto.
Qed.

(** Completed transfers that reconcile, none dropped, and some bytes moved. *)
Definition transfers_proved (s : TransferMetrics.TransferSample) : Prop :=
  TransferMetrics.reconcilable s /\ TransferMetrics.ts_dropped_records s = 0 /\ TransferMetrics.ts_events s <> [] /\
  0 < TransferMetrics.total TransferMetrics.te_completed_bytes true (TransferMetrics.ts_events s) +
      TransferMetrics.total TransferMetrics.te_completed_bytes false (TransferMetrics.ts_events s).

Lemma transfers_rejected_iff s : Forall TransferMetrics.event_u64 (TransferMetrics.ts_events s) ->
  transfers_rejected s = false <-> transfers_proved s.
Proof.
  intros He. destruct (TransferMetrics.reconcile_transfer_exact s He) as [Hok Hout].
  assert (Hpos : forall h, 0 <= TransferMetrics.total TransferMetrics.te_completed_bytes h (TransferMetrics.ts_events s)).
  { rewrite Forall_forall in He. intros; apply TransferMetrics.total_nonneg; intros e' (?&?&?)%He; unfold u64 in *; lia. }
  pose proof (Hpos true). pose proof (Hpos false).
  unfold transfers_rejected, transfers_proved.
  destruct (TransferMetrics.reconcile_transfer_sample s) as [[ok reason] out]. cbn [fst snd] in *.
  rewrite <- Hok, Hout. destruct ok; cbn; bool_iff; [|by naive_solver].
  rewrite andb_false_iff, bool_decide_eq_false. bool_iff. split; intros; destruct_and!; split_and!; try done; lia.
Qed.

(** A file whose input and output is tied to its identity. *)
Definition file_proved (cold : bool) (f : FileIoEvidence) : Prop :=
  let input := fe_role f = "source-gguf" \/ fe_role f = "mmproj" in
  let output := fe_role f = "derived-artifact" \/ fe_role f = "log" in
  (input \/ output) /\
  fe_identity_available f = true /\ fe_final_path f <> "" /\ fe_hard_link_count f = 1 /\
  exact_lower_hex (fe_volume_serial_hex f) 16 = true /\ exact_lower_hex (fe_file_id_hex f) 32 = true /\
  fe_dropped_trace_records f = 0 /\ fe_identity_aware_io_available f = true /\ fe_pagefile_io_available f = true /\
  (fe_observed_read_bytes f <> 0 \/ output /\ fe_observed_write_bytes f <> 0) /\
  fe_mapped_bytes f <= fe_size_bytes f /\
  (fe_resident_proxy_available f = true -> fe_resident_proxy_bytes f <= fe_mapped_bytes f) /\
  (fe_resident_proxy_available f = false -> fe_mapped_bytes f = 0) /\
  fe_hard_faults_available f = true /\
  (fe_hard_fault_source f = "etw-file-identity" \/ fe_hard_fault_source f = "etw-pagefile" \/
   fe_hard_fault_source f = "etw-classified-none" /\ fe_hard_fault_count f = 0) /\
  (cold = true -> fe_cache_state_verified f = true /\ fe_cache_state f = "cold").

(** The guards of [validate_file_io_evidence] that are not conjunctions. *)
Lemma io_guard_iff f :
  ((((fe_role f =s "source-gguf") || (fe_role f =s "mmproj")) && (fe_observed_read_bytes f =? 0)) ||
   (((fe_role f =s "derived-artifact") || (fe_role f =s "log")) && (fe_observed_read_bytes f =? 0) &&
    (fe_observed_write_bytes f =? 0))) = false <->
  ~ ((fe_role f = "source-gguf" \/ fe_role f = "mmproj") /\ fe_observed_read_bytes f = 0) /\
  ~ ((fe_role f = "derived-artifact" \/ fe_role f = "log") /\ fe_observed_read_bytes f = 0 /\
     fe_observed_write_bytes f = 0).
Proof.
  rewrite <- !String.eqb_eq, <- !Z.eqb_eq, <- !orb_true_iff, <- !andb_true_iff, !not_true_iff_false.
  by rewrite orb_false_iff, andb_assoc.
Qed.

Lemma mapping_guard_iff f :
  ((fe_size_bytes f <? fe_mapped_bytes f) ||
   (fe_resident_proxy_available f && (fe_mapped_bytes f <? fe_resident_proxy_bytes f))) = false <->
  fe_mapped_bytes f <= fe_size_bytes f /\
  (fe_resident_proxy_available f = true -> fe_resident_proxy_bytes f <= fe_mapped_bytes f).
Proof. destruct (fe_resident_proxy_available f); cbn; bool_iff; naive_solver. Qed.

Lemma ambiguous_guard_iff f :
  ((fe_mapped_bytes f <>z 0) && negb (fe_resident_proxy_available f)) = false <->
  (fe_resident_proxy_available f = false -> fe_mapped_bytes f = 0).
Proof. destruct (fe_resident_proxy_available f); cbn; rewrite ?andb_false_iff; bool_iff; naive_solver. Qed.

Lemma fault_guard_iff f :
  (negb (fe_hard_faults_available f) ||
   negb ((fe_hard_fault_source f =s "etw-file-identity") || (fe_hard_fault_source f =s "etw-pagefile") ||
         (fe_hard_fault_source f =s "etw-classified-none")) ||
   ((fe_hard_fault_count f <>z 0) && (fe_hard_fault_source f =s "etw-classified-none"))) = false <->
  fe_hard_faults_available f = true /\
  (fe_hard_fault_source f = "etw-file-identity" \/ fe_hard_fault_source f = "etw-pagefile" \/
   fe_hard_fault_source f = "etw-classified-none" /\ fe_hard_fault_count f = 0).
Proof.
  bool_iff. rewrite !orb_true_iff, andb_false_iff. bool_iff.
  destruct (String.eqb_spec (fe_hard_fault_source f) "etw-classified-none") as [->|]; naive_solver.
Qed.

Lemma cold_guard_iff f cold :
  (cold && (negb (fe_cache_state_verified f) || (fe_cache_state f <>s "cold"))) = false <->
  (cold = true -> fe_cache_state_verified f = true /\ fe_cache_state f = "cold").
Proof. destruct cold; cbn; bool_iff; naive_solver. Qed.

Lemma file_proved_iff f cold : fv_ok (validate_file_io_evidence f cold) = true <-> file_proved cold f.
Proof.
  unfold validate_file_io_evidence, file_proved. cbv zeta. observe fv_ok as q. cascade. subst q. cbn [fv_ok].
  rewrite io_guard_iff, mapping_guard_iff, ambiguous_guard_iff, fault_guard_iff, cold_guard_iff.
  assert (Hrole : (fe_role f = "source-gguf" \/ fe_role f = "mmproj") ->
                  ~ (fe_role f = "derived-artifact" \/ fe_role f = "log"))
    by (intros [-> | ->] [|]; discriminate).
  bool_iff. rewrite !orb_true_iff. bool_iff.
  split.
  - intros (? & ? & ? & ? & (Hin & Hout) & ? & ? & ? & ? & _). destruct_and!.
    split_and!; try done; [tauto|].
    destruct (Z.eq_dec (fe_observed_read_bytes f) 0); [right|by left]. tauto.
  - intros (Hr & ? & ? & ? & ? & ? & ? & ? & ? & Hio & ? & ? & ? & ? & ? & ?).
    split_and!; try done; tauto.
Qed.

Definition files_proved (cold : bool) (files : list FileIoEvidence) : Prop :=
  Forall (file_proved cold) files /\ Exists (fun f => fe_role f = "source-gguf") files.

Lemma check_files_iff cold files seen :
  check_files cold files seen = inr true <->
  Forall (file_proved cold) files /\ (seen = true \/ Exists (fun f => fe_role f = "source-gguf") files).
Proof.
  revert seen. induction files as [|f files IH]; intros seen; cbn.
  - rewrite Exists_nil. naive_solver.
  - pose proof (file_proved_iff f cold) as Hf. rewrite Forall_cons, Exists_cons.
    destruct (fv_ok _); cbn; [rewrite IH, orb_true_iff, String.eqb_eq; tauto|]. split; [done|].
    intros [[Hp _] _]. by apply Hf in Hp.
Qed.

Lemma files_decision_iff e :
  files_decision e = None <-> files_proved (wb_cold_cache_claim_requested e) (wb_files e).
Proof.
  unfold files_decision, files_proved. destruct (wb_files e) as [|f files]; [rewrite Exists_nil; naive_solver|].
  pose proof (check_files_iff (wb_cold_cache_claim_requested e) (f :: files) false) as H.
  destruct (check_files _ _ _) as [?|[]]; naive_solver.
Qed.

(** The host record of the run: the parent and its job are identified and
    counted, and two samples of the same process surround it. *)
Definition host_proved (e : WindowsEvidenceBundle) : Prop :=
  let t := wb_process_tree e in
  let pre := wb_system_host_pre e in
  let post := wb_system_host_post e in
  (pt_available t = true /\ pt_parent_identity t <> "" /\ pt_job_identity t <> "") /\
  (pt_parent_working_set_current_bytes t <> 0 /\
   pt_parent_working_set_current_bytes t <= pt_parent_working_set_peak_bytes t /\
   pt_parent_private_commit_current_bytes t <> 0 /\
   pt_parent_private_commit_current_bytes t <= pt_parent_private_commit_peak_bytes t /\
   pt_tree_working_set_peak_bytes t <> 0 /\ pt_tree_private_commit_peak_bytes t <> 0) /\
  hts_available pre = true /\ hts_available post = true /\
  hts_system_commit_source pre = "get_performance_info" /\ hts_system_commit_source post = "get_performance_info" /\
  hts_pagefile_configuration_available pre = true /\ hts_pagefile_configuration_available post = true /\
  hts_process_id pre <> 0 /\ hts_process_id pre = hts_process_id post /\
  hts_process_image_path pre <> "" /\ hts_process_image_path pre = hts_process_image_path post /\
  hts_captured_monotonic_milliseconds pre <> 0 /\
  hts_captured_monotonic_milliseconds pre <= hts_captured_monotonic_milliseconds post /\
  recent (wb_maximum_host_sample_age_milliseconds e) (wb_evaluation_monotonic_milliseconds e)
    (hts_captured_monotonic_milliseconds post).

(** The owned bytes: measured, corroborated by the process's own device
    counter at the same instant, complete, and under the cap. *)
Definition owned_proved (e : WindowsEvidenceBundle) : Prop :=
  let gpu := wb_gpu e in
  og_available gpu = true /\ og_reconciled gpu = true /\ og_process_device_corroboration_available gpu = true /\
  (og_process_device_source gpu = "nvml-process" \/ og_process_device_source gpu = "wddm-process") /\
  og_process_id gpu <> 0 /\
  og_process_device_captured_monotonic_milliseconds gpu = og_captured_monotonic_milliseconds gpu /\
  og_process_device_current_bytes gpu = og_owned_current_bytes gpu /\
  og_adapter_identity_available gpu = true /\ og_captured_monotonic_milliseconds gpu <> 0 /\
  recent (wb_maximum_owned_gpu_sample_age_milliseconds e) (wb_evaluation_monotonic_milliseconds e)
    (og_captured_monotonic_milliseconds gpu) /\
  og_unknown_unreconciled_bytes gpu = 0 /\ categories_reconciled gpu /\
  0 < og_hard_cap_bytes gpu <= MemoryCap.kMaxGpuHardCapBytes /\
  og_owned_current_bytes gpu <= og_hard_cap_bytes gpu /\ og_owned_peak_bytes gpu <= og_hard_cap_bytes gpu.

(** Physical residency: an ordinary run whose adapter stayed within its local
    budget, with nothing in the shared segment and a complete trace that saw
    no eviction. *)
Definition residency_proved (e : WindowsEvidenceBundle) : Prop :=
  let gpu := wb_gpu e in
  let wddm := wb_wddm e in
  wb_instrumentation_mode e = "ordinary" /\
  wm_available wddm = true /\ wm_captured_monotonic_milliseconds wddm <> 0 /\ wm_adapter_description wddm <> "" /\
  wm_local_budget_bytes wddm <> 0 /\
  wm_local_available_for_reservation_bytes wddm <= wm_local_budget_bytes wddm /\
  wm_nonlocal_available_for_reservation_bytes wddm <= wm_nonlocal_budget_bytes wddm /\
  recent (wb_maximum_wddm_sample_age_milliseconds e) (wb_evaluation_monotonic_milliseconds e)
    (wm_captured_monotonic_milliseconds wddm) /\
  og_adapter_luid_high gpu = wm_adapter_luid_high wddm /\ og_adapter_luid_low gpu = wm_adapter_luid_low wddm /\
  wm_local_current_usage_bytes wddm <= wm_local_budget_bytes wddm /\ wm_nonlocal_current_usage_bytes wddm = 0 /\
  wb_eviction_residency_trace_available e = true /\ wb_residency_trace_dropped_records e = 0 /\
  wb_eviction_or_nonlocal_residency_observed e = false.

Definition run_proved (e : WindowsEvidenceBundle) : Prop :=
  (wb_instrumentation_mode e = "ordinary" \/ wb_instrumentation_mode e = "profiler") /\
  wb_real_execution e = true /\ host_proved e /\ owned_proved e /\
  (wb_transfer_claim_requested e = true -> transfers_proved (wb_transfers e)) /\
  (wb_offload_file_claim_requested e = true -> files_proved (wb_cold_cache_claim_requested e) (wb_files e)).

Definition bundle_wf (e : WindowsEvidenceBundle) : Prop :=
  Forall u64 [wb_evaluation_monotonic_milliseconds e; wb_maximum_host_sample_age_milliseconds e;
    wb_maximum_owned_gpu_sample_age_milliseconds e; wb_maximum_wddm_sample_age_milliseconds e;
    hts_captured_monotonic_milliseconds (wb_system_host_post e); wm_captured_monotonic_milliseconds (wb_wddm e)] /\
  owned_wf (wb_gpu e) /\ Forall TransferMetrics.event_u64 (TransferMetrics.ts_events (wb_transfers e)).

Lemma host_guards_iff e : bundle_wf e ->
  process_tree_missing (wb_process_tree e) = false /\ process_tree_invalid (wb_process_tree e) = false /\
  host_rejected e = false <-> host_proved e.
Proof.
  intros (Hz & _). rewrite !Forall_cons in Hz. destruct_and!.
  unfold process_tree_missing, process_tree_invalid, host_rejected, host_proved. cbv zeta. bool_iff.
  rewrite stale_iff by done. split; intros; destruct_and!; split_and!; done.
Qed.

Lemma owned_guards_iff e : bundle_wf e ->
  owned_rejected e = false /\ (og_unknown_unreconciled_bytes (wb_gpu e) <>z 0) = false /\
  categories_rejected (wb_gpu e) = false /\ cap_exceeded (wb_gpu e) = false <-> owned_proved e.
Proof.
  intros (Hz & Ho & _). pose proof Ho as (_ & _ & Hb). rewrite !Forall_cons in Hz. rewrite !Forall_cons in Hb.
  destruct_and!. rewrite categories_rejected_iff, cap_exceeded_iff by done.
  unfold owned_rejected, owned_proved. cbv zeta. bool_iff. rewrite stale_iff, andb_false_iff by done. bool_iff.
  split; intros; destruct_and!; split_and!; done.
Qed.

Lemma residency_iff e : bundle_wf e -> og_adapter_identity_available (wb_gpu e) = true ->
  wd_promotable (classify_residency e) = true <-> residency_proved e.
Proof.
  intros (Hz & _) Hid. rewrite !Forall_cons in Hz. destruct_and!.
  unfold classify_residency, wddm_rejected, residency_proved. cbv zeta. observe wd_promotable as q.
  cascade. subst q. bool_iff. rewrite stale_iff by done. cbn [wd_promotable].
  split; intros; destruct_and!; split_and!; done.
Qed.

Definition certified_name (scope : string) : string :=
  if scope =s "owned-allocation" then "owned-allocation-cap-certified" else "physical-residency-cap-certified".

Lemma promotable_name e :
  wd_promotable (classify_windows_evidence e) = true ->
  classify_windows_evidence e = mkWindowsDecision true (certified_name (wb_claim_scope e)) "".
Proof.
  unfold classify_windows_evidence, classify_residency, certified_name. cbv zeta.
  repeat match goal with
  | |- wd_promotable (if ?b then _ else _) = true -> _ => destruct b; [intros [=]|]
  end.
  destruct (if wb_offload_file_claim_requested e then _ else _); [intros [=]|].
  destruct (wb_claim_scope e =s _); [done|].
  repeat match goal with
  | |- wd_promotable (if ?b then _ else _) = true -> _ => destruct b; [intros [=]|]
  end.
  done.
Qed.

Lemma scope_decision_iff e :
  wd_promotable
    (match (if wb_offload_file_claim_requested e then files_decision e else None) with
     | Some reason => downgrade_to "storage-ambiguous" reason
     | None => if wb_claim_scope e =s "owned-allocation" then mkWindowsDecision true "owned-allocation-cap-certified" ""
               else classify_residency e
     end) = true <->
  (wb_offload_file_claim_requested e = true -> files_proved (wb_cold_cache_claim_requested e) (wb_files e)) /\
  (wb_claim_scope e = "owned-allocation" \/
   wb_claim_scope e <> "owned-allocation" /\ wd_promotable (classify_residency e) = true).
Proof.
  rewrite <- files_decision_iff. destruct (wb_offload_file_claim_requested e); [destruct (files_decision e)|];
    destruct (String.eqb_spec (wb_claim_scope e) "owned-allocation"); cbn; naive_solver.
Qed.

Lemma either_iff s a b : ((s <>s a) && (s <>s b)) = false <-> s = a \/ s = b.
Proof. rewrite andb_false_iff. bool_iff. tauto. Qed.

Lemma requested_iff (b c : bool) : (b && c) = false <-> (b = true -> c = false).
Proof. destruct b, c; naive_solver. Qed.

(** C33. A bundle is promoted exactly when its evidence is complete: a real run
    in a known instrumentation mode, host counters and owned bytes that are
    identified, fresh and reconciled with exact sums under the cap, the
    transfers and files it claims proved and, for the physical scope, a
    residency trace without eviction.  The label is then the one of the scope
    claimed. *)
Theorem windows_claim_exact e :
  bundle_wf e ->
  (wd_promotable (classify_windows_evidence e) = true <->
   run_proved e /\ (wb_claim_scope e = "owned-allocation" \/
                    wb_claim_scope e = "physical-residency" /\ residency_proved e)) /\
  (wd_promotable (classify_windows_evidence e) = true ->
   classify_windows_evidence e = mkWindowsDecision true (certified_name (wb_claim_scope e)) "").
Proof.
  intros Hwf. split; [|apply promotable_name].
  pose proof (host_guards_iff e Hwf) as Hhost. pose proof (owned_guards_iff e Hwf) as Hown.
  pose proof (residency_iff e Hwf) as Hres. pose proof Hwf as (_ & _ & Htr).
  assert (Hid : owned_proved e -> og_adapter_identity_available (wb_gpu e) = true) by (intros H; apply H).
  assert (Hdistinct : wb_claim_scope e = "physical-residency" -> wb_claim_scope e <> "owned-allocation")
    by (intros ->; discriminate).
  unfold classify_windows_evidence, run_proved. observe wd_promotable as q.
  do 11 (rewrite guard_iff by reflexivity). subst q.
  rewrite scope_decision_iff, !either_iff, requested_iff, (transfers_rejected_iff _ Htr), negb_false_iff.
  rewrite <- Hhost, <- Hown. rewrite <- Hown in Hid. clear Hwf Htr Hhost Hown. tauto.
Qed.

(** ** A sample bundle *)

Definition sample_host (captured : Z) : HostTelemetrySample :=
  mkHostSample true "" "get_performance_info" captured 41 "C:\p.exe" 10 20 10 20 64 32 16 96 80 true "" 1 32 1 2 5 6.

Definition sample_owned : OwnedGpuMemoryEvidence :=
  mkOwned true 1000 true true "wddm-process" 41 1000 700 true 1 2 4096 700 900 0
    100 200 100 100 100 100 100 100 100 100 100 100 50 100 50 100 3000 8192 0.

Definition sample_file : FileIoEvidence :=
  mkFileEvidence true "" "source-gguf" "C:\m.gguf" "0123456789abcdef" "0123456789abcdef0123456789abcdef" 1 512 256 true
    128 true 512 0 true 0 0 true 3 "etw-file-identity" "cold" true 0.

Definition sample_bundle (scope : string) : WindowsEvidenceBundle :=
  mkWindowsBundle scope "ordinary" true 1100 500 200 300 sample_owned
    (mkWddm true "" 1000 0 1 2 "adapter" 4096 900 2048 4096 0 2048) true false 0
    (mkProcessTree true "parent" "job" 10 20 10 20 30 40 30 40 7 8)
    (sample_host 900) (sample_host 1000) true true [sample_file] true TransferMetrics.sample_trace.

Lemma sample_bundle_wf scope : bundle_wf (sample_bundle scope).
Proof.
  unfold bundle_wf, owned_wf, current_categories, peak_categories. cbn.
  rewrite !Forall_cons. unfold TransferMetrics.event_u64, u64. cbn.
  split_and!; repeat constructor; cbn; lia.
Qed.

Lemma windows_claim_exact_witness :
  run_proved (sample_bundle "physical-residency") /\ residency_proved (sample_bundle "physical-residency").
Proof.
  destruct (windows_claim_exact (sample_bundle "physical-residency") (sample_bundle_wf _)) as [[H _] _].
  destruct H as [Hr [Hs|[_ Hp]]]; [vm_compute; reflexivity|discriminate Hs|by split].
Defined.

(** ** The process's own counter *)

(** The items of a counter array that name the process and the adapter. *)
Definition matching (process_id luid_high luid_low : Z) : list CounterItem -> list CounterItem :=
  List.filter (fun item => pdh_instance_matches (ci_name item) process_id luid_high luid_low).

Lemma find_counter_seen pid hi lo items b out :
  find_counter pid hi lo items (Some b) = inr out -> matching pid hi lo items = [] /\ out = Some b.
Proof.
  induction items as [|item items IH]; cbn -[bool_decide]; [by intros [= <-]|].
  destruct (pdh_instance_matches _ _ _ _); cbn -[bool_decide]; [|done].
  rewrite bool_decide_eq_true_2 by done. by rewrite orb_true_r.
Qed.

Lemma find_counter_unique pid hi lo items b :
  find_counter pid hi lo items None = inr (Some b) ->
  exists item, matching pid hi lo items = [item] /\ ci_status_valid item = true /\ 0 <= b /\ b = ci_first_value item.
Proof.
  induction items as [|item items IH]; cbn -[bool_decide]; [done|].
  destruct (pdh_instance_matches _ _ _ _); cbn -[bool_decide]; [|done]. rewrite bool_decide_eq_false_2 by (by intros []).
  destruct (ci_status_valid item) eqn:Hs; cbn; [|done]. destruct (Z.ltb_spec (ci_first_value item) 0); cbn; [done|].
  intros [Hm [= ->]]%find_counter_seen. exists item. by rewrite Hm.
Qed.

Lemma match_device_spec expected devices matched :
  match_device expected devices matched = inr true ->
  List.length (filter (fun d => d = Some expected) devices) = (if matched then 0 else 1)%nat.
Proof.
  revert matched. induction devices as [|[luid|] devices IH]; intros matched; cbn -[bool_decide]; [by destruct matched| |].
  - case_bool_decide as Hl.
    + subst luid. rewrite decide_True by done. destruct matched; [done|]. by intros Hm%IH; cbn; f_equal.
    + rewrite decide_False by congruence. apply IH.
  - apply IH.
Qed.

(** An available process sample is of the process and adapter asked for, with
    a valid clock; its bytes are those of the one counter instance that names
    both, or, when the counters have no answer, what NVML reports for the one
    device with that LUID, its two engines agreeing. *)
Theorem process_sample_identified pdh nvml pid hi lo :
  let s := sample_process_device_memory pdh nvml pid hi lo in
  pds_available s = true ->
  pid <> 0 /\ pds_process_id s = pid /\ pds_adapter_luid_high s = hi /\ pds_adapter_luid_low s = lo /\
  pds_captured_monotonic_milliseconds s <> 0 /\
  (pds_source s = "wddm-process" /\
   (exists item, matching pid hi lo (pdh_items pdh) = [item] /\ ci_status_valid item = true /\
                 0 <= pds_current_bytes s /\ pds_current_bytes s = ci_first_value item) \/
   pds_source s = "nvml-process" /\
   (exists count cs, nv_device_count nvml = Some count /\
      List.length (filter (fun d => d = Some (luid_bytes hi lo)) (take (Z.to_nat count) (nv_devices nvml))) = 1%nat /\
      cs <> [] /\ reports_agree cs (pds_current_bytes s))).
Proof.
  cbv zeta. unfold sample_process_device_memory.
  destruct (Z.eqb_spec pid 0) as [|Hpid]; [done|]. cbv zeta.
  destruct (pds_available (sample_wddm_process_memory pdh pid hi lo)) eqn:Hw.
  - intros _. revert Hw. unfold sample_wddm_process_memory. cbv zeta.
    do 4 (match goal with |- pds_available (if ?b then _ else _) = true -> _ => destruct b; [done|] end).
    destruct (find_counter _ _ _ _ _) as [|[b|]] eqn:E; [done| |done].
    destruct (Z.eqb_spec (pdh_clock pdh) 0); [done|]. intros _. cbn. apply find_counter_unique in E. naive_solver.
  - clear Hw. destruct (nv_module nvml); [|done]. destruct (nv_contract nvml); [|done].
    destruct (nv_device_count nvml) as [count|]; [|done]. cbn [negb].
    destruct ((count =? 0) || (64 <? count)); [done|].
    destruct (match_device _ _ _) as [|[]] eqn:Ed; [done| |done]. apply match_device_spec in Ed.
    destruct (collect (nv_compute nvml) pid _) as [compute|]; [|done].
    destruct (collect (nv_graphics nvml) pid _) as [graphics|]; [|done].
    destruct (Z.eqb_spec (nv_clock nvml) 0); [done|]. intros Ha.
    destruct (proj1 (process_reports_reconcile pid hi lo (nv_clock nvml) (compute ++ graphics) _) (conj Ha eq_refl))
      as (_ & _ & Hne & Hagree).
    revert Ha Hagree. unfold reconcile_process_device_memory_candidates.
    destruct ((pid =? 0) || (nv_clock nvml =? 0)); [done|]. destruct (compute ++ graphics) as [|c cs] eqn:Ec; [done|].
    destruct (reconcile_loop _ _ _) as [|[b|]]; [done| |done]. cbn. intros _ Hagree.
    split_and!; try done. right. split; [done|]. exists count, (c :: cs). done.
Qed.

End WindowsEvidence.
