(* ===== verification/C2Supervisor.v ===== *)
(** * The C2 supervisor

    [tools/prism-c2-supervisor/main.cpp] with
    [validation/c2_case_policy.cpp]: the program that runs one supervised
    case.  It is where the components meet: the samplers ([WindowsEvidence],
    [GpuTelemetry], [HostAdmission]) feed the requests, the session
    ([AdmissionSession]) admits and supervises the worker, the receipt
    ([C2Receipt]) is filled from what was captured, hashed before and after the
    cleanup and published through [AtomicFile].

    The program is a function of a record of everything it observes: the
    answers of the operating system and the callbacks the native runner makes
    with its result.  Its result is the exit code, the session after its
    destruction and the file system. *)

From Stdlib Require Import Ascii String.
From stdpp Require Import gmap strings.
From S2P Require Import Prelude MemoryCap HostAdmission GpuTelemetry SupervisorAdmission PreAdmission PostAdmission.
From S2P Require Import AdmissionToken Watchdog GpuLease NativeWorker AdmissionSession NativeLaunch.
From S2P Require Import Sha256 FlatJson AtomicFile C2Receipt WindowsEvidence.
Import HostAdmission GpuTelemetry SupervisorAdmission PreAdmission PostAdmission AdmissionTokens Watchdog.
Import NativeWorker AdmissionSession AtomicFile C2Receipt WindowsEvidence.

Open Scope string_scope.
Open Scope list_scope.
Open Scope Z_scope.

Module C2Supervisor.

(** ** Options *)

Definition kWorkerTimeoutMilliseconds : Z := 10000.
Definition kCleanupWddmToleranceBytes : Z := Z.shiftl 16 20.

Record Options := mkOptions {
  op_worker : string;
  op_output_root : string;
  op_case_name : string;
  op_workflow_run_id : string;
  op_authorization_id : string;
  op_gpu_uuid : string;
  op_adapter_index : Z;
  op_payload_bytes : Z;
}.

Definition parse_integer (range : Range) (text : string) : option Z :=
  if str_empty text then None
  else match from_chars range (list_ascii_of_string text) with
       | Some (x, []) => Some x
       | _ => None
       end.

(** The loop over pairs of arguments; [emplace] refuses a name seen before. *)
Fixpoint collect_fields (argv : list string) (fields : gmap string string) : option (gmap string string) :=
  match argv with
  | name :: value :: rest =>
      if negb (String.prefix "--" name) || bool_decide (is_Some (fields !! name)) then None
      else collect_fields rest (<[name := value]> fields)
  | _ => Some fields
  end.

Definition option_names : list string :=
  ["--worker"; "--output-root"; "--case"; "--workflow-run-id"; "--authorization-id"; "--gpu-uuid"; "--adapter-index";
   "--payload-bytes"].

(** The characters [find_first_not_of] allows. *)
Definition authorization_chars : list ascii :=
  list_ascii_of_string "ABCDEFGHIJKLMNOPQRSTUVWXYZabcdefghijklmnopqrstuvwxyz0123456789_.:-".

Definition authorization_valid (id : string) : bool :=
  negb (str_empty id) && Nat.leb (String.length id) 128 &&
  all_chars (fun ch => existsb (Ascii.eqb ch) authorization_chars) id.

(** The loop from index 4 to 39. *)
Fixpoint uuid_loop (index : nat) (l : list ascii) : bool :=
  match l with
  | [] => true
  | ch :: l =>
      let separator := Nat.eqb index 12 || Nat.eqb index 17 || Nat.eqb index 22 || Nat.eqb index 27 in
      (if separator then Ascii.eqb ch "-" else in_range 48 57 ch || in_range 97 102 ch) && uuid_loop (S index) l
  end.

Definition gpu_uuid_valid (uuid : string) : bool :=
  Nat.eqb (String.length uuid) 40 && String.prefix "GPU-" uuid && uuid_loop 4 (drop 4 (list_ascii_of_string uuid)).

Definition case_names : list string :=
  ["success"; "post-context-telemetry-loss"; "heartbeat-loss"; "watchdog-cancel"].

(** [argv] is the argument vector without the program's own name. *)
Definition parse_options (argv : list string) : option Options :=
  if negb (Nat.eqb (List.length argv) 16) then None
  else
  fields ← collect_fields argv ∅;
  if negb (Nat.eqb (size fields) 8) || negb (forallb (fun name => bool_decide (is_Some (fields !! name))) option_names)
  then None
  else
  let field name := default EmptyString (fields !! name) in
  adapter_index ← parse_integer u32_range (field "--adapter-index");
  if negb (adapter_index <? 64) then None
  else
  payload_bytes ← parse_integer u64_range (field "--payload-bytes");
  if negb ((payload_bytes <>z 0) && (payload_bytes <=? kC2MaximumPayloadBytes) &&
           negb (str_empty (field "--workflow-run-id")) && Nat.leb (String.length (field "--workflow-run-id")) 128 &&
           authorization_valid (field "--authorization-id") && gpu_uuid_valid (field "--gpu-uuid") &&
           one_of (field "--case") case_names)
  then None
  else Some (mkOptions (field "--worker") (field "--output-root") (field "--case") (field "--workflow-run-id")
               (field "--authorization-id") (field "--gpu-uuid") adapter_index payload_bytes).

(** ** Identities *)

(** [std::from_chars] in base 16 on two characters. *)
Definition hex_pair (a b : ascii) : option Z :=
  high ← digit_value 16 (char_code a);
  Some (match digit_value 16 (char_code b) with Some low => 16 * high + low | None => high end).

Fixpoint hex_pairs (l : list ascii) : option (list Z) :=
  match l with
  | a :: b :: rest => byte ← hex_pair a b; bytes ← hex_pairs rest; Some (byte :: bytes)
  | _ => Some []
  end.

Definition digest (value : string) : list Z :=
  match Sha256.sha256_text value with
  | None => zero_digest
  | Some hexadecimal =>
      if negb (Nat.eqb (String.length hexadecimal) 64) then zero_digest
      else default zero_digest (hex_pairs (list_ascii_of_string hexadecimal))
  end.

(** The two identities the build defines. *)
Record BuildIdentity := mkBuild {
  PRISMINFER_C2_REVIEWED_SHA : string;
  PRISMINFER_C2_SOURCE_TREE_SHA : string;
}.

Definition gpu_sample (wddm : WddmMemorySample) : PreContextGpuSample := {|
  pcg_available := wm_available wddm;
  pcg_adapter_identity_available := wm_available wddm;
  pcg_adapter_luid_high := wm_adapter_luid_high wddm;
  pcg_adapter_luid_low := wm_adapter_luid_low wddm;
  pcg_captured_monotonic_milliseconds := wm_captured_monotonic_milliseconds wddm;
  pcg_physical_or_reportable_local_bytes := wm_local_budget_bytes wddm;
  pcg_dxgi_local_budget_bytes := wm_local_budget_bytes wddm;
  pcg_dxgi_local_current_usage_bytes := wm_local_current_usage_bytes wddm |}.

Definition predicted (bytes : Z) (provenance : PredictionProvenance) : PredictedBytes := mkPredicted (Some bytes) provenance.

Definition make_cell (build : BuildIdentity) (options : Options) (wddm : WddmMemorySample) (worker_sha256 : string) : AdmissionCellIdentity := {|
  cell_run_sequence := 1;
  cell_run_contract_hash := digest "prisminfer-c2-synthetic-contract-v1";
  cell_threshold_registry_hash := digest
    "prisminfer-t100-t105-v2:c2-max-payload=67108864:worker=10000ms:cleanup-wddm-positive-delta=16777216";
  cell_hardware_identity_hash := digest (String.concat EmptyString
    [print_integer (wm_adapter_luid_high wddm); ":"; print_integer (wm_adapter_luid_low wddm); ":";
     wm_adapter_description wddm]);
  cell_runtime_identity_hash := digest (String.concat EmptyString
    [PRISMINFER_C2_REVIEWED_SHA build; ":"; PRISMINFER_C2_SOURCE_TREE_SHA build]);
  cell_artifact_identity_hash := digest worker_sha256;
  cell_service_profile_hash := digest (String.concat EmptyString
    [op_case_name options; ":"; print_integer (op_payload_bytes options); ":";
     print_integer kWorkerTimeoutMilliseconds]) |}.

(** ** Requests *)

(** [PreRequestSampling], answered: the thermal and host samplers, the space
    available on the output volume ([None] on error) and the clock after them. *)
Record PreSampling := mkPreSampling {
  sp_thermal : GpuTelemetry.NvmlDevice;
  sp_host : WindowsHost;
  sp_storage : option Z;
  sp_clock : Z;
}.

Definition c2_host_request : HostAdmissionRequest :=
  mkHostRequest (Z.shiftl 512 20) (Z.shiftl 512 20) (Z.shiftl 128 20) (Z.shiftl 128 20) 0 0 0 0 0 true.

Definition make_pre_request (options : Options) (wddm : WddmMemorySample) (cell : AdmissionCellIdentity)
    (sampling : PreSampling) : PreContextAdmissionRequest := {|
  prq_policy_ceiling_bytes := 17179869184;
  prq_requested_tier_bytes := 2 * kGiB;
  prq_context_tokens := 1;
  prq_run_deadline_milliseconds := 60000;
  prq_evaluation_monotonic_milliseconds := sp_clock sampling;
  prq_exclusive_gpu_lease_held := false;
  prq_competing_gpu_work_detected := false;
  prq_timing := default_SupervisorTimingPolicy;
  prq_predicted_gpu := mkFootprint (predicted (Z.shiftl 512 20) PinnedRuntimeEstimate)
    (predicted (op_payload_bytes options) PinnedRuntimeEstimate) (predicted 0 ExactZeroNotApplicable)
    (predicted 0 ExactZeroNotApplicable) (predicted 0 ExactZeroNotApplicable) (predicted 0 ExactZeroNotApplicable);
  prq_gpu := gpu_sample wddm;
  prq_thermal := sample_nvml_gpu_thermal (sp_thermal sampling) (op_gpu_uuid options);
  prq_storage := match sp_storage sampling with
                 | None => mkStorage false 0 0 0
                 | Some available => mkStorage true available (1 * kGiB) (Z.shiftl 4 20)
                 end;
  prq_host := sample_host_telemetry (sp_host sampling);
  prq_host_policy := default_host_reserve_policy EvidencePromotable;
  prq_host_request := c2_host_request;
  prq_cell := cell |}.

(** What the samplers of one live call see. *)
Record LiveAnswers := mkLiveAnswers {
  lv_dxgi : DxgiAnswers;
  lv_thermal : GpuTelemetry.NvmlDevice;
  lv_host : WindowsHost;
  lv_pdh : PdhAnswers;
  lv_nvml : NvmlAnswers;
}.

Definition owned_by (process_id : Z) : OwnedGpuMemoryEvidence :=
  {| default_OwnedGpuMemoryEvidence with og_process_id := process_id |}.

Definition default_PreContextGpuSample : PreContextGpuSample := mkGpuSample false false 0 0 0 0 0 0.
Definition default_HostReservePolicy : HostReservePolicy := mkReservePolicy DevelopmentNonPromotable 0 0 0 0 0.
Definition default_HostAdmissionRequest : HostAdmissionRequest := mkHostRequest 0 0 0 0 0 0 0 0 0 false.

Definition default_PostContextAdmissionRequest : PostContextAdmissionRequest :=
  mkPostRequest None 17179869184 0 0 default_SupervisorTimingPolicy default_PreContextGpuSample default_GpuThermalSample
    default_OwnedGpuMemoryEvidence default_HostTelemetrySample default_HostReservePolicy default_HostAdmissionRequest
    default_AdmissionCellIdentity.

Definition default_SupervisorWatchdogSample : SupervisorWatchdogSample :=
  mkWatchdogSample 0 0 0 false false default_PreContextGpuSample default_OwnedGpuMemoryEvidence default_GpuThermalSample
    default_HostTelemetrySample default_HostReservePolicy default_HostAdmissionRequest.

Definition make_post_request (options : Options) (cell : AdmissionCellIdentity) (host_policy : HostReservePolicy)
    (host_request : HostAdmissionRequest) (process_id : Z) (lose_telemetry : bool) (answers : LiveAnswers) :
    PostContextAdmissionRequest :=
  let gpu := gpu_sample (sample_wddm_memory (lv_dxgi answers) (op_adapter_index options)) in
  {| default_PostContextAdmissionRequest with
     poq_requested_tier_bytes := 2 * kGiB;
     poq_cell := cell;
     poq_gpu := if lose_telemetry then {| gpu with pcg_available := false |} else gpu;
     poq_thermal := sample_nvml_gpu_thermal (lv_thermal answers) (op_gpu_uuid options);
     poq_host := sample_host_telemetry (lv_host answers);
     poq_host_policy := host_policy;
     poq_host_request := host_request;
     poq_owned_gpu := owned_by process_id |}.

Definition make_watchdog_sample (options : Options) (host_policy : HostReservePolicy)
    (host_request : HostAdmissionRequest) (process_id : Z) (force_cancel : bool) (answers : LiveAnswers) :
    SupervisorWatchdogSample :=
  let thermal := sample_nvml_gpu_thermal (lv_thermal answers) (op_gpu_uuid options) in
  {| default_SupervisorWatchdogSample with
     sws_gpu := gpu_sample (sample_wddm_memory (lv_dxgi answers) (op_adapter_index options));
     sws_thermal := if force_cancel then {| thermal with gts_available := false |} else thermal;
     sws_host := sample_host_telemetry (lv_host answers);
     sws_host_policy := host_policy;
     sws_host_request := host_request;
     sws_owned_gpu := owned_by process_id |}.

Definition require_c2_wddm_process_sample (sample : ProcessDeviceMemorySample) : ProcessDeviceMemorySample :=
  if negb (pds_available sample) || (pds_source sample <>s "wddm-process") then
    let observed_source := if str_empty (pds_source sample) then "unavailable" else pds_source sample in
    {| sample with pds_available := false;
       pds_unavailable_reason := "c2_requires_wddm_process_source:" +:+ observed_source |}
  else sample.

(** ** Live evidence

    One bounded evidence call runs two closures, the sampler and the process
    sampler, each of which answers an empty value once a stop was requested.
    The call is joined before it returns, so what was captured is visible to
    the program; its answer reaches the session only when it was in time. *)

Record LiveCall := mkLiveCall {
  lc_in_time : bool;
  lc_sample_stopped : bool;
  lc_process_stopped : bool;
  lc_answers : LiveAnswers;
}.

Record LiveEvidenceCapture := mkCapture {
  cap_post : option PostContextAdmissionRequest;
  cap_watchdog : option SupervisorWatchdogSample;
  cap_first_process : option ProcessDeviceMemorySample;
  cap_process : option ProcessDeviceMemorySample;
  cap_process_peak_bytes : Z;
}.

Definition no_capture : LiveEvidenceCapture := mkCapture None None None None 0.

(** The callbacks of the runner; the two that gather evidence carry their call. *)
Inductive C2Event :=
| CBind (identity : NativeWorkerContainmentIdentity)
| CContextReady (ctx : NativeWorkerContextEvidence) (call : LiveCall) (evaluated_at admission_at : Z)
| CTokenConsumed (token_id now : Z)
| CHeartbeat (now : Z) (evidence : NativeWorkerHeartbeatEvidence) (call : LiveCall) (evaluated_at admission_at : Z)
| CCancelRequested (now : Z)
| CCancelAck (now : Z).

(** What the closures close over. *)
Record RunInputs := mkRunInputs {
  ri_options : Options;
  ri_cell : AdmissionCellIdentity;
  ri_host_policy : HostReservePolicy;
  ri_host_request : HostAdmissionRequest;
}.

Definition lose_post_context (options : Options) : bool := op_case_name options =s "post-context-telemetry-loss".
Definition force_watchdog_cancel (options : Options) : bool := op_case_name options =s "watchdog-cancel".

Definition process_id_of (s : Session) : Z :=
  match ss_worker s with Some worker => nwc_root_process_id worker | None => 0 end.

(** The first closure. *)
Definition post_closure (ri : RunInputs) (call : LiveCall) (pid : Z) (cap : LiveEvidenceCapture) :
    PostContextAdmissionRequest * LiveEvidenceCapture :=
  if lc_sample_stopped call then (default_PostContextAdmissionRequest, cap)
  else
  let sample := make_post_request (ri_options ri) (ri_cell ri) (ri_host_policy ri) (ri_host_request ri) pid
                  (lose_post_context (ri_options ri)) (lc_answers call) in
  (sample, {| cap with cap_post := Some sample |}).

(** The second closure. *)
Definition watchdog_closure (ri : RunInputs) (call : LiveCall) (pid : Z) (cap : LiveEvidenceCapture) :
    SupervisorWatchdogSample * LiveEvidenceCapture :=
  if lc_sample_stopped call then (default_SupervisorWatchdogSample, cap)
  else
  let sample := make_watchdog_sample (ri_options ri) (ri_host_policy ri) (ri_host_request ri) pid
                  (force_watchdog_cancel (ri_options ri)) (lc_answers call) in
  (sample, {| cap with cap_watchdog := Some sample |}).

(** The third closure. *)
Definition process_closure (call : LiveCall) (pid luid_high luid_low : Z) (cap : LiveEvidenceCapture) :
    ProcessDeviceMemorySample * LiveEvidenceCapture :=
  if lc_process_stopped call then (default_ProcessDeviceMemorySample, cap)
  else
  let sample := require_c2_wddm_process_sample
    (sample_process_device_memory (lv_pdh (lc_answers call)) (lv_nvml (lc_answers call)) pid luid_high luid_low) in
  (sample, {| cap with
     cap_first_process := match cap_first_process cap with Some first => Some first | None => Some sample end;
     cap_process := Some sample;
     cap_process_peak_bytes := Z.max (cap_process_peak_bytes cap) (pds_current_bytes sample) |}).

Definition in_time {A} (call : LiveCall) (answer : A) : option A := if lc_in_time call then Some answer else None.

(** One callback, made to the session in state [s]: the callback with its
    evidence, and what the closures captured.  The session gathers evidence only
    when it knows a worker and, for a heartbeat, holds a post-context receipt. *)
Definition live_event (ri : RunInputs) (e : C2Event) (s : Session) (cap : LiveEvidenceCapture) :
    ProtocolEvent * LiveEvidenceCapture :=
  let pid := process_id_of s in
  let high := ss_adapter_luid_high s in
  let low := ss_adapter_luid_low s in
  match e with
  | CBind identity => (EvBind identity, cap)
  | CContextReady ctx call evaluated_at admission_at =>
      if negb (has (ss_worker s)) then (EvContextReady ctx None evaluated_at admission_at, cap)
      else
      let (request, cap) := post_closure ri call pid cap in
      let (independent, cap) := process_closure call pid high low cap in
      (EvContextReady ctx (in_time call (mkLivePost request independent)) evaluated_at admission_at, cap)
  | CTokenConsumed token_id now => (EvTokenConsumed token_id now, cap)
  | CHeartbeat now evidence call evaluated_at admission_at =>
      if negb (has (ss_worker s)) || negb (has (ss_post_receipt s))
      then (EvHeartbeat now evidence None evaluated_at admission_at, cap)
      else
      let (sample, cap) := watchdog_closure ri call pid cap in
      let (independent, cap) := process_closure call pid high low cap in
      (EvHeartbeat now evidence (in_time call (mkLiveWatchdog sample independent)) evaluated_at admission_at, cap)
  | CCancelRequested now => (EvCancelRequested now, cap)
  | CCancelAck now => (EvCancelAck now, cap)
  end.

(** The callbacks of a whole run, each made to the session the ones before it
    left. *)
Fixpoint live_events (rc : RunContext) (ri : RunInputs) (events : list C2Event) (s : Session)
    (cap : LiveEvidenceCapture) : list ProtocolEvent * LiveEvidenceCapture :=
  match events with
  | [] => ([], cap)
  | e :: events =>
      let (event, cap) := live_event ri e s cap in
      let (rest, cap) := live_events rc ri events (protocol_step rc event s).2 cap in
      (event :: rest, cap)
  end.

Definition worker_arguments (options : Options) (wddm : WddmMemorySample) : list WideString :=
  map wide ["--case"; op_case_name options; "--device-index"; print_integer (op_adapter_index options);
            "--luid-high"; print_integer (wm_adapter_luid_high wddm); "--luid-low";
            print_integer (wm_adapter_luid_low wddm); "--gpu-uuid"; op_gpu_uuid options; "--payload-bytes";
            print_integer (op_payload_bytes options)].

Definition make_worker_request (worker : WideString) (options : Options) (wddm : WddmMemorySample) : NativeWorkerRequest :=
  let request := default_NativeWorkerRequest in
  {| request with
     nwq_executable_path := worker;
     nwq_arguments := worker_arguments options wddm;
     nwq_timeout_ms := kWorkerTimeoutMilliseconds;
     nwq_max_output_bytes := 1 * 1024 * 1024;
     nwq_max_active_processes := 1;
     nwq_max_job_memory_bytes := 1 * kGiB;
     nwq_require_gpu_protocol_evidence := true;
     nwq_expected_post_admission_payload_bytes := op_payload_bytes options;
     nwq_maximum_post_admission_payload_bytes := kC2MaximumPayloadBytes |}.

Definition kApprovalIdentity : string := "c2-synthetic-worker-v1".

(** [parent] is [options.worker.parent_path()]. *)
Definition make_catalog (worker parent : WideString) (worker_sha256 : string) : NativeWorkerTrustCatalog :=
  [mkExecutableApproval worker parent worker_sha256 kApprovalIdentity].

(** [run_contained_worker] with the three closures. *)
Definition run_worker (request : NativeWorkerRequest) (ri : RunInputs) (events : list C2Event)
    (result : NativeWorkerResult) (s : Session) : NativeWorkerResult * LiveEvidenceCapture * Session :=
  match ss_pre_receipt s, in_state s PreContextAdmitted with
  | Some pre, true =>
      let rc := mkRunContext request (wrap32 (stp_maximum_guard_age_milliseconds (prr_timing pre))) 250 in
      let (events, cap) := live_events rc ri events s no_capture in
      let (result, s) := run_contained_worker request 250 true events result s in
      (result, cap, s)
  | _, _ => let (result, s) := run_contained_worker request 250 true [] result s in (result, no_capture, s)
  end.

(** ** The receipt of a run *)

(** Everything observed before the receipt is filled. *)
Record Observed := mkObserved {
  ob_options : Options;
  ob_build : BuildIdentity;
  ob_worker_sha256 : string;
  ob_lease_id : string;
  ob_pre_wddm : WddmMemorySample;
  ob_pre : PreContextAdmissionRequest;
  ob_capture : LiveEvidenceCapture;
  ob_result : NativeWorkerResult;
  ob_final_wddm : WddmMemorySample;
  ob_final_host : HostTelemetrySample;
  ob_final_thermal : GpuThermalSample;
}.

Definition cleanup_wddm_positive_delta (pre_wddm final_wddm : WddmMemorySample) : Z :=
  if wm_local_current_usage_bytes pre_wddm <? wm_local_current_usage_bytes final_wddm
  then wm_local_current_usage_bytes final_wddm -64 wm_local_current_usage_bytes pre_wddm else 0.

Definition device_reconciled (o : Observed) : bool :=
  nwr_worker_exit_observed (ob_result o) && nwr_job_tree_empty (ob_result o) && wm_available (ob_final_wddm o) &&
  (wm_adapter_luid_high (ob_final_wddm o) =? wm_adapter_luid_high (ob_pre_wddm o)) &&
  (wm_adapter_luid_low (ob_final_wddm o) =? wm_adapter_luid_low (ob_pre_wddm o)) &&
  hts_available (ob_final_host o) && gts_available (ob_final_thermal o) &&
  (cleanup_wddm_positive_delta (ob_pre_wddm o) (ob_final_wddm o) <=? kCleanupWddmToleranceBytes).

Definition bind_last_good (receipt : C2ClearanceReceipt) (process_peak_bytes : Z) (stage : string)
    (gpu : PreContextGpuSample) (host : HostTelemetrySample) (thermal : GpuThermalSample)
    (process : option ProcessDeviceMemorySample) : C2ClearanceReceipt :=
  let receipt := {| receipt with
    cr_last_good_stage := stage;
    cr_last_wddm_available := pcg_available gpu;
    cr_last_host_available := hts_available host;
    cr_last_thermal_available := gts_available thermal;
    cr_last_sample_monotonic_milliseconds := pcg_captured_monotonic_milliseconds gpu;
    cr_last_sample_wddm_local_budget_bytes := pcg_dxgi_local_budget_bytes gpu;
    cr_last_sample_wddm_local_usage_bytes := pcg_dxgi_local_current_usage_bytes gpu;
    cr_last_host_sample_monotonic_milliseconds := hts_captured_monotonic_milliseconds host;
    cr_last_host_memory_available_bytes := hts_system_memory_available_bytes host;
    cr_last_host_commit_available_bytes := hts_system_commit_available_bytes host;
    cr_last_thermal_sample_monotonic_milliseconds := gts_captured_monotonic_milliseconds thermal;
    cr_last_gpu_temperature_celsius := gts_current_celsius thermal;
    cr_last_gpu_slowdown_celsius := default 0 (gts_reported_slowdown_celsius thermal);
    cr_last_gpu_thermal_throttling := gts_thermal_throttling thermal;
    cr_last_gpu_power_brake_slowdown := gts_power_brake_slowdown thermal |} in
  match process with
  | Some process => {| receipt with
      cr_last_process_wddm_available := pds_available process;
      cr_process_wddm_source := pds_source process;
      cr_process_wddm_sample_monotonic_milliseconds := pds_captured_monotonic_milliseconds process;
      cr_process_wddm_current_bytes := pds_current_bytes process;
      cr_process_wddm_peak_bytes := process_peak_bytes |}
  | None => {| receipt with cr_process_wddm_source := "not-applicable-pre-context" |}
  end.

(** Which captured sample is recorded as the last good one. *)
Definition record_last_good (o : Observed) (receipt : C2ClearanceReceipt) : C2ClearanceReceipt :=
  let cap := ob_capture o in
  let pre := ob_pre o in
  let case := op_case_name (ob_options o) in
  let bind := bind_last_good receipt (cap_process_peak_bytes cap) in
  let at_pre := bind "pre-context" (prq_gpu pre) (prq_host pre) (prq_thermal pre) None in
  let at_post post := bind "post-context" (poq_gpu post) (poq_host post) (poq_thermal post) (cap_first_process cap) in
  if case =s "post-context-telemetry-loss" then at_pre
  else match case =s "watchdog-cancel", cap_post cap with
  | true, Some post => at_post post
  | _, _ =>
      match cap_watchdog cap with
      | Some watchdog => bind "watchdog" (sws_gpu watchdog) (sws_host watchdog) (sws_thermal watchdog) (cap_process cap)
      | None => match cap_post cap with Some post => at_post post | None => at_pre end
      end
  end.

Definition trigger_material (last_process : option ProcessDeviceMemorySample) (stage : string)
    (gpu : PreContextGpuSample) (host : HostTelemetrySample) (thermal : GpuThermalSample) : string :=
  String.concat EmptyString ([
    "c2-trigger-v1|stage="; stage;
    "|wddm_available="; print_bool (pcg_available gpu);
    "|wddm_ms="; print_integer (pcg_captured_monotonic_milliseconds gpu);
    "|wddm_budget="; print_integer (pcg_dxgi_local_budget_bytes gpu);
    "|wddm_usage="; print_integer (pcg_dxgi_local_current_usage_bytes gpu);
    "|host_available="; print_bool (hts_available host);
    "|host_ms="; print_integer (hts_captured_monotonic_milliseconds host);
    "|host_memory="; print_integer (hts_system_memory_available_bytes host);
    "|host_commit="; print_integer (hts_system_commit_available_bytes host);
    "|thermal_available="; print_bool (gts_available thermal);
    "|thermal_reason="; gpu_thermal_unavailable_reason_name (gts_unavailable_reason thermal);
    "|thermal_ms="; print_integer (gts_captured_monotonic_milliseconds thermal);
    "|temperature="; print_integer (gts_current_celsius thermal);
    "|slowdown="; print_integer (default 0 (gts_reported_slowdown_celsius thermal));
    "|thermal_throttling="; print_bool (gts_thermal_throttling thermal);
    "|power_brake="; print_bool (gts_power_brake_slowdown thermal)] ++
    match last_process with
    | Some process => [
        "|process_available="; print_bool (pds_available process);
        "|process_source="; pds_source process;
        "|process_ms="; print_integer (pds_captured_monotonic_milliseconds process);
        "|process_current="; print_integer (pds_current_bytes process)]
    | None => []
    end).

Definition terminal_trigger (o : Observed) : string :=
  let cap := ob_capture o in
  let case := op_case_name (ob_options o) in
  let material := trigger_material (cap_process cap) in
  match case =s "watchdog-cancel", cap_watchdog cap with
  | true, Some watchdog => material "watchdog" (sws_gpu watchdog) (sws_host watchdog) (sws_thermal watchdog)
  | _, _ =>
      match case =s "post-context-telemetry-loss", cap_post cap with
      | true, Some post => material "post-context" (poq_gpu post) (poq_host post) (poq_thermal post)
      | _, _ => if case =s "heartbeat-loss" then "c2-trigger-v1|stage=heartbeat-timeout|sample=missing"
                else "c2-trigger-v1|stage=none"
      end
  end.

(** The receipt before its digests and the cleanup; [ob_result] already carries
    the reconciliation of the output file. *)
Definition fill_receipt (o : Observed) : C2ClearanceReceipt :=
  let options := ob_options o in
  let result := ob_result o in
  let pre := ob_pre o in
  let heartbeat := nwr_last_heartbeat_evidence result in
  let receipt := new_receipt in
  let receipt := {| receipt with
    cr_repository := "Gravelaw/prisminfer";
    cr_reviewed_sha := PRISMINFER_C2_REVIEWED_SHA (ob_build o);
    cr_source_tree_sha := PRISMINFER_C2_SOURCE_TREE_SHA (ob_build o);
    cr_worker_sha256 := ob_worker_sha256 o;
    cr_worker_approval_identity := kApprovalIdentity;
    cr_workflow_run_id := op_workflow_run_id options;
    cr_authorization_id := op_authorization_id options;
    cr_gpu_uuid := op_gpu_uuid options;
    cr_case_name := op_case_name options;
    cr_status := if nwr_ok result then "candidate-complete" else "rejected";
    cr_failure_reason := nwr_failure_reason result;
    cr_cleanup_status := "pending";
    cr_lease_id := ob_lease_id o;
    cr_job_identity := nwr_job_identity result;
    cr_adapter_luid_high := wm_adapter_luid_high (ob_pre_wddm o);
    cr_adapter_luid_low := wm_adapter_luid_low (ob_pre_wddm o);
    cr_adapter_index := op_adapter_index options;
    cr_worker_timeout_milliseconds := kWorkerTimeoutMilliseconds;
    cr_post_admission_payload_bytes :=
      if nhe_available heartbeat then nhe_post_admission_payload_bytes heartbeat else 0;
    cr_context_cuda_free_bytes := nce_cuda_mem_info_free_bytes (nwr_context_evidence result);
    cr_context_cuda_total_bytes := nce_cuda_mem_info_total_bytes (nwr_context_evidence result);
    cr_last_heartbeat_cuda_free_bytes := nhe_cuda_mem_info_free_bytes heartbeat;
    cr_last_heartbeat_cuda_total_bytes := nhe_cuda_mem_info_total_bytes heartbeat |} in
  let receipt := record_last_good o receipt in
  {| receipt with
    cr_terminal_trigger_canonical := terminal_trigger o;
    cr_pre_wddm_local_usage_bytes := wm_local_current_usage_bytes (ob_pre_wddm o);
    cr_final_wddm_local_usage_bytes := wm_local_current_usage_bytes (ob_final_wddm o);
    cr_cleanup_wddm_positive_delta_bytes := cleanup_wddm_positive_delta (ob_pre_wddm o) (ob_final_wddm o);
    cr_cleanup_wddm_tolerance_bytes := kCleanupWddmToleranceBytes;
    cr_pre_host_memory_available_bytes := hts_system_memory_available_bytes (prq_host pre);
    cr_final_host_memory_available_bytes := hts_system_memory_available_bytes (ob_final_host o);
    cr_pre_host_commit_available_bytes := hts_system_commit_available_bytes (prq_host pre);
    cr_final_host_commit_available_bytes := hts_system_commit_available_bytes (ob_final_host o);
    cr_pre_gpu_temperature_celsius := gts_current_celsius (prq_thermal pre);
    cr_final_gpu_temperature_celsius := gts_current_celsius (ob_final_thermal o);
    cr_root_process_id := nwr_root_process_id result;
    cr_heartbeat_count := wrap32 (nwr_heartbeat_sequence result);
    cr_context_ready_observed := nce_available (nwr_context_evidence result);
    cr_token_consumed_observed := nwr_token_consumed_observed result;
    cr_worker_exit_observed := nwr_worker_exit_observed result;
    cr_job_tree_empty := nwr_job_tree_empty result;
    cr_job_accounting_reconciled := nwr_job_accounting_reconciled result;
    cr_device_resources_reconciled := device_reconciled o;
    cr_artifact_handles_closed := nwr_artifact_handles_closed result;
    cr_temporary_files_reconciled := nwr_temporary_files_reconciled result |}.

(** ** The contract of a case *)

(** [text.find(pattern) != npos] *)
Fixpoint contains (pattern text : list ascii) : bool :=
  bool_decide (take (List.length pattern) text = pattern) ||
  match text with [] => false | _ :: rest => contains pattern rest end.

Definition failed_with (pattern : string) (result : NativeWorkerResult) : bool :=
  negb (nwr_ok result) && contains (list_ascii_of_string pattern) (list_ascii_of_string (nwr_failure_reason result)).

Definition c2_case_result_matches_contract (case_name : string) (result : NativeWorkerResult)
    (cleanup : GpuAdmissionSessionState) (output_removed : bool) : bool :=
  if negb output_removed || negb (nwr_artifact_handles_closed result) || negb (nwr_temporary_files_reconciled result) ||
     negb (nwr_job_accounting_reconciled result)
  then false
  else if case_name =s "success" then nwr_ok result && bool_decide (cleanup = Cleaned)
  else if case_name =s "watchdog-cancel" then failed_with "watchdog_rejected" result && bool_decide (cleanup = Cleaned)
  else if case_name =s "heartbeat-loss" then failed_with "heartbeat_timeout" result && bool_decide (cleanup = Cleaned)
  else if case_name =s "post-context-telemetry-loss"
  then failed_with "admission_rejected" result && bool_decide (cleanup = Quarantined)
  else false.

(** ** The program *)

(** Everything the program observes, in the order it looks. *)
Record World := mkWorld {
  wo_absolute : option WideString;
  wo_output_root : option Path;
  wo_is_directory : bool;
  wo_worker_sha256 : string;
  wo_pre_dxgi : DxgiAnswers;
  wo_lease : GpuLease.NativeLeaseOutcome;
  wo_session_allocated : bool;
  wo_issuer : Z;
  wo_registry : GpuLease.Registry;
  wo_store : ReceiptStore;
  wo_sampling : PreSampling;
  wo_events : list C2Event;
  wo_result : NativeWorkerResult;
  wo_final_dxgi : DxgiAnswers;
  wo_final_host : WindowsHost;
  wo_final_thermal : GpuTelemetry.NvmlDevice;
  wo_output_removed : bool;
  wo_cleanup_clock : Z;
  wo_query : TrustedQuery;
  wo_files : Environment;
  wo_interfere : Fs -> Fs;
  wo_present : Fs -> Path -> FlatJson.ManifestFile;
  wo_fs : Fs;
}.

Record Outcome := mkOutcome {
  oc_exit : Z;
  oc_session : option Session;
  oc_fs : Fs;
}.

Definition receipt_path (root : Path) (case_name : string) : Path := root ++ ["c2-clearance-" +:+ case_name +:+ ".json"].

Definition set_cleanup_status (receipt : C2ClearanceReceipt) (status : string) : C2ClearanceReceipt :=
  {| receipt with cr_cleanup_status := status |}.

Definition set_pre_cleanup (receipt : C2ClearanceReceipt) : C2ClearanceReceipt :=
  {| receipt with cr_pre_cleanup_evidence_sha256 := cr_evidence_bundle_sha256 receipt |}.

(** What the cleanup is told: the two digests are those of the receipt so far. *)
Definition cleanup_evidence (o : Observed) (receipt : C2ClearanceReceipt) : DeviceCleanupEvidence :=
  mkDeviceCleanup (device_reconciled o)
    (if nwr_ok (ob_result o) then "synthetic_c2_candidate_completed" else nwr_failure_reason (ob_result o))
    (cr_last_good_sample_sha256 receipt) (cr_pre_cleanup_evidence_sha256 receipt).

(** From the first hash on; [output_removed] is the local of that name. *)
Definition conclude (w : World) (root : Path) (o : Observed) (output_removed : bool) (s : Session) : Outcome :=
  let case := op_case_name (ob_options o) in
  let result := ob_result o in
  let leave code s fs := mkOutcome code (Some (destroy s)) fs in
  match compute_c2_clearance_evidence_hashes (fill_receipt o) with
  | inl _ => leave 9 s (wo_fs w)
  | inr receipt =>
      let receipt := set_pre_cleanup receipt in
      let (cleanup, s) := finalize_cleanup (cleanup_evidence o receipt) (wo_cleanup_clock w) s in
      let receipt := set_cleanup_status receipt (if bool_decide (cleanup = Cleaned) then "cleaned" else "quarantined") in
      match compute_c2_clearance_evidence_hashes receipt with
      | inl _ => leave 10 s (wo_fs w)
      | inr receipt =>
          let (written, fs) := write_c2_clearance_receipt (wo_query w) (wo_files w) (wo_interfere w) (wo_present w)
                                 (receipt_path root case) receipt (wo_fs w) in
          match written with
          | inl _ => leave 11 s fs
          | inr _ => leave (if c2_case_result_matches_contract case result cleanup output_removed then 0 else 12) s fs
          end
      end
  end.

(** From the acquired session on. *)
Definition supervise (build : BuildIdentity) (w : World) (options : Options) (worker : WideString) (root : Path)
    (pre_wddm : WddmMemorySample) (cell : AdmissionCellIdentity) (s : Session) : Outcome :=
  let lease_id := match ss_lease s with Some lease => GpuLease.lease_id lease | None => EmptyString end in
  let pre := make_pre_request options pre_wddm cell (wo_sampling w) in
  let (pre_decision, s) := admit_pre_context pre s in
  if negb (pad_admitted pre_decision) then mkOutcome 8 (Some (destroy s)) (wo_fs w)
  else
  let request := make_worker_request worker options pre_wddm in
  let '(result, capture, s) := run_worker request (mkRunInputs options cell (prq_host_policy pre) (prq_host_request pre))
                                 (wo_events w) (wo_result w) s in
  let output_removed := str_empty (nwr_output_path result) || wo_output_removed w in
  let result := {| result with
    nwr_temporary_files_reconciled := nwr_temporary_files_reconciled result && output_removed |} in
  conclude w root
    (mkObserved options build (wo_worker_sha256 w) lease_id pre_wddm pre capture result
       (sample_wddm_memory (wo_final_dxgi w) (op_adapter_index options)) (sample_host_telemetry (wo_final_host w))
       (sample_nvml_gpu_thermal (wo_final_thermal w) (op_gpu_uuid options)))
    output_removed s.

Definition main (build : BuildIdentity) (argv : list string) (w : World) : Outcome :=
  let stop code := mkOutcome code None (wo_fs w) in
  match parse_options argv with
  | None => stop 2
  | Some options =>
  match wo_absolute w with
  | None => stop 3
  | Some worker =>
  match wo_output_root w with
  | None => stop 4
  | Some root =>
  if negb (wo_is_directory w) then stop 4
  else
  let worker_sha256 := wo_worker_sha256 w in
  if negb (Nat.eqb (String.length worker_sha256) 64) then stop 5
  else
  let pre_wddm := sample_wddm_memory (wo_pre_dxgi w) (op_adapter_index options) in
  if negb (wm_available pre_wddm) then stop 6
  else
  let cell := make_cell build options pre_wddm worker_sha256 in
  match (acquire_gpu_admission_session (wo_lease w) (wo_session_allocated w) cell (wm_adapter_luid_high pre_wddm) (wm_adapter_luid_low pre_wddm)
           (wo_issuer w) (wo_registry w) (wo_store w)).1.2 with
  | None => stop 7
  | Some s => supervise build w options worker root pre_wddm cell s
  end end end end.

(** ** What the steps of a run leave alone *)

(** The registry of leases and the record of the cleanup stay; nothing becomes
    cleaned. *)
Definition framed (s s' : Session) : Prop :=
  ss_registry s' = ss_registry s /\ ss_terminal_evidence s' = ss_terminal_evidence s /\
  (ss_state s' = Cleaned -> ss_state s = Cleaned).

Lemma framed_refl s : framed s s.
Proof. by split_and!. Qed.

Lemma framed_trans s1 s2 s3 : framed s1 s2 -> framed s2 s3 -> framed s1 s3.
Proof. unfold framed. intros (?&?&?) (?&?&?). split_and!; [congruence..|auto]. Qed.

Lemma bind_framed identity s : framed s (bind_owned_worker identity s).2.
Proof. unfold bind_owned_worker. cbv zeta. by destruct (negb _). Qed.

Lemma admit_pre_framed request s : framed s (admit_pre_context request s).2.
Proof. unfold admit_pre_context. cbv zeta. do 2 (match goal with |- context [if ?b then _ else _] => destruct b end; try done). Qed.

Lemma admit_post_framed request s : framed s (admit_post_context request s).2.
Proof.
  unfold admit_post_context. cbv zeta. destruct (in_state s _), (ss_worker s), (ss_pre_receipt s); try done.
  destruct (_ || _); [done|]. destruct (evaluate_post_context_admission _ _). by destruct (_ || _).
Qed.

Lemma issue_framed now validity s r s' : issue_token now validity s = Some (r, s') -> framed s s'.
Proof.
  unfold issue_token. cbv zeta. destruct (in_state s _), (ss_post_receipt s), (ss_worker s); try (by intros [= <- <-]).
  destruct (_ || _); by intros [= <- <-].
Qed.

Lemma admit_and_issue_framed rc request e a s : framed s (admit_and_issue rc request e a s).2.
Proof.
  unfold admit_and_issue. destruct (_ || _); [done|].
  match goal with |- context [admit_post_context ?r s] => pose proof (admit_post_framed r s) as Hf;
    destruct (admit_post_context r s) as [admitted s1] end. cbn [snd] in Hf.
  destruct (negb _); [done|]. destruct (issue_token a _ s1) as [[[status token] s2]|] eqn:E; [|done].
  apply issue_framed in E. destruct status, token; by apply (framed_trans _ s1).
Qed.

Lemma context_ready_framed rc ctx live e a s : framed s (context_ready_with_evidence rc ctx live e a s).2.
Proof.
  unfold context_ready_with_evidence. destruct (ss_worker s); [|done]. cbv zeta. destruct live; [|done].
  destruct (e =? 0); [done|]. destruct (bind_process_device_memory_evidence _ _ _ _ _ _ _); [|done].
  destruct (nwq_require_gpu_protocol_evidence _); [|apply admit_and_issue_framed].
  destruct (context_evidence_rejected _ _ _ _); [done|]. destruct (ss_pre_receipt s); [|done]. apply admit_and_issue_framed.
Qed.

Lemma token_consumed_framed id now s : framed s (token_consumed id now s).2.
Proof.
  unfold token_consumed. destruct (ss_pending_token s) as [token|]; [|done]. destruct (_ <>z _); [done|].
  unfold consume_token. cbn. unfold in_state. cbn. destruct (bool_decide _), (ss_worker s); try done.
  destruct (consume _ _ _ _ _) as [result ?]. by destruct (negb _).
Qed.

Lemma heartbeat_framed rc now ev live e a s : framed s (heartbeat_with_evidence rc now ev live e a s).2.
Proof.
  unfold heartbeat_with_evidence. destruct (ss_worker s) eqn:Hw, (ss_post_receipt s) eqn:Hr, live; try done.
  destruct (e =? 0); [done|]. cbv zeta. destruct (bind_process_device_memory_evidence _ _ _ _ _ _ _); [|done].
  destruct (_ && _); [done|]. destruct (_ || _); [done|]. unfold evaluate_watchdog. rewrite Hw, Hr.
  destruct (_ || _); [|done]. destruct (_ <>z _); [done|]. by destruct (swd_continue_work _).
Qed.

Lemma advance_framed now a b c s : framed s (advance_cancellation now a b c s).2.
Proof.
  unfold advance_cancellation. cbv zeta. destruct (_ || _); [|done]. destruct (ss_post_receipt s); [|done].
  repeat match goal with |- context [if ?b then _ else _] => destruct b; try done end.
Qed.

Lemma protocol_step_framed rc e s : framed s (protocol_step rc e s).2.
Proof.
  destruct e; cbn [protocol_step].
  - apply bind_framed.
  - match goal with |- context [context_ready_with_evidence ?a ?b ?c ?d ?e ?f] =>
      pose proof (context_ready_framed a b c d e f) as H; destruct (context_ready_with_evidence a b c d e f) end. exact H.
  - apply token_consumed_framed.
  - apply heartbeat_framed.
  - unfold cooperative_cancel_requested. cbn [snd]. by destruct (_ || _).
  - apply advance_framed.
Qed.

Lemma protocol_run_framed rc events s : framed s (protocol_run rc events s).2.
Proof.
  revert s. induction events as [|e events IH]; intros s; cbn; [done|].
  pose proof (protocol_step_framed rc e s) as He. destruct (protocol_step rc e s) as [answer s1].
  specialize (IH s1). destruct (protocol_run rc events s1). cbn in *. by apply (framed_trans _ s1).
Qed.

Lemma record_result_framed result s : framed s (record_worker_result result s).
Proof.
  unfold record_worker_result. cbv zeta.
  repeat match goal with |- context [if ?b then _ else _] => destruct b; try done end.
Qed.

(** What the runner reported about the end of the worker. *)
Definition owned_flags (s : Session) : list bool :=
  [ss_owned_worker_exit_observed s; ss_owned_job_tree_empty s; ss_owned_job_accounting_reconciled s;
   ss_owned_artifact_handles_closed s; ss_owned_temporary_files_reconciled s].

Definition result_flags (result : NativeWorkerResult) : list bool :=
  [nwr_worker_exit_observed result; nwr_job_tree_empty result; nwr_job_accounting_reconciled result;
   nwr_artifact_handles_closed result; nwr_temporary_files_reconciled result].

Lemma admit_pre_flags request s : owned_flags (admit_pre_context request s).2 = owned_flags s.
Proof.
  unfold admit_pre_context. cbv zeta.
  do 2 (match goal with |- context [if ?b then _ else _] => destruct b end; try done).
Qed.

Lemma record_result_flags result s : owned_flags (record_worker_result result s) = result_flags result.
Proof.
  unfold record_worker_result. cbv zeta.
  repeat match goal with |- context [if ?b then _ else _] => destruct b; try done end.
Qed.

Lemma run_worker_spec request ri events result s :
  owned_flags s = replicate 5 false ->
  let '(r, _, s') := run_worker request ri events result s in
  framed s s' /\ owned_flags s' = result_flags r /\ (r = result \/ result_flags r = replicate 5 false).
Proof.
  intros Hflags. unfold run_worker, run_contained_worker.
  destruct (ss_pre_receipt s) as [pre|]; [destruct (in_state s PreContextAdmitted)|]; [|exact (conj (framed_refl s) (conj Hflags (or_intror eq_refl)))..].
  set (rc := mkRunContext _ _ _). destruct (live_events rc ri events s no_capture) as [evs cap]. cbn.
  pose proof (protocol_run_framed rc evs s) as Hf. destruct (protocol_run rc evs s) as [answers s1]. split_and!.
  - apply (framed_trans _ s1); [done|apply record_result_framed].
  - apply record_result_flags.
  - by left.
Qed.

(** The evidence [finalize_cleanup] hands on. *)
Definition owned_evidence (evidence : DeviceCleanupEvidence) (s : Session) : SupervisorCleanupEvidence :=
  mkCleanupEvidence (ss_owned_worker_exit_observed s) (ss_owned_job_tree_empty s)
    (ss_owned_job_accounting_reconciled s) (dce_device_resources_reconciled evidence)
    (ss_owned_artifact_handles_closed s) (ss_owned_temporary_files_reconciled s)
    (dce_terminal_reason evidence) (dce_last_good_sample_sha256 evidence) (dce_evidence_bundle_sha256 evidence).

(** A cleanup reports the state it leaves, records nothing but the evidence it
    was given, and gives the adapter back only as [Cleaned]. *)
Lemma finalize_spec evidence now s :
  let '(cleanup, s') := finalize_cleanup evidence now s in
  (cleanup = Cleaned \/ cleanup = Quarantined -> ss_state s' = cleanup) /\
  (ss_state s' = Cleaned -> cleanup = Cleaned \/ ss_state s = Cleaned) /\
  (ss_terminal_evidence s' = ss_terminal_evidence s \/ ss_terminal_evidence s' = Some (owned_evidence evidence s)) /\
  (cleanup <> Cleaned -> ss_registry s' = ss_registry s) /\
  (cleanup = Cleaned -> evidence_complete (owned_evidence evidence s) = true /\ ss_lease s' = None).
Proof.
  unfold finalize_cleanup, begin_cleanup. destruct (now =? 0).
  { split_and!; [by intros [[=]|[=]]|by right|by left|done|intros [=]]. }
  cbv zeta. fold (owned_evidence evidence s).
  destruct (_ && _); cbn [negb].
  { split_and!; [done|intros [=]|by left|done|intros [=]]. }
  set (s1 := {| s with ss_cleanup_started_monotonic_milliseconds := now; ss_state := CleanupStarted |}).
  unfold cleanup_owned, in_state. cbn [ss_state s1]. rewrite !bool_decide_eq_false_2 by done. cbn [orb].
  destruct (evidence_complete (owned_evidence evidence s)) eqn:Hc; cbn [andb negb];
    [destruct (cleanup_deadline_met now s1); cbn [negb]|].
  all: unfold reset_lease, quarantine_lease; cbn [ss_lease s1]; destruct (ss_lease s) as [lease|]; cbn.
  all: split_and!; try done; by (left + right).
Qed.

Lemma destroy_keeps s : ss_state (destroy s) = ss_state s /\ ss_terminal_evidence (destroy s) = ss_terminal_evidence s.
Proof. unfold destroy, reset_lease, quarantine_lease. destruct (has (ss_lease s) && _); cbn; by destruct (ss_lease s). Qed.

(** ** The adapter *)

Lemma delta_within pre final : u64 (wm_local_current_usage_bytes pre) -> u64 (wm_local_current_usage_bytes final) ->
  cleanup_wddm_positive_delta pre final =
    Z.max 0 (wm_local_current_usage_bytes final - wm_local_current_usage_bytes pre).
Proof.
  intros Hp Hf. unfold cleanup_wddm_positive_delta.
  destruct (Z.ltb_spec (wm_local_current_usage_bytes pre) (wm_local_current_usage_bytes final)); [|lia].
  rewrite wrap64_sub by (done || lia). lia.
Qed.

(** The session a run ends with: the one it started from or the one the cleanup
    left. *)
Lemma conclude_session w root o removed s :
  exists s', oc_session (conclude w root o removed s) = Some (destroy s') /\
    (s' = s \/ exists receipt, (finalize_cleanup (cleanup_evidence o receipt) (wo_cleanup_clock w) s).2 = s').
Proof.
  unfold conclude. cbv zeta. destruct (compute_c2_clearance_evidence_hashes (fill_receipt o)) as [|receipt]; [by eauto|].
  destruct (finalize_cleanup _ _ s) as [cleanup s'] eqn:Ef. exists s'.
  assert (s' = s \/ exists receipt, (finalize_cleanup (cleanup_evidence o receipt) (wo_cleanup_clock w) s).2 = s')
    as Hs by (right; eexists; by rewrite Ef).
  split; [|exact Hs]. destruct (compute_c2_clearance_evidence_hashes _) as [|receipt']; [done|].
  destruct (write_c2_clearance_receipt _ _ _ _ _ _ _) as [[|] fs]; reflexivity.
Qed.

(** What a run must show to give the adapter back: the runner saw the worker
    and its job end with everything accounted for, the samplers answer for the
    same adapter, and its memory in use is back within the tolerance. *)
Definition run_reconciled (result : NativeWorkerResult) (pre final : WddmMemorySample) : Prop :=
  result_flags result = replicate 5 true /\ wm_available final = true /\
  wm_adapter_luid_high final = wm_adapter_luid_high pre /\ wm_adapter_luid_low final = wm_adapter_luid_low pre /\
  wm_local_current_usage_bytes final <= wm_local_current_usage_bytes pre + 16 * 1024 * 1024.

Lemma evidence_reconciled o receipt s :
  evidence_complete (owned_evidence (cleanup_evidence o receipt) s) = true ->
  owned_flags s = replicate 5 true /\ device_reconciled o = true.
Proof.
  unfold evidence_complete, owned_evidence, owned_flags. cbn.
  intros H. repeat match goal with H : (_ && _) = true |- _ => apply andb_prop in H as [? ?] end.
  split; congruence.
Qed.

Lemma conclude_registry w root o removed s :
  ss_state s <> Cleaned ->
  exists s', oc_session (conclude w root o removed s) = Some s' /\
    (ss_registry s' = ss_registry s \/
     ss_state s' = Cleaned /\ owned_flags s = replicate 5 true /\ device_reconciled o = true).
Proof.
  intros Hst. destruct (conclude_session w root o removed s) as (s' & -> & Hs). exists (destroy s').
  split; [done|]. destruct (destroy_keeps s') as [Hds _].
  destruct Hs as [->|(receipt & <-)].
  - left. destruct (destroy_registry s) as [|[Hc _]]; [done|]. by apply in_state_true in Hc.
  - pose proof (finalize_spec (cleanup_evidence o receipt) (wo_cleanup_clock w) s) as Hspec.
    destruct (finalize_cleanup _ _ s) as [cleanup s']. cbn [snd] in *. destruct Hspec as (Hstate & Hto & _ & Hkeep & Hclean).
    destruct (decide (cleanup = Cleaned)) as [Hc|Hc].
    + right. destruct (Hclean Hc) as [He _]. rewrite Hds. split; [rewrite Hstate by auto; done|].
      by apply (evidence_reconciled o receipt).
    + left. destruct (destroy_registry s') as [->|[Hin [lease Hl]]]; [by apply Hkeep|].
      exfalso. apply in_state_true in Hin. by destruct (Hto Hin).
Qed.

(** *** From the arguments to the end of the worker *)

(** A run whose worker was launched: the session it was admitted with, the one
    the runner left, and the observations the receipt is made of. *)
Record Launched := mkLaunched {
  la_session : Session;
  la_result : NativeWorkerResult;
  la_observed : Observed;
  la_output_removed : bool;
}.

Definition launched (w : World) (options : Options) (worker : WideString) (pre_wddm : WddmMemorySample)
    (cell : AdmissionCellIdentity) (s : Session) (l : Launched) : Prop :=
  let pre := make_pre_request options pre_wddm cell (wo_sampling w) in
  let o := la_observed l in
  run_worker (make_worker_request worker options pre_wddm)
    (mkRunInputs options cell (prq_host_policy pre) (prq_host_request pre)) (wo_events w) (wo_result w)
    (admit_pre_context pre s).2 = (la_result l, ob_capture o, la_session l) /\
  la_output_removed l = str_empty (nwr_output_path (la_result l)) || wo_output_removed w /\
  (let result := la_result l in
   ob_result o = {| result with
     nwr_temporary_files_reconciled := nwr_temporary_files_reconciled result && la_output_removed l |}) /\
  ob_options o = options /\ ob_worker_sha256 o = wo_worker_sha256 w /\ ob_pre_wddm o = pre_wddm /\ ob_pre o = pre /\
  ob_final_wddm o = sample_wddm_memory (wo_final_dxgi w) (op_adapter_index options).

Lemma supervise_cases build w options worker root pre_wddm cell s :
  supervise build w options worker root pre_wddm cell s =
    mkOutcome 8 (Some (destroy (admit_pre_context (make_pre_request options pre_wddm cell (wo_sampling w)) s).2)) (wo_fs w) \/
  exists l, launched w options worker pre_wddm cell s l /\
    supervise build w options worker root pre_wddm cell s =
      conclude w root (la_observed l) (la_output_removed l) (la_session l).
Proof.
  unfold supervise, launched. cbv zeta. set (pre := make_pre_request _ _ _ _).
  destruct (admit_pre_context pre s) as [decision s1]. destruct (pad_admitted decision); cbn [negb]; [|by left].
  right. cbn [snd]. destruct (run_worker _ _ _ _ s1) as [[result capture] s2].
  eexists (mkLaunched s2 result (mkObserved _ _ _ _ _ _ _ _ _ _ _) _).
  split; [|cbn [la_observed la_output_removed la_session]; reflexivity].
  cbn [la_session la_result la_observed la_output_removed ob_capture ob_result ob_options ob_worker_sha256 ob_pre_wddm
    ob_pre ob_final_wddm]. by split_and!.
Qed.

(** The session the program acquires. *)
Definition acquires (build : BuildIdentity) (w : World) (options : Options) (s : Session) : Prop :=
  let pre := sample_wddm_memory (wo_pre_dxgi w) (op_adapter_index options) in
  (acquire_gpu_admission_session (wo_lease w) (wo_session_allocated w) (make_cell build options pre (wo_worker_sha256 w)) (wm_adapter_luid_high pre)
     (wm_adapter_luid_low pre) (wo_issuer w) (wo_registry w) (wo_store w)).1.2 = Some s.

Lemma main_cases build argv w :
  (oc_session (main build argv w) = None /\ 2 <= oc_exit (main build argv w) <= 7 /\ oc_fs (main build argv w) = wo_fs w) \/
  (exists options worker root s, parse_options argv = Some options /\ wo_output_root w = Some root /\
     acquires build w options s /\
     let pre := sample_wddm_memory (wo_pre_dxgi w) (op_adapter_index options) in
     main build argv w = supervise build w options worker root pre (make_cell build options pre (wo_worker_sha256 w)) s).
Proof.
  unfold main, acquires. cbv zeta. generalize (make_cell build) as cell_of. intros cell_of.
  destruct (parse_options argv) as [options|]; [|by left].
  destruct (wo_absolute w) as [worker|]; [|by left]. destruct (wo_output_root w) as [root|]; [|by left].
  destruct (wo_is_directory w); [|by left]. cbn [negb].
  destruct (Nat.eqb (String.length (wo_worker_sha256 w)) 64); [|by left]. cbn [negb].
  set (pre := sample_wddm_memory (wo_pre_dxgi w) (op_adapter_index options)).
  destruct (wm_available pre); [|by left]. cbn [negb].
  match goal with |- context [acquire_gpu_admission_session ?a ?z ?b ?c ?d ?e ?f ?g] =>
    destruct ((acquire_gpu_admission_session a z b c d e f g).1.2) as [s|] eqn:Hs end; [|clear Hs; by left].
  right. exists options, worker, root, s. by split_and!.
Qed.

Lemma acquired_spec outcome allocated cell high low issuer registry store s :
  (acquire_gpu_admission_session outcome allocated cell high low issuer registry store).1.2 = Some s ->
  GpuLease.make_lease_id high low ∈ ss_registry s /\ owned_flags s = replicate 5 false /\
  ss_terminal_evidence s = None /\ ss_state s = LeaseHeld.
Proof.
  unfold acquire_gpu_admission_session. generalize (admission_cell_identity_valid cell) as valid. intros [|]; [|done].
  cbn [negb]. unfold GpuLease.acquire_exclusive_gpu_lease. destruct (_ && _); [done|]. case_bool_decide; [done|].
  destruct outcome, allocated; cbn; try done. intros [= <-]. cbn. split_and!; try done. set_solver.
Qed.

(** After the worker ended: nothing is released, recorded or cleaned yet, and
    the session knows what the runner reported. *)
Lemma launched_spec w options worker pre_wddm cell s l :
  owned_flags s = replicate 5 false -> ss_state s = LeaseHeld ->
  launched w options worker pre_wddm cell s l ->
  framed s (la_session l) /\ ss_state (la_session l) <> Cleaned /\
  owned_flags (la_session l) = result_flags (la_result l) /\
  (la_result l = wo_result w \/ result_flags (la_result l) = replicate 5 false).
Proof.
  intros Hflags Hst (Hrun & _). cbv zeta in Hrun.
  set (pre := make_pre_request _ _ _ _) in *. rewrite <- (admit_pre_flags pre s) in Hflags.
  pose proof (admit_pre_framed pre s) as Hpre.
  pose proof (run_worker_spec (make_worker_request worker options pre_wddm)
    (mkRunInputs options cell (prq_host_policy pre) (prq_host_request pre)) (wo_events w) (wo_result w)
    (admit_pre_context pre s).2 Hflags) as Hspec.
  rewrite Hrun in Hspec. destruct Hspec as (Hf & Ho & Hr).
  assert (framed s (la_session l)) as Hall by (by apply (framed_trans _ (admit_pre_context pre s).2)).
  split_and!; try done. intros Hc. apply Hall in Hc. congruence.
Qed.

Lemma device_reconciled_inv o : device_reconciled o = true ->
  u64 (wm_local_current_usage_bytes (ob_pre_wddm o)) -> u64 (wm_local_current_usage_bytes (ob_final_wddm o)) ->
  wm_available (ob_final_wddm o) = true /\
  wm_adapter_luid_high (ob_final_wddm o) = wm_adapter_luid_high (ob_pre_wddm o) /\
  wm_adapter_luid_low (ob_final_wddm o) = wm_adapter_luid_low (ob_pre_wddm o) /\
  wm_local_current_usage_bytes (ob_final_wddm o) <= wm_local_current_usage_bytes (ob_pre_wddm o) + 16 * 1024 * 1024.
Proof.
  unfold device_reconciled. intros H Hp Hf. rewrite delta_within in H by done. bool_facts.
  split_and!; try done. unfold kCleanupWddmToleranceBytes in *. change (Z.shiftl 16 20) with 16777216 in *. lia.
Qed.

(** C12. However the program ends, whatever the runner and the worker did: once
    it acquired the adapter, the lease stays registered for the rest of the
    process unless the session is cleaned, and then the runner saw the worker
    exit and its job empty with accounting, handles and files reconciled, and
    the adapter it was leased for answers again with at most 16 MiB more in use
    than before. *)
Theorem adapter_freed_only_after_cleanup build argv w options s :
  parse_options argv = Some options ->
  let pre := sample_wddm_memory (wo_pre_dxgi w) (op_adapter_index options) in
  let final := sample_wddm_memory (wo_final_dxgi w) (op_adapter_index options) in
  u64 (wm_local_current_usage_bytes pre) -> u64 (wm_local_current_usage_bytes final) ->
  oc_session (main build argv w) = Some s ->
  GpuLease.make_lease_id (wm_adapter_luid_high pre) (wm_adapter_luid_low pre) ∈ ss_registry s \/
  ss_state s = Cleaned /\ run_reconciled (wo_result w) pre final.
Proof.
  intros Ho. cbv zeta. intros Hp Hf Hs.
  destruct (main_cases build argv w) as [(Hn & _)|(options' & worker & root & s0 & Ho' & _ & Hacq & Hmain)]; [congruence|].
  assert (options' = options) as -> by congruence. cbv zeta in Hmain. rewrite Hmain in Hs. clear Hmain Ho Ho'.
  unfold acquires in Hacq. revert Hacq Hs. cbv zeta. generalize (make_cell build) as cell_of. intros cell_of Hacq Hs.
  set (pre := sample_wddm_memory (wo_pre_dxgi w) _) in *. set (cell := cell_of options pre _) in *.
  apply acquired_spec in Hacq as (Hid & Hflags & _ & Hheld).
  destruct (supervise_cases build w options worker root pre cell s0) as [E|(l & Hl & E)]; rewrite E in Hs.
  - injection Hs as <-. left. set (request := make_pre_request _ _ _ _).
    destruct (admit_pre_framed request s0) as (Hreg & _ & Hc).
    destruct (destroy_registry (admit_pre_context request s0).2) as [->|[Hin _]]; [by rewrite Hreg|].
    apply in_state_true, Hc in Hin. congruence.
  - pose proof (launched_spec _ _ _ _ _ _ _ Hflags Hheld Hl) as ((Hreg & _) & Hst & Hfl & Hres).
    destruct Hl as (_ & _ & _ & _ & _ & Hopre & _ & Hofinal).
    destruct (conclude_registry w root (la_observed l) (la_output_removed l) (la_session l) Hst)
      as (s' & Hs' & [Hr|(Hc & Hall & Hdev)]); rewrite Hs' in Hs; injection Hs as <-.
    + left. congruence.
    + right. split; [done|]. apply device_reconciled_inv in Hdev; [|congruence..]. rewrite Hopre, Hofinal in Hdev.
      rewrite Hfl in Hall. destruct Hres as [Hres|Hres]; [|by rewrite Hall in Hres]. rewrite Hres in Hall. by split.
Qed.

(** ** The published receipt *)

(** The receipt of a run after its cleanup: hashed, marked and hashed again. *)
Definition receipt_of (o : Observed) (cleanup : GpuAdmissionSessionState) (first r : C2ClearanceReceipt) : Prop :=
  compute_c2_clearance_evidence_hashes (fill_receipt o) = inr first /\
  compute_c2_clearance_evidence_hashes
    (set_cleanup_status (set_pre_cleanup first) (if bool_decide (cleanup = Cleaned) then "cleaned" else "quarantined"))
  = inr r.

(** The second hash only changes what the cleanup decided: the digest of the
    last good sample is the one the cleanup was given. *)
Lemma receipt_of_spec o cleanup first r : receipt_of o cleanup first r ->
  cr_case_name r = cr_case_name (fill_receipt o) /\ cr_worker_sha256 r = cr_worker_sha256 (fill_receipt o) /\
  cr_status r = cr_status (fill_receipt o) /\ cr_failure_reason r = cr_failure_reason (fill_receipt o) /\
  cr_cleanup_status r = (if bool_decide (cleanup = Cleaned) then "cleaned" else "quarantined") /\
  cr_last_good_sample_sha256 r = cr_last_good_sample_sha256 (set_pre_cleanup first) /\
  cr_pre_cleanup_evidence_sha256 r = cr_pre_cleanup_evidence_sha256 (set_pre_cleanup first).
Proof.
  unfold receipt_of. generalize (fill_receipt o) as f. intros f. rewrite !compute_hashes_inr.
  generalize Sha256.sha256_text as sha. intros sha.
  intros [(last & trigger & bundle & Hl & _ & _ & ->) (last' & trigger' & bundle' & Hl' & _ & _ & ->)].
  change (sha (last_good_text f) = Some last') in Hl'. split_and!; try reflexivity. change (last' = last).
  congruence.
Qed.

(** The fields of the receipt that say how the case went. *)
Definition case_fields (r : C2ClearanceReceipt) : string * string * string * string :=
  (cr_case_name r, cr_worker_sha256 r, cr_status r, cr_failure_reason r).

Lemma bind_last_good_fields r peak stage gpu host thermal process :
  case_fields (bind_last_good r peak stage gpu host thermal process) = case_fields r.
Proof. unfold bind_last_good. by destruct process. Qed.

Lemma record_last_good_fields o r : case_fields (record_last_good o r) = case_fields r.
Proof.
  unfold record_last_good. cbv zeta.
  destruct (_ =s _); [apply bind_last_good_fields|]. destruct (_ =s _), (cap_post (ob_capture o)), (cap_watchdog (ob_capture o)); apply bind_last_good_fields.
Qed.

Lemma fill_receipt_fields o :
  case_fields (fill_receipt o) =
  (op_case_name (ob_options o), ob_worker_sha256 o, if nwr_ok (ob_result o) then "candidate-complete" else "rejected",
   nwr_failure_reason (ob_result o)).
Proof.
  unfold fill_receipt. cbv zeta. exact (record_last_good_fields o _).
Qed.

Lemma no_temporary_receipt root case nonce :
  receipt_path root case <> parent_path (receipt_path root case) ++ [temporary_name nonce].
Proof.
  unfold receipt_path, parent_path. rewrite removelast_last. intros [_ E]%app_inj_2; [|done]. discriminate E.
Qed.

(** What each case promises: the status, a part of the failure reason, the
    cleanup recorded and the state of the session. *)
Definition contract : list (string * (string * string * string * GpuAdmissionSessionState)) := [
  ("success", ("candidate-complete", EmptyString, "cleaned", Cleaned));
  ("watchdog-cancel", ("rejected", "watchdog_rejected", "cleaned", Cleaned));
  ("heartbeat-loss", ("rejected", "heartbeat_timeout", "cleaned", Cleaned));
  ("post-context-telemetry-loss", ("rejected", "admission_rejected", "quarantined", Quarantined))].

Definition case_kept (case : string) (r : C2ClearanceReceipt) (state : GpuAdmissionSessionState) : Prop :=
  exists status pattern cleanup, (case, (status, pattern, cleanup, state)) ∈ contract /\
    cr_status r = status /\ cr_cleanup_status r = cleanup /\
    contains (list_ascii_of_string pattern) (list_ascii_of_string (cr_failure_reason r)) = true.

Lemma contract_kept case result cleanup removed r :
  c2_case_result_matches_contract case result cleanup removed = true ->
  cr_status r = (if nwr_ok result then "candidate-complete" else "rejected") ->
  cr_failure_reason r = nwr_failure_reason result ->
  cr_cleanup_status r = (if bool_decide (cleanup = Cleaned) then "cleaned" else "quarantined") ->
  case_kept case r cleanup /\ (cleanup = Cleaned \/ cleanup = Quarantined).
Proof.
  unfold c2_case_result_matches_contract, case_kept, failed_with. intros H Hs Hf Hc. revert H.
  destruct (_ || _); [done|].
  destruct (String.eqb_spec case "success") as [->|]; [|destruct (String.eqb_spec case "watchdog-cancel") as [->|];
    [|destruct (String.eqb_spec case "heartbeat-loss") as [->|];
    [|destruct (String.eqb_spec case "post-context-telemetry-loss") as [->|]; [|done]]]].
  all: intros H; repeat match goal with H : (_ && _) = true |- _ => apply andb_prop in H as [? ?] end.
  all: repeat match goal with H : negb _ = true |- _ => apply negb_true_iff in H end.
  all: match goal with H : bool_decide (_ = _) = true |- _ => apply bool_decide_eq_true in H end; subst cleanup.
  all: match goal with H : nwr_ok _ = _ |- _ => rewrite H in Hs end.
  all: rewrite Hs, Hf, Hc; split; [|by auto]; eexists _, _, _; split;
    [unfold contract; repeat (first [left; reflexivity | right])|].
  all: by split_and!; [..|by destruct (list_ascii_of_string (nwr_failure_reason result))] || by split_and!.
Qed.

Lemma fill_receipt_parts o :
  cr_case_name (fill_receipt o) = op_case_name (ob_options o) /\ cr_worker_sha256 (fill_receipt o) = ob_worker_sha256 o /\
  cr_status (fill_receipt o) = (if nwr_ok (ob_result o) then "candidate-complete" else "rejected") /\
  cr_failure_reason (fill_receipt o) = nwr_failure_reason (ob_result o).
Proof.
  pose proof (fill_receipt_fields o) as H. revert H. unfold case_fields. generalize (fill_receipt o) as f. intros f H.
  by injection H as -> -> -> ->.
Qed.

(** What an acceptable receipt says of the adapter's memory. *)
Lemma receipt_delta o cleanup first r : receipt_of o cleanup first r -> inputs_ok r = true ->
  cleanup_wddm_positive_delta (ob_pre_wddm o) (ob_final_wddm o) <= kCleanupWddmToleranceBytes.
Proof.
  intros [H1 H2]. rewrite !compute_hashes_inr in *.
  destruct H1 as (? & ? & ? & _ & _ & _ & ->). destruct H2 as (? & ? & ? & _ & _ & _ & ->).
  unfold inputs_ok, limits_ok. intros H.
  repeat match goal with H : (_ && _) = true |- _ => apply andb_prop in H as [? ?] end.
  match goal with H : (cr_cleanup_wddm_positive_delta_bytes _ <=? _) = true |- _ =>
    apply Z.leb_le in H; exact H end.
Qed.

Section Clearance.
  Context (w : World).

  (** The assumptions of [AtomicFile] and [C2Receipt]: other processes leave new
      files alone, and a file that could be read was read from its contents. *)
  Hypothesis private_data : forall g i c,
    i ∉ dom (fs_data (wo_fs w)) -> fs_data g !! i = Some c -> fs_data (wo_interfere w g) !! i = Some c.
  Hypothesis reads_contents : forall g p contents,
    has_contents contents g p ->
    FlatJson.fr_ok (FlatJson.read_flat_json_file (wo_present w g p) kC2ReceiptMaximumBytes) = true ->
    FlatJson.read_flat_json_file (wo_present w g p) kC2ReceiptMaximumBytes =
      FlatJson.parse_flat_json_object (list_ascii_of_string contents).

(** A run that got past the publication. *)
Lemma conclude_published root o removed s :
  ss_terminal_evidence s = None ->
  oc_exit (conclude w root o removed s) = 0 ->
  exists r s', oc_session (conclude w root o removed s) = Some s' /\
    has_contents (string_of_list_ascii (serialize_c2_clearance_receipt r)) (oc_fs (conclude w root o removed s))
      (receipt_path root (op_case_name (ob_options o))) /\
    validate_receipt_fields (FlatJson.parse_flat_json_object (serialize_c2_clearance_receipt r)) = inr tt /\
    cr_case_name r = op_case_name (ob_options o) /\ cr_worker_sha256 r = ob_worker_sha256 o /\
    case_kept (op_case_name (ob_options o)) r (ss_state s') /\
    (forall evidence, ss_terminal_evidence s' = Some evidence ->
       sce_last_good_sample_sha256 evidence = cr_last_good_sample_sha256 r /\
       sce_evidence_bundle_sha256 evidence = cr_pre_cleanup_evidence_sha256 r).
Proof.
  intros Hnone. unfold conclude. cbv zeta.
  destruct (compute_c2_clearance_evidence_hashes (fill_receipt o)) as [|first] eqn:E1; [discriminate|].
  pose proof (finalize_spec (cleanup_evidence o (set_pre_cleanup first)) (wo_cleanup_clock w) s) as Hfin.
  destruct (finalize_cleanup _ _ s) as [cleanup s1].
  destruct (compute_c2_clearance_evidence_hashes (set_cleanup_status _ _)) as [|r] eqn:E2; [discriminate|].
  pose proof (written_is_accepted (wo_query w) (wo_files w) (wo_interfere w) (wo_present w)
    (receipt_path root (op_case_name (ob_options o))) r (wo_fs w) private_data
    (fun nonce other _ => no_temporary_receipt _ _ nonce) reads_contents) as Hw. cbv zeta in Hw.
  destruct (write_c2_clearance_receipt _ _ _ _ _ _ _) as [[error|[]] fs]; [discriminate|].
  destruct (Hw eq_refl) as [Hcontents Hvalid]. cbn [snd] in Hcontents.
  destruct (c2_case_result_matches_contract _ _ _ _) eqn:Hm; [intros _|discriminate].
  destruct (receipt_of_spec o cleanup first r (conj E1 E2)) as (Hn & Hsha & Hstat & Hfail & Hcl & Hlast & Hbundle).
  destruct (fill_receipt_parts o) as (F1 & F2 & F3 & F4).
  destruct (contract_kept _ _ _ _ r Hm) as [Hkept Hends]; [congruence..|].
  destruct (destroy_keeps s1) as [Hd1 Hd2]. destruct Hfin as (Hstate & _ & Hterm & _).
  cbn [oc_session oc_fs]. exists r, (destroy s1). rewrite Hd1, Hd2, Hstate by done.
  split; [reflexivity|]. split; [exact Hcontents|]. split; [exact Hvalid|]. split; [congruence|].
  split; [congruence|]. split; [exact Hkept|]. intros evidence He. rewrite He in Hterm.
  destruct Hterm as [Ht|Ht]; [congruence|]. injection Ht as ->. cbn. rewrite Hlast, Hbundle. split; reflexivity.
Qed.

(** C11. The program reports success only for a case that went as its contract
    says: the output directory then holds the text of a receipt that the
    validator accepts, made for this case and worker, whose status, failure
    reason and cleanup are those of the contract, the session ended in the state
    the receipt claims, and the digests the session recorded at its cleanup are
    the ones in the receipt. *)
Theorem clearance_is_earned build argv :
  oc_exit (main build argv w) = 0 ->
  exists options root r s,
    parse_options argv = Some options /\ wo_output_root w = Some root /\
    oc_session (main build argv w) = Some s /\
    has_contents (string_of_list_ascii (serialize_c2_clearance_receipt r)) (oc_fs (main build argv w))
      (receipt_path root (op_case_name options)) /\
    validate_receipt_fields (FlatJson.parse_flat_json_object (serialize_c2_clearance_receipt r)) = inr tt /\
    cr_case_name r = op_case_name options /\ cr_worker_sha256 r = wo_worker_sha256 w /\
    case_kept (op_case_name options) r (ss_state s) /\
    (forall evidence, ss_terminal_evidence s = Some evidence ->
       sce_last_good_sample_sha256 evidence = cr_last_good_sample_sha256 r /\
       sce_evidence_bundle_sha256 evidence = cr_pre_cleanup_evidence_sha256 r).
Proof.
  intros H0. destruct (main_cases build argv w) as [(_ & Hexit & _)|(options & worker & root & s0 & Ho & Hr & Hacq & Hmain)];
    [lia|].
  unfold acquires in Hacq. revert Hacq Hmain. cbv zeta. generalize (make_cell build) as cell_of. intros cell_of Hacq Hmain.
  rewrite Hmain in *. clear Hmain. apply acquired_spec in Hacq as (_ & Hflags & Hnone & Hheld).
  match goal with |- context [supervise build w options worker root ?p ?c s0] =>
    destruct (supervise_cases build w options worker root p c s0) as [E|(l & Hl & E)] end; rewrite E in *; [discriminate|].
  pose proof (launched_spec _ _ _ _ _ _ _ Hflags Hheld Hl) as ((_ & Hterm & _) & _).
  destruct Hl as (_ & _ & _ & Hopt & Hsha & _).
  destruct (conclude_published root (la_observed l) (la_output_removed l) (la_session l)) as (r & s & Hrest);
    [congruence|done|].
  rewrite Hopt, Hsha in Hrest. exists options, root, r, s. split; [exact Ho|]. split; [exact Hr|]. exact Hrest.
Qed.

(** The validator bounds the growth of the adapter's memory by the tolerance, so
    a run that leaves more than 16 MiB in use leaves no receipt: the counters,
    the delta and the bound are not retained. *)
Theorem excess_usage_leaves_no_receipt root o removed s :
  kCleanupWddmToleranceBytes < cleanup_wddm_positive_delta (ob_pre_wddm o) (ob_final_wddm o) ->
  (forall cleanup first r, receipt_of o cleanup first r -> typed r = true /\ printable_receipt r = true) ->
  9 <= oc_exit (conclude w root o removed s) <= 11.
Proof.
  intros Hdelta Hprint. unfold conclude. cbv zeta.
  destruct (compute_c2_clearance_evidence_hashes (fill_receipt o)) as [|first] eqn:E1; [cbn; lia|].
  destruct (finalize_cleanup _ _ s) as [cleanup s1].
  destruct (compute_c2_clearance_evidence_hashes (set_cleanup_status _ _)) as [|r] eqn:E2; [cbn; lia|].
  destruct (Hprint cleanup first r (conj E1 E2)) as [Ht Hp].
  pose proof (written_is_accepted (wo_query w) (wo_files w) (wo_interfere w) (wo_present w)
    (receipt_path root (op_case_name (ob_options o))) r (wo_fs w) private_data
    (fun nonce other _ => no_temporary_receipt _ _ nonce) reads_contents) as Hw. cbv zeta in Hw.
  destruct (write_c2_clearance_receipt _ _ _ _ _ _ _) as [[error|[]] fs]; [cbn; lia|].
  destruct (Hw eq_refl) as [_ Hvalid]. apply (serialized_verdict r Ht Hp) in Hvalid as [Hi _].
  apply (receipt_delta o cleanup first r) in Hi; [lia|by split].
Qed.

End Clearance.

(** ** The injected faults *)

Lemma post_needs_gpu r s : pod_admitted (evaluate_post_context_admission r s).1 = true -> pcg_available (poq_gpu r) = true.
Proof.
  set (P := fun x : PostContextAdmissionDecision * ReceiptStore => pod_admitted x.1 = true -> pcg_available (poq_gpu r) = true).
  change (P (evaluate_post_context_admission r s)). post_norm. cascade_elim ltac:(intros [=]).
  intros _. bool_facts. assumption.
Qed.

Lemma watchdog_needs_thermal receipt sample :
  swd_continue_work (evaluate_supervisor_watchdog receipt sample) = true -> gts_available (sws_thermal sample) = true.
Proof.
  set (P := fun d => swd_continue_work d = true -> gts_available (sws_thermal sample) = true).
  change (P (evaluate_supervisor_watchdog receipt sample)). unfold evaluate_supervisor_watchdog. cbv zeta.
  cascade_elim ltac:(intros [=]). intros _. bool_facts. assumption.
Qed.

Lemma admit_and_issue_refused rc request e a s : pcg_available (poq_gpu request) = false ->
  nag_admitted (admit_and_issue rc request e a s).1 = false.
Proof.
  intros Hgpu. unfold admit_and_issue. destruct (_ || _); [done|].
  set (request' := mkPostRequest _ _ _ _ _ _ _ _ _ _ _ _).
  assert (pod_admitted (admit_post_context request' s).1 = false) as Hp.
  { unfold admit_post_context. destruct (in_state s _), (ss_worker s), (ss_pre_receipt s); try done.
    cbv zeta. destruct (_ || _); [done|].
    match goal with |- context [evaluate_post_context_admission ?r ?st] => pose proof (post_needs_gpu r st) as Hn;
      destruct (evaluate_post_context_admission r st) as [decision store] end. cbn in Hn. rewrite Hgpu in Hn.
    destruct (pod_admitted decision) eqn:E; [by specialize (Hn eq_refl)|]. cbn. exact E. }
  destruct (admit_post_context request' s) as [decision s1]. cbn [fst] in Hp. by rewrite Hp.
Qed.

Lemma context_refused rc ctx live e a s :
  (forall l, live = Some l -> pcg_available (poq_gpu (lpe_request l)) = false) ->
  nag_admitted (context_ready_with_evidence rc ctx live e a s).1 = false.
Proof.
  intros Hl. unfold context_ready_with_evidence. destruct (ss_worker s); [|done]. cbv zeta. destruct live as [l|]; [|done].
  specialize (Hl l eq_refl). destruct (e =? 0); [done|].
  destruct (bind_process_device_memory_evidence _ _ _ _ _ _ _); [|done].
  destruct (nwq_require_gpu_protocol_evidence _); [|by apply admit_and_issue_refused].
  destruct (context_evidence_rejected _ _ _ _); [done|]. destruct (ss_pre_receipt s); [|done].
  by apply admit_and_issue_refused.
Qed.

Lemma beat_refused rc now ev live e a s :
  (forall l, live = Some l -> gts_available (sws_thermal (lwe_sample l)) = false) ->
  (heartbeat_with_evidence rc now ev live e a s).1 = false.
Proof.
  intros Hl. unfold heartbeat_with_evidence. destruct (ss_worker s) eqn:Hw, (ss_post_receipt s) eqn:Hr, live as [l|]; try done.
  specialize (Hl l eq_refl). destruct (e =? 0); [done|]. cbv zeta.
  destruct (bind_process_device_memory_evidence _ _ _ _ _ _ _); [|done].
  destruct (_ && _); [done|]. destruct (_ || _); [done|]. unfold evaluate_watchdog. rewrite Hw, Hr.
  destruct (_ || _); [|done]. destruct (_ <>z _); [done|].
  match goal with |- context [evaluate_supervisor_watchdog ?r ?x] => pose proof (watchdog_needs_thermal r x) as Hn;
    destruct (swd_continue_work (evaluate_supervisor_watchdog r x)) eqn:E end; [|exact E].
  specialize (Hn eq_refl). cbn in Hn. congruence.
Qed.

(** The message at which a case injects its fault. *)
Definition faulted (case : string) (e : C2Event) : bool :=
  match e with
  | CContextReady _ _ _ _ => case =s "post-context-telemetry-loss"
  | CHeartbeat _ _ _ _ _ => case =s "watchdog-cancel"
  | _ => false
  end.

Lemma faulted_refused rc ri e s cap : faulted (op_case_name (ri_options ri)) e = true ->
  (protocol_step rc (live_event ri e s cap).1 s).1 = false.
Proof.
  destruct e as [|ctx call evaluated admission| |now evidence call evaluated admission| |]; try done; cbn [faulted]; intros Hcase.
  - cbn [live_event]. destruct (negb _).
    + pose proof (context_refused rc ctx None evaluated admission s ltac:(done)) as H. cbn [fst protocol_step].
      destruct (context_ready_with_evidence _ _ _ _ _ _). exact H.
    + unfold post_closure, lose_post_context. rewrite Hcase.
      destruct (lc_sample_stopped call); destruct (process_closure _ _ _ _ _) as [independent cap'];
        cbn [fst protocol_step];
        match goal with |- context [context_ready_with_evidence _ _ ?live _ _ _] =>
          pose proof (context_refused rc ctx live evaluated admission s) as H;
          destruct (context_ready_with_evidence rc ctx live evaluated admission s) end; apply H;
        unfold in_time; destruct (lc_in_time call); by intros ? [= <-].
  - cbn [live_event]. destruct (_ || _).
    + apply (beat_refused rc now evidence None evaluated admission s). done.
    + unfold watchdog_closure, force_watchdog_cancel. rewrite Hcase.
      destruct (lc_sample_stopped call); destruct (process_closure _ _ _ _ _) as [independent cap'];
        cbn [fst protocol_step]; apply beat_refused; unfold in_time; destruct (lc_in_time call); by intros ? [= <-].
Qed.

(** The two telemetry faults take effect: in the post-context loss case every
    context message is refused, and in the watchdog case every heartbeat, whatever
    the samplers answer, whenever the messages come and however the session stands. *)
Theorem injected_faults_are_refused rc ri events s cap i e answer :
  events !! i = Some e -> faulted (op_case_name (ri_options ri)) e = true ->
  (protocol_run rc (live_events rc ri events s cap).1 s).1 !! i = Some answer -> answer = false.
Proof.
  revert s cap i. induction events as [|e' events IH]; intros s cap i; [by rewrite lookup_nil|].
  cbn [live_events]. pose proof (faulted_refused rc ri e' s cap) as Hstep.
  destruct (live_event ri e' s cap) as [event cap1]. cbn [fst] in Hstep.
  destruct (protocol_step rc event s) as [answer1 s1] eqn:Es. cbn [snd].
  specialize (IH s1 cap1). destruct (live_events rc ri events s1 cap1) as [rest cap2]. cbn [fst] in *.
  cbn [protocol_run]. rewrite Es. destruct (protocol_run rc rest s1) as [answers s2]. cbn [fst] in *.
  destruct i as [|i]; cbn.
  - intros [= ->] Hf [= <-]. by apply Hstep.
  - intros He Hf Ha. by apply (IH i).
Qed.

(** ** The options and what reads them later *)

Lemma authorization_char ch : existsb (Ascii.eqb ch) authorization_chars = identifier_char ch.
Proof. destruct ch as [[] [] [] [] [] [] [] []]; vm_compute; reflexivity. Qed.

Lemma authorization_agrees id : authorization_valid id = authorization_identifier id.
Proof.
  unfold authorization_valid, authorization_identifier, all_chars.
  assert (Hl : forall n, negb (Nat.ltb 128 n) = Nat.leb n 128).
  { intros n. destruct (Nat.ltb_spec 128 n), (Nat.leb_spec n 128); lia || done. }
  rewrite negb_orb, Hl. f_equal. induction (list_ascii_of_string id) as [|ch l IH]; cbn [forallb]; [done|].
  by rewrite authorization_char, IH.
Qed.

Lemma uuid_loop_agrees index l : uuid_loop index l = uuid_chars index l.
Proof.
  revert index. induction l as [|ch l IH]; intros index; cbn [uuid_loop uuid_chars existsb]; [done|].
  rewrite IH, orb_false_r, !orb_assoc. reflexivity.
Qed.

Lemma prefix_agrees p text :
  String.prefix p text = FlatJson.starts_with (list_ascii_of_string p) (list_ascii_of_string text).
Proof.
  unfold FlatJson.starts_with. revert text.
  induction p as [|a p IH]; intros text.
  { replace (String.prefix EmptyString text) with true by (by destruct text). symmetry. by apply bool_decide_eq_true. }
  destruct text as [|b text]; [symmetry; change (String.prefix (String a p) EmptyString) with false; by apply bool_decide_eq_false|].
  cbn [String.prefix list_ascii_of_string List.length take]. destruct (ascii_dec a b) as [->|Hne].
  - rewrite IH. apply bool_decide_ext. split; [by intros ->|by intros [= ->]].
  - symmetry. apply bool_decide_eq_false. intros [= ? _]. by subst.
Qed.

Lemma gpu_uuid_agrees uuid : gpu_uuid_valid uuid = canonical_gpu_uuid uuid.
Proof. unfold gpu_uuid_valid, canonical_gpu_uuid. by rewrite uuid_loop_agrees, prefix_agrees. Qed.

(** The limits of the request are within those of the runner. *)
Lemma worker_request_accepted os worker options wddm policy :
  NativeLaunch.policy_zero policy = false -> op_payload_bytes options <> 0 /\ op_payload_bytes options <= 67108864 ->
  NativeLaunch.has_disallowed_windows_path_syntax os worker = false ->
  NativeLaunch.request_rejected os (make_worker_request worker options wddm) (Some policy) = None.
Proof.
  intros Hz [Hp0 Hp1] Hpath. unfold NativeLaunch.request_rejected. rewrite Hz.
  unfold NativeLaunch.gpu_evidence_policy_invalid, make_worker_request. cbn [nwq_timeout_ms nwq_require_gpu_protocol_evidence
    nwq_expected_post_admission_payload_bytes nwq_maximum_post_admission_payload_bytes nwq_max_output_bytes
    nwq_max_active_processes nwq_max_job_memory_bytes nwq_executable_path].
  rewrite Hpath, (proj2 (Z.eqb_neq _ _) Hp0). change kC2MaximumPayloadBytes with 67108864.
  rewrite (proj2 (Z.ltb_ge _ _) Hp1). vm_compute. reflexivity.
Qed.

(** The options that are accepted are ones the validator of the receipt accepts
    and the native runner can run: the two identifiers pass the receipt's own
    checks, the case is one of the contract, and no limit of the request is
    refused for a path the runner accepts. *)
Theorem parsed_options_are_usable os argv options worker wddm policy :
  parse_options argv = Some options ->
  authorization_identifier (op_authorization_id options) = true /\ canonical_gpu_uuid (op_gpu_uuid options) = true /\
  op_case_name options ∈ contract.*1 /\ op_adapter_index options < 64 /\
  (NativeLaunch.policy_zero policy = false -> NativeLaunch.has_disallowed_windows_path_syntax os worker = false ->
   NativeLaunch.request_rejected os (make_worker_request worker options wddm) (Some policy) = None).
Proof.
  unfold parse_options. destruct (negb _); [done|]. destruct (collect_fields argv ∅) as [fields|]; [|done]. cbn.
  destruct (_ || _); [done|].
  destruct (parse_integer u32_range _) as [index|]; [|done]. cbn. destruct (Z.ltb_spec index 64); [|done]. cbn.
  destruct (parse_integer u64_range _) as [payload|] eqn:Ep; [|done]. cbn.
  match goal with |- (if negb ?b then _ else _) = _ -> _ => destruct b eqn:Hb end; [|done].
  intros [= <-]. repeat match goal with H : (_ && _) = true |- _ => apply andb_prop in H as [? ?] end.
  cbn. rewrite <- authorization_agrees, <- gpu_uuid_agrees. split_and!; try done.
  - rewrite !orb_true_iff, !String.eqb_eq in *. set_solver.
  - intros Hz Hpath. apply worker_request_accepted; [done| |done]. cbn. unfold kC2MaximumPayloadBytes in *. bool_facts. lia.
Qed.


(** ** A run of each case *)

Definition sample_build : BuildIdentity := mkBuild hex40 hex40.

Definition sample_argv (case : string) : list string :=
  ["--worker"; "worker.exe"; "--output-root"; "out"; "--case"; case; "--workflow-run-id"; "run-1"; "--authorization-id";
   "auth:1"; "--gpu-uuid"; "GPU-01234567-89ab-cdef-0123-456789abcdef"; "--adapter-index"; "0"; "--payload-bytes";
   "33554432"].

(** The adapter with [usage] bytes in use at a time. *)
Definition sample_dxgi (usage clock : Z) : DxgiAnswers :=
  mkDxgi true true (Some (mkDescription false 0 4660 "adapter")) true (Some (mkVideoMemory (8 * kGiB) usage 0))
    (Some (mkVideoMemory (8 * kGiB) 0 0)) clock.

Definition sample_thermal (clock : Z) : GpuTelemetry.NvmlDevice :=
  let d := demo_nvml in {| d with nvml_monotonic_milliseconds := clock |}.

Definition sample_windows (clock : Z) : WindowsHost :=
  let d := demo_windows in {| d with monotonic_time_milliseconds := clock |}.

(** One counter, for process 4242 on that adapter. *)
Definition sample_pdh (bytes clock : Z) : PdhAnswers :=
  mkPdh true true true true 64 1 true [mkItem (Some (wide "pid_4242_luid_0x00000000_0x00001234_phys_0")) true bytes] clock.

Definition no_query : ProcessQuery := mkProcessQuery false false 0 None.

Definition sample_call (bytes clock : Z) : LiveCall :=
  mkLiveCall true false false
    (mkLiveAnswers (sample_dxgi (bytes + 524288000) clock) (sample_thermal clock) (sample_windows clock)
       (sample_pdh bytes clock) (mkNvml false false None [] no_query no_query 0)).

Definition sample_events : list C2Event :=
  [CBind demo_identity;
   CContextReady (mkContextEvidence true 0 4660 (6 * kGiB) (8 * kGiB)) (sample_call 209715200 5200) 5250 5300;
   CTokenConsumed 1 5350;
   CHeartbeat 5400 (mkHeartbeatEvidence true 33554432 (6 * kGiB) (8 * kGiB)) (sample_call 251658240 5410) 5450 5460].

Definition sample_result (ok : bool) (reason : string) : NativeWorkerResult :=
  let r := demo_worker_result in
  {| r with nwr_ok := ok; nwr_failure_reason := reason; nwr_job_identity := "job-1"; nwr_root_process_id := 4242;
            nwr_heartbeat_sequence := 1 |}.

Definition sample_world (events : list C2Event) (result : NativeWorkerResult) : World :=
  mkWorld (Some (wide "C:\worker.exe")) (Some []) true hex64 (sample_dxgi 524288000 5000) GpuLease.NativeAcquired true 1 ∅
    initial_ReceiptStore (mkPreSampling (sample_thermal 5000) (sample_windows 5000) (Some (64 * kGiB)) 5100)
    events result (sample_dxgi 524288000 5600) (sample_windows 5600) (sample_thermal 5600) true 5700
    sample_query quiet_environment other_process posix_present working_directory.

Definition success_outcome : Outcome :=
  main sample_build (sample_argv "success") (sample_world sample_events (sample_result true "")).

Example success_run : oc_exit success_outcome = 0.
Proof. vm_compute. reflexivity. Qed.

(** The end of the other cases, without their receipts: the worker is run from a
    session admitted for [demo_cell], and the cleanup gets well-formed digests. *)
Definition sample_options (case : string) : Options :=
  mkOptions "worker.exe" "out" case "run-1" "auth:1" "GPU-01234567-89ab-cdef-0123-456789abcdef" 0 33554432.

Definition sample_wddm : WddmMemorySample := sample_wddm_memory (sample_dxgi 524288000 5000) 0.

Definition sample_pre (case : string) : PreContextAdmissionRequest :=
  make_pre_request (sample_options case) sample_wddm demo_cell
    (mkPreSampling (sample_thermal 5000) (sample_windows 5000) (Some (64 * kGiB)) 5100).

Definition sample_inputs_of (case : string) : RunInputs :=
  mkRunInputs (sample_options case) demo_cell (prq_host_policy (sample_pre case)) (prq_host_request (sample_pre case)).

Definition sample_run (case : string) (events : list C2Event) (result : NativeWorkerResult) :
    NativeWorkerResult * LiveEvidenceCapture * Session :=
  run_worker (make_worker_request (wide "C:\worker.exe") (sample_options case) sample_wddm) (sample_inputs_of case) events
    result (admit_pre_context (sample_pre case) demo_session).2.

Definition sample_contract (case : string) (events : list C2Event) (result : NativeWorkerResult) : bool :=
  let '(result, _, s) := sample_run case events result in
  c2_case_result_matches_contract case result
    (finalize_cleanup (mkDeviceCleanup true "ended" hex64 hex64) 5700 s).1 true.

Definition cancelled_events : list C2Event := sample_events ++ [CCancelRequested 5470; CCancelAck 5480].

Example cases_reachable :
  sample_contract "success" sample_events (sample_result true "") = true /\
  sample_contract "watchdog-cancel" cancelled_events
    (sample_result false "native_worker_protocol_watchdog_rejected") = true /\
  sample_contract "heartbeat-loss" cancelled_events
    (sample_result false "native_worker_protocol_heartbeat_timeout") = true /\
  sample_contract "post-context-telemetry-loss" (take 2 sample_events)
    (sample_result false "native_worker_protocol_admission_rejected:gpu") = true.
Proof. vm_compute. repeat split. Qed.

(** The sample recorded as the last good one is the last one captured: here the
    post-context sample that was refused because its thermal reading failed, and
    the trigger says that there was none. *)
Definition cold_call : LiveCall :=
  let c := sample_call 209715200 5200 in
  let a := lc_answers c in
  let t := sample_thermal 5200 in
  {| c with lc_answers := {| a with lv_thermal := {| t with nvmlInit_ok := false |} |} |}.

Definition refused_events : list C2Event :=
  [CBind demo_identity; CContextReady (mkContextEvidence true 0 4660 (6 * kGiB) (8 * kGiB)) cold_call 5250 5300].

Definition refused_run : Observed * Session :=
  let '(result, capture, s) := sample_run "success" refused_events
                                 (sample_result false "native_worker_protocol_admission_rejected") in
  (mkObserved (sample_options "success") sample_build hex64 "lease" sample_wddm (sample_pre "success") capture result
     sample_wddm (sample_host_telemetry (sample_windows 5600))
     (sample_nvml_gpu_thermal (sample_thermal 5600) "GPU-01234567-89ab-cdef-0123-456789abcdef"), s).

Example refused_sample_recorded_as_last_good :
  ss_post_receipt refused_run.2 = None /\ cr_last_good_stage (fill_receipt refused_run.1) = "post-context" /\
  cr_last_thermal_available (fill_receipt refused_run.1) = false /\
  cr_terminal_trigger_canonical (fill_receipt refused_run.1) = "c2-trigger-v1|stage=none".
Proof. vm_compute. repeat split. Qed.

(** ** Witnesses *)

Lemma sample_parsed : parse_options (sample_argv "success") = Some (sample_options "success").
Proof. vm_compute. reflexivity. Qed.

Definition success_world : World := sample_world sample_events (sample_result true "").

Lemma clearance_is_earned_witness :
  exists r s, oc_session (main sample_build (sample_argv "success") success_world) = Some s /\
    case_kept "success" r (ss_state s).
Proof.
  destruct (clearance_is_earned success_world) with (build := sample_build) (argv := sample_argv "success")
    as (options & root & r & s & Ho & _ & Hs & _ & _ & _ & _ & Hk & _).
  - intros g i c _ H. exact H.
  - intros g p contents. apply posix_present_reads.
  - exact success_run.
  - rewrite sample_parsed in Ho. injection Ho as <-. exists r, s. exact (conj Hs Hk).
Defined.

(** A run that is refused before its worker starts. *)
Definition full_volume_world : World :=
  let w := sample_world [] (sample_result false "") in
  {| w with wo_sampling := mkPreSampling (sample_thermal 5000) (sample_windows 5000) None 5100 |}.

Definition refused_session : option Session := oc_session (main sample_build (sample_argv "success") full_volume_world).

Lemma refused_session_held :
  match refused_session with Some s => bool_decide (ss_state s = Cleaned) = false | None => False end.
Proof. vm_compute. reflexivity. Qed.

Lemma adapter_freed_only_after_cleanup_witness :
  match refused_session with
  | Some s => GpuLease.make_lease_id 0 4660 ∈ ss_registry s
  | None => False
  end.
Proof.
  pose proof refused_session_held as Hheld.
  pose proof (fun s => adapter_freed_only_after_cleanup sample_build (sample_argv "success") full_volume_world
    (sample_options "success") s sample_parsed) as H.
  fold refused_session in H. destruct refused_session as [s|]; [|exact Hheld].
  destruct (H s) as [Hin|[Hc _]]; [split; vm_compute; discriminate|split; vm_compute; discriminate|reflexivity|exact Hin|].
  apply bool_decide_eq_false in Hheld. destruct (Hheld Hc).
Defined.

Definition fault_inputs : RunInputs := sample_inputs_of "post-context-telemetry-loss".

Lemma injected_faults_are_refused_witness : false = false /\
  (protocol_run demo_rc (live_events demo_rc fault_inputs sample_events demo_admitted_session no_capture).1
     demo_admitted_session).1 !! 1%nat = Some false.
Proof.
  assert (H : (protocol_run demo_rc (live_events demo_rc fault_inputs sample_events demo_admitted_session no_capture).1
    demo_admitted_session).1 !! 1%nat = Some false) by (vm_compute; reflexivity).
  split; [|exact H].
  refine (injected_faults_are_refused demo_rc fault_inputs sample_events demo_admitted_session no_capture 1 _ false _ _ H);
    [reflexivity|vm_compute; reflexivity].
Defined.


End C2Supervisor.
