(* ===== verification/NumberText.v ===== *)
(** * Numbers as text

    How the streams of the program print numbers: signed integers,
    [std::to_string] of a double (six decimals) and [out << double] (six
    significant digits), both correctly rounded.  Integers that are not negative
    are [Prelude.to_string].

    The sign of a number that is not a number is not kept in the model; it
    prints as [nan]. *)

From Stdlib Require Import Ascii String SpecFloat.
From S2P Require Import Prelude Doubles.

Open Scope list_scope.
Open Scope Z_scope.

Module NumberText.

Definition minus (negative : bool) : list ascii := if negative then ["-"%char] else [].

(** [std::to_string] of a signed 64-bit integer. *)
Definition signed_digits (n : Z) : list ascii := minus (n <? 0) ++ to_string (Z.abs n).

(** [a / b] rounded to the nearest integer, ties to even. *)
Definition round_div (a b : Z) : Z :=
  let q := a / b in
  match 2 * (a mod b) ?= b with
  | Lt => q
  | Gt => q + 1
  | Eq => if Z.even q then q else q + 1
  end.

(** A finite double is [numerator / denominator]. *)
Definition numerator (m : positive) (e : Z) : Z := Z.pos m * 2 ^ Z.max e 0.
Definition denominator (e : Z) : Z := 2 ^ Z.max (- e) 0.

(** 309 digits before the point and six after it hold every double. *)
Definition all_digits (n : Z) : list ascii := to_digits 320 n [].

(** The last [width] digits. *)
Fixpoint padded (width : nat) (n : Z) : list ascii :=
  match width with
  | O => []
  | S width => padded width (n / 10) ++ [ascii_of_N (Z.to_N (48 + n mod 10))]
  end.

(** ["%f"]. *)
Definition fixed_digits (value : spec_float) : list ascii :=
  match value with
  | S754_zero s => minus s ++ list_ascii_of_string "0.000000"
  | S754_infinity s => minus s ++ list_ascii_of_string "inf"
  | S754_nan => list_ascii_of_string "nan"
  | S754_finite s m e =>
      let n := round_div (numerator m e * 1000000) (denominator e) in
      minus s ++ all_digits (n / 1000000) ++ "."%char :: padded 6 (n mod 1000000)
  end.

Definition fixed_text (value : spec_float) : string := string_of_list_ascii (fixed_digits value).

(** The exponent of the first significant digit: the largest [x] with
    [10^x <= numerator / denominator], searched upwards from [low]. *)
Fixpoint decimal_exponent (fuel : nat) (num den low : Z) : Z :=
  match fuel with
  | O => low
  | S fuel =>
      let next := low + 1 in
      let reached := if 0 <=? next then den * 10 ^ next <=? num else den <=? num * 10 ^ (- next) in
      if reached then decimal_exponent fuel num den next else low
  end.

(** [num / den * 10^k] rounded. *)
Definition scaled (num den k : Z) : Z :=
  if 0 <=? k then round_div (num * 10 ^ k) den else round_div num (den * 10 ^ (- k)).

Fixpoint drop_zeros (l : list ascii) : list ascii :=
  match l with
  | c :: l' => if Ascii.eqb c "0" then drop_zeros l' else l
  | [] => []
  end.

Definition strip_zeros (l : list ascii) : list ascii := rev (drop_zeros (rev l)).

Definition with_fraction (whole fraction : list ascii) : list ascii :=
  match strip_zeros fraction with [] => whole | fraction => whole ++ "."%char :: fraction end.

Definition exponent_text (x : Z) : list ascii :=
  "e"%char :: (if x <? 0 then "-"%char else "+"%char) :: (if Z.abs x <? 100 then padded 2 (Z.abs x) else padded 3 (Z.abs x)).

(** ["%g"] of a positive number: six significant digits [d] and the exponent
    [x] of the first of them. *)
Definition general_positive (num den : Z) : list ascii :=
  let x := decimal_exponent 640 num den (-330) in
  let d := scaled num den (5 - x) in
  let (d, x) := if d =? 1000000 then (100000, x + 1) else (d, x) in
  let digits := padded 6 d in
  if (x <? -4) || (6 <=? x) then with_fraction (take 1 digits) (drop 1 digits) ++ exponent_text x
  else if 0 <=? x then with_fraction (take (Z.to_nat x + 1) digits) (drop (Z.to_nat x + 1) digits)
  else with_fraction ["0"%char] (replicate (Z.to_nat (- x - 1)) "0"%char ++ digits).

Definition general_digits (value : spec_float) : list ascii :=
  match value with
  | S754_zero s => minus s ++ ["0"%char]
  | S754_infinity s => minus s ++ list_ascii_of_string "inf"
  | S754_nan => list_ascii_of_string "nan"
  | S754_finite s m e => minus s ++ general_positive (numerator m e) (denominator e)
  end.

Definition general_text (value : spec_float) : string := string_of_list_ascii (general_digits value).

(** ** The roundings are to nearest *)

Lemma round_div_nearest a b : 0 < b -> 2 * Z.abs (round_div a b * b - a) <= b.
Proof.
  intros Hb. unfold round_div. pose proof (Z.div_mod a b ltac:(lia)) as Hd. pose proof (Z.mod_pos_bound a b Hb) as Hm.
  destruct (Z.compare_spec (2 * (a mod b)) b); [destruct (Z.even (a / b))|..]; nia.
Qed.

Lemma denominator_pos e : 0 < denominator e.
Proof. unfold denominator. apply Z.pow_pos_nonneg; lia. Qed.

Lemma padded_digits width n : Forall (fun c => is_digit c = true) (padded width n).
Proof.
  revert n; induction width as [|width IH]; intros n; cbn [padded]; [constructor|]. apply Forall_app. split; [apply IH|].
  repeat constructor. apply digit_char, Z.mod_pos_bound. lia.
Qed.

Lemma decimal_snoc l c : decimal (l ++ [c]) = 10 * decimal l + (char_code c - 48).
Proof. unfold decimal. rewrite fold_left_app. cbn. lia. Qed.

Lemma padded_value width n : 0 <= n < 10 ^ Z.of_nat width -> decimal (padded width n) = n.
Proof.
  revert n; induction width as [|width IH]; intros n Hn.
  - cbn in *. lia.
  - rewrite Nat2Z.inj_succ, Z.pow_succ_r in Hn by lia. cbn [padded]. rewrite decimal_snoc, IH.
    + destruct (digit_char (n mod 10) ltac:(apply Z.mod_pos_bound; lia)) as [_ ->].
      pose proof (Z.div_mod n 10). lia.
    + split; [apply Z.div_pos; lia|]. apply Z.div_lt_upper_bound; lia.
Qed.

Lemma padded_length width n : List.length (padded width n) = width.
Proof. revert n; induction width as [|width IH]; intros n; [done|]. cbn [padded]. rewrite length_app, IH. cbn. lia. Qed.

Lemma decimal_app a b : decimal (a ++ b) = decimal a * 10 ^ Z.of_nat (List.length b) + decimal b.
Proof. unfold decimal at 1. rewrite fold_left_app. apply decimal_cons_gen. Qed.

(** The digits of a finite double with six decimals, read as one integer, are
    within half a millionth of it. *)
Theorem fixed_digits_nearest s m e :
  numerator m e * 1000000 < 10 ^ 316 * denominator e ->
  exists whole fraction, fixed_digits (S754_finite s m e) = minus s ++ whole ++ "."%char :: fraction /\
    whole <> [] /\ Forall (fun c => is_digit c = true) (whole ++ fraction) /\ List.length fraction = 6%nat /\
    2 * Z.abs (decimal (whole ++ fraction) * denominator e - numerator m e * 1000000) <= denominator e.
Proof.
  intros Hsize. pose proof (denominator_pos e) as Hd. set (n := round_div (numerator m e * 1000000) (denominator e)).
  assert (Hn0 : 0 <= numerator m e) by (unfold numerator; apply Z.mul_nonneg_nonneg; [lia|apply Z.pow_nonneg; lia]).
  pose proof (round_div_nearest (numerator m e * 1000000) (denominator e) Hd) as Hr. fold n in Hr.
  assert (Hn : 0 <= n < 10 ^ 320).
  { assert (H : -1 < n < 10 ^ 316 + 1) by (split; apply (Z.mul_lt_mono_pos_r (denominator e)); lia).
    assert (10 ^ 316 < 10 ^ 320) by (apply Z.pow_lt_mono_r; lia). lia. }
  destruct (to_digits_spec 319 (n / 1000000) []) as (Hw & Hne & Hv); [|constructor|].
  { split; [apply Z.div_pos; lia|]. apply Z.div_lt_upper_bound; [lia|]. change (Z.of_nat 320) with 320. lia. }
  exists (all_digits (n / 1000000)), (padded 6 (n mod 1000000)). split; [done|]. split; [exact Hne|].
  split; [apply Forall_app; split; [exact Hw|apply padded_digits]|]. split; [apply padded_length|].
  rewrite decimal_app, padded_length, padded_value by (change (10 ^ Z.of_nat 6) with 1000000; apply Z.mod_pos_bound; lia).
  unfold all_digits. rewrite Hv. cbn [List.length]. change (decimal []) with 0. change (10 ^ Z.of_nat 6) with 1000000.
  change (10 ^ Z.of_nat 0) with 1. pose proof (Z.div_mod n 1000000 ltac:(lia)). replace ((n / 1000000 * 1 + 0) * 1000000 + n mod 1000000) with n by lia.
  exact Hr.
Qed.

(** ** Examples *)

Example fixed_examples :
  map fixed_text [Doubles.zero; Doubles.one; S754_finite false 7205759403792794 (-56); S754_finite true 8796093022208000 (-46); S754_nan] =
  ["0.000000"; "1.000000"; "0.100000"; "-125.000000"; "nan"]%string.
Proof. vm_compute. reflexivity. Qed.

Example general_examples :
  map general_text [Doubles.zero; Doubles.one; S754_finite false 7205759403792794 (-56); S754_finite true 8796093022208000 (-46);
                    S754_finite false 4503599627370496 (-32); S754_finite false 6004799503160661 (-54);
                    S754_finite false 4951760157141521 (-72); S754_finite false 4503599627370497 (-29)] =
  ["0"; "1"; "0.1"; "-125"; "1.04858e+06"; "0.333333"; "1.04858e-06"; "8.38861e+06"]%string.
Proof. vm_compute. reflexivity. Qed.

End NumberText.
