(* ===== verification/Telemetry.v ===== *)
(** * Telemetry lines

    [src/telemetry/telemetry_jsonl.cpp]: the lines [JsonlTelemetry] writes, one
    JSON object each, and what a reader finds in them.  A line is the list of
    its fields in order, printed without spaces; the printer and the lemmas on
    it serve the summaries of the tools as well.

    Time stamps come from the clock that [emit] reads; a stream that was opened
    takes everything that is written to it. *)

From Stdlib Require Import Ascii String.
From stdpp Require Import gmap sorting.
From S2P Require Import Prelude MemoryCap FlatJson Config.
Import MemoryCap FlatJson Config.

Open Scope string_scope.
Open Scope list_scope.
Open Scope Z_scope.

Module Telemetry.

(** ** Values *)

Definition text (value : string) : FlatJsonValue := mkValue value StringKind.

(** [out << n] of an unsigned integer. *)
Definition number (n : Z) : FlatJsonValue := mkValue (string_of_list_ascii (to_string n)) NumberKind.

Definition bool_text (b : bool) : string := if b then "true" else "false".

Definition boolean (b : bool) : FlatJsonValue := mkValue (bool_text b) BooleanKind.

(** [path.generic_string()]: a backslash separates directories on Windows only. *)
Definition generic_string (windows : bool) (path : string) : string :=
  if windows then string_of_list_ascii (map (fun c => if Ascii.eqb c backslash then "/"%char else c) (list_ascii_of_string path))
  else path.

Abbreviation JsonField := (string * FlatJsonValue)%type (only parsing).

(** ** Printing without spaces *)

Definition print_member (field : JsonField) : list ascii :=
  quote :: json_escape field.1 ++ [quote; ":"%char] ++ print_value field.2.

Fixpoint print_members (fields : list JsonField) : list ascii :=
  match fields with
  | [] => []
  | [field] => print_member field
  | field :: fields => print_member field ++ ","%char :: print_members fields
  end.

(** The object, without the end of the line. *)
Definition print_line (fields : list JsonField) : list ascii :=
  "{"%char :: print_members fields ++ ["}"%char].

(** ** The lines *)

Definition reserved_event_fields : list string := [
  "schema_version"; "timestamp_ns"; "run_id"; "event";
  "mode"; "hard_cap_bytes"; "model_parameter_bucket"; "parameter_count";
  "vram_tier_gib"; "validation_cell_id"; "validation_cell_status"; "backend";
  "backend_required"; "dependency_pin_file"; "llama_executable"; "context_tokens";
  "gpu_layers"; "mmap_enabled"; "warmup_tokens"; "worker_evidence_available";
  "worker_executable_sha256"; "worker_approval_identity"; "worker_exit_code"; "worker_timed_out";
  "worker_root_process_id"; "worker_job_identity"; "worker_job_total_processes"; "worker_job_peak_active_processes";
  "worker_job_total_terminated_processes"; "worker_root_peak_working_set_bytes"; "worker_root_peak_private_commit_bytes"; "worker_tree_peak_working_set_bytes";
  "worker_tree_peak_private_commit_bytes"; "worker_tree_sample_interval_milliseconds"; "worker_read_bytes"; "worker_write_bytes";
  "worker_output_bytes"; "worker_output_limit_bytes"; "kv_accounting"; "kv_placement";
  "kv_compression"; "quality_gate"; "profitability_policy"; "offload_policy";
  "claim_label"; "claim_validation"].

Definition reserved_event_field (key : string) : bool := existsb (String.eqb key) reserved_event_fields.

(** The fields that repeat the configuration. *)
Definition config_fields (windows : bool) (config : RuntimeConfig) : list JsonField := [
  ("mode", text (mode_to_string (rc_mode config)));
  ("hard_cap_bytes", number (rc_hard_cap_bytes config));
  ("model_parameter_bucket", text (rc_model_parameter_bucket config));
  ("parameter_count", number (rc_parameter_count config));
  ("vram_tier_gib", number (rc_vram_tier_gib config));
  ("validation_cell_id", text (rc_validation_cell_id config));
  ("validation_cell_status", text (rc_validation_cell_status config));
  ("backend", text (backend_to_string (rc_backend config)));
  ("backend_required", boolean (rc_backend_required config));
  ("dependency_pin_file", text (generic_string windows (rc_dependency_pin_file config)));
  ("llama_executable", text (generic_string windows (rc_llama_executable_path config)));
  ("context_tokens", number (rc_context_tokens config));
  ("gpu_layers", number (rc_gpu_layers config));
  ("mmap_enabled", boolean (rc_mmap_enabled config));
  ("warmup_tokens", number (rc_warmup_tokens config));
  ("worker_evidence_available", boolean (rc_worker_evidence_available config));
  ("worker_executable_sha256", text (rc_worker_executable_sha256 config));
  ("worker_approval_identity", text (rc_worker_approval_identity config));
  ("worker_exit_code", number (rc_worker_exit_code config));
  ("worker_timed_out", boolean (rc_worker_timed_out config));
  ("worker_root_process_id", number (rc_worker_root_process_id config));
  ("worker_job_identity", text (rc_worker_job_identity config));
  ("worker_job_total_processes", number (rc_worker_job_total_processes config));
  ("worker_job_peak_active_processes", number (rc_worker_job_peak_active_processes config));
  ("worker_job_total_terminated_processes", number (rc_worker_job_total_terminated_processes config));
  ("worker_root_peak_working_set_bytes", number (rc_worker_root_peak_working_set_bytes config));
  ("worker_root_peak_private_commit_bytes", number (rc_worker_root_peak_private_commit_bytes config));
  ("worker_tree_peak_working_set_bytes", number (rc_worker_tree_peak_working_set_bytes config));
  ("worker_tree_peak_private_commit_bytes", number (rc_worker_tree_peak_private_commit_bytes config));
  ("worker_tree_sample_interval_milliseconds", number (rc_worker_tree_sample_interval_milliseconds config));
  ("worker_read_bytes", number (rc_worker_read_bytes config));
  ("worker_write_bytes", number (rc_worker_write_bytes config));
  ("worker_output_bytes", number (rc_worker_output_bytes config));
  ("worker_output_limit_bytes", number (rc_worker_output_limit_bytes config));
  ("kv_accounting", boolean (rc_kv_accounting config));
  ("kv_placement", text (rc_kv_placement config));
  ("kv_compression", text (rc_kv_compression config));
  ("quality_gate", text (rc_quality_gate config));
  ("profitability_policy", text (rc_profitability_policy config));
  ("offload_policy", text (rc_offload_policy config));
  ("claim_label", text (rc_claim_label config));
  ("claim_validation", text (rc_claim_validation config))].

(** The fields every event starts with. *)
Definition event_fields (windows : bool) (now : Z) (event : string) (config : RuntimeConfig) : list JsonField := [
  ("schema_version", text "0.6");
  ("timestamp_ns", number now);
  ("run_id", text (rc_run_id config));
  ("event", text event)] ++ config_fields windows config.

(** [std::map] from the initialiser: sorted by key, the first of equal keys. *)
Definition field_le (a b : string * string) : Prop := String.leb a.1 b.1 = true.

#[export] Instance field_le_dec a b : Decision (field_le a b).
Proof. unfold field_le. apply _. Defined.

Definition map_of_fields (fields : list (string * string)) : list (string * string) :=
  merge_sort field_le (map_to_list (list_to_map fields : gmap string string)).

Definition extra_fields (fields : list (string * string)) : list JsonField :=
  map (fun field => (field.1, text field.2))
    (List.filter (fun field => negb (reserved_event_field field.1)) (map_of_fields fields)).

Definition event_line (windows : bool) (now : Z) (event : string) (config : RuntimeConfig)
    (fields : list (string * string)) : list JsonField :=
  event_fields windows now event config ++ extra_fields fields.

Definition sample_fields (sample : MemorySample) (telemetry_agreement : bool) : list JsonField := [
  ("allocator_bytes", number (ms_allocator_bytes sample));
  ("allocator_peak_bytes", number (ms_allocator_peak_bytes sample));
  ("process_gpu_bytes", number (ms_process_gpu_bytes sample));
  ("process_gpu_peak_bytes", number (ms_process_gpu_peak_bytes sample));
  ("warmup_peak_bytes", number (ms_warmup_peak_bytes sample));
  ("retained_pool_bytes", number (ms_retained_pool_bytes sample));
  ("kv_gpu_peak_bytes", number (ms_kv_gpu_peak_bytes sample));
  ("kv_host_peak_bytes", number (ms_kv_host_peak_bytes sample));
  ("kv_compressed_peak_bytes", number (ms_kv_compressed_peak_bytes sample));
  ("kv_metadata_peak_bytes", number (ms_kv_metadata_peak_bytes sample));
  ("kv_unknown_peak_bytes", number (ms_kv_unknown_peak_bytes sample));
  ("device_used_bytes", number (ms_device_used_bytes sample));
  ("device_delta_bytes", number (ms_device_delta_bytes sample));
  ("unknown_post_warmup_bytes", number (ms_unknown_post_warmup_bytes sample));
  ("telemetry_agreement", boolean telemetry_agreement)].

Definition memory_line (windows : bool) (now : Z) (config : RuntimeConfig) (sample : MemorySample)
    (telemetry_agreement : bool) : list JsonField :=
  event_fields windows now "memory_sample" config ++ sample_fields sample telemetry_agreement.

(** ** The writer *)

(** The stream: whether it is open and good, and what was written to it. *)
Record JsonlTelemetry := mkTelemetry {
  jt_ok : bool;
  jt_error : string;
  jt_written : list ascii;
}.

Definition open_telemetry (opens : bool) (path : string) : JsonlTelemetry :=
  mkTelemetry opens (if opens then "" else "failed_to_open_telemetry_path: " +:+ path) [].

Definition write_line (t : JsonlTelemetry) (fields : list JsonField) : JsonlTelemetry :=
  if negb (jt_ok t) then t
  else mkTelemetry (jt_ok t) (jt_error t) (jt_written t ++ print_line fields ++ [newline]).

Definition emit (windows : bool) (now : Z) (event : string) (config : RuntimeConfig) (fields : list (string * string))
    (t : JsonlTelemetry) : JsonlTelemetry :=
  write_line t (event_line windows now event config fields).

Definition emit_memory_sample (windows : bool) (now : Z) (config : RuntimeConfig) (sample : MemorySample)
    (telemetry_agreement : bool) (t : JsonlTelemetry) : JsonlTelemetry :=
  write_line t (memory_line windows now config sample telemetry_agreement).

(** ** Reading a line back *)

(** What follows a member: the next one, or the end of the object. *)
Lemma ends_value_comma rest : ends_value (","%char :: rest).
Proof. done. Qed.

Lemma ends_value_brace rest : ends_value ("}"%char :: rest).
Proof. done. Qed.

Lemma parse_member fuel key value rest fields :
  string_text key = true -> well_formed_value value = true -> ends_value rest -> fields !! key = None ->
  parse_fields (S fuel) (print_member (key, value) ++ rest) fields =
  match skip_ws rest with
  | [] => malformed
  | ch :: rest => if Ascii.eqb ch "}" then close_object (<[key := value]> fields) rest
                  else if negb (Ascii.eqb ch ",") then malformed
                  else parse_fields fuel rest (<[key := value]> fields)
  end.
Proof.
  intros Hk Hv Hr Hf. unfold print_member. cbn [fst snd app]. rewrite <- !app_assoc. cbn [app parse_fields].
  rewrite parse_printed_string by done. rewrite skip_ws_cons by done. cbn [Ascii.eqb negb].
  by rewrite parse_printed_value, Hf.
Qed.

Definition readable (field : JsonField) : Prop := string_text field.1 = true /\ well_formed_value field.2 = true.

Lemma parse_members l fuel fields tail :
  skip_ws tail = [] -> l <> [] -> (List.length l <= fuel)%nat -> NoDup l.*1 -> Forall readable l ->
  Forall (fun field => fields !! field.1 = None) l ->
  parse_fields fuel (print_members l ++ "}"%char :: tail) fields = mkResult true (list_to_map l ∪ fields) "".
Proof.
  intros Htail. revert fuel fields; induction l as [|[key value] l IH]; intros fuel fields Hne Hfuel Hnd Hread Hnone; [done|].
  destruct fuel as [|fuel]; [cbn in Hfuel; lia|]. rewrite fmap_cons in Hnd. apply NoDup_cons in Hnd as [Hin Hnd].
  apply Forall_cons in Hread as [[Hk Hv] Hread]. apply Forall_cons in Hnone as [Hf Hnone]. cbn [fst snd] in *.
  assert (Hmap : list_to_map ((key, value) :: l) ∪ fields = list_to_map l ∪ <[key := value]> fields).
  { cbn [list_to_map foldr]. rewrite <- insert_union_l. apply insert_union_r. by apply not_elem_of_list_to_map. }
  rewrite Hmap. destruct l as [|next l].
  - cbn [print_members]. rewrite parse_member by (done || apply ends_value_brace). rewrite skip_ws_cons by done.
    cbn. unfold close_object. by rewrite Htail, map_empty_union.
  - change (print_members ((key, value) :: next :: l)) with (print_member (key, value) ++ ","%char :: print_members (next :: l)).
    rewrite <- app_assoc. cbn [app]. rewrite parse_member by (done || apply ends_value_comma).
    rewrite skip_ws_cons by done. cbn [Ascii.eqb negb]. apply IH; [done|cbn in *; lia|done|done|].
    apply Forall_forall. intros f Hin'. rewrite Forall_forall in Hnone. rewrite lookup_insert_ne; [by apply Hnone|].
    intros ->. apply Hin. by apply list_elem_of_fmap_2.
Qed.

Lemma print_members_length l : (List.length l <= List.length (print_members l))%nat.
Proof.
  induction l as [|f l IH]; [done|]. destruct l as [|g l]; [cbn; lia|].
  change (print_members (f :: g :: l)) with (print_member f ++ ","%char :: print_members (g :: l)).
  rewrite length_app. cbn [List.length] in *. lia.
Qed.

(** A line of distinct readable fields parses to exactly these fields. *)
Lemma line_reads_back l :
  l <> [] -> NoDup l.*1 -> Forall readable l ->
  parse_flat_json_object (print_line l ++ [newline]) = mkResult true (list_to_map l) "".
Proof.
  intros Hne Hnd Hread. unfold parse_flat_json_object, print_line. cbn [app]. rewrite skip_ws_cons by done.
  cbn [Ascii.eqb negb]. rewrite <- app_assoc. cbn [app].
  assert (exists r, print_members l ++ ["}"%char; newline] = quote :: r) as [r Hr] by (destruct l as [|? [|? ?]]; cbn; eauto; done).
  replace (skip_ws (print_members l ++ ["}"%char; newline])) with (quote :: r) by (by rewrite Hr, skip_ws_cons).
  cbn [Ascii.eqb]. rewrite <- Hr. rewrite parse_members; [by rewrite map_union_empty|done|done| |done|done|].
  - pose proof (print_members_length l). cbn [List.length]. rewrite length_app. lia.
  - by apply Forall_forall.
Qed.

Lemma number_readable n : u64 n -> well_formed_value (number n) = true.
Proof.
  intros Hn. destruct (to_string_decimal n Hn) as (Hd & Hne & _). unfold well_formed_value, number. cbn [fv_kind fv_text].
  rewrite list_ascii_of_string_of_list_ascii. destruct (to_string n) as [|c l]; [done|].
  assert (Hdigit : forall d, is_digit d = true -> literal_char d = true /\ Ascii.eqb d quote = false /\ Ascii.eqb d "{" = false /\
            Ascii.eqb d "[" = false /\ Ascii.eqb d "t" = false /\ Ascii.eqb d "f" = false).
  { intros [[] [] [] [] [] [] [] []]; vm_compute; naive_solver. }
  pose proof (proj1 (Forall_cons _ _ _) Hd) as [Hc _]. destruct (Hdigit c Hc) as (_ & H1 & H2 & H3 & H4 & H5).
  unfold number_token. rewrite H1, H2, H3. cbn [orb negb andb].
  assert (Hstart : forall w d, Ascii.eqb c d = false -> FlatJson.starts_with (d :: w) (c :: l) = false).
  { intros w d Hne'. unfold FlatJson.starts_with. apply bool_decide_eq_false. cbn. intros [= ->]. by rewrite Ascii.eqb_refl in Hne'. }
  unfold true_word, false_word. cbn [list_ascii_of_string]. rewrite !Hstart by done. cbn [negb andb].
  apply forallb_Forall. eapply Forall_impl; [exact Hd|]. intros d H. by apply Hdigit.
Qed.

Lemma boolean_readable b : well_formed_value (boolean b) = true.
Proof. by destruct b. Qed.

(** The reserved keys are the keys of the fields every event has. *)
Lemma reserved_exact windows now event config :
  (event_fields windows now event config).*1 ≡ₚ reserved_event_fields.
Proof. done. Qed.

Lemma reserved_nodup : NoDup reserved_event_fields.
Proof. by apply (bool_decide_unpack _). Qed.

Lemma reserved_elem key : reserved_event_field key = true <-> key ∈ reserved_event_fields.
Proof.
  unfold reserved_event_field. rewrite existsb_exists, list_elem_of_In. split.
  - by intros (x & Hx & ->%String.eqb_eq).
  - intros H. exists key. by rewrite String.eqb_refl.
Qed.

Lemma map_of_fields_perm fields : map_of_fields fields ≡ₚ map_to_list (list_to_map fields : gmap string string).
Proof. apply merge_sort_Permutation. Qed.

Lemma extra_fields_elem fields key value :
  (key, value) ∈ extra_fields fields <->
  reserved_event_field key = false /\
  exists v, value = text v /\ (list_to_map fields : gmap string string) !! key = Some v.
Proof.
  unfold extra_fields. rewrite list_elem_of_In, in_map_iff. split.
  - intros ([k v] & [= -> <-] & Hin). apply filter_In in Hin as [Hin Hr%negb_true_iff]. split; [done|].
    exists v. split; [done|]. rewrite <- list_elem_of_In, map_of_fields_perm in Hin. by apply elem_of_map_to_list.
  - intros (Hr & v & -> & Hv). exists (key, v). split; [done|]. apply filter_In. split; [|by apply negb_true_iff].
    by rewrite <- list_elem_of_In, map_of_fields_perm, elem_of_map_to_list.
Qed.

Lemma extra_fields_nodup fields : NoDup (extra_fields fields).*1.
Proof.
  unfold extra_fields.
  replace (map _ _).*1 with (List.filter (fun field => negb (reserved_event_field field.1)) (map_of_fields fields)).*1
    by (rewrite <- (list_fmap_compose (fun field : string * string => (field.1, text field.2)) fst); done).
  assert (H : NoDup (map_of_fields fields).*1) by (rewrite map_of_fields_perm; apply NoDup_fst_map_to_list).
  induction (map_of_fields fields) as [|[k v] l IH]; [constructor|]. rewrite fmap_cons in H. apply NoDup_cons in H as [Hk Hl].
  cbn [List.filter]. destruct (negb _); [|by apply IH]. rewrite fmap_cons. apply NoDup_cons. split; [|by apply IH].
  intros Hin. apply Hk. apply list_elem_of_fmap in Hin as (f & -> & Hf). apply list_elem_of_fmap. exists f. split; [done|].
  rewrite list_elem_of_In in Hf |- *. by apply filter_In in Hf as [? _].
Qed.

Lemma event_line_nodup windows now event config fields : NoDup (event_line windows now event config fields).*1.
Proof.
  unfold event_line. rewrite fmap_app. apply NoDup_app. split; [|split; [|apply extra_fields_nodup]].
  - rewrite reserved_exact. apply reserved_nodup.
  - intros key Hk. rewrite reserved_exact, <- reserved_elem in Hk. intros ([k v] & -> & Hf)%list_elem_of_fmap.
    apply extra_fields_elem in Hf as [Hr _]. cbn [fst] in Hk. congruence.
Qed.

(** The integers of the configuration are machine words and its texts have no
    control character without an escape. *)
Definition printable_config (windows : bool) (config : RuntimeConfig) : Prop :=
  string_text (rc_run_id config) = true /\ Forall readable (config_fields windows config).

Lemma event_fields_readable windows now event config :
  u64 now -> string_text event = true -> printable_config windows config ->
  Forall readable (event_fields windows now event config).
Proof.
  intros Hn He [Hr Hc]. apply Forall_app. split; [|done]. repeat (apply Forall_cons; split); [done| |exact (conj eq_refl Hr)|
    exact (conj eq_refl He)|constructor]. split; [done|by apply number_readable].
Qed.

(** A telemetry line parses, and it carries the fields of every event as
    they are and of the others exactly those whose key is not reserved: what an
    event adds cannot replace what identifies it. *)
Theorem telemetry_line_reads_back windows now event config fields :
  u64 now -> string_text event = true -> printable_config windows config ->
  Forall (fun field => string_text field.1 = true /\ string_text field.2 = true) fields ->
  exists m, parse_flat_json_object (print_line (event_line windows now event config fields) ++ [newline]) = mkResult true m "" /\
    (forall field, field ∈ event_fields windows now event config -> m !! field.1 = Some field.2) /\
    (forall key, reserved_event_field key = false ->
       m !! key = text <$> (list_to_map fields : gmap string string) !! key).
Proof.
  intros Hn He Hc Hf. pose proof (event_line_nodup windows now event config fields) as Hnd.
  exists (list_to_map (event_line windows now event config fields)). split; [|split].
  - apply line_reads_back; [done|done|]. apply Forall_app. split; [by apply event_fields_readable|].
    apply Forall_forall. intros [k v] (_ & t & -> & Ht)%extra_fields_elem.
    apply elem_of_list_to_map_2 in Ht. rewrite Forall_forall in Hf. by apply (Hf (k, t)).
  - intros [k v] Hin. apply elem_of_list_to_map_1; [done|]. apply elem_of_app. by left.
  - intros key Hr. destruct ((list_to_map fields : gmap string string) !! key) as [v|] eqn:Ev; cbn [fmap option_fmap option_map].
    + apply elem_of_list_to_map_1; [done|]. apply elem_of_app. right. apply extra_fields_elem. eauto.
    + apply not_elem_of_list_to_map. intros ([k v] & -> & [Hin|Hin]%elem_of_app)%list_elem_of_fmap.
      * assert (Hk : k ∈ (event_fields windows now event config).*1) by (by apply (list_elem_of_fmap_2 fst _ (k, v))).
        rewrite reserved_exact, <- reserved_elem in Hk. cbn [fst] in Hr. congruence.
      * apply extra_fields_elem in Hin as (_ & t & _ & Ht). cbn [fst] in Ev. congruence.
Qed.

Lemma telemetry_line_reads_back_witness :
  fr_ok (parse_flat_json_object (print_line (event_line true 5 "run_end" default_config
    [("status", "failed" +:+ String newline "closed"); ("event", "run_start")]) ++ [newline])) = true.
Proof.
  destruct (telemetry_line_reads_back true 5 "run_end" default_config
    [("status", "failed" +:+ String newline "closed"); ("event", "run_start")]) as (m & -> & _).
  - by unfold u64.
  - done.
  - split; [done|]. unfold config_fields. repeat (apply Forall_cons; split; [split; vm_compute; reflexivity|]). constructor.
  - repeat (apply Forall_cons; split; [split; vm_compute; reflexivity|]). constructor.
  - done.
Defined.

End Telemetry.
