(* ===== verification/Lifecycle.v ===== *)
(** * The lifecycle of a run

    [validate_phase0_lifecycle] of [src/benchmark/manifest_writer.cpp]: which
    event each line of a telemetry file names, and which sequences of events are
    the lifecycle of a run; with [tools/prism-validate-lifecycle/main.cpp].

    The first part shows that the search for a quoted name finds the event of a
    line that [Telemetry] wrote and nothing else. *)

From Stdlib Require Import Ascii String.
From stdpp Require Import gmap.
From S2P Require Import Prelude MemoryCap FlatJson Config Telemetry.
Import MemoryCap FlatJson Config Telemetry.

Open Scope string_scope.
Open Scope list_scope.
Open Scope Z_scope.

Module Lifecycle.

(** ** Lines *)

Fixpoint is_prefix (needle l : list ascii) : bool :=
  match needle, l with
  | [], _ => true
  | c :: needle, d :: l => Ascii.eqb c d && is_prefix needle l
  | _, _ => false
  end.

(** [line.find(needle) != npos]. *)
Fixpoint line_contains (line needle : list ascii) : bool :=
  is_prefix needle line || match line with [] => false | _ :: line => line_contains line needle end.

(** [std::getline] until it fails: a last line without its end counts when it
    is not empty. *)
Fixpoint getlines (l current : list ascii) : list (list ascii) :=
  match l with
  | [] => match current with [] => [] | _ => [current] end
  | c :: l => if Ascii.eqb c newline then current :: getlines l [] else getlines l (current ++ [c])
  end.

(** ["event":"name"], the quotes included. *)
Definition needle (name : string) : list ascii :=
  quote :: list_ascii_of_string "event" ++ [quote; ":"%char; quote] ++ list_ascii_of_string name ++ [quote].

(** The names in the order they are looked for. *)
Definition event_names : list string := [
  "run_start"; "config_validated"; "telemetry_probe"; "model_sidecar_validated";
  "backend_selected"; "dependency_pins_resolved"; "cuda_context_probe"; "cap_semantics_resolved";
  "host_prepare"; "model_load_plan"; "backend_init"; "backend_warmup";
  "kv_cache_profile"; "prefill_start"; "prefill_end"; "kv_cache_sample";
  "decode_start"; "decode_token"; "decode_end"; "quality_gate_result";
  "baseline_selected"; "transfer_plan"; "transfer_sample"; "offload_sample";
  "profitability_result"; "hybrid_plan_created"; "claim_classified"; "usability_result";
  "repeatability_result"; "claim_validation_result"; "memory_sample"; "cap_certification_result";
  "completed"; "failed_closed"; "run_end"].

Definition event_of_line (line : list ascii) : option string :=
  List.find (fun name => line_contains line (needle name)) event_names.

Definition events_of_text (content : list ascii) : list string := omap event_of_line (getlines content []).

(** ** The order of events *)

Record Seen := mkSeen {
  saw_terminal : bool;
  saw_memory : bool;
  saw_cap_semantics : bool;
  saw_host_prepare : bool;
  saw_backend_selected : bool;
  saw_dependency_pins : bool;
  saw_model_load_plan : bool;
  saw_backend_init : bool;
  saw_backend_warmup : bool;
  saw_kv_profile : bool;
  saw_prefill_start : bool;
  saw_kv_sample : bool;
  saw_prefill_end : bool;
  saw_decode_start : bool;
  saw_decode_end : bool;
  saw_quality_gate : bool;
  saw_baseline_selected : bool;
  saw_transfer_plan : bool;
  saw_transfer_sample : bool;
  saw_profitability_result : bool;
  saw_memory_after_quality : bool;
  saw_quality_before_memory : bool;
  saw_phase3_before_memory : bool;
  saw_hybrid_plan : bool;
  saw_claim_classified : bool;
  saw_usability_result : bool;
  saw_repeatability_result : bool;
  saw_claim_validation_result : bool;
  saw_phase4_before_memory : bool;
}.

Definition nothing_seen : Seen :=
  mkSeen false false false false false false false false false false false false false false false false false false false false false false false false false false false false false.

(** The body of the loop; its tests exclude each other. *)
Definition see (s : Seen) (event : string) : Seen :=
  if event =s "cap_semantics_resolved" then {| s with saw_cap_semantics := true |}
  else if event =s "host_prepare" then {| s with saw_host_prepare := true |}
  else if event =s "backend_selected" then {| s with saw_backend_selected := true |}
  else if event =s "dependency_pins_resolved" then {| s with saw_dependency_pins := true |}
  else if event =s "model_load_plan" then {| s with saw_model_load_plan := true |}
  else if event =s "backend_init" then {| s with saw_backend_init := true |}
  else if event =s "backend_warmup" then {| s with saw_backend_warmup := true |}
  else if event =s "kv_cache_profile" then {| s with saw_kv_profile := true |}
  else if event =s "prefill_start" then {| s with saw_prefill_start := true |}
  else if event =s "kv_cache_sample" then {| s with saw_kv_sample := true |}
  else if event =s "prefill_end" then {| s with saw_prefill_end := true |}
  else if event =s "decode_start" then {| s with saw_decode_start := true |}
  else if event =s "decode_end" then {| s with saw_decode_end := true |}
  else if event =s "quality_gate_result" then {| s with saw_quality_gate := true; saw_quality_before_memory := negb (saw_memory s) |}
  else if event =s "baseline_selected" then {| s with saw_baseline_selected := true |}
  else if event =s "transfer_plan" then {| s with saw_transfer_plan := true |}
  else if event =s "transfer_sample" then {| s with saw_transfer_sample := true |}
  else if event =s "profitability_result" then {| s with saw_profitability_result := true; saw_phase3_before_memory := negb (saw_memory s) |}
  else if event =s "hybrid_plan_created" then {| s with saw_hybrid_plan := true |}
  else if event =s "claim_classified" then {| s with saw_claim_classified := true |}
  else if event =s "usability_result" then {| s with saw_usability_result := true |}
  else if event =s "repeatability_result" then {| s with saw_repeatability_result := true |}
  else if event =s "claim_validation_result" then {| s with saw_claim_validation_result := true; saw_phase4_before_memory := negb (saw_memory s) |}
  else if event =s "memory_sample" then {| s with saw_memory_after_quality := saw_memory_after_quality s || saw_quality_gate s; saw_memory := true |}
  else if (event =s "completed") || (event =s "failed_closed") then {| s with saw_terminal := true |}
  else s.

Definition skip_event (event : string) (events : list string) : list string :=
  match events with
  | e :: rest => if e =s event then rest else events
  | [] => []
  end.

(** [require_next] for each name. *)
Fixpoint require_events (expected events : list string) : option (list string) :=
  match expected, events with
  | [], _ => Some events
  | x :: expected, e :: events => if e =s x then require_events expected events else None
  | _ :: _, [] => None
  end.

(** The verdict on what was seen; [early] stands for the two early failures. *)
Definition judge (s : Seen) (early : bool) : string + unit :=
  _ ← refuse_if (negb (saw_cap_semantics s) && negb early) "missing_cap_semantics_resolved";
  _ ← refuse_if (negb (saw_host_prepare s) && negb early) "missing_host_prepare";
  _ ← refuse_if (negb (saw_backend_selected s) && negb early) "missing_backend_selected";
  _ ← refuse_if (negb (saw_dependency_pins s) && negb early) "missing_dependency_pins_resolved";
  _ ← refuse_if (negb (saw_model_load_plan s) && negb early) "missing_model_load_plan";
  _ ← refuse_if (negb (saw_backend_init s) && negb early) "missing_backend_init";
  _ ← refuse_if (negb (saw_backend_warmup s) && negb early) "missing_backend_warmup";
  _ ← refuse_if (saw_kv_profile s &&
                 (negb (saw_prefill_start s) || negb (saw_kv_sample s) || negb (saw_prefill_end s) ||
                  negb (saw_decode_start s) || negb (saw_decode_end s) || negb (saw_quality_gate s)))
        "missing_phase2_kv_lifecycle_event";
  _ ← refuse_if (saw_kv_profile s && (negb (saw_quality_before_memory s) || negb (saw_memory_after_quality s)))
        "phase2_quality_must_precede_memory_sample";
  let phase3 := saw_baseline_selected s || saw_transfer_plan s || saw_transfer_sample s || saw_profitability_result s in
  _ ← refuse_if (phase3 && (negb (saw_baseline_selected s) || negb (saw_transfer_plan s) ||
                            negb (saw_transfer_sample s) || negb (saw_profitability_result s)))
        "missing_phase3_profitability_lifecycle_event";
  _ ← refuse_if (phase3 && negb (saw_phase3_before_memory s)) "phase3_profitability_must_precede_memory_sample";
  let phase4 := saw_hybrid_plan s || saw_claim_classified s || saw_usability_result s ||
                saw_repeatability_result s || saw_claim_validation_result s in
  _ ← refuse_if (phase4 && (negb (saw_hybrid_plan s) || negb (saw_claim_classified s) || negb (saw_usability_result s) ||
                            negb (saw_repeatability_result s) || negb (saw_claim_validation_result s)))
        "missing_phase4_claim_lifecycle_event";
  _ ← refuse_if (phase4 && negb (saw_phase4_before_memory s)) "phase4_claim_validation_must_precede_memory_sample";
  refuse_if (negb (saw_terminal s)) "missing_terminal_event".

Definition validate_events (events : list string) : string + unit :=
  _ ← refuse_if (Nat.ltb (List.length events) 6) "too_few_lifecycle_events";
  _ ← refuse_if (negb (bool_decide (List.hd_error events = Some "run_start"))) "first_event_not_run_start";
  _ ← refuse_if (negb (bool_decide (last events = Some "run_end"))) "last_event_not_run_end";
  match require_events ["run_start"; "config_validated"; "telemetry_probe"] events with
  | None => inl "required_prefix_missing"
  | Some rest =>
      let rest := skip_event "cuda_context_probe" rest in
      let rest := skip_event "model_sidecar_validated" rest in
      let rest := skip_event "cuda_context_probe" rest in
      let s := fold_left see rest nothing_seen in
      let early := saw_terminal s && negb (saw_cap_semantics s) in
      let early_cuda_fail_closed := early && existsb (String.eqb "cuda_context_probe") events in
      let early_sidecar_fail_closed := early && existsb (String.eqb "model_sidecar_validated") events in
      _ ← refuse_if (negb (saw_memory s)) "missing_memory_sample";
      judge s (early_cuda_fail_closed || early_sidecar_fail_closed)
  end.

(** [content] is [None] where the file does not open. *)
Definition validate_phase0_lifecycle (telemetry_path : string) (content : option (list ascii)) : string + unit :=
  match content with
  | None => inl ("failed_to_open_telemetry_path: " +:+ telemetry_path)
  | Some content => validate_events (events_of_text content)
  end.

(** [main] of [prism-validate-lifecycle]: the line it prints and its exit code. *)
Definition validate_lifecycle_main (arguments : list string) (file : string -> option (list ascii)) : list ascii * Z :=
  match arguments with
  | [path] =>
      let verdict := validate_phase0_lifecycle path (file path) in
      let valid := match verdict with inr _ => true | inl _ => false end in
      (print_line [("valid", boolean valid); ("path", text path);
                   ("error", text (match verdict with inl error => error | inr _ => "" end))] ++ [newline],
       if valid then 0 else 2)
  | _ => ([], 1)
  end.

(** ** The search finds the event of a line *)

(** Characters that are printed as they are and are no quote. *)
Definition plain_char (c : ascii) : bool := negb (Ascii.eqb c quote || Ascii.eqb c backslash) && Nat.eqb (List.length (escape_char c)) 1.

Definition plain (l : list ascii) : bool := forallb plain_char l.

Lemma escape_shape c :
  (plain_char c = true /\ escape_char c = [c]) \/ exists d, escape_char c = [backslash; d].
Proof. destruct c as [[] [] [] [] [] [] [] []]; vm_compute; naive_solver. Qed.

Lemma plain_not_quote c : plain_char c = true -> Ascii.eqb quote c = false /\ Ascii.eqb c quote = false /\ Ascii.eqb c backslash = false.
Proof. destruct c as [[] [] [] [] [] [] [] []]; vm_compute; naive_solver. Qed.

Lemma escape_plain l : plain l = true -> List.concat (map escape_char l) = l.
Proof.
  induction l as [|c l IH]; [done|]. unfold plain. cbn [forallb]. intros [Hc Hl]%andb_prop.
  cbn [map List.concat]. destruct (escape_shape c) as [[_ ->]|[d Hd]]; [by rewrite IH|].
  unfold plain_char in Hc. rewrite Hd, andb_false_r in Hc. done.
Qed.

(** A plain word and a quote, looked for at the start of an escaped string:
    they are found only as the whole string. *)
Lemma prefix_escaped word after l rest :
  plain word = true ->
  is_prefix (word ++ quote :: after) (List.concat (map escape_char l) ++ quote :: rest) =
  bool_decide (l = word) && is_prefix after rest.
Proof.
  revert l; induction word as [|a word IH]; intros l Hw; cbn [app is_prefix].
  - destruct l as [|c l]; [done|]. cbn [map List.concat].
    destruct (escape_shape c) as [[Hc ->]|[d ->]]; cbn [app]; [|done].
    by destruct (plain_not_quote c Hc) as (-> & _).
  - unfold plain in Hw. cbn [forallb] in Hw. apply andb_prop in Hw as [Ha Hw]. destruct (plain_not_quote a Ha) as (_ & Hq & Hb).
    destruct l as [|c l]; cbn [map List.concat app]; [by rewrite Hq|].
    destruct (escape_shape c) as [[Hc ->]|[d Hd]].
    + cbn [app]. destruct (Ascii.eqb_spec a c) as [->|Hne]; cbn [andb].
      * rewrite IH by done. f_equal. apply bool_decide_ext. split; [by intros ->|by intros [= ->]].
      * symmetry. apply andb_false_intro1, bool_decide_eq_false. intros [= -> _]. done.
    + rewrite Hd. cbn [app]. rewrite Hb. symmetry. apply andb_false_intro1, bool_decide_eq_false. intros [= -> _].
      unfold plain_char in Ha. by rewrite Hd, andb_false_r in Ha.
Qed.

Section Search.
  (** The word after the quote that starts the name of the event. *)
  Context (name : string) (Hname : plain (list_ascii_of_string name) = true).

Definition after_key : list ascii := ":"%char :: quote :: list_ascii_of_string name ++ [quote].

Lemma needle_split : needle name = quote :: list_ascii_of_string "event" ++ quote :: after_key.
Proof. unfold needle, after_key. done. Qed.

Lemma contains_cons c l : Ascii.eqb quote c = false -> line_contains (c :: l) (needle name) = line_contains l (needle name).
Proof. intros H. cbn [line_contains]. rewrite needle_split. cbn [is_prefix]. by rewrite H. Qed.

Lemma contains_quote l :
  line_contains (quote :: l) (needle name) =
  is_prefix (list_ascii_of_string "event" ++ quote :: after_key) l || line_contains l (needle name).
Proof. cbn [line_contains]. rewrite needle_split. cbn [is_prefix]. by rewrite Ascii.eqb_refl. Qed.

(** Nothing is found in a string value: what follows its end is no colon. *)
Lemma contains_string l c rest :
  Ascii.eqb ":" c = false -> Ascii.eqb "e" c = false ->
  line_contains (List.concat (map escape_char l) ++ quote :: c :: rest) (needle name) =
  line_contains (c :: rest) (needle name).
Proof.
  intros Hc He.
  assert (Hend : forall l, is_prefix (list_ascii_of_string "event" ++ quote :: after_key)
                   (List.concat (map escape_char l) ++ quote :: c :: rest) = false).
  { intros l'. rewrite prefix_escaped by done. unfold after_key. cbn [is_prefix]. by rewrite Hc, andb_false_r. }
  induction l as [|x l IH]; cbn [map List.concat app].
  - rewrite contains_quote. cbn [list_ascii_of_string app is_prefix]. by rewrite He.
  - destruct (escape_shape x) as [[Hx ->]|[d ->]]; cbn [app].
    + rewrite contains_cons by (by apply plain_not_quote). exact IH.
    + rewrite contains_cons by done. destruct (Ascii.eqb_spec quote d) as [<-|Hd].
      * rewrite contains_quote, Hend. exact IH.
      * rewrite contains_cons by (by apply Ascii.eqb_neq). exact IH.
Qed.

(** A value that is not a string has no quote. *)
Definition plain_value (value : FlatJsonValue) : bool :=
  match fv_kind value with StringKind => true | _ => plain (list_ascii_of_string (fv_text value)) end.

Lemma contains_plain l rest : plain l = true ->
  line_contains (l ++ rest) (needle name) = line_contains rest (needle name).
Proof.
  induction l as [|c l IH]; [done|]. unfold plain. cbn [forallb app]. intros [Hc Hl]%andb_prop.
  rewrite contains_cons by (by apply plain_not_quote). by apply IH.
Qed.

Lemma contains_value value c rest :
  plain_value value = true -> Ascii.eqb ":" c = false -> Ascii.eqb "e" c = false -> Ascii.eqb quote c = false ->
  line_contains (print_value value ++ c :: rest) (needle name) = line_contains rest (needle name).
Proof.
  intros Hv Hc He Hq. unfold plain_value, print_value in *. destruct (fv_kind value).
  - cbn [app]. rewrite <- app_assoc. cbn [app]. rewrite contains_quote. unfold json_escape.
    rewrite prefix_escaped by done. unfold after_key at 1. cbn [is_prefix]. rewrite Hc, andb_false_r. cbn [orb].
    rewrite contains_string by done. by apply contains_cons.
  - rewrite contains_plain by done. by apply contains_cons.
  - rewrite contains_plain by done. by apply contains_cons.
Qed.

Definition names_event (field : string * FlatJsonValue) : bool :=
  (field.1 =s "event") && match fv_kind field.2 with StringKind => fv_text field.2 =s name | _ => false end.

Lemma same_text (a b : string) : bool_decide (list_ascii_of_string a = list_ascii_of_string b) = (a =s b).
Proof.
  destruct (String.eqb_spec a b) as [->|Hne]; [by apply bool_decide_eq_true|]. apply bool_decide_eq_false. intros H.
  apply Hne. by rewrite <- (string_of_list_ascii_of_string a), H, string_of_list_ascii_of_string.
Qed.

(** The value after the key: the name, and the quote that ends it. *)
Lemma prefix_value value c rest :
  plain_value value = true -> Ascii.eqb quote c = false ->
  is_prefix (quote :: list_ascii_of_string name ++ [quote]) (print_value value ++ c :: rest) =
  match fv_kind value with StringKind => fv_text value =s name | _ => false end.
Proof.
  intros Hv Hc. unfold plain_value, print_value in *.
  assert (Hplain : forall l w, plain l = true -> is_prefix (quote :: w) (l ++ c :: rest) = false).
  { intros [|d l] w Hl; cbn [app is_prefix]; [by rewrite Hc|]. unfold plain in Hl. cbn [forallb] in Hl.
    apply andb_prop in Hl as [Hd _]. by destruct (plain_not_quote d Hd) as (-> & _). }
  destruct (fv_kind value); [|by apply Hplain..].
  cbn [app is_prefix]. rewrite Ascii.eqb_refl. cbn [andb]. rewrite <- app_assoc. cbn [app]. unfold json_escape.
  rewrite prefix_escaped by done. rewrite same_text. cbn [is_prefix]. by rewrite andb_true_r.
Qed.

(** A member is found exactly when it is the event of this name. *)
Lemma contains_member field c rest :
  plain (list_ascii_of_string field.1) = true -> plain_value field.2 = true ->
  Ascii.eqb ":" c = false -> Ascii.eqb "e" c = false -> Ascii.eqb quote c = false ->
  line_contains (print_member field ++ c :: rest) (needle name) = names_event field || line_contains rest (needle name).
Proof.
  destruct field as [key value]. cbn [fst snd]. intros Hk Hv Hc He Hq. unfold print_member. cbn [fst snd].
  cbn [app]. rewrite <- !app_assoc. cbn [app]. rewrite contains_quote. unfold json_escape.
  rewrite prefix_escaped by done. rewrite escape_plain, contains_plain, contains_quote by done.
  replace (is_prefix (list_ascii_of_string "event" ++ quote :: after_key) (":"%char :: print_value value ++ c :: rest))
    with false by done.
  rewrite orb_false_l, contains_cons, contains_value, same_text by done. f_equal.
  unfold names_event. cbn [fst snd]. f_equal. unfold after_key.
  change (is_prefix (":"%char :: ?w) (":"%char :: ?l)) with (is_prefix w l).
  by apply prefix_value.
Qed.

Definition searchable (field : string * FlatJsonValue) : Prop :=
  plain (list_ascii_of_string field.1) = true /\ plain_value field.2 = true.

Lemma contains_members l rest :
  Forall searchable l ->
  line_contains (print_members l ++ "}"%char :: rest) (needle name) =
  existsb names_event l || line_contains rest (needle name).
Proof.
  induction 1 as [|field l [Hk Hv] Hl IH]; [by apply contains_cons|]. cbn [existsb]. destruct l as [|next l].
  - cbn [print_members]. by rewrite contains_member, orb_false_r by done.
  - change (print_members (field :: next :: l)) with (print_member field ++ ","%char :: print_members (next :: l)).
    rewrite <- app_assoc. cbn [app]. rewrite contains_member, IH by done. by rewrite orb_assoc.
Qed.

(** A name is found in a line exactly when a field of the line has the key
    [event] and this name as its value. *)
Lemma contains_line l : Forall searchable l -> line_contains (print_line l) (needle name) = existsb names_event l.
Proof.
  intros H. unfold print_line. rewrite contains_cons, contains_members by done. apply orb_false_r.
Qed.

End Search.

(** ** What a run writes *)

(** One call of the writer. *)
Inductive TelemetryEvent :=
| Emitted (event : string) (config : RuntimeConfig) (fields : list (string * string))
| Sampled (config : RuntimeConfig) (sample : MemorySample) (telemetry_agreement : bool).

Definition event_name (e : TelemetryEvent) : string :=
  match e with Emitted event _ _ => event | Sampled _ _ _ => "memory_sample" end.

Definition write_event (windows : bool) (t : JsonlTelemetry) (stamped : Z * TelemetryEvent) : JsonlTelemetry :=
  match stamped.2 with
  | Emitted event config fields => emit windows stamped.1 event config fields t
  | Sampled config sample agreement => emit_memory_sample windows stamped.1 config sample agreement t
  end.

(** The file after a run, each event with the time it was written at. *)
Definition written (windows : bool) (events : list (Z * TelemetryEvent)) : list ascii :=
  jt_written (fold_left (write_event windows) events (open_telemetry true "")).

Definition line_of (windows : bool) (stamped : Z * TelemetryEvent) : list (string * FlatJsonValue) :=
  match stamped.2 with
  | Emitted event config fields => event_line windows stamped.1 event config fields
  | Sampled config sample agreement => memory_line windows stamped.1 config sample agreement
  end.

Definition plain_keys (e : TelemetryEvent) : bool :=
  match e with Emitted _ _ fields => forallb (fun field => plain (list_ascii_of_string field.1)) fields | Sampled _ _ _ => true end.

Lemma to_digits_digits fuel n acc :
  Forall (fun c => is_digit c = true) acc -> Forall (fun c => is_digit c = true) (to_digits fuel n acc).
Proof.
  revert n acc; induction fuel as [|fuel IH]; intros n acc H; cbn [to_digits]; [done|].
  assert (H' : Forall (fun c => is_digit c = true) (ascii_of_N (Z.to_N (48 + n mod 10)) :: acc)).
  { constructor; [|done]. apply digit_char, Z.mod_pos_bound. lia. }
  cbv zeta. destruct (n / 10 =? 0); [done|by apply IH].
Qed.

Lemma digit_plain c : is_digit c = true -> plain_char c = true.
Proof. destruct c as [[] [] [] [] [] [] [] []]; vm_compute; congruence. Qed.

Lemma number_searchable n : plain_value (number n) = true.
Proof.
  unfold plain_value, number. cbn [fv_kind fv_text]. rewrite list_ascii_of_string_of_list_ascii. unfold plain, to_string.
  apply forallb_Forall. eapply Forall_impl; [by apply to_digits_digits|]. intros c H. by apply digit_plain.
Qed.

Lemma boolean_searchable b : plain_value (boolean b) = true.
Proof. by destruct b. Qed.

(** The values of a list are of these three forms, under plain keys. *)
Ltac searchable_fields :=
  repeat (apply Forall_cons; split;
    [split; [reflexivity|cbn [snd]; first [reflexivity | apply number_searchable | apply boolean_searchable]]|]);
  constructor.

Lemma event_fields_searchable windows now event config : Forall searchable (event_fields windows now event config).
Proof. apply Forall_app. split; [|unfold config_fields]; searchable_fields. Qed.

Lemma line_searchable windows stamped : plain_keys stamped.2 = true -> Forall searchable (line_of windows stamped).
Proof.
  destruct stamped as [now [event config fields|config sample agreement]]; cbn [snd plain_keys]; intros Hk;
    unfold line_of; cbn [fst snd]; apply Forall_app; (split; [apply event_fields_searchable|]).
  - apply Forall_forall. intros [k v] (_ & t & -> & Ht)%extra_fields_elem. split; [|done]. cbn [fst].
    apply elem_of_list_to_map_2 in Ht. rewrite forallb_Forall, Forall_forall in Hk. exact (Hk _ Ht).
  - unfold sample_fields. searchable_fields.
Qed.

(** The line has one field with the key [event]. *)
Lemma line_event windows stamped name :
  existsb (names_event name) (line_of windows stamped) = (event_name stamped.2 =s name).
Proof.
  assert (Hextra : forall fields, existsb (names_event name) (extra_fields fields) = false).
  { intros fields. apply not_true_iff_false. rewrite existsb_exists. intros ([k v] & Hin & Hn).
    apply list_elem_of_In, extra_fields_elem in Hin as [Hr _]. unfold names_event in Hn. cbn [fst] in Hn.
    apply andb_prop in Hn as [->%String.eqb_eq _]. done. }
  destruct stamped as [now [event config fields|config sample agreement]]; unfold line_of, event_name; cbn [fst snd].
  - unfold event_line. rewrite existsb_app, Hextra, orb_false_r. unfold event_fields. cbn. by rewrite orb_false_r.
  - unfold memory_line, event_fields. cbn. by rewrite orb_false_r.
Qed.

Definition known_event (name : string) : bool := existsb (String.eqb name) event_names.

Lemma event_names_plain name : name ∈ event_names -> plain (list_ascii_of_string name) = true.
Proof. revert name. apply Forall_forall. by apply (bool_decide_unpack _). Qed.

Lemma event_of_written windows stamped :
  plain_keys stamped.2 = true ->
  event_of_line (print_line (line_of windows stamped)) =
  if known_event (event_name stamped.2) then Some (event_name stamped.2) else None.
Proof.
  intros Hk. unfold event_of_line, known_event. pose proof event_names_plain as Hp.
  induction event_names as [|name names IH]; [done|]. cbn [List.find existsb].
  rewrite contains_line by first [by apply line_searchable | apply Hp; set_solver]. rewrite line_event.
  destruct (String.eqb_spec (event_name stamped.2) name) as [->|Hne]; [done|]. apply IH. intros x Hx. apply Hp. set_solver.
Qed.

Lemma getlines_line line rest current :
  Forall (fun c => c <> newline) line -> getlines (line ++ newline :: rest) current = (current ++ line) :: getlines rest [].
Proof.
  revert current; induction line as [|c line IH]; intros current H; cbn [app getlines].
  - by rewrite app_nil_r.
  - apply Forall_cons in H as [Hc H]. rewrite (proj2 (Ascii.eqb_neq c newline) Hc), IH, <- app_assoc by done. done.
Qed.

Lemma escaped_no_newline l : Forall (fun c => c <> newline) (List.concat (map escape_char l)).
Proof.
  induction l as [|c l IH]; [done|]. cbn [map List.concat]. apply Forall_app. split; [|done].
  destruct c as [[] [] [] [] [] [] [] []]; vm_compute; repeat constructor; discriminate.
Qed.

Lemma plain_no_newline l : plain l = true -> Forall (fun c => c <> newline) l.
Proof. intros H. rewrite <- (escape_plain l H). apply escaped_no_newline. Qed.

Lemma value_no_newline value : plain_value value = true -> Forall (fun c => c <> newline) (print_value value).
Proof.
  unfold plain_value, print_value. destruct (fv_kind value); [|apply plain_no_newline..].
  intros _. constructor; [done|]. apply Forall_app. split; [apply escaped_no_newline|by repeat constructor].
Qed.

(** A line has no end of line inside. *)
Lemma line_no_newline l : Forall searchable l -> Forall (fun c => c <> newline) (print_line l).
Proof.
  intros H. unfold print_line. constructor; [done|]. apply Forall_app. split; [|by repeat constructor].
  assert (Hm : forall field, searchable field -> Forall (fun c => c <> newline) (print_member field)).
  { intros field [Hk Hv]. unfold print_member. constructor; [done|]. apply Forall_app. split; [apply escaped_no_newline|].
    do 2 (constructor; [done|]). by apply value_no_newline. }
  induction H as [|field l Hf Hl IH]; [done|]. destruct l as [|next l]; [by apply Hm|].
  change (print_members (field :: next :: l)) with (print_member field ++ ","%char :: print_members (next :: l)).
  apply Forall_app. split; [by apply Hm|]. by constructor.
Qed.

Lemma write_event_line windows t e :
  write_event windows t e = write_line t (line_of windows e).
Proof. by destruct e as [now []]. Qed.

Lemma written_lines windows events :
  written windows events = List.concat (map (fun e => print_line (line_of windows e) ++ [newline]) events).
Proof.
  unfold written. enough (H : forall t, jt_ok t = true -> jt_written (fold_left (write_event windows) events t) =
    jt_written t ++ List.concat (map (fun e => print_line (line_of windows e) ++ [newline]) events)) by (by apply H).
  induction events as [|e events IH]; intros t Ht; cbn [fold_left map List.concat]; [by rewrite app_nil_r|].
  rewrite write_event_line. unfold write_line. rewrite Ht. cbn [negb]. rewrite IH by done. cbn [jt_written].
  by rewrite <- app_assoc.
Qed.

Definition well_named (e : TelemetryEvent) : bool := plain_keys e && known_event (event_name e).

Lemma written_read_back windows events :
  Forall (fun e => well_named e.2 = true) events ->
  events_of_text (written windows events) = map (fun e => event_name e.2) events.
Proof.
  rewrite written_lines. unfold events_of_text. induction 1 as [|e events [Hp Hk]%andb_prop He IH]; [done|].
  cbn [map List.concat]. rewrite <- app_assoc. cbn [app].
  rewrite getlines_line by (by apply line_no_newline, line_searchable). cbn [app].
  change (omap event_of_line (?l :: ?ls)) with (match event_of_line l with Some x => x :: omap event_of_line ls | None => omap event_of_line ls end).
  by rewrite event_of_written, Hk, IH by done.
Qed.

(** Reading a telemetry file back by searching its lines for the quoted
    names gives the events the run wrote, in order, whatever texts the
    configuration and the fields contain. *)
Theorem events_read_back windows events :
  Forall (fun e => well_named e.2 = true) events ->
  events_of_text (written windows events) = map (fun e => event_name e.2) events.
Proof. apply written_read_back. Qed.

Lemma events_read_back_witness :
  events_of_text (written true [(1, Emitted "run_start" default_config []);
    (2, Emitted "failed_closed" {| default_config with rc_run_id := String quote "event" |}
          [("failure_reason", String quote "event" +:+ String quote (String ":" (String quote "completed"))); ("event", "completed")]);
    (3, Sampled default_config default_MemorySample true)]) = ["run_start"; "failed_closed"; "memory_sample"].
Proof.
  apply (events_read_back true [(1, Emitted "run_start" default_config []);
    (2, Emitted "failed_closed" {| default_config with rc_run_id := String quote "event" |}
          [("failure_reason", String quote "event" +:+ String quote (String ":" (String quote "completed"))); ("event", "completed")]);
    (3, Sampled default_config default_MemorySample true)]).
  by repeat (apply Forall_cons; split; [vm_compute; reflexivity|]).
Defined.


(** ** The judge of a run that decodes *)

Definition not_token (event : string) : bool := negb (event =s "decode_token").

(** The events but the tokens. *)
Definition quiet (events : list string) : list string := List.filter not_token events.

Lemma quiet_app a b : quiet (a ++ b) = quiet a ++ quiet b.
Proof. apply List.filter_app. Qed.

Lemma see_quiet events s : fold_left see events s = fold_left see (quiet events) s.
Proof.
  revert s; induction events as [|e events IH]; intros s; [done|]. unfold quiet. cbn [List.filter]. unfold not_token at 1.
  destruct (String.eqb_spec e "decode_token") as [->|_]; cbn [negb fold_left]; apply IH.
Qed.

Lemma existsb_quiet name events :
  name <> "decode_token" -> existsb (String.eqb name) events = existsb (String.eqb name) (quiet events).
Proof.
  intros Hn. induction events as [|e events IH]; [done|]. unfold quiet. cbn [List.filter existsb]. unfold not_token at 1.
  rewrite IH. destruct (String.eqb_spec e "decode_token") as [->|_]; [|done].
  by rewrite (proj2 (String.eqb_neq name "decode_token") Hn).
Qed.

(** How every run starts. *)
Definition opening : list string := ["run_start"; "config_validated"; "telemetry_probe"; "model_sidecar_validated"].

(** The tokens of a run do not count. *)
Lemma validate_quiet x events :
  not_token x = true ->
  validate_events (opening ++ x :: events ++ ["run_end"]) = validate_events (opening ++ x :: quiet events ++ ["run_end"]).
Proof.
  intros Hx. unfold validate_events, opening. cbn [app].
  assert (Hlen : forall l, Nat.ltb (List.length ("run_start" :: "config_validated" :: "telemetry_probe" ::
      "model_sidecar_validated" :: x :: l ++ ["run_end"])) 6 = false).
  { intros l. apply Nat.ltb_ge. cbn [List.length]. rewrite length_app. cbn [List.length]. lia. }
  assert (Hlast : forall l, last ("run_start" :: "config_validated" :: "telemetry_probe" ::
      "model_sidecar_validated" :: x :: l ++ ["run_end"]) = Some "run_end").
  { intros l. exact (last_snoc "run_end" (opening ++ x :: l)). }
  assert (Hreq : forall l, require_events ["run_start"; "config_validated"; "telemetry_probe"]
      ("run_start" :: "config_validated" :: "telemetry_probe" :: l) = Some l) by done.
  assert (Hskip : forall l, skip_event "cuda_context_probe" (skip_event "model_sidecar_validated"
      (skip_event "cuda_context_probe" ("model_sidecar_validated" :: l))) = skip_event "cuda_context_probe" l) by done.
  assert (Hf : forall l s, fold_left see (skip_event "cuda_context_probe" (x :: l ++ ["run_end"])) s =
      fold_left see (skip_event "cuda_context_probe" (x :: quiet l ++ ["run_end"])) s).
  { intros l s. unfold skip_event. destruct (x =s _); cbn [fold_left]; by rewrite !fold_left_app, (see_quiet l). }
  rewrite !Hlen, !Hlast, !Hreq. cbv zeta. rewrite !Hskip, Hf.
  assert (He : forall name l, name <> "decode_token" -> existsb (String.eqb name) ("run_start" :: "config_validated" ::
      "telemetry_probe" :: "model_sidecar_validated" :: x :: l ++ ["run_end"]) = existsb (String.eqb name) ("run_start" ::
      "config_validated" :: "telemetry_probe" :: "model_sidecar_validated" :: x :: quiet l ++ ["run_end"])).
  { intros name l Hn. cbn [existsb]. by rewrite !existsb_app, <- existsb_quiet by done. }
  by rewrite <- !He by done.
Qed.

End Lifecycle.
