(* ===== verification/Backends.v ===== *)
(** * Backends and the CUDA context probe

    [src/backend/null_backend.cpp], [src/backend/fake_backend.cpp] and
    [include/prisminfer/backend.h]: what a backend is asked for and what its
    warm-up reports; [src/governor/cuda_context_probe.cpp]: the memory a CUDA
    context takes.  The llama backend is in [LlamaBackend].

    The CUDA runtime and NVML are answers. *)

From Stdlib Require Import Ascii String.
From S2P Require Import Prelude MemoryCap KvCache Config.
Import MemoryCap Config.

Open Scope string_scope.
Open Scope list_scope.
Open Scope Z_scope.

Module Backends.

Definition kBackendContractVersion : string := "0.2".

(** ** Plans *)

Record BackendPlan := mkPlan {
  bp_backend_name : string;
  bp_backend_version : string;
  bp_model_path : string;
  bp_model_parameter_bucket : string;
  bp_parameter_count : Z;
  bp_model_size_bytes : Z;
  bp_requested_context_tokens : Z;
  bp_hard_vram_cap_bytes : Z;
  bp_vram_tier_gib : Z;
  bp_gpu_layers : Z;
  bp_mmap_enabled : bool;
  bp_gpu_requested : bool;
}.

Definition make_backend_plan (config : RuntimeConfig) : BackendPlan := {|
  bp_backend_name := backend_to_string (rc_backend config);
  bp_backend_version := kBackendContractVersion;
  bp_model_path := rc_model_path config;
  bp_model_parameter_bucket := rc_model_parameter_bucket config;
  bp_parameter_count := rc_parameter_count config;
  bp_model_size_bytes := 0;
  bp_requested_context_tokens := rc_context_tokens config;
  bp_hard_vram_cap_bytes := rc_hard_cap_bytes config;
  bp_vram_tier_gib := rc_vram_tier_gib config;
  bp_gpu_layers := rc_gpu_layers config;
  bp_mmap_enabled := rc_mmap_enabled config;
  bp_gpu_requested := gpu_requested (rc_mode config);
|}.

(** ** Warm-up *)

Record BackendWarmupResult := mkWarmupResult {
  wr_ok : bool;
  wr_failure_reason : string;
  wr_memory_sample : MemorySample;
  wr_backend_owned_peak_bytes : Z;
  wr_backend_external_peak_bytes : Z;
  wr_retained_pool_bytes : Z;
  wr_worker_evidence_available : bool;
  wr_worker_executable_sha256 : string;
  wr_worker_approval_identity : string;
  wr_worker_exit_code : Z;
  wr_worker_timed_out : bool;
  wr_worker_root_process_id : Z;
  wr_worker_job_identity : string;
  wr_worker_job_total_processes : Z;
  wr_worker_job_peak_active_processes : Z;
  wr_worker_job_total_terminated_processes : Z;
  wr_worker_root_peak_working_set_bytes : Z;
  wr_worker_root_peak_private_commit_bytes : Z;
  wr_worker_tree_peak_working_set_bytes : Z;
  wr_worker_tree_peak_private_commit_bytes : Z;
  wr_worker_tree_sample_interval_milliseconds : Z;
  wr_worker_read_bytes : Z;
  wr_worker_write_bytes : Z;
  wr_worker_output_bytes : Z;
  wr_worker_output_limit_bytes : Z;
  wr_kv_profile_available : bool;
  wr_kv_profile : KvCache.KvCacheProfile;
}.

(** A result that carries a sample of the allocator and nothing else. *)
Definition sampled_result (allocator : CappedAllocatorTracker) : BackendWarmupResult :=
  mkWarmupResult true "" (tracker_sample allocator) 0 0 0 false "" "" 0 false 0 "" 0 0 0 0 0 0 0 0 0 0 0 0
    false KvCache.default_KvCacheProfile.

(** The part of a result the memory observer reads. *)
Definition observed_part (r : BackendWarmupResult) : KvCache.BackendWarmupResult :=
  KvCache.mkWarmup (wr_backend_owned_peak_bytes r) (wr_backend_external_peak_bytes r) (wr_retained_pool_bytes r).

(** An adapter: its warm-up may reserve from the allocator. *)
Record BackendAdapter := mkAdapter {
  ba_name : string;
  ba_version : string;
  ba_warmup : RuntimeConfig -> CappedAllocatorTracker -> BackendWarmupResult * CappedAllocatorTracker;
}.

Definition NullBackendAdapter : BackendAdapter :=
  mkAdapter "null" kBackendContractVersion (fun _ allocator => (sampled_result allocator, allocator)).

Definition fake_warmup (config : RuntimeConfig) (allocator : CappedAllocatorTracker) :
    BackendWarmupResult * CappedAllocatorTracker :=
  let '(allocation, after) := reserve (rc_warmup_tokens config) allocator in
  let after := if ar_accepted allocation then after
               else observe_rejected_peak (current_bytes_ after +64 rc_warmup_tokens config) after in
  let result := sampled_result after in
  ({| result with
      wr_ok := ar_accepted allocation;
      wr_failure_reason := if ar_accepted allocation then "" else ar_failure_reason allocation;
      wr_backend_owned_peak_bytes := ms_allocator_peak_bytes (wr_memory_sample result);
      wr_retained_pool_bytes := ms_allocator_bytes (wr_memory_sample result) |}, after).

Definition FakeBackendAdapter : BackendAdapter := mkAdapter "fake" kBackendContractVersion fake_warmup.

(** [llama] is the adapter of a build that has one. *)
Definition make_backend_adapter (llama : option BackendAdapter) (backend : BackendKind) : option BackendAdapter :=
  match backend with
  | NullBackend => Some NullBackendAdapter
  | FakeBackend => Some FakeBackendAdapter
  | LlamaBackend => llama
  end.

(** ** The CUDA context probe *)

Record CudaProbeResult := mkCudaProbe {
  cp_available : bool;
  cp_context_created : bool;
  cp_context_bytes : Z;
  cp_device_used_before_bytes : Z;
  cp_device_used_after_bytes : Z;
  cp_device_total_bytes : Z;
  cp_driver_version : Z;
  cp_runtime_version : Z;
  cp_gpu_name : string;
  cp_failure_reason : string;
}.

Definition default_CudaProbeResult : CudaProbeResult := mkCudaProbe false false 0 0 0 0 0 0 "" "".

(** NVML's memory query: [nvmlInit], the handle, the memory. *)
Record NvmlMemory := mkNvmlMemory { nm_init : bool; nm_handle : bool; nm_used : option Z }.

Definition nvml_device_used_bytes (nvml : NvmlMemory) : option Z :=
  if negb (nm_init nvml) then None else if negb (nm_handle nvml) then None else nm_used nvml.

(** The answers of the runtime; a failing call gives its error text. *)
Record CudaAnswers := mkCuda {
  ca_device_count : string + Z;
  ca_success_text : string;
  ca_set_device : option string;
  ca_properties_name : option string;
  ca_driver_version : Z;
  ca_runtime_version : Z;
  ca_nvml_before : NvmlMemory;
  ca_create_context : option string;
  ca_mem_info : string + (Z * Z);
  ca_nvml_after : NvmlMemory;
}.

Definition cuda_failure (result : CudaProbeResult) (reason : string) : CudaProbeResult :=
  {| result with cp_failure_reason := reason |}.

(** [cuda] is [None] in a build without the probe. *)
Definition probe_cuda_context (cuda : option CudaAnswers) : CudaProbeResult :=
  match cuda with
  | None => {| default_CudaProbeResult with cp_failure_reason := "cuda_probe_not_compiled" |}
  | Some c =>
  let count_error := match ca_device_count c with
                     | inl error => Some error
                     | inr count => if count <=? 0 then Some (ca_success_text c) else None
                     end in
  match count_error with
  | Some error => cuda_failure default_CudaProbeResult ("cuda_device_unavailable: " +:+ error)
  | None =>
  match ca_set_device c with
  | Some error => cuda_failure default_CudaProbeResult ("cuda_set_device_failed: " +:+ error)
  | None =>
  let result := {| default_CudaProbeResult with
                   cp_gpu_name := default "" (ca_properties_name c);
                   cp_driver_version := ca_driver_version c;
                   cp_runtime_version := ca_runtime_version c |} in
  let nvml_before := nvml_device_used_bytes (ca_nvml_before c) in
  match ca_create_context c with
  | Some error => cuda_failure result ("cuda_context_create_failed: " +:+ error)
  | None =>
  match ca_mem_info c with
  | inl error => cuda_failure result ("cuda_mem_info_after_failed: " +:+ error)
  | inr (free_after, total_after) =>
  let used_after := total_after -64 free_after in
  let used_before := default used_after nvml_before in
  let device_used_after := default used_after (nvml_device_used_bytes (ca_nvml_after c)) in
  {| result with
     cp_available := true;
     cp_context_created := true;
     cp_device_used_before_bytes := used_before;
     cp_device_used_after_bytes := device_used_after;
     cp_device_total_bytes := total_after;
     cp_context_bytes := if used_before <? device_used_after then device_used_after -64 used_before else 0 |}
  end end end end end.

(** ** What warm-ups and the probe promise *)

Definition cuda_answers_wf (c : CudaAnswers) : Prop :=
  (match ca_mem_info c with inl _ => True | inr (free, total) => u64 free /\ u64 total end) /\
  (forall x, nm_used (ca_nvml_before c) = Some x -> u64 x) /\ (forall x, nm_used (ca_nvml_after c) = Some x -> u64 x).

Lemma nvml_wf nvml x d : (forall x, nm_used nvml = Some x -> u64 x) -> u64 d -> default d (nvml_device_used_bytes nvml) = x -> u64 x.
Proof.
  intros H Hd <-. unfold nvml_device_used_bytes. destruct (negb _); [done|]. destruct (negb _); [done|].
  destruct (nm_used nvml) eqn:E; cbn; [by apply H|done].
Qed.

(** The probe either reports a reason and no context, or a context whose size
    is the growth of the device usage, without wrapping. *)
Theorem cuda_probe_exact cuda :
  match cuda with Some c => cuda_answers_wf c | None => True end ->
  let r := probe_cuda_context cuda in
  cp_available r = cp_context_created r /\
  (cp_available r = false -> cp_failure_reason r <> "" /\ cp_context_bytes r = 0) /\
  (cp_available r = true -> cp_failure_reason r = "" /\
     cp_context_bytes r = Z.max 0 (cp_device_used_after_bytes r - cp_device_used_before_bytes r) /\
     u64 (cp_context_bytes r)).
Proof.
  destruct cuda as [c|]; [|done]. intros (Hm & Hb & Ha). cbv zeta. unfold probe_cuda_context.
  destruct (match ca_device_count c with inl _ => _ | inr _ => _ end); [done|].
  destruct (ca_set_device c); [done|]. destruct (ca_create_context c); [done|].
  destruct (ca_mem_info c) as [e|[free total]]; [done|]. cbn. split; [done|]. split; [done|]. intros _. split; [done|].
  pose proof (wrap64_range (total - free)) as Hu.
  pose proof (nvml_wf _ _ _ Hb Hu eq_refl) as H1. pose proof (nvml_wf _ _ _ Ha Hu eq_refl) as H2.
  destruct (Z.ltb_spec (default (wrap64 (total - free)) (nvml_device_used_bytes (ca_nvml_before c)))
                       (default (wrap64 (total - free)) (nvml_device_used_bytes (ca_nvml_after c)))).
  - rewrite wrap64_sub by (done || lia). unfold u64 in *. lia.
  - unfold u64 in *. lia.
Qed.

(** A warm-up of the null or the fake backend keeps the tracker within its cap
    and reports the peak of everything it asked for. *)
Lemma observe_wf t n : tracker_wf t -> u64 n -> tracker_wf (observe_rejected_peak n t).
Proof. unfold tracker_wf, observe_rejected_peak, u64. cbn. lia. Qed.

Lemma fake_warmup_wf config t : tracker_wf t -> u64 (rc_warmup_tokens config) -> tracker_wf (fake_warmup config t).2.
Proof.
  intros Ht Hn. unfold fake_warmup. destruct (reserve (rc_warmup_tokens config) t) as [allocation after] eqn:E. cbn [snd].
  assert (Hafter : tracker_wf after).
  { pose proof (alloc_step_wf t (OpReserve (rc_warmup_tokens config)) Ht Hn) as H. cbn [alloc_step] in H. by rewrite E in H. }
  destruct (ar_accepted allocation); [done|]. apply observe_wf; [done|]. apply wrap64_range.
Qed.

(** The fake warm-up succeeds exactly when the tokens fit below the cap; when
    they do not, the peak it reports is above the cap, so the run is not certified. *)
Theorem fake_warmup_exact config t :
  tracker_wf t -> u64 (rc_warmup_tokens config) ->
  let (r, t') := fake_warmup config t in
  (wr_ok r = true <-> current_bytes_ t + rc_warmup_tokens config <= hard_cap_bytes_ t) /\
  (wr_ok r = false -> hard_cap_bytes_ t < wr_backend_owned_peak_bytes r \/ hard_cap_bytes_ t = u64_max) /\
  wr_memory_sample r = tracker_sample t' /\ tracker_wf t'.
Proof.
  intros Ht Hn. pose proof (fake_warmup_wf config t Ht Hn) as Hwf. unfold fake_warmup in *.
  rewrite reserve_cases in * by done. unfold tracker_wf, u64 in Ht.
  destruct (Z.ltb_spec u64_max (current_bytes_ t + rc_warmup_tokens config)).
  - cbn in *. unfold u64 in *. split_and!; [lia| |done|done..]. intros _. unfold peak_bytes. cbn. lia.
  - destruct (Z.ltb_spec (hard_cap_bytes_ t) (current_bytes_ t + rc_warmup_tokens config)); cbn in *.
    + split_and!; [lia| |done|done..]. intros _. left. unfold peak_bytes. cbn. lia.
    + split_and!; [lia|done|done|done..].
Qed.

End Backends.
