(* ===== verification/LlamaBackend.v ===== *)
(** * The llama backend

    [src/backend/llama_backend.cpp]: the approvals it loads, the warm-up that
    runs the approved executable over the approved model, and what it reads from
    the output of that run.  It composes [FlatJson] (the approvals),
    [ModelSidecar] (the model), [NativeLaunch] (the run) and [KvCache] (the
    profile).

    The file system and the worker are answers; a wide path is the text of the
    path, unit by unit.  [le_undefined_size] is what the conversion of a size
    that does not fit gives, which the language leaves open. *)

From Stdlib Require Import Ascii String SpecFloat.
From stdpp Require Import gmap.
From S2P Require Import Prelude MemoryCap Sha256 FlatJson ModelSidecar Doubles KvCache Config Backends Lifecycle.
From S2P Require Import NativeWorker NativeProtocol NativeRun NativeLaunch.
Import MemoryCap FlatJson Config Backends NativeWorker NativeLaunch.

Open Scope string_scope.
Open Scope list_scope.
Open Scope Z_scope.

Module LlamaBackend.

(** ** Approvals *)

Record LlamaEnv := mkLlamaEnv {
  le_executable_approval : ManifestFile;
  le_artifact_record : ManifestFile;
  le_source_directories : list string;
  le_regular_below : string -> string -> option string;
  le_model_exists : bool;
  le_sidecar : ModelSidecar.Answers;
  le_filename : string -> string;
  le_parent_path : string -> string;
  le_executable_has_directory : bool;
  le_executable_exists : bool;
  le_long_is_32_bits : bool;
  le_undefined_size : Z;
}.

Definition resolve_llama_executable (config : RuntimeConfig) : string := rc_llama_executable_path config.

(** The source directory and its parents, innermost first; the candidate where
    it is a regular file. *)
Fixpoint resolve_workspace_artifact (regular_below : string -> string -> option string) (directories : list string)
    (relative_path : string) : option string :=
  match directories with
  | [] => None
  | cursor :: parents =>
      match regular_below cursor relative_path with
      | Some candidate => Some candidate
      | None => resolve_workspace_artifact regular_below parents relative_path
      end
  end.

Definition kMaximumApprovalBytes : Z := 64 * 1024.

(** The text of a field, whatever its kind. *)
Definition field_text (r : FlatJsonResult) (key : string) : option string := fv_text <$> fr_fields r !! key.

Definition has_text (r : FlatJsonResult) (key value : string) : bool := bool_decide (field_text r key = Some value).

Definition load_llama_approval_catalog (e : LlamaEnv) : option NativeWorkerTrustCatalog :=
  let approval := read_flat_json_file (le_executable_approval e) kMaximumApprovalBytes in
  if negb (fr_ok approval) || negb (has_text approval "schema_version" "0.1") ||
     negb (has_text approval "approval_status" "approved") then None
  else
    match field_text approval "workspace_relative_executable", field_text approval "sha256",
          field_text approval "approval_identity", field_text approval "dependency_count" with
    | Some executable, Some hash, Some identity, Some dependency_count =>
        if negb (has_text approval "shared_libraries" "disabled") ||
           negb (has_text approval "dynamic_backend_loading" "disabled") ||
           negb (has_text approval "cuda" "disabled") || negb (has_text approval "openssl" "disabled") ||
           negb (has_text approval "pe_import_policy" "system-dlls-only") || str_empty identity then None
        else
          match resolve_workspace_artifact (le_regular_below e) (le_source_directories e) executable with
          | None => None
          | Some path =>
              if dependency_count <>s "0" then None
              else Some [mkExecutableApproval (wide path) (wide (le_parent_path e path)) hash identity]
          end
    | _, _, _, _ => None
    end.

Record PacketAArtifactApproval := mkPacketA {
  pa_filename : string;
  pa_sha256 : string;
  pa_bytes : Z;
  pa_identity : string;
}.

(** [std::stoull] and [std::stoul]: leading white space, a sign, then digits; what
    follows is ignored, a negative value wraps, and there is an exception when
    there are no digits or the value is too large. *)
Definition stoul (maximum : Z) (value : list ascii) : option Z :=
  let (negative, l) := Doubles.sign (skip_space value) in
  match (span is_digit l).1 with
  | [] => None
  | digits => if maximum <? decimal digits then None
              else Some (if negative then - decimal digits mod (maximum + 1) else decimal digits)
  end.

Definition kClaimBoundary : string :=
  "CPU/offline artifact admission only; no inference, CUDA, calibration, benchmark, or performance claim".

Definition load_packet_a_artifact_approval (e : LlamaEnv) : option PacketAArtifactApproval :=
  let record := read_flat_json_file (le_artifact_record e) kMaximumApprovalBytes in
  if negb (fr_ok record) || negb (has_text record "record_version" "packet-a-artifact-v2") ||
     negb (has_text record "artifact_kind" "gguf") || negb (has_text record "license_status" "accepted") ||
     negb (has_text record "claim_boundary" kClaimBoundary) then None
  else
    match field_text record "artifact_filename", field_text record "artifact_sha256", fr_fields record !! "artifact_bytes" with
    | Some filename, Some sha256, Some bytes =>
        if str_empty filename || negb (Nat.eqb (String.length sha256) 64) ||
           match fv_kind bytes with NumberKind => false | _ => true end then None
        else
          match stoul u64_max (list_ascii_of_string (fv_text bytes)) with
          | None => None
          | Some approved_bytes =>
              if approved_bytes =? 0 then None
              else Some (mkPacketA filename sha256 approved_bytes
                           ("packet-a:llama-3.1-8b-instruct-q4-k-m:" +:+ sha256))
          end
    | _, _, _ => None
    end.

(** ** Reading the output of the worker *)

(** [static_cast<std::uint64_t>] of a double; [None] where the value does not
    fit, which is undefined. *)
Definition to_u64 (value : spec_float) : option Z :=
  match value with
  | S754_zero _ => Some 0
  | S754_finite negative m e =>
      let truncated := if 0 <=? e then Z.pos m * 2 ^ e else Z.pos m / 2 ^ (- e) in
      if truncated =? 0 then Some 0
      else if negative || (u64_max <? truncated) then None else Some truncated
  | _ => None
  end.

Definition unit_multiplier (unit : string) : spec_float :=
  let kib := S754_finite false 4503599627370496 (-42) in
  if unit =s "KiB" then kib
  else if unit =s "MiB" then SFmul 53 1024 kib kib
  else if unit =s "GiB" then SFmul 53 1024 (SFmul 53 1024 kib kib) kib
  else Doubles.one.

Definition parse_bytes (undefined : Z) (value : spec_float) (unit : string) : Z :=
  if Doubles.le value Doubles.zero then 0
  else default undefined (to_u64 (SFmul 53 1024 value (unit_multiplier unit))).

(** The units, in the order of the alternatives of the expression. *)
Definition units : list string := ["B"; "KiB"; "MiB"; "GiB"].

Definition unit_at (l : list ascii) : option (string * list ascii) :=
  match List.find (fun unit => Lifecycle.is_prefix (list_ascii_of_string unit) l) units with
  | Some unit => Some (unit, drop (String.length unit) l)
  | None => None
  end.

(** The size expression at the start of the text: digits, a fraction, white
    space and a unit.  Giving back a digit or the fraction leaves a character
    that neither white space nor a unit starts with, so the longest match is the
    only one. *)
Definition match_size (l : list ascii) : option (list ascii * string * list ascii) :=
  let (whole, after) := span is_digit l in
  match whole with
  | [] => None
  | _ =>
      let (number, after) :=
        match after with
        | c :: after' => if Ascii.eqb c "." then
                           let (fraction, rest) := span is_digit after' in
                           match fraction with [] => (whole, after) | _ => (whole ++ c :: fraction, rest) end
                         else (whole, after)
        | [] => (whole, after)
        end in
      match unit_at (skip_space after) with
      | Some (unit, rest) => Some (number, unit, rest)
      | None => None
      end
  end.

(** The matches of a line from left to right; each starts where the last one
    ended.  A match is not empty, so the length of the line is enough fuel. *)
Fixpoint size_matches (fuel : nat) (l : list ascii) : list (list ascii * string) :=
  match fuel, l with
  | O, _ | _, [] => []
  | S fuel, _ :: l' =>
      match match_size l with
      | Some (number, unit, rest) => (number, unit) :: size_matches fuel rest
      | None => size_matches fuel l'
      end
  end.

Definition is_allocation_line (line : list ascii) : bool :=
  Lifecycle.line_contains line (list_ascii_of_string "buffer size") ||
  Lifecycle.line_contains line (list_ascii_of_string "llama_kv_cache: size =").

(** [std::stod]; [None] is the exception for a value out of range.  A value
    that rounds below the normal numbers is out of range too. *)
Definition stod (text : list ascii) : option spec_float :=
  match Doubles.parse_text text with
  | None => None
  | Some value =>
      match value with
      | S754_zero _ => if forallb (fun c => Ascii.eqb c "0" || Ascii.eqb c ".") text then Some value else None
      | S754_finite _ m e => if Z.pos m <? 4503599627370496 then None else Some value
      | _ => None
      end
  end.

(** The loop over the sizes; [None] is the exception. *)
Fixpoint add_sizes (undefined : Z) (sizes : list (list ascii * string)) (total : Z) : option Z :=
  match sizes with
  | [] => Some total
  | (number, unit) :: sizes =>
      value ← stod number; add_sizes undefined sizes (total +64 parse_bytes undefined value unit)
  end.

Definition allocation_sizes (captured_output : list ascii) : list (list ascii * string) :=
  List.concat (map (fun line => size_matches (List.length line) line)
                 (List.filter is_allocation_line (Lifecycle.getlines captured_output []))).

Definition extract_llama_allocation_bytes (undefined : Z) (captured_output : list ascii) : Z :=
  default 0 (add_sizes undefined (allocation_sizes captured_output) 0).

(** The text after the last equals sign. *)
Fixpoint after_last_equals (line : list ascii) : option (list ascii) :=
  match line with
  | [] => None
  | c :: line => match after_last_equals line with
                 | Some rest => Some rest
                 | None => if Ascii.eqb c "=" then Some line else None
                 end
  end.

Definition digits_of (value_text : list ascii) : list ascii :=
  (span is_digit (span (fun c => negb (is_digit c)) value_text).2).1.

Record KvCounts := mkCounts { kc_layer_count : Z; kc_kv_head_count : Z; kc_head_dim : Z }.

Definition mentions (line : list ascii) (words : list string) : bool :=
  existsb (fun word => Lifecycle.line_contains line (list_ascii_of_string word)) words.

(** One line; [None] is the exception of [std::stoul]. *)
Definition read_count (ulong_max : Z) (counts : KvCounts) (line : list ascii) : option KvCounts :=
  match after_last_equals line with
  | None => Some counts
  | Some value_text =>
      match digits_of value_text with
      | [] => Some counts
      | digits =>
          match stoul ulong_max digits with
          | None => None
          | Some value =>
              let value := wrap32 value in
              Some (if mentions line ["llama.block_count"; "n_layer               ="]
                    then {| counts with kc_layer_count := value |}
                    else if mentions line ["llama.attention.head_count_kv"; "n_head_kv"]
                         then {| counts with kc_kv_head_count := value |}
                    else if mentions line ["llama.rope.dimension_count"; "n_embd_head_k"]
                         then {| counts with kc_head_dim := value |}
                    else counts)
          end
      end
  end.

Fixpoint read_counts (ulong_max : Z) (counts : KvCounts) (lines : list (list ascii)) : option KvCounts :=
  match lines with
  | [] => Some counts
  | line :: lines => counts ← read_count ulong_max counts line; read_counts ulong_max counts lines
  end.

Definition extract_llama_kv_profile (long_is_32_bits : bool) (captured_output : list ascii) (config : RuntimeConfig) :
    option KvCache.KvCacheProfile :=
  let ulong_max := if long_is_32_bits then u32_max else u64_max in
  match read_counts ulong_max (mkCounts 0 0 0) (Lifecycle.getlines captured_output []) with
  | None => None
  | Some counts =>
      match KvCache.make_kv_cache_profile (kc_layer_count counts) (kc_kv_head_count counts) (kc_head_dim counts)
              (rc_kv_block_tokens config) 16 16 with
      | inl _ => None
      | inr profile => Some profile
      end
  end.

(** ** The warm-up *)

Definition decimal_text (n : Z) : string := string_of_list_ascii (to_string n).

Definition worker_arguments (config : RuntimeConfig) : list string :=
  ["cli"; "--model"; rc_model_path config; "--ctx-size"; decimal_text (rc_context_tokens config);
   "--n-predict"; decimal_text (rc_warmup_tokens config); "--prompt"; "PrismInfer backend warmup.";
   "--no-display-prompt"; "--no-conversation"; "--single-turn"; "--log-verbose"; "--gpu-layers";
   decimal_text (rc_gpu_layers config)] ++ (if rc_mmap_enabled config then [] else ["--no-mmap"]).

Definition worker_request (e : LlamaEnv) (config : RuntimeConfig) (artifact : PacketAArtifactApproval)
    (model_path : string) : NativeWorkerRequest :=
  {| default_NativeWorkerRequest with
     nwq_executable_path := wide (resolve_llama_executable config);
     nwq_arguments := map wide (worker_arguments config);
     nwq_timeout_ms := 60000;
     nwq_approved_read_only_inputs :=
       [mkApprovedInput (wide model_path) (wide (le_parent_path e model_path)) (pa_sha256 artifact) (pa_identity artifact)] |}.

Definition model_request (config : RuntimeConfig) : ModelSidecar.Request :=
  ModelSidecar.mkRequest (rc_model_path config) (rc_sidecar_path config) (rc_max_model_bytes config)
    (rc_max_sidecar_bytes config).

Definition identity_mismatch (e : LlamaEnv) (v : ModelSidecar.Result) (artifact : PacketAArtifactApproval) : bool :=
  negb (ModelSidecar.rs_valid v) || ModelSidecar.rs_skipped v ||
  (ModelSidecar.rs_model_sha256 v <>s pa_sha256 artifact) ||
  (ModelSidecar.rs_model_size_bytes v <>z pa_bytes artifact) ||
  (le_filename e (ModelSidecar.rs_normalized_model_path v) <>s pa_filename artifact).

(** What must hold before the worker starts: the catalog and the request. *)
Definition prepare (e : LlamaEnv) (config : RuntimeConfig) : string + (NativeWorkerTrustCatalog * NativeWorkerRequest) :=
  _ ← refuse_if ((rc_gpu_layers config <>z 0) || gpu_requested (rc_mode config))
        "llama_gpu_requires_supervised_context_protocol";
  _ ← refuse_if (str_empty (resolve_llama_executable config)) "llama_executable_required";
  _ ← refuse_if (str_empty (rc_model_path config)) "llama_model_required";
  _ ← refuse_if (negb (le_model_exists e)) "llama_model_not_found";
  match load_packet_a_artifact_approval e with
  | None => inl "packet_a_artifact_approval_unavailable"
  | Some artifact =>
      let v := ModelSidecar.validate_model_sidecar (model_request config) (le_sidecar e) in
      _ ← refuse_if (identity_mismatch e v artifact) "packet_a_artifact_identity_mismatch";
      _ ← refuse_if (le_executable_has_directory e && negb (le_executable_exists e)) "llama_executable_not_found";
      match load_llama_approval_catalog e with
      | None => inl "llama_executable_approval_unavailable"
      | Some catalog => inr (catalog, worker_request e config artifact (ModelSidecar.rs_normalized_model_path v))
      end
  end.

Definition with_worker (r : BackendWarmupResult) (w : NativeWorkerResult) : BackendWarmupResult :=
  {| r with
     wr_worker_evidence_available := nwr_evidence_available w;
     wr_worker_executable_sha256 := nwr_executable_sha256 w;
     wr_worker_approval_identity := nwr_approval_identity w;
     wr_worker_exit_code := nwr_exit_code w;
     wr_worker_timed_out := nwr_timed_out w;
     wr_worker_root_process_id := nwr_root_process_id w;
     wr_worker_job_identity := nwr_job_identity w;
     wr_worker_job_total_processes := nwr_job_total_processes w;
     wr_worker_job_peak_active_processes := nwr_job_peak_active_processes w;
     wr_worker_job_total_terminated_processes := nwr_job_total_terminated_processes w;
     wr_worker_root_peak_working_set_bytes := nwr_root_peak_working_set_bytes w;
     wr_worker_root_peak_private_commit_bytes := nwr_root_peak_private_commit_bytes w;
     wr_worker_tree_peak_working_set_bytes := nwr_tree_peak_working_set_bytes w;
     wr_worker_tree_peak_private_commit_bytes := nwr_tree_peak_private_commit_bytes w;
     wr_worker_tree_sample_interval_milliseconds := nwr_tree_sample_interval_milliseconds w;
     wr_worker_read_bytes := nwr_read_bytes w;
     wr_worker_write_bytes := nwr_write_bytes w;
     wr_worker_output_bytes := nwr_output_bytes w;
     wr_worker_output_limit_bytes := nwr_output_limit_bytes w |}.

Definition refused (r : BackendWarmupResult) (reason : string) : BackendWarmupResult :=
  {| r with wr_ok := false; wr_failure_reason := reason |}.

(** The evidence in the output. *)
Definition read_output (e : LlamaEnv) (config : RuntimeConfig) (w : NativeWorkerResult) (r : BackendWarmupResult) :
    BackendWarmupResult :=
  let external := extract_llama_allocation_bytes (le_undefined_size e) (nwr_captured_output w) in
  let profile := extract_llama_kv_profile (le_long_is_32_bits e) (nwr_captured_output w) config in
  let r := {| r with
              wr_backend_external_peak_bytes := external;
              wr_kv_profile_available := match profile with Some _ => true | None => false end;
              wr_kv_profile := default (wr_kv_profile r) profile |} in
  if external =? 0 then refused r "llama_allocation_evidence_missing" else r.

(** [run] is [run_native_worker] in its environment. *)
Definition llama_warmup (e : LlamaEnv) (run : NativeWorkerTrustCatalog -> NativeWorkerRequest -> NativeWorkerResult)
    (config : RuntimeConfig) (allocator : CappedAllocatorTracker) : BackendWarmupResult * CappedAllocatorTracker :=
  let result := sampled_result allocator in
  (match prepare e config with
   | inl reason => refused result reason
   | inr (catalog, request) =>
       let worker := run catalog request in
       let result := with_worker result worker in
       if negb (nwr_ok worker) then refused result ("llama_" +:+ nwr_failure_reason worker)
       else read_output e config worker result
   end, allocator).

Definition LlamaBackendAdapter (e : LlamaEnv) (run : NativeWorkerTrustCatalog -> NativeWorkerRequest -> NativeWorkerResult) :
    BackendAdapter := mkAdapter "llama" kBackendContractVersion (llama_warmup e run).

(** ** What a successful warm-up proves *)

Lemma prepare_inr e config catalog request :
  prepare e config = inr (catalog, request) ->
  exists artifact, load_packet_a_artifact_approval e = Some artifact /\
    load_llama_approval_catalog e = Some catalog /\
    rc_gpu_layers config = 0 /\ gpu_requested (rc_mode config) = false /\ rc_model_path config <> "" /\
    let v := ModelSidecar.validate_model_sidecar (model_request config) (le_sidecar e) in
    identity_mismatch e v artifact = false /\
    request = worker_request e config artifact (ModelSidecar.rs_normalized_model_path v).
Proof.
  unfold prepare. rewrite !seq_inr, !refuse_if_inr. intros (Hg & He & Hm & Hx & H).
  destruct (load_packet_a_artifact_approval e) as [artifact|]; [|done]. cbv zeta in H.
  rewrite !seq_inr, !refuse_if_inr in H. destruct H as (Hi & Hp & H).
  destruct (load_llama_approval_catalog e) as [catalog'|]; [|done]. injection H as -> <-.
  apply orb_false_iff in Hg as [Hl Hmode]. exists artifact. apply str_empty_false in Hm.
  apply negb_false_iff, Z.eqb_eq in Hl. done.
Qed.

(** A catalog has one approval, whose digest and identity are those of the file. *)
Lemma approval_catalog e catalog :
  load_llama_approval_catalog e = Some catalog ->
  exists approval, catalog = [approval] /\
    let file := read_flat_json_file (le_executable_approval e) kMaximumApprovalBytes in
    fr_ok file = true /\ field_text file "approval_status" = Some "approved" /\ field_text file "cuda" = Some "disabled" /\
    field_text file "sha256" = Some (nea_expected_executable_sha256 approval) /\
    field_text file "approval_identity" = Some (nea_approval_identity approval).
Proof.
  unfold load_llama_approval_catalog. generalize (read_flat_json_file (le_executable_approval e) kMaximumApprovalBytes) as file.
  intros file. cbv zeta. destruct (fr_ok file); [|done]. unfold has_text.
  destruct (bool_decide_reflect (field_text file "schema_version" = Some "0.1")); [|done].
  destruct (bool_decide_reflect (field_text file "approval_status" = Some "approved")) as [Hs|]; [|done]. cbn [negb orb].
  destruct (field_text file "workspace_relative_executable") as [executable|]; [|done].
  destruct (field_text file "sha256") as [hash|]; [|done]. destruct (field_text file "approval_identity") as [identity|]; [|done].
  destruct (field_text file "dependency_count") as [count|]; [|done].
  match goal with |- (if ?b then _ else _) = _ -> _ => destruct b eqn:Eb end; [done|].
  rewrite !orb_false_iff, !negb_false_iff, !bool_decide_eq_true in Eb. destruct Eb as [[[[[_ _] Hc] _] _] _].
  destruct (resolve_workspace_artifact _ _ _) as [path|]; [|done]. destruct (count <>s "0"); [done|].
  intros [= <-]. eexists. split; [done|]. cbn. done.
Qed.

(** The sidecar vouches for the digest of the approved artifact. *)
Lemma artifact_vouched e config artifact :
  rc_model_path config <> "" ->
  identity_mismatch e (ModelSidecar.validate_model_sidecar (model_request config) (le_sidecar e)) artifact = false ->
  ModelSidecar.vouches (model_request config) (le_sidecar e) (pa_sha256 artifact) /\
  ModelSidecar.rs_model_size_bytes (ModelSidecar.validate_model_sidecar (model_request config) (le_sidecar e)) =
    pa_bytes artifact.
Proof.
  intros Hm. unfold identity_mismatch. rewrite !orb_false_iff, !negb_false_iff, String.eqb_eq, Z.eqb_eq.
  intros [[[[Hv _] Hd] Hb] _]. split; [|done].
  destruct (ModelSidecar.validate_verdict (model_request config) (le_sidecar e)) as (base & _ & _ & _ & _ & Hr);
    [by left|]. rewrite Hr in Hv, Hd. apply ModelSidecar.verdict_iff.
  destruct (ModelSidecar.verdict (model_request config) (le_sidecar e)) as [|digest]; [done|]. cbn in Hd. by subst.
Qed.

(** [run] is the run of the native worker in this environment, for the request
    of the warm-up. *)
Definition runs_natively {E S} {sup : ProtocolSupervisor E S} (os : Platform) (env : LaunchEnv) (envs : nat -> NativeProtocol.LineEnv E)
    (its : list (Z * NativeRun.Iteration)) (finish : NativeRun.FinishEnv) (s : S) (e : LlamaEnv) (config : RuntimeConfig)
    (run : NativeWorkerTrustCatalog -> NativeWorkerRequest -> NativeWorkerResult) : Prop :=
  forall catalog request, prepare e config = inr (catalog, request) ->
    exists s', run_native_worker os catalog request env envs its finish s = Some (run catalog request, s').

Lemma worker_request_wf e config artifact path : request_wf (worker_request e config artifact path).
Proof. by repeat split. Qed.

(** C16. The llama backend runs only what was approved.  A warm-up that succeeds
    ran without GPU layers; the model it read is the approved artifact (its
    sidecar vouches for the approved digest, its size is the approved one); the
    executable was launched under the one approval of the catalog, with the
    model as its approved read-only input, and the digest and identity it
    reports are those of the approval file; and some allocation was observed. *)
Theorem llama_runs_only_approved {E S} (sup : ProtocolSupervisor E S) os env envs its finish (s : S) e run config allocator :
  runs_natively os env envs its finish s e config run ->
  let r := (llama_warmup e run config allocator).1 in
  wr_ok r = true ->
  let file := read_flat_json_file (le_executable_approval e) kMaximumApprovalBytes in
  exists artifact catalog request plan hash,
    prepare e config = inr (catalog, request) /\ rc_gpu_layers config = 0 /\
    load_packet_a_artifact_approval e = Some artifact /\
    ModelSidecar.vouches (model_request config) (le_sidecar e) (pa_sha256 artifact) /\
    ModelSidecar.rs_model_size_bytes (ModelSidecar.validate_model_sidecar (model_request config) (le_sidecar e)) = pa_bytes artifact /\
    approved_launch os catalog request plan /\
    map ari_expected_sha256 (nwq_approved_read_only_inputs request) = [pa_sha256 artifact] /\
    field_text file "sha256" = Some hash /\ lowercase (wr_worker_executable_sha256 r) = lowercase hash /\
    field_text file "approval_identity" = Some (wr_worker_approval_identity r) /\
    wr_backend_external_peak_bytes r <> 0.
Proof.
  intros Hrun. cbv zeta. unfold llama_warmup. cbn [fst]. destruct (prepare e config) as [reason|[catalog request]] eqn:Hp; [done|].
  destruct (nwr_ok (run catalog request)) eqn:Hok; [|done]. cbn [negb].
  destruct (Hrun catalog request Hp) as [s' Hs].
  destruct (prepare_inr _ _ _ _ Hp) as (artifact & Ha & Hc & Hg & _ & Hm & Hi & ->). cbv zeta in Hi.
  destruct (artifact_vouched e config artifact Hm Hi) as [Hv Hb].
  pose proof (run_outcome_approved sup os _ _ None env envs its finish s _ s' (worker_request_wf e config artifact _) Hs) as Hout.
  unfold launch_outcome in Hout.
  destruct (preflight os catalog _ None) as [reason|plan]; [by destruct Hout as [Hf _]; rewrite Hf in Hok|].
  destruct Hout as (Happ & _ & Hid). specialize (Hid Hok) as (_ & H1 & H2 & _).
  destruct (approval_catalog e catalog Hc) as (approval & -> & _ & _ & _ & Hh & Hident).
  assert (lp_approval plan = approval) as <- by (destruct Happ as (_ & _ & Hin & _); by apply list_elem_of_singleton in Hin).
  unfold read_output. cbv zeta. match goal with |- wr_ok (if ?b then _ else _) = true -> _ => destruct b eqn:Ez end; [done|]. intros _.
  exists artifact, [lp_approval plan], (worker_request e config artifact
    (ModelSidecar.rs_normalized_model_path (ModelSidecar.validate_model_sidecar (model_request config) (le_sidecar e)))), plan,
    (nea_expected_executable_sha256 (lp_approval plan)).
  split_and!; try done; [by cbn; rewrite H2|]. cbn. by apply Z.eqb_neq.
Qed.

(** ** The approvals of the repository *)

(** A file of the given content, read in one piece. *)
Definition committed (content : list ascii) : ManifestFile :=
  let stat := mkPosixStat true 1 2 (Z.of_nat (List.length content)) 3 4 in
  OnPosix (mkPosixManifest true (Some stat) [FlatJson.ReadBytes content] (Some stat)).

(** [third_party/llama.cpp-executable-approval.json] and
    [configs/model-artifacts/llama-3.1-8b-instruct-q4-k-m/artifact-record.json],
    the fields that are read. *)
Definition committed_approval : list ascii := quoted
  "{ 'schema_version': '0.1', 'approval_status': 'approved', 'approval_identity': 'prisminfer-cpu-static-ef2d770-vs2026-release-20260713', 'shared_libraries': 'disabled', 'dynamic_backend_loading': 'disabled', 'cuda': 'disabled', 'openssl': 'disabled', 'workspace_relative_executable': 'tools/llama.exe', 'sha256': 'f31fd598048c5773c304ef6d8b3225569091399de17cb9f34d0ab385519e0be8', 'dependency_count': 0, 'pe_import_policy': 'system-dlls-only' }".

Definition committed_record : list ascii := quoted
  "{ 'artifact_bytes': 4920739232, 'artifact_filename': 'Meta-Llama-3.1-8B-Instruct-Q4_K_M.gguf', 'artifact_kind': 'gguf', 'artifact_sha256': '7b064f5842bf9532c91456deda288a1b672397a54fa729aa665952863033557c', 'claim_boundary': 'CPU/offline artifact admission only; no inference, CUDA, calibration, benchmark, or performance claim', 'license_status': 'accepted', 'record_version': 'packet-a-artifact-v2' }".

Definition model_sha : string := "7b064f5842bf9532c91456deda288a1b672397a54fa729aa665952863033557c".
Definition executable_sha : string := "f31fd598048c5773c304ef6d8b3225569091399de17cb9f34d0ab385519e0be8".

Definition sample_env : LlamaEnv := {|
  le_executable_approval := committed committed_approval;
  le_artifact_record := committed committed_record;
  le_source_directories := ["C:\w\prisminfer"; "C:\w"];
  le_regular_below := fun directory _ => if directory =s "C:\w" then Some "C:\w\llama.exe" else None;
  le_model_exists := true;
  le_sidecar := ModelSidecar.mkAnswers (fun path => Some path) (fun path => path) true (Some 4920739232) true (Some 120) (Some 120)
    (Some (print_object ModelSidecar.print_string [("schema_version", "0.1"); ("model_sha256", model_sha)]))
    (fun _ => Sha256.Digest model_sha);
  le_filename := fun _ => "Meta-Llama-3.1-8B-Instruct-Q4_K_M.gguf";
  le_parent_path := fun _ => "C:\w";
  le_executable_has_directory := true;
  le_executable_exists := true;
  le_long_is_32_bits := true;
  le_undefined_size := 0;
|}.

Definition sample_config : RuntimeConfig :=
  {| default_config with
     rc_backend := LlamaBackend; rc_dependency_pin_file := "third_party/llama.cpp-pin.json";
     rc_llama_executable_path := "C:\w\llama.exe"; rc_model_path := "C:\w\m.gguf"; rc_sidecar_path := "C:\w\m.json" |}.

Definition sample_platform : Platform :=
  let root := wide "C:\w" in
  mkPlatform (fun p => if list_eqb p root then Some (mkAttributes true false) else Some (mkAttributes false false))
    (fun p => Some p) (fun p => p) (fun _ => root) list_eqb list_eqb
    (fun p => Some (mkOpenFile (Some (mkAttributes true false, 1)) p None))
    (fun p => Some (mkOpenFile (Some (mkAttributes false false, 1)) p
                      (Some (if list_eqb p (wide "C:\w\m.gguf") then model_sha else executable_sha)))).

(** Two lines of a log of the worker. *)
Definition sample_output : list ascii :=
  list_ascii_of_string "CPU buffer size = 1.50 MiB" ++ newline ::
  list_ascii_of_string "llama_model_loader: kv: llama.block_count u32 = 32" ++ [newline].

Definition sample_iterations : list (Z * NativeRun.Iteration) :=
  [(1160, NativeRun.mkIteration NativeRun.WAIT_OBJECT_0 (NativeRun.mkPipeDrain [sample_output] true) NativeRun.no_reads 1170
      NativeProtocol.demo_cancel (Some (NativeRun.mkSnapshot 0 [])) (Some 0))].

Definition sample_run (catalog : NativeWorkerTrustCatalog) (request : NativeWorkerRequest) : NativeWorkerResult :=
  match run_native_worker (sup := NativeProtocol.demo_supervisor) sample_platform catalog request demo_launch_env
          NativeProtocol.demo_env sample_iterations NativeRun.demo_finish tt with
  | Some (r, _) => r
  | None => default_NativeWorkerResult
  end.

Definition sample_catalog : NativeWorkerTrustCatalog :=
  [mkExecutableApproval (wide "C:\w\llama.exe") (wide "C:\w") executable_sha
     "prisminfer-cpu-static-ef2d770-vs2026-release-20260713"].

Definition sample_request : NativeWorkerRequest :=
  worker_request sample_env sample_config
    (mkPacketA "Meta-Llama-3.1-8B-Instruct-Q4_K_M.gguf" model_sha 4920739232
       ("packet-a:llama-3.1-8b-instruct-q4-k-m:" +:+ model_sha)) "C:\w\m.gguf".

(** The committed approvals load, and the sample configuration is prepared. *)
Lemma sample_prepared : prepare sample_env sample_config = inr (sample_catalog, sample_request).
Proof. vm_compute. reflexivity. Qed.

Lemma sample_ran :
  run_native_worker (sup := NativeProtocol.demo_supervisor) sample_platform sample_catalog sample_request demo_launch_env
    NativeProtocol.demo_env sample_iterations NativeRun.demo_finish tt = Some (sample_run sample_catalog sample_request, tt).
Proof. vm_compute. reflexivity. Qed.

Lemma sample_run_ok : nwr_ok (sample_run sample_catalog sample_request) = true /\
  nwr_captured_output (sample_run sample_catalog sample_request) = sample_output.
Proof. vm_compute. done. Qed.

Lemma sample_allocation : extract_llama_allocation_bytes 0 sample_output = 1572864.
Proof. vm_compute. reflexivity. Qed.

Lemma llama_runs_only_approved_witness :
  exists plan, approved_launch sample_platform sample_catalog sample_request plan /\
    ModelSidecar.vouches (model_request sample_config) (le_sidecar sample_env) model_sha.
Proof.
  destruct (llama_runs_only_approved NativeProtocol.demo_supervisor sample_platform demo_launch_env NativeProtocol.demo_env
    sample_iterations NativeRun.demo_finish tt sample_env sample_run sample_config (new_tracker kOneGiB))
    as (artifact & catalog & request & plan & hash & Hp & _ & Ha & Hv & _ & Happ & Hs & _).
  - intros catalog request Hp. rewrite sample_prepared in Hp. injection Hp as <- <-. exists tt. exact sample_ran.
  - unfold llama_warmup. rewrite sample_prepared. cbn [fst]. destruct sample_run_ok as [Hok Ho]. rewrite Hok. cbn [negb].
    unfold read_output. rewrite Ho. change (le_undefined_size sample_env) with 0. rewrite sample_allocation. done.
  - rewrite sample_prepared in Hp. injection Hp as <- <-. exists plan. split; [exact Happ|].
    assert (pa_sha256 artifact = model_sha) as <- by (injection Hs as <-; done). exact Hv.
Defined.

(** A line with two sizes counts both; a number without a unit is none. *)
Example sizes_add_up :
  extract_llama_allocation_bytes 0 (list_ascii_of_string "CPU KV buffer size = 12 KiB, 0.5KiB of 3") = 12800.
Proof. vm_compute. reflexivity. Qed.

(** The counts of three lines make a profile. *)
Example profile_read :
  extract_llama_kv_profile true
    (list_ascii_of_string "llama.block_count u32 = 32" ++ newline ::
     list_ascii_of_string "llama.attention.head_count_kv u32 = 8" ++ newline ::
     list_ascii_of_string "llama.rope.dimension_count u32 = 128") default_config =
  Some (KvCache.mkProfile 32 8 128 16 16 16 131072 2097152).
Proof. vm_compute. reflexivity. Qed.

End LlamaBackend.
