(* ===== verification/Probe.v ===== *)
(** * The probe

    [tools/prism-probe/main.cpp]: one run of [prism-probe], from the parsed
    configuration to the exit code.  [main] is the composition of the other
    components: the sidecar, the backend plan, the CUDA context, the claim
    policies, the backend's warm-up, the KV accounting, the profitability
    policies and the certification of the cap, in this order.

    The run is a state that the stages change; a stage ends the run by giving
    the reason it fails closed for.  What it writes to the telemetry is the list
    of its events; [Lifecycle] turns them into the text.  What is outside --
    files, the operating system, CUDA, the backend's worker -- is the record
    [ProbeEnv]. *)

From Stdlib Require Import Ascii String SpecFloat.
From S2P Require Import Prelude FlatJson MemoryCap HostAdmission GpuTelemetry ModelSidecar Doubles TransferMetrics Policies KvCache.
From S2P Require Import Config WindowsEvidence NumberText Telemetry Lifecycle Backends.
Import MemoryCap HostAdmission GpuTelemetry TransferMetrics Policies Config WindowsEvidence Telemetry Lifecycle Backends.

Open Scope string_scope.
Open Scope list_scope.
Open Scope Z_scope.

Module Probe.

(** ** The state of a run *)

Record ProbeEnv := mkProbeEnv {
  pe_windows : bool;
  pe_now : Z;
  pe_telemetry_opens : bool;
  pe_manifest_opens : bool;
  pe_host_before : WindowsHost;
  pe_host_after : WindowsHost;
  pe_dxgi : DxgiAnswers;
  pe_model_file : option FileHandle;
  pe_sidecar : ModelSidecar.Answers;
  pe_cuda : option CudaAnswers;
  pe_llama : option BackendAdapter;
}.

Record ProbeState := mkState {
  ps_config : RuntimeConfig;
  ps_allocator : CappedAllocatorTracker;
  ps_sample : MemorySample;
  ps_cuda : CudaProbeResult;
  ps_kv_profile : KvCache.KvCacheProfile;
  ps_kv_sample : KvCache.KvCacheSample;
  ps_quality : QualityGateResult;
  ps_compression : KvCompressionResult;
  ps_offload_plan : OffloadPlan;
  ps_transfer : TransferSample;
  ps_profitability : ProfitabilityDecision;
  ps_hybrid_plan : HybridPlanResult;
  ps_usability : PolicyDecision;
  ps_claim : PolicyDecision;
  ps_events : list TelemetryEvent;
}.

(** Value-initialised results. *)
Definition default_TransferSample : TransferSample :=
  let z := Doubles.zero in mkSample 0 0 0 0 0 0 z z z z 0 0 0 0 0 0 "ordinary" 0 [] z z z z z z.

Definition default_HybridPlan : HybridPlan :=
  mkHybridPlan "" "" ">85B-90B" 90000000000 17179869184 0 0 0 0 0 0 0 0 0 Doubles.zero Doubles.zero "simulated".

Definition initial_state (config : RuntimeConfig) : ProbeState := {|
  ps_config := config;
  ps_allocator := new_tracker (rc_hard_cap_bytes config);
  ps_sample := default_MemorySample;
  ps_cuda := default_CudaProbeResult;
  ps_kv_profile := KvCache.default_KvCacheProfile;
  ps_kv_sample := KvCache.default_KvCacheSample;
  ps_quality := mkQualityResult true "skipped" "" Doubles.zero;
  ps_compression := mkCompression true "none" "" 0;
  ps_offload_plan := default_OffloadPlan;
  ps_transfer := default_TransferSample;
  ps_profitability := mkProfitability true "skipped" "" Doubles.zero one_point_one;
  ps_hybrid_plan := mkHybridResult false "" 0 default_HybridPlan;
  ps_usability := mkDecision false "rejected" "";
  ps_claim := mkDecision false "rejected" "";
  ps_events := [];
|}.

(** A stage goes on ([None]) or ends the run with a reason. *)
Definition Stage : Type := ProbeState -> ProbeState * option string.

Definition andThen (first next : Stage) : Stage := fun s =>
  match first s with
  | (s, None) => next s
  | failed => failed
  end.

Definition log (event : string) (fields : list (string * string)) (s : ProbeState) : ProbeState :=
  {| s with ps_events := ps_events s ++ [Emitted event (ps_config s) fields] |}.

Definition log_memory (agreement : bool) (s : ProbeState) : ProbeState :=
  {| s with ps_events := ps_events s ++ [Sampled (ps_config s) (ps_sample s) agreement] |}.

(** [emit_memory_sample(config, sample, sample.telemetry_agreement)], then the
    end of the run. *)
Definition fail_closed (reason : string) : Stage := fun s =>
  (log_memory (ms_telemetry_agreement (ps_sample s)) s, Some reason).

(** [std::to_string] of an unsigned integer. *)
Definition show (n : Z) : string := string_of_list_ascii (to_string n).

(** ** Helpers *)

Definition simulate_allocator_peak (s : ProbeState) : ProbeState :=
  let peak := rc_simulate_allocator_peak_bytes (ps_config s) in
  if 0 <? peak then
    let allocator := ps_allocator s in
    let allocator :=
      if current_bytes_ allocator <? peak then
        let (result, allocator') := reserve (peak -64 current_bytes_ allocator) allocator in
        if ar_accepted result then allocator' else observe_rejected_peak peak allocator'
      else observe_rejected_peak peak allocator in
    let sampled := tracker_sample allocator in
    let sample := ps_sample s in
    {| s with
       ps_allocator := allocator;
       ps_sample := {| sample with ms_allocator_bytes := ms_allocator_bytes sampled;
                                   ms_allocator_peak_bytes := ms_allocator_peak_bytes sampled |} |}
  else s.

Definition apply_simulated_breaches (s : ProbeState) : ProbeState :=
  let config := ps_config s in
  let s := simulate_allocator_peak s in
  let sample := ps_sample s in
  let sample := if 0 <? rc_simulate_process_gpu_peak_bytes config
                then {| sample with ms_process_gpu_peak_bytes := rc_simulate_process_gpu_peak_bytes config |} else sample in
  let sample := if 0 <? rc_simulate_warmup_peak_bytes config
                then {| sample with ms_warmup_peak_bytes := rc_simulate_warmup_peak_bytes config |} else sample in
  let sample := if 0 <? rc_simulate_unknown_post_warmup_bytes config
                then {| sample with ms_unknown_post_warmup_bytes := rc_simulate_unknown_post_warmup_bytes config |} else sample in
  {| s with ps_sample := sample |}.

(** Called with the tokens of a block, which are not zero: a profile comes from
    [make_kv_cache_profile], which refuses a zero ([profile_blocks_positive]).
    In the source a division by zero is undefined. *)
Definition ceil_div (lhs rhs : Z) : Z := (lhs +64 rhs -64 1) / rhs.

(** Where the payload of the cache is kept. *)
Definition place_kv (config : RuntimeConfig) (payload_bytes : Z) (sample : KvCache.KvCacheSample) : KvCache.KvCacheSample :=
  if rc_kv_placement config =s "gpu" then {| sample with KvCache.ks_gpu_bytes := payload_bytes |}
  else if rc_kv_placement config =s "host" then {| sample with KvCache.ks_host_bytes := payload_bytes |}
  else if rc_kv_placement config =s "mixed" then
    {| sample with KvCache.ks_gpu_bytes := payload_bytes / 2;
                   KvCache.ks_host_bytes := payload_bytes -64 payload_bytes / 2 |}
  else if KvCache.ks_evidence_status sample =s "reconciled" then
    {| sample with KvCache.ks_unknown_bytes := 0; KvCache.ks_host_bytes := payload_bytes |}
  else {| sample with KvCache.ks_unknown_bytes := payload_bytes |}.

(** The bits of a compressed value are added in 32 bits. *)
Definition compressed_per_token (config : RuntimeConfig) (profile : KvCache.KvCacheProfile) : Z :=
  (wrap32 (wrap32 (KvCache.kp_layer_count profile * KvCache.kp_kv_head_count profile) * KvCache.kp_head_dim profile)
     *64 (rc_kv_key_bits config +32 rc_kv_value_bits config)) / 8.

Definition make_kv_sample (config : RuntimeConfig) (profile : KvCache.KvCacheProfile) : KvCache.KvCacheSample :=
  let sample := KvCache.default_KvCacheSample in
  if negb (rc_kv_accounting config) || (KvCache.kp_bytes_per_token profile =? 0) then sample
  else
    let tokens := rc_context_tokens config +64 rc_warmup_tokens config in
    let blocks := ceil_div tokens (KvCache.kp_block_tokens profile) in
    let baseline_bytes := tokens *64 KvCache.kp_bytes_per_token profile in
    let compressed := if (rc_kv_compression config =s "reference") || (rc_kv_compression config =s "experimental")
                      then compressed_per_token config profile *64 tokens else 0 in
    let sample := {| sample with
                     KvCache.ks_logical_tokens := tokens;
                     KvCache.ks_active_blocks := blocks;
                     KvCache.ks_metadata_bytes := blocks *64 64;
                     KvCache.ks_evidence_status :=
                       if bool_decide (rc_backend config = FakeBackend) then "reconciled" else "estimated";
                     KvCache.ks_compressed_bytes := compressed |} in
    place_kv config (if 0 <? compressed then compressed else baseline_bytes) sample.

Definition apply_kv_sample_to_memory (kv : KvCache.KvCacheSample) (sample : MemorySample) : MemorySample :=
  {| sample with
     ms_kv_gpu_peak_bytes := KvCache.ks_gpu_bytes kv;
     ms_kv_host_peak_bytes := KvCache.ks_host_bytes kv;
     ms_kv_compressed_peak_bytes := KvCache.ks_compressed_bytes kv;
     ms_kv_metadata_peak_bytes := KvCache.ks_metadata_bytes kv;
     ms_kv_unknown_peak_bytes := KvCache.ks_unknown_bytes kv;
     ms_warmup_peak_bytes := if ms_warmup_peak_bytes sample <? KvCache.ks_gpu_bytes kv then KvCache.ks_gpu_bytes kv
                             else ms_warmup_peak_bytes sample;
     ms_unknown_post_warmup_bytes := ms_unknown_post_warmup_bytes sample +64 KvCache.ks_unknown_bytes kv |}.

Definition make_transfer_sample (config : RuntimeConfig) (plan : OffloadPlan) : TransferSample :=
  {| default_TransferSample with
     ts_declared_h2d_bytes := op_h2d_bytes plan;
     ts_declared_d2h_bytes := op_d2h_bytes plan;
     ts_declared_nvme_read_bytes := op_nvme_read_bytes plan;
     ts_declared_nvme_write_bytes := op_nvme_write_bytes plan;
     ts_pinned_host_budget_bytes := op_pinned_host_peak_bytes plan;
     ts_staging_budget_bytes := op_staging_peak_bytes plan;
     ts_declared_h2d_ms := rc_transfer_h2d_ms config;
     ts_declared_d2h_ms := rc_transfer_d2h_ms config;
     ts_declared_io_ms := rc_transfer_io_ms config;
     ts_declared_wait_ms := rc_transfer_wait_ms config;
     ts_prefill_ms := rc_prefill_ms config;
     ts_decode_ms := rc_decode_ms config;
     ts_time_to_first_token_ms := rc_observed_ttft_ms config;
     ts_decode_tokens_per_second := rc_observed_decode_tps config;
     ts_token_latency_p50_ms := rc_token_latency_p50_ms config;
     ts_token_latency_p95_ms := rc_token_latency_p95_ms config |}.

(** ** Stages *)

Definition start_run : ProbeState -> ProbeState := fun s =>
  log "telemetry_probe" [] (log "config_validated" [] (log "run_start" [] s)).

Definition sidecar_request (config : RuntimeConfig) : ModelSidecar.Request :=
  ModelSidecar.mkRequest (rc_model_path config) (rc_sidecar_path config) (rc_max_model_bytes config)
    (rc_max_sidecar_bytes config).

Definition sidecar_stage (e : ProbeEnv) : Stage := fun s =>
  let v := ModelSidecar.validate_model_sidecar (sidecar_request (ps_config s)) (pe_sidecar e) in
  let s := log "model_sidecar_validated"
    [("skipped", bool_text (ModelSidecar.rs_skipped v)); ("valid", bool_text (ModelSidecar.rs_valid v));
     ("failure_reason", ModelSidecar.rs_failure_reason v);
     ("model_path", generic_string (pe_windows e) (ModelSidecar.rs_normalized_model_path v));
     ("sidecar_path", generic_string (pe_windows e) (ModelSidecar.rs_normalized_sidecar_path v));
     ("model_size_bytes", show (ModelSidecar.rs_model_size_bytes v));
     ("sidecar_size_bytes", show (ModelSidecar.rs_sidecar_size_bytes v));
     ("model_sha256", ModelSidecar.rs_model_sha256 v)] s in
  if negb (ModelSidecar.rs_valid v) then fail_closed (ModelSidecar.rs_failure_reason v) s else (s, None).

Definition is_llama (config : RuntimeConfig) : bool := bool_decide (rc_backend config = LlamaBackend).

Definition pins_stage (e : ProbeEnv) : Stage := fun s =>
  let config := ps_config s in
  let plan := make_backend_plan config in
  let s := log "backend_selected"
    [("backend", bp_backend_name plan); ("backend_version", bp_backend_version plan);
     ("backend_contract_version", kBackendContractVersion)] s in
  if is_llama config && str_empty (rc_dependency_pin_file config) then fail_closed "dependency_pins_required" s
  else (log "dependency_pins_resolved"
          [("dependency_pin_file", generic_string (pe_windows e) (rc_dependency_pin_file config));
           ("required", bool_text (is_llama config))] s, None).

(** The context is reserved in the allocator; a context that does not fit is
    recorded as a peak that was refused. *)
Definition reserve_context (s : ProbeState) : ProbeState :=
  let bytes := cp_context_bytes (ps_cuda s) in
  let (allocation, allocator) := reserve bytes (ps_allocator s) in
  let allocator := if ar_accepted allocation then allocator else observe_rejected_peak bytes allocator in
  let sampled := tracker_sample allocator in
  let sample := ps_sample s in
  {| s with
     ps_allocator := allocator;
     ps_sample := {| sample with
       ms_allocator_bytes := ms_allocator_bytes sampled;
       ms_allocator_peak_bytes := ms_allocator_peak_bytes sampled;
       ms_process_gpu_bytes := bytes;
       ms_process_gpu_peak_bytes := bytes;
       ms_warmup_peak_bytes := bytes;
       ms_device_used_bytes := cp_device_used_after_bytes (ps_cuda s);
       ms_device_delta_bytes := bytes |} |}.

Definition cuda_stage (e : ProbeEnv) : Stage := fun s =>
  if negb (gpu_requested (rc_mode (ps_config s))) then (s, None)
  else
    let cuda := probe_cuda_context (pe_cuda e) in
    let s := log "cuda_context_probe"
      [("available", bool_text (cp_available cuda)); ("context_created", bool_text (cp_context_created cuda));
       ("context_bytes", show (cp_context_bytes cuda));
       ("device_used_before_bytes", show (cp_device_used_before_bytes cuda));
       ("device_used_after_bytes", show (cp_device_used_after_bytes cuda));
       ("device_total_bytes", show (cp_device_total_bytes cuda));
       ("driver_version", string_of_list_ascii (NumberText.signed_digits (cp_driver_version cuda)));
       ("runtime_version", string_of_list_ascii (NumberText.signed_digits (cp_runtime_version cuda)));
       ("gpu_name", cp_gpu_name cuda); ("failure_reason", cp_failure_reason cuda)]
      {| s with ps_cuda := cuda |} in
    if negb (cp_available cuda) || negb (cp_context_created cuda) then
      let sample := ps_sample s in
      let s := apply_simulated_breaches {| s with ps_sample := {| sample with ms_required_telemetry_present := false |} |} in
      (log_memory false s, Some (cp_failure_reason cuda))
    else (reserve_context s, None).

(** The evidence a claim is checked against. *)
Definition claim_evidence (s : ProbeState) : ClaimEvidence :=
  let config := ps_config s in
  mkClaim (rc_claim_label config) (rc_validation_cell_id config) "" (rc_quantization_format config)
    (rc_quant_artifact_sha256 config) (rc_simulated_evidence config) (rc_measured_evidence config)
    (hr_ok (ps_hybrid_plan s)) (qr_passed (ps_quality s)) (pd_accepted (ps_profitability s)) false
    (rc_repeatability_passed config) (rc_deployment_runbook_present config).

Definition usability_input (config : RuntimeConfig) : UsabilityInput :=
  mkUsabilityInput (rc_observed_ttft_ms config) (rc_observed_decode_tps config) (rc_token_latency_p95_ms config)
    (rc_max_time_to_first_token_ms config) (rc_min_decode_tokens_per_second config) (rc_max_token_latency_p95_ms config)
    (rc_repeatability_runs config) 3 (rc_repeatability_passed config).

Definition decision_fields (d : PolicyDecision) : list (string * string) :=
  [("accepted", bool_text (de_accepted d)); ("status", de_status d); ("reason", de_reason d)].

Definition plan_stage (s : ProbeState) : ProbeState :=
  let plan := validate_hybrid_plan (make_90b_simulated_plan (rc_hard_cap_bytes (ps_config s))) in
  log "hybrid_plan_created"
    [("claim_label", "simulated"); ("ok", bool_text (hr_ok plan));
     ("resident_gpu_total_bytes", show (hr_resident_gpu_total_bytes plan));
     ("failure_reason", hr_failure_reason plan)] {| s with ps_hybrid_plan := plan |}.

Definition classify_claim (s : ProbeState) : ProbeState :=
  let claim := validate_claim_evidence (claim_evidence s) in
  log "claim_classified" (decision_fields claim) {| s with ps_claim := claim |}.

Definition judge_usability (s : ProbeState) : ProbeState :=
  let config := ps_config s in
  let usability := if (rc_claim_label config =s "validated-benchmark") || (rc_claim_label config =s "deployable-profile")
                   then evaluate_usability (usability_input config) else mkDecision true "skipped" "" in
  log "usability_result" (decision_fields usability) {| s with ps_usability := usability |}.

Definition phase4_ok (s : ProbeState) : bool :=
  hr_ok (ps_hybrid_plan s) && de_accepted (ps_claim s) && de_accepted (ps_usability s).

Definition phase4_reason (s : ProbeState) : string :=
  if negb (hr_ok (ps_hybrid_plan s)) then hr_failure_reason (ps_hybrid_plan s)
  else if negb (de_accepted (ps_claim s)) then de_reason (ps_claim s) else de_reason (ps_usability s).

(** The claim, once it is judged: the run goes on unless it must fail closed. *)
Definition settle_claim : Stage := fun s =>
  let config := ps_config s in
  let s := log "repeatability_result"
    [("runs", show (rc_repeatability_runs config)); ("passed", bool_text (rc_repeatability_passed config))] s in
  let s := log "claim_validation_result" [("accepted", bool_text (phase4_ok s)); ("reason", phase4_reason s)] s in
  if negb (phase4_ok s) && (rc_claim_validation config =s "fail-closed") then fail_closed (phase4_reason s) s
  else (s, None).

Definition claim_stage : Stage := fun s =>
  let s := log "cap_semantics_resolved" [] s in
  if rc_claim_validation (ps_config s) =s "off" then (s, None)
  else settle_claim (judge_usability (classify_claim (plan_stage s))).

(** What the worker reported, copied into the configuration. *)
Definition record_worker (config : RuntimeConfig) (w : BackendWarmupResult) : RuntimeConfig :=
  {| config with
     rc_worker_evidence_available := wr_worker_evidence_available w;
     rc_worker_executable_sha256 := wr_worker_executable_sha256 w;
     rc_worker_approval_identity := wr_worker_approval_identity w;
     rc_worker_exit_code := wr_worker_exit_code w;
     rc_worker_timed_out := wr_worker_timed_out w;
     rc_worker_root_process_id := wr_worker_root_process_id w;
     rc_worker_job_identity := wr_worker_job_identity w;
     rc_worker_job_total_processes := wr_worker_job_total_processes w;
     rc_worker_job_peak_active_processes := wr_worker_job_peak_active_processes w;
     rc_worker_job_total_terminated_processes := wr_worker_job_total_terminated_processes w;
     rc_worker_root_peak_working_set_bytes := wr_worker_root_peak_working_set_bytes w;
     rc_worker_root_peak_private_commit_bytes := wr_worker_root_peak_private_commit_bytes w;
     rc_worker_tree_peak_working_set_bytes := wr_worker_tree_peak_working_set_bytes w;
     rc_worker_tree_peak_private_commit_bytes := wr_worker_tree_peak_private_commit_bytes w;
     rc_worker_tree_sample_interval_milliseconds := wr_worker_tree_sample_interval_milliseconds w;
     rc_worker_read_bytes := wr_worker_read_bytes w;
     rc_worker_write_bytes := wr_worker_write_bytes w;
     rc_worker_output_bytes := wr_worker_output_bytes w;
     rc_worker_output_limit_bytes := wr_worker_output_limit_bytes w |}.

(** What the warm-up adds to the sample. *)
Definition record_warmup (w : BackendWarmupResult) (sample : MemorySample) : MemorySample :=
  let larger := ms_allocator_peak_bytes sample <? ms_allocator_peak_bytes (wr_memory_sample w) in
  {| sample with
     ms_allocator_bytes := if larger then ms_allocator_bytes (wr_memory_sample w) else ms_allocator_bytes sample;
     ms_allocator_peak_bytes :=
       if larger then ms_allocator_peak_bytes (wr_memory_sample w) else ms_allocator_peak_bytes sample;
     ms_retained_pool_bytes := wr_retained_pool_bytes w;
     ms_unknown_post_warmup_bytes := ms_unknown_post_warmup_bytes sample +64 wr_backend_external_peak_bytes w;
     ms_warmup_peak_bytes := if ms_warmup_peak_bytes sample <? wr_backend_owned_peak_bytes w
                             then wr_backend_owned_peak_bytes w else ms_warmup_peak_bytes sample |}.

Definition announce_model (e : ProbeEnv) (s : ProbeState) : ProbeState :=
  let plan := make_backend_plan (ps_config s) in
  log "model_load_plan"
    [("backend", bp_backend_name plan); ("model_path", generic_string (pe_windows e) (bp_model_path plan));
     ("context_tokens", show (bp_requested_context_tokens plan)); ("gpu_layers", show (bp_gpu_layers plan));
     ("mmap_enabled", bool_text (bp_mmap_enabled plan))] (log "host_prepare" [] s).

Definition no_adapter (s : ProbeState) : ProbeState * option string :=
  let config := ps_config s in
  let plan := make_backend_plan config in
  let reason := if is_llama config then "llama_backend_not_compiled" else "backend_adapter_unavailable" in
  let s := log "backend_init"
    [("backend", bp_backend_name plan); ("backend_version", bp_backend_version plan); ("status", "failed");
     ("failure_reason", reason)] s in
  let s := log "backend_warmup"
    [("status", "failed"); ("backend", bp_backend_name plan); ("backend_owned_peak_bytes", "0");
     ("backend_external_peak_bytes", "0"); ("retained_pool_bytes", "0"); ("evidence_status", "adapter_unavailable");
     ("failure_reason", reason)] s in
  fail_closed reason s.

(** The warm-up; its result is kept for the stages after it. *)
Definition warm_up (adapter : BackendAdapter) (s : ProbeState) : BackendWarmupResult * ProbeState :=
  let s := log "backend_init" [("backend", ba_name adapter); ("backend_version", ba_version adapter)] s in
  let (w, allocator) := ba_warmup adapter (ps_config s) (ps_allocator s) in
  let s := {| s with ps_config := record_worker (ps_config s) w; ps_allocator := allocator;
                     ps_sample := record_warmup w (ps_sample s) |} in
  let observation := KvCache.observe_backend_memory allocator (observed_part w) in
  (w, log "backend_warmup"
    [("status", if wr_ok w then "ok" else "failed"); ("backend", ba_name adapter);
     ("backend_owned_peak_bytes", show (wr_backend_owned_peak_bytes w));
     ("backend_external_peak_bytes", show (wr_backend_external_peak_bytes w));
     ("retained_pool_bytes", show (wr_retained_pool_bytes w));
     ("evidence_status", KvCache.bo_evidence_status observation); ("failure_reason", wr_failure_reason w)] s).

(** The profile of the cache: the backend's, or the one of the configuration. *)
Definition kv_profile_of (w : BackendWarmupResult) (config : RuntimeConfig) : string + KvCache.KvCacheProfile :=
  if wr_kv_profile_available w then inr (wr_kv_profile w)
  else KvCache.make_kv_cache_profile (rc_kv_layer_count config) (rc_kv_head_count config) (rc_kv_head_dim config)
         (rc_kv_block_tokens config) 16 16.

Definition profile_fields (p : KvCache.KvCacheProfile) : list (string * string) :=
  [("layer_count", show (KvCache.kp_layer_count p)); ("kv_head_count", show (KvCache.kp_kv_head_count p));
   ("head_dim", show (KvCache.kp_head_dim p)); ("block_tokens", show (KvCache.kp_block_tokens p));
   ("key_bits", show (KvCache.kp_key_bits p)); ("value_bits", show (KvCache.kp_value_bits p));
   ("bytes_per_token", show (KvCache.kp_bytes_per_token p)); ("bytes_per_block", show (KvCache.kp_bytes_per_block p))].

Definition kv_sample_fields (k : KvCache.KvCacheSample) (failure : option string) : list (string * string) :=
  [("logical_tokens", show (KvCache.ks_logical_tokens k)); ("active_blocks", show (KvCache.ks_active_blocks k));
   ("gpu_bytes", show (KvCache.ks_gpu_bytes k)); ("host_bytes", show (KvCache.ks_host_bytes k));
   ("compressed_bytes", show (KvCache.ks_compressed_bytes k)); ("metadata_bytes", show (KvCache.ks_metadata_bytes k));
   ("unknown_bytes", show (KvCache.ks_unknown_bytes k)); ("evidence_status", KvCache.ks_evidence_status k);
   ("failure_reason", default "" failure)].

(** The ledger takes the profile, then the sample. *)
Definition record_kv (profile : KvCache.KvCacheProfile) (sample : KvCache.KvCacheSample) (budget : Z) : option string :=
  let (recorded, ledger) := KvCache.record_profile KvCache.new_ledger profile in
  match recorded with
  | Some failure => Some failure
  | None => (KvCache.ledger_sample ledger sample budget).1
  end.

(** One event for each token. *)
Definition decode_tokens (s : ProbeState) : ProbeState :=
  {| s with ps_events := ps_events s ++
       map (fun token => Emitted "decode_token" (ps_config s) [("token_index", show (Z.of_nat token))])
         (seq 0 (Z.to_nat (rc_warmup_tokens (ps_config s)))) |}.

Definition quality_input (config : RuntimeConfig) : QualityGateInput :=
  mkQualityInput (rc_quality_gate config) (rc_quality_baseline_score config) (rc_quality_observed_score config)
    (rc_quality_max_delta config) (rc_quality_deterministic_match config) (rc_quality_retrieval_passed config).

(** The gate and the compression claim. *)
Definition judge_quality (s : ProbeState) : ProbeState :=
  let config := ps_config s in
  let quality := evaluate_quality_gate (quality_input config) in
  let baseline_kv_bytes := KvCache.kp_bytes_per_token (ps_kv_profile s) *64 KvCache.ks_logical_tokens (ps_kv_sample s) in
  let compression := evaluate_kv_compression_claim
    (mkCompressionInput (rc_kv_compression config) baseline_kv_bytes (KvCache.ks_compressed_bytes (ps_kv_sample s))
       (KvCache.ks_metadata_bytes (ps_kv_sample s)) quality) in
  log "quality_gate_result"
    [("status", qr_status quality); ("passed", bool_text (qr_passed quality));
     ("failure_reason", qr_failure_reason quality);
     ("observed_delta", NumberText.fixed_text (qr_observed_delta quality));
     ("compression_status", kr_status compression); ("compression_accepted", bool_text (kr_accepted compression));
     ("compression_failure_reason", kr_failure_reason compression); ("kv_saved_bytes", show (kr_saved_bytes compression))]
    {| s with ps_quality := quality; ps_compression := compression |}.

(** The first of the three refusals ends the run. *)
Definition settle_kv (failure : option string) : Stage := fun s =>
  match failure with
  | Some reason => fail_closed reason s
  | None =>
      if negb (qr_passed (ps_quality s)) then fail_closed (qr_failure_reason (ps_quality s)) s
      else if negb (kr_accepted (ps_compression s)) then fail_closed (kr_failure_reason (ps_compression s)) s
      else (s, None)
  end.

(** The run with the profile: the sample and the tokens. *)
Definition decode (profile : KvCache.KvCacheProfile) (kv_sample : KvCache.KvCacheSample) (failure : option string)
    (s : ProbeState) : ProbeState :=
  let s := log "kv_cache_profile" (profile_fields profile) {| s with ps_kv_profile := profile |} in
  let s := log "prefill_start" [] s in
  let s := log "kv_cache_sample" (kv_sample_fields kv_sample failure) {| s with ps_kv_sample := kv_sample |} in
  let s := log "decode_end" [] (decode_tokens (log "decode_start" [] (log "prefill_end" [] s))) in
  {| s with ps_sample := apply_kv_sample_to_memory kv_sample (ps_sample s) |}.

Definition account_kv (profile : KvCache.KvCacheProfile) : Stage := fun s =>
  let config := ps_config s in
  let kv_sample := make_kv_sample config profile in
  let failure := record_kv profile kv_sample (rc_kv_metadata_budget_bytes config) in
  settle_kv failure (judge_quality (decode profile kv_sample failure s)).

Definition kv_stage (w : BackendWarmupResult) : Stage := fun s =>
  if negb (rc_kv_accounting (ps_config s)) then (s, None)
  else match kv_profile_of w (ps_config s) with
       | inl reason => fail_closed reason s
       | inr profile => account_kv profile s
       end.

(** The backend and what depends on its warm-up. *)
Definition backend_stage (e : ProbeEnv) : Stage := fun s =>
  let s := announce_model e s in
  match make_backend_adapter (pe_llama e) (rc_backend (ps_config s)) with
  | None => no_adapter s
  | Some adapter =>
      let (w, s) := warm_up adapter s in
      if negb (wr_ok w) then fail_closed (wr_failure_reason w) s else kv_stage w s
  end.

Definition make_plan (config : RuntimeConfig) : OffloadPlanResult :=
  make_offload_plan (rc_offload_policy config) (rc_pinned_host_budget_bytes config) (rc_staging_buffer_bytes config)
    (rc_transfer_h2d_bytes config) (rc_transfer_d2h_bytes config) (rc_nvme_read_bytes config) (rc_nvme_write_bytes config)
    (rc_cold_cache_run config).

Definition plan_fields (r : OffloadPlanResult) : list (string * string) :=
  let plan := or_plan r in
  [("policy", op_policy plan); ("h2d_bytes", show (op_h2d_bytes plan)); ("d2h_bytes", show (op_d2h_bytes plan));
   ("nvme_read_bytes", show (op_nvme_read_bytes plan)); ("nvme_write_bytes", show (op_nvme_write_bytes plan));
   ("pinned_host_peak_bytes", show (op_pinned_host_peak_bytes plan));
   ("staging_peak_bytes", show (op_staging_peak_bytes plan));
   ("cold_cache_required", bool_text (op_cold_cache_required plan)); ("failure_reason", or_failure_reason r)].

Definition transfer_fields (t : TransferSample) (reason : string) : list (string * string) :=
  [("h2d_declared_bytes", show (ts_declared_h2d_bytes t)); ("d2h_declared_bytes", show (ts_declared_d2h_bytes t));
   ("h2d_observed_completed_bytes", show (ts_observed_h2d_completed_bytes t));
   ("d2h_observed_completed_bytes", show (ts_observed_d2h_completed_bytes t));
   ("instrumentation_mode", ts_instrumentation_mode t); ("dropped_records", show (ts_dropped_records t));
   ("event_count", show (Z.of_nat (List.length (ts_events t))));
   ("h2d_declared_ms", NumberText.fixed_text (ts_declared_h2d_ms t));
   ("d2h_declared_ms", NumberText.fixed_text (ts_declared_d2h_ms t));
   ("prefill_ms", NumberText.fixed_text (ts_prefill_ms t)); ("decode_ms", NumberText.fixed_text (ts_decode_ms t));
   ("time_to_first_token_ms", NumberText.fixed_text (ts_time_to_first_token_ms t));
   ("decode_tokens_per_second", NumberText.fixed_text (ts_decode_tokens_per_second t)); ("failure_reason", reason)].

Definition profitability_input (s : ProbeState) (transfer : TransferSample) (transfers_ok : bool) : ProfitabilityInput :=
  let config := ps_config s in
  mkProfitabilityInput (rc_profitability_policy config) (rc_offload_policy config) (rc_min_speedup_ratio config)
    (mkBaseline (rc_cpu_baseline_ttft_ms config) (rc_cpu_baseline_decode_tps config) (rc_cpu_baseline_peak_bytes config)
       (rc_validation_cell_id config))
    transfer (rc_validation_cell_id config) true (qr_passed (ps_quality s)) transfers_ok.

Definition settle_profitability (planned reconciled validated : bool) (reason : string) : Stage := fun s =>
  if negb planned || negb reconciled || negb validated || negb (pd_accepted (ps_profitability s))
  then fail_closed reason s else (s, None).

(** The events of the plan, the transfer and the decision. *)
Definition report_offload (e : ProbeEnv) (plan_result : OffloadPlanResult) (transfer : TransferSample) (transfer_reason : string)
    (profitability : ProfitabilityDecision) (reason : string) (s : ProbeState) : ProbeState :=
  let config := ps_config s in
  let plan := or_plan plan_result in
  let s := log "baseline_selected"
    [("baseline_manifest", generic_string (pe_windows e) (rc_baseline_manifest config));
     ("cpu_time_to_first_token_ms", NumberText.fixed_text (rc_cpu_baseline_ttft_ms config));
     ("cpu_decode_tokens_per_second", NumberText.fixed_text (rc_cpu_baseline_decode_tps config));
     ("cpu_peak_bytes", show (rc_cpu_baseline_peak_bytes config))] s in
  let s := log "transfer_plan" (plan_fields plan_result) {| s with ps_offload_plan := plan |} in
  let s := log "transfer_sample" (transfer_fields transfer transfer_reason) {| s with ps_transfer := transfer |} in
  let s := log "offload_sample" [("policy", op_policy plan); ("evidence_label", op_evidence_label plan)] s in
  log "profitability_result"
    [("status", pd_status profitability); ("accepted", bool_text (pd_accepted profitability)); ("reason", reason);
     ("speedup_ratio", NumberText.fixed_text (pd_speedup_ratio profitability));
     ("required_speedup_ratio", NumberText.fixed_text (pd_required_speedup_ratio profitability))]
    {| s with ps_profitability := profitability |}.

Definition profitability_stage (e : ProbeEnv) : Stage := fun s =>
  let config := ps_config s in
  if rc_profitability_policy config =s "off" then (s, None)
  else
    let plan_result := make_plan config in
    let (reconciliation, transfer) := reconcile_transfer_sample (make_transfer_sample config (or_plan plan_result)) in
    let validation := validate_transfer_sample (rc_offload_policy config) transfer (rc_transfer_metrics config)
                        (rc_cold_cache_run config) in
    let transfer_reason := if negb (tv_ok reconciliation) then tv_failure_reason reconciliation
                           else tv_failure_reason validation in
    let profitability := evaluate_profitability
      (profitability_input s transfer (tv_ok reconciliation && tv_ok validation)) in
    let reason := if negb (or_ok plan_result) then or_failure_reason plan_result
                  else if negb (tv_ok reconciliation) then tv_failure_reason reconciliation
                  else if negb (tv_ok validation) then tv_failure_reason validation else pd_reason profitability in
    settle_profitability (or_ok plan_result) (tv_ok reconciliation) (tv_ok validation) reason
      (report_offload e plan_result transfer transfer_reason profitability reason s).

Definition certification_stage : Stage := fun s =>
  let s := apply_simulated_breaches s in
  let s := log_memory (ms_telemetry_agreement (ps_sample s)) s in
  let certification := certify_cap (ps_sample s) (rc_hard_cap_bytes (ps_config s)) in
  let s := log "cap_certification_result"
    [("certified", bool_text (cc_certified certification)); ("failure_reason", cc_failure_reason certification)] s in
  (s, if cc_certified certification then None else Some (cc_failure_reason certification)).

Definition stages (e : ProbeEnv) : Stage :=
  andThen (sidecar_stage e) (andThen (pins_stage e) (andThen (cuda_stage e) (andThen claim_stage
    (andThen (backend_stage e) (andThen (profitability_stage e) certification_stage))))).

(** ** The end of a run *)

(** [finish_probe]: the evidence of Windows, in the program's bundle. *)
Definition windows_bundle (e : ProbeEnv) (s : ProbeState) : WindowsEvidenceBundle :=
  let config := ps_config s in
  let sample := ps_sample s in
  let cuda := ps_cuda s in
  let host := sample_host_telemetry (pe_host_after e) in
  {| wb_claim_scope := "owned-allocation";
     wb_instrumentation_mode := ts_instrumentation_mode (ps_transfer s);
     wb_real_execution := rc_worker_evidence_available config || cp_context_created cuda;
     wb_evaluation_monotonic_milliseconds := 0;
     wb_maximum_host_sample_age_milliseconds := 0;
     wb_maximum_owned_gpu_sample_age_milliseconds := 0;
     wb_maximum_wddm_sample_age_milliseconds := 0;
     wb_gpu := {| default_OwnedGpuMemoryEvidence with
       og_available := cp_available cuda && cp_context_created cuda;
       og_reconciled := ms_telemetry_agreement sample;
       og_hard_cap_bytes := rc_hard_cap_bytes config;
       og_owned_current_bytes := ms_allocator_bytes sample;
       og_owned_peak_bytes := ms_allocator_peak_bytes sample;
       og_backend_pool_at_owned_peak_bytes := ms_retained_pool_bytes sample;
       og_kv_at_owned_peak_bytes := ms_kv_gpu_peak_bytes sample;
       og_cuda_context_runtime_at_owned_peak_bytes := cp_context_bytes cuda;
       og_cuda_mem_info_total_bytes := cp_device_total_bytes cuda;
       og_unknown_unreconciled_bytes := ms_unknown_post_warmup_bytes sample |};
     wb_wddm := sample_wddm_memory (pe_dxgi e) 0;
     wb_eviction_residency_trace_available := false;
     wb_eviction_or_nonlocal_residency_observed := false;
     wb_residency_trace_dropped_records := 0;
     wb_process_tree := {|
       pt_available := rc_worker_evidence_available config && hts_available host &&
                       (rc_worker_root_process_id config <>z 0) && negb (str_empty (rc_worker_job_identity config));
       pt_parent_identity := hts_process_image_path host +:+ "#pid=" +:+ show (hts_process_id host);
       pt_job_identity := rc_worker_job_identity config;
       pt_parent_working_set_current_bytes := hts_process_working_set_current_bytes host;
       pt_parent_working_set_peak_bytes := hts_process_working_set_peak_bytes host;
       pt_parent_private_commit_current_bytes := hts_process_private_commit_current_bytes host;
       pt_parent_private_commit_peak_bytes := hts_process_private_commit_peak_bytes host;
       pt_tree_working_set_current_bytes := 0;
       pt_tree_working_set_peak_bytes := rc_worker_tree_peak_working_set_bytes config;
       pt_tree_private_commit_current_bytes := 0;
       pt_tree_private_commit_peak_bytes := rc_worker_tree_peak_private_commit_bytes config;
       pt_tree_io_read_bytes := rc_worker_read_bytes config;
       pt_tree_io_write_bytes := rc_worker_write_bytes config |};
     wb_system_host_pre := sample_host_telemetry (pe_host_before e);
     wb_system_host_post := host;
     wb_offload_file_claim_requested := (rc_offload_policy config =s "nvme-simulated") || (rc_offload_policy config =s "nvme-experimental");
     wb_cold_cache_claim_requested := rc_cold_cache_run config;
     wb_files := if str_empty (rc_model_path config) then []
                 else [sample_file_identity (str_empty (rc_model_path config)) (pe_model_file e) "source-gguf"];
     wb_transfer_claim_requested := rc_offload_policy config <>s "none";
     wb_transfers := ps_transfer s |}.

Definition print_summary (config : RuntimeConfig) (status reason : string) : list ascii :=
  print_line [("status", text status); ("mode", text (mode_to_string (rc_mode config)));
              ("hard_cap_bytes", number (rc_hard_cap_bytes config)); ("failure_reason", text reason)] ++ [FlatJson.newline].

Inductive ExitCode := ExitOk | ExitUsage | ExitFailedClosed | ExitIoError.

Definition exit_number (code : ExitCode) : Z :=
  match code with ExitOk => 0 | ExitUsage => 1 | ExitFailedClosed => 2 | ExitIoError => 3 end.

(** What a run leaves: its exit code, its telemetry, what the manifest says of
    it (when the manifest could be written) and the summary it printed. *)
Record Outcome := mkOutcome {
  oc_exit : ExitCode;
  oc_events : list TelemetryEvent;
  oc_manifest : option (ProbeState * WindowsEvidenceDecision * string * string);
  oc_summary : list ascii;
}.

Definition finish_probe (e : ProbeEnv) (s : ProbeState) (status reason : string) (exit_code : ExitCode) : Outcome :=
  let evidence := classify_windows_evidence (windows_bundle e s) in
  if negb (pe_manifest_opens e) then mkOutcome ExitIoError (ps_events s) None []
  else mkOutcome exit_code (ps_events s) (Some (s, evidence, status, reason)) (print_summary (ps_config s) status reason).

Definition run_probe (e : ProbeEnv) (config : RuntimeConfig) : Outcome :=
  if negb (pe_telemetry_opens e) then mkOutcome ExitIoError [] None []
  else match stages e (start_run (initial_state config)) with
       | (s, Some reason) =>
           finish_probe e (log "run_end" [("status", "failed_closed")] (log "failed_closed" [("failure_reason", reason)] s))
             "failed_closed" reason ExitFailedClosed
       | (s, None) =>
           finish_probe e (log "run_end" [("status", "ok")] (log "completed" [] s)) "ok" "" ExitOk
       end.

Definition probe_main (e : ProbeEnv) (arguments : list string) : Outcome :=
  match parse_args (pe_now e) arguments with
  | inl _ => mkOutcome ExitUsage [] None []
  | inr config =>
      if rc_show_help config then mkOutcome ExitOk [] None (list_ascii_of_string usage_text)
      else run_probe e config
  end.


(** ** What a run writes *)

(** From [s0] to [s] the run wrote events of the names [t], tokens aside. *)
Definition grows (s0 s : ProbeState) (t : list string) : Prop :=
  exists added, ps_events s = ps_events s0 ++ added /\ Forall (fun e => well_named e = true) added /\
                quiet (map event_name added) = t.

Lemma grows_refl s : grows s s [].
Proof. exists []. by rewrite app_nil_r. Qed.

Lemma grows_eq s0 s t t' : grows s0 s t -> t = t' -> grows s0 s t'.
Proof. by intros H <-. Qed.

Lemma grows_same s0 s s' t : grows s0 s t -> ps_events s' = ps_events s -> grows s0 s' t.
Proof. intros (added & He & H) Hs. exists added. by rewrite Hs. Qed.

Lemma grows_trans s0 s s' t t' : grows s0 s t -> grows s s' t' -> grows s0 s' (t ++ t').
Proof.
  intros (a & Ha & Wa & <-) (b & Hb & Wb & <-). exists (a ++ b).
  rewrite Hb, Ha, app_assoc, map_app, quiet_app. split_and!; [done|by apply Forall_app|done].
Qed.

Lemma grows_log s0 s t event fields :
  grows s0 s t -> well_named (Emitted event (ps_config s) fields) = true ->
  grows s0 (log event fields s) (t ++ quiet [event]).
Proof.
  intros H Hw. eapply grows_trans; [done|]. exists [Emitted event (ps_config s) fields].
  split_and!; [done|by constructor|done].
Qed.

Lemma grows_memory s0 s t agreement : grows s0 s t -> grows s0 (log_memory agreement s) (t ++ ["memory_sample"]).
Proof.
  intros H. eapply grows_trans; [done|]. exists [Sampled (ps_config s) (ps_sample s) agreement].
  split_and!; [done|by constructor|done].
Qed.

Lemma grows_tokens s0 s t : grows s0 s t -> grows s0 (decode_tokens s) t.
Proof.
  intros H. rewrite <- (app_nil_r t). eapply grows_trans; [done|]. eexists. split_and!; [reflexivity|..].
  - apply Forall_map, Forall_forall. done.
  - rewrite map_map. induction (seq _ _) as [|n l IH]; [done|]. exact IH.
Qed.

Lemma breaches_events s : ps_events (apply_simulated_breaches s) = ps_events s.
Proof.
  change (ps_events (simulate_allocator_peak s) = ps_events s). unfold simulate_allocator_peak. by destruct (0 <? _).
Qed.

Lemma context_events s : ps_events (reserve_context s) = ps_events s.
Proof. unfold reserve_context. by destruct (reserve _ _). Qed.

(** A stage that starts in [s0] writes one of the traces [ts], each with
    whether it ends the run. *)
Definition traced (s0 : ProbeState) (ts : list (list string * bool)) (r : ProbeState * option string) : Prop :=
  exists t, t ∈ ts /\ grows s0 r.1 t.1 /\ t.2 = bool_decide (is_Some r.2).

Lemma traced_go s0 ts s t : grows s0 s t -> (t, false) ∈ ts -> traced s0 ts (s, None).
Proof. intros Hg Hin. exists (t, false). by split_and!. Qed.

Lemma traced_end s0 ts s reason t : grows s0 s t -> (t, true) ∈ ts -> traced s0 ts (s, Some reason).
Proof. intros Hg Hin. exists (t, true). by split_and!. Qed.

Lemma traced_fail s0 ts s reason t : grows s0 s t -> (t ++ ["memory_sample"], true) ∈ ts -> traced s0 ts (fail_closed reason s).
Proof. intros Hg Hin. eapply traced_end; [by apply grows_memory|done]. Qed.

(** The traces of one stage and then the other. *)
Definition sequel (ts ts' : list (list string * bool)) : list (list string * bool) :=
  List.concat (map (fun t : list string * bool =>
    if t.2 then [t] else map (fun t' : list string * bool => (t.1 ++ t'.1, t'.2)) ts') ts).

Lemma sequel_ended t ts ts' : t ∈ ts -> t.2 = true -> t ∈ sequel ts ts'.
Proof.
  intros Hin Ht. unfold sequel. rewrite list_elem_of_In, in_concat. exists [t]. split; [|by left].
  apply in_map_iff. exists t. rewrite Ht. split; [done|by apply list_elem_of_In].
Qed.

Lemma sequel_goes t t' ts ts' : t ∈ ts -> t.2 = false -> t' ∈ ts' -> (t.1 ++ t'.1, t'.2) ∈ sequel ts ts'.
Proof.
  intros Hin Ht Hin'. unfold sequel. rewrite list_elem_of_In, in_concat. eexists. rewrite in_map_iff.
  split; [exists t; split; [reflexivity|by apply list_elem_of_In]|].
  rewrite Ht. apply in_map_iff. exists t'. split; [done|by apply list_elem_of_In].
Qed.

Lemma traced_then ts ts' (first next : Stage) s :
  traced s ts (first s) -> (forall s', traced s' ts' (next s')) -> traced s (sequel ts ts') (andThen first next s).
Proof.
  intros (t & Hin & Hg & Ht) Hnext. unfold andThen. destruct (first s) as [s' [reason|]]; cbn [fst snd] in *.
  - exists t. split_and!; [by apply sequel_ended|done|done].
  - destruct (Hnext s') as (t' & Hin' & Hg' & Ht'). exists (t.1 ++ t'.1, t'.2).
    split_and!; [by apply sequel_goes|by eapply grows_trans|done].
Qed.

(** Follows the events of a state built by logging; [grow_more] is for the
    functions that have a lemma of their own. *)
Ltac grow_more := fail.

Ltac grow :=
  lazymatch goal with
  | |- grows _ (log _ _ _) _ => eapply grows_log; [grow|reflexivity]
  | |- grows _ (log_memory _ _) _ => eapply grows_memory; grow
  | |- grows _ (decode_tokens _) _ => eapply grows_tokens; grow
  | |- grows _ (apply_simulated_breaches _) _ => eapply grows_same; [|apply breaches_events]; grow
  | |- grows _ (reserve_context _) _ => eapply grows_same; [|apply context_events]; grow
  | |- grows _ (mkState _ _ _ _ _ _ _ _ _ _ _ _ _ _ (ps_events ?s)) _ =>
      eapply (grows_same _ s); [grow|reflexivity]
  | |- grows _ _ _ => first [eassumption | apply grows_refl | grow_more]
  end.

Ltac grow_let :=
  lazymatch goal with
  | |- grows ?s0 (let x := ?v in @?body x) ?t =>
      change (grows s0 (body v) t);
      tryif (let t := type of v in unify t ProbeState) then
        (let H := fresh "Hgrows" in let y := fresh "s" in
         eassert (H : grows s0 v _) by grow; revert H; generalize v; intros y H; cbv beta)
      else (let y := fresh "x" in generalize v; intros y; cbv beta)
  end.

(** Names the value of a [let]; what a state wrote is kept. *)
Ltac named_let :=
  lazymatch goal with
  | |- traced ?s0 ?ts (let x := ?v in @?body x) =>
      change (traced s0 ts (body v));
      tryif (let t := type of v in unify t ProbeState) then
        (let H := fresh "Hgrows" in let y := fresh "s" in
         eassert (H : grows s0 v _) by grow; revert H; generalize v; intros y H; cbv beta)
      else (let y := fresh "x" in generalize v; intros y; cbv beta)
  end.

Ltac stage_step :=
  first
    [ named_let
    | lazymatch goal with
      | |- traced _ _ (if ?c then _ else _) => destruct c
      | |- traced _ _ (match ?x with _ => _ end) => destruct x
      | |- traced _ _ (fail_closed _ _) => eapply traced_fail; [grow|apply (bool_decide_unpack _); vm_compute; exact I]
      | |- traced _ _ (_, None) => eapply traced_go; [grow|apply (bool_decide_unpack _); vm_compute; exact I]
      | |- traced _ _ (_, Some _) => eapply traced_end; [grow|apply (bool_decide_unpack _); vm_compute; exact I]
      end ].

Ltac trace_stage := cbv beta; repeat stage_step.

Definition sidecar_traces : list (list string * bool) :=
  [(["model_sidecar_validated"], false); (["model_sidecar_validated"; "memory_sample"], true)].

Lemma sidecar_traced e s : traced s sidecar_traces (sidecar_stage e s).
Proof. cbv delta [sidecar_stage]. trace_stage. Qed.

Definition pins_traces : list (list string * bool) :=
  [(["backend_selected"; "dependency_pins_resolved"], false); (["backend_selected"; "memory_sample"], true)].

Lemma pins_traced e s : traced s pins_traces (pins_stage e s).
Proof. cbv delta [pins_stage]. trace_stage. Qed.

Definition cuda_traces : list (list string * bool) :=
  [([], false); (["cuda_context_probe"], false); (["cuda_context_probe"; "memory_sample"], true)].

Lemma cuda_traced e s : traced s cuda_traces (cuda_stage e s).
Proof. cbv delta [cuda_stage]. trace_stage. Qed.

Definition phase4_events : list string :=
  ["hybrid_plan_created"; "claim_classified"; "usability_result"; "repeatability_result"; "claim_validation_result"].

Definition claim_traces : list (list string * bool) :=
  [(["cap_semantics_resolved"], false); ("cap_semantics_resolved" :: phase4_events, false);
   ("cap_semantics_resolved" :: phase4_events ++ ["memory_sample"], true)].

Lemma grows_phase4 s0 s t : grows s0 s t ->
  grows s0 (judge_usability (classify_claim (plan_stage s)))
    (((t ++ ["hybrid_plan_created"]) ++ ["claim_classified"]) ++ ["usability_result"]).
Proof.
  intros H. assert (H1 : grows s0 (plan_stage s) (t ++ ["hybrid_plan_created"])) by (unfold plan_stage; cbv zeta; grow).
  revert H1. generalize (plan_stage s). clear s H. intros s H.
  assert (H1 : grows s0 (classify_claim s) ((t ++ ["hybrid_plan_created"]) ++ ["claim_classified"]))
    by (unfold classify_claim; cbv zeta; grow).
  revert H1. generalize (classify_claim s). clear s H. intros s H. unfold judge_usability. cbv zeta. grow.
Qed.

Lemma grows_quality s0 s t : grows s0 s t -> grows s0 (judge_quality s) (t ++ ["quality_gate_result"]).
Proof. intros H. unfold judge_quality. grow. Qed.

Lemma grows_model e s0 s t : grows s0 s t -> grows s0 (announce_model e s) ((t ++ ["host_prepare"]) ++ ["model_load_plan"]).
Proof. intros H. unfold announce_model. grow. Qed.

Lemma grows_decode profile kv_sample failure s0 s t : grows s0 s t -> grows s0 (decode profile kv_sample failure s)
  ((((((t ++ ["kv_cache_profile"]) ++ ["prefill_start"]) ++ ["kv_cache_sample"]) ++ ["prefill_end"]) ++ ["decode_start"]) ++ ["decode_end"]).
Proof.
  intros H. cbv delta [decode]. cbv beta. repeat grow_let. grow.
Qed.

Ltac grow_more ::=
  lazymatch goal with
  | |- grows _ (judge_usability (classify_claim (plan_stage _))) _ => eapply grows_phase4; grow
  | |- grows _ (judge_quality _) _ => eapply grows_quality; grow
  | |- grows _ (decode _ _ _ _) _ => eapply grows_decode; grow
  | |- grows _ (announce_model _ _) _ => eapply grows_model; grow
  end.

Lemma claim_traced s : traced s claim_traces (claim_stage s).
Proof.
  cbv delta [claim_stage]. cbv beta. stage_step. destruct (_ =s _); [stage_step|].
  eassert (H : grows s (judge_usability (classify_claim (plan_stage s0))) _) by grow. revert H.
  generalize (judge_usability (classify_claim (plan_stage s0))). intros s' H. cbv delta [settle_claim]. trace_stage.
Qed.

Definition decode_events : list string :=
  ["kv_cache_profile"; "prefill_start"; "kv_cache_sample"; "prefill_end"; "decode_start"; "decode_end"; "quality_gate_result"].

Definition kv_traces : list (list string * bool) :=
  [([], false); (["memory_sample"], true); (decode_events, false); (decode_events ++ ["memory_sample"], true)].

Lemma settle_kv_traced failure s0 s : grows s0 s decode_events -> traced s0 kv_traces (settle_kv failure s).
Proof. intros H. cbv delta [settle_kv]. trace_stage. Qed.

Lemma kv_traced w s : traced s kv_traces (kv_stage w s).
Proof.
  cbv delta [kv_stage]. cbv beta. destruct (negb _); [stage_step|].
  destruct (kv_profile_of _ _) as [reason|profile]; [stage_step|].
  apply settle_kv_traced, (grows_quality _ _ (take 6 decode_events)), (grows_decode _ _ _ _ _ []), grows_refl.
Qed.

(** The warm-up that failed, no adapter, and the warm-up before the cache. *)
Definition warmup_events : list string := ["host_prepare"; "model_load_plan"; "backend_init"; "backend_warmup"].

Definition backend_traces : list (list string * bool) :=
  map (fun t : list string * bool => (warmup_events ++ t.1, t.2)) kv_traces.

Lemma warm_up_grows adapter s0 s t :
  grows s0 s t -> grows s0 (warm_up adapter s).2 ((t ++ ["backend_init"]) ++ ["backend_warmup"]).
Proof.
  intros H. unfold warm_up. cbv zeta. destruct (ba_warmup _ _ _) as [w allocator]. cbn [snd].
  eapply grows_log; [|reflexivity]. eapply (grows_same _ (log "backend_init" _ s)); [|reflexivity]. grow.
Qed.

Lemma traced_after s0 s t ts r :
  grows s0 s t -> traced s ts r -> traced s0 (map (fun t' : list string * bool => (t ++ t'.1, t'.2)) ts) r.
Proof.
  intros Hs (t' & Hin & Hg & Ht). exists (t ++ t'.1, t'.2). split_and!; [|by eapply grows_trans|done].
  apply list_elem_of_fmap. by exists t'.
Qed.

Lemma no_adapter_traced s0 s :
  grows s0 s ["host_prepare"; "model_load_plan"] -> traced s0 backend_traces (no_adapter s).
Proof. intros H. cbv delta [no_adapter]. trace_stage. Qed.

Lemma backend_traced e s : traced s backend_traces (backend_stage e s).
Proof.
  cbv delta [backend_stage]. cbv beta. stage_step. destruct (make_backend_adapter _ _) as [adapter|]; [|by apply no_adapter_traced].
  pose proof (warm_up_grows adapter _ _ _ Hgrows) as H. destruct (warm_up adapter s0) as [w s1]. cbn [snd] in H.
  destruct (negb _); [stage_step|]. apply (traced_after _ _ _ _ _ H (kv_traced w s1)).
Qed.


Definition phase3_events : list string :=
  ["baseline_selected"; "transfer_plan"; "transfer_sample"; "offload_sample"; "profitability_result"].

Definition profitability_traces : list (list string * bool) :=
  [([], false); (phase3_events, false); (phase3_events ++ ["memory_sample"], true)].

Lemma settle_profitability_traced planned reconciled validated reason s0 s :
  grows s0 s phase3_events -> traced s0 profitability_traces (settle_profitability planned reconciled validated reason s).
Proof. intros H. cbv delta [settle_profitability]. trace_stage. Qed.

Lemma grows_report e plan transfer transfer_reason profitability reason s :
  grows s (report_offload e plan transfer transfer_reason profitability reason s) phase3_events.
Proof. cbv delta [report_offload]. cbv beta. eapply grows_eq; [repeat grow_let; grow|reflexivity]. Qed.

Lemma profitability_traced e s : traced s profitability_traces (profitability_stage e s).
Proof.
  unfold profitability_stage. destruct (_ =s _); [stage_step|]. cbv zeta.
  destruct (reconcile_transfer_sample _) as [reconciliation transfer]. apply settle_profitability_traced, grows_report.
Qed.

Definition certification_traces : list (list string * bool) :=
  [(["memory_sample"; "cap_certification_result"], false); (["memory_sample"; "cap_certification_result"], true)].

Lemma certification_traced s : traced s certification_traces (certification_stage s).
Proof. cbv delta [certification_stage]. cbv beta. do 4 stage_step. destruct (cc_certified _); stage_step. Qed.

(** The stages before the claim, and those after it. *)
Definition before_claim (e : ProbeEnv) : Stage := andThen (sidecar_stage e) (andThen (pins_stage e) (cuda_stage e)).

Definition after_claim (e : ProbeEnv) : Stage := andThen (backend_stage e) (andThen (profitability_stage e) certification_stage).

Definition before_traces := sequel sidecar_traces (sequel pins_traces cuda_traces).

Definition after_traces := sequel backend_traces (sequel profitability_traces certification_traces).

Lemma before_traced e s : traced s before_traces (before_claim e s).
Proof. apply traced_then; [apply sidecar_traced|]. intros s'. apply traced_then; [apply pins_traced|]. apply cuda_traced. Qed.

Lemma after_traced e s : traced s after_traces (after_claim e s).
Proof.
  apply traced_then; [apply backend_traced|]. intros s'. apply traced_then; [apply profitability_traced|].
  apply certification_traced.
Qed.

Lemma stages_split e s : stages e s = andThen (before_claim e) (andThen claim_stage (after_claim e)) s.
Proof.
  unfold stages, before_claim, after_claim, andThen. destruct (sidecar_stage e s) as [? []]; [done|].
  by destruct (pins_stage e _) as [? []].
Qed.

(** The run ends with its claim. *)
Definition claim_refused (e : ProbeEnv) (config : RuntimeConfig) : bool :=
  match before_claim e (start_run (initial_state config)) with
  | (s, None) => bool_decide (is_Some (claim_stage s).2)
  | _ => false
  end.

(** The events of the end of a run. *)
Definition ending (ended : bool) : list string := [if ended then "failed_closed" else "completed"; "run_end"].

(** What the lifecycle check says of a trace. *)
Definition trace_verdict (t : list string * bool) : string + unit :=
  validate_events (["run_start"; "config_validated"; "telemetry_probe"] ++ t.1 ++ ending t.2).

Lemma traces_accepted :
  Forall (fun t => trace_verdict t = inr tt)
    (filter (fun t => t.2 = true) before_traces ++
     sequel (filter (fun t => t.2 = false) before_traces)
       (sequel (filter (fun t => t.2 = false) claim_traces) after_traces)).
Proof. apply (bool_decide_unpack _). vm_compute. exact I. Qed.

Lemma traces_refused :
  Forall (fun t => trace_verdict t = inl "missing_host_prepare")
    (sequel (filter (fun t => t.2 = false) before_traces) (filter (fun t => t.2 = true) claim_traces)).
Proof. apply (bool_decide_unpack _). vm_compute. exact I. Qed.

Lemma andThen_eq (first next : Stage) s :
  andThen first next s = match first s with (s', None) => next s' | failed => failed end.
Proof. done. Qed.

Lemma run_traced e config :
  let s := start_run (initial_state config) in
  exists t, grows s (stages e s).1 t.1 /\ t.2 = bool_decide (is_Some (stages e s).2) /\
            trace_verdict t = if claim_refused e config then inl "missing_host_prepare" else inr tt.
Proof.
  intros s. rewrite stages_split. unfold claim_refused. fold s. rewrite !(andThen_eq (before_claim e)).
  pose proof traces_accepted as [Hbefore Hafter]%Forall_app. rewrite Forall_forall in Hbefore, Hafter.
  pose proof traces_refused as Hclaim. rewrite Forall_forall in Hclaim.
  destruct (before_traced e s) as (t & Hin & Hg & Ht). destruct (before_claim e s) as [s1 [reason|]]; cbn [fst snd] in *.
  { exists t. split; [exact Hg|]. split; [exact Ht|]. apply Hbefore, list_elem_of_filter. by rewrite Ht. }
  rewrite !(andThen_eq claim_stage). destruct (claim_traced s1) as (t1 & Hin1 & Hg1 & Ht1).
  destruct (claim_stage s1) as [s2 [reason|]]; cbn [fst snd] in *.
  { exists (t.1 ++ t1.1, t1.2). split; [by eapply grows_trans|]. split; [exact Ht1|]. apply Hclaim, sequel_goes; [|done|].
    - by apply list_elem_of_filter.
    - by apply list_elem_of_filter. }
  destruct (after_traced e s2) as (t2 & Hin2 & Hg2 & Ht2). exists (t.1 ++ t1.1 ++ t2.1, t2.2).
  split; [by eapply grows_trans, grows_trans|]. split; [exact Ht2|].
  apply Hafter. apply (sequel_goes t (t1.1 ++ t2.1, t2.2)); [by apply list_elem_of_filter|done|].
  apply sequel_goes; [by apply list_elem_of_filter|done|done].
Qed.

Lemma traced_extends s ts r : traced s ts r -> exists more, ps_events r.1 = ps_events s ++ more.
Proof. intros (t & _ & (more & H & _) & _). by exists more. Qed.

(** The first events of the stages; no token is among them. *)
Lemma sidecar_opens e s : exists a,
  event_name a = "model_sidecar_validated" /\
  match sidecar_stage e s with
  | (s', None) => ps_events s' = ps_events s ++ [a]
  | (s', Some _) => exists b, event_name b = "memory_sample" /\ ps_events s' = ps_events s ++ [a; b]
  end.
Proof.
  unfold sidecar_stage. destruct (negb _); cbn [fail_closed log_memory log ps_events].
  - eexists (Emitted _ _ _). split; [reflexivity|]. eexists (Sampled _ _ _). split; [reflexivity|]. by rewrite <- app_assoc.
  - by eexists (Emitted _ _ _).
Qed.

Lemma pins_opens e s : exists b more,
  event_name b = "backend_selected" /\ ps_events (pins_stage e s).1 = ps_events s ++ b :: more.
Proof.
  unfold pins_stage. destruct (_ && _); cbn [fail_closed fst log_memory log ps_events]; rewrite <- !app_assoc;
    by eexists (Emitted _ _ _), _.
Qed.

Lemma stages_open e s : exists a b more,
  ps_events (stages e s).1 = ps_events s ++ a :: b :: more /\
  event_name a = "model_sidecar_validated" /\ not_token (event_name b) = true.
Proof.
  destruct (sidecar_opens e s) as (a & Ha & H). unfold stages. rewrite andThen_eq.
  destruct (sidecar_stage e s) as [s1 [reason|]].
  { destruct H as (b & Hb & He). exists a, b, []. by rewrite Hb. }
  destruct (pins_opens e s1) as (b & more & Hb & He). rewrite andThen_eq.
  assert (Hrest : forall s2, exists rest, ps_events (andThen (cuda_stage e) (andThen claim_stage (after_claim e)) s2).1 = ps_events s2 ++ rest).
  { intros s2. eapply traced_extends, traced_then; [apply cuda_traced|]. intros s3.
    apply traced_then; [apply claim_traced|apply after_traced]. }
  destruct (pins_stage e s1) as [s2 [reason|]]; cbn [fst] in *.
  - exists a, b, more. rewrite He, H, Hb, <- app_assoc. done.
  - destruct (Hrest s2) as [rest Hr]. exists a, b, (more ++ rest). unfold after_claim in Hr.
    rewrite Hr, He, H, Hb, <- !app_assoc. done.
Qed.


(** The events of a run: the start, what the stages write, the end. *)
Lemma run_events e config :
  pe_telemetry_opens e = true ->
  let r := stages e (start_run (initial_state config)) in
  exists last1 last2, oc_events (run_probe e config) = ps_events r.1 ++ [last1; last2] /\
    well_named last1 = true /\ well_named last2 = true /\
    [event_name last1; event_name last2] = ending (bool_decide (is_Some r.2)).
Proof.
  intros Ht r. unfold run_probe. rewrite Ht. cbn [negb]. fold r. destruct r as [s [reason|]]; unfold finish_probe;
    destruct (negb _); cbn [oc_events log ps_events fst snd]; rewrite <- app_assoc; by eexists (Emitted _ _ _), (Emitted _ _ _).
Qed.

Lemma run_verdict e config :
  pe_telemetry_opens e = true ->
  Forall (fun e => well_named e = true) (oc_events (run_probe e config)) /\
  validate_events (map event_name (oc_events (run_probe e config))) =
    if claim_refused e config then inl "missing_host_prepare" else inr tt.
Proof.
  intros Ht. destruct (run_events e config Ht) as (l1 & l2 & He & W1 & W2 & Hl).
  destruct (run_traced e config) as (t & (added & Hadd & Wa & Hq) & Hend & <-). revert He Hadd Hl Hend.
  destruct (stages_open e (start_run (initial_state config))) as (a & b & more & Hopen & Ha & Hb). revert Hopen.
  set (r := stages e _). clearbody r. change (ps_events (start_run (initial_state config))) with
    [Emitted "run_start" config []; Emitted "config_validated" config []; Emitted "telemetry_probe" config []].
  intros Hopen He Hadd Hl Hend. rewrite Hopen in Hadd. apply app_inv_head in Hadd. subst added.
  rewrite He, Hopen, <- app_assoc. split.
  { apply Forall_app. split; [by repeat constructor|]. apply Forall_app. split; [done|by repeat constructor]. }
  unfold trace_verdict. rewrite Hend, <- Hl, <- Hq.
  rewrite !map_app. cbn [map event_name]. rewrite Ha.
  injection Hl as Hl1 Hl2. rewrite Hl2.
  transitivity (validate_events (opening ++ event_name b :: (map event_name more ++ [event_name l1]) ++ ["run_end"])).
  { f_equal. unfold opening. cbn [app]. by rewrite <- !app_assoc. }
  rewrite validate_quiet by done. f_equal. unfold quiet. cbn [List.filter]. rewrite Hb. cbn [opening app].
  unfold opening. cbn [app]. rewrite List.filter_app, <- app_assoc. cbn [List.filter app].
  rewrite Hl1. by destruct (bool_decide _).
Qed.

(** C14. Every run of the probe whose telemetry opens writes a telemetry file
    that the lifecycle check accepts, whichever stage it ends in, with one
    exception: a run that fails closed on its claim is rejected for the missing
    [host_prepare]. *)
Theorem probe_lifecycle e config stamped :
  pe_telemetry_opens e = true ->
  map snd stamped = oc_events (run_probe e config) ->
  validate_phase0_lifecycle (rc_telemetry_path config) (Some (written (pe_windows e) stamped)) =
    if claim_refused e config then inl "missing_host_prepare" else inr tt.
Proof.
  intros Ht Hs. destruct (run_verdict e config Ht) as [Hw Hv]. cbn [validate_phase0_lifecycle].
  rewrite written_read_back, <- Hv, <- Hs, map_map; [done|]. rewrite <- Hs in Hw. by apply Forall_map in Hw.
Qed.


(** ** What a run that succeeds has passed *)

(** [Q] relates the state before a stage to the one it goes on with. *)
Definition goes_on (st : Stage) (Q : ProbeState -> ProbeState -> Prop) : Prop :=
  forall s s', st s = (s', None) -> Q s s'.

Lemma goes_on_then (first next : Stage) (P Q : ProbeState -> ProbeState -> Prop) :
  goes_on first P -> goes_on next Q -> goes_on (andThen first next) (fun s s'' => exists s', P s s' /\ Q s' s'').
Proof.
  intros Hf Hn s s''. rewrite andThen_eq. destruct (first s) as [s' [reason|]] eqn:E; [done|]. intros H.
  exists s'. split; [by apply Hf|by apply Hn].
Qed.

Lemma profile_blocks_positive layers heads dim block_tokens key_bits value_bits profile :
  KvCache.make_kv_cache_profile layers heads dim block_tokens key_bits value_bits = inr profile ->
  KvCache.kp_block_tokens profile <> 0.
Proof.
  unfold KvCache.make_kv_cache_profile. destruct (existsb _ _) eqn:Hz; [done|].
  assert (block_tokens <> 0) as Hb.
  { intros ->. cbn in Hz. by rewrite !orb_true_r in Hz. }
  repeat (case_match; try done). intros [= <-]. exact Hb.
Qed.

(** What the stages after the warm-up fill in. *)
Definition cache_results (s : ProbeState) :
    KvCache.KvCacheProfile * KvCache.KvCacheSample * QualityGateResult * KvCompressionResult :=
  (ps_kv_profile s, ps_kv_sample s, ps_quality s, ps_compression s).

Definition carried (s : ProbeState) := (cache_results s, ps_profitability s).

Lemma sidecar_goes_on e : goes_on (sidecar_stage e) (fun s s' =>
  ModelSidecar.rs_valid (ModelSidecar.validate_model_sidecar (sidecar_request (ps_config s)) (pe_sidecar e)) = true /\
  ps_config s' = ps_config s /\ carried s' = carried s).
Proof.
  intros s s'. unfold sidecar_stage. destruct (ModelSidecar.rs_valid _); cbn [negb]; [|discriminate]. by intros [= <-].
Qed.

Lemma pins_goes_on e : goes_on (pins_stage e) (fun s s' =>
  (is_llama (ps_config s) && str_empty (rc_dependency_pin_file (ps_config s))) = false /\
  ps_config s' = ps_config s /\ carried s' = carried s).
Proof. intros s s'. unfold pins_stage. destruct (_ && _); [discriminate|]. by intros [= <-]. Qed.

Lemma cuda_goes_on e : goes_on (cuda_stage e) (fun s s' =>
  (gpu_requested (rc_mode (ps_config s)) = true ->
     ps_cuda s' = probe_cuda_context (pe_cuda e) /\ cp_available (ps_cuda s') = true /\
     cp_context_created (ps_cuda s') = true) /\
  ps_config s' = ps_config s /\ carried s' = carried s).
Proof.
  intros s s'. unfold cuda_stage. destruct (gpu_requested _); cbn [negb]; [|by intros [= <-]].
  destruct (_ || _) eqn:E; [discriminate|]. intros [= <-].
  apply orb_false_iff in E as [Ha%negb_false_iff Hc%negb_false_iff].
  unfold reserve_context. by destruct (reserve _ _) as [allocation allocator].
Qed.

Lemma log_config event fields s : ps_config (log event fields s) = ps_config s.
Proof. done. Qed.

Lemma log_phase4 event fields s : phase4_ok (log event fields s) = phase4_ok s.
Proof. done. Qed.

(** The plan fits the cap, the claim's own evidence suffices, and a claim of a
    benchmark or of a deployment is usable.  [s] is the state in which the
    claim is judged. *)
Definition claim_holds (s : ProbeState) : Prop :=
  let config := ps_config s in
  hr_ok (validate_hybrid_plan (make_90b_simulated_plan (rc_hard_cap_bytes config))) = true /\
  de_accepted (validate_claim_evidence (claim_evidence (plan_stage s))) = true /\
  (rc_claim_label config = "validated-benchmark" \/ rc_claim_label config = "deployable-profile" ->
   de_accepted (evaluate_usability (usability_input config)) = true).

#[local] Strategy 1000 [validate_claim_evidence evaluate_usability validate_hybrid_plan make_90b_simulated_plan].

Lemma judged_claim_holds s :
  phase4_ok (judge_usability (classify_claim (plan_stage s))) = true -> claim_holds s.
Proof.
  intros H. apply andb_prop in H as [H Hu]. apply andb_prop in H as [Hp Hc]. split; [exact Hp|]. split; [exact Hc|].
  intros Hl. cbn [ps_usability judge_usability log] in Hu.
  change (ps_config (classify_claim (plan_stage s))) with (ps_config s) in Hu.
  by destruct Hl as [Hl|Hl]; rewrite Hl in Hu.
Qed.

Lemma settle_goes_on : goes_on settle_claim (fun s s' =>
  (rc_claim_validation (ps_config s) = "fail-closed" -> phase4_ok s = true) /\
  ps_config s' = ps_config s /\ ps_cuda s' = ps_cuda s /\ carried s' = carried s).
Proof.
  intros s s'. unfold settle_claim. cbv zeta. rewrite !log_phase4. destruct (phase4_ok s) eqn:Hok; cbn [negb andb].
  - intros [= <-]. done.
  - destruct (String.eqb_spec (rc_claim_validation (ps_config s)) "fail-closed"); [discriminate|]. by intros [= <-].
Qed.

Lemma claim_goes_on : goes_on claim_stage (fun s s' =>
  (rc_claim_validation (ps_config s) = "fail-closed" -> claim_holds s) /\
  ps_config s' = ps_config s /\ ps_cuda s' = ps_cuda s /\ carried s' = carried s).
Proof.
  intros s s'. unfold claim_stage. rewrite log_config.
  destruct (String.eqb_spec (rc_claim_validation (ps_config s)) "off") as [Hoff|Hon].
  - intros [= <-]. by rewrite Hoff.
  - intros (Hj & Hrest)%settle_goes_on. split; [|exact Hrest]. intros Hv.
    exact (judged_claim_holds (log "cap_semantics_resolved" [] s) (Hj Hv)).
Qed.

(** What accounting the cache asks for, with [w] what the warm-up reported: a
    profile of the cache, a ledger that takes the profile and the sample
    within the metadata budget, a quality gate that passes and a compression
    claim that is accepted, each judged on the configuration. *)
Definition cache_accounted (config : RuntimeConfig) (w : BackendWarmupResult) (s : ProbeState) : Prop :=
  exists profile,
    kv_profile_of w config = inr profile /\
    record_kv profile (make_kv_sample config profile) (rc_kv_metadata_budget_bytes config) = None /\
    let quality := evaluate_quality_gate (quality_input config) in
    let compression := evaluate_kv_compression_claim
      (mkCompressionInput (rc_kv_compression config)
         (KvCache.kp_bytes_per_token profile *64 KvCache.ks_logical_tokens (make_kv_sample config profile))
         (KvCache.ks_compressed_bytes (make_kv_sample config profile))
         (KvCache.ks_metadata_bytes (make_kv_sample config profile)) quality) in
    qr_passed quality = true /\ kr_accepted compression = true /\
    cache_results s = (profile, make_kv_sample config profile, quality, compression).

Lemma settle_kv_goes_on failure : goes_on (settle_kv failure) (fun s s' =>
  s' = s /\ failure = None /\ qr_passed (ps_quality s) = true /\ kr_accepted (ps_compression s) = true).
Proof.
  intros s s'. unfold settle_kv. destruct failure; [discriminate|].
  destruct (qr_passed (ps_quality s)) eqn:Hq; cbn [negb]; [|discriminate].
  destruct (kr_accepted (ps_compression s)) eqn:Hk; cbn [negb]; [|discriminate]. by intros [= <-].
Qed.

Lemma kv_goes_on w : goes_on (kv_stage w) (fun s s' =>
  (rc_kv_accounting (ps_config s) = true -> cache_accounted (ps_config s) w s') /\
  (rc_kv_accounting (ps_config s) = false -> cache_results s' = cache_results s) /\
  ps_config s' = ps_config s /\ ps_cuda s' = ps_cuda s /\ ps_profitability s' = ps_profitability s).
Proof.
  intros s s'. unfold kv_stage. destruct (rc_kv_accounting _); cbn [negb]; [|by intros [= <-]].
  destruct (kv_profile_of w (ps_config s)) as [reason|profile] eqn:Hp; [discriminate|].
  intros (-> & Hf & Hq & Hk)%settle_kv_goes_on. split; [|by split_and!]. intros _. exists profile. by split_and!.
Qed.

(** The warm-up of the adapter the configuration selects, on the allocator of
    [s], and what the cache asks for after it. *)
Definition warmed_up (e : ProbeEnv) (s s' : ProbeState) : Prop :=
  let config := ps_config s in
  exists adapter w allocator,
    make_backend_adapter (pe_llama e) (rc_backend config) = Some adapter /\
    ba_warmup adapter config (ps_allocator s) = (w, allocator) /\ wr_ok w = true /\
    ps_config s' = record_worker config w /\
    (rc_kv_accounting config = true -> cache_accounted config w s') /\
    (rc_kv_accounting config = false -> cache_results s' = cache_results s).

Lemma backend_goes_on e : goes_on (backend_stage e) (fun s s' =>
  warmed_up e s s' /\ ps_cuda s' = ps_cuda s /\ ps_profitability s' = ps_profitability s).
Proof.
  intros s s'. unfold backend_stage. change (ps_config (announce_model e s)) with (ps_config s).
  destruct (make_backend_adapter _ _) as [adapter|] eqn:Ha; [|discriminate]. unfold warm_up. cbv zeta.
  change (ps_config (log _ _ (announce_model e s))) with (ps_config s).
  change (ps_allocator (log _ _ (announce_model e s))) with (ps_allocator s).
  destruct (ba_warmup adapter (ps_config s) (ps_allocator s)) as [w allocator] eqn:Hw.
  destruct (wr_ok w) eqn:Hok; cbn [negb]; [|discriminate]. intros (Hkv & Hno & Hc & Hcu & Hpr)%kv_goes_on.
  split; [|by split]. exists adapter, w, allocator. by split_and!.
Qed.

Lemma settle_profitability_goes_on planned reconciled validated reason :
  goes_on (settle_profitability planned reconciled validated reason) (fun s s' =>
    s' = s /\ planned = true /\ reconciled = true /\ validated = true /\ pd_accepted (ps_profitability s) = true).
Proof.
  intros s s'. unfold settle_profitability. destruct planned, reconciled, validated, (pd_accepted _) eqn:H; cbn;
    try discriminate. by intros [= <-].
Qed.

Lemma report_keeps e plan transfer transfer_reason profitability reason s :
  let s' := report_offload e plan transfer transfer_reason profitability reason s in
  ps_profitability s' = profitability /\ cache_results s' = cache_results s /\ ps_config s' = ps_config s /\
  ps_cuda s' = ps_cuda s.
Proof. done. Qed.

(** The sample of the probe has no events, so that no offload is validated. *)
Lemma no_offload_validated config plan :
  let (reconciliation, transfer) := reconcile_transfer_sample (make_transfer_sample config plan) in
  tv_ok (validate_transfer_sample (rc_offload_policy config) transfer (rc_transfer_metrics config)
           (rc_cold_cache_run config)) = true -> rc_offload_policy config = "none".
Proof.
  replace (reconcile_transfer_sample (make_transfer_sample config plan))
    with (mkValidation true "", set_observed (make_transfer_sample config plan) (mkTotals 0 0 0 0)) by reflexivity.
  unfold validate_transfer_sample. destruct (String.eqb_spec (rc_offload_policy config) "none"); [done|].
  by destruct (negb _).
Qed.

(** An offload plan within its budgets, a transfer sample that reconciles and
    is valid, and a run worth its cost by the policy. *)
Definition offload_pays (s : ProbeState) (decision : ProfitabilityDecision) : Prop :=
  let config := ps_config s in
  let (reconciliation, transfer) := reconcile_transfer_sample (make_transfer_sample config (or_plan (make_plan config))) in
  or_ok (make_plan config) = true /\ tv_ok reconciliation = true /\
  tv_ok (validate_transfer_sample (rc_offload_policy config) transfer (rc_transfer_metrics config)
           (rc_cold_cache_run config)) = true /\
  rc_offload_policy config = "none" /\
  decision = evaluate_profitability (profitability_input s transfer true) /\ pd_accepted decision = true.

Lemma profitability_goes_on e : goes_on (profitability_stage e) (fun s s' =>
  (rc_profitability_policy (ps_config s) <> "off" -> offload_pays s (ps_profitability s')) /\
  cache_results s' = cache_results s /\ ps_config s' = ps_config s /\ ps_cuda s' = ps_cuda s).
Proof.
  intros s s'. unfold profitability_stage, offload_pays.
  destruct (String.eqb_spec (rc_profitability_policy (ps_config s)) "off"); [by intros [= <-]|]. cbv zeta.
  pose proof (no_offload_validated (ps_config s) (or_plan (make_plan (ps_config s)))) as Hnone.
  destruct (reconcile_transfer_sample _) as [reconciliation transfer].
  intros (-> & Hp & Hr & Hv & H)%settle_profitability_goes_on.
  destruct (report_keeps e (make_plan (ps_config s)) transfer (if negb (tv_ok reconciliation)
    then tv_failure_reason reconciliation else tv_failure_reason (validate_transfer_sample
      (rc_offload_policy (ps_config s)) transfer (rc_transfer_metrics (ps_config s)) (rc_cold_cache_run (ps_config s))))
    (evaluate_profitability (profitability_input s transfer
       (tv_ok reconciliation && tv_ok (validate_transfer_sample (rc_offload_policy (ps_config s)) transfer
          (rc_transfer_metrics (ps_config s)) (rc_cold_cache_run (ps_config s)))))) "" s) as (_ & Hkeep).
  split; [|exact Hkeep]. intros _. split_and!; [done..|by apply Hnone| |exact H].
  change (ps_profitability (report_offload e ?a ?b ?c ?d ?f s)) with d. by rewrite Hr, Hv.
Qed.

Lemma certification_goes_on : goes_on certification_stage (fun s s' =>
  cc_certified (certify_cap (ps_sample s') (rc_hard_cap_bytes (ps_config s'))) = true /\
  carried s' = carried s /\ ps_config s' = ps_config s /\ ps_cuda s' = ps_cuda s).
Proof.
  assert (Hb : forall t, carried (apply_simulated_breaches t) = carried t /\
    ps_config (apply_simulated_breaches t) = ps_config t /\ ps_cuda (apply_simulated_breaches t) = ps_cuda t).
  { intros t. assert (Ht : forall u, simulate_allocator_peak t = u -> carried u = carried t /\ ps_config u = ps_config t /\
      ps_cuda u = ps_cuda t) by (intros u <-; unfold simulate_allocator_peak; by destruct (0 <? _)).
    exact (Ht _ eq_refl). }
  intros s s'. unfold certification_stage. cbv zeta. specialize (Hb s). revert Hb.
  generalize (apply_simulated_breaches s). intros b (Hg & Hc & Hr).
  destruct (cc_certified _) eqn:H; [|discriminate]. intros [= <-]. split; [exact H|]. by split_and!.
Qed.

(** What a run has passed when it reaches its end: every gate, judged on the
    configuration it was started with and on what its environment answered.
    The state before the warm-up is the one the stages before it reach. *)
Record earned (e : ProbeEnv) (config : RuntimeConfig) (s : ProbeState) : Prop := mkEarned {
  en_sidecar : ModelSidecar.rs_valid (ModelSidecar.validate_model_sidecar (sidecar_request config) (pe_sidecar e)) = true;
  en_pins : rc_backend config = LlamaBackend -> rc_dependency_pin_file config <> "";
  en_context : gpu_requested (rc_mode config) = true ->
    ps_cuda s = probe_cuda_context (pe_cuda e) /\ cp_available (ps_cuda s) = true /\ cp_context_created (ps_cuda s) = true;
  en_claim : rc_claim_validation config = "fail-closed" -> claim_holds (initial_state config);
  en_warmup : exists s0, andThen (before_claim e) claim_stage (start_run (initial_state config)) = (s0, None) /\
    ps_config s0 = config /\ cache_results s0 = cache_results (initial_state config) /\ warmed_up e s0 s;
  en_profitability : rc_profitability_policy config <> "off" -> offload_pays s (ps_profitability s);
  en_cap : cc_certified (certify_cap (ps_sample s) (rc_hard_cap_bytes config)) = true;
}.

(** A claim is judged on the configuration and on results nobody has touched. *)
Lemma claim_holds_carried s s' :
  ps_config s' = ps_config s -> carried s' = carried s -> claim_holds s' -> claim_holds s.
Proof.
  intros Hc H. assert (claim_evidence (plan_stage s') = claim_evidence (plan_stage s)) as He.
  { unfold carried, cache_results in H. injection H as _ _ Hq _ Hp.
    unfold claim_evidence, plan_stage. cbn. by rewrite Hc, Hq, Hp. }
  unfold claim_holds. by rewrite He, Hc.
Qed.

Lemma offload_pays_carried s s' decision :
  ps_config s' = ps_config s -> cache_results s' = cache_results s -> offload_pays s' decision -> offload_pays s decision.
Proof.
  intros Hc H. assert (ps_quality s' = ps_quality s) as Hq by (unfold cache_results in H; by injection H).
  unfold offload_pays, profitability_input. by rewrite Hc, Hq.
Qed.

Lemma stages_earned e config s :
  stages e (start_run (initial_state config)) = (s, None) -> earned e config s.
Proof.
  rewrite stages_split. intros H.
  assert (exists s4, andThen (before_claim e) claim_stage (start_run (initial_state config)) = (s4, None) /\
    after_claim e s4 = (s, None)) as (s4 & Hbefore & Hafter).
  { revert H. rewrite !andThen_eq. destruct (before_claim e _) as [s3 [r|]]; [done|]. rewrite !andThen_eq.
    destruct (claim_stage s3) as [s4 [r|]]; [done|]. intros H. by exists s4. }
  destruct (goes_on_then _ _ _ _ (goes_on_then _ _ _ _ (sidecar_goes_on e) (goes_on_then _ _ _ _ (pins_goes_on e)
    (cuda_goes_on e))) claim_goes_on _ _ Hbefore)
    as (s3 & (s1 & (Hside & C1 & K1) & s2 & (Hpins & C2 & K2) & Hcuda & C3 & K3) & Hclaim & C4 & U4 & K4).
  destruct (goes_on_then _ _ _ _ (backend_goes_on e) (goes_on_then _ _ _ _ (profitability_goes_on e) certification_goes_on)
    _ _ Hafter) as (s5 & (Hwarm & U5 & P5) & s6 & (Hprofit & K6 & C6 & U6) & Hcap & K7 & C7 & U7).
  change (ps_config (start_run (initial_state config))) with config in *.
  change (carried (start_run (initial_state config))) with (carried (initial_state config)) in *.
  assert (ps_config s3 = config) as Hc3 by congruence. assert (ps_config s4 = config) as Hc4 by congruence.
  assert (ps_config s1 = config) as Hc1 by congruence. assert (ps_config s2 = config) as Hc2 by congruence.
  assert (exists w, ps_config s5 = record_worker config w) as [w Hc5].
  { destruct Hwarm as (a & w & l & _ & _ & _ & Hw & _). rewrite Hc4 in Hw. by exists w. }
  assert (ps_config s = ps_config s5) as Hcs by congruence.
  assert (cache_results s = cache_results s5) as Hks.
  { rewrite <- K6. exact (f_equal fst K7). }
  constructor.
  - exact Hside.
  - intros Hb Hp. rewrite Hc1 in Hpins. unfold is_llama in Hpins. rewrite Hb, Hp in Hpins. done.
  - intros Hm. rewrite U7, U6, U5, U4. apply Hcuda. by rewrite Hc2.
  - intros Hv. apply (claim_holds_carried (initial_state config) s3); [done|congruence|]. apply Hclaim. by rewrite Hc3.
  - exists s4. split; [done|]. split; [done|]. split.
    { assert (carried s4 = carried (initial_state config)) as Hk by congruence. exact (f_equal fst Hk). }
    destruct Hwarm as (a & w' & l & Ha & Hw & Hok & Hcw & Hkv & Hno). exists a, w', l.
    split_and!; [done..|congruence| |by rewrite Hks].
    intros Hon. destruct (Hkv Hon) as (p & H1 & H2 & H3 & H4 & H5). exists p. by rewrite Hks.
  - intros Hp. apply (offload_pays_carried s s5); [done|done|].
    rewrite (f_equal snd K7 : ps_profitability s = ps_profitability s6).
    apply Hprofit. by rewrite Hc5.
  - revert Hcap. by rewrite Hcs, Hc5.
Qed.

(** The probe reads its GPU evidence after the worker has exited: it never has
    what a promotion needs. *)
Lemma unreconciled_not_promotable b : owned_rejected b = true -> wd_promotable (classify_windows_evidence b) = false.
Proof.
  intros H. unfold classify_windows_evidence. rewrite H.
  repeat match goal with |- wd_promotable (if ?c then _ else _) = _ => destruct c; [done|] end. done.
Qed.

Lemma bundle_not_promotable e s : wd_promotable (classify_windows_evidence (windows_bundle e s)) = false.
Proof.
  apply unreconciled_not_promotable. unfold owned_rejected. cbv zeta.
  change (og_process_device_corroboration_available (wb_gpu (windows_bundle e s))) with false.
  cbn [negb]. by rewrite orb_true_r.
Qed.

(** C13. How a run of the probe ends.  It exits with success only with a
    manifest that says [ok], and then it has passed every gate, judged on its
    configuration and on what its environment answered: the model sidecar, the
    dependency pins, the CUDA context when a GPU mode is asked for, the claim
    when its validation fails closed, the warm-up of the backend it selects,
    the profitability unless its policy is off, and the cap on the sample the
    manifest records.  When it accounts its cache, the ledger took the profile
    and the sample, and the quality gate and the compression claim were judged
    and passed; when it does not, those two are not judged at all and the
    manifest keeps their initial results.  It fails closed with a manifest that
    gives the reason of the stage that ended it; it reports an I/O error only
    when a file did not open; and no manifest it writes promotes its Windows
    evidence. *)
Theorem probe_outcome e config :
  let run := run_probe e config in
  let stages_result := stages e (start_run (initial_state config)) in
  match oc_exit run with
  | ExitOk => exists s evidence, oc_manifest run = Some (s, evidence, "ok", "") /\ earned e config s /\
                wd_promotable evidence = false
  | ExitFailedClosed => exists s evidence reason, oc_manifest run = Some (s, evidence, "failed_closed", reason) /\
                stages_result.2 = Some reason /\ wd_promotable evidence = false
  | ExitIoError => oc_manifest run = None /\ (pe_telemetry_opens e && pe_manifest_opens e) = false
  | ExitUsage => False
  end.
Proof.
  cbv zeta. unfold run_probe. destruct (pe_telemetry_opens e); cbn [negb andb]; [|by split].
  destruct (stages e _) as [s [reason|]] eqn:E; unfold finish_probe; destruct (pe_manifest_opens e);
    cbn [negb oc_exit oc_manifest]; try (by split).
  - eexists _, _, _. split; [reflexivity|]. split; [done|]. apply bundle_not_promotable.
  - eexists _, _. split; [reflexivity|]. split; [|apply bundle_not_promotable].
    destruct (stages_earned e config s E). constructor; assumption.
Qed.


(** The claim of the probe names no model, so that a claim above [simulated]
    is refused whatever evidence there is. *)
Definition measured_labels : list string := ["measured-offload"; "validated-benchmark"; "deployable-profile"].

Lemma unnamed_model_refused c :
  ce_model_hash c = "" -> ce_claim_label c ∈ measured_labels -> de_accepted (validate_claim_evidence c) = false.
Proof.
  intros Hh Hl. unfold validate_claim_evidence. rewrite Hh.
  destruct (negb _); [done|]. destruct (str_empty (ce_validation_cell_id c));
    unfold measured_labels in Hl; rewrite !elem_of_cons, elem_of_nil in Hl; by destruct Hl as [->|[->|[->|[]]]].
Qed.

Lemma measured_claim_not_ok s :
  rc_claim_label (ps_config s) ∈ measured_labels ->
  phase4_ok (judge_usability (classify_claim (plan_stage s))) = false.
Proof.
  intros Hl. unfold phase4_ok. apply andb_false_intro1, andb_false_intro2.
  change (ps_claim (judge_usability (classify_claim (plan_stage s))))
    with (validate_claim_evidence (claim_evidence (plan_stage s))).
  by apply unnamed_model_refused.
Qed.

Theorem measured_claims_refused e config s :
  rc_claim_validation config = "fail-closed" -> rc_claim_label config ∈ measured_labels ->
  before_claim e (start_run (initial_state config)) = (s, None) ->
  claim_refused e config = true.
Proof.
  intros Hv Hl Hb. unfold claim_refused. rewrite Hb.
  pose proof (goes_on_then _ _ _ _ (sidecar_goes_on e) (goes_on_then _ _ _ _ (pins_goes_on e) (cuda_goes_on e))) as Hgo.
  destruct (Hgo _ _ Hb) as (s1 & (_ & C1 & _) & s2 & (_ & C2 & _) & _ & C3 & _).
  assert (Hc : ps_config s = config) by (by rewrite C3, C2, C1). unfold claim_stage.
  rewrite log_config, Hc, Hv. pose proof (measured_claim_not_ok (log "cap_semantics_resolved" [] s)) as Hno.
  rewrite log_config, Hc in Hno. specialize (Hno Hl). revert Hno.
  assert (Hj : rc_claim_validation (ps_config (judge_usability (classify_claim (plan_stage (log "cap_semantics_resolved" [] s))))) = "fail-closed")
    by (change (rc_claim_validation (ps_config s) = "fail-closed"); by rewrite Hc).
  revert Hj. generalize (judge_usability (classify_claim (plan_stage (log "cap_semantics_resolved" [] s)))).
  intros j Hj Hno. change ("fail-closed" =s "off") with false. unfold settle_claim. cbv zeta.
  by rewrite !log_phase4, Hno, Hj.
Qed.

(** ** Runs *)

Definition sample_env : ProbeEnv :=
  mkProbeEnv true 5 true true demo_windows demo_windows (mkDxgi false false None false None None 0) None
    (ModelSidecar.sample_answers []) None None.

(** The fake backend with its cache accounted. *)
Definition sample_config : RuntimeConfig :=
  {| default_config with rc_backend := FakeBackend; rc_kv_accounting := true; rc_warmup_tokens := 3;
     rc_kv_layer_count := 2; rc_kv_head_count := 2; rc_kv_head_dim := 8; rc_kv_block_tokens := 16; rc_kv_metadata_budget_bytes := 1048576 |}.

(** A measured claim that must hold. *)
Definition sample_claim : RuntimeConfig :=
  {| default_config with rc_claim_validation := "fail-closed"; rc_claim_label := "measured-offload";
     rc_validation_cell_id := "cell"; rc_measured_evidence := true; rc_quantization_format := "q4";
     rc_quant_artifact_sha256 := "abc" |}.

Definition at_times (events : list TelemetryEvent) : list (Z * TelemetryEvent) := map (fun event => (7, event)) events.

Lemma at_times_events events : map snd (at_times events) = events.
Proof. unfold at_times. rewrite map_map. apply map_id. Qed.

Lemma probe_lifecycle_witness :
  validate_phase0_lifecycle (rc_telemetry_path sample_config)
    (Some (written true (at_times (oc_events (run_probe sample_env sample_config))))) = inr tt /\
  validate_phase0_lifecycle (rc_telemetry_path sample_claim)
    (Some (written true (at_times (oc_events (run_probe sample_env sample_claim))))) = inl "missing_host_prepare".
Proof.
  split.
  - transitivity (if claim_refused sample_env sample_config then inl "missing_host_prepare" else inr tt);
      [|vm_compute; reflexivity].
    apply (probe_lifecycle sample_env sample_config); [reflexivity|apply at_times_events].
  - transitivity (if claim_refused sample_env sample_claim then inl "missing_host_prepare" else inr tt);
      [|vm_compute; reflexivity].
    apply (probe_lifecycle sample_env sample_claim); [reflexivity|apply at_times_events].
Defined.

(** The run of the fake backend succeeds, the measured claim fails closed. *)
Example fake_run_succeeds : oc_exit (run_probe sample_env sample_config) = ExitOk.
Proof. vm_compute. reflexivity. Qed.

Example measured_claim_fails_closed : oc_exit (run_probe sample_env sample_claim) = ExitFailedClosed.
Proof. vm_compute. reflexivity. Qed.

(** The successful run has accounted its cache, with a gate that was judged. *)
Lemma probe_outcome_witness :
  exists s evidence, oc_manifest (run_probe sample_env sample_config) = Some (s, evidence, "ok", "") /\
    earned sample_env sample_config s.
Proof.
  pose proof (probe_outcome sample_env sample_config) as H. cbv zeta in H. rewrite fake_run_succeeds in H.
  destruct H as (s & evidence & Hm & Hs & _). exists s, evidence. split; [exact Hm|exact Hs].
Defined.

(** A compressed cache without a quality gate is refused when the cache is
    accounted, and not looked at when it is not. *)
Definition compressed_config (accounting : bool) : RuntimeConfig :=
  {| sample_config with rc_kv_accounting := accounting; rc_kv_compression := "reference"; rc_quality_gate := "none" |}.

Example ungated_compression_refused :
  (stages sample_env (start_run (initial_state (compressed_config true)))).2 =
    Some "quality_gate_required_for_compression".
Proof. vm_compute. reflexivity. Qed.

Example ungated_compression_unnoticed :
  oc_exit (run_probe sample_env (compressed_config false)) = ExitOk.
Proof. vm_compute. reflexivity. Qed.

(** 65536 layers of 65536 heads: the product is taken in 32 bits, and the
    compressed cache is counted as nothing. *)
Example compressed_size_wraps :
  compressed_per_token {| default_config with rc_kv_key_bits := 4; rc_kv_value_bits := 4 |}
    (KvCache.mkProfile 65536 65536 128 16 16 16 0 0) = 0.
Proof. vm_compute. reflexivity. Qed.

End Probe.
