(* ===== verification/ManifestWriter.v ===== *)
(** * The manifest of a probe

    [write_probe_manifest] of [src/benchmark/manifest_writer.cpp] and the
    [ManifestInputs] of [benchmark.h]: the text of the manifest that
    [prism-probe] leaves, field by field in the order of the source, with the
    list of file evidence between them.

    The manifest is one field per line.  [manifest_lines] gives its lines, and
    [manifest_tells_the_run] reads them: the status, the reason and the verdict
    of the manifest each have one line, and a manifest which says [ok] comes
    from a run that passed all its gates. *)

From Stdlib Require Import Ascii String SpecFloat.
From S2P Require Import Prelude FlatJson MemoryCap HostAdmission GpuTelemetry Doubles TransferMetrics Policies KvCache.
From S2P Require Import Config WindowsEvidence NumberText Telemetry Lifecycle Backends Probe.
Import FlatJson MemoryCap HostAdmission GpuTelemetry TransferMetrics Policies Config WindowsEvidence Telemetry Lifecycle Backends Probe.

Open Scope string_scope.
Open Scope list_scope.
Open Scope Z_scope.

Module ManifestWriter.

(** ** What is written *)

Record ManifestInputs := mkInputs {
  mi_config : RuntimeConfig;
  mi_sample : MemorySample;
  mi_host_pre : HostTelemetrySample;
  mi_host : HostTelemetrySample;
  mi_wddm : WddmMemorySample;
  mi_owned_gpu : OwnedGpuMemoryEvidence;
  mi_files : list FileIoEvidence;
  mi_windows_evidence : WindowsEvidenceDecision;
  mi_cuda_probe : CudaProbeResult;
  mi_kv_profile : KvCache.KvCacheProfile;
  mi_kv_sample : KvCache.KvCacheSample;
  mi_quality : QualityGateResult;
  mi_compression : KvCompressionResult;
  mi_offload_plan : OffloadPlan;
  mi_transfer : TransferSample;
  mi_profitability : ProfitabilityDecision;
  mi_hybrid_plan : HybridPlanResult;
  mi_usability : PolicyDecision;
  mi_claim : PolicyDecision;
  mi_status : string;
  mi_failure_reason : string;
}.

(** What the build defines; [bf_windows] chooses the name of the system and how
    paths are printed. *)
Record BuildFacts := mkBuildFacts {
  bf_windows : bool;
  bf_linux : bool;
  bf_version : string;
  bf_cmake_version : string;
  bf_build_config : string;
  bf_compiler : string;
  bf_cuda_probe : bool;
  bf_cuda_kernels : bool;
  bf_cuda_kernel_archs : string;
  bf_cublaslt_baseline : bool;
  bf_cutlass_baseline : bool;
}.

Definition os_name (b : BuildFacts) : string :=
  if bf_windows b then "windows" else if bf_linux b then "linux" else "unknown".

(** [out << value] of a double and of a signed integer. *)
Definition real (value : spec_float) : FlatJsonValue := mkValue (NumberText.general_text value) NumberKind.

Definition signed (value : Z) : FlatJsonValue := mkValue (string_of_list_ascii (NumberText.signed_digits value)) NumberKind.

(** A value is printed as JSON; the versions of the build are texts printed as
    they are. *)
Inductive Shown :=
| Json (value : FlatJsonValue)
| Verbatim (value : string).

Definition show_value (v : Shown) : list ascii :=
  match v with
  | Json value => print_spaced value
  | Verbatim value => " "%char :: quote :: list_ascii_of_string value ++ [quote]
  end.

(** The run and the build; [created_at] is the reading of the clock. *)
Definition build_part (b : BuildFacts) (created_at : string) (i : ManifestInputs) : list (string * Shown) := [
  ("manifest_version", Json (text "0.6"));
  ("run_id", Json (text (rc_run_id (mi_config i))));
  ("created_at_utc", Verbatim created_at);
  ("tool", Json (text "prism-probe"));
  ("prisminfer_version", Verbatim (bf_version b));
  ("cmake_version", Verbatim (bf_cmake_version b));
  ("build_config", Verbatim (bf_build_config b));
  ("compiler", Json (text (bf_compiler b)));
  ("os", Json (text (os_name b)));
  ("cuda_probe_compiled", Json (boolean (bf_cuda_probe b)));
  ("kernel_build_enabled", Json (boolean (bf_cuda_kernels b)));
  ("kernel_cuda_archs", Json (text (bf_cuda_kernel_archs b)));
  ("cublaslt_baseline_available", Json (boolean (bf_cublaslt_baseline b)));
  ("cutlass_baseline_available", Json (boolean (bf_cutlass_baseline b)))].

(** The configuration and the worker. *)
Definition config_part (windows : bool) (i : ManifestInputs) : list (string * FlatJsonValue) := [
  ("mode", text (mode_to_string (rc_mode (mi_config i))));
  ("hard_cap_bytes", number (rc_hard_cap_bytes (mi_config i)));
  ("model_parameter_bucket", text (rc_model_parameter_bucket (mi_config i)));
  ("parameter_count", number (rc_parameter_count (mi_config i)));
  ("vram_tier_gib", number (rc_vram_tier_gib (mi_config i)));
  ("validation_cell_id", text (rc_validation_cell_id (mi_config i)));
  ("validation_cell_status", text (rc_validation_cell_status (mi_config i)));
  ("backend", text (backend_to_string (rc_backend (mi_config i))));
  ("backend_adapter_contract_version", text kBackendContractVersion);
  ("backend_required", boolean (rc_backend_required (mi_config i)));
  ("dependency_pin_file", text (generic_string windows (rc_dependency_pin_file (mi_config i))));
  ("llama_executable", text (generic_string windows (rc_llama_executable_path (mi_config i))));
  ("context_tokens", number (rc_context_tokens (mi_config i)));
  ("gpu_layers", number (rc_gpu_layers (mi_config i)));
  ("mmap_enabled", boolean (rc_mmap_enabled (mi_config i)));
  ("warmup_tokens", number (rc_warmup_tokens (mi_config i)));
  ("worker_evidence_available", boolean (rc_worker_evidence_available (mi_config i)));
  ("worker_executable_sha256", text (rc_worker_executable_sha256 (mi_config i)));
  ("worker_approval_identity", text (rc_worker_approval_identity (mi_config i)));
  ("worker_exit_code", number (rc_worker_exit_code (mi_config i)));
  ("worker_timed_out", boolean (rc_worker_timed_out (mi_config i)));
  ("worker_root_process_id", number (rc_worker_root_process_id (mi_config i)));
  ("worker_job_identity", text (rc_worker_job_identity (mi_config i)));
  ("worker_job_total_processes", number (rc_worker_job_total_processes (mi_config i)));
  ("worker_job_peak_active_processes", number (rc_worker_job_peak_active_processes (mi_config i)));
  ("worker_job_total_terminated_processes", number (rc_worker_job_total_terminated_processes (mi_config i)));
  ("worker_root_peak_working_set_bytes", number (rc_worker_root_peak_working_set_bytes (mi_config i)));
  ("worker_root_peak_private_commit_bytes", number (rc_worker_root_peak_private_commit_bytes (mi_config i)));
  ("worker_tree_peak_working_set_bytes", number (rc_worker_tree_peak_working_set_bytes (mi_config i)));
  ("worker_tree_peak_private_commit_bytes", number (rc_worker_tree_peak_private_commit_bytes (mi_config i)));
  ("worker_tree_sample_interval_milliseconds", number (rc_worker_tree_sample_interval_milliseconds (mi_config i)));
  ("worker_read_bytes", number (rc_worker_read_bytes (mi_config i)));
  ("worker_write_bytes", number (rc_worker_write_bytes (mi_config i)));
  ("worker_output_bytes", number (rc_worker_output_bytes (mi_config i)));
  ("worker_output_limit_bytes", number (rc_worker_output_limit_bytes (mi_config i)))].

(** The KV cache. *)
Definition kv_part (i : ManifestInputs) : list (string * FlatJsonValue) := [
  ("kv_accounting", boolean (rc_kv_accounting (mi_config i)));
  ("kv_layer_count", number (KvCache.kp_layer_count (mi_kv_profile i)));
  ("kv_head_count", number (KvCache.kp_kv_head_count (mi_kv_profile i)));
  ("kv_head_dim", number (KvCache.kp_head_dim (mi_kv_profile i)));
  ("kv_block_tokens", number (KvCache.kp_block_tokens (mi_kv_profile i)));
  ("kv_key_bits", number (KvCache.kp_key_bits (mi_kv_profile i)));
  ("kv_value_bits", number (KvCache.kp_value_bits (mi_kv_profile i)));
  ("kv_bytes_per_token", number (KvCache.kp_bytes_per_token (mi_kv_profile i)));
  ("kv_bytes_per_block", number (KvCache.kp_bytes_per_block (mi_kv_profile i)));
  ("kv_placement", text (rc_kv_placement (mi_config i)));
  ("kv_compression", text (rc_kv_compression (mi_config i)));
  ("kv_logical_tokens", number (KvCache.ks_logical_tokens (mi_kv_sample i)));
  ("kv_active_blocks", number (KvCache.ks_active_blocks (mi_kv_sample i)));
  ("kv_gpu_bytes", number (KvCache.ks_gpu_bytes (mi_kv_sample i)));
  ("kv_host_bytes", number (KvCache.ks_host_bytes (mi_kv_sample i)));
  ("kv_compressed_bytes", number (KvCache.ks_compressed_bytes (mi_kv_sample i)));
  ("kv_metadata_bytes", number (KvCache.ks_metadata_bytes (mi_kv_sample i)));
  ("kv_unknown_bytes", number (KvCache.ks_unknown_bytes (mi_kv_sample i)));
  ("kv_evidence_status", text (KvCache.ks_evidence_status (mi_kv_sample i)));
  ("kv_metadata_budget_bytes", number (rc_kv_metadata_budget_bytes (mi_config i)))].

(** The quality gate and the compression; what no measurement fills is printed empty. *)
Definition quality_part (windows : bool) (i : ManifestInputs) : list (string * FlatJsonValue) := [
  ("quality_gate", text (rc_quality_gate (mi_config i)));
  ("quality_baseline_manifest", text (generic_string windows (rc_quality_baseline_manifest (mi_config i))));
  ("quality_status", text (qr_status (mi_quality i)));
  ("quality_passed", boolean (qr_passed (mi_quality i)));
  ("quality_failure_reason", text (qr_failure_reason (mi_quality i)));
  ("quality_observed_delta", real (qr_observed_delta (mi_quality i)));
  ("kv_compression_status", text (kr_status (mi_compression i)));
  ("kv_compression_accepted", boolean (kr_accepted (mi_compression i)));
  ("kv_compression_failure_reason", text (kr_failure_reason (mi_compression i)));
  ("kv_saved_bytes", number (kr_saved_bytes (mi_compression i)));
  ("compression_status", text (kr_status (mi_compression i)));
  ("compression_profile_id", text EmptyString);
  ("quantization_scope", text (if rc_kv_compression (mi_config i) =s "none" then "none" else "kv-cache"));
  ("algorithm_family", text (rc_kv_compression (mi_config i)));
  ("payload_bits_per_value", number 0);
  ("effective_bits_per_value", number 0);
  ("metadata_bits_per_value", number 0);
  ("key_quant_axis", text EmptyString);
  ("value_quant_axis", text EmptyString);
  ("pre_rope_or_post_rope", text EmptyString);
  ("group_size", number 0);
  ("residual_fp_window_tokens", number 0);
  ("outlier_policy", text EmptyString);
  ("rotation_policy", text EmptyString);
  ("rotation_seed", number 0);
  ("projection_policy", text EmptyString);
  ("qjl_residual_bits", number 0);
  ("dequant_workspace_peak_bytes", number 0);
  ("kv_payload_bytes", number (KvCache.ks_compressed_bytes (mi_kv_sample i)));
  ("kv_residual_or_sketch_bytes", number 0);
  ("compression_decode_overhead_ms", number 0);
  ("attention_logit_error_p95", number 0);
  ("attention_logit_error_p99", number 0);
  ("attention_topk_overlap", number 0);
  ("quality_gate_id", text (rc_quality_gate (mi_config i)));
  ("quality_result_path", text (generic_string windows (rc_quality_baseline_manifest (mi_config i))));
  ("cap_certification_status", text "research-only")].

(** The offload plan, the transfers and the profitability. *)
Definition offload_part (windows : bool) (i : ManifestInputs) : list (string * FlatJsonValue) := [
  ("profitability_policy", text (rc_profitability_policy (mi_config i)));
  ("baseline_manifest", text (generic_string windows (rc_baseline_manifest (mi_config i))));
  ("min_speedup_ratio", real (rc_min_speedup_ratio (mi_config i)));
  ("offload_policy", text (rc_offload_policy (mi_config i)));
  ("pinned_host_budget_bytes", number (rc_pinned_host_budget_bytes (mi_config i)));
  ("staging_buffer_bytes", number (rc_staging_buffer_bytes (mi_config i)));
  ("transfer_metrics", boolean (rc_transfer_metrics (mi_config i)));
  ("cold_cache_run", boolean (rc_cold_cache_run (mi_config i)));
  ("cpu_baseline_ttft_ms", real (rc_cpu_baseline_ttft_ms (mi_config i)));
  ("cpu_baseline_decode_tps", real (rc_cpu_baseline_decode_tps (mi_config i)));
  ("cpu_baseline_peak_bytes", number (rc_cpu_baseline_peak_bytes (mi_config i)));
  ("observed_ttft_ms", real (ts_time_to_first_token_ms (mi_transfer i)));
  ("observed_decode_tps", real (ts_decode_tokens_per_second (mi_transfer i)));
  ("token_latency_p50_ms", real (ts_token_latency_p50_ms (mi_transfer i)));
  ("token_latency_p95_ms", real (ts_token_latency_p95_ms (mi_transfer i)));
  ("h2d_declared_bytes", number (ts_declared_h2d_bytes (mi_transfer i)));
  ("d2h_declared_bytes", number (ts_declared_d2h_bytes (mi_transfer i)));
  ("h2d_observed_submitted_bytes", number (ts_observed_h2d_submitted_bytes (mi_transfer i)));
  ("h2d_observed_completed_bytes", number (ts_observed_h2d_completed_bytes (mi_transfer i)));
  ("d2h_observed_submitted_bytes", number (ts_observed_d2h_submitted_bytes (mi_transfer i)));
  ("d2h_observed_completed_bytes", number (ts_observed_d2h_completed_bytes (mi_transfer i)));
  ("nvme_read_declared_bytes", number (ts_declared_nvme_read_bytes (mi_transfer i)));
  ("nvme_write_declared_bytes", number (ts_declared_nvme_write_bytes (mi_transfer i)));
  ("pinned_host_observed_peak_bytes", number (ts_observed_pinned_host_peak_bytes (mi_transfer i)));
  ("staging_observed_peak_bytes", number (ts_observed_staging_peak_bytes (mi_transfer i)));
  ("transfer_instrumentation_mode", text (ts_instrumentation_mode (mi_transfer i)));
  ("transfer_dropped_records", number (ts_dropped_records (mi_transfer i)));
  ("transfer_event_count", number (Z.of_nat (List.length (ts_events (mi_transfer i)))));
  ("h2d_declared_ms", real (ts_declared_h2d_ms (mi_transfer i)));
  ("d2h_declared_ms", real (ts_declared_d2h_ms (mi_transfer i)));
  ("io_declared_ms", real (ts_declared_io_ms (mi_transfer i)));
  ("wait_declared_ms", real (ts_declared_wait_ms (mi_transfer i)));
  ("prefill_ms", real (ts_prefill_ms (mi_transfer i)));
  ("decode_ms", real (ts_decode_ms (mi_transfer i)));
  ("offload_evidence_label", text (op_evidence_label (mi_offload_plan i)));
  ("profitability_status", text (pd_status (mi_profitability i)));
  ("profitability_accepted", boolean (pd_accepted (mi_profitability i)));
  ("profitability_reason", text (pd_reason (mi_profitability i)));
  ("profitability_speedup_ratio", real (pd_speedup_ratio (mi_profitability i)));
  ("profitability_required_speedup_ratio", real (pd_required_speedup_ratio (mi_profitability i)))].

(** The claim and the verdict of the run. *)
Definition claim_part (i : ManifestInputs) : list (string * FlatJsonValue) := [
  ("claim_label", text (rc_claim_label (mi_config i)));
  ("quantization_format", text (rc_quantization_format (mi_config i)));
  ("quant_artifact_sha256", text (rc_quant_artifact_sha256 (mi_config i)));
  ("host_memory_budget_bytes", number (rc_host_memory_budget_bytes (mi_config i)));
  ("nvme_budget_bytes", number (rc_nvme_budget_bytes (mi_config i)));
  ("max_time_to_first_token_ms", real (rc_max_time_to_first_token_ms (mi_config i)));
  ("min_decode_tokens_per_second", real (rc_min_decode_tokens_per_second (mi_config i)));
  ("max_token_latency_p95_ms", real (rc_max_token_latency_p95_ms (mi_config i)));
  ("repeatability_runs", number (rc_repeatability_runs (mi_config i)));
  ("repeatability_passed", boolean (rc_repeatability_passed (mi_config i)));
  ("claim_validation", text (rc_claim_validation (mi_config i)));
  ("hybrid_plan_status", text (if hr_ok (mi_hybrid_plan i) then "accepted" else "rejected"));
  ("hybrid_plan_failure_reason", text (hr_failure_reason (mi_hybrid_plan i)));
  ("hybrid_resident_gpu_total_bytes", number (hr_resident_gpu_total_bytes (mi_hybrid_plan i)));
  ("usability_status", text (de_status (mi_usability i)));
  ("usability_reason", text (de_reason (mi_usability i)));
  ("claim_validation_status", text (de_status (mi_claim i)));
  ("claim_validation_accepted", boolean (de_accepted (mi_claim i)));
  ("claim_validation_reason", text (de_reason (mi_claim i)));
  ("telemetry_path", text (rc_telemetry_path (mi_config i)));
  ("status", text (mi_status i));
  ("failure_reason", text (mi_failure_reason i))].

(** The device and the memory peaks. *)
Definition memory_part (i : ManifestInputs) : list (string * FlatJsonValue) := [
  ("gpu_name", text (cp_gpu_name (mi_cuda_probe i)));
  ("cuda_driver_version", signed (cp_driver_version (mi_cuda_probe i)));
  ("cuda_runtime_version", signed (cp_runtime_version (mi_cuda_probe i)));
  ("device_total_bytes", number (cp_device_total_bytes (mi_cuda_probe i)));
  ("device_used_bytes", number (ms_device_used_bytes (mi_sample i)));
  ("device_delta_bytes", number (ms_device_delta_bytes (mi_sample i)));
  ("allocator_peak_bytes", number (ms_allocator_peak_bytes (mi_sample i)));
  ("process_gpu_peak_bytes", number (ms_process_gpu_peak_bytes (mi_sample i)));
  ("warmup_peak_bytes", number (ms_warmup_peak_bytes (mi_sample i)));
  ("retained_pool_bytes", number (ms_retained_pool_bytes (mi_sample i)));
  ("kv_gpu_peak_bytes", number (ms_kv_gpu_peak_bytes (mi_sample i)));
  ("kv_host_peak_bytes", number (ms_kv_host_peak_bytes (mi_sample i)));
  ("kv_compressed_peak_bytes", number (ms_kv_compressed_peak_bytes (mi_sample i)));
  ("kv_metadata_peak_bytes", number (ms_kv_metadata_peak_bytes (mi_sample i)));
  ("kv_unknown_peak_bytes", number (ms_kv_unknown_peak_bytes (mi_sample i)));
  ("unknown_post_warmup_bytes", number (ms_unknown_post_warmup_bytes (mi_sample i)))].

(** The host before the run. *)
Definition host_pre_part (i : ManifestInputs) : list (string * FlatJsonValue) := [
  ("host_pre_telemetry_available", boolean (hts_available (mi_host_pre i)));
  ("host_pre_telemetry_unavailable_reason", text (hts_unavailable_reason (mi_host_pre i)));
  ("host_pre_system_commit_source", text (hts_system_commit_source (mi_host_pre i)));
  ("host_pre_captured_monotonic_milliseconds", number (hts_captured_monotonic_milliseconds (mi_host_pre i)));
  ("host_pre_process_id", number (hts_process_id (mi_host_pre i)));
  ("host_pre_process_image_path", text (hts_process_image_path (mi_host_pre i)));
  ("host_pre_process_working_set_current_bytes", number (hts_process_working_set_current_bytes (mi_host_pre i)));
  ("host_pre_process_working_set_peak_bytes", number (hts_process_working_set_peak_bytes (mi_host_pre i)));
  ("host_pre_process_private_commit_current_bytes", number (hts_process_private_commit_current_bytes (mi_host_pre i)));
  ("host_pre_process_private_commit_peak_bytes", number (hts_process_private_commit_peak_bytes (mi_host_pre i)));
  ("host_pre_system_memory_total_bytes", number (hts_system_memory_total_bytes (mi_host_pre i)));
  ("host_pre_system_memory_available_bytes", number (hts_system_memory_available_bytes (mi_host_pre i)));
  ("host_pre_system_commit_total_bytes", number (hts_system_commit_total_bytes (mi_host_pre i)));
  ("host_pre_system_commit_limit_bytes", number (hts_system_commit_limit_bytes (mi_host_pre i)));
  ("host_pre_system_commit_available_bytes", number (hts_system_commit_available_bytes (mi_host_pre i)));
  ("host_pre_pagefile_configuration_available", boolean (hts_pagefile_configuration_available (mi_host_pre i)));
  ("host_pre_pagefile_configuration_unavailable_reason", text (hts_pagefile_configuration_unavailable_reason (mi_host_pre i)));
  ("host_pre_pagefile_count", number (hts_pagefile_count (mi_host_pre i)));
  ("host_pre_pagefile_total_bytes", number (hts_pagefile_total_bytes (mi_host_pre i)));
  ("host_pre_pagefile_current_usage_bytes", number (hts_pagefile_current_usage_bytes (mi_host_pre i)));
  ("host_pre_pagefile_peak_usage_bytes", number (hts_pagefile_peak_usage_bytes (mi_host_pre i)));
  ("host_pre_process_io_read_bytes", number (hts_process_io_read_bytes (mi_host_pre i)));
  ("host_pre_process_io_write_bytes", number (hts_process_io_write_bytes (mi_host_pre i)))].

(** The host after the run: the start of it. *)
Definition host_post_start (i : ManifestInputs) : list (string * FlatJsonValue) := [
  ("host_post_telemetry_available", boolean (hts_available (mi_host i)));
  ("host_post_telemetry_unavailable_reason", text (hts_unavailable_reason (mi_host i)));
  ("host_post_system_commit_source", text (hts_system_commit_source (mi_host i)));
  ("host_post_captured_monotonic_milliseconds", number (hts_captured_monotonic_milliseconds (mi_host i)))].

(** The video memory of the adapter. *)
Definition wddm_part (i : ManifestInputs) : list (string * FlatJsonValue) := [
  ("wddm_available", boolean (wm_available (mi_wddm i)));
  ("wddm_unavailable_reason", text (wm_unavailable_reason (mi_wddm i)));
  ("wddm_captured_monotonic_milliseconds", number (wm_captured_monotonic_milliseconds (mi_wddm i)));
  ("wddm_adapter_index", number (wm_adapter_index (mi_wddm i)));
  ("wddm_adapter_luid_high", signed (wm_adapter_luid_high (mi_wddm i)));
  ("wddm_adapter_luid_low", number (wm_adapter_luid_low (mi_wddm i)));
  ("wddm_adapter_description", text (wm_adapter_description (mi_wddm i)));
  ("wddm_local_budget_bytes", number (wm_local_budget_bytes (mi_wddm i)));
  ("wddm_local_current_usage_bytes", number (wm_local_current_usage_bytes (mi_wddm i)));
  ("wddm_local_available_for_reservation_bytes", number (wm_local_available_for_reservation_bytes (mi_wddm i)));
  ("wddm_nonlocal_budget_bytes", number (wm_nonlocal_budget_bytes (mi_wddm i)));
  ("wddm_nonlocal_current_usage_bytes", number (wm_nonlocal_current_usage_bytes (mi_wddm i)));
  ("wddm_nonlocal_available_for_reservation_bytes", number (wm_nonlocal_available_for_reservation_bytes (mi_wddm i)))].

(** The owned memory of the GPU. *)
Definition owned_part (i : ManifestInputs) : list (string * FlatJsonValue) := [
  ("owned_gpu_available", boolean (og_available (mi_owned_gpu i)));
  ("owned_gpu_captured_monotonic_milliseconds", number (og_captured_monotonic_milliseconds (mi_owned_gpu i)));
  ("owned_gpu_source_reconciled", boolean (og_reconciled (mi_owned_gpu i)));
  ("owned_gpu_process_device_corroboration_available", boolean (og_process_device_corroboration_available (mi_owned_gpu i)));
  ("owned_gpu_process_device_source", text (og_process_device_source (mi_owned_gpu i)));
  ("owned_gpu_process_id", number (og_process_id (mi_owned_gpu i)));
  ("owned_gpu_process_device_captured_monotonic_milliseconds", number (og_process_device_captured_monotonic_milliseconds (mi_owned_gpu i)));
  ("owned_gpu_process_device_current_bytes", number (og_process_device_current_bytes (mi_owned_gpu i)));
  ("owned_gpu_adapter_identity_available", boolean (og_adapter_identity_available (mi_owned_gpu i)));
  ("owned_gpu_adapter_luid_high", signed (og_adapter_luid_high (mi_owned_gpu i)));
  ("owned_gpu_adapter_luid_low", number (og_adapter_luid_low (mi_owned_gpu i)));
  ("owned_gpu_hard_cap_bytes", number (og_hard_cap_bytes (mi_owned_gpu i)));
  ("owned_gpu_current_bytes", number (og_owned_current_bytes (mi_owned_gpu i)));
  ("owned_gpu_peak_bytes", number (og_owned_peak_bytes (mi_owned_gpu i)));
  ("owned_gpu_rejected_attempted_peak_bytes", number (og_rejected_attempted_peak_bytes (mi_owned_gpu i)));
  ("owned_gpu_backend_buffer_current_bytes", number (og_backend_buffer_current_bytes (mi_owned_gpu i)));
  ("owned_gpu_backend_buffer_at_peak_bytes", number (og_backend_buffer_at_owned_peak_bytes (mi_owned_gpu i)));
  ("owned_gpu_backend_pool_current_bytes", number (og_backend_pool_current_bytes (mi_owned_gpu i)));
  ("owned_gpu_backend_pool_at_peak_bytes", number (og_backend_pool_at_owned_peak_bytes (mi_owned_gpu i)));
  ("owned_gpu_kernel_workspace_current_bytes", number (og_kernel_workspace_current_bytes (mi_owned_gpu i)));
  ("owned_gpu_kernel_workspace_at_peak_bytes", number (og_kernel_workspace_at_owned_peak_bytes (mi_owned_gpu i)));
  ("owned_gpu_activation_current_bytes", number (og_activation_current_bytes (mi_owned_gpu i)));
  ("owned_gpu_activation_at_peak_bytes", number (og_activation_at_owned_peak_bytes (mi_owned_gpu i)));
  ("owned_gpu_kv_current_bytes", number (og_kv_current_bytes (mi_owned_gpu i)));
  ("owned_gpu_kv_at_peak_bytes", number (og_kv_at_owned_peak_bytes (mi_owned_gpu i)));
  ("owned_gpu_graph_current_bytes", number (og_graph_current_bytes (mi_owned_gpu i)));
  ("owned_gpu_graph_at_peak_bytes", number (og_graph_at_owned_peak_bytes (mi_owned_gpu i)));
  ("owned_gpu_profiler_workspace_current_bytes", number (og_profiler_workspace_current_bytes (mi_owned_gpu i)));
  ("owned_gpu_profiler_workspace_at_peak_bytes", number (og_profiler_workspace_at_owned_peak_bytes (mi_owned_gpu i)));
  ("owned_gpu_cuda_context_runtime_current_bytes", number (og_cuda_context_runtime_current_bytes (mi_owned_gpu i)));
  ("owned_gpu_cuda_context_runtime_at_peak_bytes", number (og_cuda_context_runtime_at_owned_peak_bytes (mi_owned_gpu i)));
  ("owned_gpu_cuda_mem_info_free_bytes", number (og_cuda_mem_info_free_bytes (mi_owned_gpu i)));
  ("owned_gpu_cuda_mem_info_total_bytes", number (og_cuda_mem_info_total_bytes (mi_owned_gpu i)));
  ("owned_gpu_unknown_unreconciled_bytes", number (og_unknown_unreconciled_bytes (mi_owned_gpu i)))].

(** The verdict on the Windows evidence. *)
Definition evidence_part (i : ManifestInputs) : list (string * FlatJsonValue) := [
  ("windows_evidence_promotable", boolean (wd_promotable (mi_windows_evidence i)));
  ("windows_evidence_classification", text (wd_classification (mi_windows_evidence i)));
  ("windows_evidence_reason", text (wd_reason (mi_windows_evidence i)))].

(** The host after the run: the rest. *)
Definition host_post_part (i : ManifestInputs) : list (string * FlatJsonValue) := [
  ("host_post_process_id", number (hts_process_id (mi_host i)));
  ("host_post_process_image_path", text (hts_process_image_path (mi_host i)));
  ("host_post_process_working_set_current_bytes", number (hts_process_working_set_current_bytes (mi_host i)));
  ("host_post_process_working_set_peak_bytes", number (hts_process_working_set_peak_bytes (mi_host i)));
  ("host_post_process_private_commit_current_bytes", number (hts_process_private_commit_current_bytes (mi_host i)));
  ("host_post_process_private_commit_peak_bytes", number (hts_process_private_commit_peak_bytes (mi_host i)));
  ("host_post_system_memory_total_bytes", number (hts_system_memory_total_bytes (mi_host i)));
  ("host_post_system_memory_available_bytes", number (hts_system_memory_available_bytes (mi_host i)));
  ("host_post_system_commit_total_bytes", number (hts_system_commit_total_bytes (mi_host i)));
  ("host_post_system_commit_limit_bytes", number (hts_system_commit_limit_bytes (mi_host i)));
  ("host_post_system_commit_available_bytes", number (hts_system_commit_available_bytes (mi_host i)));
  ("host_post_pagefile_configuration_available", boolean (hts_pagefile_configuration_available (mi_host i)));
  ("host_post_pagefile_configuration_unavailable_reason", text (hts_pagefile_configuration_unavailable_reason (mi_host i)));
  ("host_post_pagefile_count", number (hts_pagefile_count (mi_host i)));
  ("host_post_pagefile_total_bytes", number (hts_pagefile_total_bytes (mi_host i)));
  ("host_post_pagefile_current_usage_bytes", number (hts_pagefile_current_usage_bytes (mi_host i)));
  ("host_post_pagefile_peak_usage_bytes", number (hts_pagefile_peak_usage_bytes (mi_host i)));
  ("host_post_process_io_read_bytes", number (hts_process_io_read_bytes (mi_host i)));
  ("host_post_process_io_write_bytes", number (hts_process_io_write_bytes (mi_host i)))].

(** The last two fields. *)
Definition agreement_part (i : ManifestInputs) : list (string * FlatJsonValue) := [
  ("required_telemetry_present", boolean (ms_required_telemetry_present (mi_sample i)));
  ("telemetry_agreement", boolean (ms_telemetry_agreement (mi_sample i)))].

(** One file of the evidence. *)
Definition file_fields (file : FileIoEvidence) : list (string * FlatJsonValue) := [
  ("identity_available", boolean (fe_identity_available file));
  ("unavailable_reason", text (fe_unavailable_reason file));
  ("role", text (fe_role file));
  ("final_path", text (fe_final_path file));
  ("volume_serial_hex", text (fe_volume_serial_hex file));
  ("file_id_hex", text (fe_file_id_hex file));
  ("hard_link_count", number (fe_hard_link_count file));
  ("size_bytes", number (fe_size_bytes file));
  ("mapped_bytes", number (fe_mapped_bytes file));
  ("resident_proxy_available", boolean (fe_resident_proxy_available file));
  ("resident_proxy_bytes", number (fe_resident_proxy_bytes file));
  ("identity_aware_io_available", boolean (fe_identity_aware_io_available file));
  ("observed_read_bytes", number (fe_observed_read_bytes file));
  ("observed_write_bytes", number (fe_observed_write_bytes file));
  ("pagefile_io_available", boolean (fe_pagefile_io_available file));
  ("observed_pagefile_read_bytes", number (fe_observed_pagefile_read_bytes file));
  ("observed_pagefile_write_bytes", number (fe_observed_pagefile_write_bytes file));
  ("hard_faults_available", boolean (fe_hard_faults_available file));
  ("hard_fault_count", number (fe_hard_fault_count file));
  ("hard_fault_source", text (fe_hard_fault_source file));
  ("cache_state", text (fe_cache_state file));
  ("cache_state_verified", boolean (fe_cache_state_verified file));
  ("dropped_trace_records", number (fe_dropped_trace_records file))].

(** ** The text *)

Definition json_fields (fields : list (string * FlatJsonValue)) : list (string * Shown) := prod_map id Json <$> fields.

(** The fields before and after the list of files. *)
Definition head_fields (b : BuildFacts) (created_at : string) (i : ManifestInputs) : list (string * Shown) :=
  build_part b created_at i ++ json_fields (config_part (bf_windows b) i ++ kv_part i ++ quality_part (bf_windows b) i ++ offload_part (bf_windows b) i ++ claim_part i ++ memory_part i ++ host_pre_part i ++ host_post_start i ++ wddm_part i ++ owned_part i).

Definition tail_fields (i : ManifestInputs) : list (string * Shown) := json_fields (evidence_part i ++ host_post_part i ++ agreement_part i).

Definition spread_member (field : string * FlatJsonValue) : list ascii :=
  quote :: list_ascii_of_string field.1 ++ [quote; ":"%char; " "%char] ++ print_value field.2.

Fixpoint spread_members (fields : list (string * FlatJsonValue)) : list ascii :=
  match fields with
  | [] => []
  | [field] => spread_member field
  | field :: fields => spread_member field ++ [","%char; " "%char] ++ spread_members fields
  end.

Definition file_line (file : FileIoEvidence) : list ascii :=
  list_ascii_of_string "    {" ++ spread_members (file_fields file) ++ ["}"%char].

Definition evidence_header : list ascii :=
  [" "%char; " "%char; quote] ++ list_ascii_of_string "file_evidence" ++ [quote; ":"%char; " "%char; "["%char].

(** The loop over the files: a comma before every file but the first. *)
Fixpoint print_files (first : bool) (files : list FileIoEvidence) : list ascii :=
  match files with
  | [] => []
  | file :: files => (if first then [] else [","%char]) ++ newline :: file_line file ++ print_files false files
  end.

Definition evidence_text (files : list FileIoEvidence) : list ascii :=
  evidence_header ++ print_files true files ++
  (match files with [] => [] | _ => [newline; " "%char; " "%char] end) ++ ["]"%char; ","%char; newline].

Definition print_head (fields : list (string * Shown)) : list ascii :=
  List.concat (map (fun field => print_field show_value field ++ [","%char; newline]) fields).

Definition manifest_text (b : BuildFacts) (created_at : string) (i : ManifestInputs) : list ascii :=
  ["{"%char; newline] ++ print_head (head_fields b created_at i) ++ evidence_text (mi_files i) ++
  print_fields show_value (tail_fields i) ++ ["}"%char; newline].

(** [opens]: the file could be opened. *)
Definition write_probe_manifest (b : BuildFacts) (created_at : string) (opens : bool) (path : string) (i : ManifestInputs) :
    string + list ascii :=
  if opens then inr (manifest_text b created_at i) else inl ("failed_to_open_manifest_path: " +:+ path).

(** The inputs that [finish_probe] collects. *)
Definition probe_inputs (e : ProbeEnv) (s : ProbeState) (evidence : WindowsEvidenceDecision) (status reason : string) :
    ManifestInputs := {|
  mi_config := ps_config s;
  mi_sample := ps_sample s;
  mi_host_pre := sample_host_telemetry (pe_host_before e);
  mi_host := sample_host_telemetry (pe_host_after e);
  mi_wddm := sample_wddm_memory (pe_dxgi e) 0;
  mi_owned_gpu := wb_gpu (windows_bundle e s);
  mi_files := wb_files (windows_bundle e s);
  mi_windows_evidence := evidence;
  mi_cuda_probe := ps_cuda s;
  mi_kv_profile := ps_kv_profile s;
  mi_kv_sample := ps_kv_sample s;
  mi_quality := ps_quality s;
  mi_compression := ps_compression s;
  mi_offload_plan := ps_offload_plan s;
  mi_transfer := ps_transfer s;
  mi_profitability := ps_profitability s;
  mi_hybrid_plan := ps_hybrid_plan s;
  mi_usability := ps_usability s;
  mi_claim := ps_claim s;
  mi_status := status;
  mi_failure_reason := reason;
|}.


(** ** The lines of a manifest *)

Definition manifest_fields (b : BuildFacts) (created_at : string) (i : ManifestInputs) : list (string * Shown) :=
  head_fields b created_at i ++ tail_fields i.

Lemma manifest_keys b created_at i : NoDup (manifest_fields b created_at i).*1.
Proof.
  unfold manifest_fields, head_fields, tail_fields, json_fields. rewrite !fmap_app, <- !list_fmap_compose.
  apply (bool_decide_unpack _). vm_compute. exact I.
Qed.

(** *** Numbers are plain *)

Abbreviation plain_chars l := (Forall (fun c => plain_char c = true) l).

Lemma plain_forall l : plain_chars l -> plain l = true.
Proof. intros H. unfold plain. by apply forallb_Forall. Qed.

Lemma minus_plain s : plain_chars (NumberText.minus s).
Proof. destruct s; by repeat constructor. Qed.

Lemma padded_plain width n : plain_chars (NumberText.padded width n).
Proof. eapply Forall_impl; [apply NumberText.padded_digits|]. intros c. apply digit_plain. Qed.

Lemma strip_zeros_plain l : plain_chars l -> plain_chars (NumberText.strip_zeros l).
Proof.
  intros H. unfold NumberText.strip_zeros. apply Forall_rev. apply Forall_rev in H.
  induction H as [|c l0 Hc H IH]; [constructor|]. cbn. destruct (Ascii.eqb c "0"); [done|by constructor].
Qed.

Lemma with_fraction_plain whole fraction :
  plain_chars whole -> plain_chars fraction -> plain_chars (NumberText.with_fraction whole fraction).
Proof.
  intros Hw Hf%strip_zeros_plain. unfold NumberText.with_fraction.
  destruct (NumberText.strip_zeros fraction) as [|c l]; [done|]. apply Forall_app. split; [done|]. by constructor.
Qed.

Lemma exponent_plain x : plain_chars (NumberText.exponent_text x).
Proof.
  unfold NumberText.exponent_text. constructor; [done|]. constructor; [by destruct (x <? 0)|].
  destruct (_ <? 100); apply padded_plain.
Qed.

Lemma general_plain num den : plain_chars (NumberText.general_positive num den).
Proof.
  unfold NumberText.general_positive. cbv zeta. destruct (if _ =? 1000000 then _ else _) as [d x].
  pose proof (padded_plain 6 d) as H. generalize dependent (NumberText.padded 6 d). intros digits H.
  destruct (_ || _); [|destruct (0 <=? x)].
  - apply Forall_app. split; [|apply exponent_plain]. apply with_fraction_plain; [by apply Forall_take|by apply Forall_drop].
  - apply with_fraction_plain; [by apply Forall_take|by apply Forall_drop].
  - apply with_fraction_plain; [by repeat constructor|]. apply Forall_app. split; [by apply Forall_replicate|done].
Qed.

Lemma real_searchable value : plain_value (real value) = true.
Proof.
  unfold plain_value, real, NumberText.general_text. cbn [fv_kind fv_text].
  rewrite list_ascii_of_string_of_list_ascii. apply plain_forall.
  destruct value as [s|s| |s m e]; cbn [NumberText.general_digits];
    [apply Forall_app; split; [apply minus_plain|by repeat constructor]..|by repeat constructor|].
  apply Forall_app. split; [apply minus_plain|apply general_plain].
Qed.

Lemma signed_searchable value : plain_value (signed value) = true.
Proof.
  unfold plain_value, signed, NumberText.signed_digits. cbn [fv_kind fv_text].
  rewrite list_ascii_of_string_of_list_ascii. apply plain_forall. apply Forall_app. split; [apply minus_plain|].
  eapply Forall_impl; [by apply to_digits_digits|]. intros c. apply digit_plain.
Qed.

(** Every field has a plain key, and a number or a Boolean is plain. *)
Definition plain_field (field : string * Shown) : Prop :=
  plain (list_ascii_of_string field.1) = true /\
  match field.2 with Json value => plain_value value = true | Verbatim _ => True end.

Ltac plain_fields :=
  repeat (apply Forall_cons; split;
    [split; [reflexivity|cbn [snd]; first [exact I | reflexivity | apply number_searchable | apply boolean_searchable
                                          | apply real_searchable | apply signed_searchable]]|]);
  apply Forall_nil; exact I.

Lemma manifest_plain b created_at i : Forall plain_field (manifest_fields b created_at i).
Proof.
  unfold manifest_fields, head_fields, tail_fields, json_fields, build_part. rewrite !fmap_app.
  repeat (apply Forall_app; split); plain_fields.
Qed.

(** *** One line per field *)

Abbreviation one_line l := (Forall (fun c => c <> newline) l).

(** The texts that are printed as they are have no line break: the clock and
    the three versions the build defines. *)
Definition single_lines (b : BuildFacts) (created_at : string) : Prop :=
  Forall (fun t => one_line (list_ascii_of_string t)) [created_at; bf_version b; bf_cmake_version b; bf_build_config b].

Definition comma_line (field : string * Shown) : list ascii := print_field show_value field ++ [","%char].

Definition field_on_line (field : string * Shown) : Prop := one_line (print_field show_value field).

Lemma json_on_line key value : plain_value value = true -> field_on_line (key, Json value).
Proof.
  intros H. unfold field_on_line, print_field. do 3 (constructor; [done|]). apply Forall_app.
  split; [apply escaped_no_newline|]. do 3 (constructor; [done|]). by apply value_no_newline.
Qed.

Lemma verbatim_on_line key value : one_line (list_ascii_of_string value) -> field_on_line (key, Verbatim value).
Proof.
  intros H. unfold field_on_line, print_field. do 3 (constructor; [done|]). apply Forall_app.
  split; [apply escaped_no_newline|]. do 4 (constructor; [done|]). apply Forall_app. split; [done|by repeat constructor].
Qed.

Lemma verbatim_fields b created_at i key value :
  (key, Verbatim value) ∈ manifest_fields b created_at i -> value ∈ [created_at; bf_version b; bf_cmake_version b; bf_build_config b].
Proof.
  assert (Hj : forall fields, (key, Verbatim value) ∈ json_fields fields -> False).
  { intros fields ([k v] & [=] & _)%list_elem_of_fmap. }
  unfold manifest_fields, head_fields, tail_fields. rewrite !elem_of_app.
  intros [[H|H]|H]; [|by apply Hj in H..].
  unfold build_part in H. rewrite !elem_of_cons in H. rewrite elem_of_nil in H.
  repeat (destruct H as [[= -> ->]|H]; [set_solver|]). all: try done. set_solver.
Qed.

Lemma manifest_on_lines b created_at i :
  single_lines b created_at -> Forall field_on_line (manifest_fields b created_at i).
Proof.
  intros Hs. apply Forall_forall. intros [key v] Hin. pose proof (manifest_plain b created_at i) as Hp.
  rewrite Forall_forall in Hp. destruct (Hp _ Hin) as [_ Hv]. destruct v as [value|value].
  - by apply json_on_line.
  - apply verbatim_on_line. unfold single_lines in Hs. rewrite Forall_forall in Hs. by eapply Hs, verbatim_fields.
Qed.

Lemma comma_one_line field : field_on_line field -> one_line (comma_line field).
Proof. intros H. apply Forall_app. split; [done|by repeat constructor]. Qed.

Fixpoint field_lines (fields : list (string * Shown)) : list (list ascii) :=
  match fields with
  | [] => []
  | [field] => [print_field show_value field]
  | field :: fields => comma_line field :: field_lines fields
  end.

Lemma getlines_head fields rest :
  Forall field_on_line fields ->
  getlines (print_head fields ++ rest) [] = map comma_line fields ++ getlines rest [].
Proof.
  induction 1 as [|field fields H Hs IH]; [done|]. unfold print_head. cbn [map List.concat].
  change (List.concat _) with (print_head fields).
  replace ((print_field show_value field ++ [","%char; newline]) ++ print_head fields)
    with (comma_line field ++ newline :: print_head fields) by (unfold comma_line; by rewrite <- !app_assoc).
  rewrite <- app_assoc. cbn [app]. rewrite getlines_line by (by apply comma_one_line). by rewrite IH.
Qed.

Lemma getlines_fields fields rest :
  Forall field_on_line fields ->
  getlines (print_fields show_value fields ++ rest) [] = field_lines fields ++ getlines rest [].
Proof.
  induction 1 as [|field [|next fields] H Hs IH]; [done| |].
  - cbn [print_fields field_lines]. rewrite <- app_assoc. cbn [app]. by rewrite getlines_line.
  - change (print_fields show_value (field :: next :: fields))
      with (print_field show_value field ++ [","%char; newline] ++ print_fields show_value (next :: fields)).
    replace ((print_field show_value field ++ [","%char; newline] ++ print_fields show_value (next :: fields)) ++ rest)
      with (comma_line field ++ newline :: print_fields show_value (next :: fields) ++ rest)
      by (unfold comma_line; cbn [app]; by rewrite <- !app_assoc).
    rewrite getlines_line by (by apply comma_one_line). by rewrite IH.
Qed.

(** *** The list of files *)

Lemma members_one_line fields :
  Forall (fun field => plain (list_ascii_of_string field.1) = true /\ plain_value field.2 = true) fields ->
  one_line (spread_members fields).
Proof.
  assert (Hm : forall field, plain (list_ascii_of_string field.1) = true /\ plain_value field.2 = true -> one_line (spread_member field)).
  { intros field [Hk Hv]. unfold spread_member. constructor; [done|]. apply Forall_app. split; [by apply plain_no_newline|].
    do 3 (constructor; [done|]). by apply value_no_newline. }
  induction 1 as [|field fields Hf Hs IH]; [constructor|]. destruct fields as [|next fields]; [by apply Hm|].
  change (spread_members (field :: next :: fields))
    with (spread_member field ++ [","%char; " "%char] ++ spread_members (next :: fields)).
  apply Forall_app. split; [by apply Hm|]. do 2 (constructor; [done|]). exact IH.
Qed.

Lemma file_one_line file : one_line (file_line file).
Proof.
  unfold file_line. apply Forall_app. split; [by repeat constructor|]. apply Forall_app.
  split; [|by repeat constructor]. apply members_one_line. unfold file_fields. searchable_fields.
Qed.

Fixpoint file_lines (file : FileIoEvidence) (files : list FileIoEvidence) : list (list ascii) :=
  match files with
  | [] => [file_line file]
  | next :: files => (file_line file ++ [","%char]) :: file_lines next files
  end.

Definition evidence_lines (files : list FileIoEvidence) : list (list ascii) :=
  match files with
  | [] => [evidence_header ++ list_ascii_of_string "],"]
  | file :: files => evidence_header :: file_lines file files ++ [list_ascii_of_string "  ],"]
  end.

Lemma getlines_files file files rest :
  getlines (file_line file ++ print_files false files ++ newline :: list_ascii_of_string "  ]," ++ newline :: rest) [] =
  file_lines file files ++ list_ascii_of_string "  ]," :: getlines rest [].
Proof.
  revert file; induction files as [|next files IH]; intros file; cbn [print_files file_lines].
  - cbn [app]. rewrite getlines_line by apply file_one_line. done.
  - replace (file_line file ++ ([","%char] ++ newline :: file_line next ++ print_files false files) ++ newline :: list_ascii_of_string "  ]," ++ newline :: rest)
      with ((file_line file ++ [","%char]) ++ newline :: file_line next ++ print_files false files ++ newline :: list_ascii_of_string "  ]," ++ newline :: rest)
      by (rewrite <- !app_assoc; cbn [app]; by rewrite <- !app_assoc).
    rewrite getlines_line; [by rewrite IH|]. apply Forall_app. split; [apply file_one_line|by repeat constructor].
Qed.

Lemma getlines_evidence files rest :
  getlines (evidence_text files ++ rest) [] = evidence_lines files ++ getlines rest [].
Proof.
  unfold evidence_text. destruct files as [|file files].
  - by apply (getlines_line (evidence_header ++ list_ascii_of_string "],")); repeat constructor.
  - cbn [print_files app]. rewrite <- !app_assoc. cbn [app]. rewrite <- !app_assoc.
    rewrite getlines_line by (by repeat constructor). pose proof (getlines_files file files rest) as H.
    cbn [list_ascii_of_string app] in *. rewrite H. cbn [evidence_lines app]. by rewrite <- app_assoc.
Qed.

(** The lines of a manifest: the brace, a line for each field before the list,
    those of the list, a line for each field after it, the brace. *)
Lemma manifest_lines b created_at i :
  single_lines b created_at ->
  getlines (manifest_text b created_at i) [] =
  ["{"%char] :: map comma_line (head_fields b created_at i) ++ evidence_lines (mi_files i) ++
  field_lines (tail_fields i) ++ [["}"%char]].
Proof.
  intros H%(manifest_on_lines b created_at i). apply Forall_app in H as [Hh Ht]. unfold manifest_text.
  revert Hh Ht. generalize (head_fields b created_at i) (tail_fields i) (mi_files i). intros head tail files Hh Ht.
  change (["{"%char; newline] ++ ?rest) with (["{"%char] ++ newline :: rest).
  rewrite getlines_line by (by repeat constructor).
  by rewrite getlines_head, getlines_evidence, getlines_fields.
Qed.

(** *** Which line has a key *)

(** ["  \"key\": printed,"] *)
Definition manifest_line (key : string) (printed : list ascii) : list ascii :=
  [" "%char; " "%char; quote] ++ list_ascii_of_string key ++ [quote; ":"%char; " "%char] ++ printed ++ [","%char].

Lemma quoted_key_eq k k' r r' : plain k = true -> plain k' = true -> k ++ quote :: r = k' ++ quote :: r' -> k = k' /\ r = r'.
Proof.
  revert k'; induction k as [|c k IH]; intros [|c' k']; unfold plain; cbn [app forallb]; intros Hk Hk' H.
  - by injection H as ->.
  - injection H as <- _. by apply andb_prop in Hk' as [Hq _].
  - injection H as -> _. by apply andb_prop in Hk as [Hq _].
  - injection H as -> H. apply andb_prop in Hk as [_ Hk]. apply andb_prop in Hk' as [_ Hk'].
    by destruct (IH k' Hk Hk' H) as [-> ->].
Qed.

Lemma line_of_field key printed field :
  plain (list_ascii_of_string key) = true -> plain (list_ascii_of_string field.1) = true ->
  manifest_line key printed = comma_line field -> key = field.1 /\ show_value field.2 = " "%char :: printed.
Proof.
  intros Hk Hf. unfold manifest_line, comma_line, print_field, json_escape. rewrite escape_plain by done.
  intros [= H]. rewrite <- app_assoc in H. cbn [app] in H. apply quoted_key_eq in H as [He H]; [|done..].
  split; [by apply (f_equal string_of_list_ascii) in He; rewrite !string_of_list_ascii_of_string in He|].
  injection H as H. by apply (app_inj_tail (" "%char :: printed)) in H as [-> _].
Qed.

Lemma field_lines_elem line fields :
  line ∈ field_lines fields -> exists field, field ∈ fields /\ (line = comma_line field \/ line = print_field show_value field).
Proof.
  induction fields as [|field [|next fields] IH].
  - by intros H%elem_of_nil.
  - cbn [field_lines]. rewrite list_elem_of_singleton. intros ->. exists field. split; [by left|by right].
  - change (field_lines (field :: next :: fields)) with (comma_line field :: field_lines (next :: fields)).
    rewrite elem_of_cons. intros [->|H]; [exists field; split; [by left|by left]|].
    destruct (IH H) as (f & Hin & Hl). exists f. split; [by right|done].
Qed.

(** A line of the list of files has another key than the fields, or none. *)
Lemma evidence_line_key key printed files :
  key <> "file_evidence" -> plain (list_ascii_of_string key) = true -> manifest_line key printed ∈ evidence_lines files -> False.
Proof.
  intros Hne Hk. assert (Hh : forall rest, manifest_line key printed <> evidence_header ++ rest).
  { intros rest. unfold manifest_line, evidence_header. intros [= H].
    change (list_ascii_of_string key ++ [quote; ":"%char; " "%char] ++ printed ++ [","%char] =
            list_ascii_of_string "file_evidence" ++ quote :: ":"%char :: " "%char :: "["%char :: rest) in H.
    apply quoted_key_eq in H as [H _]; [|done..]. apply Hne. apply (f_equal string_of_list_ascii) in H.
    by rewrite !string_of_list_ascii_of_string in H. }
  destruct files as [|file files]; cbn [evidence_lines].
  - intros H%list_elem_of_singleton. by apply Hh in H.
  - rewrite elem_of_cons, elem_of_app, list_elem_of_singleton. intros [H|[H|[=]]].
    + apply (Hh []). by rewrite app_nil_r.
    + revert file H. induction files as [|next files IH]; intros file; cbn [file_lines].
      * intros [=]%list_elem_of_singleton.
      * rewrite elem_of_cons. intros [[=]|H]. by apply (IH next).
Qed.

Lemma field_line_in b created_at i key value :
  single_lines b created_at -> (key, value) ∈ head_fields b created_at i -> plain (list_ascii_of_string key) = true ->
  forall printed, show_value value = " "%char :: printed ->
  manifest_line key printed ∈ getlines (manifest_text b created_at i) [].
Proof.
  intros Hs Hin Hk printed Hv. rewrite manifest_lines by done. right. apply elem_of_app. left.
  apply list_elem_of_fmap. exists (key, value). split; [|done]. unfold manifest_line, comma_line, print_field, json_escape.
  cbn [fst snd]. rewrite escape_plain, Hv by done. cbn [app]. by rewrite <- !app_assoc.
Qed.

(** *** What the manifest of a run says *)

(** The manifest has a line for the key, and every such line has this value. *)
Definition says (lines : list (list ascii)) (key : string) (printed : list ascii) : Prop :=
  manifest_line key printed ∈ lines /\ forall other, manifest_line key other ∈ lines -> other = printed.

Lemma manifest_says b created_at i key value printed :
  single_lines b created_at ->
  (key, Json value) ∈ manifest_fields b created_at i -> print_value value = printed -> key <> "file_evidence" ->
  manifest_line key printed ∈ getlines (manifest_text b created_at i) [] ->
  (forall other, other ++ [","%char] <> printed) ->
  says (getlines (manifest_text b created_at i) []) key printed.
Proof.
  intros Hs Hin Hv Hne Hline Hcomma. split; [done|]. intros other Hother.
  pose proof (manifest_plain b created_at i) as Hp. rewrite Forall_forall in Hp.
  assert (Hkey : forall field, field ∈ manifest_fields b created_at i -> field.1 = key -> field = (key, Json value)).
  { intros [k v] Hf Hke. cbn in Hke. subst k. f_equal. pose proof (manifest_keys b created_at i) as Hnd.
    assert (list_to_map (M := gmap string Shown) (manifest_fields b created_at i) !! key = Some v) as H1
      by (by apply elem_of_list_to_map).
    assert (list_to_map (M := gmap string Shown) (manifest_fields b created_at i) !! key = Some (Json value)) as H2
      by (by apply elem_of_list_to_map). congruence. }
  destruct (Hp _ Hin) as [Hk _]. cbn [fst] in Hk.
  assert (Hcase : forall field, field ∈ manifest_fields b created_at i -> manifest_line key other = comma_line field -> other = printed).
  { intros field Hf Heq. destruct (Hp _ Hf) as [Hfk _]. destruct (line_of_field _ _ _ Hk Hfk Heq) as [-> Hshow].
    rewrite (Hkey field Hf eq_refl) in Hshow. cbn [snd show_value] in Hshow. unfold print_spaced in Hshow. congruence. }
  rewrite manifest_lines in Hother by done. apply elem_of_cons in Hother as [[=]|Hother].
  rewrite !elem_of_app in Hother. destruct Hother as [Hother|[Hother|[Hother|Hother]]].
  - apply list_elem_of_fmap in Hother as (field & Heq & Hf). apply (Hcase field); [|done]. apply elem_of_app. by left.
  - by apply evidence_line_key in Hother.
  - apply field_lines_elem in Hother as (field & Hf & [Heq|Heq]).
    + apply (Hcase field); [|done]. apply elem_of_app. by right.
    + exfalso. assert (Hm : field ∈ manifest_fields b created_at i) by (apply elem_of_app; by right).
      destruct (Hp _ Hm) as [Hfk _]. unfold manifest_line, print_field, json_escape in Heq. rewrite escape_plain in Heq by done.
      injection Heq as Heq. cbn [app] in Heq. apply quoted_key_eq in Heq as [He Heq]; [|done..].
      assert (field.1 = key) as Hfe
        by (apply (f_equal string_of_list_ascii) in He; by rewrite !string_of_list_ascii_of_string in He).
      rewrite (Hkey field Hm Hfe) in Heq. cbn [snd show_value] in Heq. unfold print_spaced in Heq.
      injection Heq as Heq. apply (Hcomma other). by rewrite <- Hv, <- Heq.
  - apply list_elem_of_singleton in Hother. discriminate.
Qed.

Lemma text_line_says b created_at i key t :
  single_lines b created_at -> (key, Json (text t)) ∈ head_fields b created_at i -> key <> "file_evidence" ->
  says (getlines (manifest_text b created_at i) []) key (quote :: json_escape t ++ [quote]).
Proof.
  intros Hs Hin Hne. assert ((key, Json (text t)) ∈ manifest_fields b created_at i) as Hm by (apply elem_of_app; by left).
  pose proof (manifest_plain b created_at i) as Hp. rewrite Forall_forall in Hp. destruct (Hp _ Hm) as [Hk _].
  apply (manifest_says b created_at i key (text t)); [done..| |].
  - by apply (field_line_in b created_at i key (Json (text t))).
  - intros other H. change (quote :: json_escape t ++ [quote]) with ((quote :: json_escape t) ++ [quote]) in H.
    by apply app_inj_tail in H as [_ [=]].
Qed.

Lemma promotable_line_says b created_at i :
  single_lines b created_at -> wd_promotable (mi_windows_evidence i) = false ->
  says (getlines (manifest_text b created_at i) []) "windows_evidence_promotable" (list_ascii_of_string "false").
Proof.
  intros Hs Hp.
  apply (manifest_says b created_at i "windows_evidence_promotable" (boolean false)); [done| |done..| |].
  - apply elem_of_app. right. unfold tail_fields, evidence_part, json_fields. rewrite Hp. by left.
  - rewrite manifest_lines by done. right. rewrite !elem_of_app. right. right. left.
    unfold tail_fields, evidence_part, json_fields. rewrite Hp. by left.
  - intros other H. change (list_ascii_of_string "false") with (list_ascii_of_string "fals" ++ ["e"%char]) in H.
    by apply app_inj_tail in H as [_ [=]].
Qed.

Lemma claim_part_in b created_at i key value :
  (key, value) ∈ claim_part i -> (key, Json value) ∈ head_fields b created_at i.
Proof.
  intros H. unfold head_fields, json_fields. rewrite !fmap_app. rewrite !elem_of_app. right.
  assert (Hin : (key, Json value) ∈ prod_map id Json <$> claim_part i) by (apply list_elem_of_fmap; by exists (key, value)).
  tauto.
Qed.

Lemma run_manifest e config s evidence status reason :
  oc_manifest (run_probe e config) = Some (s, evidence, status, reason) ->
  wd_promotable evidence = false /\
  (status = "ok" /\ reason = "" /\ oc_exit (run_probe e config) = ExitOk /\ earned e config s \/
   status = "failed_closed" /\ oc_exit (run_probe e config) = ExitFailedClosed /\
   (stages e (start_run (initial_state config))).2 = Some reason).
Proof.
  unfold run_probe. destruct (pe_telemetry_opens e); cbn [negb]; [|done].
  destruct (stages e _) as [s0 [r|]] eqn:E; unfold finish_probe; destruct (pe_manifest_opens e);
    cbn [negb oc_exit oc_manifest]; try done; intros [= <- <- <- <-]; (split; [apply bundle_not_promotable|]).
  - by right.
  - left. split_and!; [done..|]. destruct (stages_earned e config s0 E). constructor; assumption.
Qed.

(** C15. What a manifest of the probe says is what the run did.  In the lines
    of its text, each of the keys below has one value: the evidence is never
    promotable; the status is [ok], with no reason, only for a run that exited
    with success and passed every gate; and otherwise it is [failed_closed],
    the run exited so, and the reason is the one of the stage that ended the
    run.  The clock's text and the three versions that the build defines, which
    are printed without escaping, must be texts of one line. *)
Theorem manifest_tells_the_run b created_at e config s evidence status reason :
  Forall (fun t => Forall (fun c => c <> newline) (list_ascii_of_string t))
    [created_at; bf_version b; bf_cmake_version b; bf_build_config b] ->
  oc_manifest (run_probe e config) = Some (s, evidence, status, reason) ->
  let lines := getlines (manifest_text b created_at (probe_inputs e s evidence status reason)) [] in
  says lines "windows_evidence_promotable" (list_ascii_of_string "false") /\
  says lines "failure_reason" (quote :: json_escape reason ++ [quote]) /\
  (says lines "status" (quote :: list_ascii_of_string "ok" ++ [quote]) /\ reason = "" /\
   oc_exit (run_probe e config) = ExitOk /\ earned e config s \/
   says lines "status" (quote :: list_ascii_of_string "failed_closed" ++ [quote]) /\
   oc_exit (run_probe e config) = ExitFailedClosed /\ (stages e (start_run (initial_state config))).2 = Some reason).
Proof.
  intros Hs Hrun lines. destruct (run_manifest e config s evidence status reason Hrun) as [Hp Hcase].
  assert (Hlook : forall key t, (key, text t) ∈ claim_part (probe_inputs e s evidence status reason) -> key <> "file_evidence" ->
    says lines key (quote :: json_escape t ++ [quote])) by (intros key t Hin Hne; by apply text_line_says; [|apply claim_part_in|]).
  split; [by apply promotable_line_says|].
  split; [apply Hlook; [unfold claim_part; repeat first [apply list_elem_of_here | apply list_elem_of_further]|done]|].
  assert (says lines "status" (quote :: json_escape status ++ [quote])) as Hstatus
    by (apply Hlook; [unfold claim_part; repeat first [apply list_elem_of_here | apply list_elem_of_further]|done]).
  destruct Hcase as [(-> & -> & Hexit & He)|(-> & Hexit & He)]; [left|right]; by split_and!.
Qed.

(** ** A manifest *)

Definition sample_build : BuildFacts := mkBuildFacts true false "0.6.0" "3.28" "Release" "MSVC 1940" false false "89" false false.

(** The state and the verdict that the run of [Probe] with the fake backend
    records. *)
Definition sample_record : ProbeState * WindowsEvidenceDecision :=
  match oc_manifest (run_probe sample_env sample_config) with
  | Some (s, evidence, _, _) => (s, evidence)
  | None => (initial_state sample_config, mkWindowsDecision false "" "")
  end.

Definition sample_inputs : ManifestInputs := probe_inputs sample_env sample_record.1 sample_record.2 "ok" "".

Lemma manifest_tells_the_run_witness :
  manifest_line "status" (quote :: list_ascii_of_string "ok" ++ [quote]) ∈
    getlines (manifest_text sample_build "2025-01-02T03:04:05Z" sample_inputs) [] /\
  earned sample_env sample_config sample_record.1.
Proof.
  destruct (manifest_tells_the_run sample_build "2025-01-02T03:04:05Z" sample_env sample_config sample_record.1 sample_record.2 "ok" "")
    as (_ & _ & [([Hs _] & _ & _ & He)|(_ & Hexit & _)]).
  - repeat (apply Forall_cons; split; [repeat (apply Forall_cons; split; [discriminate|]); apply Forall_nil; exact I|]).
    apply Forall_nil. exact I.
  - vm_compute. reflexivity.
  - split; [exact Hs|exact He].
  - exfalso. vm_compute in Hexit. discriminate Hexit.
Defined.

End ManifestWriter.
