(* ===== verification/KernelText.v ===== *)
(** * The text of a kernel manifest

    [serialize] of [benchmark/kernel_benchmark_manifest.cpp].  A manifest that
    was read is printed from its fields, which [KernelManifest] covers; one that
    was built by the program has none and is printed from its members. *)

From Stdlib Require Import Ascii String SpecFloat.
From S2P Require Import Prelude FlatJson Doubles KernelManifest Telemetry ManifestWriter.
Import FlatJson KernelManifest Telemetry ManifestWriter.

Open Scope string_scope.
Open Scope list_scope.
Open Scope Z_scope.

Module KernelText.

Definition struct_fields (m : KernelBenchmarkManifest) : list (string * FlatJsonValue) :=
  let cell := km_cell m in [
  ("manifest_version", text (km_manifest_version m));
  ("validation_cell_id", text (km_validation_cell_id m));
  ("model_hash", text (bc_model_hash cell));
  ("quantization_format", text (bc_quantization_format cell));
  ("quant_artifact_sha256", text (bc_quant_artifact_sha256 cell));
  ("context_tokens", number (bc_context_tokens cell));
  ("batch_size", number (bc_batch_size cell));
  ("prompt_fixture_hash", text (bc_prompt_fixture_hash cell));
  ("backend", text (bc_backend cell));
  ("os", text (bc_os cell));
  ("gpu_name", text (bc_gpu_name cell));
  ("driver_mode", text (bc_driver_mode cell));
  ("cuda_driver_version", number (bc_cuda_driver_version cell));
  ("cuda_runtime_version", number (bc_cuda_runtime_version cell));
  ("vram_tier_gib", number (bc_vram_tier_gib cell));
  ("hard_cap_bytes", number (bc_hard_cap_bytes cell));
  ("op_type", text (bc_op_type cell));
  ("sequence_phase", text (bc_sequence_phase cell));
  ("kernel_backend", text (bc_kernel_backend cell));
  ("kernel_name", text (bc_kernel_name cell));
  ("kernel_version", text (bc_kernel_version cell));
  ("baseline_backend", text (km_baseline_backend m));
  ("baseline_manifest_hash", text (km_baseline_manifest_hash m));
  ("correctness_fixture_hash", text (km_correctness_fixture_hash m));
  ("quality_fixture_hash", text (km_quality_fixture_hash m));
  ("full_dequant_materialized", boolean (km_full_dequant_materialized m));
  ("workspace_peak_bytes", number (km_workspace_peak_bytes m));
  ("device_resident_bytes", number (km_device_resident_bytes m));
  ("host_commit_peak_bytes", number (km_host_commit_peak_bytes m));
  ("unknown_owned_bytes", number (km_unknown_owned_bytes m));
  ("ttft_ms", real (km_ttft_ms m));
  ("prefill_ms", real (km_prefill_ms m));
  ("decode_tokens_per_second", real (km_decode_tokens_per_second m));
  ("request_tail_ms", real (km_request_tail_ms m));
  ("speedup_ratio", real (km_speedup_ratio m));
  ("compression_status", text (km_compression_status m));
  ("quality_gate_id", text (km_quality_gate_id m));
  ("cap_certification_status", text (km_cap_certification_status m));
  ("run_outcome", text (km_run_outcome m));
  ("supervisor_status", text (km_supervisor_status m));
  ("admission_status", text (km_admission_status m));
  ("requested_execution_path", text (km_requested_execution_path m));
  ("actual_execution_path", text (km_actual_execution_path m));
  ("failure_reason", text (km_failure_reason m));
  ("raw_trial_count", number (km_raw_trial_count m));
  ("raw_trial_sha256", text (km_raw_trial_sha256 m));
  ("failure_record_sha256", text (km_failure_record_sha256 m));
  ("claim_status", text (km_claim_status m))].

Definition serialize (m : KernelBenchmarkManifest) : list ascii :=
  if bool_decide (km_fields m = ∅) then print_object print_spaced (struct_fields m) else serialize_fields (km_fields m).

(** A manifest that was read is printed from its fields. *)
Lemma serialize_read file m :
  read_kernel_benchmark_manifest file = inr m -> serialize m = canonical_kernel_benchmark_manifest_json m.
Proof.
  intros (Hacc & _)%read_manifest_inv. unfold serialize. rewrite bool_decide_eq_false_2; [done|]. intros He.
  destruct (acc_required m Hacc "model_hash") as [v Hv]; [by apply one_of_spec|]. by rewrite He in Hv.
Qed.

Definition drop_fields (m : KernelBenchmarkManifest) : KernelBenchmarkManifest := {| m with km_fields := ∅ |}.

(** The texts are ones the reader takes and the numbers are in their ranges. *)
Definition readable_manifest (m : KernelBenchmarkManifest) : bool :=
  forallb (fun field => well_formed_value field.2) (struct_fields m).

Lemma struct_keys m : (struct_fields m).*1 = (struct_fields empty_manifest).*1.
Proof. reflexivity. Qed.

(** Printed from its members, a manifest reads back as exactly these members. *)
Theorem struct_fields_read_back m :
  km_fields m = ∅ -> readable_manifest m = true ->
  parse_flat_json_object (serialize m) = mkResult true (list_to_map (struct_fields m)) "".
Proof.
  intros He H. unfold serialize. rewrite bool_decide_eq_true_2 by done. apply parse_printed_object.
  - rewrite struct_keys. apply (bool_decide_unpack _). vm_compute. exact I.
  - apply Forall_forall. intros field Hin. split.
    + assert (Hk : field.1 ∈ (struct_fields m).*1) by (by apply list_elem_of_fmap_2). rewrite struct_keys in Hk.
      revert Hk. generalize (field.1). apply Forall_forall, (bool_decide_unpack _). vm_compute. exact I.
    + unfold readable_manifest in H. rewrite forallb_forall in H. specialize (H field).
      rewrite <- list_elem_of_In in H. by apply spaced_shown, H.
Qed.

(** Every required field is among them. *)
Lemma struct_fields_required m :
  Forall (fun key => key ∈ (struct_fields m).*1) kernel_manifest_required_keys.
Proof. rewrite struct_keys. apply (bool_decide_unpack _). vm_compute. exact I. Qed.

(** Reading what was printed. *)
Definition reread (m : KernelBenchmarkManifest) : KernelBenchmarkManifestResult :=
  read_manifest_fields (fr_fields (parse_flat_json_object (serialize m))).

Example struct_manifest_accepted :
  readable_manifest sample_manifest = true /\ is_accepted (reread (drop_fields sample_manifest)) = true.
Proof. vm_compute. split; reflexivity. Qed.

(** Six digits are printed: a ratio below 1.2 reads back as 1.2. *)
Example ratio_is_rounded :
  let below := default Doubles.zero (Doubles.parse_text (list_ascii_of_string "1.1999999")) in
  let bound := default Doubles.zero (Doubles.parse_text (list_ascii_of_string "1.2")) in
  let sample := drop_fields sample_manifest in
  Doubles.lt below bound = true /\
  km_speedup_ratio (manifest_of empty_manifest (reread {| sample with km_speedup_ratio := below |})) = bound.
Proof. vm_compute. split; reflexivity. Qed.

End KernelText.
