(* ===== verification/Tools.v ===== *)
(** * The smaller tools

    [prism-plan-90b], [prism-validate-claim], [prism-quality],
    [prism-compare-benchmark] and [prism-emit-benchmark]: arguments, the call of the component they are the
    front end of, what they print and their exit code.

    [prism-emit-benchmark] publishes a manifest next to the digest of its text.
    [emitted_manifest_is_verified] shows what has been checked when it does:
    the manifest was read and accepted, its evidence hashed to what it records,
    its claim is not promoted, and the digest was there first. *)

From Stdlib Require Import Ascii String SpecFloat.
From S2P Require Import Prelude Doubles FlatJson Sha256 AtomicFile Policies KernelManifest.
From S2P Require Import C2Receipt Telemetry LlamaBackend Probe ManifestWriter KernelText.
Import FlatJson AtomicFile Policies KernelManifest Telemetry KernelText.

Open Scope string_scope.
Open Scope list_scope.
Open Scope Z_scope.

Module Tools.

(** ** Arguments *)

(** The argument after the first [flag] that has one. *)
Fixpoint value_after (arguments : list string) (flag fallback : string) : string :=
  match arguments with
  | argument :: ((next :: _) as rest) => if argument =s flag then next else value_after rest flag fallback
  | _ => fallback
  end.

(** Is there one? *)
Fixpoint has_value (arguments : list string) (flag : string) : bool :=
  match arguments with
  | argument :: ((_ :: _) as rest) => (argument =s flag) || has_value rest flag
  | _ => false
  end.

Definition has_flag (arguments : list string) (flag : string) : bool := existsb (fun argument => argument =s flag) arguments.

(** ** [prism-plan-90b] *)

Definition parse_u64_or_default (arguments : list string) (flag : string) (fallback : Z) : Z :=
  if has_value arguments flag
  then default fallback (LlamaBackend.stoul u64_max (list_ascii_of_string (value_after arguments flag "")))
  else fallback.

Definition plan_90b_main (arguments : list string) : list ascii * Probe.ExitCode :=
  let plan := make_90b_simulated_plan (parse_u64_or_default arguments "--hard-cap-bytes" 17179869184) in
  let result := validate_hybrid_plan plan in
  (print_line [("claim_label", text "simulated"); ("deployable", boolean false); ("model_id", text (hp_model_id plan));
               ("validation_cell_id", text (hp_validation_cell_id plan));
               ("hard_vram_cap_bytes", number (hp_hard_vram_cap_bytes plan));
               ("resident_gpu_total_bytes", number (hr_resident_gpu_total_bytes result));
               ("ok", boolean (hr_ok result)); ("failure_reason", text (hr_failure_reason result))] ++ [newline],
   if hr_ok result then Probe.ExitOk else Probe.ExitFailedClosed).

(** ** [prism-validate-claim] *)

Definition claim_of_arguments (arguments : list string) : ClaimEvidence :=
  mkClaim (value_after arguments "--claim-label" "") (value_after arguments "--validation-cell-id" "")
    (value_after arguments "--model-hash" "") (value_after arguments "--quantization-format" "")
    (value_after arguments "--quant-artifact-sha256" "") (has_flag arguments "--simulated-evidence")
    (has_flag arguments "--measured-evidence") (has_flag arguments "--cap-passed") (has_flag arguments "--quality-passed")
    (has_flag arguments "--profitability-passed") (has_flag arguments "--usability-passed")
    (has_flag arguments "--repeatability-passed") (has_flag arguments "--runbook-present").

Definition validate_claim_main (arguments : list string) : list ascii * Probe.ExitCode :=
  let decision := validate_claim_evidence (claim_of_arguments arguments) in
  (print_line [("accepted", boolean (de_accepted decision)); ("status", text (de_status decision));
               ("reason", text (de_reason decision))] ++ [newline],
   if de_accepted decision then Probe.ExitOk else Probe.ExitFailedClosed).

(** ** [prism-quality] *)

(** The exponent that follows a number, if there is one. *)
Definition exponent_after (marker : ascii -> bool) (l : list ascii) : Z :=
  match l with
  | c :: l =>
      if marker c then
        let (negative, l) := Doubles.sign l in
        let digits := (span is_digit l).1 in if negative then - decimal digits else decimal digits
      else 0
  | [] => 0
  end.

(** The digits before and after the point and what follows. *)
Definition mantissa (digit : ascii -> bool) (l : list ascii) : list ascii * list ascii * list ascii :=
  let (whole, l) := span digit l in
  match l with
  | c :: rest => if Ascii.eqb c "." then let (fraction, rest) := span digit rest in (whole, fraction, rest) else (whole, [], l)
  | [] => (whole, [], [])
  end.

Definition lower (c : ascii) : ascii :=
  if (65 <=? char_code c) && (char_code c <=? 90) then ascii_of_N (Z.to_N (char_code c + 32)) else c.

Definition starts_with (word : string) (l : list ascii) : bool :=
  bool_decide (map lower (take (String.length word) l) = list_ascii_of_string word).

Definition is_hex_digit (c : ascii) : bool :=
  is_digit c || ((97 <=? char_code (lower c)) && (char_code (lower c) <=? 102)).

Definition hex_value (digits : list ascii) : Z :=
  fold_left (fun n c => 16 * n + (if is_digit c then char_code c - 48 else char_code (lower c) - 87)) digits 0.

(** [m * 2^e], rounded. *)
Definition of_binary (negative : bool) (m e : Z) : spec_float :=
  match m with
  | Z.pos p =>
      if 2000 <? Z.log2 m + e then S754_infinity negative
      else if Z.log2 m + e <? -2000 then S754_zero negative
      else binary_round 53 1024 negative p e
  | _ => S754_zero negative
  end.

Definition is_tiny (value : spec_float) : bool :=
  match value with
  | S754_zero _ => true
  | S754_finite _ m _ => Z.pos m <? 4503599627370496
  | _ => false
  end.

(** A number too large is an exception; whether one below the normal numbers is
    is left to the implementation. *)
Definition in_range (underflow : bool) (digits : list ascii) (value : spec_float) : option spec_float :=
  let nonzero := negb (forallb (fun c => Ascii.eqb c "0") digits) in
  match value with
  | S754_infinity _ => None
  | _ => if underflow && nonzero && is_tiny value then None else Some value
  end.

(** [std::stod]: the longest number the text starts with; [None] is an
    exception. *)
Definition stod (underflow : bool) (l : list ascii) : option spec_float :=
  let (negative, l) := Doubles.sign (skip_space l) in
  if starts_with "inf" l then Some (S754_infinity negative)
  else if starts_with "nan" l then Some S754_nan
  else
    let hex := if starts_with "0x" l then mantissa is_hex_digit (drop 2 l) else ([], [], []) in
    match hex.1.1 ++ hex.1.2 with
    | [] =>
        let '(whole, fraction, rest) := mantissa is_digit l in
        match whole ++ fraction with
        | [] => None
        | digits =>
            let significant := (span (fun c => Ascii.eqb c "0") digits).2 in
            in_range underflow digits
              (Doubles.of_decimal negative (decimal significant) (Z.of_nat (List.length significant))
                 (exponent_after (fun c => Ascii.eqb (lower c) "e") rest - Z.of_nat (List.length fraction)))
        end
    | digits =>
        in_range underflow digits
          (of_binary negative (hex_value digits)
             (exponent_after (fun c => Ascii.eqb (lower c) "p") hex.2 - 4 * Z.of_nat (List.length hex.1.2)))
    end.

Definition flag_bool (arguments : list string) (flag : string) (fallback : bool) : bool :=
  value_after arguments flag (bool_text fallback) =s "true".

Definition flag_double (underflow : bool) (arguments : list string) (flag : string) (fallback : spec_float) : spec_float :=
  let value := value_after arguments flag "" in
  if str_empty value then fallback else default fallback (stod underflow (list_ascii_of_string value)).

Definition quality_usage : string :=
  "Usage: prism-quality --quality-gate none|smoke|retrieval|long-context " +:+
  "[--baseline-score N] [--observed-score N] " +:+
  "[--max-delta N] [--retrieval-passed true|false] " +:+
  "[--deterministic-match true|false]" +:+ String newline EmptyString.

Definition quality_of_arguments (underflow : bool) (arguments : list string) : QualityGateInput :=
  mkQualityInput (value_after arguments "--quality-gate" "none")
    (flag_double underflow arguments "--baseline-score" Doubles.one)
    (flag_double underflow arguments "--observed-score" Doubles.one)
    (flag_double underflow arguments "--max-delta" Doubles.zero)
    (flag_bool arguments "--deterministic-match" true) (flag_bool arguments "--retrieval-passed" true).

Definition quality_main (underflow : bool) (arguments : list string) : list ascii * Probe.ExitCode :=
  if match arguments with [] => true | _ => value_after arguments "--help" "" =s "true" end
  then (list_ascii_of_string quality_usage, Probe.ExitOk)
  else
    let result := evaluate_quality_gate (quality_of_arguments underflow arguments) in
    (print_line [("status", text (qr_status result)); ("passed", boolean (qr_passed result));
                 ("failure_reason", text (qr_failure_reason result));
                 ("observed_delta", ManifestWriter.real (qr_observed_delta result))] ++ [newline],
     if qr_passed result then Probe.ExitOk else Probe.ExitFailedClosed).

(** ** [prism-compare-benchmark] *)

Definition write_result (same_cell : bool) (reasons : string) : list ascii :=
  print_line [("same_cell", boolean same_cell); ("mismatch_reasons", text reasons)] ++ [newline].

(** [None] is an exception that nobody catches.  [unsigned long] has 32 bits on
    Windows. *)
Definition u32_after (windows : bool) (arguments : list string) (flag : string) : option Z :=
  let value := value_after arguments flag "" in
  if str_empty value then Some 0
  else wrap32 <$> LlamaBackend.stoul (if windows then u32_max else u64_max) (list_ascii_of_string value).

Definition u64_after (arguments : list string) (flag : string) : option Z :=
  let value := value_after arguments flag "" in
  if str_empty value then Some 0 else LlamaBackend.stoul u64_max (list_ascii_of_string value).

Definition cell_from_args (windows : bool) (arguments : list string) (prefix : string) : option BenchmarkCell :=
  let value name := value_after arguments (prefix +:+ name) "" in
  let u32 name := u32_after windows arguments (prefix +:+ name) in
  context_tokens ← u64_after arguments (prefix +:+ "-context-tokens");
  batch_size ← u32 "-batch-size";
  cuda_driver_version ← u32 "-cuda-driver-version";
  cuda_runtime_version ← u32 "-cuda-runtime-version";
  vram_tier_gib ← u32 "-vram-tier-gib";
  hard_cap_bytes ← u64_after arguments (prefix +:+ "-hard-cap-bytes");
  Some {|
    bc_model_hash := value "-model-hash";
    bc_quantization_format := value "-quantization-format";
    bc_quant_artifact_sha256 := value "-quant-artifact-sha256";
    bc_context_tokens := context_tokens;
    bc_batch_size := batch_size;
    bc_prompt_fixture_hash := value "-prompt-fixture-hash";
    bc_backend := value "-backend";
    bc_os := value "-os";
    bc_gpu_name := value "-gpu-name";
    bc_driver_mode := value "-driver-mode";
    bc_cuda_driver_version := cuda_driver_version;
    bc_cuda_runtime_version := cuda_runtime_version;
    bc_vram_tier_gib := vram_tier_gib;
    bc_hard_cap_bytes := hard_cap_bytes;
    bc_op_type := value "-op-type";
    bc_sequence_phase := value "-sequence-phase";
    bc_kernel_backend := value "-kernel-backend";
    bc_kernel_name := value "-kernel-name";
    bc_kernel_version := value "-kernel-version" |}.

(** [file] is what the reader sees of a path. *)
Definition compare_benchmark_main (windows : bool) (file : string -> ManifestFile) (arguments : list string) :
    option (list ascii * Probe.ExitCode) :=
  let baseline_flag := has_flag arguments "--baseline-manifest" in
  let candidate_flag := has_flag arguments "--candidate-manifest" in
  let report (c : BenchmarkComparison) :=
    (write_result (bco_same_cell c) (format_mismatch_reasons (bco_mismatch_reasons c)),
     if bco_same_cell c then Probe.ExitOk else Probe.ExitFailedClosed) in
  if baseline_flag || candidate_flag then
    if negb baseline_flag || negb candidate_flag
    then Some (write_result false "manifest_pair_required", Probe.ExitFailedClosed)
    else
      let read flag := read_kernel_benchmark_manifest (file (value_after arguments flag "")) in
      match compare_manifests (read "--baseline-manifest") (read "--candidate-manifest") with
      | inl reason => Some (write_result false reason, Probe.ExitFailedClosed)
      | inr comparison => Some (report comparison)
      end
  else
    baseline ← cell_from_args windows arguments "--baseline";
    candidate ← cell_from_args windows arguments "--candidate";
    Some (report (compare_benchmark_cells baseline candidate)).

(** ** [prism-emit-benchmark] *)

(** What the file holds that a path names, the answers of the system about the
    output directory, the hash of the evidence file within a limit, and for both
    publications what the file system refuses and other processes do.
    [ee_present] is what the reader sees of a path of the file system. *)
Record EmitEnv := mkEmitEnv {
  ee_input : ManifestFile;
  ee_query : TrustedQuery;
  ee_evidence : Z -> Sha256.HashResult;
  ee_target : Path;
  ee_sidecar_environment : Environment;
  ee_sidecar_interfere : Fs -> Fs;
  ee_environment : Environment;
  ee_interfere : Fs -> Fs;
  ee_present : Fs -> Path -> ManifestFile;
}.

Definition kMaximumEvidenceBytes : Z := 64 * 1024 * 1024.

Definition kMaximumManifestBytes : Z := 64 * 1024.

Definition filename (path : Path) : string := default "" (last path).

(** [argv[2] + ".sha256"]. *)
Definition sidecar_path (path : Path) : Path := parent_path path ++ [filename path +:+ ".sha256"].

Definition sidecar_contents (path : Path) (digest : string) : string :=
  digest +:+ "  " +:+ filename path +:+ String newline EmptyString.

Definition required_flag (m : KernelBenchmarkManifest) : string := if completed m then "--raw-trials" else "--failure-record".

Definition evidence_hash (m : KernelBenchmarkManifest) : string :=
  if completed m then km_raw_trial_sha256 m else km_failure_record_sha256 m.

Definition checkpoint_state_ok (m : KernelBenchmarkManifest) : bool :=
  let status := if completed m then "research-only" else "rejected" in
  (km_claim_status m =s status) && (km_cap_certification_status m =s status).

Definition arguments_ok (arguments : list string) (m : KernelBenchmarkManifest) : bool :=
  match arguments with
  | [_; _; output_root; _; evidence_root; _; flag; _] =>
      (output_root =s "--output-root") && (evidence_root =s "--evidence-root") && (flag =s required_flag m) &&
      negb (str_empty (evidence_hash m))
  | _ => false
  end.

(** Everything before the first file is written: the manifest and the digest of
    its text. *)
Definition check_input (e : EmitEnv) (arguments : list string) : string + (KernelBenchmarkManifest * string) :=
  _ ← refuse_if (negb (Nat.eqb (List.length arguments) 8)) "usage";
  match read_kernel_benchmark_manifest (ee_input e) with
  | inl error => inl ("input_manifest_rejected:" +:+ error)
  | inr m =>
      _ ← refuse_if (negb (arguments_ok arguments m)) "evidence_argument_rejected";
      match is_direct_child_of_trusted_directory (ee_query e) with
      | inl error => inl ("output_root_rejected:" +:+ error)
      | inr _ =>
          _ ← refuse_if (negb (checkpoint_state_ok m)) "checkpoint_promotion_rejected";
          match ee_evidence e kMaximumEvidenceBytes with
          | Sha256.HashFailed error => inl ("evidence_hash_failed:" +:+ default "" error)
          | Sha256.Digest actual =>
              _ ← refuse_if (actual <>s evidence_hash m) "evidence_hash_mismatch";
              let canonical := serialize m in
              if kMaximumManifestBytes <? Z.of_nat (List.length canonical) then inl "output_manifest_hash_failed"
              else match Sha256.sha256_text (string_of_list_ascii canonical) with
                   | None => inl "output_manifest_hash_failed"
                   | Some digest => inr (m, digest)
                   end
          end
      end
  end.

Definition manifest_validator (present : Fs -> Path -> ManifestFile) : AtomicFileValidator := fun fs candidate =>
  match read_kernel_benchmark_manifest (present fs candidate) with
  | inl error => inl ("manifest_output_invalid:" +:+ error)
  | inr _ => inr tt
  end.

Definition write_kernel_benchmark_manifest (en : Environment) (interfere : Fs -> Fs) (present : Fs -> Path -> ManifestFile)
    (path : Path) (m : KernelBenchmarkManifest) (fs : Fs) : (string + unit) * Fs :=
  write_new_or_same_text_file_atomically en interfere (Some (manifest_validator present)) path
    (string_of_list_ascii (serialize m)) kMaximumManifestBytes fs.

Definition write_sidecar (e : EmitEnv) (digest : string) (fs : Fs) : (string + unit) * Fs :=
  write_new_or_same_text_file_atomically (ee_sidecar_environment e) (ee_sidecar_interfere e) None
    (sidecar_path (ee_target e)) (sidecar_contents (ee_target e) digest) kMaximumManifestBytes fs.

(** The digest first, then the manifest. *)
Definition emit_benchmark (e : EmitEnv) (arguments : list string) (fs : Fs) :
    (string + (KernelBenchmarkManifest * string)) * Fs :=
  match check_input e arguments with
  | inl error => (inl error, fs)
  | inr (m, digest) =>
      match write_sidecar e digest fs with
      | (inl error, fs) => (inl ("output_manifest_hash_write_failed:" +:+ error), fs)
      | (inr _, fs) =>
          match write_kernel_benchmark_manifest (ee_environment e) (ee_interfere e) (ee_present e) (ee_target e) m fs with
          | (inl error, fs) => (inl ("output_manifest_rejected:" +:+ error), fs)
          | (inr _, fs) => (inr (m, digest), fs)
          end
      end
  end.

(** A text of the line that is printed, which is not escaped. *)
Definition raw_string (value : string) : list ascii := quote :: list_ascii_of_string value ++ [quote].

Definition emit_benchmark_main (e : EmitEnv) (arguments : list string) (fs : Fs) : list ascii * Probe.ExitCode * Fs :=
  match emit_benchmark e arguments fs with
  | (inl _, fs) => ([], Probe.ExitFailedClosed, fs)
  | (inr (m, digest), fs) =>
      ("{"%char :: raw_string "status" ++ ":"%char :: raw_string (km_run_outcome m) ++ ","%char ::
       raw_string "claim_status" ++ ":"%char :: raw_string (km_claim_status m) ++ ","%char ::
       raw_string "manifest_sha256" ++ ":"%char :: raw_string digest ++ ["}"%char; newline],
       if completed m then Probe.ExitOk else Probe.ExitFailedClosed, fs)
  end.

(** ** What an emitted manifest stands for *)

Lemma check_input_inr e arguments m digest :
  check_input e arguments = inr (m, digest) ->
  read_kernel_benchmark_manifest (ee_input e) = inr m /\ evidence_hash m <> "" /\
  ee_evidence e kMaximumEvidenceBytes = Sha256.Digest (evidence_hash m) /\ checkpoint_state_ok m = true /\
  Sha256.sha256_text (string_of_list_ascii (serialize m)) = Some digest.
Proof.
  unfold check_input. intros H. apply error_bind_inr in H as (_ & _ & H).
  destruct (read_kernel_benchmark_manifest _) as [|m0] eqn:Er; [done|].
  apply error_bind_inr in H as (_ & Ha%refuse_if_inr & H). destruct (is_direct_child_of_trusted_directory _); [done|].
  apply error_bind_inr in H as (_ & Hc%refuse_if_inr & H). destruct (ee_evidence e _) as [actual|] eqn:Ee; [|done].
  apply error_bind_inr in H as (_ & Hh%refuse_if_inr & H). cbv zeta in H. destruct (_ <? _); [done|].
  destruct (Sha256.sha256_text _) eqn:Es; [|done]. injection H as -> ->.
  apply negb_false_iff, String.eqb_eq in Hh as ->. apply negb_false_iff in Hc, Ha. repeat split; try done.
  intros E. unfold arguments_ok in Ha. rewrite E in Ha. repeat case_match; try done. by rewrite andb_comm in Ha.
Qed.

Lemma not_below path t : filename path <> t -> below (parent_path path ++ [t]) path = false.
Proof.
  intros H. unfold below. apply bool_decide_eq_false. intros E. destruct path as [|y x _] using rev_ind; [done|].
  unfold parent_path, filename in *. rewrite removelast_last, last_snoc in *. cbn in H.
  rewrite take_ge in E by (rewrite !length_app; cbn; lia). apply app_inj_tail in E as [_ E]. done.
Qed.

Lemma not_temporary path t : filename path <> t -> path <> parent_path path ++ [t].
Proof. intros H E. apply H. rewrite E. unfold filename. by rewrite last_snoc. Qed.

Lemma parent_of_sidecar path : parent_path (sidecar_path path) = parent_path path.
Proof. apply removelast_last. Qed.

Lemma sidecar_is_other path : path <> sidecar_path path.
Proof.
  intros E. assert (H : filename path = filename (sidecar_path path)) by congruence.
  unfold filename at 2, sidecar_path in H. rewrite last_snoc in H. cbn in H.
  generalize dependent (filename path). intros name H. clear E. induction name as [|a name IH]; [done|].
  injection H as H. by apply IH.
Qed.

Section Emission.
  Context (e : EmitEnv) (arguments : list string) (fs : Fs).

  Local Abbreviation target := (ee_target e) (only parsing).
  Local Abbreviation sidecar := (sidecar_path (ee_target e)) (only parsing).

  (** Other processes do not write to files created during a publication. *)
  Hypothesis sidecar_private : forall g i c,
    i ∉ dom (fs_data fs) -> fs_data g !! i = Some c -> fs_data (ee_sidecar_interfere e g) !! i = Some c.
  Hypothesis manifest_private : forall digest g i c,
    i ∉ dom (fs_data (write_sidecar e digest fs).2) -> fs_data g !! i = Some c ->
    fs_data (ee_interfere e g) !! i = Some c.
  (** Neither file has the name of a temporary directory. *)
  Hypothesis no_collision : forall nonce other,
    NonceIs nonce other ∈ en_attempts (ee_sidecar_environment e) ++ en_attempts (ee_environment e) ->
    filename target <> temporary_name nonce /\ filename sidecar <> temporary_name nonce.

(** The target is what it was, or what other processes made of it. *)
Definition left_alone (fs' : Fs) : Prop :=
  fs_nodes fs' !! target = fs_nodes fs !! target \/
  (exists g, fs_nodes fs' !! target = fs_nodes (ee_sidecar_interfere e g) !! target) \/
  (exists g, fs_nodes fs' !! target = fs_nodes (ee_interfere e g) !! target).

Lemma sidecar_written digest :
  safe_publication (ee_sidecar_environment e) (ee_sidecar_interfere e) None sidecar
    (sidecar_contents target digest) fs (write_sidecar e digest fs).1 (write_sidecar e digest fs).2 /\
  left_alone (write_sidecar e digest fs).2.
Proof.
  assert (Hs : safe_publication (ee_sidecar_environment e) (ee_sidecar_interfere e) None sidecar
    (sidecar_contents target digest) fs (write_sidecar e digest fs).1 (write_sidecar e digest fs).2).
  { apply write_safe; [exact sidecar_private|]. intros nonce other Hin. apply not_temporary, (no_collision nonce other).
    apply elem_of_app. by left. }
  split; [done|]. destruct Hs as (g & Hg & Hother & _). unfold left_alone. rewrite Hother.
  - destruct Hg as [->|[g' ->]]; [by left|]. right. left. by exists g'.
  - apply sidecar_is_other.
  - intros nonce other Hin. rewrite parent_of_sidecar. apply not_below, (no_collision nonce other).
    apply elem_of_app. by left.
Qed.

Lemma manifest_written digest m :
  let fs1 := (write_sidecar e digest fs).2 in
  let r := write_kernel_benchmark_manifest (ee_environment e) (ee_interfere e) (ee_present e) target m fs1 in
  safe_publication (ee_environment e) (ee_interfere e) (Some (manifest_validator (ee_present e))) target
    (string_of_list_ascii (serialize m)) fs1 r.1 r.2.
Proof.
  cbv zeta. apply write_safe; [intros g i c; apply manifest_private|]. intros nonce other Hin.
  apply not_temporary, (no_collision nonce other), elem_of_app. by right.
Qed.

(** A manifest is emitted only when it was read and accepted, the evidence file
    hashes to what it records, and it claims no more than research (a failed
    run: nothing).  Then the digest of the text was published first and no step
    of the tool touched it since, and the target holds the text, which reads
    back as the manifest.  In every other run the target is what other processes
    left. *)
Theorem emitted_manifest_is_verified :
  match emit_benchmark e arguments fs with
  | (inl _, fs') => left_alone fs'
  | (inr (m, digest), fs') =>
      let published := serialize m in
      read_kernel_benchmark_manifest (ee_input e) = inr m /\ evidence_hash m <> "" /\
      ee_evidence e kMaximumEvidenceBytes = Sha256.Digest (evidence_hash m) /\ checkpoint_state_ok m = true /\
      Sha256.sha256_text (string_of_list_ascii published) = Some digest /\
      parse_flat_json_object published = mkResult true (km_fields m) "" /\ read_manifest_fields (km_fields m) = inr m /\
      (exists fs1 g, has_contents (sidecar_contents target digest) fs1 sidecar /\
         left_by_others (ee_interfere e) fs1 g /\ fs_nodes fs' !! sidecar = fs_nodes g !! sidecar) /\
      has_contents (string_of_list_ascii published) fs' target
  end.
Proof.
  unfold emit_benchmark. destruct (check_input e arguments) as [error|[m digest]] eqn:Hc; [by left|].
  apply check_input_inr in Hc as (Hr & Hne & He & Hs & Hd).
  destruct (sidecar_written digest) as [Hside Halone]. pose proof (manifest_written digest m) as Hm. cbv zeta in Hm.
  destruct (write_sidecar e digest fs) as [[error|[]] fs1]; cbn [fst snd] in *; [done|].
  destruct (write_kernel_benchmark_manifest _ _ _ _ m fs1) as [[error|[]] fs2]; cbn [fst snd] in *;
    destruct Hm as (g & Hg & Hother & _ & _ & Hm).
  - destruct Hg as [->|[g' ->]]; unfold left_alone in *; rewrite Hm; [done|]. right. right. by exists g'.
  - destruct Hside as (_ & _ & _ & _ & _ & Hside & _). apply read_manifest_inv in Hr as Hinv. destruct Hinv as (_ & Hwf & Hread).
    do 5 (split; [done|]).
    split; [rewrite (serialize_read _ _ Hr); by apply parse_serialized|]. split; [done|]. split; [|apply Hm].
    exists fs1, g. split; [done|]. split; [done|]. apply Hother; [apply not_eq_sym, sidecar_is_other|].
    intros nonce other Hin. rewrite <- parent_of_sidecar. apply not_below, (no_collision nonce other), elem_of_app. by right.
Qed.

End Emission.

(** ** Runs *)

(** The sample manifest, without the promotion. *)
Definition research_text : list ascii :=
  serialize_fields (<["claim_status" := mkValue "research-only" StringKind]>
    (<["cap_certification_status" := mkValue "research-only" StringKind]> (km_fields sample_manifest))).

Definition research_file : ManifestFile :=
  let stat := mkPosixStat true 1 2 (Z.of_nat (List.length research_text)) 3 4 in
  OnPosix (mkPosixManifest true (Some stat) [ReadBytes research_text] (Some stat)).

Definition sample_emit (input : ManifestFile) : EmitEnv :=
  mkEmitEnv input (mkTrustedQuery false true (Some []) (Some [])) (fun _ => Sha256.Digest (km_raw_trial_sha256 sample_manifest))
    sample_target quiet_environment other_process quiet_environment other_process C2Receipt.posix_present.

Definition sample_arguments : list string :=
  ["in.json"; "manifest.json"; "--output-root"; "."; "--evidence-root"; "."; "--raw-trials"; "raw.json"].

Definition emitted (input : ManifestFile) := emit_benchmark (sample_emit input) sample_arguments working_directory.

(** A promoted manifest is not emitted. *)
Example promoted_manifest_refused : (emitted sample_file).1 = inl "checkpoint_promotion_rejected".
Proof. vm_compute. reflexivity. Qed.

(** The same manifest as research is, next to its digest. *)
Example research_manifest_emitted :
  match emitted research_file with
  | (inr (m, digest), fs) =>
      km_claim_status m = "research-only" /\ is_Some (fs_nodes fs !! sample_target) /\
      fs_nodes fs !! sidecar_path sample_target = Some (FileNode 0) /\
      fs_data fs !! 0%nat = Some (sidecar_contents sample_target digest)
  | _ => False
  end.
Proof. vm_compute. repeat split; eauto. Qed.

(** The hypotheses of the theorem hold of that run. *)
Lemma emitted_manifest_is_verified_witness :
  match emitted research_file with
  | (inr (m, digest), fs) =>
      has_contents (string_of_list_ascii (serialize m)) fs sample_target
  | _ => True
  end.
Proof.
  pose proof (emitted_manifest_is_verified (sample_emit research_file) sample_arguments working_directory) as H.
  unfold emitted. destruct (emit_benchmark _ _ _) as [[|[m digest]] fs']; [exact I|].
  apply H; [done|done|]. intros nonce other Hin. cbn in Hin.
  repeat (apply elem_of_cons in Hin as [[= -> ->]|Hin]; [split; vm_compute; discriminate|]). by apply elem_of_nil in Hin.
Defined.

(** Numbers that [std::stod] reads, and texts it refuses. *)
Example stod_samples :
  stod true (list_ascii_of_string " 1e") = Some Doubles.one /\
  stod true (list_ascii_of_string "0x1.8p1z") = stod true (list_ascii_of_string "3") /\
  stod true (list_ascii_of_string "0x") = Some Doubles.zero /\
  stod true (list_ascii_of_string "-Infinity") = Some (S754_infinity true) /\
  stod true (list_ascii_of_string "1e309") = None /\ stod true (list_ascii_of_string "1e-400") = None /\
  stod false (list_ascii_of_string "1e-400") = Some Doubles.zero /\ stod true (list_ascii_of_string ".e1") = None.
Proof. vm_compute. repeat split. Qed.

(** A score that is not a number passes, and so does one that cannot be read,
    which counts as the best. *)
Example unreadable_score_passes underflow :
  (quality_main underflow ["--quality-gate"; "smoke"; "--observed-score"; "nan"]).2 = Probe.ExitOk /\
  (quality_main underflow ["--quality-gate"; "smoke"; "--observed-score"; "lost"]).2 = Probe.ExitOk /\
  (quality_main underflow ["--quality-gate"; "smoke"; "--observed-score"; "0.5"]).2 = Probe.ExitFailedClosed.
Proof. destruct underflow; vm_compute; repeat split. Qed.

(** A number that is not one ends the comparison with an exception. *)
Example bad_number_not_caught :
  compare_benchmark_main true (fun _ => sample_file) ["--baseline-batch-size"; "many"] = None.
Proof. vm_compute. reflexivity. Qed.

(** The flag is the last argument: the fallback. *)
Example plan_for_the_default_cap : plan_90b_main ["--hard-cap-bytes"] = plan_90b_main [].
Proof. vm_compute. reflexivity. Qed.

End Tools.
