(* ===== verification/WorkerFiles.v ===== *)
(** * Hashes, environment and output file of a worker

    The helpers of [runtime/native_worker.cpp] whose answers [NativeLaunch] and
    [NativeRun] take as given: the hash of an open executable, the environment
    block the worker starts with, the nonce of the protocol, and the file that
    receives the worker's output until it is published or removed.

    The Windows hash provider is an interface with its documented law; the
    theorems show that the hash of a file is its SHA-256 however the reads cut
    it, that a worker gets the listed variables and no other, and that the output
    file replaces nothing and stays only when it was released. *)

From Stdlib Require Import Ascii String.
From stdpp Require Import fin_sets.
From S2P Require Import Prelude Fips180 Sha256.
Import Sha256.

Open Scope list_scope.
Open Scope Z_scope.

Module WorkerFiles.

(** ** Hashing with the provider of the system *)

(** [BCryptCreateHash] (with the calls before it), [BCryptHashData] and
    [BCryptFinishHash]; [None] is an error status. *)
Class HashProvider := {
  Hash : Type;
  create_hash : option Hash;
  hash_data : Hash -> list Z -> option Hash;
  finish_hash : Hash -> option (list Z);
}.

Definition hash_all `{HashProvider} (h : Hash) (chunks : list (list Z)) : option Hash :=
  fold_left (fun h chunk => h ← h; hash_data h chunk) chunks (Some h).

(** [std::hex << std::setfill('0') << std::setw(2)] of every byte. *)
Definition hex_byte (byte : Z) : list ascii := [hex_char (byte / 16); hex_char (byte mod 16)].

Definition hex_bytes (bytes : list Z) : list ascii := List.concat (map hex_byte bytes).

(** The documented behaviour: the digest of the data in the order given. *)
Class Sha256Law `(HashProvider) : Prop :=
  provider_is_sha256 : forall h0 chunks h digest,
    Forall byte (List.concat chunks) ->
    create_hash = Some h0 -> hash_all h0 chunks = Some h -> finish_hash h = Some digest ->
    string_of_list_ascii (hex_bytes digest) = Fips180.sha256 (List.concat chunks).

Section Hashing.
  Context `{P : HashProvider}.

(** The loop of [hash_open_file]; the list ends where the system would deliver
    nothing more. *)
Fixpoint hash_reads (h : Hash) (reads : list ReadOutcome) : option Hash :=
  match reads with
  | [] => Some h
  | ReadFailed :: _ => None
  | ReadBytes bytes :: reads =>
      if Nat.eqb (length bytes) 0 then Some h else h ← hash_data h bytes; hash_reads h reads
  end.

(** [opened]: the handle is usable; [rewound], [restored]: the answers of the
    calls that set the file pointer. *)
Definition hash_open_file (opened rewound restored : bool) (reads : list ReadOutcome) : option string :=
  if negb opened || negb rewound then None
  else
    h ← create_hash;
    h ← hash_reads h reads;
    bytes ← finish_hash h;
    if negb restored then None else Some (string_of_list_ascii (hex_bytes bytes)).

(** What a stream delivers; [fs_eof] is whether it ended at the end of the
    file. *)
Record FileStream := mkFileStream {
  fs_opened : bool;
  fs_reads : list (list Z);
  fs_eof : bool;
}.

(** The loop of [sha256_regular_file]: reads of 64 KiB, the last of which is
    short. *)
Fixpoint hash_stream (h : Hash) (reads : list (list Z)) : option Hash :=
  match reads with
  | [] => Some h
  | bytes :: reads =>
      h ← (if Nat.eqb (length bytes) 0 then Some h else hash_data h bytes);
      if Z.of_nat (length bytes) <? 65536 then Some h else hash_stream h reads
  end.

(** The empty text is every failure.  [attributes] are those of the path,
    [None] when there is none. *)
Definition sha256_regular_file (windows : bool) (attributes : option Z) (stream : FileStream) : string :=
  if negb windows then ""%string
  else match attributes with
  | None => ""%string
  | Some attributes =>
      if negb (Z.land attributes (Z.lor 16 1024) =? 0) then ""%string
      else if negb (fs_opened stream) then ""%string
      else default ""%string (
        h ← create_hash;
        h ← hash_stream h (fs_reads stream);
        if negb (fs_eof stream) then None
        else (fun bytes => string_of_list_ascii (hex_bytes bytes)) <$> finish_hash h)
  end.

End Hashing.

(** ** The environment *)

Fixpoint take_while (p : Z -> bool) (l : list Z) : list Z :=
  match l with
  | c :: l => if p c then c :: take_while p l else []
  | [] => []
  end.

(** A wide string up to its first NUL. *)
Definition c_string (l : list Z) : list Z := take_while (fun c => negb (c =? 0)) l.

Definition wide (text : string) : list Z := map char_code (list_ascii_of_string text).

Definition is_slash (c : Z) : bool := (c =? 92) || (c =? 47).

Definition is_drive (c : Z) : bool := let c := Z.lor c 32 in (97 <=? c) && (c <=? 122).

(** [std::filesystem::path::root_name] on Windows: a drive, a device prefix, or a
    server. *)
Definition is_device (b c : Z) (rest : list Z) : bool :=
  match rest with
  | d :: rest => is_slash d && negb (match rest with e :: _ => is_slash e | [] => false end) &&
                 ((is_slash b && ((c =? 63) || (c =? 46))) || ((b =? 63) && (c =? 63)))
  | [] => false
  end.

Definition root_name (path : list Z) : list Z :=
  match path with
  | a :: b :: rest =>
      if is_drive a && (b =? 58) then [a; b]
      else if negb (is_slash a) then []
      else match rest with
           | c :: rest =>
               if is_device b c rest then [a; b; c]
               else if is_slash b && negb (is_slash c)
                    then a :: b :: c :: take_while (fun x => negb (is_slash x)) rest
                    else []
           | [] => []
           end
  | _ => []
  end.

Definition MAX_PATH : Z := 260.

(** [system_root]: the length that [GetEnvironmentVariableW] returns and its
    buffer.  The empty list is the failure. *)
Definition minimal_environment (system_root : Z * list Z) (protocol_nonce : list ascii) (protocol_output : Z) : list Z :=
  let (length, buffer) := system_root in
  if (length =? 0) || (MAX_PATH <=? length) then []
  else
    let root := c_string buffer in
    wide "SystemRoot=" ++ root ++ [0] ++
    wide "SystemDrive=" ++ root_name root ++ [0] ++
    (match protocol_nonce with
     | [] => []
     | _ => wide "PRISMINFER_PROTOCOL_NONCE=" ++ map char_code protocol_nonce ++ [0] ++
            wide "PRISMINFER_PROTOCOL_OUT_HANDLE=" ++ map char_code (to_string protocol_output) ++ [0]
     end) ++ [0].

(** [None] where [BCryptGenRandom] fails. *)
Definition random_protocol_nonce (random : option (list Z)) : list ascii :=
  match random with Some bytes => hex_bytes bytes | None => [] end.

(** ** The output file *)

(** The files of the temporary directory, and the artifact: its name, whether
    its handle is open, whether closing it deletes the file, and whether it was
    released. *)
Record Artifact := mkArtifact {
  ar_path : string;
  ar_open : bool;
  ar_delete_on_close : bool;
  ar_released : bool;
}.

Definition no_artifact : Artifact := mkArtifact ""%string false false false.

(** One attempt: the random bytes, whether [CreateFileW] is refused for another
    reason than an existing file, whether the deletion is registered, and whether
    [DeleteFileW] works where it is not. *)
Record CreateAttempt := mkAttempt {
  ca_random : option (list Z);
  ca_refused : bool;
  ca_disposition : bool;
  ca_deleted : bool;
}.

Definition log_name (random : list Z) : string :=
  string_of_list_ascii (list_ascii_of_string "prisminfer-" ++ hex_bytes random ++ list_ascii_of_string ".log").

(** The loop over at most 16 attempts. *)
Fixpoint create_attempts (attempts : list CreateAttempt) (files : gset string) : option Artifact * gset string :=
  match attempts with
  | [] => (None, files)
  | a :: attempts =>
      match ca_random a with
      | None => (None, files)
      | Some random =>
          let name := log_name random in
          if decide (name ∈ files) then create_attempts attempts files
          else if ca_refused a then (None, files)
          else if ca_disposition a then (Some (mkArtifact name true true false), {[name]} ∪ files)
          else (None, if ca_deleted a then files else {[name]} ∪ files)
      end
  end.

Definition create_opaque_output_artifact (attempts : list CreateAttempt) (files : gset string) :
    option Artifact * gset string :=
  create_attempts (take 16 attempts) files.

(** Closing the handle. *)
Definition close_handle (a : Artifact) (files : gset string) : Artifact * gset string :=
  (mkArtifact (ar_path a) false (ar_delete_on_close a) (ar_released a),
   if ar_open a && ar_delete_on_close a then files ∖ {[ar_path a]} else files).

(** [kept]: the registered deletion could be taken back. *)
Definition release_for_publication (kept : bool) (a : Artifact) (files : gset string) : bool * Artifact * gset string :=
  if negb (ar_open a) then (false, a, files)
  else if negb kept then (false, a, files)
  else
    let (a, files) := close_handle (mkArtifact (ar_path a) true false (ar_released a)) files in
    (true, mkArtifact (ar_path a) (ar_open a) (ar_delete_on_close a) true, files).

(** The destructor; [removed]: a file that is still there can be removed. *)
Definition destroy_artifact (removed : bool) (a : Artifact) (files : gset string) : gset string :=
  let (a, files) := close_handle a files in
  if negb (ar_released a) && negb (bool_decide (ar_path a = ""%string)) && removed then files ∖ {[ar_path a]} else files.

(** From the creation of the file to the end of the run: [ok] is the result of
    the run and [kept], [removed] the answers of the system.  The result is the
    file a caller may read. *)
Definition output_file (attempts : list CreateAttempt) (ok kept removed : bool) (files : gset string) :
    option string * gset string :=
  match create_opaque_output_artifact attempts files with
  | (None, files) => (None, destroy_artifact removed no_artifact files)
  | (Some a, files) =>
      if ok then
        let '(published, a, files) := release_for_publication kept a files in
        (if published then Some (ar_path a) else None, destroy_artifact removed a files)
      else (None, destroy_artifact removed a files)
  end.

(** ** A hash is the SHA-256 of the file *)

Section Digests.
  Context `{P : HashProvider} `{!Sha256Law P}.

Lemma hash_all_cons h chunk chunks :
  hash_all h (chunk :: chunks) = (h ← hash_data h chunk; hash_all h chunks).
Proof.
  unfold hash_all. cbn. destruct (hash_data h chunk) as [h'|]; [done|]. cbn. by induction chunks.
Qed.

Lemma hash_reads_chunks reads h h' :
  hash_reads h reads = Some h' -> exists chunks, hash_all h chunks = Some h' /\ List.concat chunks = delivered reads.
Proof.
  revert h; induction reads as [|[bytes|] reads IH]; intros h; cbn [hash_reads delivered]; [|destruct (Nat.eqb _ 0)|done].
  - intros [= <-]. by exists [].
  - intros [= <-]. by exists [].
  - destruct (hash_data h bytes) as [h1|] eqn:Hd; [|done]. cbn. intros (chunks & Ha & Hc)%IH.
    exists (bytes :: chunks). rewrite hash_all_cons, Hd. cbn. by rewrite Hc.
Qed.

(** However the system cuts the file into reads. *)
Theorem open_file_hash_is_sha256 opened rewound restored reads digest :
  Forall byte (delivered reads) ->
  hash_open_file opened rewound restored reads = Some digest -> digest = Fips180.sha256 (delivered reads).
Proof.
  intros Hb. unfold hash_open_file. destruct (_ || _); [done|]. destruct create_hash as [h0|] eqn:Hc; [|done]. cbn.
  destruct (hash_reads h0 reads) as [h|] eqn:Hr; [|done]. cbn. destruct (finish_hash h) as [bytes|] eqn:Hf; [|done]. cbn.
  destruct restored; [|done]. intros [= <-]. apply hash_reads_chunks in Hr as (chunks & Ha & E). rewrite <- E in Hb |- *.
  by apply (provider_is_sha256 h0 chunks h).
Qed.

(** The bytes up to the first short read. *)
Fixpoint streamed (reads : list (list Z)) : list Z :=
  match reads with
  | [] => []
  | bytes :: reads => bytes ++ if Z.of_nat (length bytes) <? 65536 then [] else streamed reads
  end.

Lemma hash_stream_chunks reads h h' :
  hash_stream h reads = Some h' -> exists chunks, hash_all h chunks = Some h' /\ List.concat chunks = streamed reads.
Proof.
  revert h; induction reads as [|bytes reads IH]; intros h; cbn [hash_stream streamed]; [intros [= <-]; by exists []|].
  destruct (Nat.eqb_spec (length bytes) 0) as [E|E].
  - apply nil_length_inv in E as ->. cbn. intros [= <-]. by exists [].
  - destruct (hash_data h bytes) as [h1|] eqn:Hd; [|done]. cbn [mbind option_bind]. destruct (_ <? _).
    + intros [= <-]. exists [bytes]. rewrite hash_all_cons, Hd. by cbn.
    + intros (chunks & Ha & Hc)%IH. exists (bytes :: chunks). rewrite hash_all_cons, Hd. cbn. by rewrite Hc.
Qed.

(** Only for a plain file, read to its end. *)
Theorem regular_file_hash_is_sha256 windows attributes stream :
  Forall byte (streamed (fs_reads stream)) ->
  sha256_regular_file windows attributes stream <> ""%string ->
  (exists a, attributes = Some a /\ Z.testbit a 4 = false /\ Z.testbit a 10 = false) /\
  fs_eof stream = true /\ sha256_regular_file windows attributes stream = Fips180.sha256 (streamed (fs_reads stream)).
Proof.
  intros Hb. unfold sha256_regular_file. destruct windows; [|done]. cbn [negb]. destruct attributes as [a|]; [|done].
  destruct (Z.eqb_spec (Z.land a (Z.lor 16 1024)) 0) as [Ha|]; [|done]. cbn [negb]. destruct (fs_opened stream); [|done].
  destruct create_hash as [h0|] eqn:Hc; [|done]. cbn. destruct (hash_stream h0 _) as [h|] eqn:Hr; [|done]. cbn.
  destruct (fs_eof stream); [|done]. cbn. destruct (finish_hash h) as [bytes|] eqn:Hf; [|done]. cbn. intros _.
  split; [|split; [done|]].
  - assert (Hbit : forall i, Z.testbit (Z.lor 16 1024) i = true -> Z.testbit a i = false).
    { intros i Hi. apply (f_equal (fun z => Z.testbit z i)) in Ha. by rewrite Z.land_spec, Hi, Z.testbit_0_l, andb_true_r in Ha. }
    exists a. split; [done|]. split; [exact (Hbit 4 eq_refl)|exact (Hbit 10 eq_refl)].
  - apply hash_stream_chunks in Hr as (chunks & Hch & E). rewrite <- E in Hb |- *. by apply (provider_is_sha256 h0 chunks h).
Qed.

End Digests.

(** ** The worker gets these variables and no other *)

(** How the system reads a block: strings up to the empty one. *)
Fixpoint read_block (block current : list Z) : list (list Z) :=
  match block with
  | [] => []
  | c :: block =>
      if c =? 0 then match current with [] => [] | _ => current :: read_block block [] end
      else read_block block (current ++ [c])
  end.

Definition no_nul (l : list Z) : Prop := Forall (fun c => c <> 0) l.

Lemma read_string l rest current :
  no_nul l -> current ++ l <> [] -> read_block (l ++ 0 :: rest) current = (current ++ l) :: read_block rest [].
Proof.
  intros H; revert current; induction H as [|c l Hc Hl IH]; intros current Hne; cbn.
  - rewrite app_nil_r in *. by destruct current.
  - destruct (Z.eqb_spec c 0); [done|]. rewrite IH; [by rewrite <- app_assoc|]. rewrite <- app_assoc. done.
Qed.

Lemma take_while_forall p l : Forall (fun c => p c = true) (take_while p l).
Proof. induction l as [|c l IH]; cbn; [done|]. destruct (p c) eqn:E; by constructor. Qed.

Lemma take_while_subset p l (Q : Z -> Prop) : Forall Q l -> Forall Q (take_while p l).
Proof. induction 1 as [|c l Hc Hl IH]; cbn; [done|]. destruct (p c); by constructor. Qed.

Lemma c_string_no_nul l : no_nul (c_string l).
Proof. eapply Forall_impl; [apply take_while_forall|]. cbn. by intros c Hc%negb_true_iff%Z.eqb_neq. Qed.

(** The root name consists of characters of the path. *)
Lemma root_name_no_nul l : no_nul l -> no_nul (root_name l).
Proof.
  unfold no_nul, root_name. destruct l as [|a [|b rest]]; [done|done|].
  rewrite !Forall_cons. intros (Ha & Hb & H). destruct (_ && _); [by repeat constructor|]. destruct (negb _); [done|].
  destruct rest as [|c rest]; [done|]. apply Forall_cons in H as [Hc H]. destruct (is_device _ _ _); [by repeat constructor|].
  destruct (_ && _); [|done]. do 3 (constructor; [done|]). by apply take_while_subset.
Qed.

Lemma char_no_nul l : Forall (fun c => is_lower_hex c = true) l -> no_nul (map char_code l).
Proof.
  intros H. apply Forall_map. eapply Forall_impl; [exact H|]. intros c Hc E. unfold is_lower_hex, in_range in Hc. by rewrite E in Hc.
Qed.

Lemma hex_bytes_lower bytes :
  Forall (fun b => 0 <= b < 256) bytes -> Forall (fun c => is_lower_hex c = true) (hex_bytes bytes).
Proof.
  induction 1 as [|b bytes Hb H IH]; [constructor|]. unfold hex_bytes in *. cbn.
  repeat apply Forall_cons_2; [| |exact IH]; apply hex_char_lower; [|apply Z.mod_pos_bound; lia].
  split; [apply Z.div_pos; lia|apply Z.div_lt_upper_bound; lia].
Qed.

Lemma wide_no_nul text :
  forallb (fun c => negb (char_code c =? 0)) (list_ascii_of_string text) = true -> no_nul (wide text).
Proof.
  intros H. apply Forall_map. apply forallb_Forall in H. eapply Forall_impl; [exact H|]. cbn.
  by intros c Hc%negb_true_iff%Z.eqb_neq.
Qed.

Lemma read_variable name value rest :
  no_nul name -> name <> [] -> no_nul value ->
  read_block (name ++ value ++ [0] ++ rest) [] = (name ++ value) :: read_block rest [].
Proof.
  intros Hn Hne Hv. change ([0] ++ rest) with (0 :: rest). rewrite (app_assoc name).
  apply (read_string (name ++ value) rest []); [by apply Forall_app|by destruct name].
Qed.

(** What a worker reads from its environment. *)
Theorem worker_environment_exact system_root random protocol_output :
  u64 protocol_output -> match random with Some bytes => Forall (fun b => 0 <= b < 256) bytes | None => True end ->
  let nonce := random_protocol_nonce random in
  let root := c_string system_root.2 in
  minimal_environment system_root nonce protocol_output <> [] ->
  read_block (minimal_environment system_root nonce protocol_output) [] =
    [wide "SystemRoot=" ++ root; wide "SystemDrive=" ++ root_name root] ++
    (if bool_decide (nonce = []) then []
     else [wide "PRISMINFER_PROTOCOL_NONCE=" ++ map char_code nonce;
           wide "PRISMINFER_PROTOCOL_OUT_HANDLE=" ++ map char_code (to_string protocol_output)]).
Proof.
  intros Hu Hr nonce root. unfold minimal_environment. destruct system_root as [len buffer]. cbn [snd] in root.
  destruct (_ || _); [done|]. intros _. fold root. cbv zeta.
  assert (Hroot : no_nul root) by apply c_string_no_nul.
  assert (Hnonce : no_nul (map char_code nonce)).
  { apply char_no_nul. unfold nonce. destruct random; [by apply hex_bytes_lower|constructor]. }
  assert (Hout : no_nul (map char_code (to_string protocol_output))).
  { apply char_no_nul. destruct (to_string_decimal protocol_output Hu) as (H & _). eapply Forall_impl; [exact H|].
    intros c Hc. unfold is_lower_hex. by rewrite (Hc : in_range 48 57 c = true). }
  rewrite read_variable by (try (by apply wide_no_nul); try apply root_name_no_nul; done).
  rewrite read_variable by (try (by apply wide_no_nul); try apply root_name_no_nul; done).
  destruct nonce as [|c nonce]; [done|]. rewrite <- !app_assoc.
  rewrite bool_decide_eq_false_2 by done.
  rewrite read_variable by (try (by apply wide_no_nul); done). rewrite read_variable by (try (by apply wide_no_nul); done). done.
Qed.

(** ** The output file *)

(** A file is created only under a new random name. *)
Lemma create_attempts_cases attempts files :
  match create_attempts attempts files with
  | (Some a, files') =>
      exists attempt random, attempt ∈ attempts /\ ca_random attempt = Some random /\
        a = mkArtifact (log_name random) true true false /\ log_name random ∉ files /\ files' = {[log_name random]} ∪ files
  | (None, files') =>
      files' = files \/
      exists attempt random, attempt ∈ attempts /\ ca_random attempt = Some random /\
        ca_disposition attempt = false /\ ca_deleted attempt = false /\ files' = {[log_name random]} ∪ files
  end.
Proof.
  induction attempts as [|attempt attempts IH]; cbn [create_attempts]; [by left|].
  destruct (ca_random attempt) as [random|] eqn:Hr; [|by left]. destruct (decide _) as [Hin|Hnew].
  - destruct (create_attempts attempts files) as [[a|] files'].
    + destruct IH as (x & r & Hx & IH). exists x, r. split; [by right|done].
    + destruct IH as [->|(x & r & Hx & IH)]; [by left|]. right. exists x, r. split; [by right|done].
  - destruct (ca_refused attempt); [by left|]. destruct (ca_disposition attempt) eqn:Hd.
    + exists attempt, random. split; [by left|done].
    + destruct (ca_deleted attempt) eqn:Hx; [by left|]. right. exists attempt, random. split; [by left|done].
Qed.

(** The file of a run never replaces another one.  It is there afterwards exactly
    when the run succeeded and it was released, under the name that is reported;
    otherwise the directory is as before, unless the system refused both to
    register the deletion and to delete. *)
Theorem output_file_is_owned attempts ok kept removed files :
  match output_file attempts ok kept removed files with
  | (Some name, files') =>
      ok = true /\ kept = true /\ name ∉ files /\ files' = {[name]} ∪ files /\
      exists attempt random, attempt ∈ take 16 attempts /\ ca_random attempt = Some random /\ name = log_name random
  | (None, files') =>
      files' = files \/
      exists attempt random, attempt ∈ take 16 attempts /\ ca_random attempt = Some random /\
        ca_disposition attempt = false /\ ca_deleted attempt = false /\ files' = {[log_name random]} ∪ files
  end.
Proof.
  pose proof (create_attempts_cases (take 16 attempts) files) as H. unfold output_file, create_opaque_output_artifact.
  destruct (create_attempts _ files) as [[a|] files'].
  - destruct H as (attempt & random & Hin & Hr & -> & Hnew & ->).
    assert (Hgone : ({[log_name random]} ∪ files) ∖ {[log_name random]} = files) by set_solver.
    assert (Hdestroy : destroy_artifact removed (mkArtifact (log_name random) true true false)
                         ({[log_name random]} ∪ files) = files).
    { unfold destroy_artifact, close_handle. cbn [ar_open ar_delete_on_close ar_released ar_path andb negb].
      rewrite Hgone. destruct (_ && removed); [|done]. set_solver. }
    destruct ok; [|left; exact Hdestroy]. unfold release_for_publication. cbn [ar_open negb].
    destruct kept; cbn [negb]; [|left; exact Hdestroy].
    cbn. do 4 (split; [done|]). by exists attempt, random.
  - unfold destroy_artifact, close_handle. cbn. exact H.
Qed.

(** ** A provider that obeys the law

    The stream of [Sha256], its digest taken back to bytes. *)

Fixpoint nibbles (l : list ascii) : list Z :=
  match l with
  | [] => []
  | c :: l => (if is_digit c then char_code c - 48 else char_code c - 87) :: nibbles l
  end.

Fixpoint pairs (l : list Z) : list Z :=
  match l with
  | a :: b :: l => (16 * a + b) :: pairs l
  | _ => []
  end.

#[export] Instance stream_provider : HashProvider := {|
  Hash := Sha256Stream;
  create_hash := Some new_stream;
  hash_data := sha256_update;
  finish_hash h := (fun digest => pairs (nibbles (list_ascii_of_string digest))) <$> sha256_finish h;
|}.

Lemma nibble_hex c :
  is_lower_hex c = true ->
  let n := if is_digit c then char_code c - 48 else char_code c - 87 in 0 <= n < 16 /\ hex_char n = c.
Proof. destruct c as [[] [] [] [] [] [] [] []]; vm_compute; intuition discriminate. Qed.

Lemma hex_of_digits l count :
  length l = (2 * count)%nat -> forallb is_lower_hex l = true -> hex_bytes (pairs (nibbles l)) = l.
Proof.
  revert l; induction count as [|count IH]; intros l Hl H; [by apply nil_length_inv in Hl as ->|].
  destruct l as [|a [|b l]]; cbn in Hl; [lia|lia|]. cbn [forallb] in H. apply andb_prop in H as [Ha H].
  apply andb_prop in H as [Hb H]. destruct (nibble_hex a Ha) as [Ra Ea], (nibble_hex b Hb) as [Rb Eb].
  cbn [nibbles pairs]. unfold hex_bytes. cbn [map List.concat]. fold (hex_bytes (pairs (nibbles l))).
  rewrite IH by (done || lia). unfold hex_byte. cbn [app].
  rewrite (Z.mul_comm 16), Z.div_add_l, Z.div_small, Z.add_0_r by lia.
  rewrite (Z.add_comm (_ * 16)), Z.mod_add, Z.mod_small by lia. by rewrite Ea, Eb.
Qed.

Lemma hash_all_updates chunks s : hash_all s chunks = update_all s chunks.
Proof.
  revert s; induction chunks as [|chunk chunks IH]; intros s; [done|]. rewrite hash_all_cons. cbn [update_all].
  cbn [hash_data stream_provider]. destruct (sha256_update s chunk); [apply IH|done].
Qed.

#[export] Instance stream_provider_law : Sha256Law stream_provider.
Proof.
  intros h0 chunks h digest Hb [= <-] Ha Hf. rewrite hash_all_updates in Ha.
  destruct (update_all_represents chunks new_stream [] new_stream_represents) as [(_ & s & Hs & Hr)|[_ Hs]];
    rewrite Ha in Hs; [|done]. injection Hs as <-. cbn [app] in Hr. cbn [finish_hash stream_provider] in Hf.
  destruct (Z.le_gt_cases (Z.of_nat (length (List.concat chunks))) (u64_max / 8)) as [Hfit|Hbig];
    [rewrite (finish_reference h _ Hr Hfit) in Hf|by rewrite (finish_too_long h _ Hr Hbig) in Hf].
  injection Hf as <-. rewrite <- blocks_digest_fips by done. unfold blocks_digest. cbv zeta.
  match goal with |- context [print_digest ?s] => destruct (print_digest_lower s) as [H1 H2]; set (state := s) in * end.
  rewrite (hex_of_digits _ (4 * length state)); [apply string_of_list_ascii_of_string| |exact H1].
  rewrite <- string_of_list_length, string_of_list_ascii_of_string, H2. lia.
Qed.

(** ** Runs *)

(** A file read in two parts. *)
Example abc_hashed :
  hash_open_file true true true [ReadBytes [97]; ReadBytes [98; 99]; ReadBytes []] =
  Some "ba7816bf8f01cfea414140de5dae2223b00361a396177a9cb410ff61f20015ad"%string.
Proof. vm_compute. reflexivity. Qed.

(** The theorems apply to it. *)
Lemma open_file_hash_is_sha256_witness :
  exists digest, hash_open_file true true true [ReadBytes [97]; ReadBytes [98; 99]; ReadBytes []] = Some digest /\
    digest = Fips180.sha256 [97; 98; 99].
Proof.
  eexists. split; [exact abc_hashed|].
  apply (open_file_hash_is_sha256 true true true [ReadBytes [97]; ReadBytes [98; 99]; ReadBytes []]); [|exact abc_hashed].
  unfold byte. cbn. repeat (apply Forall_cons_2; [lia|]). apply Forall_nil. exact I.
Defined.

Definition sample_root : Z * list Z := (10, wide "C:" ++ [92] ++ wide "Windows" ++ [0; 0]).

Definition sample_random : list Z := [0; 1; 2; 3; 4; 5; 6; 7; 8; 9; 10; 11; 12; 13; 14; 255].

Example sample_environment :
  map (fun l => string_of_list_ascii (map (fun c => ascii_of_N (Z.to_N c)) l))
    (read_block (minimal_environment sample_root (random_protocol_nonce (Some sample_random)) 420) []) =
  ["SystemRoot=C:\Windows"; "SystemDrive=C:"; "PRISMINFER_PROTOCOL_NONCE=000102030405060708090a0b0c0d0eff";
   "PRISMINFER_PROTOCOL_OUT_HANDLE=420"]%string.
Proof. vm_compute. reflexivity. Qed.

(** The first name is taken; the second file is released or removed. *)
Example sample_output_files :
  let attempts := [mkAttempt (Some [1]) false true true; mkAttempt (Some [2]) false true true] in
  let files : gset string := {["prisminfer-01.log"%string]} in
  let result ok := let r := output_file attempts ok true true files in (r.1, elements r.2) in
  result true = (Some "prisminfer-02.log", ["prisminfer-01.log"; "prisminfer-02.log"])%string /\
  result false = (None, ["prisminfer-01.log"])%string.
Proof. vm_compute. split; reflexivity. Qed.

End WorkerFiles.
